(* ===== verification/_CoqProject ===== *)
-Q . S2P
Prelude.v
CLib.v
Utils.v
Hashmap.v
Channels.v
Requests.v
Arrays.v
Lists.v
Prealloc.v
Protocol.v
TaskSchedule.v
Network.v
NetAddress.v
Password.v
FileIO.v
Settings.v
SettingsManager.v
Command.v
Session.v
Server.v
ServerCommands.v
Beside.v
CalmWorld.v
XPQueue.v
HeldCommands.v
HeldInvariant.v
HeldLifecycle.v
HeldSystem.v
Cmhd.v
CmtrTimers.v
Cmtr.v
XPCommands.v
Cmrg.v
CmrgSystem.v
Dataproxy.v
DataproxyLifecycle.v
DatarefSystem.v
Drqv.v
DrqvTiming.v
DrqvValues.v
DrqvReading.v
DrqvResults.v
DrqvCreation.v
DrqvSystem.v
DrqvRoundtrip.v
Drci.v
DrciValues.v
DrciAccess.v
DrciLifecycle.v
DrciRegistration.v
DrciCreation.v
DrciHosting.v
DrciSystem.v
DrciRequests.v
Promises.v
