(* ===== verification/Prelude.v ===== *)
(** * The XPRC server plugin, verified

    XPRC (X-Plane Remote Control) is a plugin of the flight simulator X-Plane: a
    TCP server through which clients read and write datarefs and trigger
    commands. Clients send request lines; every request names a command and the
    channel (four alphanumeric characters) on which the command will answer.
    This development translates the core of the plugin (src/src, in C) to Rocq
    functions, statement by statement, and proves what that core promises.

    ** The program and the files of the development

    The files are listed bottom up; each models the C file(s) named with it under
    the names that the C code uses. A function whose loop or branch has a name of
    its own here (for instance [Network.send_chunk], the body of the loop of
    [run_send_thread]) says so in its comment.

    - [Prelude] ([errors.h]): error codes, machine integers ([wrap_u], [wrap_s]:
      conversion to [w]-bit types), and the monad in which everything stateful
      is written, see below. Tactics and lemmas on lists shared by all.
    - [CLib]: what the code uses of the C standard library (characters, [strlen],
      [strcmp], [strncmp], [strtol], [atoi], number formats of [printf]).
    - [Utils] ([utils.c]): copying, searching and unescaping strings; strict
      parsing of numbers and dates; time stamps.
    - [Hashmap] ([hashmap.c]): the string-keyed hash map, refined to a [gmap].
    - [Channels] ([channels.c]): channel IDs and the two-level channel table,
      refined to a [gmap] from IDs.
    - [Requests] ([requests.c]): the parser of request lines; the grammar it
      accepts is stated separately.
    - [Arrays] ([arrays.c]): growable arrays.
    - [Lists], [Prealloc] ([lists.c]): doubly linked lists with quicksort, and
      preallocated lists with lazy deletion, on a heap of list items, refined to
      sequences.
    - [Protocol] ([protocol.c], [xptypes.h]): data types, numbers and arrays as
      text.
    - [TaskSchedule] ([task_schedule.c]): the tasks that run before and after the
      flight model, with the recursive mutex that serialises them and the
      requests. Queues are preallocated lists.
    - [Network], [NetAddress] ([network.c]): the ring buffer between
      [send_to_network] and the send thread, the receive thread, and IP
      addresses as text.
    - [Password] ([password.c], [random_linux.c]): validation and generation of
      passwords from a random device.
    - [FileIO] ([fileio.c], [fileio_standard.c]): text files, read into and
      written from lists of lines.
    - [Settings] ([settings.c]): the settings of the plugin, their text files and
      their validation.
    - [SettingsManager] ([settings_manager.c]): the settings in use, saved to and
      restored from a directory, password included.
    - [Command] ([command.c], [commands.c]): command descriptors, command
      configurations (feature flags in a hash map) and the command factory.
    - [Session] ([session.c]): a client's session: its lock, its channels, the
      messages on them, its command configurations.
    - [Server] ([server.c]): handshake, dispatch of requests to commands,
      termination, maintenance of channels.
    - [ServerCommands] ([command_srid.c], [command_srlc.c], [command_srfs.c]):
      the three commands that describe and configure the server.
    - [XPQueue] ([xpqueue.c]): the queue through which other threads end
      X-Plane commands; the flight loop flushes it.
    - [HeldCommands], [Cmhd] ([command_cmhd.c]), [CmtrTimers], [Cmtr]
      ([command_cmtr.c]): the commands that hold X-Plane commands. The source
      repeats most of CMHD in CMTR; what they share is in [HeldCommands],
      what CMTR adds to the object are its timers. [Beside] says what the
      operations of the schedule leave alone; [HeldInvariant] and [HeldLifecycle] are
      the invariant of such commands and what creation, termination and
      destruction do to it, for both; [HeldSystem] is the plugin around
      them: a step relation between requests, flight loops, terminations,
      destructions and flushes, in any order.

    - [XPCommands] ([xpcommands.c]), [Cmrg], [CmrgSystem] ([command_cmrg.c]): the
      registry of commands that the plugin creates in X-Plane, the command that
      registers one for a client, and the system of such commands with
      X-Plane's calls of the handler.
    - [Dataproxy], [DataproxyLifecycle], [DatarefSystem] ([dataproxy.c]): the
      registry of datarefs that the plugin hosts: reserving, registering,
      unregistering and dropping of proxies, the accessors that X-Plane calls and
      the accesses from inside of the plugin, with the permissions.
    - [CalmWorld]: the worlds in which no lock fails, for the commands below.
    - [Drqv] ([command_drqv.c]): queries of dataref values. [DrqvTiming] says when a
      query reads, [DrqvReading] and [DrqvValues] what it reads from X-Plane,
      [DrqvResults] what it sends; [DrqvCreation] is its creation from a
      request; [DrqvSystem] is the system around queries, [DrqvRoundtrip]
      the result as the client reads it.
    - [Drci] ([command_drci.c]): datarefs that a client hosts through the registry of
      [Dataproxy]. [DrciValues] says what is stored when a value is written,
      [DrciAccess] what reads and writes of a command do, [DrciLifecycle] is the
      invariant of commands and their proxies and their termination,
      [DrciRegistration] the flight loop, [DrciCreation] the creation from a request,
      [DrciHosting] the accesses through the registry; [DrciSystem] is the system
      around such commands, with maintenance, sessions and X-Plane that access the
      datarefs, and [DrciRequests] the request as a client writes it.
    - [Promises]: what [Server] relies on when it creates a command, for plugins with
      each of the commands CMHD, CMTR, CMRG, DRQV and DRCI.

    How the parts interact: the receive thread ([Network]) cuts the received
    bytes into lines and hands them to [Server.on_line_received]; this runs the
    handshake or parses the line ([Requests]), locks the schedule
    ([TaskSchedule]) and the session ([Session]), and creates a channel
    ([Channels]) and a command for it ([Command], [Session.create_command]). The
    command answers through [confirm_channel], [continue_channel],
    [finish_channel] and [error_channel] of [Session], which put text into the
    ring buffer ([Network.send_to_network]). [Server.maintain_session] removes
    the channels that are done.

    ** The model

    Stateful code is written in the monad [M S A] of [Prelude]: a computation
    takes a state and yields a value and a new state, or [None] where the C code
    has undefined behaviour (an access outside of an array, through a bad
    pointer, a double free). A theorem that says that a computation yields
    [Some] therefore also says that there is no undefined behaviour. What the
    program cannot decide is part of the state: an environment ([env]) of
    answers to allocations, clocks and locks still to come; components that read
    a random device or files have the outcomes of these in their state as well.
    [zmalloc] may fail at every call, and theorems hold whichever calls fail
    unless they say otherwise. Pointers are addresses in maps ([gmap]), so that aliasing is as in
    the code; NULL is [None].

    Components meet at interfaces: a client of [TaskSchedule] supplies lenses that
    satisfy [ScheduleLaws]; [Session] is written against a class [Connection]
    that has the operations of a network connection; [Protocol] uses
    [DataTypes] and [FloatText] for the numbers of the X-Plane SDK and the
    text of floating point numbers, [Drci] uses [NumberConversions] for conversions
    between them; commands are records [command_t] of
    functions on the world of their session, and [Server] proves its theorems
    for all commands whose creation is well-behaved in the states of some invariant
    that the rest of the program keeps ([creations_behave]): the commands of
    [ServerCommands] keep the promise [CommandPromise] in all states, the others that
    of [Promises] in the states that their plugins reach. [HeldSystem] does the same
    for the commands that hold X-Plane commands, with the class [HeldCommand],
    of which [Cmhd] and [Cmtr] have instances. [Dataproxy] is independent of the
    component that supplies the operations of a proxy: their names are a type
    parameter, and running one of them an argument.

    X-Plane is seen through its commands: a parameter [XPLMFindCommand] finds
    them, depending on all calls made before, and the calls [XPLMCommandBegin],
    [XPLMCommandEnd] and [XPLMCommandOnce] are a log. Its datarefs are seen through
    the calls that [Drqv] makes (parameters that may depend on all that was called
    before), the registrations of accessors and of commands are logs as well.

    Integers are [Z] with the conversions the code performs written out. Counters
    that cannot wrap before memory is exhausted (sizes of lists, lengths of
    texts held in memory) are not wrapped; each file says which.

    Loops over data are structural. The others have fuel: quicksort and the
    printing of digits compute enough of it from their input (each partition is
    shorter than its range, a digit takes at least one bit), and walks along the
    links of a list take it as an argument, of which the theorems require
    no more than the length of the list. Running out of fuel is [None], like
    undefined behaviour, so that no theorem can hold by not returning.

    ** What is shown

    - The wire: a request line is parsed to exactly what its grammar says, and
      every request a client forms is parsed back ([parse_request_grammar],
      [request_roundtrip]); lines do not depend on how the bytes arrive
      ([receive_lines]); what is sent arrives once, in order and unmixed
      ([send_stream_integrity], [send_to_network_queues]); messages, arrays and
      types can be read back ([message_roundtrip], [array_roundtrip],
      [types_roundtrip]); addresses are parsed and ordered
      ([ip_address_grammar], [cmp_ip_address_order]).
    - The server: no session is logged in without the password
      ([handshake_safety]), with it it is ([handshake_completes]); every command
      request is answered ([command_request_answered], for all the commands that
      are modelled: [plugins_behave]); every channel follows its
      protocol whatever its command does ([session_follows_protocol]); locks are
      released ([channel_operations_lock] says where they are not).
    - The schedule: tasks run once each, in order, under the lock, even if they take
      themselves off the schedule ([tasks_run_in_order], [scheduling_refines]).
    - X-Plane commands: in every reachable state, whatever failed on the way, as long as
      commands are destroyed only after they were terminated
      ([Cmhd.destroyed_while_scheduled] shows what happens otherwise), each
      [XPLMCommandBegin] is matched by one [XPLMCommandEnd] that was made, is
      queued, or is owed for an entry that is marked as held
      ([held_commands_accounted]); CMHD holds all or none and releases them in
      reverse order ([cmhd_holds_then_releases]), but cannot be terminated
      before it holds them ([Cmhd.cmhd_unheld_remains]); the flight loops of CMTR
      make the calls of its schedule ([cmtr_flightloop_refines],
      [cmtr_flightloops_refine]), which is the requested one
      ([cmtr_options_roundtrip], [cmtr_repeats]), except that repetitions that
      overlap hold once too often ([cmtr_overlapping_repeats]); its loop over
      the intervals ends and its counters stay in range ([cmtr_round_ends]); its termination
      releases everything ([cmtr_termination_releases]).
    - Commands of the plugin: proxies follow their life cycle, and what X-Plane calls
      back is there ([handlers_have_proxies], [invocations_reach_live_commands]);
      a command is offered as the client asked ([command_is_offered]) and tells the
      client about its events ([event_reaches_client]).
    - Datarefs of the plugin: the registry refines a life cycle
      ([datarefs_follow_life_cycle]), X-Plane has the accessors of the registered ones
      ([xplane_has_registered_datarefs]), writes are checked ([dataref_writes_checked]),
      and dropped datarefs read as zero ([dropped_datarefs_are_inert]).
    - Queries: they run safely ([queries_run_safely]), are what the request
      asked for ([query_is_made_as_asked]), read at the flight loops of their schedule
      ([drqv_reads_on_schedule]) the values that X-Plane has and send them
      ([query_values_reach_client]), and the client can read the result
      ([query_result_roundtrip]).
    - Datarefs of clients: hosting them is safe and every registered one is backed by
      a command ([hosted_datarefs_safe]), they are offered to X-Plane as the client
      asked ([dataref_offered_as_asked]), keep what is written to them, in all types
      ([hosted_numbers_kept], [hosted_arrays_kept]), and are named by requests that are
      parsed as they were meant ([drci_parameter_roundtrip]).
    - The settings: text files are read back as written ([text_files]); loading
      never yields settings outside of their ranges, whatever the file contains
      ([load_settings_safe]); what was configured is in effect after a restart
      ([settings_survive_restart]); generated passwords are valid, if the random
      device ever yields one, and drawn without bias ([generated_password_valid],
      [random_ints_uniform]).
    - The data structures refine their specifications ([hashmap_refines_map],
      [channel_table_refines_map], [list_operations_refine],
      [prealloc_operations_refine], [quicksort_sorts], ...).
    - Helpers do what their comments say, or, where they do not, exactly what
      they do ([parse_int_canonical], [unescape_roundtrip],
      [timespec_now_plus_millis_micros], [message_timestamp], [channel_lookup_out_of_bounds]).

    ** Not modelled

    Functions that only free memory; logging (it has no effect on the state);
    sockets, threads and mutexes of the operating system (locks are
    counters that may fail to be taken, the interleaving of the send thread with
    callers is modelled); the X-Plane SDK but for the calls named above; the user
    interface ([gui], which draws with the SDK) and static texts; the managers that
    start and stop the server and keep the license confirmation ([server_manager.c],
    [license_manager.c]) and the entry points of the plugin ([plugin.c]), which connect
    the parts to threads and callbacks of X-Plane; the commands DRMU and DRLS, which
    change and list datarefs. The worlds of the systems have one session each, and
    commands of one kind. The destruction of a session with running commands is
    modelled as far as the session goes, but the theorems on systems of commands do
    not cover it. *)

From Stdlib Require Export ZArith Lia Ascii String.
From stdpp Require Export base tactics option list numbers gmap strings.

#[export] Set Default Goal Selector "!".

Declare Scope xprc_scope.
Delimit Scope xprc_scope with xprc.

#[global] Open Scope Z_scope.

(** * Error codes ([errors.h]) *)

Abbreviation error_t := Z (only parsing).

Definition ERROR_NONE : error_t := 0.
Definition ERROR_UNSPECIFIC : error_t := 1.
Definition ERROR_MEMORY_ALLOCATION : error_t := 2.
Definition ERROR_MUTEX_FAILED : error_t := 3.
Definition ERROR_DESTRUCTION_PENDING : error_t := 4.
Definition ERROR_INCOMPLETE : error_t := 5.
Definition ERROR_MUTEX_TIMEOUT : error_t := 6.
Definition REQUEST_ERROR_BASE : error_t := 10.
Definition NETWORK_ERROR_BASE : error_t := 20.
Definition TASK_SCHEDULE_ERROR_BASE : error_t := 30.
Definition SESSION_ERROR_BASE : error_t := 40.
Definition DATAPROXY_ERROR_BASE : error_t := 50.
Definition SETTINGS_MANAGER_ERROR_BASE : error_t := 60.

(** * Machine integers *)

Definition INT_MIN : Z := - 2 ^ 31.
Definition INT_MAX : Z := 2 ^ 31 - 1.
Definition LONG_MIN : Z := - 2 ^ 63.
Definition LONG_MAX : Z := 2 ^ 63 - 1.
Definition UINT32_MAX : Z := 2 ^ 32 - 1.

(** Conversion to an unsigned, resp. two's complement signed, [w]-bit type. *)
Definition wrap_u (w z : Z) : Z := z mod 2 ^ w.
Definition wrap_s (w z : Z) : Z := (z + 2 ^ (w - 1)) mod 2 ^ w - 2 ^ (w - 1).

Definition in_int (z : Z) : Prop := INT_MIN <= z <= INT_MAX.
Definition in_long (z : Z) : Prop := LONG_MIN <= z <= LONG_MAX.

Lemma wrap_u_range w z : 0 <= w -> 0 <= wrap_u w z < 2 ^ w.
Proof. intros ?. apply Z.mod_pos_bound, Z.pow_pos_nonneg; lia. Qed.

Lemma wrap_u_small w z : 0 <= z < 2 ^ w -> wrap_u w z = z.
Proof. intros ?. by apply Z.mod_small. Qed.

Lemma wrap_s_range w z : 0 < w -> - 2 ^ (w - 1) <= wrap_s w z < 2 ^ (w - 1).
Proof.
  intros ?. unfold wrap_s.
  assert (2 ^ w = 2 * 2 ^ (w - 1)) as E by (rewrite <-Z.pow_succ_r by lia; f_equal; lia).
  pose proof (Z.pow_pos_nonneg 2 (w - 1) ltac:(lia) ltac:(lia)).
  pose proof (Z.mod_pos_bound (z + 2 ^ (w - 1)) (2 ^ w) ltac:(lia)). lia.
Qed.

Lemma wrap_s_small w z : 0 < w -> - 2 ^ (w - 1) <= z < 2 ^ (w - 1) -> wrap_s w z = z.
Proof.
  intros ??. unfold wrap_s.
  assert (2 ^ w = 2 * 2 ^ (w - 1)) as E by (rewrite <-Z.pow_succ_r by lia; f_equal; lia).
  rewrite Z.mod_small by lia. lia.
Qed.

Lemma wrap_s_int z : in_int z -> wrap_s 32 z = z.
Proof. intros [??]. unfold INT_MIN, INT_MAX in *. apply wrap_s_small; simpl; lia. Qed.

Lemma wrap_s_in_int z : in_int (wrap_s 32 z).
Proof.
  pose proof (wrap_s_range 32 z ltac:(lia)) as H. unfold in_int, INT_MIN, INT_MAX.
  change (32 - 1) with 31 in H. lia.
Qed.

(** * The environment of a call: outcomes the program cannot predict *)

(** [env_alloc]: outcomes of the next [malloc] calls ([false] is NULL);
    [env_mtx]: outcomes of the next [mtx_lock] and [mtx_init] calls ([false] is
    [thrd_error]);
    [env_clock]: results of the next [timespec_get] calls. Once a list is used
    up every further [malloc] and [mtx_lock] succeeds and every further
    [timespec_get] fails, so each finite run of the program is covered. *)
Record timespec := mkTimespec { tv_sec : Z; tv_nsec : Z }.

Record env := mkEnv {
  env_alloc : list bool;
  env_mtx : list bool;
  env_clock : list (option timespec);
}.

(** * A state monad with undefined behaviour *)

(** [None] is undefined behaviour (an access outside of an allocated object, a
    call through a NULL pointer); [Some (a, s')] a normal return. *)
Definition M (S A : Type) : Type := S -> option (A * S).

#[export] Instance M_ret S : MRet (M S) := fun A a s => Some (a, s).
#[export] Instance M_bind S : MBind (M S) := fun A B f m s =>
  match m s with Some (a, s') => f a s' | None => None end.

Definition ub {S A} : M S A := fun _ => None.
Definition get {S} : M S S := fun s => Some (s, s).
Definition put {S} (s : S) : M S unit := fun _ => Some (tt, s).
Definition gets {S A} (f : S -> A) : M S A := fun s => Some (f s, s).
Definition modify {S} (f : S -> S) : M S unit := fun s => Some (tt, f s).
Definition when {S} (b : bool) (m : M S unit) : M S unit := if b then m else mret tt.
Definition from_ub {S A} (o : option A) : M S A := fun s => (fun a => (a, s)) <$> o.

(** Runs a computation on a part of a larger state. *)
Definition zoom {S T A} (proj : S -> T) (inj : T -> S -> S) (m : M T A) : M S A :=
  fun s => match m (proj s) with Some (a, t) => Some (a, inj t s) | None => None end.

(** Successive calls for the items of a list, as in a [for] loop. *)
Fixpoint for_each {S A} (f : A -> M S unit) (l : list A) : M S unit :=
  match l with
  | [] => mret tt
  | x :: l' => _ ← f x; for_each f l'
  end.

Definition malloc (size : Z) : M env bool := fun e =>
  match env_alloc e with
  | [] => Some (true, e)
  | b :: bs => Some (b, mkEnv bs (env_mtx e) (env_clock e))
  end.

Definition mtx_lock_result : M env bool := fun e =>
  match env_mtx e with
  | [] => Some (true, e)
  | b :: bs => Some (b, mkEnv (env_alloc e) bs (env_clock e))
  end.

Definition timespec_get : M env (option timespec) := fun e =>
  match env_clock e with
  | [] => Some (None, e)
  | t :: ts => Some (t, mkEnv (env_alloc e) (env_mtx e) ts)
  end.

(** An environment in which every allocation and every lock succeeds. *)
Definition calm : env := mkEnv [] [] [].

(** The outcome of the next allocation, and the environment after it. *)
Definition alloc_next (e : env) : bool := default true (head (env_alloc e)).
Definition alloc_rest (e : env) : env := mkEnv (tail (env_alloc e)) (env_mtx e) (env_clock e).

(** No allocation fails. *)
Definition plenty (e : env) : Prop := Forall (eq true) (env_alloc e).

Lemma plenty_next e : plenty e -> alloc_next e = true.
Proof. unfold alloc_next, plenty. intros H. destruct H as [|b l <- H]; done. Qed.

Lemma plenty_rest e : plenty e -> plenty (alloc_rest e).
Proof. unfold alloc_rest, plenty. simpl. intros H. destruct H as [|b l <- H]; [constructor|done]. Qed.

(** The same for attempts to lock. *)
Definition lock_next (e : env) : bool := default true (head (env_mtx e)).
Definition lock_rest (e : env) : env := mkEnv (env_alloc e) (tail (env_mtx e)) (env_clock e).

(** No attempt to lock fails. *)
Definition lock_succeeds (e : env) : Prop := Forall (eq true) (env_mtx e).

Lemma lock_succeeds_next e : lock_succeeds e -> lock_next e = true.
Proof. unfold lock_next, lock_succeeds. intros H. destruct H as [|b l <- H]; done. Qed.

Lemma lock_succeeds_rest e : lock_succeeds e -> lock_succeeds (lock_rest e).
Proof. unfold lock_rest, lock_succeeds. simpl. intros H. destruct H as [|b l <- H]; [constructor|done]. Qed.

Lemma mtx_lock_result_eq e : mtx_lock_result e = Some (lock_next e, lock_rest e).
Proof. by destruct e as [? [|b bs] ?]. Qed.

Lemma malloc_eq size e : malloc size e = Some (alloc_next e, alloc_rest e).
Proof. by destruct e as [[|b bs] ms ts]. Qed.

(** ** Reasoning about runs *)

(** [m] run from [s] returns normally and its result satisfies [Q]. *)
Definition run {S A} (m : M S A) (s : S) (Q : A -> S -> Prop) : Prop :=
  match m s with Some (a, s') => Q a s' | None => False end.

Lemma run_ret {S A} (a : A) (s : S) (Q : A -> S -> Prop) : run (mret a) s Q <-> Q a s.
Proof. done. Qed.

Lemma run_bind {S A B} (m : M S A) (f : A -> M S B) (s : S) (Q : B -> S -> Prop) :
  run (m ≫= f) s Q <-> run m s (fun a s' => run (f a) s' Q).
Proof. unfold run, mbind, M_bind. by destruct (m s) as [[??]|]. Qed.

Lemma run_mono {S A} (m : M S A) (s : S) (Q Q' : A -> S -> Prop) :
  (forall a s', Q a s' -> Q' a s') -> run m s Q -> run m s Q'.
Proof. unfold run. destruct (m s) as [[??]|]; auto. Qed.

Lemma run_eq {S A} (m : M S A) (s : S) (Q : A -> S -> Prop) a s' :
  m s = Some (a, s') -> run m s Q <-> Q a s'.
Proof. unfold run. by intros ->. Qed.

Lemma run_inv {S A} (m : M S A) (s : S) (Q : A -> S -> Prop) :
  run m s Q -> exists a s', m s = Some (a, s') /\ Q a s'.
Proof. unfold run. destruct (m s) as [[a s']|]; [eauto|done]. Qed.

Lemma bind_eq {S A B} (m : M S A) (f : A -> M S B) (s : S) a s' :
  m s = Some (a, s') -> (m ≫= f) s = f a s'.
Proof. unfold mbind, M_bind. by intros ->. Qed.

Lemma run_zoom {S T A} (proj : S -> T) (inj : T -> S -> S) (m : M T A) s (Q : A -> S -> Prop) :
  run (zoom proj inj m) s Q <-> run m (proj s) (fun a t => Q a (inj t s)).
Proof. unfold run, zoom. by destruct (m (proj s)) as [[??]|]. Qed.

Lemma bind_Some {S A B} (m : M S A) (f : A -> M S B) (s : S) b s'' :
  (m ≫= f) s = Some (b, s'') -> exists a s', m s = Some (a, s') /\ f a s' = Some (b, s'').
Proof. unfold mbind, M_bind. destruct (m s) as [[a s']|]; [eauto|done]. Qed.

(** * Tactics *)

(** Unfolds the monad so that a run computes. *)
Ltac mred :=
  unfold mbind, mret, M_bind, M_ret, when, gets, modify, get, put, from_ub, ub in *;
  cbn beta iota zeta in *.

(** Evaluates boolean connectives of known values and the tests on them. *)
Ltac red_if := cbn [negb orb andb]; cbv beta iota.

(** Case analysis on the innermost [match] of the goal, recording equations. *)
Ltac case_step := case_match; simplify_eq; try done.

(** Turns boolean tests of the code into propositions. *)
Ltac bools :=
  repeat match goal with
  | H : (_ && _) = true |- _ => apply andb_prop in H; destruct H
  | H : (_ || _) = false |- _ => apply orb_false_elim in H; destruct H
  | H : negb _ = true |- _ => apply negb_true_iff in H
  | H : negb _ = false |- _ => apply negb_false_iff in H
  | H : (_ <? _) = true |- _ => apply Z.ltb_lt in H
  | H : (_ <? _) = false |- _ => apply Z.ltb_ge in H
  | H : (_ <=? _) = true |- _ => apply Z.leb_le in H
  | H : (_ <=? _) = false |- _ => apply Z.leb_gt in H
  | H : (_ =? _) = true |- _ => apply Z.eqb_eq in H
  | H : (_ =? _) = false |- _ => apply Z.eqb_neq in H
  | H : bool_decide _ = true |- _ => apply bool_decide_eq_true in H
  | H : bool_decide _ = false |- _ => apply bool_decide_eq_false in H
  end.

(** * Lists *)

Abbreviation len l := (Z.of_nat (length l)).

(** The sublist of [n] items from offset [i] on: what [memcpy] from [&s[i]] reads. *)
Definition slice {A} (i n : Z) (l : list A) : list A := take (Z.to_nat n) (drop (Z.to_nat i) l).

(** Linear arithmetic over lengths of lists. *)
Ltac llia :=
  repeat match goal with
  | H : context [length (_ ++ _)] |- _ => rewrite length_app in H
  | H : context [length (_ :: _)] |- _ => progress cbn [length] in H
  | H : context [length []] |- _ => progress cbn [length] in H
  | |- context [length (_ ++ _)] => rewrite length_app
  | |- context [length (_ :: _)] => progress cbn [length]
  | |- context [length []] => progress cbn [length]
  end; lia.

Create HintDb xprc discriminated.
#[export] Hint Constants Opaque : xprc.

(** * Computations that cannot go wrong *)

(** An environment computation that cannot go wrong. *)
Definition total {A} (m : M env A) : Prop := forall e, is_Some (m e).

Lemma total_ret {A} (a : A) : total (mret a).
Proof. intros e. by eexists. Qed.

Lemma total_bind {A B} (m : M env A) (f : A -> M env B) : total m -> (forall a, total (f a)) -> total (m ≫= f).
Proof. intros Hm Hf e. destruct (Hm e) as [[a e'] E]. erewrite bind_eq by exact E. apply Hf. Qed.

Lemma total_malloc n : total (malloc n).
Proof. intros e. rewrite malloc_eq. by eexists. Qed.

Lemma total_if {A} (b : bool) (m m' : M env A) : total m -> total m' -> total (if b then m else m').
Proof. by destruct b. Qed.

Lemma total_option {A B} (o : option A) (f : A -> M env B) (m : M env B) :
  (forall a, total (f a)) -> total m -> total (match o with Some a => f a | None => m end).
Proof. destruct o; auto. Qed.

(** Proves that the body of a definition is total. *)
Ltac total_step :=
  repeat first
    [ apply total_ret | apply total_malloc | solve [eauto with xprc]
    | apply total_bind; [|intros ?] | apply total_if | apply total_option; [intros ?|]
    | match goal with |- total (let '(_, _) := ?x in _) => destruct x as [??] end ].

#[export] Hint Resolve total_ret total_malloc : xprc.

(** * What a computation leaves alone *)

(** Every run of [m] takes a state to one related to it. *)
Definition respects {S A} (R : S -> S -> Prop) (m : M S A) : Prop := forall s a s', m s = Some (a, s') -> R s s'.

Section Respects.
Context {S : Type} (R : S -> S -> Prop) `{!PreOrder R}.

Lemma respects_ret {A} (a : A) : respects R (mret a).
Proof. intros s a' s' [= _ <-]. reflexivity. Qed.

Lemma respects_ub {A} : respects R (ub (A := A)).
Proof. intros s a' s' [=]. Qed.

Lemma respects_get : respects R get.
Proof. intros s a' s' [= _ <-]. reflexivity. Qed.

Lemma respects_gets {A} (f : S -> A) : respects R (gets f).
Proof. intros s a' s' [= _ <-]. reflexivity. Qed.

Lemma respects_from_ub {A} (o : option A) : respects R (from_ub o).
Proof. intros s a' s'. unfold from_ub. destruct o; simpl; [|done]. intros [= _ <-]. reflexivity. Qed.

Lemma respects_modify (f : S -> S) : (forall s, R s (f s)) -> respects R (modify f).
Proof. intros Hf s a' s' [= _ <-]. apply Hf. Qed.

Lemma respects_bind {A B} (m : M S A) (f : A -> M S B) : respects R m -> (forall a, respects R (f a)) -> respects R (m ≫= f).
Proof.
  intros Hm Hf s b s'' (a & s' & E & E')%bind_Some. transitivity s'; [by eapply Hm|by eapply Hf].
Qed.

Lemma respects_if {A} (b : bool) (m m' : M S A) : respects R m -> respects R m' -> respects R (if b then m else m').
Proof. by destruct b. Qed.

Lemma respects_when (b : bool) (m : M S unit) : respects R m -> respects R (when b m).
Proof. destruct b; [done|]. intros _. apply respects_ret. Qed.

Lemma respects_option {A B} (o : option A) (f : A -> M S B) (m : M S B) :
  (forall a, respects R (f a)) -> respects R m -> respects R (match o with Some a => f a | None => m end).
Proof. destruct o; auto. Qed.

Lemma respects_zoom {T A} (Q : T -> T -> Prop) (proj : S -> T) (inj : T -> S -> S) (m : M T A) :
  (forall s t, Q (proj s) t -> R s (inj t s)) -> respects Q m -> respects R (zoom proj inj m).
Proof.
  intros HR Hm s a s'. unfold zoom. destruct (m (proj s)) as [[a' t]|] eqn:E; [|done]. intros [= <- <-]. eapply HR, Hm, E.
Qed.
End Respects.

Lemma respects_any {S A} (m : M S A) : respects (fun _ _ => True) m.
Proof. by intros s a s' E. Qed.

Lemma respects_run {S A} (R : S -> S -> Prop) (m : M S A) s (Q : A -> S -> Prop) :
  respects R m -> run m s Q -> run m s (fun a s' => Q a s' /\ R s s').
Proof. intros Hm (a & s' & E & HQ)%run_inv. apply (run_eq _ _ _ _ _ E). split; [done|]. by eapply Hm. Qed.

(** Resources do not become scarcer. *)
Definition calmer (e e' : env) : Prop := (plenty e -> plenty e') /\ (lock_succeeds e -> lock_succeeds e').

#[export] Instance calmer_preorder : PreOrder calmer.
Proof. split; [by intros e|]. intros e1 e2 e3 [? ?] [? ?]. split; auto. Qed.

Lemma respects_malloc n : respects calmer (malloc n).
Proof. intros e b e'. rewrite malloc_eq. intros [= _ <-]. split; [apply plenty_rest|done]. Qed.

Lemma respects_mtx_lock_result : respects calmer mtx_lock_result.
Proof. intros e b e'. rewrite mtx_lock_result_eq. intros [= _ <-]. split; [done|apply lock_succeeds_rest]. Qed.

Lemma respects_timespec_get : respects calmer timespec_get.
Proof. intros [? ? [|t ts]] b e'; intros [= _ <-]; by split. Qed.

Create HintDb respects discriminated.

#[export] Hint Resolve respects_malloc respects_mtx_lock_result respects_timespec_get : respects.

(** Follows the structure of a definition. *)
Ltac respects_step :=
  repeat first
    [ apply respects_ret; exact _ | apply respects_gets; exact _ | apply respects_get; exact _
    | apply respects_from_ub; exact _ | apply respects_ub | solve [eauto with respects]
    | apply respects_bind; [exact _| |intros ?] | apply respects_when; [exact _|]
    | apply respects_if | apply respects_option; [intros ?|]
    | match goal with |- respects _ (let '(_, _) := ?x in _) => destruct x as [??] end
    | match goal with |- respects _ (match ?x with _ => _ end) => destruct x end ].

Lemma take_take_le {A} (l : list A) n m : (n <= m)%nat -> take n (take m l) = take n l.
Proof. intros ?. rewrite take_take. f_equal. lia. Qed.

Lemma list_split_at {A} (l : list A) n x :
  l !! n = Some x -> l = take n l ++ x :: drop (S n) l.
Proof. intros H. by rewrite take_drop_middle. Qed.

Lemma filter_none {A} (P : A -> Prop) `{forall x, Decision (P x)} (l : list A) : (forall x, x ∈ l -> ~ P x) -> filter P l = [].
Proof.
  induction l as [|x l IH]; intros H1; [done|].
  rewrite filter_cons_False by (apply H1; left). apply IH. intros y ?. apply H1. by right.
Qed.

Lemma filter_ext_in {A} (P Q : A -> Prop) `{forall x, Decision (P x)} `{forall x, Decision (Q x)} (l : list A) :
  (forall x, x ∈ l -> P x <-> Q x) -> filter P l = filter Q l.
Proof.
  induction l as [|x l IH]; intros HPQ; [done|].
  pose proof (HPQ x ltac:(left)). rewrite !filter_cons, IH by (intros y ?; apply HPQ; by right).
  by do 2 case_decide; try tauto.
Qed.

Lemma length_filter_fmap {A B} (f : A -> B) (P : B -> Prop) (Q : A -> Prop)
    `{forall x, Decision (P x)} `{forall x, Decision (Q x)} (l : list A) :
  (forall x, Q x <-> P (f x)) -> length (filter Q l) = length (filter P (f <$> l)).
Proof.
  intros HQ. induction l as [|x l IH]; [done|]. cbn [fmap list_fmap]. rewrite !filter_cons.
  pose proof (HQ x). do 2 case_decide; simpl; tauto || lia.
Qed.
