(* ===== verification/CLib.v ===== *)
(** The parts of the C standard library the plugin uses: characters, strings,
    [strtol]/[atoi] and the integer conversions of [printf].

    A [cstr] is the sequence of characters a [char*] points to, up to and
    without the terminating NUL; a buffer that need not be terminated is a
    [list ascii] read at explicit offsets. Characters compare as [unsigned
    char]: the range tests of the code are on ASCII characters, for which the
    signedness of [char] makes no difference. *)

From S2P Require Import Prelude.

Abbreviation cstr := (list ascii).

Definition lit (s : string) : cstr := list_ascii_of_string s.

(** The value of a character as an [unsigned char]. *)
Definition code (c : ascii) : Z := Z.of_N (N_of_ascii c).
Definition chr (z : Z) : ascii := ascii_of_N (Z.to_N z).

Definition NUL : ascii := "000"%char.

(** What a string function sees of a character sequence: everything up to the
    first NUL. *)
Fixpoint c_str (s : list ascii) : cstr :=
  match s with
  | [] => []
  | c :: s' => if bool_decide (c = NUL) then [] else c :: c_str s'
  end.

Definition no_nul (s : list ascii) : Prop := NUL ∉ s.

Definition strlen (s : cstr) : Z := len s.
Definition str_eq (a b : cstr) : bool := bool_decide (a = b).

(** [!strncmp(a, b, n)] on terminated strings. *)
Definition strncmp_eq (a b : cstr) (n : Z) : bool :=
  bool_decide (take (Z.to_nat n) a = take (Z.to_nat n) b).

(** [s[i]] of a terminated string; the terminator is read at [i = strlen s]. *)
Definition char_at (s : cstr) (i : Z) : ascii := default NUL (s !! Z.to_nat i).

(** The sign of [strcmp]. *)
Fixpoint strcmp (a b : cstr) : Z :=
  match a, b with
  | [], [] => 0
  | [], _ :: _ => -1
  | _ :: _, [] => 1
  | x :: a', y :: b' =>
      if code x <? code y then -1 else if code y <? code x then 1 else strcmp a' b'
  end.

Definition in_range (lo hi : ascii) (c : ascii) : bool := (code lo <=? code c) && (code c <=? code hi).

Definition is_digit (ch : ascii) : bool := in_range "0" "9" ch.

Definition isspace (c : ascii) : bool := bool_decide (code c ∈ [9; 10; 11; 12; 13; 32]).

(** ** Numbers to text: [%d], [%ld], [%u] and [%02X] *)

Definition digit (d : Z) : ascii := chr (code "0" + d).

Fixpoint print_digits (fuel : nat) (n : Z) : cstr :=
  match fuel with
  | O => []
  | S f => if n <? 10 then [digit n] else print_digits f (n / 10) ++ [digit (n mod 10)]
  end.

(** Enough fuel for the decimal digits of [n]. *)
Definition digit_fuel (n : Z) : nat := S (Z.to_nat (Z.log2 n)).

Definition print_dec (n : Z) : cstr :=
  if n <? 0 then "-"%char :: print_digits (digit_fuel (- n)) (- n)
  else print_digits (digit_fuel n) n.

Definition hex_digit (d : Z) : ascii := if d <? 10 then digit d else chr (code "A" + (d - 10)).
Definition print_02X (n : Z) : cstr := [hex_digit (n / 16); hex_digit (n mod 16)].

(** ** Calendar time: [gmtime] and [strftime] *)

(** [%0nd] for a non-negative number. *)
Definition print_padded (n : nat) (z : Z) : cstr :=
  let s := print_dec z in replicate (n - length s) "0"%char ++ s.

(** Year, month and day of the Gregorian calendar, from the days since
    1970-01-01: eras of 400 years starting on 0000-03-01. *)
Definition civil_of_days (days : Z) : Z * Z * Z :=
  let z := days + 719468 in
  let era := z / 146097 in
  let doe := z mod 146097 in
  let yoe := (doe - doe / 1460 + doe / 36524 - doe / 146096) / 365 in
  let doy := doe - (365 * yoe + yoe / 4 - yoe / 100) in
  let mp := (5 * doy + 2) / 153 in
  let month := if mp <? 10 then mp + 3 else mp - 9 in
  let year := yoe + era * 400 + (if month <=? 2 then 1 else 0) in
  (year, month, doy - (153 * mp + 2) / 5 + 1).

(** [strftime] with format [%Y-%m-%dT%H:%M:%S] of [gmtime], for a time that is
    not negative. [gmtime] returns NULL if the year does not fit an [int]. *)
Definition iso_time (sec : Z) : option cstr :=
  let '(year, month, day) := civil_of_days (sec / 86400) in
  let s := sec mod 86400 in
  if INT_MAX <? year - 1900 then None
  else
    Some (print_dec year ++ lit "-" ++ print_padded 2 month ++ lit "-" ++ print_padded 2 day ++ lit "T"
          ++ print_padded 2 (s / 3600) ++ lit ":" ++ print_padded 2 (s / 60 mod 60) ++ lit ":" ++ print_padded 2 (s mod 60)).

(** ** Text to numbers *)

Fixpoint strip_space (s : cstr) : cstr :=
  match s with
  | c :: s' => if isspace c then strip_space s' else s
  | [] => []
  end.

Fixpoint read_digits (acc : Z) (s : cstr) : Z :=
  match s with
  | c :: s' => if is_digit c then read_digits (acc * 10 + (code c - code "0")) s' else acc
  | [] => acc
  end.

(** The number a decimal prefix denotes; [strtol] saturates it at [long]. *)
Definition decimal_value (s : cstr) : Z :=
  match strip_space s with
  | c :: s' =>
      if bool_decide (c = "-"%char) then - read_digits 0 s'
      else if bool_decide (c = "+"%char) then read_digits 0 s'
      else read_digits 0 (c :: s')
  | [] => 0
  end.

Definition strtol (s : cstr) : Z := Z.max LONG_MIN (Z.min LONG_MAX (decimal_value s)).
Definition atol (s : cstr) : Z := strtol s.
Definition atoll (s : cstr) : Z := strtol s.
(** [(int) strtol(s, NULL, 10)], as the C libraries of the supported targets do. *)
Definition atoi (s : cstr) : Z := wrap_s 32 (strtol s).

(** * Characters *)

Lemma code_range c : 0 <= code c < 256.
Proof. destruct c as [[] [] [] [] [] [] [] []]; vm_compute; split; congruence. Qed.

Lemma chr_code c : chr (code c) = c.
Proof. by destruct c as [[] [] [] [] [] [] [] []]. Qed.

Lemma code_chr z : 0 <= z < 256 -> code (chr z) = z.
Proof.
  intros ?. unfold code, chr. rewrite N_ascii_embedding by lia. lia.
Qed.

Lemma code_inj c d : code c = code d -> c = d.
Proof. intros H. by rewrite <-(chr_code c), H, chr_code. Qed.

#[export] Instance code_injective : Inj (=) (=) code.
Proof. intros ??. apply code_inj. Qed.

Lemma code_digit d : 0 <= d < 10 -> code (digit d) = 48 + d.
Proof. intros ?. unfold digit. change (code "0") with 48. apply code_chr. lia. Qed.

Lemma is_digit_iff c : is_digit c = true <-> 48 <= code c <= 57.
Proof.
  unfold is_digit, in_range. change (code "0") with 48. change (code "9") with 57. lia.
Qed.

Lemma is_digit_digit d : 0 <= d < 10 -> is_digit (digit d) = true.
Proof. intros ?. apply is_digit_iff. rewrite code_digit; lia. Qed.

Lemma digit_of_code c : is_digit c = true -> c = digit (code c - 48).
Proof. rewrite is_digit_iff. intros ?. apply code_inj. rewrite code_digit; lia. Qed.

Lemma is_digit_not_space c : is_digit c = true -> isspace c = false.
Proof.
  rewrite is_digit_iff. intros ?. unfold isspace. apply bool_decide_eq_false_2.
  rewrite !elem_of_cons, elem_of_nil. lia.
Qed.

Lemma is_digit_ne c d : is_digit c = true -> is_digit d = false -> c <> d.
Proof. congruence. Qed.

#[export] Hint Resolve is_digit_digit is_digit_not_space code_range : xprc.

(** * Terminated strings *)

Lemma no_nul_nil : no_nul [].
Proof. apply not_elem_of_nil. Qed.

Lemma no_nul_cons c s : no_nul (c :: s) <-> c <> NUL /\ no_nul s.
Proof. unfold no_nul. rewrite elem_of_cons. intuition congruence. Qed.

Lemma no_nul_app s t : no_nul (s ++ t) <-> no_nul s /\ no_nul t.
Proof. unfold no_nul. rewrite elem_of_app. intuition. Qed.

Lemma no_nul_take n s : no_nul s -> no_nul (take n s).
Proof. intros H (i & Hi & _)%elem_of_take. by eapply H, list_elem_of_lookup_2. Qed.

Lemma no_nul_drop n s : no_nul s -> no_nul (drop n s).
Proof. intros H. rewrite <-(take_drop n s) in H. by apply no_nul_app in H as [??]. Qed.

Lemma c_str_no_nul s : no_nul (c_str s).
Proof.
  induction s as [|c s IH]; simpl; [apply no_nul_nil|].
  case_bool_decide; [apply no_nul_nil|]. by apply no_nul_cons.
Qed.

Lemma c_str_id s : no_nul s -> c_str s = s.
Proof.
  induction s as [|c s IH]; simpl; [done|]. intros [??]%no_nul_cons.
  rewrite bool_decide_eq_false_2 by done. by rewrite IH.
Qed.

Lemma c_str_prefix s : exists t, s = c_str s ++ t.
Proof.
  induction s as [|c s [t IH]]; simpl; [by exists []|].
  case_bool_decide; [by eexists|]. exists t. simpl. by f_equal.
Qed.

Lemma c_str_app_nul s t : no_nul s -> c_str (s ++ NUL :: t) = s.
Proof.
  induction s as [|c s IH]; simpl; [done|]. intros [??]%no_nul_cons.
  rewrite bool_decide_eq_false_2 by done. by rewrite IH.
Qed.

Lemma str_eq_true a b : str_eq a b = true <-> a = b.
Proof. apply bool_decide_eq_true. Qed.

Lemma str_eq_refl a : str_eq a a = true.
Proof. by apply str_eq_true. Qed.

Lemma str_eq_false a b : str_eq a b = false <-> a <> b.
Proof. apply bool_decide_eq_false. Qed.

Lemma char_at_lookup s i c : 0 <= i -> s !! Z.to_nat i = Some c -> char_at s i = c.
Proof. intros _ H. unfold char_at. by rewrite H. Qed.

#[export] Hint Resolve no_nul_nil c_str_no_nul no_nul_take no_nul_drop : xprc.

(** ** [strcmp] orders strings *)

Lemma strcmp_refl a : strcmp a a = 0.
Proof. induction a as [|x a IH]; simpl; [done|]. by rewrite !Z.ltb_irrefl. Qed.

Lemma strcmp_eq a b : strcmp a b = 0 <-> a = b.
Proof.
  split; [|intros ->; apply strcmp_refl].
  revert b. induction a as [|x a IH]; intros [|y b]; simpl; [done..|].
  destruct (Z.ltb_spec (code x) (code y)); [done|].
  destruct (Z.ltb_spec (code y) (code x)); [done|].
  intros ->%IH. f_equal. apply code_inj. lia.
Qed.

Lemma strcmp_antisym a b : strcmp b a = - strcmp a b.
Proof.
  revert b. induction a as [|x a IH]; intros [|y b]; simpl; [done..|].
  destruct (Z.ltb_spec (code x) (code y)), (Z.ltb_spec (code y) (code x)); lia || apply IH.
Qed.

Lemma strcmp_trans a b c : strcmp a b <= 0 -> strcmp b c <= 0 -> strcmp a c <= 0.
Proof.
  revert b c. induction a as [|x a IH]; intros [|y b] [|z c]; simpl; try lia.
  destruct (Z.ltb_spec (code x) (code y)), (Z.ltb_spec (code y) (code x)); try lia;
  destruct (Z.ltb_spec (code y) (code z)), (Z.ltb_spec (code z) (code y)); try lia;
  destruct (Z.ltb_spec (code x) (code z)), (Z.ltb_spec (code z) (code x)); try lia.
  by apply IH.
Qed.

(** * Decimal numbers *)

Lemma digit_fuel_bound n : 0 <= n -> n < 2 ^ Z.of_nat (digit_fuel n).
Proof.
  intros Hn. unfold digit_fuel.
  destruct (Z.eq_dec n 0) as [->|]; [done|].
  rewrite Nat2Z.inj_succ, Z2Nat.id by apply Z.log2_nonneg.
  apply Z.log2_spec. lia.
Qed.

Lemma read_digits_print f n acc t :
  0 <= n < 2 ^ Z.of_nat f ->
  read_digits acc (print_digits f n ++ t) =
  read_digits (acc * 10 ^ len (print_digits f n) + n) t.
Proof.
  revert n acc t. induction f as [|f IH]; intros n acc t Hn.
  { simpl in *. f_equal. lia. }
  rewrite Nat2Z.inj_succ, Z.pow_succ_r in Hn by lia. simpl.
  destruct (Z.ltb_spec n 10).
  - simpl. rewrite is_digit_digit, code_digit by lia. f_equal. change (code "0") with 48. lia.
  - rewrite <-app_assoc, IH by (split; [apply Z.div_pos|apply Z.div_lt_upper_bound]; lia).
    simpl. pose proof (Z.mod_pos_bound n 10 ltac:(lia)).
    rewrite is_digit_digit, code_digit by lia. f_equal. change (code "0") with 48.
    rewrite length_app, Nat2Z.inj_add, Z.pow_add_r by lia. simpl (len [_]).
    pose proof (Z.div_mod n 10 ltac:(lia)). lia.
Qed.

Lemma print_digits_digit f n c : 0 <= n -> c ∈ print_digits f n -> is_digit c = true.
Proof.
  revert n. induction f as [|f IH]; intros n Hn; simpl; [by intros ?%elem_of_nil|].
  destruct (Z.ltb_spec n 10).
  - intros ->%list_elem_of_singleton. apply is_digit_digit. lia.
  - rewrite elem_of_app, list_elem_of_singleton. intros [? | ->].
    + eapply IH; [|done]. by apply Z.div_pos; lia.
    + apply is_digit_digit, Z.mod_pos_bound. lia.
Qed.

Lemma print_digits_nonempty f n : print_digits (S f) n <> [].
Proof. simpl. destruct (n <? 10); [done|]. by intros [??]%app_eq_nil. Qed.

Lemma print_dec_neg n : n < 0 -> print_dec n = "-"%char :: print_dec (- n).
Proof. intros ?. unfold print_dec. rewrite (proj2 (Z.ltb_lt _ _)), (proj2 (Z.ltb_ge _ _)); [done|lia..]. Qed.

Lemma print_dec_pos n : 0 <= n -> print_dec n = print_digits (digit_fuel n) n.
Proof. intros ?. unfold print_dec. by rewrite (proj2 (Z.ltb_ge _ _)) by lia. Qed.

Lemma print_dec_digit n c : 0 <= n -> c ∈ print_dec n -> is_digit c = true.
Proof. intros ?. rewrite print_dec_pos by done. by apply print_digits_digit. Qed.

Lemma print_dec_char n c : c ∈ print_dec n -> c = "-"%char \/ is_digit c = true.
Proof.
  destruct (Z.le_gt_cases 0 n); [eauto using print_dec_digit|].
  rewrite print_dec_neg by done. intros [->|Hc]%elem_of_cons; [by left|right].
  eapply print_dec_digit; [|done]. lia.
Qed.

Lemma print_dec_cons n : 0 <= n -> exists c s, print_dec n = c :: s /\ is_digit c = true.
Proof.
  intros Hn. pose proof (print_dec_digit n) as H.
  destruct (print_dec n) as [|c s] eqn:E.
  - rewrite print_dec_pos in E by done. by apply print_digits_nonempty in E.
  - exists c, s. split; [done|]. apply H; [done|]. apply list_elem_of_here.
Qed.

Lemma print_dec_nonempty n : print_dec n <> [].
Proof.
  destruct (Z.le_gt_cases 0 n).
  - by destruct (print_dec_cons n) as (c & s & -> & _).
  - by rewrite print_dec_neg.
Qed.

Lemma print_dec_no_nul n : no_nul (print_dec n).
Proof. intros [? | ?]%print_dec_char; done. Qed.

Lemma digit_not_sign c : is_digit c = true -> c <> "-"%char /\ c <> "+"%char.
Proof. intros ?. split; by intros ->. Qed.

Lemma read_digits_print_dec n t :
  0 <= n -> read_digits 0 (print_dec n ++ t) = read_digits n t.
Proof.
  intros ?. rewrite print_dec_pos, read_digits_print by eauto using digit_fuel_bound. done.
Qed.

Lemma decimal_value_digit c s : is_digit c = true -> decimal_value (c :: s) = read_digits 0 (c :: s).
Proof.
  intros Hc. unfold decimal_value, strip_space. rewrite is_digit_not_space by done.
  destruct (digit_not_sign c Hc). by rewrite !bool_decide_eq_false_2.
Qed.

Lemma decimal_value_print n t :
  (forall c s, t = c :: s -> is_digit c = false) -> decimal_value (print_dec n ++ t) = n.
Proof.
  intros Ht.
  assert (forall m, read_digits m t = m) as Hread.
  { intros m. destruct t as [|c t']; simpl; [done|]. by rewrite (Ht c t'). }
  destruct (Z.le_gt_cases 0 n) as [Hn|Hn].
  - destruct (print_dec_cons n Hn) as (c & s & E & Hc).
    transitivity (read_digits 0 (print_dec n ++ t)).
    + rewrite E. by apply decimal_value_digit.
    + by rewrite read_digits_print_dec, Hread.
  - rewrite print_dec_neg by done. unfold decimal_value. simpl.
    rewrite read_digits_print_dec, Hread by lia. lia.
Qed.

Lemma strtol_print n t :
  (forall c s, t = c :: s -> is_digit c = false) -> in_long n -> strtol (print_dec n ++ t) = n.
Proof. intros ? [??]. unfold strtol. rewrite decimal_value_print by done. lia. Qed.

Lemma in_int_long n : in_int n -> in_long n.
Proof. unfold in_int, in_long, INT_MIN, INT_MAX, LONG_MIN, LONG_MAX. simpl. lia. Qed.

Lemma atoi_print n : in_int n -> atoi (print_dec n) = n.
Proof.
  intros ?. unfold atoi. rewrite <-(app_nil_r (print_dec n)).
  rewrite strtol_print by (done || by apply in_int_long). by apply wrap_s_int.
Qed.

Lemma atol_print n : in_long n -> atol (print_dec n) = n.
Proof. intros ?. unfold atol. rewrite <-(app_nil_r (print_dec n)). by apply strtol_print. Qed.

Lemma strtol_in_long s : in_long (strtol s).
Proof. unfold strtol, in_long, LONG_MIN, LONG_MAX. lia. Qed.

Lemma print_dec_inj n m : print_dec n = print_dec m -> n = m.
Proof.
  intros H. rewrite <-(decimal_value_print n []), <-(decimal_value_print m []) by done.
  by rewrite H.
Qed.

(** The length of a number in digits. *)
Lemma print_digits_length f n :
  0 < n < 2 ^ Z.of_nat f ->
  10 ^ (len (print_digits f n) - 1) <= n < 10 ^ len (print_digits f n).
Proof.
  revert n. induction f as [|f IH]; intros n Hn; [simpl in Hn; lia|].
  rewrite Nat2Z.inj_succ, Z.pow_succ_r in Hn by lia. simpl.
  destruct (Z.ltb_spec n 10); [simpl; lia|].
  rewrite length_app, Nat2Z.inj_add. simpl (len [_]).
  assert (0 < n / 10) as Hp by (apply Z.div_str_pos; lia).
  destruct (IH (n / 10)) as [IH1 IH2]; [split; [lia|apply Z.div_lt_upper_bound; lia]|].
  assert (1 <= len (print_digits f (n / 10))) as Hl.
  { destruct (print_digits f (n / 10)) eqn:E; simpl in *; lia. }
  revert IH1 IH2 Hl. generalize (len (print_digits f (n / 10))). intros k ???.
    replace (k + Z.of_nat 1 - 1) with (Z.succ (k - 1)) by lia. rewrite Z.pow_succ_r by lia.
  change (k + Z.of_nat 1) with (Z.succ k). rewrite Z.pow_succ_r by lia.
  pose proof (Z.div_mod n 10 ltac:(lia)). pose proof (Z.mod_pos_bound n 10 ltac:(lia)). lia.
Qed.

Lemma print_dec_length n :
  0 < n -> 10 ^ (strlen (print_dec n) - 1) <= n < 10 ^ strlen (print_dec n).
Proof.
  intros ?. rewrite print_dec_pos by lia. apply print_digits_length.
  split; [done|]. apply digit_fuel_bound. lia.
Qed.

Lemma pow10_unique k k' n :
  1 <= k -> 1 <= k' -> 10 ^ (k - 1) <= n < 10 ^ k -> 10 ^ (k' - 1) <= n < 10 ^ k' -> k = k'.
Proof.
  intros ?? [??] [??].
  assert (k - 1 < k') by (apply (Z.pow_lt_mono_r_iff 10); lia).
  assert (k' - 1 < k) by (apply (Z.pow_lt_mono_r_iff 10); lia). lia.
Qed.

Lemma strlen_print_dec_pos n : 1 <= strlen (print_dec n).
Proof. unfold strlen. pose proof (print_dec_nonempty n). destruct (print_dec n); simpl in *; [done|lia]. Qed.

Lemma print_dec_length_div10 n :
  10 <= n -> strlen (print_dec n) = strlen (print_dec (n / 10)) + 1.
Proof.
  intros ?. assert (0 < n / 10) by (apply Z.div_str_pos; lia).
  pose proof (print_dec_length n ltac:(lia)) as H1.
  pose proof (print_dec_length (n / 10) ltac:(lia)) as H2.
  pose proof (strlen_print_dec_pos n). pose proof (strlen_print_dec_pos (n / 10)).
  apply (pow10_unique _ _ n); [lia..|]. rewrite Z.add_simpl_r.
  change (strlen (print_dec (n / 10)) + 1) with (Z.succ (strlen (print_dec (n / 10)))).
  rewrite Z.pow_succ_r by lia.
  replace (strlen (print_dec (n / 10))) with (Z.succ (strlen (print_dec (n / 10)) - 1)) in |- * at 1 by lia.
  rewrite Z.pow_succ_r by lia.
  pose proof (Z.div_mod n 10 ltac:(lia)). pose proof (Z.mod_pos_bound n 10 ltac:(lia)). lia.
Qed.

Lemma print_dec_small n : 0 <= n < 10 -> print_dec n = [digit n].
Proof.
  intros ?. rewrite print_dec_pos by lia. unfold digit_fuel. simpl.
  by rewrite (proj2 (Z.ltb_lt _ _)) by lia.
Qed.

(** * Splitting text at separators *)

(** The text before the first [sep] and, if there is one, the text after it. *)
Fixpoint cut (sep : ascii) (s : cstr) : cstr * option cstr :=
  match s with
  | [] => ([], None)
  | c :: s' =>
      if bool_decide (c = sep) then ([], Some s')
      else let '(a, b) := cut sep s' in (c :: a, b)
  end.

(** The fields between separators; a text without separator is one field. *)
Fixpoint split_on (sep : ascii) (s : cstr) : list cstr :=
  match s with
  | [] => [[]]
  | c :: s' =>
      if bool_decide (c = sep) then [] :: split_on sep s'
      else match split_on sep s' with
           | x :: xs => (c :: x) :: xs
           | [] => [[c]]
           end
  end.

Lemma cut_none sep s : sep ∉ s -> cut sep s = (s, None).
Proof.
  induction s as [|c s IH]; simpl; [done|]. intros [??]%not_elem_of_cons.
  by rewrite bool_decide_eq_false_2, IH by done.
Qed.

Lemma cut_app sep s t : sep ∉ s -> cut sep (s ++ sep :: t) = (s, Some t).
Proof.
  induction s as [|c s IH]; simpl; [by rewrite bool_decide_eq_true_2|].
  intros [??]%not_elem_of_cons. by rewrite bool_decide_eq_false_2, IH by done.
Qed.

Lemma split_on_none sep s : sep ∉ s -> split_on sep s = [s].
Proof.
  induction s as [|c s IH]; simpl; [done|]. intros [??]%not_elem_of_cons.
  by rewrite bool_decide_eq_false_2, IH by done.
Qed.

Lemma split_on_app sep s t : sep ∉ s -> split_on sep (s ++ sep :: t) = s :: split_on sep t.
Proof.
  induction s as [|c s IH]; simpl; [by rewrite bool_decide_eq_true_2|].
  intros [??]%not_elem_of_cons. by rewrite bool_decide_eq_false_2, IH by done.
Qed.

Lemma split_on_nonempty sep s : split_on sep s <> [].
Proof. destruct s as [|c s]; simpl; [done|]. case_bool_decide; [done|]. by destruct (split_on sep s). Qed.

Lemma split_on_cut sep s :
  split_on sep s = match cut sep s with (a, None) => [a] | (a, Some b) => a :: split_on sep b end.
Proof.
  induction s as [|c s IH]; simpl; [done|]. case_bool_decide; [done|]. rewrite IH. by destruct (cut sep s) as [a [b|]].
Qed.

Lemma cut_spec sep s : match cut sep s with (a, None) => a = s | (a, Some b) => s = a ++ sep :: b end.
Proof.
  induction s as [|c s IH]; simpl; [done|]. case_bool_decide as Hc; [by subst|].
  destruct (cut sep s) as [a [b|]]; simpl; by rewrite IH.
Qed.

Lemma cut_no_sep sep s : sep ∉ (cut sep s).1.
Proof.
  induction s as [|c s IH]; simpl; [apply not_elem_of_nil|]. case_bool_decide; [apply not_elem_of_nil|].
  destruct (cut sep s) as [a b]. simpl in *. apply not_elem_of_cons. by split.
Qed.

(** Fields with separators between them. *)
Fixpoint join (sep : ascii) (l : list cstr) : cstr :=
  match l with
  | [] => []
  | [s] => s
  | s :: l' => s ++ sep :: join sep l'
  end.

Lemma join_cons sep s l : l <> [] -> join sep (s :: l) = s ++ sep :: join sep l.
Proof. by destruct l. Qed.

Lemma split_on_join sep l : l <> [] -> Forall (fun s => sep ∉ s) l -> split_on sep (join sep l) = l.
Proof.
  intros Hl H. induction H as [|s l Hs H IH]; [done|].
  destruct l as [|s' l]; [by apply split_on_none|].
  rewrite join_cons, split_on_app, IH by done. done.
Qed.

Lemma join_split_on sep s : join sep (split_on sep s) = s.
Proof.
  induction s as [|c s IH]; [done|]. cbn [split_on]. pose proof (split_on_nonempty sep s) as Hne. case_bool_decide.
  - subst. rewrite join_cons by done. by rewrite IH.
  - destruct (split_on sep s) as [|x xs]; [done|]. destruct xs as [|y xs]; simpl in *; by rewrite IH.
Qed.

Lemma join_elem_of sep l c : c ∈ join sep l -> c = sep \/ exists s, s ∈ l /\ c ∈ s.
Proof.
  induction l as [|s l IH]; simpl; [by intros ?%elem_of_nil|].
  destruct l as [|s' l]; [intros; right; exists s; split; [left|done]|].
  rewrite elem_of_app, elem_of_cons. intros [? | [-> | [-> | (t & ? & ?)]%IH]]; [|by left..|].
  - right. exists s. split; [left|done].
  - right. exists t. split; [by right|done].
Qed.

Lemma c_str_app_prefix s t : no_nul s -> exists t', c_str (s ++ t) = s ++ t'.
Proof.
  induction s as [|c s IH]; intros Hn; [by eexists|]. apply no_nul_cons in Hn as [Hc Hn].
  destruct (IH Hn) as [t' E]. exists t'. simpl. rewrite bool_decide_eq_false_2 by done. by rewrite E.
Qed.

(** ** Lengths of printed numbers and times *)

Lemma print_dec_length_le (k : nat) n : 0 <= n < 10 ^ Z.of_nat k -> (0 < k)%nat -> len (print_dec n) <= Z.of_nat k.
Proof.
  revert n. induction k as [|k IH]; intros n Hn Hk; [lia|].
  rewrite Nat2Z.inj_succ, Z.pow_succ_r in Hn by lia.
  destruct (Z.lt_ge_cases n 10); [rewrite print_dec_small by lia; simpl; lia|].
  change (strlen (print_dec n) <= Z.of_nat (S k)). rewrite print_dec_length_div10 by lia. unfold strlen. destruct k as [|k]; [simpl in Hn; lia|].
  assert (0 <= n / 10 < 10 ^ Z.of_nat (S k)) by (split; [apply Z.div_pos; lia|apply Z.div_lt_upper_bound; lia]).
  pose proof (IH (n / 10) ltac:(done) ltac:(lia)). lia.
Qed.

Lemma print_padded_length (k : nat) z : 0 <= z < 10 ^ Z.of_nat k -> (0 < k)%nat -> len (print_padded k z) = Z.of_nat k.
Proof.
  intros Hz Hk. pose proof (print_dec_length_le k z Hz Hk). unfold print_padded.
  rewrite length_app, length_replicate. lia.
Qed.

Lemma civil_of_days_range days :
  0 <= days ->
  let '(year, month, day) := civil_of_days days in
  0 <= year <= days / 146097 * 400 + 2800 /\ 1 <= month <= 12 /\ 1 <= day <= 31.
Proof.
  intros Hd. unfold civil_of_days. set (z := days + 719468).
  pose proof (Z.mod_pos_bound z 146097 ltac:(lia)) as Hdoe.
  set (doe := z mod 146097) in *. set (yoe := _ / 365).
  assert (0 <= yoe <= 399) as Hyoe by (unfold yoe; clear -Hdoe; Z.div_mod_to_equations; lia).
  set (doy := doe - _).
  assert (0 <= doy <= 365) as Hdoy by (unfold doy, yoe; clear -Hdoe; Z.div_mod_to_equations; lia).
  set (mp := (5 * doy + 2) / 153). set (day := _ + 1).
  assert (0 <= mp <= 11) as Hmp by (unfold mp; clear -Hdoy; Z.div_mod_to_equations; lia).
  assert (1 <= day <= 31) as Hday by (unfold day, mp; clear -Hdoy; Z.div_mod_to_equations; lia).
  assert (0 <= z / 146097 <= days / 146097 + 5).
  { unfold z. split; [apply Z.div_pos; lia|]. rewrite <-Z.div_add by lia. apply Z.div_le_mono; lia. }
  split; [|split; [destruct (mp <? 10) eqn:?; bools; lia|lia]].
  destruct (_ <=? 2); lia.
Qed.

(** Times of the next 8000 years have at most 20 characters. *)
Lemma iso_time_length sec :
  0 <= sec < 253402300800 -> exists time, iso_time sec = Some time /\ len time <= 20.
Proof.
  intros Hs. assert (0 <= sec / 86400 < 2932897) as Hd by (split; [apply Z.div_pos; lia|apply Z.div_lt_upper_bound; lia]).
  pose proof (civil_of_days_range (sec / 86400) ltac:(lia)) as Hc. unfold iso_time.
  destruct (civil_of_days _) as [[year month] day]. destruct Hc as (Hy & Hm & Hday).
  assert (sec / 86400 / 146097 <= 20) by (apply Z.lt_succ_r, Z.div_lt_upper_bound; lia).
  rewrite (proj2 (Z.ltb_ge _ _)) by (unfold INT_MAX; lia). eexists. split; [reflexivity|].
  pose proof (Z.mod_pos_bound sec 86400 ltac:(lia)). set (s := sec mod 86400) in *.
  assert (0 <= s / 3600 < 24) by (split; [apply Z.div_pos; lia|apply Z.div_lt_upper_bound; lia]).
  pose proof (Z.mod_pos_bound (s / 60) 60 ltac:(lia)). pose proof (Z.mod_pos_bound s 60 ltac:(lia)).
  pose proof (print_dec_length_le 5 year ltac:(lia) ltac:(lia)).
  rewrite !length_app, !Nat2Z.inj_add, !print_padded_length by lia. simpl. lia.
Qed.
