(* ===== verification/Utils.v ===== *)
(** Helper functions ([utils.c]): searching and copying strings with escape
    characters, strict number and date parsing, time stamps.

    Pointers that the code tests against NULL are [option]s. A function that
    writes its result through a [dest] pointer and returns a success flag
    returns [Some v] for "true, with [*dest = v]" and [None] for "false, with
    [*dest] unmodified". *)

From S2P Require Import Prelude CLib.

Definition ESCAPE_CHAR : ascii := chr 92.

(** * Allocation and copies *)

(** [zmalloc]: NULL for a zero size, otherwise as [malloc]. *)
Definition zmalloc (size : Z) : M env bool :=
  if size =? 0 then mret false else malloc size.

(** [copy_memory]: the copy is the first [size] items of the source. *)
Definition copy_memory {A} (src : option (list A)) (size : Z) : M env (option (list A)) :=
  match src with
  | None => mret None
  | Some src =>
      if size <=? 0 then mret None
      else ok ← malloc size; mret (if ok : bool then Some (slice 0 size src) else None)
  end.

(** [copy_partial_string] ignores terminators while copying; what users of the
    terminated copy see ends at the first NUL all the same. *)
Definition copy_partial_string (s : option (list ascii)) (length : Z) : M env (option cstr) :=
  match s with
  | None => mret None
  | Some s =>
      ok ← malloc (length + 1);
      mret (if ok : bool then Some (c_str (slice 0 length s)) else None)
  end.

Definition copy_string (s : option cstr) : M env (option cstr) :=
  match s with
  | None => mret None
  | Some s => copy_partial_string (Some s) (strlen s)
  end.

(** The loop of [copy_partial_unescaped_string]: characters copied and whether
    an escape character is left open. *)
Fixpoint unescape_loop (previous_was_escaped : bool) (s : list ascii) : list ascii * bool :=
  match s with
  | [] => ([], previous_was_escaped)
  | ch :: s' =>
      if previous_was_escaped then
        let '(copy, opened) := unescape_loop false s' in (ch :: copy, opened)
      else if bool_decide (ch = ESCAPE_CHAR) then unescape_loop true s'
      else let '(copy, opened) := unescape_loop false s' in (ch :: copy, opened)
  end.

Definition copy_partial_unescaped_string (s : option (list ascii)) (max_length : Z) : M env (option cstr) :=
  match s with
  | None => mret None
  | Some s =>
      ok ← zmalloc (max_length + 1);
      if ok : bool then
        let '(copy, opened) := unescape_loop false (slice 0 max_length s) in
        mret (if opened : bool then None else Some (c_str copy))
      else mret None
  end.

Definition copy_unescaped_string (s : option cstr) : M env (option cstr) :=
  match s with
  | None => mret None
  | Some s => copy_partial_unescaped_string (Some s) (strlen s)
  end.

(** [dynamic_sprintf] and [dynamic_vsprintf] on the text the format produces. *)
Definition dynamic_sprintf (formatted : cstr) : M env (option cstr) :=
  let required_size := strlen formatted in
  if required_size <? 1 then mret None
  else ok ← zmalloc (required_size + 1); mret (if ok : bool then Some formatted else None).

(** * Searching *)

Definition ends_with (haystack needle : option cstr) : bool :=
  match haystack, needle with
  | Some haystack, Some needle =>
      let haystack_len := strlen haystack in
      let needle_len := strlen needle in
      if haystack_len <? needle_len then false
      else strncmp_eq (drop (Z.to_nat (haystack_len - needle_len)) haystack) needle needle_len
  | _, _ => false
  end.

(** One iteration of the loop of [is_escaped]. *)
Definition escape_step (is_escaped : bool) (ch : ascii) : bool :=
  if is_escaped then false else bool_decide (ch = ESCAPE_CHAR).

Definition is_escaped (s : cstr) (pos : Z) : bool :=
  if pos <? 1 then false else foldl escape_step false (take (Z.to_nat pos) s).

Definition match_at (haystack needle : cstr) (i : Z) : bool :=
  strncmp_eq (drop (Z.to_nat i) haystack) needle (strlen needle).

(** [n] iterations of the search loop, from offset [i]. *)
Fixpoint strpos_loop (n : nat) (haystack needle : cstr) (i : Z) (skip_escapes : bool) : Z :=
  match n with
  | O => -1
  | S n' =>
      if match_at haystack needle i then
        if skip_escapes && is_escaped haystack i
        then strpos_loop n' haystack needle (i + 1) skip_escapes
        else i
      else strpos_loop n' haystack needle (i + 1) skip_escapes
  end.

Definition _strpos (haystack needle : option cstr) (start : Z) (skip_escapes : bool) : Z :=
  match haystack, needle with
  | Some haystack, Some needle =>
      let haystack_len := strlen haystack in
      let needle_len := strlen needle in
      if haystack_len <? needle_len then -1
      else
        let start := if start <? 0 then start + haystack_len else start in
        if (start <? 0) || (haystack_len <=? start) then -1
        else
          let max_offset := haystack_len - needle_len in
          strpos_loop (Z.to_nat (max_offset - start + 1)) haystack needle start skip_escapes
  | _, _ => -1
  end.

Definition strpos (haystack needle : option cstr) (start : Z) : Z :=
  _strpos haystack needle start false.

Definition strpos_unescaped (haystack : option cstr) (needle : cstr) (start : Z) : Z :=
  if negb (strlen needle =? 1) || bool_decide (char_at needle 0 = ESCAPE_CHAR) then -2
  else _strpos haystack (Some needle) start true.

Definition count_chars (s : option (list ascii)) (needle : ascii) (length : Z) : Z :=
  match s with
  | None => 0
  | Some s =>
      if length <=? 0 then 0
      else len (filter (fun c => c = needle) (c_str (slice 0 length s)))
  end.

(** * Numbers *)

(** [while (value > 0) { value /= 10; digits++; }] *)
Fixpoint num_digits_loop (fuel : nat) (value digits : Z) : Z :=
  match fuel with
  | O => digits
  | S f => if 0 <? value then num_digits_loop f (Z.quot value 10) (digits + 1) else digits
  end.

(** The negation wraps for [INT_MIN] (undefined in ISO C; the supported
    compilers keep the two's complement value). An [int] has at most 10 digits. *)
Definition num_digits (value : Z) : Z :=
  if value =? 0 then 1
  else
    let value := if value <? 0 then wrap_s 32 (- value) else value in
    num_digits_loop 10 value 0.

(** The common body of [parse_int], [parse_long] and [parse_longlong]: convert,
    print again and accept only if the text is the one given. *)
Definition parse_verified (parse : cstr -> Z) (s : option cstr) : M env (option Z) :=
  match s with
  | None => mret None
  | Some s =>
      let parsed := parse s in
      verification ← dynamic_sprintf (print_dec parsed);
      match verification with
      | None => mret None
      | Some verification => mret (if str_eq s verification then Some parsed else None)
      end
  end.

Definition parse_int (s : option cstr) : M env (option Z) := parse_verified atoi s.
Definition parse_long (s : option cstr) : M env (option Z) := parse_verified atol s.
Definition parse_longlong (s : option cstr) : M env (option Z) := parse_verified atoll s.

Definition parse_uint32 (s : option cstr) : M env (option Z) :=
  parsed ← parse_longlong s;
  match parsed with
  | None => mret None
  | Some parsed =>
      if (parsed <? 0) || (UINT32_MAX <? parsed) then mret None
      else mret (Some (wrap_u 32 parsed))
  end.

(** * Time *)

Definition millis_of_timespec (ts : option timespec) : Z :=
  match ts with
  | None => -1
  | Some ts =>
      if tv_sec ts <? 0 then -1 else tv_sec ts * 1000 + Z.quot (tv_nsec ts) 1000000
  end.

(** [None] is the result [false]. *)
Definition timespec_now_plus_millis (millis : Z) : M env (option timespec) :=
  if millis <? 0 then mret None
  else
    now ← timespec_get;
    match now with
    | None => mret None
    | Some out =>
        if millis =? 0 then mret (Some out)
        else
          let nsec := tv_nsec out + millis * 1000 in
          let sec := tv_sec out + Z.quot nsec 1000000000 in
          mret (Some (mkTimespec sec (Z.rem nsec 1000000000)))
    end.

(** * Dates *)

Record xprc_date_t := mkDate { year : Z; month : Z; day : Z }.

#[export] Instance xprc_date_eq_dec : EqDecision xprc_date_t.
Proof. solve_decision. Defined.

Definition MIN_YEAR : Z := 1900.
Definition MAX_YEAR : Z := 2100.
Definition invalid_date : xprc_date_t := mkDate (-1) (-1) (-1).

Definition is_valid_date (date : option xprc_date_t) : bool :=
  match date with
  | None => false
  | Some date =>
      if (year date <? MIN_YEAR) || (MAX_YEAR <? year date) then false
      else if (month date <? 1) || (12 <? month date) then false
      else
        let max_days :=
          if month date =? 2 then (if Z.rem (year date) 4 =? 0 then 29 else 28)
          else if (month date =? 4) || (month date =? 6) || (month date =? 9) || (month date =? 11)
          then 30 else 31 in
        if (day date <? 1) || (max_days <? day date) then false else true
  end.

Definition iso_date_pattern (copy : cstr) : bool :=
  is_digit (char_at copy 0) && is_digit (char_at copy 1) && is_digit (char_at copy 2)
  && is_digit (char_at copy 3) && bool_decide (char_at copy 4 = "-"%char)
  && is_digit (char_at copy 5) && is_digit (char_at copy 6)
  && bool_decide (char_at copy 7 = "-"%char)
  && is_digit (char_at copy 8) && is_digit (char_at copy 9).

(** The text from offset [i] up to the terminator the code writes at [stop]. *)
Definition field (copy : cstr) (i stop : Z) : cstr := slice i (stop - i) copy.

Definition parse_iso_date (s : option cstr) : M env xprc_date_t :=
  copy ← copy_string s;
  match copy with
  | None => mret invalid_date
  | Some copy =>
      let length := strlen copy in
      if length <? 10 then mret invalid_date
      else
        let valid_pattern :=
          iso_date_pattern copy
          && (if 10 <? length then bool_decide (char_at copy 10 = "T"%char) else true) in
        if negb valid_pattern then mret invalid_date
        else
          let month_offset := if bool_decide (char_at copy 5 = "0"%char) then 6 else 5 in
          let day_offset := if bool_decide (char_at copy 8 = "0"%char) then 9 else 8 in
          y ← parse_int (Some (field copy 0 4));
          match y with
          | None => mret invalid_date
          | Some y =>
              m ← parse_int (Some (field copy month_offset 7));
              match m with
              | None => mret invalid_date
              | Some m =>
                  d ← parse_int (Some (field copy day_offset 10));
                  match d with
                  | None => mret invalid_date
                  | Some d =>
                      let out := mkDate y m d in
                      mret (if is_valid_date (Some out) then out else invalid_date)
                  end
              end
          end
  end.

(** * Lemmas *)

(** ** No computation of this file goes wrong *)

Lemma total_zmalloc n : total (zmalloc n).
Proof. unfold zmalloc. total_step. Qed.
#[export] Hint Resolve total_zmalloc : xprc.

Lemma total_copy_partial_string s n : total (copy_partial_string s n).
Proof. unfold copy_partial_string. total_step. Qed.
#[export] Hint Resolve total_copy_partial_string : xprc.

Lemma total_copy_string s : total (copy_string s).
Proof. unfold copy_string. total_step. Qed.

Lemma total_sprintf s : total (dynamic_sprintf s).
Proof. unfold dynamic_sprintf. total_step. Qed.
#[export] Hint Resolve total_copy_string total_sprintf : xprc.

Lemma total_parse_verified parse s : total (parse_verified parse s).
Proof. unfold parse_verified. cbv zeta. total_step. Qed.

Lemma total_parse_int s : total (parse_int s).
Proof. apply total_parse_verified. Qed.
#[export] Hint Resolve total_parse_int : xprc.

Lemma zmalloc_eq size e : size <> 0 -> zmalloc size e = Some (alloc_next e, alloc_rest e).
Proof. intros ?. unfold zmalloc. rewrite (proj2 (Z.eqb_neq _ _)) by done. apply malloc_eq. Qed.

Lemma slice_0_all {A} (l : list A) : slice 0 (len l) l = l.
Proof. unfold slice. rewrite Nat2Z.id, drop_0. by apply firstn_all. Qed.

Lemma copy_partial_string_eq s n e :
  copy_partial_string (Some s) n e =
  Some (if alloc_next e then Some (c_str (slice 0 n s)) else None, alloc_rest e).
Proof. unfold copy_partial_string. erewrite bind_eq by apply malloc_eq. by destruct (alloc_next e). Qed.

Lemma copy_string_eq s e :
  no_nul s -> copy_string (Some s) e = Some (if alloc_next e then Some s else None, alloc_rest e).
Proof.
  intros ?. unfold copy_string, strlen. by rewrite copy_partial_string_eq, slice_0_all, c_str_id.
Qed.

Lemma dynamic_sprintf_eq t e :
  t <> [] -> dynamic_sprintf t e = Some (if alloc_next e then Some t else None, alloc_rest e).
Proof.
  intros Ht. unfold dynamic_sprintf, strlen. destruct t as [|c t]; [done|].
  rewrite (proj2 (Z.ltb_ge _ _)) by (simpl; lia).
  erewrite bind_eq by (apply zmalloc_eq; lia). by destruct (alloc_next e).
Qed.

(** ** Strict number parsing *)

Lemma parse_verified_eq parse s e :
  parse_verified parse (Some s) e =
  Some (if alloc_next e && str_eq s (print_dec (parse s)) then Some (parse s) else None, alloc_rest e).
Proof.
  unfold parse_verified. erewrite bind_eq by apply dynamic_sprintf_eq, print_dec_nonempty.
  destruct (alloc_next e); simpl; [|done]. by destruct (str_eq _ _).
Qed.

(** A verified parser accepts exactly the canonical decimal text of the values
    it can return, provided it inverts printing on them. *)
Lemma parse_verified_iff parse (R : Z -> Prop) s n e :
  (forall s, R (parse s)) -> (forall n, R n -> parse (print_dec n) = n) ->
  (exists e', parse_verified parse (Some s) e = Some (Some n, e')) <->
  s = print_dec n /\ R n /\ alloc_next e = true.
Proof.
  intros HR Hinv. rewrite parse_verified_eq. split.
  - intros [e' H]. destruct (alloc_next e); simpl in H; [|done].
    destruct (str_eq s (print_dec (parse s))) eqn:E; simplify_eq.
    apply str_eq_true in E. split_and!; [by congruence|apply HR|done].
  - intros (-> & Hn & ->). eexists. by rewrite Hinv, str_eq_refl by done.
Qed.

Lemma parse_int_eq s e :
  parse_int (Some s) e =
  Some (if alloc_next e && str_eq s (print_dec (atoi s)) then Some (atoi s) else None, alloc_rest e).
Proof. apply parse_verified_eq. Qed.

Lemma parse_int_print n e :
  in_int n -> alloc_next e = true -> parse_int (Some (print_dec n)) e = Some (Some n, alloc_rest e).
Proof. intros ? He. by rewrite parse_int_eq, atoi_print, He, str_eq_refl. Qed.

(** [parse_int] succeeds with [n] exactly when the text is the canonical
    decimal representation of [n] and [n] fits an [int] (and memory is
    available): signs, leading zeros, blanks, trailing characters and values
    out of range, which [atoi] would accept, are all refused. *)
Theorem parse_int_canonical s n e :
  (exists e', parse_int (Some s) e = Some (Some n, e')) <->
  s = print_dec n /\ in_int n /\ alloc_next e = true.
Proof. apply parse_verified_iff; [intros ?; apply wrap_s_in_int|apply atoi_print]. Qed.

(** ** Number of digits *)

Lemma num_digits_loop_spec f n d :
  0 < n < 10 ^ Z.of_nat f -> num_digits_loop f n d = d + strlen (print_dec n).
Proof.
  revert n d. induction f as [|f IH]; intros n d Hn; [simpl in Hn; lia|]. simpl.
  rewrite Nat2Z.inj_succ, Z.pow_succ_r in Hn by lia.
  rewrite (proj2 (Z.ltb_lt _ _)), Z.quot_div_nonneg by lia.
  destruct (Z.lt_ge_cases n 10).
  - rewrite (Z.div_small n 10), print_dec_small by lia. by destruct f.
  - assert (0 < n / 10) by (apply Z.div_str_pos; lia).
    assert (n / 10 < 10 ^ Z.of_nat f) by (apply Z.div_lt_upper_bound; lia).
    rewrite IH, (print_dec_length_div10 n) by lia. lia.
Qed.

(** [num_digits] of a non-negative [int] is the length of its decimal text. *)
Lemma num_digits_print n : 0 <= n <= INT_MAX -> num_digits n = strlen (print_dec n).
Proof.
  intros ?. unfold INT_MAX in *. unfold num_digits. destruct (Z.eqb_spec n 0) as [->|]; [done|].
  rewrite (proj2 (Z.ltb_ge _ _)), num_digits_loop_spec by (simpl; lia). lia.
Qed.

(** ** Searching *)

(** [needle] occurs at [i], and not under an escape character if those are skipped. *)
Definition hit (haystack needle : cstr) (skip_escapes : bool) (i : Z) : bool :=
  match_at haystack needle i && negb (skip_escapes && is_escaped haystack i).

(** [r] is the first position at or after [start] with property [P], -1 if there is none. *)
Definition first_at (P : Z -> bool) (start r : Z) : Prop :=
  (r = -1 /\ forall j, start <= j -> P j = false) \/
  (start <= r /\ P r = true /\ forall j, start <= j < r -> P j = false).

Lemma match_at_iff haystack needle i :
  match_at haystack needle i = true <-> exists t, drop (Z.to_nat i) haystack = needle ++ t.
Proof.
  unfold match_at, strncmp_eq, strlen. rewrite bool_decide_eq_true, Nat2Z.id, firstn_all.
  split.
  - intros E. exists (drop (length needle) (drop (Z.to_nat i) haystack)).
    rewrite <-E at 1. by rewrite take_drop.
  - intros [t ->]. by rewrite take_app_length.
Qed.

Lemma match_at_bound haystack needle i :
  0 <= i -> match_at haystack needle i = true -> needle <> [] -> i + strlen needle <= strlen haystack.
Proof.
  intros ? [t E]%match_at_iff ?. apply (f_equal length) in E.
  rewrite length_drop, length_app in E. unfold strlen.
  destruct needle; [done|]. simpl in *. lia.
Qed.

Lemma strpos_loop_first n haystack needle i skip :
  (forall j, i + Z.of_nat n <= j -> hit haystack needle skip j = false) ->
  first_at (hit haystack needle skip) i (strpos_loop n haystack needle i skip).
Proof.
  revert i. induction n as [|n IH]; intros i Hend.
  { left. split; [done|]. intros j ?. apply Hend. lia. }
  simpl. destruct (hit haystack needle skip i) eqn:Hi.
  - right. unfold hit in Hi. apply andb_prop in Hi as Hi'. destruct Hi' as [Hm Hs].
    apply negb_true_iff in Hs. rewrite Hm, Hs. split_and!; [lia|done|lia].
  - assert (strpos_loop (S n) haystack needle i skip = strpos_loop n haystack needle (i + 1) skip) as E.
    { simpl. unfold hit in Hi. destruct (match_at haystack needle i); [|done].
      simpl in Hi. apply negb_false_iff in Hi. by rewrite Hi. }
    simpl in E. rewrite E.
    destruct (IH (i + 1)) as [[-> Hnone]|(? & ? & Hnone)]; [intros j ?; apply Hend; lia|left|right].
    + split; [done|]. intros j ?. destruct (Z.eq_dec i j) as [<-|]; [done|]. apply Hnone. lia.
    + split_and!; [lia|done|]. intros j ?. destruct (Z.eq_dec i j) as [<-|]; [done|]. apply Hnone. lia.
Qed.

Lemma strpos_first_at haystack needle start skip :
  needle <> [] -> - strlen haystack <= start < strlen haystack ->
  first_at (hit haystack needle skip)
    (if start <? 0 then start + strlen haystack else start)
    (_strpos (Some haystack) (Some needle) start skip).
Proof.
  intros Hn Hstart. unfold _strpos.
  set (st := if start <? 0 then start + strlen haystack else start).
  assert (0 <= st < strlen haystack) as Hst by (subst st; destruct (Z.ltb_spec start 0); lia).
  assert (forall j, 0 <= j -> strlen haystack - strlen needle < j -> hit haystack needle skip j = false) as Hfar.
  { intros j ??. unfold hit. destruct (match_at haystack needle j) eqn:E; [|done].
    apply match_at_bound in E; [lia|lia|done]. }
  destruct (Z.ltb_spec (strlen haystack) (strlen needle)).
  { left. split; [done|]. intros j ?. apply Hfar; lia. }
  rewrite (proj2 (Z.ltb_ge st 0)), (proj2 (Z.leb_gt (strlen haystack) st)) by lia. simpl.
  apply strpos_loop_first. intros j ?. apply Hfar; lia.
Qed.

(** The string searches return the first occurrence at or after the start
    offset (for [strpos_unescaped]: the first one that is not escaped), and -1
    exactly when there is none; a negative start counts from the end. *)
Theorem strpos_first haystack needle start skip :
  needle <> [] -> - strlen haystack <= start < strlen haystack ->
  first_at (hit haystack needle skip)
    (if start <? 0 then start + strlen haystack else start)
    (_strpos (Some haystack) (Some needle) start skip).
Proof. apply strpos_first_at. Qed.

Lemma strpos_first_witness :
  first_at (hit (lit "a\,b,c") (lit ",") true) 0 (_strpos (Some (lit "a\,b,c")) (Some (lit ",")) 0 true) /\
  _strpos (Some (lit "a\,b,c")) (Some (lit ",")) 0 true = 4.
Proof. split; [apply (strpos_first _ _ 0 true); [done|vm_compute; split; congruence]|reflexivity]. Defined.

(** ** Escaping *)

(** What a client does: an escape character in front of every character of a
    set [P] that contains the escape character itself. *)
Fixpoint escape (P : ascii -> bool) (s : cstr) : cstr :=
  match s with
  | [] => []
  | c :: s' => if P c then ESCAPE_CHAR :: c :: escape P s' else c :: escape P s'
  end.

Lemma escape_char_not_nul : ESCAPE_CHAR <> NUL.
Proof. done. Qed.

Lemma escape_no_nul P s : no_nul s -> no_nul (escape P s).
Proof.
  induction s as [|c s IH]; simpl; [done|]. intros [??]%no_nul_cons.
  destruct (P c); rewrite !no_nul_cons; auto using escape_char_not_nul.
Qed.

Lemma unescape_escape P s :
  P ESCAPE_CHAR = true -> unescape_loop false (escape P s) = (s, false).
Proof.
  intros HP. induction s as [|c s IH]; simpl; [done|].
  destruct (P c) eqn:Hc; simpl.
  - by rewrite IH.
  - rewrite bool_decide_eq_false_2, IH by congruence. done.
Qed.

Lemma escape_step_eq b c : escape_step b c = negb b && bool_decide (c = ESCAPE_CHAR).
Proof. by destruct b. Qed.

Lemma escaped_special P s i c :
  P ESCAPE_CHAR = true -> P c = true -> c <> ESCAPE_CHAR -> escape P s !! i = Some c ->
  foldl escape_step false (take i (escape P s)) = true.
Proof.
  intros HE Hc Hne. revert i. induction s as [|x s IH]; intros i; simpl; [done|].
  destruct (P x) eqn:Hx; simpl.
  - destruct i as [|[|i]]; simpl; [congruence|done|]. apply IH.
  - destruct i as [|i]; simpl; [congruence|].
    rewrite bool_decide_eq_false_2 by congruence. apply IH.
Qed.

Lemma match_at_single h c i : 0 <= i -> match_at h [c] i = true <-> h !! Z.to_nat i = Some c.
Proof.
  intros ?. rewrite match_at_iff. split.
  - intros [t E]. rewrite <-(Nat.add_0_r (Z.to_nat i)), <-lookup_drop, E. done.
  - intros E. exists (drop (S (Z.to_nat i)) h). by apply drop_S.
Qed.

Lemma strpos_char_none s c k : 0 <= k < strlen s -> (c ∉ drop (Z.to_nat k) s) -> strpos (Some s) (Some [c]) k = -1.
Proof.
  intros Hk Hc. destruct (strpos_first_at s [c] k false) as [[E _]|(Hr & Hit & _)]; [done|lia|exact E|].
  unfold hit in Hit. rewrite (proj2 (Z.ltb_ge k 0)) in Hr by lia. apply andb_prop in Hit as [Hm _].
  apply match_at_single in Hm; [|lia]. exfalso. apply Hc. fold (strpos (Some s) (Some [c]) k) in *.
  set (r := strpos (Some s) (Some [c]) k) in *. apply list_elem_of_lookup. exists (Z.to_nat r - Z.to_nat k)%nat.
  rewrite lookup_drop. rewrite <-Hm. f_equal. lia.
Qed.

Lemma strpos_char_some pre a b c k :
  k = len pre -> (c ∉ a) -> strpos (Some (pre ++ a ++ c :: b)) (Some [c]) k = k + len a.
Proof.
  intros -> Hc. set (s := pre ++ a ++ c :: b).
  assert (len pre < strlen s) as Hlt by (unfold strlen, s; llia).
  assert (s !! (length pre + length a)%nat = Some c) as Hat.
  { unfold s. rewrite lookup_app_r by lia. rewrite lookup_app_r by lia.
    replace (length pre + length a - length pre - length a)%nat with 0%nat by lia. done. }
  assert (forall i, s !! Z.to_nat i = Some c -> len pre <= i -> len pre + len a <= i) as Hfirst.
  { intros i Hi Hpre. destruct (Z.le_gt_cases (len pre + len a) i); [done|exfalso]. apply Hc.
    unfold s in Hi. rewrite lookup_app_r, lookup_app_l in Hi by lia. by eapply list_elem_of_lookup_2. }
  destruct (strpos_first_at s [c] (len pre) false) as [[_ Hno]|(Hr & Hit & Hno)]; [done|lia|..];
    rewrite (proj2 (Z.ltb_ge (len pre) 0)) in * by lia; fold (strpos (Some s) (Some [c]) (len pre)) in *.
  - specialize (Hno (len pre + len a) ltac:(lia)). unfold hit in Hno. cbn [andb negb] in Hno. rewrite andb_true_r in Hno.
    rewrite (proj2 (match_at_single s c (len pre + len a) ltac:(lia))) in Hno; [done|].
    rewrite <-Hat. f_equal. lia.
  - set (r := strpos (Some s) (Some [c]) (len pre)) in *. unfold hit in Hit. apply andb_prop in Hit as [Hm _].
    apply match_at_single in Hm; [|lia]. pose proof (Hfirst r Hm Hr).
    destruct (Z.eq_dec r (len pre + len a)) as [|Hne]; [done|exfalso].
    specialize (Hno (len pre + len a) ltac:(lia)). unfold hit in Hno. cbn [andb negb] in Hno. rewrite andb_true_r in Hno.
    rewrite (proj2 (match_at_single s c (len pre + len a) ltac:(lia))) in Hno; [done|]. rewrite <-Hat. f_equal. lia.
Qed.


(** escaping is inverted by [copy_unescaped_string] and protects separators:
    in an escaped text no separator is found by [strpos_unescaped], and
    unescaping gives back the original text. *)
Theorem unescape_roundtrip P s sep start e :
  P ESCAPE_CHAR = true -> P sep = true -> sep <> ESCAPE_CHAR -> no_nul s -> 0 <= start ->
  alloc_next e = true ->
  copy_unescaped_string (Some (escape P s)) e = Some (Some s, alloc_rest e) /\
  strpos_unescaped (Some (escape P s)) [sep] start = -1.
Proof.
  intros HE Hsep Hne Hs Hstart He. split.
  - unfold copy_unescaped_string, copy_partial_unescaped_string, strlen.
    erewrite bind_eq by (apply zmalloc_eq; lia).
    rewrite He, slice_0_all, unescape_escape, c_str_id by done. done.
  - unfold strpos_unescaped. simpl. rewrite bool_decide_eq_false_2 by done. simpl.
    destruct (Z.lt_ge_cases start (strlen (escape P s))) as [Hlt|Hge].
    + destruct (strpos_first_at (escape P s) [sep] start true) as [[E _]|(Hr & Hhit & _)]; [done|lia|done|].
      rewrite (proj2 (Z.ltb_ge start 0)) in * by lia.
      unfold hit in Hhit. apply andb_prop in Hhit as [Hm Hx].
      set (r := _strpos _ _ _ _) in *. apply match_at_single in Hm; [|lia].
      assert (is_escaped (escape P s) r = true) as Hesc; [|by rewrite Hesc in Hx].
      unfold is_escaped. destruct (Z.ltb_spec r 1).
      * assert (r = 0) as E by lia. rewrite E in Hm. destruct s as [|x s]; simpl in Hm; [done|].
        destruct (P x) eqn:Hpx; simpl in Hm; congruence.
      * by eapply escaped_special.
    + unfold _strpos. destruct (Z.ltb_spec (strlen (escape P s)) (strlen [sep])); [done|].
      rewrite (proj2 (Z.ltb_ge start 0)) by lia.
      by rewrite (proj2 (Z.leb_le _ _) Hge), orb_true_r.
Qed.

Definition escape_demo (c : ascii) : bool := bool_decide (c = ";"%char \/ c = ESCAPE_CHAR).

Lemma unescape_roundtrip_witness :
  copy_unescaped_string (Some (escape escape_demo (lit "a;b\c"))) calm = Some (Some (lit "a;b\c"), calm) /\
  strpos_unescaped (Some (escape escape_demo (lit "a;b\c"))) [";"%char] 0 = -1.
Proof.
  apply (unescape_roundtrip escape_demo (lit "a;b\c") ";"%char 0 calm);
    [reflexivity|reflexivity|discriminate| |lia|reflexivity].
  unfold no_nul. apply (bool_decide_unpack _). vm_compute. exact I.
Defined.

(** ** Time *)

Definition nanos (ts : timespec) : Z := tv_sec ts * 1000000000 + tv_nsec ts.

(** [timespec_now_plus_millis] adds [millis] MICROseconds to the current
    time, not milliseconds, and returns a normalised time stamp. *)
Theorem timespec_now_plus_millis_micros now millis ts e :
  0 <= tv_nsec now < 1000000000 -> 0 <= millis < 2 ^ 16 ->
  head (env_clock e) = Some (Some now) ->
  run (timespec_now_plus_millis millis) e
    (fun r _ => r = Some ts -> nanos ts = nanos now + millis * 1000 /\ 0 <= tv_nsec ts < 1000000000).
Proof.
  intros Hn Hm He. unfold timespec_now_plus_millis.
  rewrite (proj2 (Z.ltb_ge _ _)) by lia. apply run_bind. unfold run at 1, timespec_get.
  destruct (env_clock e) as [|t ts']; simplify_eq/=.
  destruct (Z.eqb_spec millis 0) as [->|].
  - apply run_ret. intros [= <-]. unfold nanos. lia.
  - apply run_ret. intros [= <-]. unfold nanos. simpl.
    rewrite Z.quot_div_nonneg, Z.rem_mod_nonneg by lia.
    pose proof (Z.div_mod (tv_nsec now + millis * 1000) 1000000000 ltac:(lia)).
    pose proof (Z.mod_pos_bound (tv_nsec now + millis * 1000) 1000000000 ltac:(lia)). lia.
Qed.

Lemma timespec_now_plus_millis_micros_witness :
  run (timespec_now_plus_millis 250) (mkEnv [] [] [Some (mkTimespec 10 999900000)])
    (fun r _ => r = Some (mkTimespec 11 150000) ->
       nanos (mkTimespec 11 150000) = nanos (mkTimespec 10 999900000) + 250 * 1000
       /\ 0 <= tv_nsec (mkTimespec 11 150000) < 1000000000)
  /\ run (timespec_now_plus_millis 250) (mkEnv [] [] [Some (mkTimespec 10 999900000)])
       (fun r _ => r = Some (mkTimespec 11 150000)).
Proof.
  split; [|reflexivity].
  apply (timespec_now_plus_millis_micros (mkTimespec 10 999900000) 250); simpl; [lia|lia|reflexivity].
Defined.

(** ** Dates *)

Definition leap_year (y : Z) : bool :=
  (y mod 4 =? 0) && (negb (y mod 100 =? 0) || (y mod 400 =? 0)).

(** A date of the years 1900 to 2100 in the Gregorian calendar. *)
Definition gregorian (d : xprc_date_t) : Prop :=
  MIN_YEAR <= year d <= MAX_YEAR /\ 1 <= month d <= 12 /\
  1 <= day d <= nth (Z.to_nat (month d - 1)) [31; if leap_year (year d) then 29 else 28; 31; 30; 31; 30; 31; 31; 30; 31; 30; 31] 0.

(** The code's leap year rule (every fourth year) differs from the calendar's
    only at the two ends of the supported range. *)
Lemma leap_year_range y :
  MIN_YEAR <= y <= MAX_YEAR ->
  (Z.rem y 4 =? 0) = leap_year y || (y =? 1900) || (y =? 2100).
Proof.
  intros Hy. unfold MIN_YEAR, MAX_YEAR in Hy.
  assert (forallb (fun y => Bool.eqb (Z.rem y 4 =? 0) (leap_year y || (y =? 1900) || (y =? 2100)))
            (seqZ 1900 201) = true) as H by reflexivity.
  rewrite forallb_forall in H. apply eqb_prop, H, list_elem_of_In, elem_of_seqZ. lia.
Qed.

(** [is_valid_date] accepts exactly the Gregorian dates of 1900 to 2100,
    plus the 29th of February of 1900 and of 2100, which do not exist. *)
Theorem is_valid_date_gregorian d :
  is_valid_date (Some d) = true <->
  gregorian d \/ d = mkDate 1900 2 29 \/ d = mkDate 2100 2 29.
Proof.
  destruct d as [y m dd]. unfold is_valid_date, gregorian. cbn [year month day].
  assert (MIN_YEAR <= 1900 /\ 2100 <= MAX_YEAR) by (unfold MIN_YEAR, MAX_YEAR; lia).
  destruct (Z.ltb_spec y MIN_YEAR), (Z.ltb_spec MAX_YEAR y); simpl;
    [split; [done|intros [? | [[=] | [=]]]; lia]..|].
  destruct (Z.ltb_spec m 1), (Z.ltb_spec 12 m); simpl;
    [split; [done|intros [? | [[=] | [=]]]; lia]..|].
  rewrite leap_year_range by lia.
  assert (m = 1 \/ m = 2 \/ m = 3 \/ m = 4 \/ m = 5 \/ m = 6 \/ m = 7 \/ m = 8 \/ m = 9 \/ m = 10
    \/ m = 11 \/ m = 12) as Hm by lia.
  assert (forall b : bool, (if b then false else true) = true <-> b = false) as Hb by (by intros []).
  rewrite Hb, orb_false_iff, !Z.ltb_ge.
  assert (leap_year 1900 = false /\ leap_year 2100 = false) as [??] by done.
  destruct Hm as [-> | Hm]; [simpl; split; [left; lia|intros [? | [[=] | [=]]]; lia]|].
  destruct Hm as [-> | Hm].
  { destruct (Z.eqb_spec y 1900); [subst y|destruct (Z.eqb_spec y 2100); [subst y|]];
      try (destruct (leap_year y) eqn:E; cbn [orb]); simpl; split;
      try (intros; destruct (decide (dd = 29)) as [-> |]; [by auto|left; simpl in *; lia]);
      try (intros; left; lia);
      intros [? | [[=] | [=]]]; simpl in *; lia. }
  repeat (destruct Hm as [-> | Hm]; [simpl; split; [left; lia|intros [? | [[=] | [=]]]; lia]|]).
  subst m. simpl. split; [left; lia|intros [? | [[=] | [=]]]; lia].
Qed.

(** ** Copies of escaped texts *)

(** The text that an escaped one stands for, if it is well-formed. *)
Definition unescaped (s : cstr) : option cstr :=
  let '(copy, opened) := unescape_loop false (slice 0 (strlen s) s) in if opened : bool then None else Some (c_str copy).

Lemma unescaped_no_nul s s2 : unescaped s = Some s2 -> no_nul s2.
Proof. unfold unescaped. destruct (unescape_loop _ _) as [copy []]; [done|]. intros [= <-]. apply c_str_no_nul. Qed.

Lemma copy_unescaped_run s e : exists r e', copy_unescaped_string (Some s) e = Some (r, e') /\ calmer e e' /\ (r = None \/ r = unescaped s).
Proof.
  unfold copy_unescaped_string, copy_partial_unescaped_string.
  erewrite bind_eq by (apply zmalloc_eq; unfold strlen; lia).
  exists (if alloc_next e then unescaped s else None), (alloc_rest e). split; [|split; [split; [apply plenty_rest|done]|]].
  - unfold unescaped. destruct (alloc_next e); [|done]. by destruct (unescape_loop _ _).
  - destruct (alloc_next e); auto.
Qed.
