(* ===== verification/Hashmap.v ===== *)
(** The string-keyed hash map ([hashmap.c]): 65536 buckets of linked items,
    refined against finite maps.

    A bucket is the chain of items from [map->items[hash]] on; buckets that
    hold no item are absent from the finite map of buckets. Values are
    pointers: [None] is NULL. *)

From S2P Require Import Prelude CLib Utils.

Definition HASH_BYTES : Z := 2.
Definition HASH_COMBINATIONS : Z := Z.shiftl 1 (HASH_BYTES * 8).

(** Rotation of an 8-bit value to the right. *)
Definition ror8 (value num : Z) : Z :=
  Z.lor (Z.land (Z.shiftr value (Z.rem num 8)) 255) (Z.land (Z.shiftl value (8 - Z.rem num 8)) 255).

(** One iteration of the loop of [compute_hash] over the key's characters. *)
Definition hash_step (k : nat) (key_byte : Z) (hash : list Z) : list Z :=
  let h := (k mod Z.to_nat HASH_BYTES)%nat in
  let hash_byte := ror8 (nth h hash 0) 1 in
  <[h := Z.lxor key_byte hash_byte]> hash.

Fixpoint hash_loop (k : nat) (key : cstr) (hash : list Z) : list Z :=
  match key with
  | [] => hash
  | ch :: key' => hash_loop (S k) key' (hash_step k (code ch) hash)
  end.

Definition compute_hash (key : cstr) : Z :=
  let hash := hash_loop 0 key (replicate (Z.to_nat HASH_BYTES) 0) in
  foldl (fun out b => wrap_u 16 (Z.shiftl out 8 + b)) 0 hash.

Record hashmap_item_t (V : Type) := mkItem { key : cstr; value : option V }.
Arguments mkItem {V}.
Arguments key {V}.
Arguments value {V}.

Record hashmap_t (V : Type) := mkMap { items : gmap Z (list (hashmap_item_t V)) }.
Arguments mkMap {V}.
Arguments items {V}.

Section Hashmap.
Context {V : Type}.
Implicit Types (m : hashmap_t V) (b : list (hashmap_item_t V)).

Definition bucket m (hash : Z) : list (hashmap_item_t V) := default [] (items m !! hash).

Definition create_hashmap : M env (option (hashmap_t V)) :=
  ok ← zmalloc (8 * HASH_COMBINATIONS); mret (if ok : bool then Some (mkMap ∅) else None).

(** The search along a chain. *)
Fixpoint find_item (k : cstr) b : option (hashmap_item_t V) :=
  match b with
  | [] => None
  | item :: b' => if str_eq (key item) k then Some item else find_item k b'
  end.

Definition hashmap_get m (k : cstr) : option V := find_item k (bucket m (compute_hash k)) ≫= value.

(** Replaces the value of the item found first: the old value and the chain. *)
Fixpoint replace_item (k : cstr) (v : option V) b : option (option V * list (hashmap_item_t V)) :=
  match b with
  | [] => None
  | item :: b' =>
      if str_eq (key item) k then Some (value item, mkItem (key item) v :: b')
      else '(old, b'') ← replace_item k v b'; Some (old, item :: b'')
  end.

(** Returns the success flag, what [*old_value] holds afterwards (the caller's
    [old] where it is not written) and the map. *)
Definition hashmap_put m (k : cstr) (v old : option V) : M env (bool * option V * hashmap_t V) :=
  let hash := compute_hash k in
  match replace_item k v (bucket m hash) with
  | Some (old_value, b) => mret (true, old_value, mkMap (<[hash := b]> (items m)))
  | None =>
      ok ← zmalloc 24;
      if negb ok then mret (false, old, m)
      else
        key_copy ← copy_string (Some k);
        match key_copy with
        | None => mret (false, old, m)
        | Some key_copy =>
            mret (true, old, mkMap (<[hash := bucket m hash ++ [mkItem key_copy v]]> (items m)))
        end
  end.

(** All chains in the order the loops over [HASH_COMBINATIONS] visit them. *)
Definition buckets m : list (list (hashmap_item_t V)) := bucket m <$> seqZ 0 HASH_COMBINATIONS.
Definition all_items m : list (hashmap_item_t V) := mjoin (buckets m).

Definition is_hashmap_empty m : bool :=
  forallb (fun b => match b with [] => true | _ => false end) (buckets m).

(** The destructor is called for every item, in order. *)
Definition destroy_hashmap {S} m (value_destructor : cstr -> option V -> M S unit) : M S unit :=
  for_each (fun item => value_destructor (key item) (value item)) (all_items m).

(** The inner loop of [hashmap_reference_keys] stops at the first failure,
    the outer loop goes on with the next chain. *)
Fixpoint reference_chain b (out : list cstr) : M env (bool * list cstr) :=
  match b with
  | [] => mret (true, out)
  | item :: b' =>
      ok ← zmalloc 24;
      if ok : bool then reference_chain b' (out ++ [key item]) else mret (false, out)
  end.

Fixpoint reference_chains (bs : list (list (hashmap_item_t V))) (success : bool) (out : list cstr)
  : M env (bool * list cstr) :=
  match bs with
  | [] => mret (success, out)
  | b :: bs' =>
      '(ok, out') ← reference_chain b out;
      reference_chains bs' (success && ok) out'
  end.

Definition hashmap_reference_keys m : M env (option (list cstr)) :=
  ok ← zmalloc 24;
  if negb ok then mret None
  else
    '(success, out) ← reference_chains (buckets m) true [];
    mret (if success : bool then Some out else None).

(** Replaces every referenced key by a copy; [None] when a copy fails. *)
Fixpoint copy_all (keys : list cstr) : M env (option (list cstr)) :=
  match keys with
  | [] => mret (Some [])
  | k :: keys' =>
      c ← copy_string (Some k);
      match c with
      | None => mret None
      | Some c => rest ← copy_all keys'; mret (cons c <$> rest)
      end
  end.

Definition hashmap_copy_keys m : M env (option (list cstr)) :=
  out ← hashmap_reference_keys m;
  match out with
  | None => mret None
  | Some out => copy_all out
  end.

Definition hashmap_find_first m (predicate : hashmap_item_t V -> bool) : option (hashmap_item_t V) :=
  List.find predicate (all_items m).

(** * Refinement against finite maps *)

(** The finite map a hash map stands for. *)
Definition abs m : gmap cstr (option V) :=
  list_to_map ((fun item => (key item, value item)) <$> all_items m).

(** Keys are unique within a chain and sit in the chain of their hash. *)
Record wf m : Prop := mkWf {
  wf_unique : forall h, NoDup (key <$> bucket m h);
  wf_hash : forall h item, item ∈ bucket m h -> compute_hash (key item) = h;
}.
End Hashmap.
Arguments wf {V}.
Arguments buckets {V} m : simpl never.
Arguments all_items {V} m : simpl never.
Arguments wf_unique {V m}.
Arguments wf_hash {V m}.

(** ** Hashes address the table *)

Lemma hash_loop_length k s hash : length (hash_loop k s hash) = length hash.
Proof.
  revert k hash. induction s as [|c s IH]; intros k hash; simpl; [done|].
  rewrite IH. apply length_insert.
Qed.

Lemma compute_hash_range k : 0 <= compute_hash k < HASH_COMBINATIONS.
Proof.
  unfold compute_hash. pose proof (hash_loop_length 0 k (replicate (Z.to_nat HASH_BYTES) 0)) as Hl.
  destruct (hash_loop 0 k _) as [|a [|b [|]]]; try done. simpl.
  apply (wrap_u_range 16). lia.
Qed.

Section Lemmas.
Context {V : Type}.
Implicit Types (m : hashmap_t V) (b : list (hashmap_item_t V)).

(** ** Chains *)

Lemma find_item_Some k b item : find_item k b = Some item -> item ∈ b /\ key item = k.
Proof.
  induction b as [|i b IH]; simpl; [done|].
  destruct (str_eq (key i) k) eqn:E.
  - apply str_eq_true in E. intros [= <-]. split; [left|done].
  - intros [??]%IH. split; [by right|done].
Qed.

Lemma find_item_None k b : find_item k b = None <-> k ∉ key <$> b.
Proof.
  induction b as [|i b IH]; simpl; [split; [intros _; apply not_elem_of_nil|done]|].
  rewrite not_elem_of_cons. destruct (str_eq (key i) k) eqn:E.
  - apply str_eq_true in E. split; [done|]. intros []. done.
  - apply str_eq_false in E. rewrite IH. intuition congruence.
Qed.

Lemma find_item_elem b item : NoDup (key <$> b) -> item ∈ b -> find_item (key item) b = Some item.
Proof.
  induction b as [|i b IH]; simpl; [intros _ []%elem_of_nil|].
  rewrite NoDup_cons, elem_of_cons. intros [Hi Hb] [-> | Hin]; [by rewrite str_eq_refl|].
  destruct (str_eq (key i) (key item)) eqn:E; [|by apply IH].
  apply str_eq_true in E. rewrite E in Hi. destruct Hi. by apply list_elem_of_fmap_2.
Qed.

Lemma replace_item_None k v b : replace_item k v b = None <-> find_item k b = None.
Proof.
  induction b as [|i b IH]; simpl; [done|]. destruct (str_eq (key i) k); [done|].
  rewrite <-IH. by destruct (replace_item k v b) as [[??]|].
Qed.

Lemma replace_item_Some k v b old b' :
  replace_item k v b = Some (old, b') ->
  exists b1 i b2, b = b1 ++ i :: b2 /\ b' = b1 ++ mkItem k v :: b2 /\ key i = k /\ value i = old.
Proof.
  revert b'. induction b as [|i b IH]; intros b'; simpl; [done|].
  destruct (str_eq (key i) k) eqn:E.
  - apply str_eq_true in E. intros [= <- <-]. exists [], i, b. by rewrite E.
  - destruct (replace_item k v b) as [[o b'']|]; [|done]. intros [= <- <-].
    destruct (IH b'' eq_refl) as (b1 & j & b2 & -> & -> & ? & ?). by exists (i :: b1), j, b2.
Qed.

Lemma find_item_app_ne k b1 i b2 :
  key i <> k -> find_item k (b1 ++ i :: b2) = find_item k (b1 ++ b2).
Proof.
  intros Hne. induction b1 as [|j b1 IH]; simpl.
  - by rewrite (proj2 (str_eq_false _ _)).
  - by rewrite IH.
Qed.

(** ** The table as a finite map *)

Lemma bucket_insert m h h' b :
  bucket (mkMap (<[h := b]> (items m))) h' = if decide (h = h') then b else bucket m h'.
Proof. unfold bucket. simpl. rewrite lookup_insert. by case_decide. Qed.

Lemma bucket_range m h : wf m -> bucket m h <> [] -> 0 <= h < HASH_COMBINATIONS.
Proof.
  intros Hwf Hb. destruct (bucket m h) as [|i b] eqn:E; [done|].
  rewrite <-(wf_hash Hwf h i) by (rewrite E; left). apply compute_hash_range.
Qed.

Lemma elem_of_all_items m item :
  wf m -> item ∈ all_items m <-> item ∈ bucket m (compute_hash (key item)).
Proof.
  intros Hwf. unfold all_items, buckets. rewrite list_elem_of_join. split.
  - intros (b & Hi & (h & -> & _)%list_elem_of_fmap). by rewrite (wf_hash Hwf h item).
  - intros Hi. eexists. split; [exact Hi|]. apply list_elem_of_fmap_2, elem_of_seqZ.
    pose proof (compute_hash_range (key item)). lia.
Qed.

Lemma NoDup_join_keys m (l : list Z) :
  wf m -> NoDup l -> NoDup (key <$> mjoin (bucket m <$> l)).
Proof.
  intros Hwf. induction l as [|h l IH]; simpl; [by constructor|].
  intros [Hh Hl]%NoDup_cons. rewrite fmap_app, NoDup_app.
  split_and!; [apply Hwf| |by apply IH].
  intros k (i & -> & Hi)%list_elem_of_fmap (j & Hkj & Hj)%list_elem_of_fmap.
  apply list_elem_of_join in Hj as (b & Hj & (h' & -> & Hh')%list_elem_of_fmap).
  apply (wf_hash Hwf) in Hi. apply (wf_hash Hwf) in Hj. congruence.
Qed.

Lemma NoDup_all_keys m : wf m -> NoDup (key <$> all_items m).
Proof. intros ?. by apply NoDup_join_keys, NoDup_seqZ. Qed.

Lemma abs_lookup_item m k v :
  wf m -> abs m !! k = Some v <-> mkItem k v ∈ all_items m.
Proof.
  intros Hwf. unfold abs. rewrite <-elem_of_list_to_map.
  - rewrite list_elem_of_fmap. split; [|intros ?; by exists (mkItem k v)].
    by intros ([??] & [= -> ->] & ?).
  - rewrite <-list_fmap_compose. by apply NoDup_all_keys.
Qed.

Lemma abs_lookup m k :
  wf m -> abs m !! k = value <$> find_item k (bucket m (compute_hash k)).
Proof.
  intros Hwf. destruct (find_item k _) as [[k' v]|] eqn:E; simpl.
  - apply find_item_Some in E as [Hi Hk]. simpl in Hk. subst k'.
    by apply abs_lookup_item, elem_of_all_items.
  - apply eq_None_not_Some. intros [v Hv]. apply abs_lookup_item, elem_of_all_items in Hv; [|done..].
    apply find_item_None in E. apply E. by apply (list_elem_of_fmap_2 key) in Hv.
Qed.

Lemma abs_eq m (g : gmap cstr (option V)) :
  wf m -> (forall k, g !! k = value <$> find_item k (bucket m (compute_hash k))) -> abs m = g.
Proof. intros ? H. apply map_eq. intros k. by rewrite H, abs_lookup. Qed.

Lemma wf_empty : wf (@mkMap V ∅).
Proof. split; unfold bucket; simpl; intros h; rewrite lookup_empty; [constructor|by intros ? ?%elem_of_nil]. Qed.

Lemma abs_empty : abs (@mkMap V ∅) = ∅.
Proof. apply abs_eq; [apply wf_empty|]. intros k. unfold bucket. simpl. by rewrite !lookup_empty. Qed.

Lemma wf_insert m k b :
  wf m -> NoDup (key <$> b) -> (forall i, i ∈ b -> compute_hash (key i) = compute_hash k) ->
  wf (mkMap (<[compute_hash k := b]> (items m))).
Proof.
  intros Hwf Hb Hh. split; intros h; rewrite bucket_insert; case_decide; subst; eauto using wf_unique, wf_hash.
Qed.

Lemma put_replaced m k v old b :
  wf m -> replace_item k v (bucket m (compute_hash k)) = Some (old, b) ->
  let m' := mkMap (<[compute_hash k := b]> (items m)) in
  wf m' /\ abs m' = <[k := v]> (abs m) /\ abs m !! k = Some old.
Proof.
  intros Hwf H m'. apply replace_item_Some in H as (b1 & i & b2 & Hb & -> & Hk & <-).
  pose proof (wf_unique Hwf (compute_hash k)) as Hnd. rewrite Hb in Hnd.
  assert (wf m') as Hwf'.
  { apply wf_insert; [done| |].
    - by rewrite fmap_app, fmap_cons in *; simpl; rewrite <-Hk.
    - intros j. rewrite elem_of_app, elem_of_cons. intros Hj.
      destruct Hj as [? | [-> | ?]]; [|done|]; apply (wf_hash Hwf); rewrite Hb;
        rewrite elem_of_app, elem_of_cons; auto. }
  split_and!; [done| |].
  - apply abs_eq; [done|]. intros k'. subst m'. rewrite bucket_insert. rewrite lookup_insert.
    destruct (decide (k = k')) as [<- |Hne].
    + rewrite decide_True by done. erewrite (find_item_elem _ (mkItem k v)); [done| |].
      * rewrite fmap_app, fmap_cons in *. simpl. by rewrite <-Hk.
      * apply elem_of_app. right. left.
    + rewrite abs_lookup by done. case_decide as Hh; [|done]. rewrite <-Hh, Hb.
      by rewrite !find_item_app_ne by (simpl; congruence).
  - rewrite abs_lookup, Hb by done. subst k. rewrite find_item_elem; [done|done|].
    apply elem_of_app. right. left.
Qed.

Lemma put_appended m k v :
  wf m -> replace_item k v (bucket m (compute_hash k)) = None ->
  let m' := mkMap (<[compute_hash k := bucket m (compute_hash k) ++ [mkItem k v]]> (items m)) in
  wf m' /\ abs m' = <[k := v]> (abs m) /\ abs m !! k = None.
Proof.
  intros Hwf H m'. apply replace_item_None in H. pose proof H as Hnew. apply find_item_None in H.
  assert (NoDup (key <$> bucket m (compute_hash k) ++ [mkItem k v])) as Hnd.
  { rewrite fmap_app, NoDup_app. split_and!; [apply Hwf| |apply NoDup_singleton].
    intros k' ? ->%list_elem_of_singleton. done. }
  assert (wf m') as Hwf'.
  { apply wf_insert; [done|done|]. intros i. rewrite elem_of_app, list_elem_of_singleton.
    intros [? | ->]; [by apply (wf_hash Hwf)|done]. }
  split_and!; [done| |by rewrite abs_lookup, Hnew].
  apply abs_eq; [done|]. intros k'. subst m'. rewrite bucket_insert, lookup_insert.
  destruct (decide (k = k')) as [<- |Hne].
  - rewrite decide_True by done. erewrite (find_item_elem _ (mkItem k v)); [done|done|].
    apply elem_of_app. right. left.
  - rewrite abs_lookup by done. case_decide as Hh; [|done].
    by rewrite find_item_app_ne, app_nil_r, Hh by (simpl; congruence).
Qed.
End Lemmas.

Lemma hashmap_put_env {V} (m : hashmap_t V) k v old e r e' :
  hashmap_put m k v old e = Some (r, e') -> env_alloc e = [] -> env_alloc e' = [].
Proof.
  intros E Ha. unfold hashmap_put in E. destruct (replace_item k v _) as [[??]|]; [by injection E as <- <-|].
  erewrite bind_eq in E by by apply zmalloc_eq. unfold alloc_next at 1 in E. rewrite Ha in E. simpl in E.
  unfold copy_string in E. erewrite bind_eq in E by by apply copy_partial_string_eq.
  unfold alloc_next, alloc_rest in E. simpl in E. rewrite Ha in E. by injection E as <- <-.
Qed.

(** ** Properties *)

Lemma hashmap_put_get {V} (m : hashmap_t V) k v old e :
  wf m -> no_nul k ->
  hashmap_get m k = mjoin (abs m !! k) /\
  exists o m' e',
    let ok := bool_decide (is_Some (abs m !! k)) || (alloc_next e && alloc_next (alloc_rest e)) in
    hashmap_put m k v old e = Some ((ok, o, m'), e') /\ wf m' /\
    (if ok then abs m' = <[k := v]> (abs m) /\ o = default old (abs m !! k)
     else m' = m /\ o = old).
Proof.
  intros Hwf Hk. split.
  { unfold hashmap_get. rewrite abs_lookup by done. by destruct (find_item _ _). }
  unfold hashmap_put. destruct (replace_item k v _) as [[ov b]|] eqn:E.
  - destruct (put_replaced m k v ov b Hwf E) as (? & ? & Hold).
    eexists _, _, _. rewrite bool_decide_eq_true_2 by by rewrite Hold. simpl.
    split_and!; [done|done|done|by rewrite Hold].
  - destruct (put_appended m k v Hwf E) as (? & ? & Hold).
    rewrite bool_decide_eq_false_2 by (rewrite Hold; apply is_Some_None). simpl.
    erewrite bind_eq by by apply zmalloc_eq.
    destruct (alloc_next e); simpl; [|by eexists _, _, _].
    erewrite bind_eq by by apply copy_string_eq.
    destruct (alloc_next (alloc_rest e)); simpl; [|by eexists _, _, _].
    eexists _, _, _. split_and!; [done|done|done|by rewrite Hold].
Qed.

(** C9: The hash map implements a finite map: [hashmap_get] is its lookup
    (a stored NULL and a missing key being indistinguishable), and
    [hashmap_put] either inserts, reporting the replaced value, or, only when
    memory for a new item is unavailable, fails and leaves the map as it was.
    The invariant of the table is preserved. *)
Theorem hashmap_refines_map {V} (m : hashmap_t V) k v old e :
  wf m -> no_nul k ->
  hashmap_get m k = mjoin (abs m !! k) /\
  exists o m' e',
    let ok := bool_decide (is_Some (abs m !! k)) || (alloc_next e && alloc_next (alloc_rest e)) in
    hashmap_put m k v old e = Some ((ok, o, m'), e') /\ wf m' /\
    (if ok then abs m' = <[k := v]> (abs m) /\ o = default old (abs m !! k)
     else m' = m /\ o = old).
Proof. apply hashmap_put_get. Qed.

Lemma hashmap_refines_map_witness :
  hashmap_get (mkMap (∅ : gmap Z (list (hashmap_item_t Z)))) (lit "CMHD") = mjoin (abs (@mkMap Z ∅) !! lit "CMHD") /\
  exists o m' e',
    let ok := bool_decide (is_Some (abs (@mkMap Z ∅) !! lit "CMHD")) || (alloc_next calm && alloc_next (alloc_rest calm)) in
    hashmap_put (@mkMap Z ∅) (lit "CMHD") (Some 7) None calm = Some ((ok, o, m'), e') /\ wf m' /\
    (if ok then abs m' = <[lit "CMHD" := Some 7]> (abs (@mkMap Z ∅)) /\ o = default None (abs (@mkMap Z ∅) !! lit "CMHD")
     else m' = @mkMap Z ∅ /\ o = None).
Proof.
  apply (hashmap_refines_map (@mkMap Z ∅) (lit "CMHD") (Some 7) None calm); [apply wf_empty|].
  unfold no_nul. apply (bool_decide_unpack _). vm_compute. exact I.
Defined.

#[local] Opaque buckets.

Section Iteration.
Context {V : Type}.
Implicit Types (m : hashmap_t V) (b : list (hashmap_item_t V)).

(** ** Iteration *)

Lemma reference_chain_spec b out e :
  exists ok out' e', reference_chain b out e = Some ((ok, out'), e') /\
    (ok = true -> out' = out ++ (key <$> b)) /\ (env_alloc e = [] -> ok = true /\ e' = e).
Proof.
  revert out e. induction b as [|i b IH]; intros out e; simpl.
  { eexists _, _, _. split_and!; [done| |done]. intros _. by rewrite app_nil_r. }
  erewrite bind_eq by by apply zmalloc_eq. destruct (alloc_next e) eqn:He.
  - destruct (IH (out ++ [key i]) (alloc_rest e)) as (ok & out' & e' & -> & H1 & H2).
    eexists _, _, _. split_and!; [done| |].
    + intros ->%H1. by rewrite <-app_assoc.
    + intros Ha. destruct e as [al mt ck]. simpl in Ha. subst al. by apply H2.
  - eexists _, _, _. split_and!; [done|done|]. intros Ha. unfold alloc_next in He. by rewrite Ha in He.
Qed.

Lemma reference_chains_spec (bs : list (list (hashmap_item_t V))) success out e :
  exists ok out' e', reference_chains bs success out e = Some ((ok, out'), e') /\
    (ok = true -> success = true /\ out' = out ++ (key <$> mjoin bs)) /\
    (env_alloc e = [] -> ok = success /\ e' = e).
Proof.
  revert success out e. induction bs as [|b bs IH]; intros success out e; simpl.
  { eexists _, _, _. split_and!; [done| |done]. intros ->. by rewrite app_nil_r. }
  destruct (reference_chain_spec b out e) as (ok & out' & e' & E & H1 & H2).
  erewrite bind_eq by exact E. simpl.
  destruct (IH (success && ok) out' e') as (ok' & out'' & e'' & -> & H3 & H4).
  eexists _, _, _. split_and!; [done| |].
  - intros Hok. destruct (H3 Hok) as [[-> Hok']%andb_prop ->]. split; [done|].
    by rewrite H1, fmap_app, app_assoc.
  - intros Ha. destruct (H2 Ha) as [-> ->]. rewrite andb_true_r in H4. by apply H4.
Qed.

Lemma reference_keys_spec m e :
  exists r e', hashmap_reference_keys m e = Some (r, e') /\
    (forall ks, r = Some ks -> ks = key <$> all_items m) /\
    (env_alloc e = [] -> r = Some (key <$> all_items m) /\ e' = e).
Proof.
  unfold hashmap_reference_keys. erewrite bind_eq by by apply zmalloc_eq.
  destruct (alloc_next e) eqn:He; simpl.
  - destruct (reference_chains_spec (buckets m) true [] (alloc_rest e)) as (ok & out & e' & E & H1 & H2).
    erewrite bind_eq by exact E. simpl. eexists _, _. split_and!; [done| |].
    + destruct ok; [|done]. destruct (H1 eq_refl) as [_ ->]. by intros ks [= <-].
    + intros Ha. destruct e as [al mt ck]. simpl in Ha. subst al.
      destruct (H2 eq_refl) as [-> ->]. destruct (H1 eq_refl) as [_ ->]. done.
  - eexists _, _. split_and!; [done|done|]. intros Ha. unfold alloc_next in He. by rewrite Ha in He.
Qed.

Lemma keys_abs m : wf m -> (key <$> all_items m) ≡ₚ (map_to_list (abs m)).*1.
Proof.
  intros ?. unfold abs. rewrite map_to_list_to_map; [by rewrite <-list_fmap_compose|].
  rewrite <-list_fmap_compose. by apply NoDup_all_keys.
Qed.

Lemma copy_all_spec (ks : list cstr) e :
  Forall no_nul ks ->
  exists r e', copy_all ks e = Some (r, e') /\ (forall l, r = Some l -> l = ks) /\
    (env_alloc e = [] -> r = Some ks /\ e' = e).
Proof.
  intros Hk. revert e. induction Hk as [|k ks Hk Hks IH]; intros e; simpl.
  { eexists _, _. split_and!; [done| |done]. by intros l [= <-]. }
  erewrite bind_eq by by apply copy_string_eq. destruct (alloc_next e) eqn:He.
  - destruct (IH (alloc_rest e)) as (r & e' & E & H1 & H2). erewrite bind_eq by exact E.
    eexists _, _. split_and!; [done| |].
    + destruct r as [l|]; [|done]. intros ? [= <-]. by rewrite (H1 l).
    + intros Ha. destruct e as [al mt ck]. simpl in Ha. subst al. by destruct (H2 eq_refl) as [-> ->].
  - eexists _, _. split_and!; [done|done|]. intros Ha. unfold alloc_next in He. by rewrite Ha in He.
Qed.
End Iteration.

(** [hashmap_copy_keys] lists every key of the map exactly once (in no
    particular order); it returns NULL only when an allocation fails, never a
    partial list. *)
Theorem hashmap_copy_keys_complete {V} (m : hashmap_t V) e :
  wf m -> (forall k, is_Some (abs m !! k) -> no_nul k) ->
  exists r e', hashmap_copy_keys m e = Some (r, e') /\
    (forall ks, r = Some ks -> NoDup ks /\ forall k, k ∈ ks <-> is_Some (abs m !! k)) /\
    (env_alloc e = [] -> r <> None).
Proof.
  intros Hwf Hnul.
  assert (forall k, k ∈ key <$> all_items m <-> is_Some (abs m !! k)) as Helem.
  { intros k. rewrite list_elem_of_fmap. split.
    - intros ([k' v] & -> & Hi). exists v. by apply abs_lookup_item.
    - intros [v Hv]. apply abs_lookup_item in Hv; [|done]. by exists (mkItem k v). }
  unfold hashmap_copy_keys. destruct (reference_keys_spec m e) as (r & e' & E & H1 & H2).
  erewrite bind_eq by exact E. destruct r as [ks|].
  - specialize (H1 ks eq_refl). subst ks.
    destruct (copy_all_spec (key <$> all_items m) e') as (r & e'' & E' & H3 & H4).
    { apply Forall_forall. intros k Hk. by apply Hnul, Helem. }
    rewrite E'. eexists _, _. split_and!; [done| |].
    + intros ks ->. rewrite (H3 ks eq_refl). split; [by apply NoDup_all_keys|exact Helem].
    + intros Ha. destruct (H2 Ha) as [_ ->]. by destruct (H4 Ha) as [-> _].
  - eexists _, _. split_and!; [done|done|]. intros Ha. by destruct (H2 Ha).
Qed.

Lemma hashmap_copy_keys_complete_witness :
  let m := @mkMap Z {[compute_hash (lit "SRID") := [mkItem (lit "SRID") (Some 1)]]} in
  exists r e', hashmap_copy_keys m calm = Some (r, e') /\
    (forall ks, r = Some ks -> NoDup ks /\ forall k, k ∈ ks <-> is_Some (abs m !! k)) /\
    (env_alloc calm = [] -> r <> None).
Proof.
  intros m.
  assert (wf m) as Hm.
  { unfold m. rewrite <-insert_empty. apply (wf_insert (mkMap ∅) (lit "SRID") [mkItem (lit "SRID") (Some 1)]).
    - apply wf_empty.
    - apply NoDup_singleton.
    - intros i ->%list_elem_of_singleton. reflexivity. }
  apply (hashmap_copy_keys_complete m calm); [exact Hm|].
  intros k [v Hv]. rewrite abs_lookup in Hv by exact Hm.
  unfold bucket, m in Hv. cbn [items] in Hv.
  destruct (decide (compute_hash k = compute_hash (lit "SRID"))) as [E|E].
  - rewrite E, lookup_singleton_eq in Hv. cbn [default from_option find_item key] in Hv.
    cbn in Hv. match type of Hv with context [str_eq ?a k] => destruct (str_eq a k) eqn:Ek; [|discriminate Hv] end.
    apply str_eq_true in Ek. subst k.
    unfold no_nul. apply (bool_decide_unpack _). vm_compute. exact I.
  - by rewrite lookup_singleton_ne in Hv by congruence.
Defined.

(** The traversals agree with the finite map: [is_hashmap_empty] holds
    exactly for the empty map, and [hashmap_find_first] returns an entry that
    satisfies the predicate if there is one. *)
Theorem hashmap_traversals {V} (m : hashmap_t V) predicate :
  wf m ->
  (is_hashmap_empty m = true <-> abs m = ∅) /\
  match hashmap_find_first m predicate with
  | Some item => predicate item = true /\ abs m !! key item = Some (value item)
  | None => forall k v, abs m !! k = Some v -> predicate (mkItem k v) = false
  end.
Proof.
  intros Hwf. split.
  - assert (is_hashmap_empty m = true <-> all_items m = []) as ->.
    { unfold is_hashmap_empty, all_items. induction (buckets m) as [|b bs IH]; simpl; [done|].
      rewrite andb_true_iff, IH. destruct b; simpl; naive_solver. }
    split.
    + intros E. unfold abs. by rewrite E.
    + intros E. destruct (all_items m) as [|[k v] l] eqn:El; [done|].
      assert (abs m !! k = Some v) as Hk; [|by rewrite E in Hk].
      apply abs_lookup_item; [done|]. rewrite El. left.
  - unfold hashmap_find_first. destruct (List.find predicate (all_items m)) as [[k v]|] eqn:E.
    + apply List.find_some in E as [Hi Hp]. split; [done|].
      by apply abs_lookup_item, list_elem_of_In.
    + intros k v Hv. apply (List.find_none _ _ E), list_elem_of_In. by apply abs_lookup_item.
Qed.

Lemma hashmap_traversals_witness :
  let m := @mkMap Z ∅ in
  (is_hashmap_empty m = true <-> abs m = ∅) /\
  match hashmap_find_first m (fun _ => true) with
  | Some item => true = true /\ abs m !! key item = Some (value item)
  | None => forall k v, abs m !! k = Some v -> true = false
  end.
Proof. intros m. apply (hashmap_traversals m (fun _ => true)). apply wf_empty. Defined.

Lemma total_hashmap_put {V} (m : hashmap_t V) k v old : total (hashmap_put m k v old).
Proof. unfold hashmap_put. cbv zeta. total_step. Qed.

Lemma total_create_hashmap {V} : total (@create_hashmap V).
Proof. unfold create_hashmap. total_step. Qed.
#[export] Hint Resolve total_hashmap_put total_create_hashmap : xprc.

Lemma total_reference_chain {V} (b : list (hashmap_item_t V)) : forall out, total (reference_chain b out).
Proof. induction b as [|item b IH]; intros out; simpl; total_step. Qed.
#[export] Hint Resolve total_reference_chain : xprc.

Lemma total_reference_chains {V} (bs : list (list (hashmap_item_t V))) : forall success out, total (reference_chains bs success out).
Proof. induction bs as [|b bs IH]; intros success out; simpl; total_step. Qed.
#[export] Hint Resolve total_reference_chains : xprc.

Lemma total_hashmap_reference_keys {V} (m : hashmap_t V) : total (hashmap_reference_keys m).
Proof. unfold hashmap_reference_keys. total_step. Qed.
#[export] Hint Resolve total_hashmap_reference_keys : xprc.

Lemma total_copy_all keys : total (copy_all keys).
Proof. induction keys as [|k keys IH]; simpl; total_step. Qed.
#[export] Hint Resolve total_copy_all : xprc.

Lemma total_hashmap_copy_keys {V} (m : hashmap_t V) : total (hashmap_copy_keys m).
Proof. unfold hashmap_copy_keys. total_step. Qed.
#[export] Hint Resolve total_hashmap_copy_keys : xprc.

(** The contents of a map are never needed for conversion. *)
Strategy 1000 [seqZ buckets all_items abs].
