(* ===== verification/Channels.v ===== *)
(** Channel IDs and the two-stage channel table ([channels.c], [channels.h]).

    Channel objects live in a heap because the table, the server and the
    commands share pointers to them. An access to [table->subtables] or to
    [subtable->channels] outside of the array is undefined behaviour. *)

From S2P Require Import Prelude CLib Utils.

(** * Channel IDs *)

Definition BAD_CHANNEL_ID_SEGMENT : Z := 255.
Definition BAD_CHANNEL_ID : Z := 2 ^ 32 - 1.
Definition CHANNELS_SEGMENT : Z := 62.
Definition CHANNELS_NUM_SUBTABLES : Z := CHANNELS_SEGMENT * CHANNELS_SEGMENT * CHANNELS_SEGMENT.

Definition char_to_channel_id_segment (ch : ascii) : Z :=
  if (code "a" <=? code ch) && (code ch <=? code "z") then code ch - code "a"
  else if (code "A" <=? code ch) && (code ch <=? code "Z") then code ch - code "A" + 26
  else if (code "0" <=? code ch) && (code ch <=? code "9") then code ch - code "0" + 52
  else BAD_CHANNEL_ID_SEGMENT.

Definition channel_id_segment_to_char (segment : Z) : ascii :=
  if segment <? 26 then chr (code "a" + segment)
  else if segment <? 52 then chr (code "A" + segment - 26)
  else if segment <? 62 then chr (code "0" + segment - 52)
  else "_"%char.

(** The loop [for (i = 0; i < 4; i++)], with [n] iterations left. *)
Fixpoint string_to_channel_id_loop (n : nat) (s : list ascii) (id : Z) : Z :=
  match n with
  | O => id
  | S n' =>
      let segment := char_to_channel_id_segment (default NUL (head s)) in
      if segment =? BAD_CHANNEL_ID_SEGMENT then BAD_CHANNEL_ID
      else string_to_channel_id_loop n' (tail s) (wrap_u 32 (Z.lor (Z.shiftl id 6) segment))
  end.

Definition string_to_channel_id (s : option (list ascii)) : Z :=
  match s with
  | None => BAD_CHANNEL_ID
  | Some s => string_to_channel_id_loop 4 s 0
  end.

(** The four characters written, from [destination[3]] down to [destination[0]]. *)
Fixpoint channel_id_to_string_loop (n : nat) (id : Z) (destination : cstr) : cstr :=
  match n with
  | O => destination
  | S n' =>
      channel_id_to_string_loop n' (Z.shiftr id 6) (channel_id_segment_to_char (Z.land id 63) :: destination)
  end.

Definition channel_id_to_string (id : Z) : cstr := channel_id_to_string_loop 4 id [].

(** * Channels and the channel table *)

Inductive channel_state_t := CHANNEL_STATE_INITIAL | CHANNEL_STATE_CONFIRMED | CHANNEL_STATE_CLOSED.

#[export] Instance channel_state_eq_dec : EqDecision channel_state_t.
Proof. solve_decision. Defined.

(** Addresses of heap objects. *)
Abbreviation loc := positive.

(** [ch_command] names the command descriptor (descriptors are static objects,
    one per registered command name). *)
Record channel_t := mkChannel {
  ch_id : Z;
  ch_state : channel_state_t;
  ch_destruction_requested : bool;
  ch_command : option cstr;
  ch_command_ref : option loc;
}.

Definition set_ch_state (st : channel_state_t) (c : channel_t) : channel_t :=
  mkChannel (ch_id c) st (ch_destruction_requested c) (ch_command c) (ch_command_ref c).
Definition set_ch_destruction_requested (c : channel_t) : channel_t :=
  mkChannel (ch_id c) (ch_state c) true (ch_command c) (ch_command_ref c).
Definition set_ch_command (cmd : option cstr) (c : channel_t) : channel_t :=
  mkChannel (ch_id c) (ch_state c) (ch_destruction_requested c) cmd (ch_command_ref c).
Definition set_ch_command_ref (ref : option loc) (c : channel_t) : channel_t :=
  mkChannel (ch_id c) (ch_state c) (ch_destruction_requested c) (ch_command c) ref.

(** A subtable maps the slots that hold a channel to its address. *)
Abbreviation channels_subtable_t := (gmap Z loc).

Record channels_table_t := mkTable {
  destruction_pending : bool;
  subtables : gmap Z channels_subtable_t;
}.

(** The heap of channels, the table of a session and the environment. *)
Record channels := mkChannels {
  cs_heap : gmap loc channel_t;
  cs_table : channels_table_t;
  cs_env : env;
}.

Definition channel_table_address (id : Z) : Z := Z.shiftr id 6.
Definition channel_subtable_address (id : Z) : Z := Z.land id 63.

Definition in_table (a : Z) : bool := (0 <=? a) && (a <? CHANNELS_NUM_SUBTABLES).
Definition in_subtable (b : Z) : bool := (0 <=? b) && (b <? CHANNELS_SEGMENT).

(** [table->subtables[a]] and [subtable->channels[b]]. *)
Definition read_subtable (a : Z) : M channels (option channels_subtable_t) :=
  if in_table a then gets (fun s => subtables (cs_table s) !! a) else ub.
Definition read_slot (st : channels_subtable_t) (b : Z) : M channels (option loc) :=
  if in_subtable b then mret (st !! b) else ub.

Definition set_subtable (a : Z) (st : option channels_subtable_t) (s : channels) : channels :=
  mkChannels (cs_heap s)
    (mkTable (destruction_pending (cs_table s)) (partial_alter (fun _ => st) a (subtables (cs_table s))))
    (cs_env s).

Definition write_subtable (a : Z) (st : option channels_subtable_t) : M channels unit :=
  if in_table a then modify (set_subtable a st) else ub.

Definition load (l : loc) : M channels channel_t := fun s => (fun c => (c, s)) <$> cs_heap s !! l.
Definition store (l : loc) (c : channel_t) : M channels unit := fun s =>
  match cs_heap s !! l with
  | Some _ => Some (tt, mkChannels (<[l := c]> (cs_heap s)) (cs_table s) (cs_env s))
  | None => None
  end.

Definition in_env {A} (m : M env A) : M channels A :=
  zoom cs_env (fun e s => mkChannels (cs_heap s) (cs_table s) e) m.

Definition empty_table : channels_table_t := mkTable false ∅.

Definition create_channels_table : M env (option channels_table_t) :=
  ok ← zmalloc (8 * (CHANNELS_NUM_SUBTABLES + 1)); mret (if ok : bool then Some empty_table else None).

Definition get_channel (id : Z) : M channels (option loc) :=
  subtable ← read_subtable (channel_table_address id);
  match subtable with
  | None => mret None
  | Some subtable => read_slot subtable (channel_subtable_address id)
  end.

Definition has_channel (id : Z) : M channels bool :=
  c ← get_channel id; mret (bool_decide (is_Some c)).

(** Are all [CHANNELS_SEGMENT] slots NULL? *)
Definition subtable_empty (st : channels_subtable_t) : bool :=
  forallb (fun i => bool_decide (st !! i = None)) (seqZ 0 CHANNELS_SEGMENT).

Definition pop_channel (id : Z) : M channels (option loc) :=
  let table_address := channel_table_address id in
  subtable ← read_subtable table_address;
  match subtable with
  | None => mret None
  | Some subtable =>
      let subtable_address := channel_subtable_address id in
      channel ← read_slot subtable subtable_address;
      let subtable' := delete subtable_address subtable in
      _ ← write_subtable table_address (if subtable_empty subtable' then None else Some subtable');
      mret channel
  end.

Definition put_channel (channel : loc) : M channels bool :=
  s ← get;
  if destruction_pending (cs_table s) then mret false
  else
    c ← load channel;
    let table_address := channel_table_address (ch_id c) in
    let subtable_address := channel_subtable_address (ch_id c) in
    subtable ← read_subtable table_address;
    subtable ←
      match subtable with
      | Some subtable => mret (Some subtable)
      | None =>
          ok ← in_env (zmalloc (8 * CHANNELS_SEGMENT));
          if ok : bool then _ ← write_subtable table_address (Some ∅); mret (Some ∅)
          else mret None
      end;
    match subtable with
    | None => mret false
    | Some subtable =>
        present ← read_slot subtable subtable_address;
        match present with
        | Some _ => mret false
        | None =>
            _ ← write_subtable table_address (Some (<[subtable_address := channel]> subtable));
            mret true
        end
    end.

Definition request_channel_destruction (id : Z) : M channels unit :=
  channel ← get_channel id;
  match channel with
  | None => mret tt
  | Some channel => c ← load channel; store channel (set_ch_destruction_requested c)
  end.

Section Destroy.
(** The destructor may act on a larger state, of which the channels are a part. *)
Context {W : Type} (on_channels : forall A, M channels A -> M W A) (destructor : loc -> M W unit).
Arguments on_channels {A}.

(** Walks the slots of subtable [a] from [i] on, with [n] slots left. The
    subtable is freed early when a destructor call has popped its last channel. *)
Fixpoint destroy_channels_subtable (n : nat) (a i : Z) : M W unit :=
  match n with
  | O => mret tt
  | S n' =>
      subtable ← on_channels (read_subtable a);
      match subtable with
      | None => ub
      | Some subtable =>
          channel ← on_channels (read_slot subtable i);
          match channel with
          | None => destroy_channels_subtable n' a (i + 1)
          | Some channel =>
              _ ← destructor channel;
              subtable ← on_channels (read_subtable a);
              match subtable with
              | None => mret tt
              | Some _ => destroy_channels_subtable n' a (i + 1)
              end
          end
      end
  end.

Definition set_table_pending (s : channels) : channels :=
  mkChannels (cs_heap s) (mkTable true (subtables (cs_table s))) (cs_env s).

Definition destroy_channels_table : M W unit :=
  _ ← on_channels (modify set_table_pending);
  for_each
    (fun i =>
       subtable ← on_channels (read_subtable i);
       match subtable with
       | None => mret tt
       | Some _ =>
           _ ← destroy_channels_subtable (Z.to_nat CHANNELS_SEGMENT) i 0;
           on_channels (write_subtable i None)
       end)
    (seqZ 0 CHANNELS_NUM_SUBTABLES).
End Destroy.

(** * Channel IDs and their text *)

Definition alphanumeric (c : ascii) : bool :=
  in_range "a" "z" c || in_range "A" "Z" c || in_range "0" "9" c.

(** Segments [0] to [61] and the alphanumeric characters correspond. *)
Lemma segment_cases c :
  (alphanumeric c = false /\ char_to_channel_id_segment c = BAD_CHANNEL_ID_SEGMENT) \/
  (alphanumeric c = true /\ 0 <= char_to_channel_id_segment c < 62 /\
   channel_id_segment_to_char (char_to_channel_id_segment c) = c).
Proof.
  destruct c as [[] [] [] [] [] [] [] []]; vm_compute;
    first [left; split; reflexivity | right; repeat split; congruence].
Qed.

Lemma lor_segment id x : 0 <= id -> 0 <= x < 64 -> Z.lor (Z.shiftl id 6) x = id * 64 + x.
Proof.
  intros ??. rewrite Z.shiftl_mul_pow2 by lia. change (2 ^ 6) with 64.
  rewrite <-Z.lxor_lor; [rewrite <-Z.add_nocarry_lxor; [done|]|];
    apply Z.bits_inj'; intros n ?; rewrite Z.land_spec, Z.bits_0;
    (destruct (Z.lt_ge_cases n 6);
      [change 64 with (2 ^ 6); rewrite Z.mul_pow2_bits_low by lia; done
      |rewrite (Z.bits_above_log2 x), andb_false_r; [done|lia|]]);
    (destruct (Z.eq_dec x 0) as [-> |]; [simpl; lia|];
     apply Z.log2_lt_pow2; [lia|]; apply (Z.lt_le_trans _ (2 ^ 6)); [simpl; lia|];
     apply Z.pow_le_mono_r; lia).
Qed.

Lemma land_63 z : Z.land z 63 = z mod 64.
Proof. change 63 with (Z.ones 6). by rewrite Z.land_ones by lia. Qed.

Lemma shiftr_6 z : Z.shiftr z 6 = z / 64.
Proof. by rewrite Z.shiftr_div_pow2 by lia. Qed.

(** The ID whose text is [a b c d]. *)
Definition id_of_segments (a b c d : Z) : Z := ((a * 64 + b) * 64 + c) * 64 + d.

Lemma string_to_channel_id_step n s id c t :
  s = c :: t -> alphanumeric c = true -> 0 <= id < 2 ^ 26 ->
  string_to_channel_id_loop (S n) s id = string_to_channel_id_loop n t (id * 64 + char_to_channel_id_segment c).
Proof.
  intros -> Hc ?. destruct (segment_cases c) as [[? _]|(_ & ? & _)]; [congruence|].
  simpl. rewrite (proj2 (Z.eqb_neq _ _)) by (unfold BAD_CHANNEL_ID_SEGMENT; lia).
  rewrite lor_segment, wrap_u_small by lia. done.
Qed.

Lemma string_to_channel_id_bad n s id :
  alphanumeric (default NUL (head s)) = false -> string_to_channel_id_loop (S n) s id = BAD_CHANNEL_ID.
Proof.
  intros Hc. destruct (segment_cases (default NUL (head s))) as [[_ E]|(? & _ & _)]; [|congruence].
  simpl. by rewrite E.
Qed.

Lemma segment_range c : alphanumeric c = true -> 0 <= char_to_channel_id_segment c < 62.
Proof. intros ?. destruct (segment_cases c) as [[? _]|(_ & ? & _)]; [congruence|done]. Qed.

(** One character of an ID text, as the loop sees it. *)
Ltac id_char s :=
  let c := fresh "c" in
  destruct s as [|c s]; [by apply string_to_channel_id_bad|];
  destruct (alphanumeric c) eqn:?;
  [erewrite string_to_channel_id_step; [|reflexivity|assumption|]
  |rewrite string_to_channel_id_bad by done; simpl; repeat case_match; done].

Lemma string_to_channel_id_eq s :
  string_to_channel_id (Some s) =
  match s with
  | a :: b :: c :: d :: _ =>
      if alphanumeric a && alphanumeric b && alphanumeric c && alphanumeric d then
        id_of_segments (char_to_channel_id_segment a) (char_to_channel_id_segment b)
          (char_to_channel_id_segment c) (char_to_channel_id_segment d)
      else BAD_CHANNEL_ID
  | _ => BAD_CHANNEL_ID
  end.
Proof.
  unfold string_to_channel_id. pose proof segment_range as Hr.
  id_char s; [id_char s; [id_char s; [id_char s|]|]|]; [simpl; done|..];
    repeat match goal with H : alphanumeric ?c = true |- _ => apply Hr in H end; lia.
Qed.

(** Text IDs are numbers of 24 bits whose last segment is below 62. *)
Lemma id_of_segments_range a b c d :
  0 <= a < 62 -> 0 <= b < 62 -> 0 <= c < 62 -> 0 <= d < 62 ->
  0 <= id_of_segments a b c d < 2 ^ 24 /\
  (id_of_segments a b c d / 64 = (a * 64 + b) * 64 + c) /\ (id_of_segments a b c d mod 64 = d).
Proof.
  intros. unfold id_of_segments. split_and!; [lia|lia| |].
  - rewrite Z.div_add_l, (Z.div_small d), Z.add_0_r by lia. done.
  - rewrite Z.add_comm, Z.mod_add by lia. apply Z.mod_small. lia.
Qed.

Lemma channel_id_to_string_eq a b c d :
  0 <= a < 62 -> 0 <= b < 62 -> 0 <= c < 62 -> 0 <= d < 62 ->
  channel_id_to_string (id_of_segments a b c d) =
  [channel_id_segment_to_char a; channel_id_segment_to_char b;
   channel_id_segment_to_char c; channel_id_segment_to_char d].
Proof.
  intros. unfold channel_id_to_string, channel_id_to_string_loop.
  assert (forall h x, 0 <= x < 62 -> Z.land (h * 64 + x) 63 = x /\ Z.shiftr (h * 64 + x) 6 = h) as Hs.
  { intros h x ?. rewrite land_63, shiftr_6, Z.div_add_l, (Z.div_small x), Z.add_0_r by lia.
    rewrite Z.add_comm, Z.mod_add, Z.mod_small by lia. done. }
  unfold id_of_segments.
  destruct (Hs ((a * 64 + b) * 64 + c) d ltac:(lia)) as [-> ->].
  destruct (Hs (a * 64 + b) c ltac:(lia)) as [-> ->].
  destruct (Hs a b ltac:(lia)) as [-> ->].
  destruct (Hs 0 a ltac:(lia)) as [Ha _]. by rewrite Z.mul_0_l, Z.add_0_l in Ha; rewrite Ha.
Qed.

#[global] Arguments string_to_channel_id : simpl never.

(** The IDs a client can name. *)
Definition valid_id_text (s : list ascii) : bool :=
  match s with
  | a :: b :: c :: d :: _ => alphanumeric a && alphanumeric b && alphanumeric c && alphanumeric d
  | _ => false
  end.

Lemma valid_id_segments s :
  valid_id_text s = true ->
  exists a b c d ca cb cc cd t,
    s = ca :: cb :: cc :: cd :: t /\
    a = char_to_channel_id_segment ca /\ b = char_to_channel_id_segment cb /\
    c = char_to_channel_id_segment cc /\ d = char_to_channel_id_segment cd /\
    0 <= a < 62 /\ 0 <= b < 62 /\ 0 <= c < 62 /\ 0 <= d < 62 /\
    string_to_channel_id (Some s) = id_of_segments a b c d /\
    channel_id_to_string (id_of_segments a b c d) = [ca; cb; cc; cd].
Proof.
  intros H. rewrite string_to_channel_id_eq.
  destruct s as [|ca [|cb [|cc [|cd t]]]]; try done. simpl in H. rewrite H.
  repeat match goal with H : (_ && _) = true |- _ => apply andb_prop in H as [? ?] end.
  eexists _, _, _, _, ca, cb, cc, cd, t. split_and!; try done; try by apply segment_range.
  rewrite channel_id_to_string_eq by by apply segment_range.
  assert (forall x, alphanumeric x = true -> channel_id_segment_to_char (char_to_channel_id_segment x) = x) as Hx.
  { intros x ?. destruct (segment_cases x) as [[? _]|(_ & _ & ?)]; [congruence|done]. }
  by rewrite !Hx.
Qed.

(** [string_to_channel_id] accepts exactly the texts that begin with four
    alphanumeric characters, and [channel_id_to_string] gives these characters
    back, so that distinct channel texts are distinct IDs. *)
Theorem channel_id_roundtrip s :
  (string_to_channel_id (Some s) <> BAD_CHANNEL_ID <-> valid_id_text s = true) /\
    (valid_id_text s = true ->
   0 <= string_to_channel_id (Some s) < 2 ^ 24 /\
    channel_id_to_string (string_to_channel_id (Some s)) = take 4 s).
Proof.
  split.
  - destruct (valid_id_text s) eqn:E.
    + split; [done|]. intros _.
      destruct (valid_id_segments s E) as (a & b & c & d & ? & ? & ? & ? & ? & _ & _ & _ & _ & _ & ? & ? & ? & ? & -> & _).
      pose proof (id_of_segments_range a b c d). unfold BAD_CHANNEL_ID. lia.
    + split; [|done]. rewrite string_to_channel_id_eq.
      destruct s as [|ca [|cb [|cc [|cd t]]]]; try done. simpl in E. by rewrite E.
  - intros E.
    destruct (valid_id_segments s E) as (a & b & c & d & ca & cb & cc & cd & t & -> & _ & _ & _ & _ & ? & ? & ? & ? & -> & ->).
    pose proof (id_of_segments_range a b c d). split; [lia|done].
Qed.

(** * The table as a partial map from IDs to channels *)

(** Does the table have a slot for the ID? *)
Definition addressable (id : Z) : bool :=
  in_table (channel_table_address id) && in_subtable (channel_subtable_address id).

(** The channel registered for an ID. *)
Definition registered (s : channels) (id : Z) : option loc :=
  subtables (cs_table s) !! channel_table_address id ≫= lookup (channel_subtable_address id).

(** Every allocated subtable is in use, and only at slots it has. *)
Definition wf (s : channels) : Prop :=
  forall a st, subtables (cs_table s) !! a = Some st ->
    st <> ∅ /\ forall b, is_Some (st !! b) -> in_subtable b = true.

Lemma address_inj id id' :
  channel_table_address id = channel_table_address id' ->
  channel_subtable_address id = channel_subtable_address id' -> id = id'.
Proof.
  unfold channel_table_address, channel_subtable_address. rewrite !shiftr_6, !land_63.
  pose proof (Z.div_mod id 64 ltac:(lia)). pose proof (Z.div_mod id' 64 ltac:(lia)). lia.
Qed.

Lemma get_channel_eq id s : addressable id = true -> get_channel id s = Some (registered s id, s).
Proof.
  intros [Ht Hs]%andb_prop. unfold get_channel, registered, read_subtable, read_slot.
  rewrite Ht, Hs. mred. by destruct (_ !! _).
Qed.

Lemma get_channel_ub id s : in_table (channel_table_address id) = false -> get_channel id s = None.
Proof. intros H. unfold get_channel, read_subtable. by rewrite H. Qed.

Lemma subtable_empty_true st :
  (forall b, is_Some (st !! b) -> in_subtable b = true) -> subtable_empty st = true <-> st = ∅.
Proof.
  intros Hst. unfold subtable_empty. rewrite forallb_forall. split.
  - intros H. apply map_eq. intros b. rewrite lookup_empty.
    destruct (st !! b) as [l|] eqn:E; [|done]. exfalso.
    assert (in_subtable b = true) as Hb by (apply Hst; eauto). apply andb_prop in Hb as [??]. bools.
    assert (In b (seqZ 0 CHANNELS_SEGMENT)) as Hin by (apply list_elem_of_In, elem_of_seqZ; lia).
    apply H, bool_decide_eq_true in Hin. congruence.
  - intros -> b _. apply bool_decide_eq_true, lookup_empty.
Qed.

(** Writing a subtable changes the registrations of the IDs that address it only. *)
Lemma registered_write s a st id :
  registered (set_subtable a st s) id =
  if decide (channel_table_address id = a) then st ≫= lookup (channel_subtable_address id)
  else registered s id.
Proof.
  unfold registered, set_subtable. simpl. case_decide as H.
  - subst a. by rewrite lookup_partial_alter_eq.
  - by rewrite lookup_partial_alter_ne.
Qed.

Lemma wf_write s a st :
  wf s -> (forall st', st = Some st' -> st' <> ∅ /\ forall b, is_Some (st' !! b) -> in_subtable b = true) ->
  wf (set_subtable a st s).
Proof.
  intros Hwf Hst a' st'. unfold set_subtable. simpl. destruct (decide (a = a')) as [<- |].
  - rewrite lookup_partial_alter_eq. apply Hst.
  - rewrite lookup_partial_alter_ne by done. apply Hwf.
Qed.

Lemma pop_channel_run s id :
  wf s -> addressable id = true ->
  exists s', pop_channel id s = Some (registered s id, s') /\ wf s' /\ cs_heap s' = cs_heap s /\
    forall id', registered s' id' = if decide (id' = id) then None else registered s id'.
Proof.
  intros Hwf Ha.
  pose proof Ha as [Ht Hs]%andb_prop.
  unfold pop_channel, read_subtable, read_slot, write_subtable. rewrite Ht, Hs. mred.
  unfold registered at 1. destruct (subtables (cs_table s) !! channel_table_address id) as [st|] eqn:E; simpl.
  - destruct (Hwf _ _ E) as [_ Hst].
    assert (forall b, is_Some (delete (channel_subtable_address id) st !! b) -> in_subtable b = true) as Hst'.
    { intros b [l [_ ?]%lookup_delete_Some]. apply Hst. eauto. }
    pose proof (subtable_empty_true _ Hst') as He.
    eexists. split_and!; [done| |done|].
    + apply wf_write; [done|]. intros st'. destruct (subtable_empty _); [done|].
      intros [= <-]. split; [|done]. by intros ?%He.
    + intros id'. rewrite registered_write. case_decide as Hd.
      * assert ((if subtable_empty (delete (channel_subtable_address id) st) then None
                 else Some (delete (channel_subtable_address id) st)) ≫= lookup (channel_subtable_address id')
                = delete (channel_subtable_address id) st !! channel_subtable_address id') as ->.
        { destruct (subtable_empty _); simpl; [|done].
          by rewrite (proj1 He eq_refl), lookup_empty. }
        destruct (decide (id' = id)) as [-> |Hne]; [by rewrite lookup_delete_eq|].
        rewrite lookup_delete_ne by (intros ?; by apply Hne, address_inj).
        unfold registered. by rewrite Hd, E.
      * by rewrite decide_False by congruence.
  - eexists. split_and!; [done|done|done|]. intros id'. case_decide as Hd; [|done].
    subst id'. unfold registered. by rewrite E.
Qed.

Lemma load_eq s l c : cs_heap s !! l = Some c -> load l s = Some (c, s).
Proof. intros H. unfold load. by rewrite H. Qed.

Lemma in_env_eq {A} (m : M env A) s a e :
  m (cs_env s) = Some (a, e) -> in_env m s = Some (a, mkChannels (cs_heap s) (cs_table s) e).
Proof. intros H. unfold in_env, zoom. by rewrite H. Qed.

Lemma set_subtable_twice a st st' s : set_subtable a st (set_subtable a st' s) = set_subtable a st s.
Proof. unfold set_subtable. simpl. by rewrite partial_alter_partial_alter_eq. Qed.

Lemma register_write s id l :
  wf s -> in_subtable (channel_subtable_address id) = true ->
  let st := default ∅ (subtables (cs_table s) !! channel_table_address id) in
  let s' := set_subtable (channel_table_address id) (Some (<[channel_subtable_address id := l]> st)) s in
  wf s' /\ forall id', registered s' id' = if decide (id' = id) then Some l else registered s id'.
Proof.
  intros Hwf Hs st s'. split.
  - apply wf_write; [done|]. intros st' [= <-]. split; [apply insert_non_empty|].
    intros b. rewrite lookup_insert_is_Some'. intros [<- | Hb]; [done|]. unfold st in Hb.
    destruct (subtables (cs_table s) !! _) as [st0|] eqn:E; simpl in Hb; [by apply (Hwf _ _ E)|].
    rewrite lookup_empty in Hb. by apply is_Some_None in Hb.
  - intros id'. unfold s'. rewrite registered_write. case_decide as Hid; simpl.
    + destruct (decide (id' = id)) as [-> |Hne]; [by rewrite lookup_insert_eq|].
      rewrite lookup_insert_ne by (intros ?; by apply Hne, address_inj).
      unfold registered, st. rewrite Hid. by destruct (_ !! _); simpl; [|rewrite lookup_empty].
    + by rewrite decide_False by congruence.
Qed.

(** When registering a channel under [id] succeeds. *)
Definition can_register (s : channels) (id : Z) : bool :=
  negb (destruction_pending (cs_table s)) &&
  match registered s id with
  | Some _ => false
  | None => bool_decide (is_Some (subtables (cs_table s) !! channel_table_address id)) || alloc_next (cs_env s)
  end.

Lemma put_channel_run s l c :
  wf s -> cs_heap s !! l = Some c -> addressable (ch_id c) = true ->
  exists s', put_channel l s = Some (can_register s (ch_id c), s') /\ wf s' /\ cs_heap s' = cs_heap s /\
    forall id, registered s' id =
      if can_register s (ch_id c) && bool_decide (id = ch_id c) then Some l else registered s id.
Proof.
  intros Hwf Hl [Ht Hs]%andb_prop. unfold put_channel, can_register.
  change (get ≫= ?f) with (fun s => f s s). cbv beta.
  destruct (destruction_pending (cs_table s)) eqn:Hd; simpl; [by eexists|].
  erewrite bind_eq by by apply load_eq. unfold read_subtable, write_subtable, read_slot.
  rewrite Ht, Hs. pose proof (register_write s (ch_id c) l Hwf Hs) as [Hwf' Hreg].
  remember (registered s (ch_id c)) as r eqn:Hr. unfold registered in Hr.
  destruct (subtables (cs_table s) !! channel_table_address (ch_id c)) as [st|] eqn:E; simpl in *.
  - mred. rewrite E, <-Hr. destruct r; [by eexists|].
    eexists. split_and!; [done..|]. intros id. rewrite Hreg. by rewrite decide_bool_decide.
  - subst r. mred. rewrite E. unfold in_env, zoom. rewrite zmalloc_eq by done.
    destruct (alloc_next (cs_env s)); [|by eexists].
    mred. rewrite lookup_empty. rewrite set_subtable_twice.
    eexists. split_and!; [done|by apply Hwf'|done|]. intros id.
    etrans; [apply Hreg|]. by rewrite decide_bool_decide.
Qed.

(** C10: For IDs that do not start with 7, 8 or 9 (and so have a place in the arrays; for
    the others the code runs out of their bounds, as [channel_lookup_out_of_bounds] shows)
    the channel table is a map from IDs to channels: looking up and removing give what was
    registered under the ID, removing forgets it and nothing else; [put_channel] registers
    a channel under its own ID exactly when the table is not being destroyed, the ID is
    free and there is memory for a subtable. *)
Theorem channel_table_refines_map s id :
  wf s -> addressable id = true ->
  get_channel id s = Some (registered s id, s) /\
  (exists s', pop_channel id s = Some (registered s id, s') /\ wf s' /\ cs_heap s' = cs_heap s /\
    forall id', registered s' id' = if decide (id' = id) then None else registered s id') /\
  (forall l c, cs_heap s !! l = Some c -> ch_id c = id ->
    exists s', put_channel l s = Some (can_register s id, s') /\ wf s' /\ cs_heap s' = cs_heap s /\
    forall id', registered s' id' = if can_register s id && bool_decide (id' = id) then Some l else registered s id').
Proof.
  intros Hwf Ha. split; [by apply get_channel_eq|]. split; [by apply pop_channel_run|].
  intros l c Hl <-. by apply put_channel_run.
Qed.

Lemma channel_table_refines_map_witness :
  let c := mkChannel 66 CHANNEL_STATE_INITIAL false None None in
  let s := mkChannels {[7%positive := c]} empty_table calm in
  get_channel 66 s = Some (registered s 66, s) /\
  (exists s', pop_channel 66 s = Some (registered s 66, s') /\ wf s' /\ cs_heap s' = cs_heap s /\
    forall id', registered s' id' = if decide (id' = 66) then None else registered s id') /\
  (forall l c, cs_heap s !! l = Some c -> ch_id c = 66 ->
    exists s', put_channel l s = Some (can_register s 66, s') /\ wf s' /\ cs_heap s' = cs_heap s /\
    forall id', registered s' id' = if can_register s 66 && bool_decide (id' = 66) then Some l else registered s id').
Proof. intros c s. apply (channel_table_refines_map s 66); [done|reflexivity]. Defined.

(** C40: The table is sized for packed base-62 IDs, but IDs are 6 bits per
    character: a lookup reads outside of the table (undefined behaviour) for
    exactly the valid texts whose first three segments reach 62 * 62 * 62. No
    text that starts with a letter or a digit up to 5 does, every text that
    starts with 7, 8 or 9 does. *)
Theorem channel_lookup_out_of_bounds text s :
  valid_id_text text = true ->
  let id := string_to_channel_id (Some text) in
  (get_channel id s = None <-> CHANNELS_NUM_SUBTABLES <= id / 64) /\
  (char_to_channel_id_segment (default NUL (head text)) < 58 -> get_channel id s <> None) /\
  (58 < char_to_channel_id_segment (default NUL (head text)) -> get_channel id s = None).
Proof.
  intros H id. unfold id.
  destruct (valid_id_segments text H) as (a & b & c & d & ca & cb & cc & cd & t & -> & Ea & _ & _ & _ & ? & ? & ? & ? & -> & _).
  destruct (id_of_segments_range a b c d) as (_ & Hdiv & Hmod); [done..|].
  assert (get_channel (id_of_segments a b c d) s = None <-> CHANNELS_NUM_SUBTABLES <= id_of_segments a b c d / 64) as Hiff.
  { destruct (in_table (channel_table_address (id_of_segments a b c d))) eqn:Ht.
    - rewrite get_channel_eq.
      + unfold in_table, channel_table_address in Ht. rewrite shiftr_6 in Ht. bools. split; [done|lia].
      + unfold addressable. rewrite Ht. simpl. unfold channel_subtable_address, in_subtable.
        rewrite land_63, Hmod. unfold CHANNELS_SEGMENT. lia.
    - rewrite get_channel_ub by done. unfold in_table, channel_table_address in Ht.
      rewrite shiftr_6 in Ht. split; [|done]. intros _. lia. }
  split_and!; [exact Hiff| |]; simpl; rewrite <-Ea; rewrite Hiff, Hdiv;
    unfold CHANNELS_NUM_SUBTABLES, CHANNELS_SEGMENT; lia.
Qed.

Lemma channel_lookup_out_of_bounds_witness :
  let s := mkChannels ∅ empty_table calm in
  let id := string_to_channel_id (Some (lit "9999")) in
  (get_channel id s = None <-> CHANNELS_NUM_SUBTABLES <= id / 64) /\
  (char_to_channel_id_segment (default NUL (head (lit "9999"))) < 58 -> get_channel id s <> None) /\
  (58 < char_to_channel_id_segment (default NUL (head (lit "9999"))) -> get_channel id s = None).
Proof. intros s. apply (channel_lookup_out_of_bounds (lit "9999") s). reflexivity. Defined.
