(* ===== verification/Requests.v ===== *)
(** Decoding of request lines ([requests.c], [requests.h]).

    A request line is read from a buffer that is longer than the line and not
    terminated: reading past the buffer is undefined behaviour. Linked lists of
    options and parameters are lists in the order of their [next] links. *)

From S2P Require Import Prelude CLib Utils Channels.

Definition REQUEST_ERROR_INVALID_SYNTAX : error_t := REQUEST_ERROR_BASE + 0.
Definition REQUEST_ERROR_DUPLICATE_OPTION : error_t := REQUEST_ERROR_BASE + 1.

Definition CHANNEL_ID_LENGTH : Z := 4.
Definition COMMAND_NAME_LENGTH : Z := 4.
Definition MINIMUM_REQUEST_LENGTH : Z := CHANNEL_ID_LENGTH + 1 + COMMAND_NAME_LENGTH.

Definition PARAMETER_SEPARATOR : ascii := ";".
Definition OPTION_SEPARATOR : ascii := ";".
Definition OPTION_END_OF_KEY : ascii := "=".
Definition REQUEST_PART_SEPARATOR : ascii := " ".

Record command_option_t := mkOption { opt_name : cstr; opt_value : cstr }.

Record request_t := mkRequest {
  req_channel_id : Z;
  req_command_name : cstr;
  req_options : list command_option_t;
  req_parameters : list cstr;
}.

#[export] Instance command_option_eq_dec : EqDecision command_option_t.
Proof. solve_decision. Defined.
#[export] Instance request_eq_dec : EqDecision request_t.
Proof. solve_decision. Defined.

(** * Options of a request *)

Fixpoint find_option (name : cstr) (options : list command_option_t) : option command_option_t :=
  match options with
  | [] => None
  | option :: options' =>
      if str_eq (opt_name option) name then Some option else find_option name options'
  end.

Definition request_has_option (request : option request_t) (name : option cstr) : bool :=
  match request, name with
  | Some request, Some name => bool_decide (is_Some (find_option name (req_options request)))
  | _, _ => false
  end.

Definition request_has_only_options (request : option request_t) (names : option (list cstr)) : bool :=
  match request, names with
  | Some request, Some names =>
      forallb (fun option => existsb (fun name => str_eq (opt_name option) name) names) (req_options request)
  | _, _ => false
  end.

Definition request_get_option (request : option request_t) (name default_value : option cstr) : option cstr :=
  match request, name with
  | Some request, Some name =>
      match find_option name (req_options request) with
      | Some option => Some (opt_value option)
      | None => default_value
      end
  | _, _ => default_value
  end.

(** * Parsing *)

(** [!strcmp(s, t)] for a text [s] that need not be terminated. *)
Fixpoint strcmp_buffer (s : list ascii) (t : cstr) : option bool :=
  match s, t with
  | [], _ => None
  | c :: _, [] => Some (bool_decide (c = NUL))
  | c :: s', d :: t' => if bool_decide (c = d) then strcmp_buffer s' t' else Some false
  end.

(** The walk to the last recorded option, which itself is not compared. *)
Fixpoint has_duplicate (name : list ascii) (options : list command_option_t) : option bool :=
  match options with
  | option :: (_ :: _) as options' =>
      match strcmp_buffer name (opt_name option) with
      | Some false => has_duplicate name options'
      | r => r
      end
  | _ => Some false
  end.

Definition append_option (o : command_option_t) (r : request_t) : request_t :=
  mkRequest (req_channel_id r) (req_command_name r) (req_options r ++ [o]) (req_parameters r).
Definition append_parameter (p : cstr) (r : request_t) : request_t :=
  mkRequest (req_channel_id r) (req_command_name r) (req_options r) (req_parameters r ++ [p]).

(** [name] and [value] are the rest of the line from their first character on. *)
Definition add_option (request : request_t) (name : list ascii) (name_length : Z)
    (value : list ascii) (value_length : Z) : M env (error_t * request_t) :=
  duplicate ← from_ub (has_duplicate name (req_options request));
  if duplicate : bool then mret (REQUEST_ERROR_DUPLICATE_OPTION, request)
  else
    new_option ← zmalloc 24;
    if negb new_option then mret (ERROR_MEMORY_ALLOCATION, request)
    else
      name ← copy_partial_string (Some name) name_length;
      match name with
      | None => mret (ERROR_MEMORY_ALLOCATION, request)
      | Some name =>
          value ← copy_partial_string (Some value) value_length;
          match value with
          | None => mret (ERROR_MEMORY_ALLOCATION, request)
          | Some value => mret (ERROR_NONE, append_option (mkOption name value) request)
          end
      end.

Definition add_parameter (request : request_t) (parameter : list ascii) (parameter_length : Z)
  : M env (error_t * request_t) :=
  new_parameter ← zmalloc 16;
  if negb new_parameter then mret (ERROR_MEMORY_ALLOCATION, request)
  else
    parameter ← copy_partial_string (Some parameter) parameter_length;
    match parameter with
    | None => mret (ERROR_MEMORY_ALLOCATION, request)
    | Some parameter => mret (ERROR_NONE, append_parameter parameter request)
    end.

Definition read_char (line : list ascii) (i : Z) : M env ascii := from_ub (line !! Z.to_nat i).
Definition from (line : list ascii) (i : Z) : list ascii := drop (Z.to_nat i) line.

(** The branch [if (is_end_of_option)]. *)
Definition end_option (line : list ascii) (offset key_start key_length value_start : Z) (request : request_t)
  : M env (error_t * request_t) :=
  if (key_start =? 0) || (key_length =? 0) || (value_start =? 0)
  then mret (REQUEST_ERROR_INVALID_SYNTAX, request)
  else add_option request (from line key_start) key_length (from line value_start) (offset - value_start).

(** Where the current option's name and value start, given the character at [offset]. *)
Definition update_starts (offset key_start key_length value_start : Z) : Z * Z :=
  if key_start =? 0 then (offset, value_start)
  else if negb (key_length =? 0) && (value_start =? 0) then (key_start, offset)
  else (key_start, value_start).

(** The loop over the options; returns the error, the offset it ends at and
    the request. Positions are 0 where the code uses 0 for "not seen yet". *)
Fixpoint parse_options (fuel : nat) (line : list ascii) (length offset key_start key_length value_start : Z)
    (request : request_t) : M env (error_t * Z * request_t) :=
  match fuel with
  | O => ub
  | S fuel' =>
      if negb (offset <=? length) then mret (ERROR_NONE, offset, request)
      else
        ch ← read_char line offset;
        let is_end_of_key := (key_length =? 0) && bool_decide (ch = OPTION_END_OF_KEY) in
        let is_end_of_line := offset =? length in
        let is_end_of_options := is_end_of_line || bool_decide (ch = REQUEST_PART_SEPARATOR) in
        let is_end_of_option := is_end_of_options || bool_decide (ch = OPTION_SEPARATOR) in
        let '(key_start, value_start) := update_starts offset key_start key_length value_start in
        '(res, request, key_start, key_length, value_start) ←
          (if is_end_of_option then
             '(res, request) ← end_option line offset key_start key_length value_start request;
             mret (res, request, 0, 0, 0)
           else mret (ERROR_NONE, request, key_start, key_length, value_start));
        if negb (res =? ERROR_NONE) then mret (res, offset, request)
        else
          let key_length := if is_end_of_key then offset - key_start else key_length in
          let offset := if is_end_of_line then offset else offset + 1 in
          if is_end_of_options then mret (ERROR_NONE, offset, request)
          else parse_options fuel' line length offset key_start key_length value_start request
  end.

Fixpoint parse_parameters (fuel : nat) (line : list ascii) (length offset parameter_start : Z)
    (request : request_t) : M env (error_t * request_t) :=
  match fuel with
  | O => ub
  | S fuel' =>
      if negb (offset <=? length) then mret (ERROR_NONE, request)
      else
        ch ← read_char line offset;
        let is_end_of_line := offset =? length in
        let is_end_of_parameter := is_end_of_line || bool_decide (ch = PARAMETER_SEPARATOR) in
        let parameter_start := if parameter_start =? 0 then offset else parameter_start in
        '(res, request, parameter_start) ←
          (if is_end_of_parameter then
             '(res, request) ← add_parameter request (from line parameter_start) (offset - parameter_start);
             mret (res, request, 0)
           else mret (ERROR_NONE, request, parameter_start));
        if negb (res =? ERROR_NONE) then mret (res, request)
        else if is_end_of_line then mret (ERROR_NONE, request)
        else parse_parameters fuel' line length (offset + 1) parameter_start request
  end.

(** The part of [parse_request] after the request object was created. Each loop
    makes at most one iteration per offset. *)
Definition parse_request_fields (line : list ascii) (length : Z) (request : request_t)
  : M env (error_t * option request_t) :=
  let fuel := S (Z.to_nat length) in
  after_name ← read_char line MINIMUM_REQUEST_LENGTH;
  '(res, offset, request) ←
    (if bool_decide (after_name = OPTION_SEPARATOR)
     then parse_options fuel line length (MINIMUM_REQUEST_LENGTH + 1) 0 0 0 request
     else mret (ERROR_NONE, MINIMUM_REQUEST_LENGTH + 1, request));
  if negb (res =? ERROR_NONE) then mret (res, None)
  else
    '(res, request) ← parse_parameters fuel line length offset 0 request;
    if negb (res =? ERROR_NONE) then mret (res, None) else mret (ERROR_NONE, Some request).

(** [None] in the second component: no request is returned. *)
Definition parse_request (line : list ascii) (length : Z) : M env (error_t * option request_t) :=
  if length <? 0 then mret (ERROR_UNSPECIFIC, None)
  else if length <? MINIMUM_REQUEST_LENGTH then mret (REQUEST_ERROR_INVALID_SYNTAX, None)
  else
    separator ← read_char line CHANNEL_ID_LENGTH;
    if negb (bool_decide (separator = REQUEST_PART_SEPARATOR)) then mret (REQUEST_ERROR_INVALID_SYNTAX, None)
    else
      invalid ←
        (if MINIMUM_REQUEST_LENGTH <? length then
           ch ← read_char line MINIMUM_REQUEST_LENGTH;
           mret (negb (bool_decide (ch = REQUEST_PART_SEPARATOR)) && negb (bool_decide (ch = OPTION_SEPARATOR)))
         else mret false);
      if invalid : bool then mret (REQUEST_ERROR_INVALID_SYNTAX, None)
      else
        let channel_id := string_to_channel_id (Some line) in
        if channel_id =? BAD_CHANNEL_ID then mret (REQUEST_ERROR_INVALID_SYNTAX, None)
        else
          command_name ← copy_partial_string (Some (from line (CHANNEL_ID_LENGTH + 1))) COMMAND_NAME_LENGTH;
          match command_name with
          | None => mret (ERROR_MEMORY_ALLOCATION, None)
          | Some command_name =>
              ok ← zmalloc 32;
              if negb ok then mret (ERROR_MEMORY_ALLOCATION, None)
              else
                parse_request_fields line length (mkRequest channel_id command_name [] [])
          end.

(** * Reference grammar *)

(** A name of at least one character (which may itself be [=]), [=], a value. *)
Definition option_of_text (s : cstr) : option command_option_t :=
  match s with
  | [] => None
  | c :: s' =>
      match cut OPTION_END_OF_KEY s' with
      | (name, Some value) => Some (mkOption (c :: name) value)
      | (_, None) => None
      end
  end.

(** Options up to the first blank; what follows the blank are the parameters. *)
Definition options_of_text (s : cstr) : option (list command_option_t * cstr) :=
  let '(o, rest) := cut REQUEST_PART_SEPARATOR s in
  options ← mapM option_of_text (split_on OPTION_SEPARATOR o);
  Some (options, default [] rest).

Definition request_of_text (line : cstr) : option request_t :=
  let make options parameters :=
    mkRequest (string_to_channel_id (Some line)) (slice 5 4 line) options parameters in
  if valid_id_text line && (9 <=? len line) && bool_decide (line !! 4%nat = Some REQUEST_PART_SEPARATOR) then
    match drop 9 line with
    | [] => Some (make [] [])
    | c :: rest =>
        if bool_decide (c = REQUEST_PART_SEPARATOR) then Some (make [] (split_on PARAMETER_SEPARATOR rest))
        else if bool_decide (c = OPTION_SEPARATOR) then
          '(options, rest) ← options_of_text rest;
          Some (make options (split_on PARAMETER_SEPARATOR rest))
        else None
    end
  else None.

(** * Lemmas *)

(** An operation that either succeeds with [P], or runs out of memory, which
    the environment must allow; [e'] is the environment it leaves. *)
Definition succeeds (e e' : env) (res : error_t) (P : Prop) : Prop :=
  (env_alloc e = [] -> env_alloc e' = []) /\
  ((res = ERROR_NONE /\ P) \/ (res = ERROR_MEMORY_ALLOCATION /\ env_alloc e <> [])).

Lemma alloc_rest_nil e : env_alloc e = [] -> env_alloc (alloc_rest e) = [].
Proof. intros H. unfold alloc_rest. by rewrite H. Qed.

Lemma alloc_next_false e : alloc_next e = false -> env_alloc e <> [].
Proof. unfold alloc_next. by destruct (env_alloc e). Qed.

Lemma succeeds_failed e e' P :
  env_alloc e <> [] -> succeeds e e' ERROR_MEMORY_ALLOCATION P.
Proof. intros. split; [done|]. by right. Qed.

Lemma alloc_rest_not_nil e : env_alloc (alloc_rest e) <> [] -> env_alloc e <> [].
Proof. intros H ?. by apply H, alloc_rest_nil. Qed.

#[local] Hint Resolve alloc_next_false alloc_rest_nil alloc_rest_not_nil succeeds_failed : xprc.

Lemma add_parameter_spec r p n e :
  run (add_parameter r p n) e (fun '(res, r') e' =>
    succeeds e e' res (r' = append_parameter (c_str (slice 0 n p)) r)).
Proof.
  unfold add_parameter. apply run_bind. eapply run_eq; [by apply zmalloc_eq|].
  destruct (alloc_next e) eqn:He; simpl; [|apply run_ret; auto with xprc].
  apply run_bind. eapply run_eq; [by apply copy_partial_string_eq|].
  destruct (alloc_next (alloc_rest e)) eqn:He'; apply run_ret; [|auto with xprc].
  split; [auto with xprc|by left].
Qed.

Lemma add_option_spec r name n value m e :
  has_duplicate name (req_options r) = Some false ->
  run (add_option r name n value m) e (fun '(res, r') e' =>
    succeeds e e' res (r' = append_option (mkOption (c_str (slice 0 n name)) (c_str (slice 0 m value))) r)).
Proof.
  intros Hd. unfold add_option. apply run_bind. unfold from_ub. rewrite Hd.
  eapply run_eq; [reflexivity|]. simpl.
  apply run_bind. eapply run_eq; [by apply zmalloc_eq|].
  destruct (alloc_next e) eqn:He; simpl; [|apply run_ret; auto with xprc].
  apply run_bind. eapply run_eq; [by apply copy_partial_string_eq|].
  destruct (alloc_next (alloc_rest e)) eqn:He'; [|apply run_ret; auto with xprc].
  apply run_bind. eapply run_eq; [by apply copy_partial_string_eq|].
  destruct (alloc_next (alloc_rest (alloc_rest e))) eqn:He''; apply run_ret; [|auto 6 with xprc].
  split; [auto with xprc|by left].
Qed.

Lemma read_char_run line pre c t (Q : ascii -> env -> Prop) e i :
  line = pre ++ c :: t -> i = len pre -> Q c e -> run (read_char line i) e Q.
Proof.
  intros -> -> ?. unfold read_char, from_ub. rewrite Nat2Z.id, list_lookup_middle by done.
  by eapply run_eq; [reflexivity|].
Qed.

Lemma slice_from {A} (line pre cur t : list A) i n :
  line = pre ++ cur ++ t -> i = len pre -> n = len cur -> slice 0 n (drop (Z.to_nat i) line) = cur.
Proof.
  intros -> -> ->. unfold slice. rewrite !Nat2Z.id, drop_app_length, drop_0. apply take_app_length.
Qed.

(** ** Parameters *)

Definition append_parameters (ps : list cstr) (r : request_t) : request_t :=
  mkRequest (req_channel_id r) (req_command_name r) (req_options r) (req_parameters r ++ ps).

Lemma append_parameters_cons p ps r :
  append_parameters ps (append_parameter p r) = append_parameters (p :: ps) r.
Proof. unfold append_parameters, append_parameter. simpl. by rewrite <-app_assoc. Qed.

(** The part [cur] of the current parameter has been read; [t] and one
    character [x] beyond the line follow. *)
Lemma parse_parameters_spec t : forall fuel line pre cur x rest start r e,
  line = pre ++ cur ++ t ++ x :: rest -> pre <> [] ->
  start = len pre \/ (start = 0 /\ cur = []) ->
  PARAMETER_SEPARATOR ∉ cur -> no_nul (cur ++ t) -> (length t < fuel)%nat ->
  run (parse_parameters fuel line (len (pre ++ cur ++ t)) (len (pre ++ cur)) start r) e
    (fun '(res, r') e' => succeeds e e' res (r' = append_parameters (split_on PARAMETER_SEPARATOR (cur ++ t)) r)).
Proof.
  induction t as [|c t IH]; intros fuel line pre cur x rest start r e Hline Hpre Hstart Hcur Hnul Hfuel;
    (destruct fuel as [|fuel]; [simpl in Hfuel; lia|]); simpl parse_parameters;
    rewrite (proj2 (Z.leb_le _ _)) by (rewrite !length_app; lia); simpl negb; cbv iota.
  - apply run_bind. eapply read_char_run; [by rewrite app_assoc in Hline|done|].
    rewrite app_nil_r in *. rewrite Z.eqb_refl. simpl orb. cbv iota.
    assert ((if start =? 0 then len (pre ++ cur) else start) = len pre) as ->.
    { destruct pre; [done|]. destruct Hstart as [-> | [-> ->]]; [done|]. by rewrite app_nil_r. }
    apply run_bind, run_bind. eapply run_mono; [|apply add_parameter_spec].
    intros [res r'] e' [Hl H]. apply run_ret. unfold from in H.
    erewrite slice_from in H by (done || rewrite length_app; lia).
    rewrite c_str_id in H by done. destruct H as [[-> ->] | [-> ?]]; apply run_ret.
    + split; [done|]. left. by rewrite split_on_none.
    + auto with xprc.
  - apply run_bind. eapply read_char_run; [rewrite app_assoc in Hline; simpl in Hline; done|done|].
    assert ((len (pre ++ cur) =? len (pre ++ cur ++ c :: t)) = false) as Heol.
    { apply Z.eqb_neq. rewrite !length_app. simpl. lia. }
    rewrite Heol. simpl orb.
    assert ((if start =? 0 then len (pre ++ cur) else start) = len pre) as ->.
    { destruct pre; [done|]. destruct Hstart as [-> | [-> ->]]; [done|]. by rewrite app_nil_r. }
    case_bool_decide as Hc.
    + subst c. apply run_bind, run_bind. eapply run_mono; [|apply add_parameter_spec].
      intros [res r'] e' [Hl H]. apply run_ret. unfold from in H.
      erewrite slice_from in H by (done || rewrite length_app; lia).
      apply no_nul_app in Hnul as Hnul'. destruct Hnul' as [Hnc [_ Hnt]%no_nul_cons].
      rewrite c_str_id in H by done.
      destruct H as [[-> ->] | [-> ?]]; [|apply run_ret; auto with xprc].
      simpl. rewrite (split_on_app _ cur) by done.
      replace (len (pre ++ cur) + 1) with (len ((pre ++ cur ++ [PARAMETER_SEPARATOR]) ++ []))
        by (rewrite app_nil_r, !length_app; simpl; lia).
      replace (len (pre ++ cur ++ PARAMETER_SEPARATOR :: t)) with
        (len ((pre ++ cur ++ [PARAMETER_SEPARATOR]) ++ [] ++ t)) by (rewrite !length_app; simpl; lia).
      eapply run_mono; [|eapply (IH fuel _ (pre ++ cur ++ [PARAMETER_SEPARATOR]) [] x rest)].
      * intros [res r''] e'' [? Hs]. split; [auto|].
        destruct Hs as [[-> ->] | [-> ?]]; [left|right; split; [done|naive_solver]].
        by rewrite append_parameters_cons.
      * rewrite Hline. by rewrite <-!app_assoc.
      * by destruct pre.
      * by right.
      * apply not_elem_of_nil.
      * done.
      * simpl in Hfuel. lia.
    + apply run_bind, run_ret. simpl.
      replace (len (pre ++ cur) + 1) with (len (pre ++ cur ++ [c])) by (rewrite !length_app; simpl; lia).
      replace (cur ++ c :: t) with ((cur ++ [c]) ++ t) in * by by rewrite <-app_assoc.
      eapply (IH fuel _ pre (cur ++ [c]) x rest); [|done|by left| |done|simpl in Hfuel; lia].
      * rewrite Hline. by rewrite <-!app_assoc.
      * rewrite elem_of_app, list_elem_of_singleton. intros [? | ?]; congruence.
Qed.

(** ** Options *)

(** [options_of_text] when [cur] has been read of the first option. *)
Definition options_from (cur t : cstr) : option (list command_option_t * cstr) :=
  let '(o, rest) := cut REQUEST_PART_SEPARATOR t in
  match split_on OPTION_SEPARATOR o with
  | [] => None
  | first :: others =>
      o ← option_of_text (cur ++ first);
      os ← mapM option_of_text others;
      Some (o :: os, default [] rest)
  end.

Lemma options_from_start t : options_of_text t = options_from [] t.
Proof.
  unfold options_of_text, options_from. destruct (cut _ t) as [o rest].
  destruct (split_on OPTION_SEPARATOR o) as [|first others] eqn:E; [by apply split_on_nonempty in E|].
  simpl. destruct (option_of_text first); simpl; [|done]. by destruct (mapM _ others).
Qed.

Lemma options_from_eol cur : options_from cur [] = o ← option_of_text cur; Some ([o], []).
Proof. unfold options_from. simpl. by rewrite app_nil_r. Qed.

Lemma options_from_blank cur t :
  options_from cur (REQUEST_PART_SEPARATOR :: t) = o ← option_of_text cur; Some ([o], t).
Proof. unfold options_from. simpl. by rewrite app_nil_r. Qed.

Lemma options_from_next cur t :
  options_from cur (OPTION_SEPARATOR :: t) =
  o ← option_of_text cur; '(os, rest) ← options_from [] t; Some (o :: os, rest).
Proof.
  unfold options_from. simpl. destruct (cut _ t) as [o rest]. simpl. rewrite app_nil_r.
  destruct (split_on OPTION_SEPARATOR o) as [|first others] eqn:E; [by apply split_on_nonempty in E|].
  destruct (option_of_text cur); simpl; [|done]. destruct (option_of_text first); simpl; [|done].
  by destruct (mapM _ others).
Qed.

Lemma options_from_other cur c t :
  c <> REQUEST_PART_SEPARATOR -> c <> OPTION_SEPARATOR ->
  options_from cur (c :: t) = options_from (cur ++ [c]) t.
Proof.
  intros ??. unfold options_from. simpl. rewrite bool_decide_eq_false_2 by done.
  destruct (cut _ t) as [o rest]. simpl. rewrite bool_decide_eq_false_2 by done.
  destruct (split_on OPTION_SEPARATOR o) as [|first others] eqn:E; [by apply split_on_nonempty in E|].
  by rewrite <-app_assoc.
Qed.

(** The positions the loop keeps, for the part [cur] of an option read at
    [offset]: nothing yet, a part of the name, or the name and a part of the value. *)
Inductive option_state (offset : Z) : cstr -> Z -> Z -> Z -> Prop :=
| state_start : option_state offset [] 0 0 0
| state_name c name :
    OPTION_END_OF_KEY ∉ name ->
    option_state offset (c :: name) (offset - len (c :: name)) 0 0
| state_value c name value start :
    OPTION_END_OF_KEY ∉ name ->
    start = offset - len value \/ (start = 0 /\ value = []) ->
    option_state offset ((c :: name) ++ OPTION_END_OF_KEY :: value)
      (offset - len ((c :: name) ++ OPTION_END_OF_KEY :: value)) (len (c :: name)) start.

Lemma option_of_text_value c name value :
  OPTION_END_OF_KEY ∉ name ->
  option_of_text ((c :: name) ++ OPTION_END_OF_KEY :: value) = Some (mkOption (c :: name) value).
Proof. intros ?. simpl. by rewrite cut_app. Qed.

Lemma option_of_text_name c name : OPTION_END_OF_KEY ∉ name -> option_of_text (c :: name) = None.
Proof. intros ?. simpl. by rewrite cut_none. Qed.

(** An option name as the parser records it. *)
Definition is_name (s : cstr) : Prop := exists c name, s = c :: name /\ OPTION_END_OF_KEY ∉ name.

(** A recorded name is followed by its terminator where the rest of the line
    has [=]: they never compare equal. *)
Lemma strcmp_buffer_name c name t s :
  is_name s -> no_nul (c :: name) -> OPTION_END_OF_KEY ∉ name ->
  strcmp_buffer ((c :: name) ++ OPTION_END_OF_KEY :: t) s = Some false.
Proof.
  intros (d & s' & -> & Hs) [_ Hnul]%no_nul_cons Hname. simpl. case_bool_decide; [|done]. clear c d H.
  revert s' Hs. induction name as [|c name IH]; intros [|d s'] Hs; simpl; [done| | |].
  - apply not_elem_of_cons in Hs as [??]. by rewrite bool_decide_eq_false_2.
  - apply no_nul_cons in Hnul as [??]. by rewrite bool_decide_eq_false_2.
  - apply not_elem_of_cons in Hs as [??], Hname as [??]. apply no_nul_cons in Hnul as [??].
    case_bool_decide; [by apply IH|done].
Qed.

Lemma has_duplicate_name c name t os :
  Forall (fun o => is_name (opt_name o)) os -> no_nul (c :: name) -> OPTION_END_OF_KEY ∉ name ->
  has_duplicate ((c :: name) ++ OPTION_END_OF_KEY :: t) os = Some false.
Proof.
  intros Hos ??. induction Hos as [|o os Ho Hos IH]; [done|].
  destruct os as [|o' os]; [done|].
  transitivity (match strcmp_buffer ((c :: name) ++ OPTION_END_OF_KEY :: t) (opt_name o) with
                | Some false => has_duplicate ((c :: name) ++ OPTION_END_OF_KEY :: t) (o' :: os)
                | r => r end); [done|].
  by rewrite strcmp_buffer_name.
Qed.

Definition append_options (os : list command_option_t) (r : request_t) : request_t :=
  mkRequest (req_channel_id r) (req_command_name r) (req_options r ++ os) (req_parameters r).

Lemma append_options_cons o os r : append_options os (append_option o r) = append_options (o :: os) r.
Proof. unfold append_options, append_option. simpl. by rewrite <-app_assoc. Qed.

Lemma option_state_step offset cur ks kl vs c :
  option_state offset cur ks kl vs -> len cur < offset ->
  let '(ks', vs') := update_starts offset ks kl vs in
  option_state (offset + 1) (cur ++ [c]) ks'
    (if (kl =? 0) && bool_decide (c = OPTION_END_OF_KEY) then offset - ks' else kl) vs'.
Proof.
  intros Hst Hlt. unfold update_starts. destruct Hst as [|d name Hn|d name value start Hn Hs].
  - simpl. assert ((if bool_decide (c = OPTION_END_OF_KEY) then offset - offset else 0) = 0) as ->
      by (case_bool_decide; lia).
    pose proof (state_name (offset + 1) c [] (not_elem_of_nil _)) as H.
    by replace (offset + 1 - len [c]) with offset in H by (simpl; lia).
  - rewrite (proj2 (Z.eqb_neq (offset - len (d :: name)) 0)) by lia. simpl negb. simpl andb. cbv iota.
    case_bool_decide as Hc; subst.
    + replace (offset - (offset - len (d :: name))) with (len (d :: name)) by lia.
      pose proof (state_value (offset + 1) d name [] 0 Hn (or_intror (conj eq_refl eq_refl))) as H.
      by replace (offset + 1 - len ((d :: name) ++ [OPTION_END_OF_KEY])) with (offset - len (d :: name)) in H by llia.
    + assert (OPTION_END_OF_KEY ∉ name ++ [c]) as Hn'.
      { rewrite elem_of_app, list_elem_of_singleton. intros [? | ?]; congruence. }
      pose proof (state_name (offset + 1) d (name ++ [c]) Hn') as H.
      by replace (offset + 1 - len (d :: name ++ [c])) with (offset - len (d :: name)) in H by llia.
  - rewrite (proj2 (Z.eqb_neq (len (d :: name)) 0)) by (simpl; lia). simpl negb. simpl andb. cbv iota.
    rewrite (proj2 (Z.eqb_neq (offset - _) 0)) by lia.
    assert ((if start =? 0 then (offset - len ((d :: name) ++ OPTION_END_OF_KEY :: value), offset)
             else (offset - len ((d :: name) ++ OPTION_END_OF_KEY :: value), start))
            = (offset - len ((d :: name) ++ OPTION_END_OF_KEY :: value), offset - len value)) as ->.
    { rewrite length_app in Hlt. simpl in Hlt.
      destruct Hs as [-> | [-> ->]]; [rewrite (proj2 (Z.eqb_neq _ _)) by lia; done|].
      simpl. f_equal. lia. }
    pose proof (state_value (offset + 1) d name (value ++ [c]) (offset - len value) Hn) as H.
    replace (offset + 1 - len ((d :: name) ++ OPTION_END_OF_KEY :: value ++ [c]))
      with (offset - len ((d :: name) ++ OPTION_END_OF_KEY :: value)) in H by llia.
    rewrite <-app_assoc. apply H. left. llia.
Qed.

(** The end of an option records it if it is well-formed. *)
Lemma end_option_spec line pre cur t offset ks kl vs r e :
  line = pre ++ cur ++ t -> pre <> [] -> offset = len (pre ++ cur) -> no_nul cur ->
  Forall (fun o => is_name (opt_name o)) (req_options r) ->
  option_state offset cur ks kl vs ->
  let '(ks', vs') := update_starts offset ks kl vs in
  run (end_option line offset ks' kl vs' r) e (fun '(res, r') e' =>
    match option_of_text cur with
    | Some o => succeeds e e' res (r' = append_option o r) /\ is_name (opt_name o)
    | None => res = REQUEST_ERROR_INVALID_SYNTAX /\ e' = e
    end).
Proof.
  intros -> Hpre -> Hnul Hnames Hst.
  assert (0 < len pre) as Hp by (destruct pre; simpl; [done|lia]). rewrite length_app in *.
  unfold update_starts, end_option. inversion Hst as [| |d name value start Hn Hs]; subst.
  - simpl. rewrite orb_true_r. by apply run_ret.
  - rewrite (proj2 (Z.eqb_neq (_ - _) 0)) by (simpl; lia). simpl negb. simpl andb. cbv iota.
    rewrite orb_true_r. simpl orb. cbv iota. rewrite option_of_text_name by done. by apply run_ret.
  - rewrite (proj2 (Z.eqb_neq (_ - _) 0)) by lia.
    rewrite (proj2 (Z.eqb_neq (len (d :: name)) 0)) by (simpl; lia). simpl negb. simpl andb. cbv iota.
    set (cur := (d :: name) ++ OPTION_END_OF_KEY :: value) in *.
    replace (Z.of_nat (length pre + length cur) - len cur) with (len pre) by lia.
    assert (len value < len cur) by (unfold cur; rewrite length_app; simpl; lia).
    assert ((if vs =? 0 then (len pre, Z.of_nat (length pre + length cur)) else (len pre, vs))
            = (len pre, Z.of_nat (length pre + length cur) - len value)) as ->.
    { destruct Hs as [-> | [-> ->]]; [rewrite (proj2 (Z.eqb_neq _ _)) by lia; done|].
      simpl. f_equal. lia. }
    rewrite (proj2 (Z.eqb_neq (len pre) 0)) by lia. simpl orb.
    rewrite (proj2 (Z.eqb_neq (_ - len value) 0)) by llia.
    unfold cur. rewrite option_of_text_value by done. fold cur.
    apply no_nul_app in Hnul as [Hnn [_ Hnv]%no_nul_cons].
    eapply run_mono; [|apply add_option_spec].
    + intros [res r'] e' H'. split; [|by exists d, name]. unfold from in H'.
      rewrite (slice_from _ pre (d :: name) (OPTION_END_OF_KEY :: value ++ t)) in H'
        by (done || unfold cur; rewrite <-!app_assoc; done).
      rewrite (slice_from _ (pre ++ (d :: name) ++ [OPTION_END_OF_KEY]) value t) in H'
        by (try (unfold cur; rewrite <-!app_assoc; done); unfold cur; llia).
      by rewrite !c_str_id in H'.
    + unfold from. rewrite Nat2Z.id, drop_app_length. unfold cur. rewrite <-app_assoc.
      by apply has_duplicate_name.
Qed.

(** What the loop over the options achieves when [cur] has been read of the
    current option: the options of the grammar, and the offset of the text
    after them. *)
Definition options_result (line tail text cur : cstr) (r : request_t) (e : env)
    (result : error_t * Z * request_t) (e' : env) : Prop :=
  let '(res, offset, r') := result in
  match options_from cur text with
  | Some (os, rest) =>
      succeeds e e' res
        (r' = append_options os r /\
         exists pre, pre <> [] /\ line = pre ++ rest ++ tail /\ offset = len pre)
  | None =>
      res <> ERROR_NONE /\
      (res = REQUEST_ERROR_INVALID_SYNTAX \/ (res = ERROR_MEMORY_ALLOCATION /\ env_alloc e <> []))
  end.

Lemma append_option_names o r :
  Forall (fun o => is_name (opt_name o)) (req_options r) -> is_name (opt_name o) ->
  Forall (fun o => is_name (opt_name o)) (req_options (append_option o r)).
Proof. intros ??. unfold append_option. simpl. apply Forall_app. auto. Qed.

(** The last option, up to the end of the line or to a blank. *)
Lemma options_result_last line tail text rest cur r e res offset r' e' pre :
  options_from cur text = (o ← option_of_text cur; Some ([o], rest)) ->
  pre <> [] -> line = pre ++ rest ++ tail -> (res = ERROR_NONE -> offset = len pre) ->
  match option_of_text cur with
  | Some o => succeeds e e' res (r' = append_option o r) /\ is_name (opt_name o)
  | None => res = REQUEST_ERROR_INVALID_SYNTAX /\ e' = e
  end ->
  options_result line tail text cur r e (res, offset, r') e'.
Proof.
  intros E Hpre Hline Hoff H. unfold options_result. rewrite E.
  destruct (option_of_text cur) as [o|]; simpl.
  - destruct H as [[Hl H] _]. split; [done|]. destruct H as [[-> ->] | [-> ?]]; [left|by right].
    split; [done|]. split; [done|]. exists pre. auto.
  - destruct H as [-> _]. split; [done|]. by left.
Qed.

(** The options after a separator. *)
Lemma options_result_next line tail text cur o r e e1 result e2 :
  option_of_text cur = Some o -> succeeds e e1 ERROR_NONE True ->
  options_result line tail text [] (append_option o r) e1 result e2 ->
  options_result line tail (OPTION_SEPARATOR :: text) cur r e result e2.
Proof.
  intros Ho [Hl _] H. unfold options_result in *. destruct result as [[res offset] r'].
  rewrite options_from_next, Ho. simpl. destruct (options_from [] text) as [[os rest]|]; simpl.
  - destruct H as [Hl' H]. split; [auto|]. destruct H as [[-> [-> H]] | [-> ?]].
    + left. split; [done|]. split; [|done]. by rewrite append_options_cons.
    + right. split; [done|]. naive_solver.
  - destruct H as [? [-> | [-> ?]]]; split; [done|by left|done|right]. split; [done|]. naive_solver.
Qed.

Lemma parse_options_spec text : forall fuel line pre cur x rest ks kl vs r e,
  line = pre ++ cur ++ text ++ x :: rest -> pre <> [] ->
  option_state (len (pre ++ cur)) cur ks kl vs -> no_nul (cur ++ text) ->
  Forall (fun o => is_name (opt_name o)) (req_options r) -> (length text < fuel)%nat ->
  run (parse_options fuel line (len (pre ++ cur ++ text)) (len (pre ++ cur)) ks kl vs r) e
    (options_result line (x :: rest) text cur r e).
Proof.
  induction text as [|c text IH]; intros fuel line pre cur x rest ks kl vs r e Hline Hpre Hst Hnul Hnames Hfuel;
    (destruct fuel as [|fuel]; [simpl in Hfuel; lia|]); simpl parse_options;
    rewrite (proj2 (Z.leb_le _ _)) by llia; simpl negb; cbv iota;
    assert (len cur < len (pre ++ cur)) as Hp by (destruct pre; [done|llia]);
    apply no_nul_app in Hnul as Hnul'; destruct Hnul' as [Hnc Hnt];
    pose proof (end_option_spec line pre cur _ _ ks kl vs r e Hline Hpre eq_refl Hnc Hnames Hst) as Hend;
    try pose proof (option_state_step _ cur ks kl vs c Hst Hp) as Hstep;
    destruct (update_starts _ ks kl vs) as [ks' vs'];
    apply run_bind; (eapply read_char_run; [rewrite app_assoc in Hline; simpl in Hline; exact Hline|done|]).
  - rewrite app_nil_r, Z.eqb_refl. simpl orb. cbv iota.
    apply run_bind, run_bind. eapply run_mono; [|exact Hend]. intros [res r'] e' H. apply run_ret.
    destruct (Z.eqb_spec res ERROR_NONE) as [-> |Hne]; apply run_ret;
      (eapply (options_result_last _ _ _ _ _ _ _ _ _ _ _ (pre ++ cur)); [apply options_from_eol|by destruct pre| |done|exact H]);
      rewrite Hline; by rewrite <-app_assoc.
  - assert ((len (pre ++ cur) =? len (pre ++ cur ++ c :: text)) = false) as -> by (apply Z.eqb_neq; llia).
    simpl orb. replace (len (pre ++ cur) + 1) with (len (pre ++ cur ++ [c])) in * by llia.
    destruct (decide (c = REQUEST_PART_SEPARATOR)) as [-> |Hblank].
    { apply run_bind, run_bind. eapply run_mono; [|exact Hend]. intros [res r'] e' H. apply run_ret.
      destruct (Z.eqb_spec res ERROR_NONE) as [-> |Hne]; apply run_ret;
        (eapply (options_result_last _ _ _ _ _ _ _ _ _ _ _ (pre ++ cur ++ [REQUEST_PART_SEPARATOR]));
          [apply options_from_blank|by destruct pre| |done|exact H]);
        rewrite Hline; by rewrite <-!app_assoc. }
    rewrite (bool_decide_eq_false_2 (c = REQUEST_PART_SEPARATOR)) by done. simpl orb.
    destruct (decide (c = OPTION_SEPARATOR)) as [-> |Hsep].
    + simpl. apply run_bind, run_bind. eapply run_mono; [|exact Hend]. intros [res r'] e' H. apply run_ret.
      apply no_nul_cons in Hnt as [_ Hnt].
      destruct (option_of_text cur) as [o|] eqn:Ho.
      2:{ destruct H as [-> _]. apply run_ret. unfold options_result. rewrite options_from_next, Ho.
          simpl. split; [done|by left]. }
      destruct H as [[Hl [[-> ->] | [-> ?]]] Ho'].
      2:{ apply run_ret. unfold options_result. rewrite options_from_next, Ho. simpl.
          destruct (options_from [] text) as [[??]|]; simpl; [split; auto|auto]. }
      simpl. eapply run_mono.
      { intros result e2 H. eapply options_result_next; [done|by split; [|left]|exact H]. }
      replace (len (pre ++ cur ++ OPTION_SEPARATOR :: text))
        with (len ((pre ++ cur ++ [OPTION_SEPARATOR]) ++ [] ++ text)) by llia.
      replace (len (pre ++ cur ++ [OPTION_SEPARATOR]))
        with (len ((pre ++ cur ++ [OPTION_SEPARATOR]) ++ [])) by llia.
      apply IH; [|by destruct pre| |done|by apply append_option_names|simpl in Hfuel; lia].
      * rewrite Hline. by rewrite <-!app_assoc.
      * rewrite andb_false_r. constructor.
    + rewrite (bool_decide_eq_false_2 (c = OPTION_SEPARATOR)) by done.
      apply run_bind, run_ret. simpl.
      replace (len (pre ++ cur ++ c :: text)) with (len (pre ++ (cur ++ [c]) ++ text)) by llia.
      replace (cur ++ c :: text) with ((cur ++ [c]) ++ text) in * by by rewrite <-app_assoc.
      eapply run_mono; [|eapply (IH fuel line pre (cur ++ [c]) x rest)].
      * intros [[res offset] r'] e' H. unfold options_result in *. by rewrite options_from_other.
      * rewrite Hline. by rewrite <-!app_assoc.
      * done.
      * exact Hstep.
      * done.
      * done.
      * simpl in Hfuel. lia.
Qed.

(** ** Whole lines *)

Lemma string_to_channel_id_app line t :
  4 <= len line -> string_to_channel_id (Some (line ++ t)) = string_to_channel_id (Some line).
Proof.
  intros. rewrite !string_to_channel_id_eq.
  destruct line as [|a [|b [|c [|d line]]]]; simpl in *; done || lia.
Qed.

Lemma string_to_channel_id_valid line :
  (string_to_channel_id (Some line) =? BAD_CHANNEL_ID) = negb (valid_id_text line).
Proof.
  rewrite string_to_channel_id_eq. destruct line as [|a [|b [|c [|d line]]]]; try done. simpl.
  destruct (_ && _) eqn:E; [|done]. simpl. apply Z.eqb_neq. bools.
  pose proof (id_of_segments_range (char_to_channel_id_segment a) (char_to_channel_id_segment b)
    (char_to_channel_id_segment c) (char_to_channel_id_segment d)) as Hid.
  destruct Hid as [? _]; [by apply segment_range..|]. unfold BAD_CHANNEL_ID. lia.
Qed.

(** The result of parsing a line, where memory may run out. *)
Definition request_result (line : cstr) (e : env) (result : error_t * option request_t) (e' : env) : Prop :=
  let '(res, r) := result in
  (res = ERROR_MEMORY_ALLOCATION /\ r = None /\ env_alloc e <> []) \/
  match request_of_text line with
  | Some q => res = ERROR_NONE /\ r = Some q
  | None => res = REQUEST_ERROR_INVALID_SYNTAX /\ r = None
  end.

Lemma parse_parameters_of line pre text x tail r e fuel :
  line = pre ++ text ++ x :: tail -> pre <> [] -> no_nul text -> (length text < fuel)%nat ->
  run (parse_parameters fuel line (len (pre ++ text)) (len pre) 0 r) e
    (fun '(res, r') e' => succeeds e e' res (r' = append_parameters (split_on PARAMETER_SEPARATOR text) r)).
Proof.
  intros ????. pose proof (parse_parameters_spec text fuel line pre [] x tail 0 r e) as Hs.
  simpl in Hs. rewrite app_nil_r in Hs. apply Hs; auto using not_elem_of_nil.
Qed.

(** The request a line denotes, given what precedes the options. *)
Definition fields_of_text (r : request_t) (text : cstr) : option request_t :=
  match text with
  | [] => Some r
  | c :: rest =>
      if bool_decide (c = REQUEST_PART_SEPARATOR)
      then Some (append_parameters (split_on PARAMETER_SEPARATOR rest) r)
      else if bool_decide (c = OPTION_SEPARATOR) then
        '(options, rest) ← options_of_text rest;
        Some (append_parameters (split_on PARAMETER_SEPARATOR rest) (append_options options r))
      else None
  end.

(** The separator after the command name is one of the two allowed ones. *)
Definition separator_ok (text : cstr) : bool :=
  match text with
  | [] => true
  | c :: _ => bool_decide (c = REQUEST_PART_SEPARATOR) || bool_decide (c = OPTION_SEPARATOR)
  end.

Definition fields_result (r : request_t) (text : cstr) (e : env) (result : error_t * option request_t) (e' : env) : Prop :=
  let '(res, q) := result in
  (res = ERROR_MEMORY_ALLOCATION /\ q = None /\ env_alloc e <> []) \/
  match fields_of_text r text with
  | Some q' => res = ERROR_NONE /\ q = Some q'
  | None => res = REQUEST_ERROR_INVALID_SYNTAX /\ q = None
  end.

Lemma parse_parameters_tail line pre text x tail r e e0 fuel (R : error_t * option request_t -> env -> Prop) :
  line = pre ++ text ++ x :: tail -> pre <> [] -> no_nul text -> (length text < fuel)%nat ->
  (env_alloc e0 = [] -> env_alloc e = []) ->
  (forall e', R (ERROR_NONE, Some (append_parameters (split_on PARAMETER_SEPARATOR text) r)) e') ->
  (forall e', env_alloc e0 <> [] -> R (ERROR_MEMORY_ALLOCATION, None) e') ->
  run ('(res, request) ← parse_parameters fuel line (len (pre ++ text)) (len pre) 0 r;
       if negb (res =? ERROR_NONE) then mret (res, None) else mret (ERROR_NONE, Some request)) e R.
Proof.
  intros Hline Hpre Hnul Hfuel He Hok Hoom. apply run_bind.
  eapply run_mono; [|by eapply parse_parameters_of].
  intros [res r'] e' [_ H]. destruct H as [[-> ->] | [-> Hm]]; apply run_ret; [apply Hok|].
  apply Hoom. naive_solver.
Qed.

Lemma options_from_suffix text : forall cur os rest,
  options_from cur text = Some (os, rest) -> exists t, text = t ++ rest.
Proof.
  induction text as [|c text IH]; intros cur os rest.
  - rewrite options_from_eol. destruct (option_of_text cur); simpl; [|done]. intros [= <- <-]. by exists [].
  - destruct (decide (c = REQUEST_PART_SEPARATOR)) as [-> |];
      [|destruct (decide (c = OPTION_SEPARATOR)) as [-> |]].
    + rewrite options_from_blank. destruct (option_of_text cur); simpl; [|done].
      intros [= <- <-]. by exists [REQUEST_PART_SEPARATOR].
    + rewrite options_from_next. destruct (option_of_text cur); simpl; [|done].
      destruct (options_from [] text) as [[os' rest']|] eqn:E; simpl; [|done]. intros [= <- <-].
      destruct (IH _ _ _ E) as [t ->]. by exists (OPTION_SEPARATOR :: t).
    + rewrite options_from_other by done. intros [t ->]%IH. by exists (c :: t).
Qed.

Lemma parse_request_fields_spec pre text x tail r e :
  len pre = MINIMUM_REQUEST_LENGTH -> no_nul text -> separator_ok text = true -> req_options r = [] ->
  run (parse_request_fields ((pre ++ text) ++ x :: tail) (len (pre ++ text)) r) e (fields_result r text e).
Proof.
  intros Hpre Hnul Hsep Ho. unfold parse_request_fields. unfold MINIMUM_REQUEST_LENGTH, CHANNEL_ID_LENGTH, COMMAND_NAME_LENGTH in *.
  assert (pre <> []) as Hpre' by by intros ->.
  apply run_bind. destruct text as [|c text].
  - rewrite app_nil_r in *. eapply read_char_run; [done|done|].
    assert (forall y r0, parse_parameters (S (Z.to_nat (len pre))) y (len pre) (4 + 1 + 4 + 1) 0 r0 e
      = Some ((ERROR_NONE, r0), e)) as Hpp.
    { intros. simpl parse_parameters. by rewrite (proj2 (Z.leb_gt _ _)) by lia. }
    apply run_bind. eapply (run_eq _ _ _ (ERROR_NONE, 10, r) e).
    { case_bool_decide; [|done]. simpl parse_options. by rewrite (proj2 (Z.leb_gt _ _)) by lia. }
    apply run_bind. eapply run_eq; [apply Hpp|]. apply run_ret. by right.
  - assert (exists fuel, fuel = S (Z.to_nat (len (pre ++ c :: text)))) as [fuel Hfuel] by eauto.
    rewrite <-Hfuel. assert (length text < fuel)%nat as Hlt by llia. clear Hfuel.
    assert (line_eq : (pre ++ c :: text) ++ x :: tail = (pre ++ [c]) ++ text ++ x :: tail) by by rewrite <-!app_assoc.
    eapply (read_char_run _ pre c (text ++ x :: tail)); [by rewrite <-app_assoc|done|].
    replace (4 + 1 + 4 + 1) with (len (pre ++ [c])) by llia.
    replace (len (pre ++ c :: text)) with (len ((pre ++ [c]) ++ text)) by llia.
    apply no_nul_cons in Hnul as [_ Hnul]. apply run_bind. case_bool_decide as Hc.
    + subst c. pose proof (parse_options_spec text fuel _
        (pre ++ [OPTION_SEPARATOR]) [] x tail 0 0 0 r e line_eq) as Hopt.
      simpl in Hopt. rewrite !app_nil_r in Hopt. eapply run_mono; [|apply Hopt; auto using state_start].
      2: by destruct pre. 2: by rewrite Ho.
      intros [[res offset] r'] e' H. unfold options_result in H. unfold fields_result, fields_of_text.
      rewrite bool_decide_eq_false_2, bool_decide_eq_true_2, options_from_start by done.
      destruct (options_from [] text) as [[os rest]|] eqn:E; simpl.
      * destruct H as [He [[-> [-> (pre' & Hpre'' & Hl & ->)]] | [-> Hm]]]; [|apply run_ret; by left].
        destruct (options_from_suffix _ _ _ _ E) as [t ->].
        assert (len ((pre ++ [OPTION_SEPARATOR]) ++ t ++ rest) = len (pre' ++ rest)) as ->.
        { apply (f_equal length) in Hl. llia. }
        apply no_nul_app in Hnul as [_ Hnul].
        eapply parse_parameters_tail; [exact Hl|done|done|llia|done|by right|by left].
      * destruct H as [Hne [-> | [-> Hm]]]; apply run_ret; [by right|by left].
    + simpl in Hsep. rewrite (bool_decide_eq_false_2 (c = OPTION_SEPARATOR)), orb_false_r in Hsep by done.
      apply bool_decide_eq_true in Hsep. subst c. apply run_ret.
      eapply parse_parameters_tail; [exact line_eq|by destruct pre|done|llia|done|by right|by left].
Qed.

Lemma parse_request_run line x tail e :
  no_nul line -> run (parse_request (line ++ x :: tail) (len line)) e (request_result line e).
Proof.
  intros Hnul. unfold parse_request, request_result, request_of_text, MINIMUM_REQUEST_LENGTH,
    CHANNEL_ID_LENGTH, COMMAND_NAME_LENGTH. change (4 + 1 + 4) with 9. change (4 + 1) with 5.
  rewrite (proj2 (Z.ltb_ge (len line) 0)) by lia.
  destruct (Z.ltb_spec (len line) 9) as [Hlt|Hge].
  { apply run_ret. right. rewrite (proj2 (Z.leb_gt 9 _)) by lia. by rewrite andb_false_r. }
  rewrite (proj2 (Z.leb_le 9 _)), andb_true_r by lia.
  destruct line as [|c0 [|c1 [|c2 [|c3 [|sep [|n0 [|n1 [|n2 [|n3 text]]]]]]]]]; try (simpl in Hge; lia).
  apply run_bind. apply (read_char_run _ [c0; c1; c2; c3] sep ([n0; n1; n2; n3] ++ text ++ x :: tail)); [done|done|].
  change ((c0 :: c1 :: c2 :: c3 :: sep :: n0 :: n1 :: n2 :: n3 :: text) !! 4%nat) with (Some sep).
  case_bool_decide as Hsep; [subst sep|].
  2:{ rewrite bool_decide_eq_false_2, andb_false_r by congruence. apply run_ret. by right. }
  rewrite (bool_decide_eq_true_2 (Some _ = _)), andb_true_r by done. simpl negb. cbv iota.
  set (pre := [c0; c1; c2; c3; REQUEST_PART_SEPARATOR; n0; n1; n2; n3]).
  change (c0 :: c1 :: c2 :: c3 :: REQUEST_PART_SEPARATOR :: n0 :: n1 :: n2 :: n3 :: text) with (pre ++ text) in *.
  change (drop 9 (pre ++ text)) with text.
  assert (len (pre ++ text) = 9 + len text) as Hlen by (rewrite length_app; unfold pre; simpl length; lia).
  rewrite string_to_channel_id_app by (rewrite Hlen; lia).
  apply run_bind. eapply run_mono with (Q := fun invalid e' => e' = e /\ invalid =
    match text with [] => false
    | c :: _ => negb (bool_decide (c = REQUEST_PART_SEPARATOR)) && negb (bool_decide (c = OPTION_SEPARATOR)) end).
  2:{ rewrite Hlen. destruct text as [|c text]; [by apply run_ret|].
      rewrite (proj2 (Z.ltb_lt 9 _)) by llia. apply run_bind.
      eapply (read_char_run _ pre c (text ++ x :: tail)); [by rewrite <-app_assoc|done|]. by apply run_ret. }
  intros invalid e' [-> Hinv]. destruct invalid.
  { apply run_ret. right. destruct text as [|c text]; [done|]. symmetry in Hinv. bools.
    rewrite !bool_decide_eq_false_2 by done. by destruct (valid_id_text _). }
  rewrite string_to_channel_id_valid. destruct (valid_id_text (pre ++ text)) eqn:Hid; simpl negb; cbv iota;
    [|apply run_ret; by right].
  apply run_bind. eapply run_eq; [by apply copy_partial_string_eq|].
  destruct (alloc_next e) eqn:He; [|apply run_ret; left; auto with xprc].
  apply run_bind. eapply run_eq; [by apply zmalloc_eq|].
  destruct (alloc_next (alloc_rest e)) eqn:He'; simpl negb; cbv iota; [|apply run_ret; left; auto with xprc].
  change (slice 5 4 (pre ++ text)) with [n0; n1; n2; n3].
  change (slice 0 4 (from ((pre ++ text) ++ x :: tail) 5)) with [n0; n1; n2; n3].
  assert (no_nul [n0; n1; n2; n3] /\ no_nul text) as [Hname Htext].
  { clear -Hnul. unfold pre in Hnul. simpl in Hnul. rewrite !no_nul_cons in *. intuition auto using no_nul_nil. }
  rewrite c_str_id by done. set (r := mkRequest _ _ [] []).
  eapply run_mono; [|apply (parse_request_fields_spec pre text x tail r); [done|done| |done]].
  - intros [res q] e' [(-> & -> & Hm) | H]; [left; auto with xprc|right]. unfold fields_of_text in H.
    destruct text as [|c text]; [done|]. case_bool_decide; [done|]. case_bool_decide; [|done].
    by destruct (options_of_text text) as [[??]|].
  - destruct text as [|c text]; [done|]. simpl. symmetry in Hinv. apply andb_false_iff in Hinv.
    rewrite !negb_false_iff in Hinv. destruct Hinv as [-> | ->]; [done|apply orb_true_r].
Qed.

(** C4: A request line is parsed to exactly the request of the line grammar
    (channel ID, command name, options, parameters), or refused as a syntax
    error if the grammar does not accept it; the only other outcome is running
    out of memory. The result does not depend on what follows the line in the
    buffer, and in particular a duplicate option is never reported. *)
Theorem parse_request_grammar line x tail e :
  no_nul line -> run (parse_request (line ++ x :: tail) (len line)) e (request_result line e).
Proof. apply parse_request_run. Qed.

Lemma parse_request_grammar_witness :
  run (parse_request (lit "abcd CMHD;a=1;a=2 x;y" ++ NUL :: lit ";;=") (len (lit "abcd CMHD;a=1;a=2 x;y"))) calm
    (request_result (lit "abcd CMHD;a=1;a=2 x;y") calm) /\
  request_of_text (lit "abcd CMHD;a=1;a=2 x;y") =
    Some (mkRequest 4227 (lit "CMHD") [mkOption (lit "a") (lit "1"); mkOption (lit "a") (lit "2")] [lit "x"; lit "y"]).
Proof.
  split; [|reflexivity]. apply parse_request_grammar.
  unfold no_nul. apply (bool_decide_unpack _). vm_compute. exact I.
Defined.

(** ** What clients send *)

Definition format_option (o : command_option_t) : cstr := opt_name o ++ OPTION_END_OF_KEY :: opt_value o.

(** The line for a request. *)
Definition format_request (r : request_t) : cstr :=
  channel_id_to_string (req_channel_id r) ++ REQUEST_PART_SEPARATOR :: req_command_name r ++
  (if bool_decide (req_options r = []) then []
   else OPTION_SEPARATOR :: join OPTION_SEPARATOR (format_option <$> req_options r)) ++
  (if bool_decide (req_parameters r = []) then []
   else REQUEST_PART_SEPARATOR :: join PARAMETER_SEPARATOR (req_parameters r)).

(** Text without the characters of a list. *)
Definition free_of (special : list ascii) (s : cstr) : Prop := Forall (fun c => c ∉ s) special.

#[export] Instance free_of_dec special s : Decision (free_of special s).
Proof. unfold free_of. apply _. Defined.

Record well_formed_request (r : request_t) : Prop := mkWellFormed {
  wf_id : exists text, valid_id_text text = true /\ req_channel_id r = string_to_channel_id (Some text);
  wf_name : length (req_command_name r) = 4%nat /\ no_nul (req_command_name r);
  wf_options : Forall (fun o =>
    is_name (opt_name o) /\ free_of [NUL; REQUEST_PART_SEPARATOR; OPTION_SEPARATOR] (opt_name o) /\
    free_of [NUL; REQUEST_PART_SEPARATOR; OPTION_SEPARATOR] (opt_value o)) (req_options r);
  wf_parameters : Forall (free_of [NUL; PARAMETER_SEPARATOR]) (req_parameters r);
  wf_ending : req_options r = [] \/ req_parameters r <> [];
}.

Lemma format_option_parse o :
  is_name (opt_name o) -> option_of_text (format_option o) = Some o.
Proof.
  destruct o as [? v]. intros (c & name & E & Hn). simpl in E. subst. by apply option_of_text_value.
Qed.

Lemma free_of_cons c l s : free_of (c :: l) s <-> (c ∉ s) /\ free_of l s.
Proof. unfold free_of. by rewrite Forall_cons. Qed.

Lemma format_option_free o c :
  c <> OPTION_END_OF_KEY -> c ∉ opt_name o -> c ∉ opt_value o -> c ∉ format_option o.
Proof. intros ???. unfold format_option. rewrite elem_of_app, elem_of_cons. by intros [? | [? | ?]]. Qed.

Lemma mapM_format os :
  Forall (fun o => is_name (opt_name o)) os -> mapM option_of_text (format_option <$> os) = Some os.
Proof.
  induction 1 as [|o os Ho _ IH]; [done|].
  change (mapM option_of_text (format_option <$> o :: os)) with
    (y ← option_of_text (format_option o); k ← mapM option_of_text (format_option <$> os); mret (y :: k)).
  by rewrite format_option_parse, IH.
Qed.

Lemma join_free c sep l : c <> sep -> Forall (fun s => c ∉ s) l -> c ∉ join sep l.
Proof.
  intros ? H [? | (s & Hs & Hc)]%join_elem_of; [done|]. rewrite Forall_forall in H. by apply (H s).
Qed.

Lemma format_options_parse os rest :
  os <> [] -> Forall (fun o => is_name (opt_name o)) os ->
  Forall (fun o => (REQUEST_PART_SEPARATOR ∉ format_option o) /\ OPTION_SEPARATOR ∉ format_option o) os ->
  options_of_text (join OPTION_SEPARATOR (format_option <$> os) ++ REQUEST_PART_SEPARATOR :: rest) = Some (os, rest).
Proof.
  intros Hne Hn Hf. unfold options_of_text.
  assert (Forall (fun s => REQUEST_PART_SEPARATOR ∉ s) (format_option <$> os)) as H1.
  { apply Forall_fmap. eapply Forall_impl; [exact Hf|]. by intros o []. }
  assert (Forall (fun s => OPTION_SEPARATOR ∉ s) (format_option <$> os)) as H2.
  { apply Forall_fmap. eapply Forall_impl; [exact Hf|]. by intros o []. }
  rewrite cut_app by by apply join_free.
  rewrite split_on_join by (done || by destruct os). by rewrite mapM_format.
Qed.

Lemma no_nul_free l s : NUL ∈ l -> free_of l s -> no_nul s.
Proof. unfold free_of, no_nul. rewrite Forall_forall. auto. Qed.

(** The part of the line after the command name. *)
Lemma format_fields_parse os ps r :
  Forall (fun o => is_name (opt_name o) /\
    free_of [NUL; REQUEST_PART_SEPARATOR; OPTION_SEPARATOR] (opt_name o) /\
    free_of [NUL; REQUEST_PART_SEPARATOR; OPTION_SEPARATOR] (opt_value o)) os ->
  Forall (free_of [NUL; PARAMETER_SEPARATOR]) ps -> os = [] \/ ps <> [] ->
  let text :=
    (if bool_decide (os = []) then [] else OPTION_SEPARATOR :: join OPTION_SEPARATOR (format_option <$> os)) ++
    (if bool_decide (ps = []) then [] else REQUEST_PART_SEPARATOR :: join PARAMETER_SEPARATOR ps) in
  no_nul text /\ fields_of_text r text = Some (append_parameters ps (append_options os r)).
Proof.
  intros Hos Hps Hend text.
  assert (Forall (fun s => PARAMETER_SEPARATOR ∉ s) ps /\ Forall no_nul ps) as [Hps1 Hps2].
  { split; (eapply Forall_impl; [exact Hps|]); intros s; rewrite !free_of_cons; unfold no_nul; tauto. }
  assert (ps <> [] -> no_nul (join PARAMETER_SEPARATOR ps) /\ split_on PARAMETER_SEPARATOR (join PARAMETER_SEPARATOR ps) = ps) as Hjoin.
  { intros ?. split; [by apply join_free|by apply split_on_join]. }
  destruct (decide (os = [])) as [-> |Hne]; unfold text; simpl.
  - case_bool_decide as Hp; [subst; split; [apply no_nul_nil|by destruct r as [? ? o p]; unfold append_parameters, append_options; simpl; rewrite !app_nil_r]|].
    destruct (Hjoin Hp) as [? E]. split; [by apply no_nul_cons|]. simpl. rewrite E.
    unfold append_parameters, append_options; simpl. by rewrite app_nil_r.
  - destruct Hend as [? | Hp]; [done|]. destruct (Hjoin Hp) as [? E].
    rewrite !bool_decide_eq_false_2 by done. simpl.
    assert (Forall (fun o => is_name (opt_name o)) os) as Hn by (eapply Forall_impl; [exact Hos|]; by intros o (? & ? & ?)).
    assert (Forall (fun o => (REQUEST_PART_SEPARATOR ∉ format_option o) /\ OPTION_SEPARATOR ∉ format_option o) os) as Hf.
    { eapply Forall_impl; [exact Hos|]. intros o (_ & Hk & Hv). rewrite !free_of_cons in Hk, Hv.
      split; apply format_option_free; done || tauto. }
    rewrite format_options_parse by done. simpl. rewrite E. split; [|done].
    apply no_nul_cons; split; [done|]. apply no_nul_app. split; [|by apply no_nul_cons].
    apply join_free; [done|]. apply Forall_fmap. eapply Forall_impl; [exact Hos|].
    intros o (_ & Hk & Hv). rewrite !free_of_cons in Hk, Hv. apply format_option_free; done || tauto.
Qed.

Lemma request_of_text_fields pre text :
  len pre = 9 -> pre !! 4%nat = Some REQUEST_PART_SEPARATOR -> valid_id_text pre = true ->
  request_of_text (pre ++ text) =
  fields_of_text (mkRequest (string_to_channel_id (Some pre)) (slice 5 4 pre) [] []) text.
Proof.
  intros Hl Hsep Hv. unfold request_of_text.
  destruct pre as [|c0 [|c1 [|c2 [|c3 [|sep [|n0 [|n1 [|n2 [|n3 [|]]]]]]]]]]; try (cbn [length] in Hl; lia).
  cbn in Hsep. injection Hsep as ->. rewrite string_to_channel_id_app by done.
  set (id := string_to_channel_id _). set (pre := [c0; c1; c2; c3; _; _; _; _; _]) in *.
  change (valid_id_text (pre ++ text)) with (valid_id_text pre). rewrite Hv.
  change ((pre ++ text) !! 4%nat) with (Some REQUEST_PART_SEPARATOR).
  change (slice 5 4 (pre ++ text)) with (slice 5 4 pre). change (drop 9 (pre ++ text)) with (drop 0 text).
  rewrite (proj2 (Z.leb_le 9 _)), (bool_decide_eq_true_2 (Some _ = _)), drop_0 by (done || llia).
  destruct text as [|c text]; [done|]. unfold fields_of_text. cbn [andb].
  case_bool_decide; [done|]. case_bool_decide; [|done].
  by destruct (options_of_text text) as [[??]|].
Qed.

Lemma format_request_parse r :
  well_formed_request r -> no_nul (format_request r) /\ request_of_text (format_request r) = Some r.
Proof.
  destruct r as [id name os ps]. intros [(text & Hv & Hid) [Hname Hnn] Hos Hps Hend].
  cbn [req_channel_id req_command_name req_options req_parameters] in *.
  destruct (valid_id_segments text Hv) as (a & b & c & d & ca & cb & cc & cd & t & -> & _ & _ & _ & _ & _ & _ & _ & _ & E & Et).
  rewrite E in Hid. subst id. unfold format_request.
  cbn [req_channel_id req_command_name req_options req_parameters].
  rewrite Et. set (f := (if bool_decide (os = []) then _ else _) ++ _).
  pose proof (fun r => format_fields_parse os ps r Hos Hps Hend) as Hf. fold f in Hf. cbv zeta in Hf.
  change ([ca; cb; cc; cd] ++ REQUEST_PART_SEPARATOR :: name ++ f)
    with ([ca; cb; cc; cd; REQUEST_PART_SEPARATOR] ++ name ++ f).
  rewrite app_assoc. simpl in Hv. split.
  - apply no_nul_app. split; [|by apply Hf]. apply no_nul_app. split; [|done].
    bools. rewrite !no_nul_cons. split_and!; try apply no_nul_nil; try done; by intros ->.
  - rewrite request_of_text_fields; [| |done|done].
    + destruct (Hf (mkRequest (string_to_channel_id (Some ([ca; cb; cc; cd; REQUEST_PART_SEPARATOR] ++ name)))
        (slice 5 4 ([ca; cb; cc; cd; REQUEST_PART_SEPARATOR] ++ name)) [] [])) as [_ ->].
      f_equal. unfold append_parameters, append_options. simpl. f_equal.
      * rewrite <-E, !string_to_channel_id_eq. done.
      * unfold slice. change (take 4 name = name). apply take_ge. by rewrite Hname.
    + rewrite length_app, Hname. done.
Qed.

(** C5: Requests survive the wire: the line a client forms for a request
    (channel, command name, options, parameters) is parsed back to exactly
    that request, whatever follows the line in the buffer. *)
Theorem request_roundtrip r x tail e :
  well_formed_request r -> env_alloc e = [] ->
  run (parse_request (format_request r ++ x :: tail) (len (format_request r))) e
    (fun result _ => result = (ERROR_NONE, Some r)).
Proof.
  intros Hr He. destruct (format_request_parse r Hr) as [Hnul Hp].
  eapply run_mono; [|by apply parse_request_run]. intros [res q] e'. unfold request_result. rewrite Hp.
  intros [(_ & _ & ?) | [-> ->]]; [done|done].
Qed.

Lemma request_roundtrip_witness :
  let r := mkRequest (string_to_channel_id (Some (lit "Zz09"))) (lit "DRQV")
    [mkOption (lit "freq") (lit "25"); mkOption (lit "cycles") []] [lit "sim/time"; []] in
  format_request r = lit "Zz09 DRQV;freq=25;cycles= sim/time;" /\
  run (parse_request (format_request r ++ NUL :: []) (len (format_request r))) calm
    (fun result _ => result = (ERROR_NONE, Some r)).
Proof.
  intros r. split; [reflexivity|]. apply (request_roundtrip r NUL [] calm); [|reflexivity].
  split.
  - exists (lit "Zz09"). split; reflexivity.
  - split; [reflexivity|]. unfold no_nul. apply (bool_decide_unpack _). vm_compute. exact I.
  - repeat constructor; try (apply (bool_decide_unpack _); vm_compute; exact I);
      eexists _, _; (split; [reflexivity|]); apply (bool_decide_unpack _); vm_compute; exact I.
  - repeat constructor; apply (bool_decide_unpack _); vm_compute; exact I.
  - right. discriminate.
Defined.
