(* ===== verification/Arrays.v ===== *)
(** Growable arrays of fixed-size items ([arrays.c], [arrays.h]).

    An array holds [arr_capacity] allocated items, the first [arr_length] of
    which are in use; items are typed and [zeroed] is the item whose bytes are
    all zero, as [memset] leaves it. Sizes in bytes are [size_t] products of an
    [int] and the item size, which do not wrap on 64-bit targets. *)

From S2P Require Import Prelude CLib Utils.

Class Zeroed (A : Type) := zeroed : A.
#[export] Instance Zeroed_Z : Zeroed Z := 0.

Record dynamic_array_t (A : Type) := mkArray {
  arr_length : Z;
  arr_capacity : Z;
  arr_item_size : Z;
  arr_data : list A;
}.
Arguments mkArray {A}.
Arguments arr_length {A}.
Arguments arr_capacity {A}.
Arguments arr_item_size {A}.
Arguments arr_data {A}.

Definition DYNAMIC_ARRAY_COPY_ALL : Z := -12836.

Section Arrays.
Context {A : Type} `{Zeroed A}.
Implicit Types arr : dynamic_array_t A.

(** Returns the success flag and the array after the call. *)
Definition dynamic_array_ensure_capacity arr (capacity : Z) : M env (bool * dynamic_array_t A) :=
  if capacity <? 0 then mret (false, arr)
  else if capacity <=? arr_capacity arr then mret (true, arr)
  else
    new_data ← malloc (capacity * arr_item_size arr);
    if negb new_data then mret (false, arr)
    else
      let copied := take (Z.to_nat (arr_capacity arr)) (arr_data arr) in
      let cleared := replicate (Z.to_nat (capacity - arr_capacity arr)) zeroed in
      mret (true, mkArray (arr_length arr) capacity (arr_item_size arr) (copied ++ cleared)).

Definition create_dynamic_array (item_size initial_capacity : Z) : M env (option (dynamic_array_t A)) :=
  if (item_size <? 1) || (initial_capacity <? 0) then mret None
  else
    ok ← zmalloc 32;
    if negb ok then mret None
    else
      '(ok, arr) ← dynamic_array_ensure_capacity (mkArray 0 0 item_size []) initial_capacity;
      mret (if ok : bool then Some arr else None).

(** The pointer to an item is its offset; [None] is NULL. *)
Definition dynamic_array_get_pointer arr (index : Z) : option Z :=
  if (index <? 0) || (arr_length arr <=? index) then None else Some index.

Definition dynamic_array_set_length arr (length : Z) : M env (bool * dynamic_array_t A) :=
  '(ok, arr) ← dynamic_array_ensure_capacity arr length;
  if negb ok then mret (false, arr)
  else mret (true, mkArray length (arr_capacity arr) (arr_item_size arr) (arr_data arr)).

(** Overwrites the items from offset [i] on. *)
Definition overwrite {B} (i : Z) (items data : list B) : list B :=
  take (Z.to_nat i) data ++ items ++ drop (Z.to_nat i + length items) data.

Definition set_data (data : list A) arr : dynamic_array_t A :=
  mkArray (arr_length arr) (arr_capacity arr) (arr_item_size arr) data.

Definition dynamic_array_set_from_pointer arr (index : Z) (data : option A) : bool * dynamic_array_t A :=
  match data with
  | None => (false, arr)
  | Some item =>
      match dynamic_array_get_pointer arr index with
      | None => (false, arr)
      | Some dest => (true, set_data (overwrite dest [item] (arr_data arr)) arr)
      end
  end.

(** Source and destination are different arrays. The sum of the destination
    index and the count wraps like the compilers' [int] addition. *)
Definition dynamic_array_copy_from_other dest_arr (dest_index : Z) (src_arr : dynamic_array_t A)
    (src_index count : Z) (allow_capacity_change allow_length_change : bool)
  : M env (bool * dynamic_array_t A) :=
  if (dest_index <? 0) || (src_index <? 0)
     || negb (arr_item_size dest_arr =? arr_item_size src_arr) then mret (false, dest_arr)
  else
    let available_src_items := arr_length src_arr - src_index in
    let count := if count =? DYNAMIC_ARRAY_COPY_ALL then available_src_items else count in
    if count =? 0 then mret (true, dest_arr)
    else if (count <? 0) || (available_src_items <? count) then mret (false, dest_arr)
    else
      let available_dest_length := arr_length dest_arr - dest_index in
      if (available_dest_length <? count) && negb allow_length_change then mret (false, dest_arr)
      else
        let available_dest_capacity := arr_capacity dest_arr - dest_index in
        if (available_dest_capacity <? count) && negb allow_capacity_change then mret (false, dest_arr)
        else
          '(ok, dest_arr) ←
            (if available_dest_length <? count
             then dynamic_array_set_length dest_arr (wrap_s 32 (dest_index + count))
             else mret (true, dest_arr));
          if negb ok then mret (false, dest_arr)
          else
            match dynamic_array_get_pointer dest_arr dest_index, dynamic_array_get_pointer src_arr src_index with
            | Some dest_ptr, Some src_ptr =>
                mret (true, set_data (overwrite dest_ptr (slice src_ptr count (arr_data src_arr)) (arr_data dest_arr)) dest_arr)
            | _, _ => mret (false, dest_arr)
            end.

(** * Invariant and contents *)

Record wf_array arr : Prop := mkWfArray {
  wf_length : 0 <= arr_length arr <= arr_capacity arr;
  wf_capacity : arr_capacity arr <= INT_MAX;
  wf_data : len (arr_data arr) = arr_capacity arr;
  wf_item_size : 1 <= arr_item_size arr;
}.

(** The items in use. *)
Definition contents arr : list A := take (Z.to_nat (arr_length arr)) (arr_data arr).

(** The item at a position, zero where the array has not been allocated yet. *)
Definition item_at arr (i : Z) : A := default zeroed (arr_data arr !! Z.to_nat i).

Lemma ensure_capacity_spec arr capacity e :
  wf_array arr -> capacity <= INT_MAX ->
  exists arr' e' ok, dynamic_array_ensure_capacity arr capacity e = Some ((ok, arr'), e') /\
    wf_array arr' /\ arr_length arr' = arr_length arr /\ arr_item_size arr' = arr_item_size arr /\
    (forall i, item_at arr' i = item_at arr i) /\
    (ok = true -> 0 <= capacity <= arr_capacity arr') /\ (ok = false -> arr' = arr) /\
    (ok = (0 <=? capacity) && ((capacity <=? arr_capacity arr) || alloc_next e)).
Proof.
  intros [Hl Hc Hd Hs] Hcap. unfold dynamic_array_ensure_capacity.
  destruct (Z.ltb_spec capacity 0); [|destruct (Z.leb_spec capacity (arr_capacity arr))].
  - eexists arr, e, false. rewrite (proj2 (Z.leb_gt _ _)) by lia. by split_and!.
  - eexists arr, e, true. rewrite (proj2 (Z.leb_le 0 _)) by lia. by split_and!.
  - erewrite bind_eq by apply malloc_eq. rewrite (proj2 (Z.leb_le 0 _)) by lia.
    destruct (alloc_next e); simpl negb; cbv iota; [|eexists arr, _, false; by split_and!].
    eexists _, _, true. split_and!; [done| |done|done| |simpl; lia|done|done].
    + split; simpl; [lia|lia| |done]. rewrite length_app, length_take, length_replicate. lia.
    + intros i. unfold item_at. simpl. rewrite take_ge by lia.
      destruct (Nat.lt_ge_cases (Z.to_nat i) (length (arr_data arr))); [by rewrite lookup_app_l|].
      rewrite lookup_app_r, (lookup_ge_None_2 (arr_data arr)) by lia.
      destruct (replicate _ _ !! _) eqn:E; [|done]. by apply lookup_replicate in E as [-> _].
Qed.

Lemma set_length_spec arr length e :
  wf_array arr -> length <= INT_MAX ->
  exists arr' e' ok, dynamic_array_set_length arr length e = Some ((ok, arr'), e') /\
    wf_array arr' /\ arr_item_size arr' = arr_item_size arr /\
    (forall i, item_at arr' i = item_at arr i) /\
    (ok = true -> arr_length arr' = length) /\ (ok = false -> arr' = arr) /\
    ok = (0 <=? length) && ((length <=? arr_capacity arr) || alloc_next e).
Proof.
  intros Hwf Hlen. unfold dynamic_array_set_length.
  destruct (ensure_capacity_spec arr length e Hwf Hlen) as (arr' & e' & ok & E & Hwf' & Hl & Hs & Hi & Ht & Hf & Hok).
  erewrite bind_eq by exact E. destruct ok; simpl negb; cbv iota.
  - eexists _, _, true. split_and!; [done| |done|done|done|done|done].
    destruct Hwf' as [? ? ? ?]. specialize (Ht eq_refl). by split; simpl.
  - rewrite (Hf eq_refl) in *. by eexists arr, e', false.
Qed.

Lemma overwrite_lookup {B} (i : nat) (items data : list B) j :
  (i + length items <= length data)%nat ->
  overwrite (Z.of_nat i) items data !! j =
  if decide (i <= j < i + length items)%nat then items !! (j - i)%nat else data !! j.
Proof.
  intros Hlen. unfold overwrite. rewrite Nat2Z.id. case_decide.
  - rewrite lookup_app_r, length_take, lookup_app_l by (rewrite ?length_take; lia). f_equal. lia.
  - destruct (Nat.lt_ge_cases j i).
    + rewrite lookup_app_l by (rewrite ?length_take; lia). apply lookup_take_lt. lia.
    + rewrite !lookup_app_r, length_take, lookup_drop by (rewrite ?length_take; lia). f_equal. lia.
Qed.

Lemma overwrite_length {B} (i : nat) (items data : list B) :
  (i + length items <= length data)%nat -> length (overwrite (Z.of_nat i) items data) = length data.
Proof. intros. unfold overwrite. rewrite !length_app, length_take, length_drop. lia. Qed.

(** The number of items a copy moves. *)
Definition copy_count (src_arr : dynamic_array_t A) (src_index count : Z) : Z :=
  if count =? DYNAMIC_ARRAY_COPY_ALL then arr_length src_arr - src_index else count.

(** Storing [n] items of [src] from [si] on at [di], both in range. *)
Lemma set_data_spec dest src di si n :
  wf_array dest -> wf_array src -> 0 <= di -> 0 <= si -> 0 < n ->
  di + n <= arr_length dest -> si + n <= arr_length src ->
  let dest' := set_data (overwrite di (slice si n (arr_data src)) (arr_data dest)) dest in
  wf_array dest' /\ forall i, 0 <= i ->
    item_at dest' i = if decide (di <= i < di + n) then item_at src (si + (i - di)) else item_at dest i.
Proof.
  intros [Hl Hc Hd Hs] [Hl' Hc' Hd' Hs'] ?????.
  assert (length (slice si n (arr_data src)) = Z.to_nat n) as Hsl.
  { unfold slice. rewrite length_take, length_drop. lia. }
  rewrite <-(Z2Nat.id di) by lia. split.
  - split; simpl; [done|done| |done]. rewrite overwrite_length by lia. done.
  - intros i Hi. unfold item_at. simpl. rewrite overwrite_lookup, Hsl by lia.
    destruct (decide (Z.of_nat (Z.to_nat di) <= i < Z.of_nat (Z.to_nat di) + n)).
    + rewrite decide_True by lia. unfold slice.
      rewrite lookup_take_lt, lookup_drop by lia. do 2 f_equal. lia.
    + by rewrite decide_False by lia.
Qed.

(** Whether [dynamic_array_copy_from_other] succeeds in moving [n] items. *)
Definition can_copy (dest src : dynamic_array_t A) (di si n : Z) (allow_capacity allow_length : bool) (e : env) : bool :=
  (0 <=? di) && (0 <=? si) && (arr_item_size dest =? arr_item_size src) &&
  ((n =? 0) ||
   ((0 <? n) && (si + n <=? arr_length src) &&
    ((di + n <=? arr_length dest) || allow_length) && ((di + n <=? arr_capacity dest) || allow_capacity) &&
    ((di + n <=? arr_length dest) || ((di + n <=? INT_MAX) && ((di + n <=? arr_capacity dest) || alloc_next e))))).
End Arrays.

(** [dynamic_array_copy_from_other] either copies exactly the requested
    items, growing the destination as far as allowed, or fails and leaves the
    destination as it was; it succeeds exactly when indices, item sizes,
    permissions and memory permit. The array invariant (length within
    capacity, capacity items allocated) is preserved. *)
Theorem dynamic_array_copy_spec {A} `{Zeroed A} (dest src : dynamic_array_t A) di si count allow_capacity allow_length e :
  wf_array dest -> wf_array src -> in_int di -> in_int si -> in_int count ->
  let n := copy_count src si count in
  let ok := can_copy dest src di si n allow_capacity allow_length e in
  exists dest' e',
    dynamic_array_copy_from_other dest di src si count allow_capacity allow_length e = Some ((ok, dest'), e') /\
    wf_array dest' /\
    (if ok then
       arr_length dest' = (if n =? 0 then arr_length dest else Z.max (arr_length dest) (di + n)) /\
       forall i, 0 <= i ->
         item_at dest' i = if decide (di <= i < di + n) then item_at src (si + (i - di)) else item_at dest i
     else dest' = dest).
Proof.
  intros Hd Hs Hdi Hsi Hcount. unfold dynamic_array_copy_from_other, can_copy.
  fold (copy_count src si count). set (n := copy_count src si count). cbv zeta.
  pose proof (wf_length dest Hd). pose proof (wf_length src Hs). pose proof (wf_capacity dest Hd).
  pose proof (wf_capacity src Hs). unfold in_int, INT_MIN, INT_MAX in *.
  destruct (Z.ltb_spec di 0).
  { rewrite (proj2 (Z.leb_gt 0 di)) by lia. by eexists _, _. }
  rewrite (proj2 (Z.leb_le 0 di)) by lia. destruct (Z.ltb_spec si 0).
  { rewrite (proj2 (Z.leb_gt 0 si)) by lia. by eexists _, _. }
  rewrite (proj2 (Z.leb_le 0 si)) by lia. simpl orb. simpl andb.
  destruct (arr_item_size dest =? arr_item_size src) eqn:Hsize; simpl negb; cbv iota; [|by eexists _, _].
  simpl andb. destruct (Z.eqb_spec n 0) as [En|Hn0].
  { cbn [orb]. eexists _, _. split_and!; [done|done|done|]. intros i _. by rewrite decide_False by lia. }
  cbn [orb]. destruct (Z.ltb_spec n 0).
  { rewrite (proj2 (Z.ltb_ge 0 n)) by lia. by eexists _, _. }
  rewrite (proj2 (Z.ltb_lt 0 n)) by lia. cbn [orb andb].
  destruct (Z.ltb_spec (arr_length src - si) n).
  { rewrite (proj2 (Z.leb_gt (si + n) _)) by lia. by eexists _, _. }
  rewrite (proj2 (Z.leb_le (si + n) _)) by lia. cbn [andb].
  assert (di + n < 2 ^ 32) by (subst n; unfold copy_count in *; destruct (count =? DYNAMIC_ARRAY_COPY_ALL); lia).
  assert (forall a, (a - di <? n) = negb (di + n <=? a)) as Hlt.
  { intros a. destruct (Z.ltb_spec (a - di) n), (Z.leb_spec (di + n) a); try done; lia. }
  rewrite !Hlt. destruct (Z.leb_spec (di + n) (arr_length dest)); cbn [negb andb orb].
  - (* no change of length *)
    destruct (Z.leb_spec (di + n) (arr_capacity dest)); [|lia]. cbn [negb andb orb].
    destruct (set_data_spec dest src di si n) as [? Hi]; [done|done|lia..|].
    mred. unfold dynamic_array_get_pointer.
    rewrite (proj2 (Z.ltb_ge di 0)), (proj2 (Z.ltb_ge si 0)), (proj2 (Z.leb_gt _ di)), (proj2 (Z.leb_gt _ si)) by lia.
    eexists _, _. split_and!; [done|done| |exact Hi].
    simpl. lia.
  - destruct allow_length; cbn [negb andb]; [|by eexists _, _].
    destruct ((di + n <=? arr_capacity dest) || allow_capacity) eqn:Hcap; cbn [andb].
    2:{ apply orb_false_elim in Hcap as [-> ->]. by eexists _, _. }
    assert (negb (di + n <=? arr_capacity dest) && negb allow_capacity = false) as ->.
    { by destruct (di + n <=? arr_capacity dest), allow_capacity. }
    assert (wrap_s 32 (di + n) = if di + n <=? 2 ^ 31 - 1 then di + n else di + n - 2 ^ 32) as Hwrap.
    { destruct (Z.leb_spec (di + n) (2 ^ 31 - 1)); [apply wrap_s_small; simpl; lia|].
      unfold wrap_s. change (2 ^ (32 - 1)) with (2 ^ 31).
      rewrite <-(Z.mod_unique (di + n + 2 ^ 31) (2 ^ 32) 1 (di + n - 2 ^ 31)); lia. }
    destruct (set_length_spec dest (wrap_s 32 (di + n)) e Hd) as (arr & e' & ok & E & Hwf & Hsz & Hi & Ht & Hf & Hok).
    { rewrite Hwrap. destruct (Z.leb_spec (di + n) (2 ^ 31 - 1)); unfold INT_MAX; lia. }
    erewrite bind_eq by exact E.
    assert (ok = (di + n <=? 2 ^ 31 - 1) && ((di + n <=? arr_capacity dest) || alloc_next e)) as Hok'.
    { rewrite Hok, Hwrap. destruct (Z.leb_spec (di + n) (2 ^ 31 - 1)); cbn [andb].
      - by rewrite (proj2 (Z.leb_le 0 _)) by lia.
      - by rewrite (proj2 (Z.leb_gt 0 _)) by lia. }
    rewrite <-Hok'. destruct ok; cbn [negb]; [|rewrite Hf by done; by eexists _, _].
    symmetry in Hok'. apply andb_prop in Hok' as [Hfit _]. rewrite Hfit in Hwrap. rewrite Hwrap in Ht.
    specialize (Ht eq_refl). destruct (set_data_spec arr src di si n) as [? Hi']; [done|done|lia..|].
    unfold dynamic_array_get_pointer.
    rewrite (proj2 (Z.ltb_ge di 0)), (proj2 (Z.ltb_ge si 0)), (proj2 (Z.leb_gt _ di)), (proj2 (Z.leb_gt _ si)) by lia.
    eexists _, _. split_and!; [done|done|simpl; lia|].
    intros i ?. rewrite Hi' by done. by rewrite Hi.
Qed.

Lemma dynamic_array_copy_spec_witness :
  let dest := mkArray 1 2 4 [7; 8] in
  let src := mkArray 3 3 4 [1; 2; 3] in
  let n := copy_count src 1 DYNAMIC_ARRAY_COPY_ALL in
  let ok := can_copy dest src 1 1 n true true calm in
  ok = true /\
  exists dest' e',
    dynamic_array_copy_from_other dest 1 src 1 DYNAMIC_ARRAY_COPY_ALL true true calm = Some ((ok, dest'), e') /\
    wf_array dest' /\
    (if ok then
       arr_length dest' = (if n =? 0 then arr_length dest else Z.max (arr_length dest) (1 + n)) /\
       forall i, 0 <= i ->
         item_at dest' i = if decide (1 <= i < 1 + n) then item_at src (1 + (i - 1)) else item_at dest i
     else dest' = dest).
Proof.
  intros dest src. split; [reflexivity|].
  apply (dynamic_array_copy_spec dest src 1 1 DYNAMIC_ARRAY_COPY_ALL true true calm);
    unfold in_int; repeat split; vm_compute; congruence.
Defined.
