(* ===== verification/Lists.v ===== *)
(** Doubly linked lists and their sorting ([lists.c], [lists.h]).

    List items live in a heap; reading or writing an item that is not allocated
    is undefined behaviour. A [list_t] is passed by value and returned changed.
    Values are pointers ([None] is NULL); value destructors are not modelled
    beyond the values they are called for. The item count does not wrap: memory
    is exhausted before a list has [2^31] items. *)

From S2P Require Import Prelude CLib Utils.

Abbreviation loc := positive.

Record list_item_t (V : Type) := mkItem { item_value : option V; item_prev : option loc; item_next : option loc }.
Arguments mkItem {V}.
Arguments item_value {V}.
Arguments item_prev {V}.
Arguments item_next {V}.

Record list_t := mkList { list_size : Z; list_head : option loc; list_tail : option loc }.

Definition set_value {V} (v : option V) (it : list_item_t V) := mkItem v (item_prev it) (item_next it).
Definition set_prev {V} (p : option loc) (it : list_item_t V) := mkItem (item_value it) p (item_next it).
Definition set_next {V} (p : option loc) (it : list_item_t V) := mkItem (item_value it) (item_prev it) p.

(** The heap of list items and the environment. *)
Record heap (V : Type) := mkHeap { h_items : gmap loc (list_item_t V); h_env : env }.
Arguments mkHeap {V}.
Arguments h_items {V}.
Arguments h_env {V}.

Definition empty_list : list_t := mkList 0 None None.

Section Lists.
Context {V : Type} `{EqDecision V}.
Implicit Types (p : loc) (it : list_item_t V) (list : list_t).

Definition load_item p : M (heap V) (list_item_t V) := fun h => (fun it => (it, h)) <$> h_items h !! p.
Definition update_item p (f : list_item_t V -> list_item_t V) : M (heap V) unit := fun h =>
  match h_items h !! p with
  | Some it => Some (tt, mkHeap (<[p := f it]> (h_items h)) (h_env h))
  | None => None
  end.
Definition free_item p : M (heap V) unit := fun h =>
  match h_items h !! p with
  | Some _ => Some (tt, mkHeap (delete p (h_items h)) (h_env h))
  | None => None
  end.

(** A new item, or [None] if memory is unavailable. *)
Definition alloc_item (it : list_item_t V) : M (heap V) (option loc) := fun h =>
  match zmalloc 24 (h_env h) with
  | Some (true, e) =>
      let p := fresh (dom (h_items h)) in
      Some (Some p, mkHeap (<[p := it]> (h_items h)) e)
  | Some (false, e) => Some (None, mkHeap (h_items h) e)
  | None => None
  end.

Definition create_list : M (heap V) (option list_t) := fun h =>
  match zmalloc 24 (h_env h) with
  | Some (ok, e) => Some (if ok : bool then Some empty_list else None, mkHeap (h_items h) e)
  | None => None
  end.

Definition when_some {A} (o : option A) (f : A -> M (heap V) unit) : M (heap V) unit :=
  match o with Some a => f a | None => mret tt end.

Definition list_append list (value : option V) : M (heap V) (bool * list_t) :=
  item ← alloc_item (mkItem value (list_tail list) None);
  match item with
  | None => mret (false, list)
  | Some item =>
      _ ← when_some (list_tail list) (fun prev => update_item prev (set_next (Some item)));
      let head := match list_head list with None => Some item | head => head end in
      mret (true, mkList (list_size list + 1) head (Some item))
  end.

Definition list_prepend list (value : option V) : M (heap V) (bool * list_t) :=
  item ← alloc_item (mkItem value None (list_head list));
  match item with
  | None => mret (false, list)
  | Some item =>
      _ ← when_some (list_head list) (fun next => update_item next (set_prev (Some item)));
      let tail := match list_tail list with None => Some item | tail => tail end in
      mret (true, mkList (list_size list + 1) (Some item) tail)
  end.

(** The loop of [list_find] and [list_find_test] from an item on; [fuel] bounds
    the number of items visited. *)
Fixpoint find_loop (fuel : nat) (test : option V -> bool) (item : option loc) : M (heap V) (option loc) :=
  match item with
  | None => mret None
  | Some p =>
      match fuel with
      | O => ub
      | S fuel' =>
          it ← load_item p;
          if test (item_value it) then mret (Some p) else find_loop fuel' test (item_next it)
      end
  end.

Definition list_find_test (fuel : nat) list (test : option V -> bool) : M (heap V) (option loc) :=
  find_loop fuel test (list_head list).

Definition list_find (fuel : nat) list (value : option V) : M (heap V) (option loc) :=
  list_find_test fuel list (fun v => bool_decide (v = value)).

Definition list_delete_item list (item : loc) : M (heap V) list_t :=
  it ← load_item item;
  _ ← when_some (item_prev it) (fun prev => update_item prev (set_next (item_next it)));
  _ ← when_some (item_next it) (fun next => update_item next (set_prev (item_prev it)));
  let head := if bool_decide (list_head list = Some item) then item_next it else list_head list in
  let tail := if bool_decide (list_tail list = Some item) then item_prev it else list_tail list in
  _ ← free_item item;
  mret (mkList (list_size list - 1) head tail).

Fixpoint delete_where_loop (fuel : nat) (test : option V -> bool) list (item : option loc) : M (heap V) list_t :=
  match item with
  | None => mret list
  | Some p =>
      match fuel with
      | O => ub
      | S fuel' =>
          it ← load_item p;
          let next := item_next it in
          list ← (if test (item_value it) then list_delete_item list p else mret list);
          delete_where_loop fuel' test list next
      end
  end.

Definition list_delete_items_where (fuel : nat) list (test : option V -> bool) : M (heap V) list_t :=
  delete_where_loop fuel test list (list_head list).

Fixpoint destroy_loop (fuel : nat) (item : option loc) : M (heap V) unit :=
  match item with
  | None => mret tt
  | Some p =>
      match fuel with
      | O => ub
      | S fuel' => it ← load_item p; _ ← free_item p; destroy_loop fuel' (item_next it)
      end
  end.

Definition destroy_list (fuel : nat) list : M (heap V) unit := destroy_loop fuel (list_head list).

(** * The sequence a list represents *)

Definition first (l : list (loc * option V)) (next : option loc) : option loc :=
  match l with [] => next | (p, _) :: _ => Some p end.
Definition final (prev : option loc) (l : list (loc * option V)) : option loc :=
  match last l with Some (p, _) => Some p | None => prev end.

(** The items [l] are linked between [prev] and [next]. *)
Fixpoint seg (h : gmap loc (list_item_t V)) (prev : option loc) (l : list (loc * option V)) (next : option loc) : Prop :=
  match l with
  | [] => True
  | (p, v) :: l' => h !! p = Some (mkItem v prev (first l' next)) /\ seg h (Some p) l' next
  end.

Record represents (h : heap V) list (l : Datatypes.list (loc * option V)) : Prop := mkRepresents {
  rep_seg : seg (h_items h) None l None;
  rep_nodup : NoDup l.*1;
  rep_head : list_head list = first l None;
  rep_tail : list_tail list = final None l;
  rep_size : list_size list = len l;
}.

Lemma final_app prev l p v : final prev (l ++ [(p, v)]) = Some p.
Proof. unfold final. by rewrite last_snoc. Qed.

Lemma final_cons prev p v l : final prev ((p, v) :: l) = final (Some p) l.
Proof. unfold final. rewrite last_cons. by destruct (last l). Qed.

Lemma final_concat prev l1 l2 : final prev (l1 ++ l2) = final (final prev l1) l2.
Proof. unfold final. rewrite last_app. by destruct (last l2) as [[??]|]. Qed.

Lemma first_app l1 l2 next : first (l1 ++ l2) next = first l1 (first l2 next).
Proof. by destruct l1 as [|[??] l1]. Qed.

Lemma seg_app h prev l1 l2 next :
  seg h prev (l1 ++ l2) next <-> seg h prev l1 (first l2 next) /\ seg h (final prev l1) l2 next.
Proof.
  revert prev. induction l1 as [|[p v] l1 IH]; intros prev; simpl; [unfold final; simpl; tauto|].
  rewrite IH, first_app, final_cons. tauto.
Qed.

(** Changes to other items do not matter. *)
Lemma seg_frame h h' prev l next :
  (forall p, p ∈ l.*1 -> h' !! p = h !! p) -> seg h prev l next -> seg h' prev l next.
Proof.
  revert prev. induction l as [|[p v] l IH]; intros prev Hf; simpl; [done|].
  intros [Hp Hl]. split.
  - rewrite Hf; [done|]. left.
  - apply IH; [|done]. intros q Hq. apply Hf. by right.
Qed.

Lemma seg_elem h prev l next p : seg h prev l next -> p ∈ l.*1 -> is_Some (h !! p).
Proof.
  revert prev. induction l as [|[q v] l IH]; intros prev; simpl; [by intros _ ?%elem_of_nil|].
  intros [Hq Hl] [-> |Hp]%elem_of_cons; [by rewrite Hq|by eapply IH].
Qed.

Lemma seg_next h prev l p v it next next' :
  h !! p = Some it -> p ∉ l.*1 -> seg h prev (l ++ [(p, v)]) next ->
  seg (<[p := set_next next' it]> h) prev (l ++ [(p, v)]) next'.
Proof.
  intros Hp Hl [H1 [H2 _]]%seg_app. apply seg_app. split.
  - eapply seg_frame; [|exact H1]. intros q Hq. apply lookup_insert_ne. congruence.
  - simpl in *. rewrite Hp in H2. simplify_eq. by rewrite lookup_insert_eq.
Qed.

Lemma seg_prev h prev l p v it next prev' :
  h !! p = Some it -> p ∉ l.*1 -> seg h prev ((p, v) :: l) next ->
  seg (<[p := set_prev prev' it]> h) prev' ((p, v) :: l) next.
Proof.
  intros Hp Hl [H1 H2]. rewrite Hp in H1. simplify_eq. split.
  - by rewrite lookup_insert_eq.
  - eapply seg_frame; [|exact H2]. intros q Hq. apply lookup_insert_ne. congruence.
Qed.

(** Items outside of a list and not in [extra] are left alone. *)
Definition frame (h h' : heap V) (ps : Datatypes.list loc) : Prop :=
  forall q, q ∉ ps -> h_items h' !! q = h_items h !! q.

Lemma alloc_item_eq it h :
  alloc_item it h =
  Some (if alloc_next (h_env h) then Some (fresh (dom (h_items h))) else None,
        mkHeap (if alloc_next (h_env h) then <[fresh (dom (h_items h)) := it]> (h_items h) else h_items h)
          (alloc_rest (h_env h))).
Proof. unfold alloc_item. rewrite zmalloc_eq by done. by destruct (alloc_next (h_env h)). Qed.

Lemma fresh_item (m : gmap loc (list_item_t V)) : m !! fresh (dom m) = None.
Proof. apply not_elem_of_dom, is_fresh. Qed.

Lemma update_item_eq p f h it :
  h_items h !! p = Some it -> update_item p f h = Some (tt, mkHeap (<[p := f it]> (h_items h)) (h_env h)).
Proof. intros E. unfold update_item. by rewrite E. Qed.

Lemma load_item_eq p h it : h_items h !! p = Some it -> load_item p h = Some (it, h).
Proof. intros E. unfold load_item. by rewrite E. Qed.

Lemma free_item_eq p h it :
  h_items h !! p = Some it -> free_item p h = Some (tt, mkHeap (delete p (h_items h)) (h_env h)).
Proof. intros E. unfold free_item. by rewrite E. Qed.

Lemma seg_alloc h prev l next q it : h !! q = None -> seg h prev l next -> seg (<[q := it]> h) prev l next.
Proof.
  intros Hq Hs. eapply seg_frame; [|exact Hs]. intros p Hp. apply lookup_insert_ne. intros <-.
  destruct (seg_elem _ _ _ _ _ Hs Hp). congruence.
Qed.

Lemma fresh_not_in h prev l next q : h !! q = None -> seg h prev l next -> q ∉ l.*1.
Proof. intros Hq Hs Hin. destruct (seg_elem _ _ _ _ _ Hs Hin). congruence. Qed.

Lemma list_append_spec h list l value :
  represents h list l ->
  run (list_append list value) h (fun '(ok, list') h' =>
    ok = alloc_next (h_env h) /\ h_env h' = alloc_rest (h_env h) /\
    if ok then exists p, h_items h !! p = None /\ represents h' list' (l ++ [(p, value)]) /\ frame h h' (p :: l.*1)
    else list' = list /\ h_items h' = h_items h).
Proof.
  intros [Hseg Hnd Hhead Htail Hsize]. unfold list_append. apply run_bind. eapply run_eq; [apply alloc_item_eq|].
  destruct (alloc_next (h_env h)) eqn:He; [|apply run_ret; by split_and!].
  set (q := fresh (dom (h_items h))). assert (h_items h !! q = None) as Hq by apply fresh_item.
  pose proof (fresh_not_in _ _ _ _ _ Hq Hseg) as Hql. rewrite Hhead, Htail, Hsize.
  destruct l as [|[p v] l' _] using rev_ind.
  - simpl. apply run_bind, run_ret, run_ret. split_and!; [done|done|]. exists q. split_and!; [done| |].
    + split; simpl; [by rewrite lookup_insert_eq|apply NoDup_singleton|done|done|done].
    + intros q' Hq'. apply not_elem_of_cons in Hq' as [? _]. by apply lookup_insert_ne.
  - rewrite final_app. simpl. rewrite fmap_app in Hql, Hnd. apply NoDup_app in Hnd as (Hnd & Hdis & _).
    assert (p ∉ l'.*1) as Hp.
    { intros Hp. apply (Hdis p Hp). left. }
    assert (p <> q) as Hpq by (intros ->; apply Hql, elem_of_app; right; left).
    destruct (seg_elem _ _ _ _ p Hseg) as [it Hit]; [rewrite fmap_app, elem_of_app; right; left|].
    apply run_bind. eapply run_eq; [by apply update_item_eq; simpl; rewrite lookup_insert_ne by done|].
    apply run_ret. split_and!; [done|done|]. exists q. split_and!; [done| |].
    + split; cbn [h_items list_head list_tail list_size].
      * apply seg_app. split.
        -- eapply seg_next; [by rewrite lookup_insert_ne|done|]. by apply seg_alloc.
        -- split; [|done]. by rewrite lookup_insert_ne, lookup_insert_eq, final_app.
      * rewrite fmap_app. apply NoDup_app. split_and!; [|by intros ? Hx ->%list_elem_of_singleton; rewrite fmap_app in Hx|apply NoDup_singleton].
        rewrite fmap_app. apply NoDup_app. split_and!; [done|done|apply NoDup_singleton].
      * rewrite !first_app. simpl. by destruct l' as [|[??] ?].
      * by rewrite final_app.
      * rewrite !length_app. simpl. lia.
    + intros q' Hq'. rewrite fmap_app in Hq'. simpl in Hq'. rewrite not_elem_of_cons, not_elem_of_app in Hq'.
      destruct Hq' as (? & ? & Hq'). apply not_elem_of_cons in Hq' as [? _]. simpl. by rewrite !lookup_insert_ne.
Qed.

Lemma list_prepend_spec h list l value :
  represents h list l ->
  run (list_prepend list value) h (fun '(ok, list') h' =>
    ok = alloc_next (h_env h) /\ h_env h' = alloc_rest (h_env h) /\
    if ok then exists p, h_items h !! p = None /\ represents h' list' ((p, value) :: l) /\ frame h h' (p :: l.*1)
    else list' = list /\ h_items h' = h_items h).
Proof.
  intros [Hseg Hnd Hhead Htail Hsize]. unfold list_prepend. apply run_bind. eapply run_eq; [apply alloc_item_eq|].
  destruct (alloc_next (h_env h)) eqn:He; [|apply run_ret; by split_and!].
  set (q := fresh (dom (h_items h))). assert (h_items h !! q = None) as Hq by apply fresh_item.
  pose proof (fresh_not_in _ _ _ _ _ Hq Hseg) as Hql. rewrite Hhead, Htail, Hsize.
  destruct l as [|[p v] l']; simpl.
  - apply run_bind, run_ret, run_ret. split_and!; [done|done|]. exists q. split_and!; [done| |].
    + split; simpl; [by rewrite lookup_insert_eq|apply NoDup_singleton|done|done|done].
    + intros q' Hq'. apply not_elem_of_cons in Hq' as [? _]. by apply lookup_insert_ne.
  - simpl in Hql. apply not_elem_of_cons in Hql as [Hpq Hql]. pose proof Hnd as [Hp Hnd']%NoDup_cons.
    pose proof Hseg as [Hit _].
    apply run_bind. eapply run_eq; [by apply update_item_eq; simpl; rewrite lookup_insert_ne by done|].
    apply run_ret. split_and!; [done|done|]. exists q. split_and!; [done| |].
    + split; cbn [h_items list_head list_tail list_size].
      * split; [by rewrite lookup_insert_ne, lookup_insert_eq|].
        eapply (seg_prev _ None); [by rewrite lookup_insert_ne|done|]. by apply seg_alloc.
      * apply NoDup_cons. split; [|done]. by apply not_elem_of_cons.
      * done.
      * rewrite final_cons. unfold final. rewrite !last_cons. by destruct (last l') as [[??]|].
      * simpl. lia.
    + intros q'. simpl. rewrite !not_elem_of_cons. intros (? & ? & ?). by rewrite !lookup_insert_ne.
Qed.

(** ** Unlinking the item between [l1] and [l2] *)

(** An update of the item at a pointer unless that is NULL. *)
Definition relink {A} (f : A -> A) (o : option loc) (m : gmap loc A) : gmap loc A :=
  match o with Some q => alter f q m | None => m end.

Definition unlinked (prev next : option loc) (m : gmap loc (list_item_t V)) : gmap loc (list_item_t V) :=
  relink (set_prev prev) next (relink (set_next next) prev m).

Lemma relink_other {A} (f : A -> A) o m q : o <> Some q -> relink f o m !! q = m !! q.
Proof. destruct o as [r|]; [|done]. intros ?. apply lookup_alter_ne. congruence. Qed.

Lemma final_elem l q : final None l = Some q -> q ∈ l.*1.
Proof.
  destruct l as [|[p w] l' _] using rev_ind; [done|]. rewrite final_app, fmap_app. intros [= ->].
  apply elem_of_app. right. left.
Qed.

Lemma first_elem l q : first l None = Some q -> q ∈ l.*1.
Proof. destruct l as [|[p w] l']; [done|]. intros [= ->]. left. Qed.

Lemma unlinked_other l1 l2 m q :
  q ∉ l1.*1 -> q ∉ l2.*1 -> unlinked (final None l1) (first l2 None) m !! q = m !! q.
Proof.
  intros H1 H2. unfold unlinked. rewrite !relink_other; [done| |]; intros E; [by apply H1, final_elem|by apply H2, first_elem].
Qed.

Lemma seg_relink_next m l1 next next' : NoDup l1.*1 -> seg m None l1 next -> seg (relink (set_next next') (final None l1) m) None l1 next'.
Proof.
  intros Hnd Hs. destruct l1 as [|[q w] l1 _] using rev_ind; [done|]. rewrite final_app. simpl.
  rewrite fmap_app in Hnd. apply NoDup_app in Hnd as (_ & Hd & _).
  pose proof (proj1 (seg_app _ _ _ _ _) Hs) as [_ [Hq _]]. rewrite (alter_alt_Some _ _ _ _ Hq).
  eapply seg_next; [exact Hq| |exact Hs]. intros Hin. apply (Hd q Hin). left.
Qed.

Lemma seg_relink_prev m l2 prev prev' : NoDup l2.*1 -> seg m prev l2 None -> seg (relink (set_prev prev') (first l2 None) m) prev' l2 None.
Proof.
  intros Hnd Hs. destruct l2 as [|[q w] l2]; [done|]. apply NoDup_cons in Hnd as [Hq _]. pose proof Hs as [Hm _]. simpl.
  rewrite (alter_alt_Some _ _ _ _ Hm). by eapply seg_prev.
Qed.

Lemma seg_unlinked m l1 p v l2 :
  NoDup (l1 ++ (p, v) :: l2).*1 -> seg m None (l1 ++ (p, v) :: l2) None ->
  seg (unlinked (final None l1) (first l2 None) m) None (l1 ++ l2) None.
Proof.
  rewrite fmap_app, fmap_cons. intros (Hn1 & Hd & [_ Hn2]%NoDup_cons)%NoDup_app [Hs1 [_ Hs2]]%seg_app.
  apply seg_app. unfold unlinked. split.
  - eapply seg_frame; [|by eapply seg_relink_next]. intros q Hq. apply relink_other.
    intros E%first_elem. apply (Hd q Hq). by right.
  - apply seg_relink_prev with (prev := Some p); [done|]. eapply seg_frame; [|exact Hs2]. intros q Hq. apply relink_other.
    intros E%final_elem. apply (Hd q E). by right.
Qed.

(** The new ends of the list. *)
Lemma unlinked_first l1 p v l2 : p ∉ l1.*1 ->
  (if bool_decide (first (l1 ++ (p, v) :: l2) None = Some p) then first l2 None else first (l1 ++ (p, v) :: l2) None) =
  first (l1 ++ l2) None.
Proof.
  intros Hp. rewrite !first_app. destruct l1 as [|[q w] l1]; simpl; [by rewrite bool_decide_eq_true_2|].
  rewrite bool_decide_eq_false_2; [done|]. intros [= ->]. apply Hp. left.
Qed.

Lemma unlinked_final l1 p v l2 : p ∉ l2.*1 ->
  (if bool_decide (final None (l1 ++ (p, v) :: l2) = Some p) then final None l1 else final None (l1 ++ (p, v) :: l2)) =
  final None (l1 ++ l2).
Proof.
  intros Hp. rewrite !final_concat, final_cons. destruct l2 as [|[q w] l2 _] using rev_ind; [by rewrite bool_decide_eq_true_2|].
  rewrite !final_app, bool_decide_eq_false_2; [done|]. intros [= ->]. apply Hp. rewrite fmap_app. apply elem_of_app. right. left.
Qed.

(** An update through a pointer that is NULL or valid. *)
Lemma when_some_update f o h :
  (forall q, o = Some q -> is_Some (h_items h !! q)) ->
  when_some o (fun q => update_item q f) h = Some (tt, mkHeap (relink f o (h_items h)) (h_env h)).
Proof.
  intros Ho. destruct o as [q|]; [|by destruct h]. destruct (Ho q eq_refl) as [it E]. simpl.
  by rewrite (update_item_eq _ _ _ _ E), (alter_alt_Some _ _ _ _ E).
Qed.

Lemma list_delete_item_spec h list l1 p v l2 :
  represents h list (l1 ++ (p, v) :: l2) ->
  run (list_delete_item list p) h (fun list' h' =>
    represents h' list' (l1 ++ l2) /\ h_env h' = h_env h /\ h_items h' !! p = None /\
    frame h h' (l1 ++ (p, v) :: l2).*1).
Proof.
  intros [Hseg Hnd Hhead Htail Hsize]. pose proof Hnd as Hnd'.
  rewrite fmap_app, fmap_cons in Hnd. apply NoDup_app in Hnd as (Hnd1 & Hdis & [Hp2 Hnd2]%NoDup_cons).
  assert (p ∉ l1.*1) as Hp1 by (intros ?; eapply Hdis; [done|left]).
  pose proof Hseg as [_ [Hit _]]%seg_app.
  assert (forall q, final None l1 = Some q \/ first l2 None = Some q -> is_Some (h_items h !! q)) as Hends.
  { intros q Hq. eapply seg_elem; [exact Hseg|]. rewrite fmap_app, fmap_cons. apply elem_of_app.
    destruct Hq as [Hq%final_elem|Hq%first_elem]; [by left|by right; right]. }
  unfold list_delete_item. apply run_bind. eapply run_eq; [by apply load_item_eq|]. cbn [item_prev item_next].
  apply run_bind. eapply run_eq; [apply when_some_update; auto|].
  apply run_bind. eapply run_eq.
  { apply when_some_update. intros q Hq. cbn [h_items]. rewrite relink_other; [auto|]. intros E%final_elem.
    apply (Hdis q E). right. by apply first_elem. }
  cbn [h_items h_env]. change (relink _ _ (relink _ _ ?m)) with (unlinked (final None l1) (first l2 None) m).
  apply run_bind. eapply run_eq; [eapply free_item_eq; cbn [h_items]; rewrite unlinked_other by done; exact Hit|]. apply run_ret. cbn [h_items h_env].
  split; [|split; [done|split; [apply lookup_delete_eq|]]].
  - split; cbn [h_items list_head list_tail list_size].
    + eapply seg_frame; [|by eapply seg_unlinked]. intros r Hr. apply lookup_delete_ne. intros <-.
      rewrite fmap_app in Hr. apply elem_of_app in Hr as [?|?]; done.
    + rewrite fmap_app. apply NoDup_app. split; [done|]. split; [|done]. intros q Hq Hin. apply (Hdis q Hq). by right.
    + rewrite Hhead. by apply unlinked_first.
    + rewrite Htail. by apply unlinked_final.
    + rewrite Hsize, !length_app. simpl. lia.
  - intros r Hr. rewrite fmap_app, fmap_cons in Hr. apply not_elem_of_app in Hr as [? [??]%not_elem_of_cons].
    cbn [h_items]. rewrite lookup_delete_ne by done. by apply unlinked_other.
Qed.

Lemma represents_item h list l1 p v l2 :
  represents h list (l1 ++ (p, v) :: l2) ->
  exists prev, h_items h !! p = Some (mkItem v prev (first l2 None)).
Proof. intros [[_ [Hp _]]%seg_app _ _ _ _]. by eexists. Qed.

Lemma find_loop_spec test h list l1 l2 fuel :
  represents h list (l1 ++ l2) -> (length l2 <= fuel)%nat ->
  find_loop fuel test (first l2 None) h = Some (fst <$> List.find (fun pv => test pv.2) l2, h).
Proof.
  revert l1 fuel. induction l2 as [|[p v] l2 IH]; intros l1 fuel Hr Hf; [by destruct fuel|].
  destruct fuel as [|fuel]; [simpl in Hf; lia|]. simpl in Hf |- *.
  destruct (represents_item _ _ _ _ _ _ Hr) as [prev Hp].
  erewrite bind_eq by by apply load_item_eq. simpl. destruct (test v); [done|].
  apply (IH (l1 ++ [(p, v)])); [by rewrite <-app_assoc|lia].
Qed.

(** The items that survive [list_delete_items_where]. *)
Definition keep (test : option V -> bool) (l : Datatypes.list (loc * option V)) : Datatypes.list (loc * option V) :=
  List.filter (fun pv => negb (test pv.2)) l.

Lemma delete_where_loop_spec test l2 : forall h list l1 fuel,
  represents h list (l1 ++ l2) -> (length l2 <= fuel)%nat ->
  run (delete_where_loop fuel test list (first l2 None)) h (fun list' h' =>
    represents h' list' (l1 ++ keep test l2) /\ h_env h' = h_env h /\ frame h h' (l1 ++ l2).*1).
Proof.
  induction l2 as [|[p v] l2 IH]; intros h list l1 fuel Hr Hf.
  { destruct fuel; apply run_ret; split_and!; done. }
  destruct fuel as [|fuel]; [simpl in Hf; lia|]. simpl in Hf |- *.
  destruct (represents_item _ _ _ _ _ _ Hr) as [prev Hp].
  apply run_bind. eapply run_eq; [by apply load_item_eq|]. simpl. apply run_bind. destruct (test v); simpl.
  - eapply run_mono; [|by apply list_delete_item_spec]. intros list' h' (Hr' & He & _ & Hfr).
    eapply run_mono; [|apply (IH h' list' l1); [done|lia]].
    intros list'' h'' (? & ? & Hfr'). split_and!; [done|congruence|].
    intros q Hq. rewrite Hfr', Hfr; [done|done|]. intros Hin. apply Hq.
    rewrite fmap_app, elem_of_app in *. simpl. rewrite elem_of_cons. tauto.
  - apply run_ret.
    eapply run_mono; [|apply (IH h list (l1 ++ [(p, v)])); [by rewrite <-app_assoc|lia]].
    intros list'' h'' (? & ? & Hfr). rewrite <-!app_assoc in *. done.
Qed.

Lemma destroy_loop_spec l2 : forall (h : heap V) prev fuel,
  seg (h_items h) prev l2 None -> NoDup l2.*1 -> (length l2 <= fuel)%nat ->
  run (destroy_loop fuel (first l2 None)) h (fun _ h' =>
    h_env h' = h_env h /\ (forall p, p ∈ l2.*1 -> h_items h' !! p = None) /\ frame h h' l2.*1).
Proof.
  induction l2 as [|[p v] l2 IH]; intros h prev fuel Hs Hnd Hf.
  { destruct fuel; apply run_ret; split_and!; [done|by intros ? ?%elem_of_nil|done|done|by intros ? ?%elem_of_nil|done]. }
  destruct fuel as [|fuel]; [simpl in Hf; lia|]. simpl in Hf |- *. destruct Hs as [Hp Hs].
  apply NoDup_cons in Hnd as [Hpl Hnd].
  apply run_bind. eapply run_eq; [by apply load_item_eq|]. simpl. apply run_bind.
  eapply run_eq; [by eapply free_item_eq|].
  eapply run_mono; [|eapply (IH _ (Some p)); [|done|lia]].
  - intros _ h' (He & Hnone & Hfr). split_and!; [done| |].
    + intros q. rewrite elem_of_cons. intros [-> | Hq]; [|by apply Hnone].
      rewrite Hfr by done. simpl. apply lookup_delete_eq.
    + intros q. rewrite not_elem_of_cons. intros [? ?]. rewrite Hfr by done. simpl. by rewrite lookup_delete_ne.
  - eapply seg_frame; [|exact Hs]. intros q Hq. apply lookup_delete_ne. by intros <-.
Qed.
End Lists.

(** The linked lists implement sequences: appending, prepending, searching,
    deleting one item and deleting all items that pass a test act on the
    represented sequence as expected, keep the links and the size consistent in
    both directions, and touch no item of any other list. Without memory,
    appending and prepending fail and change nothing. *)
Theorem list_operations_refine {V} `{EqDecision V} (h : heap V) list l value test fuel :
  represents h list l -> (length l <= fuel)%nat ->
  run (list_append list value) h (fun '(ok, list') h' =>
    ok = alloc_next (h_env h) /\ h_env h' = alloc_rest (h_env h) /\
    if ok then exists p, h_items h !! p = None /\ represents h' list' (l ++ [(p, value)]) /\ frame h h' (p :: l.*1)
    else list' = list /\ h_items h' = h_items h) /\
  run (list_prepend list value) h (fun '(ok, list') h' =>
    ok = alloc_next (h_env h) /\ h_env h' = alloc_rest (h_env h) /\
    if ok then exists p, h_items h !! p = None /\ represents h' list' ((p, value) :: l) /\ frame h h' (p :: l.*1)
    else list' = list /\ h_items h' = h_items h) /\
  list_find_test fuel list test h = Some (fst <$> List.find (fun pv => test pv.2) l, h) /\
  run (list_delete_items_where fuel list test) h (fun list' h' =>
    represents h' list' (keep test l) /\ h_env h' = h_env h /\ frame h h' l.*1) /\
  (forall l1 p v l2, l = l1 ++ (p, v) :: l2 ->
   run (list_delete_item list p) h (fun list' h' =>
     represents h' list' (l1 ++ l2) /\ h_env h' = h_env h /\ h_items h' !! p = None /\ frame h h' l.*1)) /\
  run (destroy_list fuel list) h (fun _ h' => (forall p, p ∈ l.*1 -> h_items h' !! p = None) /\ frame h h' l.*1).
Proof.
  intros Hr Hf. split_and!.
  - by apply list_append_spec.
  - by apply list_prepend_spec.
  - unfold list_find_test. rewrite (rep_head _ _ _ Hr). by apply (find_loop_spec _ _ list []).
  - unfold list_delete_items_where. rewrite (rep_head _ _ _ Hr). by apply (delete_where_loop_spec _ _ _ _ []).
  - intros l1 p v l2 ->. by apply list_delete_item_spec.
  - unfold destroy_list. rewrite (rep_head _ _ _ Hr).
    eapply run_mono; [|eapply destroy_loop_spec; [apply Hr|apply Hr|done]]. by intros _ h' (_ & ? & ?).
Qed.

Lemma list_operations_refine_witness :
  let l := [(3%positive, Some 30); (5%positive, None)] in
  let h := mkHeap {[3%positive := mkItem (Some 30) None (Some 5%positive); 5%positive := mkItem None (Some 3%positive) None]} calm in
  let list := mkList 2 (Some 3%positive) (Some 5%positive) in
  list_find_test 2 list (fun v => bool_decide (v = None)) h =
    Some (fst <$> List.find (fun pv => bool_decide (pv.2 = None)) l, h).
Proof.
  intros l h list.
  refine (proj1 (proj2 (proj2 (list_operations_refine h list l None (fun v => bool_decide (v = None)) 2 _ _)))).
  - split; [|apply (bool_decide_unpack _); reflexivity|reflexivity|reflexivity|reflexivity].
    repeat split.
  - apply le_n.
Defined.

(** * Sorting *)

Section Quicksort.
Context {A : Type} (comparator : A -> A -> Z).
Implicit Types items : list A.

Definition nth_item items (i : Z) : option A := if i <? 0 then None else items !! Z.to_nat i.

(** [while (comparator(items[++i], pivot_item) < 0);] *)
Fixpoint scan_up (fuel : nat) items (pivot : A) (i : Z) : option Z :=
  match fuel with
  | O => None
  | S fuel' =>
      item ← nth_item items (i + 1);
      if comparator item pivot <? 0 then scan_up fuel' items pivot (i + 1) else Some (i + 1)
  end.

(** [while (comparator(items[--j], pivot_item) > 0);] *)
Fixpoint scan_down (fuel : nat) items (pivot : A) (j : Z) : option Z :=
  match fuel with
  | O => None
  | S fuel' =>
      item ← nth_item items (j - 1);
      if 0 <? comparator item pivot then scan_down fuel' items pivot (j - 1) else Some (j - 1)
  end.

(** Exchanges two items of the array. *)
Definition swap_items items (i j : Z) : option (list A) :=
  a ← nth_item items i;
  b ← nth_item items j;
  Some (<[Z.to_nat j := a]> (<[Z.to_nat i := b]> items)).

(** The [while (true)] loop; returns the partition index and the array. *)
Fixpoint partition_loop (fuel : nat) items (pivot : A) (i j : Z) : option (Z * list A) :=
  match fuel with
  | O => None
  | S fuel' =>
      i ← scan_up (S (length items)) items pivot i;
      j ← scan_down (S (length items)) items pivot j;
      if j <=? i then Some (j, items)
      else
        items ← swap_items items i j;
        partition_loop fuel' items pivot i j
  end.

Definition sort_list_items_partition items (lowerLimit upperLimit : Z) : option (Z * list A) :=
  pivot_item ← nth_item items lowerLimit;
  partition_loop (S (length items)) items pivot_item (lowerLimit - 1) (upperLimit + 1).

(** [fuel] bounds the depth of the recursion. *)
Fixpoint sort_list_items_quicksort_internal (fuel : nat) items (lowerLimit upperLimit : Z) : option (list A) :=
  if (lowerLimit <? 0) || (upperLimit <? 0) || (upperLimit <=? lowerLimit) then Some items
  else
    match fuel with
    | O => None
    | S fuel' =>
        '(pivotIndex, items) ← sort_list_items_partition items lowerLimit upperLimit;
        items ← sort_list_items_quicksort_internal fuel' items lowerLimit pivotIndex;
        sort_list_items_quicksort_internal fuel' items (pivotIndex + 1) upperLimit
    end.

Definition sort_list_items_quicksort items (lowerLimit upperLimit : Z) : option (list A) :=
  sort_list_items_quicksort_internal (length items) items lowerLimit upperLimit.

(** ** Correctness for comparators that order the items *)

(** The contract of a comparator: a total preorder by the sign of its result. *)
Class Comparator : Prop := {
  comparator_swap : forall a b, 0 < comparator a b <-> comparator b a < 0;
  comparator_trans : forall a b c, comparator a b <= 0 -> comparator b c <= 0 -> comparator a c <= 0;
}.

Context `{Comparator}.

Lemma comparator_refl a : comparator a a = 0.
Proof. pose proof (comparator_swap a a). lia. Qed.

(** Every position of a range satisfies [P]. *)
Definition all_in items (lo hi : Z) (P : A -> Prop) : Prop :=
  forall k x, lo <= k <= hi -> nth_item items k = Some x -> P x.

(** [items'] rearranges the positions [lo] to [hi] of [items]. *)
Definition rearranges (lo hi : Z) items items' : Prop :=
  items' ≡ₚ items /\
  (forall k, k < lo \/ hi < k -> nth_item items' k = nth_item items k) /\
  (forall k, lo <= k <= hi -> exists k', lo <= k' <= hi /\ nth_item items' k = nth_item items k').

Definition sorted_range (lo hi : Z) items : Prop :=
  forall k k' x y, lo <= k -> k <= k' -> k' <= hi -> nth_item items k = Some x -> nth_item items k' = Some y ->
    comparator x y <= 0.

Lemma rearranges_refl lo hi items : rearranges lo hi items items.
Proof. split_and!; [done|done|]. intros k ?. by exists k. Qed.

Lemma rearranges_trans lo hi items1 items2 items3 :
  rearranges lo hi items1 items2 -> rearranges lo hi items2 items3 -> rearranges lo hi items1 items3.
Proof.
  intros (Hp & Ho & Hi) (Hp' & Ho' & Hi'). split_and!.
  - by etrans.
  - intros k ?. by rewrite Ho', Ho.
  - intros k Hk. destruct (Hi' k Hk) as (k' & Hk' & E). destruct (Hi k' Hk') as (k'' & ? & E').
    exists k''. split; [done|]. congruence.
Qed.

Lemma rearranges_wider lo hi lo' hi' items items' :
  lo' <= lo -> hi <= hi' -> rearranges lo hi items items' -> rearranges lo' hi' items items'.
Proof.
  intros ?? (Hp & Ho & Hi). split_and!; [done| |].
  - intros k ?. apply Ho. lia.
  - intros k Hk. destruct (decide (lo <= k <= hi)) as [Hin|].
    + destruct (Hi k Hin) as (k' & ? & ?). exists k'. split; [lia|done].
    + exists k. split; [done|]. apply Ho. lia.
Qed.

Lemma rearranges_all_in lo hi items items' P :
  rearranges lo hi items items' -> all_in items lo hi P -> all_in items' lo hi P.
Proof. intros (_ & _ & Hi) Ha k x Hk Hx. destruct (Hi k Hk) as (k' & ? & E). apply (Ha k'); congruence. Qed.

Lemma nth_item_Some items i x : nth_item items i = Some x -> 0 <= i < len items.
Proof.
  unfold nth_item. destruct (Z.ltb_spec i 0); [done|]. intros ?%lookup_lt_Some. lia.
Qed.

Lemma nth_item_is_Some items i : 0 <= i < len items -> exists x, nth_item items i = Some x.
Proof.
  intros ?. unfold nth_item. rewrite (proj2 (Z.ltb_ge i 0)) by lia. apply lookup_lt_is_Some_2. lia.
Qed.

Lemma swap_permutation items (i j : nat) a b :
  items !! i = Some a -> items !! j = Some b -> <[j := a]> (<[i := b]> items) ≡ₚ items.
Proof.
  intros Hi Hj. apply Permutation_inj. split; [by rewrite !length_insert|].
  exists (fun k => if decide (k = i) then j else if decide (k = j) then i else k). split.
  - intros x y. repeat case_decide; congruence.
  - intros k. pose proof (lookup_lt_Some _ _ _ Hi). pose proof (lookup_lt_Some _ _ _ Hj).
    destruct (decide (k = j)) as [-> |].
    + rewrite list_lookup_insert_eq by (rewrite length_insert; lia).
      case_decide; [subst; congruence|done].
    + rewrite list_lookup_insert_ne by done. case_decide as Hki.
      * subst k. rewrite list_lookup_insert_eq by lia. done.
      * by rewrite list_lookup_insert_ne by done.
Qed.

Lemma swap_items_spec items i j a b :
  nth_item items i = Some a -> nth_item items j = Some b -> i < j ->
  exists items', swap_items items i j = Some items' /\ length items' = length items /\
    nth_item items' i = Some b /\ nth_item items' j = Some a /\
    (forall k, k <> i -> k <> j -> nth_item items' k = nth_item items k) /\ items' ≡ₚ items.
Proof.
  intros Hi Hj Hij. pose proof (nth_item_Some _ _ _ Hi). pose proof (nth_item_Some _ _ _ Hj).
  unfold swap_items. rewrite Hi, Hj. simpl. eexists. split; [done|].
  assert (forall k, 0 <= k -> nth_item items k = items !! Z.to_nat k) as Hn.
  { intros k ?. unfold nth_item. by rewrite (proj2 (Z.ltb_ge k 0)) by lia. }
  rewrite Hn in Hi, Hj by lia. split_and!.
  - by rewrite !length_insert.
  - unfold nth_item. rewrite (proj2 (Z.ltb_ge i 0)) by lia.
    rewrite list_lookup_insert_ne, list_lookup_insert_eq by lia. done.
  - unfold nth_item. rewrite (proj2 (Z.ltb_ge j 0)) by lia.
    rewrite list_lookup_insert_eq by (rewrite length_insert; lia). done.
  - intros k ??. unfold nth_item. destruct (Z.ltb_spec k 0); [done|].
    by rewrite !list_lookup_insert_ne by lia.
  - by apply swap_permutation.
Qed.

Lemma scan_up_spec items pivot k0 x0 fuel : forall i,
  -1 <= i < k0 -> nth_item items k0 = Some x0 -> 0 <= comparator x0 pivot -> k0 - i <= Z.of_nat fuel ->
  exists r x, scan_up fuel items pivot i = Some r /\ i < r <= k0 /\
    nth_item items r = Some x /\ 0 <= comparator x pivot /\
    (forall k y, i < k < r -> nth_item items k = Some y -> comparator y pivot < 0).
Proof.
  induction fuel as [|fuel IH]; intros i Hi Hk0 Hx0 Hf; [lia|]. simpl.
  pose proof (nth_item_Some _ _ _ Hk0). destruct (nth_item_is_Some items (i + 1)) as [x Hx]; [lia|].
  rewrite Hx. simpl. destruct (Z.ltb_spec (comparator x pivot) 0).
  - assert (i + 1 <> k0) by (intros <-; rewrite Hk0 in Hx; simplify_eq; lia).
    destruct (IH (i + 1)) as (r & y & -> & ? & ? & ? & Hbetween); [lia|done|done|lia|].
    exists r, y. split_and!; [done|lia|lia|done|done|]. intros k z Hk Hz.
    destruct (decide (k = i + 1)) as [-> |]; [|apply (Hbetween k); [lia|done]].
    rewrite Hx in Hz. by simplify_eq.
  - exists (i + 1), x. split_and!; [done|lia|lia|done|done|]. intros k y ?. lia.
Qed.

Lemma scan_down_spec items pivot k0 x0 fuel : forall j,
  0 <= k0 < j -> j <= len items -> nth_item items k0 = Some x0 -> comparator x0 pivot <= 0 ->
  j - k0 <= Z.of_nat fuel ->
  exists r x, scan_down fuel items pivot j = Some r /\ k0 <= r < j /\
    nth_item items r = Some x /\ comparator x pivot <= 0 /\
    (forall k y, r < k < j -> nth_item items k = Some y -> 0 < comparator y pivot).
Proof.
  induction fuel as [|fuel IH]; intros j Hj Hlen Hk0 Hx0 Hf; [lia|]. simpl.
  destruct (nth_item_is_Some items (j - 1)) as [x Hx]; [lia|].
  rewrite Hx. simpl. destruct (Z.ltb_spec 0 (comparator x pivot)).
  - assert (j - 1 <> k0) by (intros <-; rewrite Hk0 in Hx; simplify_eq; lia).
    destruct (IH (j - 1)) as (r & y & -> & ? & ? & ? & Hbetween); [lia|lia|done|done|lia|].
    exists r, y. split_and!; [done|lia|lia|done|done|]. intros k z Hk Hz.
    destruct (decide (k = j - 1)) as [-> |]; [|apply (Hbetween k); [lia|done]].
    rewrite Hx in Hz. by simplify_eq.
  - exists (j - 1), x. split_and!; [done|lia|lia|done|done|]. intros k y ?. lia.
Qed.

(** The state of the partition at the head of its loop. *)
Record partition_inv (lo hi : Z) (pivot : A) items (i j : Z) : Prop := {
  inv_range : 0 <= lo /\ lo < hi /\ hi < len items /\ lo - 1 <= i /\ i < j /\ j <= hi + 1;
  inv_low : all_in items lo i (fun x => comparator x pivot <= 0);
  inv_high : all_in items j hi (fun x => 0 <= comparator x pivot);
  inv_stop_up : exists k x, i < k <= j /\ k <= hi /\ nth_item items k = Some x /\ 0 <= comparator x pivot;
  inv_stop_down : exists k x, lo <= k /\ i <= k < j /\ nth_item items k = Some x /\ comparator x pivot <= 0;
  inv_first : j <= hi \/ (i = lo - 1 /\ nth_item items lo = Some pivot);
}.

(** One iteration: the loop ends with a partition, or two items out of place
    are found. *)
Lemma partition_step lo hi pivot items i j :
  partition_inv lo hi pivot items i j ->
  exists i' j' a b,
    scan_up (S (length items)) items pivot i = Some i' /\
    scan_down (S (length items)) items pivot j = Some j' /\
    i < i' /\ j' < j /\ lo <= i' <= hi /\ lo <= j' <= hi /\
    nth_item items i' = Some a /\ nth_item items j' = Some b /\ 0 <= comparator a pivot /\ comparator b pivot <= 0 /\
    (j' <= i' -> j' < hi) /\
    all_in items lo (i' - 1) (fun x => comparator x pivot <= 0) /\
    all_in items (j' + 1) hi (fun x => 0 <= comparator x pivot).
Proof.
  intros [Hr Hlow Hhigh (ku & xu & ? & ? & Hku & Hxu) (kd & xd & ? & ? & Hkd & Hxd) Hfirst].
  destruct (scan_up_spec items pivot ku xu (S (length items)) i) as (i' & a & Eu & ? & Ha & Hpa & Hbu);
    [lia|done|done|lia|].
  destruct (scan_down_spec items pivot kd xd (S (length items)) j) as (j' & b & Ed & ? & Hb & Hpb & Hbd);
    [lia|lia|done|done|lia|].
  exists i', j', a, b. split_and!; try done; try lia.
  - intros ?. destruct Hfirst as [? | [-> Hpivot]]; [lia|].
    destruct (decide (i' = lo)) as [-> |]; [lia|].
    assert (comparator pivot pivot < 0) by (apply (Hbu lo); [lia|done]).
    rewrite comparator_refl in *. lia.
  - intros k x Hk Hx. destruct (Z.le_gt_cases k i); [by apply (Hlow k); [lia|]|].
    apply Z.lt_le_incl, (Hbu k); [lia|done].
  - intros k x Hk Hx. destruct (Z.le_gt_cases j k); [by apply (Hhigh k); [lia|]|].
    apply Z.lt_le_incl, (Hbd k); [lia|done].
Qed.

Lemma partition_loop_spec lo hi pivot fuel : forall items i j,
  partition_inv lo hi pivot items i j -> j - i <= Z.of_nat fuel ->
  exists r items', partition_loop fuel items pivot i j = Some (r, items') /\
    lo <= r < hi /\ rearranges lo hi items items' /\ length items' = length items /\
    all_in items' lo r (fun x => comparator x pivot <= 0) /\
    all_in items' (r + 1) hi (fun x => 0 <= comparator x pivot).
Proof.
  induction fuel as [|fuel IH]; intros items i j Hinv Hf; [destruct (inv_range _ _ _ _ _ _ Hinv); lia|].
  destruct (partition_step _ _ _ _ _ _ Hinv) as
    (i' & j' & a & b & Eu & Ed & ? & ? & ? & ? & Ha & Hb & Hpa & Hpb & Hend & Hlow & Hhigh).
  cbn [partition_loop]. rewrite Eu. cbn [mbind option_bind]. rewrite Ed. cbn [mbind option_bind].
  destruct (Z.leb_spec j' i').
  - exists j', items. specialize (Hend ltac:(lia)). split_and!; [done|lia|lia|apply rearranges_refl|done| |done].
    intros k x Hk Hx. destruct (decide (k = j')) as [-> |]; [congruence|]. apply (Hlow k); [lia|done].
  - destruct (swap_items_spec items i' j' a b Ha Hb) as (items' & -> & Hlen & Hi' & Hj' & Hoth & Hperm); [lia|].
    simpl. pose proof (inv_range _ _ _ _ _ _ Hinv) as Hr.
    destruct (IH items' i' j') as (r & items'' & -> & ? & Hre & ? & ? & ?); [|lia|].
    + split.
      * lia.
      * intros k x Hk Hx. destruct (decide (k = i')) as [-> |]; [congruence|].
        apply (Hlow k); [lia|]. rewrite <-Hoth by lia. done.
      * intros k x Hk Hx. destruct (decide (k = j')) as [-> |]; [congruence|].
        apply (Hhigh k); [lia|]. rewrite <-Hoth by lia. done.
      * exists j', a. split_and!; done || lia.
      * exists i', b. split_and!; done || lia.
      * left. lia.
    + exists r, items''. split_and!; [done|lia|lia| |congruence|done|done].
      eapply rearranges_trans; [|exact Hre]. split_and!; [done| |].
      * intros k ?. apply Hoth; lia.
      * intros k ?. destruct (decide (k = i')) as [-> |]; [exists j'; split; [lia|congruence]|].
        destruct (decide (k = j')) as [-> |]; [exists i'; split; [lia|congruence]|].
        exists k. split; [lia|by apply Hoth].
Qed.

Lemma sort_list_items_partition_spec lo hi items :
  0 <= lo -> lo < hi -> hi < len items ->
  exists r items' pivot, sort_list_items_partition items lo hi = Some (r, items') /\
    lo <= r < hi /\ rearranges lo hi items items' /\ length items' = length items /\
    all_in items' lo r (fun x => comparator x pivot <= 0) /\
    all_in items' (r + 1) hi (fun x => 0 <= comparator x pivot).
Proof.
  intros ???. unfold sort_list_items_partition.
  destruct (nth_item_is_Some items lo) as [pivot Hp]; [lia|]. rewrite Hp. simpl mbind.
  destruct (partition_loop_spec lo hi pivot (S (length items)) items (lo - 1) (hi + 1)) as (r & items' & E & ?).
  - pose proof (comparator_refl pivot). split; [lia| | | | |by right].
    + intros k x ?. lia.
    + intros k x ?. lia.
    + exists lo, pivot. split_and!; done || lia.
    + exists lo, pivot. split_and!; done || lia.
  - lia.
  - exists r, items', pivot. split; [exact E|done].
Qed.

Lemma nth_item_short items items' i :
  length items = length items' -> nth_item items i = None -> nth_item items' i = None.
Proof.
  unfold nth_item. destruct (Z.ltb_spec i 0); [done|]. rewrite !lookup_ge_None. lia.
Qed.

Lemma quicksort_spec fuel : forall items lo hi,
  0 <= lo -> hi < len items -> hi - lo < Z.of_nat fuel ->
  exists items', sort_list_items_quicksort_internal fuel items lo hi = Some items' /\
    rearranges lo hi items items' /\ length items' = length items /\ sorted_range lo hi items'.
Proof.
  induction fuel as [|fuel IH]; intros items lo hi Hlo Hhi Hf.
  - simpl. rewrite (proj2 (Z.leb_le hi lo)), !orb_true_r by lia.
    exists items. split_and!; [done|apply rearranges_refl|done|]. intros k k' x y ???. lia.
  - simpl. destruct (Z.leb_spec hi lo).
    { rewrite orb_true_r. exists items. split_and!; [done|apply rearranges_refl|done|].
      intros k k' x y ????? . assert (k = k') by lia. subst. simplify_eq. by rewrite comparator_refl. }
    rewrite (proj2 (Z.ltb_ge lo 0)), (proj2 (Z.ltb_ge hi 0)) by lia. simpl orb. cbv iota.
    destruct (sort_list_items_partition_spec lo hi items) as (r & items1 & pivot & E & ? & Hre1 & Hl1 & Hlow & Hhigh); [lia..|].
    rewrite E. simpl mbind.
    destruct (IH items1 lo r) as (items2 & E2 & Hre2 & Hl2 & Hs2); [lia..|]. rewrite E2. simpl mbind.
    destruct (IH items2 (r + 1) hi) as (items3 & E3 & Hre3 & Hl3 & Hs3); [lia..|]. rewrite E3.
    exists items3. split_and!; [done| |congruence|].
    + eapply rearranges_trans; [exact Hre1|]. eapply rearranges_trans; [|eapply rearranges_wider; [..|exact Hre3]; lia].
      eapply rearranges_wider; [..|exact Hre2]; lia.
    + intros k k' x y ??? Hx Hy.
      pose proof (rearranges_all_in _ _ _ _ _ Hre2 Hlow) as Hlow2.
      assert (all_in items3 lo r (fun x => comparator x pivot <= 0)) as Hlow3.
      { intros q z Hq Hz. destruct Hre3 as (_ & Ho & _). rewrite Ho in Hz by lia. by eapply Hlow2. }
      assert (all_in items2 (r + 1) hi (fun x => 0 <= comparator x pivot)) as Hhigh2.
      { intros q z Hq Hz. destruct Hre2 as (_ & Ho & _). rewrite Ho in Hz by lia. by eapply Hhigh. }
      pose proof (rearranges_all_in _ _ _ _ _ Hre3 Hhigh2) as Hhigh3.
      destruct (Z.le_gt_cases k' r).
      * destruct Hre3 as (_ & Ho & _). rewrite Ho in Hx, Hy by lia. by eapply (Hs2 k k').
      * destruct (Z.le_gt_cases k r); [|eapply (Hs3 k k'); done || lia].
        apply (comparator_trans x pivot y); [by eapply Hlow3|].
        assert (0 <= comparator y pivot) as Hyp by (eapply (Hhigh3 k'); [lia|done]).
        destruct (Z.le_gt_cases (comparator pivot y) 0) as [|Hgt]; [done|].
        apply comparator_swap in Hgt. lia.
Qed.
End Quicksort.

(** The quicksort of list items terminates, never leaves the array, and
    returns a sorted permutation of it, for every comparator that is a total
    preorder (equal items included). *)
Theorem quicksort_sorts {A} (comparator : A -> A -> Z) `{Comparator A comparator} (items : list A) :
  exists items', sort_list_items_quicksort comparator items 0 (len items - 1) = Some items' /\
    items' ≡ₚ items /\
    forall i j x y, (i <= j)%nat -> items' !! i = Some x -> items' !! j = Some y -> comparator x y <= 0.
Proof.
  unfold sort_list_items_quicksort.
  destruct (quicksort_spec comparator (length items) items 0 (len items - 1)) as (items' & E & (Hp & _) & Hl & Hs);
    [lia..|].
  exists items'. split_and!; [done|done|]. intros i j x y ? Hx Hy.
  pose proof (lookup_lt_Some _ _ _ Hx). pose proof (lookup_lt_Some _ _ _ Hy).
  apply (Hs (Z.of_nat i) (Z.of_nat j)); [lia..| |];
    unfold nth_item; rewrite (proj2 (Z.ltb_ge _ _)), Nat2Z.id by lia; done.
Qed.

#[export] Instance Comparator_minus : Comparator (fun a b : Z => a - b).
Proof. split; intros; lia. Qed.

Lemma quicksort_sorts_witness :
  sort_list_items_quicksort (fun a b => a - b) [3; 1; 2; 3; 0] 0 4 = Some [0; 1; 2; 3; 3] /\
  exists items', sort_list_items_quicksort (fun a b => a - b) [3; 1; 2; 3; 0] 0 (len [3; 1; 2; 3; 0] - 1) = Some items' /\
    items' ≡ₚ [3; 1; 2; 3; 0] /\
    forall i j x y, (i <= j)%nat -> items' !! i = Some x -> items' !! j = Some y -> x - y <= 0.
Proof. split; [reflexivity|]. apply (quicksort_sorts (fun a b => a - b) [3; 1; 2; 3; 0]). Defined.

(** * Sorted copies *)

Section Copy.
Context {V : Type} `{EqDecision V}.

(** The loop that collects the items; [None] if there are more than [size]. *)
Fixpoint collect_items (fuel : nat) (size offset : Z) (it : option loc) (items : list (list_item_t V))
  : M (heap V) (option (list (list_item_t V))) :=
  match it with
  | None => mret (Some items)
  | Some p =>
      match fuel with
      | O => ub
      | S fuel' =>
          if size <=? offset then mret None
          else
            item ← load_item p;
            collect_items fuel' size (offset + 1) (item_next item) (items ++ [item])
      end
  end.

Fixpoint append_values (items : list (list_item_t V)) (out : list_t) : M (heap V) (bool * list_t) :=
  match items with
  | [] => mret (true, out)
  | item :: items' =>
      '(ok, out) ← list_append out (item_value item);
      if negb ok then mret (false, out) else append_values items' out
  end.

(** The array of item pointers holds the items themselves, which nobody
    changes while they are sorted. *)
Definition copy_list_sorted (fuel : nat) (original : list_t)
    (comparator : list_item_t V -> list_item_t V -> Z) : M (heap V) (option list_t) :=
  out ← create_list;
  match out with
  | None => mret None
  | Some out =>
      if list_size original <=? 0 then mret (Some out)
      else
        let num_items := list_size original in
        ok ← zoom h_env (fun e h => mkHeap (h_items h) e) (malloc (8 * num_items));
        if negb ok then _ ← destroy_list fuel out; mret None
        else
          items ← collect_items fuel num_items 0 (list_head original) [];
          match items with
          | None => mret (Some out)
          | Some items =>
              if negb (len items =? num_items) then mret (Some out)
              else
                items ← from_ub (sort_list_items_quicksort comparator items 0 (num_items - 1));
                '(ok, out) ← append_values items out;
                if negb ok then _ ← destroy_list fuel out; mret None else mret (Some out)
          end
  end.

(** The item of a list at its place. *)
Fixpoint items_of (prev : option loc) (l : list (loc * option V)) : list (list_item_t V) :=
  match l with
  | [] => []
  | (p, v) :: l' => mkItem v prev (first l' None) :: items_of (Some p) l'
  end.

Lemma items_of_values prev l : item_value <$> items_of prev l = l.*2.
Proof. revert prev. induction l as [|[p v] l IH]; intros prev; [done|]. cbn [items_of]. by rewrite !fmap_cons, IH. Qed.

Lemma items_of_length prev l : length (items_of prev l) = length l.
Proof. revert prev. induction l as [|[p v] l IH]; intros prev; simpl; auto. Qed.

Lemma collect_items_spec l2 : forall h prev size offset items fuel,
  seg (h_items h) prev l2 None -> offset + len l2 <= size -> (length l2 <= fuel)%nat ->
  collect_items fuel size offset (first l2 None) items h = Some (Some (items ++ items_of prev l2), h).
Proof.
  induction l2 as [|[p v] l2 IH]; intros h prev size offset items fuel Hs Hsz Hf.
  { simpl. rewrite app_nil_r. by destruct fuel. }
  destruct fuel as [|fuel]; [simpl in Hf; lia|]. destruct Hs as [Hp Hs]. simpl.
  rewrite (proj2 (Z.leb_gt _ _)) by llia. erewrite bind_eq by by apply load_item_eq. cbn [item_next].
  rewrite (IH h (Some p)) by (done || llia). by rewrite <-app_assoc.
Qed.

Lemma append_values_spec items : forall h out l,
  represents h out l ->
  run (append_values items out) h (fun '(ok, out') h' =>
    exists l', (ok = true -> l'.*2 = item_value <$> items) /\ (length l' <= length items)%nat /\
      represents h' out' (l ++ l') /\ (ok = false -> env_alloc (h_env h) <> []) /\
      (forall q, is_Some (h_items h !! q) -> q ∉ l.*1 -> h_items h' !! q = h_items h !! q /\ q ∉ l'.*1)).
Proof.
  induction items as [|item items IH]; intros h out l Hr.
  { apply run_ret. exists []. rewrite app_nil_r. split_and!; try done. intros. split; [done|apply not_elem_of_nil]. }
  simpl. apply run_bind. eapply run_mono; [|by apply list_append_spec].
  intros [ok out'] h' (Hok & He & H). destruct ok; simpl negb; cbv iota.
  - destruct H as (p & Hp & Hr' & Hfr). eapply run_mono; [|by apply IH].
    intros [ok out''] h'' (l' & Hval & Hlen & Hr'' & Hoom & Hoth). exists ((p, item_value item) :: l').
    rewrite <-app_assoc in Hr''. split_and!.
    + intros Ht. by rewrite !fmap_cons, Hval.
    + simpl. lia.
    + done.
    + intros Hf. specialize (Hoom Hf). rewrite He in Hoom. intros Ha. apply Hoom. unfold alloc_rest. simpl. by rewrite Ha.
    + intros q Hq Hql.
      assert (q <> p) by (intros ->; rewrite Hp in Hq; by apply is_Some_None in Hq).
      assert (h_items h' !! q = h_items h !! q) as Eq by (apply Hfr; by apply not_elem_of_cons).
      destruct (Hoth q) as [Hq1 Hq2]; [by rewrite Eq| |].
      * rewrite fmap_app, not_elem_of_app. split; [done|]. simpl. rewrite list_elem_of_singleton. done.
      * split; [congruence|]. simpl. by apply not_elem_of_cons.
  - destruct H as [-> Hi]. apply run_ret. exists []. rewrite app_nil_r. split_and!; [done|simpl; lia| | |].
    + destruct Hr as [? ? ? ? ?]. by split; rewrite ?Hi.
    + intros _ Ha. symmetry in Hok. unfold alloc_next in Hok. by rewrite Ha in Hok.
    + intros q ? ?. split; [by rewrite Hi|apply not_elem_of_nil].
Qed.

Lemma create_list_eq (h : heap V) :
  create_list h = Some (if alloc_next (h_env h) then Some empty_list else None,
                        mkHeap (h_items h) (alloc_rest (h_env h))).
Proof. unfold create_list. rewrite zmalloc_eq by done. by destruct (alloc_next (h_env h)). Qed.

Lemma represents_empty (h : heap V) : represents h empty_list [].
Proof. split; [done|constructor|done|done|done]. Qed.

Lemma represents_frame (h h' : heap V) list l :
  represents h list l -> (forall q, q ∈ l.*1 -> h_items h' !! q = h_items h !! q) -> represents h' list l.
Proof. intros [? ? ? ? ?] Hf. split; try done. by eapply seg_frame. Qed.

Lemma represents_allocated (h : heap V) list l q : represents h list l -> q ∈ l.*1 -> is_Some (h_items h !! q).
Proof. intros [Hs _ _ _ _]. by eapply seg_elem. Qed.
End Copy.

#[export] Instance Comparator_value {V} (cmp : option V -> option V -> Z) :
  Comparator cmp -> Comparator (fun a b : list_item_t V => cmp (item_value a) (item_value b)).
Proof. intros [Hs Ht]. split; eauto. Qed.

(** [copy_list_sorted] returns a new list, disjoint from the original,
    whose values are a sorted permutation of the original's values, and leaves
    the original untouched; it returns NULL only when memory is unavailable. *)
Theorem copy_list_sorted_spec {V} `{EqDecision V} (cmp : option V -> option V -> Z) (h : heap V) list l fuel :
  Comparator cmp -> represents h list l -> (length l <= fuel)%nat ->
  run (copy_list_sorted fuel list (fun a b => cmp (item_value a) (item_value b))) h (fun r h' =>
    represents h' list l /\
    match r with
    | Some out =>
        exists l', represents h' out l' /\ (forall q, q ∈ l.*1 -> q ∉ l'.*1) /\ l'.*2 ≡ₚ l.*2 /\
          forall i j x y, (i <= j)%nat -> l'.*2 !! i = Some x -> l'.*2 !! j = Some y -> cmp x y <= 0
    | None => env_alloc (h_env h) <> []
    end).
Proof.
  intros Hcmp Hr Hf. unfold copy_list_sorted. apply run_bind. eapply run_eq; [apply create_list_eq|].
  destruct (alloc_next (h_env h)) eqn:He.
  2:{ apply run_ret. split; [by eapply represents_frame|]. unfold alloc_next in He. by destruct (env_alloc (h_env h)). }
  set (h1 := mkHeap (h_items h) _). assert (represents h1 list l) as Hr1 by by eapply represents_frame.
  assert (env_alloc (h_env h1) <> [] -> env_alloc (h_env h) <> []) as Hoom.
  { simpl. intros Hn Ha. apply Hn. by rewrite Ha. }
  clearbody h1. clear He Hr. rewrite (rep_size _ _ _ Hr1).
  destruct (Z.leb_spec (len l) 0).
  { apply run_ret. split; [done|]. destruct l; [|simpl in *; lia]. exists []. split_and!; [apply represents_empty| |done|].
    - intros q ?%elem_of_nil. done.
    - intros i j x y _ Hx. by destruct i. }
  apply run_bind. unfold zoom. eapply run_eq; [by rewrite malloc_eq|].
  set (h2 := mkHeap (h_items h1) _). assert (represents h2 list l) as Hr2 by by eapply represents_frame.
  destruct (alloc_next (h_env h1)) eqn:He; simpl negb; cbv iota.
  2:{ apply run_bind. eapply run_mono; [|eapply (destroy_loop_spec [] h2 None fuel); [done|constructor|simpl; lia]].
      intros _ h' (_ & _ & Hfr). apply run_ret. split.
      - eapply represents_frame; [exact Hr2|]. intros q _. apply Hfr, not_elem_of_nil.
      - apply Hoom. unfold alloc_next in He. by destruct (env_alloc (h_env h1)). }
  assert (env_alloc (h_env h2) <> [] -> env_alloc (h_env h) <> []) as Hoom2.
  { intros Hn. apply Hoom. intros Ha. apply Hn. simpl. by rewrite Ha. }
  clearbody h2. clear He.
  apply run_bind. rewrite (rep_head _ _ _ Hr2).
  eapply run_eq; [by apply (collect_items_spec l _ None); [apply Hr2|lia|]|].
  cbv beta iota. rewrite app_nil_l, items_of_length, Z.eqb_refl. simpl negb. cbv iota.
  destruct (quicksort_spec (fun a b : list_item_t V => cmp (item_value a) (item_value b)) (length (items_of None l))
    (items_of None l) 0 (len l - 1)) as (items' & E & (Hp & _) & Hl & Hs); rewrite ?items_of_length in *; [lia..|].
  apply run_bind. eapply (run_eq _ _ _ items' h2).
  { unfold from_ub, sort_list_items_quicksort. by rewrite items_of_length, E. }
  apply run_bind. eapply run_mono; [|apply append_values_spec, represents_empty].
  intros [ok out] h3 (l' & Hval & Hlen & Hr' & Hm & Hoth). simpl app in Hr'.
  assert (forall q, q ∈ l.*1 -> h_items h3 !! q = h_items h2 !! q /\ q ∉ l'.*1) as Hdis.
  { intros q Hq. apply Hoth; [by eapply represents_allocated|apply not_elem_of_nil]. }
  assert (represents h3 list l) as Hr3 by (eapply represents_frame; [exact Hr2|]; intros q Hq; by apply Hdis).
  destruct ok; simpl negb; cbv iota.
  - apply run_ret. split; [done|]. exists l'. specialize (Hval eq_refl). split_and!; [done|by intros; apply Hdis| |].
    + rewrite Hval, <-(items_of_values None l). by apply fmap_Permutation.
    + intros i j x y Hij Hx Hy. rewrite Hval in Hx, Hy.
      apply list_lookup_fmap_Some in Hx as (a & -> & Ha), Hy as (b & -> & Hb).
      pose proof (lookup_lt_Some _ _ _ Ha). pose proof (lookup_lt_Some _ _ _ Hb).
      apply (Hs (Z.of_nat i) (Z.of_nat j)); [lia..| |];
        unfold nth_item; rewrite (proj2 (Z.ltb_ge _ _)), Nat2Z.id by lia; done.
  - apply run_bind. unfold destroy_list. rewrite (rep_head _ _ _ Hr').
    eapply run_mono; [|eapply destroy_loop_spec; [apply Hr'|apply Hr'|lia]].
    intros _ h4 (_ & _ & Hfr). apply run_ret. split; [|auto].
    eapply represents_frame; [exact Hr3|]. intros q Hq. by apply Hfr, Hdis.
Qed.

#[export] Instance Comparator_numbers : Comparator (fun a b : option Z => default 0 a - default 0 b).
Proof. split; intros; lia. Qed.

Lemma copy_list_sorted_spec_witness :
  let cmp := fun a b : option Z => default 0 a - default 0 b in
  let l := [(1%positive, Some 9); (2%positive, Some 4)] in
  let h := mkHeap {[1%positive := mkItem (Some 9) None (Some 2%positive); 2%positive := mkItem (Some 4) (Some 1%positive) None]} calm in
  let list := mkList 2 (Some 1%positive) (Some 2%positive) in
  run (copy_list_sorted 2 list (fun a b => cmp (item_value a) (item_value b))) h (fun r h' =>
    represents h' list l /\
    match r with
    | Some out =>
        exists l', represents h' out l' /\ (forall q, q ∈ l.*1 -> q ∉ l'.*1) /\ l'.*2 ≡ₚ l.*2 /\
          forall i j x y, (i <= j)%nat -> l'.*2 !! i = Some x -> l'.*2 !! j = Some y -> cmp x y <= 0
    | None => env_alloc (h_env h) <> []
    end).
Proof.
  intros cmp l h list. apply (copy_list_sorted_spec cmp h list l 2); [apply Comparator_numbers| |apply le_n].
  split; [repeat split|apply (bool_decide_unpack _); reflexivity|reflexivity..].
Defined.

(** * Lists a function makes for itself *)

Section Owned.
Context {V : Type} `{EqDecision V}.
Implicit Types (h : heap V) (list : list_t).

(** [list] has been made since the heap was [h0], and nothing else has changed. *)
Record owns h0 h list (l : Datatypes.list (loc * option V)) : Prop := mkOwns {
  own_represents : represents h list l;
  own_frame : frame h0 h l.*1;
  own_fresh : forall p, p ∈ l.*1 -> h_items h0 !! p = None;
}.

Lemma owns_empty h0 h : h_items h = h_items h0 -> owns h0 h empty_list [].
Proof. intros E. split; [apply represents_empty| |by intros ? ?%not_elem_of_nil]. intros q _. by rewrite E. Qed.

(** The environment does not matter. *)
Lemma owns_items h0 h h' list l : h_items h' = h_items h -> owns h0 h list l -> owns h0 h' list l.
Proof.
  intros E [Hr Hf Hn]. split; [|intros q ?; rewrite E; by apply Hf|done].
  eapply represents_frame; [exact Hr|]. intros. by rewrite E.
Qed.

(** Whatever is not in the list is as it was. *)
Lemma owns_other h0 h list l list' l' : owns h0 h list l -> represents h0 list' l' -> represents h list' l'.
Proof.
  intros [_ Hf Hn] Hr. eapply represents_frame; [exact Hr|]. intros q Hq. apply Hf. intros Hl.
  destruct (represents_allocated _ _ _ _ Hr Hq) as [? E]. by rewrite (Hn q Hl) in E.
Qed.

Lemma owns_append h0 h list l value :
  owns h0 h list l ->
  run (list_append list value) h (fun '(ok, list') h' =>
    ok = alloc_next (h_env h) /\ h_env h' = alloc_rest (h_env h) /\
    if ok then exists p, owns h0 h' list' (l ++ [(p, value)]) else list' = list /\ h_items h' = h_items h).
Proof.
  intros [Hr Hf Hn]. eapply run_mono; [|by apply list_append_spec]. intros [ok list'] h' (Hok & He & H).
  split; [done|split; [done|]]. destruct ok; [|done]. destruct H as (p & Hp & Hr' & Hf'). exists p.
  assert (p ∉ l.*1) as Hpl.
  { intros Hin. destruct (represents_allocated _ _ _ _ Hr Hin) as [? E]. by rewrite Hp in E. }
  split; [done| |].
  - intros q. rewrite fmap_app, not_elem_of_app. intros [Hq Hqp]. apply not_elem_of_cons in Hqp as [? _].
    rewrite Hf' by (apply not_elem_of_cons; done). by apply Hf.
  - intros q. rewrite fmap_app, elem_of_app. intros [Hq | Hq]; [by apply Hn|].
    apply list_elem_of_singleton in Hq as ->. simpl. by rewrite <-(Hf p Hpl).
Qed.

(** Destroying the list leaves no trace of it. *)
Lemma owns_destroy h0 h list l : owns h0 h list l ->
  run (destroy_list (Z.to_nat (list_size list)) list) h (fun _ h' => h_items h' = h_items h0 /\ h_env h' = h_env h).
Proof.
  intros [Hr Hf Hn]. unfold destroy_list. rewrite (rep_head _ _ _ Hr), (rep_size _ _ _ Hr), Nat2Z.id.
  eapply run_mono; [|eapply destroy_loop_spec; [apply Hr|apply Hr|done]].
  intros _ h' (He & Hnone & Hf'). split; [|done]. apply map_eq. intros q.
  destruct (decide (q ∈ l.*1)) as [Hq | Hq]; [by rewrite Hnone, Hn by done|by rewrite Hf', Hf by done].
Qed.

(** Overwriting the value of an item. *)
Lemma update_value_spec (h : heap V) list l1 p v l2 v' :
  represents h list (l1 ++ (p, v) :: l2) ->
  exists m, update_item p (set_value v') h = Some (tt, mkHeap m (h_env h)) /\
    represents (mkHeap m (h_env h)) list (l1 ++ (p, v') :: l2) /\ forall q, q <> p -> m !! q = h_items h !! q.
Proof.
  intros Hr. destruct (represents_item _ _ _ _ _ _ Hr) as (prev & Hit). destruct Hr as [Hs Hnd Hh Ht Hsz].
  exists (<[p := mkItem v' prev (first l2 None)]> (h_items h)).
  split; [by rewrite (update_item_eq _ _ _ _ Hit)|]. split; [|intros q ?; by apply lookup_insert_ne].
  rewrite fmap_app, fmap_cons in Hnd. pose proof Hnd as (_ & Hdis & [Hp2 _]%NoDup_cons)%NoDup_app.
  apply seg_app in Hs as [Hs1 [Hp Hs2]]. rewrite Hit in Hp. injection Hp as ->.
  split; cbn [h_items]; [|by rewrite fmap_app, fmap_cons|rewrite Hh; by destruct l1 as [|[]]| |rewrite Hsz; by rewrite !length_app].
  - apply seg_app. split; [|split; [apply lookup_insert_eq|]].
    + eapply seg_frame; [|exact Hs1]. intros q Hq. apply lookup_insert_ne. intros <-. eapply Hdis; [exact Hq|left].
    + eapply seg_frame; [|exact Hs2]. intros q Hq. apply lookup_insert_ne. by intros <-.
  - by rewrite Ht, !final_concat, !final_cons.
Qed.
End Owned.
