(* ===== verification/Prealloc.v ===== *)
(** Preallocated lists ([lists.c], [lists.h]): items in blocks of five, linked
    in their logical order, deleted lazily and compacted on request.

    Items live in a heap, a block is the addresses of its items; accessing an
    item that is not allocated is undefined behaviour. A value destructor is
    represented by a name; the state records the calls made, in order. The item
    count does not wrap: memory is exhausted before a list has [2^31] items. *)

From S2P Require Import Prelude CLib Utils Lists.

Inductive prealloc_item_status_t :=
  PREALLOC_ITEM_STATUS_PRISTINE | PREALLOC_ITEM_STATUS_IN_USE | PREALLOC_ITEM_STATUS_DELETED.

#[export] Instance prealloc_item_status_eq_dec : EqDecision prealloc_item_status_t.
Proof. solve_decision. Defined.

Definition PREALLOC_LIST_BLOCK_SIZE : Z := 5.

Definition PREALLOC_ITEM_IMMEDIATE_DESTRUCTION : bool := false.
Definition PREALLOC_ITEM_DEFER_DESTRUCTION : bool := true.
Definition PREALLOC_LIST_CALL_DEFERRED_DESTRUCTORS : bool := false.
Definition PREALLOC_LIST_OVERRIDE_DEFERRED_DESTRUCTORS : bool := true.

(** [V]: what values point to; [D]: the destructors. *)
Record prealloc_list_item_t (V D : Type) := mkPItem {
  p_status : prealloc_item_status_t;
  p_value : option V;
  p_destructor : option D;
  p_prev : option loc;
  p_next : option loc;
}.
Arguments mkPItem {V D}.
Arguments p_status {V D}.
Arguments p_value {V D}.
Arguments p_destructor {V D}.
Arguments p_prev {V D}.
Arguments p_next {V D}.

Definition pristine_item {V D} : prealloc_list_item_t V D := mkPItem PREALLOC_ITEM_STATUS_PRISTINE None None None None.

Record prealloc_list_block_t := mkBlock { first_pristine_item_index : Z; block_items : list loc }.

(** [blocks] are the blocks from [head_block] to [tail_block]. *)
Record prealloc_list_t := mkPList {
  p_size : Z;
  p_dirty : bool;
  p_first : option loc;
  p_last : option loc;
  p_blocks : list prealloc_list_block_t;
}.

(** The heap of items, the destructor calls and the environment. *)
Record pheap (V D : Type) := mkPHeap {
  ph_items : gmap loc (prealloc_list_item_t V D);
  ph_calls : list (D * option V);
  ph_env : env;
}.
Arguments mkPHeap {V D}.
Arguments ph_items {V D}.
Arguments ph_calls {V D}.
Arguments ph_env {V D}.

Section Prealloc.
Context {V D : Type}.
Abbreviation PM := (M (pheap V D)).
Abbreviation item_t := (prealloc_list_item_t V D).

Definition p_load (p : loc) : PM item_t := fun h => (fun it => (it, h)) <$> ph_items h !! p.
Definition p_update (p : loc) (f : item_t -> item_t) : PM unit := fun h =>
  match ph_items h !! p with
  | Some it => Some (tt, mkPHeap (<[p := f it]> (ph_items h)) (ph_calls h) (ph_env h))
  | None => None
  end.
Definition p_call (d : D) (v : option V) : PM unit :=
  modify (fun h => mkPHeap (ph_items h) (ph_calls h ++ [(d, v)]) (ph_env h)).
Definition p_env {A} (m : M env A) : PM A := zoom ph_env (fun e h => mkPHeap (ph_items h) (ph_calls h) e) m.
Definition when_value {A} (o : option A) (f : A -> PM unit) : PM unit := match o with Some a => f a | None => mret tt end.

(** [n] consecutive zeroed items. *)
Fixpoint alloc_items (n : nat) : PM (list loc) :=
  match n with
  | O => mret []
  | S n' => fun h =>
      let p := fresh (dom (ph_items h)) in
      (ps ← alloc_items n'; mret (p :: ps)) (mkPHeap (<[p := pristine_item]> (ph_items h)) (ph_calls h) (ph_env h))
  end.

Definition create_preallocated_list_block : PM (option prealloc_list_block_t) :=
  ok ← p_env (zmalloc 216);
  if negb ok then mret None
  else ps ← alloc_items (Z.to_nat PREALLOC_LIST_BLOCK_SIZE); mret (Some (mkBlock 0 ps)).

Definition create_preallocated_list : PM (option prealloc_list_t) :=
  ok ← p_env (zmalloc 48);
  if negb ok then mret None
  else
    block ← create_preallocated_list_block;
    mret ((fun b => mkPList 0 false None None [b]) <$> block).

(** [block->items[i]]; an index past the block is undefined. *)
Definition block_item (b : prealloc_list_block_t) (i : Z) : PM loc := from_ub (block_items b !! Z.to_nat i).

(** The tail block with room for an item, after adding a block if needed: the
    blocks before it and itself. *)
Definition block_with_room (blocks : list prealloc_list_block_t)
  : PM (option (list prealloc_list_block_t * prealloc_list_block_t)) :=
  match last blocks with
  | None => ub
  | Some block =>
      if PREALLOC_LIST_BLOCK_SIZE <=? first_pristine_item_index block then
        new_block ← create_preallocated_list_block;
        mret ((fun b => (blocks, b)) <$> new_block)
      else mret (Some (removelast blocks, block))
  end.

(** Takes the first pristine item of a block into use. *)
Definition use_item (b : prealloc_list_block_t) (value : option V) (prev : option loc) : PM (loc * prealloc_list_block_t) :=
  item ← block_item b (first_pristine_item_index b);
  _ ← p_update item (fun it => mkPItem PREALLOC_ITEM_STATUS_IN_USE value (p_destructor it) prev (p_next it));
  mret (item, mkBlock (first_pristine_item_index b + 1) (block_items b)).

Definition set_p_next (n : option loc) (it : item_t) : item_t := mkPItem (p_status it) (p_value it) (p_destructor it) (p_prev it) n.
Definition set_p_prev (n : option loc) (it : item_t) : item_t := mkPItem (p_status it) (p_value it) (p_destructor it) n (p_next it).

Definition prealloc_list_append (l : prealloc_list_t) (value : option V) : PM (bool * prealloc_list_t) :=
  room ← block_with_room (p_blocks l);
  match room with
  | None => mret (false, l)
  | Some (blocks, block) =>
      '(item, block) ← use_item block value (p_last l);
      _ ← when_value (p_last l) (fun prev => p_update prev (set_p_next (Some item)));
      let first := match p_first l with None => Some item | first => first end in
      mret (true, mkPList (p_size l + 1) (p_dirty l) first (Some item) (blocks ++ [block]))
  end.

Fixpoint get_item_loop (index : nat) (item : option loc) : PM (option loc) :=
  match index, item with
  | S index', Some p => it ← p_load p; get_item_loop index' (p_next it)
  | _, _ => mret item
  end.

Definition prealloc_list_get_item (l : prealloc_list_t) (index : Z) : PM (option loc) :=
  if (index <? 0) || (p_size l <=? index) then mret None else get_item_loop (Z.to_nat index) (p_first l).

Definition in_use (it : item_t) : bool := bool_decide (p_status it = PREALLOC_ITEM_STATUS_IN_USE).
Definition deleted (it : item_t) : bool := bool_decide (p_status it = PREALLOC_ITEM_STATUS_DELETED).

(** [if (value_destructor) value_destructor(value)]. *)
Definition destroy_value (d : option D) (v : option V) : PM unit := when_value d (fun d => p_call d v).

Definition prealloc_list_delete_item (l : prealloc_list_t) (item : loc) (value_destructor : option D) (defer : bool)
  : PM (bool * prealloc_list_t) :=
  it ← p_load item;
  if negb (in_use it) then mret (false, l)
  else
    _ ← p_update item (fun it => mkPItem PREALLOC_ITEM_STATUS_DELETED (p_value it) (p_destructor it) (p_prev it) (p_next it));
    let first := if bool_decide (p_first l = Some item) then p_next it else p_first l in
    let last := if bool_decide (p_last l = Some item) then p_prev it else p_last l in
    _ ← when_value (p_prev it) (fun prev => p_update prev (set_p_next (p_next it)));
    _ ← when_value (p_next it) (fun next => p_update next (set_p_prev (p_prev it)));
    _ ← (if defer then
           p_update item (fun it => mkPItem (p_status it) (p_value it) value_destructor (p_prev it) (p_next it))
         else
           _ ← destroy_value value_destructor (p_value it);
           p_update item (fun it => mkPItem (p_status it) None (p_destructor it) (p_prev it) (p_next it)));
    mret (true, mkPList (p_size l - 1) true first last (p_blocks l)).

(** [head_block->items[0]] and [new_block->items[first_pristine_item_index - 1]]. *)
Definition head_item (blocks : list prealloc_list_block_t) : option loc :=
  b ← head blocks; head (block_items b).
Definition last_item (blocks : list prealloc_list_block_t) : option loc :=
  b ← last blocks; block_items b !! Z.to_nat (first_pristine_item_index b - 1).

(** The loop that copies the items in use to new blocks; [fuel] bounds the items
    visited. Returns the new blocks and whether there was enough memory. *)
Fixpoint compact_loop (fuel : nat) (old_item : option loc) (blocks : list prealloc_list_block_t) (prev_new_item : option loc)
  : PM (bool * list prealloc_list_block_t) :=
  match old_item with
  | None => mret (true, blocks)
  | Some p =>
      match fuel with
      | O => ub
      | S fuel' =>
          room ← block_with_room blocks;
          match room with
          | None => mret (false, blocks)
          | Some (blocks, block) =>
              it ← p_load p;
              '(item, block) ← use_item block (p_value it) prev_new_item;
              _ ← when_value prev_new_item (fun prev => p_update prev (set_p_next (Some item)));
              compact_loop fuel' (p_next it) (blocks ++ [block]) (Some item)
          end
      end
  end.

(** The destructor calls for the items of a block that pass [test]. *)
Definition destroy_items (test : item_t -> bool) (value_destructor : option D) (use_own : bool) (items : list loc) : PM unit :=
  for_each
    (fun p =>
       it ← p_load p;
       if negb (bool_decide (is_Some (p_value it))) || negb (test it) then mret tt
       else
         match p_destructor it, use_own with
         | Some d, true => destroy_value (Some d) (p_value it)
         | _, _ => destroy_value value_destructor (p_value it)
         end)
    items.

Definition free_items (items : list loc) : PM unit :=
  for_each (fun p => _ ← p_load p; modify (fun h => mkPHeap (delete p (ph_items h)) (ph_calls h) (ph_env h))) items.

Definition free_blocks (test : item_t -> bool) (value_destructor : option D) (use_own : bool)
    (blocks : list prealloc_list_block_t) : PM unit :=
  for_each (fun b => _ ← destroy_items test value_destructor use_own (block_items b); free_items (block_items b)) blocks.

Definition is_own (override_deferred_destructors : bool) : bool := negb override_deferred_destructors.

Definition prealloc_list_compact (fuel : nat) (l : prealloc_list_t) (value_destructor : option D) (override : bool)
  : PM (bool * prealloc_list_t) :=
  if negb (p_dirty l) then mret (true, l)
  else
    head ← create_preallocated_list_block;
    match head with
    | None => mret (false, l)
    | Some head =>
        '(ok, blocks) ← compact_loop fuel (p_first l) [head] None;
        if negb ok then _ ← for_each (fun b => free_items (block_items b)) blocks; mret (false, l)
        else
          '(first, last) ←
            (if 0 <? p_size l then
               first ← from_ub (head_item blocks);
               last ← from_ub (last_item blocks);
               mret (Some first, Some last)
             else mret (p_first l, p_last l));
          _ ← free_blocks deleted value_destructor (is_own override) (p_blocks l);
          mret (true, mkPList (p_size l) false first last blocks)
    end.

Definition destroy_preallocated_list (l : prealloc_list_t) (value_destructor : option D) (override : bool) : PM unit :=
  free_blocks (fun _ => true) value_destructor (is_own override) (p_blocks l).
End Prealloc.

(** * The sequence a preallocated list represents *)

Section Representation.
Context {V D : Type}.
Abbreviation item_t := (prealloc_list_item_t V D).
Abbreviation items_t := (gmap loc item_t).
Implicit Types (m : items_t) (h : pheap V D) (l : prealloc_list_t) (b : prealloc_list_block_t).

(** The items that were ever used, in their physical order, are in use or deleted. *)
Inductive entry := Live (v : option V) | Dead (v : option V) (d : option D).

Definition entry_core (e : entry) : prealloc_item_status_t * option V * option D :=
  match e with
  | Live v => (PREALLOC_ITEM_STATUS_IN_USE, v, None)
  | Dead v d => (PREALLOC_ITEM_STATUS_DELETED, v, d)
  end.

Definition item_core (it : item_t) : prealloc_item_status_t * option V * option D := (p_status it, p_value it, p_destructor it).
Definition link (it : item_t) : list_item_t V := mkItem (p_value it) (p_prev it) (p_next it).

Definition live_entry (pe : loc * entry) : option (loc * option V) :=
  match pe.2 with Live v => Some (pe.1, v) | Dead _ _ => None end.
Definition live (ps : list (loc * entry)) : list (loc * option V) := omap live_entry ps.

Definition used b : list loc := take (Z.to_nat (first_pristine_item_index b)) (block_items b).
Definition unused b : list loc := drop (Z.to_nat (first_pristine_item_index b)) (block_items b).
Definition used_items (bs : list prealloc_list_block_t) : list loc := mjoin (used <$> bs).
Definition owned (bs : list prealloc_list_block_t) : list loc := mjoin (block_items <$> bs).

Definition block_ok b : Prop :=
  len (block_items b) = PREALLOC_LIST_BLOCK_SIZE /\ 0 <= first_pristine_item_index b <= PREALLOC_LIST_BLOCK_SIZE.

Record prep (m : items_t) l (ps : list (loc * entry)) : Prop := mkPrep {
  prep_seg : seg (link <$> m) None (live ps) None;
  prep_first : p_first l = first (live ps) None;
  prep_last : p_last l = final None (live ps);
  prep_size : p_size l = len (live ps);
  prep_used : used_items (p_blocks l) = ps.*1;
  prep_blocks : p_blocks l <> [] /\ Forall block_ok (p_blocks l);
  prep_nodup : NoDup (owned (p_blocks l));
  prep_core : forall p e, (p, e) ∈ ps -> item_core <$> m !! p = Some (entry_core e);
  prep_unused : forall b p, b ∈ p_blocks l -> p ∈ unused b -> m !! p = Some pristine_item;
  prep_dirty : p_dirty l = false -> forall p e, (p, e) ∈ ps -> exists v, e = Live v;
}.

Lemma live_app ps1 ps2 : live (ps1 ++ ps2) = live ps1 ++ live ps2.
Proof. unfold live. by rewrite omap_app. Qed.

Lemma elem_of_live p v ps : (p, v) ∈ live ps <-> (p, Live v) ∈ ps.
Proof.
  unfold live. rewrite list_elem_of_omap. split.
  - intros ([q [w|w d]] & Hin & E); unfold live_entry in E; simpl in E; by simplify_eq.
  - intros Hin. by exists (p, Live v).
Qed.

Lemma elem_fst {A} (p : loc) (e : A) ps : (p, e) ∈ ps -> p ∈ ps.*1.
Proof. intros Hin. apply list_elem_of_fmap. by exists (p, e). Qed.

Lemma live_locs p ps : p ∈ (live ps).*1 -> p ∈ ps.*1.
Proof.
  intros ([q v] & -> & Hin)%list_elem_of_fmap. apply elem_of_live in Hin. by eapply elem_fst.
Qed.

Lemma owned_app bs1 bs2 : owned (bs1 ++ bs2) = owned bs1 ++ owned bs2.
Proof. unfold owned. by rewrite fmap_app, join_app. Qed.

Lemma owned_one b : owned [b] = block_items b.
Proof. apply app_nil_r. Qed.

Lemma used_items_app bs1 bs2 : used_items (bs1 ++ bs2) = used_items bs1 ++ used_items bs2.
Proof. unfold used_items. by rewrite fmap_app, join_app. Qed.

Lemma block_split b : block_items b = used b ++ unused b.
Proof. symmetry. apply take_drop. Qed.

Lemma used_owned bs p : p ∈ used_items bs -> p ∈ owned bs.
Proof.
  unfold used_items, owned. intros (ps & Hp & (b & -> & Hb)%list_elem_of_fmap)%list_elem_of_join.
  apply list_elem_of_join. exists (block_items b). split; [rewrite block_split, elem_of_app; by left|].
  apply list_elem_of_fmap. eauto.
Qed.

Lemma nodup_used bs : NoDup (owned bs) -> NoDup (used_items bs).
Proof.
  unfold owned, used_items. induction bs as [|b bs IH]; simpl; [done|]. intros (Hb & Hd & Hbs)%NoDup_app.
  rewrite block_split in Hb, Hd. apply NoDup_app in Hb as (Hu & _ & _). apply NoDup_app. split; [done|]. split; [|auto].
  intros p Hp Hin. apply (Hd p); [rewrite elem_of_app; by left|]. by apply used_owned.
Qed.

Lemma prep_nodup_used m l ps : prep m l ps -> NoDup ps.*1.
Proof. intros Hr. rewrite <-(prep_used _ _ _ Hr). apply nodup_used, (prep_nodup _ _ _ Hr). Qed.

Lemma nodup_live ps : NoDup ps.*1 -> NoDup (live ps).*1.
Proof.
  induction ps as [|[p e] ps IH]; [done|]. intros [Hp Hnd]%NoDup_cons. destruct e as [v|v d]; simpl; [|by apply IH].
  apply NoDup_cons. split; [|by apply IH]. intros Hin. by apply Hp, live_locs.
Qed.

(** Everything outside of [ps] is the same. *)
Definition only (m m' : items_t) (ps : list loc) : Prop := forall q, q ∉ ps -> m' !! q = m !! q.

(** Other memory may change; blocks keep their items. *)
Lemma prep_frame m m' l ps : (forall p, p ∈ owned (p_blocks l) -> m' !! p = m !! p) -> prep m l ps -> prep m' l ps.
Proof.
  intros Hm Hr. pose proof (fun p H => Hm p (used_owned _ p H)) as Hu. rewrite (prep_used _ _ _ Hr) in Hu. destruct Hr. split; try done.
  - eapply seg_frame; [|exact prep_seg0]. intros p Hp. rewrite !lookup_fmap. by rewrite Hu by by apply live_locs.
  - intros p e Hin. rewrite Hu; [auto|]. by eapply elem_fst.
  - intros b p Hb Hp. rewrite Hm; [eauto|]. apply list_elem_of_join. exists (block_items b).
    split; [rewrite block_split, elem_of_app; by right|]. apply list_elem_of_fmap. eauto.
Qed.

Lemma prep_owned m l ps p : prep m l ps -> p ∈ owned (p_blocks l) -> is_Some (m !! p).
Proof.
  intros Hr Hin. apply list_elem_of_join in Hin as (qs & Hin & (b & -> & Hb)%list_elem_of_fmap).
  rewrite block_split in Hin. apply elem_of_app in Hin as [Hin|Hin].
  - assert (p ∈ ps.*1) as ([q e] & -> & Hpe)%list_elem_of_fmap.
    { rewrite <-(prep_used _ _ _ Hr). apply list_elem_of_join. exists (used b). split; [done|]. apply list_elem_of_fmap. eauto. }
    pose proof (prep_core _ _ _ Hr _ _ Hpe) as Hcore. simpl. destruct (m !! q); [by eexists|done].
  - rewrite (prep_unused _ _ _ Hr b p) by done. by eexists.
Qed.

Lemma p_load_eq p h it : ph_items h !! p = Some it -> p_load p h = Some (it, h).
Proof. intros E. unfold p_load. by rewrite E. Qed.

Lemma p_update_eq p (f : item_t -> item_t) h it :
  ph_items h !! p = Some it -> p_update p f h = Some (tt, mkPHeap (<[p := f it]> (ph_items h)) (ph_calls h) (ph_env h)).
Proof. intros E. unfold p_update. by rewrite E. Qed.

Lemma p_env_eq {A} (m : M env A) h a e :
  m (ph_env h) = Some (a, e) -> p_env m h = Some (a, mkPHeap (ph_items h) (ph_calls h) e).
Proof. intros E. unfold p_env, zoom. by rewrite E. Qed.

Lemma alloc_items_run n : forall h,
  exists qs m', alloc_items n h = Some (qs, mkPHeap m' (ph_calls h) (ph_env h)) /\ length qs = n /\ NoDup qs /\
    (forall q, q ∈ qs -> ph_items h !! q = None /\ m' !! q = Some pristine_item) /\ only (ph_items h) m' qs.
Proof.
  induction n as [|n IH]; intros h.
  { exists [], (ph_items h). destruct h as [m c e]. split; [done|]. split; [done|]. split; [constructor|].
    split; [|done]. intros q Hq. by apply not_elem_of_nil in Hq. }
  cbn [alloc_items]. set (p := fresh (dom (ph_items h))).
  assert (ph_items h !! p = None) as Hp by apply not_elem_of_dom, is_fresh.
  destruct (IH (mkPHeap (<[p := pristine_item]> (ph_items h)) (ph_calls h) (ph_env h))) as (qs & m' & E & Hl & Hnd & Hqs & Hf).
  cbn [ph_items ph_calls ph_env] in *.
  assert (p ∉ qs) as Hpq by (intros Hin; destruct (Hqs p Hin) as [Hn _]; by rewrite lookup_insert_eq in Hn).
  exists (p :: qs), m'. erewrite bind_eq by exact E. split; [done|]. split; [by simpl; f_equal|]. split; [by constructor|]. split.
  - intros q [-> |Hq]%elem_of_cons; [split; [done|]; rewrite Hf by done; apply lookup_insert_eq|].
    destruct (Hqs q Hq) as [Hn ?]. split; [|done]. rewrite lookup_insert_ne in Hn; [done|]. by intros <-.
  - intros q [Hne Hq]%not_elem_of_cons. rewrite Hf by done. by apply lookup_insert_ne.
Qed.

(** The block allocation takes one outcome; a new block is all pristine. *)
Lemma create_block_run h :
  exists r m' e', create_preallocated_list_block h = Some (r, mkPHeap m' (ph_calls h) e') /\
    (env_alloc (ph_env h) = [] -> env_alloc e' = [] /\ r <> None) /\
    match r with
    | None => m' = ph_items h
    | Some b => block_ok b /\ first_pristine_item_index b = 0 /\ NoDup (block_items b) /\ only (ph_items h) m' (block_items b) /\
        forall q, q ∈ block_items b -> ph_items h !! q = None /\ m' !! q = Some pristine_item
    end.
Proof.
  unfold create_preallocated_list_block. erewrite bind_eq by (apply p_env_eq, zmalloc_eq; done).
  assert (env_alloc (ph_env h) = [] -> env_alloc (alloc_rest (ph_env h)) = [] /\ alloc_next (ph_env h) = true) as Hal.
  { intros Ha. unfold alloc_rest, alloc_next. simpl. by rewrite Ha. }
  destruct (alloc_next (ph_env h)); red_if.
  - destruct (alloc_items_run (Z.to_nat PREALLOC_LIST_BLOCK_SIZE) (mkPHeap (ph_items h) (ph_calls h) (alloc_rest (ph_env h))))
      as (qs & m' & E & Hl & Hnd & Hqs & Hf).
    erewrite bind_eq by exact E. exists (Some (mkBlock 0 qs)), m', (alloc_rest (ph_env h)). split; [done|].
    split; [intros Ha; by split; [apply Hal|]|]. split; [|done]. split; simpl; [by rewrite Hl|done].
  - exists None, (ph_items h), (alloc_rest (ph_env h)). split; [done|]. split; [|done]. intros Ha. by destruct (Hal Ha).
Qed.

Definition set_blocks (bs : list prealloc_list_block_t) l : prealloc_list_t := mkPList (p_size l) (p_dirty l) (p_first l) (p_last l) bs.

(** Memory that is allocated before an operation and not part of the list. *)
Definition elsewhere_same m m' (bs : list prealloc_list_block_t) : Prop :=
  forall q, is_Some (m !! q) -> q ∉ owned bs -> m' !! q = m !! q.

(** Room for an item: the list is the same, with a block that is not full at its end. *)
Lemma block_with_room_run h l ps :
  prep (ph_items h) l ps ->
  exists r m' e', block_with_room (p_blocks l) h = Some (r, mkPHeap m' (ph_calls h) e') /\
    (env_alloc (ph_env h) = [] -> env_alloc e' = [] /\ r <> None) /\
    match r with
    | None => m' = ph_items h
    | Some (bs, b) =>
        prep m' (set_blocks (bs ++ [b]) l) ps /\ first_pristine_item_index b < PREALLOC_LIST_BLOCK_SIZE /\
        (forall q, is_Some (ph_items h !! q) -> m' !! q = ph_items h !! q) /\
        (forall q, q ∈ owned (bs ++ [b]) -> q ∉ owned (p_blocks l) -> ph_items h !! q = None) /\
        (bs ++ [b] = p_blocks l \/ bs = p_blocks l /\ ps <> [])
    end.
Proof.
  intros Hr. pose proof (prep_blocks _ _ _ Hr) as [Hne Hok]. unfold block_with_room.
  destruct (p_blocks l) as [|b bs _] eqn:Hbs using rev_ind; [done|]. clear Hne. rewrite last_snoc.
  destruct (PREALLOC_LIST_BLOCK_SIZE <=? first_pristine_item_index b) eqn:Hfull; bools.
  - destruct (create_block_run h) as (r & m' & e' & E & Ha & Hnew). erewrite bind_eq by exact E.
    destruct r as [nb|]; [|exists None, m', e'; split; [reflexivity|]; split; [|exact Hnew]; intros Hal; by destruct (Ha Hal)].
    exists (Some (bs ++ [b], nb)), m', e'. split; [done|]. split; [intros Hal; by split; [apply Ha|]|].
    destruct Hnew as (Hbok & Hidx & Hnd & Hf & Hq).
    assert (forall q, q ∈ owned (bs ++ [b]) -> q ∉ block_items nb) as Hdis.
    { intros q Hin Hn. destruct (Hq q Hn) as [Hnone _].
      destruct (prep_owned _ _ _ q Hr) as [it ?]; [by rewrite Hbs|congruence]. }
    split; [|split; [rewrite Hidx; done|split; [|split]]].
    + apply (prep_frame _ m') in Hr; [|rewrite Hbs; intros p Hp; apply Hf; by apply Hdis]. destruct Hr. rewrite Hbs in *.
      split; try done; cbn [p_blocks set_blocks].
      * rewrite used_items_app, prep_used0. unfold used_items, used. simpl. rewrite Hidx. simpl. by rewrite app_nil_r.
      * split; [by destruct (bs ++ [b])|]. apply Forall_app. split; [apply prep_blocks0|]. by apply Forall_singleton.
      * rewrite owned_app. apply NoDup_app. rewrite owned_one. by split.
      * intros c p [Hc|Hc%list_elem_of_singleton]%elem_of_app Hp; [eauto|]. subst c. apply Hq.
        rewrite block_split, elem_of_app. by right.
    + intros q [it Hit]. apply Hf. intros Hn. destruct (Hq q Hn). congruence.
    + intros q. rewrite owned_app, elem_of_app. intros [?|Hn] ?; [done|].
      rewrite owned_one in Hn. by apply Hq.
    + right. split; [done|]. intros ->. pose proof (prep_used _ _ _ Hr) as Hu. rewrite Hbs, used_items_app in Hu.
      apply app_eq_nil in Hu as [_ Hu]. unfold used_items, used in Hu. simpl in Hu. rewrite app_nil_r in Hu.
      apply (f_equal length) in Hu. rewrite length_take in Hu. apply Forall_app in Hok as [_ [[Hl Hi] _]%Forall_cons].
      unfold PREALLOC_LIST_BLOCK_SIZE in *. simpl in Hu. lia.
  - exists (Some (removelast (bs ++ [b]), b)), (ph_items h), (ph_env h). destruct h as [m c e]. split; [done|].
    split; [done|]. rewrite removelast_last. split; [|split; [done|split; [done|split; [|by left]]]].
    + destruct Hr. split; try done; simpl; rewrite <-Hbs; done.
    + intros q ? Hn. done.
Qed.

Definition next_block b : prealloc_list_block_t := mkBlock (first_pristine_item_index b + 1) (block_items b).

Lemma next_block_item b :
  block_ok b -> first_pristine_item_index b < PREALLOC_LIST_BLOCK_SIZE ->
  exists item, block_items b !! Z.to_nat (first_pristine_item_index b) = Some item /\ block_ok (next_block b) /\
    unused b = item :: unused (next_block b) /\ used (next_block b) = used b ++ [item].
Proof.
  intros [Hl Hi] Hlt. destruct (lookup_lt_is_Some_2 (block_items b) (Z.to_nat (first_pristine_item_index b))) as [item Hitem]; [lia|].
  exists item. split; [done|]. split; [split; simpl; lia|].
  unfold unused, used, next_block. cbn [first_pristine_item_index block_items].
  replace (Z.to_nat (first_pristine_item_index b + 1)) with (S (Z.to_nat (first_pristine_item_index b))) by lia.
  split; [by apply drop_S|by apply take_S_r].
Qed.

(** An item taken from the unused ones is not among those in the sequence. *)
Lemma unused_not_in m l ps b p : prep m l ps -> b ∈ p_blocks l -> p ∈ unused b -> p ∉ ps.*1.
Proof.
  intros Hr Hb Hp ([q e] & -> & Hin)%list_elem_of_fmap. simpl in Hp.
  pose proof (prep_core _ _ _ Hr _ _ Hin) as Hc. rewrite (prep_unused _ _ _ Hr _ _ Hb Hp) in Hc. by destruct e.
Qed.

(** The state after taking [item] of the last block into use. *)
Definition added l (item : loc) (bs : list prealloc_list_block_t) : prealloc_list_t :=
  mkPList (p_size l + 1) (p_dirty l) (match p_first l with None => Some item | first => first end) (Some item) bs.

(** The links of the sequence once [item] is linked behind its last item. *)
Definition linked m l (item : loc) (v : option V) : items_t :=
  let m1 := <[item := mkPItem PREALLOC_ITEM_STATUS_IN_USE v None (p_last l) None]> m in
  match p_last l with Some q => alter (set_p_next (Some item)) q m1 | None => m1 end.

Lemma linked_other m l item v q : q <> item -> p_last l <> Some q -> linked m l item v !! q = m !! q.
Proof.
  intros Hq Hl. unfold linked. destruct (p_last l) as [r|]; [rewrite lookup_alter_ne by congruence|]; by apply lookup_insert_ne.
Qed.

Lemma linked_core m l item v q : q <> item -> item_core <$> linked m l item v !! q = item_core <$> m !! q.
Proof.
  intros Hq. unfold linked. destruct (p_last l) as [r|]; [destruct (decide (r = q)) as [-> |]|].
  - rewrite lookup_alter_eq, lookup_insert_ne by done. by destruct (m !! q).
  - by rewrite lookup_alter_ne, lookup_insert_ne by done.
  - by rewrite lookup_insert_ne by done.
Qed.

Lemma last_elem L (q : loc) : final None L = Some q -> exists L' w, L = L' ++ [(q, w : option V)].
Proof.
  destruct L as [|[p w] L' _] using rev_ind; [done|]. rewrite final_app. intros [= ->]. eauto.
Qed.

Lemma linked_seg m l ps item v :
  prep m l ps -> item ∉ ps.*1 -> seg (link <$> linked m l item v) None (live ps ++ [(item, v)]) None.
Proof.
  intros Hr Hi. pose proof (prep_seg _ _ _ Hr) as Hs. pose proof (prep_last _ _ _ Hr) as Hlast.
  pose proof (nodup_live _ (prep_nodup_used _ _ _ Hr)) as Hnd.
  assert (item ∉ (live ps).*1) as Hil by (intros ?; by apply Hi, live_locs).
  apply seg_app. simpl. rewrite <-Hlast. unfold linked. destruct (p_last l) as [q|] eqn:Hq.
  - symmetry in Hlast. apply last_elem in Hlast as (L & w & HL). rewrite HL in *.
    rewrite fmap_app in Hnd, Hil. apply NoDup_app in Hnd as (_ & Hd & _).
    assert (q ∉ L.*1) as HqL by (intros Hin; apply (Hd q Hin); left).
    assert (item <> q) as Hne by (intros ->; apply Hil, elem_of_app; right; left).
    pose proof (proj1 (seg_app _ _ _ _ _) Hs) as [_ [Hqm _]]. rewrite lookup_fmap in Hqm.
    destruct (m !! q) as [it|] eqn:Hmq; [|done].
    rewrite (alter_alt_Some _ _ _ it) by by rewrite lookup_insert_ne.
    split; [|split; [|done]].
    + rewrite fmap_insert. change (link (set_p_next (Some item) it)) with (set_next (Some item) (link it)).
      eapply seg_next; [rewrite lookup_fmap, lookup_insert_ne by done; by rewrite Hmq|done|].
      eapply seg_frame; [|exact Hs]. intros p Hp. rewrite !lookup_fmap, lookup_insert_ne; [done|]. intros <-. by rewrite fmap_app in Hp.
    + rewrite lookup_fmap, lookup_insert_ne, lookup_insert_eq by done. done.
  - destruct (live ps) as [|[p w] L _] using rev_ind; [|by rewrite final_app in Hlast].
    split; [done|]. split; [|done]. by rewrite lookup_fmap, lookup_insert_eq.
Qed.

(** The last item is used and thus not [item]. *)
Lemma p_last_used m l ps q : prep m l ps -> p_last l = Some q -> q ∈ ps.*1.
Proof.
  intros Hr Hq. rewrite (prep_last _ _ _ Hr) in Hq. apply last_elem in Hq as (L & w & HL). apply live_locs.
  rewrite HL, fmap_app. apply elem_of_app. right. left.
Qed.

Lemma linked_prep m l bs b ps item v :
  prep m (set_blocks (bs ++ [b]) l) ps -> first_pristine_item_index b < PREALLOC_LIST_BLOCK_SIZE ->
  block_items b !! Z.to_nat (first_pristine_item_index b) = Some item ->
  prep (linked m l item v) (added l item (bs ++ [next_block b])) (ps ++ [(item, Live v)]).
Proof.
  intros Hr Hlt Hitem. destruct (prep_blocks _ _ _ Hr) as [_ Hok]. simpl in Hok. apply Forall_app in Hok as [Hok [Hb _]%Forall_cons].
  destruct (next_block_item b Hb Hlt) as (item' & Hitem' & Hb' & Hun & Hus).
  rewrite Hitem in Hitem'. symmetry in Hitem'. simplify_eq.
  assert (item ∈ unused b) as Hiu by (rewrite Hun; left).
  assert (item ∉ ps.*1) as Hi by (eapply (unused_not_in _ _ _ b); [exact Hr|apply elem_of_app; right; left|done]).
  assert (forall c, owned (c ++ [next_block b]) = owned (c ++ [b])) as Hown by (intros c; by rewrite !owned_app).
  split; cbn [p_first p_last p_size p_blocks p_dirty added].
  - rewrite live_app. exact (linked_seg _ _ _ _ v Hr Hi).
  - rewrite live_app, first_app. pose proof (prep_first _ _ _ Hr) as Hf. cbn [p_first set_blocks] in Hf. rewrite Hf. simpl. by destruct (live ps) as [|[??]?].
  - rewrite live_app. symmetry. apply final_app.
  - rewrite live_app, length_app. pose proof (prep_size _ _ _ Hr) as Hn. simpl in *. lia.
  - pose proof (prep_used _ _ _ Hr) as Hu. cbn [p_blocks set_blocks] in Hu. rewrite used_items_app in *.
    rewrite fmap_app, <-Hu, <-app_assoc. f_equal. unfold used_items. simpl. by rewrite !app_nil_r, Hus.
  - split; [by destruct bs|]. apply Forall_app. split; [done|]. by apply Forall_singleton.
  - rewrite Hown. exact (prep_nodup _ _ _ Hr).
  - intros p e [Hin|Hin%list_elem_of_singleton]%elem_of_app.
    + rewrite linked_core; [by apply (prep_core _ _ _ Hr)|]. intros ->. apply Hi. by eapply elem_fst.
    + simplify_eq. unfold linked. destruct (p_last l) as [q|] eqn:Hq; [rewrite lookup_alter_ne|]; rewrite ?lookup_insert_eq; try done.
      intros ->. by apply Hi, (p_last_used _ _ _ _ Hr).
  - intros c p Hc Hp.
    assert (p ∈ unused c /\ c ∈ bs \/ p ∈ unused (next_block b)) as Hcase.
    { apply elem_of_app in Hc as [?| ->%list_elem_of_singleton]; auto. }
    pose proof (prep_nodup _ _ _ Hr) as Hnd. cbn [p_blocks set_blocks] in Hnd.
    assert (p <> item /\ (p ∉ ps.*1) /\ m !! p = Some pristine_item) as (Hne & Hps & Hm).
    { rewrite owned_app, owned_one in Hnd. apply NoDup_app in Hnd as (_ & Hd & Hnb).
      rewrite (block_split b), Hun in Hnb. apply NoDup_app in Hnb as (_ & _ & [Hni _]%NoDup_cons).
      destruct Hcase as [[Hpc Hcb]|Hpn]; [|split; [by intros -> | ]].
      - assert (c ∈ bs ++ [b]) as Hc' by (apply elem_of_app; by left).
        split; [|split; [by eapply unused_not_in|by eapply prep_unused]].
        intros ->. apply (Hd item); [|rewrite block_split; apply elem_of_app; by right].
        apply list_elem_of_join. exists (block_items c). split; [rewrite block_split; apply elem_of_app; by right|].
        apply list_elem_of_fmap. eauto.
      - assert (b ∈ bs ++ [b]) as Hc' by (apply elem_of_app; right; left).
        assert (p ∈ unused b) by (rewrite Hun; by right).
        split; [by eapply unused_not_in|by eapply prep_unused]. }
    rewrite linked_other; [done|done|]. intros Hq. by apply Hps, (p_last_used _ _ _ _ Hr).
  - intros Hdirty p e [Hin|Hin%list_elem_of_singleton]%elem_of_app; [by eapply (prep_dirty _ _ _ Hr)|]. simplify_eq. by eexists.
Qed.

(** Taking the next item of the last block into use and linking it, as done by
    [prealloc_list_append] and [prealloc_list_compact]. *)
Lemma add_item_run h l bs b ps v :
  prep (ph_items h) (set_blocks (bs ++ [b]) l) ps -> first_pristine_item_index b < PREALLOC_LIST_BLOCK_SIZE ->
  exists item h', use_item b v (p_last l) h = Some ((item, next_block b), h') /\
    when_value (p_last l) (fun prev => p_update prev (set_p_next (Some item))) h' =
      Some (tt, mkPHeap (linked (ph_items h) l item v) (ph_calls h) (ph_env h)) /\
    prep (linked (ph_items h) l item v) (added l item (bs ++ [next_block b])) (ps ++ [(item, Live v)]) /\
    only (ph_items h) (linked (ph_items h) l item v) (owned (bs ++ [b])) /\
    block_items b !! Z.to_nat (first_pristine_item_index b) = Some item.
Proof.
  intros Hr Hlt. assert (b ∈ bs ++ [b]) as Hin by (apply elem_of_app; right; left).
  assert (block_ok b) as Hb by (destruct (prep_blocks _ _ _ Hr) as [_ Hok]; by eapply Forall_forall in Hok).
  destruct (next_block_item b Hb Hlt) as (item & Hitem & _ & Hun & _).
  assert (item ∈ unused b) as Hiu by (rewrite Hun; left).
  pose proof (prep_unused _ _ _ Hr b item Hin Hiu) as Hm.
  pose proof (unused_not_in _ _ _ b item Hr Hin Hiu) as Hi.
  exists item. eexists. split; [|split; [|split; [by apply linked_prep|split; [|exact Hitem]]]].
  - unfold use_item, block_item, from_ub. erewrite bind_eq by (by rewrite Hitem).
    erewrite bind_eq by by apply p_update_eq. done.
  - unfold linked. destruct (p_last l) as [q|] eqn:Hq; [|done]. simpl.
    assert (q ∈ ps.*1) as Hqs by by eapply (p_last_used _ _ _ _ Hr).
    assert (item <> q) as Hne by (intros ->; done).
    apply list_elem_of_fmap in Hqs as ([q' e] & -> & Hqe). pose proof (prep_core _ _ _ Hr _ _ Hqe) as Hc. simpl in *.
    destruct (ph_items h !! q') as [it|] eqn:Hit; [|done].
    erewrite p_update_eq by (cbn [ph_items]; rewrite lookup_insert_ne by done; exact Hit).
    erewrite alter_alt_Some by (rewrite lookup_insert_ne by done; exact Hit). done.
  - intros q Hq. apply linked_other.
    + intros ->. apply Hq. rewrite owned_app, owned_one, block_split. rewrite !elem_of_app. auto.
    + intros Hl. apply Hq. apply used_owned. pose proof (prep_used _ _ _ Hr) as Hu. simpl in Hu. rewrite Hu.
      by eapply (p_last_used _ _ _ _ Hr).
Qed.

(** Two lists in different parts of the memory. *)
Definition apart l (L : prealloc_list_t) : Prop := forall q, q ∈ owned (p_blocks L) -> q ∉ owned (p_blocks l).

(** The memory of [L] grows only by new memory. *)
Definition grows m (L L' : prealloc_list_t) : Prop :=
  forall q, q ∈ owned (p_blocks L') -> q ∈ owned (p_blocks L) \/ m !! q = None.

Lemma apart_same m m' l ps (L : prealloc_list_t) :
  prep m l ps -> apart l L -> elsewhere_same m m' (p_blocks L) -> prep m' l ps.
Proof.
  intros Hr Ha Hs. eapply prep_frame; [|exact Hr]. intros p Hp. apply Hs; [by eapply prep_owned|]. intros Hin. by apply (Ha p).
Qed.

Lemma apart_grows m l ps (L L' : prealloc_list_t) : prep m l ps -> apart l L -> grows m L L' -> apart l L'.
Proof.
  intros Hr Ha Hg q Hq Hl. destruct (Hg q Hq) as [Hin|Hn]; [by apply (Ha q)|].
  destruct (prep_owned _ _ _ q Hr Hl). congruence.
Qed.

(** ** Appending *)

(** The ends of a list without deleted items, read from its blocks as
    [prealloc_list_compact] does. *)
Record ends_ok l (ps : list (loc * entry)) : Prop := mkEnds {
  ends_first : ps <> [] -> p_first l = head_item (p_blocks l) /\ p_first l <> None;
  ends_last : ps <> [] -> p_last l = last_item (p_blocks l);
  ends_empty : ps = [] -> p_first l = None /\ exists b, p_blocks l = [b] /\ first_pristine_item_index b = 0;
}.

Lemma ends_added l ps bs b item v :
  ends_ok l ps -> (bs ++ [b] = p_blocks l \/ bs = p_blocks l /\ ps <> []) -> p_blocks l <> [] ->
  block_items b !! Z.to_nat (first_pristine_item_index b) = Some item -> 0 <= first_pristine_item_index b -> ends_ok (added l item (bs ++ [next_block b])) (ps ++ [(item, v)]).
Proof.
  intros [Hf Hl He] Hbs Hne Hitem Hi. split; cbn [p_first p_last p_blocks added]; [| |by destruct ps]; intros _.
  - destruct (decide (ps = [])) as [-> |Hps].
    + destruct (He eq_refl) as [-> (c & Hc & Hi0)]. rewrite Hc in Hbs. destruct Hbs as [Hbs|[_ ?]]; [|done].
      destruct bs as [|? [|? ?]]; [|done..]. injection Hbs as ->. unfold head_item. simpl. rewrite Hi0 in Hitem.
      destruct (block_items c); [done|]. injection Hitem as ->. done.
    + destruct (Hf Hps) as [E Hsome]. destruct (p_first l) as [p|]; [|done]. split; [|done]. rewrite E. unfold head_item.
      destruct Hbs as [<-|[-> _]]; [by destruct bs|]. by destruct (p_blocks l).
  - unfold last_item. rewrite last_snoc. simpl. rewrite <-Hitem. f_equal. lia.
Qed.

(** Adding an item at the end: a room for it is found, it is taken into use and
    linked. *)
Lemma add_step h l ps v :
  prep (ph_items h) l ps ->
  exists r m1 e1, block_with_room (p_blocks l) h = Some (r, mkPHeap m1 (ph_calls h) e1) /\
    (env_alloc (ph_env h) = [] -> env_alloc e1 = [] /\ r <> None) /\ elsewhere_same (ph_items h) m1 (p_blocks l) /\
    match r with
    | None => m1 = ph_items h
    | Some (bs, b) => exists item h2 m2,
        use_item b v (p_last l) (mkPHeap m1 (ph_calls h) e1) = Some ((item, next_block b), h2) /\
        when_value (p_last l) (fun prev => p_update prev (set_p_next (Some item))) h2 = Some (tt, mkPHeap m2 (ph_calls h) e1) /\
        prep m2 (added l item (bs ++ [next_block b])) (ps ++ [(item, Live v)]) /\ elsewhere_same (ph_items h) m2 (p_blocks l) /\
        (forall q, q ∈ owned (bs ++ [next_block b]) -> q ∈ owned (p_blocks l) \/ ph_items h !! q = None) /\
        (ends_ok l ps -> ends_ok (added l item (bs ++ [next_block b])) (ps ++ [(item, Live v)]))
    end.
Proof.
  intros Hr. destruct (block_with_room_run h l ps Hr) as (r & m1 & e1 & E & Ha & Hroom).
  exists r, m1, e1. split; [exact E|]. split; [exact Ha|]. destruct r as [[bs b]|]; [|by subst].
  destruct Hroom as (Hr1 & Hlt & Hold & Hnew & Hbs). split; [intros q Hq _; by apply Hold|].
  destruct (add_item_run (mkPHeap m1 (ph_calls h) e1) l bs b ps v Hr1 Hlt) as (item & h2 & E1 & E2 & Hr2 & Ho & Hitem).
  exists item, h2, (linked m1 l item v). cbn [ph_items ph_calls ph_env] in *. do 3 (split; [done|]). split; [|split].
  - intros q Hq Hout. rewrite Ho, Hold; [done|done|]. intros Hin. destruct Hq as [it Hq].
    specialize (Hnew q Hin Hout). congruence.
  - intros q Hq. destruct (decide (q ∈ owned (p_blocks l))) as [|Hn]; [by left|]. right. apply Hnew; [|done].
    rewrite owned_app, owned_one in *. done.
  - intros Hends. eapply ends_added; [done|done| |exact Hitem|].
    + exact (proj1 (prep_blocks _ _ _ Hr)).
    + destruct (prep_blocks _ _ _ Hr1) as [_ Hok]. simpl in Hok. apply Forall_app in Hok as [_ [[_ ?] _]%Forall_cons]. lia.
Qed.

Lemma prealloc_list_append_run h l ps v :
  prep (ph_items h) l ps ->
  exists ok l' m' e', prealloc_list_append l v h = Some ((ok, l'), mkPHeap m' (ph_calls h) e') /\
    (env_alloc (ph_env h) = [] -> env_alloc e' = [] /\ ok = true) /\
    elsewhere_same (ph_items h) m' (p_blocks l) /\ grows (ph_items h) l l' /\
    if ok then exists item, p_last l' = Some item /\ prep m' l' (ps ++ [(item, Live v)])
    else l' = l /\ m' = ph_items h.
Proof.
  intros Hr. destruct (add_step h l ps v Hr) as (r & m1 & e1 & E & Ha & Hs & Hroom).
  unfold prealloc_list_append. erewrite bind_eq by exact E. destruct r as [[bs b]|].
  2:{ exists false, l, m1, e1. split; [done|]. split; [intros Hal; by destruct (Ha Hal)|]. subst m1.
      split; [done|]. split; [by left|done]. }
  destruct Hroom as (item & h2 & m2 & E1 & E2 & Hr2 & Hs2 & Hg & _).
  erewrite bind_eq by exact E1. cbv beta iota. erewrite bind_eq by exact E2.
  exists true, (added l item (bs ++ [next_block b])), m2, e1. split; [done|].
  split; [intros Hal; by split; [apply Ha|]|]. split; [done|]. split; [exact Hg|]. by exists item.
Qed.

(** ** Deleting *)

Lemma when_value_update {A} (f : item_t -> item_t) (o : option loc) h (k : unit -> M (pheap V D) A) :
  (forall q, o = Some q -> is_Some (ph_items h !! q)) ->
  (when_value o (fun q => p_update q f) ≫= k) h = k tt (mkPHeap (relink f o (ph_items h)) (ph_calls h) (ph_env h)).
Proof.
  intros Ho. destruct o as [q|]; [|by destruct h]. destruct (Ho q eq_refl) as [it E]. simpl.
  erewrite bind_eq by by apply p_update_eq. by rewrite (alter_alt_Some _ _ _ _ E).
Qed.

Lemma link_relink_next n o m : link <$> relink (set_p_next n) o m = relink (set_next n) o (link <$> m).
Proof. destruct o as [q|]; [|done]. by apply fmap_alter. Qed.

Lemma link_relink_prev n o m : link <$> relink (set_p_prev n) o m = relink (set_prev n) o (link <$> m).
Proof. destruct o as [q|]; [|done]. by apply fmap_alter. Qed.

Lemma relink_core (f : item_t -> item_t) o m q :
  (forall it, item_core (f it) = item_core it) -> item_core <$> relink f o m !! q = item_core <$> m !! q.
Proof.
  intros Hf. destruct o as [r|]; [|done]. simpl. destruct (decide (r = q)) as [-> |].
  - rewrite lookup_alter_eq. destruct (m !! q); simpl; by rewrite ?Hf.
  - by rewrite lookup_alter_ne.
Qed.

(** The entry of an item that was deleted with a destructor. *)
Definition dead_entry (v : option V) (d : option D) (defer : bool) : entry :=
  if defer then Dead v d else Dead None None.
Definition delete_calls (v : option V) (d : option D) (defer : bool) : list (D * option V) :=
  match d, defer with Some d, false => [(d, v)] | _, _ => [] end.

Definition removed l (p : loc) (prev next : option loc) : prealloc_list_t :=
  mkPList (p_size l - 1) true (if bool_decide (p_first l = Some p) then next else p_first l)
    (if bool_decide (p_last l = Some p) then prev else p_last l) (p_blocks l).

(** The memory after deleting [p], that was between [prev] and [next]. *)
Definition delete_memory m (p : loc) (v : option V) (d : option D) (prev next : option loc) : items_t :=
  <[p := mkPItem PREALLOC_ITEM_STATUS_DELETED v d prev next]> (relink (set_p_prev prev) next (relink (set_p_next next) prev m)).

Lemma delete_item_eq h l p v prev next d defer :
  ph_items h !! p = Some (mkPItem PREALLOC_ITEM_STATUS_IN_USE v None prev next) ->
  (forall q, prev = Some q \/ next = Some q -> q <> p /\ is_Some (ph_items h !! q)) ->
  prealloc_list_delete_item l p d defer h =
  Some ((true, removed l p prev next),
        mkPHeap (delete_memory (ph_items h) p (if defer then v else None) (if defer then d else None) prev next)
          (ph_calls h ++ delete_calls v d defer) (ph_env h)).
Proof.
  intros Hp Hends. destruct h as [m calls e]. cbn [ph_items ph_calls ph_env] in *.
  assert (forall (f : item_t -> item_t) o it m, (forall q, o = Some q -> q <> p) -> relink f o (<[p:=it]> m) = <[p:=it]> (relink f o m)) as Hcomm.
  { intros f o it m' Ho. destruct o as [q|]; [|done]. by apply alter_insert_ne, Ho. }
  assert (forall q (f : item_t -> item_t) o m', is_Some (m' !! q) -> is_Some (relink f o m' !! q)) as Hsome.
  { intros q f o m' [it Hq]. destruct o as [r|]; [|by eexists]. simpl. destruct (decide (r = q)) as [-> |]; [rewrite lookup_alter_eq|rewrite lookup_alter_ne by done]; rewrite Hq; by eexists. }
  unfold prealloc_list_delete_item. erewrite bind_eq by by apply p_load_eq. change (in_use _) with true. red_if. cbn [p_prev p_next].
  erewrite bind_eq by by apply p_update_eq. cbn [ph_items ph_calls ph_env p_value p_destructor p_prev p_next].
  rewrite when_value_update; cbn [ph_items ph_calls ph_env].
  2:{ intros q Hq. destruct (Hends q) as [? [it' E]]; [auto|]. rewrite lookup_insert_ne by done. by eexists. }
  rewrite when_value_update; cbn [ph_items ph_calls ph_env].
  2:{ intros q Hq. apply Hsome. destruct (Hends q) as [? [it' E]]; [auto|]. rewrite lookup_insert_ne by done. by eexists. }
  rewrite (Hcomm _ prev) by (intros q Hq; by apply (Hends q); auto).
  rewrite (Hcomm _ next) by (intros q Hq; by apply (Hends q); auto).
  unfold delete_memory, delete_calls, destroy_value, when_value, p_call, modify, p_update, mbind, M_bind, mret, M_ret.
  destruct defer, d as [d|]; cbn [ph_items ph_calls ph_env]; rewrite lookup_insert_eq;
    cbn [p_status p_value p_destructor p_prev p_next ph_items ph_calls ph_env]; by rewrite insert_insert_eq, ?app_nil_r.
Qed.

Lemma live_item m l ps1 p v ps2 :
  prep m l (ps1 ++ (p, Live v) :: ps2) ->
  m !! p = Some (mkPItem PREALLOC_ITEM_STATUS_IN_USE v None (final None (live ps1)) (first (live ps2) None)).
Proof.
  intros Hr. pose proof (prep_seg _ _ _ Hr) as Hs. rewrite live_app in Hs. apply seg_app in Hs as [_ [Hp _]].
  pose proof (prep_core _ _ _ Hr p (Live v) ltac:(apply elem_of_app; right; left)) as Hc.
  rewrite lookup_fmap in Hp. cbn [fst] in Hp. destruct (m !! p) as [[]|]; [|done].
  unfold link, item_core, entry_core in *. simpl in *. by simplify_eq.
Qed.

Lemma live_ends ps1 p v ps2 q :
  NoDup (ps1 ++ (p, Live v) :: ps2).*1 -> final None (live ps1) = Some q \/ first (live ps2) None = Some q ->
  q <> p /\ q ∈ (ps1 ++ (p, Live v) :: ps2).*1.
Proof.
  rewrite fmap_app, fmap_cons. intros (_ & Hd & [Hp2 _]%NoDup_cons)%NoDup_app Hq.
  destruct Hq as [Hq%final_elem%live_locs|Hq%first_elem%live_locs]; (split; [intros ->|apply elem_of_app]).
  - apply (Hd p Hq). left.
  - by left.
  - by apply Hp2.
  - right. by right.
Qed.

Lemma delete_memory_other m p v d prev next q :
  q <> p -> prev <> Some q -> next <> Some q -> delete_memory m p v d prev next !! q = m !! q.
Proof. intros ???. unfold delete_memory. rewrite lookup_insert_ne, !relink_other by done. done. Qed.

Lemma delete_memory_core m p v d prev next q :
  q <> p -> item_core <$> delete_memory m p v d prev next !! q = item_core <$> m !! q.
Proof. intros ?. unfold delete_memory. rewrite lookup_insert_ne by done. by rewrite !relink_core. Qed.

Lemma live_delete ps1 p v ps2 v' d' :
  live (ps1 ++ (p, Live v) :: ps2) = live ps1 ++ (p, v) :: live ps2 /\
  live (ps1 ++ (p, Dead v' d') :: ps2) = live ps1 ++ live ps2.
Proof. by rewrite !live_app. Qed.

Lemma delete_prep m l ps1 p v ps2 v' d' :
  prep m l (ps1 ++ (p, Live v) :: ps2) ->
  prep (delete_memory m p v' d' (final None (live ps1)) (first (live ps2) None))
    (removed l p (final None (live ps1)) (first (live ps2) None)) (ps1 ++ (p, Dead v' d') :: ps2).
Proof.
  intros Hr. pose proof (prep_nodup_used _ _ _ Hr) as Hnd. pose proof (nodup_live _ Hnd) as Hndl.
  destruct (live_delete ps1 p v ps2 v' d') as [Hl Hl']. rewrite Hl in Hndl.
  assert ((ps1 ++ (p, Dead v' d') :: ps2).*1 = (ps1 ++ (p, Live v) :: ps2).*1) as Hlocs by by rewrite !fmap_app.
  pose proof Hndl as Hp. rewrite fmap_app, fmap_cons in Hp. apply NoDup_app in Hp as (_ & Hd & [Hp2 _]%NoDup_cons).
  assert (p ∉ (live ps1).*1) as Hp1 by (intros Hin; apply (Hd p Hin); left).
  split; cbn [p_first p_last p_size p_dirty p_blocks removed].
  - rewrite Hl'. pose proof (prep_seg _ _ _ Hr) as Hs. rewrite Hl in Hs. apply seg_unlinked in Hs; [|done].
    unfold delete_memory. rewrite fmap_insert, link_relink_prev, link_relink_next. fold (unlinked (final None (live ps1)) (first (live ps2) None) (link <$> m)).
    eapply seg_frame; [|exact Hs]. intros q Hq. apply lookup_insert_ne. intros <-.
    rewrite fmap_app in Hq. by apply elem_of_app in Hq as [?|?].
  - rewrite Hl', (prep_first _ _ _ Hr), Hl. by apply unlinked_first.
  - rewrite Hl', (prep_last _ _ _ Hr), Hl. by apply unlinked_final.
  - rewrite Hl', (prep_size _ _ _ Hr), Hl, !length_app. simpl. lia.
  - rewrite Hlocs. exact (prep_used _ _ _ Hr).
  - exact (prep_blocks _ _ _ Hr).
  - exact (prep_nodup _ _ _ Hr).
  - intros q e Hin. destruct (decide (q = p)) as [-> |Hne].
    + assert (e = Dead v' d') as ->; [|unfold delete_memory; by rewrite lookup_insert_eq].
      rewrite <-Hlocs, fmap_app, fmap_cons in Hnd. apply NoDup_app in Hnd as (_ & Hdd & [Hn2 _]%NoDup_cons).
      apply elem_of_app in Hin as [Hin|[Hin|Hin]%elem_of_cons]; [exfalso|by simplify_eq|exfalso].
      * apply (Hdd p); [by eapply elem_fst|left].
      * by eapply Hn2, elem_fst.
    + rewrite delete_memory_core by done. apply (prep_core _ _ _ Hr).
      rewrite elem_of_app, elem_of_cons in *. destruct Hin as [?|[?|?]]; auto. by simplify_eq.
  - intros b q Hb Hq. pose proof (unused_not_in _ _ _ _ _ Hr Hb Hq) as Hn.
    rewrite delete_memory_other; [by eapply prep_unused| | |].
    + intros ->. apply Hn. rewrite fmap_app. apply elem_of_app. right. left.
    + intros E. apply Hn. eapply live_ends; [done|by left].
    + intros E. apply Hn. eapply live_ends; [done|by right].
  - done.
Qed.

Lemma prealloc_list_delete_item_run h l ps1 p v ps2 d defer :
  prep (ph_items h) l (ps1 ++ (p, Live v) :: ps2) ->
  exists l' m', prealloc_list_delete_item l p d defer h =
      Some ((true, l'), mkPHeap m' (ph_calls h ++ delete_calls v d defer) (ph_env h)) /\
    prep m' l' (ps1 ++ (p, dead_entry v d defer) :: ps2) /\ p_blocks l' = p_blocks l /\
    elsewhere_same (ph_items h) m' (p_blocks l).
Proof.
  intros Hr. pose proof (prep_nodup_used _ _ _ Hr) as Hnd. pose proof (live_item _ _ _ _ _ _ Hr) as Hp.
  eexists _, _. split; [eapply delete_item_eq; [exact Hp|]|split; [|split; [done|]]].
  - intros q Hq. destruct (live_ends _ _ _ _ _ Hnd Hq) as [? Hin]. split; [done|].
    apply list_elem_of_fmap in Hin as ([q' e] & -> & Hin). pose proof (prep_core _ _ _ Hr _ _ Hin) as Hc. simpl.
    destruct (ph_items h !! q'); [by eexists|done].
  - replace (dead_entry v d defer) with (Dead (if defer then v else None) (if defer then d else None)) by by destruct defer.
    by eapply delete_prep.
  - intros q _ Hq. assert (q ∉ (ps1 ++ (p, Live v) :: ps2).*1) as Hn.
    { rewrite <-(prep_used _ _ _ Hr). intros Hin. by apply Hq, used_owned. }
    apply delete_memory_other.
    + intros ->. apply Hn. rewrite fmap_app. apply elem_of_app. right. left.
    + intros E. apply Hn. eapply live_ends; [done|by left].
    + intros E. apply Hn. eapply live_ends; [done|by right].
Qed.

(** Only the predecessor of a deleted item gets another successor. *)
Lemma delete_item_next h l ps1 p v ps2 d defer r h' q :
  prep (ph_items h) l (ps1 ++ (p, Live v) :: ps2) -> prealloc_list_delete_item l p d defer h = Some (r, h') ->
  final None (live ps1) <> Some q -> p_next <$> ph_items h' !! q = p_next <$> ph_items h !! q.
Proof.
  intros Hr E Hq. pose proof (prep_nodup_used _ _ _ Hr) as Hnd. pose proof (live_item _ _ _ _ _ _ Hr) as Hp.
  rewrite (delete_item_eq _ _ _ _ _ _ _ _ Hp) in E.
  2:{ intros q' Hq'. destruct (live_ends _ _ _ _ _ Hnd Hq') as [? Hin]. split; [done|].
      apply list_elem_of_fmap in Hin as ([q2 e] & -> & Hin). pose proof (prep_core _ _ _ Hr _ _ Hin) as Hc. simpl.
      destruct (ph_items h !! q2); [by eexists|done]. }
  injection E as <- <-. cbn [ph_items]. unfold delete_memory. destruct (decide (q = p)) as [-> |Hne].
  { by rewrite lookup_insert_eq, Hp. }
  rewrite lookup_insert_ne by done. rewrite <-(relink_other (set_p_next (first (live ps2) None)) _ (ph_items h) q Hq).
  destruct (first (live ps2) None) as [n|]; [|done]. simpl. destruct (decide (n = q)) as [-> |]; [|by rewrite lookup_alter_ne].
  rewrite lookup_alter_eq. by destruct (relink _ _ _ !! q).
Qed.

(** Items that are not in use are not deleted again. *)
Lemma prealloc_list_delete_dead_run h l ps p v d d' defer :
  prep (ph_items h) l ps -> (p, Dead v d) ∈ ps -> prealloc_list_delete_item l p d' defer h = Some ((false, l), h).
Proof.
  intros Hr Hin. pose proof (prep_core _ _ _ Hr _ _ Hin) as Hc. destruct (ph_items h !! p) as [it|] eqn:Hit; [|done].
  unfold prealloc_list_delete_item. erewrite bind_eq by by apply p_load_eq. destruct it.
  unfold item_core, entry_core in Hc. simpl in Hc. by simplify_eq.
Qed.

(** ** Indexing *)

Lemma get_item_loop_run h prev L i :
  seg (link <$> ph_items h) prev L None -> get_item_loop i (first L None) h = Some (fst <$> L !! i, h).
Proof.
  revert prev L. induction i as [|i IH]; intros prev L Hs; [by destruct L as [|[p v] L]|].
  destruct L as [|[p v] L]; [done|]. destruct Hs as [Hp Hs]. rewrite lookup_fmap in Hp. cbn [first get_item_loop].
  destruct (ph_items h !! p) as [it|] eqn:Hit; [|done]. erewrite bind_eq by by apply p_load_eq.
  destruct it as [st w d pr nx]. unfold link in Hp. simpl in Hp. simplify_eq. simpl. by apply (IH _ _ Hs).
Qed.

Lemma prealloc_list_get_item_run h l ps i :
  prep (ph_items h) l ps ->
  prealloc_list_get_item l i h = Some (if i <? 0 then None else fst <$> live ps !! Z.to_nat i, h).
Proof.
  intros Hr. unfold prealloc_list_get_item. rewrite (prep_first _ _ _ Hr), (prep_size _ _ _ Hr).
  destruct (i <? 0) eqn:Hi; [done|]. red_if. bools. destruct (len (live ps) <=? i) eqn:Hn; bools.
  - by rewrite lookup_ge_None_2 by lia.
  - eapply get_item_loop_run, prep_seg. exact Hr.
Qed.

(** ** Destructors and freeing *)

(** The destructor called for a value: its own one, if those are used, or the
    given one. *)
Definition call_for (value_destructor : option D) (use_own : bool) (v : option V) (d : option D) : list (D * option V) :=
  match v, (if use_own then d else None), value_destructor with
  | None, _, _ => []
  | Some _, Some d, _ | Some _, None, Some d => [(d, v)]
  | Some _, None, None => []
  end.

Definition item_calls (test : item_t -> bool) (value_destructor : option D) (use_own : bool) (o : option item_t) : list (D * option V) :=
  match o with
  | Some it => if test it then call_for value_destructor use_own (p_value it) (p_destructor it) else []
  | None => []
  end.

Definition add_calls (cs : list (D * option V)) h : pheap V D := mkPHeap (ph_items h) (ph_calls h ++ cs) (ph_env h).

Lemma destroy_items_run test vd own ps : forall h,
  (forall p, p ∈ ps -> is_Some (ph_items h !! p)) ->
  destroy_items test vd own ps h = Some (tt, add_calls (mjoin ((fun p => item_calls test vd own (ph_items h !! p)) <$> ps)) h).
Proof.
  induction ps as [|p ps IH]; intros h Hp; [by destruct h as [m c e]; unfold add_calls; simpl; rewrite app_nil_r|].
  destruct (Hp p ltac:(left)) as [it Hit]. specialize (IH (add_calls (item_calls test vd own (Some it)) h)).
  unfold destroy_items in *. cbn [for_each]. erewrite bind_eq.
  - rewrite IH; [|intros q Hq; apply Hp; by right]. unfold add_calls. cbn [ph_items ph_calls ph_env].
    rewrite fmap_cons. cbn [mjoin list_join]. rewrite Hit, <-app_assoc. done.
  - erewrite bind_eq by by apply p_load_eq. unfold item_calls, call_for.
    destruct (p_value it) as [v|] eqn:Hv; cbn [negb orb bool_decide].
    + rewrite bool_decide_eq_true_2 by by eexists. red_if. destruct (test it); red_if; [|destruct h as [m c e]; unfold add_calls; simpl; by rewrite app_nil_r].
      destruct (p_destructor it) as [d|], own; try done; destruct vd; try done; destruct h as [m c e]; unfold add_calls; simpl; by rewrite app_nil_r.
    + rewrite bool_decide_eq_false_2 by by intros []. red_if. destruct (test it), h as [m c e]; unfold add_calls; simpl; by rewrite app_nil_r.
Qed.

Lemma free_items_run ps : forall h,
  NoDup ps -> (forall p, p ∈ ps -> is_Some (ph_items h !! p)) ->
  exists m', free_items ps h = Some (tt, mkPHeap m' (ph_calls h) (ph_env h)) /\ only (ph_items h) m' ps /\
    forall p, p ∈ ps -> m' !! p = None.
Proof.
  induction ps as [|p ps IH]; intros h Hnd Hp.
  { exists (ph_items h). destruct h as [m c e]. split; [done|]. split; [done|]. intros p Hin. by apply not_elem_of_nil in Hin. }
  apply NoDup_cons in Hnd as [Hn Hnd]. destruct (Hp p ltac:(left)) as [it Hit].
  destruct (IH (mkPHeap (delete p (ph_items h)) (ph_calls h) (ph_env h))) as (m' & E & Ho & Hm); [done| |].
  { intros q Hq. cbn [ph_items]. rewrite lookup_delete_ne by (intros ->; done). apply Hp. by right. }
  exists m'. unfold free_items in *. cbn [for_each]. erewrite bind_eq.
  - split; [exact E|]. cbn [ph_items] in Ho. split.
    + intros q [??]%not_elem_of_cons. rewrite Ho by done. by apply lookup_delete_ne.
    + intros q [-> |Hq]%elem_of_cons; [rewrite Ho by done; apply lookup_delete_eq|by apply Hm].
  - erewrite bind_eq by by apply p_load_eq. done.
Qed.

Lemma free_blocks_run test vd own bs : forall h,
  NoDup (owned bs) -> (forall p, p ∈ owned bs -> is_Some (ph_items h !! p)) ->
  exists m', free_blocks test vd own bs h =
      Some (tt, mkPHeap m' (ph_calls h ++ mjoin ((fun p => item_calls test vd own (ph_items h !! p)) <$> owned bs)) (ph_env h)) /\
    only (ph_items h) m' (owned bs) /\ forall p, p ∈ owned bs -> m' !! p = None.
Proof.
  induction bs as [|b bs IH]; intros h Hnd Hp.
  { exists (ph_items h). destruct h as [m c e]. simpl. rewrite app_nil_r. split; [done|]. split; [done|].
    intros p Hin. by apply not_elem_of_nil in Hin. }
  change (owned (b :: bs)) with (block_items b ++ owned bs) in *. apply NoDup_app in Hnd as (Hnb & Hd & Hnd).
  set (cs := mjoin ((fun p => item_calls test vd own (ph_items h !! p)) <$> block_items b)).
  destruct (free_items_run (block_items b) (add_calls cs h) Hnb) as (m1 & E1 & Ho1 & Hm1).
  { intros p Hin. apply Hp, elem_of_app. by left. }
  cbn [ph_items ph_calls ph_env add_calls] in *.
  assert (forall p, p ∈ owned bs -> m1 !! p = ph_items h !! p) as Hsame.
  { intros p Hin. apply Ho1. intros Hb. by apply (Hd p). }
  destruct (IH (mkPHeap m1 (ph_calls h ++ cs) (ph_env h)) Hnd) as (m' & E & Ho & Hm).
  { intros p Hin. cbn [ph_items]. rewrite Hsame by done. apply Hp, elem_of_app. by right. }
  cbn [ph_items ph_calls ph_env] in *. exists m'. unfold free_blocks in *. cbn [for_each]. erewrite bind_eq.
  2:{ erewrite bind_eq; [exact E1|]. apply destroy_items_run. intros p Hin. apply Hp, elem_of_app. by left. }
  split; [rewrite E; do 3 f_equal|split].
  - rewrite fmap_app, join_app, app_assoc. f_equal. f_equal. apply list_fmap_ext. intros i p Hi. rewrite Hsame; [done|].
    by eapply list_elem_of_lookup_2.
  - intros q [Hq1 Hq2]%not_elem_of_app. by rewrite Ho, Ho1.
  - intros q [Hq|Hq]%elem_of_app; [|by apply Hm]. rewrite Ho; [by apply Hm1|]. by apply Hd.
Qed.

(** What the destructors are called for in terms of the sequence. *)
Definition entry_calls (all : bool) (vd : option D) (own : bool) (e : entry) : list (D * option V) :=
  match e with
  | Live v => if all then call_for vd own v None else []
  | Dead v d => call_for vd own v d
  end.
Definition test_of (all : bool) : item_t -> bool := if all then fun _ => true else deleted.

Lemma item_entry_calls all vd own m p e :
  item_core <$> m !! p = Some (entry_core e) -> item_calls (test_of all) vd own (m !! p) = entry_calls all vd own e.
Proof.
  destruct (m !! p) as [[st v d pr nx]|]; [|done]. unfold item_core, item_calls. simpl.
  destruct e as [w|w dd]; simpl; intros [= -> -> ->]; by destruct all.
Qed.

Lemma mjoin_nil {A B} (f : A -> list B) xs : (forall x, x ∈ xs -> f x = []) -> mjoin (f <$> xs) = [].
Proof.
  induction xs as [|x xs IH]; intros Hf; [done|]. rewrite fmap_cons. cbn [mjoin list_join].
  rewrite Hf by left. apply IH. intros y Hy. apply Hf. by right.
Qed.

Lemma blocks_calls {B} (f : loc -> list B) bs :
  (forall b p, b ∈ bs -> p ∈ unused b -> f p = []) -> mjoin (f <$> owned bs) = mjoin (f <$> used_items bs).
Proof.
  induction bs as [|b bs IH]; intros Hf; [done|].
  change (owned (b :: bs)) with (block_items b ++ owned bs). change (used_items (b :: bs)) with (used b ++ used_items bs).
  rewrite (block_split b), !fmap_app, !join_app, IH by (intros c p Hc; apply Hf; by right).
  rewrite (mjoin_nil f (unused b)) by (intros p Hp; apply (Hf b); [left|done]). by rewrite app_nil_r.
Qed.

Lemma prep_calls all vd own m l ps :
  prep m l ps ->
  mjoin ((fun p => item_calls (test_of all) vd own (m !! p)) <$> owned (p_blocks l)) = mjoin (entry_calls all vd own <$> ps.*2).
Proof.
  intros Hr. rewrite blocks_calls.
  - rewrite (prep_used _ _ _ Hr). pose proof (prep_core _ _ _ Hr) as Hc. clear Hr.
    induction ps as [|[p e] ps IH]; [done|]. simpl. rewrite (item_entry_calls all vd own m p e) by (apply Hc; left).
    f_equal. apply IH. intros q e' Hin. apply Hc. by right.
  - intros b p Hb Hp. rewrite (prep_unused _ _ _ Hr _ _ Hb Hp). by destruct all.
Qed.

Lemma free_list_run all vd own h l ps :
  prep (ph_items h) l ps ->
  exists m', free_blocks (test_of all) vd own (p_blocks l) h =
      Some (tt, mkPHeap m' (ph_calls h ++ mjoin (entry_calls all vd own <$> ps.*2)) (ph_env h)) /\
    only (ph_items h) m' (owned (p_blocks l)) /\ forall p, p ∈ owned (p_blocks l) -> m' !! p = None.
Proof.
  intros Hr. rewrite <-(prep_calls all vd own _ _ _ Hr). apply free_blocks_run; [exact (prep_nodup _ _ _ Hr)|].
  intros p. by eapply prep_owned.
Qed.

(** ** Compacting *)

Lemma free_new_run bs : forall h,
  NoDup (owned bs) -> (forall p, p ∈ owned bs -> is_Some (ph_items h !! p)) ->
  exists m', for_each (fun b => free_items (block_items b)) bs h = Some (tt, mkPHeap m' (ph_calls h) (ph_env h)) /\
    only (ph_items h) m' (owned bs).
Proof.
  induction bs as [|b bs IH]; intros h Hnd Hp; [exists (ph_items h); by destruct h|].
  change (owned (b :: bs)) with (block_items b ++ owned bs) in *. apply NoDup_app in Hnd as (Hnb & Hd & Hnd).
  destruct (free_items_run (block_items b) h Hnb) as (m1 & E1 & Ho1 & _).
  { intros p Hin. apply Hp, elem_of_app. by left. }
  destruct (IH (mkPHeap m1 (ph_calls h) (ph_env h)) Hnd) as (m' & E & Ho).
  { intros p Hin. cbn [ph_items]. rewrite Ho1; [apply Hp, elem_of_app; by right|]. intros Hb. by apply (Hd p). }
  exists m'. cbn [for_each]. erewrite bind_eq by exact E1. split; [exact E|].
  intros q [Hq1 Hq2]%not_elem_of_app. rewrite Ho by done. by apply Ho1.
Qed.

Definition all_live (vs : list (option V)) : list entry := Live <$> vs.

Lemma compact_loop_run R : forall fuel h l ps Q L qs,
  prep (ph_items h) l ps -> live ps = Q ++ R -> prep (ph_items h) L qs -> ends_ok L qs -> apart l L -> (length R <= fuel)%nat ->
  exists ok L' new m' e',
    compact_loop fuel (first R None) (p_blocks L) (p_last L) h = Some ((ok, p_blocks L'), mkPHeap m' (ph_calls h) e') /\
    (env_alloc (ph_env h) = [] -> env_alloc e' = [] /\ ok = true) /\ p_dirty L' = p_dirty L /\
    prep m' l ps /\ prep m' L' (qs ++ new) /\ elsewhere_same (ph_items h) m' (p_blocks L) /\ grows (ph_items h) L L' /\
    (ok = true -> ends_ok L' (qs ++ new) /\ new.*2 = all_live R.*2).
Proof.
  induction R as [|[p v] R IH]; intros fuel h l ps Q L qs Hr HQ HL He Ha Hfuel.
  { exists true, L, [], (ph_items h), (ph_env h). rewrite app_nil_r. destruct h as [m c e].
    split; [by destruct fuel|]. split; [done|]. do 3 (split; [done|]). split; [by intros q|].
    split; [intros q Hq; by left|done]. }
  destruct fuel as [|fuel]; [simpl in Hfuel; lia|]. cbn [first compact_loop].
  destruct (add_step h L qs v HL) as (r & m1 & e1 & E & Hal & Hs1 & Hroom). erewrite bind_eq by exact E.
  destruct r as [[bs b]|].
  2:{ subst m1. exists false, L, [], (ph_items h), e1. rewrite app_nil_r. split; [done|].
      split; [intros Hal'; by destruct (Hal Hal')|]. do 3 (split; [done|]). split; [by intros q|].
      split; [intros q Hq; by left|done]. }
  destruct Hroom as (item & h2 & m2 & E1 & E2 & HL2 & Hs2 & Hg & He2).
  pose proof (apart_same _ m1 _ _ _ Hr Ha Hs1) as Hr1. pose proof (apart_same _ m2 _ _ _ Hr Ha Hs2) as Hr2.
  pose proof (prep_seg _ _ _ Hr1) as Hseg. rewrite HQ in Hseg. apply seg_app in Hseg as [_ [Hp _]].
  rewrite lookup_fmap in Hp. destruct (m1 !! p) as [[st w d pr nx]|] eqn:Hm1; [|done]. unfold link in Hp. simpl in Hp. simplify_eq.
  erewrite bind_eq by (apply p_load_eq; exact Hm1). cbn [p_value p_next].
  erewrite bind_eq by exact E1. cbv beta iota. erewrite bind_eq by exact E2.
  destruct (IH fuel (mkPHeap m2 (ph_calls h) e1) l ps (Q ++ [(p, v)]) (added L item (bs ++ [next_block b])) (qs ++ [(item, Live v)]) Hr2)
    as (ok & L' & new & m' & e' & E' & Hal' & Hd & Hr' & HL' & Hs' & Hg' & Hok).
  - by rewrite HQ, <-app_assoc.
  - exact HL2.
  - by apply He2.
  - eapply apart_grows; [exact Hr|exact Ha|]. intros q Hq. by apply Hg.
  - simpl in Hfuel. lia.
  - cbn [ph_items ph_calls ph_env] in *. rewrite <-app_assoc in *. exists ok, L', ((item, Live v) :: new), m', e'.
    split; [exact E'|]. split; [intros H; apply Hal', Hal, H|]. do 3 (split; [done|]). split; [|split].
    + intros q Hq Hn. rewrite Hs'; [by apply Hs2|rewrite Hs2 by done; done|].
      intros Hin. destruct (Hg q Hin); [done|]. destruct Hq; congruence.
    + intros q Hq. destruct (Hg' q Hq) as [Hin|Hn]; [by apply Hg|].
      destruct (decide (q ∈ owned (p_blocks L))) as [|Hn']; [by left|]. right.
      destruct (ph_items h !! q) eqn:Hsome; [|done]. rewrite Hs2 in Hn by (by eexists || done). congruence.
    + intros ->. destruct (Hok eq_refl) as [? Hv]. split; [done|].
      unfold all_live in *. simpl. f_equal. exact Hv.
Qed.

Lemma new_list m' b :
  block_ok b -> first_pristine_item_index b = 0 -> NoDup (block_items b) -> (forall q, q ∈ block_items b -> m' !! q = Some pristine_item) ->
  prep m' (mkPList 0 false None None [b]) [] /\ ends_ok (mkPList 0 false None None [b]) [].
Proof.
  intros Hb Hi Hnd Hq. split; [split; simpl; try done|].
  - unfold used_items, used. simpl. by rewrite Hi.
  - split; [done|]. by constructor.
  - by rewrite owned_one.
  - intros p e Hin. by apply not_elem_of_nil in Hin.
  - intros c p Hc%list_elem_of_singleton Hp. subst c. apply Hq. rewrite block_split. apply elem_of_app. by right.
  - intros _ p e Hin. by apply not_elem_of_nil in Hin.
  - split; [done..|]. intros _. split; [done|]. by exists b.
Qed.

(** The list and its memory after compacting. *)
Definition compacted (override : bool) (vd : option D) h l (ps : list (loc * entry)) (ok : bool) (l' : prealloc_list_t)
    (h' : pheap V D) : Prop :=
  if ok then
    p_dirty l' = false /\ (exists ps', prep (ph_items h') l' ps' /\ ps'.*2 = all_live (live ps).*2) /\
    ph_calls h' = ph_calls h ++ mjoin (entry_calls false vd (is_own override) <$> ps.*2)
  else l' = l /\ prep (ph_items h') l ps /\ ph_calls h' = ph_calls h.

Lemma clean_entries m l ps vd own :
  prep m l ps -> p_dirty l = false -> ps.*2 = all_live (live ps).*2 /\ mjoin (entry_calls false vd own <$> ps.*2) = [].
Proof.
  intros Hr Hd. pose proof (prep_dirty _ _ _ Hr Hd) as Hall. clear Hr Hd. induction ps as [|[p e] ps IH]; [done|].
  destruct (Hall p e ltac:(left)) as [v ->]. destruct IH as [IH1 IH2]; [intros q e Hin; eapply Hall; by right|].
  unfold all_live in *. simpl. split; [by rewrite IH1 at 1|exact IH2].
Qed.

(** The new ends that [prealloc_list_compact] computes are those of the new list. *)
Lemma new_ends l m ps (L' : prealloc_list_t) new h :
  prep m l ps -> prep (ph_items h) L' new -> ends_ok L' new -> new.*2 = all_live (live ps).*2 ->
  (if 0 <? p_size l then
     first ← from_ub (head_item (p_blocks L')); last ← from_ub (last_item (p_blocks L')); mret (Some first, Some last)
   else mret (p_first l, p_last l)) h = Some ((p_first L', p_last L'), h) /\ p_size L' = p_size l.
Proof.
  intros Hr HL He Hv.
  assert (live new = zip new.*1 (live ps).*2) as Hlive.
  { revert Hv. clear. generalize (live ps).*2 as vs. induction new as [|[p e] new IH]; intros vs Hv; [done|].
    destruct vs as [|v vs]; [done|]. unfold all_live in Hv. simpl in Hv. injection Hv as -> Hv. simpl. f_equal. by apply IH. }
  assert (length new = length (live ps)) as Hlen.
  { apply (f_equal length) in Hv. unfold all_live in Hv. by rewrite !length_fmap in Hv. }
  assert (p_size L' = p_size l) as Hsize.
  { rewrite (prep_size _ _ _ Hr), (prep_size _ _ _ HL), Hlive, length_zip_with, !length_fmap. lia. }
  split; [|done]. pose proof (prep_size _ _ _ Hr) as Hn. destruct (decide (new = [])) as [-> |Hne].
  - simpl in Hlen. rewrite Hn, <-Hlen. simpl. rewrite (prep_first _ _ _ Hr), (prep_last _ _ _ Hr), (prep_first _ _ _ HL), (prep_last _ _ _ HL).
    destruct (live ps); [done|simpl in Hlen; lia].
  - assert ((0 <? p_size l) = true) as -> by (apply Z.ltb_lt; destruct new; [done|]; simpl in Hlen; lia).
    destruct (ends_first _ _ He Hne) as [Hf Hsome]. pose proof (ends_last _ _ He Hne) as Hla. rewrite <-Hf, <-Hla.
    assert (p_last L' <> None) as Hlsome.
    { rewrite (prep_first _ _ _ HL) in Hsome. rewrite (prep_last _ _ _ HL).
      destruct (live new) as [|[p v] L _] using rev_ind; [done|]. by rewrite final_app. }
    by destruct (p_first L'), (p_last L').
Qed.

Lemma prealloc_list_compact_run fuel h l ps vd override :
  prep (ph_items h) l ps -> (length (live ps) <= fuel)%nat ->
  exists ok l' h', prealloc_list_compact fuel l vd override h = Some ((ok, l'), h') /\
    (env_alloc (ph_env h) = [] -> env_alloc (ph_env h') = [] /\ ok = true) /\
    elsewhere_same (ph_items h) (ph_items h') (p_blocks l) /\ grows (ph_items h) l l' /\ compacted override vd h l ps ok l' h'.
Proof.
  intros Hr Hfuel. unfold prealloc_list_compact. destruct (p_dirty l) eqn:Hdirty; red_if.
  2:{ exists true, l, h. split; [done|]. split; [done|]. split; [by intros q|]. split; [by left|]. destruct (clean_entries _ _ _ vd (is_own override) Hr Hdirty) as [H1 H2].
      split; [done|]. split; [by exists ps|]. by rewrite H2, app_nil_r. }
  destruct (create_block_run h) as (r & m1 & e1 & E & Hal & Hnew). erewrite bind_eq by exact E. destruct r as [b|].
  2:{ subst m1. eexists false, l, _. split; [done|]. split; [intros H; by destruct (Hal H)|]. split; [by intros q|]. split; [by left|by split]. }
  destruct Hnew as (Hbok & Hi & Hnd & Ho & Hq).
  destruct (new_list m1 b Hbok Hi Hnd (fun q Hin => proj2 (Hq q Hin))) as [HL He].
  set (L := mkPList 0 false None None [b]) in *.
  assert (forall q, is_Some (ph_items h !! q) -> m1 !! q = ph_items h !! q) as Hold.
  { intros q [it Hs]. apply Ho. intros Hin. destruct (Hq q Hin). congruence. }
  assert (prep m1 l ps) as Hr1 by (eapply prep_frame; [intros p Hp; eapply Hold, prep_owned; [exact Hr|exact Hp]|exact Hr]).
  assert (apart l L) as Ha.
  { intros q Hin Hl. unfold L in Hin. simpl in Hin. rewrite owned_one in Hin. destruct (Hq q Hin). destruct (prep_owned _ _ _ q Hr Hl). congruence. }
  destruct (compact_loop_run (live ps) fuel (mkPHeap m1 (ph_calls h) e1) l ps [] L [] Hr1 eq_refl HL He Ha Hfuel)
    as (ok & L' & new & m2 & e2 & E2 & Hal2 & Hd & Hr2 & HL2 & Hs2 & Hg & Hok).
  rewrite <-(prep_first _ _ _ Hr) in E2. erewrite bind_eq by exact E2. cbv beta iota. cbn [ph_items ph_calls ph_env] in *.
  pose proof (apart_grows _ _ _ _ _ Hr1 Ha Hg) as Ha2. rewrite app_nil_l in *.
  assert (forall q, is_Some (ph_items h !! q) -> (q ∉ owned (p_blocks L')) /\ m2 !! q = ph_items h !! q) as Hfar.
  { intros q [it Hs]. assert (q ∉ owned (p_blocks L)) as HnL.
    { unfold L. simpl. rewrite owned_one. intros Hin. destruct (Hq q Hin). congruence. }
    pose proof (Hold q ltac:(by eexists)) as Hm1. split; [|rewrite Hs2 by (rewrite ?Hm1; by eexists || done); done].
    intros Hin. destruct (Hg q Hin); [done|congruence]. }
  assert (env_alloc (ph_env h) = [] -> env_alloc e2 = [] /\ ok = true) as Halloc by (intros H; apply Hal2, Hal, H).
  destruct ok; red_if.
  - destruct (Hok eq_refl) as [He2 Hv].
    destruct (new_ends l m2 ps L' new (mkPHeap m2 (ph_calls h) e2) Hr2 HL2 He2 Hv) as [Eends Hsize].
    erewrite bind_eq by exact Eends. cbv beta iota.
    destruct (free_list_run false vd (is_own override) (mkPHeap m2 (ph_calls h) e2) l ps Hr2) as (m3 & E3 & Ho3 & _).
    erewrite bind_eq by exact E3. exists true. eexists _, _. split; [done|]. split; [exact Halloc|]. cbn [ph_items ph_calls ph_env] in *.
    split; [intros q Hs Hn; rewrite Ho3 by done; by apply Hfar|]. split.
    { intros q Hin. right. destruct (ph_items h !! q) eqn:Hs; [|done]. by destruct (Hfar q). }
    rewrite <-Hsize. split; [done|]. split; [|done].
    exists new. split; [|exact Hv]. destruct L' as [sz dt fi la bl]. simpl in Hd. subst dt. simpl.
    eapply prep_frame; [|exact HL2]. intros q Hin. apply Ho3. intros Hl. by apply (Ha2 q).
  - destruct (free_new_run (p_blocks L') (mkPHeap m2 (ph_calls h) e2)) as (m3 & E3 & Ho3).
    { exact (prep_nodup _ _ _ HL2). }
    { intros p. by eapply prep_owned. }
    erewrite bind_eq by exact E3. eexists false, l, _. split; [done|]. split; [exact Halloc|]. cbn [ph_items ph_calls ph_env] in *.
    split; [intros q Hs _; rewrite Ho3 by (by apply Hfar); by apply Hfar|]. split; [by left|]. split; [done|]. split; [|done].
    eapply prep_frame; [|exact Hr2]. intros q Hin. apply Ho3. intros HinL. by apply (Ha2 q).
Qed.

(** ** Creating and destroying *)

Lemma create_preallocated_list_run h :
  exists r h', create_preallocated_list h = Some (r, h') /\ ph_calls h' = ph_calls h /\
    (env_alloc (ph_env h) = [] -> env_alloc (ph_env h') = [] /\ r <> None) /\
    match r with
    | None => ph_items h' = ph_items h
    | Some l => prep (ph_items h') l [] /\ p_dirty l = false /\
        (forall q, q ∈ owned (p_blocks l) -> ph_items h !! q = None) /\
        (forall q, is_Some (ph_items h !! q) -> ph_items h' !! q = ph_items h !! q)
    end.
Proof.
  unfold create_preallocated_list. erewrite bind_eq by (apply p_env_eq, zmalloc_eq; done).
  assert (env_alloc (ph_env h) = [] -> env_alloc (alloc_rest (ph_env h)) = [] /\ alloc_next (ph_env h) = true) as Hal.
  { intros Ha. unfold alloc_rest, alloc_next. simpl. by rewrite Ha. }
  destruct (alloc_next (ph_env h)); red_if.
  2:{ eexists None, _. split; [done|]. split; [done|]. split; [|done]. intros Ha. by destruct (Hal Ha). }
  destruct (create_block_run (mkPHeap (ph_items h) (ph_calls h) (alloc_rest (ph_env h)))) as (r & m1 & e1 & E & Ha & Hr).
  erewrite bind_eq by exact E. eexists _, _. split; [done|]. split; [done|]. cbn [ph_items ph_env] in *.
  split; [intros H; destruct (Ha (proj1 (Hal H))); split; [done|]; by destruct r|].
  destruct r as [b|]; [|done]. destruct Hr as (Hb & Hi & Hnd & Ho & Hq).
  split; [eapply new_list; [done..|]; intros q Hin; by apply Hq|]. split; [done|]. split.
  - intros q Hin. simpl in Hin. rewrite owned_one in Hin. by apply Hq.
  - intros q [it Hs]. apply Ho. intros Hin. destruct (Hq q Hin). congruence.
Qed.

Lemma destroy_preallocated_list_run h l ps vd override :
  prep (ph_items h) l ps ->
  exists m', destroy_preallocated_list l vd override h =
      Some (tt, mkPHeap m' (ph_calls h ++ mjoin (entry_calls true vd (is_own override) <$> ps.*2)) (ph_env h)) /\
    only (ph_items h) m' (owned (p_blocks l)) /\ forall p, p ∈ owned (p_blocks l) -> m' !! p = None.
Proof. apply (free_list_run true). Qed.
End Representation.

Section Promise.
Context {V D : Type}.
Implicit Types (h : pheap V D) (l : prealloc_list_t) (ps : list (loc * entry (V := V) (D := D))).

(** ** What the operations promise of the represented sequence *)

Definition append_promise h l ps (value : option V) : Prop :=
  exists ok l' h', prealloc_list_append l value h = Some ((ok, l'), h') /\ ph_calls h' = ph_calls h /\
    (env_alloc (ph_env h) = [] -> ok = true) /\
    if ok then exists item, p_last l' = Some item /\ prep (ph_items h') l' (ps ++ [(item, Live value)])
    else l' = l /\ prep (ph_items h') l ps.

(** Deleting a live item: it is skipped from now on; its destructor is called
    now or remembered. Items that are not in use are not deleted. *)
Definition delete_promise h l ps (d : option D) (defer : bool) : Prop :=
  (forall ps1 p v ps2, ps = ps1 ++ (p, Live v) :: ps2 ->
     exists l' h', prealloc_list_delete_item l p d defer h = Some ((true, l'), h') /\
       prep (ph_items h') l' (ps1 ++ (p, dead_entry v d defer) :: ps2) /\ ph_calls h' = ph_calls h ++ delete_calls v d defer) /\
  forall p v d', (p, Dead v d') ∈ ps -> prealloc_list_delete_item l p d defer h = Some ((false, l), h).

Definition compact_promise (fuel : nat) h l ps (vd : option D) (override : bool) : Prop :=
  exists ok l' h', prealloc_list_compact fuel l vd override h = Some ((ok, l'), h') /\
    (env_alloc (ph_env h) = [] -> ok = true) /\ compacted override vd h l ps ok l' h'.

Definition destroy_promise h l ps (vd : option D) (override : bool) : Prop :=
  exists h', destroy_preallocated_list l vd override h = Some (tt, h') /\
    ph_calls h' = ph_calls h ++ mjoin (entry_calls true vd (is_own override) <$> ps.*2) /\
    forall p, p ∈ owned (p_blocks l) -> ph_items h' !! p = None.
End Promise.

(** a preallocated list is a sequence of live and dead entries, whatever
    its blocks: appending adds a live entry at the end or, only if memory is
    exhausted, changes nothing; an index yields the address of the live entry
    at that position and NULL out of range; deleting a live item turns it into
    a dead one in place, with its destructor called exactly once, now or when
    the list is compacted or destroyed, and deleting it again fails; compacting
    leaves exactly the live values, in order, and calls the destructors of the
    dead entries, or fails and changes nothing; destroying frees all items. *)
Theorem prealloc_operations_refine {V D} (h : pheap V D) l ps value i d defer vd override fuel :
  prep (ph_items h) l ps -> (length (live ps) <= fuel)%nat ->
  append_promise h l ps value /\
  prealloc_list_get_item l i h = Some (if i <? 0 then None else fst <$> live ps !! Z.to_nat i, h) /\
  delete_promise h l ps d defer /\ compact_promise fuel h l ps vd override /\ destroy_promise h l ps vd override.
Proof.
  intros Hr Hfuel. split; [|split; [by apply prealloc_list_get_item_run|split; [split|split]]].
  - destruct (prealloc_list_append_run h l ps value Hr) as (ok & l' & m' & e' & E & Ha & _ & _ & Hok). eexists ok, l', _.
    split; [exact E|]. split; [done|]. split; [intros H; by apply Ha|]. destruct ok; [done|]. by destruct Hok as [-> ->].
  - intros ps1 p v ps2 ->. destruct (prealloc_list_delete_item_run h l ps1 p v ps2 d defer Hr) as (l' & m' & E & Hr' & _).
    eexists l', _. split; [exact E|]. by split.
  - intros p v d'. by apply prealloc_list_delete_dead_run.
  - destruct (prealloc_list_compact_run fuel h l ps vd override Hr Hfuel) as (ok & l' & h' & E & Ha & _ & _ & Hc). exists ok, l', h'.
    split; [exact E|]. split; [intros H; by apply Ha|done].
  - destruct (destroy_preallocated_list_run h l ps vd override Hr) as (m' & E & _ & Hn). eexists. split; [exact E|]. by split.
Qed.

(** A list with two live entries and a deleted one between them. *)
Lemma demo_prealloc :
  exists (h : pheap nat nat) l ps, prep (ph_items h) l ps /\ env_alloc (ph_env h) = [] /\
    ps.*2 = [Live (Some 1%nat); Dead (Some 2%nat) (Some 7%nat); Live (Some 3%nat)].
Proof.
  destruct (create_preallocated_list_run (mkPHeap ∅ [] calm : pheap nat nat)) as (r & h0 & _ & _ & Ha & Hr).
  destruct (Ha eq_refl) as [He Hl]. destruct r as [l0|]; [|done]. destruct Hr as [Hr _]. clear Ha Hl.
  assert (forall h l ps v, prep (ph_items h) l ps -> env_alloc (ph_env h) = [] ->
    exists (h' : pheap nat nat) l' item, prep (ph_items h') l' (ps ++ [(item, Live v)]) /\ env_alloc (ph_env h') = []) as Hadd.
  { intros h l ps v Hr' He'. destruct (prealloc_list_append_run h l ps v Hr') as (ok & l' & m' & e' & _ & Ha & _ & _ & Hok).
    destruct (Ha He') as [? ->]. destruct Hok as (item & _ & ?). by exists (mkPHeap m' (ph_calls h) e'), l', item. }
  destruct (Hadd _ _ _ (Some 1%nat) Hr He) as (h1 & l1 & i1 & Hr1 & He1).
  destruct (Hadd _ _ _ (Some 2%nat) Hr1 He1) as (h2 & l2 & i2 & Hr2 & He2).
  destruct (Hadd _ _ _ (Some 3%nat) Hr2 He2) as (h3 & l3 & i3 & Hr3 & He3).
  destruct (prealloc_list_delete_item_run h3 l3 [(i1, Live (Some 1%nat))] i2 (Some 2%nat) [(i3, Live (Some 3%nat))] (Some 7%nat) true Hr3)
    as (l4 & m4 & _ & Hr4 & _).
  eexists (mkPHeap m4 [] (ph_env h3)), l4, _. split; [exact Hr4|]. by split.
Qed.

Lemma prealloc_operations_refine_witness :
  exists (h : pheap nat nat) l ps, ps.*2 = [Live (Some 1%nat); Dead (Some 2%nat) (Some 7%nat); Live (Some 3%nat)] /\
    append_promise h l ps (Some 4%nat) /\
    prealloc_list_get_item l 1 h = Some (if 1 <? 0 then None else fst <$> live ps !! Z.to_nat 1, h) /\
    delete_promise h l ps None false /\ compact_promise 3 h l ps (Some 9%nat) PREALLOC_LIST_CALL_DEFERRED_DESTRUCTORS /\
    destroy_promise h l ps (Some 9%nat) PREALLOC_LIST_CALL_DEFERRED_DESTRUCTORS.
Proof.
  destruct demo_prealloc as (h & l & ps & Hr & _ & Hps). exists h, l, ps. split; [exact Hps|].
  apply prealloc_operations_refine; [exact Hr|].
  destruct ps as [|[? ?] [|[? ?] [|[? ?] [|]]]]; try discriminate Hps. injection Hps as -> -> ->. simpl. lia.
Defined.

(** * Resources do not become scarcer *)

Section Calmer.
Context {V D : Type}.

Definition calmer_heap (h h' : pheap V D) : Prop := calmer (ph_env h) (ph_env h').

#[export] Instance calmer_heap_preorder : PreOrder calmer_heap.
Proof. split; [by intros h|]. intros h1 h2 h3. unfold calmer_heap. apply transitivity. Qed.

Lemma heap_load p : respects calmer_heap (p_load p).
Proof. intros h it h'. unfold p_load. destruct (ph_items h !! p); simpl; [|done]. by intros [= _ <-]. Qed.

Lemma heap_update p f : respects calmer_heap (p_update p f).
Proof. intros h it h'. unfold p_update. destruct (ph_items h !! p); simpl; [|done]. by intros [= _ <-]. Qed.

Lemma heap_env {A} (m : M env A) : respects calmer m -> respects calmer_heap (p_env m).
Proof. by apply respects_zoom. Qed.

Lemma heap_call d v : respects calmer_heap (p_call d v).
Proof. by apply respects_modify. Qed.

Lemma heap_zmalloc n : respects calmer_heap (p_env (zmalloc n)).
Proof. apply heap_env. unfold zmalloc. respects_step. Qed.

#[local] Hint Resolve heap_load heap_update heap_call heap_zmalloc : respects.

Lemma heap_alloc_items n : respects calmer_heap (alloc_items n).
Proof.
  induction n as [|n IH]; simpl; [apply respects_ret; exact _|]. intros h ps h' (qs & h1 & E & E')%bind_Some.
  injection E' as _ <-. by apply IH in E.
Qed.

#[local] Hint Resolve heap_alloc_items : respects.

Lemma heap_append l v : respects calmer_heap (prealloc_list_append l v).
Proof.
  unfold prealloc_list_append, block_with_room, create_preallocated_list_block, use_item, block_item, when_value. respects_step.
Qed.

Lemma heap_delete l p d defer : respects calmer_heap (prealloc_list_delete_item l p d defer).
Proof. unfold prealloc_list_delete_item, destroy_value, when_value. respects_step. Qed.

Lemma heap_create : respects calmer_heap create_preallocated_list.
Proof. unfold create_preallocated_list, create_preallocated_list_block. respects_step. Qed.
End Calmer.
