(* ===== verification/Protocol.v ===== *)
(** Values on the wire ([protocol.c], [protocol.h]): names of data types, and
    numbers and arrays as text.

    The bits that stand for the data types are those of the X-Plane SDK, floating
    point numbers are represented by the bits of their machine format and printed
    and read by the C library: both are interfaces here. Items of arrays are
    integers of the width of the item. The length of a text does not wrap. *)

From S2P Require Import Prelude CLib Utils Arrays Lists Prealloc.

(** * What the code uses of the SDK and of the C library *)

(** The data types of the SDK are different bits of an [int]. *)
Class DataTypes := {
  xplmType_Int : Z; xplmType_Float : Z; xplmType_Double : Z;
  xplmType_FloatArray : Z; xplmType_IntArray : Z; xplmType_Data : Z;
  xplm_types_positive : Forall (fun t => 0 < t) [xplmType_Int; xplmType_Float; xplmType_Double; xplmType_IntArray; xplmType_FloatArray; xplmType_Data];
  xplm_types_bits : Forall (fun t => t = 2 ^ Z.log2 t) [xplmType_Int; xplmType_Float; xplmType_Double; xplmType_IntArray; xplmType_FloatArray; xplmType_Data];
  xplm_types_different : NoDup [xplmType_Int; xplmType_Float; xplmType_Double; xplmType_IntArray; xplmType_FloatArray; xplmType_Data];
}.

(** [#if xplmType_Unknown != 0 #error]. *)
Definition xplmType_Unknown : Z := 0.

(** [printf] with [%f] and [atof] on the bits of a [double]; conversions between
    [float] and [double]. *)
Class FloatText := {
  print_f : Z -> cstr;
  atof : cstr -> Z;
  double_of_float : Z -> Z;
  float_of_double : Z -> Z;
  print_f_text : forall d, print_f d <> [] /\ no_nul (print_f d) /\ ","%char ∉ print_f d /\ ";"%char ∉ print_f d;
}.

Definition SIZE_XPLM_INT : Z := 4.
Definition SIZE_XPLM_FLOAT : Z := 4.
Definition SIZE_XPLM_DOUBLE : Z := 8.
Definition SIZE_XPLM_INT_FLOAT : Z := SIZE_XPLM_FLOAT.

Definition XPRC_TYPE_INT : cstr := lit "int".
Definition XPRC_TYPE_FLOAT : cstr := lit "float".
Definition XPRC_TYPE_DOUBLE : cstr := lit "double".
Definition XPRC_TYPE_INT_ARRAY : cstr := lit "int[]".
Definition XPRC_TYPE_FLOAT_ARRAY : cstr := lit "float[]".
Definition XPRC_TYPE_BLOB : cstr := lit "blob".
Definition XPRC_TYPE_SEPARATOR : ascii := ",".
Definition XPRC_TYPE_SEPARATOR_LENGTH : Z := 1.
Definition XPRC_ARRAY_ITEM_SEPARATOR : ascii := ",".

Section Types.
Context `{DataTypes}.

Definition has_type (types type : Z) : bool := negb (Z.land types type =? 0).

Definition xprc_parse_type (s : cstr) (count : Z) : Z :=
  if (count =? 3) && strncmp_eq (lit "int") s count then xplmType_Int
  else if (count =? 5) && strncmp_eq (lit "float") s count then xplmType_Float
  else if (count =? 6) && strncmp_eq (lit "double") s count then xplmType_Double
  else if (count =? 5) && strncmp_eq (lit "int[]") s count then xplmType_IntArray
  else if (count =? 7) && strncmp_eq (lit "float[]") s count then xplmType_FloatArray
  else if (count =? 4) && strncmp_eq (lit "blob") s count then xplmType_Data
  else xplmType_Unknown.

(** The loop of [xprc_parse_types]. [strstr] searches to the end of the text,
    whatever [count]; [fuel] bounds the number of names. *)
Fixpoint parse_types_loop (fuel : nat) (s : cstr) (count types : Z) : Z :=
  match fuel with
  | O => types
  | S fuel' =>
      if count <=? 0 then types
      else
        let '(name, rest) := cut XPRC_TYPE_SEPARATOR s in
        let type_length := match rest with Some _ => strlen name | None => count end in
        let type := xprc_parse_type s type_length in
        if type =? xplmType_Unknown then xplmType_Unknown
        else if has_type types type then xplmType_Unknown
        else
          let types := Z.lor types type in
          match rest with
          | None => types
          | Some s' => parse_types_loop fuel' s' (count - (type_length + XPRC_TYPE_SEPARATOR_LENGTH)) types
          end
  end.

Definition xprc_parse_types (s : option cstr) (count : Z) : Z :=
  match s with
  | None => xplmType_Unknown
  | Some s => parse_types_loop (S (length s)) s count xplmType_Unknown
  end.

(** The text written so far, and whether a name is the first one. *)
Definition encode_types_add (condition : bool) (encoded : cstr) (out : cstr * bool) : cstr * bool :=
  if negb condition then out
  else
    let '(text, is_first) := out in
    ((if is_first then text else text ++ [XPRC_TYPE_SEPARATOR]) ++ encoded, false).

(** The counts and the text that [xprc_encode_types] computes from its flags. *)
Definition count_if (b : bool) (n : Z) : Z := if b then n else 0.
Definition num_types (is_int is_float is_double is_int_array is_float_array is_blob : bool) : Z :=
  count_if is_int 1 + count_if is_float 1 + count_if is_double 1
  + count_if is_float_array 1 + count_if is_int_array 1 + count_if is_blob 1.
Definition types_length (is_int is_float is_double is_int_array is_float_array is_blob : bool) : Z :=
  count_if is_int (strlen XPRC_TYPE_INT) + count_if is_float (strlen XPRC_TYPE_FLOAT)
  + count_if is_double (strlen XPRC_TYPE_DOUBLE) + count_if is_float_array (strlen XPRC_TYPE_FLOAT_ARRAY)
  + count_if is_int_array (strlen XPRC_TYPE_INT_ARRAY) + count_if is_blob (strlen XPRC_TYPE_BLOB)
  + (num_types is_int is_float is_double is_int_array is_float_array is_blob - 1) * XPRC_TYPE_SEPARATOR_LENGTH.
Definition add_types (is_int is_float is_double is_int_array is_float_array is_blob : bool) : cstr :=
  let out := ([], true) in
  let out := encode_types_add is_int XPRC_TYPE_INT out in
  let out := encode_types_add is_float XPRC_TYPE_FLOAT out in
  let out := encode_types_add is_double XPRC_TYPE_DOUBLE out in
  let out := encode_types_add is_int_array XPRC_TYPE_INT_ARRAY out in
  let out := encode_types_add is_float_array XPRC_TYPE_FLOAT_ARRAY out in
  let out := encode_types_add is_blob XPRC_TYPE_BLOB out in
  out.1.

Definition xprc_encode_types (types : Z) : M env (option cstr) :=
  let is_int := has_type types xplmType_Int in
  let is_float := has_type types xplmType_Float in
  let is_double := has_type types xplmType_Double in
  let is_float_array := has_type types xplmType_FloatArray in
  let is_int_array := has_type types xplmType_IntArray in
  let is_blob := has_type types xplmType_Data in
  if num_types is_int is_float is_double is_int_array is_float_array is_blob <=? 0 then mret None
  else
    let length := types_length is_int is_float is_double is_int_array is_float_array is_blob in
    ok ← zmalloc (length + 1);
    if negb ok then mret None
    else mret (Some (take (Z.to_nat length) (add_types is_int is_float is_double is_int_array is_float_array is_blob))).

Definition simple_types : Z := Z.lor (Z.lor xplmType_Int xplmType_Float) xplmType_Double.
Definition array_types : Z := Z.lor (Z.lor xplmType_IntArray xplmType_FloatArray) xplmType_Data.
Definition supported_types : Z := Z.lor simple_types array_types.
End Types.

Section Values.
Context `{DataTypes} `{FloatText}.

(** The formatted items of [xprc_encode_array], with their separators. *)
Definition format_item (type : Z) (item : Z) : cstr :=
  if type =? xplmType_IntArray then XPRC_ARRAY_ITEM_SEPARATOR :: print_dec item
  else if type =? xplmType_FloatArray then XPRC_ARRAY_ITEM_SEPARATOR :: print_f (double_of_float item)
  else print_02X item.

Definition format_length (type : Z) (length : Z) : cstr :=
  print_dec length ++ (if type =? xplmType_Data then [XPRC_ARRAY_ITEM_SEPARATOR] else []).

Abbreviation EM := (M (pheap cstr unit)).

(** [dynamic_sprintf] and [prealloc_list_append]; the text is lost if it cannot
    be appended. *)
Definition append_formatted (list : prealloc_list_t) (text : cstr) : EM (bool * prealloc_list_t) :=
  s ← p_env (dynamic_sprintf text);
  match s with
  | None => mret (false, list)
  | Some s => prealloc_list_append list (Some s)
  end.

Fixpoint append_items (type : Z) (items : list Z) (list : prealloc_list_t) : EM (bool * prealloc_list_t) :=
  match items with
  | [] => mret (true, list)
  | item :: items' =>
      '(ok, list) ← append_formatted list (format_item type item);
      if negb ok then mret (false, list) else append_items type items' list
  end.

(** The loop that copies all texts to the output; a NULL text is undefined. *)
Fixpoint concatenate (fuel : nat) (item : option loc) : EM cstr :=
  match item with
  | None => mret []
  | Some p =>
      match fuel with
      | O => ub
      | S fuel' =>
          it ← p_load p;
          s ← from_ub (p_value it);
          rest ← concatenate fuel' (p_next it);
          mret (s ++ rest)
      end
  end.

(** The destructor [free]. *)
Definition free_text : option unit := Some tt.

Definition xprc_encode_array (type : Z) (arr : option (dynamic_array_t Z)) : EM (option cstr) :=
  match arr with
  | None => mret None
  | Some arr =>
      if negb (type =? xplmType_IntArray) && negb (type =? xplmType_FloatArray) && negb (type =? xplmType_Data) then mret None
      else if arr_length arr =? 0 then p_env (copy_string (Some (lit "0")))
      else
        list ← create_preallocated_list;
        match list with
        | None => mret None
        | Some list =>
            '(ok, list) ← append_formatted list (format_length type (arr_length arr));
            '(ok, list) ← (if negb ok then mret (false, list) else append_items type (contents arr) list);
            if negb ok then
              _ ← destroy_preallocated_list list free_text PREALLOC_LIST_CALL_DEFERRED_DESTRUCTORS;
              mret None
            else
              texts ← concatenate (S (Z.to_nat (arr_length arr))) (p_first list);
              out ← p_env (zmalloc (strlen texts + 1));
              _ ← destroy_preallocated_list list free_text PREALLOC_LIST_CALL_DEFERRED_DESTRUCTORS;
              mret (if out : bool then Some texts else None)
        end
  end.

(** [value] is what the pointer points to. *)
Definition xprc_encode_value (type : Z) (value : option Z) (value_size : Z) : M env (option cstr) :=
  match value with
  | None => mret None
  | Some value =>
      if value_size <? 1 then mret None
      else if (type =? xplmType_Int) && (value_size =? SIZE_XPLM_INT) then dynamic_sprintf (print_dec value)
      else if (type =? xplmType_Float) && (value_size =? SIZE_XPLM_FLOAT) then dynamic_sprintf (print_f (double_of_float value))
      else if (type =? xplmType_Double) && (value_size =? SIZE_XPLM_DOUBLE) then dynamic_sprintf (print_f value)
      else mret None
  end.

Definition parse_nibble (ch : ascii) : option Z :=
  if in_range "0" "9" ch then Some (code ch - code "0")
  else if in_range "A" "F" ch then Some (10 + (code ch - code "A"))
  else if in_range "a" "f" ch then Some (10 + (code ch - code "a"))
  else None.

(** [Some v]: success, [v] is stored; [None]: nothing is stored. *)
Definition xprc_parse_value (s : option cstr) (count type value_size : Z) : M env (option Z) :=
  match s with
  | None => mret None
  | Some s =>
      if count <? 1 then mret None
      else if negb (Z.land type (Z.lnot supported_types) =? 0) then mret None
      else if ((type =? xplmType_Int) || (type =? xplmType_IntArray)) && (SIZE_XPLM_INT <=? value_size) then
        tmp ← copy_partial_string (Some s) count;
        mret (atoi <$> tmp)
      else if ((type =? xplmType_Float) || (type =? xplmType_FloatArray)) && (SIZE_XPLM_FLOAT <=? value_size) then
        tmp ← copy_partial_string (Some s) count;
        mret ((fun tmp => float_of_double (atof tmp)) <$> tmp)
      else if (type =? xplmType_Double) && (SIZE_XPLM_DOUBLE <=? value_size) then
        tmp ← copy_partial_string (Some s) count;
        mret (atof <$> tmp)
      else if (type =? xplmType_Data) && (1 <=? value_size) && (count =? 2) then
        match parse_nibble (char_at s 0) with
        | None => mret None
        | Some high =>
            match parse_nibble (char_at s 1) with
            | None => mret None
            | Some low => mret (Some (wrap_u 8 (wrap_u 8 (Z.shiftl high 4) + low)))
            end
        end
      else mret None
  end.

(** The loop over the items of an array, from the separator at
    [offset_separator] on; [fuel] bounds the number of items. Returns the number
    of items and the array, or [None] on failure. *)
Fixpoint parse_items (fuel : nat) (s : cstr) (count type offset_separator next_offset_separator i : Z) (arr : dynamic_array_t Z)
  : M env (option (Z * dynamic_array_t Z)) :=
  if (offset_separator + 1 <? count) && (0 <=? next_offset_separator) then
    match fuel with
    | O => ub
    | S fuel' =>
        let '(next_offset_separator, item_length) :=
          if type =? xplmType_Data then
            let next := offset_separator + 2 in
            ((if count <=? next + 1 then -1 else next), 2)
          else
            let next := strpos (Some s) (Some [XPRC_ARRAY_ITEM_SEPARATOR]) (offset_separator + 1) in
            (next, (if offset_separator <? next then next else count) - offset_separator - 1) in
        if negb (type =? xplmType_Data) && (item_length <? 1) then mret None
        else
          match dynamic_array_get_pointer arr i with
          | None => mret None
          | Some dest =>
              value ← xprc_parse_value (Some (drop (Z.to_nat (offset_separator + 1)) s)) item_length type (arr_item_size arr);
              match value with
              | None => mret None
              | Some value =>
                  parse_items fuel' s count type next_offset_separator next_offset_separator (i + 1)
                    (set_data (overwrite dest [value] (arr_data arr)) arr)
              end
          end
    end
  else mret (Some (i, arr)).

(** Is the announced length wrong? *)
Definition bad_array_length (type count num_separators offset_separator arr_length : Z) : bool :=
  if type =? xplmType_Data then
    let blob_strlen := count - offset_separator - 1 in
    let blob_length := Z.quot blob_strlen 2 in
    negb (blob_length =? arr_length) || negb (Z.rem blob_strlen 2 =? 0)
  else
    (arr_length <? 0) || (negb (arr_length =? 0) && negb (arr_length =? num_separators))
    || ((arr_length =? 0) && ((1 <? num_separators) || (2 <? count))).

Definition xprc_parse_array (s : option cstr) (count type : Z) : M env (option (dynamic_array_t Z)) :=
  match s with
  | None => mret None
  | Some s =>
      if count <? 1 then mret None
      else if negb (Z.land type (Z.lnot array_types) =? 0) then mret None
      else
        let item_size := if type =? xplmType_Data then 1 else SIZE_XPLM_INT_FLOAT in
        let num_separators := count_chars (Some s) XPRC_ARRAY_ITEM_SEPARATOR count in
        if num_separators <? 0 then mret None
        else
          let offset_separator := strpos (Some s) (Some [XPRC_ARRAY_ITEM_SEPARATOR]) 0 in
          if (offset_separator =? 0) || (count <? offset_separator) then mret None
          else
            let item_length := if 0 <? offset_separator then offset_separator else count in
            tmp ← copy_partial_string (Some s) item_length;
            match tmp with
            | None => mret None
            | Some tmp =>
                let arr_length := atoi tmp in
                if bad_array_length type count num_separators offset_separator arr_length then mret None
                else
                  arr ← create_dynamic_array item_size arr_length;
                  match arr with
                  | None => mret None
                  | Some arr =>
                      '(ok, arr) ← dynamic_array_set_length arr arr_length;
                      if negb ok then mret None
                      else if arr_length =? 0 then mret (Some arr)
                      else
                        result ← parse_items (Z.to_nat count) s count type offset_separator 0 0 arr;
                        match result with
                        | None => mret None
                        | Some (i, arr) => mret (if i =? arr_length then Some arr else None)
                        end
                  end
            end
  end.
End Values.

(** * Names of types *)

Section TypeNames.
Context `{DataTypes}.

Definition type_of_name (name : cstr) : Z :=
  if str_eq name XPRC_TYPE_INT then xplmType_Int
  else if str_eq name XPRC_TYPE_FLOAT then xplmType_Float
  else if str_eq name XPRC_TYPE_DOUBLE then xplmType_Double
  else if str_eq name XPRC_TYPE_INT_ARRAY then xplmType_IntArray
  else if str_eq name XPRC_TYPE_FLOAT_ARRAY then xplmType_FloatArray
  else if str_eq name XPRC_TYPE_BLOB then xplmType_Data
  else xplmType_Unknown.

Lemma strncmp_name (k name t : cstr) :
  (strlen name =? strlen k) && strncmp_eq k (name ++ t) (strlen name) = str_eq name k.
Proof.
  unfold strncmp_eq, strlen, str_eq. rewrite Nat2Z.id, take_app_length. destruct (Z.eqb_spec (len name) (len k)) as [E|E]; cbn [andb].
  - rewrite take_ge by lia. by apply bool_decide_ext.
  - rewrite bool_decide_eq_false_2; [done|]. by intros ->.
Qed.

Lemma xprc_parse_type_name name t : xprc_parse_type (name ++ t) (strlen name) = type_of_name name.
Proof. unfold xprc_parse_type, type_of_name. rewrite <-!(strncmp_name _ name t). done. Qed.

(** The types of a list of names; a last empty name is ignored, so that a
    trailing separator is accepted. *)
Fixpoint types_of (names : list cstr) (types : Z) : Z :=
  match names with
  | [] => types
  | name :: names' =>
      if bool_decide (name = [] /\ names' = []) then types
      else
        let type := type_of_name name in
        if (type =? xplmType_Unknown) || has_type types type then xplmType_Unknown else types_of names' (Z.lor types type)
  end.

Lemma parse_types_loop_grammar fuel : forall s types, (length s < fuel)%nat ->
  parse_types_loop fuel s (strlen s) types = types_of (split_on XPRC_TYPE_SEPARATOR s) types.
Proof.
  induction fuel as [|fuel IH]; intros s types Hfuel; [lia|]. cbn [parse_types_loop].
  destruct (strlen s <=? 0) eqn:Hs; bools.
  { destruct s as [|c s]; [|unfold strlen in Hs; simpl in Hs; lia]. done. }
  rewrite split_on_cut. pose proof (cut_spec XPRC_TYPE_SEPARATOR s) as Hcut.
  destruct (cut XPRC_TYPE_SEPARATOR s) as [name [rest|]].
  - subst s. rewrite xprc_parse_type_name. cbn [types_of]. rewrite bool_decide_eq_false_2 by (intros [_ E]; by apply split_on_nonempty in E).
    destruct (type_of_name name =? xplmType_Unknown); [done|]. destruct (has_type types (type_of_name name)); [done|]. cbn [orb].
    rewrite <-IH by llia. f_equal. unfold strlen, XPRC_TYPE_SEPARATOR_LENGTH. llia.
  - subst name. cbn [types_of]. rewrite bool_decide_eq_false_2 by (intros [-> _]; unfold strlen in Hs; simpl in Hs; lia).
    assert (xprc_parse_type s (strlen s) = type_of_name s) as ->.
    { rewrite <-(app_nil_r s) at 1. apply xprc_parse_type_name. }
    destruct (type_of_name s =? xplmType_Unknown); [done|]. cbn [orb types_of]. by destruct (has_type types (type_of_name s)).
Qed.

(** ** Bits of types *)

Definition type_table : list (cstr * Z) :=
  [(XPRC_TYPE_INT, xplmType_Int); (XPRC_TYPE_FLOAT, xplmType_Float); (XPRC_TYPE_DOUBLE, xplmType_Double);
   (XPRC_TYPE_INT_ARRAY, xplmType_IntArray); (XPRC_TYPE_FLOAT_ARRAY, xplmType_FloatArray); (XPRC_TYPE_BLOB, xplmType_Data)].

Definition one_bit (t : Z) : Prop := 0 < t /\ t = 2 ^ Z.log2 t.

Lemma table_bits : Forall one_bit type_table.*2.
Proof.
  pose proof xplm_types_positive as H1. pose proof xplm_types_bits as H2. apply Forall_forall. intros t Ht.
  split; [by eapply Forall_forall in H1|by eapply Forall_forall in H2].
Qed.

Lemma one_bit_testbit t n : one_bit t -> 0 <= n -> Z.testbit t n = (Z.log2 t =? n).
Proof.
  intros [Hp Ht] Hn. rewrite Ht at 1. pose proof (Z.log2_nonneg t).
  destruct (Z.eqb_spec (Z.log2 t) n) as [<-|]; [by apply Z.pow2_bits_true|by apply Z.pow2_bits_false].
Qed.

Lemma has_type_bit types t : one_bit t -> has_type types t = Z.testbit types (Z.log2 t).
Proof.
  intros Ht. unfold has_type. pose proof (Z.log2_nonneg t). destruct (Z.testbit types (Z.log2 t)) eqn:E.
  - apply negb_true_iff, Z.eqb_neq. intros E0. apply (f_equal (fun x => Z.testbit x (Z.log2 t))) in E0.
    rewrite Z.land_spec, E, Z.bits_0, (one_bit_testbit t), Z.eqb_refl in E0 by done. done.
  - apply negb_false_iff, Z.eqb_eq, Z.bits_inj'. intros n Hn. rewrite Z.land_spec, Z.bits_0, (one_bit_testbit t) by done.
    destruct (Z.eqb_spec (Z.log2 t) n) as [<-|]; [by rewrite E|by rewrite andb_false_r].
Qed.

Definition all_of (types : Z) (ts : list Z) : Z := foldl Z.lor types ts.

Lemma all_of_testbit ts n : forall types, Forall one_bit ts -> 0 <= n ->
  Z.testbit (all_of types ts) n = Z.testbit types n || existsb (fun t => Z.log2 t =? n) ts.
Proof.
  induction ts as [|t ts IH]; intros types Hb Hn; simpl; [by rewrite orb_false_r|]. apply Forall_cons in Hb as [Ht Hb].
  unfold all_of in *. simpl. by rewrite IH, Z.lor_spec, (one_bit_testbit t), orb_assoc by done.
Qed.

(** A list of different names yields all of their types. *)
Lemma types_of_names l : forall types,
  Forall (fun p => type_of_name p.1 = p.2 /\ p.1 <> [] /\ one_bit p.2) l -> NoDup l.*2 ->
  (forall p, p ∈ l -> has_type types p.2 = false) -> types_of l.*1 types = all_of types l.*2.
Proof.
  induction l as [|[name t] l IH]; intros types Hl Hnd Hno; [done|]. apply Forall_cons in Hl as [(Hn & Hne & Ht) Hl].
  rewrite fmap_cons in Hnd. apply NoDup_cons in Hnd as [Htl Hnd]. cbn [fst snd] in *. rewrite !fmap_cons. cbn [types_of fst].
  rewrite bool_decide_eq_false_2 by by intros [??]. rewrite Hn. pose proof (Hno (name, t) ltac:(left)) as Hno1. simpl in Hno1. rewrite Hno1.
  assert ((t =? xplmType_Unknown) = false) as -> by (apply Z.eqb_neq; unfold xplmType_Unknown; destruct Ht; lia). cbn [orb].
  rewrite IH; [done|done|done|]. intros p Hp. eapply Forall_forall in Hl as (_ & _ & Hpb); [|exact Hp].
  rewrite has_type_bit, Z.lor_spec by done. rewrite <-has_type_bit, Hno by (done || by right). cbn [orb].
  rewrite one_bit_testbit by (done || apply Z.log2_nonneg). apply Z.eqb_neq. intros E. apply Htl.
  assert (t = p.2) as -> by (destruct Ht as [_ ->], Hpb as [_ ->]; by rewrite E). by apply list_elem_of_fmap_2.
Qed.

Definition selected (types : Z) : list (cstr * Z) := filter (fun p => has_type types p.2 = true) type_table.
Definition types_text (types : Z) : cstr := join XPRC_TYPE_SEPARATOR (selected types).*1.

Lemma table_names : Forall (fun p => type_of_name p.1 = p.2 /\ p.1 <> [] /\ one_bit p.2) type_table.
Proof.
  pose proof table_bits as Hb. unfold type_table in *. simpl in Hb. repeat (apply Forall_cons in Hb as [? Hb]).
  repeat (apply Forall_cons; split; [by split|]). constructor.
Qed.

(** The bits of the selected names of a table. *)
Lemma selected_bits types n l : 0 <= n -> Forall one_bit l.*2 ->
  existsb (fun t => Z.log2 t =? n) (filter (fun p : cstr * Z => has_type types p.2 = true) l).*2 =
  Z.testbit types n && existsb (fun t => Z.log2 t =? n) l.*2.
Proof.
  intros Hn. induction l as [|[name t] l IH]; intros Hb; [by rewrite andb_false_r|].
  rewrite fmap_cons in *. apply Forall_cons in Hb as [Ht Hb]. rewrite filter_cons. cbn [snd existsb] in *.
  rewrite andb_orb_distrib_r, <-IH by done. pose proof (has_type_bit types t Ht) as Hbit.
  destruct (decide (has_type types t = true)) as [Hh|Hh]; [rewrite fmap_cons; cbn [existsb snd]|];
    (destruct (Z.eqb_spec (Z.log2 t) n) as [<-|]; [|by rewrite andb_false_r]); rewrite <-Hbit.
  - by rewrite Hh.
  - by apply not_true_is_false in Hh as ->.
Qed.

Lemma all_selected types : all_of 0 (selected types).*2 = Z.land types supported_types.
Proof.
  assert (Forall one_bit (selected types).*2) as Hs.
  { apply Forall_forall. intros t (p & -> & [_ Hp]%list_elem_of_filter)%list_elem_of_fmap.
    eapply Forall_forall; [exact table_bits|by apply list_elem_of_fmap_2]. }
  apply Z.bits_inj'. intros n Hn. rewrite all_of_testbit, Z.bits_0, Z.land_spec by done. cbn [orb].
  assert (Z.testbit supported_types n = existsb (fun t => Z.log2 t =? n) type_table.*2) as ->.
  { pose proof table_bits as Hb. unfold supported_types, simple_types, array_types. rewrite !Z.lor_spec. simpl in Hb.
    repeat (apply Forall_cons in Hb as [? Hb]). rewrite !one_bit_testbit by done. simpl. by rewrite !orb_assoc, orb_false_r. }
  apply selected_bits; [done|exact table_bits].
Qed.

Lemma table_no_separator : Forall (fun p => XPRC_TYPE_SEPARATOR ∉ p.1) type_table.
Proof. repeat (apply Forall_cons; split; [apply (bool_decide_unpack _); by vm_compute|]). constructor. Qed.

Lemma types_text_parses types :
  selected types <> [] -> xprc_parse_types (Some (types_text types)) (strlen (types_text types)) = Z.land types supported_types.
Proof.
  intros Hne. unfold xprc_parse_types. rewrite parse_types_loop_grammar by lia. unfold types_text. rewrite split_on_join.
  - rewrite types_of_names; [apply all_selected| | |].
    + apply Forall_forall. intros p [_ Hp]%list_elem_of_filter. by eapply Forall_forall in Hp; [|exact table_names].
    + pose proof xplm_types_different as Hnd. change (NoDup type_table.*2) in Hnd. unfold selected.
      induction type_table as [|p l IH]; [constructor|]. rewrite fmap_cons in Hnd. apply NoDup_cons in Hnd as [Hp Hnd].
      rewrite filter_cons. case_decide; [|by apply IH]. rewrite fmap_cons. apply NoDup_cons. split; [|by apply IH].
      intros (q & Hq & [_ Hin]%list_elem_of_filter)%list_elem_of_fmap. apply Hp. rewrite Hq. by apply list_elem_of_fmap_2.
    + intros p _. unfold has_type. by rewrite Z.land_0_l.
  - intros E. by apply fmap_nil_inv in E.
  - apply Forall_forall. intros s (p & -> & [_ Hp]%list_elem_of_filter)%list_elem_of_fmap.
    by eapply Forall_forall in Hp; [|exact table_no_separator].
Qed.

Definition names_if (is_int is_float is_double is_int_array is_float_array is_blob : bool) : list cstr :=
  let name (b : bool) (s : cstr) := if b then [s] else [] in
  name is_int XPRC_TYPE_INT ++ name is_float XPRC_TYPE_FLOAT ++ name is_double XPRC_TYPE_DOUBLE
  ++ name is_int_array XPRC_TYPE_INT_ARRAY ++ name is_float_array XPRC_TYPE_FLOAT_ARRAY ++ name is_blob XPRC_TYPE_BLOB.

Lemma add_types_join b1 b2 b3 b4 b5 b6 :
  add_types b1 b2 b3 b4 b5 b6 = join XPRC_TYPE_SEPARATOR (names_if b1 b2 b3 b4 b5 b6) /\
  (num_types b1 b2 b3 b4 b5 b6 <=? 0) = bool_decide (names_if b1 b2 b3 b4 b5 b6 = []) /\
  (names_if b1 b2 b3 b4 b5 b6 <> [] -> types_length b1 b2 b3 b4 b5 b6 = strlen (join XPRC_TYPE_SEPARATOR (names_if b1 b2 b3 b4 b5 b6))).
Proof.
  destruct b1, b2, b3, b4, b5, b6; (split; [vm_compute; reflexivity|split; [vm_compute; reflexivity|]]); intros Hne;
    first [vm_compute; reflexivity|by destruct Hne].
Qed.

Lemma selected_names types :
  (selected types).*1 = names_if (has_type types xplmType_Int) (has_type types xplmType_Float) (has_type types xplmType_Double)
    (has_type types xplmType_IntArray) (has_type types xplmType_FloatArray) (has_type types xplmType_Data).
Proof.
  assert (forall name t l, (filter (fun p : cstr * Z => has_type types p.2 = true) ((name, t) :: l)).*1 =
    (if has_type types t then [name] else []) ++ (filter (fun p : cstr * Z => has_type types p.2 = true) l).*1) as Hcons.
  { intros name t l. rewrite filter_cons. cbn [snd]. by destruct (has_type types t). }
  unfold selected, type_table, names_if. rewrite !Hcons. cbv zeta. by rewrite app_nil_r.
Qed.

Lemma xprc_encode_types_eq types e :
  xprc_encode_types types e =
  if decide (selected types = []) then Some (None, e)
  else Some (if alloc_next e then Some (types_text types) else None, alloc_rest e).
Proof.
  unfold xprc_encode_types, types_text. pose proof (selected_names types) as Hn.
  destruct (add_types_join (has_type types xplmType_Int) (has_type types xplmType_Float) (has_type types xplmType_Double)
    (has_type types xplmType_IntArray) (has_type types xplmType_FloatArray) (has_type types xplmType_Data)) as (Hadd & Hnum & Hlen).
  rewrite <-Hn in *. rewrite Hnum, Hadd. destruct (decide (selected types = [])) as [E|Hne].
  - rewrite bool_decide_eq_true_2; [done|]. by rewrite E.
  - assert ((selected types).*1 <> []) as Hne' by (intros E; by apply fmap_nil_inv in E).
    rewrite bool_decide_eq_false_2, Hlen by done. erewrite bind_eq by (apply zmalloc_eq; unfold strlen; lia).
    destruct (alloc_next e); red_if; [|done]. unfold strlen. by rewrite Nat2Z.id, firstn_all.
Qed.
End TypeNames.

(** [xprc_encode_types] writes a listing of all data types in the given
    bits (NULL if there are none, or no memory), and [xprc_parse_types] reads
    exactly these types back from it; in general, parsing reads the types of the
    names between separators and rejects unknown and repeated names, where a
    separator at the very end is accepted. *)
Theorem types_roundtrip `{DataTypes} (types : Z) (e : env) :
  (forall s, xprc_parse_types (Some s) (strlen s) = types_of (split_on XPRC_TYPE_SEPARATOR s) xplmType_Unknown) /\
  match xprc_encode_types types e with
  | Some (Some text, _) => xprc_parse_types (Some text) (strlen text) = Z.land types supported_types
  | Some (None, _) => Z.land types supported_types = 0 \/ alloc_next e = false
  | None => False
  end.
Proof.
  split; [intros s; apply parse_types_loop_grammar; lia|]. rewrite xprc_encode_types_eq. case_decide as Hs.
  - left. by rewrite <-all_selected, Hs.
  - destruct (alloc_next e); [by apply types_text_parses|by right].
Qed.

(** * Arrays *)

Section Encoding.
Context `{DataTypes} `{FloatText}.
Implicit Types (h : pheap cstr unit) (ps : list (loc * entry (V := cstr) (D := unit))).

Definition is_array_type (type : Z) : Prop := type = xplmType_IntArray \/ type = xplmType_FloatArray \/ type = xplmType_Data.

(** The text of an array. *)
Definition array_text (type : Z) (xs : list Z) : cstr :=
  match xs with
  | [] => lit "0"
  | _ => format_length type (len xs) ++ mjoin (format_item type <$> xs)
  end.

Lemma format_item_nonempty type x : format_item type x <> [].
Proof. unfold format_item. by destruct (type =? xplmType_IntArray), (type =? xplmType_FloatArray). Qed.

Lemma format_length_nonempty type n : format_length type n <> [].
Proof. unfold format_length. intros E. apply app_eq_nil in E as [E _]. by apply print_dec_nonempty in E. Qed.

(** The texts in a list. *)
Definition texts_are ps (texts : list cstr) : Prop := (live ps).*2 = Some <$> texts.

(** A list that was made after the heap was [m0]. *)
Definition newer (m0 m : gmap loc (prealloc_list_item_t cstr unit)) (l : prealloc_list_t) : Prop :=
  (forall q, is_Some (m0 !! q) -> m !! q = m0 !! q) /\ (forall q, q ∈ owned (p_blocks l) -> m0 !! q = None).

Lemma newer_append m0 m m' l l' : newer m0 m l -> elsewhere_same m m' (p_blocks l) -> grows m l l' -> newer m0 m' l'.
Proof.
  intros [Hs Hn] He Hg. split.
  - intros q Hq. rewrite He; [by apply Hs|rewrite Hs by done; done|]. intros Hin. rewrite (Hn q Hin) in Hq. by destruct Hq.
  - intros q Hin. destruct (Hg q Hin) as [?|Hm]; [by apply Hn|]. destruct (m0 !! q) eqn:E; [|done]. rewrite Hs in Hm by (rewrite E; by eexists). congruence.
Qed.

Lemma calmer_alloc_rest e : calmer e (alloc_rest e).
Proof. split; [apply plenty_rest|done]. Qed.

Lemma append_formatted_run h l ps texts text :
  prep (ph_items h) l ps -> texts_are ps texts -> text <> [] ->
  exists ok l' ps' h', append_formatted l text h = Some ((ok, l'), h') /\ prep (ph_items h') l' ps' /\
    (env_alloc (ph_env h) = [] -> env_alloc (ph_env h') = [] /\ ok = true) /\ (ok = true -> texts_are ps' (texts ++ [text])) /\
    (forall m0, newer m0 (ph_items h) l -> newer m0 (ph_items h') l') /\ calmer (ph_env h) (ph_env h').
Proof.
  intros Hr Ht Hne. unfold append_formatted. pose proof (p_env_eq (dynamic_sprintf text) h _ _ (dynamic_sprintf_eq text (ph_env h) Hne)) as E1.
  set (e1 := alloc_rest (ph_env h)) in *. assert (env_alloc (ph_env h) = [] -> env_alloc e1 = [] /\ alloc_next (ph_env h) = true) as Ha1.
  { intros Ha. unfold e1, alloc_rest, alloc_next. simpl. by rewrite Ha. }
  erewrite bind_eq by exact E1. destruct (alloc_next (ph_env h)).
  - destruct (prealloc_list_append_run (mkPHeap (ph_items h) (ph_calls h) e1) l ps (Some text) Hr)
      as (ok & l' & m' & e' & E & Ha & Hs & Hg & Hok).
    exists ok, l', (if ok then ps ++ [(default xH (p_last l'), Live (Some text))] else ps). eexists. split; [exact E|].
    assert (forall m0, newer m0 (ph_items h) l -> newer m0 m' l') as Hnew by (intros m0 Hm0; by apply (newer_append _ _ _ _ _ Hm0)).
    assert (calmer (ph_env h) e') as Hc by (etransitivity; [apply calmer_alloc_rest|exact (heap_append _ _ _ _ _ E)]).
    destruct ok; [destruct Hok as (item & Hl & Hr')|destruct Hok as [-> ->]].
    + rewrite Hl. split; [exact Hr'|]. split; [intros Hal; by apply Ha, Ha1|]. split; [|done]. intros _. unfold texts_are in *.
      by rewrite live_app, !fmap_app, Ht.
    + split; [exact Hr|]. split; [|done]. intros Hal. by apply Ha, Ha1.
  - exists false, l, ps. eexists. split; [done|]. split; [exact Hr|]. split; [intros Hal; by destruct (Ha1 Hal)|]. split; [done|]. split; [done|].
    apply calmer_alloc_rest.
Qed.

Lemma append_items_run type items : forall h l ps texts,
  prep (ph_items h) l ps -> texts_are ps texts ->
  exists ok l' ps' h', append_items type items l h = Some ((ok, l'), h') /\ prep (ph_items h') l' ps' /\
    (env_alloc (ph_env h) = [] -> env_alloc (ph_env h') = [] /\ ok = true) /\
    (ok = true -> texts_are ps' (texts ++ (format_item type <$> items))) /\
    (forall m0, newer m0 (ph_items h) l -> newer m0 (ph_items h') l') /\ calmer (ph_env h) (ph_env h').
Proof.
  induction items as [|x items IH]; intros h l ps texts Hr Ht.
  { exists true, l, ps, h. split; [done|]. split; [done|]. split; [done|]. split; [|done]. intros _. by rewrite app_nil_r. }
  destruct (append_formatted_run h l ps texts (format_item type x) Hr Ht (format_item_nonempty _ _)) as (ok & l1 & ps1 & h1 & E & Hr1 & Ha1 & Ht1 & Hn1 & Hc1).
  cbn [append_items]. erewrite bind_eq by exact E. cbv beta iota. destruct ok; red_if.
  - destruct (IH h1 l1 ps1 _ Hr1 (Ht1 eq_refl)) as (ok & l2 & ps2 & h2 & E2 & Hr2 & Ha2 & Ht2 & Hn2 & Hc2). exists ok, l2, ps2, h2.
    split; [exact E2|]. split; [done|]. split; [intros Hal; by apply Ha2, Ha1|]. split; [|split; [auto|by etransitivity]]. intros Hok. rewrite fmap_cons.
    rewrite (cons_middle (format_item type x)), app_assoc. by apply Ht2.
  - exists false, l1, ps1, h1. split; [done|]. split; [done|]. split; [intros Hal; by destruct (Ha1 Hal)|done].
Qed.

Lemma concatenate_run texts : forall fuel h prev L,
  seg (link <$> ph_items h) prev L None -> L.*2 = Some <$> texts -> (length L <= fuel)%nat ->
  concatenate fuel (first L None) h = Some (mjoin texts, h).
Proof.
  induction texts as [|s texts IH]; intros fuel h prev L Hs Ht Hfuel; destruct L as [|[p v] L]; try done; [by destruct fuel|].
  destruct fuel as [|fuel]; [simpl in Hfuel; lia|]. simpl in Ht. injection Ht as -> Ht. destruct Hs as [Hp Hs].
  rewrite lookup_fmap in Hp. destruct (ph_items h !! p) as [[st w d pr nx]|] eqn:Hit; [|done].
  unfold link in Hp. simpl in Hp. simplify_eq. cbn [first concatenate]. erewrite bind_eq by (apply p_load_eq; exact Hit).
  cbn [p_value p_next]. erewrite bind_eq by done.
  erewrite bind_eq by (apply (IH fuel h (Some p)); [exact Hs|exact Ht|simpl in Hfuel; lia]). done.
Qed.

(** Whatever memory there is, the result is the text of the array or NULL. *)
Lemma xprc_encode_array_run type arr h :
  is_array_type type -> 0 <= arr_length arr -> len (contents arr) = arr_length arr ->
  exists r h', xprc_encode_array type (Some arr) h = Some (r, h') /\ (r = None \/ r = Some (array_text type (contents arr))) /\
    (env_alloc (ph_env h) = [] -> env_alloc (ph_env h') = [] /\ r <> None) /\
    (forall q, is_Some (ph_items h !! q) -> ph_items h' !! q = ph_items h !! q) /\ calmer (ph_env h) (ph_env h').
Proof.
  intros Htype Hpos Hlen. unfold xprc_encode_array.
  assert (negb (type =? xplmType_IntArray) && negb (type =? xplmType_FloatArray) && negb (type =? xplmType_Data) = false) as ->.
  { destruct Htype as [-> |[-> | ->]]; rewrite Z.eqb_refl; by rewrite ?andb_false_r. }
  destruct (arr_length arr =? 0) eqn:Hz; bools.
  { assert (contents arr = []) as -> by (apply nil_length_inv; lia).
    eexists _, _. split; [apply p_env_eq, copy_string_eq; apply (bool_decide_unpack _); by vm_compute|].
    assert (forall q, is_Some (ph_items h !! q) -> ph_items h !! q = ph_items h !! q) as Hsame by done.
    destruct (alloc_next (ph_env h)) eqn:Hn.
    - split; [right; reflexivity|]. split; [|by split; [|apply calmer_alloc_rest]]. intros Ha. split; [|done]. simpl. by rewrite Ha.
    - split; [by left|]. split; [|by split; [|apply calmer_alloc_rest]]. intros Ha. unfold alloc_next in Hn. by rewrite Ha in Hn. }
  destruct (create_preallocated_list_run h) as (r0 & h0 & E0 & _ & Ha0 & Hr0). erewrite bind_eq by exact E0. pose proof (heap_create _ _ _ E0) as Hc0.
  destruct r0 as [l0|].
  2:{ exists None, h0. split; [done|]. split; [by left|]. rewrite Hr0. split; [|done]. intros Hal. by destruct (Ha0 Hal). }
  destruct Hr0 as (Hr0 & _ & Hnew0 & Hold0). cbv beta iota. assert (newer (ph_items h) (ph_items h0) l0) as Hn0 by by split.
  destruct (append_formatted_run h0 l0 [] [] (format_length type (arr_length arr)) Hr0 eq_refl (format_length_nonempty _ _))
    as (ok1 & l1 & ps1 & h1 & E1 & Hr1 & Ha1 & Ht1 & Hn1 & Hc1).
  erewrite bind_eq by exact E1. cbv beta iota.
  assert (exists ok l2 ps2 h2, (if negb ok1 then mret (false, l1) else append_items type (contents arr) l1) h1 = Some ((ok, l2), h2) /\
    prep (ph_items h2) l2 ps2 /\ (env_alloc (ph_env h1) = [] -> ok1 = true -> env_alloc (ph_env h2) = [] /\ ok = true) /\
    (ok = true -> texts_are ps2 (format_length type (arr_length arr) :: (format_item type <$> contents arr))) /\
    newer (ph_items h) (ph_items h2) l2 /\ calmer (ph_env h) (ph_env h2)) as (ok & l2 & ps2 & h2 & E2 & Hr2 & Ha2 & Ht2 & [Hold2 Hnew2] & Hc2).
  { destruct ok1; red_if.
    - destruct (append_items_run type (contents arr) h1 l1 ps1 _ Hr1 (Ht1 eq_refl)) as (ok & l2 & ps2 & h2 & E2 & Hr2 & Ha2 & Ht2 & Hn2 & Hc2).
      exists ok, l2, ps2, h2. split; [done|]. split; [done|]. split; [auto|]. split; [exact Ht2|]. split; [auto|]. by do 2 (etransitivity; [eassumption|]).
    - exists false, l1, ps1, h1. split_and!; try done; [auto..|by etransitivity]. }
  erewrite bind_eq by exact E2. cbv beta iota.
  assert (env_alloc (ph_env h) = [] -> env_alloc (ph_env h2) = [] /\ ok = true) as Hall.
  { intros Hal. destruct (Ha1 (proj1 (Ha0 Hal))) as [? ->]. by apply Ha2. }
  assert (forall m3, only (ph_items h2) m3 (owned (p_blocks l2)) -> forall q, is_Some (ph_items h !! q) -> m3 !! q = ph_items h !! q) as Hsame.
  { intros m3 Ho q Hq. rewrite Ho; [by apply Hold2|]. intros Hin. rewrite (Hnew2 q Hin) in Hq. by destruct Hq. }
  destruct ok; red_if.
  - specialize (Ht2 eq_refl). rewrite (prep_first _ _ _ Hr2).
    erewrite bind_eq by (eapply concatenate_run; [exact (prep_seg _ _ _ Hr2)|exact Ht2|];
      apply (f_equal length) in Ht2; rewrite !length_fmap in Ht2; simpl in Ht2; rewrite length_fmap in Ht2; lia).
    erewrite bind_eq by (apply p_env_eq, zmalloc_eq; unfold strlen; lia).
    destruct (destroy_preallocated_list_run (mkPHeap (ph_items h2) (ph_calls h2) (alloc_rest (ph_env h2))) l2 ps2 free_text
      PREALLOC_LIST_CALL_DEFERRED_DESTRUCTORS Hr2) as (m3 & E3 & Ho3 & _).
    erewrite bind_eq by exact E3. eexists _, _. split; [done|]. split; [|split; [|split; [by apply Hsame|etransitivity; [exact Hc2|apply calmer_alloc_rest]]]].
    + destruct (alloc_next (ph_env h2)); [right|by left]. unfold array_text. destruct (contents arr); [simpl in Hlen; lia|]. by rewrite Hlen.
    + intros Hal. destruct (Hall Hal) as [Hal2 _]. cbn [ph_env]. unfold alloc_rest, alloc_next. simpl. by rewrite Hal2.
  - destruct (destroy_preallocated_list_run h2 l2 ps2 free_text PREALLOC_LIST_CALL_DEFERRED_DESTRUCTORS Hr2) as (m3 & E3 & Ho3 & _).
    erewrite bind_eq by exact E3. eexists None, _. split; [done|]. split; [by left|]. split; [intros Hal; by destruct (Hall Hal)|]. split; [by apply Hsame|done].
Qed.
End Encoding.

(** ** Reading arrays *)

Section Decoding.
Context `{DataTypes} `{FloatText}.

Lemma types_neq :
  xplmType_IntArray <> xplmType_Int /\ xplmType_FloatArray <> xplmType_Int /\ xplmType_FloatArray <> xplmType_IntArray /\
  xplmType_Data <> xplmType_Int /\ xplmType_Data <> xplmType_Float /\ xplmType_Data <> xplmType_Double /\
  xplmType_Data <> xplmType_IntArray /\ xplmType_Data <> xplmType_FloatArray /\ xplmType_IntArray <> xplmType_Data /\
  xplmType_FloatArray <> xplmType_Data.
Proof.
  pose proof xplm_types_different as Hd. rewrite !NoDup_cons, !not_elem_of_cons in Hd. destruct_and! Hd. repeat split; congruence.
Qed.

Lemma land_lnot_part t u : (forall n, Z.testbit t n = true -> Z.testbit u n = true) -> Z.land t (Z.lnot u) = 0.
Proof.
  intros Hu. apply Z.bits_inj'. intros n Hn. rewrite Z.land_spec, Z.lnot_spec, Z.bits_0 by done.
  destruct (Z.testbit t n) eqn:E; [|done]. by rewrite (Hu n E).
Qed.

Lemma array_type_supported type :
  is_array_type type -> Z.land type (Z.lnot array_types) = 0 /\ Z.land type (Z.lnot supported_types) = 0.
Proof.
  intros Ht. split; apply land_lnot_part; intros n Hn; unfold supported_types, simple_types, array_types; rewrite !Z.lor_spec;
    destruct Ht as [-> |[-> | ->]]; rewrite Hn; by rewrite ?orb_true_r.
Qed.

(** ** Single items *)

Lemma parse_int_item y t e : in_int y -> env_alloc e = [] ->
  xprc_parse_value (Some (print_dec y ++ t)) (len (print_dec y)) xplmType_IntArray SIZE_XPLM_INT_FLOAT e = Some (Some y, alloc_rest e).
Proof.
  intros Hy Ha. unfold xprc_parse_value. pose proof (strlen_print_dec_pos y). unfold strlen in *.
  rewrite (proj2 (Z.ltb_ge _ 1)) by lia. rewrite (proj2 (array_type_supported xplmType_IntArray ltac:(by left))). cbn [Z.eqb negb].
  rewrite Z.eqb_refl, orb_true_r. change (SIZE_XPLM_INT <=? SIZE_XPLM_INT_FLOAT) with true. cbn [andb]. cbv iota.
  erewrite bind_eq by apply copy_partial_string_eq. unfold slice. rewrite Nat2Z.id, drop_0, take_app_length.
  unfold alloc_next. rewrite Ha. cbn [head default]. rewrite c_str_id by apply print_dec_no_nul.
  unfold mret, M_ret. simpl. by rewrite atoi_print.
Qed.

Definition float_value (y : Z) : Z := float_of_double (atof (print_f (double_of_float y))).

Lemma parse_float_item y t e : env_alloc e = [] ->
  xprc_parse_value (Some (print_f (double_of_float y) ++ t)) (len (print_f (double_of_float y))) xplmType_FloatArray SIZE_XPLM_INT_FLOAT e =
  Some (Some (float_value y), alloc_rest e).
Proof.
  intros Ha. destruct (print_f_text (double_of_float y)) as (Hne & Hnul & _). destruct types_neq as (_ & H1 & H2 & _).
  set (s := print_f (double_of_float y)) in *. assert (1 <= len s) by (destruct s; [done|simpl; lia]). unfold xprc_parse_value.
  rewrite (proj2 (Z.ltb_ge _ 1)) by lia. rewrite (proj2 (array_type_supported xplmType_FloatArray ltac:(by right; left))). cbn [Z.eqb negb].
  rewrite (proj2 (Z.eqb_neq _ xplmType_Int)), (proj2 (Z.eqb_neq _ xplmType_IntArray)) by done. cbn [orb andb].
  rewrite Z.eqb_refl, orb_true_r. change (SIZE_XPLM_FLOAT <=? SIZE_XPLM_INT_FLOAT) with true. cbn [andb]. cbv iota.
  erewrite bind_eq by apply copy_partial_string_eq. unfold slice. rewrite Nat2Z.id, drop_0, take_app_length.
  unfold alloc_next. rewrite Ha. cbn [head default]. by rewrite c_str_id.
Qed.

Lemma parse_hex_digit d : 0 <= d < 16 -> parse_nibble (hex_digit d) = Some d.
Proof.
  intros Hd. assert (d ∈ seqZ 0 16) as Hin by (apply elem_of_seqZ; lia). revert Hin. clear Hd.
  change (seqZ 0 16) with [0;1;2;3;4;5;6;7;8;9;10;11;12;13;14;15]. rewrite !elem_of_cons, elem_of_nil.
  intros Hin. repeat destruct Hin as [-> |Hin]; try reflexivity. done.
Qed.

Lemma parse_byte_item y t e : 0 <= y < 256 ->
  xprc_parse_value (Some (print_02X y ++ t)) 2 xplmType_Data 1 e = Some (Some y, e).
Proof.
  intros Hy. unfold xprc_parse_value. destruct types_neq as (_ & _ & _ & H1 & H2 & H3 & H4 & H5 & _).
  change (2 <? 1) with false. rewrite (proj2 (array_type_supported xplmType_Data ltac:(by right; right))). cbn [Z.eqb negb].
  rewrite !(proj2 (Z.eqb_neq xplmType_Data _)) by done. cbn [orb andb]. rewrite Z.eqb_refl. cbn [andb Z.leb Z.compare Z.eqb Pos.eqb].
  change (char_at (print_02X y ++ t) 0) with (hex_digit (y / 16)). change (char_at (print_02X y ++ t) 1) with (hex_digit (y mod 16)).
  change (1 <=? 1) with true. cbv iota. rewrite !parse_hex_digit by (Z.div_mod_to_equations; lia). unfold mret, M_ret. do 3 f_equal.
  rewrite Z.shiftl_mul_pow2 by lia. change (2 ^ 4) with 16. unfold wrap_u. change (2 ^ 8) with 256.
  rewrite (Z.mod_small (y / 16 * 16)) by (Z.div_mod_to_equations; lia).
  assert (y = y / 16 * 16 + y mod 16) as E by (Z.div_mod_to_equations; lia). rewrite <-E. by rewrite Z.mod_small by lia.
Qed.

(** ** The loop over the items *)

Lemma pointer_in arr i : 0 <= i < arr_length arr -> dynamic_array_get_pointer (A := Z) arr i = Some i.
Proof. intros Hi. unfold dynamic_array_get_pointer. by rewrite (proj2 (Z.ltb_ge i 0)), (proj2 (Z.leb_gt _ i)) by lia. Qed.

Lemma overwrite_next (stored zs : list Z) z v : overwrite (len stored) [v] (stored ++ z :: zs) = (stored ++ [v]) ++ zs.
Proof.
  unfold overwrite. rewrite Nat2Z.id, take_app_length, <-app_assoc. simpl. do 2 f_equal.
  rewrite Nat.add_1_r. replace (S (length stored)) with (length (stored ++ [z])) by (rewrite length_app; simpl; lia).
  replace (stored ++ z :: zs) with ((stored ++ [z]) ++ zs) by by rewrite <-app_assoc. by rewrite drop_app_length.
Qed.

(** An array of [n] items. *)
Definition filled (item_size n : Z) (data : list Z) : dynamic_array_t Z := mkArray n n item_size data.

(** Arrays whose items are preceded by separators. *)
Section Separated.
Context (type : Z) (text : Z -> cstr) (value : Z -> Z) (P : Z -> Prop).
Context (Hblob : (type =? xplmType_Data) = false).
Context (Hformat : forall y, format_item type y = XPRC_ARRAY_ITEM_SEPARATOR :: text y).
Context (Htext : forall y, text y <> [] /\ no_nul (text y) /\ XPRC_ARRAY_ITEM_SEPARATOR ∉ text y).
Context (Hparse : forall y t e, P y -> env_alloc e = [] ->
  xprc_parse_value (Some (text y ++ t)) (len (text y)) type SIZE_XPLM_INT_FLOAT e = Some (Some (value y), alloc_rest e)).

Lemma format_items_cons y ys : mjoin (format_item type <$> y :: ys) = XPRC_ARRAY_ITEM_SEPARATOR :: text y ++ mjoin (format_item type <$> ys).
Proof. rewrite fmap_cons. simpl. by rewrite Hformat. Qed.

Lemma parse_items_separated ys : forall fuel pre next (stored zs : list Z) e,
  ys <> [] -> 0 <= next -> (length ys <= fuel)%nat -> env_alloc e = [] -> Forall P ys -> length zs = length ys ->
  exists e', parse_items fuel (pre ++ mjoin (format_item type <$> ys)) (strlen (pre ++ mjoin (format_item type <$> ys))) type (len pre) next
      (len stored) (filled SIZE_XPLM_INT_FLOAT (len stored + len ys) (stored ++ zs)) e =
    Some (Some (len stored + len ys, filled SIZE_XPLM_INT_FLOAT (len stored + len ys) (stored ++ (value <$> ys))), e').
Proof.
  induction ys as [|y ys IH]; intros fuel pre next stored zs e Hne Hnext Hfuel Ha HP Hzs; [done|]. clear Hne.
  destruct fuel as [|fuel]; [simpl in Hfuel; lia|]. destruct zs as [|z zs]; [done|]. apply Forall_cons in HP as [HPy HP].
  set (rest := mjoin (format_item type <$> ys)). rewrite format_items_cons. fold rest.
  destruct (Htext y) as (Htne & _ & Htsep). assert (1 <= len (text y)) as Htlen by (destruct (text y); [done|simpl; lia]).
  set (s := pre ++ XPRC_ARRAY_ITEM_SEPARATOR :: text y ++ rest).
  assert (s = (pre ++ [XPRC_ARRAY_ITEM_SEPARATOR]) ++ text y ++ rest) as Hs by (unfold s; by rewrite <-app_assoc).
  assert (strlen s = len pre + 1 + len (text y) + len rest) as Hlen by (unfold strlen, s; llia).
  cbn [parse_items]. rewrite (proj2 (Z.ltb_lt _ _)), (proj2 (Z.leb_le 0 next)) by lia. rewrite Hblob. cbn [andb]. cbv iota zeta.
  set (next' := strpos (Some s) (Some [XPRC_ARRAY_ITEM_SEPARATOR]) (len pre + 1)).
  assert (next' = match ys with [] => -1 | _ => len pre + 1 + len (text y) end) as Hnext'.
  { unfold next'. destruct ys as [|y2 ys].
    - apply strpos_char_none; [lia|]. rewrite Hs. replace (Z.to_nat (len pre + 1)) with (length (pre ++ [XPRC_ARRAY_ITEM_SEPARATOR])) by llia.
      rewrite drop_app_length. unfold rest. simpl. by rewrite app_nil_r.
    - rewrite Hs. unfold rest. rewrite format_items_cons. apply strpos_char_some; [llia|done]. }
  assert ((if len pre <? next' then next' else strlen s) - len pre - 1 = len (text y)) as ->.
  { rewrite Hnext'. destruct ys; [rewrite (proj2 (Z.ltb_ge _ _)) by lia; rewrite Hlen; unfold rest; simpl; lia|].
    rewrite (proj2 (Z.ltb_lt _ _)) by lia. lia. }
  rewrite (proj2 (Z.ltb_ge _ 1)) by lia. cbn [negb andb]. cbv iota.
  rewrite pointer_in by (unfold filled; cbn [arr_length]; llia).
  replace (drop (Z.to_nat (len pre + 1)) s) with (text y ++ rest).
  2:{ rewrite Hs. replace (Z.to_nat (len pre + 1)) with (length (pre ++ [XPRC_ARRAY_ITEM_SEPARATOR])) by llia. by rewrite drop_app_length. }
  erewrite bind_eq by (apply Hparse; done). cbv beta iota.
  assert (set_data (overwrite (len stored) [value y] (arr_data (filled SIZE_XPLM_INT_FLOAT (len stored + len (y :: ys)) (stored ++ z :: zs))))
    (filled SIZE_XPLM_INT_FLOAT (len stored + len (y :: ys)) (stored ++ z :: zs)) =
    filled SIZE_XPLM_INT_FLOAT (len (stored ++ [value y]) + len ys) ((stored ++ [value y]) ++ zs)) as ->.
  { unfold filled, set_data. cbn [arr_data arr_length arr_capacity arr_item_size]. rewrite overwrite_next. f_equal; llia. }
  replace (len stored + 1) with (len (stored ++ [value y])) by llia.
  replace (len stored + len (y :: ys)) with (len (stored ++ [value y]) + len ys) by llia.
  rewrite fmap_cons. replace (stored ++ value y :: (value <$> ys)) with ((stored ++ [value y]) ++ (value <$> ys)) by by rewrite <-app_assoc.
  destruct ys as [|y2 ys].
  - rewrite Hnext'. exists (alloc_rest e). destruct zs; [|done]. rewrite Z.add_0_r.
    destruct fuel; cbn [parse_items]; by rewrite andb_false_r.
  - rewrite Hnext'. replace (len pre + 1 + len (text y)) with (len (pre ++ XPRC_ARRAY_ITEM_SEPARATOR :: text y)) by llia.
    unfold s. replace (pre ++ XPRC_ARRAY_ITEM_SEPARATOR :: text y ++ rest) with ((pre ++ XPRC_ARRAY_ITEM_SEPARATOR :: text y) ++ rest)
      by by rewrite <-app_assoc.
    apply IH; [done|lia|simpl in *; lia|by unfold alloc_rest; simpl; rewrite Ha|done|by injection Hzs].
Qed.
End Separated.

Lemma parse_items_blob ys : forall fuel pre next (stored zs : list Z) e,
  ys <> [] -> pre <> [] -> 0 <= next -> (length ys <= fuel)%nat -> Forall (fun y => 0 <= y < 256) ys -> length zs = length ys ->
  parse_items fuel (pre ++ mjoin (print_02X <$> ys)) (strlen (pre ++ mjoin (print_02X <$> ys))) xplmType_Data (len pre - 1) next
      (len stored) (filled 1 (len stored + len ys) (stored ++ zs)) e =
    Some (Some (len stored + len ys, filled 1 (len stored + len ys) (stored ++ ys)), e).
Proof.
  induction ys as [|y ys IH]; intros fuel pre next stored zs e Hne Hpre Hnext Hfuel HP Hzs; [done|]. clear Hne.
  destruct fuel as [|fuel]; [simpl in Hfuel; lia|]. destruct zs as [|z zs]; [done|]. apply Forall_cons in HP as [HPy HP].
  set (rest := mjoin (print_02X <$> ys)).
  replace (mjoin (print_02X <$> y :: ys)) with (print_02X y ++ rest) by done.
  assert (len rest = 2 * len ys) as Hrest.
  { unfold rest. clear. induction ys as [|y ys IH]; [done|]. rewrite fmap_cons. simpl. simpl in IH. lia. }
  set (s := pre ++ print_02X y ++ rest). assert (strlen s = len pre + 2 + len rest) as Hlen by (unfold strlen, s, print_02X; llia).
  cbn [parse_items]. rewrite (proj2 (Z.ltb_lt _ _)), (proj2 (Z.leb_le 0 next)) by lia. rewrite Z.eqb_refl. cbn [andb negb]. cbv iota zeta.
  rewrite pointer_in by (unfold filled; cbn [arr_length]; llia).
  replace (drop (Z.to_nat (len pre - 1 + 1)) s) with (print_02X y ++ rest).
  2:{ unfold s. replace (Z.to_nat (len pre - 1 + 1)) with (length pre) by lia. by rewrite drop_app_length. }
  erewrite bind_eq by by apply parse_byte_item. cbv beta iota.
  assert (set_data (overwrite (len stored) [y] (arr_data (filled 1 (len stored + len (y :: ys)) (stored ++ z :: zs))))
    (filled 1 (len stored + len (y :: ys)) (stored ++ z :: zs)) = filled 1 (len (stored ++ [y]) + len ys) ((stored ++ [y]) ++ zs)) as ->.
  { unfold filled, set_data. cbn [arr_data arr_length arr_capacity arr_item_size]. rewrite overwrite_next. f_equal; llia. }
  replace (len stored + 1) with (len (stored ++ [y])) by llia.
  replace (len stored + len (y :: ys)) with (len (stored ++ [y]) + len ys) by llia.
  replace (stored ++ y :: ys) with ((stored ++ [y]) ++ ys) by by rewrite <-app_assoc.
  assert (1 <= len pre) by (destruct pre; [done|simpl; lia]). destruct ys as [|y2 ys].
  - rewrite (proj2 (Z.leb_le _ _)) by (rewrite Hlen, Hrest; simpl; lia). destruct zs; [|done]. rewrite Z.add_0_r.
    destruct fuel; cbn [parse_items]; by rewrite andb_false_r.
  - rewrite (proj2 (Z.leb_gt _ _)) by (rewrite Hlen, Hrest; simpl; lia).
    replace (len pre - 1 + 2) with (len (pre ++ print_02X y) - 1) by (unfold print_02X; llia).
    unfold s. replace (pre ++ print_02X y ++ rest) with ((pre ++ print_02X y) ++ rest) by by rewrite <-app_assoc.
    apply IH; [done|by destruct pre|unfold print_02X; llia|simpl in *; lia|done|by injection Hzs].
Qed.

(** ** Whole arrays *)

Lemma new_array_run item_size n e :
  1 <= item_size -> 0 <= n -> env_alloc e = [] ->
  exists e1 arr e2, create_dynamic_array (A := Z) item_size n e = Some (Some arr, e1) /\
    dynamic_array_set_length arr n e1 = Some ((true, filled item_size n (replicate (Z.to_nat n) 0)), e2) /\ env_alloc e2 = [].
Proof.
  intros Hs Hn Ha. unfold create_dynamic_array. rewrite (proj2 (Z.ltb_ge _ 1)), (proj2 (Z.ltb_ge n 0)) by lia. cbn [orb].
  destruct e as [al ms ts]. simpl in Ha. subst al.
  erewrite bind_eq by by apply zmalloc_eq. change (alloc_next (mkEnv [] ms ts)) with true. change (alloc_rest (mkEnv [] ms ts)) with (mkEnv [] ms ts). red_if.
  unfold dynamic_array_ensure_capacity at 1. rewrite (proj2 (Z.ltb_ge n 0)) by lia. cbn [arr_capacity arr_item_size arr_data arr_length].
  destruct (Z.leb_spec n 0).
  - assert (n = 0) as -> by lia. exists (mkEnv [] ms ts), (mkArray 0 0 item_size []), (mkEnv [] ms ts). done.
  - exists (mkEnv [] ms ts), (mkArray 0 n item_size (replicate (Z.to_nat (n - 0)) 0)), (mkEnv [] ms ts). split; [|split; [|done]].
    + erewrite bind_eq; [|erewrite bind_eq by apply malloc_eq; done]. done.
    + unfold dynamic_array_set_length, dynamic_array_ensure_capacity. rewrite (proj2 (Z.ltb_ge n 0)) by lia. cbn [arr_capacity].
      rewrite Z.leb_refl. erewrite bind_eq by done. red_if. by rewrite Z.sub_0_r.
Qed.

Definition array_item_size (type : Z) : Z := if type =? xplmType_Data then 1 else SIZE_XPLM_INT_FLOAT.

(** The announced length is read and verified. *)
Lemma xprc_parse_array_length type n rest e :
  is_array_type type -> 0 < n <= INT_MAX -> env_alloc e = [] ->
  let s := print_dec n ++ XPRC_ARRAY_ITEM_SEPARATOR :: rest in
  bad_array_length type (strlen s) (count_chars (Some s) XPRC_ARRAY_ITEM_SEPARATOR (strlen s)) (len (print_dec n)) n = false ->
  exists e', env_alloc e' = [] /\ xprc_parse_array (Some s) (strlen s) type e =
    (result ← parse_items (Z.to_nat (strlen s)) s (strlen s) type (len (print_dec n)) 0 0 (filled (array_item_size type) n (replicate (Z.to_nat n) 0));
     match result with None => mret None | Some (i, arr) => mret (if i =? n then Some arr else None) end) e'.
Proof.
  intros Htype Hn Ha s Hbad. pose proof (strlen_print_dec_pos n) as Hp. unfold strlen in Hp.
  assert (len (print_dec n) + 1 <= strlen s) as Hlen by (unfold strlen, s; llia).
  assert (strpos (Some s) (Some [XPRC_ARRAY_ITEM_SEPARATOR]) 0 = len (print_dec n)) as Hsep.
  { change s with ([] ++ s). unfold s. rewrite strpos_char_some; [done|done|]. intros Hin.
    apply print_dec_char in Hin as [?|?]; done. }
  unfold xprc_parse_array. rewrite (proj2 (Z.ltb_ge _ 1)) by lia. rewrite (proj1 (array_type_supported _ Htype)). cbn [Z.eqb negb].
  rewrite (proj2 (Z.ltb_ge (count_chars _ _ _) 0)) by (unfold count_chars; case_match; lia). rewrite Hsep.
  rewrite (proj2 (Z.eqb_neq _ 0)), (proj2 (Z.ltb_ge (strlen s) _)), (proj2 (Z.ltb_lt 0 (len _))) by lia. cbn [orb]. cbv iota zeta.
  erewrite bind_eq by apply copy_partial_string_eq. unfold slice at 1. rewrite Nat2Z.id, drop_0. unfold s at 1. rewrite take_app_length.
  unfold alloc_next. rewrite Ha. cbn [head default]. rewrite c_str_id by apply print_dec_no_nul. rewrite atoi_print by (unfold in_int, INT_MIN; lia).
  rewrite Hbad. destruct (new_array_run (array_item_size type) n (alloc_rest e)) as (e1 & arr & e2 & E1 & E2 & Ha2).
  { unfold array_item_size, SIZE_XPLM_INT_FLOAT, SIZE_XPLM_FLOAT. destruct (type =? xplmType_Data); lia. }
  { lia. }
  { unfold alloc_rest. simpl. by rewrite Ha. }
  exists e2. split; [done|]. erewrite bind_eq by exact E1. cbv beta iota. erewrite bind_eq by exact E2. red_if.
  by rewrite (proj2 (Z.eqb_neq n 0)) by lia.
Qed.

(** What is read back for an item. *)
Definition item_value_read (type y : Z) : Z := if type =? xplmType_FloatArray then float_value y else y.
Definition item_ok (type y : Z) : Prop :=
  if type =? xplmType_IntArray then in_int y else if type =? xplmType_Data then 0 <= y < 256 else True.

Lemma count_separators (text : Z -> cstr) xs :
  (forall y, no_nul (text y) /\ XPRC_ARRAY_ITEM_SEPARATOR ∉ text y) ->
  no_nul (mjoin ((fun y => XPRC_ARRAY_ITEM_SEPARATOR :: text y) <$> xs)) /\
  length (filter (fun c => c = XPRC_ARRAY_ITEM_SEPARATOR) (mjoin ((fun y => XPRC_ARRAY_ITEM_SEPARATOR :: text y) <$> xs))) = length xs.
Proof.
  intros Ht.
  induction xs as [|x xs [IHn IHl]]; [split; [by apply not_elem_of_nil|done]|]. destruct (Ht x) as [Hn Hs]. rewrite fmap_cons. cbn [mjoin list_join app].
  split.
  - apply no_nul_cons. split; [done|]. by apply no_nul_app.
  - rewrite filter_cons_True by done. cbn [length]. rewrite filter_app, filter_none by (intros ? ? ->; done). f_equal. exact IHl.
Qed.

Lemma array_text_separated_parses type (text : Z -> cstr) (value : Z -> Z) (P : Z -> Prop) xs e :
  is_array_type type -> (type =? xplmType_Data) = false ->
  (forall y, format_item type y = XPRC_ARRAY_ITEM_SEPARATOR :: text y) ->
  (forall y, text y <> [] /\ no_nul (text y) /\ XPRC_ARRAY_ITEM_SEPARATOR ∉ text y) ->
  (forall y t e, P y -> env_alloc e = [] ->
    xprc_parse_value (Some (text y ++ t)) (len (text y)) type SIZE_XPLM_INT_FLOAT e = Some (Some (value y), alloc_rest e)) ->
  xs <> [] -> len xs <= INT_MAX -> Forall P xs -> env_alloc e = [] ->
  exists e', xprc_parse_array (Some (array_text type xs)) (strlen (array_text type xs)) type e =
    Some (Some (filled SIZE_XPLM_INT_FLOAT (len xs) (value <$> xs)), e').
Proof.
  intros Htype Hblob Hformat Htext Hparse Hne Hmax HP Ha. destruct xs as [|x xs0] eqn:Hxs; [done|]. rewrite <-Hxs in *.
  assert (array_text type xs = print_dec (len xs) ++ mjoin (format_item type <$> xs)) as ->.
  { unfold array_text, format_length. rewrite Hblob, Hxs. by rewrite app_nil_r. }
  set (n := len xs) in *. assert (0 < n) by (unfold n; rewrite Hxs; llia).
  assert (mjoin (format_item type <$> xs) = mjoin ((fun y => XPRC_ARRAY_ITEM_SEPARATOR :: text y) <$> xs)) as Hj.
  { f_equal. apply list_fmap_ext. auto. }
  destruct (count_separators text xs) as [Hnul Hcount]; [intros y; by destruct (Htext y) as (_ & ? & ?)|].
  assert (mjoin (format_item type <$> xs) = XPRC_ARRAY_ITEM_SEPARATOR :: (text x ++ mjoin (format_item type <$> xs0))) as Hcons.
  { rewrite Hxs. by apply format_items_cons. }
  destruct (xprc_parse_array_length type n (text x ++ mjoin (format_item type <$> xs0)) e Htype ltac:(lia) Ha) as (e1 & Ha1 & E).
  { rewrite <-Hcons. set (s := print_dec n ++ _). unfold bad_array_length. rewrite Hblob.
    assert (no_nul s) as Hs by (apply no_nul_app; split; [apply print_dec_no_nul|by rewrite Hj]).
    assert (count_chars (Some s) XPRC_ARRAY_ITEM_SEPARATOR (strlen s) = n) as ->.
    { unfold count_chars. rewrite (proj2 (Z.leb_gt _ 0)) by (pose proof (strlen_print_dec_pos n); unfold strlen, s in *; llia).
      unfold strlen. rewrite slice_0_all, c_str_id by done. unfold s. rewrite filter_app, length_app, Hj, Hcount.
      assert (filter (fun c => c = XPRC_ARRAY_ITEM_SEPARATOR) (print_dec n) = []) as ->; [|done].
      apply filter_none. intros y Hin ->. by apply print_dec_char in Hin as [?|?]. }
    rewrite (proj2 (Z.ltb_ge n 0)), (proj2 (Z.eqb_neq n 0)) by lia. rewrite Z.eqb_refl. done. }
  rewrite <-Hcons in E. rewrite E. set (s := print_dec n ++ mjoin (format_item type <$> xs)).
  destruct (parse_items_separated type text value P Hblob Hformat Htext Hparse xs (Z.to_nat (strlen s)) (print_dec n) 0 [] (replicate (Z.to_nat n) 0) e1)
    as (e2 & E2); [by rewrite Hxs|lia| |done|done|rewrite length_replicate; unfold n; lia|].
  { pose proof (length_filter (fun c => c = XPRC_ARRAY_ITEM_SEPARATOR) (mjoin (format_item type <$> xs))) as Hle. rewrite Hj, Hcount in Hle.
    unfold strlen, s. rewrite length_app, Hj. lia. }
  exists e2. unfold array_item_size. rewrite Hblob. erewrite bind_eq by exact E2. cbv beta iota. change (len [] + len xs) with n.
  by rewrite Z.eqb_refl.
Qed.

Lemma blob_text_parses xs e :
  xs <> [] -> len xs <= INT_MAX -> Forall (fun y => 0 <= y < 256) xs -> env_alloc e = [] ->
  exists e', xprc_parse_array (Some (array_text xplmType_Data xs)) (strlen (array_text xplmType_Data xs)) xplmType_Data e =
    Some (Some (filled 1 (len xs) xs), e').
Proof.
  intros Hne Hmax HP Ha. destruct types_neq as (_ & _ & _ & _ & _ & _ & H1 & H2 & _).
  assert (array_text xplmType_Data xs = print_dec (len xs) ++ XPRC_ARRAY_ITEM_SEPARATOR :: mjoin (print_02X <$> xs)) as ->.
  { unfold array_text, format_length. rewrite Z.eqb_refl. destruct xs as [|x xs0] eqn:Hxs; [done|]. rewrite <-Hxs. rewrite <-app_assoc.
    cbn [app]. do 3 f_equal. apply list_fmap_ext. intros _ y _. unfold format_item.
    by rewrite !(proj2 (Z.eqb_neq _ _)) by done. }
  set (n := len xs) in *. assert (0 < n) by (unfold n; destruct xs; [done|llia]).
  assert (len (mjoin (print_02X <$> xs)) = 2 * n) as Hbytes.
  { unfold n. clear. induction xs as [|y ys IH]; [done|]. rewrite fmap_cons. simpl. simpl in IH. lia. }
  destruct (xprc_parse_array_length xplmType_Data n (mjoin (print_02X <$> xs)) e ltac:(by right; right) ltac:(lia) Ha) as (e1 & _ & E).
  { unfold bad_array_length. rewrite Z.eqb_refl. cbv zeta. unfold strlen. rewrite length_app. cbn [length].
    replace (_ - _ - 1) with (n * 2) by lia. by rewrite Z.quot_mul, Z.rem_mul, Z.eqb_refl by lia. }
  rewrite E. exists e1. set (s := print_dec n ++ XPRC_ARRAY_ITEM_SEPARATOR :: mjoin (print_02X <$> xs)).
  assert (s = (print_dec n ++ [XPRC_ARRAY_ITEM_SEPARATOR]) ++ mjoin (print_02X <$> xs)) as Hs by (unfold s; by rewrite <-app_assoc).
  unfold array_item_size. rewrite Z.eqb_refl.
  pose proof (parse_items_blob xs (Z.to_nat (strlen s)) (print_dec n ++ [XPRC_ARRAY_ITEM_SEPARATOR]) 0 [] (replicate (Z.to_nat n) 0) e1) as Ep.
  rewrite <-Hs in Ep. replace (len (print_dec n ++ [XPRC_ARRAY_ITEM_SEPARATOR]) - 1) with (len (print_dec n)) in Ep by llia.
  erewrite bind_eq.
  2:{ apply Ep; [done|by destruct (print_dec n)|lia| |done|rewrite length_replicate; unfold n; lia].
      unfold strlen, s. rewrite length_app. cbn [length]. lia. }
  cbv beta iota. change (len [] + len xs) with n. by rewrite Z.eqb_refl.
Qed.

Lemma empty_text_parses type e :
  is_array_type type -> env_alloc e = [] ->
  exists e', xprc_parse_array (Some (lit "0")) 1 type e =
    Some (if type =? xplmType_Data then None else Some (filled SIZE_XPLM_INT_FLOAT 0 []), e').
Proof.
  intros Htype Ha. unfold xprc_parse_array. change (1 <? 1) with false. rewrite (proj1 (array_type_supported _ Htype)). cbn [Z.eqb negb].
  change (count_chars (Some (lit "0")) XPRC_ARRAY_ITEM_SEPARATOR 1) with 0.
  change (strpos (Some (lit "0")) (Some [XPRC_ARRAY_ITEM_SEPARATOR]) 0) with (-1).
  change (-1 =? 0) with false. change (1 <? -1) with false. change (0 <? -1) with false. change (0 <? 0) with false. cbn [orb]. cbv iota.
  erewrite bind_eq by apply copy_partial_string_eq. unfold alloc_next. rewrite Ha. cbn [head default].
  change (atoi (c_str (slice 0 1 (lit "0")))) with 0. unfold bad_array_length. destruct (type =? xplmType_Data) eqn:Hd.
  - eexists. done.
  - destruct (new_array_run SIZE_XPLM_INT_FLOAT 0 (alloc_rest e)) as (e1 & arr & e2 & E1 & E2 & _); [done|lia|by unfold alloc_rest; simpl; rewrite Ha|].
    exists e2. cbn [Z.ltb Z.eqb Z.compare negb andb orb Pos.compare Pos.compare_cont]. cbv iota zeta.
    erewrite bind_eq by exact E1. cbv beta iota. erewrite bind_eq by exact E2. done.
Qed.

Lemma array_text_parses type xs e :
  is_array_type type -> len xs <= INT_MAX -> Forall (item_ok type) xs -> env_alloc e = [] ->
  exists e', xprc_parse_array (Some (array_text type xs)) (strlen (array_text type xs)) type e =
    Some (if (type =? xplmType_Data) && bool_decide (xs = []) then None
          else Some (filled (array_item_size type) (len xs) (item_value_read type <$> xs)), e').
Proof.
  intros Htype Hmax HP Ha. destruct (decide (xs = [])) as [-> |Hne].
  { destruct (empty_text_parses type e Htype Ha) as (e' & E). exists e'. rewrite andb_true_r. unfold array_item_size.
    change (array_text type []) with (lit "0"). change (strlen (lit "0")) with 1. rewrite E. by destruct (type =? xplmType_Data). }
  rewrite bool_decide_eq_false_2, andb_false_r by done. destruct types_neq as (_ & _ & Hfi & _ & _ & _ & Hdi & Hdf & Hid & Hfd).
  unfold item_value_read, array_item_size in *. destruct Htype as [-> |[-> | ->]].
  - assert (Forall in_int xs) by (eapply Forall_impl; [exact HP|]; intros y; unfold item_ok; by rewrite Z.eqb_refl).
    rewrite (proj2 (Z.eqb_neq _ xplmType_Data)), (proj2 (Z.eqb_neq xplmType_IntArray xplmType_FloatArray)) by done.
    eapply (array_text_separated_parses _ print_dec (fun y => y) in_int); try done; [by left|by apply Z.eqb_neq| | |].
    + intros y. unfold format_item. by rewrite Z.eqb_refl.
    + intros y. split; [apply print_dec_nonempty|]. split; [apply print_dec_no_nul|]. intros Hin. by apply print_dec_char in Hin as [?|?].
    + intros. by apply parse_int_item.
  - rewrite (proj2 (Z.eqb_neq _ xplmType_Data)) by done. rewrite Z.eqb_refl.
    eapply (array_text_separated_parses _ (fun y => print_f (double_of_float y)) float_value (fun _ => True)); try done;
      [by right; left|by apply Z.eqb_neq| | | |by apply Forall_true].
    + intros y. unfold format_item. rewrite Z.eqb_refl. by rewrite (proj2 (Z.eqb_neq _ _)) by done.
    + intros y. destruct (print_f_text (double_of_float y)) as (? & ? & ? & _). done.
    + intros. by apply parse_float_item.
  - rewrite (proj2 (Z.eqb_neq xplmType_Data xplmType_FloatArray)) by done.
    assert (Forall (fun y => 0 <= y < 256) xs).
    { eapply Forall_impl; [exact HP|]. intros y. unfold item_ok. by rewrite (proj2 (Z.eqb_neq xplmType_Data xplmType_IntArray)), Z.eqb_refl by done. }
    rewrite Z.eqb_refl.
    replace ((fun y : Z => y) <$> xs) with xs by by rewrite list_fmap_id. by apply blob_text_parses.
Qed.
End Decoding.

(** C38: [xprc_encode_array] writes the length and the items of an array, or
    yields NULL, only if memory is exhausted, and [xprc_parse_array] reads the
    same array back: integers and bytes exactly, floating point numbers as far as
    their text determines them. The exception is the empty byte array, whose text
    is rejected. *)
Theorem array_roundtrip `{DataTypes} `{FloatText} (type : Z) (arr : dynamic_array_t Z) (h : pheap cstr unit) (e : env) :
  is_array_type type -> wf_array arr -> Forall (item_ok type) (contents arr) -> env_alloc e = [] ->
  (exists r h', xprc_encode_array type (Some arr) h = Some (r, h') /\ (r = None \/ r = Some (array_text type (contents arr))) /\
     (env_alloc (ph_env h) = [] -> r <> None)) /\
  exists e', xprc_parse_array (Some (array_text type (contents arr))) (strlen (array_text type (contents arr))) type e =
    Some (if (type =? xplmType_Data) && bool_decide (contents arr = []) then None
          else Some (filled (array_item_size type) (arr_length arr) (item_value_read type <$> contents arr)), e').
Proof.
  intros Htype [Hl Hc Hd _] HP Ha. assert (len (contents arr) = arr_length arr) as Hlen by (unfold contents; rewrite length_take; lia).
  split.
  - destruct (xprc_encode_array_run type arr h Htype ltac:(lia) Hlen) as (r & h' & E & Hr & Hal). exists r, h'.
    split; [done|]. split; [done|]. intros H'. by apply Hal.
  - rewrite <-Hlen. apply array_text_parses; [done|lia|done|done].
Qed.

(** The values of the types in the X-Plane SDK. *)
Definition demo_types : DataTypes.
Proof.
  refine {| xplmType_Int := 1; xplmType_Float := 2; xplmType_Double := 4; xplmType_FloatArray := 8; xplmType_IntArray := 16; xplmType_Data := 32 |}.
  - by repeat constructor.
  - by repeat constructor.
  - apply (bool_decide_unpack _). by vm_compute.
Defined.

(** Numbers printed as integers. *)
Definition demo_floats : FloatText.
Proof.
  refine {| print_f := print_dec; atof := atoi; double_of_float := id; float_of_double := id |}.
  intros d. split; [apply print_dec_nonempty|]. split; [apply print_dec_no_nul|]. split; intros Hin; by apply print_dec_char in Hin as [?|?].
Defined.

Lemma array_roundtrip_witness :
  array_text (H := demo_types) (H0 := demo_floats) 32 [171; 0; 255] = lit "3,AB00FF" /\
  exists e', xprc_parse_array (H := demo_types) (H0 := demo_floats) (Some (array_text (H := demo_types) (H0 := demo_floats) 32 [171; 0; 255]))
    (strlen (array_text (H := demo_types) (H0 := demo_floats) 32 [171; 0; 255])) 32 calm = Some (Some (filled 1 3 [171; 0; 255]), e').
Proof.
  split; [reflexivity|].
  refine (proj2 (array_roundtrip (H := demo_types) (H0 := demo_floats) 32 (mkArray 3 3 1 [171; 0; 255]) (mkPHeap ∅ [] calm) calm _ _ _ _));
    [by right; right|split; vm_compute; done| |done].
  repeat (constructor; [vm_compute; split; congruence|]). constructor.
Defined.

Lemma types_roundtrip_witness :
  xprc_encode_types (H := demo_types) 19 calm = Some (Some (lit "int,float,int[]"), calm) /\
  match xprc_encode_types (H := demo_types) 19 calm with
  | Some (Some text, _) => xprc_parse_types (H := demo_types) (Some text) (strlen text) = Z.land 19 (supported_types (H := demo_types))
  | Some (None, _) => Z.land 19 (supported_types (H := demo_types)) = 0 \/ alloc_next calm = false
  | None => False
  end.
Proof. split; [reflexivity|]. exact (proj2 (types_roundtrip (H := demo_types) 19 calm)). Defined.
