(* ===== verification/TaskSchedule.v ===== *)
(** The task schedule ([task_schedule.c], [task_schedule.h]): two queues of tasks
    that are run before and after the flight model, and the recursive mutex that
    serialises request handling and flight loop callbacks.

    A task is the address of a task object, its callback acts on the state [W]
    of the program, of which the schedule, the heap of its queues and the
    environment are parts. [ts_lock] counts how often the running thread holds
    the mutex. *)

From S2P Require Import Prelude CLib Utils Lists Prealloc.

Definition TASK_SCHEDULE_ERROR_STILL_SCHEDULED : error_t := TASK_SCHEDULE_ERROR_BASE + 0.
Definition TASK_SCHEDULE_ERROR_INVALID_PHASE : error_t := TASK_SCHEDULE_ERROR_BASE + 1.

Definition TASK_SCHEDULE_POST_PROCESSING : Z := -1.
Definition TASK_SCHEDULE_BEFORE_FLIGHT_MODEL : Z := 0.
Definition TASK_SCHEDULE_AFTER_FLIGHT_MODEL : Z := 1.
Definition TASK_SCHEDULE_NUM_TASK_QUEUES : Z := 2.

Record task_schedule_t := mkSchedule {
  ts_lock : Z;
  queues : list (option prealloc_list_t);
  ts_destruction_pending : bool;
}.

Abbreviation task_heap := (pheap loc unit).

(** The states that contain a task schedule. *)
Class HasSchedule (W : Type) := {
  schedule_of : W -> task_schedule_t;
  with_schedule : task_schedule_t -> W -> W;
  schedule_env : forall A, M env A -> M W A;
  schedule_heap : forall A, M task_heap A -> M W A;
}.
Arguments schedule_env {W _ A}.
Arguments schedule_heap {W _ A}.

Definition set_ts_lock (n : Z) (s : task_schedule_t) : task_schedule_t := mkSchedule n (queues s) (ts_destruction_pending s).
Definition set_ts_pending (s : task_schedule_t) : task_schedule_t := mkSchedule (ts_lock s) (queues s) true.
Definition set_queue (phase : Z) (q : option prealloc_list_t) (s : task_schedule_t) : task_schedule_t :=
  mkSchedule (ts_lock s) (<[Z.to_nat phase := q]> (queues s)) (ts_destruction_pending s).

Section Schedule.
Context {W : Type} `{HasSchedule W}.

Definition schedule : M W task_schedule_t := gets schedule_of.
Definition update_schedule (f : task_schedule_t -> task_schedule_t) : M W unit :=
  modify (fun w => with_schedule (f (schedule_of w)) w).

(** [task_schedule->queues[phase]]; the callers have checked the phase. *)
Definition queue (phase : Z) : M W (option prealloc_list_t) :=
  s ← schedule; from_ub (queues s !! Z.to_nat phase).

Definition unlock_schedule : M W unit := update_schedule (fun s => set_ts_lock (ts_lock s - 1) s).

(** What follows the attempt to lock: a schedule that is about to be destroyed
    is unlocked again. *)
Definition locked_schedule : M W error_t :=
  _ ← update_schedule (fun s => set_ts_lock (ts_lock s + 1) s);
  s ← schedule;
  if ts_destruction_pending s then _ ← unlock_schedule; mret ERROR_DESTRUCTION_PENDING else mret ERROR_NONE.

Definition lock_schedule : M W error_t :=
  s ← schedule;
  if ts_destruction_pending s then mret ERROR_DESTRUCTION_PENDING
  else
    ok ← schedule_env mtx_lock_result;
    if negb ok then mret ERROR_MUTEX_FAILED else locked_schedule.

(** As [lock_schedule]; [mtx_trylock] fails if another thread has the mutex. *)
Definition lock_schedule_try : M W error_t :=
  s ← schedule;
  if ts_destruction_pending s then mret ERROR_DESTRUCTION_PENDING
  else
    ok ← schedule_env mtx_lock_result;
    if negb ok then mret ERROR_MUTEX_FAILED else locked_schedule.

(** [timed_out] tells a failing [mtx_timedlock] that timed out from others. *)
Definition lock_schedule_timeout (timeout_millis : Z) (timed_out : bool) : M W error_t :=
  max_wait ← schedule_env (timespec_now_plus_millis timeout_millis);
  match max_wait with
  | None => mret ERROR_UNSPECIFIC
  | Some _ =>
      s ← schedule;
      if ts_destruction_pending s then mret ERROR_DESTRUCTION_PENDING
      else
        ok ← schedule_env mtx_lock_result;
        if negb ok then mret (if timed_out then ERROR_MUTEX_TIMEOUT else ERROR_MUTEX_FAILED) else locked_schedule
  end.

Definition valid_phase (phase : Z) : bool := (0 <=? phase) && (phase <? TASK_SCHEDULE_NUM_TASK_QUEUES).

Definition schedule_task (task : loc) (phase : Z) : M W error_t :=
  if negb (valid_phase phase) then mret TASK_SCHEDULE_ERROR_INVALID_PHASE
  else
    s ← schedule;
    if ts_destruction_pending s then mret ERROR_DESTRUCTION_PENDING
    else
      q ← queue phase;
      match q with
      | None => mret ERROR_UNSPECIFIC
      | Some q =>
          '(ok, q) ← schedule_heap (prealloc_list_append q (Some task));
          _ ← update_schedule (set_queue phase (Some q));
          mret (if ok : bool then ERROR_NONE else ERROR_UNSPECIFIC)
      end.

Definition unschedule_task_queue_item (q : prealloc_list_t) (item : loc) (phase : Z) : M W error_t :=
  '(ok, q) ← schedule_heap (prealloc_list_delete_item q item None PREALLOC_ITEM_DEFER_DESTRUCTION);
  _ ← update_schedule (set_queue phase (Some q));
  mret (if ok : bool then ERROR_NONE else ERROR_UNSPECIFIC).

(** The search for a task; [fuel] bounds the items visited. *)
Fixpoint unschedule_loop (fuel : nat) (q : prealloc_list_t) (task : loc) (phase : Z) (item : option loc) : M W error_t :=
  match item with
  | None => mret ERROR_UNSPECIFIC
  | Some p =>
      match fuel with
      | O => ub
      | S fuel' =>
          it ← schedule_heap (p_load p);
          if bool_decide (p_value it = Some task) then unschedule_task_queue_item q p phase
          else unschedule_loop fuel' q task phase (p_next it)
      end
  end.

Definition unschedule_task (fuel : nat) (task : loc) (phase : Z) : M W error_t :=
  if negb (valid_phase phase) then mret TASK_SCHEDULE_ERROR_INVALID_PHASE
  else
    q ← queue phase;
    match q with
    | None => mret ERROR_UNSPECIFIC
    | Some q => unschedule_loop fuel q task phase (p_first q)
    end.

Section Tasks.
(** The [on_processing] callback of a task, if it has one. *)
Context (on_processing : loc -> option (Z -> M W unit)).

Definition call_task (task : loc) (phase : Z) : M W unit :=
  match on_processing task with Some f => f phase | None => mret tt end.

(** The loop over a queue: the successor of an item is read after the callback.
    Post processing skips NULL tasks, a flight loop phase dereferences them. *)
Fixpoint run_queue (fuel : nat) (skip_null : bool) (phase : Z) (item : option loc) : M W unit :=
  match item with
  | None => mret tt
  | Some p =>
      match fuel with
      | O => ub
      | S fuel' =>
          it ← schedule_heap (p_load p);
          _ ← match p_value it with
              | None => if skip_null then mret tt else ub
              | Some task => call_task task phase
              end;
          it ← schedule_heap (p_load p);
          run_queue fuel' skip_null phase (p_next it)
      end
  end.

Definition run_phase_queue (fuel : nat) (skip_null : bool) (phase : Z) (i : Z) : M W unit :=
  q ← queue i;
  match q with None => mret tt | Some q => run_queue fuel skip_null phase (p_first q) end.

Definition run_tasks_post_processing (fuel : nat) : M W unit :=
  err ← lock_schedule;
  if negb (err =? ERROR_NONE) then mret tt
  else
    _ ← for_each (run_phase_queue fuel true TASK_SCHEDULE_POST_PROCESSING) (seqZ 0 TASK_SCHEDULE_NUM_TASK_QUEUES);
    unlock_schedule.

Definition run_tasks (fuel : nat) (phase : Z) : M W unit :=
  if phase =? TASK_SCHEDULE_POST_PROCESSING then run_tasks_post_processing fuel
  else if negb (valid_phase phase) then mret tt
  else
    err ← lock_schedule;
    if negb (err =? ERROR_NONE) then mret tt
    else
      _ ← run_phase_queue fuel false phase phase;
      unlock_schedule.
End Tasks.

Definition clean_queue (fuel : nat) (success : bool) (i : Z) : M W bool :=
  q ← queue i;
  match q with
  | None => mret false
  | Some q =>
      '(ok, q) ← schedule_heap (prealloc_list_compact fuel q None PREALLOC_LIST_CALL_DEFERRED_DESTRUCTORS);
      _ ← update_schedule (set_queue i (Some q));
      mret (success && ok)
  end.

Definition clean_schedule (fuel : nat) : M W error_t :=
  s ← schedule;
  if ts_destruction_pending s then mret ERROR_DESTRUCTION_PENDING
  else
    success ← clean_queue fuel true 0;
    success ← clean_queue fuel success 1;
    mret (if success : bool then ERROR_NONE else ERROR_UNSPECIFIC).

(** Unschedules the tasks of a queue; a NULL task is never passed: the loop
    [continue]s with the same item for ever. *)
Fixpoint unschedule_all (fuel : nat) (phase : Z) (item : option loc) (err : error_t) : M W error_t :=
  match item with
  | None => mret err
  | Some p =>
      match fuel with
      | O => ub
      | S fuel' =>
          it ← schedule_heap (p_load p);
          match p_value it with
          | None => unschedule_all fuel' phase item err
          | Some task =>
              task_err ← unschedule_task fuel task phase;
              unschedule_all fuel' phase (p_next it) (if task_err =? ERROR_NONE then err else task_err)
          end
      end
  end.

(** Destroys the queue of a phase if it is empty. *)
Definition destroy_queue (phase : Z) (err : error_t) : M W error_t :=
  q ← queue phase;
  match q with
  | None => mret err
  | Some q =>
      if negb (p_size q =? 0) then mret TASK_SCHEDULE_ERROR_STILL_SCHEDULED
      else
        _ ← schedule_heap (destroy_preallocated_list q (Some tt) PREALLOC_LIST_CALL_DEFERRED_DESTRUCTORS);
        _ ← update_schedule (set_queue phase None);
        mret err
  end.

Definition unschedule_phase (fuel : nat) (phase : Z) (err : error_t) : M W error_t :=
  q ← queue phase;
  match q with None => mret err | Some q => unschedule_all fuel phase (p_first q) err end.

(** The schedule must not be used any more if this returns [ERROR_NONE]. *)
Definition destroy_task_schedule (fuel : nat) : M W error_t :=
  err ← lock_schedule;
  if negb (err =? ERROR_NONE) then mret err
  else
    _ ← update_schedule set_ts_pending;
    _ ← unlock_schedule;
    ok ← schedule_env mtx_lock_result;
    if negb ok then mret ERROR_UNSPECIFIC
    else
      _ ← update_schedule (fun s => set_ts_lock (ts_lock s + 1) s);
      err ← unschedule_phase fuel 0 err;
      err ← unschedule_phase fuel 1 err;
      err ← destroy_queue 0 err;
      err ← destroy_queue 1 err;
      _ ← unlock_schedule;
      mret err.
End Schedule.

(** Returns the error and the new schedule. *)
Definition create_task_schedule : M task_heap (error_t * option task_schedule_t) :=
  ok ← p_env (zmalloc 80);
  if negb ok then mret (ERROR_MEMORY_ALLOCATION, None)
  else
    ok ← p_env mtx_lock_result;
    if negb ok then mret (ERROR_UNSPECIFIC, None)
    else
      q0 ← create_preallocated_list;
      match q0 with
      | None => mret (ERROR_MEMORY_ALLOCATION, None)
      | Some q0 =>
          q1 ← create_preallocated_list;
          match q1 with
          | None =>
              _ ← destroy_preallocated_list q0 (Some tt) PREALLOC_LIST_CALL_DEFERRED_DESTRUCTORS;
              mret (ERROR_MEMORY_ALLOCATION, None)
          | Some q1 => mret (ERROR_NONE, Some (mkSchedule 0 [Some q0; Some q1] false))
          end
      end.

(** * Schedules in larger states *)

(** What the theorems rely on: the schedule and its heap are separate parts of
    the state, and computations on the heap act on that part only. *)
Class ScheduleLaws (W : Type) `{HasSchedule W} := {
  th_of : W -> task_heap;
  with_th : task_heap -> W -> W;
  heap_of_with : forall h w, th_of (with_th h w) = h;
  with_heap_of : forall w, with_th (th_of w) w = w;
  with_heap_twice : forall h h' w, with_th h (with_th h' w) = with_th h w;
  schedule_heap_run : forall A (m : M task_heap A) w,
    schedule_heap m w = match m (th_of w) with Some (a, h) => Some (a, with_th h w) | None => None end;
  schedule_env_run : forall A (m : M env A) w, schedule_env m w = schedule_heap (p_env m) w;
  schedule_of_heap : forall h w, schedule_of (with_th h w) = schedule_of w;
  heap_of_schedule : forall s w, th_of (with_schedule s w) = th_of w;
  schedule_of_with : forall s w, schedule_of (with_schedule s w) = s;
}.

Section Laws.
Context {W : Type} `{ScheduleLaws W}.
Abbreviation entries := (list (loc * entry (V := loc) (D := unit))).
Implicit Types (w : W) (ps : entries) (ts : list loc).

Definition items_of_state w : gmap loc (prealloc_list_item_t loc unit) := ph_items (th_of w).

Lemma load_run p w it : items_of_state w !! p = Some it -> schedule_heap (p_load p) w = Some (it, w).
Proof. intros E. rewrite schedule_heap_run, (p_load_eq _ _ _ E). by rewrite with_heap_of. Qed.

Lemma queue_run i q w : queues (schedule_of w) !! Z.to_nat i = Some q -> queue i w = Some (q, w).
Proof. intros E. unfold queue, schedule, gets, from_ub, mbind, M_bind. by rewrite E. Qed.

(** The schedule manages two lists of tasks in different parts of the memory. *)
Record schedule_ok w (pss : list entries) : Prop := mkScheduleOk {
  so_length : length (queues (schedule_of w)) = 2%nat /\ length pss = 2%nat;
  so_queue : forall i ps, pss !! i = Some ps ->
    exists l, queues (schedule_of w) !! i = Some (Some l) /\ prep (items_of_state w) l ps;
  so_apart : forall i j l l', i <> j -> queues (schedule_of w) !! i = Some (Some l) -> queues (schedule_of w) !! j = Some (Some l') ->
    apart l l';
}.

(** The tasks of a queue, in the order in which they are run. *)
Definition tasks_are ps ts : Prop := (live ps).*2 = Some <$> ts.

(** ** Locking *)

Definition lock_result w : error_t :=
  if ts_destruction_pending (schedule_of w) then ERROR_DESTRUCTION_PENDING
  else if default true (head (env_mtx (ph_env (th_of w)))) then ERROR_NONE else ERROR_MUTEX_FAILED.

Lemma lock_schedule_run w :
  exists w', lock_schedule w = Some (lock_result w, w') /\
    schedule_of w' = (if lock_result w =? ERROR_NONE then set_ts_lock (ts_lock (schedule_of w) + 1) (schedule_of w) else schedule_of w) /\
    items_of_state w' = items_of_state w.
Proof.
  unfold lock_schedule, lock_result. erewrite bind_eq by done. destruct (ts_destruction_pending (schedule_of w)) eqn:Hp.
  { by exists w. }
  assert (exists w1, schedule_env mtx_lock_result w = Some (default true (head (env_mtx (ph_env (th_of w)))), w1) /\
    schedule_of w1 = schedule_of w /\ items_of_state w1 = items_of_state w) as (w1 & E & Hs & Hi).
  { rewrite schedule_env_run, schedule_heap_run. unfold p_env, zoom, mtx_lock_result.
    destruct (env_mtx (ph_env (th_of w))) as [|b bs]; eexists; (split; [done|]); unfold items_of_state;
      by rewrite schedule_of_heap, heap_of_with. }
  erewrite bind_eq by exact E. destruct (default true _); red_if; [|by exists w1].
  unfold locked_schedule. erewrite bind_eq by done. erewrite bind_eq by done. rewrite Hs, schedule_of_with. simpl. rewrite Hp.
  eexists. split; [done|]. unfold items_of_state in *. by rewrite schedule_of_with, heap_of_schedule.
Qed.

(** ** Scheduling and unscheduling *)

Lemma apart_sym l l' : apart l l' -> apart l' l.
Proof. intros Ha q Hq Hq'. by apply (Ha q). Qed.

Lemma tasks_are_app ps1 ps2 ts1 ts2 : tasks_are ps1 ts1 -> tasks_are ps2 ts2 -> tasks_are (ps1 ++ ps2) (ts1 ++ ts2).
Proof. unfold tasks_are. intros H1 H2. by rewrite live_app, !fmap_app, H1, H2. Qed.

(** Replacing a queue that grew by new memory only. *)
Lemma schedule_ok_update w w' pss i l ps l' ps' :
  schedule_ok w pss -> pss !! i = Some ps -> queues (schedule_of w) !! i = Some (Some l) ->
  queues (schedule_of w') = <[i := Some l']> (queues (schedule_of w)) -> prep (items_of_state w') l' ps' ->
  elsewhere_same (items_of_state w) (items_of_state w') (p_blocks l) -> grows (items_of_state w) l l' ->
  schedule_ok w' (<[i := ps']> pss).
Proof.
  intros Hok Hps Hq Hqs Hr' Hs Hg. destruct (so_queue _ _ Hok _ _ Hps) as (l0 & Hq0 & Hr). rewrite Hq in Hq0. injection Hq0 as <-.
  assert (i < length (queues (schedule_of w)))%nat as Hi by by apply lookup_lt_is_Some; eexists.
  assert (i < length pss)%nat as Hi' by by apply lookup_lt_is_Some; eexists.
  split.
  - rewrite Hqs, !length_insert. exact (so_length _ _ Hok).
  - intros j ps2 Hj. rewrite Hqs. destruct (decide (i = j)) as [<-|Hne].
    + rewrite list_lookup_insert_eq in Hj by done. rewrite list_lookup_insert_eq by done. simplify_eq. by exists l'.
    + rewrite list_lookup_insert_ne in Hj by done. rewrite list_lookup_insert_ne by done. destruct (so_queue _ _ Hok _ _ Hj) as (lj & Hqj & Hrj). exists lj. split; [done|].
      eapply apart_same; [exact Hrj|by eapply (so_apart _ _ Hok j i)|exact Hs].
  - assert (forall j lj, i <> j -> queues (schedule_of w) !! j = Some (Some lj) -> apart lj l') as Hnew.
    { intros j lj Hne Hj. destruct (lookup_lt_is_Some_2 pss j) as [psj Hpj].
      { destruct (so_length _ _ Hok) as [H1 H2]. rewrite H2, <-H1. apply lookup_lt_is_Some. by eexists. }
      destruct (so_queue _ _ Hok _ _ Hpj) as (lj' & Hqj & Hrj). rewrite Hj in Hqj. injection Hqj as <-.
      eapply apart_grows; [exact Hrj|by eapply (so_apart _ _ Hok j i)|exact Hg]. }
    intros j k lj lk Hne Hj Hk. rewrite Hqs in Hj, Hk.
    destruct (decide (i = j)) as [<-|]; [|destruct (decide (i = k)) as [<-|]].
    + rewrite list_lookup_insert_eq in Hj by done. rewrite list_lookup_insert_ne in Hk by done. injection Hj as <-.
      by eapply apart_sym, Hnew.
    + rewrite list_lookup_insert_eq in Hk by done. rewrite list_lookup_insert_ne in Hj by done. injection Hk as <-. by eapply Hnew.
    + rewrite list_lookup_insert_ne in Hj, Hk by done. by eapply (so_apart _ _ Hok j k).
Qed.

Lemma schedule_task_run w pss phase ps ts task :
  schedule_ok w pss -> valid_phase phase = true -> pss !! Z.to_nat phase = Some ps -> tasks_are ps ts ->
  ts_destruction_pending (schedule_of w) = false ->
  exists err w' ps', schedule_task task phase w = Some (err, w') /\ schedule_ok w' (<[Z.to_nat phase := ps']> pss) /\
    ts_lock (schedule_of w') = ts_lock (schedule_of w) /\ (env_alloc (ph_env (th_of w)) = [] -> err = ERROR_NONE) /\
    (err = ERROR_NONE /\ tasks_are ps' (ts ++ [task]) \/ err = ERROR_UNSPECIFIC /\ ps' = ps).
Proof.
  intros Hok Hv Hps Hts Hpend. destruct (so_queue _ _ Hok _ _ Hps) as (l & Hq & Hr). unfold schedule_task. rewrite Hv. red_if.
  erewrite bind_eq by done. rewrite Hpend. cbv iota. erewrite bind_eq by by apply queue_run. cbv beta iota.
  destruct (prealloc_list_append_run (th_of w) l ps (Some task) Hr) as (ok & l' & m' & e' & E & Ha & Hs & Hg & Hres).
  erewrite bind_eq by (rewrite schedule_heap_run, E; reflexivity). cbv beta iota. erewrite bind_eq by reflexivity.
  match goal with |- context [mret _ ?s] => set (w2 := s) end.
  assert (forall ps', prep m' l' ps' -> schedule_ok w2 (<[Z.to_nat phase := ps']> pss)) as Hok'.
  { intros ps' Hr'. eapply schedule_ok_update; [exact Hok|exact Hps|exact Hq|..]; unfold w2, items_of_state;
      rewrite ?schedule_of_with, ?schedule_of_heap, ?heap_of_schedule, ?heap_of_with; done. }
  assert (ts_lock (schedule_of w2) = ts_lock (schedule_of w)) as Hlock by (unfold w2; by rewrite schedule_of_with, schedule_of_heap).
  destruct ok.
  - destruct Hres as (item & _ & Hr'). eexists _, w2, _. split; [done|]. split; [by apply Hok'|]. do 2 (split; [done|]). left.
    split; [done|]. by apply tasks_are_app.
  - destruct Hres as [-> ->]. eexists _, w2, _. split; [done|]. split; [by apply Hok'|]. split; [done|].
    split; [intros Hal; by destruct (Ha Hal)|]. by right.
Qed.

(** What is found behind the items already visited. *)
Lemma unschedule_loop_run l task phase R : forall fuel ts prev w,
  seg (link <$> items_of_state w) prev R None -> R.*2 = Some <$> ts -> (length R <= fuel)%nat ->
  (exists R1 p R2, R = R1 ++ (p, Some task) :: R2 /\ (Some task ∉ R1.*2) /\
     unschedule_loop fuel l task phase (first R None) w = unschedule_task_queue_item l p phase w) \/
  ((task ∉ ts) /\ unschedule_loop fuel l task phase (first R None) w = Some (ERROR_UNSPECIFIC, w)).
Proof.
  induction R as [|[p v] R IH]; intros fuel ts prev w Hs Hts Hfuel; destruct ts as [|t ts]; try done.
  { right. split; [apply not_elem_of_nil|by destruct fuel]. }
  destruct fuel as [|fuel]; [simpl in Hfuel; lia|]. simpl in Hts. injection Hts as -> Hts. destruct Hs as [Hp Hs].
  rewrite lookup_fmap in Hp. destruct (items_of_state w !! p) as [[st w0 d pr nx]|] eqn:Hit; [|done].
  unfold link in Hp. simpl in Hp. simplify_eq. cbn [first unschedule_loop]. erewrite bind_eq by (apply load_run; exact Hit).
  cbn [p_value p_next]. destruct (decide (t = task)) as [-> |Hne].
  - rewrite bool_decide_eq_true_2 by done. left. exists [], p, R. split; [done|]. split; [apply not_elem_of_nil|done].
  - rewrite bool_decide_eq_false_2 by congruence.
    destruct (IH fuel ts (Some p) w Hs Hts ltac:(simpl in Hfuel; lia)) as [(R1 & q & R2 & -> & Hn & E)|[Hn E]]; [left|right].
    + exists ((p, Some t) :: R1), q, R2. split; [done|]. split; [|exact E]. apply not_elem_of_cons. split; [simpl; congruence|done].
    + split; [apply not_elem_of_cons; split; [congruence|done]|exact E].
Qed.

Lemma live_split ps R1 p v R2 :
  live ps = R1 ++ (p, v) :: R2 -> exists ps1 ps2, ps = ps1 ++ (p, Live v) :: ps2 /\ live ps1 = R1 /\ live ps2 = R2.
Proof.
  revert R1. induction ps as [|[q e] ps IH]; intros R1 E; [by destruct R1|]. destruct e as [u|u d].
  - change (live ((q, Live u) :: ps)) with ((q, u) :: live ps) in E. destruct R1 as [|r R1].
    + simpl in E. injection E as -> -> E. by exists [], ps.
    + simpl in E. injection E as <- E. destruct (IH _ E) as (ps1 & ps2 & -> & <- & <-). by exists ((q, Live u) :: ps1), ps2.
  - destruct (IH _ E) as (ps1 & ps2 & -> & <- & <-). by exists ((q, Dead u d) :: ps1), ps2.
Qed.

Lemma unschedule_task_run fuel w pss phase ps ts task :
  schedule_ok w pss -> valid_phase phase = true -> pss !! Z.to_nat phase = Some ps -> tasks_are ps ts -> (length ts <= fuel)%nat ->
  (exists ts1 ts2 w' ps', ts = ts1 ++ task :: ts2 /\ (task ∉ ts1) /\
     unschedule_task fuel task phase w = Some (ERROR_NONE, w') /\ schedule_ok w' (<[Z.to_nat phase := ps']> pss) /\
     tasks_are ps' (ts1 ++ ts2) /\ ts_lock (schedule_of w') = ts_lock (schedule_of w)) \/
  ((task ∉ ts) /\ unschedule_task fuel task phase w = Some (ERROR_UNSPECIFIC, w)).
Proof.
  intros Hok Hv Hps Hts Hfuel. destruct (so_queue _ _ Hok _ _ Hps) as (l & Hq & Hr). unfold unschedule_task. rewrite Hv. red_if.
  erewrite bind_eq by by apply queue_run. cbv beta iota. rewrite (prep_first _ _ _ Hr).
  assert (length (live ps) <= fuel)%nat as Hfuel'.
  { pose proof (f_equal length Hts) as Hl. rewrite !length_fmap in Hl. lia. }
  destruct (unschedule_loop_run l task phase (live ps) fuel ts None w (prep_seg _ _ _ Hr) Hts Hfuel') as [(R1 & p & R2 & Hl & Hn & E)|?];
    [left|by right].
  destruct (live_split _ _ _ _ _ Hl) as (ps1 & ps2 & -> & <- & <-).
  unfold tasks_are in Hts. rewrite Hl, fmap_app, fmap_cons in Hts. symmetry in Hts.
  apply fmap_app_inv in Hts as (ts1 & ts2' & H1 & H2 & ->). symmetry in H2. apply fmap_cons_inv in H2 as (t & ts2 & Ht & H2 & ->).
  simpl in Ht. injection Ht as <-.
  destruct (prealloc_list_delete_item_run (th_of w) l ps1 p (Some task) ps2 None true Hr) as (l' & m' & Edel & Hr' & Hb & Hs).
  unfold unschedule_task_queue_item in E.
  assert (exists w', unschedule_loop fuel l task phase (first (live (ps1 ++ (p, Live (Some task)) :: ps2)) None) w = Some (ERROR_NONE, w') /\
    w' = with_schedule (set_queue phase (Some l') (schedule_of w)) (with_th (mkPHeap m' (ph_calls (th_of w) ++ []) (ph_env (th_of w))) w))
    as (w' & E' & Hw').
  { eexists. split; [|reflexivity]. rewrite E. erewrite bind_eq by (rewrite schedule_heap_run; setoid_rewrite Edel; reflexivity).
    cbv beta iota. erewrite bind_eq by reflexivity. by rewrite schedule_of_heap. }
  exists ts1, ts2, w', (ps1 ++ (p, dead_entry (Some task) None true) :: ps2).
  split; [done|]. split; [|split; [exact E'|split; [|split]]].
  - intros Hin. apply Hn. rewrite H1. by apply list_elem_of_fmap_2.
  - eapply schedule_ok_update; [exact Hok|exact Hps|exact Hq|..]; rewrite Hw'; unfold items_of_state;
      rewrite ?schedule_of_with, ?schedule_of_heap, ?heap_of_schedule, ?heap_of_with; try done.
    intros q Hin. left. by rewrite <-Hb.
  - unfold tasks_are. rewrite live_app. simpl. rewrite !fmap_app, H1. f_equal. exact H2.
  - rewrite Hw'. by rewrite schedule_of_with.
Qed.
(** ** Running tasks *)

(** What a callback of task [t] does to the queues: nothing, or it takes its own
    task out of one of them, as the post processing of a command does when the
    command ends; the rest of the state may change in any way. *)
Inductive own_changes (t : loc) : W -> W -> Prop :=
  | own_nothing w w' : queues (schedule_of w') = queues (schedule_of w) -> items_of_state w' = items_of_state w -> own_changes t w w'
  | own_unschedule fuel phase err w w' : unschedule_task fuel t phase w = Some (err, w') -> own_changes t w w'
  | own_then w w1 w' : own_changes t w w1 -> own_changes t w1 w' -> own_changes t w w'.

(** Another sequence of tasks than that of [t] stays. *)
Definition others_stay (t : loc) (pss pss' : list entries) : Prop :=
  forall j ps ts, pss !! j = Some ps -> tasks_are ps ts -> (t ∉ ts) -> exists ps', pss' !! j = Some ps' /\ tasks_are ps' ts.

(** The walk over queue [i] stands at item [p]: the items [rest] are still to come. *)
Record walking w (pss : list entries) (i : nat) (p : loc) (rest : list (loc * option loc)) : Prop := mkWalking {
  wk_ok : schedule_ok w pss;
  wk_queue : exists l ps L1, queues (schedule_of w) !! i = Some (Some l) /\ pss !! i = Some ps /\ p ∈ owned (p_blocks l) /\
    live ps = L1 ++ rest /\ (p ∉ rest.*1) /\ (p ∈ (live ps).*1 -> exists L0 v, L1 = L0 ++ [(p, v)]);
  wk_next : p_next <$> items_of_state w !! p = Some (first rest None);
}.

Lemma schedule_ok_same w w' pss :
  queues (schedule_of w') = queues (schedule_of w) -> items_of_state w' = items_of_state w -> schedule_ok w pss -> schedule_ok w' pss.
Proof. intros Eq Ei [H1 H2 H3]. split; rewrite ?Eq, ?Ei; done. Qed.

(** Unscheduling, if it returns at all, deletes an item of the task or does nothing. *)
Lemma unschedule_loop_found l task phase R : forall fuel prev w r,
  seg (link <$> items_of_state w) prev R None -> unschedule_loop fuel l task phase (first R None) w = Some r ->
  r = (ERROR_UNSPECIFIC, w) \/
  exists R1 p R2, R = R1 ++ (p, Some task) :: R2 /\ unschedule_task_queue_item l p phase w = Some r.
Proof.
  induction R as [|[p v] R IH]; intros fuel prev w r Hs E; [destruct fuel; left; by injection E as <-|].
  destruct fuel as [|fuel]; [done|]. destruct Hs as [Hp Hs].
  rewrite lookup_fmap in Hp. destruct (items_of_state w !! p) as [[st w0 d pr nx]|] eqn:Hit; [|done].
  unfold link in Hp. simpl in Hp. simplify_eq. cbn [first unschedule_loop] in E.
  erewrite bind_eq in E by (apply load_run; exact Hit). cbn [p_value p_next] in E. case_bool_decide as Hv.
  - subst v. right. by exists [], p, R.
  - destruct (IH _ _ _ _ Hs E) as [?|(R1 & q & R2 & -> & ?)]; [by left|right]. by exists ((p, v) :: R1), q, R2.
Qed.

(** The state after a task was found in its queue and deleted there. *)
Record unscheduled (k : nat) (t : loc) w w' (pss : list entries) ps1 q ps2 : Prop := mkUnscheduled {
  un_entries : pss !! k = Some (ps1 ++ (q, Live (Some t)) :: ps2);
  un_ok : schedule_ok w' (<[k := ps1 ++ (q, Dead (Some t) None) :: ps2]> pss);
  un_queues : forall i l, queues (schedule_of w) !! i = Some (Some l) ->
    exists l', queues (schedule_of w') !! i = Some (Some l') /\ p_blocks l' = p_blocks l;
  un_elsewhere : forall l, queues (schedule_of w) !! k = Some (Some l) ->
    elsewhere_same (items_of_state w) (items_of_state w') (p_blocks l);
  un_next : forall p, final None (live ps1) <> Some p -> p_next <$> items_of_state w' !! p = p_next <$> items_of_state w !! p;
}.

Lemma unschedule_task_found fuel t phase w err w' pss :
  schedule_ok w pss -> unschedule_task fuel t phase w = Some (err, w') ->
  w' = w \/ exists k ps1 q ps2, unscheduled k t w w' pss ps1 q ps2.
Proof.
  intros Hok E. unfold unschedule_task in E. destruct (valid_phase phase) eqn:Hv; [|left; by injection E as <- <-].
  cbn [negb] in E. cbv iota in E. set (k := Z.to_nat phase). destruct (so_length _ _ Hok) as [_ Hlen].
  destruct (lookup_lt_is_Some_2 pss k) as [ps Hps].
  { unfold k. unfold valid_phase, TASK_SCHEDULE_NUM_TASK_QUEUES in Hv. bools. lia. }
  destruct (so_queue _ _ Hok _ _ Hps) as (l & Hq & Hr). erewrite bind_eq in E by by apply queue_run. cbv beta iota in E.
  rewrite (prep_first _ _ _ Hr) in E.
  destruct (unschedule_loop_found _ _ _ _ _ _ _ _ (prep_seg _ _ _ Hr) E) as [E'|(R1 & q & R2 & Hl & E')]; [left; by injection E'|right].
  clear E. destruct (live_split _ _ _ _ _ Hl) as (ps1 & ps2 & -> & <- & <-). exists k, ps1, q, ps2.
  destruct (prealloc_list_delete_item_run (th_of w) l ps1 q (Some t) ps2 None true Hr) as (l' & m' & Edel & Hr' & Hb & Hs).
  unfold unschedule_task_queue_item in E'. erewrite bind_eq in E' by (rewrite schedule_heap_run; setoid_rewrite Edel; reflexivity).
  cbv beta iota in E'. erewrite bind_eq in E' by reflexivity. injection E' as <- <-. rewrite schedule_of_heap.
  set (w2 := with_schedule _ _).
  assert (items_of_state w2 = m') as Ei by (unfold w2, items_of_state; by rewrite heap_of_schedule, heap_of_with).
  assert (queues (schedule_of w2) = <[k := Some l']> (queues (schedule_of w))) as Eq by (unfold w2; by rewrite schedule_of_with).
  split.
  - done.
  - eapply schedule_ok_update; [exact Hok|exact Hps|exact Hq|exact Eq|by rewrite Ei|by rewrite Ei|]. intros p Hin. left. by rewrite <-Hb.
  - intros i li Hi. rewrite Eq. destruct (decide (k = i)) as [<-|Hne]; [|rewrite list_lookup_insert_ne by done; by exists li].
    exists l'. rewrite Hq in Hi. injection Hi as <-. split; [|done]. apply list_lookup_insert_eq. by eapply lookup_lt_Some.
  - intros l2 Hl2. rewrite Hq in Hl2. injection Hl2 as <-. by rewrite Ei.
  - intros p Hp. rewrite Ei. exact (delete_item_next _ _ _ _ _ _ _ _ _ _ p Hr Edel Hp).
Qed.

Lemma unscheduled_others k t w w' pss ps1 q ps2 :
  unscheduled k t w w' pss ps1 q ps2 -> others_stay t pss (<[k := ps1 ++ (q, Dead (Some t) None) :: ps2]> pss).
Proof.
  intros Hun j ps ts Hj Hts Hn. destruct (decide (k = j)) as [<-|Hne]; [|rewrite list_lookup_insert_ne by done; by exists ps].
  pose proof (un_entries _ _ _ _ _ _ _ _ Hun) as Hk. rewrite Hj in Hk. injection Hk as ->. exfalso. apply Hn.
  unfold tasks_are in Hts. rewrite live_app, fmap_app in Hts. change (live ((q, Live (Some t)) :: ps2)) with ((q, Some t) :: live ps2) in Hts.
  assert (Some t ∈ Some <$> ts) as (t' & E & ?)%list_elem_of_fmap.
  { rewrite <-Hts. apply elem_of_app. right. left. }
  by injection E as ->.
Qed.

Lemma unscheduled_walking k t w w' pss ps1 q ps2 i p rest :
  unscheduled k t w w' pss ps1 q ps2 -> walking w pss i p rest -> (Some t ∉ rest.*2) ->
  walking w' (<[k := ps1 ++ (q, Dead (Some t) None) :: ps2]> pss) i p rest.
Proof.
  intros Hun [Hok (l & ps & L1 & Hq & Hps & Hp & Hl & Hpr & Hlast) Hnext] Hn.
  destruct (un_queues _ _ _ _ _ _ _ _ Hun i l Hq) as (l' & Hq' & Hb).
  destruct (decide (k = i)) as [<-|Hne].
  - pose proof (un_entries _ _ _ _ _ _ _ _ Hun) as Hk. rewrite Hps in Hk. injection Hk as ->.
    destruct (so_queue _ _ Hok _ _ Hps) as (l0 & Hq0 & Hr). rewrite Hq in Hq0. injection Hq0 as <-.
    pose proof (nodup_live _ (prep_nodup_used _ _ _ Hr)) as Hnd. destruct (live_delete ps1 q (Some t) ps2 (Some t) None) as [El El'].
    rewrite El in *. rewrite Hl in Hnd.
    assert (exists X, L1 = live ps1 ++ (q, Some t) :: X /\ live ps2 = X ++ rest) as (X & -> & EX).
    { destruct (app_eq_inv _ _ _ _ Hl) as [(Y & E1 & E2)|([|y X] & E1 & E2)].
      - exfalso. apply Hn. rewrite E2, fmap_app. apply elem_of_app. right. left.
      - exfalso. apply Hn. simpl in E2. rewrite <-E2. left.
      - injection E2 as <- E2. by exists X. }
    assert (NoDup (live ps1 ++ (q, Some t) :: X).*1 /\ forall r, r ∈ (live ps1 ++ (q, Some t) :: X).*1 -> r ∉ rest.*1) as [Hnd1 Hdr].
    { rewrite fmap_app in Hnd. apply NoDup_app in Hnd as (? & ? & ?). done. }
    assert (forall r, r ∈ (live ps1).*1 -> r ∉ ((q, Some t) :: X).*1) as Hd1.
    { rewrite fmap_app in Hnd1. apply NoDup_app in Hnd1 as (? & Hd & ?). exact Hd. }
    assert (p ∈ (live ps1 ++ (q, Some t) :: live ps2).*1 -> (p ∉ (live ps1).*1) /\
      (X = [] /\ p = q \/ exists X' v, X = X' ++ [(p, v)])) as Hpos.
    { intros Hin. destruct (Hlast Hin) as (L0 & v & E). destruct X as [|x X] using rev_ind.
      - apply app_inj_2 in E as [_ E]; [|done]. injection E as <- _. split; [|by left]. intros Hp1. by apply (Hd1 _ Hp1); left.
      - clear IHX. rewrite app_comm_cons, app_assoc in E. apply app_inj_2 in E as [_ E]; [|done]. injection E as ->. split; [|right; eauto].
        intros Hp1. apply (Hd1 _ Hp1). rewrite fmap_cons, fmap_app. right. apply elem_of_app. right. left. }
    split; [by apply (un_ok _ _ _ _ _ _ _ _ Hun)| |].
    + exists l', (ps1 ++ (q, Dead (Some t) None) :: ps2), (live ps1 ++ X). split; [done|].
      split; [apply list_lookup_insert_eq; by eapply lookup_lt_Some|]. rewrite Hb, El', EX, app_assoc. do 2 (split; [done|]). split; [done|].
      intros Hin. destruct Hpos as [Hp1 [[-> ->]|(X' & v & ->)]].
      * rewrite EX. rewrite <-app_assoc, !fmap_app in Hin. rewrite fmap_app, fmap_cons, fmap_app.
        repeat rewrite ?elem_of_app, ?elem_of_cons in *. tauto.
      * exfalso. rewrite app_nil_r, fmap_app in Hin. apply elem_of_app in Hin as [?|?]; done.
      * exists (live ps1 ++ X'), v. by rewrite app_assoc.
    + rewrite (un_next _ _ _ _ _ _ _ _ Hun); [done|]. intros Hf%final_elem. destruct Hpos as [Hp1 _]; [|done].
      rewrite fmap_app. apply elem_of_app. by left.
  - split; [by apply (un_ok _ _ _ _ _ _ _ _ Hun)| |].
    + exists l', ps, L1. rewrite list_lookup_insert_ne by done. by rewrite Hb.
    + destruct (so_queue _ _ Hok _ _ (un_entries _ _ _ _ _ _ _ _ Hun)) as (lk & Hqk & Hrk).
      rewrite (un_elsewhere _ _ _ _ _ _ _ _ Hun lk Hqk); [done| |].
      * destruct (items_of_state w !! p); [by eexists|done].
      * intros Hin. by apply (so_apart _ _ Hok k i lk l Hne Hqk Hq p).
Qed.

Lemma own_changes_keep t w w' : own_changes t w w' -> forall pss, schedule_ok w pss ->
  exists pss', schedule_ok w' pss' /\ others_stay t pss pss' /\
    forall i p rest, walking w pss i p rest -> (Some t ∉ rest.*2) -> walking w' pss' i p rest.
Proof.
  induction 1 as [w w' Eq Ei|fuel phase err w w' E|w w1 w' _ IH1 _ IH2]; intros pss Hok.
  - exists pss. split; [by eapply schedule_ok_same|]. split; [by intros j ps ts ???; exists ps|].
    intros i p rest [_ Hq Hn] _. split; [by eapply schedule_ok_same|by rewrite Eq|by rewrite Ei].
  - destruct (unschedule_task_found _ _ _ _ _ _ _ Hok E) as [-> |(k & ps1 & q & ps2 & Hun)].
    { exists pss. split; [done|]. split; [by intros j ps ts ???; exists ps|done]. }
    eexists. split; [apply (un_ok _ _ _ _ _ _ _ _ Hun)|]. split; [by eapply unscheduled_others|].
    intros i p rest Hw Hn. by eapply unscheduled_walking.
  - destruct (IH1 _ Hok) as (pss1 & Hok1 & Ho1 & Hw1). destruct (IH2 _ Hok1) as (pss2 & Hok2 & Ho2 & Hw2).
    exists pss2. split; [done|]. split; [|by intros ?????; apply Hw2; [apply Hw1|]].
    intros j ps ts Hj Hts Hn. destruct (Ho1 _ _ _ Hj Hts Hn) as (ps1 & ? & ?). by eapply Ho2.
Qed.

Section Run.
Context (on_processing : loc -> option (Z -> M W unit)).

(** A task's callback takes at most this task out of the queues. *)
Definition minds_its_task (t : loc) (f : Z -> M W unit) : Prop :=
  forall phase w w', f phase w = Some (tt, w') -> own_changes t w w'.

Context (Hcallbacks : forall task f, on_processing task = Some f -> minds_its_task task f).

Definition run_all (ts : list loc) (phase : Z) : M W unit := for_each (fun t => call_task on_processing t phase) ts.

Lemma call_task_changes t phase w w' : call_task on_processing t phase w = Some (tt, w') -> own_changes t w w'.
Proof.
  unfold call_task. destruct (on_processing t) as [f|] eqn:E; [by apply (Hcallbacks _ _ E)|]. intros [= ->]. by apply own_nothing.
Qed.

Lemma run_all_others ts phase : forall w w' pss, run_all ts phase w = Some (tt, w') -> schedule_ok w pss ->
  exists pss', schedule_ok w' pss' /\
    forall j ps us, pss !! j = Some ps -> tasks_are ps us -> (forall t, t ∈ ts -> t ∉ us) -> exists ps', pss' !! j = Some ps' /\ tasks_are ps' us.
Proof.
  induction ts as [|t ts IH]; intros w w' pss; [intros [= ->] Hok; exists pss; split; [done|]; eauto|].
  intros ([] & w1 & E & E')%bind_Some Hok.
  destruct (own_changes_keep _ _ _ (call_task_changes _ _ _ _ E) _ Hok) as (pss1 & Hok1 & Ho1 & _).
  destruct (IH _ _ _ E' Hok1) as (pss2 & Hok2 & Ho2). exists pss2. split; [done|]. intros j ps us Hj Hus Hn.
  destruct (Ho1 _ _ _ Hj Hus) as (ps1 & Hj1 & Hus1); [apply Hn; left|]. eapply Ho2; [done|done|]. intros u Hu. apply Hn. by right.
Qed.

(** The items from [rest] on, found again after what happened to those before. *)
Lemma run_queue_run skip phase i rest : forall fuel ts w pss ps l L1,
  schedule_ok w pss -> queues (schedule_of w) !! i = Some (Some l) -> pss !! i = Some ps -> live ps = L1 ++ rest ->
  rest.*2 = Some <$> ts -> NoDup ts -> (length rest <= fuel)%nat ->
  run_queue on_processing fuel skip phase (first rest None) w = run_all ts phase w.
Proof.
  induction rest as [|[p v] rest IH]; intros fuel ts w pss ps l L1 Hok Hq Hps Hl Hts Hnd Hfuel; destruct ts as [|t ts]; try done;
    [by destruct fuel|]. destruct fuel as [|fuel]; [simpl in Hfuel; lia|]. simpl in Hts. injection Hts as -> Hts.
  apply NoDup_cons in Hnd as [Hn Hnd].
  destruct (so_queue _ _ Hok _ _ Hps) as (l0 & Hq0 & Hr). rewrite Hq in Hq0. injection Hq0 as <-.
  destruct (live_split _ _ _ _ _ Hl) as (ps1 & ps2 & -> & E1 & E2). pose proof (live_item _ _ _ _ _ _ Hr) as Hit. rewrite E2 in Hit.
  cbn [first run_queue]. erewrite bind_eq by (apply load_run; exact Hit).
  unfold run_all. cbn [for_each p_value]. unfold mbind at 1 3, M_bind at 1 3.
  destruct (call_task on_processing t phase w) as [[[] w1]|] eqn:E; [|done].
  assert (walking w pss i p rest) as Hw.
  { split; [done| |by rewrite Hit]. exists l, (ps1 ++ (p, Live (Some t)) :: ps2), (L1 ++ [(p, Some t)]).
    pose proof (nodup_live _ (prep_nodup_used _ _ _ Hr)) as Hndl. split; [done|]. split; [done|]. split.
    { apply used_owned. rewrite (prep_used _ _ _ Hr), fmap_app. apply elem_of_app. right. left. }
    split; [by rewrite Hl, <-app_assoc|]. split; [|eauto].
    rewrite Hl, fmap_app, fmap_cons in Hndl. apply NoDup_app in Hndl as (_ & _ & [? _]%NoDup_cons). done. }
  assert (Some t ∉ rest.*2) as Hn2.
  { change (rest.*2 = Some <$> ts) in Hts. rewrite Hts. intros (t' & Et & ?)%list_elem_of_fmap. by injection Et as ->. }
  destruct (own_changes_keep _ _ _ (call_task_changes _ _ _ _ E) _ Hok) as (pss1 & Hok1 & _ & Hw1).
  destruct (Hw1 _ _ _ Hw Hn2) as [_ (l1 & ps1' & L1' & Hq1 & Hps1 & _ & Hl1 & _) Hnext].
  destruct (items_of_state w1 !! p) as [it|] eqn:Hit1; [|done]. injection Hnext as Hnext.
  erewrite bind_eq by (apply load_run; exact Hit1). rewrite Hnext.
  eapply (IH fuel ts w1 pss1 ps1' l1 L1'); try done. simpl in Hfuel. lia.
Qed.

Lemma run_phase_queue_run fuel skip phase i ps ts w pss :
  schedule_ok w pss -> pss !! Z.to_nat i = Some ps -> tasks_are ps ts -> NoDup ts ->
  (length ts <= fuel)%nat -> run_phase_queue on_processing fuel skip phase i w = run_all ts phase w.
Proof.
  intros Hok Hps Hts Hnd Hfuel. destruct (so_queue _ _ Hok _ _ Hps) as (l & Hq & Hr).
  unfold run_phase_queue. erewrite bind_eq by by apply queue_run. cbv beta iota.
  rewrite (prep_first _ _ _ Hr). eapply (run_queue_run skip phase (Z.to_nat i) (live ps)) with (L1 := []); try done.
  apply (f_equal length) in Hts. rewrite !length_fmap in Hts. lia.
Qed.

(** The queues are run under the lock. *)
Definition run_locked (ts : list loc) (phase : Z) : M W unit :=
  err ← lock_schedule;
  if negb (err =? ERROR_NONE) then mret tt else _ ← run_all ts phase; unlock_schedule.

Lemma bind_assoc {A B C} (m : M W A) (f : A -> M W B) (g : B -> M W C) w :
  ((x ← m; f x) ≫= g) w = (x ← m; (f x ≫= g)) w.
Proof. unfold mbind, M_bind. by destruct (m w) as [[??]|]. Qed.

Lemma run_all_app ts1 ts2 phase w : run_all (ts1 ++ ts2) phase w = (_ ← run_all ts1 phase; run_all ts2 phase) w.
Proof.
  unfold run_all. revert w. induction ts1 as [|t ts1 IH]; intros w; [done|]. cbn [for_each app].
  rewrite bind_assoc. unfold mbind at 1 2, M_bind at 1 2. destruct (call_task on_processing t phase w) as [[? w1]|]; [apply IH|done].
Qed.

(** A program after locking the schedule depends only on states with the same queues. *)
Lemma locked_ext (m m' : M W unit) w :
  (forall w', queues (schedule_of w') = queues (schedule_of w) -> items_of_state w' = items_of_state w -> m w' = m' w') ->
  (err ← lock_schedule; if negb (err =? ERROR_NONE) then mret tt else m) w =
  (err ← lock_schedule; if negb (err =? ERROR_NONE) then mret tt else m') w.
Proof.
  intros Hm. destruct (lock_schedule_run w) as (w' & E & Hs & Hi). erewrite !bind_eq by exact E. cbv beta.
  destruct (lock_result w =? ERROR_NONE); red_if; [|done]. apply Hm; [by rewrite Hs|done].
Qed.

Lemma run_phase_locked fuel w pss phase ps ts :
  schedule_ok w pss -> valid_phase phase = true -> pss !! Z.to_nat phase = Some ps -> tasks_are ps ts -> NoDup ts -> (length ts <= fuel)%nat ->
  run_tasks on_processing fuel phase w = run_locked ts phase w.
Proof.
  intros Hok Hv Hps Hts Hnd Hfuel. unfold run_tasks, run_locked.
  assert ((phase =? TASK_SCHEDULE_POST_PROCESSING) = false) as ->.
  { unfold valid_phase in Hv. bools. unfold TASK_SCHEDULE_POST_PROCESSING. lia. }
  rewrite Hv. red_if. apply locked_ext. intros w' Hqs Hi. unfold mbind at 1 2, M_bind at 1 2.
  by erewrite run_phase_queue_run by first [by eapply schedule_ok_same|done].
Qed.

Lemma run_post_locked fuel w ps0 ps1 ts0 ts1 :
  schedule_ok w [ps0; ps1] -> tasks_are ps0 ts0 -> tasks_are ps1 ts1 -> NoDup (ts0 ++ ts1) -> (length ts0 + length ts1 <= fuel)%nat ->
  run_tasks on_processing fuel TASK_SCHEDULE_POST_PROCESSING w = run_locked (ts0 ++ ts1) TASK_SCHEDULE_POST_PROCESSING w.
Proof.
  intros Hok Hts0 Hts1 (Hnd0 & Hd & Hnd1)%NoDup_app Hfuel.
  unfold run_tasks, run_tasks_post_processing, run_locked. change (TASK_SCHEDULE_POST_PROCESSING =? _) with true. cbv beta iota.
  apply locked_ext. intros w' Hqs Hi. change (seqZ 0 TASK_SCHEDULE_NUM_TASK_QUEUES) with [0; 1]. cbn [for_each].
  assert (schedule_ok w' [ps0; ps1]) as Hok' by by eapply schedule_ok_same.
  rewrite bind_assoc. unfold mbind at 1, M_bind at 1.
  rewrite (run_phase_queue_run fuel true TASK_SCHEDULE_POST_PROCESSING 0 ps0 ts0 w' _ Hok' eq_refl Hts0 Hnd0) by lia.
  unfold mbind at 3, M_bind at 3. rewrite run_all_app. unfold mbind at 3, M_bind at 3.
  destruct (run_all ts0 TASK_SCHEDULE_POST_PROCESSING w') as [[[] w1]|] eqn:E; [|done].
  destruct (run_all_others _ _ _ _ _ E Hok') as (pss1 & Hok1 & Ho1).
  destruct (Ho1 1%nat ps1 ts1 eq_refl Hts1 Hd) as (ps1' & Hps1' & Hts1'). rewrite bind_assoc. unfold mbind at 1, M_bind at 1.
  rewrite (run_phase_queue_run fuel true TASK_SCHEDULE_POST_PROCESSING 1 ps1' ts1 w1 _ Hok1 Hps1' Hts1' Hnd1) by lia.
  by destruct (run_all ts1 TASK_SCHEDULE_POST_PROCESSING w1) as [[[] w2]|].
Qed.
End Run.
End Laws.

(** ** Creation *)

Lemma create_task_schedule_run (h : task_heap) :
  exists err s h', create_task_schedule h = Some ((err, s), h') /\
    (env_alloc (ph_env h) = [] -> env_mtx (ph_env h) = [] -> err = ERROR_NONE /\ env_alloc (ph_env h') = []) /\
    match s with
    | None => err <> ERROR_NONE
    | Some s => err = ERROR_NONE /\ ts_lock s = 0 /\ ts_destruction_pending s = false /\
        exists l0 l1, queues s = [Some l0; Some l1] /\ prep (ph_items h') l0 [] /\ prep (ph_items h') l1 [] /\ apart l0 l1
    end.
Proof.
  unfold create_task_schedule. erewrite bind_eq by (apply p_env_eq, zmalloc_eq; done).
  assert (env_alloc (ph_env h) = [] -> env_alloc (alloc_rest (ph_env h)) = [] /\ alloc_next (ph_env h) = true) as Hal.
  { intros Ha. unfold alloc_rest, alloc_next. simpl. by rewrite Ha. }
  destruct (alloc_next (ph_env h)); red_if.
  2:{ eexists _, None, _. split; [done|]. split; [intros Ha; by destruct (Hal Ha)|done]. }
  set (e1 := mkEnv (env_alloc (alloc_rest (ph_env h))) (tail (env_mtx (ph_env h))) (env_clock (ph_env h))).
  assert (p_env mtx_lock_result (mkPHeap (ph_items h) (ph_calls h) (alloc_rest (ph_env h))) =
    Some (default true (head (env_mtx (ph_env h))), mkPHeap (ph_items h) (ph_calls h) e1)) as Em.
  { unfold p_env, zoom, mtx_lock_result, e1, alloc_rest. simpl. destruct (env_mtx (ph_env h)) as [|b bs] eqn:Hm; simpl; by rewrite ?Hm. }
  erewrite bind_eq by exact Em. destruct (default true (head (env_mtx (ph_env h)))) eqn:Hmtx; red_if.
  2:{ eexists _, None, _. split; [done|]. split; [intros _ Hm; by rewrite Hm in Hmtx|done]. }
  destruct (create_preallocated_list_run (mkPHeap (ph_items h) (ph_calls h) e1)) as (r0 & h0 & E0 & _ & Ha0 & Hr0).
  erewrite bind_eq by exact E0. destruct r0 as [l0|].
  2:{ eexists _, None, _. split; [done|]. split; [intros Ha _; by destruct (Ha0 (proj1 (Hal Ha)))|done]. }
  destruct (create_preallocated_list_run h0) as (r1 & h1 & E1 & _ & Ha1 & Hr1). erewrite bind_eq by exact E1.
  destruct Hr0 as (Hr0 & _ & _ & _). destruct r1 as [l1|].
  - destruct Hr1 as (Hr1 & _ & Hnew & Hsame). eexists _, (Some _), _. split; [done|]. split; [intros Ha _; split; [done|]; by apply Ha1, Ha0, Hal|].
    do 3 (split; [done|]). exists l0, l1. split; [done|]. split; [|split; [done|]].
    + eapply prep_frame; [|exact Hr0]. intros p Hp. apply Hsame. by eapply prep_owned.
    + intros q Hq Hq0. destruct (prep_owned _ _ _ q Hr0 Hq0). rewrite Hnew in H by done. done.
  - assert (prep (ph_items h1) l0 []) as Hr by by rewrite Hr1.
    destruct (destroy_preallocated_list_run h1 l0 [] (Some tt) PREALLOC_LIST_CALL_DEFERRED_DESTRUCTORS Hr) as (m' & E' & _).
    erewrite bind_eq by exact E'. eexists _, None, _. split; [done|]. split; [|done].
    intros Ha _. by destruct (Ha1 (proj1 (Ha0 (proj1 (Hal Ha))))).
Qed.

(** * The schedule as two sequences of tasks *)

(** a scheduled task is added at the end of the sequence of its queue, or
    nothing changes if memory is exhausted; unscheduling removes the first
    occurrence of the task and fails without any change if there is none; an
    invalid phase and, for scheduling, a pending destruction are refused; the
    other queue and the number of locks held are never affected. *)
Theorem scheduling_refines {W} `{ScheduleLaws W} (fuel : nat) (w : W) pss phase ps ts task :
  schedule_ok w pss -> pss !! Z.to_nat phase = Some ps -> tasks_are ps ts -> (length ts <= fuel)%nat ->
  if negb (valid_phase phase) then
    schedule_task task phase w = Some (TASK_SCHEDULE_ERROR_INVALID_PHASE, w) /\
    unschedule_task fuel task phase w = Some (TASK_SCHEDULE_ERROR_INVALID_PHASE, w)
  else
    (exists err w' ps', schedule_task task phase w = Some (err, w') /\ schedule_ok w' (<[Z.to_nat phase := ps']> pss) /\
       ts_lock (schedule_of w') = ts_lock (schedule_of w) /\
       if ts_destruction_pending (schedule_of w) then err = ERROR_DESTRUCTION_PENDING /\ tasks_are ps' ts
       else (env_alloc (ph_env (th_of w)) = [] -> err = ERROR_NONE) /\
         (err = ERROR_NONE /\ tasks_are ps' (ts ++ [task]) \/ err = ERROR_UNSPECIFIC /\ tasks_are ps' ts)) /\
    ((exists ts1 ts2 w' ps', ts = ts1 ++ task :: ts2 /\ (task ∉ ts1) /\
        unschedule_task fuel task phase w = Some (ERROR_NONE, w') /\ schedule_ok w' (<[Z.to_nat phase := ps']> pss) /\
        tasks_are ps' (ts1 ++ ts2) /\ ts_lock (schedule_of w') = ts_lock (schedule_of w)) \/
     ((task ∉ ts) /\ unschedule_task fuel task phase w = Some (ERROR_UNSPECIFIC, w))).
Proof.
  intros Hok Hps Hts Hfuel. destruct (valid_phase phase) eqn:Hv; red_if.
  2:{ unfold schedule_task, unschedule_task. by rewrite Hv. }
  split; [|by eapply unschedule_task_run]. destruct (ts_destruction_pending (schedule_of w)) eqn:Hpend.
  - exists ERROR_DESTRUCTION_PENDING, w, ps. split; [|by rewrite list_insert_id].
    unfold schedule_task. rewrite Hv. red_if. erewrite bind_eq by done. by rewrite Hpend.
  - destruct (schedule_task_run w pss phase ps ts task Hok Hv Hps Hts Hpend) as (err & w' & ps' & ? & ? & ? & ? & Hres).
    exists err, w', ps'. do 3 (split; [done|]). split; [done|]. destruct Hres as [?|[? ->]]; [by left|by right].
Qed.

(** C35: running a phase takes the lock, calls each task of that phase exactly
    once in the order of scheduling and releases the lock; post processing does
    so for the tasks of both phases; if the lock is refused, or the phase is
    unknown, no task is called. No task may be scheduled twice. A callback may
    do anything to the rest of the program, and may take its own task out of the
    queues while they are walked, as the post processing of a command that ends
    does: none of the tasks that follow is skipped or called twice for that. *)
Theorem tasks_run_in_order {W} `{ScheduleLaws W} (on_processing : loc -> option (Z -> M W unit)) (fuel : nat) (w : W) ps0 ps1 ts0 ts1 :
  schedule_ok w [ps0; ps1] -> tasks_are ps0 ts0 -> tasks_are ps1 ts1 -> NoDup (ts0 ++ ts1) -> (length ts0 + length ts1 <= fuel)%nat ->
  (forall task f, on_processing task = Some f -> minds_its_task task f) ->
  forall phase, run_tasks on_processing fuel phase w =
    if phase =? TASK_SCHEDULE_BEFORE_FLIGHT_MODEL then run_locked on_processing ts0 phase w
    else if phase =? TASK_SCHEDULE_AFTER_FLIGHT_MODEL then run_locked on_processing ts1 phase w
    else if phase =? TASK_SCHEDULE_POST_PROCESSING then run_locked on_processing (ts0 ++ ts1) phase w
    else Some (tt, w).
Proof.
  intros Hok Hts0 Hts1 Hnd Hfuel Hc phase. pose proof (proj1 (NoDup_app _ _) Hnd) as (Hnd0 & _ & Hnd1).
  destruct (phase =? TASK_SCHEDULE_BEFORE_FLIGHT_MODEL) eqn:Hp0; bools.
  { subst. eapply run_phase_locked; [done|done|done|reflexivity|done|done|lia]. }
  destruct (phase =? TASK_SCHEDULE_AFTER_FLIGHT_MODEL) eqn:Hp1; bools.
  { subst. eapply run_phase_locked; [done|done|done|reflexivity|done|done|lia]. }
  destruct (phase =? TASK_SCHEDULE_POST_PROCESSING) eqn:Hp2; bools.
  { subst. by eapply run_post_locked. }
  unfold run_tasks. destruct (phase =? TASK_SCHEDULE_POST_PROCESSING) eqn:Hp3; bools; [done|].
  assert (valid_phase phase = false) as ->; [|done].
  unfold valid_phase, TASK_SCHEDULE_NUM_TASK_QUEUES, TASK_SCHEDULE_BEFORE_FLIGHT_MODEL, TASK_SCHEDULE_AFTER_FLIGHT_MODEL in *.
  apply andb_false_iff. destruct (Z.leb_spec 0 phase); [right; apply Z.ltb_ge; lia|by left].
Qed.

(** ** A program that consists of a schedule and a log *)

Definition demo_program : Type := task_schedule_t * task_heap * list (loc * Z).

#[local] Instance demo_schedule : HasSchedule demo_program := {
  schedule_of w := w.1.1;
  with_schedule s w := (s, w.1.2, w.2);
  schedule_env A m := zoom (fun w => w.1.2) (fun h w => (w.1.1, h, w.2)) (p_env m);
  schedule_heap A m := zoom (fun w => w.1.2) (fun h w => (w.1.1, h, w.2)) m;
}.

#[local] Instance demo_laws : ScheduleLaws demo_program.
Proof.
  refine {| th_of w := w.1.2; with_th h w := (w.1.1, h, w.2) |}; try done. by intros [[??]?].
Defined.

(** A task logs its calls; task 5 ends in its post processing. *)
Definition demo_callback (task : loc) : option (Z -> M demo_program unit) := Some (fun phase =>
  _ ← modify (fun w => (w.1, w.2 ++ [(task, phase)]));
  if bool_decide (task = 5%positive) && (phase =? TASK_SCHEDULE_POST_PROCESSING) then
    _ ← unschedule_task 5 task TASK_SCHEDULE_BEFORE_FLIGHT_MODEL; mret tt
  else mret tt).

Definition demo_created : demo_program :=
  match create_task_schedule (mkPHeap ∅ [] calm) with
  | Some ((_, Some s), h) => (s, h, [])
  | _ => (mkSchedule 0 [] false, mkPHeap ∅ [] calm, [])
  end.
Definition demo_add (task : loc) (phase : Z) (w : demo_program) : demo_program :=
  match schedule_task task phase w with Some (_, w') => w' | None => w end.

Lemma demo_add_ok task phase w pss ps ts :
  schedule_ok w pss -> valid_phase phase = true -> pss !! Z.to_nat phase = Some ps -> tasks_are ps ts ->
  ts_destruction_pending (schedule_of w) = false -> env_alloc (ph_env (th_of w)) = [] ->
  exists ps', schedule_ok (demo_add task phase w) (<[Z.to_nat phase := ps']> pss) /\ tasks_are ps' (ts ++ [task]).
Proof.
  intros Hok Hv Hps Hts Hp Ha. destruct (schedule_task_run w pss phase ps ts task Hok Hv Hps Hts Hp) as (err & w' & ps' & E & Hok' & _ & Hn & Hres).
  exists ps'. unfold demo_add. rewrite E. destruct Hres as [[_ Ht]|[Hbad _]]; [done|by rewrite (Hn Ha) in Hbad].
Qed.

Definition demo_scheduled : demo_program := demo_add 7%positive 1 (demo_add 6%positive 0 (demo_add 5%positive 0 demo_created)).

Lemma demo_scheduled_ok :
  exists ps0 ps1, schedule_ok demo_scheduled [ps0; ps1] /\ tasks_are ps0 [5; 6]%positive /\ tasks_are ps1 [7]%positive.
Proof.
  assert (schedule_ok demo_created [[]; []]) as Hok.
  { destruct (create_task_schedule_run (mkPHeap ∅ [] calm)) as (err & s & h & E & Hc & Hs). unfold demo_created. rewrite E.
    destruct (Hc eq_refl eq_refl) as [-> Ha]. clear E. destruct s as [s|]; [|exfalso; by apply Hs]. destruct Hs as (_ & _ & Hp & l0 & l1 & Hq & Hr0 & Hr1 & Hap).
    split; cbn [schedule_of demo_schedule fst]; rewrite ?Hq; [done| |].
    - intros [|[|i]] ps Hi; try done; injection Hi as <-; [by exists l0|by exists l1].
    - intros [|[|i]] [|[|j]] l l' Hne Hi Hj; try done; simpl in *; simplify_eq; [done|by apply apart_sym]. }
  destruct (demo_add_ok 5%positive 0 demo_created _ [] [] Hok eq_refl eq_refl eq_refl) as (qs1 & Hok1 & Ht1); [by vm_compute..|].
  destruct (demo_add_ok 6%positive 0 _ _ qs1 _ Hok1 eq_refl eq_refl Ht1) as (qs2 & Hok2 & Ht2); [by vm_compute..|].
  destruct (demo_add_ok 7%positive 1 _ _ [] [] Hok2 eq_refl eq_refl eq_refl) as (qs3 & Hok3 & Ht3); [by vm_compute..|].
  by exists qs2, qs3.
Qed.

Lemma scheduling_refines_witness :
  exists pss ps, schedule_ok demo_scheduled pss /\ tasks_are ps [5; 6]%positive /\
    exists ts1 ts2 w' ps', [5; 6]%positive = ts1 ++ 5%positive :: ts2 /\ (5%positive ∉ ts1) /\
      unschedule_task 2 5%positive 0 demo_scheduled = Some (ERROR_NONE, w') /\ schedule_ok w' (<[Z.to_nat 0 := ps']> pss) /\
      tasks_are ps' (ts1 ++ ts2) /\ ts_lock (schedule_of w') = ts_lock (schedule_of demo_scheduled).
Proof.
  destruct demo_scheduled_ok as (ps0 & ps1 & Hok & Ht0 & _). exists [ps0; ps1], ps0.
  split; [exact Hok|]. split; [exact Ht0|].
  destruct (scheduling_refines 2 demo_scheduled [ps0; ps1] 0 ps0 [5; 6]%positive 5%positive Hok eq_refl Ht0 (le_n 2)) as [_ [Hu|[Hn _]]]; [exact Hu|].
  exfalso. apply Hn. left.
Defined.

(** In post processing task 5 leaves the schedule, and all three tasks are called. *)
Definition demo_log (m : M demo_program unit) : option (list (loc * Z)) := (fun r => r.2.2) <$> m demo_scheduled.

Example demo_post_processing :
  demo_log (run_tasks demo_callback 3 TASK_SCHEDULE_POST_PROCESSING) = Some [(5%positive, -1); (6%positive, -1); (7%positive, -1)].
Proof. vm_compute. reflexivity. Qed.

Example demo_post_processing_then_phase :
  demo_log (_ ← run_tasks demo_callback 3 TASK_SCHEDULE_POST_PROCESSING; run_tasks demo_callback 3 0) =
    Some [(5%positive, -1); (6%positive, -1); (7%positive, -1); (6%positive, 0)].
Proof. vm_compute. reflexivity. Qed.

Lemma tasks_run_in_order_witness :
  exists w : demo_program, w = demo_scheduled /\ forall phase,
    run_tasks demo_callback 3 phase w =
    if phase =? TASK_SCHEDULE_BEFORE_FLIGHT_MODEL then run_locked demo_callback [5; 6]%positive phase w
    else if phase =? TASK_SCHEDULE_AFTER_FLIGHT_MODEL then run_locked demo_callback [7]%positive phase w
    else if phase =? TASK_SCHEDULE_POST_PROCESSING then run_locked demo_callback ([5; 6]%positive ++ [7]%positive) phase w
    else Some (tt, w).
Proof.
  destruct demo_scheduled_ok as (ps0 & ps1 & Hok & Ht0 & Ht1). exists demo_scheduled. split; [reflexivity|].
  assert (forall task f, demo_callback task = Some f -> minds_its_task task f) as Hf.
  { intros task f Hf. injection Hf as <-. intros phase w1 w' ([] & w2 & E1 & E)%bind_Some.
    apply own_then with (w1 := w2); [injection E1 as <-; by apply own_nothing|].
    case_match; [|injection E as <-; by apply own_nothing].
    apply bind_Some in E as (err & w3 & E & E2). injection E2 as <-. by eapply own_unschedule. }
  assert (NoDup ([5; 6]%positive ++ [7]%positive)) as Hnd by (apply (bool_decide_unpack _); by vm_compute).
  exact (tasks_run_in_order demo_callback 3 demo_scheduled ps0 ps1 [5; 6]%positive [7]%positive Hok Ht0 Ht1 Hnd (le_n 3) Hf).
Defined.
