(* ===== verification/Network.v ===== *)
(** The byte streams of a connection ([network.c]): the ring buffer between
    [send_to_network] and the send thread, and the splitting of received data
    into lines.

    The ring buffer is a map from offsets to the characters written so far
    (memory is zeroed when allocated); an access at an offset outside of the
    buffer is undefined behaviour. The operating system's [send] is an input of
    the model: how much of a chunk it took. *)

From S2P Require Import Prelude CLib Utils.

Definition NETWORK_ERROR_SHUTDOWN : error_t := NETWORK_ERROR_BASE + 5.
Definition NETWORK_ERROR_CAPACITY : error_t := NETWORK_ERROR_BASE + 6.
Definition NETWORK_SEND_COMPLETE_STRING : Z := -34768.

Definition SEND_BUFFER_SIZE : Z := 2 * 1024 * 1024.
Definition SEND_CHUNK_SIZE : Z := 512.
Definition RECEIVE_MAX_LINE_LENGTH : Z := 64 * 1024.

(** [send_locked] tells whether the send mutex is held. *)
Record network_connection_t := mkConnection {
  closing : bool;
  shutdown : bool;
  has_send_mutex : bool;
  send_locked : bool;
  send_ringbuffer : gmap Z ascii;
  send_read_pos : Z;
  send_write_pos : Z;
}.

Definition set_closing (c : network_connection_t) : network_connection_t :=
  mkConnection true (shutdown c) (has_send_mutex c) (send_locked c) (send_ringbuffer c) (send_read_pos c) (send_write_pos c).
Definition set_locked (b : bool) (c : network_connection_t) : network_connection_t :=
  mkConnection (closing c) (shutdown c) (has_send_mutex c) b (send_ringbuffer c) (send_read_pos c) (send_write_pos c).
Definition set_read_pos (p : Z) (c : network_connection_t) : network_connection_t :=
  mkConnection (closing c) (shutdown c) (has_send_mutex c) (send_locked c) (send_ringbuffer c) p (send_write_pos c).
Definition set_ring (ring : gmap Z ascii) (p : Z) (c : network_connection_t) : network_connection_t :=
  mkConnection (closing c) (shutdown c) (has_send_mutex c) (send_locked c) ring (send_read_pos c) p.

(** A connection as the server thread sets it up. *)
Definition new_network_connection : network_connection_t := mkConnection false false true false ∅ 0 0.

(** [memcpy] into the ring buffer. *)
Fixpoint write_ring (pos : Z) (content : list ascii) (ring : gmap Z ascii) : option (gmap Z ascii) :=
  match content with
  | [] => Some ring
  | c :: content' =>
      if (0 <=? pos) && (pos <? SEND_BUFFER_SIZE) then write_ring (pos + 1) content' (<[pos := c]> ring) else None
  end.

Definition read_ring (ring : gmap Z ascii) (pos n : Z) : list ascii :=
  (fun i => default NUL (ring !! i)) <$> seqZ pos n.

Definition capacity_to_read_pos (c : network_connection_t) : Z :=
  if send_write_pos c <? send_read_pos c then send_read_pos c - send_write_pos c - 1
  else if send_read_pos c =? send_write_pos c then SEND_BUFFER_SIZE - 1
  else SEND_BUFFER_SIZE - send_write_pos c + send_read_pos c - 1.

(** The copy into the buffer, in two parts if the end is reached. *)
Definition enqueue (content : list ascii) (length : Z) (c : network_connection_t) : option network_connection_t :=
  let buffer_remaining := SEND_BUFFER_SIZE - send_write_pos c in
  let num_copy_to_end := Z.min buffer_remaining length in
  ring ← write_ring (send_write_pos c) (slice 0 num_copy_to_end content) (send_ringbuffer c);
  let write_pos := send_write_pos c + num_copy_to_end in
  let write_pos := if SEND_BUFFER_SIZE <=? write_pos then 0 else write_pos in
  let num_copy_at_start := length - num_copy_to_end in
  if 0 <? num_copy_at_start then
    ring ← write_ring 0 (slice num_copy_to_end num_copy_at_start content) ring;
    Some (set_ring ring (write_pos + num_copy_at_start) c)
  else Some (set_ring ring write_pos c).

(** [content] is terminated; [lock] is the outcome of [mtx_lock]. Locking a
    mutex that this model's thread left locked does not return: [None]. *)
Definition send_to_network (content : cstr) (length : Z) (lock : bool) : M network_connection_t error_t :=
  c ← get;
  if shutdown c || negb (has_send_mutex c) then mret NETWORK_ERROR_SHUTDOWN
  else if send_locked c then ub
  else if negb lock then mret ERROR_UNSPECIFIC
  else
    _ ← modify (set_locked true);
    let length := if length =? NETWORK_SEND_COMPLETE_STRING then strlen content else length in
    if length <? 0 then mret ERROR_UNSPECIFIC
    else if capacity_to_read_pos c <? length then _ ← modify (set_locked false); mret NETWORK_ERROR_CAPACITY
    else
      c ← get;
      c' ← from_ub (enqueue content length c);
      _ ← put c';
      _ ← modify (set_locked false);
      mret ERROR_NONE.

Definition close_network_connection : M network_connection_t unit :=
  c ← get; if closing c then mret tt else put (set_closing c).

(** ** The send thread *)

(** The chunk one iteration of [run_send_thread] hands to [send]: none if
    everything has been sent. *)
Definition send_chunk (c : network_connection_t) : option Z :=
  if send_read_pos c =? send_write_pos c then None
  else
    let pending :=
      if send_read_pos c <? send_write_pos c then send_write_pos c - send_read_pos c
      else SEND_BUFFER_SIZE - send_read_pos c in
    Some (Z.min pending SEND_CHUNK_SIZE).

(** The characters [send] reads from the buffer. *)
Definition chunk_content (n : Z) (c : network_connection_t) : list ascii :=
  read_ring (send_ringbuffer c) (send_read_pos c) n.

(** [send] took [sent] characters: forward the pointer, wrap if needed. *)
Definition advance (sent : Z) (c : network_connection_t) : network_connection_t :=
  let pos := send_read_pos c + sent in
  set_read_pos (if SEND_BUFFER_SIZE <=? pos then 0 else pos) c.

(** ** The receive thread *)

(** [line_buffer] is the whole array of [RECEIVE_MAX_LINE_LENGTH] characters. *)
Record receiver := mkReceiver { line_buffer : list ascii; line_write_offset : Z }.

Definition new_receiver : receiver := mkReceiver (replicate (Z.to_nat RECEIVE_MAX_LINE_LENGTH) NUL) 0.

(** [line_buffer[offset] = ch]; a write past the array is undefined behaviour. *)
Definition store_char (offset : Z) (ch : ascii) (b : list ascii) : option (list ascii) :=
  if (0 <=? offset) && (offset <? len b) then Some (<[Z.to_nat offset := ch]> b) else None.

Definition is_line_end (ch : ascii) : bool := bool_decide (ch = chr 10) || bool_decide (ch = chr 13).

Section Receive.
(** The connection's flags [shutdown] and [closing], its handler [on_line_received], which gets
    the buffer and the length of the line, and [close_network_connection]. *)
Context {W : Type} (is_shutdown is_closing : W -> bool) (on_line_received : list ascii -> Z -> M W unit) (close : M W unit).

(** The loop over a chunk; returns whether the receive loop has to abort. *)
Fixpoint receive_chunk (chunk : list ascii) (r : receiver) : M W (bool * receiver) :=
  match chunk with
  | [] => mret (false, r)
  | ch :: chunk' =>
      w ← get;
      if is_closing w then mret (false, r)
      else if is_line_end ch then
        if line_write_offset r =? 0 then receive_chunk chunk' r
        else
          _ ← on_line_received (line_buffer r) (line_write_offset r);
          receive_chunk chunk' (mkReceiver (line_buffer r) 0)
      else
        buffer ← from_ub (store_char (line_write_offset r) ch (line_buffer r));
        let r' := mkReceiver buffer (line_write_offset r + 1) in
        if RECEIVE_MAX_LINE_LENGTH <=? line_write_offset r' then mret (true, r') else receive_chunk chunk' r'
  end.

(** The receive loop over the chunks the socket delivers before its end or an
    error, until the connection is shut down or closing, or a line is too long. *)
Fixpoint receive_loop (chunks : list (list ascii)) (r : receiver) : M W unit :=
  match chunks with
  | [] => mret tt
  | chunk :: chunks' =>
      w ← get;
      if is_shutdown w || is_closing w then mret tt
      else
        '(abort, r) ← receive_chunk chunk r;
        if abort : bool then mret tt else receive_loop chunks' r
  end.

Definition run_receive_thread (chunks : list (list ascii)) : M W unit :=
  _ ← receive_loop chunks new_receiver; close.
End Receive.

(** * The stream waiting in the ring buffer *)

(** Characters accepted but not sent yet. *)
Definition pending (c : network_connection_t) : Z := (send_write_pos c - send_read_pos c) mod SEND_BUFFER_SIZE.
Definition stream (c : network_connection_t) : list ascii :=
  (fun k => default NUL (send_ringbuffer c !! ((send_read_pos c + k) mod SEND_BUFFER_SIZE))) <$> seqZ 0 (pending c).

Definition wf_connection (c : network_connection_t) : Prop :=
  0 <= send_read_pos c < SEND_BUFFER_SIZE /\ 0 <= send_write_pos c < SEND_BUFFER_SIZE.

(** Arithmetic modulo the buffer size. *)
Ltac ring_lia := unfold SEND_BUFFER_SIZE in *; Z.to_euclidean_division_equations; lia.

Lemma stream_length c : len (stream c) = pending c.
Proof.
  unfold stream. rewrite length_fmap, length_seqZ.
  assert (0 <= pending c) by (unfold pending; ring_lia). lia.
Qed.

Lemma stream_lookup c k :
  (k < length (stream c))%nat ->
  stream c !! k = Some (default NUL (send_ringbuffer c !! ((send_read_pos c + Z.of_nat k) mod SEND_BUFFER_SIZE))).
Proof.
  intros Hk. pose proof (stream_length c). unfold stream. rewrite list_lookup_fmap, lookup_seqZ_lt by lia. done.
Qed.

Lemma write_ring_spec content : forall pos ring,
  0 <= pos -> pos + len content <= SEND_BUFFER_SIZE ->
  exists ring', write_ring pos content ring = Some ring' /\
    forall i, ring' !! i = if decide (pos <= i < pos + len content) then content !! Z.to_nat (i - pos) else ring !! i.
Proof.
  induction content as [|c content IH]; intros pos ring Hpos Hlen.
  { exists ring. split; [done|]. intros i. rewrite decide_False; [done|]. simpl. lia. }
  simpl. rewrite (proj2 (Z.leb_le 0 pos)), (proj2 (Z.ltb_lt pos _)) by llia. simpl.
  destruct (IH (pos + 1) (<[pos := c]> ring)) as (ring' & -> & H); [lia|llia|].
  exists ring'. split; [done|]. intros i. rewrite H.
  destruct (decide (i = pos)) as [-> |].
  - rewrite decide_False, decide_True by llia. rewrite lookup_insert_eq, Z.sub_diag. done.
  - rewrite lookup_insert_ne by done. destruct (decide (pos + 1 <= i < pos + 1 + len content)).
    + rewrite decide_True by llia. replace (Z.to_nat (i - pos)) with (S (Z.to_nat (i - (pos + 1)))) by lia. done.
    + by rewrite decide_False by llia.
Qed.

Lemma slice_full {A} (i n : Z) (l : list A) :
  0 <= i -> 0 <= n -> i + n <= len l -> len (slice i n l) = n.
Proof. intros. unfold slice. rewrite length_take, length_drop. lia. Qed.

Lemma slice_lookup {A} (i n k : Z) (l : list A) :
  0 <= i -> 0 <= k < n -> slice i n l !! Z.to_nat k = l !! Z.to_nat (i + k).
Proof. intros. unfold slice. rewrite lookup_take_lt, lookup_drop by lia. f_equal. lia. Qed.

(** The copy stores the content circularly from the write position on. *)
Lemma enqueue_spec content c :
  wf_connection c -> len content < SEND_BUFFER_SIZE ->
  exists c', enqueue content (len content) c = Some c' /\ wf_connection c' /\
    send_read_pos c' = send_read_pos c /\
    send_write_pos c' = (send_write_pos c + len content) mod SEND_BUFFER_SIZE /\
    (closing c', shutdown c', has_send_mutex c', send_locked c') =
      (closing c, shutdown c, has_send_mutex c, send_locked c) /\
    forall i, 0 <= i < SEND_BUFFER_SIZE ->
      send_ringbuffer c' !! i =
        let k := (i - send_write_pos c) mod SEND_BUFFER_SIZE in
        if decide (k < len content) then content !! Z.to_nat k else send_ringbuffer c !! i.
Proof.
  intros [Hr Hw] Hlen. unfold enqueue. set (w := send_write_pos c) in *. set (n := len content) in *.
  assert (0 <= n) by (unfold n; lia). set (n1 := Z.min (SEND_BUFFER_SIZE - w) n).
  assert (0 <= n1 <= n /\ w + n1 <= SEND_BUFFER_SIZE) as Hn1 by (unfold n1; lia).
  assert (len (slice 0 n1 content) = n1) as Hl1 by (apply slice_full; lia).
  destruct (write_ring_spec (slice 0 n1 content) w (send_ringbuffer c)) as (ring & -> & H1); [lia|rewrite Hl1; lia|].
  cbn [mbind option_bind]. rewrite Hl1 in H1.
  destruct (Z.ltb_spec 0 (n - n1)).
  - assert (n1 = SEND_BUFFER_SIZE - w) as En1 by (unfold n1 in *; lia).
    rewrite (proj2 (Z.leb_le _ _)) by lia.
    assert (len (slice n1 (n - n1) content) = n - n1) as Hl2 by (apply slice_full; lia).
    destruct (write_ring_spec (slice n1 (n - n1) content) 0 ring) as (ring' & -> & H2); [lia|rewrite Hl2; lia|].
    cbn [mbind option_bind]. rewrite Hl2 in H2.
    eexists. split; [done|]. cbn [send_read_pos send_write_pos send_ringbuffer closing shutdown has_send_mutex send_locked set_ring].
    split; [split; simpl; lia|]. split; [done|].
    split; [apply Z.mod_unique with (q := 1); lia|]. split; [done|].
    intros i Hi. rewrite H2, H1. cbv zeta. destruct (decide (i < w)).
    + rewrite <-(Z.mod_unique (i - w) SEND_BUFFER_SIZE (-1) (i - w + SEND_BUFFER_SIZE)) by lia.
      destruct (decide (0 <= i < 0 + (n - n1))).
      * rewrite decide_True by lia. rewrite Z.sub_0_r, slice_lookup by lia. f_equal. lia.
      * rewrite decide_False by lia. rewrite decide_False by lia. done.
    + rewrite (Z.mod_small (i - w)) by lia. rewrite (decide_False (P := 0 <= i < 0 + (n - n1))) by lia.
      destruct (decide (w <= i < w + n1)).
      * rewrite decide_True by lia. rewrite slice_lookup by lia. done.
      * by rewrite decide_False by lia.
  - assert (n1 = n) as En1 by lia.
    eexists. split; [done|]. cbn [send_read_pos send_write_pos send_ringbuffer closing shutdown has_send_mutex send_locked set_ring].
    assert ((if SEND_BUFFER_SIZE <=? w + n1 then 0 else w + n1) = (w + n) mod SEND_BUFFER_SIZE) as Ew.
    { destruct (Z.leb_spec SEND_BUFFER_SIZE (w + n1)).
      - apply Z.mod_unique with (q := 1); lia.
      - rewrite Z.mod_small; lia. }
    rewrite Ew. split; [split; simpl; [lia|apply Z.mod_pos_bound; unfold SEND_BUFFER_SIZE; lia]|].
    split; [done|]. split; [done|]. split; [done|].
    intros i Hi. rewrite H1. cbv zeta. destruct (decide (i < w)).
    + rewrite <-(Z.mod_unique (i - w) SEND_BUFFER_SIZE (-1) (i - w + SEND_BUFFER_SIZE)) by lia.
      rewrite (decide_False (P := w <= i < w + n1)) by lia. by rewrite decide_False by lia.
    + rewrite (Z.mod_small (i - w)) by lia. destruct (decide (w <= i < w + n1)).
      * rewrite decide_True by lia. rewrite slice_lookup by lia. done.
      * by rewrite decide_False by lia.
Qed.

Lemma capacity_eq c : wf_connection c -> capacity_to_read_pos c = SEND_BUFFER_SIZE - 1 - pending c.
Proof.
  intros [Hr Hw]. unfold capacity_to_read_pos, pending.
  destruct (Z.ltb_spec (send_write_pos c) (send_read_pos c)).
  - rewrite <-(Z.mod_unique _ SEND_BUFFER_SIZE (-1) (send_write_pos c - send_read_pos c + SEND_BUFFER_SIZE)); lia.
  - rewrite Z.mod_small by lia. destruct (Z.eqb_spec (send_read_pos c) (send_write_pos c)); lia.
Qed.

Lemma pending_range c : 0 <= pending c < SEND_BUFFER_SIZE.
Proof. unfold pending. apply Z.mod_pos_bound. unfold SEND_BUFFER_SIZE. lia. Qed.

Lemma list_eq_len {A} (l l' : list A) :
  length l = length l' -> (forall k, (k < length l)%nat -> l !! k = l' !! k) -> l = l'.
Proof.
  intros Hl Hk. apply list_eq. intros k. destruct (Nat.lt_ge_cases k (length l)); [by apply Hk|].
  rewrite !lookup_ge_None_2 by lia. done.
Qed.

Lemma ring_index r k n w :
  0 <= r < SEND_BUFFER_SIZE -> 0 <= w < SEND_BUFFER_SIZE -> (w - r) mod SEND_BUFFER_SIZE = n ->
  0 <= k < SEND_BUFFER_SIZE ->
  ((r + k) mod SEND_BUFFER_SIZE - w) mod SEND_BUFFER_SIZE = if decide (n <= k) then k - n else k - n + SEND_BUFFER_SIZE.
Proof. intros ????. case_decide; ring_lia. Qed.

Lemma ring_append r w n :
  0 <= r < SEND_BUFFER_SIZE -> 0 <= w < SEND_BUFFER_SIZE -> 0 <= n ->
  (w - r) mod SEND_BUFFER_SIZE + n < SEND_BUFFER_SIZE ->
  ((w + n) mod SEND_BUFFER_SIZE - r) mod SEND_BUFFER_SIZE = (w - r) mod SEND_BUFFER_SIZE + n.
Proof.
  intros ???. rewrite Zminus_mod_idemp_l. intros ?.
  rewrite <-(Z.mod_small ((w - r) mod SEND_BUFFER_SIZE + n) SEND_BUFFER_SIZE).
  - rewrite Zplus_mod_idemp_l. f_equal. lia.
  - pose proof (Z.mod_pos_bound (w - r) SEND_BUFFER_SIZE). unfold SEND_BUFFER_SIZE in *. lia.
Qed.

Lemma stream_enqueue content c c' :
  wf_connection c -> pending c + len content < SEND_BUFFER_SIZE ->
  enqueue content (len content) c = Some c' -> wf_connection c' /\ stream c' = stream c ++ content.
Proof.
  intros Hwf Hcap E. pose proof (pending_range c) as Hpr.
  destruct (enqueue_spec content c Hwf) as (c'' & E' & Hwf' & Hr & Hw & _ & Hring); [lia|].
  rewrite E in E'. injection E' as <-. split; [done|].
  assert (pending c' = pending c + len content) as Hp.
  { unfold pending in *. rewrite Hr, Hw. destruct Hwf as [? ?]. apply ring_append; lia. }
  pose proof (stream_length c). pose proof (stream_length c').
  apply list_eq_len; [rewrite length_app; lia|]. intros k Hk. rewrite stream_lookup by done.
  destruct Hwf as [Hr0 Hw0].
  rewrite Hring by (apply Z.mod_pos_bound; unfold SEND_BUFFER_SIZE; lia). cbv zeta. rewrite Hr.
  rewrite (ring_index _ _ (pending c) _ Hr0 Hw0 eq_refl) by lia.
  destruct (decide (pending c <= Z.of_nat k)).
  - rewrite decide_True by lia. rewrite lookup_app_r by lia.
    replace (Z.to_nat (Z.of_nat k - pending c)) with (k - length (stream c))%nat by lia.
    destruct (lookup_lt_is_Some_2 content (k - length (stream c))) as [x ->]; [lia|done].
  - rewrite decide_False by lia. rewrite lookup_app_l, stream_lookup by lia. done.
Qed.

(** The error [send_to_network] returns. *)
Definition send_error (content : cstr) (lock : bool) (c : network_connection_t) : error_t :=
  if shutdown c || negb (has_send_mutex c) then NETWORK_ERROR_SHUTDOWN
  else if negb lock then ERROR_UNSPECIFIC
  else if pending c + len content <? SEND_BUFFER_SIZE then ERROR_NONE else NETWORK_ERROR_CAPACITY.

Lemma send_to_network_spec content length lock c :
  wf_connection c -> send_locked c = false -> length = len content \/ length = NETWORK_SEND_COMPLETE_STRING ->
  exists c', send_to_network content length lock c = Some (send_error content lock c, c') /\ wf_connection c' /\
    send_locked c' = false /\ closing c' = closing c /\ send_read_pos c' = send_read_pos c /\
    stream c' = stream c ++ (if send_error content lock c =? ERROR_NONE then content else []).
Proof.
  intros Hwf Hlock Hlen. unfold send_to_network, send_error. change (get ≫= ?f) with (fun c => f c c). cbv beta zeta.
  destruct (shutdown c || negb (has_send_mutex c)); [eexists; rewrite app_nil_r; by split_and!|].
  rewrite Hlock. destruct lock; simpl negb; cbv iota; [|eexists; rewrite app_nil_r; by split_and!].
  assert ((if length =? NETWORK_SEND_COMPLETE_STRING then strlen content else length) = len content) as ->.
  { unfold NETWORK_SEND_COMPLETE_STRING in *. destruct Hlen as [-> | ->]; [|done].
    by rewrite (proj2 (Z.eqb_neq _ _)) by lia. }
  unfold modify at 1. cbn [mbind M_bind]. rewrite (proj2 (Z.ltb_ge (len content) 0)) by lia.
  rewrite capacity_eq by done. pose proof (pending_range c).
  assert (c = set_locked false (set_locked true c)) as Hc by (destruct c; simpl in *; by subst).
  destruct (Z.ltb_spec (SEND_BUFFER_SIZE - 1 - pending c) (len content)).
  - rewrite (proj2 (Z.ltb_ge _ _)) by lia. eexists. split; [done|]. rewrite <-Hc.
    do 4 (split; [done|]). by rewrite app_nil_r.
  - rewrite (proj2 (Z.ltb_lt _ _)) by lia.
    destruct (enqueue_spec content (set_locked true c)) as (c' & E & Hwf' & Hr & Hw & Hfl & _); [done|lia|].
    destruct (stream_enqueue content (set_locked true c) c') as [_ Hs]; [done|unfold pending in *; simpl; lia|done|].
    mred. cbn [negb]. cbv beta iota. rewrite E. simpl. eexists. split; [done|]. split; [done|]. split; [done|].
    split; [by simplify_eq/=|]. split; [done|]. simpl. exact Hs.
Qed.

(** [send_to_network] appends the whole content to the stream of characters
    waiting to be sent, or, if the connection is shut down, the mutex fails or
    the ring buffer has no room for all of it, refuses with the stream
    unchanged; content is never sent in part. *)
Theorem send_to_network_queues content length lock c :
  wf_connection c -> send_locked c = false -> length = len content \/ length = NETWORK_SEND_COMPLETE_STRING ->
  let err := send_error content lock c in
  exists c', send_to_network content length lock c = Some (err, c') /\ wf_connection c' /\
    send_locked c' = false /\ closing c' = closing c /\
    stream c' = stream c ++ (if err =? ERROR_NONE then content else []).
Proof.
  intros ???. destruct (send_to_network_spec content length lock c) as (c' & ? & ? & ? & ? & _ & ?); [done..|].
  by exists c'.
Qed.

Lemma send_to_network_queues_witness :
  exists c', send_to_network (lit "+ACK aaaa 12") NETWORK_SEND_COMPLETE_STRING true new_network_connection
      = Some (ERROR_NONE, c') /\ wf_connection c' /\
    send_locked c' = false /\ closing c' = closing new_network_connection /\
    stream c' = stream new_network_connection ++ lit "+ACK aaaa 12".
Proof.
  apply (send_to_network_queues (lit "+ACK aaaa 12") NETWORK_SEND_COMPLETE_STRING true new_network_connection);
    [unfold wf_connection; simpl; unfold SEND_BUFFER_SIZE; lia|reflexivity|right; reflexivity].
Defined.

(** ** The send thread drains the stream in order *)

Lemma read_ring_length ring pos n : length (read_ring ring pos n) = Z.to_nat n.
Proof. unfold read_ring. by rewrite length_fmap, length_seqZ. Qed.

(** A part of the stream that does not wrap is contiguous in the buffer. *)
Lemma chunk_content_stream n c :
  wf_connection c -> 0 <= n <= pending c -> send_read_pos c + n <= SEND_BUFFER_SIZE ->
  chunk_content n c = take (Z.to_nat n) (stream c).
Proof.
  intros [Hr _] Hn Hwrap. pose proof (stream_length c). apply list_eq_len.
  - unfold chunk_content. rewrite read_ring_length, length_take. lia.
  - unfold chunk_content. intros k Hk. rewrite read_ring_length in Hk.
    rewrite lookup_take_lt, stream_lookup by lia. unfold read_ring.
    rewrite list_lookup_fmap, lookup_seqZ_lt by lia. simpl. by rewrite Z.mod_small by lia.
Qed.

Lemma send_chunk_spec n c :
  wf_connection c -> send_chunk c = Some n ->
  0 < n <= pending c /\ n <= SEND_CHUNK_SIZE /\ send_read_pos c + n <= SEND_BUFFER_SIZE.
Proof.
  intros [Hr Hw]. unfold send_chunk, pending, SEND_CHUNK_SIZE.
  destruct (Z.eqb_spec (send_read_pos c) (send_write_pos c)); [done|]. intros [= <-].
  destruct (Z.ltb_spec (send_read_pos c) (send_write_pos c)).
  - rewrite Z.mod_small by lia. lia.
  - rewrite <-(Z.mod_unique _ SEND_BUFFER_SIZE (-1) (send_write_pos c - send_read_pos c + SEND_BUFFER_SIZE)) by lia. lia.
Qed.

Lemma stream_advance k c :
  wf_connection c -> 0 < k <= pending c -> send_read_pos c + k <= SEND_BUFFER_SIZE ->
  wf_connection (advance k c) /\ stream (advance k c) = drop (Z.to_nat k) (stream c).
Proof.
  intros [Hr Hw] Hk Hwrap.
  assert (send_read_pos (advance k c) = (send_read_pos c + k) mod SEND_BUFFER_SIZE) as Er.
  { unfold advance. simpl. destruct (Z.leb_spec SEND_BUFFER_SIZE (send_read_pos c + k)).
    - replace (send_read_pos c + k) with SEND_BUFFER_SIZE by lia. by rewrite Z.mod_same.
    - by rewrite Z.mod_small by lia. }
  assert (wf_connection (advance k c)) as Hwf.
  { split; [rewrite Er; apply Z.mod_pos_bound; unfold SEND_BUFFER_SIZE; lia|done]. }
  assert (pending (advance k c) = pending c - k) as Ep.
  { unfold pending at 1. rewrite Er. change (send_write_pos (advance k c)) with (send_write_pos c).
    rewrite Zminus_mod_idemp_r. unfold pending in *.
    rewrite <-(Z.mod_small ((send_write_pos c - send_read_pos c) mod SEND_BUFFER_SIZE - k) SEND_BUFFER_SIZE).
    - rewrite Zminus_mod_idemp_l. f_equal. lia.
    - pose proof (Z.mod_pos_bound (send_write_pos c - send_read_pos c) SEND_BUFFER_SIZE).
      unfold SEND_BUFFER_SIZE in *. lia. }
  split; [done|]. pose proof (stream_length c). pose proof (stream_length (advance k c)).
  apply list_eq_len; [rewrite length_drop; lia|]. intros i Hi.
  rewrite lookup_drop, !stream_lookup by lia. change (send_ringbuffer (advance k c)) with (send_ringbuffer c).
  rewrite Er, Zplus_mod_idemp_l, Nat2Z.inj_add, Z2Nat.id, Z.add_assoc by lia. done.
Qed.

(** A connection, the chunk the send thread is passing to [send] without
    holding the lock, and, for the specification, all characters accepted by
    [send_to_network] and all characters taken by [send] so far. *)
Record link := mkLink {
  lk_connection : network_connection_t;
  lk_in_flight : option (list ascii);
  lk_accepted : list ascii;
  lk_sent : list ascii;
}.

(** Any thread may send while the send thread is waiting for [send]. *)
Inductive link_step : link -> link -> Prop :=
| link_send s content lock err c' :
    send_to_network content NETWORK_SEND_COMPLETE_STRING lock (lk_connection s) = Some (err, c') ->
    link_step s (mkLink c' (lk_in_flight s) (lk_accepted s ++ if err =? ERROR_NONE then content else []) (lk_sent s))
| link_close s c' :
    close_network_connection (lk_connection s) = Some (tt, c') ->
    link_step s (mkLink c' (lk_in_flight s) (lk_accepted s) (lk_sent s))
| link_begin s n :
    lk_in_flight s = None -> send_chunk (lk_connection s) = Some n ->
    link_step s (mkLink (lk_connection s) (Some (chunk_content n (lk_connection s))) (lk_accepted s) (lk_sent s))
| link_end s chunk k :
    lk_in_flight s = Some chunk -> 0 < k <= len chunk ->
    link_step s (mkLink (advance k (lk_connection s)) None (lk_accepted s) (lk_sent s ++ take (Z.to_nat k) chunk)).

Definition initial_link : link := mkLink new_network_connection None [] [].

Record link_inv (s : link) : Prop := mkLinkInv {
  li_wf : wf_connection (lk_connection s);
  li_unlocked : send_locked (lk_connection s) = false;
  li_stream : lk_sent s ++ stream (lk_connection s) = lk_accepted s;
  li_chunk : forall chunk, lk_in_flight s = Some chunk ->
    len chunk <= pending (lk_connection s) /\ send_read_pos (lk_connection s) + len chunk <= SEND_BUFFER_SIZE /\
    chunk = take (length chunk) (stream (lk_connection s));
}.

Lemma initial_link_inv : link_inv initial_link.
Proof. split; [unfold wf_connection; simpl; unfold SEND_BUFFER_SIZE; lia|done|done|done]. Qed.

Lemma link_inv_step s s' : link_inv s -> link_step s s' -> link_inv s'.
Proof.
  intros [Hwf Hu Hs Hc] Hstep. destruct Hstep as [s content lock err c' E|s c' E|s n Hn E|s chunk k Hn Hk]; simpl in *.
  - destruct (send_to_network_spec content NETWORK_SEND_COMPLETE_STRING lock (lk_connection s)) as
      (c'' & E' & Hwf' & Hu' & _ & Hr & Hs'); [done|done|by right|].
    rewrite E in E'. simplify_eq. split; simpl; [done|done|by rewrite Hs', app_assoc, Hs|].
    intros chunk Hch. destruct (Hc chunk Hch) as (Hp & Hw & Ht). rewrite Hr.
    pose proof (stream_length (lk_connection s)) as Hl. pose proof (stream_length c'') as Hl'.
    rewrite Hs', length_app in Hl'. split; [lia|]. split; [lia|].
    rewrite Hs', take_app_le by lia. done.
  - unfold close_network_connection in E. change (get ≫= ?f) with (fun c => f c c) in E. cbv beta in E.
    assert (stream c' = stream (lk_connection s) /\ wf_connection c' /\ send_locked c' = false /\
      pending c' = pending (lk_connection s) /\ send_read_pos c' = send_read_pos (lk_connection s)) as (E1 & ? & ? & E2 & E3).
    { destruct (closing (lk_connection s)); by injection E as <-. }
    split; simpl; [done|done|by rewrite E1|]. intros chunk Hch. rewrite E1, E2, E3. by apply Hc.
  - destruct (send_chunk_spec _ _ Hwf E) as (? & ? & ?). split; simpl; [done|done|done|]. intros chunk [= <-].
    assert (length (chunk_content n (lk_connection s)) = Z.to_nat n) as -> by apply read_ring_length.
    split; [lia|]. split; [lia|]. apply chunk_content_stream; done || lia.
  - destruct (Hc chunk Hn) as (Hp & Hw & Ht).
    destruct (stream_advance k (lk_connection s)) as [Hwf' Hs']; [done|lia|lia|].
    split; simpl; [done|done| |done]. rewrite Hs', <-app_assoc, <-Hs. f_equal.
    rewrite Ht, take_take, Nat.min_l by lia. apply take_drop.
Qed.

(** C7: The send path is a FIFO stream: whatever the interleaving of calls to
    [send_to_network] with the send thread (which releases the lock while it
    sends), the characters taken by the socket followed by those still in the
    ring buffer are exactly the characters accepted, in order, none lost,
    repeated or overwritten while being sent. *)
Theorem send_stream_integrity s :
  rtc link_step initial_link s ->
  lk_sent s ++ stream (lk_connection s) = lk_accepted s /\
  forall chunk, lk_in_flight s = Some chunk -> chunk_content (len chunk) (lk_connection s) = chunk.
Proof.
  intros Hr. assert (link_inv s) as [Hwf _ Hs Hc].
  { revert Hr. apply (rtc_ind_r (fun s => link_inv s)); [apply initial_link_inv|]. eauto using link_inv_step. }
  split; [done|]. intros chunk Hch. destruct (Hc chunk Hch) as (? & ? & Ht).
  rewrite chunk_content_stream by (done || lia). by rewrite Nat2Z.id.
Qed.

(** A connection after the greeting was queued. *)
Definition demo_connection : network_connection_t :=
  match send_to_network (lit "XPRC") NETWORK_SEND_COMPLETE_STRING true new_network_connection with
  | Some (_, c) => c
  | None => new_network_connection
  end.

Lemma send_stream_integrity_witness :
  let s := mkLink (advance 2 demo_connection) None (lit "XPRC") (lit "XP") in
  stream (lk_connection s) = lit "RC" /\
  lk_sent s ++ stream (lk_connection s) = lk_accepted s /\
  forall chunk, lk_in_flight s = Some chunk -> chunk_content (len chunk) (lk_connection s) = chunk.
Proof.
  intros s. split; [vm_compute; reflexivity|]. apply (send_stream_integrity s).
  apply (rtc_l _ _ (mkLink demo_connection None (lit "XPRC") [])).
  { apply (link_send initial_link (lit "XPRC") true ERROR_NONE demo_connection). vm_compute. reflexivity. }
  apply (rtc_l _ _ (mkLink demo_connection (Some (lit "XPRC")) (lit "XPRC") [])).
  { apply (link_begin (mkLink demo_connection None (lit "XPRC") []) 4); vm_compute; reflexivity. }
  apply (rtc_l _ _ s); [|apply rtc_refl].
  apply (link_end (mkLink demo_connection (Some (lit "XPRC")) (lit "XPRC") []) (lit "XPRC") 2);
    vm_compute; [reflexivity|split; congruence].
Defined.

(** * Lines of the received stream *)

(** The non-empty lines that are complete in [s], when [cur] was received
    before, and the rest. *)
Fixpoint lines_of (cur s : list ascii) : list (list ascii) * list ascii :=
  match s with
  | [] => ([], cur)
  | c :: s' =>
      if is_line_end c then
        match cur with
        | [] => lines_of [] s'
        | _ => let '(ls, rest) := lines_of [] s' in (cur :: ls, rest)
        end
      else lines_of (cur ++ [c]) s'
  end.

Lemma lines_of_app cur s t :
  lines_of cur (s ++ t) =
  let '(ls, rest) := lines_of cur s in let '(ls', rest') := lines_of rest t in (ls ++ ls', rest').
Proof.
  revert cur. induction s as [|c s IH]; intros cur; simpl; [by destruct (lines_of cur t)|].
  destruct (is_line_end c); [destruct cur; [apply IH|]|apply IH].
  rewrite IH. destruct (lines_of [] s) as [ls rest]. by destruct (lines_of rest t).
Qed.

(** A connection that records the lines its handler is given and whether it was
    closed at the end; the handler asks for it to be closed after [k] lines. *)
Definition record_line (buffer : list ascii) (length : Z) : M (list (list ascii) * bool) unit :=
  modify (fun w => (w.1 ++ [take (Z.to_nat length) buffer], w.2)).
Definition closed_after (k : nat) (w : list (list ascii) * bool) : bool := (k <=? length w.1)%nat.
Definition never (w : list (list ascii) * bool) : bool := false.
Definition record_close : M (list (list ascii) * bool) unit := modify (fun w => (w.1, true)).

(** A line that can be received. *)
Definition fits (l : list ascii) : Prop := len l < RECEIVE_MAX_LINE_LENGTH.
#[export] Instance fits_dec l : Decision (fits l).
Proof. unfold fits. apply _. Defined.

(** The lines before the first one that is too long. *)
Fixpoint fitting (ls : list (list ascii)) : list (list ascii) :=
  match ls with
  | [] => []
  | l :: ls => if decide (fits l) then l :: fitting ls else []
  end.

(** [cur] is the line being received. *)
Record receiving (cur : list ascii) (r : receiver) : Prop := mkReceiving {
  rc_offset : line_write_offset r = len cur;
  rc_content : take (length cur) (line_buffer r) = cur;
  rc_size : len (line_buffer r) = RECEIVE_MAX_LINE_LENGTH;
}.

Lemma receiving_store cur r ch :
  receiving cur r -> fits cur ->
  exists b, store_char (line_write_offset r) ch (line_buffer r) = Some b /\
    receiving (cur ++ [ch]) (mkReceiver b (line_write_offset r + 1)).
Proof.
  intros [Ho Ht Hs] Hf. unfold fits in Hf. unfold store_char. rewrite Ho, Hs, (proj2 (Z.leb_le 0 _)), (proj2 (Z.ltb_lt _ _)) by lia.
  cbn [andb]. eexists. split; [done|]. split; cbn [line_buffer line_write_offset]; [llia| |by rewrite length_insert].
  rewrite Nat2Z.id, insert_take_drop, Ht by lia.
  rewrite (cons_middle ch cur (drop _ _)), app_assoc. by apply take_app_length'.
Qed.

(** A line that got too long is not delivered, nor is anything after it. *)
Lemma fitting_too_long s : forall cur, ~ fits cur -> fitting (lines_of cur s).1 = [].
Proof.
  induction s as [|c s IH]; intros cur Hf; [done|]. simpl. destruct (is_line_end c).
  - destruct cur as [|x cur]; [exfalso; apply Hf; unfold fits, RECEIVE_MAX_LINE_LENGTH; simpl; lia|].
    destruct (lines_of [] s). simpl. by rewrite decide_False.
  - apply IH. unfold fits in *. llia.
Qed.

(** What is delivered of the characters [s] after [log], when [cur] was received before. *)
Definition delivered (k : nat) (log : list (list ascii)) (cur s : list ascii) : list (list ascii) :=
  log ++ take (k - length log) (fitting (lines_of cur s).1).

Lemma delivered_closed k log cur s : (k <= length log)%nat -> delivered k log cur s = log.
Proof. intros ?. unfold delivered. replace (k - length log)%nat with 0%nat by lia. by rewrite take_0, app_nil_r. Qed.

Lemma delivered_line k log cur c s : is_line_end c = true -> cur <> [] -> fits cur -> (length log < k)%nat ->
  delivered k log cur (c :: s) = delivered k (log ++ [cur]) [] s.
Proof.
  intros Hc Hne Hf Hk. unfold delivered. simpl. rewrite Hc. destruct cur as [|x cur]; [done|]. destruct (lines_of [] s) as [ls rest]. simpl.
  rewrite decide_True by done. rewrite length_app. simpl. replace (k - length log)%nat with (S (k - (length log + 1))) by lia.
  by rewrite <-app_assoc.
Qed.

Lemma receive_chunk_spec k closed chunk : forall cur r log,
  receiving cur r -> fits cur ->
  run (receive_chunk (closed_after k) record_line chunk r) (log, closed) (fun '(abort, r') w' =>
    w'.2 = closed /\
    if abort : bool then forall t, w'.1 = delivered k log cur (chunk ++ t)
    else exists rest, receiving rest r' /\ fits rest /\ forall t, delivered k log cur (chunk ++ t) = delivered k w'.1 rest t).
Proof.
  induction chunk as [|c chunk IH]; intros cur r log Hr Hf.
  { simpl. apply run_ret. split; [done|]. by exists cur. }
  simpl receive_chunk. apply run_bind. eapply run_eq; [done|]. unfold closed_after at 1. simpl fst.
  destruct (Nat.leb_spec k (length log)).
  { apply run_ret. split; [done|]. exists cur. split; [done|]. split; [done|]. intros t. by rewrite !delivered_closed. }
  destruct (is_line_end c) eqn:Hc.
  - rewrite (rc_offset _ _ Hr). destruct (Z.eqb_spec (len cur) 0) as [E|E].
    + assert (cur = []) as -> by (destruct cur; [done|simpl in E; lia]).
      eapply run_mono; [|by apply IH]. intros [abort r'] w'. unfold delivered. simpl. rewrite Hc. done.
    + assert (cur <> []) as Hne by by intros ->.
      apply run_bind. eapply run_eq; [done|]. cbn [fst snd]. rewrite Nat2Z.id, (rc_content _ _ Hr).
      eapply run_mono; [|apply (IH [])].
      * intros [abort r'] w' [Hw Hrest]. split; [done|]. destruct abort.
        -- intros t. rewrite (Hrest t). by rewrite <-app_comm_cons, delivered_line.
        -- destruct Hrest as (rest & ? & ? & Hrest). exists rest. split; [done|]. split; [done|]. intros t.
           by rewrite <-app_comm_cons, delivered_line.
      * by split; [..|apply (rc_size _ _ Hr)].
      * unfold fits, RECEIVE_MAX_LINE_LENGTH. simpl. lia.
  - destruct (receiving_store cur r c Hr Hf) as (b & Hb & Hr'). rewrite Hb. apply run_bind. eapply run_eq; [done|].
    cbn [line_write_offset]. rewrite (rc_offset _ _ Hr).
    assert (forall t, delivered k log cur ((c :: chunk) ++ t) = delivered k log (cur ++ [c]) (chunk ++ t)) as Hstep.
    { intros t. unfold delivered. simpl. by rewrite Hc. }
    destruct (Z.leb_spec RECEIVE_MAX_LINE_LENGTH (len cur + 1)) as [Hlong|Hshort].
    + apply run_ret. split; [done|]. intros t. rewrite Hstep. unfold delivered.
      rewrite fitting_too_long, take_nil, app_nil_r; [done|]. unfold fits. llia.
    + eapply run_mono; [|apply (IH (cur ++ [c])); [by rewrite <-(rc_offset _ _ Hr)|unfold fits; llia]].
      intros [abort r'] w' [Hw Hrest]. split; [done|]. destruct abort; [intros t; by rewrite Hstep|].
      destruct Hrest as (rest & ? & ? & Hrest). exists rest. split; [done|]. split; [done|]. intros t. by rewrite Hstep.
Qed.

Lemma receive_loop_spec k closed chunks : forall cur r log,
  receiving cur r -> fits cur ->
  run (receive_loop never (closed_after k) record_line chunks r) (log, closed) (fun _ w' => w' = (delivered k log cur (mjoin chunks), closed)).
Proof.
  induction chunks as [|chunk chunks IH]; intros cur r log Hr Hf.
  { apply run_ret. unfold delivered. simpl. by rewrite take_nil, app_nil_r. }
  simpl receive_loop. apply run_bind. eapply run_eq; [done|]. cbn [never orb]. unfold closed_after at 1. simpl fst.
  destruct (Nat.leb_spec k (length log)).
  { apply run_ret. by rewrite delivered_closed. }
  simpl mjoin. apply run_bind. eapply run_mono; [|by apply (receive_chunk_spec k closed chunk cur)].
  intros [abort r'] [log' closed'] [Hw Hrest]. simpl in Hw, Hrest |- *. subst closed'. destruct abort.
  - apply run_ret. by rewrite (Hrest (mjoin chunks)).
  - destruct Hrest as (rest & ? & ? & Hrest). eapply run_mono; [|by apply (IH rest)]. intros _ w' ->. by rewrite Hrest.
Qed.

(** C8: The receive thread cuts the received characters into lines: whatever
    the chunks in which they arrive, the handler is called once for every
    non-empty line terminated by LF or CR, in order, with exactly the
    characters of that line, until it closes the connection or a line reaches
    64 KiB (the server not being shut down meanwhile); nothing of that line or
    after it is delivered. No character is
    written outside of the line buffer, and the connection is closed at the end. *)
Theorem receive_lines k chunks :
  run (run_receive_thread never (closed_after k) record_line record_close chunks) ([], false) (fun _ w =>
    w = (take k (fitting (lines_of [] (mjoin chunks)).1), true)).
Proof.
  unfold run_receive_thread. apply run_bind. eapply run_mono; [|apply (receive_loop_spec k false chunks [])].
  - intros _ w ->. apply (run_eq _ _ _ tt (delivered k [] [] (mjoin chunks), true)); [done|]. unfold delivered. by rewrite Nat.sub_0_r.
  - split; [done|done|]. unfold new_receiver. cbn [line_buffer]. rewrite length_replicate. unfold RECEIVE_MAX_LINE_LENGTH. lia.
  - unfold fits, RECEIVE_MAX_LINE_LENGTH. simpl. lia.
Qed.

Example receive_lines_demo :
  let chunks := [lit "v1"; chr 13 :: chr 10 :: lit "sec"; lit "ret" ++ [chr 10]; lit "aaaa"] in
  fitting (lines_of [] (mjoin chunks)).1 = [lit "v1"; lit "secret"].
Proof. reflexivity. Qed.

(** * What the sessions rely on *)

(** A connection as its users see it: [send] is [send_to_network] of a whole
    string ([lock] being the outcome of locking the send mutex), [queued] what
    has been accepted and not yet been sent. *)
Class Connection (C : Type) := {
  conn_ok : C -> Prop;
  conn_closing : C -> bool;
  conn_queued : C -> list ascii;
  conn_send : cstr -> bool -> M C error_t;
  conn_close : M C unit;
}.

Class ConnectionLaws (C : Type) `{Connection C} : Prop := {
  conn_send_law : forall content lock c, conn_ok c ->
    exists err c', conn_send content lock c = Some (err, c') /\ conn_ok c' /\ conn_closing c' = conn_closing c /\
      conn_queued c' = conn_queued c ++ (if err =? ERROR_NONE then content else []);
  conn_close_law : forall c, conn_ok c ->
    exists c', conn_close c = Some (tt, c') /\ conn_ok c' /\ conn_closing c' = true /\ conn_queued c' = conn_queued c;
}.

#[export] Instance network_connection : Connection network_connection_t := {
  conn_ok c := wf_connection c /\ send_locked c = false;
  conn_closing := closing;
  conn_queued := stream;
  conn_send content lock := send_to_network content NETWORK_SEND_COMPLETE_STRING lock;
  conn_close := close_network_connection;
}.

#[export] Instance network_connection_laws : ConnectionLaws network_connection_t.
Proof.
  split.
  - intros content lock c [Hwf Hl].
    destruct (send_to_network_spec content NETWORK_SEND_COMPLETE_STRING lock c) as (c' & ? & ? & ? & ? & _ & ?);
      [done|done|by right|].
    by exists (send_error content lock c), c'.
  - intros c [Hwf Hl]. exists (set_closing c). split; [|done].
    simpl. unfold close_network_connection. mred. destruct (closing c) eqn:E; [|done].
    destruct c. simpl in *. by subst.
Qed.
