(* ===== verification/NetAddress.v ===== *)
(** IP addresses as text ([network.c]): parsing and ordering. The user interface
    and the settings accept, and sort, interface addresses with these functions.

    A parser returns the segments of an address, or [None] where the code returns
    false. *)

From S2P Require Import Prelude CLib Utils Lists.

Definition IPV4_SEGMENTS : Z := 4.
Definition IPV6_SEGMENTS : Z := 8.

(** [&s[i]]. *)
Definition suffix (s : cstr) (i : Z) : cstr := drop (Z.to_nat i) s.

(** * IPv4 *)

Definition parse_ipv4_segment (address : cstr) (start endExcl : Z) : option Z :=
  let segment_length := endExcl - start in
  if (segment_length <? 1) || (3 <? segment_length) then None
  else
    let segment := atoi (suffix address start) in
    if (segment <? 0) || (255 <? segment) then None else Some (wrap_u 8 segment).

(** The loop over the characters; [fuel] bounds the characters visited. *)
Fixpoint parse_ipv4_loop (fuel : nat) (address : cstr) (i segmentStart : Z) (out : list Z) : option (list Z) :=
  match fuel with
  | O => None
  | S fuel' =>
      if len out <? IPV4_SEGMENTS then
        let ch := char_at address i in
        if bool_decide (ch = NUL) || bool_decide (ch = "."%char) then
          match parse_ipv4_segment address segmentStart i with
          | None => None
          | Some segment =>
              let out := out ++ [segment] in
              if bool_decide (ch = NUL) then (if len out =? IPV4_SEGMENTS then Some out else None)
              else parse_ipv4_loop fuel' address (i + 1) (i + 1) out
          end
        else if negb (in_range "0" "9" ch) then None
        else parse_ipv4_loop fuel' address (i + 1) segmentStart out
      else None
  end.

Definition parse_ipv4_address (address : option cstr) : option (list Z) :=
  match address with
  | None => None
  | Some address => parse_ipv4_loop (S (length address)) address 0 0 []
  end.

Definition is_ipv4_address (address : option cstr) : bool := bool_decide (is_Some (parse_ipv4_address address)).

(** * IPv6 *)

(** [(segment << 4) + (ch - base)] in 16 bits; letters count from zero. *)
Definition ipv6_digit (ch : ascii) : option Z :=
  if in_range "0" "9" ch then Some (code ch - code "0")
  else if in_range "a" "f" ch then Some (code ch - code "a")
  else if in_range "A" "F" ch then Some (code ch - code "A")
  else None.

Fixpoint parse_ipv6_digits (segment : Z) (s : cstr) : option Z :=
  match s with
  | [] => Some segment
  | ch :: s' =>
      match ipv6_digit ch with
      | None => None
      | Some d => parse_ipv6_digits (wrap_u 16 (Z.shiftl segment 4 + d)) s'
      end
  end.

Definition parse_ipv6_segment (s : cstr) (length : Z) : option Z :=
  if (length <? 1) || (4 <? length) then None else parse_ipv6_digits 0 (slice 0 length s).

Definition is_hex (ch : ascii) : bool := in_range "0" "9" ch || in_range "a" "f" ch || in_range "A" "F" ch.

(** The loop over the characters: front and rear segments and whether the
    expansion placeholder was met. *)
Fixpoint parse_ipv6_loop (fuel : nat) (s : cstr) (front rear : list Z) (expand : bool) (i segment_start : Z)
  : option (list Z * list Z * bool) :=
  match fuel with
  | O => None
  | S fuel' =>
      if (len front <? IPV6_SEGMENTS) && (len rear <? IPV6_SEGMENTS) then
        let ch := char_at s i in
        let i := i + 1 in
        let lookahead1 := if bool_decide (ch = NUL) then NUL else char_at s i in
        let lookahead2 := if bool_decide (lookahead1 = NUL) then NUL else char_at s (i + 1) in
        if is_hex ch then parse_ipv6_loop fuel' s front rear expand i segment_start
        else if bool_decide (ch = NUL) || bool_decide (ch = ":"%char) then
          match parse_ipv6_segment (suffix s segment_start) (i - segment_start - 1) with
          | None => None
          | Some segment =>
              let front := if expand then front else front ++ [segment] in
              let rear := if expand then rear ++ [segment] else rear in
              if bool_decide (lookahead1 = ":"%char) then
                if expand then None
                else if bool_decide (lookahead2 = NUL) then Some (front, rear, true)
                else parse_ipv6_loop fuel' s front rear true (i + 1) (i + 1)
              else if bool_decide (lookahead1 = NUL) && negb (bool_decide (ch = ":"%char)) then Some (front, rear, expand)
              else parse_ipv6_loop fuel' s front rear expand i i
          end
        else parse_ipv6_loop fuel' s front rear expand i segment_start
      else None
  end.

(** The segments with zeros in the place of the placeholder. *)
Definition finalize_ipv6 (front rear : list Z) (expand : bool) : option (list Z) :=
  if IPV6_SEGMENTS <? len front + len rear + (if expand then 1 else 0) then None
  else
    let num_fill := IPV6_SEGMENTS - len front - len rear in
    Some (front ++ replicate (Z.to_nat num_fill) 0 ++ rear).

Definition parse_ipv6_address (s : option cstr) : option (list Z) :=
  match s with
  | None => None
  | Some s =>
      if strncmp_eq s (lit "::") 2 && (strlen s =? 2) then finalize_ipv6 (replicate 8 0) [] false
      else
        let expand := strncmp_eq s (lit "::") 2 in
        let i := if expand then 2 else 0 in
        match parse_ipv6_loop (S (length s)) s [] [] expand i i with
        | None => None
        | Some (front, rear, expand) => finalize_ipv6 front rear expand
        end
  end.

Definition is_ipv6_address (address : option cstr) : bool := bool_decide (is_Some (parse_ipv6_address address)).

(** * Ordering *)

(** The first difference of segments. *)
Fixpoint cmp_segments (segments_a segments_b : list Z) : Z :=
  match segments_a, segments_b with
  | x :: a, y :: b => let res := x - y in if negb (res =? 0) then res else cmp_segments a b
  | _, _ => 0
  end.

(** Text that is not an address; NULL goes first. *)
Definition cmp_text (a b : option cstr) : Z :=
  match a, b with
  | None, Some _ => -1
  | None, None => 0
  | Some _, None => 1
  | Some a, Some b => strcmp a b
  end.

Definition cmp_address (a b : option cstr) (segments_a segments_b : option (list Z)) : Z :=
  match segments_a, segments_b with
  | Some segments_a, Some segments_b => cmp_segments segments_a segments_b
  | None, None => cmp_text a b
  | None, Some _ => -1
  | Some _, None => 1
  end.

Definition cmp_ipv4_address (a b : option cstr) : Z := cmp_address a b (parse_ipv4_address a) (parse_ipv4_address b).
Definition cmp_ipv6_address (a b : option cstr) : Z := cmp_address a b (parse_ipv6_address a) (parse_ipv6_address b).

Definition cmp_ip_address (a b : option cstr) : Z :=
  let a4 := is_ipv4_address a in
  let b4 := is_ipv4_address b in
  let a6 := is_ipv6_address a in
  let b6 := is_ipv6_address b in
  if a4 && b4 then cmp_ipv4_address a b
  else if a6 && b6 then cmp_ipv6_address a b
  else if a4 && b6 then -1
  else if b4 && a6 then 1
  else if (a4 || a6) && negb (b4 || b6) then 1
  else if negb (a4 || a6) && (b4 || b6) then -1
  else cmp_text a b.

Definition is_ip_address (address : option cstr) : bool := is_ipv4_address address || is_ipv6_address address.

Example ipv4_demo : parse_ipv4_address (Some (lit "127.0.0.1")) = Some [127; 0; 0; 1]. Proof. reflexivity. Qed.
Example ipv6_demo : parse_ipv6_address (Some (lit "12::34:5")) = Some [18; 0; 0; 0; 0; 0; 52; 5]. Proof. reflexivity. Qed.
Example ipv6_short : parse_ipv6_address (Some (lit "1:2")) = Some [1; 2; 0; 0; 0; 0; 0; 0]. Proof. reflexivity. Qed.

(** * The grammar of IPv4 addresses *)

Definition all_digits (g : cstr) : bool := forallb is_digit g.

(** The value of a hexadecimal digit. *)
Definition hex_value (c : ascii) : option Z :=
  if is_digit c then Some (code c - code "0")
  else if in_range "a" "f" c then Some (10 + (code c - code "a"))
  else if in_range "A" "F" c then Some (10 + (code c - code "A"))
  else None.

(** The number that digits denote, the most significant one first. *)
Fixpoint positional (base : Z) (ds : list Z) : Z :=
  match ds with [] => 0 | d :: ds => d * base ^ len ds + positional base ds end.

(** A group of one to three digits that denotes at most 255. *)
Definition ipv4_group (g : cstr) : option Z :=
  let value := positional 10 (map (fun c => code c - code "0") g) in
  if forallb is_digit g && (1 <=? len g) && (len g <=? 3) && (value <=? 255) then Some value else None.

Lemma read_digits_positional g : forall acc, all_digits g = true ->
  read_digits acc g = acc * 10 ^ len g + positional 10 (map (fun c => code c - code "0") g).
Proof.
  induction g as [|c g IH]; intros acc Hg; [simpl; lia|]. cbn [all_digits forallb] in Hg. apply andb_prop in Hg as [Hc Hg].
  cbn [read_digits map positional]. rewrite Hc, IH, length_map by done.
  replace (len (c :: g)) with (Z.succ (len g)) by llia. rewrite Z.pow_succ_r by lia. lia.
Qed.

Lemma ipv4_group_eq g :
  ipv4_group g = if all_digits g && (1 <=? len g) && (len g <=? 3) && (read_digits 0 g <=? 255) then Some (read_digits 0 g) else None.
Proof.
  unfold ipv4_group. change (forallb is_digit g) with (all_digits g). destruct (all_digits g) eqn:Hg; [|done].
  by rewrite (read_digits_positional g 0 Hg).
Qed.

Definition ipv4_of (s : cstr) : option (list Z) :=
  let groups := split_on "." s in
  if len groups =? 4 then mapM ipv4_group groups else None.

Lemma read_digits_app g : forall acc t, all_digits g = true -> read_digits acc (g ++ t) = read_digits (read_digits acc g) t.
Proof.
  induction g as [|c g IH]; intros acc t Hg; [done|]. cbn [all_digits forallb] in Hg. apply andb_prop in Hg as [Hc Hg].
  cbn [app read_digits]. rewrite Hc. by apply IH.
Qed.

Lemma read_digits_bound g : forall acc, all_digits g = true -> 0 <= acc ->
  acc * 10 ^ len g <= read_digits acc g < (acc + 1) * 10 ^ len g.
Proof.
  induction g as [|c g IH]; intros acc Hg Hacc; [simpl; lia|]. cbn [all_digits forallb] in Hg. apply andb_prop in Hg as [Hc Hg].
  cbn [read_digits]. rewrite Hc. pose proof (proj1 (is_digit_iff c) Hc) as Hcode. change (code "0") with 48.
  specialize (IH (acc * 10 + (code c - 48)) Hg ltac:(lia)).
  replace (len (c :: g)) with (Z.succ (len g)) by llia. rewrite Z.pow_succ_r by lia.
  pose proof (Z.pow_pos_nonneg 10 (len g) ltac:(lia) ltac:(lia)). nia.
Qed.

Lemma read_digits_stop acc t : (forall c t', t = c :: t' -> is_digit c = false) -> read_digits acc t = acc.
Proof. destruct t as [|c t]; intros Ht; [done|]. simpl. by rewrite (Ht c t). Qed.

(** The number at the start of a text with at most three digits. *)
Lemma atoi_group g t :
  all_digits g = true -> 1 <= len g <= 3 -> (forall c t', t = c :: t' -> is_digit c = false) ->
  atoi (g ++ t) = read_digits 0 g /\ 0 <= read_digits 0 g < 1000.
Proof.
  intros Hg Hlen Ht. pose proof (read_digits_bound g 0 Hg ltac:(lia)) as Hb.
  assert (10 ^ len g <= 10 ^ 3) by (apply Z.pow_le_mono_r; lia). change (10 ^ 3) with 1000 in *. split; [|lia].
  destruct g as [|c g]; [simpl in Hlen; lia|]. unfold atoi, strtol. pose proof Hg as Hg'. cbn [all_digits forallb] in Hg'. apply andb_prop in Hg' as [Hc _].
  cbn [app]. rewrite decimal_value_digit by done. change (c :: g ++ t) with ((c :: g) ++ t).
  rewrite read_digits_app, read_digits_stop by done. unfold LONG_MIN, LONG_MAX.
  rewrite Z.min_r, Z.max_r by lia. apply wrap_s_int. unfold in_int, INT_MIN, INT_MAX. lia.
Qed.

Lemma suffix_app pre t : suffix (pre ++ t) (len pre) = t.
Proof. unfold suffix. by rewrite Nat2Z.id, drop_app_length. Qed.

Lemma char_at_app pre t i : i = len pre -> char_at (pre ++ t) i = default NUL (head t).
Proof. intros ->. unfold char_at. rewrite Nat2Z.id, lookup_app_r, Nat.sub_diag by lia. by destruct t. Qed.

Lemma parse_ipv4_segment_spec pre g t :
  all_digits g = true -> (forall c t', t = c :: t' -> is_digit c = false) ->
  parse_ipv4_segment (pre ++ g ++ t) (len pre) (len pre + len g) = ipv4_group g.
Proof.
  intros Hg Ht. rewrite ipv4_group_eq. unfold parse_ipv4_segment. rewrite suffix_app, Hg.
  replace (len pre + len g - len pre) with (len g) by lia. cbn [andb].
  destruct (Z.ltb_spec (len g) 1); [by rewrite (proj2 (Z.leb_gt 1 _)) by lia|].
  destruct (Z.ltb_spec 3 (len g)); [by rewrite (proj2 (Z.leb_gt _ 3)), andb_false_r by lia|].
  rewrite (proj2 (Z.leb_le 1 _)), (proj2 (Z.leb_le _ 3)) by lia. cbn [orb andb].
  destruct (atoi_group g t Hg ltac:(lia) Ht) as [-> Hr]. rewrite (proj2 (Z.ltb_ge _ 0)) by lia. cbn [orb].
  destruct (Z.leb_spec (read_digits 0 g) 255).
  - rewrite (proj2 (Z.ltb_ge 255 _)) by lia. f_equal. apply wrap_u_small. simpl. lia.
  - by rewrite (proj2 (Z.ltb_lt 255 _)) by lia.
Qed.

Lemma digit_or_end c : in_range "0" "9" c = is_digit c.
Proof. done. Qed.

(** Scanning the characters of a group: [a] were seen, [g] follow. *)
Lemma parse_ipv4_scan pre t out g : forall a fuel,
  no_nul g -> ("."%char ∉ g) -> len out < 4 -> (length g < fuel)%nat ->
  parse_ipv4_loop fuel (pre ++ (a ++ g) ++ t) (len pre + len a) (len pre) out =
  if all_digits g then parse_ipv4_loop (fuel - length g) (pre ++ (a ++ g) ++ t) (len pre + len (a ++ g)) (len pre) out else None.
Proof.
  induction g as [|c g IH]; intros a fuel Hn Hdot Hout Hfuel.
  { cbn [all_digits forallb length]. by rewrite app_nil_r, Nat.sub_0_r. }
  apply no_nul_cons in Hn as [Hc Hn]. apply not_elem_of_cons in Hdot as [Hcd Hdot]. destruct fuel as [|fuel]; [lia|].
  cbn [parse_ipv4_loop]. rewrite (proj2 (Z.ltb_lt _ IPV4_SEGMENTS)) by (unfold IPV4_SEGMENTS; lia).
  assert (char_at (pre ++ (a ++ c :: g) ++ t) (len pre + len a) = c) as ->.
  { rewrite <-(app_assoc a), (app_assoc pre a). rewrite char_at_app by llia. done. }
  rewrite !bool_decide_eq_false_2 by congruence. cbn [orb all_digits forallb]. rewrite digit_or_end.
  destruct (is_digit c); cbn [negb andb]; [|done].
  replace (a ++ c :: g) with ((a ++ [c]) ++ g) by by rewrite <-app_assoc.
  replace (len pre + len a + 1) with (len pre + len (a ++ [c])) by llia.
  rewrite IH by (simpl in Hfuel; done || lia). by replace (S fuel - length (c :: g))%nat with (fuel - length g)%nat by (simpl; lia).
Qed.

Lemma no_nul_cut sep s : no_nul s -> match cut sep s with (g, None) => no_nul g | (g, Some b) => no_nul g /\ no_nul b end.
Proof.
  intros Hs. pose proof (cut_spec sep s) as Hc. destruct (cut sep s) as [g [b|]]; subst; [|done].
  apply no_nul_app in Hs as [? Hb]. by apply no_nul_cons in Hb as [_ ?].
Qed.

(** The rest [r] of the text, from the start of a group on. *)
Lemma parse_ipv4_rest fuel : forall pre r out,
  no_nul r -> (length r < fuel)%nat ->
  parse_ipv4_loop fuel (pre ++ r) (len pre) (len pre) out =
  if len (split_on "." r) + len out =? 4 then (fun l => out ++ l) <$> mapM ipv4_group (split_on "." r) else None.
Proof.
  induction fuel as [fuel IH] using lt_wf_ind. intros pre r out Hn Hfuel.
  rewrite split_on_cut. pose proof (cut_spec "." r) as Hcut. pose proof (no_nul_cut "." r Hn) as Hnn. pose proof (cut_no_sep "." r) as Hsep.
  destruct (Z.lt_ge_cases (len out) 4) as [Hout|Hout].
  2:{ destruct fuel; [lia|]. cbn [parse_ipv4_loop]. rewrite (proj2 (Z.ltb_ge _ IPV4_SEGMENTS)) by (unfold IPV4_SEGMENTS; lia).
      rewrite (proj2 (Z.eqb_neq _ 4)); [done|]. destruct (cut "." r) as [g [b|]]; simpl; [|lia].
      pose proof (split_on_nonempty "." b). destruct (split_on "." b); [done|simpl; lia]. }
  destruct (cut "." r) as [g [b|]]; cbn [fst] in Hsep.
  - destruct Hnn as [Hng Hnb]. subst r. pose proof (parse_ipv4_scan pre ("."%char :: b) out g [] fuel Hng Hsep Hout ltac:(llia)) as Hscan.
    cbn [app length] in Hscan. rewrite Z.add_0_r in Hscan. rewrite Hscan. clear Hscan.
    destruct (all_digits g) eqn:Hg.
    2:{ assert (ipv4_group g = None) as Hnone by (by rewrite ipv4_group_eq, Hg). simpl. rewrite Hnone. simpl. by case_match. }
    assert (length g < fuel)%nat as Hf1 by llia. destruct (fuel - length g)%nat as [|f] eqn:Hf; [lia|]. cbn [parse_ipv4_loop].
    rewrite (proj2 (Z.ltb_lt _ IPV4_SEGMENTS)) by (unfold IPV4_SEGMENTS; lia).
    rewrite (app_assoc pre), char_at_app by llia. cbn [head default]. rewrite bool_decide_eq_false_2, bool_decide_eq_true_2 by done. cbn [orb].
    rewrite <-app_assoc, parse_ipv4_segment_spec by (done || by intros c t' [= <- _]).
    destruct (ipv4_group g) as [v|] eqn:Hv; [|simpl; rewrite Hv; simpl; by case_match].
    replace (pre ++ g ++ "."%char :: b) with ((pre ++ g ++ ["."%char]) ++ b) by (by rewrite <-!app_assoc).
    replace (len pre + len g + 1) with (len (pre ++ g ++ ["."%char])) by llia.
    rewrite IH by (done || llia). cbn [mapM]. simpl. rewrite Hv. simpl.
    replace (len (out ++ [v])) with (len out + 1) by llia.
    replace (Z.of_nat (S (length (split_on "." b))) + len out) with (len (split_on "." b) + (len out + 1)) by lia.
    destruct (_ =? 4); [|done]. destruct (mapM ipv4_group (split_on "." b)); simpl; [|done]. by rewrite <-app_assoc.
  - subst r. pose proof (parse_ipv4_scan pre [] out g [] fuel Hnn Hsep Hout Hfuel) as Hscan.
    cbn [app length] in Hscan. rewrite Z.add_0_r, app_nil_r in Hscan. rewrite Hscan. clear Hscan.
    destruct (all_digits g) eqn:Hg.
    2:{ assert (ipv4_group g = None) as Hnone by (by rewrite ipv4_group_eq, Hg). simpl. rewrite Hnone. simpl. by case_match. }
    destruct (fuel - length g)%nat as [|f] eqn:Hf; [lia|]. cbn [parse_ipv4_loop].
    rewrite (proj2 (Z.ltb_lt _ IPV4_SEGMENTS)) by (unfold IPV4_SEGMENTS; lia).
    rewrite <-(app_nil_r (pre ++ g)), char_at_app by llia. cbn [head default]. rewrite bool_decide_eq_true_2 by done. cbn [orb].
    rewrite <-app_assoc, parse_ipv4_segment_spec by done.
    destruct (ipv4_group g) as [v|] eqn:Hv; [|simpl; rewrite Hv; simpl; by case_match].
    simpl. rewrite Hv. simpl. replace (len (out ++ [v])) with (1 + len out) by llia. unfold IPV4_SEGMENTS.
    change (Z.of_nat 1) with 1. by case_match.
Qed.

Lemma parse_ipv4_address_grammar s : no_nul s -> parse_ipv4_address (Some s) = ipv4_of s.
Proof.
  intros Hs. unfold parse_ipv4_address, ipv4_of. pose proof (parse_ipv4_rest (S (length s)) [] s [] Hs ltac:(lia)) as E.
  simpl app in E. simpl length in E. rewrite Z.add_0_r in E. change (Z.of_nat 0) with 0 in E. rewrite E. destruct (_ =? 4); [|done].
  by destruct (mapM ipv4_group (split_on "." s)).
Qed.

(** * The grammar of IPv6 addresses *)

(** What the code takes a hexadecimal digit for: its letters count from zero. *)
Definition letter_value (c : ascii) : option Z := (fun v => if is_digit c then v else v - 10) <$> hex_value c.

(** A group of one to four hexadecimal digits. *)
Definition ipv6_group (g : cstr) : option Z :=
  if (1 <=? len g) && (len g <=? 4) then positional 16 <$> mapM letter_value g else None.

Lemma ipv6_digit_letter c : ipv6_digit c = letter_value c.
Proof.
  unfold ipv6_digit, letter_value, hex_value. rewrite digit_or_end. destruct (is_digit c); [done|].
  destruct (in_range "a" "f" c); [simpl; f_equal; lia|]. destruct (in_range "A" "F" c); [simpl; f_equal; lia|done].
Qed.

Lemma letter_value_range c v : letter_value c = Some v -> 0 <= v <= 9.
Proof.
  rewrite <-ipv6_digit_letter. unfold ipv6_digit, in_range.
  change (code "0") with 48. change (code "9") with 57. change (code "a") with 97. change (code "f") with 102.
  change (code "A") with 65. change (code "F") with 70. intros. repeat (case_match; simplify_eq; bools; try lia).
Qed.

Lemma positional_range base ds : 1 <= base -> Forall (fun d => 0 <= d < base) ds -> 0 <= positional base ds < base ^ len ds.
Proof.
  intros Hbase. induction 1 as [|d ds Hd _ IH]; [simpl; lia|]. cbn [positional].
  replace (len (d :: ds)) with (Z.succ (len ds)) by llia. rewrite Z.pow_succ_r by lia.
  pose proof (Z.pow_pos_nonneg base (len ds) ltac:(lia) ltac:(lia)). nia.
Qed.

Lemma letter_values_range g ds : mapM letter_value g = Some ds -> len ds = len g /\ Forall (fun d => 0 <= d < 16) ds.
Proof.
  intros H. split; [by rewrite (length_mapM _ _ _ H)|]. apply mapM_Some in H.
  induction H as [|c d g ds Hd _ IH]; constructor; [apply letter_value_range in Hd; lia|done].
Qed.

(** The digits add up in 16 bits as long as they fit. *)
Lemma parse_ipv6_digits_positional g : forall segment, 0 <= segment -> (segment + 1) * 16 ^ len g <= 2 ^ 16 ->
  parse_ipv6_digits segment g = (fun ds => segment * 16 ^ len ds + positional 16 ds) <$> mapM letter_value g.
Proof.
  induction g as [|c g IH]; intros segment H0 Hfit; [simpl; f_equal; lia|].
  replace (len (c :: g)) with (Z.succ (len g)) in Hfit by llia. rewrite Z.pow_succ_r in Hfit by lia.
  cbn [parse_ipv6_digits]. rewrite ipv6_digit_letter. simpl. destruct (letter_value c) as [d|] eqn:Hd; [|done]. simpl.
  apply letter_value_range in Hd. pose proof (Z.pow_pos_nonneg 16 (len g) ltac:(lia) ltac:(lia)).
  rewrite Z.shiftl_mul_pow2 by lia. change (2 ^ 4) with 16.
  assert (wrap_u 16 (segment * 16 + d) = segment * 16 + d) as -> by (apply wrap_u_small; nia).
  rewrite IH by nia. destruct (mapM letter_value g) as [ds|] eqn:Hds; simpl; [|done]. f_equal.
  replace (Z.of_nat (S (length ds))) with (Z.succ (len ds)) by lia. rewrite Z.pow_succ_r by lia. lia.
Qed.

Lemma ipv6_group_eq g : ipv6_group g = parse_ipv6_segment g (len g).
Proof.
  unfold ipv6_group, parse_ipv6_segment.
  destruct (Z.ltb_spec (len g) 1); [by rewrite (proj2 (Z.leb_gt 1 _)) by lia|].
  destruct (Z.ltb_spec 4 (len g)); [by rewrite (proj2 (Z.leb_gt _ 4)), andb_false_r by lia|].
  rewrite (proj2 (Z.leb_le 1 _)), (proj2 (Z.leb_le _ 4)) by lia. cbn [orb andb].
  replace (slice 0 (len g) g) with g by (unfold slice; by rewrite drop_0, Nat2Z.id, take_ge by lia).
  rewrite parse_ipv6_digits_positional; [by destruct (mapM letter_value g)|lia|].
  pose proof (Z.pow_le_mono_r 16 (len g) 4 ltac:(lia) ltac:(lia)). lia.
Qed.

(** The text before the first placeholder and after it. *)
Fixpoint cut_placeholder (s : cstr) : cstr * option cstr :=
  match s with
  | [] => ([], None)
  | c :: s' =>
      match s' with
      | c' :: s'' =>
          if bool_decide (c = ":"%char) && bool_decide (c' = ":"%char) then ([], Some s'')
          else let '(a, b) := cut_placeholder s' in (c :: a, b)
      | [] => ([c], None)
      end
  end.

(** Groups between colons; an empty text has none. *)
Definition ipv6_groups (s : cstr) : option (list Z) := match s with [] => Some [] | _ => mapM ipv6_group (split_on ":" s) end.

(** An address is a list of groups with at most one placeholder for at least one
    group; without a placeholder missing groups are zero. *)
Definition ipv6_of (s : cstr) : option (list Z) :=
  match cut_placeholder s with
  | (front, None) =>
      match mapM ipv6_group (split_on ":" front) with
      | Some front => if len front <=? 8 then Some (front ++ replicate (8 - length front) 0) else None
      | None => None
      end
  | (front, Some rear) =>
      match ipv6_groups front, ipv6_groups rear with
      | Some front, Some rear =>
          if len front + len rear <? 8 then Some (front ++ replicate (8 - length front - length rear) 0 ++ rear) else None
      | _, _ => None
      end
  end.

Definition group_chars (g : cstr) : Prop := no_nul g /\ ":"%char ∉ g.

Lemma is_hex_not_separator c : is_hex c = true -> c <> NUL /\ c <> ":"%char.
Proof. intros H. split; intros ->; done. Qed.

(** Scanning the characters of a group, whatever they are. *)
Lemma parse_ipv6_scan pre t front rear expand g : forall a fuel,
  group_chars g -> len front < 8 -> len rear < 8 -> (length g < fuel)%nat ->
  parse_ipv6_loop fuel (pre ++ (a ++ g) ++ t) front rear expand (len pre + len a) (len pre) =
  parse_ipv6_loop (fuel - length g) (pre ++ (a ++ g) ++ t) front rear expand (len pre + len (a ++ g)) (len pre).
Proof.
  induction g as [|c g IH]; intros a fuel [Hn Hcol] Hf Hr Hfuel; [by rewrite app_nil_r, Nat.sub_0_r|].
  apply no_nul_cons in Hn as [Hc Hn]. apply not_elem_of_cons in Hcol as [Hcd Hcol]. destruct fuel as [|fuel]; [lia|].
  cbn [parse_ipv6_loop]. unfold IPV6_SEGMENTS. rewrite (proj2 (Z.ltb_lt _ 8)), (proj2 (Z.ltb_lt (len rear) 8)) by lia. cbn [andb].
  assert (char_at (pre ++ (a ++ c :: g) ++ t) (len pre + len a) = c) as ->.
  { rewrite <-(app_assoc a), (app_assoc pre a). rewrite char_at_app by llia. done. }
  rewrite !(bool_decide_eq_false_2 (c = _)) by congruence. cbn [orb].
  replace (a ++ c :: g) with ((a ++ [c]) ++ g) by by rewrite <-app_assoc.
  replace (len pre + len a + 1) with (len pre + len (a ++ [c])) by llia.
  replace (S fuel - length (c :: g))%nat with (fuel - length g)%nat by (simpl; lia).
  rewrite IH by (done || (simpl in Hfuel; lia)). by destruct (is_hex c).
Qed.

Lemma parse_ipv6_segment_app g t : parse_ipv6_segment (g ++ t) (len g) = ipv6_group g.
Proof.
  rewrite ipv6_group_eq. unfold parse_ipv6_segment. destruct (_ || _); [done|]. unfold slice. rewrite !drop_0, Nat2Z.id.
  by rewrite take_app_length, firstn_all.
Qed.

(** The end of a group: the characters before it have been scanned. *)
Lemma parse_ipv6_group_end fuel pre g t front rear expand :
  (t = [] \/ exists t', t = ":"%char :: t') -> no_nul t -> len front < 8 -> len rear < 8 ->
  parse_ipv6_loop (S fuel) (pre ++ g ++ t) front rear expand (len pre + len g) (len pre) =
  match ipv6_group g with
  | None => None
  | Some v =>
      let front := if expand then front else front ++ [v] in
      let rear := if expand then rear ++ [v] else rear in
      match t with
      | [] => Some (front, rear, expand)
      | [_] => parse_ipv6_loop fuel (pre ++ g ++ t) front rear expand (len pre + len g + 1) (len pre + len g + 1)
      | _ :: c :: t' =>
          if bool_decide (c = ":"%char) then
            if expand then None
            else match t' with
              | [] => Some (front, rear, true)
              | _ => parse_ipv6_loop fuel (pre ++ g ++ t) front rear true (len pre + len g + 2) (len pre + len g + 2)
              end
          else parse_ipv6_loop fuel (pre ++ g ++ t) front rear expand (len pre + len g + 1) (len pre + len g + 1)
      end
  end.
Proof.
  intros Ht Hnt Hf Hr. cbn [parse_ipv6_loop]. unfold IPV6_SEGMENTS.
  rewrite (proj2 (Z.ltb_lt _ 8)), (proj2 (Z.ltb_lt (len rear) 8)) by lia. cbn [andb].
  assert (forall k, 0 <= k -> char_at (pre ++ g ++ t) (len pre + len g + k) = default NUL (t !! Z.to_nat k)) as Hat.
  { intros k Hk. unfold char_at. rewrite app_assoc, lookup_app_r by llia. f_equal. f_equal. llia. }
  pose proof (Hat 0 ltac:(lia)) as H0. rewrite Z.add_0_r in H0. rewrite H0, suffix_app.
  replace (len pre + len g + 1 - len pre - 1) with (len g) by lia. rewrite parse_ipv6_segment_app, (Hat 1) by lia.
  replace (len pre + len g + 1 + 1) with (len pre + len g + 2) by lia. rewrite (Hat 2) by lia.
  destruct Ht as [-> |[t' ->]].
  - cbn [lookup list_lookup default]. change (is_hex (default NUL ([] !! Z.to_nat 0))) with false. cbv iota.
    rewrite bool_decide_eq_true_2 by done. cbn [orb]. destruct (ipv6_group g); [|done]. by destruct expand.
  - change (is_hex (default NUL ((":"%char :: t') !! Z.to_nat 0))) with false. cbv iota.
    change (default NUL ((":"%char :: t') !! Z.to_nat 0)) with ":"%char.
    rewrite (bool_decide_eq_false_2 (":"%char = NUL)), bool_decide_eq_true_2 by done. cbn [orb]. destruct (ipv6_group g) as [v|]; [|done]. cbv zeta.
    change (default NUL ((":"%char :: t') !! Z.to_nat 1)) with (default NUL (t' !! 0%nat)).
    change (default NUL ((":"%char :: t') !! Z.to_nat 2)) with (default NUL (t' !! 1%nat)).
    apply no_nul_cons in Hnt as [_ Hnt]. destruct t' as [|c t'].
    { cbn [lookup list_lookup default]. by rewrite (bool_decide_eq_true_2 (NUL = NUL)), (bool_decide_eq_false_2 (NUL = ":"%char)) by done. }
    apply no_nul_cons in Hnt as [Hc Hnt].
    change ((c :: t') !! 0%nat) with (Some c). change ((c :: t') !! 1%nat) with (t' !! 0%nat). cbn [from_option id].
    rewrite (bool_decide_eq_false_2 (c = NUL)) by done. destruct (decide (c = ":"%char)) as [-> |Hc'].
    2:{ rewrite !(bool_decide_eq_false_2 (c = ":"%char)) by done. by destruct expand. }
    rewrite !(bool_decide_eq_true_2 (":"%char = ":"%char)) by done. destruct expand; [done|].
    destruct t' as [|c2 t']; [by cbn [lookup list_lookup default]; rewrite bool_decide_eq_true_2|].
    apply no_nul_cons in Hnt as [Hc2 _]. cbn [default lookup list_lookup]. by rewrite bool_decide_eq_false_2.
Qed.

Lemma split_group g b : (":"%char ∉ g) -> split_on ":" (g ++ ":"%char :: b) = g :: split_on ":" b.
Proof. apply split_on_app. Qed.

Lemma mapM_cons_group g gs :
  mapM ipv6_group (g :: gs) = match ipv6_group g with Some v => (v ::.) <$> mapM ipv6_group gs | None => None end.
Proof. simpl. destruct (ipv6_group g); [|done]. simpl. by destruct (mapM ipv6_group gs). Qed.

(** Where scanning a text of groups starts: the end of its first group. *)
Lemma parse_ipv6_group_step fuel pre g t front rear expand :
  group_chars g -> len front < 8 -> len rear < 8 -> (length g < fuel)%nat ->
  exists fuel', (S fuel' + length g = fuel)%nat /\
    parse_ipv6_loop fuel (pre ++ g ++ t) front rear expand (len pre) (len pre) =
    parse_ipv6_loop (S fuel') (pre ++ g ++ t) front rear expand (len pre + len g) (len pre).
Proof.
  intros Hg Hf Hr Hfuel. pose proof (parse_ipv6_scan pre t front rear expand g [] fuel Hg Hf Hr Hfuel) as E.
  cbn [app length] in E. rewrite Z.add_0_r in E. destruct (fuel - length g)%nat as [|f] eqn:Hfu; [lia|]. exists f. split; [lia|exact E].
Qed.

Lemma loop_full fuel s front rear expand i k : 8 <= len front \/ 8 <= len rear -> parse_ipv6_loop fuel s front rear expand i k = None.
Proof.
  intros Hfull. destruct fuel; [done|]. cbn [parse_ipv6_loop]. unfold IPV6_SEGMENTS.
  destruct Hfull; [by rewrite (proj2 (Z.ltb_ge (len front) 8)) by lia|by rewrite (proj2 (Z.ltb_ge (len rear) 8)), andb_false_r by lia].
Qed.

(** The groups after the placeholder. *)
Lemma parse_ipv6_rear fuel : forall pre r front rear,
  no_nul r -> len front < 8 -> (length r < fuel)%nat ->
  parse_ipv6_loop fuel (pre ++ r) front rear true (len pre) (len pre) =
  match mapM ipv6_group (split_on ":" r) with
  | Some vs => if len rear + len vs <=? 8 then Some (front, rear ++ vs, true) else None
  | None => None
  end.
Proof.
  induction fuel as [fuel IH] using lt_wf_ind. intros pre r front rear Hn Hf Hfuel.
  destruct (Z.lt_ge_cases (len rear) 8) as [Hr|Hr].
  2:{ rewrite loop_full by by right. destruct (mapM ipv6_group (split_on ":" r)) as [vs|] eqn:E; [|done].
      apply length_mapM in E. pose proof (split_on_nonempty ":" r). destruct vs; [by destruct (split_on ":" r)|].
      by rewrite (proj2 (Z.leb_gt _ 8)) by llia. }
  pose proof (cut_spec ":" r) as Hcut. pose proof (no_nul_cut ":" r Hn) as Hnn. pose proof (cut_no_sep ":" r) as Hsep.
  destruct (cut ":" r) as [g [b|]] eqn:Hc; cbn [fst] in Hsep.
  - destruct Hnn as [Hng Hnb]. subst r. rewrite split_group, mapM_cons_group by done.
    destruct (parse_ipv6_group_step fuel pre g (":"%char :: b) front rear true (conj Hng Hsep) Hf Hr ltac:(llia)) as (f & Hff & ->).
    rewrite parse_ipv6_group_end by first [done | right; by exists b | by apply no_nul_cons].
    destruct (ipv6_group g) as [v|]; [|done]. cbv zeta.
    assert (parse_ipv6_loop f (pre ++ g ++ ":"%char :: b) front (rear ++ [v]) true (len pre + len g + 1) (len pre + len g + 1) =
      match (v ::.) <$> mapM ipv6_group (split_on ":" b) with
      | Some vs => if len rear + len vs <=? 8 then Some (front, rear ++ vs, true) else None
      | None => None
      end) as Hrec.
    { replace (pre ++ g ++ ":"%char :: b) with ((pre ++ g ++ [":"%char]) ++ b) by by rewrite <-!app_assoc.
      replace (len pre + len g + 1) with (len (pre ++ g ++ [":"%char])) by llia. rewrite IH by (done || llia).
      destruct (mapM ipv6_group (split_on ":" b)) as [vs|]; [|done]. simpl. rewrite <-app_assoc.
      by replace (len (rear ++ [v]) + len vs) with (len rear + len (v :: vs)) by llia. }
    destruct b as [|c b']; [exact Hrec|]. destruct (decide (c = ":"%char)) as [-> |Hne].
    + rewrite bool_decide_eq_true_2 by done. pose proof (split_group [] b' ltac:(apply not_elem_of_nil)) as Es. cbn [app] in Es. by rewrite Es.
    + rewrite bool_decide_eq_false_2 by done. exact Hrec.
  - subst r. rewrite split_on_none by done. rewrite mapM_cons_group.
    destruct (parse_ipv6_group_step fuel pre g [] front rear true (conj Hnn Hsep) Hf Hr Hfuel) as (f & Hff & E).
    rewrite !app_nil_r in E. rewrite E. pose proof (parse_ipv6_group_end f pre g [] front rear true) as Eend.
    rewrite !app_nil_r in Eend. rewrite Eend by first [done | by left | apply no_nul_nil]. destruct (ipv6_group g); [|done]. simpl.
    by rewrite (proj2 (Z.leb_le _ 8)) by lia.
Qed.

(** ** Placeholders *)

Lemma cut_placeholder_group g t : (":"%char ∉ g) ->
  cut_placeholder (g ++ t) = let '(a, o) := cut_placeholder t in (g ++ a, o).
Proof.
  induction g as [|c g IH]; intros Hg; [cbn [app]; by destruct (cut_placeholder t)|]. apply not_elem_of_cons in Hg as [Hc Hg].
  change ((c :: g) ++ t) with (c :: (g ++ t)). specialize (IH Hg). cbn [cut_placeholder].
  rewrite (bool_decide_eq_false_2 (c = ":"%char)) by congruence. cbn [andb]. destruct (g ++ t) as [|c' s'] eqn:E.
  - apply app_eq_nil in E as [-> ->]. done.
  - rewrite IH. by destruct (cut_placeholder t).
Qed.

Lemma cut_placeholder_colon c b : c <> ":"%char ->
  cut_placeholder (":"%char :: c :: b) = let '(a, o) := cut_placeholder (c :: b) in (":"%char :: a, o).
Proof. intros Hc. cbn [cut_placeholder]. rewrite (bool_decide_eq_false_2 (c = ":"%char)), andb_false_r by done. done. Qed.

(** The groups up to the placeholder and the groups after it. *)
Definition front_result (front : list Z) (r : cstr) : option (list Z * list Z * bool) :=
  match cut_placeholder r with
  | (a, None) =>
      match mapM ipv6_group (split_on ":" a) with
      | Some vs => if len front + len vs <=? 8 then Some (front ++ vs, [], false) else None
      | None => None
      end
  | (a, Some b) =>
      match mapM ipv6_group (split_on ":" a), ipv6_groups b with
      | Some vs, Some ws =>
          if (len front + len vs <? 8) && (len ws <=? 8) || (bool_decide (b = []) && (len front + len vs <=? 8))
          then Some (front ++ vs, ws, true) else None
      | _, _ => None
      end
  end.

Lemma front_result_full front r : 8 <= len front -> front_result front r = None.
Proof.
  intros Hfull. unfold front_result. assert (forall a vs, mapM ipv6_group (split_on ":" a) = Some vs -> 1 <= len vs) as Hlen.
  { intros a vs E%length_mapM. pose proof (split_on_nonempty ":" a). destruct (split_on ":" a); [done|simpl in E; lia]. }
  destruct (cut_placeholder r) as [a [b|]]; (destruct (mapM ipv6_group (split_on ":" a)) as [vs|] eqn:E; [apply Hlen in E|done]).
  - destruct (ipv6_groups b) as [ws|]; [|done]. rewrite (proj2 (Z.ltb_ge _ 8)), (proj2 (Z.leb_gt (len front + len vs) 8)) by lia.
    by rewrite andb_false_r.
  - by rewrite (proj2 (Z.leb_gt _ 8)) by lia.
Qed.

Lemma parse_ipv6_front fuel : forall pre r front,
  no_nul r -> (length r < fuel)%nat -> parse_ipv6_loop fuel (pre ++ r) front [] false (len pre) (len pre) = front_result front r.
Proof.
  induction fuel as [fuel IH] using lt_wf_ind. intros pre r front Hn Hfuel.
  destruct (Z.lt_ge_cases (len front) 8) as [Hf|Hf]; [|rewrite loop_full by (by left); by rewrite front_result_full].
  pose proof (cut_spec ":" r) as Hcut. pose proof (no_nul_cut ":" r Hn) as Hnn. pose proof (cut_no_sep ":" r) as Hsep.
  destruct (cut ":" r) as [g [b|]] eqn:Hc; cbn [fst] in Hsep.
  - destruct Hnn as [Hng Hnb]. subst r.
    destruct (parse_ipv6_group_step fuel pre g (":"%char :: b) front [] false (conj Hng Hsep) Hf ltac:(done) ltac:(llia)) as (f & Hff & ->).
    rewrite parse_ipv6_group_end by first [done | right; by exists b | by apply no_nul_cons].
    assert (forall v, ipv6_group g = Some v ->
      parse_ipv6_loop f (pre ++ g ++ ":"%char :: b) (front ++ [v]) [] false (len pre + len g + 1) (len pre + len g + 1) = front_result (front ++ [v]) b) as Hrec.
    { intros v _. replace (pre ++ g ++ ":"%char :: b) with ((pre ++ g ++ [":"%char]) ++ b) by by rewrite <-!app_assoc.
      replace (len pre + len g + 1) with (len (pre ++ g ++ [":"%char])) by llia. by apply IH; (done || llia). }
    unfold front_result at 1. rewrite cut_placeholder_group by done.
    destruct b as [|c b'].
    + cbn [cut_placeholder]. rewrite split_group, mapM_cons_group by done. destruct (ipv6_group g) as [v|] eqn:Hv; [|done].
      cbv zeta. rewrite Hrec by done. done.
    + destruct (decide (c = ":"%char)) as [-> |Hne].
      * change (cut_placeholder (":"%char :: ":"%char :: b')) with (@nil ascii, Some b'). cbv iota beta. rewrite app_nil_r, split_on_none by done.
        rewrite mapM_cons_group. destruct (ipv6_group g) as [v|]; [|done]. cbv zeta. rewrite bool_decide_eq_true_2 by done. simpl mapM. cbn [fmap option_fmap option_map].
        destruct b' as [|c2 b2].
        -- cbn [ipv6_groups]. rewrite bool_decide_eq_true_2 by done. cbn [andb]. simpl. rewrite (proj2 (Z.leb_le (len front + Z.of_nat 1) 8)) by lia. by rewrite orb_true_r.
        -- rewrite (bool_decide_eq_false_2 (c2 :: b2 = [])) by done. cbn [andb]. change (cons v <$> mret []) with (Some [v]). cbv iota beta.
           replace (pre ++ g ++ ":"%char :: ":"%char :: c2 :: b2) with ((pre ++ g ++ [":"%char; ":"%char]) ++ c2 :: b2) by by rewrite <-!app_assoc.
           replace (len pre + len g + 2) with (len (pre ++ g ++ [":"%char; ":"%char])) by llia.
           apply no_nul_cons in Hnb as [_ Hnb]. cbn [ipv6_groups].
           destruct (Z.lt_ge_cases (len (front ++ [v])) 8) as [Hf2|Hf2].
           ++ rewrite parse_ipv6_rear by (done || llia). destruct (mapM ipv6_group (split_on ":" (c2 :: b2))) as [ws|]; [|done].
              rewrite (proj2 (Z.ltb_lt _ 8)) by llia. cbn [andb]. rewrite orb_false_r. done.
           ++ rewrite loop_full by by left. destruct (mapM ipv6_group (split_on ":" (c2 :: b2))) as [ws|]; [|done].
              by rewrite (proj2 (Z.ltb_ge _ 8)) by llia.
      * rewrite cut_placeholder_colon by done. destruct (ipv6_group g) as [v|] eqn:Hv.
        -- cbv zeta. rewrite bool_decide_eq_false_2 by done. rewrite Hrec by done. unfold front_result.
           destruct (cut_placeholder (c :: b')) as [a [o|]]; rewrite split_group, mapM_cons_group, Hv by done;
             (destruct (mapM ipv6_group (split_on ":" a)) as [vs|]; [|done]); simpl; rewrite <-?app_assoc;
             replace (len (front ++ [v]) + len vs) with (len front + len (v :: vs)) by llia; done.
        -- destruct (cut_placeholder (c :: b')) as [a [o|]]; by rewrite split_group, mapM_cons_group, Hv by done.
  - subst r. destruct (parse_ipv6_group_step fuel pre g [] front [] false (conj Hnn Hsep) Hf ltac:(done) Hfuel) as (f & Hff & E).
    rewrite !app_nil_r in E. rewrite E. pose proof (parse_ipv6_group_end f pre g [] front [] false) as Eend.
    rewrite !app_nil_r in Eend. rewrite Eend by first [done | by left | apply no_nul_nil]. unfold front_result.
    pose proof (cut_placeholder_group g [] Hsep) as Ecut. cbn [cut_placeholder] in Ecut. rewrite !app_nil_r in Ecut. rewrite Ecut.
    rewrite split_on_none, mapM_cons_group by done. destruct (ipv6_group g); [|done]. simpl.
    by rewrite (proj2 (Z.leb_le _ 8)) by lia.
Qed.

Lemma cut_placeholder_spec s : match cut_placeholder s with (a, None) => a = s | (a, Some b) => s = a ++ lit "::" ++ b end.
Proof.
  induction s as [|c s IH]; [done|]. cbn [cut_placeholder]. destruct s as [|c' s']; [done|].
  destruct (decide (c = ":"%char /\ c' = ":"%char)) as [[-> ->]|Hn].
  - rewrite !bool_decide_eq_true_2 by done. done.
  - replace (bool_decide (c = ":"%char) && bool_decide (c' = ":"%char)) with false.
    2:{ symmetry. apply not_true_is_false. rewrite andb_true_iff, !bool_decide_eq_true. done. }
    destruct (cut_placeholder (c' :: s')) as [a [b|]]; simpl; by rewrite IH.
Qed.

Lemma starts_with_placeholder s : strncmp_eq s (lit "::") 2 = true -> exists r, s = lit "::" ++ r.
Proof.
  unfold strncmp_eq. rewrite bool_decide_eq_true. intros E. exists (drop (Z.to_nat 2) s).
  change (lit "::") with (take (Z.to_nat 2) (lit "::")). rewrite <-E. symmetry. apply take_drop.
Qed.

Lemma ipv6_groups_nonempty s : s <> [] -> ipv6_groups s = mapM ipv6_group (split_on ":" s).
Proof. by destruct s. Qed.

Lemma finalize_ipv6_eq front rear expand :
  finalize_ipv6 front rear expand =
  if len front + len rear + (if expand then 1 else 0) <=? 8
  then Some (front ++ replicate (8 - length front - length rear) 0 ++ rear) else None.
Proof.
  unfold finalize_ipv6, IPV6_SEGMENTS. set (n := len front + len rear + _).
  destruct (Z.ltb_spec 8 n); [by rewrite (proj2 (Z.leb_gt n 8)) by lia|]. rewrite (proj2 (Z.leb_le n 8)) by lia.
  do 4 f_equal. subst n. destruct expand; lia.
Qed.

Lemma parse_ipv6_address_grammar s : no_nul s -> parse_ipv6_address (Some s) = ipv6_of s.
Proof.
  intros Hn. unfold parse_ipv6_address. destruct (strncmp_eq s (lit "::") 2) eqn:Hstart.
  - apply starts_with_placeholder in Hstart as [r ->]. destruct r as [|c r]; [reflexivity|].
    rewrite (proj2 (Z.eqb_neq (strlen _) 2)) by (unfold strlen; simpl; lia). cbn [andb]. cbv zeta.
    pose proof (parse_ipv6_rear (S (length (lit "::" ++ c :: r))) (lit "::") (c :: r) [] []) as E.
    change (len (lit "::")) with 2 in E. rewrite E by first [apply no_nul_app in Hn; apply Hn|simpl; lia]. clear E.
    unfold ipv6_of. change (cut_placeholder (lit "::" ++ c :: r)) with (@nil ascii, Some (c :: r)). cbn [ipv6_groups].
    destruct (mapM ipv6_group (split_on ":" (c :: r))) as [ws|]; [|done]. cbn [app length].
    destruct (Z.leb_spec (Z.of_nat 0 + len ws) 8).
    + rewrite finalize_ipv6_eq. cbn [length app].
      destruct (Z.ltb_spec (Z.of_nat 0 + len ws) 8); [by rewrite (proj2 (Z.leb_le _ 8)) by lia|by rewrite (proj2 (Z.leb_gt _ 8)) by lia].
    + by rewrite (proj2 (Z.ltb_ge _ 8)) by lia.
  - cbn [andb]. cbv zeta. pose proof (parse_ipv6_front (S (length s)) [] s [] Hn ltac:(lia)) as E. cbn [app] in E. change (len []) with 0 in E.
    rewrite E. clear E. unfold front_result, ipv6_of. pose proof (cut_placeholder_spec s) as Hs. destruct (cut_placeholder s) as [a [b|]].
    + assert (a <> []) as Hne by (intros ->; subst s; unfold strncmp_eq in Hstart; by apply (bool_decide_eq_false_1 _ Hstart)).
      rewrite (ipv6_groups_nonempty a Hne). destruct (mapM ipv6_group (split_on ":" a)) as [vs|]; [|done].
      destruct (ipv6_groups b) as [ws|] eqn:Hws; [|done]. cbn [app length]. change (Z.of_nat 0 + len vs) with (len vs).
      destruct (Z.ltb_spec (len vs + len ws) 8).
      * rewrite (proj2 (Z.ltb_lt (len vs) 8)), (proj2 (Z.leb_le (len ws) 8)) by lia. cbn [andb orb]. rewrite finalize_ipv6_eq.
        by rewrite (proj2 (Z.leb_le _ 8)) by lia.
      * destruct (_ || _); [|done]. rewrite finalize_ipv6_eq. by rewrite (proj2 (Z.leb_gt _ 8)) by lia.
    + subst a. destruct (mapM ipv6_group (split_on ":" s)) as [vs|]; [|done]. cbn [app length]. change (Z.of_nat 0 + len vs) with (len vs).
      destruct (Z.leb_spec (len vs) 8); [|done]. rewrite finalize_ipv6_eq. cbn [length]. rewrite (proj2 (Z.leb_le _ 8)) by lia.
      by rewrite app_nil_r, Nat.sub_0_r.
Qed.

(** ** Segments *)

Lemma ipv4_group_range g v : ipv4_group g = Some v -> 0 <= v <= 255.
Proof.
  rewrite ipv4_group_eq. destruct (all_digits g) eqn:Hg; [|done]. cbn [andb]. case_match; [|done]. intros [= <-]. bools.
  pose proof (read_digits_bound g 0 Hg ltac:(lia)). lia.
Qed.

Lemma parse_ipv6_digits_range s : forall segment v, 0 <= segment < 2 ^ 16 -> parse_ipv6_digits segment s = Some v -> 0 <= v < 2 ^ 16.
Proof.
  induction s as [|c s IH]; intros segment v Hseg; simpl; [by intros [= <-]|].
  destruct (ipv6_digit c); [|done]. apply IH. apply wrap_u_range. lia.
Qed.

Lemma ipv6_group_range g v : ipv6_group g = Some v -> 0 <= v < 2 ^ 16.
Proof. rewrite ipv6_group_eq. unfold parse_ipv6_segment. case_match; [done|]. by apply parse_ipv6_digits_range. Qed.

Lemma mapM_range {A} (f : A -> option Z) (P : Z -> Prop) l vs :
  (forall x v, f x = Some v -> P v) -> mapM f l = Some vs -> Forall P vs.
Proof. intros Hf Hl. apply mapM_Some in Hl. induction Hl; constructor; eauto. Qed.

Lemma ipv6_groups_range s vs : ipv6_groups s = Some vs -> Forall (fun v => 0 <= v < 2 ^ 16) vs.
Proof. destruct s; [by intros [= <-]|]. apply mapM_range, ipv6_group_range. Qed.

Lemma ipv4_of_segments s segs : ipv4_of s = Some segs -> length segs = 4%nat /\ Forall (fun v => 0 <= v <= 255) segs.
Proof.
  unfold ipv4_of. case_match; [|done]. bools. intros E. split; [apply length_mapM in E; lia|].
  by eapply mapM_range; [apply ipv4_group_range|].
Qed.

Lemma ipv6_of_segments s segs : ipv6_of s = Some segs -> length segs = 8%nat /\ Forall (fun v => 0 <= v < 2 ^ 16) segs.
Proof.
  unfold ipv6_of. destruct (cut_placeholder s) as [a [b|]].
  - destruct (ipv6_groups a) as [vs|] eqn:Ha; [|done]. destruct (ipv6_groups b) as [ws|] eqn:Hb; [|done].
    apply ipv6_groups_range in Ha, Hb. case_match; [|done]. bools. intros [= <-]. split; [rewrite !length_app, length_replicate; lia|].
    rewrite !Forall_app. split; [done|]. split; [|done]. by apply Forall_replicate.
  - destruct (mapM ipv6_group (split_on ":" a)) as [vs|] eqn:Ha; [|done]. apply (mapM_range _ _ _ _ ipv6_group_range) in Ha.
    case_match; [|done]. bools. intros [= <-]. split; [rewrite length_app, length_replicate; lia|].
    rewrite Forall_app. split; [done|]. by apply Forall_replicate.
Qed.

(** ** Different kinds of addresses *)

Lemma ipv4_not_ipv6 s : no_nul s -> is_ipv4_address (Some s) = true -> is_ipv6_address (Some s) = false.
Proof.
  intros Hn H4. unfold is_ipv4_address, is_ipv6_address in *. rewrite parse_ipv4_address_grammar in H4 by done.
  rewrite parse_ipv6_address_grammar by done. apply bool_decide_eq_true in H4 as [segs H4]. apply bool_decide_eq_false_2. intros [segs6 H6].
  unfold ipv4_of in H4. case_match; [|done]. bools. apply mapM_Some in H4.
  assert (Forall (fun g => 1 <= len g /\ all_digits g = true) (split_on "." s)) as Hgroups.
  { clear -H4. induction H4 as [|g v gs vs Hg _ IH]; [constructor|]. constructor; [|done].
    rewrite ipv4_group_eq in Hg. case_match eqn:Hc; [|done]. bools. done. }
  pose proof (join_split_on "." s) as Hjoin. set (groups := split_on "." s) in *.
  assert (":"%char ∉ s) as Hcolon.
  { rewrite <-Hjoin. intros [Hc|(g & Hg & Hc)]%join_elem_of; [done|]. destruct (proj1 (Forall_forall _ _) Hgroups g Hg) as [_ Hd].
    unfold all_digits in Hd. rewrite forallb_forall in Hd. apply list_elem_of_In in Hc. by apply Hd in Hc. }
  assert (7 <= len s) as Hlen.
  { rewrite <-Hjoin. clearbody groups. destruct groups as [|g1 [|g2 [|g3 [|g4 [|]]]]]; try (simpl in *; lia).
    repeat (apply Forall_cons in Hgroups as [[? _] Hgroups]). cbn [join]. llia. }
  unfold ipv6_of in H6. pose proof (cut_placeholder_group s [] Hcolon) as Ecut. cbn [cut_placeholder] in Ecut. rewrite !app_nil_r in Ecut.
  rewrite Ecut, split_on_none, mapM_cons_group in H6 by done.
  assert (ipv6_group s = None) as Hg6; [|by rewrite Hg6 in H6].
  rewrite ipv6_group_eq. unfold parse_ipv6_segment. by rewrite (proj2 (Z.ltb_lt 4 _)), orb_true_r by lia.
Qed.

(** * The order of addresses *)

Lemma cmp_segments_refl a : cmp_segments a a = 0.
Proof. induction a as [|x a IH]; simpl; [done|]. by rewrite Z.sub_diag. Qed.

Lemma cmp_segments_swap a : forall b, 0 < cmp_segments a b <-> cmp_segments b a < 0.
Proof.
  induction a as [|x a IH]; intros [|y b]; simpl; [lia..|]. destruct (Z.eqb_spec (x - y) 0), (Z.eqb_spec (y - x) 0); cbn [negb]; [apply IH|lia..].
Qed.

Lemma cmp_segments_trans a : forall b c, length a = length b -> length b = length c ->
  cmp_segments a b <= 0 -> cmp_segments b c <= 0 -> cmp_segments a c <= 0.
Proof.
  induction a as [|x a IH]; intros [|y b] [|z c] Hab Hbc; try done; simpl in *.
  destruct (Z.eqb_spec (x - y) 0), (Z.eqb_spec (y - z) 0), (Z.eqb_spec (x - z) 0); cbn [negb]; try lia.
  apply IH; lia.
Qed.

Lemma cmp_text_swap a b : 0 < cmp_text a b <-> cmp_text b a < 0.
Proof. destruct a as [a|], b as [b|]; simpl; [|lia..]. rewrite (strcmp_antisym a b). lia. Qed.

Lemma cmp_text_trans a b c : cmp_text a b <= 0 -> cmp_text b c <= 0 -> cmp_text a c <= 0.
Proof. destruct a as [a|], b as [b|], c as [c|]; simpl; try lia. apply strcmp_trans. Qed.

(** What an argument is compared as. *)
Inductive address_key := Text (s : option cstr) | IPv4 (segments : list Z) | IPv6 (segments : list Z).

Definition key_of (a : option cstr) : address_key :=
  match parse_ipv4_address a, parse_ipv6_address a with
  | Some segments, _ => IPv4 segments
  | None, Some segments => IPv6 segments
  | None, None => Text a
  end.

Definition cmp_keys (a b : address_key) : Z :=
  match a, b with
  | Text a, Text b => cmp_text a b
  | Text _, _ => -1
  | _, Text _ => 1
  | IPv4 a, IPv4 b | IPv6 a, IPv6 b => cmp_segments a b
  | IPv4 _, IPv6 _ => -1
  | IPv6 _, IPv4 _ => 1
  end.

Definition valid_text (a : option cstr) : Prop := match a with Some s => no_nul s | None => True end.

Lemma kinds_exclusive a segs : valid_text a -> parse_ipv4_address a = Some segs -> parse_ipv6_address a = None.
Proof.
  destruct a as [s|]; [|done]. intros Hn H4. pose proof (ipv4_not_ipv6 s Hn) as H. unfold is_ipv4_address, is_ipv6_address in H.
  rewrite H4 in H. specialize (H (bool_decide_eq_true_2 _ (mk_is_Some _ _ eq_refl))).
  apply bool_decide_eq_false in H. by apply eq_None_not_Some.
Qed.

Lemma cmp_ip_address_keys a b : valid_text a -> valid_text b -> cmp_ip_address a b = cmp_keys (key_of a) (key_of b).
Proof.
  intros Ha Hb. unfold cmp_ip_address, cmp_ipv4_address, cmp_ipv6_address, cmp_address, is_ipv4_address, is_ipv6_address, key_of.
  pose proof (kinds_exclusive a) as Hxa. pose proof (kinds_exclusive b) as Hxb.
  destruct (parse_ipv4_address a) as [a4|]; [rewrite (Hxa a4) by done|]; destruct (parse_ipv4_address b) as [b4|];
    try rewrite (Hxb b4) by done; [done| | |]; try destruct (parse_ipv6_address a) as [a6|]; try destruct (parse_ipv6_address b) as [b6|]; done.
Qed.

Definition key_ok (k : address_key) : Prop :=
  match k with Text _ => True | IPv4 segments => length segments = 4%nat | IPv6 segments => length segments = 8%nat end.

Lemma key_of_ok a : valid_text a -> key_ok (key_of a).
Proof.
  destruct a as [s|]; [|done]. intros Hn. unfold key_of. rewrite parse_ipv4_address_grammar, parse_ipv6_address_grammar by done.
  destruct (ipv4_of s) as [segs|] eqn:E; [by apply ipv4_of_segments in E as [? _]|].
  destruct (ipv6_of s) as [segs|] eqn:E6; [by apply ipv6_of_segments in E6 as [? _]|done].
Qed.

Lemma cmp_keys_swap a b : 0 < cmp_keys a b <-> cmp_keys b a < 0.
Proof. destruct a, b; simpl; try lia; [apply cmp_text_swap|apply cmp_segments_swap..]. Qed.

Lemma cmp_keys_trans a b c : key_ok a -> key_ok b -> key_ok c -> cmp_keys a b <= 0 -> cmp_keys b c <= 0 -> cmp_keys a c <= 0.
Proof.
  destruct a, b, c; simpl; try lia; intros Ha Hb Hc; [apply cmp_text_trans|apply cmp_segments_trans; congruence..].
Qed.

(** C39: the IPv4 parser accepts exactly four groups of one to three digits up to
    255; the IPv6 parser accepts groups of one to four hexadecimal digits with at
    most one placeholder for at least one group, and also texts with fewer than
    eight groups and no placeholder, where the missing groups are zero; its
    letters count from zero instead of ten. No text is both. *)
Theorem ip_address_grammar (s : cstr) (c : ascii) :
  no_nul s ->
  parse_ipv4_address (Some s) = ipv4_of s /\ parse_ipv6_address (Some s) = ipv6_of s /\
  is_ipv4_address (Some s) && is_ipv6_address (Some s) = false /\
  ipv6_digit c = (fun v => if is_digit c then v else v - 10) <$> hex_value c.
Proof.
  intros Hn. split; [by apply parse_ipv4_address_grammar|]. split; [by apply parse_ipv6_address_grammar|]. split.
  - destruct (is_ipv4_address (Some s)) eqn:E; [|done]. by apply ipv4_not_ipv6.
  - apply ipv6_digit_letter.
Qed.

Lemma ip_address_grammar_witness :
  parse_ipv4_address (Some (lit "10.0.2.255")) = Some [10; 0; 2; 255] /\ parse_ipv4_address (Some (lit "10.0.2.255")) = ipv4_of (lit "10.0.2.255") /\
  is_ipv6_address (Some (lit "cafe")) = true /\ ipv6_digit "f" = Some 5.
Proof.
  destruct (ip_address_grammar (lit "10.0.2.255") "f") as (H4 & _ & _ & Hf); [apply (bool_decide_unpack _); by vm_compute|].
  split; [reflexivity|]. split; [exact H4|]. split; [reflexivity|exact Hf].
Defined.

(** [cmp_ip_address] orders texts: it is antisymmetric and transitive, NULL
    and texts that are no addresses come before IPv4 addresses, which come before
    IPv6 addresses; two addresses of a kind are ordered by their segments. *)
Theorem cmp_ip_address_order (a b c : option cstr) :
  valid_text a -> valid_text b -> valid_text c ->
  (0 < cmp_ip_address a b <-> cmp_ip_address b a < 0) /\
  (cmp_ip_address a b <= 0 -> cmp_ip_address b c <= 0 -> cmp_ip_address a c <= 0) /\
  cmp_ip_address a b =
    match key_of a, key_of b with
    | Text a, Text b => cmp_text a b
    | IPv4 a, IPv4 b | IPv6 a, IPv6 b => cmp_segments a b
    | Text _, _ | IPv4 _, IPv6 _ => -1
    | _, _ => 1
    end.
Proof.
  intros Ha Hb Hc. rewrite !cmp_ip_address_keys by done. split; [apply cmp_keys_swap|]. split.
  - apply cmp_keys_trans; by apply key_of_ok.
  - by destruct (key_of a), (key_of b).
Qed.

Lemma cmp_ip_address_order_witness :
  cmp_ip_address (Some (lit "localhost")) (Some (lit "10.0.0.1")) <= 0 /\ cmp_ip_address (Some (lit "10.0.0.1")) (Some (lit "10.0.0.2")) <= 0 /\
  cmp_ip_address (Some (lit "localhost")) (Some (lit "10.0.0.2")) <= 0.
Proof.
  split; [by vm_compute|]. split; [by vm_compute|].
  apply (cmp_ip_address_order (Some (lit "localhost")) (Some (lit "10.0.0.1")) (Some (lit "10.0.0.2")));
    first [apply (bool_decide_unpack _); by vm_compute|by vm_compute].
Defined.
