(* ===== verification/Password.v ===== *)
(** Passwords ([password.c]) and the random numbers they are made of
    ([random_linux.c], the implementation of [random.h] on Linux and macOS).

    The random device is an input: whether it can be opened, and the bytes that
    it delivers before a read fails. /dev/random delivers bytes without end: its
    runs are the runs on all finite beginnings of an endless sequence, which is
    what [generated_password_valid] is about. An [int] that overflows is undefined
    behaviour. *)

From S2P Require Import Prelude CLib Utils.

(** What the next calls of [fopen] for the device give ([true], also once the
    list is used up: it opens), and the bytes that [fgetc] delivers, over all the
    times it is opened, before a read fails; a device that never fails has no such
    list, but each moment of a run on it has seen only a finite beginning. *)
Record entropy := mkEntropy { en_opens : list bool; en_bytes : list Byte.byte; en_env : env }.

Definition entropy_env {A} (m : M env A) : M entropy A :=
  zoom en_env (fun e s => mkEntropy (en_opens s) (en_bytes s) e) m.

Definition byte_value (b : Byte.byte) : Z := Z.of_N (Byte.to_N b).

(** * Random numbers *)

Definition open_device : M entropy bool := fun s =>
  Some (default true (head (en_opens s)), mkEntropy (tail (en_opens s)) (en_bytes s) (en_env s)).

(** [while ((usable_max<<1) <= 256) usable_max = usable_max << 1;] - eight
    doublings exceed 256 from any span on. *)
Fixpoint double_span (fuel : nat) (usable_max : Z) : Z :=
  match fuel with
  | O => usable_max
  | S fuel' =>
      if Z.shiftl usable_max 1 <=? 256 then double_span fuel' (Z.shiftl usable_max 1) else usable_max
  end.

Definition usable_max (span : Z) : Z := double_span 8 span - 1.

(** The loop that fills [out]: [i] numbers are missing. *)
Fixpoint fill (i : nat) (span usable min : Z) (bytes : list Byte.byte) : option (list Z) * list Byte.byte :=
  match i with
  | O => (Some [], bytes)
  | S i' =>
      (fix next bytes :=
         match bytes with
         | [] => (None, [])
         | b :: bytes' =>
             if usable <? byte_value b then next bytes'
             else
               let '(out, rest) := fill i' span usable min bytes' in
               ((fun out => byte_value b mod span + min :: out) <$> out, rest)
         end) bytes
  end.

Definition get_random_ints (count min max : Z) : M entropy (option (list Z)) :=
  if count <? 1 then mret None
  else if max <? min then mret None
  else
    if INT_MAX <? max - min + 1 then ub
    else
      let span := max - min + 1 in
      if (span <? 2) || (255 <? span) then mret None
      else
        opened ← open_device;
        if negb opened then mret None
        else
          ok ← entropy_env (zmalloc (4 * count));
          if negb ok then mret None
          else fun s =>
            let '(out, rest) := fill (Z.to_nat count) span (usable_max span) min (en_bytes s) in
            Some (out, mkEntropy (en_opens s) rest (en_env s)).

(** * Passwords *)

Definition PASSWORD_LENGTH : Z := 32.
Definition MIN_PASSWORD_LENGTH : Z := 15.
Definition MAX_PASSWORD_LENGTH : Z := 1000.
Definition MIN_PASSWORD_UPPER_CASE : Z := 3.
Definition MIN_PASSWORD_LOWER_CASE : Z := 3.
Definition MIN_PASSWORD_NUMBERS : Z := 2.
Definition MIN_PASSWORD_SPECIAL : Z := 1.

Definition password_chars : cstr :=
  lit "abcdefghijklmnopqrstuvwxyz" ++ lit "ABCDEFGHIJKLMNOPQRSTUVWXYZ" ++ lit "0123456789" ++ lit "-.".

(** The loop of [validate_password] over the characters; [None] is the early
    return on reserved characters. *)
Record char_counts := mkCounts { num_lower_case : Z; num_upper_case : Z; num_numbers : Z; num_special : Z }.

Definition no_chars : char_counts := mkCounts 0 0 0 0.

Definition count_char (ch : ascii) (n : char_counts) : option char_counts :=
  let 'mkCounts lower upper numbers special := n in
  if in_range "a" "z" ch then Some (mkCounts (lower + 1) upper numbers special)
  else if in_range "A" "Z" ch then Some (mkCounts lower (upper + 1) numbers special)
  else if in_range "0" "9" ch then Some (mkCounts lower upper (numbers + 1) special)
  else if bool_decide (ch = chr 13 \/ ch = chr 10) then None
  else Some (mkCounts lower upper numbers (special + 1)).

Fixpoint count_password (password : cstr) (n : char_counts) : option char_counts :=
  match password with
  | [] => Some n
  | ch :: password' => n ← count_char ch n; count_password password' n
  end.

Definition validate_password (password : option cstr) : bool :=
  match password with
  | None => false
  | Some password =>
      let length := strlen password in
      if (length <? MIN_PASSWORD_LENGTH) || (MAX_PASSWORD_LENGTH <? length) then false
      else
        match count_password password no_chars with
        | None => false
        | Some n =>
            (MIN_PASSWORD_LOWER_CASE <=? num_lower_case n) && (MIN_PASSWORD_UPPER_CASE <=? num_upper_case n) &&
            (MIN_PASSWORD_NUMBERS <=? num_numbers n) && (MIN_PASSWORD_SPECIAL <=? num_special n)
        end
  end.

(** The characters for random indices; an index outside of [password_chars]
    is undefined behaviour. *)
Definition choose_chars (random : list Z) : option cstr :=
  mapM (fun i => if i <? 0 then None else password_chars !! Z.to_nat i) random.

(** [while (!validate_password(out))]; every turn reads from the device, so that
    the bytes which it delivers before it fails bound the turns. *)
Fixpoint generate_loop (fuel : nat) (out : cstr) : M entropy (option cstr) :=
  if validate_password (Some out) then mret (Some out)
  else
    match fuel with
    | O => ub
    | S fuel' =>
        let max_random_index := strlen password_chars - 1 in
        random ← get_random_ints PASSWORD_LENGTH 0 max_random_index;
        match random with
        | None => mret None
        | Some random => out ← from_ub (choose_chars random); generate_loop fuel' out
        end
    end.

Definition generate_password : M entropy (option cstr) :=
  ok ← entropy_env (zmalloc (PASSWORD_LENGTH + 1));
  if negb ok then mret None
  else s ← get; generate_loop (S (length (en_bytes s))) [].

(** * Lemmas *)

(** Characters the network protocol reserves for the end of a line. *)
Definition line_end (ch : ascii) : Prop := ch = chr 13 \/ ch = chr 10.

Lemma entropy_env_eq {A} (m : M env A) s a e :
  m (en_env s) = Some (a, e) -> entropy_env m s = Some (a, mkEntropy (en_opens s) (en_bytes s) e).
Proof. intros E. unfold entropy_env, zoom. by rewrite E. Qed.

(** ** Random numbers *)

Section Random.
Context (span min : Z) (Hspan : 2 <= span <= 255).

Definition accepts (b : Byte.byte) : Prop := byte_value b <= usable_max span.
#[export] Instance accepts_dec b : Decision (accepts b).
Proof. unfold accepts. apply _. Defined.

Definition number_of (b : Byte.byte) : Z := byte_value b mod span + min.

(** The numbers are those of the accepted bytes that were used up for them. *)
Lemma fill_spec bytes : forall i,
  match fill i span (usable_max span) min bytes with
  | (Some out, rest) => exists used, bytes = used ++ rest /\
      out = number_of <$> filter accepts used /\ length (filter accepts used) = i
  | (None, rest) => rest = [] /\ (length (filter accepts bytes) < i)%nat
  end.
Proof.
  induction bytes as [|b bytes IH]; intros [|i].
  - by exists [].
  - split; [done|]. simpl. lia.
  - by exists [].
  - cbn [fill]. rewrite filter_cons. destruct (usable_max span <? byte_value b) eqn:E; bools.
    + rewrite decide_False by (unfold accepts; lia). specialize (IH (S i)).
      assert (fill (S i) span (usable_max span) min bytes =
        (fix next bytes := match bytes with
           | [] => (None, [])
           | b :: bytes' =>
               if usable_max span <? byte_value b then next bytes'
               else let '(out, rest) := fill i span (usable_max span) min bytes' in
                 ((fun out => byte_value b mod span + min :: out) <$> out, rest)
           end) bytes) as <- by (by destruct bytes).
      destruct (fill (S i) span (usable_max span) min bytes) as [[out|] rest]; [|done].
      destruct IH as (used & -> & -> & <-). exists (b :: used).
      rewrite filter_cons_False by (unfold accepts; lia). done.
    + rewrite decide_True by done. specialize (IH i).
      destruct (fill i span (usable_max span) min bytes) as [[out|] rest].
      * destruct IH as (used & -> & -> & <-). exists (b :: used). rewrite filter_cons_True by done. done.
      * destruct IH as [-> ?]. split; [done|]. simpl. lia.
Qed.

Lemma number_of_range b : min <= number_of b < min + span.
Proof. unfold number_of. pose proof (Z.mod_pos_bound (byte_value b) span ltac:(lia)). lia. Qed.
End Random.

(** ** The range of accepted bytes is a multiple of the span *)

Lemma double_span_spec fuel n span :
  1 <= n -> 1 <= span -> n * span <= 256 -> 256 < n * span * 2 ^ Z.of_nat fuel ->
  exists n', 1 <= n' /\ double_span fuel (n * span) = n' * span /\ n' * span <= 256 < 2 * (n' * span).
Proof.
  revert n. induction fuel as [|fuel IH]; intros n Hn Hs Hle Hlt; [lia|]. cbn [double_span].
  rewrite Z.shiftl_mul_pow2 by lia. change (2 ^ 1) with 2.
  destruct (n * span * 2 <=? 256) eqn:E; bools; [|exists n; lia].
  replace (n * span * 2) with (2 * n * span) in * by ring. apply IH; [lia..|].
  rewrite Nat2Z.inj_succ, Z.pow_succ_r in Hlt by lia. lia.
Qed.

Lemma usable_max_spec span : 2 <= span <= 255 ->
  exists n, 1 <= n /\ usable_max span + 1 = n * span /\ n * span <= 256 < 2 * (n * span).
Proof.
  intros ?. unfold usable_max.
  destruct (double_span_spec 8 1 span) as (n & ? & E & ?); [lia..|simpl; lia|].
  replace (1 * span) with span in E by ring. exists n. rewrite E. lia.
Qed.

(** All bytes. *)
Definition all_bytes : list Byte.byte := omap (fun n => Byte.of_N (N.of_nat n)) (seq 0 256).

Lemma all_bytes_values : byte_value <$> all_bytes = Z.of_nat <$> seq 0 256.
Proof. vm_compute. reflexivity. Qed.

Lemma count_residue span r (n : nat) : 1 <= span -> 0 <= r < span ->
  length (filter (fun z => Z.of_nat z mod span = r) (seq 0 (n * Z.to_nat span))) = n.
Proof.
  intros Hs Hr. induction n as [|n IH]; [done|].
  replace (S n * Z.to_nat span)%nat with (n * Z.to_nat span + (Z.to_nat r + S (Z.to_nat (span - r - 1))))%nat by lia.
  rewrite !seq_app, !filter_app, !length_app, IH. cbn [seq Nat.add].
  assert (forall i, (i < Z.to_nat span)%nat -> Z.of_nat (n * Z.to_nat span + i) mod span = Z.of_nat i) as Hmod.
  { intros i Hi. rewrite Nat2Z.inj_add, Nat2Z.inj_mul, Z2Nat.id by lia.
    rewrite Z.add_comm, Z_mod_plus_full. apply Z.mod_small. lia. }
  rewrite filter_cons_True by (rewrite Hmod; lia).
  rewrite !filter_none; [simpl; lia|intros x Hx..].
  - apply elem_of_seq in Hx. replace x with (n * Z.to_nat span + (x - n * Z.to_nat span))%nat by lia.
    rewrite Hmod by lia. lia.
  - apply elem_of_seq in Hx. replace x with (n * Z.to_nat span + (x - n * Z.to_nat span))%nat by lia.
    rewrite Hmod by lia. lia.
Qed.

Lemma count_accepted span min v : 2 <= span <= 255 -> min <= v < min + span ->
  Z.of_nat (length (filter (fun b => accepts span b /\ number_of span min b = v) all_bytes)) = (usable_max span + 1) / span.
Proof.
  intros Hs Hv. destruct (usable_max_spec span Hs) as (n & ? & E & ?).
  rewrite E, Z.div_mul by lia.
  erewrite (length_filter_fmap byte_value (fun z => z <= usable_max span /\ z mod span + min = v)) by (intros x; reflexivity).
  rewrite all_bytes_values, <-(length_filter_fmap Z.of_nat (fun z => z <= usable_max span /\ z mod span + min = v)
    (fun n => Z.of_nat n <= usable_max span /\ Z.of_nat n mod span + min = v)) by (intros x; reflexivity).
  replace 256%nat with (Z.to_nat n * Z.to_nat span + Z.to_nat (256 - n * span))%nat by lia.
  rewrite seq_app, filter_app, length_app.
  rewrite (filter_none _ (seq (0 + _) _)).
  2:{ intros x Hx. apply elem_of_seq in Hx. lia. }
  rewrite (filter_ext_in _ (fun z => Z.of_nat z mod span = v - min)).
  2:{ intros x Hx. apply elem_of_seq in Hx. lia. }
  rewrite count_residue by lia. simpl. lia.
Qed.

Lemma get_random_ints_run count min max s :
  0 < count -> 2 <= max - min + 1 <= 255 ->
  run (get_random_ints count min max) s (fun out s' => (plenty (en_env s) -> plenty (en_env s')) /\
    match out with
    | Some l => exists used, en_bytes s = used ++ en_bytes s' /\
        l = number_of (max - min + 1) min <$> filter (accepts (max - min + 1)) used /\ len l = count
    | None => ~ Forall (eq true) (en_opens s) \/ ~ plenty (en_env s) \/
        len (filter (accepts (max - min + 1)) (en_bytes s)) < count
    end).
Proof.
  intros Hc Hs. unfold get_random_ints.
  rewrite (proj2 (Z.ltb_ge count 1)), (proj2 (Z.ltb_ge max min)), (proj2 (Z.ltb_ge INT_MAX _)) by (unfold INT_MAX; lia).
  cbv zeta. rewrite (proj2 (Z.ltb_ge _ 2)), (proj2 (Z.ltb_ge 255 _)) by lia. red_if.
  apply run_bind. eapply run_eq; [reflexivity|]. destruct (default true _) eqn:Eo; red_if.
  2:{ apply run_ret. split; [done|left]. intros Ho. by destruct Ho as [|? ? <- _]. }
  apply run_bind. eapply run_eq; [apply entropy_env_eq, zmalloc_eq; lia|].
  destruct (alloc_next _) eqn:Ea; red_if.
  2:{ apply run_ret. split; [by apply plenty_rest|right; left]. intros Hp%plenty_next. cbn [en_env] in Ea. congruence. }
  unfold run. cbn [en_bytes].
  pose proof (fill_spec (max - min + 1) min (en_bytes s) (Z.to_nat count)) as H.
  destruct (fill _ _ _ _ _) as [[out|] rest]; (split; [by apply plenty_rest|]); [|right; right; destruct H; lia]. cbn [en_bytes].
  destruct H as (used & -> & -> & Hl). exists used. split; [done|split; [done|]]. rewrite length_fmap. lia.
Qed.

(** C37: [get_random_ints] draws uniformly: its result is the numbers of the first
    accepted bytes of the device, each of them in the requested range, and
    among all bytes equally many are accepted for every number of the range, and
    at least half of the bytes are accepted at all (what the comment in the
    code leaves open). *)
Theorem random_ints_uniform count min max s :
  0 < count -> 2 <= max - min + 1 <= 255 ->
  let span := max - min + 1 in
  run (get_random_ints count min max) s (fun out s' => forall l, out = Some l ->
    len l = count /\ Forall (fun v => min <= v <= max) l /\
    exists used, en_bytes s = used ++ en_bytes s' /\ l = number_of span min <$> filter (accepts span) used) /\
  (forall v, min <= v <= max ->
    Z.of_nat (length (filter (fun b => accepts span b /\ number_of span min b = v) all_bytes)) = (usable_max span + 1) / span) /\
  128 <= usable_max span < 256.
Proof.
  intros Hc Hs span. split; [|split].
  - eapply run_mono; [|by apply get_random_ints_run]. intros ? s' [_ H] l ->. destruct H as (used & ? & -> & ?).
    split; [done|]. split; [|by exists used]. apply Forall_fmap, Forall_true. intros b. simpl.
    pose proof (number_of_range (max - min + 1) min ltac:(lia) b). lia.
  - intros v ?. apply count_accepted; lia.
  - destruct (usable_max_spec span Hs) as (n & ? & E & ?). lia.
Qed.

Lemma random_ints_uniform_witness :
  let s := mkEntropy [] [Byte.x07; Byte.xff; Byte.x14] calm in
  0 < 2 /\ 2 <= 10 - 1 + 1 <= 255 /\
  get_random_ints 2 1 10 s = Some (Some [8; 1], mkEntropy [] [] calm) /\
  (run (get_random_ints 2 1 10) s (fun out s' => forall l, out = Some l ->
    len l = 2 /\ Forall (fun v => 1 <= v <= 10) l /\
    exists used, en_bytes s = used ++ en_bytes s' /\ l = number_of 10 1 <$> filter (accepts 10) used) /\
  (forall v, 1 <= v <= 10 ->
    Z.of_nat (length (filter (fun b => accepts 10 b /\ number_of 10 1 b = v) all_bytes)) = (usable_max 10 + 1) / 10) /\
  128 <= usable_max 10 < 256).
Proof. intros s. split; [lia|]. split; [lia|]. split; [reflexivity|]. apply (random_ints_uniform 2 1 10 s); lia. Defined.

(** ** Passwords *)

Lemma count_password_app p q n : count_password (p ++ q) n = n ← count_password p n; count_password q n.
Proof. revert n. induction p as [|c p IH]; intros n; [done|]. simpl. destruct (count_char c n); [apply IH|done]. Qed.

Lemma count_char_line c n n' : count_char c n = Some n' -> ~ line_end c.
Proof.
  destruct n. by intros E [-> | ->]; vm_compute in E.
Qed.

Lemma valid_password_chars p : validate_password (Some p) = true ->
  MIN_PASSWORD_LENGTH <= strlen p <= MAX_PASSWORD_LENGTH /\ Forall (fun c => ~ line_end c) p.
Proof.
  unfold validate_password. case_match eqn:E; [done|]. bools. split; [lia|].
  destruct (count_password p no_chars) as [n|] eqn:En; [|done]. clear -En. revert En. generalize no_chars.
  induction p as [|c p IH]; intros n0 En; constructor; simpl in En; destruct (count_char c n0) eqn:Ec; try done.
  - by eapply count_char_line.
  - by eapply IH.
Qed.

Lemma password_chars_lookup i : 0 <= i < 64 -> is_Some (password_chars !! Z.to_nat i).
Proof. intros ?. apply lookup_lt_is_Some. change (length password_chars) with 64%nat. lia. Qed.

(** The password that bytes stand for. *)
Definition password_of (bytes : list Byte.byte) : cstr :=
  (fun b => default NUL (password_chars !! Z.to_nat (byte_value b mod 64))) <$> bytes.

Lemma choose_chars_bytes bytes : choose_chars (number_of 64 0 <$> bytes) = Some (password_of bytes).
Proof.
  induction bytes as [|b bytes IH]; [done|]. cbn [fmap list_fmap choose_chars mapM].
  pose proof (number_of_range 64 0 ltac:(lia) b) as Hr.
  rewrite (proj2 (Z.ltb_ge (number_of 64 0 b) 0)) by lia.
  destruct (password_chars_lookup (number_of 64 0 b)) as [c Hc]; [lia|].
  unfold choose_chars in IH. rewrite Hc. cbn [mbind option_bind]. rewrite IH. cbn [mbind option_bind mret option_ret].
  unfold number_of in Hc. rewrite Z.add_0_r in Hc.
  change (password_of (b :: bytes)) with (default NUL (password_chars !! Z.to_nat (byte_value b mod 64)) :: password_of bytes).
  by rewrite Hc.
Qed.

Lemma password_of_chars bytes : Forall (fun c => c ∈ password_chars) (password_of bytes).
Proof.
  apply Forall_fmap, Forall_true. intros b. simpl.
  destruct (password_chars_lookup (byte_value b mod 64)) as [c Hc]; [apply Z.mod_pos_bound; lia|].
  rewrite Hc. by eapply list_elem_of_lookup_2.
Qed.

(** The alphabet has 64 characters, so that no byte is wasted. *)
Lemma all_accepted b : accepts 64 b.
Proof. unfold accepts. change (usable_max 64) with 255. unfold byte_value. pose proof (Byte.to_N_bounded b). lia. Qed.

Lemma filter_all (bytes : list Byte.byte) : filter (accepts 64) bytes = bytes.
Proof. induction bytes as [|b bytes IH]; [done|]. rewrite filter_cons_True by apply all_accepted. by rewrite IH. Qed.

(** One turn of the loop uses up 32 bytes. *)
Lemma password_numbers_run s :
  run (get_random_ints PASSWORD_LENGTH 0 (strlen password_chars - 1)) s (fun out s' => (plenty (en_env s) -> plenty (en_env s')) /\
    match out with
    | Some l => exists used, en_bytes s = used ++ en_bytes s' /\ length used = 32%nat /\ l = number_of 64 0 <$> used
    | None => ~ Forall (eq true) (en_opens s) \/ ~ plenty (en_env s) \/ (length (en_bytes s) < 32)%nat
    end).
Proof.
  change (strlen password_chars - 1) with 63.
  eapply run_mono; [|apply get_random_ints_run; unfold PASSWORD_LENGTH; lia].
  change (63 - 0 + 1) with 64. rewrite filter_all. unfold PASSWORD_LENGTH.
  intros [l|] s' [Hp H]; (split; [done|]); [|intuition lia]. destruct H as (used & -> & -> & Hl).
  rewrite filter_all, length_fmap in *. exists used. split; [done|split; [lia|done]].
Qed.

Lemma generate_loop_run fuel : forall s out,
  (length (en_bytes s) < 32 * fuel)%nat ->
  (out = [] \/ exists used, length used = 32%nat /\ out = password_of used) ->
  run (generate_loop fuel out) s (fun r s' => (plenty (en_env s) -> plenty (en_env s')) /\ forall p, r = Some p ->
    validate_password (Some p) = true /\ exists used, length used = 32%nat /\ p = password_of used).
Proof.
  induction fuel as [|fuel IH]; intros s out Hf Hout; [lia|]. cbn [generate_loop].
  destruct (validate_password (Some out)) eqn:E.
  { apply run_ret. split; [done|]. intros ? [= <-]. split; [done|]. destruct Hout as [-> |?]; [done|done]. }
  apply run_bind. eapply run_mono; [|apply password_numbers_run]. intros [l|] s' [Hp H]; [|apply run_ret; by split].
  destruct H as (used & Hb & Hl & ->). rewrite choose_chars_bytes. apply run_bind.
  apply (run_ret (password_of used)). eapply run_mono; [|apply IH; [|by eauto]].
  - intros r s2 [? ?]. split; [auto|done].
  - rewrite Hb, length_app in Hf. lia.
Qed.

Lemma generate_password_run s :
  run generate_password s (fun r s' => (plenty (en_env s) -> plenty (en_env s')) /\ forall p, r = Some p ->
    validate_password (Some p) = true /\ exists used, length used = 32%nat /\ p = password_of used).
Proof.
  unfold generate_password. apply run_bind. eapply run_eq; [apply entropy_env_eq, zmalloc_eq; unfold PASSWORD_LENGTH; lia|].
  destruct (alloc_next _); red_if; [|apply run_ret; split; [apply plenty_rest|done]]. apply run_bind. eapply run_eq; [reflexivity|].
  eapply run_mono; [|apply generate_loop_run; [simpl; lia|by left]].
  intros r s' [Hp H]. split; [|done]. intros ?. by apply Hp, plenty_rest.
Qed.

(** With a device and memory available, the first 32 bytes decide, if they stand
    for a valid password. *)
Lemma generate_password_first s bytes rest :
  en_bytes s = bytes ++ rest -> length bytes = 32%nat -> Forall (eq true) (en_opens s) -> plenty (en_env s) ->
  validate_password (Some (password_of bytes)) = true ->
  run generate_password s (fun r s' => r = Some (password_of bytes) /\ plenty (en_env s')).
Proof.
  intros Hb Hl Ho Ha Hv. unfold generate_password.
  apply run_bind. eapply run_eq; [apply entropy_env_eq, zmalloc_eq; unfold PASSWORD_LENGTH; lia|].
  rewrite (plenty_next _ Ha). red_if. apply run_bind. eapply run_eq; [reflexivity|]. cbn [en_bytes].
  rewrite Hb, length_app, Hl. change (S (32 + length rest)) with (S (S (31 + length rest))).
  generalize (31 + length rest)%nat as n. intros n. cbn [generate_loop].
  change (validate_password (Some [])) with false. cbv beta iota.
  apply run_bind. eapply run_mono; [|apply password_numbers_run]. cbn [en_opens en_env en_bytes].
  intros [l|] s' [Hp H].
  - destruct H as (used & Hu & Hlu & ->). rewrite choose_chars_bytes.
    assert (used = bytes) as -> by (eapply (app_inj_1 _ _ (en_bytes s') rest); [congruence|by rewrite <-Hu]).
    apply run_bind, (run_ret (password_of bytes)). destruct n; cbn [generate_loop]; rewrite Hv; apply run_ret;
      (split; [done|by apply Hp, plenty_rest]).
  - rewrite length_app in H. destruct H as [?|[H|?]]; [done| |lia]. exfalso. by apply H, plenty_rest.
Qed.

(** ** The turns of the loop *)

Lemma get_random_ints_opens count min max s a s' :
  get_random_ints count min max s = Some (a, s') -> Forall (eq true) (en_opens s) -> Forall (eq true) (en_opens s').
Proof.
  unfold get_random_ints. intros E Ho. assert (Forall (eq true) (tail (en_opens s))) as Ht by (destruct Ho; done).
  do 2 (case_match; [by injection E as <- <-|]). case_match; [done|]. cbv zeta in E.
  case_match; [by injection E as <- <-|]. apply bind_Some in E as (opened & s1 & E1 & E). injection E1 as <- <-.
  case_match; [by injection E as <- <-|]. apply bind_Some in E as (ok & s2 & E2 & E).
  assert (Forall (eq true) (en_opens s2)) as Hs2.
  { unfold entropy_env, zoom in E2. destruct (zmalloc _ _) as [[? ?]|]; [|done]. by injection E2 as <- <-. }
  case_match; [by injection E as <- <-|]. destruct (fill _ _ _ _ _) as [out rest]. by injection E as <- <-.
Qed.

(** The device opens whenever it is asked to and memory does not run out. *)
Definition ready (s : entropy) : Prop := Forall (eq true) (en_opens s) /\ plenty (en_env s).

(** The loop goes on with the next 32 bytes as long as the password is not valid. *)
Lemma generate_loop_turn fuel s out bytes rest :
  ready s -> en_bytes s = bytes ++ rest -> length bytes = 32%nat -> validate_password (Some out) = false ->
  exists s', ready s' /\ en_bytes s' = rest /\ generate_loop (S fuel) out s = generate_loop fuel (password_of bytes) s'.
Proof.
  intros [Ho Hp] Hb Hl Hv. cbn [generate_loop]. rewrite Hv.
  destruct (run_inv _ _ _ (password_numbers_run s)) as ([l|] & s' & E & Hp' & H).
  - destruct H as (used & Hu & Hlu & ->).
    assert (used = bytes /\ en_bytes s' = rest) as [-> Hr] by (apply app_inj_1; [congruence|by rewrite <-Hu]).
    exists s'. split; [split; [by eapply get_random_ints_opens|by apply Hp']|]. split; [done|].
    erewrite bind_eq by exact E. cbv beta iota. rewrite choose_chars_bytes. by erewrite bind_eq by reflexivity.
  - rewrite Hb, length_app in H. exfalso. destruct H as [?|[?|?]]; [done|done|lia].
Qed.

Lemma password_numbers_fail s : ready s -> (length (en_bytes s) < 32)%nat ->
  run (get_random_ints PASSWORD_LENGTH 0 (strlen password_chars - 1)) s (fun out s' => out = None /\ en_bytes s' = []).
Proof.
  intros [Ho Hp] Hb. change (strlen password_chars - 1) with 63. unfold get_random_ints, PASSWORD_LENGTH.
  change (32 <? 1) with false. change (63 <? 0) with false. change (INT_MAX <? 63 - 0 + 1) with false. cbv zeta.
  change ((63 - 0 + 1 <? 2) || (255 <? 63 - 0 + 1)) with false. red_if.
  apply run_bind. eapply run_eq; [reflexivity|].
  assert (default true (head (en_opens s)) = true) as -> by (by destruct Ho as [|? ? <- _]). red_if.
  apply run_bind. eapply run_eq; [apply entropy_env_eq, zmalloc_eq; lia|]. cbn [en_env]. rewrite (plenty_next _ Hp). red_if.
  unfold run. cbn [en_bytes]. change (63 - 0 + 1) with 64. pose proof (fill_spec 64 0 (en_bytes s) (Z.to_nat 32)) as H.
  destruct (fill _ _ _ _ _) as [[l|] rest].
  - destruct H as (used & Hu & _ & Hl). rewrite filter_all in Hl. rewrite Hu, length_app in Hb. lia.
  - by destruct H as [-> _].
Qed.

(** A device with too few bytes for a turn fails, after all of them. *)
Lemma generate_loop_fails fuel s out :
  ready s -> (length (en_bytes s) < 32)%nat -> validate_password (Some out) = false ->
  exists s', generate_loop (S fuel) out s = Some (None, s') /\ en_bytes s' = [].
Proof.
  intros [Ho Hp] Hb Hv. cbn [generate_loop]. rewrite Hv.
  destruct (run_inv _ _ _ (password_numbers_fail s (conj Ho Hp) Hb)) as (? & s' & E & -> & ?).
  exists s'. split; [|done]. by erewrite bind_eq by exact E.
Qed.

(** ** Endless devices *)

(** The bytes of a device from the [i]th on. *)
Definition stretch (device : nat -> Byte.byte) (i n : nat) : list Byte.byte := device <$> seq i n.

(** The password of a turn. *)
Definition turn_password (device : nat -> Byte.byte) (k : nat) : cstr := password_of (stretch device (32 * k) 32).

Lemma stretch_split device i m n : stretch device i (m + n) = stretch device i m ++ stretch device (i + m) n.
Proof. unfold stretch. by rewrite seq_app, fmap_app. Qed.

Lemma length_stretch device i n : length (stretch device i n) = n.
Proof. unfold stretch. by rewrite length_fmap, length_seq. Qed.

(** What turn [j] finds in [out]. *)
Definition found (device : nat -> Byte.byte) (j : nat) : cstr := match j with O => [] | S j => turn_password device j end.

Lemma generate_loop_endless device n k : forall d j s,
  k = (j + d)%nat -> (32 * k <= n)%nat -> (forall i, (S i < k)%nat -> validate_password (Some (turn_password device i)) = false) ->
  ready s -> en_bytes s = stretch device (32 * j) (n - 32 * j) ->
  forall fuel, (d < fuel)%nat ->
  exists s', ready s' /\ en_bytes s' = stretch device (32 * k) (n - 32 * k) /\
    generate_loop fuel (found device j) s = generate_loop (fuel - d) (found device k) s'.
Proof.
  induction d as [|d IH]; intros j s Hk Hn Hbad Hs Hb fuel Hfuel.
  { exists s. rewrite Nat.add_0_r in Hk. subst k. by rewrite Nat.sub_0_r. }
  destruct fuel as [|fuel]; [lia|].
  destruct (generate_loop_turn fuel s (found device j) (stretch device (32 * j) 32) (stretch device (32 * S j) (n - 32 * S j)))
    as (s1 & Hs1 & Hb1 & E); [done| |apply length_stretch| |].
  - rewrite Hb. replace (n - 32 * j)%nat with (32 + (n - 32 * S j))%nat by lia.
    rewrite stretch_split. do 2 f_equal. lia.
  - destruct j as [|j]; [reflexivity|]. apply Hbad. lia.
  - destruct (IH (S j) s1) with (fuel := fuel) as (s' & ? & ? & E'); [lia|done|done|done|done|lia|].
    exists s'. split; [done|]. split; [done|]. rewrite E. change (password_of _) with (found device (S j)). by rewrite E'.
Qed.

Lemma generate_password_start s : ready s ->
  exists s', ready s' /\ en_bytes s' = en_bytes s /\ generate_password s = generate_loop (S (length (en_bytes s))) [] s'.
Proof.
  intros [Ho Hp]. unfold generate_password. erewrite bind_eq by (apply entropy_env_eq, zmalloc_eq; unfold PASSWORD_LENGTH; lia).
  rewrite (plenty_next _ Hp). cbn [negb]. cbv iota. erewrite bind_eq by reflexivity. cbn [en_bytes].
  eexists. split; [|split; [|reflexivity]]; [split; [done|by apply plenty_rest]|done].
Qed.

(** [generate_password] on a random device that can be opened, with memory
    available. If the first valid password that the device gives, 32 bytes for
    each, is the one of turn [k] (the first is turn 0), then the password of turn
    [k] is returned, and exactly the bytes up to it are consumed, on every device
    that delivers at least these, however many more it has; it has 32 characters of
    the alphabet, passes [validate_password], hence fits the line buffer of the
    handshake, and holds no end of line. If no turn gives a valid password, the loop
    ends only because a read fails: on every finite beginning of the device the
    result is NULL, after all of its bytes have been consumed, so that
    the function does not return on a device that never fails. What is returned is
    valid on every device, also when opening it or memory fails. *)
Theorem generated_password_valid (device : nat -> Byte.byte) (opens : list bool) (e : env) (n : nat) :
  let s := mkEntropy opens (stretch device 0 n) e in
  let valid k := validate_password (Some (turn_password device k)) = true in
  (forall k, ready s -> (forall j, (j < k)%nat -> ~ valid j) -> valid k -> (32 * S k <= n)%nat ->
    exists s', generate_password s = Some (Some (turn_password device k), s') /\
      en_bytes s' = stretch device (32 * S k) (n - 32 * S k)) /\
  (ready s -> (forall j, ~ valid j) -> exists s', generate_password s = Some (None, s') /\ en_bytes s' = []) /\
  run generate_password s (fun r _ => forall p, r = Some p ->
    validate_password (Some p) = true /\ strlen p = PASSWORD_LENGTH /\ Forall (fun c => c ∈ password_chars) p /\
    Forall (fun c => ~ line_end c) p).
Proof.
  intros s valid. split; [|split].
  - intros k Hs Hbad Hk Hn. destruct (generate_password_start s Hs) as (s1 & Hs1 & Hb1 & ->).
    assert (length (en_bytes s) = n) as Hlen by apply length_stretch. rewrite Hlen.
    destruct (generate_loop_endless device n (S k) (S k) 0 s1) with (fuel := S n) as (s' & Hs' & Hb' & E).
    + done.
    + done.
    + intros j Hj. apply not_true_is_false, Hbad. lia.
    + done.
    + by rewrite Hb1, Nat.mul_0_r, Nat.sub_0_r.
    + lia.
    + exists s'. split; [|done]. cbn [found] in E. rewrite E. destruct (S n - S k)%nat; cbn [generate_loop]; by rewrite Hk.
  - intros Hs Hbad. destruct (generate_password_start s Hs) as (s1 & Hs1 & Hb1 & ->).
    assert (length (en_bytes s) = n) as Hlen by apply length_stretch. rewrite Hlen.
    pose proof (Nat.div_mod_eq n 32) as Hdiv. pose proof (Nat.mod_upper_bound n 32 ltac:(lia)) as Hmod. set (k := (n / 32)%nat) in *.
    assert (forall j, validate_password (Some (found device j)) = false) as Hfalse.
    { intros [|j]; [reflexivity|]. apply not_true_is_false, Hbad. }
    destruct (generate_loop_endless device n k k 0 s1) with (fuel := S n) as (s2 & Hs2 & Hb2 & E).
    + done.
    + lia.
    + intros j _. apply not_true_is_false, Hbad.
    + done.
    + by rewrite Hb1, Nat.mul_0_r, Nat.sub_0_r.
    + lia.
    + cbn [found] in E. rewrite E. replace (S n - k)%nat with (S (n - k)) by lia. apply generate_loop_fails; [done| |apply Hfalse].
      rewrite Hb2, length_stretch. lia.
  - eapply run_mono; [|apply generate_password_run].
    intros r s' [_ H] p Hp. destruct (H p Hp) as [Hv (used & Hl & ->)]. split; [done|]. split.
    { unfold strlen, password_of. by rewrite length_fmap, Hl. }
    split; [apply password_of_chars|]. by apply valid_password_chars.
Qed.

(** A device whose second turn gives the first valid password, and one that only
    yields zeros: the password [aaa...] has no upper case letter. *)
Lemma generated_password_valid_witness :
  let bytes := Byte.x3e :: Byte.x34 :: Byte.x35 :: Byte.x1a :: Byte.x1b :: Byte.x1c :: repeat Byte.x00 26 in
  let device i := nth (i - 32) bytes Byte.x00 in
  let device i := if (i <? 32)%nat then Byte.x00 else device i in
  (exists s', generate_password (mkEntropy [] (stretch device 0 100) calm) = Some (Some (turn_password device 1), s') /\
    en_bytes s' = stretch device 64 36) /\
  exists s', generate_password (mkEntropy [] (stretch (fun _ => Byte.x00) 0 100) calm) = Some (None, s') /\ en_bytes s' = [].
Proof.
  intros bytes device0 device.
  split.
  - apply (proj1 (generated_password_valid device [] calm 100) 1%nat); [split; constructor|intros [|j] ?; [vm_compute; discriminate|lia]|reflexivity|lia].
  - apply (proj1 (proj2 (generated_password_valid (fun _ => Byte.x00) [] calm 100))); [split; constructor|].
    intros j. assert (turn_password (fun _ => Byte.x00) j = repeat "a"%char 32) as ->; [|done].
    unfold turn_password, stretch. generalize (32 * j)%nat as i. intros i. cbn [seq fmap list_fmap]. reflexivity.
Defined.
