(* ===== verification/FileIO.v ===== *)
(** Text files ([fileio.c], and [fileio_standard.c] for Linux and macOS): reading
    and writing whole files and splitting them into lines.

    The functions run on a file system, the heap of list items, and the outcomes
    of the library calls to come. A list of lines holds [Text] values, a list of
    pieces of a file [Segment] values; to take one for the other, or NULL, is
    undefined behaviour. A [size_t] does not wrap: texts are held in memory. *)

From S2P Require Import Prelude CLib Utils Lists.

(** * The standard library's streams *)

(** How a library call ends: a failing read or write still transfers [n]
    characters (less than asked for), a failing [fclose] leaves [n] characters
    in the file. *)
Inductive outcome := Success | Failure (n : Z).

Inductive value_t := Text (s : cstr) | Segment (data : list ascii) (length : Z).

#[export] Instance value_eq_dec : EqDecision value_t.
Proof. solve_decision. Defined.

Record io := mkIO {
  io_files : gmap cstr (list ascii);
  io_dirs : gset cstr;
  io_outcomes : list outcome;
  io_heap : heap value_t;
}.

Definition set_files (files : gmap cstr (list ascii)) (s : io) : io := mkIO files (io_dirs s) (io_outcomes s) (io_heap s).
Definition set_outcomes (os : list outcome) (s : io) : io := mkIO (io_files s) (io_dirs s) os (io_heap s).
Definition set_heap (h : heap value_t) (s : io) : io := mkIO (io_files s) (io_dirs s) (io_outcomes s) h.

Definition on_heap {A} (m : M (heap value_t) A) : M io A := zoom io_heap set_heap m.
Definition in_memory {A} (m : M env A) : M io A :=
  zoom (fun s => h_env (io_heap s)) (fun e s => set_heap (mkHeap (h_items (io_heap s)) e) s) m.

(** The outcome of the next library call; every call succeeds once the list is
    used up. *)
Definition next_outcome : M io outcome := fun s =>
  Some (default Success (head (io_outcomes s)), set_outcomes (tail (io_outcomes s)) s).

Record FILE := mkFILE { f_path : cstr; f_write : bool; f_pos : Z; f_eof : bool; f_error : bool }.

(** [n] as the number of characters of a call that fails although [size] were
    asked for. *)
Definition transferred (n size : Z) : Z := Z.max 0 (Z.min n (size - 1)).

Definition contents (path : cstr) (s : io) : list ascii := default [] (io_files s !! path).

Definition fopen (path : cstr) (write : bool) : M io (option FILE) :=
  r ← next_outcome;
  match r with
  | Failure _ => mret None
  | Success =>
      files ← gets io_files;
      if write then _ ← modify (set_files (<[path := []]> files)); mret (Some (mkFILE path true 0 false false))
      else mret ((fun _ => mkFILE path false 0 false false) <$> files !! path)
  end.

Definition fread (size : Z) (stream : FILE) : M io (list ascii * FILE) :=
  r ← next_outcome;
  content ← gets (contents (f_path stream));
  let rest := drop (Z.to_nat (f_pos stream)) content in
  match r with
  | Success =>
      let data := slice 0 size rest in
      mret (data, mkFILE (f_path stream) (f_write stream) (f_pos stream + len data) (len data <? size) (f_error stream))
  | Failure n =>
      let data := slice 0 (transferred n size) rest in
      mret (data, mkFILE (f_path stream) (f_write stream) (f_pos stream + len data) (f_eof stream) true)
  end.

(** What is written shows in the file at once: nobody looks at it before it is
    closed. *)
Definition fwrite (bytes : list ascii) (stream : FILE) : M io (Z * FILE) :=
  r ← next_outcome;
  s ← get;
  let count := match r with Success => len bytes | Failure n => transferred n (len bytes) end in
  _ ← put (set_files (<[f_path stream := contents (f_path stream) s ++ slice 0 count bytes]> (io_files s)) s);
  mret (count, mkFILE (f_path stream) (f_write stream) (f_pos stream + count) (f_eof stream)
                 (match r with Success => f_error stream | Failure _ => true end)).

Definition fclose (stream : FILE) : M io Z :=
  r ← next_outcome;
  match r with
  | Success => mret 0
  | Failure n =>
      s ← get;
      _ ← when (f_write stream) (put (set_files (<[f_path stream := slice 0 (Z.max 0 n) (contents (f_path stream) s)]> (io_files s)) s));
      mret (-1)
  end.

(** * File handles ([fileio_standard.c]) *)

Definition FILE_MODE_READ : Z := 1.
Definition FILE_MODE_WRITE : Z := 2.
Definition SUPPORTED_FILE_MODES : Z := Z.lor FILE_MODE_READ FILE_MODE_WRITE.

Record file_handle_t := mkHandle { platform_fh : option FILE }.

Definition init_file_handle : M io (error_t * file_handle_t) := mret (ERROR_NONE, mkHandle None).

Definition open_file (fh : file_handle_t) (mode : Z) (path : cstr) : M io (error_t * file_handle_t) :=
  if mode =? 0 then mret (ERROR_UNSPECIFIC, fh)
  else if bool_decide (is_Some (platform_fh fh)) then mret (ERROR_UNSPECIFIC, fh)
  else if negb (Z.land mode (Z.lnot SUPPORTED_FILE_MODES) =? 0) then mret (ERROR_UNSPECIFIC, fh)
  else
    let should_read := negb (Z.land mode FILE_MODE_READ =? 0) in
    let should_write := negb (Z.land mode FILE_MODE_WRITE =? 0) in
    if should_read && should_write then mret (ERROR_UNSPECIFIC, fh)
    else if negb (should_read || should_write) then mret (ERROR_UNSPECIFIC, fh)
    else
      stream ← fopen path should_write;
      mret (match stream with None => ERROR_UNSPECIFIC | Some _ => ERROR_NONE end, mkHandle stream).

(** The characters read; [*num_read] is their number, and left alone ([None]) by
    the early returns. *)
Definition read_bytes (fh : file_handle_t) (buffer_size : Z) : M io (error_t * option (list ascii) * file_handle_t) :=
  if buffer_size <=? 0 then mret (ERROR_UNSPECIFIC, None, fh)
  else
    match platform_fh fh with
    | None => mret (ERROR_UNSPECIFIC, None, fh)
    | Some stream =>
        '(data, stream) ← fread buffer_size stream;
        let out_err := if (len data <? buffer_size) && f_error stream then ERROR_UNSPECIFIC else ERROR_NONE in
        mret (out_err, Some data, mkHandle (Some stream))
    end.

(** The number of bytes written; [None] if [*num_written] is left alone. *)
Definition write_bytes (fh : file_handle_t) (bytes : list ascii) : M io (error_t * option Z * file_handle_t) :=
  let size := len bytes in
  if size <=? 0 then mret (ERROR_NONE, None, fh)
  else
    match platform_fh fh with
    | None => ub
    | Some stream =>
        '(num_written, stream) ← fwrite bytes stream;
        let out_err := if (num_written <? size) && f_error stream then ERROR_INCOMPLETE else ERROR_NONE in
        mret (out_err, Some num_written, mkHandle (Some stream))
    end.

Definition close_file (fh : file_handle_t) : M io (error_t * file_handle_t) :=
  match platform_fh fh with
  | None => mret (ERROR_NONE, fh)
  | Some stream =>
      res ← fclose stream;
      mret (if negb (res =? 0) then ERROR_INCOMPLETE else ERROR_NONE, mkHandle None)
  end.

Definition is_open_file (fh : file_handle_t) : bool := bool_decide (is_Some (platform_fh fh)).

Definition check_eof (fh : file_handle_t) : bool :=
  match platform_fh fh with None => true | Some stream => f_eof stream end.

(** [access] finds what exists, or fails for another reason than [ENOENT]. *)
Definition check_file_exists (path : option cstr) : M io bool :=
  match path with
  | None => mret false
  | Some path =>
      r ← next_outcome;
      s ← get;
      mret (match r with
            | Success => bool_decide (is_Some (io_files s !! path)) || bool_decide (path ∈ io_dirs s)
            | Failure _ => true
            end)
  end.

Definition mkdir (path : cstr) : M io Z :=
  r ← next_outcome;
  s ← get;
  match r with
  | Success =>
      if bool_decide (is_Some (io_files s !! path)) || bool_decide (path ∈ io_dirs s) then mret (-1)
      else _ ← put (mkIO (io_files s) ({[path]} ∪ io_dirs s) (io_outcomes s) (io_heap s)); mret 0
  | Failure _ => mret (-1)
  end.

Definition ensure_directory_exists (path : option cstr) : M io error_t :=
  match path with
  | None => mret ERROR_UNSPECIFIC
  | Some directory =>
      exists_ ← check_file_exists path;
      if exists_ : bool then mret ERROR_NONE
      else
        res ← mkdir directory;
        if res =? -1 then mret ERROR_UNSPECIFIC
        else if negb (res =? 0) then mret ERROR_UNSPECIFIC
        else
          exists_ ← check_file_exists path;
          mret (if exists_ : bool then ERROR_NONE else ERROR_UNSPECIFIC)
  end.

(** * Lines ([fileio.c]) *)

Definition BUFFER_SIZE : Z := 64 * 1024.
Definition LINE_END_SEQUENCE : cstr := [chr 10].
Definition LINE_END_SEQUENCE_LENGTH : Z := 1.

Definition CR : ascii := chr 13.
Definition LF : ascii := chr 10.

(** As many steps as a list has items are enough to walk through it. *)
Definition items (list : list_t) : nat := Z.to_nat (list_size list).

Definition free_list (list : list_t) : M io unit := on_heap (destroy_list (items list) list).

(** A copied line at the end of the list; the flag is false if memory is
    exhausted. *)
Definition append_line (list : list_t) (s : Datatypes.list ascii) (length : Z) : M io (bool * list_t) :=
  line ← in_memory (copy_partial_string (Some s) length);
  match line with
  | None => mret (false, list)
  | Some line => on_heap (list_append list (Some (Text line)))
  end.

(** The loop over the characters from [i] on, in the line that starts at
    [start_of_line]; [n] bounds the characters left. *)
Fixpoint split_loop (n : nat) (list : list_t) (s : Datatypes.list ascii) (length i start_of_line : Z) : M io (bool * list_t * Z) :=
  if length <=? i then mret (true, list, start_of_line)
  else
    match n with
    | O => ub
    | S n' =>
        ch ← from_ub (s !! Z.to_nat i);
        '(ok, list, start_of_line) ←
          (if bool_decide (ch = CR \/ ch = LF) then
             '(ok, list) ← append_line list (drop (Z.to_nat start_of_line) s) (i - start_of_line);
             mret (ok, list, i + 1)
           else mret (true, list, start_of_line));
        if negb ok then mret (false, list, start_of_line)
        else
          skip ← (if bool_decide (ch = CR) && (i <? length - 1) then
                    next ← from_ub (s !! Z.to_nat (i + 1)); mret (bool_decide (next = LF))
                  else mret false);
          if skip : bool then split_loop n' list s length (i + 2) (start_of_line + 1)
          else split_loop n' list s length (i + 1) start_of_line
    end.

Definition split_lines (s : list ascii) (length : Z) : M io (error_t * option list_t) :=
  list ← on_heap create_list;
  match list with
  | None => mret (ERROR_MEMORY_ALLOCATION, None)
  | Some list =>
      '(ok, list, start_of_line) ← split_loop (Z.to_nat length) list s length 0 0;
      '(ok, list) ← (if ok : bool then append_line list (drop (Z.to_nat start_of_line) s) (length - start_of_line)
                     else mret (false, list));
      if ok : bool then mret (ERROR_NONE, Some list)
      else _ ← free_list list; mret (ERROR_MEMORY_ALLOCATION, None)
  end.

(** The text a list item holds. *)
Definition load_text (item : loc) : M io (cstr * option loc) :=
  it ← on_heap (load_item item);
  match item_value it with Some (Text s) => mret (s, item_next it) | _ => ub end.

Fixpoint total_length_loop (n : nat) (item : option loc) (total_length : Z) : M io Z :=
  match item, n with
  | None, _ => mret total_length
  | Some _, O => ub
  | Some p, S n' =>
      '(line, next) ← load_text p;
      let total_length := total_length + strlen line in
      total_length_loop n' next
        (if next is Some _ then total_length + LINE_END_SEQUENCE_LENGTH else total_length)
  end.

(** [memcpy] to the end of what the buffer of [size] characters holds. *)
Definition store (size : Z) (out text : cstr) : M io cstr :=
  if size <? len out + len text then ub else mret (out ++ text).

Fixpoint join_loop (n : nat) (size : Z) (item : option loc) (out : cstr) : M io cstr :=
  match item, n with
  | None, _ => mret out
  | Some _, O => ub
  | Some p, S n' =>
      '(line, next) ← load_text p;
      out ← store size out line;
      out ← (if next is Some _ then store size out LINE_END_SEQUENCE else mret out);
      join_loop n' size next out
  end.

Definition join_lines (lines : option list_t) : M io (option cstr) :=
  match lines with
  | None => mret None
  | Some lines =>
      total_length ← total_length_loop (items lines) (list_head lines) 0;
      ok ← in_memory (zmalloc (total_length + 1));
      if negb ok then mret None
      else
        out ← join_loop (items lines) total_length (list_head lines) [];
        mret (Some out)
  end.

(** * Whole files ([fileio.c]) *)

Definition create_segment (data : list ascii) (length : Z) : M io (option value_t) :=
  ok ← in_memory (zmalloc 16);
  mret (if ok : bool then Some (Segment data length) else None).

(** [while (true)] of [read_file]: the error, the segments and their length. Each
    turn but the last reads at least a character of the file, which bounds the
    turns. *)
Fixpoint read_loop (n : nat) (fh : file_handle_t) (list : list_t) (total_length : Z) :
    M io (error_t * file_handle_t * list_t * Z) :=
  match n with
  | O => ub
  | S n' =>
      '(out_err, data, fh) ← read_bytes fh BUFFER_SIZE;
      let data := default [] data in
      let num_read := len data in
      if (num_read =? 0) || negb (out_err =? ERROR_NONE) then mret (out_err, fh, list, total_length)
      else
        copy ← in_memory (copy_memory (Some data) num_read);
        match copy with
        | None => mret (ERROR_MEMORY_ALLOCATION, fh, list, total_length)
        | Some copy =>
            segment ← create_segment copy num_read;
            match segment with
            | None => mret (ERROR_MEMORY_ALLOCATION, fh, list, total_length)
            | Some segment =>
                '(ok, list) ← on_heap (list_append list (Some segment));
                if negb ok then mret (ERROR_MEMORY_ALLOCATION, fh, list, total_length)
                else read_loop n' fh list (total_length + num_read)
            end
        end
  end.

(** Concatenates the segments in a buffer of [size] characters. *)
Fixpoint concatenate_loop (n : nat) (size : Z) (item : option loc) (data : list ascii) : M io (list ascii) :=
  match item, n with
  | None, _ => mret data
  | Some _, O => ub
  | Some p, S n' =>
      it ← on_heap (load_item p);
      match item_value it with
      | Some (Segment segment length) =>
          data ← store size data (slice 0 length segment);
          concatenate_loop n' size (item_next it) data
      | _ => ub
      end
  end.

(** What [read_file] does between opening and closing the file. *)
Definition read_contents (fh : file_handle_t) (list : list_t) :
    M io (error_t * file_handle_t * list_t * option (Datatypes.list ascii)) :=
  s ← get;
  let turns := match platform_fh fh with Some stream => S (length (contents (f_path stream) s)) | None => 1%nat end in
  '(out_err, fh, list, total_length) ← read_loop turns fh list 0;
  if negb (out_err =? ERROR_NONE) then mret (out_err, fh, list, None)
  else if negb (check_eof fh) then mret (ERROR_UNSPECIFIC, fh, list, None)
  else
    ok ← in_memory (malloc (total_length + 1));
    if negb ok then mret (ERROR_MEMORY_ALLOCATION, fh, list, None)
    else
      data ← concatenate_loop (items list) total_length (list_head list) [];
      mret (ERROR_NONE, fh, list, Some data).

(** The label [end] of [read_file]. *)
Definition end_reading (out_err : error_t) (fh : file_handle_t) (list : option list_t) : M io error_t :=
  out_err ←
    (if is_open_file fh then
       '(err, _) ← close_file fh;
       mret (if negb (err =? ERROR_NONE) && (out_err =? ERROR_NONE) then err else out_err)
     else mret out_err);
  _ ← (if list is Some list then free_list list else mret tt);
  mret out_err.

(** [*data] and [*length] are one: the characters read. *)
Definition read_file (path : option cstr) : M io (error_t * option (list ascii)) :=
  match path with
  | None => mret (ERROR_UNSPECIFIC, None)
  | Some path =>
      '(err, fh) ← init_file_handle;
      if negb (err =? ERROR_NONE) then mret (err, None)
      else
        buffer ← in_memory (zmalloc BUFFER_SIZE);
        if negb buffer then out_err ← end_reading ERROR_MEMORY_ALLOCATION fh None; mret (out_err, None)
        else
          list ← on_heap create_list;
          match list with
          | None => out_err ← end_reading ERROR_MEMORY_ALLOCATION fh None; mret (out_err, None)
          | Some list =>
              '(err, fh) ← open_file fh FILE_MODE_READ path;
              if negb (err =? ERROR_NONE) then out_err ← end_reading err fh (Some list); mret (out_err, None)
              else
                '(out_err, fh, list, data) ← read_contents fh list;
                out_err ← end_reading out_err fh (Some list);
                mret (out_err, data)
          end
  end.

Definition write_file (data : option (list ascii)) (length : Z) (path : option cstr) : M io error_t :=
  match data, path with
  | Some data, Some path =>
      '(err, fh) ← init_file_handle;
      if negb (err =? ERROR_NONE) then mret err
      else
        '(err, fh) ← open_file fh FILE_MODE_WRITE path;
        if negb (err =? ERROR_NONE) then mret err
        else
          '(out_err, num_written, fh) ← write_bytes fh (slice 0 length data);
          let num_written := default 0 num_written in
          '(err, fh) ← close_file fh;
          let out_err := if negb (err =? ERROR_NONE) && (out_err =? ERROR_NONE) then err else out_err in
          mret (if negb (num_written =? length) && (out_err =? ERROR_NONE) then ERROR_UNSPECIFIC else out_err)
  | _, _ => mret ERROR_UNSPECIFIC
  end.

Definition read_lines_from_file (path : option cstr) : M io (error_t * option list_t) :=
  match path with
  | None => mret (ERROR_UNSPECIFIC, None)
  | Some _ =>
      '(err, data) ← read_file path;
      if negb (err =? ERROR_NONE) then mret (err, None)
      else
        match data with
        | None => mret (ERROR_MEMORY_ALLOCATION, None)
        | Some data => split_lines data (len data)
        end
  end.

Definition write_lines_to_file (lines : option list_t) (path : option cstr) : M io error_t :=
  match lines, path with
  | Some _, Some _ =>
      s ← join_lines lines;
      match s with
      | None => mret ERROR_MEMORY_ALLOCATION
      | Some s => write_file (Some s) (strlen s) path
      end
  | _, _ => mret ERROR_UNSPECIFIC
  end.

(** Called with an output variable that is NULL. *)
Definition read_first_line_from_file (path : option cstr) : M io (error_t * option cstr) :=
  match path with
  | None => mret (ERROR_UNSPECIFIC, None)
  | Some _ =>
      '(err, lines) ← read_lines_from_file path;
      if negb (err =? ERROR_NONE) then mret (err, None)
      else
        match lines with
        | None => mret (ERROR_UNSPECIFIC, None)
        | Some lines =>
            if list_size lines <? 1 then _ ← free_list lines; mret (ERROR_UNSPECIFIC, None)
            else
              match list_head lines with
              | None => ub
              | Some head =>
                  it ← on_heap (load_item head);
                  _ ← on_heap (update_item head (set_value None));
                  line ← (match item_value it with
                          | Some (Text s) => mret (Some s)
                          | None => mret None
                          | Some (Segment _ _) => ub
                          end);
                  _ ← free_list lines;
                  mret (if line is Some _ then ERROR_NONE else ERROR_UNSPECIFIC, line)
              end
        end
  end.

(** * Specification *)

(** The lines of a text: CR, LF and CR LF end a line; [cur] is what has been read
    of the current one. *)
Fixpoint lines_with (cur s : list ascii) : list (list ascii) :=
  match s with
  | [] => [cur]
  | c :: s' =>
      if bool_decide (c = CR) then
        cur :: match s' with
               | c' :: s'' => if bool_decide (c' = LF) then lines_with [] s'' else lines_with [] s'
               | [] => lines_with [] s'
               end
      else if bool_decide (c = LF) then cur :: lines_with [] s'
      else lines_with (cur ++ [c]) s'
  end.

Definition text_lines (s : list ascii) : list cstr := c_str <$> lines_with [] s.

(** The values of a list of lines. *)
Definition texts (lines : list cstr) : list (option value_t) := (fun s => Some (Text s)) <$> lines.

(** Nothing fails any more. *)
Definition fine (s : io) : Prop :=
  plenty (h_env (io_heap s)) /\ Forall (eq Success) (io_outcomes s).

(** The same list items: texts and buffers, which are values here, are not among them. *)
Definition same_items (s s' : io) : Prop := h_items (io_heap s') = h_items (io_heap s).

(** * Lemmas *)

(** The files are as before, and nothing has begun to fail. *)
Record kept (s s' : io) : Prop := mkKept {
  kept_files : io_files s' = io_files s;
  kept_dirs : io_dirs s' = io_dirs s;
  kept_fine : fine s -> fine s';
}.

Lemma kept_trans s1 s2 s3 : kept s1 s2 -> kept s2 s3 -> kept s1 s3.
Proof. intros [] []. split; try congruence. tauto. Qed.

Lemma kept_refl s : kept s s.
Proof. by split. Qed.

Lemma fine_alloc s : fine s -> alloc_next (h_env (io_heap s)) = true.
Proof. intros [? _]. by apply plenty_next. Qed.

Lemma kept_heap s h : h_env h = h_env (io_heap s) \/ h_env h = alloc_rest (h_env (io_heap s)) -> kept s (set_heap h s).
Proof. intros He. split; [done|done|]. intros [Ha ?]. split; [|done]. simpl. destruct He as [-> | ->]; [done|by apply plenty_rest]. Qed.

Lemma on_heap_run {A} (m : M (heap value_t) A) s (Q : A -> io -> Prop) :
  run m (io_heap s) (fun a h => Q a (set_heap h s)) -> run (on_heap m) s Q.
Proof. unfold run, on_heap, zoom. by destruct (m (io_heap s)) as [[a h]|]. Qed.

Lemma in_memory_run {A} (m : M env A) s a e (Q : A -> io -> Prop) :
  m (h_env (io_heap s)) = Some (a, e) -> Q a (set_heap (mkHeap (h_items (io_heap s)) e) s) -> run (in_memory m) s Q.
Proof. intros E HQ. unfold run, in_memory, zoom. by rewrite E. Qed.

(** An allocation. *)
Lemma allocated {A} (m : M env A) s (a b : A) :
  m (h_env (io_heap s)) = Some (if alloc_next (h_env (io_heap s)) then a else b, alloc_rest (h_env (io_heap s))) ->
  run (in_memory m) s (fun r s' => kept s s' /\ same_items s s' /\ (r = a \/ r = b /\ ~ fine s)).
Proof.
  intros E. eapply in_memory_run; [exact E|]. split; [|split; [done|]].
  - apply kept_heap. by right.
  - destruct (alloc_next _) eqn:Ea; [by left|right]. split; [done|]. intros Hf%fine_alloc. congruence.
Qed.

Lemma zmalloc_run size s : size <> 0 ->
  run (in_memory (zmalloc size)) s (fun ok s' => kept s s' /\ same_items s s' /\ (ok = true \/ ok = false /\ ~ fine s)).
Proof. intros ?. apply allocated. rewrite zmalloc_eq by done. by destruct (alloc_next _). Qed.

Lemma malloc_run size s :
  run (in_memory (malloc size)) s (fun ok s' => kept s s' /\ same_items s s' /\ (ok = true \/ ok = false /\ ~ fine s)).
Proof. apply allocated. rewrite malloc_eq. by destruct (alloc_next _). Qed.

Lemma owns_same h0 s s' list l : same_items s s' -> owns h0 (io_heap s) list l -> owns h0 (io_heap s') list l.
Proof. apply owns_items. Qed.

Lemma append_run h0 s list l value : owns h0 (io_heap s) list l ->
  run (on_heap (list_append list (Some value))) s (fun '(ok, list') s' => kept s s' /\
    if ok then exists p, owns h0 (io_heap s') list' (l ++ [(p, Some value)])
    else list' = list /\ owns h0 (io_heap s') list l /\ ~ fine s).
Proof.
  intros Ho. apply on_heap_run. eapply run_mono; [|by apply owns_append].
  intros [ok list'] h (Hok & He & H). split; [apply kept_heap; by right|]. destruct ok; [done|].
  destruct H as [-> Hi]. split; [done|split; [by eapply owns_items|]]. intros Hf%fine_alloc. congruence.
Qed.

Lemma create_run s :
  run (on_heap create_list) s (fun r s' => kept s s' /\ same_items s s' /\
    (r = Some empty_list \/ r = None /\ ~ fine s)).
Proof.
  apply on_heap_run. eapply run_eq; [apply create_list_eq|]. split; [apply kept_heap; by right|split; [done|]].
  destruct (alloc_next _) eqn:Ea; [by left|right]. split; [done|]. intros Hf%fine_alloc. congruence.
Qed.

Lemma free_lines_run h0 s list l : owns h0 (io_heap s) list l ->
  run (free_list list) s (fun _ s' => kept s s' /\ h_items (io_heap s') = h_items h0).
Proof.
  intros Ho. apply on_heap_run. eapply run_mono; [|by eapply owns_destroy]. intros _ h [Hi He].
  split; [apply kept_heap; by left|done].
Qed.

(** ** Splitting *)

Lemma append_line_run h0 s list l text length : owns h0 (io_heap s) list l ->
  run (append_line list text length) s (fun '(ok, list') s' => kept s s' /\
    if ok then exists p, owns h0 (io_heap s') list' (l ++ [(p, Some (Text (c_str (slice 0 length text))))])
    else list' = list /\ owns h0 (io_heap s') list l /\ ~ fine s).
Proof.
  intros Ho. unfold append_line. apply run_bind.
  eapply run_mono; [|eapply allocated; by apply copy_partial_string_eq].
  intros line s1 (Hk & Hi & [-> | [-> Hf]]).
  - eapply run_mono; [|apply append_run; by eapply owns_same]. intros [ok list'] s2 [Hk2 H].
    split; [by eapply kept_trans|]. destruct ok; [done|]. destruct H as (? & ? & Hf).
    split; [done|split; [done|]]. intros ?. by apply Hf, Hk.
  - apply run_ret. split; [done|]. split; [done|split; [by eapply owns_same|done]].
Qed.

Lemma lines_with_end c cur s : c = LF \/ c = CR /\ s !! 0%nat <> Some LF -> lines_with cur (c :: s) = cur :: lines_with [] s.
Proof.
  cbn [lines_with]. intros [-> | [-> Hs]].
  - by rewrite bool_decide_false, bool_decide_true by done.
  - rewrite bool_decide_true by done. destruct s as [|c s]; [done|]. rewrite bool_decide_false; [done|]. intros ->. by apply Hs.
Qed.

Lemma lines_with_skip cur s : lines_with cur (CR :: LF :: s) = cur :: lines_with [] s.
Proof. done. Qed.

Lemma lines_with_other c cur s : ~ (c = CR \/ c = LF) -> lines_with cur (c :: s) = lines_with (cur ++ [c]) s.
Proof. intros Hc. cbn [lines_with]. rewrite !bool_decide_false by tauto. done. Qed.

Section Splitting.
Context (h0 : heap value_t) (s : list ascii).

(** What the loop leaves behind: the lines before the last one. *)
Definition split_result (w : io) (before : list (option value_t)) (lines : list (list ascii)) :
    bool * list_t * Z -> io -> Prop := fun '(ok, list', start') w' =>
  kept w w' /\ exists l', owns h0 (io_heap w') list' l' /\
  if ok then 0 <= start' /\ l'.*2 ++ texts [c_str (drop (Z.to_nat start') s)] = before ++ texts (c_str <$> lines)
  else ~ fine w.

Lemma split_result_after w w1 before line lines r w' :
  kept w w1 -> split_result w1 (before ++ texts [c_str line]) lines r w' -> split_result w before (line :: lines) r w'.
Proof.
  destruct r as [[ok list'] start']. intros Hk (Hk' & l' & Ho & H). split; [by eapply kept_trans|].
  exists l'. split; [done|]. destruct ok; [|intros ?; by apply H, Hk].
  by rewrite <-app_assoc in H.
Qed.

Lemma slice_drop (j k : nat) : (j <= k)%nat ->
  slice 0 (Z.of_nat k - Z.of_nat j) (drop (Z.to_nat (Z.of_nat j)) s) = take (k - j) (drop j s).
Proof. intros ?. unfold slice. rewrite Nat2Z.id. simpl. rewrite drop_0. f_equal. lia. Qed.

Lemma split_loop_run n : forall w list l (k j : nat),
  owns h0 (io_heap w) list l -> (j <= k <= length s)%nat -> (length s <= k + n)%nat ->
  run (split_loop n list s (len s) (Z.of_nat k) (Z.of_nat j)) w
    (split_result w l.*2 (lines_with (take (k - j) (drop j s)) (drop k s))).
Proof.
  induction n as [|n IH]; intros w list l k j Ho Hk Hn.
  { cbn [split_loop]. rewrite (proj2 (Z.leb_le _ _)) by lia. apply run_ret. split; [apply kept_refl|].
    exists l. split; [done|split; [lia|]]. rewrite (drop_ge s k), Nat2Z.id, take_ge by (rewrite ?length_drop; lia). done. }
  cbn [split_loop]. destruct (len s <=? Z.of_nat k) eqn:E; bools.
  { apply run_ret. split; [apply kept_refl|].
    exists l. split; [done|split; [lia|]]. rewrite (drop_ge s k), Nat2Z.id, take_ge by (rewrite ?length_drop; lia). done. }
  destruct (lookup_lt_is_Some_2 s k) as [ch Hch]; [lia|]. rewrite (Nat2Z.id k), Hch. apply run_bind, (run_ret ch).
  rewrite (drop_S _ _ _ Hch). apply run_bind.
  destruct (decide (ch = CR \/ ch = LF)) as [Hend | Hno].
  2:{ rewrite bool_decide_false by done. apply run_ret. red_if. apply run_bind.
      rewrite (bool_decide_false (ch = CR)) by tauto. red_if. apply run_ret.
      rewrite lines_with_other by done. replace (Z.of_nat k + 1) with (Z.of_nat (S k)) by lia.
      replace (take (k - j) (drop j s) ++ [ch]) with (take (S k - j) (drop j s)); [apply IH; [done|lia..]|].
      replace (S k - j)%nat with (S (k - j)) by lia. apply take_S_r. rewrite lookup_drop. by replace (j + (k - j))%nat with k by lia. }
  rewrite bool_decide_true by done. apply run_bind. eapply run_mono; [|by apply append_line_run].
  intros [ok list'] w1 [Hk1 H]. apply run_ret. destruct ok; red_if.
  2:{ apply run_ret. destruct H as (-> & Ho' & ?). split; [done|]. by exists l. }
  destruct H as [p Ho']. rewrite slice_drop in Ho' by lia. apply run_bind.
  assert (forall r w', split_result w1 (l ++ [(p, Some (Text (c_str (take (k - j) (drop j s)))))]).*2 (lines_with [] (drop (S k) s)) r w' ->
    split_result w l.*2 (take (k - j) (drop j s) :: lines_with [] (drop (S k) s)) r w') as Hafter.
  { intros r w' Hr. eapply split_result_after; [done|]. by rewrite fmap_app in Hr. }
  assert (ch = LF \/ ch = CR /\ s !! (S k) <> Some LF -> run (split_loop n list' s (len s) (Z.of_nat k + 1) (Z.of_nat k + 1)) w1
    (split_result w l.*2 (lines_with (take (k - j) (drop j s)) (ch :: drop (S k) s)))) as Hone.
  { intros Hc. rewrite lines_with_end by (rewrite lookup_drop, Nat.add_0_r; done).
    replace (Z.of_nat k + 1) with (Z.of_nat (S k)) by lia.
    eapply run_mono; [exact Hafter|]. specialize (IH w1 list' _ (S k) (S k) Ho'). rewrite Nat.sub_diag in IH. apply IH; lia. }
  destruct (bool_decide (ch = CR) && (Z.of_nat k <? len s - 1)) eqn:Ecr; bools.
  2:{ apply run_ret. apply Hone. apply andb_false_iff in Ecr as [?|?]; bools; [left; tauto|].
      destruct Hend as [?|?]; [right|by left]. split; [done|]. rewrite lookup_ge_None_2 by lia. done. }
  destruct (lookup_lt_is_Some_2 s (S k)) as [next Hnext]; [lia|].
  replace (Z.to_nat (Z.of_nat k + 1)) with (S k) by lia. rewrite Hnext. apply run_bind, (run_ret next), run_ret.
  case_bool_decide as Hlf; [|apply Hone; right; split; [done|congruence]]. subst.
  rewrite (drop_S _ _ _ Hnext), lines_with_skip.
  replace (Z.of_nat k + 2) with (Z.of_nat (S (S k))) by lia. replace (Z.of_nat k + 1 + 1) with (Z.of_nat (S (S k))) by lia.
  eapply run_mono; [intros r w' Hr; eapply split_result_after; [exact Hk1|]; exact Hr|].
  specialize (IH w1 list' _ (S (S k)) (S (S k)) Ho'). rewrite Nat.sub_diag, fmap_app in IH. apply IH; lia.
Qed.
End Splitting.

(** A list of lines has been made, or there was no memory for it and nothing is
    left of it. *)
Definition lines_made (w : io) (lines : list cstr) : error_t * option list_t -> io -> Prop := fun '(err, made) w' =>
  (err = ERROR_NONE /\ exists list l, made = Some list /\ owns (io_heap w) (io_heap w') list l /\ l.*2 = texts lines) \/
  (err = ERROR_MEMORY_ALLOCATION /\ made = None /\ same_items w w' /\ ~ fine w).

Lemma split_lines_run s w :
  run (split_lines s (len s)) w (fun r w' => kept w w' /\ lines_made w (text_lines s) r w').
Proof.
  unfold split_lines. apply run_bind. eapply run_mono; [|apply create_run].
  intros list w1 (Hk1 & Hi1 & [-> | [-> Hf]]); [|apply run_ret; split; [done|by right]].
  apply run_bind. rewrite Nat2Z.id.
  eapply run_mono; [|apply (split_loop_run (io_heap w) s (length s) w1 empty_list [] 0 0)]; [|by apply owns_empty|lia..].
  intros [[ok list'] start'] w2 (Hk2 & l & Ho & H). cbn [Nat.sub take drop fmap list_fmap app] in H.
  pose proof (kept_trans _ _ _ Hk1 Hk2) as Hk. apply run_bind. destruct ok.
  2:{ apply run_ret. red_if. apply run_bind. eapply run_mono; [|by eapply free_lines_run]. intros _ w3 [Hk3 Hi3].
      split; [by eapply kept_trans|]. right. split; [done|split; [done|split; [done|]]]. intros ?. by apply H, Hk1. }
  destruct H as [Hs' H]. eapply run_mono; [|by apply append_line_run]. intros [ok list''] w3 [Hk3 Ho3]. destruct ok.
  - destruct Ho3 as [p Ho3]. apply run_ret. split; [by eapply kept_trans|]. left. split; [done|].
    exists list'', (l ++ [(p, Some (Text (c_str (drop (Z.to_nat start') s))))]). split; [done|].
    assert (slice 0 (len s - start') (drop (Z.to_nat start') s) = drop (Z.to_nat start') s) as E.
    { unfold slice. rewrite drop_0. apply take_ge. rewrite length_drop. lia. }
    rewrite E in Ho3. split; [done|]. by rewrite fmap_app.
  - destruct Ho3 as (-> & Ho3 & Hf). red_if. apply run_bind. eapply run_mono; [|by eapply free_lines_run]. intros _ w4 [Hk4 Hi4].
    split; [by do 2 (eapply kept_trans; [done|])|]. right. split; [done|split; [done|split; [done|]]]. intros ?. by apply Hf, Hk.
Qed.

(** ** Joining *)

(** An item of a list, seen from the rest of the list. *)
Lemma load_text_run w prev p text l : seg (h_items (io_heap w)) prev ((p, Some (Text text)) :: l) None ->
  load_text p w = Some ((text, first l None), w).
Proof. intros [Hp _]. unfold load_text, on_heap, zoom, mbind, M_bind. erewrite load_item_eq by done. by destruct w. Qed.

Fixpoint joined_length (lines : list cstr) : Z :=
  match lines with
  | [] => 0
  | [s] => strlen s
  | s :: lines' => strlen s + 1 + joined_length lines'
  end.

Lemma joined_length_join lines : joined_length lines = strlen (join LF lines).
Proof.
  unfold strlen. induction lines as [|s [|s' lines] IH]; [done|done|].
  cbn [joined_length join] in IH |- *. rewrite IH, length_app. cbn [length]. unfold strlen. lia.
Qed.

Lemma total_length_run w lines : forall l prev total n,
  seg (h_items (io_heap w)) prev l None -> l.*2 = texts lines -> (length l <= n)%nat ->
  total_length_loop n (first l None) total w = Some (total + joined_length lines, w).
Proof.
  induction lines as [|s lines IH]; intros l prev total n Hs Hl Hn.
  - apply fmap_nil_inv in Hl as ->. destruct n; cbn; by rewrite Z.add_0_r.
  - destruct l as [|[p v] l]; [done|]. injection Hl as -> Hl. destruct n as [|n]; [simpl in Hn; lia|]. cbn [first total_length_loop].
    erewrite bind_eq by (by eapply load_text_run). cbv beta iota zeta. destruct Hs as [_ Hs]. simpl in Hn.
    destruct lines as [|s' lines].
    + apply fmap_nil_inv in Hl as ->. destruct n; done.
    + destruct l as [|[p' v'] l]; [done|]. cbn [first].
      change (Some p') with (first ((p', v') :: l) None). rewrite (IH _ _ _ _ Hs Hl) by lia.
      unfold LINE_END_SEQUENCE_LENGTH. cbn [joined_length]. do 2 f_equal. lia.
Qed.

Lemma store_eq size out text (w : io) : len out + len text <= size -> store size out text w = Some (out ++ text, w).
Proof. intros ?. unfold store. by rewrite (proj2 (Z.ltb_ge _ _)) by lia. Qed.

Lemma join_loop_run w lines size : forall l prev out n,
  seg (h_items (io_heap w)) prev l None -> l.*2 = texts lines -> (length l <= n)%nat ->
  len out + len (join LF lines) <= size ->
  join_loop n size (first l None) out w = Some (out ++ join LF lines, w).
Proof.
  induction lines as [|s lines IH]; intros l prev out n Hs Hl Hn Hsize.
  - apply fmap_nil_inv in Hl as ->. destruct n; cbn; by rewrite app_nil_r.
  - destruct l as [|[p v] l]; [done|]. injection Hl as -> Hl. destruct n as [|n]; [simpl in Hn; lia|]. cbn [first join_loop].
    erewrite bind_eq by (by eapply load_text_run). cbv beta iota zeta. destruct Hs as [_ Hs]. simpl in Hn.
    assert (len s <= len (join LF (s :: lines))).
    { destruct lines; [done|]. cbn [join]. llia. }
    erewrite bind_eq by (apply store_eq; lia). destruct lines as [|s' lines].
    + apply fmap_nil_inv in Hl as ->. destruct n; done.
    + destruct l as [|[p' v'] l]; [done|]. cbn [first]. rewrite join_cons in Hsize |- * by done.
      unfold LINE_END_SEQUENCE. fold LF.
      erewrite bind_eq by (apply store_eq; llia).
      change (Some p') with (first ((p', v') :: l) None). rewrite (IH _ _ _ _ Hs Hl) by llia.
      by rewrite <-!app_assoc.
Qed.

Lemma join_lines_run w list l lines : represents (io_heap w) list l -> l.*2 = texts lines ->
  run (join_lines (Some list)) w (fun s w' => kept w w' /\ same_items w w' /\
    (s = Some (join LF lines) \/ s = None /\ ~ fine w)).
Proof.
  intros [Hs Hnd Hhead Htail Hsize] Hl. unfold join_lines, items. rewrite Hsize, Hhead, Nat2Z.id.
  apply run_bind. eapply run_eq; [by eapply total_length_run|]. rewrite joined_length_join.
  apply run_bind. eapply run_mono; [|apply zmalloc_run; unfold strlen; lia].
  intros ok w1 (Hk & Hi & [-> | [-> Hf]]); red_if.
  - apply run_bind. eapply run_eq; [eapply join_loop_run; [|done|done|]|].
    + rewrite Hi. exact Hs.
    + unfold strlen. simpl. lia.
    + apply run_ret. split; [done|split; [done|by left]].
  - apply run_ret. split; [done|split; [done|by right]].
Qed.

(** ** Writing *)

Definition head_outcome (s : io) : outcome := default Success (head (io_outcomes s)).
Definition advance (s : io) : io := set_outcomes (tail (io_outcomes s)) s.

Lemma fine_outcome s : fine s -> head_outcome s = Success.
Proof. intros [_ Ho]. unfold head_outcome. by destruct Ho as [|o os <- Ho]. Qed.

Lemma fine_advance s files : fine s -> fine (set_files files (advance s)).
Proof. intros [Ha Ho]. split; [done|]. simpl. destruct Ho; [constructor|done]. Qed.

Lemma fopen_write_eq path s :
  fopen path true s = Some
    (match head_outcome s with Success => Some (mkFILE path true 0 false false) | Failure _ => None end,
     match head_outcome s with Success => set_files (<[path := []]> (io_files s)) (advance s) | Failure _ => advance s end).
Proof. unfold fopen, next_outcome, head_outcome. mred. by destruct (default Success _). Qed.

Lemma fwrite_eq bytes stream s :
  let count := match head_outcome s with Success => len bytes | Failure n => transferred n (len bytes) end in
  fwrite bytes stream s = Some
    ((count, mkFILE (f_path stream) (f_write stream) (f_pos stream + count) (f_eof stream)
               (match head_outcome s with Success => f_error stream | Failure _ => true end)),
     set_files (<[f_path stream := contents (f_path stream) s ++ slice 0 count bytes]> (io_files s)) (advance s)).
Proof. done. Qed.

Lemma fclose_write_eq stream s : f_write stream = true ->
  fclose stream s = Some
    (match head_outcome s with Success => 0 | Failure _ => -1 end,
     match head_outcome s with
     | Success => advance s
     | Failure n => set_files (<[f_path stream := slice 0 (Z.max 0 n) (contents (f_path stream) s)]> (io_files s)) (advance s)
     end).
Proof. intros Hw. unfold fclose, next_outcome, head_outcome. mred. rewrite Hw. by destruct (default Success _). Qed.

(** A file has been written: success means that it holds the data; nothing
    else is touched. *)
Record written (path : cstr) (data : list ascii) (s : io) (err : error_t) (s' : io) : Prop := mkWritten {
  written_data : err = ERROR_NONE -> io_files s' !! path = Some data;
  written_others : forall other, other <> path -> io_files s' !! other = io_files s !! other;
  written_dirs : io_dirs s' = io_dirs s;
  written_items : same_items s s';
  written_fine : fine s -> err = ERROR_NONE /\ fine s';
}.

(** Closing the file ends the writing of it. *)
Lemma close_written path data stream s0 s : f_write stream = true -> f_path stream = path ->
  io_files s !! path = Some data -> (forall other, other <> path -> io_files s !! other = io_files s0 !! other) ->
  io_dirs s = io_dirs s0 -> same_items s0 s -> (fine s0 -> fine s) ->
  run (close_file (mkHandle (Some stream))) s (fun '(err, fh) s' => written path data s0 err s').
Proof.
  intros Hw <- Hd Ho Hdirs Hi Hf. unfold close_file. cbn [platform_fh]. apply run_bind.
  eapply run_eq; [by apply fclose_write_eq|]. destruct (head_outcome s) eqn:E; apply run_ret; split; try done.
  - intros Hf0. split; [done|]. apply (fine_advance _ (io_files s)), Hf, Hf0.
  - intros other Hne. simpl. rewrite lookup_insert_ne by done. by apply Ho.
  - intros Hf0%Hf%fine_outcome. congruence.
Qed.

(** The error of a write and of closing the file after it. *)
Lemma written_weaken path data s err err' s' :
  written path data s err s' -> (err' = ERROR_NONE -> err = ERROR_NONE) -> (err = ERROR_NONE -> fine s -> err' = ERROR_NONE) ->
  written path data s err' s'.
Proof. intros [Hd Ho Hdi Hi Hf] H1 H2. split; try done; [by eauto|]. intros Hfine. destruct (Hf Hfine). auto. Qed.

(** Whatever is in the file: an error has been noticed. *)
Lemma written_failed path data data' s err err' s' :
  written path data' s err s' -> err' <> ERROR_NONE -> ~ fine s -> written path data s err' s'.
Proof. intros [Hd Ho Hdi Hi Hf] H1 H2. by split. Qed.

Lemma open_write_run path s :
  run (open_file (mkHandle None) FILE_MODE_WRITE path) s (fun '(err, fh) s' =>
    err = ERROR_UNSPECIFIC /\ written path [] s err s' /\ ~ fine s \/
    err = ERROR_NONE /\ fh = mkHandle (Some (mkFILE path true 0 false false)) /\ written path [] s err s').
Proof.
  change (open_file (mkHandle None) FILE_MODE_WRITE path) with
    (stream ← fopen path true; mret (match stream with None => ERROR_UNSPECIFIC | Some _ => ERROR_NONE end, mkHandle stream) : M io _).
  apply run_bind. eapply run_eq; [apply fopen_write_eq|]. destruct (head_outcome s) eqn:E; apply run_ret.
  - right. split; [done|split; [done|]]. split; try done.
    + intros _. apply lookup_insert_eq.
    + intros other ?. by apply lookup_insert_ne.
    + intros ?. split; [done|]. by apply fine_advance.
  - left. assert (~ fine s) by (intros ?%fine_outcome; congruence). by repeat split.
Qed.

Lemma close_after path data stream s0 s : f_write stream = true -> f_path stream = path -> written path data s0 ERROR_NONE s ->
  run (close_file (mkHandle (Some stream))) s (fun '(err, fh) s' => written path data s0 err s').
Proof. intros Hw Hp [Hd Ho Hdi Hi Hf]. apply close_written; auto. intros Hf0. by apply Hf. Qed.

(** One write to a new file. *)
Lemma written_more path count data s0 s : written path [] s0 ERROR_NONE s ->
  (fine s -> count = len data) -> (~ fine s \/ head_outcome s = Success) ->
  written path (slice 0 count data) s0 ERROR_NONE (set_files (<[path := contents path s ++ slice 0 count data]> (io_files s)) (advance s)).
Proof.
  intros [Hd Ho Hdi Hi Hf] Hc Hs. split; try done.
  - intros _. unfold contents. simpl. by rewrite lookup_insert_eq, Hd.
  - intros other ?. simpl. rewrite lookup_insert_ne by done. by apply Ho.
  - intros Hf0. split; [done|]. apply fine_advance, Hf, Hf0.
Qed.

Lemma write_file_run data path s :
  run (write_file (Some data) (len data) (Some path)) s (fun err s' => written path data s err s').
Proof.
  unfold write_file. apply run_bind, run_ret. change (negb (ERROR_NONE =? ERROR_NONE)) with false. cbv iota.
  apply run_bind. eapply run_mono; [|apply open_write_run].
  intros [err fh] s1 [(-> & Hw & Hf) | (-> & -> & Hw)].
  { apply run_ret. by eapply written_failed. }
  change (negb (ERROR_NONE =? ERROR_NONE)) with false. cbv iota. rewrite slice_0_all. unfold write_bytes.
  apply run_bind. destruct (len data <=? 0) eqn:E; bools.
  { assert (data = []) as -> by (destruct data; [done|simpl in E; lia]).
    apply run_ret. apply run_bind. eapply run_mono; [|by apply close_after]. intros [err fh'] s2 Hw2. apply run_ret.
    cbn [default]. red_if. rewrite andb_true_r. eapply written_weaken; [exact Hw2|..]; destruct (err =? ERROR_NONE) eqn:Ee; bools; done. }
  cbn [platform_fh]. apply run_bind. eapply run_eq; [apply fwrite_eq|]. cbn [f_path f_write f_pos f_eof f_error].
  apply run_ret. apply run_bind. set (count := match head_outcome s1 with Success => _ | Failure _ => _ end).
  eapply run_mono; [|apply (close_after path (slice 0 count data) _ s); [done|done|]].
  2:{ apply written_more; [done|..]; unfold count.
      - by intros ->%fine_outcome.
      - destruct (head_outcome s1) eqn:Eo; [by right|left]. intros ?%fine_outcome. congruence. }
  intros [err fh'] s2 Hw2. apply run_ret. cbn [default]. unfold count in *. destruct (head_outcome s1) as [|n] eqn:Eo.
  - rewrite slice_0_all in Hw2. rewrite Z.ltb_irrefl, Z.eqb_refl. red_if. rewrite andb_true_r.
    eapply written_weaken; [exact Hw2|..]; destruct (err =? ERROR_NONE) eqn:Ee; bools; done.
  - assert (transferred n (len data) < len data) by (unfold transferred; lia).
    rewrite (proj2 (Z.ltb_lt _ _)) by done. red_if. change (ERROR_INCOMPLETE =? ERROR_NONE) with false. rewrite !andb_false_r.
    eapply written_failed; [exact Hw2|done|]. intros Hfs. destruct (written_fine _ _ _ _ _ Hw Hfs) as [_ ?%fine_outcome]. congruence.
Qed.

(** ** Reading *)

(** The values of the segments of a file. *)
Definition segments (pieces : list (list ascii)) : list (option value_t) := (fun d => Some (Segment d (len d))) <$> pieces.

Lemma fread_eq size stream s :
  let rest := drop (Z.to_nat (f_pos stream)) (contents (f_path stream) s) in
  let data := slice 0 (match head_outcome s with Success => size | Failure n => transferred n size end) rest in
  fread size stream s = Some
    ((data, mkFILE (f_path stream) (f_write stream) (f_pos stream + len data)
              (match head_outcome s with Success => len data <? size | Failure _ => f_eof stream end)
              (match head_outcome s with Success => f_error stream | Failure _ => true end)), advance s).
Proof. unfold fread, next_outcome, head_outcome. mred. cbn [io_outcomes]. by destruct (default Success _). Qed.

Lemma kept_advance s : kept s (advance s).
Proof. split; [done|done|]. apply (fine_advance s (io_files s)). Qed.

Lemma slice_length_le {A} n (l : list A) : len (slice 0 n l) <= Z.max 0 n.
Proof. unfold slice. rewrite length_take. lia. Qed.

(** Reading the next piece of a file from [pos] on. *)
Lemma read_bytes_run path content stream pos size s :
  io_files s !! path = Some content -> f_path stream = path -> f_pos stream = Z.of_nat pos -> f_error stream = false -> 0 < size ->
  run (read_bytes (mkHandle (Some stream)) size) s (fun '(err, data, fh) s' => s' = advance s /\
    exists data' stream', data = Some data' /\ fh = mkHandle (Some stream') /\ f_path stream' = path /\ f_write stream' = f_write stream /\
      (err = ERROR_NONE /\ data' = take (Z.to_nat size) (drop pos content) /\ f_pos stream' = Z.of_nat (pos + length data') /\
         f_error stream' = false /\ f_eof stream' = (len data' <? size) \/
       err <> ERROR_NONE /\ ~ fine s)).
Proof.
  intros Hc Hp Hpos He Hs. unfold read_bytes. rewrite (proj2 (Z.leb_gt _ _)) by lia. cbn [platform_fh].
  apply run_bind. eapply run_eq; [apply fread_eq|]. unfold contents. rewrite Hp, Hpos, Nat2Z.id, Hc. change (default [] (Some content)) with content.
  apply run_ret. split; [done|]. eexists _, _. split; [done|split; [done|split; [done|split; [done|]]]]. cbv zeta. cbn [f_error f_pos f_eof].
  destruct (head_outcome s) as [|n] eqn:Eo.
  - left. rewrite He, andb_false_r. unfold slice. rewrite drop_0. split; [done|split; [done|split; [lia|done]]].
  - right. pose proof (slice_length_le (transferred n size) (drop pos content)).
    assert (transferred n size < size) by (unfold transferred; lia).
    rewrite (proj2 (Z.ltb_lt (len (slice 0 (transferred n size) (drop pos content))) size)) by lia. split; [done|]. intros ?%fine_outcome. congruence.
Qed.

Definition read_result (h0 : heap value_t) (path : cstr) (content : list ascii) (s : io) :
    error_t * file_handle_t * list_t * Z -> io -> Prop := fun '(err, fh, list', total) s' =>
  kept s s' /\ exists stream l, fh = mkHandle (Some stream) /\ f_path stream = path /\ f_write stream = false /\
    owns h0 (io_heap s') list' l /\
    (err = ERROR_NONE /\ f_eof stream = true /\ total = len content /\ (exists pieces, l.*2 = segments pieces /\ mjoin pieces = content) \/
     err <> ERROR_NONE /\ ~ fine s).

Lemma read_result_after h0 path content s s1 r s' : kept s s1 -> read_result h0 path content s1 r s' -> read_result h0 path content s r s'.
Proof.
  destruct r as [[[err fh] list'] total]. intros Hk (Hk' & stream & l & ? & ? & ? & ? & H). split; [by eapply kept_trans|].
  exists stream, l. do 4 (split; [done|]). destruct H as [?|[? Hf]]; [by left|right]. split; [done|]. intros ?. by apply Hf, Hk.
Qed.

Lemma read_loop_run h0 path content n : forall s list l pieces stream pos,
  io_files s !! path = Some content -> f_path stream = path -> f_write stream = false -> f_pos stream = Z.of_nat pos ->
  f_error stream = false -> owns h0 (io_heap s) list l -> l.*2 = segments pieces -> mjoin pieces = take pos content ->
  (pos <= length content < pos + n)%nat ->
  run (read_loop n (mkHandle (Some stream)) list (Z.of_nat pos)) s (read_result h0 path content s).
Proof.
  induction n as [|n IH]; intros s list l pieces stream pos Hc Hp Hw Hpos He Ho Hl Hj Hn; [lia|]. cbn [read_loop].
  apply run_bind. eapply run_mono; [|apply (read_bytes_run path content stream pos); done].
  intros [[err data] fh] s1 (-> & data' & stream' & -> & -> & Hp' & Hw' & H). change (default [] (Some data')) with data'. cbv zeta.
  pose proof (kept_advance s) as Hk. rewrite Hw in Hw'.
  destruct H as [(-> & Hd & Hpos' & He' & Heof) | (Herr & Hf)].
  2:{ rewrite (proj2 (Z.eqb_neq err ERROR_NONE)) by done. rewrite orb_true_r. apply run_ret.
      split; [done|]. exists stream', l. do 4 (split; [done|]). by right. }
  change (negb (ERROR_NONE =? ERROR_NONE)) with false. rewrite orb_false_r.
  assert (length data' = Nat.min (Z.to_nat BUFFER_SIZE) (length content - pos)) as Hlen by (rewrite Hd, length_take, length_drop; lia).
  assert (BUFFER_SIZE = 65536) as Hbuf by done.
  destruct (len data' =? 0) eqn:E0; bools.
  { apply run_ret. split; [done|]. exists stream', l. do 4 (split; [done|]). left. split; [done|].
    split; [rewrite Heof; apply Z.ltb_lt; lia|]. split; [lia|].
    exists pieces. split; [done|]. rewrite Hj. apply take_ge. lia. }
  assert (0 < length data')%nat by lia.
  (* the piece is copied, wrapped and appended *)
  apply run_bind. eapply run_mono; [|apply (allocated _ (advance s) (Some data') None)].
  2:{ unfold copy_memory. rewrite (proj2 (Z.leb_gt _ _)) by lia. erewrite bind_eq by apply malloc_eq.
      rewrite slice_0_all. by destruct (alloc_next _). }
  intros copy s2 (Hk2 & Hi2 & [-> | [-> Hf]]).
  2:{ apply run_ret. split; [by eapply kept_trans|]. exists stream', l. do 3 (split; [done|]).
      split; [by eapply (owns_same _ (advance s))|]. right. split; [done|]. intros ?. by apply Hf, Hk. }
  unfold create_segment. apply run_bind, run_bind. eapply run_mono; [|by apply zmalloc_run].
  intros ok s3 (Hk3 & Hi3 & Hok). apply run_ret.
  assert (owns h0 (io_heap s3) list l) as Ho3 by (eapply owns_same; [exact Hi3|by eapply (owns_same _ (advance s))]).
  pose proof (kept_trans _ _ _ Hk2 Hk3) as Hk23. pose proof (kept_trans _ _ _ Hk Hk23) as Hk03.
  destruct Hok as [-> | [-> Hf]].
  2:{ apply run_ret. split; [done|]. exists stream', l. do 4 (split; [done|]). right. split; [done|].
      intros ?. by apply Hf, Hk2, Hk. }
  apply run_bind. eapply run_mono; [|by apply append_run]. intros [ok list'] s4 [Hk4 H4].
  pose proof (kept_trans _ _ _ Hk03 Hk4) as Hk04. destruct ok; red_if.
  2:{ apply run_ret. destruct H4 as (-> & Ho4 & Hf). split; [done|]. exists stream', l. do 4 (split; [done|]). right.
      split; [done|]. intros ?. by apply Hf, Hk03. }
  destruct H4 as [p Ho4].
  replace (Z.of_nat pos + len data') with (Z.of_nat (pos + length data')) by lia.
  eapply run_mono; [intros r s'; by apply (read_result_after _ _ _ _ _ _ _ Hk04)|].
  eapply (IH s4 list' _ (pieces ++ [data'])); try done.
  - by rewrite (kept_files _ _ Hk04).
  - rewrite fmap_app, Hl. unfold segments. by rewrite fmap_app.
  - rewrite join_app, Hj. cbn [mjoin list_join]. rewrite app_nil_r, <-take_take_drop, Hlen, <-take_take.
    by rewrite (take_ge (drop pos content)), <-Hd by (rewrite length_drop; lia).
  - lia.
Qed.

Lemma concatenate_loop_run w pieces size : forall l prev data n,
  seg (h_items (io_heap w)) prev l None -> l.*2 = segments pieces -> (length l <= n)%nat ->
  len data + len (mjoin pieces) <= size ->
  concatenate_loop n size (first l None) data w = Some (data ++ mjoin pieces, w).
Proof.
  induction pieces as [|d pieces IH]; intros l prev data n Hs Hl Hn Hsize.
  - apply fmap_nil_inv in Hl as ->. destruct n; cbn; by rewrite app_nil_r.
  - destruct l as [|[p v] l]; [done|]. injection Hl as -> Hl. destruct n as [|n]; [simpl in Hn; lia|].
    cbn [first concatenate_loop]. destruct Hs as [Hp Hs]. simpl in Hn.
    assert (on_heap (load_item p) w = Some (mkItem (Some (Segment d (len d))) prev (first l None), w)) as E.
    { unfold on_heap, zoom. erewrite load_item_eq by done. by destruct w. }
    erewrite bind_eq by exact E. cbn [item_value item_next]. rewrite slice_0_all.
    change (mjoin (d :: pieces)) with (d ++ mjoin pieces) in *. rewrite length_app in Hsize.
    erewrite bind_eq by (apply store_eq; lia). rewrite (IH _ _ _ _ Hs Hl); [by rewrite <-app_assoc|lia|].
    rewrite length_app. lia.
Qed.

(** What a stage of [read_file] leaves to be closed and freed. *)
Definition to_close (h0 : heap value_t) (fh : file_handle_t) (list : list_t) (s : io) : Prop :=
  exists l, owns h0 (io_heap s) list l /\ forall stream, platform_fh fh = Some stream -> f_write stream = false.

Lemma read_contents_run h0 path content stream list s :
  io_files s !! path = Some content -> f_path stream = path -> f_write stream = false -> f_pos stream = 0 -> f_error stream = false ->
  owns h0 (io_heap s) list [] ->
  run (read_contents (mkHandle (Some stream)) list) s (fun '(err, fh, list', data) s' =>
    kept s s' /\ to_close h0 fh list' s' /\
    (err = ERROR_NONE /\ data = Some content \/ err <> ERROR_NONE /\ ~ fine s)).
Proof.
  intros Hc Hp Hw Hpos He Ho. unfold read_contents. apply run_bind. eapply run_eq; [done|]. cbn [platform_fh].
  unfold contents. rewrite Hp, Hc. change (default [] (Some content)) with content.
  apply run_bind. eapply run_mono; [|apply (read_loop_run h0 path content _ s list [] [] stream 0); done || (simpl; lia)].
  intros [[[err fh] list'] total] s1 (Hk & stream' & l & -> & Hp' & Hw' & Ho' & H).
  assert (forall s', kept s1 s' -> same_items s1 s' -> to_close h0 (mkHandle (Some stream')) list' s') as Hclose.
  { intros s' _ Hi. exists l. split; [by eapply owns_same|]. by intros ? [= <-]. }
  destruct H as [(-> & Heof & -> & pieces & Hl & <-) | [Herr Hf]].
  2:{ rewrite (proj2 (Z.eqb_neq err ERROR_NONE)) by done. apply run_ret.
      split; [done|split; [apply Hclose; [apply kept_refl|done]|by right]]. }
  change (negb (ERROR_NONE =? ERROR_NONE)) with false. cbn [check_eof platform_fh]. rewrite Heof. red_if.
  apply run_bind. eapply run_mono; [|apply malloc_run]. intros ok s2 (Hk2 & Hi2 & Hok).
  pose proof (kept_trans _ _ _ Hk Hk2) as Hk02. destruct Hok as [-> | [-> Hf]]; red_if.
  2:{ apply run_ret. split; [done|split; [by apply Hclose|right; split; [done|]]]. intros ?. by apply Hf, Hk. }
  pose proof (own_represents _ _ _ _ Ho') as [Hs _ Hhead _ Hsize]. unfold items. rewrite Hhead, Hsize, Nat2Z.id.
  apply run_bind. eapply run_eq; [eapply concatenate_loop_run; [|exact Hl|done|simpl; lia]|].
  - rewrite Hi2. exact Hs.
  - apply run_ret. split; [done|split; [by apply Hclose|by left]].
Qed.

Lemma end_reading_run h0 err fh list s : to_close h0 fh list s ->
  run (end_reading err fh (Some list)) s (fun err' s' => kept s s' /\ h_items (io_heap s') = h_items h0 /\
    (err' = err \/ err = ERROR_NONE /\ err' <> ERROR_NONE /\ ~ fine s)).
Proof.
  intros (l & Ho & Hw). unfold end_reading, is_open_file, close_file. destruct fh as [[stream|]]; cbn [platform_fh] in *.
  - rewrite bool_decide_true by done. apply run_bind, run_bind, run_bind.
    unfold fclose. apply run_bind. eapply run_eq; [done|]. pose proof (kept_advance s) as Hk.
    fold (head_outcome s). fold (advance s). destruct (head_outcome s) eqn:Eo.
    + do 2 apply run_ret. apply run_ret. apply run_bind. eapply run_mono; [|by eapply (free_lines_run _ (advance s))].
      intros _ s2 [Hk2 Hi2]. apply run_ret. split; [by eapply kept_trans|split; [done|by left]].
    + apply run_bind. eapply run_eq; [done|]. rewrite (Hw _ eq_refl). apply run_bind, run_ret. do 3 apply run_ret.
      apply run_bind. eapply run_mono; [|by eapply (free_lines_run _ (advance s))].
      intros _ s2 [Hk2 Hi2]. apply run_ret. split; [by eapply kept_trans|split; [done|]].
      destruct (err =? ERROR_NONE) eqn:Ee; bools; [right|by left]. split; [done|split; [done|]].
      intros ?%fine_outcome. congruence.
  - rewrite bool_decide_false by (by intros [? ?]). apply run_bind, run_ret, run_bind.
    eapply run_mono; [|by eapply free_lines_run]. intros _ s2 [Hk2 Hi2]. apply run_ret. split; [done|split; [done|by left]].
Qed.

(** What reading a file promises. *)
Definition file_read (path : cstr) (w : io) : error_t * option (list ascii) -> Prop := fun '(err, data) =>
  err = ERROR_NONE /\ (exists content, io_files w !! path = Some content /\ data = Some content) \/
  err <> ERROR_NONE /\ (io_files w !! path = None \/ ~ fine w).

(** Nothing has been read, and everything is closed and freed. *)
Lemma nothing_read h0 path w s err fh list : kept w s -> h_items h0 = h_items (io_heap w) -> to_close h0 fh list s ->
  err <> ERROR_NONE -> (io_files w !! path = None \/ ~ fine w) ->
  run (out_err ← end_reading err fh (Some list); mret (out_err, None)) s (fun r w' =>
    kept w w' /\ same_items w w' /\ file_read path w r).
Proof.
  intros Hk Hh Hc Herr Hwhy. apply run_bind. eapply run_mono; [|by apply end_reading_run].
  intros err' s2 (Hk2 & Hi2 & H). apply run_ret. split; [by eapply kept_trans|split; [congruence|]]. right.
  split; [|done]. destruct H as [-> | [? _]]; done.
Qed.

Lemma read_file_run path w :
  run (read_file (Some path)) w (fun r w' => kept w w' /\ same_items w w' /\ file_read path w r).
Proof.
  unfold read_file. apply run_bind, run_ret. change (negb (ERROR_NONE =? ERROR_NONE)) with false. cbv iota.
  apply run_bind. eapply run_mono; [|by apply zmalloc_run]. intros ok w1 (Hk1 & Hi1 & Hok). destruct Hok as [-> | [-> Hf]]; red_if.
  2:{ apply run_bind. unfold end_reading. apply run_bind, run_ret, run_bind, run_ret, run_ret, run_ret.
      split; [done|split; [done|]]. right. split; [done|by right]. }
  apply run_bind. eapply run_mono; [|apply create_run]. intros list w2 (Hk2 & Hi2 & Hlist).
  pose proof (kept_trans _ _ _ Hk1 Hk2) as Hk. assert (same_items w w2) as Hi by (unfold same_items in *; congruence).
  destruct Hlist as [-> | [-> Hf]].
  2:{ apply run_bind. unfold end_reading. apply run_bind, run_ret, run_bind, run_ret, run_ret, run_ret.
      split; [done|split; [done|]]. right. split; [done|right]. intros ?. by apply Hf, Hk1. }
  apply run_bind.
  change (open_file (mkHandle None) FILE_MODE_READ path) with
    (stream ← fopen path false; mret (match stream with None => ERROR_UNSPECIFIC | Some _ => ERROR_NONE end, mkHandle stream) : M io _).
  apply run_bind. unfold fopen. apply run_bind. eapply run_eq; [done|]. fold (head_outcome w2). fold (advance w2).
  pose proof (kept_trans _ _ _ Hk (kept_advance w2)) as Hk3.
  assert (owns (io_heap w) (io_heap (advance w2)) empty_list []) as Ho by (by apply owns_empty).
  assert (to_close (io_heap w) (mkHandle None) empty_list (advance w2)) as Hclose by (exists []; by split).
  destruct (head_outcome w2) eqn:Eo.
  2:{ apply run_ret, run_ret. change (negb (ERROR_UNSPECIFIC =? ERROR_NONE)) with true. cbv iota.
      eapply (nothing_read (io_heap w)); try done. right. intros Hf%(kept_fine _ _ Hk)%fine_outcome. congruence. }
  apply run_bind. eapply run_eq; [done|]. apply run_ret, run_ret.
  replace (io_files (advance w2)) with (io_files w) by (symmetry; apply Hk).
  destruct (io_files w !! path) as [content|] eqn:Ec; cbn [fmap option_fmap option_map].
  2:{ change (negb (ERROR_UNSPECIFIC =? ERROR_NONE)) with true. cbv iota. eapply (nothing_read (io_heap w)); try done. by left. }
  change (negb (ERROR_NONE =? ERROR_NONE)) with false. cbv iota. apply run_bind.
  eapply run_mono; [|apply (read_contents_run (io_heap w) path content); try done; by rewrite (kept_files _ _ Hk3)].
  intros [[[err fh] list'] data] w4 (Hk4 & Hclose4 & H4). apply run_bind. eapply run_mono; [|by apply end_reading_run].
  intros err' w5 (Hk5 & Hi5 & H5). apply run_ret.
  pose proof (kept_trans _ _ _ Hk3 Hk4) as Hk04. split; [by eapply kept_trans|split; [done|]].
  destruct H4 as [[-> ->] | [Herr Hf4]]; destruct H5 as [-> | (? & ? & Hf5)]; try done.
  - left. split; [done|]. by exists content.
  - right. split; [done|right]. intros ?. by apply Hf5, Hk04.
  - right. split; [done|right]. intros ?. by apply Hf4, Hk3.
Qed.

(** ** Lines in files *)

Lemma lines_made_later w w1 lines r w' : same_items w w1 -> (fine w -> fine w1) -> lines_made w1 lines r w' -> lines_made w lines r w'.
Proof.
  destruct r as [err made]. intros Hi Hf [(-> & list & l & -> & [Hr Hfr Hn] & Hl) | (-> & -> & Hi' & Hnf)].
  - left. split; [done|]. exists list, l. split; [done|split; [|done]]. split; [done| |].
    + intros q ?. rewrite <-Hi. by apply Hfr.
    + intros q ?. rewrite <-Hi. by apply Hn.
  - right. split; [done|split; [done|split; [unfold same_items in *; congruence|tauto]]].
Qed.

(** What reading the lines of a file promises. *)
Definition lines_read (path : cstr) (w : io) (r : error_t * option list_t) (w' : io) : Prop :=
  (exists content, io_files w !! path = Some content /\ r.1 = ERROR_NONE /\ lines_made w (text_lines content) r w') \/
  r.1 <> ERROR_NONE /\ r.2 = None /\ same_items w w' /\ (io_files w !! path = None \/ ~ fine w).

Lemma read_lines_run path w :
  run (read_lines_from_file (Some path)) w (fun r w' => kept w w' /\ lines_read path w r w').
Proof.
  unfold read_lines_from_file. apply run_bind. eapply run_mono; [|apply read_file_run].
  intros [err data] w1 (Hk & Hi & [(-> & content & Hc & ->) | [Herr Hwhy]]).
  - change (negb (ERROR_NONE =? ERROR_NONE)) with false. cbv iota. eapply run_mono; [|apply split_lines_run].
    intros r w2 [Hk2 Hm]. split; [by eapply kept_trans|]. eapply (lines_made_later w) in Hm; [|done|apply Hk].
    destruct r as [err made]. destruct (decide (err = ERROR_NONE)) as [-> | Herr].
    + left. by exists content.
    + right. destruct Hm as [[? _] | (-> & -> & ? & ?)]; [done|]. split; [done|split; [done|split; [done|by right]]].
  - rewrite (proj2 (Z.eqb_neq err ERROR_NONE)) by done. apply run_ret. split; [done|]. by right.
Qed.

Lemma write_lines_run list l lines path w : represents (io_heap w) list l -> l.*2 = texts lines ->
  run (write_lines_to_file (Some list) (Some path)) w (fun err w' =>
    err <> ERROR_NONE /\ kept w w' /\ same_items w w' /\ ~ fine w \/ written path (join LF lines) w err w').
Proof.
  intros Hr Hl. unfold write_lines_to_file. apply run_bind. eapply run_mono; [|by eapply join_lines_run].
  intros s w1 (Hk & Hi & [-> | [-> Hf]]); [|apply run_ret; by left].
  eapply run_mono; [|apply write_file_run]. intros err w2 [Hd Ho Hdi Hi2 Hf2]. right. split; [done| | | |].
  - intros other ?. rewrite Ho by done. by rewrite (kept_files _ _ Hk).
  - by rewrite Hdi, (kept_dirs _ _ Hk).
  - unfold same_items in *; congruence.
  - intros ?. by apply Hf2, Hk.
Qed.

(** Lines without line ends survive joining and splitting. *)
Definition one_line (s : cstr) : Prop := (CR ∉ s) /\ (LF ∉ s) /\ no_nul s.

Lemma lines_with_split s cur : CR ∉ s ->
  lines_with cur s = match split_on LF s with x :: xs => (cur ++ x) :: xs | [] => [cur] end.
Proof.
  revert cur. induction s as [|c s IH]; intros cur Hs; [cbn; by rewrite app_nil_r|].
  apply not_elem_of_cons in Hs as [Hc Hs]. cbn [lines_with split_on]. rewrite bool_decide_false by congruence.
  destruct (decide (c = LF)) as [-> | Hlf].
  - rewrite !bool_decide_true by done. cbv beta iota. rewrite app_nil_r, IH by done. by destruct (split_on LF s) eqn:E; [by apply split_on_nonempty in E|].
  - rewrite !bool_decide_false by done. rewrite IH by done. destruct (split_on LF s) eqn:E; [by apply split_on_nonempty in E|].
    by rewrite <-app_assoc.
Qed.

Lemma text_lines_join lines : lines <> [] -> Forall one_line lines -> text_lines (join LF lines) = lines.
Proof.
  intros Hne Hl. unfold text_lines. rewrite lines_with_split.
  - rewrite split_on_join; [|done|by eapply Forall_impl; [exact Hl|intros s (? & ? & ?)]].
    destruct lines as [|s lines]; [done|]. cbn [app]. rewrite <-(list_fmap_id (s :: lines)) at 2. apply list_fmap_ext.
    intros i x Hx. apply c_str_id. eapply Forall_lookup_1 in Hl as (_ & _ & ?); done.
  - intros Hin. apply join_elem_of in Hin as [? | (s & Hs & Hcr)]; [done|].
    destruct (proj1 (Forall_forall _ _) Hl s Hs) as [? _]. done.
Qed.

(** The first value of a list is replaced. *)
Lemma owns_set_first (h0 h : heap value_t) list p v v' l it : owns h0 h list ((p, v) :: l) -> h_items h !! p = Some it ->
  owns h0 (mkHeap (<[p := set_value v' it]> (h_items h)) (h_env h)) list ((p, v') :: l).
Proof.
  intros [[[Hp Hs] Hnd Hh Ht Hsz] Hf Hn] Hit. apply NoDup_cons in Hnd as [Hpl Hnd]. split; [split| |]; try done.
  - split; [simpl; rewrite lookup_insert_eq; rewrite Hp in Hit; by injection Hit as <-|]. eapply seg_frame; [|exact Hs]. intros q Hq. apply lookup_insert_ne. by intros <-.
  - by apply NoDup_cons.
  - rewrite Ht. unfold final. destruct l as [|? l]; [done|]. by rewrite !last_cons_cons.
  - intros q. cbn [fmap list_fmap fst]. intros Hq. pose proof Hq as Hq'. apply not_elem_of_cons in Hq' as [Hne _]. simpl.
    rewrite lookup_insert_ne by done. by apply Hf.
Qed.

Definition first_line_read (path : cstr) (w : io) : error_t * option cstr -> Prop := fun '(err, line) =>
  err = ERROR_NONE /\ (exists content, io_files w !! path = Some content /\ line = head (text_lines content)) /\ line <> None \/
  err <> ERROR_NONE /\ line = None /\ (io_files w !! path = None \/ ~ fine w).

Lemma lines_with_nonempty s : forall cur, lines_with cur s <> [].
Proof. induction s as [|c s IH]; intros cur; [done|]. cbn [lines_with]. do 2 (case_bool_decide; [done|]). apply IH. Qed.

Lemma text_lines_nonempty s : text_lines s <> [].
Proof. intros H%fmap_nil_inv. by apply lines_with_nonempty in H. Qed.

Lemma read_first_line_run path w :
  run (read_first_line_from_file (Some path)) w (fun r w' => kept w w' /\ same_items w w' /\ first_line_read path w r).
Proof.
  unfold read_first_line_from_file. apply run_bind. eapply run_mono; [|apply read_lines_run].
  intros [err made] w1 [Hk [(content & Hc & Herr & Hm) | (Herr & _ & Hi & Hwhy)]]; cbn [fst snd] in Herr.
  2:{ rewrite (proj2 (Z.eqb_neq err ERROR_NONE)) by done. apply run_ret. split; [done|split; [done|by right]]. }
  subst err. change (negb (ERROR_NONE =? ERROR_NONE)) with false. cbv iota.
  destruct Hm as [(_ & list & l & -> & Ho & Hl) | [? _]]; [|done].
  destruct (text_lines content) as [|line lines] eqn:El; [by apply text_lines_nonempty in El|].
  destruct l as [|[p v] l]; [done|]. injection Hl as -> Hl. pose proof (own_represents _ _ _ _ Ho) as [Hs _ Hh _ Hsz].
  rewrite (proj2 (Z.ltb_ge _ _)) by (rewrite Hsz; simpl; lia). rewrite Hh. cbn [first]. destruct Hs as [Hp _].
  apply run_bind. apply on_heap_run. eapply run_eq; [by eapply load_item_eq|].
  apply run_bind. apply on_heap_run. eapply run_eq; [by eapply update_item_eq|]. cbn [item_value]. apply run_bind, run_ret.
  apply run_bind. eapply run_mono; [|eapply free_lines_run; by eapply owns_set_first].
  intros _ w2 [Hk2 Hi2]. apply run_ret. split; [|split; [done|]].
  - eapply kept_trans; [exact Hk|]. eapply kept_trans; [|exact Hk2]. destruct w1. apply kept_heap. by left.
  - left. split; [done|split; [|done]]. exists content. rewrite El. by split.
Qed.

(** Text files: lines that are written to a file - at least one, none of which has a
    line end or a NUL in it - are read back as they were, as a new list that shares no
    item with any other; in general, reading yields the lines of the file, whatever ends
    them. A function reports success only if that is what it did, fails only if the file
    is missing, or the operating system or an allocation has failed, and leaves no list
    and no list items when it fails; writing leaves all other files alone. (The buffer
    with the content of a file is not a list item: if closing the file fails after it has
    been read, the code does not free it.) *)
Theorem text_files list l lines path w :
  represents (io_heap w) list l -> l.*2 = texts lines -> lines <> [] -> Forall one_line lines ->
  run (write_lines_to_file (Some list) (Some path)) w (fun err w1 =>
    same_items w w1 /\ (fine w -> err = ERROR_NONE /\ fine w1) /\
    (forall other, other <> path -> io_files w1 !! other = io_files w !! other) /\
    (err = ERROR_NONE -> io_files w1 !! path = Some (join LF lines)) /\
    (err = ERROR_NONE -> run (read_lines_from_file (Some path)) w1 (fun '(err2, made) w2 =>
      (fine w -> err2 = ERROR_NONE) /\
      (err2 = ERROR_NONE -> exists list2 l2, made = Some list2 /\ owns (io_heap w1) (io_heap w2) list2 l2 /\ l2.*2 = texts lines)))) /\
  run (read_lines_from_file (Some path)) w (fun '(err, made) w2 =>
    io_files w2 = io_files w /\
    (err = ERROR_NONE -> exists content list2 l2, io_files w !! path = Some content /\ made = Some list2 /\
      owns (io_heap w) (io_heap w2) list2 l2 /\ l2.*2 = texts (text_lines content)) /\
    (err <> ERROR_NONE -> made = None /\ same_items w w2 /\ (io_files w !! path = None \/ ~ fine w))).
Proof.
  intros Hr Hl Hne Hlines. split.
  - eapply run_mono; [|by eapply write_lines_run]. intros err w1 [(Herr & Hk & Hi & Hf) | [Hd Ho Hdi Hi Hf]].
    { split; [done|split; [done|split; [intros ? _; by rewrite (kept_files _ _ Hk)|by split]]]. }
    split; [done|split; [done|split; [done|split; [done|]]]]. intros Herr.
    eapply run_mono; [|apply read_lines_run]. intros [err2 made] w2 [Hk2 [(content & Hc & Herr2 & Hm) | (Herr2 & Hmade & Hi2 & Hwhy)]].
    + simpl in Herr2. split; [done|]. intros _. destruct Hm as [(_ & list2 & l2 & -> & Ho2 & Hl2) | [-> _]]; [|done].
      exists list2, l2. split; [done|split; [done|]]. rewrite Hl2. rewrite Hd in Hc by done. injection Hc as <-.
      by rewrite text_lines_join.
    + simpl in Herr2, Hmade. split; [|done]. intros Hfw. destruct (Hf Hfw) as [_ Hf1]. rewrite Hd in Hwhy by done. by destruct Hwhy.
  - eapply run_mono; [|apply read_lines_run]. intros [err made] w2 [Hk2 [(content & Hc & Herr2 & Hm) | (Herr2 & Hmade & Hi2 & Hwhy)]].
    + simpl in Herr2. split; [apply Hk2|split; [|done]]. intros _. destruct Hm as [(_ & list2 & l2 & -> & Ho2 & Hl2) | [-> _]]; [|done].
      by exists content, list2, l2.
    + simpl in Herr2, Hmade. split; [apply Hk2|split; [done|done]].
Qed.

Definition demo_list : list_t := mkList 2 (Some 3%positive) (Some 5%positive).
Definition demo_items : list (loc * option value_t) := [(3%positive, Some (Text (lit "a=1"))); (5%positive, Some (Text []))].
Definition demo_io : io :=
  mkIO {[lit "old" := lit "x"]} ∅ []
    (mkHeap {[3%positive := mkItem (Some (Text (lit "a=1"))) None (Some 5%positive);
              5%positive := mkItem (Some (Text [])) (Some 3%positive) None]} calm).

Lemma demo_io_list : represents (io_heap demo_io) demo_list demo_items.
Proof. split; [by repeat split|apply (bool_decide_unpack _); reflexivity|reflexivity..]. Qed.

Lemma text_files_witness :
  let lines := [lit "a=1"; []] in
  run (write_lines_to_file (Some demo_list) (Some (lit "f"))) demo_io (fun err w1 =>
    same_items demo_io w1 /\ (fine demo_io -> err = ERROR_NONE /\ fine w1) /\
    (forall other, other <> lit "f" -> io_files w1 !! other = io_files demo_io !! other) /\
    (err = ERROR_NONE -> io_files w1 !! lit "f" = Some (join LF lines)) /\
    (err = ERROR_NONE -> run (read_lines_from_file (Some (lit "f"))) w1 (fun '(err2, made) w2 =>
      (fine demo_io -> err2 = ERROR_NONE) /\
      (err2 = ERROR_NONE -> exists list2 l2, made = Some list2 /\ owns (io_heap w1) (io_heap w2) list2 l2 /\ l2.*2 = texts lines)))).
Proof.
  intros lines. refine (proj1 (text_files demo_list demo_items lines (lit "f") demo_io demo_io_list _ _ _)).
  - reflexivity.
  - discriminate.
  - repeat constructor; apply (bool_decide_unpack _); reflexivity.
Defined.
