(* ===== verification/Settings.v ===== *)
(** The server's settings ([settings.c], [settings.h]): defaults, validation, and
    their persistence in three files.

    The settings own their strings, so that a [settings_t] is a value; a function
    that changes settings through a pointer returns them changed. The files and
    the random device passwords are made from are part of the state. *)

From S2P Require Import Prelude CLib Utils Lists FileIO Password.

Record sio := mkSio { si_io : io; si_opens : list bool; si_bytes : list Byte.byte }.

Definition set_io (w : io) (s : sio) : sio := mkSio w (si_opens s) (si_bytes s).
Definition in_io {A} (m : M io A) : M sio A := zoom si_io set_io m.
Definition in_env {A} (m : M env A) : M sio A := in_io (in_memory m).
Definition in_random {A} (m : M entropy A) : M sio A :=
  zoom (fun s => mkEntropy (si_opens s) (si_bytes s) (h_env (io_heap (si_io s))))
       (fun n s => mkSio (FileIO.set_heap (mkHeap (h_items (io_heap (si_io s))) (en_env n)) (si_io s)) (en_opens n) (en_bytes n)) m.

(** * Settings *)

Record settings_t := mkSettings {
  password : option cstr;
  auto_startup : bool;
  auto_regen_password : bool;
  network_interface : option cstr;
  network_port : Z;
  network_enable_ipv6 : bool;
  log_level_xplane : Z;
  log_level_console : Z;
}.

Definition set_password (p : option cstr) (s : settings_t) :=
  mkSettings p (auto_startup s) (auto_regen_password s) (network_interface s) (network_port s) (network_enable_ipv6 s) (log_level_xplane s) (log_level_console s).
Definition set_auto_startup (b : bool) (s : settings_t) :=
  mkSettings (password s) b (auto_regen_password s) (network_interface s) (network_port s) (network_enable_ipv6 s) (log_level_xplane s) (log_level_console s).
Definition set_auto_regen_password (b : bool) (s : settings_t) :=
  mkSettings (password s) (auto_startup s) b (network_interface s) (network_port s) (network_enable_ipv6 s) (log_level_xplane s) (log_level_console s).
Definition set_network_interface (i : option cstr) (s : settings_t) :=
  mkSettings (password s) (auto_startup s) (auto_regen_password s) i (network_port s) (network_enable_ipv6 s) (log_level_xplane s) (log_level_console s).
Definition set_network_port (p : Z) (s : settings_t) :=
  mkSettings (password s) (auto_startup s) (auto_regen_password s) (network_interface s) p (network_enable_ipv6 s) (log_level_xplane s) (log_level_console s).
Definition set_network_enable_ipv6 (b : bool) (s : settings_t) :=
  mkSettings (password s) (auto_startup s) (auto_regen_password s) (network_interface s) (network_port s) b (log_level_xplane s) (log_level_console s).
Definition set_log_level_xplane (l : Z) (s : settings_t) :=
  mkSettings (password s) (auto_startup s) (auto_regen_password s) (network_interface s) (network_port s) (network_enable_ipv6 s) l (log_level_console s).
Definition set_log_level_console (l : Z) (s : settings_t) :=
  mkSettings (password s) (auto_startup s) (auto_regen_password s) (network_interface s) (network_port s) (network_enable_ipv6 s) (log_level_xplane s) l.

Definition NETWORK_MINIMUM_PORT : Z := 1024.
Definition NETWORK_MAXIMUM_PORT : Z := 65535.
Definition INTERFACE_LOCAL : cstr := lit "localhost".

Definition SETTINGS_LOG_LEVEL_ERROR : Z := 20.
Definition SETTINGS_LOG_LEVEL_WARN : Z := 40.
Definition SETTINGS_LOG_LEVEL_INFO : Z := 60.
Definition SETTINGS_LOG_LEVEL_DEBUG : Z := 80.
Definition SETTINGS_LOG_LEVEL_TRACE : Z := 100.
Definition SETTINGS_DEFAULT_LOG_LEVEL_CONSOLE : Z := SETTINGS_LOG_LEVEL_INFO.
Definition SETTINGS_DEFAULT_LOG_LEVEL_XPLANE : Z := SETTINGS_LOG_LEVEL_INFO.

Definition XPRC_DEFAULT_NETWORK_INTERFACE : cstr := INTERFACE_LOCAL.
Definition XPRC_DEFAULT_NETWORK_ENABLE_IPV6 : bool := false.
Definition XPRC_DEFAULT_NETWORK_PORT : Z := 23042.

Definition default_settings : settings_t := {|
  password := None;
  auto_startup := true;
  auto_regen_password := true;
  network_interface := Some XPRC_DEFAULT_NETWORK_INTERFACE;
  network_port := XPRC_DEFAULT_NETWORK_PORT;
  network_enable_ipv6 := XPRC_DEFAULT_NETWORK_ENABLE_IPV6;
  log_level_xplane := SETTINGS_DEFAULT_LOG_LEVEL_XPLANE;
  log_level_console := SETTINGS_DEFAULT_LOG_LEVEL_CONSOLE;
|}.

(** What [zmalloc] leaves in new settings. *)
Definition zero_settings : settings_t := mkSettings None false false None 0 false 0 0.

(** * Fields *)

Inductive settings_field_type_t :=
  SETTINGS_FIELD_TYPE_STRING | SETTINGS_FIELD_TYPE_BOOLEAN | SETTINGS_FIELD_TYPE_INTEGER.

(** A field at an offset of the structure: how it is read and written. *)
Inductive offset_t :=
  | string_at (get : settings_t -> option cstr) (set : option cstr -> settings_t -> settings_t)
  | bool_at (get : settings_t -> bool) (set : bool -> settings_t -> settings_t)
  | int_at (get : settings_t -> Z) (set : Z -> settings_t -> settings_t).

Record settings_field_t := mkField {
  key : cstr;
  type : settings_field_type_t;
  offset : offset_t;
  standardized : bool;
}.

Definition settings_fields : list settings_field_t := [
  mkField (lit "auto_startup") SETTINGS_FIELD_TYPE_BOOLEAN (bool_at auto_startup set_auto_startup) false;
  mkField (lit "auto_regen_password") SETTINGS_FIELD_TYPE_BOOLEAN (bool_at auto_regen_password set_auto_regen_password) false;
  mkField (lit "log_level_console") SETTINGS_FIELD_TYPE_INTEGER (int_at log_level_console set_log_level_console) false;
  mkField (lit "log_level_xplane") SETTINGS_FIELD_TYPE_INTEGER (int_at log_level_xplane set_log_level_xplane) false;
  mkField (lit "network_interface") SETTINGS_FIELD_TYPE_STRING (string_at network_interface set_network_interface) false;
  mkField (lit "network_port") SETTINGS_FIELD_TYPE_INTEGER (int_at network_port set_network_port) true;
  mkField (lit "network_enable_ipv6") SETTINGS_FIELD_TYPE_BOOLEAN (bool_at network_enable_ipv6 set_network_enable_ipv6) false].

Definition SETTINGS_SERIALIZATION_KEY_VALUE_SEPARATOR : cstr := lit "=".
Definition SETTINGS_SERIALIZATION_TRUE : cstr := lit "true".
Definition SETTINGS_SERIALIZATION_FALSE : cstr := lit "false".
Definition SETTINGS_SERIALIZATION_NULL : cstr := lit "#!<>$NULL$<>#!".

(** * Serialization *)

(** Reading a field as another type than it has is undefined behaviour. *)
Definition serialize_setting (settings : settings_t) (field : settings_field_t) : M env (option cstr) :=
  let line (value : cstr) := dynamic_sprintf (key field ++ SETTINGS_SERIALIZATION_KEY_VALUE_SEPARATOR ++ value) in
  match type field, offset field with
  | SETTINGS_FIELD_TYPE_BOOLEAN, bool_at get _ =>
      line (if get settings then SETTINGS_SERIALIZATION_TRUE else SETTINGS_SERIALIZATION_FALSE)
  | SETTINGS_FIELD_TYPE_INTEGER, int_at get _ => line (print_dec (get settings))
  | SETTINGS_FIELD_TYPE_STRING, string_at get _ => line (default SETTINGS_SERIALIZATION_NULL (get settings))
  | _, _ => ub
  end.

(** The loop over the fields: whether it has reached the end, and the list. *)
Fixpoint serialize_loop (settings : settings_t) (fields : list settings_field_t) (lines : list_t) : M sio (bool * list_t) :=
  match fields with
  | [] => mret (true, lines)
  | field :: fields' =>
      if standardized field then serialize_loop settings fields' lines
      else
        line ← in_env (serialize_setting settings field);
        match line with
        | None => mret (false, lines)
        | Some line =>
            '(ok, lines) ← in_io (on_heap (list_append lines (Some (Text line))));
            if negb ok then mret (false, lines) else serialize_loop settings fields' lines
        end
  end.

Definition serialize_server_settings (settings : settings_t) : M sio (option list_t) :=
  lines ← in_io (on_heap create_list);
  match lines with
  | None => mret None
  | Some lines =>
      '(ok, lines) ← serialize_loop settings settings_fields lines;
      if ok : bool then mret (Some lines)
      else _ ← in_io (free_list lines); mret None
  end.

Definition get_settings_field (name : cstr) : option settings_field_t :=
  List.find (fun field => str_eq name (key field)) settings_fields.

Definition deserialize_setting (settings : settings_t) (field : settings_field_t) (s : cstr) : M env (error_t * settings_t) :=
  match type field, offset field with
  | SETTINGS_FIELD_TYPE_BOOLEAN, bool_at _ set =>
      mret (if str_eq s SETTINGS_SERIALIZATION_TRUE then (ERROR_NONE, set true settings)
            else if str_eq s SETTINGS_SERIALIZATION_FALSE then (ERROR_NONE, set false settings)
            else (ERROR_UNSPECIFIC, settings))
  | SETTINGS_FIELD_TYPE_INTEGER, int_at _ set =>
      int_value ← parse_int (Some s);
      mret (match int_value with
            | None => (ERROR_UNSPECIFIC, settings)
            | Some int_value => (ERROR_NONE, set int_value settings)
            end)
  | SETTINGS_FIELD_TYPE_STRING, string_at _ set =>
      if negb (str_eq s SETTINGS_SERIALIZATION_NULL) then
        new_value_s ← copy_string (Some s);
        mret (match new_value_s with
              | None => (ERROR_MEMORY_ALLOCATION, settings)
              | Some new_value_s => (ERROR_NONE, set (Some new_value_s) settings)
              end)
      else mret (ERROR_NONE, set None settings)
  | _, _ => ub
  end.

(** One turn of the loop over the lines: [inl] is an early return, [inr] the
    error to return at the end. *)
Definition deserialize_line (settings : settings_t) (line : cstr) (out_err : error_t) :
    M env ((error_t + error_t) * settings_t) :=
  let separator := strpos (Some line) (Some SETTINGS_SERIALIZATION_KEY_VALUE_SEPARATOR) 0 in
  if separator <? 1 then mret (inl ERROR_UNSPECIFIC, settings)
  else
    key_copy ← copy_partial_string (Some line) separator;
    match key_copy with
    | None => mret (inl ERROR_MEMORY_ALLOCATION, settings)
    | Some key_copy =>
        let value := drop (Z.to_nat (separator + 1)) line in
        match get_settings_field key_copy with
        | None => mret (inr ERROR_INCOMPLETE, settings)
        | Some field =>
            '(err, settings) ← deserialize_setting settings field value;
            mret (inr (if negb (err =? ERROR_NONE) then ERROR_INCOMPLETE else out_err), settings)
        end
    end.

Fixpoint deserialize_loop (n : nat) (settings : settings_t) (line_item : option loc) (out_err : error_t) : M sio (error_t * settings_t) :=
  match line_item, n with
  | None, _ => mret (out_err, settings)
  | Some _, O => ub
  | Some item, S n' =>
      '(line, next) ← in_io (load_text item);
      '(result, settings) ← in_env (deserialize_line settings line out_err);
      match result with
      | inl err => mret (err, settings)
      | inr out_err => deserialize_loop n' settings next out_err
      end
  end.

Definition deserialize_server_settings (settings : settings_t) (lines : list_t) : M sio (error_t * settings_t) :=
  deserialize_loop (items lines) settings (list_head lines) ERROR_NONE.

(** * Settings as a whole *)

Definition SETTINGS_COPY_PASSWORD : bool := true.
Definition SETTINGS_KEEP_PASSWORD : bool := false.

(** [copy_settings] on existing settings: the destination changed, or as it was
    if a copy of a string fails. *)
Definition copy_settings (dest src : settings_t) (copy_password : bool) : M env (error_t * settings_t) :=
  if Bool.eqb copy_password SETTINGS_COPY_PASSWORD && bool_decide (password src = None) then mret (ERROR_UNSPECIFIC, dest)
  else
    interface ← copy_string (network_interface src);
    if bool_decide (is_Some (network_interface src)) && bool_decide (interface = None) then mret (ERROR_MEMORY_ALLOCATION, dest)
    else
      let finish (dest : settings_t) :=
        mkSettings (password dest) (auto_startup src) (auto_regen_password src) interface (network_port src)
          (network_enable_ipv6 src) (log_level_xplane src) (log_level_console src) in
      if Bool.eqb copy_password SETTINGS_COPY_PASSWORD then
        copied ← copy_string (password src);
        mret (match copied with
              | None => (ERROR_MEMORY_ALLOCATION, dest)
              | Some _ => (ERROR_NONE, finish (set_password copied dest))
              end)
      else mret (ERROR_NONE, finish dest).

Definition create_settings : M sio (option settings_t) :=
  ok ← in_env (zmalloc 48);
  if negb ok then mret None
  else
    '(err, out) ← in_env (copy_settings zero_settings default_settings SETTINGS_KEEP_PASSWORD);
    if negb (err =? ERROR_NONE) then mret None
    else
      generated ← in_random generate_password;
      mret (match generated with None => None | Some _ => Some (set_password generated out) end).

Definition validate_log_level (settings_log_level : Z) : bool :=
  bool_decide (settings_log_level ∈ [SETTINGS_LOG_LEVEL_ERROR; SETTINGS_LOG_LEVEL_WARN; SETTINGS_LOG_LEVEL_INFO;
                                     SETTINGS_LOG_LEVEL_DEBUG; SETTINGS_LOG_LEVEL_TRACE]).

Definition port_in_range (port : Z) : bool := negb ((port <? NETWORK_MINIMUM_PORT) || (NETWORK_MAXIMUM_PORT <? port)).

Definition validate_settings (settings : settings_t) (check_password : bool) : bool :=
  if check_password && negb (validate_password (password settings)) then false
  else if negb (validate_log_level (log_level_console settings)) then false
  else if negb (validate_log_level (log_level_xplane settings)) then false
  else if negb (port_in_range (network_port settings)) then false
  else true.

(** [constrain_settings]: the settings changed, and whether they are; first the
    port. *)
Definition constrain_port (settings : settings_t) : bool * settings_t :=
  let '(changed, settings) :=
    if network_port settings <? NETWORK_MINIMUM_PORT then (true, set_network_port NETWORK_MINIMUM_PORT settings) else (false, settings) in
  if NETWORK_MAXIMUM_PORT <? network_port settings then (true, set_network_port NETWORK_MAXIMUM_PORT settings) else (changed, settings).

Definition constrain_settings (settings : settings_t) : bool * settings_t :=
  let '(changed, settings) := constrain_port settings in
  let '(changed, settings) :=
    if negb (validate_log_level (log_level_console settings))
    then (true, set_log_level_console SETTINGS_DEFAULT_LOG_LEVEL_CONSOLE settings) else (changed, settings) in
  if negb (validate_log_level (log_level_xplane settings))
  then (true, set_log_level_xplane SETTINGS_DEFAULT_LOG_LEVEL_XPLANE settings) else (changed, settings).

Definition reset_network_settings (settings : settings_t) : M env (error_t * settings_t) :=
  network_interface_new ← copy_string (Some XPRC_DEFAULT_NETWORK_INTERFACE);
  mret (match network_interface_new with
        | None => (ERROR_MEMORY_ALLOCATION, settings)
        | Some _ =>
            (ERROR_NONE, set_network_enable_ipv6 XPRC_DEFAULT_NETWORK_ENABLE_IPV6
               (set_network_port XPRC_DEFAULT_NETWORK_PORT (set_network_interface network_interface_new settings)))
        end).

(** The levels of the logger ([logger.h]). *)
Definition xprc_log_level_t := Z.
Definition RCLOG_LEVEL_ERROR : xprc_log_level_t := 127.
Definition RCLOG_LEVEL_WARN : xprc_log_level_t := 63.
Definition RCLOG_LEVEL_INFO : xprc_log_level_t := 31.
Definition RCLOG_LEVEL_DEBUG : xprc_log_level_t := 15.
Definition RCLOG_LEVEL_TRACE : xprc_log_level_t := 7.
Definition RCLOG_COMPILED_MIN_LOG_LEVEL : xprc_log_level_t := RCLOG_LEVEL_INFO.

Definition settings_log_level_to_system (settings_log_level : Z) : xprc_log_level_t :=
  if settings_log_level =? SETTINGS_LOG_LEVEL_ERROR then RCLOG_LEVEL_ERROR
  else if settings_log_level =? SETTINGS_LOG_LEVEL_WARN then RCLOG_LEVEL_WARN
  else if settings_log_level =? SETTINGS_LOG_LEVEL_INFO then RCLOG_LEVEL_INFO
  else if settings_log_level =? SETTINGS_LOG_LEVEL_DEBUG then RCLOG_LEVEL_DEBUG
  else if settings_log_level =? SETTINGS_LOG_LEVEL_TRACE then RCLOG_LEVEL_TRACE
  else RCLOG_COMPILED_MIN_LOG_LEVEL.

(** The new minimum levels for the console and for X-Plane's log. *)
Definition configure_logger_from_settings (settings : settings_t) : xprc_log_level_t * xprc_log_level_t :=
  (settings_log_level_to_system (log_level_console settings), settings_log_level_to_system (log_level_xplane settings)).

(** * Files *)

(** The part of [load_server_settings] that works on the new [settings]. *)
Definition load_into (settings dest : settings_t) (filepath : cstr) : M sio (error_t * settings_t) :=
  '(err, lines) ← in_io (read_lines_from_file (Some filepath));
  if negb (err =? ERROR_NONE) then mret (err, dest)
  else
    lines ← from_ub lines;
    '(err, settings) ← deserialize_server_settings settings lines;
    if negb (err =? ERROR_INCOMPLETE) && negb (err =? ERROR_NONE) then mret (err, dest)
    else
      let out_err := if err =? ERROR_INCOMPLETE then ERROR_INCOMPLETE else ERROR_NONE in
      let '(changed, settings) := constrain_settings settings in
      let out_err := if changed then ERROR_INCOMPLETE else out_err in
      '(err, dest) ← in_env (copy_settings dest settings SETTINGS_KEEP_PASSWORD);
      mret (if negb (err =? ERROR_NONE) then err else out_err, dest).

Definition load_server_settings (dest : settings_t) (filepath : cstr) : M sio (error_t * settings_t) :=
  settings ← create_settings;
  match settings with
  | None => mret (ERROR_MEMORY_ALLOCATION, dest)
  | Some settings => load_into settings dest filepath
  end.

Definition save_server_settings (settings : settings_t) (filepath : cstr) : M sio error_t :=
  lines ← serialize_server_settings settings;
  match lines with
  | None => mret ERROR_UNSPECIFIC
  | Some lines =>
      err ← in_io (write_lines_to_file (Some lines) (Some filepath));
      _ ← in_io (free_list lines);
      mret err
  end.

Definition load_password (dest : settings_t) (filepath : cstr) : M sio (error_t * settings_t) :=
  '(err, loaded_password) ← in_io (read_first_line_from_file (Some filepath));
  mret (if negb (err =? ERROR_NONE) then (err, dest) else (ERROR_NONE, set_password loaded_password dest)).

Definition save_password (settings : settings_t) (filepath : cstr) : M sio error_t :=
  match password settings with
  | None => mret ERROR_UNSPECIFIC
  | Some password => in_io (write_file (Some password) (strlen password) (Some filepath))
  end.

Definition load_port (dest : settings_t) (filepath : cstr) : M sio (error_t * settings_t) :=
  '(err, port_string) ← in_io (read_first_line_from_file (Some filepath));
  if negb (err =? ERROR_NONE) then mret (err, dest)
  else
    port ← in_env (parse_int port_string);
    mret (match port with
          | None => (ERROR_UNSPECIFIC, dest)
          | Some port => if negb (port_in_range port) then (ERROR_UNSPECIFIC, dest) else (ERROR_NONE, set_network_port port dest)
          end).

Definition save_port (settings : settings_t) (filepath : cstr) : M sio error_t :=
  if negb (port_in_range (network_port settings)) then mret ERROR_UNSPECIFIC
  else
    s ← in_env (dynamic_sprintf (print_dec (network_port settings)));
    match s with
    | None => mret ERROR_MEMORY_ALLOCATION
    | Some s => in_io (write_file (Some s) (strlen s) (Some filepath))
    end.

(** * Specification *)

(** The text of a field's value. *)
Definition value_text (settings : settings_t) (field : settings_field_t) : cstr :=
  match offset field with
  | bool_at get _ => if get settings then SETTINGS_SERIALIZATION_TRUE else SETTINGS_SERIALIZATION_FALSE
  | int_at get _ => print_dec (get settings)
  | string_at get _ => default SETTINGS_SERIALIZATION_NULL (get settings)
  end.

Definition field_line (settings : settings_t) (field : settings_field_t) : cstr :=
  key field ++ SETTINGS_SERIALIZATION_KEY_VALUE_SEPARATOR ++ value_text settings field.

(** The lines of the settings file. *)
Definition settings_lines (settings : settings_t) : list cstr :=
  field_line settings <$> filter (fun field => standardized field = false) settings_fields.

(** A field set to the value a text stands for. *)
Definition set_field (settings : settings_t) (field : settings_field_t) (s : cstr) : option settings_t :=
  match offset field with
  | bool_at _ set =>
      if str_eq s SETTINGS_SERIALIZATION_TRUE then Some (set true settings)
      else if str_eq s SETTINGS_SERIALIZATION_FALSE then Some (set false settings) else None
  | int_at _ set => if str_eq s (print_dec (atoi s)) then Some (set (atoi s) settings) else None
  | string_at _ set => if str_eq s SETTINGS_SERIALIZATION_NULL then Some (set None settings) else Some (set (Some s) settings)
  end.

(** The meaning of a line of the settings file: the settings with its field
    changed, or [None] if the line is malformed. *)
Definition apply_line (settings : settings_t) (line : cstr) : option settings_t :=
  match cut "="%char line with
  | (name, Some value) => if bool_decide (name = []) then None else field ← get_settings_field name; set_field settings field value
  | _ => None
  end.

Fixpoint apply_lines (settings : settings_t) (lines : list cstr) : option settings_t :=
  match lines with [] => Some settings | line :: lines' => settings ← apply_line settings line; apply_lines settings lines' end.

(** * Lemmas *)

(** ** The parts of the state *)

Lemma in_io_run {A} (m : M io A) s (Q : A -> sio -> Prop) :
  run m (si_io s) (fun a w => Q a (set_io w s)) -> run (in_io m) s Q.
Proof. unfold run, in_io, zoom. by destruct (m (si_io s)) as [[a w]|]. Qed.

(** An environment computation in the settings' world. *)
Lemma in_env_run {A} (m : M env A) s (Q : A -> sio -> Prop) :
  run m (h_env (io_heap (si_io s))) (fun a e => Q a (set_io (FileIO.set_heap (mkHeap (h_items (io_heap (si_io s))) e) (si_io s)) s)) ->
  run (in_env m) s Q.
Proof. intros H. apply in_io_run. unfold run, in_memory, zoom in *. by destruct (m _) as [[a e]|]. Qed.

(** An environment computation keeps allocations from failing. *)
Definition steady {A} (m : M env A) (e : env) (Q : A -> Prop) : Prop :=
  run m e (fun a e' => (plenty e -> plenty e') /\ Q a).

Lemma steady_mono {A} (m : M env A) e (Q Q' : A -> Prop) : (forall a, Q a -> Q' a) -> steady m e Q -> steady m e Q'.
Proof. intros HQ H. eapply run_mono; [|exact H]. intros a e' [? ?]. auto. Qed.

Lemma steady_ret {A} (a : A) e (Q : A -> Prop) : Q a -> steady (mret a) e Q.
Proof. intros ?. by apply run_ret. Qed.

Lemma steady_bind {A B} (m : M env A) (f : A -> M env B) e (Q : B -> Prop) :
  steady m e (fun a => forall e', (plenty e -> plenty e') -> steady (f a) e' Q) -> steady (m ≫= f) e Q.
Proof.
  intros H. apply run_bind. eapply run_mono; [|exact H]. intros a e1 [He1 H1].
  eapply run_mono; [|by apply H1]. intros b e2 [He2 ?]. split; [|done]. auto.
Qed.

(** The result of an allocation. *)
Lemma steady_alloc {A} (m : M env A) e (a b : A) (Q : A -> Prop) :
  m e = Some (if alloc_next e then a else b, alloc_rest e) -> Q a -> (~ plenty e -> Q b) -> steady m e Q.
Proof.
  intros E Ha Hb. eapply run_eq; [exact E|]. split; [apply plenty_rest|].
  destruct (alloc_next e) eqn:Ea; [done|]. apply Hb. intros ?%plenty_next. congruence.
Qed.

Lemma steady_run {A} (m : M env A) s (Q : A -> Prop) :
  steady m (h_env (io_heap (si_io s))) Q ->
  run (in_env m) s (fun a s' => kept (si_io s) (si_io s') /\ same_items (si_io s) (si_io s') /\
    si_opens s' = si_opens s /\ si_bytes s' = si_bytes s /\ Q a).
Proof.
  intros H. apply in_env_run. eapply run_mono; [|exact H]. intros a e [He HQ]. split; [|done].
  split; [done|done|]. intros [? ?]. split; [by apply He|done].
Qed.

(** ** Fields *)

(** The type of a field is that of what is at its offset. *)
Definition well_typed (field : settings_field_t) : Prop :=
  match type field, offset field with
  | SETTINGS_FIELD_TYPE_BOOLEAN, bool_at _ _ | SETTINGS_FIELD_TYPE_INTEGER, int_at _ _ | SETTINGS_FIELD_TYPE_STRING, string_at _ _ => True
  | _, _ => False
  end.

Lemma fields_well_typed : Forall well_typed settings_fields.
Proof. by repeat constructor. Qed.

Lemma get_field_typed name field : get_settings_field name = Some field -> well_typed field.
Proof.
  intros [Hin _]%find_some. apply (proj1 (Forall_forall _ _) fields_well_typed). by apply list_elem_of_In.
Qed.

Lemma serialize_setting_eq settings field e : well_typed field ->
  serialize_setting settings field e = Some (if alloc_next e then Some (field_line settings field) else None, alloc_rest e).
Proof.
  unfold well_typed, serialize_setting, field_line, value_text.
  destruct (type field), (offset field); try done; intros _; apply dynamic_sprintf_eq; by destruct (key field).
Qed.

Lemma deserialize_setting_steady settings field s e : well_typed field -> no_nul s ->
  steady (deserialize_setting settings field s) e (fun '(err, settings') =>
    match set_field settings field s with
    | Some s' => err = ERROR_NONE /\ settings' = s' \/ err <> ERROR_NONE /\ ~ plenty e
    | None => err <> ERROR_NONE
    end).
Proof.
  unfold well_typed, deserialize_setting, set_field. destruct (type field), (offset field); try done; intros _ Hs.
  - destruct (str_eq s SETTINGS_SERIALIZATION_NULL); cbn [negb]; [by apply steady_ret; left|].
    apply steady_bind. eapply steady_alloc; [by apply copy_string_eq|..].
    + intros e' _. apply steady_ret. by left.
    + intros ? e' _. apply steady_ret. by right.
  - do 2 (case_match; [by apply steady_ret; left|]). by apply steady_ret.
  - apply steady_bind. rewrite <-(andb_true_l (str_eq _ _)).
    eapply (steady_alloc _ _ (if str_eq s (print_dec (atoi s)) then Some (atoi s) else None) None).
    + rewrite parse_int_eq. destruct (alloc_next e); [done|]. by destruct (str_eq _ _).
    + intros e' _. destruct (str_eq _ _); apply steady_ret; [by left|done].
    + intros ? e' _. apply steady_ret. cbn [andb]. destruct (str_eq _ _); [by right|done].
Qed.

(** ** Lines *)

Lemma separator_cut line : no_nul line ->
  match cut "="%char line with
  | (name, Some value) => strpos (Some line) (Some SETTINGS_SERIALIZATION_KEY_VALUE_SEPARATOR) 0 = len name /\
      c_str (slice 0 (len name) line) = name /\ drop (Z.to_nat (len name + 1)) line = value /\ no_nul value
  | (_, None) => strpos (Some line) (Some SETTINGS_SERIALIZATION_KEY_VALUE_SEPARATOR) 0 = -1
  end.
Proof.
  intros Hn. pose proof (cut_spec "="%char line) as Hc. pose proof (cut_no_sep "="%char line) as Hs.
  destruct (cut "="%char line) as [name [value|]]; cbn [fst] in Hs; subst.
  - apply no_nul_app in Hn as [Hname [_ Hvalue]%no_nul_cons]. split; [|split; [|split; [|done]]].
    + by apply (strpos_char_some [] name value "="%char 0).
    + unfold slice. rewrite drop_0, Nat2Z.id, take_app_length. by apply c_str_id.
    + replace (Z.to_nat (len name + 1)) with (S (length name)) by lia. by rewrite <-drop_drop, drop_app_length || (rewrite drop_app_ge by lia; by replace (S (length name) - length name)%nat with 1%nat by lia).
  - destruct line as [|c line]; [done|]. apply (strpos_char_none (c :: line)); [unfold strlen; simpl; lia|done].
Qed.

(** A turn of the loop does what the line means, unless an allocation fails; a
    failure is never reported as success. *)
Lemma deserialize_line_steady settings line out_err e : no_nul line -> out_err = ERROR_NONE \/ out_err = ERROR_INCOMPLETE ->
  steady (deserialize_line settings line out_err) e (fun '(r, settings') =>
    (r = inr out_err /\ apply_line settings line = Some settings') \/
    ((r = inr ERROR_INCOMPLETE \/ r = inl ERROR_UNSPECIFIC \/ r = inl ERROR_MEMORY_ALLOCATION) /\
     (apply_line settings line = None \/ ~ plenty e))).
Proof.
  intros Hn Hout. unfold deserialize_line, apply_line. pose proof (separator_cut line Hn) as Hc. cbv zeta.
  destruct (cut "="%char line) as [name [value|]].
  2:{ rewrite Hc. apply steady_ret. right. split; [by right; left|by left]. }
  destruct Hc as (-> & Hname & -> & Hvalue). destruct (len name <? 1) eqn:E; bools.
  { assert (name = []) as -> by (destruct name; [done|simpl in E; lia]). apply steady_ret. right.
    split; [by right; left|left]. by rewrite bool_decide_true. }
  rewrite bool_decide_false by (intros ->; simpl in E; lia).
  apply steady_bind. eapply steady_alloc; [apply copy_partial_string_eq|..]; rewrite ?Hname; intros; [|apply steady_ret; right; tauto].
  destruct (get_settings_field name) as [field|] eqn:Ef; [|apply steady_ret; right; split; [by left|by left]].
  apply steady_bind. eapply steady_mono; [|apply deserialize_setting_steady; [by eapply get_field_typed|done]].
  intros [err settings'] Hset e2 He2. apply steady_ret. cbn [mbind option_bind].
  destruct (set_field settings field value) as [s'|].
  - destruct Hset as [[-> ->] | [Herr Hp]]; [by left|right].
    rewrite (proj2 (Z.eqb_neq err ERROR_NONE)) by done. split; [by left|right]. tauto.
  - right. rewrite (proj2 (Z.eqb_neq err ERROR_NONE)) by done. split; [by left|by left].
Qed.

(** Nothing but the environment has changed. *)
Record stays (s s' : sio) : Prop := mkStays {
  stays_kept : kept (si_io s) (si_io s');
  stays_items : same_items (si_io s) (si_io s');
  stays_opens : si_opens s' = si_opens s;
  stays_bytes : si_bytes s' = si_bytes s;
}.

Lemma stays_refl s : stays s s.
Proof. by split; [apply kept_refl|..]. Qed.

Lemma stays_trans s1 s2 s3 : stays s1 s2 -> stays s2 s3 -> stays s1 s3.
Proof. intros [] []. split; try (unfold same_items in *; congruence). by eapply kept_trans. Qed.

Lemma stays_fine s s' : stays s s' -> fine (si_io s) -> fine (si_io s').
Proof. intros [Hk _ _ _]. apply Hk. Qed.

Lemma env_run {A} (m : M env A) s (Q : A -> Prop) :
  steady m (h_env (io_heap (si_io s))) Q -> run (in_env m) s (fun a s' => stays s s' /\ Q a).
Proof. intros H. eapply run_mono; [|by apply steady_run]. intros a s' (? & ? & ? & ? & ?). by split. Qed.

Lemma fine_plenty s : fine (si_io s) -> plenty (h_env (io_heap (si_io s))).
Proof. by intros [? _]. Qed.

(** The loop over the lines does what the lines mean one after the other. *)
Lemma deserialize_loop_run lines : forall s l prev settings out_err n,
  seg (h_items (io_heap (si_io s))) prev l None -> l.*2 = texts lines -> Forall no_nul lines -> (length l <= n)%nat ->
  out_err = ERROR_NONE \/ out_err = ERROR_INCOMPLETE ->
  run (deserialize_loop n settings (first l None) out_err) s (fun '(err, settings') s' => stays s s' /\
    (err = out_err /\ apply_lines settings lines = Some settings' \/
     err <> ERROR_NONE /\ (apply_lines settings lines = None \/ ~ fine (si_io s)))).
Proof.
  induction lines as [|line lines IH]; intros s l prev settings out_err n Hs Hl Hn Hfuel Hout.
  { apply fmap_nil_inv in Hl as ->. destruct n; apply run_ret; (split; [apply stays_refl|by left]). }
  destruct l as [|[p v] l]; [done|]. injection Hl as -> Hl. apply Forall_cons in Hn as [Hline Hn].
  destruct n as [|n]; [simpl in Hfuel; lia|]. cbn [first deserialize_loop]. simpl in Hfuel.
  apply run_bind, in_io_run. eapply run_eq; [by eapply load_text_run|].
  replace (set_io (si_io s) s) with s by (by destruct s). apply run_bind.
  eapply run_mono; [|apply env_run, deserialize_line_steady; done].
  intros [r settings'] s1 [Hst H]. destruct Hs as [_ Hs]. rewrite <-(stays_items _ _ Hst) in Hs.
  assert (forall err, err <> ERROR_NONE -> apply_line settings line = None \/ ~ fine (si_io s) ->
    err <> ERROR_NONE /\ (apply_lines settings (line :: lines) = None \/ ~ fine (si_io s))) as Hbad.
  { intros err He [Hnone | ?]; (split; [done|]); [left; cbn [apply_lines]; by rewrite Hnone|by right]. }
  destruct H as [[-> Happ] | [Hr Hwhy]].
  - eapply run_mono; [|eapply (IH s1 l); try done; lia]. intros [err settings''] s2 [Hst2 H2].
    split; [by eapply stays_trans|]. cbn [apply_lines]. rewrite Happ. cbn [mbind option_bind].
    destruct H2 as [? | [He [? | Hf]]]; [by left|right; split; [done|by left]|right; split; [done|right]].
    intros ?. by apply Hf, (stays_fine _ _ Hst).
  - assert (apply_line settings line = None \/ ~ fine (si_io s)) as Hwhy'.
    { destruct Hwhy as [?|Hp]; [by left|right]. intros ?. by apply Hp, fine_plenty. }
    destruct Hr as [-> | [-> | ->]]; [|apply run_ret; split; [done|right; by apply Hbad]..].
    eapply run_mono; [|eapply (IH s1 l _ settings' ERROR_INCOMPLETE); try done; [lia|by right]]. intros [err settings''] s2 [Hst2 H2].
    split; [by eapply stays_trans|]. right. apply Hbad; [|done]. by destruct H2 as [[-> _] | [? _]].
Qed.

(** ** The round trip of the fields *)

(** Settings whose values can be read back. *)
Definition storable (settings : settings_t) : Prop :=
  in_int (log_level_console settings) /\ in_int (log_level_xplane settings) /\
  forall interface, network_interface settings = Some interface -> one_line interface /\ interface <> SETTINGS_SERIALIZATION_NULL.

(** What the settings file keeps of the settings. *)
Definition stored (base src : settings_t) : settings_t :=
  mkSettings (password base) (auto_startup src) (auto_regen_password src) (network_interface src) (network_port base)
    (network_enable_ipv6 src) (log_level_xplane src) (log_level_console src).

Lemma apply_field_line settings src field : field ∈ settings_fields ->
  apply_line settings (field_line src field) = set_field settings field (value_text src field).
Proof.
  intros Hin. unfold apply_line, field_line, SETTINGS_SERIALIZATION_KEY_VALUE_SEPARATOR. cbn [lit list_ascii_of_string app].
  assert (Forall (fun f => ("="%char ∉ key f) /\ key f <> [] /\ get_settings_field (key f) = Some f) settings_fields) as Hall.
  { repeat constructor; try done; apply (bool_decide_unpack _); by vm_compute. }
  destruct (proj1 (Forall_forall _ _) Hall field Hin) as (Heq & Hne & Hget).
  rewrite cut_app by done. rewrite bool_decide_false by done. by rewrite Hget.
Qed.

Lemma set_bool_field settings k t get set std (b : bool) :
  set_field settings (mkField k t (bool_at get set) std) (if b then SETTINGS_SERIALIZATION_TRUE else SETTINGS_SERIALIZATION_FALSE) = Some (set b settings).
Proof. by destruct b. Qed.

Lemma set_int_field settings k t get set std n : in_int n ->
  set_field settings (mkField k t (int_at get set) std) (print_dec n) = Some (set n settings).
Proof. intros ?. unfold set_field. cbn [offset]. by rewrite atoi_print, str_eq_refl. Qed.

Lemma set_string_field settings k t get set std s : (forall i, s = Some i -> i <> SETTINGS_SERIALIZATION_NULL) ->
  set_field settings (mkField k t (string_at get set) std) (default SETTINGS_SERIALIZATION_NULL s) = Some (set s settings).
Proof.
  intros Hs. unfold set_field. cbn [offset]. destruct s as [i|]; [|done]. change (default SETTINGS_SERIALIZATION_NULL (Some i)) with i.
  rewrite (proj2 (str_eq_false _ _)); [done|by apply Hs].
Qed.

Lemma settings_lines_apply base src : storable src -> apply_lines base (settings_lines src) = Some (stored base src).
Proof.
  intros (Hc & Hx & Hi).
  assert (forall settings field lines, field ∈ settings_fields ->
    apply_lines settings (field_line src field :: lines) =
    settings ← set_field settings field (value_text src field); apply_lines settings lines) as Hstep.
  { intros. cbn [apply_lines]. by rewrite apply_field_line. }
  change (settings_lines src) with (field_line src <$> [
    mkField (lit "auto_startup") SETTINGS_FIELD_TYPE_BOOLEAN (bool_at auto_startup set_auto_startup) false;
    mkField (lit "auto_regen_password") SETTINGS_FIELD_TYPE_BOOLEAN (bool_at auto_regen_password set_auto_regen_password) false;
    mkField (lit "log_level_console") SETTINGS_FIELD_TYPE_INTEGER (int_at log_level_console set_log_level_console) false;
    mkField (lit "log_level_xplane") SETTINGS_FIELD_TYPE_INTEGER (int_at log_level_xplane set_log_level_xplane) false;
    mkField (lit "network_interface") SETTINGS_FIELD_TYPE_STRING (string_at network_interface set_network_interface) false;
    mkField (lit "network_enable_ipv6") SETTINGS_FIELD_TYPE_BOOLEAN (bool_at network_enable_ipv6 set_network_enable_ipv6) false]).
  cbn [fmap list_fmap]. unfold settings_fields in Hstep.
  repeat (rewrite Hstep by (apply list_elem_of_In; simpl; tauto); unfold value_text at 1; cbn [offset];
    first [rewrite set_bool_field | rewrite set_int_field by done | rewrite set_string_field by (intros ? ?%Hi; tauto)];
    cbn [mbind option_bind]).
  reflexivity.
Qed.

Lemma one_line_app a b : one_line a -> one_line b -> one_line (a ++ b).
Proof.
  intros (? & ? & ?) (? & ? & ?). split; [|split].
  - by apply not_elem_of_app.
  - by apply not_elem_of_app.
  - by apply no_nul_app.
Qed.

Lemma print_dec_one_line n : one_line (print_dec n).
Proof. split; [|split; [|apply print_dec_no_nul]]; intros [?|?]%print_dec_char; done. Qed.

Lemma settings_lines_one_line src : storable src -> Forall one_line (settings_lines src).
Proof.
  intros (_ & _ & Hi). unfold settings_lines. apply Forall_fmap, Forall_forall. intros field [_ Hin]%list_elem_of_filter.
  assert (Forall (fun f => one_line (key f ++ SETTINGS_SERIALIZATION_KEY_VALUE_SEPARATOR)) settings_fields) as Hkeys.
  { repeat constructor; apply (bool_decide_unpack _); by vm_compute. }
  simpl. unfold field_line. rewrite app_assoc. apply one_line_app; [by apply (proj1 (Forall_forall _ _) Hkeys)|].
  apply list_elem_of_In in Hin. cbn [settings_fields In] in Hin. unfold value_text.
  decompose [or] Hin; subst; try done; cbn [offset]; try apply print_dec_one_line.
  3: destruct (network_interface src) as [i|] eqn:E; [by apply Hi|].
  all: try case_match; split_and?; try (apply (bool_decide_unpack _); by vm_compute).
Qed.

(** ** Saving *)

(** The lists of others may have changed, too. *)
Record goes (s s' : sio) : Prop := mkGoes {
  goes_kept : kept (si_io s) (si_io s');
  goes_opens : si_opens s' = si_opens s;
  goes_bytes : si_bytes s' = si_bytes s;
}.

Lemma stays_goes s s' : stays s s' -> goes s s'.
Proof. by intros []. Qed.

Lemma goes_trans s1 s2 s3 : goes s1 s2 -> goes s2 s3 -> goes s1 s3.
Proof. intros [] []. split; try congruence. by eapply kept_trans. Qed.

Lemma goes_fine s s' : goes s s' -> fine (si_io s) -> fine (si_io s').
Proof. intros [Hk _ _]. apply Hk. Qed.

Lemma goes_io s w : kept (si_io s) w -> goes s (set_io w s).
Proof. intros ?. by split. Qed.

Lemma serialize_loop_run h0 settings fields : forall s lines l,
  Forall well_typed fields -> owns h0 (io_heap (si_io s)) lines l ->
  run (serialize_loop settings fields lines) s (fun '(ok, lines') s' => goes s s' /\
    exists l', owns h0 (io_heap (si_io s')) lines' l' /\
      if ok : bool then l'.*2 = l.*2 ++ texts (field_line settings <$> filter (fun field => standardized field = false) fields)
      else ~ fine (si_io s)).
Proof.
  induction fields as [|field fields IH]; intros s lines l Hf Ho.
  { apply run_ret. split; [apply stays_goes, stays_refl|]. exists l. by rewrite app_nil_r. }
  apply Forall_cons in Hf as [Hfield Hf]. cbn [serialize_loop]. rewrite filter_cons.
  destruct (standardized field) eqn:Es; [rewrite decide_False by done; by apply IH|rewrite decide_True by done].
  apply run_bind. eapply run_mono; [|apply (env_run _ _ (fun line => line = Some (field_line settings field) \/ line = None /\ ~ fine (si_io s)))].
  2:{ eapply steady_alloc; [by apply serialize_setting_eq|by left|]. intros Hp. right. split; [done|]. intros ?. by apply Hp, fine_plenty. }
  intros line s1 [Hst [-> | [-> Hnf]]].
  2:{ apply run_ret. split; [by apply stays_goes|]. exists l. split; [|done]. eapply owns_same; [apply Hst|done]. }
  apply run_bind, in_io_run. eapply run_mono; [|apply append_run; by eapply owns_same; [apply Hst|]].
  intros [ok lines'] w [Hk H]. pose proof (goes_trans _ _ _ (stays_goes _ _ Hst) (goes_io _ _ Hk)) as Hg. destruct ok; red_if.
  - destruct H as [p Ho']. eapply run_mono; [|by eapply (IH (set_io w s1))].
    intros [ok lines''] s3 (Hg' & l' & Ho3 & H3). split; [by eapply goes_trans|]. exists l'. split; [done|].
    destruct ok; [|intros ?; by apply H3, (goes_fine _ _ Hg)]. rewrite H3, fmap_app, <-app_assoc. done.
  - destruct H as (-> & Ho' & Hnf). apply run_ret. split; [done|]. exists l. split; [done|].
    intros ?. by apply Hnf, (stays_fine _ _ Hst).
Qed.

Lemma serialize_server_settings_run settings s :
  run (serialize_server_settings settings) s (fun r s' => goes s s' /\
    ((exists list l, r = Some list /\ owns (io_heap (si_io s)) (io_heap (si_io s')) list l /\ l.*2 = texts (settings_lines settings)) \/
     r = None /\ same_items (si_io s) (si_io s') /\ ~ fine (si_io s))).
Proof.
  unfold serialize_server_settings. apply run_bind, in_io_run. eapply run_mono; [|apply create_run].
  intros lines w1 (Hk1 & Hi1 & [-> | [-> Hf]]).
  2:{ apply run_ret. split; [by apply goes_io|by right]. }
  pose proof (goes_io s _ Hk1) as Hg1. apply run_bind.
  eapply run_mono; [|apply (serialize_loop_run (io_heap (si_io s)) _ _ (set_io w1 s) empty_list []);
    [apply fields_well_typed|by apply owns_empty]].
  intros [ok lines] s2 (Hg2 & l & Ho & H). pose proof (goes_trans _ _ _ Hg1 Hg2) as Hg. destruct ok.
  - apply run_ret. split; [done|left]. by exists lines, l.
  - apply run_bind, in_io_run. eapply run_mono; [|by eapply free_lines_run]. intros _ w3 [Hk3 Hi3].
    apply run_ret. split; [eapply goes_trans; [done|by apply goes_io]|right]. split; [done|split; [done|]].
    intros ?. by apply H, (goes_fine _ _ Hg1).
Qed.

(** A file has been saved, and nothing else has changed. *)
Record saved (path content : cstr) (s : sio) (err : error_t) (s' : sio) : Prop := mkSaved {
  saved_file : written path content (si_io s) err (si_io s');
  saved_opens : si_opens s' = si_opens s;
  saved_bytes : si_bytes s' = si_bytes s;
}.

(** Nothing has been written: something must have failed. *)
Lemma not_written path content w err w' : err <> ERROR_NONE -> kept w w' -> same_items w w' -> ~ fine w -> written path content w err w'.
Proof. intros He [Hf Hd _] Hi Hnf. split; try done. intros other _. by rewrite Hf. Qed.

Lemma save_server_settings_run settings path s :
  run (save_server_settings settings path) s (saved path (join LF (settings_lines settings)) s).
Proof.
  unfold save_server_settings. apply run_bind. eapply run_mono; [|apply serialize_server_settings_run].
  intros r s1 [Hg [(list & l & -> & Ho & Hl) | (-> & Hi & Hf)]].
  2:{ apply run_ret. split; [apply not_written; try done; apply Hg|apply Hg..]. }
  apply run_bind, in_io_run. eapply run_mono; [|eapply write_lines_run; [apply Ho|done]].
  intros err w2 H. apply run_bind, in_io_run.
  assert (same_items (si_io s1) w2) as Hi2 by (destruct H as [(_ & _ & ? & _) | []]; done).
  eapply run_mono; [|eapply free_lines_run; by eapply owns_same]. intros _ w3 [Hk3 Hi3]. apply run_ret.
  split; [|apply Hg..]. simpl. destruct H as [(Herr & Hk2 & _ & Hnf) | [Hd Ho2 Hdi _ Hfi]].
  - apply not_written; [done| |done|intros ?; by apply Hnf, (goes_fine _ _ Hg)].
    eapply kept_trans; [apply Hg|]. by eapply kept_trans.
  - destruct Hg as [Hk1 _ _]. split.
    + intros Herr. rewrite (kept_files _ _ Hk3). by apply Hd.
    + intros other Hne. rewrite (kept_files _ _ Hk3), Ho2, (kept_files _ _ Hk1) by done. done.
    + rewrite (kept_dirs _ _ Hk3). simpl. rewrite Hdi. apply Hk1.
    + done.
    + intros Hfine. destruct (Hfi (kept_fine _ _ Hk1 Hfine)) as [-> ?]. split; [done|]. by apply Hk3.
Qed.

Lemma save_password_run settings p path s : password settings = Some p ->
  run (save_password settings path) s (saved path p s).
Proof.
  intros E. unfold save_password. rewrite E. apply in_io_run. eapply run_mono; [|apply write_file_run]. intros err w H. by split.
Qed.

Lemma save_port_run settings path s : port_in_range (network_port settings) = true ->
  run (save_port settings path) s (saved path (print_dec (network_port settings)) s).
Proof.
  intros E. unfold save_port. rewrite E. red_if. apply run_bind.
  eapply run_mono; [|apply (env_run _ _ (fun t => t = Some (print_dec (network_port settings)) \/ t = None /\ ~ fine (si_io s)))].
  2:{ eapply steady_alloc; [apply dynamic_sprintf_eq, print_dec_nonempty|by left|]. intros Hp. right. split; [done|].
      intros ?. by apply Hp, fine_plenty. }
  intros t s1 [Hst [-> | [-> Hf]]].
  - apply in_io_run. eapply run_mono; [|apply write_file_run]. intros err w [Hd Ho Hdi Hi Hfi]. split; [|apply Hst..].
    destruct Hst as [Hk1 Hi1 _ _]. split; [done| | | |].
    + intros other Hne. simpl. rewrite Ho by done. by rewrite (kept_files _ _ Hk1).
    + simpl. rewrite Hdi. apply Hk1.
    + unfold same_items in *. simpl. congruence.
    + intros ?. apply Hfi. by apply Hk1.
  - apply run_ret. split; [apply not_written; try done; apply Hst|apply Hst..].
Qed.

(** ** Loading *)

(** Nothing fails, and the random device yields a valid password. *)
Definition ready (s : sio) : Prop :=
  fine (si_io s) /\ Forall (eq true) (si_opens s) /\
  exists bytes rest, si_bytes s = bytes ++ rest /\ length bytes = 32%nat /\ validate_password (Some (password_of bytes)) = true.

Lemma ready_stays s s' : stays s s' -> ready s -> ready s'.
Proof. intros Hst (Hf & Ho & Hb). split; [by eapply stays_fine|]. destruct Hst as [_ _ -> ->]. done. Qed.

Lemma copy_interface_steady e : steady (copy_string (Some INTERFACE_LOCAL)) e (fun r => r = Some INTERFACE_LOCAL \/ r = None /\ ~ plenty e).
Proof.
  eapply steady_alloc; [apply copy_string_eq; apply (bool_decide_unpack _); by vm_compute|by left|by right].
Qed.

(** Settings taken over into others, which keep their password. *)
Definition taken (dest src : settings_t) : settings_t :=
  mkSettings (password dest) (auto_startup src) (auto_regen_password src) (network_interface src) (network_port src)
    (network_enable_ipv6 src) (log_level_xplane src) (log_level_console src).

Definition text_ok (s : option cstr) : Prop := forall text, s = Some text -> no_nul text.

(** The copy of a string ends at its terminator, if it held one. *)
Definition copied (s : option cstr) : option cstr := c_str <$> s.

Lemma copied_ok s : text_ok s -> copied s = s.
Proof. intros Hs. destruct s as [t|]; [|done]. simpl. by rewrite c_str_id by (by apply Hs). Qed.

Lemma copy_settings_steady dest src e :
  steady (copy_settings dest src SETTINGS_KEEP_PASSWORD) e (fun '(err, dest') =>
    err = ERROR_NONE /\ dest' = taken dest (set_network_interface (copied (network_interface src)) src) \/
    err = ERROR_MEMORY_ALLOCATION /\ dest' = dest /\ ~ plenty e).
Proof.
  unfold copy_settings, SETTINGS_KEEP_PASSWORD, SETTINGS_COPY_PASSWORD. red_if. cbn [Bool.eqb].
  apply steady_bind. destruct (network_interface src) as [i|] eqn:Ei.
  - eapply (steady_alloc _ _ (Some (c_str i)) None).
    + unfold copy_string, strlen. by rewrite copy_partial_string_eq, slice_0_all.
    + intros. apply steady_ret. by left.
    + intros. apply steady_ret. by right.
  - apply steady_ret. intros e' _. apply steady_ret. by left.
Qed.

Lemma in_random_run {A} (m : M entropy A) s (Q : A -> sio -> Prop) :
  run m (mkEntropy (si_opens s) (si_bytes s) (h_env (io_heap (si_io s)))) (fun a n =>
    Q a (mkSio (FileIO.set_heap (mkHeap (h_items (io_heap (si_io s))) (en_env n)) (si_io s)) (en_opens n) (en_bytes n))) ->
  run (in_random m) s Q.
Proof. unfold run, in_random, zoom. by destruct (m _) as [[a n]|]. Qed.

Lemma create_settings_run s :
  run create_settings s (fun r s' => kept (si_io s) (si_io s') /\ same_items (si_io s) (si_io s') /\
    match r with
    | Some settings => exists p, settings = set_password (Some p) default_settings /\ validate_password (Some p) = true
    | None => ~ ready s
    end).
Proof.
  unfold create_settings. apply run_bind.
  eapply run_mono; [|apply (env_run _ _ (fun ok => ok = true \/ ok = false /\ ~ fine (si_io s)))].
  2:{ apply (steady_alloc _ _ true false); [rewrite zmalloc_eq by done; by destruct (alloc_next _)|by left|]. intros Hp.
      right. split; [done|]. intros ?. by apply Hp, fine_plenty. }
  intros ok s1 [Hst1 [-> | [-> Hf]]]; red_if.
  2:{ apply run_ret. split; [apply Hst1|split; [apply Hst1|]]. by intros [? _]. }
  apply run_bind. eapply run_mono; [|apply env_run, copy_settings_steady].
  intros [err out] s2 [Hst2 H2]. pose proof (stays_trans _ _ _ Hst1 Hst2) as Hst.
  destruct H2 as [[-> ->] | (-> & -> & Hf)].
  2:{ change (negb (ERROR_MEMORY_ALLOCATION =? ERROR_NONE)) with true. cbv iota. apply run_ret.
      split; [apply Hst|split; [apply Hst|]]. intros Hr%(ready_stays _ _ Hst1). by apply Hf, fine_plenty, Hr. }
  change (negb (ERROR_NONE =? ERROR_NONE)) with false. cbv iota. apply run_bind, in_random_run.
  destruct (run_inv _ _ _ (generate_password_run (mkEntropy (si_opens s2) (si_bytes s2) (h_env (io_heap (si_io s2))))))
    as (r & n & E & Hplenty & Hvalid). eapply run_eq; [exact E|]. apply run_ret. simpl.
  split; [eapply kept_trans; [apply Hst|]|split; [apply Hst|]].
  { split; [done|done|]. intros [? ?]. split; [by apply Hplenty|done]. }
  destruct r as [p|]; [exists p; split; [done|by apply Hvalid]|].
  intros (Hf & Ho & bytes & rest & Hb & Hl & Hv)%(ready_stays _ _ Hst).
  pose proof (generate_password_first (mkEntropy (si_opens s2) (si_bytes s2) (h_env (io_heap (si_io s2)))) bytes rest Hb Hl Ho (fine_plenty _ Hf) Hv) as Hr.
  apply (run_eq _ _ _ _ _ E) in Hr. by destruct Hr.
Qed.

Lemma constrain_port_spec settings : exists port,
  NETWORK_MINIMUM_PORT <= port <= NETWORK_MAXIMUM_PORT /\ (constrain_port settings).2 = set_network_port port settings /\
  (port_in_range (network_port settings) = true -> constrain_port settings = (false, settings)).
Proof.
  unfold constrain_port, port_in_range. destruct (network_port settings <? NETWORK_MINIMUM_PORT) eqn:E1; bools.
  - by exists NETWORK_MINIMUM_PORT.
  - destruct (NETWORK_MAXIMUM_PORT <? network_port settings) eqn:E2; bools; [by exists NETWORK_MAXIMUM_PORT|].
    exists (network_port settings). split; [done|split; [by destruct settings|done]].
Qed.

Lemma constrain_valid settings : validate_settings (constrain_settings settings).2 false = true.
Proof.
  unfold constrain_settings. destruct (constrain_port_spec settings) as (port & Hp & E & _).
  destruct (constrain_port settings) as [changed s]. cbn [snd] in E. subst s.
  assert (port_in_range port = true) as Hport.
  { unfold port_in_range. by rewrite (proj2 (Z.ltb_ge _ _)), (proj2 (Z.ltb_ge NETWORK_MAXIMUM_PORT _)) by lia. }
  unfold validate_settings. red_if. cbn [log_level_console log_level_xplane set_network_port].
  destruct (validate_log_level (log_level_console settings)) eqn:E3;
    cbn [negb log_level_xplane set_log_level_console set_network_port];
    destruct (validate_log_level (log_level_xplane settings)) eqn:E4;
    cbn [negb snd log_level_console log_level_xplane network_port set_log_level_console set_log_level_xplane set_network_port];
    by rewrite ?E3, ?E4, Hport.
Qed.

Lemma constrain_id settings : validate_settings settings false = true -> constrain_settings settings = (false, settings).
Proof.
  unfold constrain_settings, validate_settings. red_if. intros H. destruct (constrain_port_spec settings) as (_ & _ & _ & Hport).
  destruct (validate_log_level (log_level_console settings)) eqn:E3; [|done].
  destruct (validate_log_level (log_level_xplane settings)) eqn:E4; [|done].
  destruct (port_in_range (network_port settings)); [|done]. rewrite Hport by done. rewrite E3. cbn [negb]. by rewrite E4.
Qed.

(** What loading promises: the settings are valid afterwards, or as before; they
    are what the lines of the file say, if the error is [ERROR_NONE]. *)
Definition loaded (path : cstr) (dest : settings_t) (s : sio) (err : error_t) (dest' : settings_t) : Prop :=
  (err = ERROR_NONE \/ err = ERROR_INCOMPLETE) /\ validate_settings dest' false = true /\ password dest' = password dest /\
    (err = ERROR_NONE -> exists p content src, io_files (si_io s) !! path = Some content /\
       apply_lines (set_password (Some p) default_settings) (text_lines content) = Some src /\
       validate_settings src false = true /\ dest' = taken dest src) \/
  err <> ERROR_NONE /\ dest' = dest.

(** Files that [load_server_settings] takes over as they are. *)
Definition well_formed_file (content : cstr) : Prop := forall p, exists src,
  apply_lines (set_password (Some p) default_settings) (text_lines content) = Some src /\ validate_settings src false = true.

Lemma text_lines_no_nul content : Forall no_nul (text_lines content).
Proof. unfold text_lines. apply Forall_fmap, Forall_true. intros line. apply c_str_no_nul. Qed.

(** Applied texts hold no terminator, for a line holds none. *)
Lemma apply_lines_text_ok lines : forall settings src, Forall no_nul lines ->
  text_ok (network_interface settings) -> apply_lines settings lines = Some src -> text_ok (network_interface src).
Proof.
  induction lines as [|line lines IH]; intros settings src Hn Hs E; [by injection E as <-|].
  apply Forall_cons in Hn as [Hline Hn]. cbn [apply_lines] in E.
  destruct (apply_line settings line) as [settings'|] eqn:El; [|done]. cbn [mbind option_bind] in E.
  eapply (IH settings'); [done| |done]. revert El. unfold apply_line. pose proof (separator_cut line Hline) as Hc.
  destruct (cut "="%char line) as [name [value|]]; [|done]. case_bool_decide; [done|].
  destruct Hc as (_ & _ & _ & Hvalue). destruct (get_settings_field name) as [field|] eqn:Ef; [|done]. cbn [mbind option_bind].
  apply find_some in Ef as [Hin _]. cbn [settings_fields In] in Hin.
  decompose [or] Hin; subst; try done; unfold set_field; cbn [offset]; repeat case_match; intros [= <-]; cbn [network_interface]; try done;
    intros ? [= <-]; done.
Qed.

Lemma deserialize_run settings lines l content s :
  represents (io_heap (si_io s)) lines l -> l.*2 = texts (text_lines content) ->
  run (deserialize_server_settings settings lines) s (fun '(err, settings') s' => stays s s' /\
    (err = ERROR_NONE /\ apply_lines settings (text_lines content) = Some settings' \/
     err <> ERROR_NONE /\ (apply_lines settings (text_lines content) = None \/ ~ fine (si_io s)))).
Proof.
  intros [Hs Hnd Hh Ht Hsz] Hl. unfold deserialize_server_settings, items. rewrite Hsz, Hh, Nat2Z.id.
  eapply deserialize_loop_run; [done|done|apply text_lines_no_nul|done|by left].
Qed.

Lemma constrain_unchanged settings settings' : constrain_settings settings = (false, settings') -> settings' = settings.
Proof.
  unfold constrain_settings, constrain_port. intros H. repeat case_match; simplify_eq; done.
Qed.

Lemma validate_taken dest src i : validate_settings (taken dest (set_network_interface i src)) false = validate_settings src false.
Proof. done. Qed.

Lemma load_into_run p dest path s :
  run (load_into (set_password (Some p) default_settings) dest path) s (fun '(err, dest') s' =>
    kept (si_io s) (si_io s') /\ loaded path dest s err dest' /\
    (fine (si_io s) -> (exists content, io_files (si_io s) !! path = Some content /\ well_formed_file content) -> err = ERROR_NONE)).
Proof.
  unfold load_into. apply run_bind, in_io_run. eapply run_mono; [|apply read_lines_run].
  intros [err made] w1 [Hk1 [(content & Hc & Herr & Hm) | (Herr & Hmade & Hi & Hwhy)]]; cbn [fst snd] in *.
  2:{ rewrite (proj2 (Z.eqb_neq err ERROR_NONE)) by done. apply run_ret. split; [done|split; [by right|]].
      intros Hf (content & Hc & _). destruct Hwhy as [?|?]; [congruence|done]. }
  subst err. change (negb (ERROR_NONE =? ERROR_NONE)) with false. cbv iota.
  destruct Hm as [(_ & list & l & -> & Ho & Hl) | [? _]]; [|done].
  apply run_bind, (run_ret list), run_bind.
  eapply run_mono; [|apply (deserialize_run _ _ l content (set_io w1 s)); [apply Ho|done]].
  intros [err settings] s2 [Hst2 H2].
  pose proof (kept_trans _ _ _ Hk1 (stays_kept _ _ Hst2)) as Hk2.
  assert (err <> ERROR_NONE -> fine (si_io s) -> (exists content, io_files (si_io s) !! path = Some content /\ well_formed_file content) -> False) as Hbad.
  { intros He Hf (content' & Hc' & Hwf). destruct H2 as [[? _] | [_ [Hnone | Hnf]]]; [done| |by apply Hnf, Hk1].
    rewrite Hc in Hc'. injection Hc' as <-. destruct (Hwf p) as (src & E & _). congruence. }
  destruct (negb (err =? ERROR_INCOMPLETE) && negb (err =? ERROR_NONE)) eqn:Eerr; bools.
  { apply run_ret. split; [done|split; [by right|]]. intros Hf Hex. by destruct (Hbad H0 Hf Hex). }
  pose proof (constrain_valid settings) as Hvalid. destruct (constrain_settings settings) as [changed settings'] eqn:Econ. cbn [snd] in Hvalid.
  apply run_bind. eapply run_mono; [|apply env_run, copy_settings_steady].
  intros [err3 dest'] s3 [Hst3 H3]. pose proof (kept_trans _ _ _ Hk2 (stays_kept _ _ Hst3)) as Hk3. apply run_ret. split; [done|].
  destruct H3 as [[-> ->] | (-> & -> & Hf3)].
  2:{ change (negb (ERROR_MEMORY_ALLOCATION =? ERROR_NONE)) with true. cbv iota. split; [by right|].
      intros Hf. exfalso. by apply Hf3, fine_plenty, Hk2. }
  change (negb (ERROR_NONE =? ERROR_NONE)) with false. cbv iota.
  set (out_err := if changed then ERROR_INCOMPLETE else if err =? ERROR_INCOMPLETE then ERROR_INCOMPLETE else ERROR_NONE).
  assert (out_err = ERROR_NONE -> changed = false /\ err = ERROR_NONE) as Hout.
  { unfold out_err. destruct changed; [done|]. destruct (err =? ERROR_INCOMPLETE) eqn:E1; [done|]. intros _. split; [done|].
    cbn [negb andb] in Eerr. bools. done. }
  split; [left; split; [|split; [by rewrite validate_taken|split; [done|]]]|].
  - unfold out_err. destruct changed; [by right|]. destruct (_ =? _); [by right|by left].
  - intros [-> ->]%Hout. destruct H2 as [[_ Happ] | [? _]]; [|done].
    assert (text_ok (network_interface settings)) as Hok.
    { eapply apply_lines_text_ok; [apply text_lines_no_nul| |exact Happ]. intros ? [= <-]. apply (bool_decide_unpack _); by vm_compute. }
    apply constrain_unchanged in Econ as ->.
    exists p, content, settings. split; [done|split; [done|split; [done|]]]. rewrite copied_ok by done. by destruct settings.
  - intros Hf (content' & Hc' & Hwf). rewrite Hc in Hc'. injection Hc' as <-.
    destruct H2 as [[-> Happ] | [He _]]; [|by destruct (Hbad He Hf); eauto].
    destruct (Hwf p) as (src & E & Hv). rewrite Happ in E. injection E as ->. rewrite constrain_id in Econ by done.
    injection Econ as <- <-. done.
Qed.

Lemma load_server_settings_run dest path s :
  run (load_server_settings dest path) s (fun '(err, dest') s' =>
    kept (si_io s) (si_io s') /\ loaded path dest s err dest' /\
    (ready s -> (exists content, io_files (si_io s) !! path = Some content /\ well_formed_file content) -> err = ERROR_NONE)).
Proof.
  unfold load_server_settings. apply run_bind. eapply run_mono; [|apply create_settings_run].
  intros r s1 (Hk1 & Hi1 & H1). destruct r as [settings|].
  - destruct H1 as (p & -> & _). eapply run_mono; [|apply load_into_run]. intros [err dest'] s2 (Hk2 & Hl & Hs).
    unfold loaded in *. rewrite (kept_files _ _ Hk1) in *. split; [by eapply kept_trans|split; [done|]].
    intros (Hf & _). apply Hs. by apply Hk1.
  - apply run_ret. split; [done|split; [by right|]]. done.
Qed.

Lemma first_line path s :
  run (in_io (read_first_line_from_file (Some path))) s (fun r s' => stays s s' /\ first_line_read path (si_io s) r).
Proof.
  apply in_io_run. eapply run_mono; [|apply read_first_line_run]. intros r w (Hk & Hi & H). split; [by split|done].
Qed.

(** The first line of a file of one line. *)
Lemma first_line_of_one text : one_line text -> head (text_lines text) = Some text.
Proof. intros H. change text with (join LF [text]) at 1. by rewrite text_lines_join by (done || by constructor). Qed.

Lemma load_password_run dest path p s : io_files (si_io s) !! path = Some p -> one_line p ->
  run (load_password dest path) s (fun '(err, dest') s' => stays s s' /\
    (err = ERROR_NONE /\ dest' = set_password (Some p) dest \/ err <> ERROR_NONE /\ dest' = dest /\ ~ fine (si_io s))).
Proof.
  intros Hp Hl. unfold load_password. apply run_bind. eapply run_mono; [|apply first_line].
  intros [err line] s1 [Hst [(-> & (content & Hc & ->) & _) | (Herr & -> & Hwhy)]].
  - change (negb (ERROR_NONE =? ERROR_NONE)) with false. cbv iota. apply run_ret. split; [done|left].
    rewrite Hp in Hc. injection Hc as <-. by rewrite first_line_of_one.
  - rewrite (proj2 (Z.eqb_neq err ERROR_NONE)) by done. cbn [negb]. apply run_ret. split; [done|right]. split; [done|split; [done|]].
    destruct Hwhy; [congruence|done].
Qed.

Lemma load_port_run dest path n s : io_files (si_io s) !! path = Some (print_dec n) -> port_in_range n = true ->
  run (load_port dest path) s (fun '(err, dest') s' => stays s s' /\
    (err = ERROR_NONE /\ dest' = set_network_port n dest \/ err <> ERROR_NONE /\ dest' = dest /\ ~ fine (si_io s))).
Proof.
  intros Hp Hn. unfold load_port. apply run_bind. eapply run_mono; [|apply first_line].
  intros [err line] s1 [Hst [(-> & (content & Hc & ->) & _) | (Herr & -> & Hwhy)]].
  - rewrite Hp in Hc. injection Hc as <-. rewrite first_line_of_one by apply print_dec_one_line.
    change (negb (ERROR_NONE =? ERROR_NONE)) with false. cbv iota. apply run_bind.
    eapply run_mono; [|apply (env_run _ _ (fun r => r = Some n \/ r = None /\ ~ fine (si_io s1)))].
    + intros r s2 [Hst2 H]. destruct H as [-> | [-> Hf]].
      * rewrite Hn. apply run_ret. split; [by eapply stays_trans|by left].
      * apply run_ret. split; [by eapply stays_trans|right]. split; [done|split; [done|]]. intros ?. by apply Hf, (stays_fine _ _ Hst).
    + assert (in_int n) as Hint.
      { revert Hn. unfold port_in_range, in_int, INT_MIN, INT_MAX, NETWORK_MINIMUM_PORT, NETWORK_MAXIMUM_PORT. intros Hn. bools. lia. }
      eapply (steady_alloc _ _ (Some n) None).
      * rewrite parse_int_eq, atoi_print, str_eq_refl by done. by destruct (alloc_next _).
      * by left.
      * intros Hpl. right. split; [done|]. intros ?. by apply Hpl, fine_plenty.
  - rewrite (proj2 (Z.eqb_neq err ERROR_NONE)) by done. apply run_ret. split; [done|right]. split; [done|split; [done|]].
    destruct Hwhy; [congruence|done].
Qed.

(** Loading settings is safe: whatever the settings file holds and whatever
    fails, the password is kept, and the settings are valid afterwards or what
    they were before (then an error is returned). Success is reported only if
    every line of the file has been understood and taken over as it stands, and
    always, if nothing fails and the file is well-formed. *)
Theorem load_settings_safe dest path s :
  run (load_server_settings dest path) s (fun '(err, dest') s' =>
    io_files (si_io s') = io_files (si_io s) /\ password dest' = password dest /\
    (validate_settings dest' false = true \/ err <> ERROR_NONE /\ dest' = dest) /\
    (err = ERROR_NONE -> exists p content src, io_files (si_io s) !! path = Some content /\
       apply_lines (set_password (Some p) default_settings) (text_lines content) = Some src /\ dest' = taken dest src) /\
    (ready s -> (exists content, io_files (si_io s) !! path = Some content /\ well_formed_file content) -> err = ERROR_NONE)).
Proof.
  eapply run_mono; [|apply load_server_settings_run]. intros [err dest'] s' (Hk & Hl & Hs). split; [apply Hk|].
  destruct Hl as [(_ & Hv & Hp & Hsrc) | [Herr ->]].
  - split; [done|split; [by left|split; [|done]]]. intros (p & content & src & ? & ? & _ & ?)%Hsrc. by exists p, content, src.
  - split; [done|split; [by right|split; [done|done]]].
Qed.
