(* ===== verification/SettingsManager.v ===== *)
(** The settings manager ([settings_manager.c], [settings_manager.h]): settings
    behind a recursive mutex, restored from three files when the plugin starts
    and persisted in them when the user changes them.

    [mgr_lock] counts how often the running thread holds the mutex. *)

From S2P Require Import Prelude CLib Utils Lists FileIO Password Settings.

Record settings_manager_t := mkManager {
  destruction_pending : bool;
  mgr_lock : Z;
  xprc_directory : cstr;
  password_filepath : cstr;
  port_filepath : cstr;
  server_directory : cstr;
  settings_filepath : cstr;
  settings : settings_t;
}.

Definition set_mgr_lock (n : Z) (m : settings_manager_t) :=
  mkManager (destruction_pending m) n (xprc_directory m) (password_filepath m) (port_filepath m) (server_directory m) (settings_filepath m) (settings m).
Definition set_pending (b : bool) (m : settings_manager_t) :=
  mkManager b (mgr_lock m) (xprc_directory m) (password_filepath m) (port_filepath m) (server_directory m) (settings_filepath m) (settings m).
Definition set_settings (s : settings_t) (m : settings_manager_t) :=
  mkManager (destruction_pending m) (mgr_lock m) (xprc_directory m) (password_filepath m) (port_filepath m) (server_directory m) (settings_filepath m) s.

Record mio := mkMio { mi_manager : settings_manager_t; mi_sio : sio }.

Definition in_sio {A} (m : M sio A) : M mio A := zoom mi_sio (fun s w => mkMio (mi_manager w) s) m.
Definition update_manager (f : settings_manager_t -> settings_manager_t) : M mio unit := modify (fun w => mkMio (f (mi_manager w)) (mi_sio w)).

(** A function that changes the manager's settings. *)
Definition on_settings (f : settings_t -> M sio (error_t * settings_t)) : M mio error_t :=
  m ← gets mi_manager;
  '(err, s) ← in_sio (f (settings m));
  _ ← update_manager (set_settings s);
  mret err.

Definition SETTINGS_MANAGER_ERROR_NO_PREVIOUS_SETTINGS : error_t := SETTINGS_MANAGER_ERROR_BASE + 0.
Definition SETTINGS_MANAGER_ERROR_SETTINGS_REVERTED : error_t := SETTINGS_MANAGER_ERROR_BASE + 1.
Definition SETTINGS_MANAGER_ERROR_SETTINGS_NOT_SAVED : error_t := SETTINGS_MANAGER_ERROR_BASE + 2.
Definition SETTINGS_MANAGER_ERROR_PASSWORD_NOT_LOADED : error_t := SETTINGS_MANAGER_ERROR_BASE + 3.
Definition SETTINGS_MANAGER_ERROR_PASSWORD_NOT_SAVED : error_t := SETTINGS_MANAGER_ERROR_BASE + 4.
Definition SETTINGS_MANAGER_ERROR_PASSWORD_INVALID : error_t := SETTINGS_MANAGER_ERROR_BASE + 5.
Definition SETTINGS_MANAGER_ERROR_PORT_NOT_SAVED : error_t := SETTINGS_MANAGER_ERROR_BASE + 6.

Definition PASSWORD_FILENAME : cstr := lit "password.cfg".
Definition PORT_FILENAME : cstr := lit "port.cfg".
Definition SETTINGS_FILENAME : cstr := lit "settings.cfg".
Definition DIRECTORY_SEPARATOR : ascii := "/"%char.

(** * Creation and locking *)

Definition path_in (directory filename : cstr) : cstr := directory ++ DIRECTORY_SEPARATOR :: filename.

(** [mtx_init] succeeds or fails as the next lock of the environment. *)
Definition create_settings_manager (xprc server : option cstr) : M sio (option settings_manager_t) :=
  match xprc with
  | None => mret None
  | Some _ =>
      ok ← in_env (zmalloc 128);
      if negb ok then mret None
      else
        created ← create_settings;
        match created with
        | None => mret None
        | Some created =>
            xprc ← in_env (copy_string xprc);
            match xprc with
            | None => mret None
            | Some xprc =>
                server ← in_env (copy_string server);
                match server with
                | None => mret None
                | Some server =>
                    password_path ← in_env (dynamic_sprintf (path_in xprc PASSWORD_FILENAME));
                    match password_path with
                    | None => mret None
                    | Some password_path =>
                        port_path ← in_env (dynamic_sprintf (path_in xprc PORT_FILENAME));
                        match port_path with
                        | None => mret None
                        | Some port_path =>
                            settings_path ← in_env (dynamic_sprintf (path_in server SETTINGS_FILENAME));
                            match settings_path with
                            | None => mret None
                            | Some settings_path =>
                                init ← in_env mtx_lock_result;
                                mret (if init : bool
                                      then Some (mkManager false 0 xprc password_path port_path server settings_path created)
                                      else None)
                            end
                        end
                    end
                end
            end
        end
  end.

Definition mutex_lock : M mio bool :=
  ok ← in_sio (in_env mtx_lock_result);
  _ ← when ok (m ← gets mi_manager; update_manager (set_mgr_lock (mgr_lock m + 1)));
  mret ok.

Definition unlock_settings_manager : M mio unit :=
  m ← gets mi_manager; update_manager (set_mgr_lock (mgr_lock m - 1)).

Definition lock_settings_manager : M mio error_t :=
  m ← gets mi_manager;
  if destruction_pending m then mret ERROR_DESTRUCTION_PENDING
  else
    ok ← mutex_lock;
    if negb ok then mret ERROR_MUTEX_FAILED
    else
      m ← gets mi_manager;
      if negb (destruction_pending m) then mret ERROR_NONE
      else _ ← unlock_settings_manager; mret ERROR_DESTRUCTION_PENDING.

(** What is left of the manager is freed by the caller's thread. *)
Definition destroy_settings_manager : M mio error_t :=
  err ← lock_settings_manager;
  if negb (err =? ERROR_NONE) then mret err
  else
    _ ← update_manager (set_pending true);
    _ ← unlock_settings_manager;
    ok ← mutex_lock;
    _ ← when ok unlock_settings_manager;
    mret ERROR_NONE.

(** * Restoring *)

(** A directory that is needed for a file; the flag is set if it is missing. *)
Definition missing_directory (path : cstr) : M mio bool :=
  err ← in_sio (in_io (ensure_directory_exists (Some path))); mret (negb (err =? ERROR_NONE)).

(** The settings file: it is written on the first start and loaded otherwise.
    The flags are [failed_settings_load] and [failed_settings_save]. *)
Definition restore_server_settings (is_first_initialization : bool) : M mio (bool * bool) :=
  m ← gets mi_manager;
  if is_first_initialization then
    failed ← missing_directory (xprc_directory m);
    failed ← (if failed : bool then mret true else missing_directory (server_directory m));
    failed ← (if failed : bool then mret true
              else err ← in_sio (save_server_settings (settings m) (settings_filepath m)); mret (negb (err =? ERROR_NONE)));
    mret (false, failed)
  else
    err ← on_settings (fun s => load_server_settings s (settings_filepath m));
    mret (negb (err =? ERROR_NONE), false).

(** The password: the new one is saved, or the previous one loaded. The flags
    are [failed_password_load] and [failed_password_save]. *)
Definition restore_password : M mio (bool * bool) :=
  m ← gets mi_manager;
  if auto_regen_password (settings m) then
    failed ← missing_directory (xprc_directory m);
    if failed : bool then mret (false, true)
    else err ← in_sio (save_password (settings m) (password_filepath m)); mret (false, negb (err =? ERROR_NONE))
  else
    err ← on_settings (fun s => load_password s (password_filepath m));
    mret (negb (err =? ERROR_NONE), false).

(** The port: loaded, or else saved. The flag is [failed_port_save]. *)
Definition restore_port (port_file_exists : bool) : M mio bool :=
  m ← gets mi_manager;
  failed_port_load ←
    (if port_file_exists then err ← on_settings (fun s => load_port s (port_filepath m)); mret (negb (err =? ERROR_NONE))
     else mret false);
  if negb port_file_exists || failed_port_load then
    m ← gets mi_manager;
    failed ← missing_directory (xprc_directory m);
    if failed : bool then mret false
    else err ← in_sio (save_port (settings m) (port_filepath m)); mret (negb (err =? ERROR_NONE))
  else mret false.

Definition configure_settings_manager_from_storage : M mio error_t :=
  err ← lock_settings_manager;
  if negb (err =? ERROR_NONE) then mret err
  else
    m ← gets mi_manager;
    settings_file_exists ← in_sio (in_io (check_file_exists (Some (settings_filepath m))));
    password_file_exists ← in_sio (in_io (check_file_exists (Some (password_filepath m))));
    port_file_exists ← in_sio (in_io (check_file_exists (Some (port_filepath m))));
    let is_first_initialization := negb settings_file_exists && negb password_file_exists && negb port_file_exists in
    '(failed_settings_load, failed_settings_save) ← restore_server_settings is_first_initialization;
    '(failed_password_load, failed_password_save) ← restore_password;
    m ← gets mi_manager;
    let is_password_valid := validate_password (password (settings m)) in
    failed_port_save ← restore_port port_file_exists;
    _ ← unlock_settings_manager;
    mret (if failed_settings_load : bool then SETTINGS_MANAGER_ERROR_SETTINGS_REVERTED
          else if negb is_password_valid then SETTINGS_MANAGER_ERROR_PASSWORD_INVALID
          else if failed_password_load : bool then SETTINGS_MANAGER_ERROR_PASSWORD_NOT_LOADED
          else if failed_settings_save : bool then SETTINGS_MANAGER_ERROR_SETTINGS_NOT_SAVED
          else if failed_password_save : bool then SETTINGS_MANAGER_ERROR_PASSWORD_NOT_SAVED
          else if failed_port_save : bool then SETTINGS_MANAGER_ERROR_PORT_NOT_SAVED
          else if is_first_initialization then SETTINGS_MANAGER_ERROR_NO_PREVIOUS_SETTINGS
          else ERROR_NONE).

(** * Persisting and copying *)

(** The last error counts. *)
Definition later_error (err out_err : error_t) : error_t := if negb (err =? ERROR_NONE) then err else out_err.

Definition persist_settings_from_manager : M mio error_t :=
  err ← lock_settings_manager;
  if negb (err =? ERROR_NONE) then mret err
  else
    m ← gets mi_manager;
    failed ← missing_directory (xprc_directory m);
    failed ← (if failed : bool then mret true else missing_directory (server_directory m));
    if failed : bool then _ ← unlock_settings_manager; mret ERROR_UNSPECIFIC
    else
      err ← in_sio (save_password (settings m) (password_filepath m));
      let out_err := later_error err ERROR_NONE in
      err ← in_sio (save_port (settings m) (port_filepath m));
      let out_err := later_error err out_err in
      err ← in_sio (save_server_settings (settings m) (settings_filepath m));
      let out_err := later_error err out_err in
      _ ← unlock_settings_manager;
      mret out_err.

Definition copy_settings_to_manager (source : settings_t) (copy_password : bool) : M mio error_t :=
  let invalid := Bool.eqb copy_password SETTINGS_COPY_PASSWORD && negb (validate_password (password source)) in
  let out_err := if invalid then SETTINGS_MANAGER_ERROR_PASSWORD_INVALID else ERROR_NONE in
  let copy_password := if invalid then SETTINGS_KEEP_PASSWORD else copy_password in
  err ← lock_settings_manager;
  if negb (err =? ERROR_NONE) then mret err
  else
    err ← on_settings (fun s => in_env (copy_settings s source copy_password));
    _ ← unlock_settings_manager;
    mret (later_error err out_err).

(** The copy in the caller's settings. *)
Definition copy_settings_from_manager (dest : settings_t) (copy_password : bool) : M mio (error_t * settings_t) :=
  err ← lock_settings_manager;
  if negb (err =? ERROR_NONE) then mret (err, dest)
  else
    m ← gets mi_manager;
    '(err, dest) ← in_sio (in_env (copy_settings dest (settings m) copy_password));
    _ ← unlock_settings_manager;
    mret (err, dest).

(** * Lemmas *)

Lemma in_sio_run {A} (m : M sio A) w (Q : A -> mio -> Prop) :
  run m (mi_sio w) (fun a s => Q a (mkMio (mi_manager w) s)) -> run (in_sio m) w Q.
Proof. unfold run, in_sio, zoom. by destruct (m (mi_sio w)) as [[a s]|]. Qed.

Lemma on_settings_run f w (Q : error_t -> mio -> Prop) :
  run (f (settings (mi_manager w))) (mi_sio w) (fun '(err, s) io => Q err (mkMio (set_settings s (mi_manager w)) io)) ->
  run (on_settings f) w Q.
Proof.
  intros H. unfold on_settings. apply run_bind. eapply run_eq; [done|]. apply run_bind, in_sio_run.
  eapply run_mono; [|exact H]. intros [err s] io HQ. apply run_bind. eapply run_eq; [done|]. by apply run_ret.
Qed.

(** The mutex can be locked. *)
Definition lockable (s : sio) : Prop := Forall (eq true) (env_mtx (h_env (io_heap (si_io s)))).

Lemma mtx_run s :
  run (in_env mtx_lock_result) s (fun ok s' => stays s s' /\ (lockable s -> ok = true)).
Proof.
  apply in_env_run. unfold lockable, mtx_lock_result. destruct (h_env (io_heap (si_io s))) as [al mt cl] eqn:E. cbn [env_mtx].
  destruct mt as [|b mt]; apply run_ret; (split; [|intros Hl; by inversion Hl]).
  - split; try done. split; try done. intros [Hp Ho]. split; [|done]. rewrite E in Hp. exact Hp.
  - split; try done. split; try done. intros [Hp Ho]. split; [|done]. rewrite E in Hp. exact Hp.
Qed.

(** The manager with its lock taken. *)
Definition locked (m : settings_manager_t) : settings_manager_t := set_mgr_lock (mgr_lock m + 1) m.

Lemma lock_run w : destruction_pending (mi_manager w) = false ->
  run lock_settings_manager w (fun err w' => stays (mi_sio w) (mi_sio w') /\
    (err = ERROR_NONE /\ mi_manager w' = locked (mi_manager w) \/
     err = ERROR_MUTEX_FAILED /\ mi_manager w' = mi_manager w /\ ~ lockable (mi_sio w))).
Proof.
  intros Hp. unfold lock_settings_manager. apply run_bind. eapply run_eq; [done|]. rewrite Hp. apply run_bind.
  unfold mutex_lock. apply run_bind, in_sio_run. eapply run_mono; [|apply mtx_run]. intros ok s [Hst Hok].
  destruct ok; cbn [when].
  - apply run_bind, run_bind. eapply run_eq; [done|]. eapply run_eq; [done|]. apply run_ret. red_if.
    apply run_bind. eapply run_eq; [done|]. cbn [mi_manager destruction_pending set_mgr_lock]. rewrite Hp. apply run_ret.
    split; [done|by left].
  - apply run_bind, run_ret, run_ret. apply run_ret. split; [done|right]. split; [done|split; [done|]]. intros Hl. by specialize (Hok Hl).
Qed.

Lemma unlock_run w (Q : unit -> mio -> Prop) :
  Q tt (mkMio (set_mgr_lock (mgr_lock (mi_manager w) - 1) (mi_manager w)) (mi_sio w)) -> run unlock_settings_manager w Q.
Proof. intros HQ. unfold unlock_settings_manager. apply run_bind. eapply run_eq; [done|]. by eapply run_eq. Qed.

(** ** Directories and files *)

Lemma check_file_run path s :
  run (check_file_exists (Some path)) s (fun r s' => kept s s' /\ same_items s s' /\
    (is_Some (io_files s !! path) -> r = true) /\ (fine s -> r = bool_decide (is_Some (io_files s !! path)) || bool_decide (path ∈ io_dirs s))).
Proof.
  unfold check_file_exists. apply run_bind. eapply run_eq; [done|]. fold (head_outcome s). fold (advance s).
  apply run_bind. eapply run_eq; [done|]. apply run_ret. split; [apply kept_advance|split; [done|]].
  destruct (head_outcome s) eqn:E; [split; [|done]|split; [done|]].
  - intros ?. by rewrite bool_decide_true.
  - intros ?%fine_outcome. congruence.
Qed.

Lemma ensure_directory_run path s :
  run (ensure_directory_exists (Some path)) s (fun err s' => io_files s' = io_files s /\ same_items s s' /\
    (fine s -> err = ERROR_NONE /\ fine s')).
Proof.
  unfold ensure_directory_exists. apply run_bind. eapply run_mono; [|apply check_file_run].
  intros r s1 ([Hf1 Hd1 Hk1] & Hi1 & _ & Hr). destruct r; [apply run_ret; auto|].
  apply run_bind. unfold mkdir. apply run_bind. eapply run_eq; [done|]. fold (head_outcome s1). fold (advance s1).
  apply run_bind. eapply run_eq; [done|]. destruct (head_outcome s1) eqn:E.
  2:{ apply run_ret. change (-1 =? -1) with true. cbv iota. apply run_ret. split; [done|split; [done|]].
      intros Hf%Hk1%fine_outcome. congruence. }
  cbn [io_files io_dirs advance set_outcomes]. rewrite Hf1, Hd1.
  destruct (bool_decide _ || bool_decide _) eqn:Eb.
  { apply run_ret. change (-1 =? -1) with true. cbv iota. apply run_ret. split; [done|split; [done|]].
    intros Hf. specialize (Hr Hf). congruence. }
  apply run_bind. eapply run_eq; [done|]. apply run_ret. change (0 =? -1) with false. change (negb (0 =? 0)) with false. cbv iota.
  apply run_bind. eapply run_mono; [|apply check_file_run]. intros r2 s2 ([Hf2 Hd2 Hk2] & Hi2 & _ & Hr2). apply run_ret.
  cbn [io_files] in Hf2. split; [by rewrite Hf2|split; [unfold same_items in *; by rewrite Hi2|]]. intros Hf.
  assert (fine (mkIO (io_files s) ({[path]} ∪ io_dirs s) (tail (io_outcomes s1)) (io_heap s1))) as Hf'.
  { apply Hk1 in Hf. apply (fine_advance _ (io_files s)) in Hf. exact Hf. }
  split; [|by apply Hk2]. rewrite (Hr2 Hf'). cbn [io_files io_dirs]. rewrite (bool_decide_true (path ∈ _)) by (apply elem_of_union_l, elem_of_singleton_2; done).
  by rewrite orb_true_r.
Qed.

(** The manager keeps its settings and its files while a directory is made. *)
Lemma missing_directory_run path w :
  run (missing_directory path) w (fun failed w' => mi_manager w' = mi_manager w /\
    io_files (si_io (mi_sio w')) = io_files (si_io (mi_sio w)) /\ si_opens (mi_sio w') = si_opens (mi_sio w) /\
    si_bytes (mi_sio w') = si_bytes (mi_sio w) /\
    (fine (si_io (mi_sio w)) -> failed = false /\ fine (si_io (mi_sio w')))).
Proof.
  unfold missing_directory. apply run_bind, in_sio_run, in_io_run. eapply run_mono; [|apply ensure_directory_run].
  intros err s (Hf & Hi & Hfi). apply run_ret. do 4 (split; [done|]). intros Hfine. destruct (Hfi Hfine) as [-> ?]. by split.
Qed.

(** ** Persisting *)

(** The three files hold the settings. *)
Record persisted (m : settings_manager_t) (src : settings_t) (p : cstr) (files : gmap cstr (list ascii)) : Prop := mkPersisted {
  pers_password : files !! password_filepath m = Some p;
  pers_port : files !! port_filepath m = Some (print_dec (network_port src));
  pers_settings : files !! settings_filepath m = Some (join LF (settings_lines src));
}.

Record paths_differ (m : settings_manager_t) : Prop := mkDiffer {
  differ_password_port : password_filepath m <> port_filepath m;
  differ_password_settings : password_filepath m <> settings_filepath m;
  differ_port_settings : port_filepath m <> settings_filepath m;
}.

Lemma unlocked m : set_mgr_lock (mgr_lock (locked m) - 1) (locked m) = m.
Proof. destruct m. unfold locked, set_mgr_lock. cbn. f_equal. lia. Qed.

Lemma later_none err out_err : later_error err out_err = ERROR_NONE -> err = ERROR_NONE /\ out_err = ERROR_NONE.
Proof. unfold later_error. destruct (err =? ERROR_NONE) eqn:E; bools; cbn [negb]; [by split|done]. Qed.

Lemma saved_fine path content s err s' : saved path content s err s' -> fine (si_io s) -> err = ERROR_NONE /\ fine (si_io s').
Proof. intros [[_ _ _ _ Hf] _ _]. apply Hf. Qed.

Lemma saved_other path content s err s' other : saved path content s err s' -> other <> path ->
  io_files (si_io s') !! other = io_files (si_io s) !! other.
Proof. intros [[_ Ho _ _ _] _ _]. apply Ho. Qed.

Lemma saved_content path content s s' : saved path content s ERROR_NONE s' -> io_files (si_io s') !! path = Some content.
Proof. intros [[Hd _ _ _ _] _ _]. by apply Hd. Qed.

Lemma persist_run w p : destruction_pending (mi_manager w) = false -> password (settings (mi_manager w)) = Some p ->
  port_in_range (network_port (settings (mi_manager w))) = true -> paths_differ (mi_manager w) ->
  run persist_settings_from_manager w (fun err w' => mi_manager w' = mi_manager w /\
    (err = ERROR_NONE -> persisted (mi_manager w) (settings (mi_manager w)) p (io_files (si_io (mi_sio w')))) /\
    (fine (si_io (mi_sio w)) -> lockable (mi_sio w) -> err = ERROR_NONE)).
Proof.
  intros Hp Hpw Hport [D1 D2 D3]. unfold persist_settings_from_manager. apply run_bind.
  eapply run_mono; [|by apply lock_run]. intros err [m1 s1] [Hst1 [[-> Hm1] | (-> & Hm1 & Hl)]]; cbn [mi_manager mi_sio] in *; subst m1.
  2:{ apply run_ret. split; [done|split; [done|]]. by intros _ ?. }
  change (negb (ERROR_NONE =? ERROR_NONE)) with false. cbv iota. apply run_bind. eapply run_eq; [done|]. cbn [mi_manager].
  set (m := mi_manager w) in *. apply run_bind. eapply run_mono; [|apply missing_directory_run].
  intros failed [m2 s2] (Hm2 & _ & _ & _ & Hf2). cbn [mi_manager mi_sio] in *. subst m2.
  apply run_bind. apply (run_mono _ _ (fun failed w' => mi_manager w' = locked m /\
    (fine (si_io s1) -> failed = false /\ fine (si_io (mi_sio w'))))).
  2:{ destruct failed; [apply run_ret; split; [done|intros Hf; by destruct (Hf2 Hf)]|].
      eapply run_mono; [|apply missing_directory_run]. intros failed [m3 s3] (Hm3 & _ & _ & _ & Hf3). cbn [mi_manager mi_sio] in *.
      split; [done|]. intros Hf. by apply Hf3, Hf2. }
  intros failed2 [m3 s3] [Hm3 Hf3]. cbn [mi_manager mi_sio] in *. subst m3. destruct failed2.
  { apply run_bind, unlock_run, run_ret. cbn [mi_manager]. rewrite unlocked. split; [done|split; [done|]].
    intros Hf _. by destruct (Hf3 (stays_fine _ _ Hst1 Hf)). }
  apply run_bind, in_sio_run. eapply run_mono; [|by apply (save_password_run (settings m) p)]. intros err4 s4 H4. cbn [mi_manager mi_sio].
  apply run_bind, in_sio_run. eapply run_mono; [|by apply (save_port_run (settings m))]. intros err5 s5 H5. cbn [mi_manager mi_sio].
  apply run_bind, in_sio_run. eapply run_mono; [|apply (save_server_settings_run (settings m))]. intros err6 s6 H6. cbn [mi_manager mi_sio] in *.
  apply run_bind, unlock_run, run_ret. cbn [mi_manager mi_sio]. rewrite unlocked. split; [done|split].
  - intros [-> [-> [-> _]%later_none]%later_none]%later_none. split.
    + rewrite (saved_other _ _ _ _ _ _ H6), (saved_other _ _ _ _ _ _ H5) by done. by apply saved_content in H4.
    + rewrite (saved_other _ _ _ _ _ _ H6) by done. by apply saved_content in H5.
    + by apply saved_content in H6.
  - intros Hf _. destruct (Hf3 (stays_fine _ _ Hst1 Hf)) as [_ F3]. destruct (saved_fine _ _ _ _ _ H4 F3) as [-> F4].
    destruct (saved_fine _ _ _ _ _ H5 F4) as [-> F5]. by destruct (saved_fine _ _ _ _ _ H6 F5) as [-> _].
Qed.

(** ** Restoring *)

Lemma settings_file_well_formed src : storable src -> validate_settings src false = true ->
  well_formed_file (join LF (settings_lines src)) /\
  (forall p, apply_lines (set_password (Some p) default_settings) (text_lines (join LF (settings_lines src))) =
     Some (stored (set_password (Some p) default_settings) src)).
Proof.
  intros Hs Hv.
  assert (Forall one_line (settings_lines src)) as Hl by (by apply settings_lines_one_line).
  assert (forall p, apply_lines (set_password (Some p) default_settings) (text_lines (join LF (settings_lines src))) =
     Some (stored (set_password (Some p) default_settings) src)) as Happ.
  { intros p. rewrite text_lines_join; [|done|done]. by apply settings_lines_apply. }
  split; [|done]. intros p. eexists. split; [apply Happ|]. revert Hv. unfold validate_settings, stored. red_if.
  cbn [log_level_console log_level_xplane network_port set_password default_settings].
  change (port_in_range XPRC_DEFAULT_NETWORK_PORT) with true. do 2 (destruct (validate_log_level _); [|done]). done.
Qed.

Lemma restore_server_settings_run w src : io_files (si_io (mi_sio w)) !! settings_filepath (mi_manager w) = Some (join LF (settings_lines src)) ->
  storable src -> validate_settings src false = true ->
  run (restore_server_settings false) w (fun '(failed_load, failed_save) w' => failed_save = false /\
    kept (si_io (mi_sio w)) (si_io (mi_sio w')) /\
    (exists s, mi_manager w' = set_settings s (mi_manager w) /\ (failed_load = false ->
       s = stored (set_network_port XPRC_DEFAULT_NETWORK_PORT (settings (mi_manager w))) src)) /\
    (ready (mi_sio w) -> failed_load = false)).
Proof.
  intros Hfile Hs Hv. destruct (settings_file_well_formed src Hs Hv) as [Hwf Happ].
  unfold restore_server_settings. apply run_bind. eapply run_eq; [done|]. cbv iota. apply run_bind, on_settings_run.
  eapply run_mono; [|apply load_server_settings_run]. intros [err s] io (Hk & Hl & Hready). apply run_ret.
  split; [done|split; [done|split]].
  - exists s. split; [done|]. intros Herr. apply negb_false_iff, Z.eqb_eq in Herr as ->.
    destruct Hl as [(_ & _ & _ & H) | [? _]]; [|done]. destruct (H eq_refl) as (p & content & src' & Hc & Ha & _ & ->).
    rewrite Hfile in Hc. injection Hc as <-. rewrite Happ in Ha. injection Ha as <-. done.
  - intros Hr. rewrite Hready; [done|done|]. by eexists.
Qed.

(** Without a new password, the previous one is loaded. *)
Lemma restore_password_run w p : auto_regen_password (settings (mi_manager w)) = false ->
  io_files (si_io (mi_sio w)) !! password_filepath (mi_manager w) = Some p -> one_line p ->
  run restore_password w (fun '(failed_load, failed_save) w' => failed_save = false /\ kept (si_io (mi_sio w)) (si_io (mi_sio w')) /\
    (exists s, mi_manager w' = set_settings s (mi_manager w) /\ (failed_load = false -> s = set_password (Some p) (settings (mi_manager w)))) /\
    (fine (si_io (mi_sio w)) -> failed_load = false)).
Proof.
  intros Ha Hf Hp. unfold restore_password. apply run_bind. eapply run_eq; [done|]. rewrite Ha. apply run_bind, on_settings_run.
  eapply run_mono; [|by apply load_password_run]. intros [err s] io [Hst H]. apply run_ret.
  split; [done|split; [apply Hst|split]].
  - exists s. split; [done|]. intros Herr. apply negb_false_iff, Z.eqb_eq in Herr as ->. by destruct H as [[_ ->] | [? _]].
  - intros Hfine. by destruct H as [[-> _] | (_ & _ & ?)].
Qed.

(** The port is loaded; if that fails, the current port takes its place, and
    nobody is told. *)
Lemma restore_port_run w n : io_files (si_io (mi_sio w)) !! port_filepath (mi_manager w) = Some (print_dec n) -> port_in_range n = true ->
  run (restore_port true) w (fun failed w' =>
    (mi_manager w' = set_settings (set_network_port n (settings (mi_manager w))) (mi_manager w) /\ failed = false \/
     mi_manager w' = mi_manager w /\ ~ fine (si_io (mi_sio w)))).
Proof.
  intros Hf Hn. unfold restore_port. apply run_bind. eapply run_eq; [done|]. apply run_bind, run_bind, on_settings_run.
  eapply run_mono; [|by apply load_port_run]. intros [err s] io [Hst H]. apply run_ret. cbn [negb orb].
  destruct H as [[-> ->] | (Herr & -> & Hnf)].
  - change (negb (ERROR_NONE =? ERROR_NONE)) with false. cbv iota. apply run_ret. by left.
  - rewrite (proj2 (Z.eqb_neq err ERROR_NONE)) by done. cbn [negb].
    assert (set_settings (settings (mi_manager w)) (mi_manager w) = mi_manager w) as -> by (by destruct (mi_manager w)).
    apply run_bind. eapply run_eq; [done|]. apply run_bind. eapply run_mono; [|apply missing_directory_run].
    intros failed [m2 s2] (Hm2 & _). cbn [mi_manager mi_sio] in *. subst m2.
    destruct failed; [apply run_ret; by right|]. apply run_bind, in_sio_run. cbn [mi_manager mi_sio].
    apply (run_mono _ _ (fun _ _ => True)).
    + intros err2 s3 _. apply run_ret. by right.
    + destruct (port_in_range (network_port (settings (mi_manager w)))) eqn:Ep.
      * by eapply run_mono; [|by apply save_port_run].
      * unfold save_port. by rewrite Ep.
Qed.

(** Restoring changes nothing but the settings, whatever happens. *)
Lemma restore_password_total w :
  run restore_password w (fun _ w' => exists s, mi_manager w' = set_settings s (mi_manager w)).
Proof.
  assert (forall m, m = set_settings (settings m) m) as Hid by (by intros []).
  unfold restore_password. apply run_bind. eapply run_eq; [done|]. destruct (auto_regen_password _).
  - apply run_bind. eapply run_mono; [|apply missing_directory_run]. intros failed [m2 s2] (Hm2 & _). cbn [mi_manager mi_sio] in *. subst m2.
    destruct failed; [apply run_ret; by eexists|]. apply run_bind, in_sio_run.
    apply (run_mono _ _ (fun _ _ => True)); [intros ? ? _; apply run_ret; by eexists|].
    destruct (password (settings (mi_manager w))) as [p|] eqn:Ep.
    + by eapply run_mono; [|by apply (save_password_run _ p)].
    + unfold save_password. by rewrite Ep.
  - apply run_bind, on_settings_run. unfold load_password. apply run_bind. eapply run_mono; [|apply first_line].
    intros [err line] s1 _. apply run_ret. destruct (negb (err =? ERROR_NONE)); apply run_ret; by eexists.
Qed.

Lemma restore_port_total b w :
  run (restore_port b) w (fun _ w' => exists s, mi_manager w' = set_settings s (mi_manager w)).
Proof.
  assert (forall m, m = set_settings (settings m) m) as Hid by (by intros []).
  unfold restore_port. apply run_bind. eapply run_eq; [done|]. apply run_bind.
  apply (run_mono _ _ (fun _ w' => exists s, mi_manager w' = set_settings s (mi_manager w))).
  - intros failed [m2 s2] [st2 Hm2]. cbn [mi_manager mi_sio] in *. subst m2. destruct (negb b || failed); [|apply run_ret; by eexists].
    apply run_bind. eapply run_eq; [done|]. apply run_bind. eapply run_mono; [|apply missing_directory_run].
    intros failed2 [m3 s3] (Hm3 & _). cbn [mi_manager mi_sio] in *. subst m3. destruct failed2; [apply run_ret; by eexists|].
    apply run_bind, in_sio_run. apply (run_mono _ _ (fun _ _ => True)); [intros ? ? _; apply run_ret; by eexists|].
    cbn [mi_manager settings set_settings]. destruct (port_in_range (network_port st2)) eqn:Ep.
    + by eapply run_mono; [|by apply save_port_run].
    + unfold save_port. by rewrite Ep.
  - destruct b; [|apply run_ret; by eexists]. apply run_bind, on_settings_run. unfold load_port. apply run_bind.
    eapply run_mono; [|apply first_line]. intros [err line] s1 _. destruct (negb (err =? ERROR_NONE)); [apply run_ret, run_ret; by eexists|].
    apply run_bind. apply (run_mono _ _ (fun _ _ => True)).
    + intros port s2 _. apply run_ret. destruct port as [port|]; [destruct (negb (port_in_range port))|]; apply run_ret; by eexists.
    + apply in_env_run. unfold run. by destruct (total_parse_int line (h_env (io_heap (si_io s1)))) as [[? ?] ->].
Qed.

(** A manager for the same files. *)
Definition same_paths (m m' : settings_manager_t) : Prop :=
  password_filepath m' = password_filepath m /\ port_filepath m' = port_filepath m /\ settings_filepath m' = settings_filepath m.

Lemma persisted_same_paths m m' src p files : same_paths m m' -> persisted m src p files -> persisted m' src p files.
Proof. intros (E1 & E2 & E3) [? ? ?]. by split; rewrite ?E1, ?E2, ?E3. Qed.

(** Restored settings are the persisted ones, whatever the manager held before. *)
Lemma restored_settings src p s : password src = Some p ->
  set_network_port (network_port src) (set_password (Some p) (stored s src)) = src /\
  set_network_port XPRC_DEFAULT_NETWORK_PORT (set_password (Some p) (stored (set_network_port XPRC_DEFAULT_NETWORK_PORT s) src)) =
    set_network_port XPRC_DEFAULT_NETWORK_PORT src.
Proof. destruct src. cbn. by intros ->. Qed.

Lemma restore_run w src p : destruction_pending (mi_manager w) = false -> persisted (mi_manager w) src p (io_files (si_io (mi_sio w))) ->
  storable src -> validate_settings src true = true -> password src = Some p -> one_line p -> auto_regen_password src = false ->
  run configure_settings_manager_from_storage w (fun err w' => mgr_lock (mi_manager w') = mgr_lock (mi_manager w) /\
    (err = ERROR_NONE -> settings (mi_manager w') = src \/
       settings (mi_manager w') = set_network_port XPRC_DEFAULT_NETWORK_PORT src /\ ~ ready (mi_sio w)) /\
    (ready (mi_sio w) -> lockable (mi_sio w) -> err = ERROR_NONE /\ settings (mi_manager w') = src)).
Proof.
  intros Hpend [Hfpw Hfport Hfset] Hs Hv Hpw Hone Hauto.
  assert (validate_password (Some p) = true /\ validate_settings src false = true) as [Hvp Hvs].
  { revert Hv. unfold validate_settings. rewrite Hpw. cbn [andb]. by destruct (validate_password (Some p)). }
  assert (port_in_range (network_port src) = true) as Hport.
  { revert Hvs. unfold validate_settings. red_if. do 2 (destruct (validate_log_level _); [|done]). by destruct (port_in_range _). }
  unfold configure_settings_manager_from_storage. apply run_bind.
  eapply run_mono; [|by apply lock_run]. intros err [m1 s1] [Hst1 [[-> Hm1] | (-> & Hm1 & Hl)]]; cbn [mi_manager mi_sio] in *; subst m1.
  2:{ apply run_ret. split; [done|split; [done|]]. by intros _ ?. }
  change (negb (ERROR_NONE =? ERROR_NONE)) with false. cbv iota. set (m := mi_manager w) in *.
  apply run_bind. eapply run_eq; [done|]. cbn [mi_manager].
  (* all files exist *)
  assert (forall path s, is_Some (io_files (si_io s) !! path) ->
    run (in_sio (in_io (check_file_exists (Some path)))) (mkMio (locked m) s) (fun r w' => r = true /\ mi_manager w' = locked m /\ stays s (mi_sio w'))) as Hexists.
  { intros path s Hex. apply in_sio_run, in_io_run. eapply run_mono; [|apply check_file_run]. intros r io (Hk & Hi & Hr & _). by split; [apply Hr|]. }
  assert (forall path s, io_files (si_io s) = io_files (si_io (mi_sio w)) -> is_Some (io_files (si_io (mi_sio w)) !! path) ->
    run (in_sio (in_io (check_file_exists (Some path)))) (mkMio (locked m) s) (fun r w' => r = true /\ mi_manager w' = locked m /\
      stays s (mi_sio w') /\ io_files (si_io (mi_sio w')) = io_files (si_io (mi_sio w)))) as Hcheck.
  { intros path s Hsame Hex. eapply run_mono; [|apply Hexists; by rewrite Hsame]. intros r w' (-> & -> & Hst). do 3 (split; [done|]).
    by rewrite (kept_files _ _ (stays_kept _ _ Hst)). }
  pose proof (kept_files _ _ (stays_kept _ _ Hst1)) as Hsame1.
  apply run_bind. eapply run_mono; [|apply Hcheck; [done|by eexists]]. intros r [m2 s2] (-> & Hm2 & Hst2 & Hsame2). cbn [mi_manager mi_sio] in *. subst m2.
  apply run_bind. eapply run_mono; [|apply Hcheck; [done|by eexists]]. intros r [m3 s3] (-> & Hm3 & Hst3 & Hsame3). cbn [mi_manager mi_sio] in *. subst m3.
  apply run_bind. eapply run_mono; [|apply Hcheck; [done|by eexists]]. intros r [m4 s4] (-> & Hm4 & Hst4 & Hsame4). cbn [mi_manager mi_sio] in *. subst m4.
  pose proof (stays_trans _ _ _ Hst1 (stays_trans _ _ _ Hst2 (stays_trans _ _ _ Hst3 Hst4))) as Hst. clear Hexists Hcheck Hst1 Hst2 Hst3 Hst4.
  cbn [negb andb]. apply run_bind. eapply run_mono; [|apply (restore_server_settings_run _ src); cbn [mi_manager mi_sio]; by rewrite ?Hsame4].
  intros [failed_load failed_save] [m5 s5] (-> & Hk5 & (st5 & Hm5 & Hst5) & Hr5). cbn [mi_manager mi_sio] in *. subst m5.
  destruct failed_load.
  { (* the default settings are reported *)
    apply run_bind. eapply run_mono; [|apply restore_password_total]. intros [? ?] [m6 s6] (st6 & Hm6). cbn [mi_manager mi_sio] in *. subst m6.
    apply run_bind. eapply run_eq; [done|]. apply run_bind. eapply run_mono; [|apply restore_port_total].
    intros ? [m7 s7] (st7 & Hm7). cbn [mi_manager mi_sio] in *. subst m7. apply run_bind, unlock_run, run_ret.
    split; [cbn; lia|split; [done|]]. intros Hr. by specialize (Hr5 (ready_stays _ _ Hst Hr)). }
  specialize (Hst5 eq_refl) as ->.
  pose proof (kept_files _ _ Hk5) as Hsame5. rewrite Hsame4 in Hsame5.
  apply run_bind. eapply run_mono; [|apply (restore_password_run _ p); cbn [mi_manager mi_sio settings set_settings stored auto_regen_password]; by rewrite ?Hsame5].
  intros [failed_load failed_save] [m6 s6] (-> & Hk6 & (st6 & Hm6 & Hst6) & Hr6). cbn [mi_manager mi_sio] in *. subst m6.
  apply run_bind. eapply run_eq; [done|]. cbn [mi_manager settings set_settings].
  destruct failed_load.
  { apply run_bind. eapply run_mono; [|apply restore_port_total]. intros ? [m7 s7] (st7 & Hm7). cbn [mi_manager mi_sio] in *. subst m7.
    apply run_bind, unlock_run, run_ret. split; [cbn; lia|split; [by destruct (negb _)|]].
    intros Hr. assert (fine (si_io s5)) as Hf5 by (apply Hk5, (stays_fine _ _ Hst), Hr). by specialize (Hr6 Hf5). }
  specialize (Hst6 eq_refl) as ->. cbn [settings set_settings password set_password]. rewrite Hvp.
  pose proof (kept_files _ _ Hk6) as Hsame6. rewrite Hsame5 in Hsame6.
  destruct (restored_settings src p (settings m) Hpw) as [Hrestored _].
  destruct (restored_settings src p (settings m) Hpw) as [_ Hdefault].
  apply run_bind. eapply run_mono; [|apply (restore_port_run _ (network_port src)); cbn [mi_manager mi_sio]; by rewrite ?Hsame6].
  intros failed_port [m7 s7] H7. cbn [mi_manager mi_sio] in *. apply run_bind, unlock_run, run_ret. cbn [mi_manager].
  destruct H7 as [[-> ->] | [-> Hnf]].
  - cbn [mgr_lock set_mgr_lock set_settings locked settings negb]. split; [lia|].
    change (set_network_port (network_port src) (set_password (Some p) (stored (set_network_port XPRC_DEFAULT_NETWORK_PORT (settings m)) src))) with
      (set_network_port (network_port src) (set_password (Some p) (stored (settings m) src))).
    rewrite Hrestored. split; [by left|done].
  - cbn [mgr_lock set_mgr_lock set_settings locked settings]. split; [lia|].
    assert (ready (mi_sio w) -> False) as Hbad.
    { intros Hr. apply Hnf, Hk6, Hk5, (stays_fine _ _ Hst), Hr. }
    split; [|intros Hr; by destruct (Hbad Hr)]. intros _. right. split; [|done].
    transitivity (set_network_port XPRC_DEFAULT_NETWORK_PORT (set_password (Some p) (stored (set_network_port XPRC_DEFAULT_NETWORK_PORT (settings m)) src))); [done|].
    exact Hdefault.
Qed.

(** Valid passwords fit a line of a file. *)
Lemma valid_password_one_line p : no_nul p -> validate_password (Some p) = true -> one_line p.
Proof.
  intros Hn [_ Hc]%valid_password_chars.
  assert (forall c, line_end c -> c ∉ p) as H by (intros c Hl Hin; by apply (proj1 (Forall_forall _ _) Hc c Hin)).
  split; [|split; [|done]]; apply H; [by left|by right].
Qed.

(** C36: Settings survive a restart if the password is not to be regenerated then (it is
    by default, and replaced by a new one), if the three files have different paths, if
    the settings are valid and can be stored (the network interface is one line and not
    the text that stands for none) and no manager is being destroyed: once
    [persist_settings_from_manager] has reported success, a new manager that finds the
    same files, whatever settings it was created with, is configured with exactly the same
    settings: all of them, including the password. If nothing fails, both steps succeed.
    If something fails, restoring reports an error, with one exception, a port that cannot
    be read, which is replaced by the default port. *)
Theorem settings_survive_restart w p :
  let src := settings (mi_manager w) in
  destruction_pending (mi_manager w) = false -> paths_differ (mi_manager w) ->
  storable src -> validate_settings src true = true -> auto_regen_password src = false -> password src = Some p -> no_nul p ->
  run persist_settings_from_manager w (fun err w1 =>
    mi_manager w1 = mi_manager w /\ (fine (si_io (mi_sio w)) -> lockable (mi_sio w) -> err = ERROR_NONE) /\
    (err = ERROR_NONE -> forall w2, destruction_pending (mi_manager w2) = false -> same_paths (mi_manager w) (mi_manager w2) ->
       io_files (si_io (mi_sio w2)) = io_files (si_io (mi_sio w1)) ->
       run configure_settings_manager_from_storage w2 (fun err2 w3 =>
         mgr_lock (mi_manager w3) = mgr_lock (mi_manager w2) /\
         (err2 = ERROR_NONE -> settings (mi_manager w3) = src \/
            settings (mi_manager w3) = set_network_port XPRC_DEFAULT_NETWORK_PORT src /\ ~ ready (mi_sio w2)) /\
         (ready (mi_sio w2) -> lockable (mi_sio w2) -> err2 = ERROR_NONE /\ settings (mi_manager w3) = src)))).
Proof.
  intros src Hpend Hpaths Hs Hv Hauto Hpw Hn.
  assert (validate_password (Some p) = true /\ validate_settings src false = true) as [Hvp Hvs].
  { revert Hv. unfold validate_settings. rewrite Hpw. cbn [andb]. by destruct (validate_password (Some p)). }
  assert (port_in_range (network_port src) = true) as Hport.
  { revert Hvs. unfold validate_settings. red_if. do 2 (destruct (validate_log_level _); [|done]). by destruct (port_in_range _). }
  eapply run_mono; [|by apply (persist_run w p)]. intros err w1 (Hm & Hpers & Hok). split; [done|split; [done|]].
  intros Herr w2 Hpend2 Hsame Hfiles. apply (restore_run w2 src p); try done.
  - rewrite Hfiles. by eapply persisted_same_paths, Hpers.
  - by apply valid_password_one_line.
Qed.

Definition demo_password : cstr := lit "ABCabc12-longer-password".
Definition demo_settings : settings_t := mkSettings (Some demo_password) false false None 5000 true 100 20.
Definition demo_manager (s : settings_t) : settings_manager_t :=
  mkManager false 0 (lit "/x") (lit "/x/password.cfg") (lit "/x/port.cfg") (lit "/s") (lit "/s/settings.cfg") s.
Definition demo_storage : sio :=
  mkSio (mkIO ∅ ∅ [] (mkHeap ∅ calm)) []
    (Byte.x3e :: Byte.x34 :: Byte.x35 :: Byte.x1a :: Byte.x1b :: Byte.x1c :: repeat Byte.x00 26).

Lemma settings_survive_restart_witness :
  let w := mkMio (demo_manager demo_settings) demo_storage in
  fine (si_io (mi_sio w)) /\ lockable (mi_sio w) /\ ready (mi_sio w) /\
  run persist_settings_from_manager w (fun err w1 =>
    mi_manager w1 = mi_manager w /\ (fine (si_io (mi_sio w)) -> lockable (mi_sio w) -> err = ERROR_NONE) /\
    (err = ERROR_NONE -> forall w2, destruction_pending (mi_manager w2) = false -> same_paths (mi_manager w) (mi_manager w2) ->
       io_files (si_io (mi_sio w2)) = io_files (si_io (mi_sio w1)) ->
       run configure_settings_manager_from_storage w2 (fun err2 w3 =>
         mgr_lock (mi_manager w3) = mgr_lock (mi_manager w2) /\
         (err2 = ERROR_NONE -> settings (mi_manager w3) = demo_settings \/
            settings (mi_manager w3) = set_network_port XPRC_DEFAULT_NETWORK_PORT demo_settings /\ ~ ready (mi_sio w2)) /\
         (ready (mi_sio w2) -> lockable (mi_sio w2) -> err2 = ERROR_NONE /\ settings (mi_manager w3) = demo_settings)))).
Proof.
  intros w. split; [by split; constructor|]. split; [constructor|]. split.
  { split; [by split; constructor|]. split; [constructor|]. exists (si_bytes demo_storage), []. by rewrite app_nil_r. }
  apply (settings_survive_restart w demo_password).
  - reflexivity.
  - split; apply (bool_decide_unpack _); reflexivity.
  - split; [split; unfold INT_MIN, INT_MAX; simpl; lia|]. split; [split; unfold INT_MIN, INT_MAX; simpl; lia|]. discriminate.
  - reflexivity.
  - reflexivity.
  - reflexivity.
  - apply (bool_decide_unpack _); reflexivity.
Defined.
