(* ===== verification/Command.v ===== *)
(** Command configurations and the command factory ([command.c], [commands.c]).

    Feature states are characters; a state stored in a hash map is the
    character converted to a pointer, so that the state 0 is NULL. The command
    descriptors are records of the functions of the individual commands, which
    act on the state [W] of the session they belong to. *)

From S2P Require Import Prelude CLib Utils Hashmap Channels Requests.

(** * Feature states *)

Abbreviation feature_state_t := ascii (only parsing).

Definition COMMAND_FEATURE_STATE_ENABLED_DEFAULT : feature_state_t := "*".
Definition COMMAND_FEATURE_STATE_DISABLED_DEFAULT : feature_state_t := "?".
Definition COMMAND_FEATURE_STATE_ENABLED_CLIENT : feature_state_t := "+".
Definition COMMAND_FEATURE_STATE_DISABLED_CLIENT : feature_state_t := "-".
Definition COMMAND_FEATURE_STATE_UNAVAILABLE : feature_state_t := "/".
Definition COMMAND_FEATURE_STATE_ENABLED_ALWAYS : feature_state_t := " ".
Definition COMMAND_FEATURE_STATE_NONE : feature_state_t := NUL.
Definition COMMAND_FEATURE_STATE_ENABLE : feature_state_t := COMMAND_FEATURE_STATE_ENABLED_CLIENT.
Definition COMMAND_FEATURE_STATE_DISABLE : feature_state_t := COMMAND_FEATURE_STATE_DISABLED_CLIENT.
Definition COMMAND_FEATURE_STATE_ENABLE_ONLY_IF_POSSIBLE : feature_state_t := "*".
Definition COMMAND_FEATURE_STATE_DISABLE_ONLY_IF_POSSIBLE : feature_state_t := "/".

Definition state_is (a b : ascii) : bool := bool_decide (a = b).

Definition is_command_feature_actually_enabled (state : feature_state_t) : bool :=
  state_is state COMMAND_FEATURE_STATE_ENABLED_ALWAYS || state_is state COMMAND_FEATURE_STATE_ENABLED_CLIENT
  || state_is state COMMAND_FEATURE_STATE_ENABLED_DEFAULT.

Definition is_command_feature_actually_disabled (state : feature_state_t) : bool :=
  state_is state COMMAND_FEATURE_STATE_DISABLED_CLIENT || state_is state COMMAND_FEATURE_STATE_DISABLED_DEFAULT
  || state_is state COMMAND_FEATURE_STATE_UNAVAILABLE.

Definition is_command_feature_requested_enabled (state : feature_state_t) : bool :=
  state_is state COMMAND_FEATURE_STATE_ENABLE || state_is state COMMAND_FEATURE_STATE_ENABLE_ONLY_IF_POSSIBLE.

Definition is_command_feature_requested_disabled (state : feature_state_t) : bool :=
  state_is state COMMAND_FEATURE_STATE_DISABLE || state_is state COMMAND_FEATURE_STATE_DISABLE_ONLY_IF_POSSIBLE.

Definition is_command_feature_requested_optionally (state : feature_state_t) : bool :=
  state_is state COMMAND_FEATURE_STATE_ENABLE_ONLY_IF_POSSIBLE || state_is state COMMAND_FEATURE_STATE_DISABLE_ONLY_IF_POSSIBLE.

Definition is_command_feature_requested_mandatory (state : feature_state_t) : bool :=
  state_is state COMMAND_FEATURE_STATE_ENABLE || state_is state COMMAND_FEATURE_STATE_DISABLE.

Definition is_valid_feature_state (state : feature_state_t) : bool :=
  state_is state COMMAND_FEATURE_STATE_ENABLE || state_is state COMMAND_FEATURE_STATE_DISABLE
  || state_is state COMMAND_FEATURE_STATE_ENABLE_ONLY_IF_POSSIBLE || state_is state COMMAND_FEATURE_STATE_DISABLE_ONLY_IF_POSSIBLE
  || state_is state COMMAND_FEATURE_STATE_ENABLED_DEFAULT || state_is state COMMAND_FEATURE_STATE_DISABLED_DEFAULT
  || state_is state COMMAND_FEATURE_STATE_ENABLED_CLIENT || state_is state COMMAND_FEATURE_STATE_DISABLED_CLIENT
  || state_is state COMMAND_FEATURE_STATE_UNAVAILABLE || state_is state COMMAND_FEATURE_STATE_ENABLED_ALWAYS.

(** * Configurations *)

Record command_config_t := mkConfig { version : Z; _features : hashmap_t ascii }.

Definition create_command_config (version : Z) : M env (option command_config_t) :=
  if version <? 1 then mret None
  else
    ok ← zmalloc 16;
    if negb ok then mret None
    else
      features ← create_hashmap;
      mret (mkConfig version <$> features).

(** [(void* ) (size_t) state] and back. *)
Definition state_to_pointer (state : feature_state_t) : option ascii :=
  if state_is state COMMAND_FEATURE_STATE_NONE then None else Some state.
Definition pointer_to_state (value : option ascii) : feature_state_t :=
  match value with None => COMMAND_FEATURE_STATE_NONE | Some state => state end.

(** Returns the error, the state written to [*previous_state] if any, and the
    configuration. *)
Definition set_command_feature_flag (config : command_config_t) (name : option cstr) (state : feature_state_t)
  : M env (error_t * option feature_state_t * command_config_t) :=
  match name with
  | None => mret (ERROR_UNSPECIFIC, None, config)
  | Some name =>
      if negb (is_valid_feature_state state) then mret (ERROR_UNSPECIFIC, None, config)
      else
        '(ok, old_value, features) ← hashmap_put (_features config) name (state_to_pointer state) None;
        let config := mkConfig (version config) features in
        if negb ok then mret (ERROR_UNSPECIFIC, None, config)
        else mret (ERROR_NONE, Some (pointer_to_state old_value), config)
  end.

Definition get_command_feature_state (config : option command_config_t) (name : option cstr) : feature_state_t :=
  match config, name with
  | Some config, Some name => pointer_to_state (hashmap_get (_features config) name)
  | _, _ => COMMAND_FEATURE_STATE_NONE
  end.

Definition add_command_feature_flag (config : command_config_t) (name : option cstr) (state : feature_state_t)
  : M env (error_t * command_config_t) :=
  match name with
  | None => mret (ERROR_UNSPECIFIC, config)
  | Some _ =>
      if negb (is_valid_feature_state state) then mret (ERROR_UNSPECIFIC, config)
      else
        let previous_state := get_command_feature_state (Some config) name in
        if negb (state_is previous_state COMMAND_FEATURE_STATE_NONE) then mret (ERROR_UNSPECIFIC, config)
        else
          '(err, _, config) ← set_command_feature_flag config name state;
          mret (err, config)
  end.

Definition has_command_feature_flags (config : option command_config_t) : bool :=
  match config with None => false | Some config => negb (is_hashmap_empty (_features config)) end.

Definition parameter_has_mandatory_feature_request (item : hashmap_item_t ascii) : bool :=
  is_command_feature_requested_mandatory (pointer_to_state (value item)).

Definition has_mandatory_command_feature_request (config : option command_config_t) : bool :=
  match config with
  | None => false
  | Some config =>
      bool_decide (is_Some (key <$> hashmap_find_first (_features config) parameter_has_mandatory_feature_request))
  end.

Definition reference_feature_flag_names (config : option command_config_t) : M env (option (list cstr)) :=
  match config with None => mret None | Some config => hashmap_reference_keys (_features config) end.

(** * Command descriptors and the factory *)

(** [cmd_create] returns what it leaves in [*command_ref] besides the error
    code; [cmd_merge_config] what it leaves in [*new_config] and [*err_msg]. *)
Record command_t (W : Type) := mkCommand {
  cmd_name : cstr;
  cmd_create : request_t -> command_config_t -> M W (error_t * option loc);
  cmd_terminate : option loc -> M W error_t;
  cmd_destroy : option loc -> M W error_t;
  cmd_create_default_config : M W (option command_config_t);
  cmd_merge_config : command_config_t -> command_config_t -> M W (error_t * option command_config_t * option cstr);
}.
Arguments mkCommand {W}.
Arguments cmd_name {W}.
Arguments cmd_create {W}.
Arguments cmd_terminate {W}.
Arguments cmd_destroy {W}.
Arguments cmd_create_default_config {W}.
Arguments cmd_merge_config {W}.

Section Factory.
Context {W : Type}.

Record command_factory_t := mkFactory { commands_by_name : hashmap_t (command_t W) }.

Definition register_command (factory : command_factory_t) (command : command_t W) : M env (bool * command_factory_t) :=
  '(ok, _, m) ← hashmap_put (commands_by_name factory) (cmd_name command) (Some command) None;
  mret (ok, mkFactory m).

(** [success &= register_command(factory, command)] for each command. *)
Fixpoint register_commands (commands : list (command_t W)) (success : bool) (factory : command_factory_t)
  : M env (bool * command_factory_t) :=
  match commands with
  | [] => mret (success, factory)
  | command :: commands' =>
      '(ok, factory) ← register_command factory command;
      register_commands commands' (success && ok) factory
  end.

(** [commands] are the descriptors of the ten commands of the plugin. *)
Definition create_command_factory (commands : list (command_t W)) : M env (option command_factory_t) :=
  ok ← zmalloc 8;
  if negb ok then mret None
  else
    m ← create_hashmap;
    match m with
    | None => mret None
    | Some m =>
        '(success, factory) ← register_commands commands true (mkFactory m);
        mret (if success : bool then Some factory else None)
    end.

(** [new_config] and [err_msg] are what the caller's variables hold ([err_msg]
    itself may be NULL); returns the error and what they hold afterwards. *)
Definition merge_command_config (new_config : option command_config_t) (err_msg : option (option cstr))
    (factory : option command_factory_t) (command_name : option cstr)
    (previous_config requested_changes : option command_config_t)
  : M W (error_t * option command_config_t * option (option cstr)) :=
  if bool_decide (is_Some (version <$> new_config)) then mret (ERROR_UNSPECIFIC, new_config, err_msg)
  else if bool_decide (is_Some (mjoin err_msg)) then mret (ERROR_UNSPECIFIC, new_config, err_msg)
  else
    match factory, command_name, previous_config, requested_changes with
    | Some factory, Some command_name, Some previous_config, Some requested_changes =>
        match hashmap_get (commands_by_name factory) command_name with
        | None => mret (ERROR_UNSPECIFIC, new_config, err_msg)
        | Some command =>
            '(err, new_config, merge_err_msg) ← cmd_merge_config command previous_config requested_changes;
            let err := if (err =? ERROR_NONE) && bool_decide (is_Some merge_err_msg) then ERROR_UNSPECIFIC else err in
            let '(err, new_config) :=
              if negb (err =? ERROR_NONE) && bool_decide (is_Some (version <$> new_config))
              then (ERROR_UNSPECIFIC, None) else (err, new_config) in
            mret (err, new_config, (fun _ => merge_err_msg) <$> err_msg)
        end
    | _, _, _, _ => mret (ERROR_UNSPECIFIC, new_config, err_msg)
    end.

Definition create_default_command_config (factory : option command_factory_t) (command_name : option cstr)
  : M W (option command_config_t) :=
  match factory, command_name with
  | Some factory, Some command_name =>
      match hashmap_get (commands_by_name factory) command_name with
      | None => mret None
      | Some command => cmd_create_default_config command
      end
  | _, _ => mret None
  end.

Definition list_command_names (factory : option command_factory_t) : M env (option (list cstr)) :=
  match factory with None => mret None | Some factory => hashmap_copy_keys (commands_by_name factory) end.
End Factory.
Arguments command_factory_t : clear implicits.

(** * Properties *)

Definition wf_config (config : command_config_t) : Prop := Hashmap.wf (_features config).

Lemma valid_state_not_none state : is_valid_feature_state state = true -> state <> COMMAND_FEATURE_STATE_NONE.
Proof. by intros ? ->. Qed.

Lemma state_pointer_roundtrip state : pointer_to_state (state_to_pointer state) = state.
Proof. unfold state_to_pointer, state_is. by case_bool_decide. Qed.

#[global] Arguments get_command_feature_state : simpl never.

(** The state of a flag in the finite map of a configuration. *)
Lemma get_state_abs config name :
  wf_config config -> no_nul name ->
  get_command_feature_state (Some config) (Some name) = pointer_to_state (mjoin (abs (_features config) !! name)).
Proof.
  intros Hwf Hn. unfold get_command_feature_state. destruct (hashmap_put_get (_features config) name None None calm Hwf Hn) as [-> _]. done.
Qed.

Lemma set_flag_spec config name state e :
  wf_config config -> no_nul name -> is_valid_feature_state state = true ->
  exists err previous config' e',
    set_command_feature_flag config (Some name) state e = Some ((err, previous, config'), e') /\
    wf_config config' /\ version config' = version config /\
    ((err = ERROR_NONE /\ previous = Some (get_command_feature_state (Some config) (Some name)) /\
      abs (_features config') = <[name := state_to_pointer state]> (abs (_features config))) \/
     (err = ERROR_UNSPECIFIC /\ previous = None /\ config' = config /\ env_alloc e <> [])).
Proof.
  intros Hwf Hn Hv. unfold set_command_feature_flag. rewrite Hv. red_if.
  destruct (hashmap_put_get (_features config) name (state_to_pointer state) None e Hwf Hn)
    as [_ (o & m' & e' & E & Hwf' & Hres)].
  erewrite bind_eq by exact E. cbv beta iota.
  destruct (_ || _) eqn:Hok; red_if; eexists _, _, _, _; (split; [done|]); (split; [done|]);
    (split; [done|]).
  - left. destruct Hres as [Ha ->]. split; [done|]. split; [|done].
    rewrite get_state_abs by done. by destruct (abs (_features config) !! name) as [[?|]|].
  - right. destruct Hres as [-> _]. split; [done|]. split; [done|]. split; [by destruct config|].
    apply orb_false_elim in Hok as [_ Hok]. intros Ha. unfold alloc_next, alloc_rest in Hok. by rewrite Ha in Hok.
Qed.

(** A configuration stores one state per feature name: after a successful
    [set_command_feature_flag] the flag has the new state, the previous one is
    reported and all other flags are as before; [add_command_feature_flag]
    refuses to change a flag that is set. Either fails otherwise only for lack
    of memory, leaving the configuration unchanged. *)
Theorem feature_flags_spec config name other state e :
  wf_config config -> no_nul name -> no_nul other -> is_valid_feature_state state = true ->
  exists err previous config' e',
    set_command_feature_flag config (Some name) state e = Some ((err, previous, config'), e') /\
    wf_config config' /\
    (if err =? ERROR_NONE then
       previous = Some (get_command_feature_state (Some config) (Some name)) /\
       get_command_feature_state (Some config') (Some other) =
         (if decide (other = name) then state else get_command_feature_state (Some config) (Some other))
     else config' = config /\ env_alloc e <> []) /\
    add_command_feature_flag config (Some name) state e =
      (if state_is (get_command_feature_state (Some config) (Some name)) COMMAND_FEATURE_STATE_NONE
       then Some ((err, config'), e') else Some ((ERROR_UNSPECIFIC, config), e)).
Proof.
  intros Hwf Hn Ho Hv. destruct (set_flag_spec config name state e Hwf Hn Hv) as (err & prev & config' & e' & E & Hwf' & _ & Hres).
  exists err, prev, config', e'. split; [done|]. split; [done|]. split.
  - destruct Hres as [(-> & -> & Ha) | (-> & -> & -> & ?)]; simpl; [|done]. split; [done|].
    rewrite !get_state_abs, Ha by done. case_decide as Hd.
    + subst. rewrite lookup_insert_eq. apply state_pointer_roundtrip.
    + by rewrite lookup_insert_ne.
  - unfold add_command_feature_flag. rewrite Hv. red_if.
    destruct (state_is _ _); red_if; [|done]. by erewrite bind_eq by exact E.
Qed.

Lemma no_nul_dec_true s : bool_decide (NUL ∉ s) = true -> no_nul s.
Proof. apply bool_decide_eq_true. Qed.

Lemma feature_flags_spec_witness :
  let config := mkConfig 1 (mkMap ∅) in
  exists err previous config' e',
    set_command_feature_flag config (Some (lit "x")) COMMAND_FEATURE_STATE_ENABLE calm = Some ((err, previous, config'), e') /\
    wf_config config' /\
    (if err =? ERROR_NONE then
       previous = Some (get_command_feature_state (Some config) (Some (lit "x"))) /\
       get_command_feature_state (Some config') (Some (lit "y")) =
         (if decide (lit "y" = lit "x") then COMMAND_FEATURE_STATE_ENABLE else get_command_feature_state (Some config) (Some (lit "y")))
     else config' = config /\ env_alloc calm <> []) /\
    add_command_feature_flag config (Some (lit "x")) COMMAND_FEATURE_STATE_ENABLE calm =
      (if state_is (get_command_feature_state (Some config) (Some (lit "x"))) COMMAND_FEATURE_STATE_NONE
       then Some ((err, config'), e') else Some ((ERROR_UNSPECIFIC, config), calm)).
Proof.
  intros config. apply (feature_flags_spec config (lit "x") (lit "y") COMMAND_FEATURE_STATE_ENABLE calm);
    [apply Hashmap.wf_empty|apply no_nul_dec_true; reflexivity|apply no_nul_dec_true; reflexivity|reflexivity].
Defined.

(** [merge_command_config] normalises what commands return: success never
    comes with an error message, failure never with a configuration, and the
    caller gets the command's message if it asked for one, whatever the
    command's implementation does. *)
Theorem merge_command_config_contract {W} (factory : command_factory_t W) name err_msg previous changes (w : W) :
  mjoin err_msg = None ->
  run (merge_command_config None err_msg (Some factory) name previous changes) w (fun '(err, new_config, err_msg') _ =>
    (err = ERROR_NONE -> mjoin err_msg' = None) /\ (err <> ERROR_NONE -> new_config = None) /\
    (is_Some err_msg' <-> is_Some err_msg)) \/
  exists n p c command, name = Some n /\ previous = Some p /\ changes = Some c /\
    hashmap_get (commands_by_name factory) n = Some command /\ cmd_merge_config command p c w = None.
Proof.
  intros He. unfold merge_command_config. rewrite !bool_decide_eq_false_2 by (rewrite ?He; apply is_Some_None).
  destruct name as [n|], previous as [p|], changes as [c|]; try (left; by apply run_ret).
  destruct (hashmap_get (commands_by_name factory) n) as [command|] eqn:Hc; [|left; by apply run_ret].
  destruct (cmd_merge_config command p c w) as [[[[err new] msg] w']|] eqn:Em.
  - left. apply run_bind. eapply run_eq; [exact Em|]. cbv beta iota.
    destruct (Z.eqb_spec err ERROR_NONE) as [-> |Hne]; destruct msg as [msg|], new as [new|], err_msg as [[|]|];
      simpl; try done; rewrite ?(proj2 (Z.eqb_neq err ERROR_NONE) Hne); red_if; apply run_ret;
      (split; [done|split; [done|]]); unfold is_Some; naive_solver.
  - right. by exists n, p, c, command.
Qed.

Lemma merge_command_config_contract_witness :
  let command := mkCommand (W := unit) (lit "TEST") (fun _ _ => mret (ERROR_NONE, None)) (fun _ => mret ERROR_NONE)
    (fun _ => mret ERROR_NONE) (mret None) (fun _ _ => mret (ERROR_NONE, None, Some (lit "bad flag"))) in
  let factory := mkFactory (mkMap {[compute_hash (lit "TEST") := [mkItem (lit "TEST") (Some command)]]}) in
  let config := mkConfig 1 (mkMap ∅) in
  run (merge_command_config None (Some None) (Some factory) (Some (lit "TEST")) (Some config) (Some config)) tt
    (fun '(err, new_config, err_msg') _ =>
    (err = ERROR_NONE -> mjoin err_msg' = None) /\ (err <> ERROR_NONE -> new_config = None) /\
    (is_Some err_msg' <-> is_Some (Some (@None cstr)))) \/
  exists n p c command', Some (lit "TEST") = Some n /\ Some config = Some p /\ Some config = Some c /\
    hashmap_get (commands_by_name factory) n = Some command' /\ cmd_merge_config command' p c tt = None.
Proof.
  intros command factory config.
  apply (merge_command_config_contract factory (Some (lit "TEST")) (Some None) (Some config) (Some config) tt).
  reflexivity.
Defined.

Section FactoryLemmas.
Context {W : Type}.

(** The commands a factory knows, by name. *)
Definition registered_commands (factory : command_factory_t W) : gmap cstr (option (command_t W)) :=
  abs (commands_by_name factory).

Lemma register_commands_spec (commands : list (command_t W)) : forall success factory e,
  Hashmap.wf (commands_by_name factory) -> Forall (fun c => no_nul (cmd_name c)) commands ->
  exists ok factory' e',
    register_commands commands success factory e = Some ((ok, factory'), e') /\
    Hashmap.wf (commands_by_name factory') /\
    (ok = true -> success = true /\ registered_commands factory' =
       foldl (fun m c => <[cmd_name c := Some c]> m) (registered_commands factory) commands) /\
    (env_alloc e = [] -> ok = success).
Proof.
  induction commands as [|c commands IH]; intros success factory e Hwf Hn.
  { exists success, factory, e. split; [reflexivity|]. split; [exact Hwf|]. split; [|reflexivity].
    intros Hok. split; [exact Hok|]. cbn [foldl]. exact eq_refl. }
  apply Forall_cons in Hn as [Hc Hn]. cbn [register_commands]. unfold register_command.
  destruct (hashmap_put_get (commands_by_name factory) (cmd_name c) (Some c) None e Hwf Hc) as [_ (o & m' & e' & E & Hwf' & Hres)].
  pose proof (hashmap_put_env _ _ _ _ _ _ _ E) as Henv.
  set (put_ok := _ || _) in *.
  destruct (IH (success && put_ok) (mkFactory m') e' Hwf' Hn) as (ok & factory' & e'' & E' & Hwf'' & Hok & Hmem).
  exists ok, factory', e''. split_and!; [|done| |].
  - erewrite bind_eq by (erewrite bind_eq by exact E; reflexivity). exact E'.
  - intros Ht. destruct (Hok Ht) as [[-> Hput]%andb_prop ->]. split; [done|]. rewrite Hput in Hres.
    simpl. f_equal. unfold registered_commands. simpl. by destruct Hres as [-> _].
  - intros Ha. rewrite Hmem by auto. replace put_ok with true; [by rewrite andb_true_r|].
    unfold put_ok, alloc_next, alloc_rest. simpl. rewrite Ha. by rewrite orb_true_r.
Qed.

Lemma foldl_insert_lookup (commands : list (command_t W)) : forall (m : gmap cstr (option (command_t W))) k,
  foldl (fun m c => <[cmd_name c := Some c]> m) m commands !! k =
  match List.find (fun c => str_eq (cmd_name c) k) (rev commands) with
  | Some c => Some (Some c)
  | None => m !! k
  end.
Proof.
  induction commands as [|c commands IH] using rev_ind; intros m k; [done|].
  rewrite foldl_app, rev_app_distr. simpl. destruct (str_eq (cmd_name c) k) eqn:E.
  - apply str_eq_true in E. subst. by rewrite lookup_insert_eq.
  - apply str_eq_false in E. rewrite lookup_insert_ne by done. apply IH.
Qed.

Lemma find_by_name (commands : list (command_t W)) c :
  NoDup (cmd_name <$> commands) -> c ∈ commands ->
  List.find (fun c' => str_eq (cmd_name c') (cmd_name c)) (rev commands) = Some c.
Proof.
  intros Hnd Hc. destruct (List.find _ _) as [c'|] eqn:E.
  - apply List.find_some in E as [Hin Heq]. apply str_eq_true in Heq. f_equal.
    rewrite <-in_rev in Hin. apply list_elem_of_In in Hin.
    apply list_elem_of_lookup in Hin as [i Hi]. apply list_elem_of_lookup in Hc as [j Hj].
    assert (i = j) as ->; [|congruence].
    apply (NoDup_lookup _ _ _ (cmd_name c) Hnd); rewrite list_lookup_fmap; [by rewrite Hi, <-Heq|by rewrite Hj].
  - apply (List.find_none _ _) with (x := c) in E; [by apply str_eq_false in E|].
    rewrite <-in_rev. by apply list_elem_of_In.
Qed.
End FactoryLemmas.

(** A factory that was created knows every command under its name, and no
    other name; creation fails only for lack of memory. *)
Theorem command_factory_complete {W} (commands : list (command_t W)) e :
  Forall (fun c => no_nul (cmd_name c)) commands -> NoDup (cmd_name <$> commands) ->
  exists factory e', create_command_factory commands e = Some (factory, e') /\
    (env_alloc e = [] -> factory <> None) /\
    forall f, factory = Some f -> Hashmap.wf (commands_by_name f) /\
      (forall c, c ∈ commands -> hashmap_get (commands_by_name f) (cmd_name c) = Some c) /\
      (forall name, no_nul name -> name ∉ cmd_name <$> commands -> hashmap_get (commands_by_name f) name = None).
Proof.
  intros Hn Hnd. unfold create_command_factory, create_hashmap.
  erewrite bind_eq by by apply zmalloc_eq. destruct (alloc_next e) eqn:He; red_if.
  2:{ eexists _, _. split_and!; [done| |done]. intros Ha. unfold alloc_next in He. by rewrite Ha in He. }
  erewrite bind_eq by (erewrite bind_eq; [reflexivity|by apply zmalloc_eq]).
  destruct (alloc_next (alloc_rest e)) eqn:He'; red_if.
  2:{ eexists _, _. split_and!; [done| |done]. intros Ha. unfold alloc_next, alloc_rest in He'. simpl in He'. by rewrite Ha in He'. }
  destruct (register_commands_spec commands true (mkFactory (mkMap ∅)) (alloc_rest (alloc_rest e)))
    as (ok & factory & e' & E & Hwf & Hok & Hmem); [apply Hashmap.wf_empty|done|].
  erewrite bind_eq by exact E. cbv beta iota. eexists _, _. split; [done|]. split.
  - intros Ha. rewrite Hmem; [done|]. simpl. by rewrite Ha.
  - intros f Hf. destruct ok; [|done]. injection Hf as <-. split; [done|].
    assert (forall name, no_nul name -> hashmap_get (commands_by_name factory) name =
      List.find (fun c => str_eq (cmd_name c) name) (rev commands)) as Hget.
    { intros name Hname.
      destruct (hashmap_put_get (commands_by_name factory) name None None e Hwf Hname) as [-> _].
      destruct (Hok eq_refl) as [_ Habs]. unfold registered_commands in Habs. rewrite Habs. simpl.
      rewrite foldl_insert_lookup. destruct (List.find _ _); [done|]. pose proof (Hashmap.abs_empty (V := command_t W)) as Ha0. rewrite Ha0. done. }
    split.
    + intros c Hc. rewrite Forall_forall in Hn. rewrite Hget by by apply Hn. by apply find_by_name.
    + intros name Hname Hnot. rewrite Hget by done.
      destruct (List.find _ _) as [c|] eqn:Ef; [|done]. apply List.find_some in Ef as [Hin Heq].
      apply str_eq_true in Heq. destruct Hnot. subst. apply list_elem_of_fmap_2, list_elem_of_In. by apply in_rev.
Qed.

Lemma command_factory_complete_witness :
  let command name := mkCommand (W := unit) (lit name) (fun _ _ => mret (ERROR_NONE, None)) (fun _ => mret ERROR_NONE)
    (fun _ => mret ERROR_NONE) (mret None) (fun _ _ => mret (ERROR_NONE, None, None)) in
  let commands := [command "CMHD"%string; command "SRID"%string] in
  exists factory e', create_command_factory commands calm = Some (factory, e') /\
    (env_alloc calm = [] -> factory <> None) /\
    forall f, factory = Some f -> Hashmap.wf (commands_by_name f) /\
      (forall c, c ∈ commands -> hashmap_get (commands_by_name f) (cmd_name c) = Some c) /\
      (forall name, no_nul name -> name ∉ cmd_name <$> commands -> hashmap_get (commands_by_name f) name = None).
Proof.
  intros command commands. apply (command_factory_complete commands calm).
  - repeat constructor; apply no_nul_dec_true; reflexivity.
  - apply (bool_decide_unpack _). vm_compute. exact I.
Defined.

(** ** No computation on configurations goes wrong *)

Lemma total_create_command_config v : total (create_command_config v).
Proof. unfold create_command_config. total_step. Qed.

Lemma total_set_command_feature_flag config name state : total (set_command_feature_flag config name state).
Proof. unfold set_command_feature_flag. cbv zeta. total_step. Qed.
#[export] Hint Resolve total_create_command_config total_set_command_feature_flag : xprc.

Lemma total_reference_feature_flag_names config : total (reference_feature_flag_names config).
Proof. unfold reference_feature_flag_names. total_step. Qed.

Lemma total_list_command_names {W} (factory : option (command_factory_t W)) : total (list_command_names factory).
Proof. unfold list_command_names. total_step. Qed.
#[export] Hint Resolve total_reference_feature_flag_names total_list_command_names : xprc.
