(* ===== verification/Session.v ===== *)
(** Client sessions ([session.c], and [create_command] of [commands.c]): the
    messages sent on channels, the session lock and the command configurations.

    A [world] is everything a session's code reads and writes: the session
    object, its channels (with the heap of channel objects and the environment),
    its connection - any implementation of [Connection] - and a part [X] that
    belongs to the commands. The mutex of a session is recursive; [session_lock]
    counts how often the running thread holds it. *)

From S2P Require Import Prelude CLib Utils Hashmap Channels Requests Network Command.

Definition SESSION_ERROR_NO_SUCH_CHANNEL : error_t := SESSION_ERROR_BASE + 0.
Definition SESSION_ERROR_INVALID_CHANNEL_STATE : error_t := SESSION_ERROR_BASE + 1.

Definition SESSION_PHASE_AWAIT_VERSION : Z := 0.
Definition SESSION_PHASE_AWAIT_PASSWORD : Z := 1.
Definition SESSION_PHASE_FAILED : Z := 2.
Definition SESSION_PHASE_LOGGED_IN : Z := 3.

Definition CURRENT_TIME_REFERENCE : Z := -1.

Inductive channel_action_t :=
  | CHANNEL_ACTION_ERR
  | CHANNEL_ACTION_ACK_CONTINUE
  | CHANNEL_ACTION_ACK_CLOSE
  | CHANNEL_ACTION_CONTINUE
  | CHANNEL_ACTION_CLOSE.

#[export] Instance channel_action_eq_dec : EqDecision channel_action_t.
Proof. solve_decision. Defined.

Record session_t := mkSession {
  reference_time : timespec;
  reference_millis : Z;
  phase : Z;
  client_version : Z;
  command_configs : hashmap_t command_config_t;
  session_lock : Z;
  session_destruction_pending : bool;
}.

Definition set_lock (n : Z) (s : session_t) : session_t :=
  mkSession (reference_time s) (reference_millis s) (phase s) (client_version s) (command_configs s) n (session_destruction_pending s).
Definition set_configs (m : hashmap_t command_config_t) (s : session_t) : session_t :=
  mkSession (reference_time s) (reference_millis s) (phase s) (client_version s) m (session_lock s) (session_destruction_pending s).
Definition set_session_pending (s : session_t) : session_t :=
  mkSession (reference_time s) (reference_millis s) (phase s) (client_version s) (command_configs s) (session_lock s) true.

Record world (C X : Type) := mkWorld {
  w_session : session_t;
  w_channels : channels;
  w_connection : C;
  w_ext : X;
}.
Arguments mkWorld {C X}.
Arguments w_session {C X}.
Arguments w_channels {C X}.
Arguments w_connection {C X}.
Arguments w_ext {C X}.

Section Session.
Context {C : Type} `{Connection C} {X : Type}.
Abbreviation W := (world C X).

Definition set_session (s : session_t) (w : W) : W := mkWorld s (w_channels w) (w_connection w) (w_ext w).
Definition set_channels (s : channels) (w : W) : W := mkWorld (w_session w) s (w_connection w) (w_ext w).
Definition set_connection (c : C) (w : W) : W := mkWorld (w_session w) (w_channels w) c (w_ext w).

(** Computations on a part of the world. *)
Definition on_channels {A} (m : M channels A) : M W A := zoom w_channels set_channels m.
Definition on_connection {A} (m : M C A) : M W A := zoom w_connection set_connection m.
Definition on_env {A} (m : M env A) : M W A := on_channels (in_env m).
Definition update_session (f : session_t -> session_t) : M W unit :=
  modify (fun w => set_session (f (w_session w)) w).
Definition session : M W session_t := gets w_session.

(** [send_to_network] of a whole string on the session's connection. *)
Definition session_send (content : cstr) : M W error_t :=
  lock ← on_env mtx_lock_result;
  on_connection (conn_send content lock).

Definition session_close : M W unit := on_connection conn_close.

Definition lock_session : M W bool :=
  s ← session;
  if session_destruction_pending s then mret false
  else
    ok ← on_env mtx_lock_result;
    if negb ok then mret false
    else
      _ ← update_session (fun s => set_lock (session_lock s + 1) s);
      s ← session;
      if session_destruction_pending s then
        _ ← update_session (fun s => set_lock (session_lock s - 1) s); mret false
      else mret true.

Definition unlock_session : M W unit := update_session (fun s => set_lock (session_lock s - 1) s).

Definition millis_since_reference : M W Z :=
  s ← session;
  if session_destruction_pending s || (reference_millis s <? 0) then mret (-1)
  else
    now ← on_env timespec_get;
    match now with
    | None => mret (-1)
    | Some now =>
        let now_millis := millis_of_timespec (Some now) in
        if now_millis <? 0 then mret (-1)
        else if now_millis <? reference_millis s then mret (-1)
        else mret (now_millis - reference_millis s)
    end.

Definition is_initial (st : channel_state_t) : bool := bool_decide (st = CHANNEL_STATE_INITIAL).
Definition is_confirmed (st : channel_state_t) : bool := bool_decide (st = CHANNEL_STATE_CONFIRMED).
Definition is_closed (st : channel_state_t) : bool := bool_decide (st = CHANNEL_STATE_CLOSED).
Definition is_action (a b : channel_action_t) : bool := bool_decide (a = b).

(** May [action] not be taken in [state]? *)
Definition invalid_action (state : channel_state_t) (action : channel_action_t) : bool :=
  is_closed state
  || (is_confirmed state && (is_action action CHANNEL_ACTION_ACK_CONTINUE || is_action action CHANNEL_ACTION_ACK_CLOSE))
  || (is_initial state && is_action action CHANNEL_ACTION_CONTINUE).

Definition channel_continues (action : channel_action_t) : bool :=
  is_action action CHANNEL_ACTION_CONTINUE || is_action action CHANNEL_ACTION_ACK_CONTINUE.

Definition needs_state_prefix (state : channel_state_t) (action : channel_action_t) (message : option cstr) : bool :=
  (strlen (default [] message) =? 0) || is_initial state || is_action action CHANNEL_ACTION_ERR.

(** The text [send_channel] assembles. [num_digits] takes an [int]; [snprintf]
    writes no more than the number of digits it was told. *)
Definition channel_message (id : Z) (state : channel_state_t) (action : channel_action_t) (timestamp : Z)
    (message : option cstr) : cstr :=
  let timestamp_length := num_digits (wrap_s 32 timestamp) in
  [if channel_continues action then "+"%char else "-"%char]
  ++ (if needs_state_prefix state action message then
        if is_action action CHANNEL_ACTION_ERR then lit "ERR " else lit "ACK "
      else [])
  ++ channel_id_to_string id ++ lit " "
  ++ take (Z.to_nat timestamp_length) (print_dec timestamp)
  ++ (if 0 <? strlen (default [] message) then lit " " ++ default [] message else [])
  ++ [chr 10].

Definition load_channel (l : loc) : M W channel_t := on_channels (load l).
Definition update_channel (l : loc) (f : channel_t -> channel_t) : M W unit :=
  on_channels (c ← load l; store l (f c)).

Definition send_channel (channel : loc) (action : channel_action_t) (timestamp : Z) (message : option cstr)
  : M W error_t :=
  timestamp ← (if timestamp =? CURRENT_TIME_REFERENCE then millis_since_reference else mret timestamp);
  if timestamp <? 0 then mret ERROR_UNSPECIFIC
  else
    c ← load_channel channel;
    if invalid_action (ch_state c) action then mret SESSION_ERROR_INVALID_CHANNEL_STATE
    else
      ok ← on_env (zmalloc (strlen (channel_message (ch_id c) (ch_state c) action timestamp message) + 1));
      if negb ok then mret ERROR_MEMORY_ALLOCATION
      else
        err ← session_send (channel_message (ch_id c) (ch_state c) action timestamp message);
        _ ← update_channel channel
              (set_ch_state (if channel_continues action then CHANNEL_STATE_CONFIRMED else CHANNEL_STATE_CLOSED));
        mret err.

(** A missing channel leaves the session locked. *)
Definition error_channel (channel_id timestamp : Z) (message : option cstr) : M W error_t :=
  locked ← lock_session;
  if negb locked then mret ERROR_MUTEX_FAILED
  else
    channel ← on_channels (get_channel channel_id);
    match channel with
    | None => mret SESSION_ERROR_NO_SUCH_CHANNEL
    | Some channel =>
        err ← send_channel channel CHANNEL_ACTION_ERR timestamp message;
        _ ← unlock_session;
        mret err
    end.

(** [confirm_channel], [continue_channel] and [finish_channel] differ in the
    action and in the error message only. *)
Definition act_on_channel (action : channel_state_t -> channel_action_t) (failure : cstr)
    (channel_id timestamp : Z) (message : option cstr) : M W error_t :=
  locked ← lock_session;
  if negb locked then mret ERROR_MUTEX_FAILED
  else
    channel ← on_channels (get_channel channel_id);
    match channel with
    | None => mret SESSION_ERROR_NO_SUCH_CHANNEL
    | Some channel =>
        c ← load_channel channel;
        err ← send_channel channel (action (ch_state c)) timestamp message;
        _ ← when (negb (err =? ERROR_NONE)) (_ ← error_channel channel_id timestamp (Some failure); mret tt);
        _ ← unlock_session;
        mret err
    end.

Definition confirm_channel : Z -> Z -> option cstr -> M W error_t :=
  act_on_channel (fun _ => CHANNEL_ACTION_ACK_CONTINUE) (lit "failed to confirm channel").

Definition continue_channel : Z -> Z -> option cstr -> M W error_t :=
  act_on_channel (fun _ => CHANNEL_ACTION_CONTINUE) (lit "failed to continue channel").

Definition finish_channel : Z -> Z -> option cstr -> M W error_t :=
  act_on_channel (fun st => if is_initial st then CHANNEL_ACTION_ACK_CLOSE else CHANNEL_ACTION_CLOSE)
    (lit "failed to finish channel").

(** * Command configurations *)

Definition set_command_configuration (command_name : option cstr) (config : option command_config_t) : M W error_t :=
  match command_name, config with
  | Some command_name, Some config =>
      locked ← lock_session;
      if negb locked then mret ERROR_MUTEX_FAILED
      else
        s ← session;
        '(success, _, configs) ← on_env (hashmap_put (command_configs s) command_name (Some config) None);
        _ ← update_session (set_configs configs);
        _ ← unlock_session;
        mret (if success : bool then ERROR_NONE else ERROR_UNSPECIFIC)
  | _, _ => mret ERROR_UNSPECIFIC
  end.

Definition get_command_configuration (command_name : option cstr) : M W (option command_config_t) :=
  match command_name with
  | None => mret None
  | Some command_name =>
      locked ← lock_session;
      if negb locked then mret None
      else
        s ← session;
        let config := hashmap_get (command_configs s) command_name in
        _ ← unlock_session;
        mret config
  end.

(** * Commands *)

Section Commands.
Context (factory : command_factory_t W).

(** The descriptor a channel's [command] points to. *)
Definition descriptor (command : option cstr) : option (command_t W) :=
  command ≫= fun name => hashmap_get (commands_by_name factory) name.

Definition create_command (channel : loc) (request : request_t) : M W error_t :=
  match hashmap_get (commands_by_name factory) (req_command_name request) with
  | None => mret ERROR_UNSPECIFIC
  | Some command =>
      _ ← update_channel channel (set_ch_command (Some (req_command_name request)));
      config ← get_command_configuration (Some (req_command_name request));
      match config with
      | None => mret ERROR_UNSPECIFIC
      | Some config =>
          '(err, command_ref) ← cmd_create command request config;
          _ ← update_channel channel (set_ch_command_ref command_ref);
          mret err
      end
  end.

Definition free_channel (l : loc) : M channels unit := fun s =>
  match cs_heap s !! l with
  | Some _ => Some (tt, mkChannels (delete l (cs_heap s)) (cs_table s) (cs_env s))
  | None => None
  end.

Definition destroy_session_channel (channel : loc) : M W unit :=
  c ← load_channel channel;
  _ ← when (negb (ch_destruction_requested c))
        (_ ← match descriptor (ch_command c) with
             | Some command => _ ← cmd_terminate command (ch_command_ref c); mret tt
             | None => mret tt
             end;
         update_channel channel set_ch_destruction_requested);
  c ← load_channel channel;
  _ ← when (negb (is_closed (ch_state c)))
        (s ← session;
         _ ← (if session_destruction_pending s then mret tt
              else _ ← send_channel channel CHANNEL_ACTION_CLOSE CURRENT_TIME_REFERENCE None; mret tt);
         update_channel channel (set_ch_state CHANNEL_STATE_CLOSED));
  c ← load_channel channel;
  err ← match descriptor (ch_command c) with
        | Some command => cmd_destroy command (ch_command_ref c)
        | None => mret ERROR_NONE
        end;
  if negb (err =? ERROR_NONE) then mret tt
  else on_channels (free_channel channel).

(** Freeing the configurations and the session object itself leaves no trace in
    the world; nothing may use the session afterwards. *)
Definition destroy_session : M W unit :=
  _ ← update_session set_session_pending;
  _ ← lock_session;
  destroy_channels_table (fun A => @on_channels A) destroy_session_channel.

(** The default configuration of each command. *)
Fixpoint init_configs (command_names : list cstr) : M W bool :=
  match command_names with
  | [] => mret true
  | command_name :: command_names' =>
      default_config ← create_default_command_config (Some factory) (Some command_name);
      match default_config with
      | None => mret false
      | Some default_config =>
          s ← session;
          '(ok, replaced_config, configs) ← on_env (hashmap_put (command_configs s) command_name (Some default_config) None);
          _ ← update_session (set_configs configs);
          if negb ok then mret false
          else if bool_decide (is_Some (version <$> replaced_config)) then mret false
          else init_configs command_names'
      end
  end.

Definition fresh_session (configs : hashmap_t command_config_t) : session_t :=
  mkSession (mkTimespec 0 0) 0 0 0 configs 0 false.

(** The part of [create_session] that follows the creation of the tables; what
    it returns is the error code and, unless it failed, the session's world. *)
Definition init_session (w : W) : option (error_t * option W * env) :=
  let finish (ok : bool) (w : W) :=
    if ok then Some (ERROR_NONE, Some w, cs_env (w_channels w))
    else
      '(_, w) ← destroy_session w;
      Some (ERROR_UNSPECIFIC, None, cs_env (w_channels w)) in
  '(command_names, w) ← on_env (list_command_names (Some factory)) w;
  match command_names with
  | None => finish false w
  | Some command_names => '(ok, w) ← init_configs command_names w; finish ok w
  end.

(** [connection] and [ext] are the connection and the commands' part of the new
    world. If the session object cannot be created there is nothing to destroy;
    failing to initialise the mutex leaves it allocated. *)
Definition create_session (connection : C) (ext : X) (e : env) : option (error_t * option W * env) :=
  '(ok, e) ← zmalloc 128 e;
  if negb ok then Some (ERROR_MEMORY_ALLOCATION, None, e)
  else
    '(ok, e) ← mtx_lock_result e;
    if negb ok then Some (ERROR_UNSPECIFIC, None, e)
    else
      '(table, e) ← create_channels_table e;
      match table with
      | None => Some (ERROR_MEMORY_ALLOCATION, None, e)
      | Some table =>
          '(configs, e) ← create_hashmap e;
          match configs with
          | None => Some (ERROR_MEMORY_ALLOCATION, None, e)
          | Some configs => init_session (mkWorld (fresh_session configs) (mkChannels ∅ table e) connection ext)
          end
      end.
End Commands.
End Session.

(** * Messages and the channel protocol *)

Inductive prefix_t := ACK | ERR.

(** A channel message: [m_time] is the text of its timestamp. *)
Record message_t := mkMessage {
  m_id : Z;
  m_continues : bool;
  m_prefix : option prefix_t;
  m_time : cstr;
  m_text : cstr;
}.

Definition format_message (m : message_t) : cstr :=
  (if m_continues m then "+"%char else "-"%char)
  :: match m_prefix m with Some ACK => lit "ACK " | Some ERR => lit "ERR " | None => [] end
  ++ channel_id_to_string (m_id m) ++ " "%char :: m_time m
  ++ (if 0 <? strlen (m_text m) then " "%char :: m_text m else []) ++ [chr 10].

(** The protocol as clients see it: the first message acknowledges the command
    or reports an error, an error closes the channel, nothing follows a [-]. *)
Definition protocol_step (st : channel_state_t) (m : message_t) : option channel_state_t :=
  match st, m_prefix m, m_continues m with
  | CHANNEL_STATE_CLOSED, _, _ | _, Some ERR, true | CHANNEL_STATE_INITIAL, None, _ => None
  | _, _, true => Some CHANNEL_STATE_CONFIRMED
  | _, _, false => Some CHANNEL_STATE_CLOSED
  end.

(** The messages [ms] may be sent on a channel in state [st], which they leave
    in state [st']; nothing is sent on a channel that does not exist. *)
Inductive conforms : option channel_state_t -> list message_t -> option channel_state_t -> Prop :=
  | conforms_nil st : conforms st [] st
  | conforms_cons st m st1 ms st' :
      protocol_step st m = Some st1 -> conforms (Some st1) ms st' -> conforms (Some st) (m :: ms) st'.

Definition state_after (action : channel_action_t) : channel_state_t :=
  if channel_continues action then CHANNEL_STATE_CONFIRMED else CHANNEL_STATE_CLOSED.

Definition message_of (id : Z) (state : channel_state_t) (action : channel_action_t) (timestamp : Z)
    (message : option cstr) : message_t :=
  mkMessage id (channel_continues action)
    (if needs_state_prefix state action message then
       Some (if is_action action CHANNEL_ACTION_ERR then ERR else ACK) else None)
    (take (Z.to_nat (num_digits (wrap_s 32 timestamp))) (print_dec timestamp)) (default [] message).

Lemma format_message_of id st action t message :
  channel_message id st action t message = format_message (message_of id st action t message).
Proof.
  unfold channel_message, format_message, message_of. cbn [m_prefix m_continues m_id m_time m_text].
  destruct (needs_state_prefix _ _ _); [|done]. by destruct (is_action _ _).
Qed.

Lemma message_of_step id st action t message :
  invalid_action st action = false -> protocol_step st (message_of id st action t message) = Some (state_after action).
Proof.
  unfold message_of, needs_state_prefix. destruct (strlen (default [] message) =? 0); destruct st, action; done.
Qed.

Lemma conforms_app st1 ms1 st2 ms2 st3 : conforms st1 ms1 st2 -> conforms st2 ms2 st3 -> conforms st1 (ms1 ++ ms2) st3.
Proof. induction 1; simpl; [done|]. intros ?. econstructor; [done|auto]. Qed.

(** * Runs of the session's operations *)

(** The messages handed to the connection, in order, with whether it took them. *)
Abbreviation messages := (list (message_t * bool)).

Section Runs.
Context {C : Type} `{ConnectionLaws C} {X : Type}.
Implicit Types (w : world C X).

Definition env_of w : env := cs_env (w_channels w).
Definition heap_of w : gmap loc channel_t := cs_heap (w_channels w).

Definition with_env (e : env) w : world C X :=
  set_channels (mkChannels (heap_of w) (cs_table (w_channels w)) e) w.

Lemma on_env_eq {A} (m : M env A) w a e :
  m (env_of w) = Some (a, e) -> on_env m w = Some (a, with_env e w).
Proof. intros E. unfold on_env, on_channels, zoom. by rewrite (in_env_eq _ _ _ _ E). Qed.

Lemma with_env_twice e e' w : with_env e (with_env e' w) = with_env e w.
Proof. done. Qed.

Lemma with_env_same w : with_env (env_of w) w = w.
Proof. by destruct w as [? []]. Qed.

(** Everything but the environment is the same. *)
Definition same_but_env w w' : Prop := exists e, w' = with_env e w.

Lemma session_send_run content w :
  conn_ok (w_connection w) ->
  exists err c e, session_send content w = Some (err, set_connection c (with_env e w)) /\
    env_alloc e = env_alloc (env_of w) /\
    conn_ok c /\ conn_closing c = conn_closing (w_connection w) /\
    conn_queued c = conn_queued (w_connection w) ++ (if err =? ERROR_NONE then content else []).
Proof.
  intros Hok. unfold session_send.
  destruct (mtx_lock_result (env_of w)) as [[lock e]|] eqn:E; [|by unfold mtx_lock_result in E; case_match].
  erewrite bind_eq by by apply on_env_eq.
  destruct (conn_send_law content lock (w_connection w) Hok) as (err & c & Hs & ? & ? & ?).
  exists err, c, e. split; [|split; [|done]].
  - unfold on_connection, zoom. cbn [w_connection with_env set_channels]. by rewrite Hs.
  - unfold mtx_lock_result in E. by destruct (env_mtx _); injection E as <- <-.
Qed.

Lemma session_close_run w :
  conn_ok (w_connection w) ->
  exists c, session_close w = Some (tt, set_connection c w) /\ conn_ok c /\ conn_closing c = true /\
    conn_queued c = conn_queued (w_connection w).
Proof.
  intros Hok. destruct (conn_close_law (w_connection w) Hok) as (c & E & ? & ? & ?).
  exists c. split; [|done]. unfold session_close, on_connection, zoom. by rewrite E.
Qed.

Lemma millis_run w : exists t e,
  millis_since_reference w = Some (t, with_env e w) /\ env_alloc e = env_alloc (env_of w) /\ -1 <= t.
Proof.
  unfold millis_since_reference. erewrite bind_eq by reflexivity. case_match.
  { exists (-1), (env_of w). rewrite with_env_same. done. }
  destruct (timespec_get (env_of w)) as [[now e]|] eqn:E; [|by unfold timespec_get in E; case_match].
  erewrite bind_eq by by apply on_env_eq.
  assert (env_alloc e = env_alloc (env_of w)).
  { unfold timespec_get in E. by destruct (env_clock _); injection E as <- <-. }
  destruct now as [now|]; [|by exists (-1), e]. cbv beta iota zeta.
  destruct (millis_of_timespec _ <? 0) eqn:?; [by exists (-1), e|].
  destruct (_ <? reference_millis _) eqn:?; [by exists (-1), e|]. bools.
  eexists _, e. split; [done|]. split; [done|]. lia.
Qed.

Lemma lock_session_run w : exists ok e,
  lock_session w = Some (ok, with_env e (if ok : bool then set_session (set_lock (session_lock (w_session w) + 1) (w_session w)) w else w)) /\
  env_alloc e = env_alloc (env_of w) /\ (ok = true -> session_destruction_pending (w_session w) = false).
Proof.
  unfold lock_session. erewrite bind_eq by reflexivity. destruct (session_destruction_pending _) eqn:Hp.
  { exists false, (env_of w). by rewrite with_env_same. }
  destruct (mtx_lock_result (env_of w)) as [[ok e]|] eqn:E; [|by unfold mtx_lock_result in E; case_match].
  erewrite bind_eq by by apply on_env_eq.
  exists ok, e. destruct ok; red_if.
  - erewrite bind_eq by reflexivity. erewrite bind_eq by reflexivity. simpl. rewrite Hp. split; [done|].
    unfold mtx_lock_result in E. by destruct (env_mtx _); simplify_eq/=.
  - split; [done|]. unfold mtx_lock_result in E. by destruct (env_mtx _); simplify_eq/=.
Qed.

(** The state of the channel registered for an ID. *)
Definition channel_of w (id : Z) : option channel_t := registered (w_channels w) id ≫= fun l => heap_of w !! l.
Definition state_of w (id : Z) : option channel_state_t := ch_state <$> channel_of w id.

(** What a message on a channel leaves alone. *)
Record keeps w w' : Prop := mkKeeps {
  keeps_ok : conn_ok (w_connection w');
  keeps_closing : conn_closing (w_connection w') = conn_closing (w_connection w);
  keeps_session : w_session w' = w_session w;
  keeps_ext : w_ext w' = w_ext w;
  keeps_table : cs_table (w_channels w') = cs_table (w_channels w);
}.

(** What the attempt to send a message did: [None] if the message was not
    handed to the connection. *)
Definition sent_message w w' (channel : loc) (c : channel_t) action message (err : error_t) (sent : option Z) : Prop :=
  match sent with
  | None =>
      err <> ERROR_NONE /\ (err = SESSION_ERROR_INVALID_CHANNEL_STATE -> invalid_action (ch_state c) action = true) /\
      heap_of w' = heap_of w /\ conn_queued (w_connection w') = conn_queued (w_connection w)
  | Some t =>
      0 <= t /\ invalid_action (ch_state c) action = false /\
      heap_of w' = <[channel := set_ch_state (state_after action) c]> (heap_of w) /\
      conn_queued (w_connection w') = conn_queued (w_connection w) ++
        (if err =? ERROR_NONE then format_message (message_of (ch_id c) (ch_state c) action t message) else [])
  end.

Lemma send_channel_run channel action ts message w c :
  conn_ok (w_connection w) -> heap_of w !! channel = Some c ->
  exists err w' sent, send_channel channel action ts message w = Some (err, w') /\ keeps w w' /\
    sent_message w w' channel c action message err sent /\
    (invalid_action (ch_state c) action = true -> sent = None) /\
    (invalid_action (ch_state c) action = false -> 0 <= ts -> env_alloc (env_of w) = [] -> sent = Some ts) /\
    (forall t, sent = Some t -> 0 <= ts -> t = ts).
Proof.
  intros Hok Hc. unfold send_channel.
  assert (exists t e, (if ts =? CURRENT_TIME_REFERENCE then millis_since_reference else mret ts) w = Some (t, with_env e w) /\
    env_alloc e = env_alloc (env_of w) /\ (0 <= ts -> t = ts)) as (t & e & E & Ha & Ht).
  { destruct (ts =? CURRENT_TIME_REFERENCE) eqn:?; bools.
    - destruct (millis_run w) as (t & e & E & ? & ?). exists t, e. split_and!; [done..|]. unfold CURRENT_TIME_REFERENCE in *. lia.
    - exists ts, (env_of w). by rewrite with_env_same. }
  erewrite bind_eq by exact E. destruct (t <? 0) eqn:Hneg; bools.
  { eexists ERROR_UNSPECIFIC, _, None. split; [done|]. split; [by split|]. split; [done|]. split; [done|]. split; [lia|done]. }
  erewrite bind_eq by (unfold load_channel, on_channels, zoom; erewrite load_eq by exact Hc; reflexivity).
  destruct (invalid_action (ch_state c) action) eqn:Hinv.
  { eexists SESSION_ERROR_INVALID_CHANNEL_STATE, _, None. split; [done|]. by repeat split. }
  set (text := channel_message _ _ _ _ _).
  erewrite bind_eq by (apply on_env_eq, zmalloc_eq; unfold strlen; lia).
  destruct (alloc_next _) eqn:Hn; red_if.
  2:{ eexists ERROR_MEMORY_ALLOCATION, _, None. split; [done|]. repeat split; try done. intros _ _ Hnil.
      change (default true (head (env_alloc e)) = false) in Hn. by rewrite Ha, Hnil in Hn. }
  edestruct (session_send_run text) as (err & cn & e' & Es & _ & Hok' & Hcl & Hq); [|erewrite bind_eq by exact Es]; [done|].
  erewrite bind_eq.
  2:{ unfold update_channel, on_channels, zoom. erewrite bind_eq by by apply load_eq.
      unfold store. cbn. unfold heap_of in Hc |- *. by rewrite Hc. }
  eexists err, _, (Some t). split; [done|]. split; [by split|]. split; [|split; [done|split; [intros _ ? _; f_equal; auto|intros ? [= <-]; auto]]].
  split; [done|]. split; [done|]. split; [done|]. cbn [w_connection set_channels set_connection]. rewrite Hq.
  cbn [w_connection set_channels with_env]. by destruct (err =? ERROR_NONE); [rewrite <-format_message_of|].
Qed.

(** ** Conversations *)

(** Every registered channel is an object of the heap with that ID. *)
Record world_ok w : Prop := mkWorldOk {
  ok_connection : conn_ok (w_connection w);
  ok_table : Channels.wf (w_channels w);
  ok_channels : forall id l, registered (w_channels w) id = Some l -> exists c, heap_of w !! l = Some c /\ ch_id c = id;
}.

Definition text_of (ms : messages) : list ascii := mjoin ((fun m : message_t * bool => if m.2 then format_message m.1 else []) <$> ms).
Definition messages_on (id : Z) (ms : messages) : list message_t := (filter (fun m => m_id m.1 = id) ms).*1.

(** What a conversation does not change of a channel object and of a session. *)
Definition channel_core (c : channel_t) : Z * option cstr * option loc := (ch_id c, ch_command c, ch_command_ref c).
Definition session_core (s : session_t) : session_t := set_configs (mkMap ∅) (set_lock 0 s).

(** From [w] to [w'] the session did nothing but send [ms], lock, configure
    commands and mark channels for destruction: everything queued is the text of
    the messages that were taken, and on every channel the messages follow the
    protocol from the state the channel had to the state it has. *)
Record talked w w' (ms : messages) : Prop := mkTalked {
  talked_ok : world_ok w';
  talked_queue : conn_queued (w_connection w') = conn_queued (w_connection w) ++ text_of ms;
  talked_protocol : forall id, conforms (state_of w id) (messages_on id ms) (state_of w' id);
  talked_table : cs_table (w_channels w') = cs_table (w_channels w);
  talked_heap : channel_core <$> heap_of w' = channel_core <$> heap_of w;
  talked_closing : conn_closing (w_connection w') = conn_closing (w_connection w);
  talked_session : session_core (w_session w') = session_core (w_session w);
}.

Lemma text_of_app ms1 ms2 : text_of (ms1 ++ ms2) = text_of ms1 ++ text_of ms2.
Proof. unfold text_of. by rewrite fmap_app, join_app. Qed.

Lemma messages_on_app id ms1 ms2 : messages_on id (ms1 ++ ms2) = messages_on id ms1 ++ messages_on id ms2.
Proof. unfold messages_on. by rewrite filter_app, fmap_app. Qed.

Lemma talked_trans w1 w2 w3 ms1 ms2 : talked w1 w2 ms1 -> talked w2 w3 ms2 -> talked w1 w3 (ms1 ++ ms2).
Proof.
  intros [] []. split; try congruence.
  - by rewrite text_of_app, app_assoc; congruence.
  - intros id. rewrite messages_on_app. eapply conforms_app; eauto.
Qed.

Lemma registered_table (s s' : channels) id : cs_table s' = cs_table s -> registered s' id = registered s id.
Proof. unfold registered. by intros ->. Qed.

(** Locking and the environment are no part of a conversation. *)
Lemma talked_quiet w n e : world_ok w -> talked w (with_env e (set_session (set_lock n (w_session w)) w)) [].
Proof.
  intros []. split; try done.
  - by rewrite app_nil_r.
  - intros id. constructor.
Qed.

Lemma talked_env w e : world_ok w -> talked w (with_env e w) [].
Proof.
  intros Hok. pose proof (talked_quiet w (session_lock (w_session w)) e Hok) as Ht.
  by destruct w as [[] ? ? ?].
Qed.

Lemma talked_refl w : world_ok w -> talked w w [].
Proof. intros Hok. rewrite <-(with_env_same w) at 2. by apply talked_env. Qed.

Lemma talked_sent w w' channel c action message err sent id :
  world_ok w -> registered (w_channels w) id = Some channel -> heap_of w !! channel = Some c ->
  keeps w w' -> sent_message w w' channel c action message err sent ->
  exists ms, talked w w' ms /\ messages_on id ms = ms.*1 /\ Forall (fun m => m.2 = (err =? ERROR_NONE)) ms /\
    ms.*1 = match sent with Some t => [message_of id (ch_state c) action t message] | None => [] end.
Proof.
  intros [Hconn Htab Hch] Hreg Hc [Hok Hcl Hs Hx Ht] Hsent.
  destruct (Hch id channel Hreg) as (c' & Hc' & Hid). assert (c' = c) as -> by congruence.
  destruct sent as [t|].
  - destruct Hsent as (H0t & Hinv & Hheap & Hq).
    set (m := message_of (ch_id c) (ch_state c) action t message) in *.
    assert (m_id m = id) as Hm by done.
    exists [(m, err =? ERROR_NONE)]. split; [split|].
    + split; [done|unfold Channels.wf; by rewrite Ht|].
      intros id' l' Hl'. rewrite (registered_table _ _ _ Ht) in Hl'. rewrite Hheap.
      destruct (decide (l' = channel)) as [-> |Hne].
      * rewrite lookup_insert_eq. eexists. split; [done|]. destruct (Hch id' channel Hl') as (c'' & ? & <-).
        by replace c'' with c by congruence.
      * rewrite lookup_insert_ne by done. by apply Hch.
    + rewrite Hq. unfold text_of. simpl. by rewrite app_nil_r.
    + intros id'. unfold messages_on, state_of, channel_of. rewrite (registered_table _ _ _ Ht), Hheap.
      destruct (decide (id' = id)) as [-> |Hne].
      * rewrite filter_cons_True by done. rewrite Hreg. simpl. rewrite lookup_insert_eq, Hc. simpl.
        econstructor; [by apply message_of_step|constructor].
      * rewrite filter_cons_False by (simpl; congruence).
        destruct (registered (w_channels w) id') as [l'|] eqn:Hl'; simpl; [|constructor].
        rewrite lookup_insert_ne; [constructor|]. intros <-. destruct (Hch id' channel Hl') as (? & ? & ?). congruence.
    + done.
    + rewrite Hheap, fmap_insert. apply insert_id. by rewrite lookup_fmap, Hc.
    + done.
    + by rewrite Hs.
    + unfold messages_on. rewrite filter_cons_True by done. split; [done|]. split; [by constructor|]. simpl. by rewrite <-Hid.
  - destruct Hsent as (Herr & _ & Hheap & Hq). exists []. split; [split|]; try done.
    + split; [done|unfold Channels.wf; by rewrite Ht|]. intros ??. rewrite (registered_table _ _ _ Ht), Hheap. apply Hch.
    + by rewrite Hq, app_nil_r.
    + intros id'. unfold state_of, channel_of. rewrite (registered_table _ _ _ Ht), Hheap. constructor.
    + by rewrite Hheap.
    + by rewrite Hs.
Qed.

Lemma unlock_session_run w :
  unlock_session w = Some (tt, with_env (env_of w) (set_session (set_lock (session_lock (w_session w) - 1) (w_session w)) w)).
Proof. by destruct w as [? [] ? ?]. Qed.

Lemma on_channels_eq {A} (m : M channels A) w a s :
  m (w_channels w) = Some (a, s) -> on_channels m w = Some (a, set_channels s w).
Proof. intros E. unfold on_channels, zoom. by rewrite E. Qed.

Lemma lookup_channel_run id w :
  addressable id = true -> on_channels (get_channel id) w = Some (registered (w_channels w) id, w).
Proof. intros Ha. rewrite (on_channels_eq _ _ _ _ (get_channel_eq id _ Ha)). by destruct w. Qed.

Lemma load_channel_run l c w : heap_of w !! l = Some c -> load_channel l w = Some (c, w).
Proof. intros Hc. unfold load_channel. rewrite (on_channels_eq _ _ _ _ (load_eq _ _ _ Hc)). by destruct w. Qed.

Lemma talked_registered w w' ms id : talked w w' ms -> registered (w_channels w') id = registered (w_channels w) id.
Proof. intros Ht. apply registered_table, (talked_table _ _ _ Ht). Qed.

Lemma talked_state_none w w' ms id : talked w w' ms -> state_of w id = None -> state_of w' id = None /\ messages_on id ms = [].
Proof. intros Ht Hn. pose proof (talked_protocol _ _ _ Ht id) as Hp. rewrite Hn in Hp. by inversion Hp. Qed.

Lemma world_ok_locked w e n : world_ok w -> world_ok (with_env e (set_session (set_lock n (w_session w)) w)).
Proof. intros Hok. apply (talked_ok w _ [] (talked_quiet w n e Hok)). Qed.

(** How an operation on channel [id] leaves the session lock. *)
Definition lock_after w w' (id : Z) (err : error_t) : Prop :=
  match registered (w_channels w) id with
  | Some _ => session_lock (w_session w') = session_lock (w_session w)
  | None =>
      (err = ERROR_MUTEX_FAILED /\ session_lock (w_session w') = session_lock (w_session w)) \/
      (err = SESSION_ERROR_NO_SUCH_CHANNEL /\ session_lock (w_session w') = session_lock (w_session w) + 1)
  end.

(** An error report closes the channel unless it could not be attempted. *)
Lemma error_channel_run id ts message w :
  world_ok w -> addressable id = true ->
  exists err w' ms, error_channel id ts message w = Some (err, w') /\ talked w w' ms /\ messages_on id ms = ms.*1 /\
    lock_after w w' id err /\
    (err = ERROR_NONE \/ err = SESSION_ERROR_INVALID_CHANNEL_STATE \/ ms <> [] ->
     state_of w' id = Some CHANNEL_STATE_CLOSED).
Proof.
  intros Hok Ha. unfold error_channel. destruct (lock_session_run w) as (ok & e & E & _ & _).
  erewrite bind_eq by exact E. destruct ok; red_if.
  2:{ eexists ERROR_MUTEX_FAILED, _, []. split; [done|]. split; [by apply talked_env|]. split; [done|].
      split; [|by intros [?|[?|?]]]. unfold lock_after. destruct (registered _ _); [done|by left]. }
  set (n := session_lock (w_session w) + 1) in *. set (w1 := with_env e _) in *.
  assert (talked w w1 []) as Ht1 by by apply talked_quiet. pose proof (talked_ok _ _ _ Ht1) as Hok1.
  erewrite bind_eq by by apply lookup_channel_run. destruct (registered (w_channels w1) id) as [l|] eqn:Hl.
  2:{ eexists SESSION_ERROR_NO_SUCH_CHANNEL, _, []. split; [done|]. split; [done|]. split; [done|]. split; [|by intros [?|[?|?]]].
      unfold lock_after. rewrite <-(talked_registered _ _ _ _ Ht1), Hl. by right. }
  destruct (ok_channels _ Hok1 id l Hl) as (c & Hc & Hid).
  destruct (send_channel_run l CHANNEL_ACTION_ERR ts message w1 c (ok_connection _ Hok1) Hc)
    as (err & w2 & sent & Es & Hk & Hs & Hinv & _).
  destruct (talked_sent _ _ _ _ _ _ _ _ _ Hok1 Hl Hc Hk Hs) as (ms & Ht2 & Hms & _ & Hms1).
  erewrite bind_eq by exact Es. erewrite bind_eq by apply unlock_session_run.
  set (w3 := with_env _ _). assert (talked w2 w3 []) as Ht3 by by apply talked_quiet, (talked_ok _ _ _ Ht2).
  exists err, w3, ms. split; [done|].
  assert (talked w w3 ms) as Ht.
  { replace ms with ([] ++ ms ++ []) by by rewrite app_nil_r. by eapply talked_trans, talked_trans. }
  split; [done|]. split; [done|]. split.
  - unfold lock_after. rewrite <-(talked_registered _ _ _ _ Ht1), Hl. simpl. rewrite (keeps_session _ _ Hk). simpl. lia.
  - assert (state_of w3 id = state_of w2 id) as -> by done.
    intros Hsent. unfold state_of, channel_of. rewrite (talked_registered _ _ _ _ Ht2), Hl. simpl.
    destruct sent as [t|].
    + destruct Hs as (_ & _ & -> & _). by rewrite lookup_insert_eq.
    + apply fmap_nil_inv in Hms1. destruct Hs as (? & Hstate & -> & _). rewrite Hc. simpl. f_equal.
      destruct Hsent as [?|[He|?]]; [done| |done]. apply Hstate in He. by destruct (ch_state c).
Qed.

Lemma state_of_registered w id l c :
  registered (w_channels w) id = Some l -> heap_of w !! l = Some c -> state_of w id = Some (ch_state c).
Proof. intros Hl Hc. unfold state_of, channel_of. rewrite Hl. simpl. by rewrite Hc. Qed.

(** The error report after a failed message. *)
Lemma report_failure_run err id ts failure w l :
  world_ok w -> addressable id = true -> registered (w_channels w) id = Some l ->
  exists w' ms,
    when (negb (err =? ERROR_NONE)) (_ ← error_channel id ts failure; mret tt) w = Some (tt, w') /\
    talked w w' ms /\ messages_on id ms = ms.*1 /\ session_lock (w_session w') = session_lock (w_session w) /\
    (state_of w' id = state_of w id \/ state_of w' id = Some CHANNEL_STATE_CLOSED) /\
    (err = ERROR_NONE -> w' = w).
Proof.
  intros Hok Ha Hl. destruct (Z.eqb_spec err ERROR_NONE) as [-> |Hne]; simpl.
  { exists w, []. split; [done|]. split; [by apply talked_refl|]. split_and!; try done. by left. }
  destruct (error_channel_run id ts failure w Hok Ha) as (err' & w' & ms & E & Ht & Hms & Hlock & Hclosed).
  erewrite bind_eq by exact E. exists w', ms. split; [done|]. split; [done|]. split; [done|].
  unfold lock_after in Hlock. rewrite Hl in Hlock. split; [done|]. split; [|done].
  destruct ms as [|m ms]; [|right; apply Hclosed; by right; right].
  left. pose proof (talked_protocol _ _ _ Ht id) as Hp. by inversion Hp.
Qed.

Lemma act_on_channel_run action failure id ts message w :
  world_ok w -> addressable id = true ->
  exists err w' ms, act_on_channel action failure id ts message w = Some (err, w') /\ talked w w' ms /\
    messages_on id ms = ms.*1 /\ lock_after w w' id err /\
    (forall st, state_of w id = Some st -> err = ERROR_NONE \/ err = SESSION_ERROR_INVALID_CHANNEL_STATE ->
      (invalid_action st (action st) = true /\ err = SESSION_ERROR_INVALID_CHANNEL_STATE) \/
      state_of w' id = Some (state_after (action st)) \/ state_of w' id = Some CHANNEL_STATE_CLOSED).
Proof.
  intros Hok Ha. unfold act_on_channel. destruct (lock_session_run w) as (ok & e & E & _ & _).
  erewrite bind_eq by exact E. destruct ok; red_if.
  2:{ eexists ERROR_MUTEX_FAILED, _, []. split; [done|]. split; [by apply talked_env|]. split; [done|].
      split; [|by intros ? _ [?|?]]. unfold lock_after. destruct (registered _ _); [done|by left]. }
  set (w1 := with_env e _). assert (talked w w1 []) as Ht1 by by apply talked_quiet.
  pose proof (talked_ok _ _ _ Ht1) as Hok1.
  erewrite bind_eq by by apply lookup_channel_run. destruct (registered (w_channels w1) id) as [l|] eqn:Hl.
  2:{ eexists SESSION_ERROR_NO_SUCH_CHANNEL, _, []. split; [done|]. split; [done|]. split; [done|]. split; [|by intros ? _ [?|?]].
      unfold lock_after. rewrite <-(talked_registered _ _ _ _ Ht1), Hl. by right. }
  destruct (ok_channels _ Hok1 id l Hl) as (c & Hc & Hid). erewrite bind_eq by by apply load_channel_run.
  destruct (send_channel_run l (action (ch_state c)) ts message w1 c (ok_connection _ Hok1) Hc)
    as (err & w2 & sent & Es & Hk & Hs & _ & _).
  destruct (talked_sent _ _ _ _ _ _ _ _ _ Hok1 Hl Hc Hk Hs) as (ms & Ht2 & Hms & _ & Hms1).
  pose proof (talked_ok _ _ _ Ht2) as Hok2. erewrite bind_eq by exact Es.
  assert (registered (w_channels w2) id = Some l) as Hl2 by by rewrite (talked_registered _ _ _ _ Ht2).
  destruct (report_failure_run err id ts (Some failure) w2 l Hok2 Ha Hl2) as (w3 & ms' & E3 & Ht3 & Hms' & Hlock & Hst & _).
  erewrite bind_eq by exact E3. erewrite bind_eq by apply unlock_session_run.
  set (w4 := with_env _ _). assert (talked w3 w4 []) as Ht4 by by apply talked_quiet, (talked_ok _ _ _ Ht3).
  exists err, w4, (ms ++ ms'). split; [done|]. split.
  { replace (ms ++ ms') with ([] ++ ms ++ ms' ++ []) by by rewrite app_nil_r. by eapply talked_trans, talked_trans, talked_trans. }
  split; [by rewrite messages_on_app, fmap_app, Hms, Hms'|]. split.
  - unfold lock_after. rewrite <-(talked_registered _ _ _ _ Ht1), Hl. simpl. rewrite Hlock, (keeps_session _ _ Hk). simpl. lia.
  - intros st Hst0 Herr. assert (st = ch_state c) as ->.
    { assert (state_of w id = Some (ch_state c)); [|congruence]. by apply (state_of_registered w1 id l c). }
    change (state_of w4 id) with (state_of w3 id). destruct sent as [t|].
    + right. destruct Hst as [-> | ->]; [left|by right]. destruct Hs as (_ & _ & Hh & _).
      rewrite (state_of_registered w2 id l (set_ch_state (state_after (action (ch_state c))) c)); [done|done|].
      rewrite Hh. apply lookup_insert_eq.
    + left. destruct Hs as (? & Hi & _). destruct Herr as [?|?]; [done|]. auto.
Qed.

(** An operation that succeeds has sent its message. *)
Lemma act_on_channel_sent action failure id ts message w w' :
  world_ok w -> addressable id = true -> act_on_channel action failure id ts message w = Some (ERROR_NONE, w') ->
  exists st t, state_of w id = Some st /\ 0 <= t /\ invalid_action st (action st) = false /\ state_of w' id = Some (state_after (action st)) /\
    conn_queued (w_connection w') = conn_queued (w_connection w) ++ format_message (message_of id st (action st) t message) /\
    (0 <= ts -> t = ts).
Proof.
  intros Hok Ha. unfold act_on_channel. destruct (lock_session_run w) as (ok & e & E & _ & _).
  erewrite bind_eq by exact E. destruct ok; red_if; [|done].
  set (w1 := with_env e _). assert (talked w w1 []) as Ht1 by by apply talked_quiet. pose proof (talked_ok _ _ _ Ht1) as Hok1.
  erewrite bind_eq by by apply lookup_channel_run. destruct (registered (w_channels w1) id) as [l|] eqn:Hl; [|done].
  destruct (ok_channels _ Hok1 id l Hl) as (c & Hc & Hid). erewrite bind_eq by by apply load_channel_run.
  destruct (send_channel_run l (action (ch_state c)) ts message w1 c (ok_connection _ Hok1) Hc) as (err & w2 & sent & Es & Hk & Hs & _ & _ & Hts).
  destruct (talked_sent _ _ _ _ _ _ _ _ _ Hok1 Hl Hc Hk Hs) as (ms & Ht2 & _).
  pose proof (talked_ok _ _ _ Ht2) as Hok2. erewrite bind_eq by exact Es.
  assert (registered (w_channels w2) id = Some l) as Hl2 by by rewrite (talked_registered _ _ _ _ Ht2).
  destruct (report_failure_run err id ts (Some failure) w2 l Hok2 Ha Hl2) as (w3 & ms' & E3 & _ & _ & _ & _ & Hnone).
  erewrite bind_eq by exact E3. erewrite bind_eq by apply unlock_session_run. intros [= -> <-]. rewrite (Hnone eq_refl) in *.
  destruct sent as [t|]; [|by destruct Hs]. destruct Hs as (Ht & Hinv & Hh & Hq). exists (ch_state c), t. split_and!; try done.
  - by apply (state_of_registered w1 id l c).
  - change (state_of _ id) with (state_of w2 id). apply (state_of_registered w2 id l (set_ch_state (state_after (action (ch_state c))) c)); [done|].
    rewrite Hh. apply lookup_insert_eq.
  - simpl. rewrite Hq, Hid. done.
  - by apply Hts.
Qed.
End Runs.

(** * What sending messages leaves alone *)

Section Respect.
Context {C : Type} `{Connection C} {X : Type}.
Implicit Types (w : world C X).

(** The part of the commands is untouched, and resources do not become scarcer. *)
Definition quiet w w' : Prop := w_ext w' = w_ext w /\ calmer (cs_env (w_channels w)) (cs_env (w_channels w')).

#[export] Instance quiet_preorder : PreOrder quiet.
Proof.
  split; [by intros w|]. intros w1 w2 w3 [E1 H1] [E2 H2]. split; [congruence|]. by etransitivity.
Qed.

Lemma quiet_channels {A} (m : M channels A) :
  respects (fun s s' => calmer (cs_env s) (cs_env s')) m -> respects quiet (on_channels m).
Proof. apply respects_zoom. by split. Qed.

Lemma quiet_env {A} (m : M env A) : respects calmer m -> respects quiet (on_env m).
Proof. intros Hm. apply quiet_channels, (respects_zoom _ calmer); [done|exact Hm]. Qed.

Lemma quiet_connection {A} (m : M C A) : respects quiet (on_connection m).
Proof. apply (respects_zoom _ (fun _ _ => True)); [by split|apply respects_any]. Qed.

Lemma quiet_update_session f : respects quiet (update_session f).
Proof. apply respects_modify. by split. Qed.

Lemma quiet_zmalloc n : respects quiet (on_env (zmalloc n)).
Proof. apply quiet_env. unfold zmalloc. respects_step. Qed.

#[local] Hint Resolve quiet_zmalloc quiet_connection quiet_update_session : respects.

Lemma quiet_lock : respects quiet (on_env mtx_lock_result).
Proof. apply quiet_env, respects_mtx_lock_result. Qed.

Lemma quiet_clock : respects quiet (on_env timespec_get).
Proof. apply quiet_env, respects_timespec_get. Qed.

#[local] Hint Resolve quiet_lock quiet_clock : respects.

Lemma quiet_lock_session : respects quiet lock_session.
Proof. unfold lock_session, session. respects_step. Qed.

Lemma quiet_unlock_session : respects quiet unlock_session.
Proof. apply quiet_update_session. Qed.

Lemma quiet_millis_since_reference : respects quiet millis_since_reference.
Proof. unfold millis_since_reference, session. respects_step. Qed.

Lemma quiet_session_send content : respects quiet (session_send content).
Proof. unfold session_send. respects_step. Qed.

Lemma quiet_load l : respects quiet (load_channel l).
Proof.
  apply quiet_channels. intros s c s'. unfold load. destruct (cs_heap s !! l); simpl; [|done]. by intros [= _ <-].
Qed.

Lemma store_same_env l c s s' : store l c s = Some (tt, s') -> cs_env s' = cs_env s.
Proof. unfold store. destruct (cs_heap s !! l); [|done]. by intros [= <-]. Qed.

Lemma quiet_update l f : respects quiet (update_channel l f).
Proof.
  apply quiet_channels. intros s [] s' (c & s1 & E & E')%bind_Some. unfold load in E.
  destruct (cs_heap s !! l); simpl in E; [|done]. injection E as _ <-. by rewrite (store_same_env _ _ _ _ E').
Qed.

Lemma get_channel_same id s c s' : get_channel id s = Some (c, s') -> s' = s.
Proof.
  unfold get_channel, read_subtable, read_slot. intros (sub & s1 & E & E')%bind_Some.
  destruct (in_table _); [|done]. injection E as <- <-. destruct (subtables _ !! _) as [sub|]; [|by injection E' as _ <-].
  destruct (in_subtable _); [|done]. by injection E' as _ <-.
Qed.

Lemma quiet_get_channel id : respects quiet (on_channels (get_channel id)).
Proof. apply quiet_channels. intros s c s' ->%get_channel_same. reflexivity. Qed.

#[local] Hint Resolve quiet_lock_session quiet_unlock_session quiet_millis_since_reference quiet_session_send quiet_load
  quiet_update quiet_get_channel : respects.

Lemma quiet_send_channel l action ts message : respects quiet (send_channel l action ts message).
Proof. unfold send_channel. respects_step. Qed.

#[local] Hint Resolve quiet_send_channel : respects.

Lemma quiet_error_channel id ts message : respects quiet (error_channel id ts message).
Proof. unfold error_channel. respects_step. Qed.

#[local] Hint Resolve quiet_error_channel : respects.

Lemma quiet_act_on_channel action failure id ts message : respects quiet (act_on_channel action failure id ts message).
Proof. unfold act_on_channel. respects_step. Qed.

Lemma quiet_request_channel_destruction id : respects quiet (on_channels (request_channel_destruction id)).
Proof.
  apply quiet_channels. intros s [] s'. unfold request_channel_destruction. intros (c & s1 & ->%get_channel_same & E)%bind_Some.
  destruct c as [l|]; [|by injection E as <-]. apply bind_Some in E as (c & s1 & E & E'). unfold load in E.
  destruct (cs_heap s !! l); simpl in E; [|done]. injection E as _ <-. by rewrite (store_same_env _ _ _ _ E').
Qed.
End Respect.

(** * Well-behaved computations *)

Section Behaviour.
Context {C : Type} `{ConnectionLaws C} {X : Type}.
Implicit Types (w : world C X) (id : Z).

(** What the server relies on when it lets a command act for channel [id] of a
    session: the command only talks on channels, configures commands, marks
    channels for destruction and acts on data of its own; it accesses memory
    rightly and releases every lock it takes. *)
Definition behaved_on id {A} (m : M (world C X) A) : Prop :=
  forall w, world_ok w -> addressable id = true -> is_Some (registered (w_channels w) id) ->
  exists a w' ms, m w = Some (a, w') /\ talked w w' ms /\ session_lock (w_session w') = session_lock (w_session w).

(** The same for a command that relies on an invariant [I] of its own, and keeps it. *)
Definition behaved_when (I : world C X -> Prop) id {A} (m : M (world C X) A) : Prop :=
  forall w, world_ok w -> I w -> addressable id = true -> is_Some (registered (w_channels w) id) ->
  exists a w' ms, m w = Some (a, w') /\ talked w w' ms /\ session_lock (w_session w') = session_lock (w_session w) /\ I w'.

Lemma behaved_on_when id {A} (m : M (world C X) A) : behaved_on id m -> behaved_when (fun _ => True) id m.
Proof. intros Hm w Hok _ Ha Hreg. destruct (Hm w Hok Ha Hreg) as (a & w' & ms & ? & ? & ?). by exists a, w', ms. Qed.

Lemma behaved_ret id {A} (a : A) : behaved_on id (mret a).
Proof. intros w Hok _ _. exists a, w, []. split; [done|]. by split; [apply talked_refl|]. Qed.

Lemma behaved_bind id {A B} (m : M (world C X) A) (f : A -> M (world C X) B) :
  behaved_on id m -> (forall a, behaved_on id (f a)) -> behaved_on id (m ≫= f).
Proof.
  intros Hm Hf w Hok Ha Hreg. destruct (Hm w Hok Ha Hreg) as (a & w1 & ms1 & E1 & Ht1 & Hl1).
  destruct (Hf a w1) as (b & w2 & ms2 & E2 & Ht2 & Hl2); [by eapply talked_ok|done|by rewrite (talked_registered _ _ _ _ Ht1)|].
  exists b, w2, (ms1 ++ ms2). erewrite bind_eq by exact E1. split; [done|]. split; [by eapply talked_trans|congruence].
Qed.

Lemma behaved_env id {A} (m : M env A) : total m -> behaved_on id (on_env m).
Proof.
  intros Hm w Hok _ _. destruct (Hm (env_of w)) as [[a e] E]. exists a, (with_env e w), [].
  split; [by apply on_env_eq|]. by split; [apply talked_env|].
Qed.

Lemma behaved_session id : behaved_on id session.
Proof. intros w Hok _ _. eexists _, w, []. split; [done|]. by split; [apply talked_refl|]. Qed.

Lemma behaved_if id {A} (b : bool) (m m' : M (world C X) A) : behaved_on id m -> behaved_on id m' -> behaved_on id (if b then m else m').
Proof. by destruct b. Qed.

Lemma behaved_option id {A B} (o : option A) (f : A -> M (world C X) B) m :
  (forall a, behaved_on id (f a)) -> behaved_on id m -> behaved_on id (match o with Some a => f a | None => m end).
Proof. destruct o; auto. Qed.

Lemma behaved_act id action failure ts message : behaved_on id (act_on_channel action failure id ts message).
Proof.
  intros w Hok Ha [l Hl]. destruct (act_on_channel_run action failure id ts message w Hok Ha) as (err & w' & ms & E & Ht & _ & Hlock & _).
  exists err, w', ms. unfold lock_after in Hlock. by rewrite Hl in Hlock.
Qed.

Lemma behaved_confirm id ts message : behaved_on id (confirm_channel id ts message).
Proof. apply behaved_act. Qed.
Lemma behaved_continue id ts message : behaved_on id (continue_channel id ts message).
Proof. apply behaved_act. Qed.
Lemma behaved_finish id ts message : behaved_on id (finish_channel id ts message).
Proof. apply behaved_act. Qed.

Lemma behaved_error id ts message : behaved_on id (error_channel id ts message).
Proof.
  intros w Hok Ha [l Hl]. destruct (error_channel_run id ts message w Hok Ha) as (err & w' & ms & E & Ht & _ & Hlock & _).
  exists err, w', ms. unfold lock_after in Hlock. by rewrite Hl in Hlock.
Qed.

(** A computation under the session lock that only replaces the configurations. *)
Lemma behaved_set_configuration id name config : behaved_on id (set_command_configuration name config).
Proof.
  intros w Hok _ _. unfold set_command_configuration.
  destruct name as [name|], config as [config|]; try (by eexists _, w, []; split; [done|]; split; [apply talked_refl|]).
  destruct (lock_session_run w) as (ok & e & E & _ & _). erewrite bind_eq by exact E.
  destruct ok; red_if; [|by eexists _, _, []; split; [done|]; split; [apply talked_env|]].
  erewrite bind_eq by reflexivity. set (w1 := with_env e _).
  destruct (total_hashmap_put (command_configs (w_session w1)) name (Some config) None (env_of w1)) as [[[[ok old] m] e1] E1].
  erewrite bind_eq by by apply on_env_eq. cbv beta iota.
  erewrite bind_eq by reflexivity. erewrite bind_eq by reflexivity.
  eexists _, _, []. split; [reflexivity|]. split; [|simpl; lia].
  destruct Hok. split; try done.
  - by rewrite app_nil_r.
  - intros ?. constructor.
Qed.

Lemma behaved_get_configuration id name : behaved_on id (get_command_configuration name).
Proof.
  intros w Hok _ _. unfold get_command_configuration.
  destruct name as [name|]; [|by eexists _, w, []; split; [done|]; split; [apply talked_refl|]].
  destruct (lock_session_run w) as (ok & e & E & _ & _). erewrite bind_eq by exact E.
  destruct ok; red_if; [|by eexists _, _, []; split; [done|]; split; [apply talked_env|]].
  erewrite bind_eq by reflexivity. erewrite bind_eq by apply unlock_session_run. eexists _, _, []. split; [reflexivity|].
  set (w1 := with_env e _). assert (talked w w1 []) as Ht by by apply talked_quiet.
  split; [|simpl; lia]. apply (talked_trans w w1 _ [] []); [done|]. apply talked_quiet, (talked_ok _ _ _ Ht).
Qed.
End Behaviour.

#[export] Hint Resolve behaved_ret behaved_env behaved_session behaved_confirm behaved_continue behaved_finish behaved_error
  behaved_set_configuration behaved_get_configuration : xprc.

(** Proves that the body of a definition is well-behaved. *)
Ltac behaved_step :=
  repeat first
    [ match goal with
      | |- behaved_on _ (mbind _ _) => apply behaved_bind; [|intros ?]
      | |- behaved_on _ (mret _) => apply behaved_ret
      | |- behaved_on _ (when _ _) => unfold when
      | |- behaved_on _ (let '(_, _) := ?x in _) => destruct x as [??]
      | |- behaved_on _ (if _ then _ else _) => apply behaved_if
      | |- behaved_on _ (match _ with _ => _ end) => apply behaved_option; [intros ?|]
      end
    | solve [eauto with xprc] ].

(** * Properties *)

Inductive channel_operation :=
  | Confirm (id timestamp : Z) (message : option cstr)
  | Continue (id timestamp : Z) (message : option cstr)
  | Finish (id timestamp : Z) (message : option cstr)
  | Report (id timestamp : Z) (message : option cstr).

Definition operation_channel (op : channel_operation) : Z :=
  match op with Confirm id _ _ | Continue id _ _ | Finish id _ _ | Report id _ _ => id end.

Definition run_operation {C} `{Connection C} {X} (op : channel_operation) : M (world C X) error_t :=
  match op with
  | Confirm id ts message => confirm_channel id ts message
  | Continue id ts message => continue_channel id ts message
  | Finish id ts message => finish_channel id ts message
  | Report id ts message => error_channel id ts message
  end.

Lemma run_operation_talks {C} `{ConnectionLaws C} {X} (op : channel_operation) (w : world C X) :
  world_ok w -> addressable (operation_channel op) = true ->
  exists err w' ms, run_operation op w = Some (err, w') /\ talked w w' ms /\
    messages_on (operation_channel op) ms = ms.*1 /\ lock_after w w' (operation_channel op) err.
Proof.
  intros Hok Ha. destruct op as [id ts m|id ts m|id ts m|id ts m]; cbn [run_operation operation_channel] in *.
  4:{ destruct (error_channel_run id ts m w Hok Ha) as (err & w' & ms & ? & ? & ? & ? & _). by exists err, w', ms. }
  all: edestruct (act_on_channel_run (C := C) (X := X)) as (err & w' & ms & ? & ? & ? & ? & _); [exact Hok|exact Ha|by exists err, w', ms].
Qed.

(** C2: Whatever messages the commands of a session try to send on whatever
    channels, in any order and whatever locks, clocks, allocations and the
    connection do, the lines handed to the connection follow the channel
    protocol on every channel - the first message acknowledges or reports an
    error, an error closes the channel, nothing is sent on a closed or missing
    channel - and what the connection queues is the text of the lines it took. *)
Theorem session_follows_protocol {C} `{ConnectionLaws C} {X} (ops : list channel_operation) (w : world C X) :
  world_ok w -> Forall (fun op => addressable (operation_channel op) = true) ops ->
  exists w' ms, for_each (fun op => _ ← run_operation op; mret tt) ops w = Some (tt, w') /\ world_ok w' /\
    conn_queued (w_connection w') = conn_queued (w_connection w) ++ text_of ms /\
    forall id, conforms (state_of w id) (messages_on id ms) (state_of w' id).
Proof.
  intros Hok Hops.
  assert (exists w' ms, for_each (fun op => _ ← run_operation op; mret tt) ops w = Some (tt, w') /\ talked w w' ms)
    as (w' & ms & E & []); [|by exists w', ms].
  revert w Hok. induction Hops as [|op ops Ha _ IH]; intros w Hok.
  { exists w, []. split; [done|by apply talked_refl]. }
  destruct (run_operation_talks op w Hok Ha) as (err & w1 & ms1 & E & Ht & _).
  destruct (IH w1 (talked_ok _ _ _ Ht)) as (w2 & ms2 & E2 & Ht2).
  exists w2, (ms1 ++ ms2). split; [|by eapply talked_trans]. simpl.
  erewrite bind_eq by (erewrite bind_eq by exact E; reflexivity). exact E2.
Qed.

(** C12: An operation on a registered channel leaves the session lock as it found
    it; on a channel that does not exist it fails, and if it got the lock it
    keeps it. *)
Theorem channel_operations_lock {C} `{ConnectionLaws C} {X} (op : channel_operation) (w : world C X) :
  world_ok w -> addressable (operation_channel op) = true ->
  run (run_operation op) w (fun err w' =>
    match registered (w_channels w) (operation_channel op) with
    | Some _ => session_lock (w_session w') = session_lock (w_session w)
    | None =>
        (err = ERROR_MUTEX_FAILED /\ session_lock (w_session w') = session_lock (w_session w)) \/
        (err = SESSION_ERROR_NO_SUCH_CHANNEL /\ session_lock (w_session w') = session_lock (w_session w) + 1)
    end).
Proof.
  intros Hok Ha. destruct (run_operation_talks op w Hok Ha) as (err & w' & ms & E & _ & _ & Hl).
  by apply (run_eq _ _ _ _ _ E).
Qed.

(** A logged-in session with one initial channel, [AAAA], and a connection. *)
Definition demo_channel : Z := string_to_channel_id (Some (lit "AAAA")).

Definition demo_channels : channels :=
  mkChannels {[1%positive := mkChannel demo_channel CHANNEL_STATE_INITIAL false None None]}
    (mkTable false {[channel_table_address demo_channel := {[channel_subtable_address demo_channel := 1%positive]}]}) calm.

Definition demo_world : world network_connection_t unit :=
  mkWorld (mkSession (mkTimespec 0 0) 0 SESSION_PHASE_LOGGED_IN 1 (mkMap ∅) 0 false) demo_channels new_network_connection tt.

Lemma demo_world_ok : world_ok demo_world.
Proof.
  split.
  - by repeat split.
  - intros a st Hst. cbn in Hst. apply lookup_singleton_Some in Hst as [_ <-]. split; [by intros ?%(f_equal (lookup (channel_subtable_address demo_channel)))|].
    intros b [l Hb]. by apply lookup_singleton_Some in Hb as [<- _].
  - intros id l Hl. unfold registered in Hl. apply option.bind_Some in Hl as (st & Hst & Hl).
    cbn in Hst. apply lookup_singleton_Some in Hst as [Ht <-]. apply lookup_singleton_Some in Hl as [Hs <-].
    eexists. split; [done|]. by apply address_inj.
Qed.

Definition demo_operations : list channel_operation :=
  [Confirm demo_channel 5 None; Confirm demo_channel 6 None; Continue demo_channel 7 (Some (lit "1;2"));
   Finish demo_channel 8 None; Continue demo_channel 9 (Some (lit "late"))].

Lemma session_follows_protocol_witness :
  exists w' ms, for_each (fun op => _ ← run_operation op; mret tt) demo_operations demo_world = Some (tt, w') /\ world_ok w' /\
    conn_queued (w_connection w') = conn_queued (w_connection demo_world) ++ text_of ms /\
    forall id, conforms (state_of demo_world id) (messages_on id ms) (state_of w' id).
Proof. apply (session_follows_protocol demo_operations demo_world demo_world_ok). by repeat constructor. Defined.

Lemma channel_operations_lock_witness :
  run (run_operation (Confirm 7 0 None)) demo_world (fun err w' =>
    match registered (w_channels demo_world) 7 with
    | Some _ => session_lock (w_session w') = session_lock (w_session demo_world)
    | None =>
        (err = ERROR_MUTEX_FAILED /\ session_lock (w_session w') = session_lock (w_session demo_world)) \/
        (err = SESSION_ERROR_NO_SUCH_CHANNEL /\ session_lock (w_session w') = session_lock (w_session demo_world) + 1)
    end).
Proof. apply (channel_operations_lock (Confirm 7 0 None) demo_world demo_world_ok). reflexivity. Defined.

(** The timestamp of a message is its decimal text as long as it fits an
    [int]; later it is cut off, to a single digit from [2^32] milliseconds
    (about 49.7 days) on. *)
Theorem message_timestamp id st action t message :
  0 <= t ->
  (t <= INT_MAX -> m_time (message_of id st action t message) = print_dec t) /\
  (2 ^ 32 <= t < 2 ^ 32 + 10 -> len (m_time (message_of id st action t message)) = 1 /\ len (print_dec t) = 10).
Proof.
  intros H0. unfold message_of. cbn [m_time]. split.
  - intros Hmax. rewrite wrap_s_int by (unfold in_int, INT_MIN; lia). rewrite num_digits_print by lia.
    apply take_ge. unfold strlen. lia.
  - intros Ht. change (2 ^ 32) with 4294967296 in Ht.
    assert (t = 4294967296 \/ t = 4294967297 \/ t = 4294967298 \/ t = 4294967299 \/ t = 4294967300 \/
            t = 4294967301 \/ t = 4294967302 \/ t = 4294967303 \/ t = 4294967304 \/ t = 4294967305) as Hcases by lia.
    clear -Hcases. repeat destruct Hcases as [-> |Hcases]; subst; split; reflexivity.
Qed.

Lemma message_timestamp_witness :
  let t := 2 ^ 32 + 7 in
  (t <= INT_MAX -> m_time (message_of 0 CHANNEL_STATE_INITIAL CHANNEL_ACTION_ERR t None) = print_dec t) /\
  (2 ^ 32 <= t < 2 ^ 32 + 10 ->
   len (m_time (message_of 0 CHANNEL_STATE_INITIAL CHANNEL_ACTION_ERR t None)) = 1 /\ len (print_dec t) = 10).
Proof. intros t. apply (message_timestamp 0 CHANNEL_STATE_INITIAL CHANNEL_ACTION_ERR t None). discriminate. Defined.

(** ** Reading messages *)

(** A message of a channel that a client can have opened. *)
Record sendable (m : message_t) : Prop := mkSendable {
  sendable_id : exists text, valid_id_text text = true /\ m_id m = string_to_channel_id (Some text);
  sendable_time : Forall (fun c => is_digit c = true) (m_time m);
}.

Lemma valid_id_text_string text : valid_id_text text = true ->
  exists a b c d, channel_id_to_string (string_to_channel_id (Some text)) = [a; b; c; d] /\
    alphanumeric d = true /\ string_to_channel_id (Some [a; b; c; d]) = string_to_channel_id (Some text).
Proof.
  intros Hv. destruct (valid_id_segments text Hv) as (a & b & c & d & ca & cb & cc & cd & t & Htext & _ & _ & _ & _ & _ & _ & _ & _ & E & E').
  exists ca, cb, cc, cd. rewrite Htext in Hv. simpl in Hv. split; [by rewrite E|].
  split; [by apply andb_prop in Hv as [_ ?]|]. rewrite Htext, !string_to_channel_id_eq. done.
Qed.

Fixpoint span_digits (s : cstr) : cstr * cstr :=
  match s with
  | c :: s' => if is_digit c then let '(d, r) := span_digits s' in (c :: d, r) else ([], s)
  | [] => ([], [])
  end.

Definition strip_prefix (s : cstr) : option prefix_t * cstr :=
  if strncmp_eq s (lit "ACK ") 4 then (Some ACK, drop 4 s)
  else if strncmp_eq s (lit "ERR ") 4 then (Some ERR, drop 4 s)
  else (None, s).

(** How a client reads a line (which ends with a line feed). *)
Definition parse_message (line : cstr) : option message_t :=
  match line with
  | [] => None
  | sign :: rest =>
      let '(prefix, rest) := strip_prefix rest in
      let '(time, text) := span_digits (drop 5 rest) in
      Some (mkMessage (string_to_channel_id (Some rest)) (bool_decide (sign = "+"%char)) prefix time
              (removelast (tail text)))
  end.

Lemma span_digits_app d c r :
  Forall (fun c => is_digit c = true) d -> is_digit c = false -> span_digits (d ++ c :: r) = (d, c :: r).
Proof. intros Hd Hc. induction Hd as [|x d Hx _ IH]; simpl; [by rewrite Hc|]. by rewrite Hx, IH. Qed.

Lemma strip_prefix_id a b c d r : alphanumeric d = true -> strip_prefix (a :: b :: c :: d :: r) = (None, a :: b :: c :: d :: r).
Proof.
  intros Hd. assert (d <> " "%char) by by intros ->. unfold strip_prefix, strncmp_eq.
  by rewrite !bool_decide_eq_false_2 by (intros Heq; vm_compute in Heq; congruence).
Qed.

Lemma parse_format m : sendable m -> parse_message (format_message m) = Some m.
Proof.
  intros [(text & Hv & Hid) Htime]. destruct (valid_id_text_string text Hv) as (a & b & c & d & E & Hd & Eid).
  assert (forall r, string_to_channel_id (Some (a :: b :: c :: d :: r)) = m_id m) as Hr.
  { intros r. rewrite Hid, <-Eid, !string_to_channel_id_eq. done. }
  unfold format_message, parse_message. rewrite Hid, E.
  set (rest := [a; b; c; d] ++ _).
  replace (strip_prefix _) with (m_prefix m, rest).
  2:{ destruct (m_prefix m) as [[]|]; [done|done|]. unfold rest. simpl app. by rewrite strip_prefix_id. }
  unfold rest. cbn [app drop]. cbv beta iota. rewrite Hr, drop_0.
  assert (bool_decide ((if m_continues m then "+"%char else "-"%char) = "+"%char) = m_continues m) as ->
    by by destruct (m_continues m).
  destruct m as [id cont pre time txt]. cbn [m_id m_continues m_prefix m_time m_text] in *.
  destruct txt as [|x txt].
  - change (0 <? strlen []) with false. cbn [app]. by rewrite span_digits_app.
  - rewrite (proj2 (Z.ltb_lt 0 _)) by (unfold strlen; simpl; lia). cbn [app].
    rewrite span_digits_app by done. cbn [tail]. by rewrite app_comm_cons, removelast_last.
Qed.

Lemma id_text_one_line text : valid_id_text text = true -> chr 10 ∉ channel_id_to_string (string_to_channel_id (Some text)).
Proof.
  intros Hv. destruct (valid_id_text_string text Hv) as (a & b & c & d & E & _ & _).
  destruct (valid_id_segments text Hv) as (? & ? & ? & ? & ca & cb & cc & cd & r & Ht & _ & _ & _ & _ & _ & _ & _ & _ & E1 & E2).
  rewrite Ht in Hv. simpl in Hv. rewrite E1, E2, !not_elem_of_cons. bools. split_and!; try (by intros <-). apply not_elem_of_nil.
Qed.

Lemma message_one_line m : sendable m -> (chr 10 ∉ m_text m) -> exists line, format_message m = line ++ [chr 10] /\ (chr 10 ∉ line).
Proof.
  intros [(text & Hv & Hid) Htime] Hlf. eexists ((if m_continues m then "+"%char else "-"%char)
    :: match m_prefix m with Some ACK => lit "ACK " | Some ERR => lit "ERR " | None => [] end
    ++ channel_id_to_string (m_id m) ++ " "%char :: m_time m ++ (if 0 <? strlen (m_text m) then " "%char :: m_text m else [])). split.
  - unfold format_message. cbn [app]. f_equal. repeat (rewrite <-?app_assoc; cbn [app]). done.
  - rewrite !elem_of_cons, !elem_of_app, !elem_of_cons, elem_of_app. rewrite Hid.
    intros [E|[E|[E|[E|[E|E]]]]].
    + by destruct (m_continues m).
    + destruct (m_prefix m) as [[]|]; set_solver.
    + by apply (id_text_one_line text Hv).
    + done.
    + by apply (proj1 (Forall_forall _ _) Htime) in E.
    + destruct (0 <? strlen (m_text m)); [|by apply elem_of_nil in E]. apply elem_of_cons in E as [E|E]; done.
Qed.

(** A client can read every channel message back, whatever the command sends, as
    long as it is one line and the session is younger than 2^31 milliseconds (above
    that the timestamp is cut off): what [send_channel] writes is one line, from which
    the client gets whether the channel continues, whether the message acknowledges or
    reports an error (told by the first message, by messages without a text and by
    errors), the channel, the time and the text. *)
Theorem message_roundtrip (id : Z) (st : channel_state_t) (action : channel_action_t) (t : Z) (message : option cstr) (name : cstr) :
  valid_id_text name = true -> id = string_to_channel_id (Some name) -> 0 <= t <= INT_MAX -> (chr 10 ∉ default [] message) ->
  exists line, channel_message id st action t message = line ++ [chr 10] /\ (chr 10 ∉ line) /\
    parse_message (line ++ [chr 10]) =
      Some (mkMessage id (bool_decide (action = CHANNEL_ACTION_CONTINUE \/ action = CHANNEL_ACTION_ACK_CONTINUE))
        (if bool_decide (default [] message = [] \/ st = CHANNEL_STATE_INITIAL \/ action = CHANNEL_ACTION_ERR)
         then Some (if bool_decide (action = CHANNEL_ACTION_ERR) then ERR else ACK) else None)
        (print_dec t) (default [] message)).
Proof.
  intros Hv Hid [H0 Hmax] Hlf. pose proof (proj1 (message_timestamp id st action t message H0) Hmax) as Htime.
  set (m := message_of id st action t message) in *.
  assert (sendable m) as Hs.
  { split; [by exists name|]. rewrite Htime. apply Forall_forall. intros c Hc. by apply (print_dec_digit t). }
  destruct (message_one_line m Hs Hlf) as (line & E & Hline). exists line. rewrite format_message_of. fold m.
  split; [done|]. split; [done|]. rewrite <-E, parse_format by done. f_equal.
  assert (m = mkMessage (m_id m) (m_continues m) (m_prefix m) (m_time m) (m_text m)) as -> by by destruct m.
  rewrite Htime. unfold m, message_of. cbn [m_id m_continues m_prefix m_text]. f_equal.
  - by destruct action.
  - unfold needs_state_prefix, is_initial, is_action.
    assert ((strlen (default [] message) =? 0) = bool_decide (default [] message = [])) as ->.
    { case_bool_decide as Hm; [by rewrite Hm|]. apply Z.eqb_neq. unfold strlen. destruct (default [] message); [done|simpl; lia]. }
    rewrite <-orb_assoc, <-!bool_decide_or. done.
Qed.

Lemma message_roundtrip_witness :
  parse_message (channel_message demo_channel CHANNEL_STATE_CONFIRMED CHANNEL_ACTION_CONTINUE 1500 (Some (lit "a;b c"))) =
    Some (mkMessage demo_channel true None (lit "1500") (lit "a;b c")).
Proof.
  destruct (message_roundtrip demo_channel CHANNEL_STATE_CONFIRMED CHANNEL_ACTION_CONTINUE 1500 (Some (lit "a;b c")) (lit "AAAA"))
    as (line & -> & _ & ->); [reflexivity|reflexivity|done|apply (bool_decide_unpack _); by vm_compute|reflexivity].
Defined.
