(* ===== verification/Server.v ===== *)
(** The server's side of a session ([server.c]): handshake, requests, channel
    maintenance, and the list of sessions.

    The handlers act on the [world] of a session whose commands share an [ext]:
    the task schedule with the heap of its queues and data [Y] of their own. The
    password and the command factory are those of the server's configuration. *)

From S2P Require Import Prelude CLib Utils Hashmap Channels Requests Lists Prealloc TaskSchedule Network Command Session.

Definition SERVER_PROTOCOL_VERSION : Z := 1.
Definition REFERENCE_COARSE_TIMESTAMP_BUFFER_SIZE : Z := 30.
Definition HANDSHAKE_COMPLETION_BUFFER_SIZE : Z := 50.

(** * The commands' part of the world *)

Record ext (Y : Type) := mkExt {
  x_schedule : task_schedule_t;
  x_items : gmap loc (prealloc_list_item_t loc unit);
  x_calls : list (unit * option loc);
  x_data : Y;
}.
Arguments mkExt {Y}.
Arguments x_schedule {Y}.
Arguments x_items {Y}.
Arguments x_calls {Y}.
Arguments x_data {Y}.

Section World.
Context {C : Type} `{Connection C} {Y : Type}.

Definition set_ext (x : ext Y) (w : world C (ext Y)) : world C (ext Y) :=
  mkWorld (w_session w) (w_channels w) (w_connection w) x.

Definition task_heap_of (w : world C (ext Y)) : task_heap :=
  mkPHeap (x_items (w_ext w)) (x_calls (w_ext w)) (cs_env (w_channels w)).
Definition set_task_heap (h : task_heap) (w : world C (ext Y)) : world C (ext Y) :=
  mkWorld (w_session w) (mkChannels (cs_heap (w_channels w)) (cs_table (w_channels w)) (ph_env h)) (w_connection w)
    (mkExt (x_schedule (w_ext w)) (ph_items h) (ph_calls h) (x_data (w_ext w))).

#[export] Instance world_schedule : HasSchedule (world C (ext Y)) := {
  schedule_of w := x_schedule (w_ext w);
  with_schedule s w := set_ext (mkExt s (x_items (w_ext w)) (x_calls (w_ext w)) (x_data (w_ext w))) w;
  schedule_env A m := on_env m;
  schedule_heap A m := zoom task_heap_of set_task_heap m;
}.

#[export] Instance world_schedule_laws : ScheduleLaws (world C (ext Y)).
Proof.
  refine {| th_of := task_heap_of; with_th := set_task_heap |}; try done.
  - by intros [].
  - by intros [? [] ? []].
  - intros A m w. cbn [schedule_env schedule_heap world_schedule]. unfold zoom, p_env, on_env, on_channels, in_env, zoom.
    destruct w as [? [] ? []]. simpl. by destruct (m cs_env) as [[??]|].
Defined.
End World.

Section Server.
Context {C : Type} `{Connection C} {Y : Type}.
Abbreviation W := (world C (ext Y)).
Context (factory : command_factory_t W) (password : cstr).

(** [dynamic_vsprintf] on the text the format produces, then send. *)
Definition send_or_close (text : cstr) : M W unit :=
  msg ← on_env (dynamic_sprintf text);
  match msg with
  | None => session_close
  | Some msg =>
      err ← session_send msg;
      when (negb (err =? ERROR_NONE)) session_close
  end.

(** * Requests *)

Definition channel_failure (channel_name : cstr) (timestamp : Z) (reason : cstr) : cstr :=
  lit "-ERR " ++ channel_name ++ lit " " ++ print_dec timestamp ++ lit " " ++ reason ++ [chr 10].

(** [channel_t *channel = zmalloc(sizeof(channel_t))], with its ID and state set. *)
Definition alloc_channel (id : Z) : M W (option loc) :=
  ok ← on_env (zmalloc 32);
  if negb ok then mret None
  else
    on_channels (fun s =>
      let l := fresh (dom (cs_heap s)) in
      Some (Some l, mkChannels (<[l := mkChannel id CHANNEL_STATE_INITIAL false None None]> (cs_heap s)) (cs_table s) (cs_env s))).

Definition refuse_request (channel_name reason : cstr) : M W unit :=
  timestamp ← millis_since_reference;
  send_or_close (channel_failure channel_name timestamp reason).

(** [err] is none, or tells that the command has closed the channel itself. *)
Definition closed_anyway (err : error_t) : bool := (err =? ERROR_NONE) || (err =? SESSION_ERROR_INVALID_CHANNEL_STATE).

(** What follows the last message of a channel whose command did not start or
    has already completed. *)
Definition clear_channel (channel : loc) (err : error_t) : M W unit :=
  if negb (closed_anyway err) then session_close
  else
    c ← load_channel channel;
    popped ← on_channels (pop_channel (ch_id c));
    when (negb (bool_decide (is_Some popped))) session_close.

Definition handle_command_request (request : request_t) : M W unit :=
  let channel_name := channel_id_to_string (req_channel_id request) in
  busy ← on_channels (has_channel (req_channel_id request));
  if busy : bool then refuse_request channel_name (lit "channel busy")
  else
    channel ← alloc_channel (req_channel_id request);
    match channel with
    | None => refuse_request channel_name (lit "channel creation failed")
    | Some channel =>
        registered ← on_channels (put_channel channel);
        if negb registered then refuse_request channel_name (lit "channel registration failed")
        else
          err ← create_command factory channel request;
          c ← load_channel channel;
          if negb (err =? ERROR_NONE) then
            err ← error_channel (ch_id c) CURRENT_TIME_REFERENCE (Some (lit "command creation failed"));
            clear_channel channel err
          else if bool_decide (ch_command_ref c = None) then
            err ← finish_channel (ch_id c) CURRENT_TIME_REFERENCE None;
            clear_channel channel err
          else mret tt
    end.

Definition termination_ignored (timestamp : Z) (channel_name : cstr) : cstr :=
  lit "*ERR " ++ print_dec timestamp ++ lit " termination request ignored, channel does not exist: " ++ channel_name ++ [chr 10].

Definition ignore_termination (channel_name : cstr) : M W unit :=
  timestamp ← millis_since_reference;
  send_or_close (termination_ignored timestamp channel_name).

Definition handle_termination_request (request : request_t) : M W unit :=
  let channel_name := channel_id_to_string (req_channel_id request) in
  channel ← on_channels (get_channel (req_channel_id request));
  match channel with
  | None => ignore_termination channel_name
  | Some channel =>
      c ← load_channel channel;
      if is_closed (ch_state c) || ch_destruction_requested c then ignore_termination channel_name
      else
        command ← from_ub (descriptor factory (ch_command c));
        err ← cmd_terminate command (ch_command_ref c);
        when (negb (err =? ERROR_NONE)) session_close
  end.

(** If the session cannot be locked the schedule stays locked. *)
Definition handle_request (request : request_t) : M W unit :=
  err ← lock_schedule;
  if negb (err =? ERROR_NONE) then session_close
  else
    locked ← lock_session;
    if negb locked then session_close
    else
      _ ← (if str_eq (lit "TERM") (req_command_name request) then handle_termination_request request
           else handle_command_request request);
      _ ← unlock_session;
      unlock_schedule.

(** * Handshake *)

Definition set_phase (p : Z) : M W unit :=
  update_session (fun s => mkSession (reference_time s) (reference_millis s) p (client_version s) (command_configs s)
                             (session_lock s) (session_destruction_pending s)).
Definition set_client_version (v : Z) : M W unit :=
  update_session (fun s => mkSession (reference_time s) (reference_millis s) (phase s) v (command_configs s)
                             (session_lock s) (session_destruction_pending s)).
Definition set_reference (t : timespec) (millis : Z) : M W unit :=
  update_session (fun s => mkSession t millis (phase s) (client_version s) (command_configs s)
                             (session_lock s) (session_destruction_pending s)).

Definition fail_handshake : M W unit := _ ← set_phase SESSION_PHASE_FAILED; session_close.

Definition handshake_error (reason : cstr) : cstr :=
  lit "v" ++ print_dec SERVER_PROTOCOL_VERSION ++ lit ";ERR:" ++ reason ++ [chr 10].

Definition reject_handshake (reason : cstr) : M W unit :=
  _ ← set_phase SESSION_PHASE_FAILED;
  _ ← session_send (handshake_error reason);
  session_close.

Definition internal_error : cstr := lit "internal server error".
Definition unsupported_version : cstr := lit "unsupported protocol version".

Definition handshake_completion (coarse_timestamp : cstr) (timestamp_millis : Z) : cstr :=
  lit "v" ++ print_dec SERVER_PROTOCOL_VERSION ++ lit ";OK;" ++ coarse_timestamp ++ lit "."
  ++ print_padded 3 timestamp_millis ++ lit "+00:00" ++ [chr 10].

Definition on_version_line (line : list ascii) (length : Z) : M W unit :=
  if (length <? 2) || negb (bool_decide (head line = Some "v"%char)) then fail_handshake
  else
    let version := atoi (c_str (tail line)) in
    _ ← set_client_version version;
    if negb (num_digits version =? length - 1) then fail_handshake
    else set_phase SESSION_PHASE_AWAIT_PASSWORD.

(** [strftime] and [snprintf] fail if their buffers are too small. *)
Definition complete_handshake : M W unit :=
  s ← session;
  let t := reference_time s in
  coarse_timestamp ← from_ub (iso_time (tv_sec t));
  if REFERENCE_COARSE_TIMESTAMP_BUFFER_SIZE - 1 <=? strlen coarse_timestamp then reject_handshake internal_error
  else
    let timestamp_millis := Z.quot (tv_nsec t) 1000000 in
    let handshake_completion_buffer := handshake_completion coarse_timestamp timestamp_millis in
    if HANDSHAKE_COMPLETION_BUFFER_SIZE <=? strlen handshake_completion_buffer then reject_handshake internal_error
    else
      err ← session_send handshake_completion_buffer;
      if negb (err =? ERROR_NONE) then fail_handshake else set_phase SESSION_PHASE_LOGGED_IN.

Definition on_password_line (line : list ascii) (length : Z) : M W unit :=
  if length <=? 0 then fail_handshake
  else
    let expected_password_length := strlen password in
    if negb (length =? expected_password_length) || negb (strncmp_eq (c_str line) password expected_password_length)
    then fail_handshake
    else
      s ← session;
      if negb (client_version s =? SERVER_PROTOCOL_VERSION) then reject_handshake unsupported_version
      else
        now ← on_env timespec_get;
        match now with
        | None => reject_handshake internal_error
        | Some now =>
            _ ← set_reference now (millis_of_timespec (Some now));
            if millis_of_timespec (Some now) <? 0 then reject_handshake internal_error else complete_handshake
        end.

Definition invalid_syntax (timestamp : Z) : cstr := lit "*ERR " ++ print_dec timestamp ++ lit " invalid syntax" ++ [chr 10].

Definition on_request_line (line : list ascii) (length : Z) : M W unit :=
  '(err, request) ← on_env (parse_request line length);
  if negb (err =? ERROR_NONE) then
    timestamp ← millis_since_reference;
    send_or_close (invalid_syntax timestamp)
  else
    request ← from_ub request;
    handle_request request.

(** [line] is the whole line buffer, [length] the length of the line in it. *)
Definition on_line_received (line : list ascii) (length : Z) : M W unit :=
  s ← session;
  if phase s =? SESSION_PHASE_LOGGED_IN then on_request_line line length
  else if phase s =? SESSION_PHASE_FAILED then mret tt
  else if phase s =? SESSION_PHASE_AWAIT_VERSION then on_version_line line length
  else if phase s =? SESSION_PHASE_AWAIT_PASSWORD then on_password_line line length
  else set_phase SESSION_PHASE_FAILED.

(** * Maintenance *)

(** The slots of subtable [i] from [j] on, [n] of them. Returns whether the walk
    over all subtables goes on. *)
Fixpoint destroy_pending_slots (n : nat) (i j : Z) : M W bool :=
  match n with
  | O => mret true
  | S n' =>
      subtable ← on_channels (read_subtable i);
      subtable ← from_ub subtable;
      channel ← on_channels (read_slot subtable j);
      match channel with
      | None => destroy_pending_slots n' i (j + 1)
      | Some channel =>
          c ← load_channel channel;
          if negb (ch_destruction_requested c) then destroy_pending_slots n' i (j + 1)
          else
            err ← match descriptor factory (ch_command c) with
                  | Some command => cmd_destroy command (ch_command_ref c)
                  | None => mret ERROR_NONE
                  end;
            if negb (err =? ERROR_NONE) then mret false
            else
              c ← load_channel channel;
              popped ← on_channels (pop_channel (ch_id c));
              if negb (bool_decide (is_Some popped)) then mret false
              else
                subtable ← on_channels (read_subtable i);
                match subtable with
                | None => mret true
                | Some _ => destroy_pending_slots n' i (j + 1)
                end
      end
  end.

(** [n] subtables from [i] on. *)
Fixpoint destroy_pending_subtables (n : nat) (i : Z) : M W unit :=
  match n with
  | O => mret tt
  | S n' =>
      subtable ← on_channels (read_subtable i);
      match subtable with
      | None => destroy_pending_subtables n' (i + 1)
      | Some _ =>
          go_on ← destroy_pending_slots (Z.to_nat CHANNELS_SEGMENT) i 0;
          if go_on : bool then destroy_pending_subtables n' (i + 1) else mret tt
      end
  end.

Definition destroy_pending_channels : M W unit := destroy_pending_subtables (Z.to_nat CHANNELS_NUM_SUBTABLES) 0.

(** The body of the loop of [maintain_server]. *)
Definition maintain_session (out_err : error_t) : M W error_t :=
  locked ← lock_session;
  if negb locked then mret ERROR_MUTEX_FAILED
  else
    _ ← destroy_pending_channels;
    _ ← unlock_session;
    mret out_err.
End Server.

(** * Handshake *)

Section Handshake.
Context {C : Type} `{ConnectionLaws C} {Y : Type}.
Abbreviation W := (world C (ext Y)).
Context (factory : command_factory_t W) (password : cstr).
Implicit Types (w : W).

(** A clock that is not millions of years ahead. *)
Definition clock_ok (t : option timespec) : Prop :=
  match t with Some t => tv_sec t < 2 ^ 50 /\ 0 <= tv_nsec t < 1000000000 | None => True end.

(** What the handshake leaves alone: no channel, no command configuration,
    nothing of the commands. *)
Record outside w w' : Prop := mkOutside {
  outside_ok : conn_ok (w_connection w');
  outside_heap : heap_of w' = heap_of w;
  outside_table : cs_table (w_channels w') = cs_table (w_channels w);
  outside_ext : w_ext w' = w_ext w;
  outside_configs : command_configs (w_session w') = command_configs (w_session w);
  outside_lock : session_lock (w_session w') = session_lock (w_session w);
  outside_clock : Forall clock_ok (env_clock (env_of w)) -> Forall clock_ok (env_clock (env_of w'));
}.

Lemma outside_refl w : conn_ok (w_connection w) -> outside w w.
Proof. intros. by split. Qed.

Lemma outside_trans w1 w2 w3 : outside w1 w2 -> outside w2 w3 -> outside w1 w3.
Proof. intros [] []. split; try congruence; auto. Qed.

Definition phase_of w : Z := phase (w_session w).
Definition queue_of w : list ascii := conn_queued (w_connection w).

Lemma send_outside content w : conn_ok (w_connection w) ->
  exists err w', session_send content w = Some (err, w') /\ outside w w' /\ w_session w' = w_session w /\
    conn_closing (w_connection w') = conn_closing (w_connection w) /\
    queue_of w' = queue_of w ++ (if err =? ERROR_NONE then content else []).
Proof.
  intros Hok. unfold session_send. destruct (mtx_lock_result (env_of w)) as [[lock e]|] eqn:E; [|by unfold mtx_lock_result in E; case_match].
  erewrite bind_eq by by apply on_env_eq.
  destruct (conn_send_law content lock (w_connection w) Hok) as (err & c & Hs & ? & ? & ?).
  exists err, (set_connection c (with_env e w)). split; [unfold on_connection, zoom; cbn [w_connection with_env set_channels]; by rewrite Hs|].
  split; [|done]. split; try done. intros Hc. unfold mtx_lock_result in E. by destruct (env_mtx _); injection E as <- <-.
Qed.

Lemma close_outside w : conn_ok (w_connection w) ->
  exists w', session_close w = Some (tt, w') /\ outside w w' /\ w_session w' = w_session w /\
    conn_closing (w_connection w') = true /\ queue_of w' = queue_of w.
Proof. intros Hok. destruct (session_close_run w Hok) as (c & E & ? & ? & ?). eexists. split; [exact E|]. by repeat split. Qed.

Lemma set_phase_run p w : exists w', set_phase p w = Some (tt, w') /\ phase_of w' = p /\
  (conn_ok (w_connection w) -> outside w w') /\ w_connection w' = w_connection w.
Proof. eexists. split; [reflexivity|]. by repeat split. Qed.

(** The handshake has failed: nothing but [text] was sent. *)
Definition failed w w' (text : list ascii) : Prop :=
  outside w w' /\ phase_of w' = SESSION_PHASE_FAILED /\ conn_closing (w_connection w') = true /\
  (queue_of w' = queue_of w \/ queue_of w' = queue_of w ++ text).

Lemma fail_handshake_run w : conn_ok (w_connection w) -> run fail_handshake w (fun _ w' => failed w w' []).
Proof.
  intros Hok. destruct (set_phase_run SESSION_PHASE_FAILED w) as (w1 & E1 & Hp & Ho & Hc). pose proof (Ho Hok) as Ho1.
  destruct (close_outside w1 (outside_ok _ _ Ho1)) as (w2 & E2 & Ho2 & Hs & Hcl & Hq).
  apply run_bind, (run_eq _ _ _ _ _ E1), (run_eq _ _ _ _ _ E2). split; [by eapply outside_trans|].
  split; [unfold phase_of; by rewrite Hs|]. split; [done|]. left. rewrite Hq. unfold queue_of. by rewrite Hc.
Qed.

Lemma reject_handshake_run reason w :
  conn_ok (w_connection w) -> run (reject_handshake reason) w (fun _ w' => failed w w' (handshake_error reason)).
Proof.
  intros Hok. destruct (set_phase_run SESSION_PHASE_FAILED w) as (w1 & E1 & Hp & Ho & Hc). pose proof (Ho Hok) as Ho1.
  destruct (send_outside (handshake_error reason) w1 (outside_ok _ _ Ho1)) as (err & w2 & E2 & Ho2 & Hs2 & _ & Hq2).
  destruct (close_outside w2 (outside_ok _ _ Ho2)) as (w3 & E3 & Ho3 & Hs3 & Hcl & Hq3).
  apply run_bind, (run_eq _ _ _ _ _ E1), run_bind, (run_eq _ _ _ _ _ E2), (run_eq _ _ _ _ _ E3).
  split; [by eapply outside_trans, outside_trans|]. split; [unfold phase_of; by rewrite Hs3, Hs2|]. split; [done|].
  rewrite Hq3, Hq2. unfold queue_of. rewrite Hc. destruct (err =? ERROR_NONE); [by right|left; by rewrite app_nil_r].
Qed.

Lemma iso_time_total sec : sec < 2 ^ 50 -> is_Some (iso_time sec).
Proof.
  intros Hs. unfold iso_time, civil_of_days.
  set (z := sec / 86400 + 719468). assert (z < 2 ^ 34) by (unfold z; apply Z.add_lt_le_mono with (p := 719468) (q := 719468) (n := sec / 86400) (m := 2 ^ 34 - 719468); [|lia]; apply Z.div_lt_upper_bound; lia).
  assert (z / 146097 < 2 ^ 17) by (apply Z.div_lt_upper_bound; lia).
  pose proof (Z.mod_pos_bound z 146097 ltac:(lia)) as Hdoe. set (doe := z mod 146097) in *.
  assert ((doe - doe / 1460 + doe / 36524 - doe / 146096) / 365 <= 401).
  { apply Z.div_le_upper_bound; [lia|]. pose proof (Z.div_pos doe 1460). pose proof (Z.div_pos doe 146096).
    assert (doe / 36524 <= 4) by (apply Z.lt_succ_r, Z.div_lt_upper_bound; lia). lia. }
  set (yoe := _ / 365) in *. set (month := if _ <? 10 then _ else _).
  replace (INT_MAX <? _) with false; [by eexists|]. symmetry. apply Z.ltb_ge. unfold INT_MAX. destruct (month <=? 2); lia.
Qed.

(** The version line in the buffer is well-formed: [v], then a number of as many
    digits as there are characters. *)
Definition version_line (line : list ascii) (length : Z) : Prop :=
  2 <= length /\ head line = Some "v"%char /\ num_digits (atoi (c_str (tail line))) = length - 1.

Definition password_line (line : list ascii) (length : Z) : Prop :=
  0 < length /\ length = strlen password /\ strncmp_eq (c_str line) password length = true.

Lemma version_line_run line length w :
  conn_ok (w_connection w) ->
  run (on_version_line line length) w (fun _ w' =>
    failed w w' [] \/
    (outside w w' /\ phase_of w' = SESSION_PHASE_AWAIT_PASSWORD /\ w_connection w' = w_connection w /\
     version_line line length /\ client_version (w_session w') = atoi (c_str (tail line)))).
Proof.
  intros Hok. unfold on_version_line. destruct (_ || _) eqn:E.
  { eapply run_mono, fail_handshake_run; [|done]. by left. }
  bools.
  set (v := atoi _). apply run_bind.
  apply (run_eq _ _ _ tt (set_session (mkSession (reference_time (w_session w)) (reference_millis (w_session w)) (phase (w_session w)) v
    (command_configs (w_session w)) (session_lock (w_session w)) (session_destruction_pending (w_session w))) w)); [done|].
  set (w1 := set_session _ w). assert (outside w w1) as Ho1 by by split.
  destruct (num_digits v =? length - 1) eqn:Ev; red_if.
  - right. bools. split; [by split|]. by split_and!.
  - eapply run_mono, fail_handshake_run; [|done]. intros _ w' (Ho & Hp & Hc & Hq). left. split; [by eapply outside_trans|done].
Qed.

(** The text that completes a handshake at time [t]. *)
Definition completion_of (t : timespec) (text : list ascii) : Prop :=
  exists time, iso_time (tv_sec t) = Some time /\ text = handshake_completion time (Z.quot (tv_nsec t) 1000000).

Definition accepted w w' (line : list ascii) (length : Z) : Prop :=
  outside w w' /\ phase_of w' = SESSION_PHASE_LOGGED_IN /\ password_line line length /\
  client_version (w_session w) = SERVER_PROTOCOL_VERSION /\
  reference_millis (w_session w') = millis_of_timespec (Some (reference_time (w_session w'))) /\
  exists text, completion_of (reference_time (w_session w')) text /\ queue_of w' = queue_of w ++ text.

Definition refused w w' : Prop :=
  exists text, failed w w' text /\ (text = [] \/ text = handshake_error unsupported_version \/ text = handshake_error internal_error).

Lemma timespec_get_run w : exists now e, on_env timespec_get w = Some (now, with_env e w) /\
  (conn_ok (w_connection w) -> outside w (with_env e w)) /\
  (Forall clock_ok (env_clock (env_of w)) -> clock_ok now) /\ now = mjoin (head (env_clock (env_of w))).
Proof.
  destruct (timespec_get (env_of w)) as [[now e]|] eqn:E; [|by unfold timespec_get in E; case_match].
  exists now, e. split; [by apply on_env_eq|]. unfold timespec_get in E.
  destruct (env_clock (env_of w)) as [|t ts] eqn:Ec; simplify_eq; (split; [|split; [|done]]).
  - intros. by split.
  - done.
  - intros. split; try done. rewrite Ec. by intros [_ ?]%Forall_cons.
  - by intros [? _]%Forall_cons.
Qed.

Lemma password_line_run line length w :
  conn_ok (w_connection w) -> Forall clock_ok (env_clock (env_of w)) ->
  run (on_password_line password line length) w (fun _ w' => refused w w' \/ accepted w w' line length).
Proof.
  intros Hok Hclock. unfold on_password_line.
  assert (run fail_handshake w (fun _ w' => refused w w' \/ accepted w w' line length)) as Hfail.
  { eapply run_mono, fail_handshake_run; [|done]. intros [] w' ?. left. exists []. by split; [|left]. }
  destruct (length <=? 0) eqn:E; [done|]. destruct (negb (length =? _) || _) eqn:E2; [done|]. bools.
  assert (password_line line length) as Hline by (split; [lia|split; congruence]).
  assert (forall reason w1, outside w w1 -> queue_of w1 = queue_of w -> reason = unsupported_version \/ reason = internal_error ->
    run (reject_handshake reason) w1 (fun _ w' => refused w w' \/ accepted w w' line length)) as Hreject.
  { intros reason w1 Ho Hq Hr. eapply run_mono, reject_handshake_run; [|by eapply outside_ok].
    intros [] w' (Ho' & Hp & Hc & Hq'). left. exists (handshake_error reason). split; [|destruct Hr as [-> | ->]; auto].
    split; [by eapply outside_trans|]. rewrite <-Hq. done. }
  apply run_bind, run_ret. destruct (client_version (w_session w) =? SERVER_PROTOCOL_VERSION) eqn:Ev; red_if.
  2:{ apply Hreject; [by apply outside_refl|done|by left]. } bools.
  destruct (timespec_get_run w) as (now & e & E1 & Ho1 & Hnow & _). specialize (Ho1 Hok). specialize (Hnow Hclock).
  apply run_bind, (run_eq _ _ _ _ _ E1). destruct now as [now|]; [|apply Hreject; [done|done|by right]].
  apply run_bind. unfold set_reference, update_session. apply (run_eq _ _ _ _ _ eq_refl). set (w2 := set_session _ _).
  assert (outside w w2) as Ho2 by (destruct Ho1; by split).
  destruct (_ <? 0) eqn:Et; [apply Hreject; [done|done|by right]|]. bools.
  unfold complete_handshake. apply run_bind, (run_eq _ _ _ _ _ eq_refl). cbv beta zeta.
  destruct (iso_time_total (tv_sec now) (proj1 Hnow)) as [time Hiso].
  apply run_bind, (run_eq _ _ _ time w2); [unfold from_ub; change (reference_time (w_session w2)) with now; by rewrite Hiso|].
  case_match; [apply Hreject; [done|done|by right]|]. case_match; [apply Hreject; [done|done|by right]|].
  set (text := handshake_completion _ _).
  destruct (send_outside text w2 (outside_ok _ _ Ho2)) as (err & w3 & E3 & Ho3 & Hs3 & _ & Hq3).
  apply run_bind, (run_eq _ _ _ _ _ E3). destruct (err =? ERROR_NONE) eqn:Eerr; red_if.
  - destruct (set_phase_run SESSION_PHASE_LOGGED_IN w3) as (w4 & E4 & Hp4 & Ho4 & Hc4).
    apply (run_eq _ _ _ _ _ E4). right. injection E4 as E4. split_and!.
    + eapply outside_trans; [done|]. eapply outside_trans; [done|]. apply Ho4, (outside_ok _ _ Ho3).
    + done.
    + done.
    + done.
    + rewrite <-E4. simpl. by rewrite Hs3.
    + exists text. split; [|unfold queue_of in *; by rewrite Hc4, Hq3, ?Eerr].
      exists time. rewrite <-E4. simpl. rewrite Hs3. done.
  - eapply run_mono, fail_handshake_run; [|apply (outside_ok _ _ Ho3)].
    intros [] w' (Ho' & Hp & Hc & Hq'). left. exists []. split; [|by left].
    split; [exact (outside_trans _ _ _ Ho2 (outside_trans _ _ _ Ho3 Ho'))|]. split; [done|]. split; [done|].
    rewrite app_nil_r in Hq'. left. destruct Hq' as [-> | ->]; rewrite Hq3; by rewrite ?Eerr, ?app_nil_r.
Qed.

(** A received line: the line buffer and the length of the line in it. *)
Definition on_line (l : list ascii * Z) : M W unit := on_line_received factory password l.1 l.2.
Definition line_text (l : list ascii * Z) : list ascii := take (Z.to_nat l.2) l.1.

(** The version line of a client that speaks the server's version. *)
Lemma version_line_text line length :
  version_line line length -> atoi (c_str (tail line)) = SERVER_PROTOCOL_VERSION -> line !! Z.to_nat length = Some NUL ->
  line_text (line, length) = lit "v1".
Proof.
  intros (Hl & Hh & Hd) Hv Hn. rewrite Hv in Hd. change (num_digits SERVER_PROTOCOL_VERSION) with 1 in Hd.
  assert (length = 2) as -> by lia. change (Z.to_nat 2) with 2%nat in Hn.
  destruct line as [|v [|c [|x line]]]; simplify_eq/=. unfold line_text. simpl. f_equal. f_equal.
  destruct (decide (c = NUL)) as [-> |Hc]; [by vm_compute in Hv|].
  rewrite bool_decide_eq_false_2 in Hv by done.
  destruct c as [[] [] [] [] [] [] [] []]; vm_compute in Hv; try discriminate. reflexivity.
Qed.

Lemma password_line_text line length :
  password_line line length -> line_text (line, length) = password.
Proof.
  intros (Hpos & Hl & Hs). unfold strncmp_eq in Hs. apply bool_decide_eq_true in Hs. unfold line_text, strlen in *. simpl.
  rewrite (take_ge password) in Hs by lia. destruct (c_str_prefix line) as [t Ht].
  rewrite <-Hs at 1. rewrite Ht at 1. apply take_app_le.
  assert (Datatypes.length (take (Z.to_nat length) (c_str line)) = Datatypes.length password) as Hlen by by rewrite Hs.
  rewrite length_take in Hlen. lia.
Qed.

(** A failed handshake is final. *)
Lemma failed_forever lines w : phase_of w = SESSION_PHASE_FAILED -> for_each on_line lines w = Some (tt, w).
Proof.
  intros Hp. induction lines as [|l lines IH]; [done|]. simpl.
  erewrite bind_eq; [exact IH|]. unfold on_line, on_line_received. erewrite bind_eq by reflexivity.
  change (phase (w_session w)) with (phase_of w). by rewrite Hp.
Qed.

Definition rejection w w' : Prop :=
  queue_of w' = queue_of w \/
  exists reason, queue_of w' = queue_of w ++ handshake_error reason /\ (reason = unsupported_version \/ reason = internal_error).

Lemma refused_rejection w w' : refused w w' -> outside w w' /\ phase_of w' = SESSION_PHASE_FAILED /\ rejection w w'.
Proof.
  intros (text & (Ho & Hp & _ & Hq) & Ht). split; [done|]. split; [done|]. destruct Hq as [Hq|Hq]; [by left|].
  destruct Ht as [-> |[-> | ->]]; [left; by rewrite app_nil_r in Hq|right..]; eexists; eauto.
Qed.
End Handshake.

(** C1: No login without the password: whatever lines a client sends, unless the
    first is exactly [v1] and the second exactly the server's password, the
    session is never logged in, no channel is created, no command runs, nothing
    of the session's configuration or of the commands' state changes, and
    nothing but a rejection is sent. *)
Theorem handshake_safety {C} `{ConnectionLaws C} {Y} (factory : command_factory_t (world C (ext Y))) password
    (lines : list (list ascii * Z)) w :
  phase_of w = SESSION_PHASE_AWAIT_VERSION -> conn_ok (w_connection w) -> Forall clock_ok (env_clock (env_of w)) ->
  (forall line n, head lines = Some (line, n) -> line !! Z.to_nat n = Some NUL) ->
  ~ (exists v p rest, lines = v :: p :: rest /\ line_text v = lit "v1" /\ line_text p = password) ->
  run (for_each (on_line factory password) lines) w (fun _ w' =>
    phase_of w' <> SESSION_PHASE_LOGGED_IN /\ outside w w' /\ rejection w w').
Proof.
  intros Hp Hok Hclock Hterm Hno. destruct lines as [|[v n] lines].
  { apply run_ret. rewrite Hp. split; [done|]. split; [by apply outside_refl|by left]. }
  cbn [for_each]. apply run_bind. unfold on_line at 1, on_line_received. apply run_bind, (run_eq _ _ _ _ _ eq_refl).
  change (phase (w_session w)) with (phase_of w). rewrite Hp. cbv beta.
  eapply run_mono, version_line_run; [|done]. intros [] w1 [Hf|(Ho1 & Hp1 & Hc1 & Hv & Hver)].
  { destruct (refused_rejection w w1) as (? & Hpf & ?); [exists []; by split; [|left]|].
    eapply run_eq; [by apply failed_forever|]. by rewrite Hpf. }
  assert (queue_of w1 = queue_of w) as Hq1 by (unfold queue_of; by rewrite Hc1).
  destruct lines as [|[pw m] lines].
  { apply run_ret. rewrite Hp1. split; [done|]. split; [done|by left]. }
  cbn [for_each]. apply run_bind. unfold on_line at 1, on_line_received. apply run_bind, (run_eq _ _ _ _ _ eq_refl).
  change (phase (w_session w1)) with (phase_of w1). rewrite Hp1. cbv beta.
  eapply run_mono, password_line_run; [|by eapply outside_ok|by apply (outside_clock _ _ Ho1)].
  intros [] w2 [Hr|(_ & _ & Hpw & Hone & _)].
  - apply refused_rejection in Hr as (Ho2 & Hp2 & Hr2). eapply run_eq; [by apply failed_forever|]. rewrite Hp2.
    split; [done|]. split; [by eapply outside_trans|]. unfold rejection in *. by rewrite <-Hq1.
  - destruct Hno. exists (v, n), (pw, m), lines. split; [done|]. split; [|by apply password_line_text].
    apply version_line_text; [done|etrans; [symmetry; exact Hver|exact Hone]|]. by apply Hterm.
Qed.

Section Completion.
Context {C : Type} `{ConnectionLaws C} {Y : Type}.
Implicit Types (w : world C (ext Y)).

(** The connection takes a short text if the send mutex can be locked. *)
Definition accepts_handshake (c : C) : Prop :=
  forall text, len text < HANDSHAKE_COMPLETION_BUFFER_SIZE -> exists c', conn_send text true c = Some (ERROR_NONE, c').

Lemma handshake_completion_length time millis :
  len time <= 20 -> 0 <= millis < 1000 -> len (handshake_completion time millis) < HANDSHAKE_COMPLETION_BUFFER_SIZE.
Proof.
  intros Ht Hm. unfold handshake_completion, HANDSHAKE_COMPLETION_BUFFER_SIZE.
  rewrite !length_app, !Nat2Z.inj_add, print_padded_length by (simpl; lia). simpl. lia.
Qed.

Lemma complete_handshake_run w :
  let t := reference_time (w_session w) in
  conn_ok (w_connection w) -> accepts_handshake (w_connection w) -> env_mtx (env_of w) = [] ->
  0 <= tv_sec t < 253402300800 -> 0 <= tv_nsec t < 1000000000 ->
  exists w' text, complete_handshake w = Some (tt, w') /\ completion_of t text /\
    phase_of w' = SESSION_PHASE_LOGGED_IN /\ queue_of w' = queue_of w ++ text /\ outside w w' /\
    reference_time (w_session w') = t /\ reference_millis (w_session w') = reference_millis (w_session w).
Proof.
  intros t Hok Hacc Hm Hs Hn. destruct (iso_time_length (tv_sec t) Hs) as (time & Hiso & Hlen).
  unfold complete_handshake. erewrite bind_eq by reflexivity. fold t. rewrite Hiso. erewrite bind_eq by reflexivity.
  rewrite (proj2 (Z.leb_gt _ _)) by (unfold REFERENCE_COARSE_TIMESTAMP_BUFFER_SIZE, strlen; lia). cbv zeta.
  assert (0 <= Z.quot (tv_nsec t) 1000000 < 1000) as Hms.
  { rewrite Z.quot_div_nonneg by lia. split; [apply Z.div_pos; lia|apply Z.div_lt_upper_bound; lia]. }
  pose proof (handshake_completion_length time _ Hlen Hms) as Hl. set (text := handshake_completion _ _) in *.
  rewrite (proj2 (Z.leb_gt _ _)) by exact Hl.
  destruct (Hacc text Hl) as [c Hc]. destruct (conn_send_law text true _ Hok) as (err & c1 & Hc1 & Hok1 & _ & Hq).
  assert (err = ERROR_NONE) as -> by congruence. assert (c1 = c) as -> by congruence.
  erewrite bind_eq.
  2:{ unfold session_send. erewrite bind_eq by (apply on_env_eq; unfold mtx_lock_result; rewrite Hm; reflexivity).
      unfold on_connection, zoom. cbn [w_connection with_env set_channels]. rewrite Hc. reflexivity. }
  red_if. eexists _, text. split; [reflexivity|]. split; [by exists time|]. split; [done|]. split; [exact Hq|].
  split; [|done]. split; try done.
Qed.
End Completion.

(** C6: A client that sends [v1] and then the password is logged in, if the clock
    works, locks can be taken and the connection takes the reply: the reply is
    the server's time, and message timestamps count from that time on. *)
Theorem handshake_completes {C} `{ConnectionLaws C} {Y} (factory : command_factory_t (world C (ext Y))) password
    (version_buffer password_buffer : list ascii) now w :
  phase_of w = SESSION_PHASE_AWAIT_VERSION -> conn_ok (w_connection w) -> accepts_handshake (w_connection w) ->
  env_mtx (env_of w) = [] -> head (env_clock (env_of w)) = Some (Some now) ->
  0 <= tv_sec now < 253402300800 -> 0 <= tv_nsec now < 1000000000 ->
  password <> [] -> no_nul password ->
  exists w' text,
    for_each (on_line factory password)
      [(lit "v1" ++ NUL :: version_buffer, 2); (password ++ password_buffer, len password)] w = Some (tt, w') /\
    phase_of w' = SESSION_PHASE_LOGGED_IN /\ completion_of now text /\ queue_of w' = queue_of w ++ text /\
    reference_millis (w_session w') = millis_of_timespec (Some now) /\ outside w w'.
Proof.
  intros Hp Hok Hacc Hm Hclock Hs Hn Hne Hnul. cbn [for_each].
  set (w1 := set_session (mkSession (reference_time (w_session w)) (reference_millis (w_session w)) SESSION_PHASE_AWAIT_PASSWORD
    1 (command_configs (w_session w)) (session_lock (w_session w)) (session_destruction_pending (w_session w))) w).
  erewrite (bind_eq _ _ _ tt w1).
  2:{ unfold on_line, on_line_received. erewrite bind_eq by reflexivity. change (phase (w_session w)) with (phase_of w). by rewrite Hp. }
  assert (exists e, timespec_get (env_of w1) = Some (Some now, e) /\ env_mtx e = [] /\
    (Forall clock_ok (env_clock (env_of w)) -> Forall clock_ok (env_clock e))) as (e & Et & Hm' & Hck).
  { unfold timespec_get. change (env_of w1) with (env_of w). destruct (env_clock (env_of w)) as [|t ts]; [done|]. injection Hclock as ->.
    eexists. split; [done|]. split; [done|]. by intros [_ ?]%Forall_cons. }
  set (w2 := set_session (mkSession now (millis_of_timespec (Some now)) SESSION_PHASE_AWAIT_PASSWORD
    1 (command_configs (w_session w)) (session_lock (w_session w)) (session_destruction_pending (w_session w))) (with_env e w1)).
  destruct (complete_handshake_run w2) as (w3 & text & E & Ht & Hp3 & Hq & Ho & _ & Hr); [done|done|done|done|done|].
  exists w3, text. split.
  - erewrite bind_eq; [reflexivity|]. unfold on_line, on_line_received, on_password_line. cbn [fst snd].
    erewrite bind_eq by reflexivity. change (phase (w_session w1)) with SESSION_PHASE_AWAIT_PASSWORD.
    cbn [Z.eqb Pos.eqb SESSION_PHASE_AWAIT_PASSWORD SESSION_PHASE_LOGGED_IN SESSION_PHASE_FAILED SESSION_PHASE_AWAIT_VERSION].
    assert (0 < len password) by (destruct password; [done|simpl; lia]).
    rewrite (proj2 (Z.leb_gt _ _)) by lia. cbv beta iota zeta. unfold strlen. rewrite (Z.eqb_refl (len password)).
    replace (strncmp_eq _ _ _) with true.
    2:{ symmetry. unfold strncmp_eq. apply bool_decide_eq_true. rewrite (take_ge password) by lia.
        rewrite Nat2Z.id. destruct (c_str_app_prefix password password_buffer Hnul) as [t ->]. by rewrite take_app_length. }
    red_if. erewrite bind_eq by reflexivity. change (client_version (w_session w1)) with SERVER_PROTOCOL_VERSION.
    rewrite (Z.eqb_refl SERVER_PROTOCOL_VERSION). red_if.
    erewrite bind_eq by by apply on_env_eq. cbv beta iota. erewrite (bind_eq _ _ _ tt w2) by reflexivity.
    unfold millis_of_timespec. rewrite (proj2 (Z.ltb_ge (tv_sec now) 0)) by lia.
    rewrite (proj2 (Z.ltb_ge _ 0)) by (pose proof (Z.quot_pos (tv_nsec now) 1000000 ltac:(lia) ltac:(lia)); lia). exact E.
  - split; [done|]. split; [done|]. split; [done|]. split; [by rewrite Hr|].
    destruct Ho. split; try done. intros ?. auto.
Qed.

(** A fresh session of a server whose password is [secret], at a time in 2024. *)
Definition demo_ext : ext unit := mkExt (mkSchedule 0 [None; None] false) ∅ [] tt.
Definition demo_session (p : Z) (channels : channels) : world network_connection_t (ext unit) :=
  mkWorld (mkSession (mkTimespec 0 0) 0 p 1 (mkMap ∅) 0 false) channels new_network_connection demo_ext.
Definition demo_time : timespec := mkTimespec 1709251199 500000000.
Definition demo_clock : channels := mkChannels ∅ empty_table (mkEnv [] [] [Some demo_time]).
Definition demo_line (s : string) : list ascii * Z := (lit s ++ [NUL], len (lit s)).

Lemma short_text_accepted text :
  len text < HANDSHAKE_COMPLETION_BUFFER_SIZE -> exists c', conn_send text true new_network_connection = Some (ERROR_NONE, c').
Proof.
  unfold HANDSHAKE_COMPLETION_BUFFER_SIZE. intros Hl.
  destruct (send_to_network_spec text NETWORK_SEND_COMPLETE_STRING true new_network_connection) as (c' & E & _);
    [unfold wf_connection; simpl; unfold SEND_BUFFER_SIZE; lia|done|by right|].
  exists c'. etrans; [exact E|]. unfold send_error. simpl. rewrite (proj2 (Z.ltb_lt _ _)); [done|].
  change (pending new_network_connection) with 0. unfold SEND_BUFFER_SIZE. lia.
Qed.

Lemma handshake_safety_witness :
  let w := demo_session SESSION_PHASE_AWAIT_VERSION demo_clock in
  let lines := [demo_line "v1"; demo_line "secrets"; demo_line "AAAA TEST"] in
  run (for_each (on_line (mkFactory (mkMap ∅)) (lit "secret")) lines) w (fun _ w' =>
    phase_of w' <> SESSION_PHASE_LOGGED_IN /\ outside w w' /\ rejection w w').
Proof.
  intros w lines. apply (handshake_safety (mkFactory (mkMap ∅)) (lit "secret") lines w).
  - reflexivity.
  - by repeat split.
  - constructor; [|constructor]. by repeat split.
  - intros line n [= <- <-]. reflexivity.
  - intros (v & p & rest & [= <- <- _] & _ & Hp). discriminate Hp.
Defined.

Lemma handshake_completes_witness :
  let w := demo_session SESSION_PHASE_AWAIT_VERSION demo_clock in
  exists w' text,
    for_each (on_line (mkFactory (mkMap ∅)) (lit "secret"))
      [(lit "v1" ++ NUL :: [], 2); (lit "secret" ++ [], len (lit "secret"))] w = Some (tt, w') /\
    phase_of w' = SESSION_PHASE_LOGGED_IN /\ completion_of demo_time text /\ queue_of w' = queue_of w ++ text /\
    reference_millis (w_session w') = millis_of_timespec (Some demo_time) /\ outside w w'.
Proof.
  intros w. apply (handshake_completes (mkFactory (mkMap ∅)) (lit "secret") [] [] demo_time w).
  - reflexivity.
  - by repeat split.
  - intros text Hl. apply short_text_accepted. exact Hl.
  - reflexivity.
  - reflexivity.
  - vm_compute. split; congruence.
  - vm_compute. split; congruence.
  - discriminate.
  - apply no_nul_dec_true. reflexivity.
Defined.

(** * What the server does beside commands is quiet *)

(** Operations on channels do not make resources scarcer. *)
Definition channels_calmer (s s' : channels) : Prop := calmer (cs_env s) (cs_env s').
#[export] Instance channels_calmer_preorder : PreOrder channels_calmer.
Proof. split; [by intros s; unfold channels_calmer|]. intros s1 s2 s3. unfold channels_calmer. by etransitivity. Qed.

Lemma calm_same_env {A} (m : M channels A) : (forall s a s', m s = Some (a, s') -> cs_env s' = cs_env s) -> respects channels_calmer m.
Proof. intros Hm s a s' E. unfold channels_calmer. by rewrite (Hm _ _ _ E). Qed.

Lemma calm_read_subtable a : respects channels_calmer (read_subtable a).
Proof. unfold read_subtable. respects_step. Qed.
Lemma calm_read_slot st b : respects channels_calmer (read_slot st b).
Proof. unfold read_slot. respects_step. Qed.
Lemma calm_write_subtable a st : respects channels_calmer (write_subtable a st).
Proof. unfold write_subtable. apply respects_if; [|apply respects_ub]. by apply respects_modify. Qed.
Lemma calm_load l : respects channels_calmer (load l).
Proof. apply calm_same_env. unfold load. intros s c s'. destruct (cs_heap s !! l); [|done]. by intros [= _ <-]. Qed.
Lemma calm_zmalloc n : respects channels_calmer (in_env (zmalloc n)).
Proof. apply (respects_zoom _ calmer); [done|]. unfold zmalloc. respects_step. Qed.

#[local] Hint Resolve calm_read_subtable calm_read_slot calm_write_subtable calm_load calm_zmalloc : respects.

Section Quiet.
Context {C : Type} `{ConnectionLaws C} {Y : Type}.
Abbreviation quietly := (respects (quiet (C := C) (X := ext Y))).

Lemma quiet_put_channel l : quietly (on_channels (put_channel l)).
Proof. apply (quiet_channels (put_channel l)). change (respects channels_calmer (put_channel l)). unfold put_channel. respects_step. Qed.
Lemma quiet_pop_channel id : quietly (on_channels (pop_channel id)).
Proof. apply (quiet_channels (pop_channel id)). change (respects channels_calmer (pop_channel id)). unfold pop_channel. respects_step. Qed.
Lemma quiet_has_channel id : quietly (on_channels (has_channel id)).
Proof. apply (quiet_channels (has_channel id)). change (respects channels_calmer (has_channel id)). unfold has_channel, get_channel. respects_step. Qed.
Lemma quiet_close : quietly session_close.
Proof. apply quiet_connection. Qed.
Lemma quiet_sprintf text : quietly (on_env (dynamic_sprintf text)).
Proof. apply quiet_env. unfold dynamic_sprintf, zmalloc. respects_step. Qed.

#[local] Hint Resolve quiet_put_channel quiet_pop_channel quiet_has_channel quiet_close quiet_sprintf quiet_zmalloc
  quiet_lock_session quiet_unlock_session quiet_millis_since_reference quiet_session_send quiet_load : respects.

Lemma quiet_get_configuration name : quietly (get_command_configuration name).
Proof. unfold get_command_configuration, session. respects_step. Qed.
Lemma quiet_finish_channel id ts message : quietly (finish_channel id ts message).
Proof. apply quiet_act_on_channel. Qed.
Lemma quiet_send_or_close text : quietly (send_or_close text).
Proof. unfold send_or_close. respects_step. Qed.
#[local] Hint Resolve quiet_send_or_close : respects.
Lemma quiet_refuse_request name reason : quietly (refuse_request name reason).
Proof. unfold refuse_request. respects_step. Qed.
Lemma quiet_clear_channel channel err : quietly (clear_channel channel err).
Proof. unfold clear_channel. respects_step. Qed.
End Quiet.

Lemma quiet_alloc_channel {C} `{ConnectionLaws C} {Y} id : respects (quiet (C := C) (X := ext Y)) (alloc_channel id).
Proof.
  unfold alloc_channel. apply respects_bind; [exact _|apply quiet_zmalloc|intros ok]. apply respects_if; [apply respects_ret; exact _|].
  apply quiet_channels. by intros s a s' [= _ <-].
Qed.

(** * Requests *)

(** What a command promises to the server: acting for a channel of the session,
    it is well-behaved. *)
Class CommandPromise {C} `{ConnectionLaws C} {Y} (command : command_t (world C (ext Y))) : Prop := {
  create_promise request config : behaved_on (req_channel_id request) (cmd_create command request config);
  terminate_promise id ref : behaved_on id (cmd_terminate command ref);
  destroy_promise id ref : behaved_on id (cmd_destroy command ref);
  merge_promise id previous changes : behaved_on id (cmd_merge_config command previous changes);
}.

(** What the server relies on when it creates a command for a request from the parser:
    in the states of an invariant [I], which other parts of the plugin keep as well,
    creating a command of the factory is well-behaved. *)
Record creations_behave {C} `{ConnectionLaws C} {Y} (I : world C (ext Y) -> Prop) (factory : command_factory_t (world C (ext Y))) : Prop := mkCreations {
  creations_stable w w' : quiet w w' -> world_ok w' -> I w -> I w';
  creations_promise name command request config :
    hashmap_get (commands_by_name factory) name = Some command -> Forall no_nul (req_parameters request) ->
    behaved_when I (req_channel_id request) (cmd_create command request config);
}.

(** Commands that keep the promise everywhere need no invariant. *)
Lemma promises_behave {C} `{ConnectionLaws C} {Y} (factory : command_factory_t (world C (ext Y))) :
  (forall name command, hashmap_get (commands_by_name factory) name = Some command -> CommandPromise command) ->
  creations_behave (fun _ => True) factory.
Proof. intros Hf. split; [done|]. intros name command request config Hc _. apply behaved_on_when, (create_promise (CommandPromise := Hf _ _ Hc)). Qed.

Section Requests.
Context {C : Type} `{ConnectionLaws C} {Y : Type}.
Context (factory : command_factory_t (world C (ext Y))) (I : world C (ext Y) -> Prop).
Implicit Types (w : world C (ext Y)).

(** The states of all channels change as [ms] say. *)
Record sends w w' (ms : messages) : Prop := mkSends {
  sends_ok : world_ok w';
  sends_queue : queue_of w' = queue_of w ++ text_of ms;
  sends_protocol : forall id, conforms (state_of w id) (messages_on id ms) (state_of w' id);
  sends_closing : conn_closing (w_connection w') = conn_closing (w_connection w);
  sends_lock : session_lock (w_session w') = session_lock (w_session w);
}.

Lemma sends_trans w1 w2 w3 ms1 ms2 : sends w1 w2 ms1 -> sends w2 w3 ms2 -> sends w1 w3 (ms1 ++ ms2).
Proof.
  intros [] []. split; try congruence.
  - by rewrite text_of_app, app_assoc; congruence.
  - intros id. rewrite messages_on_app. eapply conforms_app; eauto.
Qed.

Lemma talked_sends w w' ms : talked w w' ms -> session_lock (w_session w') = session_lock (w_session w) -> sends w w' ms.
Proof. intros [] ?. by split. Qed.

(** A world that differs in the channels only, with the same states. *)
Lemma same_states_sends w s :
  world_ok w -> Channels.wf s ->
  (forall id, registered s id = registered (w_channels w) id) ->
  (forall l c, heap_of w !! l = Some c -> exists c', cs_heap s !! l = Some c' /\ ch_id c' = ch_id c /\ ch_state c' = ch_state c) ->
  sends w (set_channels s w) [].
Proof.
  intros [Hc Ht Hch] Hwf Hreg Hheap. split; try done.
  - split; [done|done|]. intros id l Hl. simpl in Hl. rewrite Hreg in Hl. destruct (Hch id l Hl) as (c & Hl' & <-).
    destruct (Hheap l c Hl') as (c' & ? & ? & _). by exists c'.
  - by rewrite app_nil_r.
  - intros id. replace (state_of (set_channels s w) id) with (state_of w id); [constructor|].
    unfold state_of, channel_of. simpl. rewrite Hreg. destruct (registered (w_channels w) id) as [l|] eqn:Hl; [|done].
    destruct (Hch id l Hl) as (c & Hl' & _). destruct (Hheap l c Hl') as (c' & Hc' & _ & E). simpl.
    unfold heap_of at 2. simpl. rewrite Hl', Hc'. simpl. by rewrite E.
Qed.

Lemma env_sends w e : world_ok w -> sends w (with_env e w) [].
Proof. intros Hok. apply talked_sends; [by apply talked_env|done]. Qed.

Lemma update_channel_run l (f : channel_t -> channel_t) w c :
  world_ok w -> heap_of w !! l = Some c -> ch_id (f c) = ch_id c -> ch_state (f c) = ch_state c ->
  exists w', update_channel l f w = Some (tt, w') /\ sends w w' [] /\
    heap_of w' = <[l := f c]> (heap_of w) /\ w_channels w' = mkChannels (<[l := f c]> (heap_of w)) (cs_table (w_channels w)) (env_of w) /\
    w_session w' = w_session w /\ w_ext w' = w_ext w.
Proof.
  intros Hok Hc Hid Hst. eexists. split.
  - unfold update_channel, on_channels, zoom. erewrite bind_eq by by apply load_eq. unfold store.
    unfold heap_of in Hc. rewrite Hc. reflexivity.
  - split; [|done]. apply same_states_sends; [done|apply (ok_table _ Hok)|done|].
    intros l' c' Hc'. simpl. destruct (decide (l = l')) as [<- |Hne].
    + rewrite lookup_insert_eq. assert (c' = c) as -> by congruence. by eexists.
    + rewrite lookup_insert_ne by done. by eexists.
Qed.

Lemma alloc_channel_run id w :
  world_ok w ->
  exists r w', alloc_channel id w = Some (r, w') /\ sends w w' [] /\ cs_table (w_channels w') = cs_table (w_channels w) /\
    w_session w' = w_session w /\
    forall l, r = Some l -> heap_of w' !! l = Some (mkChannel id CHANNEL_STATE_INITIAL false None None).
Proof.
  intros Hok. unfold alloc_channel. erewrite bind_eq by (apply on_env_eq, zmalloc_eq; done).
  destruct (alloc_next _); red_if; [|eexists None, _; split; [done|]; by split; [apply env_sends|]].
  unfold on_channels at 1, zoom. eexists (Some _), _. split; [reflexivity|]. split.
  - apply (sends_trans _ (with_env (alloc_rest (env_of w)) w) _ [] []); [by apply env_sends|].
    apply same_states_sends; [by apply (sends_ok _ _ _ (env_sends _ _ Hok))|apply (ok_table _ Hok)|done|].
    intros l c Hl. simpl. rewrite lookup_insert_ne; [by eexists|].
    intros <-. apply (is_fresh (dom (heap_of w))), elem_of_dom. by eexists.
  - split; [done|]. split; [done|]. intros l [= <-]. apply lookup_insert_eq.
Qed.

(** Everything of the session but the channel [id] is the same. *)
Record elsewhere w w' (id : Z) : Prop := mkElsewhere {
  elsewhere_ok : world_ok w';
  elsewhere_queue : queue_of w' = queue_of w;
  elsewhere_states : forall id', id' <> id -> state_of w' id' = state_of w id';
  elsewhere_closing : conn_closing (w_connection w') = conn_closing (w_connection w);
  elsewhere_lock : session_lock (w_session w') = session_lock (w_session w);
}.

Lemma state_of_channels w s id :
  state_of (set_channels s w) id = ch_state <$> (registered s id ≫= fun l => cs_heap s !! l).
Proof. done. Qed.

Lemma put_channel_world w l c :
  world_ok w -> heap_of w !! l = Some c -> addressable (ch_id c) = true -> registered (w_channels w) (ch_id c) = None ->
  exists ok w', on_channels (put_channel l) w = Some (ok, w') /\
    (ok = false -> sends w w' []) /\
    (ok = true -> elsewhere w w' (ch_id c) /\ registered (w_channels w') (ch_id c) = Some l /\ heap_of w' !! l = Some c).
Proof.
  intros Hok Hc Ha Hnone. destruct (put_channel_run (w_channels w) l c (ok_table _ Hok) Hc Ha) as (s & E & Hwf & Hheap & Hreg).
  eexists _, _. split; [by apply on_channels_eq|]. destruct (can_register _ _); simpl in Hreg; (split; [try done|try done]).
  - intros _. split; [split|]; try done.
    + split; [apply (ok_connection _ Hok)|done|]. intros id l' Hl'. simpl in Hl'. rewrite Hreg in Hl'.
      unfold heap_of. simpl. rewrite Hheap. case_bool_decide as Hid; [|by apply (ok_channels _ Hok)].
      injection Hl' as <-. exists c. by rewrite Hid.
    + intros id' Hne. rewrite state_of_channels, Hreg, bool_decide_eq_false_2, Hheap by done. done.
    + simpl. rewrite Hreg, bool_decide_eq_true_2 by done. split; [done|]. unfold heap_of. simpl. by rewrite Hheap.
  - intros _. apply same_states_sends; [done|done|done|]. intros l' c' Hc'. rewrite Hheap. by exists c'.
Qed.

Lemma pop_channel_world w id l :
  world_ok w -> addressable id = true -> registered (w_channels w) id = Some l ->
  exists w', on_channels (pop_channel id) w = Some (Some l, w') /\ elsewhere w w' id /\ registered (w_channels w') id = None.
Proof.
  intros Hok Ha Hl. destruct (pop_channel_run (w_channels w) id (ok_table _ Hok) Ha) as (s & E & Hwf & Hheap & Hreg).
  rewrite Hl in E. eexists. split; [by apply on_channels_eq|]. split; [split|]; try done.
  - split; [apply (ok_connection _ Hok)|done|]. intros id' l' Hl'. simpl in Hl'. rewrite Hreg in Hl'.
    unfold heap_of. simpl. rewrite Hheap. case_decide; [done|]. by apply (ok_channels _ Hok).
  - intros id' Hne. rewrite state_of_channels, Hreg, decide_False, Hheap by done. done.
  - simpl. by rewrite Hreg, decide_True.
Qed.

Lemma create_command_run channel request w c :
  let id := req_channel_id request in
  creations_behave I factory -> Forall no_nul (req_parameters request) -> world_ok w -> I w ->
  addressable id = true -> registered (w_channels w) id = Some channel -> heap_of w !! channel = Some c ->
  exists err w' ms, create_command factory channel request w = Some (err, w') /\ sends w w' ms /\
    cs_table (w_channels w') = cs_table (w_channels w) /\ I w'.
Proof.
  intros id Hf Hpar Hok HI Ha Hreg Hc. unfold create_command.
  destruct (hashmap_get _ _) as [command|] eqn:Hcmd.
  2:{ eexists _, w, []. split; [done|]. split; [|done]. by apply talked_sends; [apply talked_refl|]. }
  destruct (update_channel_run channel (set_ch_command (Some (req_command_name request))) w c) as (w1 & E1 & H1 & Hh1 & Hc1 & _ & _);
    [done..|]. erewrite bind_eq by exact E1. pose proof (sends_ok _ _ _ H1) as Hok1.
  pose proof (creations_stable _ _ Hf _ _ (quiet_update _ _ _ _ _ E1) Hok1 HI) as HI1.
  assert (registered (w_channels w1) id = Some channel) as Hreg1 by by rewrite Hc1.
  destruct (behaved_get_configuration id (Some (req_command_name request)) w1 Hok1 Ha) as (config & w2 & ms0 & E2 & Ht2 & Hl2); [by eexists|].
  erewrite bind_eq by exact E2. pose proof (talked_sends _ _ _ Ht2 Hl2) as H2.
  assert (cs_table (w_channels w2) = cs_table (w_channels w)) as Htab2 by (rewrite (talked_table _ _ _ Ht2), Hc1; done).
  pose proof (talked_ok _ _ _ Ht2) as Hok2. pose proof (creations_stable _ _ Hf _ _ (quiet_get_configuration _ _ _ _ E2) Hok2 HI1) as HI2.
  destruct config as [config|].
  2:{ eexists _, w2, ([] ++ ms0). split; [done|]. split; [by eapply sends_trans|done]. }
  destruct (creations_promise _ _ Hf _ _ request config Hcmd Hpar w2 Hok2 HI2 Ha) as ([err ref] & w3 & ms & E3 & Ht3 & Hl3 & HI3);
    [by rewrite (registered_table _ _ _ Htab2); eexists|].
  erewrite bind_eq by exact E3. cbv beta iota. pose proof (talked_ok _ _ _ Ht3) as Hok3.
  pose proof (talked_sends _ _ _ Ht3 Hl3) as H3.
  assert (cs_table (w_channels w3) = cs_table (w_channels w)) as Htab3 by (rewrite (talked_table _ _ _ Ht3); done).
  destruct (ok_channels _ Hok3 id channel) as (c3 & Hc3 & _); [by rewrite (registered_table _ _ _ Htab3)|].
  destruct (update_channel_run channel (set_ch_command_ref ref) w3 c3) as (w4 & E4 & H4 & _ & Hc4 & _ & _); [done..|].
  erewrite bind_eq by exact E4. exists err, w4, ([] ++ ms0 ++ ms ++ []). split; [reflexivity|]. split.
  - eapply sends_trans; [done|]. eapply sends_trans; [done|]. by eapply sends_trans.
  - split; [by rewrite Hc4|]. exact (creations_stable _ _ Hf _ _ (quiet_update _ _ _ _ _ E4) (sends_ok _ _ _ H4) HI3).
Qed.

Lemma session_close_world w :
  world_ok w -> exists w', session_close w = Some (tt, w') /\ world_ok w' /\ queue_of w' = queue_of w /\
    w_channels w' = w_channels w /\ w_session w' = w_session w /\ conn_closing (w_connection w') = true.
Proof.
  intros [Hc Ht Hch]. destruct (session_close_run w Hc) as (c & E & ? & ? & ?).
  eexists. split; [exact E|]. by split; [split|].
Qed.

(** A message outside of the channels was sent, or the connection closed. *)
Record noticed w w' (text : list ascii) : Prop := mkNoticed {
  noticed_ok : world_ok w';
  noticed_states : forall id, state_of w' id = state_of w id;
  noticed_lock : session_lock (w_session w') = session_lock (w_session w);
  noticed_queue : queue_of w' = queue_of w ++ text \/ (queue_of w' = queue_of w /\ conn_closing (w_connection w') = true);
}.

Lemma sends_nil_state w w' id : sends w w' [] -> state_of w' id = state_of w id.
Proof. intros Hs. pose proof (sends_protocol _ _ _ Hs id) as Hp. by inversion Hp. Qed.

Lemma sends_nil_queue w w' : sends w w' [] -> queue_of w' = queue_of w.
Proof. intros Hs. by rewrite (sends_queue _ _ _ Hs), app_nil_r. Qed.

Lemma noticed_after w1 w2 w3 text : sends w1 w2 [] -> noticed w2 w3 text -> noticed w1 w3 text.
Proof.
  intros Hs []. split; [done| | |].
  - intros id. by rewrite <-(sends_nil_state _ _ _ Hs).
  - by rewrite <-(sends_lock _ _ _ Hs).
  - by rewrite <-(sends_nil_queue _ _ Hs).
Qed.

Lemma close_noticed w text : world_ok w -> exists w', session_close w = Some (tt, w') /\ noticed w w' text.
Proof.
  intros Hok. destruct (session_close_world w Hok) as (w' & E & Hok' & Hq & Hc & Hs & Hcl).
  exists w'. split; [done|]. split; [done| |by rewrite Hs|by right].
  intros id. unfold state_of, channel_of, heap_of. by rewrite Hc.
Qed.

Lemma send_or_close_run text w :
  world_ok w -> text <> [] -> exists w', send_or_close text w = Some (tt, w') /\ noticed w w' text.
Proof.
  intros Hok Ht. unfold send_or_close.
  erewrite bind_eq by (apply on_env_eq, dynamic_sprintf_eq; exact Ht).
  pose proof (env_sends w (alloc_rest (env_of w)) Hok) as H1. pose proof (sends_ok _ _ _ H1) as Hok1.
  destruct (alloc_next _); simpl.
  2:{ destruct (close_noticed _ text Hok1) as (w' & E & Hn). exists w'. split; [exact E|]. by eapply noticed_after. }
  destruct (session_send_run text _ (ok_connection _ Hok1)) as (err & c & e & E & _ & Hokc & Hcl & Hq).
  erewrite bind_eq by exact E. set (w2 := set_connection c _).
  assert (world_ok w2) as Hok2 by (split; [done|apply (ok_table _ Hok)|apply (ok_channels _ Hok)]).
  destruct (err =? ERROR_NONE) eqn:Eerr; simpl.
  - exists w2. split; [done|]. split; [done|done|done|]. left. exact Hq.
  - destruct (close_noticed w2 text Hok2) as (w' & E' & []). exists w'. split; [exact E'|]. split; [done|done|done|].
    rewrite app_nil_r in Hq. change (queue_of w2 = queue_of w) in Hq. by rewrite <-Hq.
Qed.

Lemma refuse_request_run name reason w :
  world_ok w -> exists w' t, refuse_request name reason w = Some (tt, w') /\ noticed w w' (channel_failure name t reason).
Proof.
  intros Hok. unfold refuse_request. destruct (millis_run w) as (t & e & E & _ & _). erewrite bind_eq by exact E.
  pose proof (env_sends w e Hok) as H1.
  destruct (send_or_close_run (channel_failure name t reason) (with_env e w)) as (w' & E' & Hn); [apply (sends_ok _ _ _ H1)|done|].
  exists w', t. split; [exact E'|]. by eapply noticed_after.
Qed.

(** What is left of a channel after its last message. *)
Lemma clear_channel_run l id err w :
  world_ok w -> addressable id = true -> registered (w_channels w) id = Some l ->
  exists w', clear_channel l err w = Some (tt, w') /\ world_ok w' /\ queue_of w' = queue_of w /\
    session_lock (w_session w') = session_lock (w_session w) /\
    (forall id', id' <> id -> state_of w' id' = state_of w id') /\
    (if closed_anyway err then registered (w_channels w') id = None else conn_closing (w_connection w') = true).
Proof.
  intros Hok Ha Hl. unfold clear_channel. destruct (closed_anyway err); red_if.
  - destruct (ok_channels _ Hok id l Hl) as (c & Hc & Hid). erewrite bind_eq by by apply load_channel_run. rewrite Hid.
    destruct (pop_channel_world w id l Hok Ha Hl) as (w' & E & [] & Hnone). erewrite bind_eq by exact E. simpl. by exists w'.
  - destruct (session_close_world w Hok) as (w' & E & Hok' & Hq & Hc & Hs & Hcl). exists w'.
    split; [done|]. split; [done|]. split; [done|]. split; [by rewrite Hs|]. split; [|done].
    intros id' _. unfold state_of, channel_of, heap_of. by rewrite Hc.
Qed.

(** The outcome of a request that opened channel [id]: [ms] were sent since, and
    the command is running, or the channel was closed and is gone, or the
    connection is closed. *)
Record answered w w' (id : Z) (ms : messages) : Prop := mkAnswered {
  answered_ok : world_ok w';
  answered_queue : queue_of w' = queue_of w ++ text_of ms;
  answered_lock : session_lock (w_session w') = session_lock (w_session w);
  answered_elsewhere : forall id', id' <> id -> conforms (state_of w id') (messages_on id' ms) (state_of w' id');
  answered_outcome : exists st, conforms (Some CHANNEL_STATE_INITIAL) (messages_on id ms) st /\
    ((state_of w' id = st /\ exists c, channel_of w' id = Some c /\ ch_command_ref c <> None) \/
     (registered (w_channels w') id = None /\ st = Some CHANNEL_STATE_CLOSED) \/
     conn_closing (w_connection w') = true);
}.

Lemma state_of_some w id st : state_of w id = Some st -> exists l c, registered (w_channels w) id = Some l /\ heap_of w !! l = Some c /\ ch_state c = st.
Proof.
  unfold state_of, channel_of. destruct (registered _ _) as [l|]; simpl; [|done].
  destruct (heap_of w !! l) as [c|] eqn:E; simpl; [|done]. intros [= <-]. by exists l, c.
Qed.

(** The end of a request whose command did not start or completed at once:
    [ms] so far, then the last message, then the channel is cleared. *)
Lemma answered_cleared w0 w1 w2 w3 id l err ms ms' :
  addressable id = true -> elsewhere w0 w1 id -> state_of w1 id = Some CHANNEL_STATE_INITIAL ->
  sends w1 w2 ms -> sends w2 w3 ms' -> registered (w_channels w3) id = Some l ->
  (closed_anyway err = true -> state_of w3 id = Some CHANNEL_STATE_CLOSED) ->
  exists w', clear_channel l err w3 = Some (tt, w') /\ answered w0 w' id (ms ++ ms').
Proof.
  intros Ha [] Hinit H12 H23 Hl Hclosed. pose proof (sends_trans _ _ _ _ _ H12 H23) as [].
  destruct (clear_channel_run l id err w3) as (w' & E & Hok' & Hq & Hlock & Hst & Hout); [done..|].
  exists w'. split; [exact E|]. split.
  - done.
  - congruence.
  - congruence.
  - intros id' Hne. rewrite Hst by done. rewrite <-(elsewhere_states0 id' Hne). auto.
  - exists (state_of w3 id). split; [rewrite <-Hinit; auto|]. right. destruct (closed_anyway err); [left|by right]. auto.
Qed.

Lemma has_channel_run id w :
  addressable id = true ->
  on_channels (has_channel id) w = Some (bool_decide (is_Some (registered (w_channels w) id)), w).
Proof.
  intros Ha. unfold on_channels, zoom, has_channel. erewrite bind_eq by exact (get_channel_eq id _ Ha). by destruct w.
Qed.

Lemma closed_stays ms st : conforms (Some CHANNEL_STATE_CLOSED) ms st -> st = Some CHANNEL_STATE_CLOSED.
Proof. by inversion 1. Qed.

Lemma closed_anyway_cases err : closed_anyway err = true -> err = ERROR_NONE \/ err = SESSION_ERROR_INVALID_CHANNEL_STATE.
Proof. unfold closed_anyway. intros [?|?]%orb_prop; bools; auto. Qed.

Lemma finish_channel_run id ts message w l :
  world_ok w -> addressable id = true -> registered (w_channels w) id = Some l ->
  exists err w' ms, finish_channel id ts message w = Some (err, w') /\ sends w w' ms /\
    registered (w_channels w') id = Some l /\ (closed_anyway err = true -> state_of w' id = Some CHANNEL_STATE_CLOSED).
Proof.
  intros Hok Ha Hl.
  destruct (act_on_channel_run (fun st => if is_initial st then CHANNEL_ACTION_ACK_CLOSE else CHANNEL_ACTION_CLOSE)
    (lit "failed to finish channel") id ts message w Hok Ha) as (err & w' & ms & E & Ht & _ & Hlock & Hst).
  exists err, w', ms. unfold lock_after in Hlock. rewrite Hl in Hlock.
  split; [exact E|]. split; [by apply talked_sends|]. split; [by rewrite (talked_registered _ _ _ _ Ht)|].
  intros Herr%closed_anyway_cases. destruct (ok_channels _ Hok id l Hl) as (c & Hc & _).
  pose proof (state_of_registered _ _ _ _ Hl Hc) as Hs. specialize (Hst _ Hs Herr).
  destruct Hst as [[Hinv _]|[Hst|Hst]]; [| |done].
  - pose proof (talked_protocol _ _ _ Ht id) as Hp. rewrite Hs in Hp. destruct (ch_state c); try done. by apply closed_stays in Hp.
  - rewrite Hst. by destruct (ch_state c).
Qed.

Lemma report_channel_run id ts message w l :
  world_ok w -> addressable id = true -> registered (w_channels w) id = Some l ->
  exists err w' ms, error_channel id ts message w = Some (err, w') /\ sends w w' ms /\
    registered (w_channels w') id = Some l /\ (closed_anyway err = true -> state_of w' id = Some CHANNEL_STATE_CLOSED).
Proof.
  intros Hok Ha Hl. destruct (error_channel_run id ts message w Hok Ha) as (err & w' & ms & E & Ht & _ & Hlock & Hst).
  exists err, w', ms. unfold lock_after in Hlock. rewrite Hl in Hlock.
  split; [exact E|]. split; [by apply talked_sends|]. split; [by rewrite (talked_registered _ _ _ _ Ht)|].
  intros Herr%closed_anyway_cases. apply Hst. destruct Herr; auto.
Qed.

(** A request whose channel has been registered. *)
Lemma open_request_run channel request w0 w1 c :
  let id := req_channel_id request in
  creations_behave I factory -> Forall no_nul (req_parameters request) -> I w1 -> addressable id = true -> elsewhere w0 w1 id ->
  registered (w_channels w1) id = Some channel -> heap_of w1 !! channel = Some c ->
  ch_id c = id -> ch_state c = CHANNEL_STATE_INITIAL ->
  exists w' ms, (err ← create_command factory channel request;
    c ← load_channel channel;
    if negb (err =? ERROR_NONE) then
      err ← error_channel (ch_id c) CURRENT_TIME_REFERENCE (Some (lit "command creation failed"));
      clear_channel channel err
    else if bool_decide (ch_command_ref c = None) then
      err ← finish_channel (ch_id c) CURRENT_TIME_REFERENCE None;
      clear_channel channel err
    else mret tt) w1 = Some (tt, w') /\ answered w0 w' id ms /\ I w'.
Proof.
  intros id Hf Hpar HI Ha He Hl Hc Hid Hst. pose proof (elsewhere_ok _ _ _ He) as Hok1.
  assert (state_of w1 id = Some CHANNEL_STATE_INITIAL) as Hinit by by rewrite (state_of_registered _ _ _ _ Hl Hc), Hst.
  destruct (create_command_run channel request w1 c Hf Hpar Hok1 HI Ha Hl Hc) as (err & w2 & ms & E2 & H2 & Htab & HI2).
  erewrite bind_eq by exact E2. pose proof (sends_ok _ _ _ H2) as Hok2.
  assert (registered (w_channels w2) id = Some channel) as Hl2 by by rewrite (registered_table _ _ _ Htab).
  destruct (ok_channels _ Hok2 id channel Hl2) as (c2 & Hc2 & Hid2). erewrite bind_eq by by apply load_channel_run. rewrite Hid2.
  destruct (err =? ERROR_NONE); red_if; [case_bool_decide as Href|].
  - destruct (finish_channel_run id CURRENT_TIME_REFERENCE None w2 channel Hok2 Ha Hl2) as (err' & w3 & ms' & E3 & H3 & Hl3 & Hcl).
    erewrite bind_eq by exact E3.
    destruct (answered_cleared w0 w1 w2 w3 id channel err' ms ms') as (w' & E' & Hans); [done..|]. exists w', (ms ++ ms').
    split; [done|]. split; [done|]. eapply (creations_stable _ _ Hf _ _ (quiet_clear_channel _ _ _ _ _ E') (answered_ok _ _ _ _ Hans)).
    eapply (creations_stable _ _ Hf _ _ (quiet_finish_channel _ _ _ _ _ _ E3) (sends_ok _ _ _ H3) HI2).
  - exists w2, ms. split; [done|]. split; [|exact HI2]. destruct He, H2. split; try congruence.
    + intros id' Hne. rewrite <-(elsewhere_states0 id' Hne). auto.
    + exists (state_of w2 id). split; [rewrite <-Hinit; auto|]. left. split; [done|]. exists c2. split; [|done].
      unfold channel_of. by rewrite Hl2.
  - destruct (report_channel_run id CURRENT_TIME_REFERENCE (Some (lit "command creation failed")) w2 channel Hok2 Ha Hl2)
      as (err' & w3 & ms' & E3 & H3 & Hl3 & Hcl).
    erewrite bind_eq by exact E3.
    destruct (answered_cleared w0 w1 w2 w3 id channel err' ms ms') as (w' & E' & Hans); [done..|]. exists w', (ms ++ ms').
    split; [done|]. split; [done|]. eapply (creations_stable _ _ Hf _ _ (quiet_clear_channel _ _ _ _ _ E') (answered_ok _ _ _ _ Hans)).
    eapply (creations_stable _ _ Hf _ _ (quiet_error_channel _ _ _ _ _ _ E3) (sends_ok _ _ _ H3) HI2).
Qed.
End Requests.

(** C3: Every request for a command that comes from the parser is answered (if its channel
    ID does not start with 7, 8 or 9). If the channel is in use, or there is no memory,
    the client is told so (or the connection is closed) and no channel changes. Otherwise
    the messages on the new channel follow the protocol, and in the end the command is
    running on it, or the last message has closed the channel and its ID is free again,
    or the connection is closed; other channels only see protocol messages and no lock is
    left behind. This holds in the states of an invariant, which is kept, if creating a
    command of the factory is well-behaved in these states; [Promises.plugins_behave]
    proves that of factories with one of the commands CMHD, CMTR, CMRG, DRQV and DRCI
    beside the commands of the server, in all states that these plugins reach (with the
    last three commands: as long as locks do not fail). *)
Theorem command_request_answered {C} `{ConnectionLaws C} {Y} (I : world C (ext Y) -> Prop) (factory : command_factory_t (world C (ext Y))) request w :
  let id := req_channel_id request in
  creations_behave I factory -> I w -> world_ok w -> addressable id = true -> Forall no_nul (req_parameters request) ->
  exists w', handle_command_request factory request w = Some (tt, w') /\ I w' /\
    ((exists t reason, noticed w w' (channel_failure (channel_id_to_string id) t reason)) \/
     (state_of w id = None /\ exists ms, answered w w' id ms)).
Proof.
  intros id Hf HI Hok Ha Hpar. unfold handle_command_request. fold id.
  erewrite bind_eq by exact (has_channel_run id w Ha).
  assert (forall w1 reason, sends w w1 [] -> quiet w w1 -> exists w',
    refuse_request (channel_id_to_string id) reason w1 = Some (tt, w') /\ I w' /\
    ((exists t reason, noticed w w' (channel_failure (channel_id_to_string id) t reason)) \/
     (state_of w id = None /\ exists ms, answered w w' id ms))) as Hrefuse.
  { intros w1 reason Hs Hqt. destruct (refuse_request_run (channel_id_to_string id) reason w1 (sends_ok _ _ _ Hs)) as (w' & t & E & Hn).
    exists w'. split; [done|]. split; [|left; exists t, reason; by eapply noticed_after].
    apply (creations_stable _ _ Hf w); [|by destruct Hn|exact HI]. transitivity w1; [done|by eapply quiet_refuse_request]. }
  destruct (registered (w_channels w) id) as [l|] eqn:Hl;
    [rewrite bool_decide_eq_true_2 by by eexists|rewrite bool_decide_eq_false_2 by by intros [? ?]]; cbv beta iota.
  { apply Hrefuse; [|reflexivity]. apply talked_sends; [by apply talked_refl|done]. }
  destruct (alloc_channel_run id w Hok) as (r & w2 & E2 & H2 & Htab2 & _ & Hr). erewrite bind_eq by exact E2.
  pose proof (quiet_alloc_channel _ _ _ _ E2) as Hq2. destruct r as [l|]; [|by apply Hrefuse]. specialize (Hr l eq_refl).
  assert (registered (w_channels w2) id = None) as Hl2 by by rewrite (registered_table _ _ _ Htab2).
  destruct (put_channel_world w2 l _ (sends_ok _ _ _ H2) Hr Ha Hl2) as (ok & w3 & E3 & Hno & Hyes).
  erewrite bind_eq by exact E3. assert (quiet w w3) as Hq3 by (transitivity w2; [done|by eapply quiet_put_channel]). destruct ok; simpl.
  2:{ apply Hrefuse; [|done]. by apply (sends_trans _ w2 _ [] []); [|apply Hno]. }
  destruct (Hyes eq_refl) as ([] & Hl3 & Hc3). simpl in *.
  destruct (open_request_run factory I l request w w3 (mkChannel id CHANNEL_STATE_INITIAL false None None) Hf Hpar)
    as (w' & ms & E & Hans & HI'); [by apply (creations_stable _ _ Hf w)|done| |done|done|done|done|].
  { split; [done| | | |].
    - by rewrite elsewhere_queue0, (sends_nil_queue _ _ H2).
    - intros id' Hne. rewrite elsewhere_states0 by done. by apply sends_nil_state.
    - by rewrite elsewhere_closing0, (sends_closing _ _ _ H2).
    - by rewrite elsewhere_lock0, (sends_lock _ _ _ H2). }
  exists w'. split; [exact E|]. split; [exact HI'|]. right. split; [|by exists ms]. unfold state_of, channel_of. by rewrite Hl.
Qed.
