(* ===== verification/ServerCommands.v ===== *)
(** The commands that describe and configure the server: SRID ([command_srid.c]),
    SRLC ([command_srlc.c]) and SRFS ([command_srfs.c]). All three complete
    instantly: they keep no state and never store a command reference.

    The texts of [_buildinfo.h], which the build generates, and the X-Plane
    versions are parameters. SRLC and SRFS read the server's command factory, of
    which they use the names and the [merge_config] functions only. *)

From S2P Require Import Prelude CLib Utils Hashmap Channels Requests Network Command Session Server.

Section Commands.
Context {C : Type} `{Connection C} {X : Type}.
Abbreviation W := (world C X).

(** The functions the three commands share: [error_channel] at the current time,
    the end of a creation that fails with a message, and the version check of
    [merge_config]. *)
Definition report (id : Z) (message : option cstr) : M W error_t := error_channel id CURRENT_TIME_REFERENCE message.
Definition decline (id : Z) (message : cstr) : M W (error_t * option loc) :=
  _ ← report id (Some message); mret (ERROR_UNSPECIFIC, None).

Definition print_unsupported_version (supported requested : Z) : cstr :=
  lit "only supported version is " ++ print_dec supported ++ lit ", requested " ++ print_dec requested.

Definition merge_featureless_config (supported_version : Z) (requested_changes : command_config_t)
  : M W (error_t * option command_config_t * option cstr) :=
  if negb (version requested_changes =? supported_version) then
    err_msg ← on_env (dynamic_sprintf (print_unsupported_version supported_version (version requested_changes)));
    mret (ERROR_UNSPECIFIC, None, err_msg)
  else if has_mandatory_command_feature_request (Some requested_changes) then
    err_msg ← on_env (dynamic_sprintf (lit "current command implementation does not support any feature flags"));
    mret (ERROR_UNSPECIFIC, None, err_msg)
  else mret (ERROR_NONE, None, None).

(** [terminate] and [destroy] of commands that complete instantly. *)
Definition refuse_reference (command_ref : option loc) : M W error_t :=
  mret (match command_ref with Some _ => ERROR_UNSPECIFIC | None => ERROR_NONE end).

(** * SRID *)

Record buildinfo := mkBuildinfo {
  XPRC_SERVER_ID : cstr;
  XPRC_SERVER_NAME : cstr;
  XPRC_SERVER_VERSION : cstr;
  XPRC_SERVER_WEBSITE : cstr;
  XPRC_SERVER_BUILD_ID : cstr;
  XPRC_SERVER_BUILD_REF : cstr;
  XPRC_SERVER_BUILD_TIME : cstr;
  XPRC_SERVER_BUILD_TARGET : cstr;
}.

Record xpinfo_t := mkXpinfo { xplane_version : Z; xplm_version : Z }.

Definition SRID_COMMAND_VERSION : Z := 1.

Definition srid_continue (id : Z) (message : cstr) : M W unit :=
  _ ← continue_channel id CURRENT_TIME_REFERENCE (Some message); mret tt.

(** Continues with a formatted number; tells whether formatting failed. *)
Definition srid_continue_number (id : Z) (label : cstr) (n : Z) : M W bool :=
  msg ← on_env (dynamic_sprintf (label ++ print_dec n));
  match msg with
  | None => mret true
  | Some msg => _ ← srid_continue id msg; mret false
  end.

Definition srid_continue_unless_empty (id : Z) (label text : cstr) : M W unit :=
  when (0 <? strlen text) (srid_continue id (label ++ text)).

Definition srid_create (info : buildinfo) (xpinfo : xpinfo_t) (request : request_t) (config : command_config_t)
  : M W (error_t * option loc) :=
  let channel_id := req_channel_id request in
  if negb (version config =? SRID_COMMAND_VERSION) then decline channel_id (lit "unexpected command version")
  else if negb (request_has_only_options (Some request) (Some [])) then decline channel_id (lit "unsupported options")
  else
    match req_parameters request with
    | _ :: _ => decline channel_id (lit "unsupported parameters")
    | [] =>
        _ ← confirm_channel channel_id CURRENT_TIME_REFERENCE None;
        _ ← srid_continue channel_id (lit "id:" ++ XPRC_SERVER_ID info);
        _ ← srid_continue channel_id (lit "name:" ++ XPRC_SERVER_NAME info);
        _ ← srid_continue channel_id (lit "version:" ++ XPRC_SERVER_VERSION info);
        _ ← srid_continue_unless_empty channel_id (lit "website:") (XPRC_SERVER_WEBSITE info);
        failed ← srid_continue_number channel_id (lit "apiversion:") (xplm_version xpinfo);
        failed' ← srid_continue_number channel_id (lit "xpversion:") (xplane_version xpinfo);
        _ ← srid_continue_unless_empty channel_id (lit "x-build-id:") (XPRC_SERVER_BUILD_ID info);
        _ ← srid_continue_unless_empty channel_id (lit "x-build-ref:") (XPRC_SERVER_BUILD_REF info);
        _ ← srid_continue_unless_empty channel_id (lit "x-build-time:") (XPRC_SERVER_BUILD_TIME info);
        _ ← finish_channel channel_id CURRENT_TIME_REFERENCE (Some (lit "x-build-target:" ++ XPRC_SERVER_BUILD_TARGET info));
        mret (if failed || failed' then ERROR_INCOMPLETE else ERROR_NONE, None)
    end.

Definition srid_create_default_config : M W (option command_config_t) := on_env (create_command_config SRID_COMMAND_VERSION).
Definition srid_merge_config (previous_config requested_changes : command_config_t) :=
  merge_featureless_config SRID_COMMAND_VERSION requested_changes.
Definition srid_terminate : option loc -> M W error_t := refuse_reference.
Definition srid_destroy : option loc -> M W error_t := refuse_reference.

Definition command_srid (info : buildinfo) (xpinfo : xpinfo_t) : command_t W :=
  mkCommand (lit "SRID") (srid_create info xpinfo) srid_terminate srid_destroy srid_create_default_config srid_merge_config.

(** * SRLC *)

Definition SRLC_COMMAND_VERSION : Z := 1.
Definition SRLC_COMMAND_NAME : cstr := lit "SRLC".

(** What precedes a flag's name; [None]: the state cannot be encoded. *)
Definition encode_feature_state (state : ascii) : option cstr :=
  if state_is state COMMAND_FEATURE_STATE_ENABLED_DEFAULT then Some (lit "*")
  else if state_is state COMMAND_FEATURE_STATE_DISABLED_DEFAULT then Some (lit "?")
  else if state_is state COMMAND_FEATURE_STATE_ENABLED_CLIENT then Some (lit "+")
  else if state_is state COMMAND_FEATURE_STATE_DISABLED_CLIENT then Some (lit "-")
  else if state_is state COMMAND_FEATURE_STATE_UNAVAILABLE then Some (lit "/")
  else if state_is state COMMAND_FEATURE_STATE_ENABLED_ALWAYS then Some []
  else None.

(** The loop over the feature flags: the message, or the error that ends it. *)
Fixpoint append_feature_flags (config : command_config_t) (names : list cstr) (is_first : bool) (msg : cstr)
  : M W (error_t + cstr) :=
  match names with
  | [] => mret (inr msg)
  | name :: names' =>
      match encode_feature_state (get_command_feature_state (Some config) (Some name)) with
      | None => mret (inl ERROR_UNSPECIFIC)
      | Some state_encoded =>
          tmp ← on_env (dynamic_sprintf (msg ++ lit (if is_first then ":" else ",") ++ state_encoded ++ name));
          match tmp with
          | None => mret (inl ERROR_MEMORY_ALLOCATION)
          | Some tmp => append_feature_flags config names' false tmp
          end
      end
  end.

Definition send_command_configuration (channel_id : Z) (command_name : cstr) (finish : bool) : M W error_t :=
  config ← get_command_configuration (Some command_name);
  match config with
  | None => mret ERROR_UNSPECIFIC
  | Some config =>
      if version config <? 1 then mret ERROR_UNSPECIFIC
      else
        msg ← on_env (dynamic_sprintf (command_name ++ lit ":" ++ print_dec (version config)));
        match msg with
        | None => mret ERROR_MEMORY_ALLOCATION
        | Some msg =>
            names ← on_env (reference_feature_flag_names (Some config));
            match names with
            | None => mret ERROR_UNSPECIFIC
            | Some names =>
                msg ← append_feature_flags config names true msg;
                match msg with
                | inl err => mret err
                | inr msg =>
                    if finish then finish_channel channel_id CURRENT_TIME_REFERENCE (Some msg)
                    else continue_channel channel_id CURRENT_TIME_REFERENCE (Some msg)
                end
            end
        end
  end.

(** The commands other than SRLC itself, the last one of the list finishes the
    channel. *)
Fixpoint send_other_configurations (channel_id : Z) (names : list cstr) : M W error_t :=
  match names with
  | [] => mret ERROR_NONE
  | name :: names' =>
      if str_eq SRLC_COMMAND_NAME name then send_other_configurations channel_id names'
      else
        err ← send_command_configuration channel_id name (match names' with [] => true | _ :: _ => false end);
        if negb (err =? ERROR_NONE) then mret ERROR_INCOMPLETE else send_other_configurations channel_id names'
  end.

Section Factory.
Context (command_factory : command_factory_t W).

(** The label [error] of [srlc_create]. *)
Definition srlc_fail (channel_id : Z) (out_error : error_t) : M W (error_t * option loc) :=
  _ ← report channel_id None;
  mret (if out_error =? ERROR_NONE then ERROR_UNSPECIFIC else out_error, None).

Definition srlc_create (request : request_t) (config : command_config_t) : M W (error_t * option loc) :=
  let channel_id := req_channel_id request in
  if negb (version config =? SRLC_COMMAND_VERSION) then decline channel_id (lit "unexpected command version")
  else if negb (request_has_only_options (Some request) (Some [])) then decline channel_id (lit "unsupported options")
  else
    match req_parameters request with
    | _ :: _ => decline channel_id (lit "unsupported parameters")
    | [] =>
        command_names ← on_env (list_command_names (Some command_factory));
        match command_names with
        | None => srlc_fail channel_id ERROR_NONE
        | Some command_names =>
            _ ← confirm_channel channel_id CURRENT_TIME_REFERENCE None;
            err ← send_command_configuration channel_id SRLC_COMMAND_NAME
                    (match command_names with [] => true | _ :: _ => false end);
            if negb (err =? ERROR_NONE) then srlc_fail channel_id ERROR_INCOMPLETE
            else
              out_error ← send_other_configurations channel_id command_names;
              if negb (out_error =? ERROR_NONE) then srlc_fail channel_id out_error else mret (ERROR_NONE, None)
        end
    end.

Definition srlc_create_default_config : M W (option command_config_t) := on_env (create_command_config SRLC_COMMAND_VERSION).
Definition srlc_merge_config (previous_config requested_changes : command_config_t) :=
  merge_featureless_config SRLC_COMMAND_VERSION requested_changes.
Definition srlc_terminate : option loc -> M W error_t := refuse_reference.
Definition srlc_destroy : option loc -> M W error_t := refuse_reference.

Definition command_srlc : command_t W :=
  mkCommand SRLC_COMMAND_NAME srlc_create srlc_terminate srlc_destroy srlc_create_default_config srlc_merge_config.

(** * SRFS *)

Definition SRFS_COMMAND_VERSION : Z := 1.

Definition parse_feature_state (state_ch : ascii) : option ascii :=
  if state_is state_ch "+" then Some COMMAND_FEATURE_STATE_ENABLE
  else if state_is state_ch "-" then Some COMMAND_FEATURE_STATE_DISABLE
  else if state_is state_ch "*" then Some COMMAND_FEATURE_STATE_ENABLE_ONLY_IF_POSSIBLE
  else if state_is state_ch "/" then Some COMMAND_FEATURE_STATE_DISABLE_ONLY_IF_POSSIBLE
  else None.

(** The selection at the start of [rest], and what follows the delimiter. *)
Definition next_selection (rest : cstr) : cstr * cstr :=
  let end_offset := strpos (Some rest) (Some (lit ",")) 0 in
  if end_offset <? 0 then (rest, []) else (slice 0 end_offset rest, drop (Z.to_nat (end_offset + 1)) rest).

(** The loop over the feature flags in [rest], the part of the parameter from
    [start_offset] on; each iteration consumes a character, so its length is
    enough fuel. [None]: the request is refused (and reported, if the client is
    told the reason). A configuration that could not be allocated is NULL. *)
Fixpoint parse_feature_flags (fuel : nat) (channel_id : Z) (rest : cstr) (requested_changes : option command_config_t)
  : M W (option (option command_config_t)) :=
  match fuel, rest with
  | _, [] => mret (Some requested_changes)
  | O, _ => ub
  | S fuel', state_ch :: _ =>
      let '(selection, rest') := next_selection rest in
      if strlen selection <? 2 then _ ← report channel_id (Some (lit "invalid feature flag length")); mret None
      else
        match parse_feature_state state_ch with
        | None => _ ← report channel_id (Some (lit "invalid or missing feature flag state")); mret None
        | Some state =>
            match requested_changes with
            | None => mret None
            | Some config =>
                '(err, previous_state, config) ← on_env (set_command_feature_flag config (Some (tail selection)) state);
                if negb (err =? ERROR_NONE) then mret None
                else if negb (state_is (default COMMAND_FEATURE_STATE_NONE previous_state) COMMAND_FEATURE_STATE_NONE) then
                  _ ← report channel_id (Some (lit "multiple changes requested for same feature flag")); mret None
                else parse_feature_flags fuel' channel_id rest' (Some config)
            end
        end
  end.

(** The third parameter; there must not be a fourth. *)
Definition parse_flags_parameter (channel_id : Z) (parameters : list cstr) (requested_changes : option command_config_t)
  : M W (option (option command_config_t)) :=
  match parameters with
  | [] => mret (Some requested_changes)
  | flags :: more =>
      if strlen flags =? 0 then mret (Some requested_changes)
      else
        match more with
        | _ :: _ => _ ← report channel_id (Some (lit "too many parameters")); mret None
        | [] => parse_feature_flags (length flags) channel_id flags requested_changes
        end
  end.

(** The label [error] of [srfs_create]. *)
Definition srfs_fail (channel_id : Z) (out_error : error_t) : M W (error_t * option loc) :=
  _ ← report channel_id None;
  mret (if out_error =? ERROR_NONE then ERROR_UNSPECIFIC else out_error, None).

Definition reconfiguration_failed : cstr := lit "failed to reconfigure command".

(** Reports why the command refused the changes, in its own words if possible. *)
Definition report_merge_failure (channel_id : Z) (err_msg : option cstr) : M W error_t :=
  match err_msg with
  | None => report channel_id (Some reconfiguration_failed)
  | Some err_msg =>
      tmp ← on_env (dynamic_sprintf (lit "failed to reconfigure command: " ++ err_msg));
      match tmp with
      | Some tmp => report channel_id (Some tmp)
      | None => report channel_id (Some reconfiguration_failed)
      end
  end.

Definition srfs_reconfigure (channel_id : Z) (command_name : cstr) (previous_config : command_config_t)
    (requested_changes : option command_config_t) : M W (error_t * option loc) :=
  '(err, merged_config, err_msg) ←
    merge_command_config None (Some None) (Some command_factory) (Some command_name) (Some previous_config) requested_changes;
  if negb (err =? ERROR_NONE) then
    _ ← report_merge_failure channel_id (mjoin err_msg);
    srfs_fail channel_id err
  else
    err ← match merged_config with
          | None => mret ERROR_NONE
          | Some merged_config => set_command_configuration (Some command_name) (Some merged_config)
          end;
    if negb (err =? ERROR_NONE) then
      _ ← report channel_id (Some reconfiguration_failed);
      srfs_fail channel_id ERROR_NONE
    else
      _ ← finish_channel channel_id CURRENT_TIME_REFERENCE None;
      mret (ERROR_NONE, None).

(** The version is an [int] when it is checked and a [uint16_t] from then on. *)
Definition srfs_parse_version (text : option cstr) : M W (option Z) :=
  match text with
  | None => mret None
  | Some text =>
      requested_command_version ← on_env (parse_int (Some text));
      mret (match requested_command_version with
            | Some v => if v <? 1 then None else Some v
            | None => None
            end)
  end.

Definition srfs_create (request : request_t) (config : command_config_t) : M W (error_t * option loc) :=
  let channel_id := req_channel_id request in
  if negb (version config =? SRFS_COMMAND_VERSION) then decline channel_id (lit "unexpected SRFS command version")
  else if negb (request_has_only_options (Some request) (Some [])) then decline channel_id (lit "unsupported options")
  else
    let command_name := default [] (head (req_parameters request)) in
    if strlen command_name =? 0 then
      decline channel_id (lit "missing parameter: expected command name as first parameter")
    else
      previous_config ← get_command_configuration (Some command_name);
      match previous_config with
      | None => mret (ERROR_UNSPECIFIC, None)
      | Some previous_config =>
          let version_text := default [] (req_parameters request !! 1%nat) in
          if strlen version_text =? 0 then
            decline channel_id (lit "missing parameter: expected command version as second parameter")
          else
            requested_command_version ← srfs_parse_version (Some version_text);
            match requested_command_version with
            | None => decline channel_id (lit "invalid command version")
            | Some requested_command_version =>
                requested_changes ← on_env (create_command_config (wrap_u 16 requested_command_version));
                requested_changes ← parse_flags_parameter channel_id (drop 2 (req_parameters request)) requested_changes;
                match requested_changes with
                | None => srfs_fail channel_id ERROR_NONE
                | Some requested_changes => srfs_reconfigure channel_id command_name previous_config requested_changes
                end
            end
      end.

Definition srfs_create_default_config : M W (option command_config_t) := on_env (create_command_config SRFS_COMMAND_VERSION).
Definition srfs_merge_config (previous_config requested_changes : command_config_t) :=
  merge_featureless_config SRFS_COMMAND_VERSION requested_changes.
Definition srfs_terminate : option loc -> M W error_t := refuse_reference.
Definition srfs_destroy : option loc -> M W error_t := refuse_reference.

Definition command_srfs : command_t W :=
  mkCommand (lit "SRFS") srfs_create srfs_terminate srfs_destroy srfs_create_default_config srfs_merge_config.
End Factory.
End Commands.

(** * The commands keep their promise to the server *)

Section Promises.
Context {C : Type} `{ConnectionLaws C} {Y : Type}.
Abbreviation W := (world C (ext Y)).

Lemma behaved_report id message : behaved_on id (report (X := ext Y) id message).
Proof. apply behaved_error. Qed.
#[local] Hint Resolve behaved_report : xprc.

Lemma behaved_decline id message : behaved_on id (decline (X := ext Y) id message).
Proof. unfold decline. behaved_step. Qed.

Lemma behaved_refuse_reference id ref : behaved_on id (refuse_reference (C := C) (X := ext Y) ref).
Proof. apply behaved_ret. Qed.

Lemma behaved_merge id v changes : behaved_on id (merge_featureless_config (C := C) (X := ext Y) v changes).
Proof. unfold merge_featureless_config. behaved_step. Qed.
#[local] Hint Resolve behaved_decline behaved_refuse_reference behaved_merge : xprc.

Lemma behaved_srid_continue id message : behaved_on id (srid_continue (X := ext Y) id message).
Proof. unfold srid_continue. behaved_step. Qed.
#[local] Hint Resolve behaved_srid_continue : xprc.

Lemma behaved_srid_continue_number id label n : behaved_on id (srid_continue_number (X := ext Y) id label n).
Proof. unfold srid_continue_number. behaved_step. Qed.

Lemma behaved_srid_continue_unless_empty id label text : behaved_on id (srid_continue_unless_empty (X := ext Y) id label text).
Proof. unfold srid_continue_unless_empty. behaved_step. Qed.
#[local] Hint Resolve behaved_srid_continue_number behaved_srid_continue_unless_empty : xprc.

#[export] Instance srid_promise info xpinfo : CommandPromise (command_srid (C := C) (X := ext Y) info xpinfo).
Proof.
  split; try (intros; first [apply behaved_refuse_reference|apply behaved_merge]).
  intros request config. cbn [cmd_create command_srid]. unfold srid_create. destruct (req_parameters request); behaved_step.
Qed.

Lemma behaved_append_feature_flags id config names : forall is_first msg,
  behaved_on id (append_feature_flags (C := C) (X := ext Y) config names is_first msg).
Proof. induction names as [|name names IH]; intros is_first msg; simpl; [behaved_step|]. case_match; behaved_step. Qed.
#[local] Hint Resolve behaved_append_feature_flags : xprc.

Lemma behaved_send_command_configuration id name finish :
  behaved_on id (send_command_configuration (X := ext Y) id name finish).
Proof.
  unfold send_command_configuration. behaved_step.
  match goal with |- behaved_on _ (match ?x with _ => _ end) => destruct x end; behaved_step.
Qed.
#[local] Hint Resolve behaved_send_command_configuration : xprc.

Lemma behaved_send_other_configurations id names : behaved_on id (send_other_configurations (X := ext Y) id names).
Proof. induction names; simpl; behaved_step. Qed.
#[local] Hint Resolve behaved_send_other_configurations : xprc.

#[export] Instance srlc_promise factory : CommandPromise (command_srlc (C := C) (X := ext Y) factory).
Proof.
  split; try (intros; first [apply behaved_refuse_reference|apply behaved_merge]).
  intros request config. cbn [cmd_create command_srlc]. unfold srlc_create, srlc_fail. destruct (req_parameters request); behaved_step.
Qed.

(** Enough characters are consumed for the fuel to last. *)
Lemma next_selection_shorter rest selection rest' :
  rest <> [] -> next_selection rest = (selection, rest') -> (length rest' < length rest)%nat.
Proof.
  intros Hne. unfold next_selection. generalize (strpos (Some rest) (Some (lit ",")) 0). intros e. cbv zeta. assert (0 < length rest)%nat by (destruct rest; [done|simpl; lia]).
  destruct (_ <? 0) eqn:E; intros [= <- <-]; [done|]. bools. rewrite length_drop. lia.
Qed.

Lemma behaved_parse_feature_flags id fuel : forall rest changes,
  (length rest <= fuel)%nat -> behaved_on id (parse_feature_flags (C := C) (X := ext Y) fuel id rest changes).
Proof.
  induction fuel as [|fuel IH]; intros rest changes Hf.
  { destruct rest; [apply behaved_ret|simpl in Hf; lia]. }
  destruct rest as [|ch rest]; [apply behaved_ret|]. cbn [parse_feature_flags].
  destruct (next_selection (ch :: rest)) as [selection rest'] eqn:E. apply next_selection_shorter in E; [|done].
  apply behaved_if; [behaved_step|]. behaved_step. apply IH. lia.
Qed.

Lemma behaved_parse_flags_parameter id parameters changes :
  behaved_on id (parse_flags_parameter (C := C) (X := ext Y) id parameters changes).
Proof.
  unfold parse_flags_parameter. destruct parameters as [|flags [|]]; behaved_step. by apply behaved_parse_feature_flags.
Qed.

Lemma behaved_report_merge_failure id err_msg : behaved_on id (report_merge_failure (X := ext Y) id err_msg).
Proof. unfold report_merge_failure. behaved_step. Qed.

Lemma behaved_srfs_parse_version id text : behaved_on id (srfs_parse_version (C := C) (X := ext Y) text).
Proof. unfold srfs_parse_version. behaved_step. Qed.
#[local] Hint Resolve behaved_parse_flags_parameter behaved_report_merge_failure behaved_srfs_parse_version : xprc.

(** The merge functions a factory offers. *)
Definition merges_behave (factory : command_factory_t W) : Prop :=
  forall name command id previous changes, hashmap_get (commands_by_name factory) name = Some command ->
  behaved_on id (cmd_merge_config command previous changes).

Lemma behaved_merge_command_config factory id new_config err_msg name previous changes :
  merges_behave factory -> behaved_on id (merge_command_config new_config err_msg (Some factory) name previous changes).
Proof.
  intros Hf. unfold merge_command_config. apply behaved_if; [behaved_step|]. apply behaved_if; [behaved_step|].
  destruct name as [name|], previous as [previous|], changes as [changes|]; try apply behaved_ret.
  destruct (hashmap_get _ _) as [command|] eqn:E; [|apply behaved_ret].
  apply behaved_bind; [by eapply Hf|]. intros [[err new] msg]. cbv zeta.
  match goal with |- behaved_on _ (let '(_, _) := ?x in _) => destruct x as [??] end. apply behaved_ret.
Qed.

#[local] Hint Resolve behaved_merge_command_config : xprc.

#[export] Instance srfs_promise factory : merges_behave factory -> CommandPromise (command_srfs (C := C) (X := ext Y) factory).
Proof.
  intros Hf. split; try (intros; first [apply behaved_refuse_reference|apply behaved_merge]).
  intros request config. cbn [cmd_create command_srfs]. unfold srfs_create, srfs_reconfigure, srfs_fail. cbv zeta.
  behaved_step.
Qed.
End Promises.

(** C11: The commands that describe and configure the server keep their promise:
    creating, terminating and destroying them and merging their configurations
    only ever sends protocol messages, releases every lock and never goes wrong,
    whatever is requested. SRFS needs the same of the merge functions of the
    commands it configures. *)
Theorem server_commands_keep_promise {C} `{ConnectionLaws C} {Y} info xpinfo (factory : command_factory_t (world C (ext Y))) :
  merges_behave factory ->
  CommandPromise (command_srid (C := C) (X := ext Y) info xpinfo) /\
  CommandPromise (command_srlc factory) /\ CommandPromise (command_srfs factory).
Proof. intros Hf. split; [apply srid_promise|]. split; [apply srlc_promise|by apply srfs_promise]. Qed.

(** A factory that knows SRID, with its configuration in the session. *)
Definition demo_info : buildinfo :=
  mkBuildinfo (lit "de.energiequant.xprc") (lit "XPRC server") (lit "1.0") [] [] [] [] (lit "LIN").
Definition demo_factory : command_factory_t (world network_connection_t (ext unit)) :=
  mkFactory (mkMap {[compute_hash (lit "SRID") := [mkItem (lit "SRID") (Some (command_srid demo_info (mkXpinfo 12000 400)))]]}).
Definition demo_configs : hashmap_t command_config_t :=
  mkMap {[compute_hash (lit "SRID") := [mkItem (lit "SRID") (Some (mkConfig 1 (mkMap ∅)))]]}.
Definition demo_server_world : world network_connection_t (ext unit) :=
  mkWorld (mkSession (mkTimespec 0 0) 0 SESSION_PHASE_LOGGED_IN 1 demo_configs 0 false)
    (mkChannels ∅ empty_table (mkEnv [] [] (replicate 20 (Some demo_time)))) new_network_connection demo_ext.

Lemma demo_find name command :
  hashmap_get (commands_by_name demo_factory) name = Some command ->
  command = command_srid demo_info (mkXpinfo 12000 400).
Proof.
  unfold hashmap_get, bucket, demo_factory. cbn [commands_by_name items].
  destruct (decide (compute_hash name = compute_hash (lit "SRID"))) as [-> |Hne].
  - rewrite lookup_singleton_eq. simpl. destruct (str_eq _ name); simpl; congruence.
  - by rewrite lookup_singleton_ne.
Qed.

Lemma demo_server_world_ok : world_ok demo_server_world.
Proof. split; [by repeat split|by intros ???|]. intros id l Hl. unfold registered in Hl. simpl in Hl. by rewrite lookup_empty in Hl. Qed.

Lemma server_commands_keep_promise_witness :
  CommandPromise (command_srid (C := network_connection_t) (X := ext unit) demo_info (mkXpinfo 12000 400)) /\
  CommandPromise (command_srlc demo_factory) /\ CommandPromise (command_srfs demo_factory).
Proof.
  apply (server_commands_keep_promise demo_info (mkXpinfo 12000 400) demo_factory).
  intros name command id previous changes Hc. apply demo_find in Hc as ->. apply merge_promise.
Defined.

