(* ===== verification/Beside.v ===== *)
(** Operations that commands use, in the world of a session: what scheduling
    leaves alone (operations of the task schedule do not touch the session, its
    channels and connection or the data of commands, and do not make resources
    scarcer), and what messages do. *)

From S2P Require Import Prelude CLib Utils Hashmap Channels Requests Lists Prealloc TaskSchedule Network Command Session Server ServerCommands.

#[local] Hint Resolve heap_load heap_update heap_call heap_zmalloc heap_alloc_items : respects.

(** * The world *)

Section Beside.
Context {C : Type} `{Connection C} {Y : Type}.
Implicit Types (w : world C (ext Y)).
Abbreviation W := (world C (ext Y)).

(** Only the schedule and its queues change. *)
Record beside w w' : Prop := mkBeside {
  beside_session : w_session w' = w_session w;
  beside_heap : cs_heap (w_channels w') = cs_heap (w_channels w);
  beside_table : cs_table (w_channels w') = cs_table (w_channels w);
  beside_connection : w_connection w' = w_connection w;
  beside_data : x_data (w_ext w') = x_data (w_ext w);
  beside_pending : ts_destruction_pending (x_schedule (w_ext w')) = ts_destruction_pending (x_schedule (w_ext w));
  beside_env : calmer (cs_env (w_channels w)) (cs_env (w_channels w'));
}.

#[export] Instance beside_preorder : PreOrder beside.
Proof.
  split; [by intros w; split|]. intros w1 w2 w3 [] []. split; try congruence. by etransitivity.
Qed.

Lemma beside_schedule_heap {A} (m : M task_heap A) : respects calmer_heap m -> respects beside (schedule_heap (W := W) m).
Proof. apply respects_zoom. intros w h Hc. by split. Qed.

Lemma beside_schedule_env {A} (m : M env A) : respects calmer m -> respects beside (schedule_env (W := W) m).
Proof.
  intros Hm. apply (respects_zoom _ (fun s s' : channels =>
    cs_heap s' = cs_heap s /\ cs_table s' = cs_table s /\ calmer (cs_env s) (cs_env s'))).
  - intros w s (? & ? & ?). by split.
  - apply (respects_zoom _ calmer); [done|exact Hm].
Qed.

Lemma beside_update_schedule f : (forall s, ts_destruction_pending (f s) = ts_destruction_pending s) ->
  respects beside (update_schedule (W := W) f).
Proof. intros Hf. apply respects_modify. intros w. by split; try apply Hf. Qed.

Lemma beside_set_queue phase q : respects beside (update_schedule (W := W) (set_queue phase q)).
Proof. by apply beside_update_schedule. Qed.

Lemma beside_set_lock (f : task_schedule_t -> Z) : respects beside (update_schedule (W := W) (fun s => set_ts_lock (f s) s)).
Proof. by apply beside_update_schedule. Qed.

Lemma beside_lock_result : respects beside (schedule_env (W := W) mtx_lock_result).
Proof. apply beside_schedule_env, respects_mtx_lock_result. Qed.

Lemma beside_unlock : respects beside (unlock_schedule (W := W)).
Proof. by apply beside_update_schedule. Qed.

#[local] Hint Resolve beside_set_queue beside_set_lock beside_lock_result beside_unlock : respects.

Lemma beside_lock : respects beside (lock_schedule (W := W)).
Proof. unfold lock_schedule, locked_schedule, schedule. respects_step. Qed.

Lemma beside_queue i : respects beside (queue (W := W) i).
Proof. unfold queue, schedule. respects_step. Qed.

#[local] Hint Resolve beside_lock beside_queue : respects.

Lemma beside_append l v : respects beside (schedule_heap (W := W) (prealloc_list_append l v)).
Proof. apply beside_schedule_heap, heap_append. Qed.

Lemma beside_delete l p d defer : respects beside (schedule_heap (W := W) (prealloc_list_delete_item l p d defer)).
Proof. apply beside_schedule_heap, heap_delete. Qed.

Lemma beside_load p : respects beside (schedule_heap (W := W) (p_load p)).
Proof. apply beside_schedule_heap, heap_load. Qed.

#[local] Hint Resolve beside_append beside_delete beside_load : respects.

Lemma beside_schedule_task task phase : respects beside (schedule_task (W := W) task phase).
Proof. unfold schedule_task, schedule. respects_step. Qed.

Lemma beside_unschedule_loop fuel q task phase : forall item, respects beside (unschedule_loop (W := W) fuel q task phase item).
Proof.
  induction fuel as [|fuel IH]; intros [i|]; cbn [unschedule_loop]; respects_step; try apply IH.
Qed.

#[local] Hint Resolve beside_unschedule_loop : respects.

Lemma beside_unschedule_task fuel task phase : respects beside (unschedule_task (W := W) fuel task phase).
Proof. unfold unschedule_task. respects_step. Qed.

(** Nothing of the session, its channels and its connection changes. *)
Record session_untouched w w' : Prop := mkSessionUntouched {
  ss_session : w_session w' = w_session w;
  ss_heap : cs_heap (w_channels w') = cs_heap (w_channels w);
  ss_table : cs_table (w_channels w') = cs_table (w_channels w);
  ss_connection : w_connection w' = w_connection w;
}.

#[export] Instance session_untouched_preorder : PreOrder session_untouched.
Proof. split; [by intros w; split|]. intros w1 w2 w3 [] []. split; congruence. Qed.

Lemma beside_session_untouched w w' : beside w w' -> session_untouched w w'.
Proof. intros []. by split. Qed.

End Beside.

(** * What commands use *)

Section Use.
Context {C : Type} `{ConnectionLaws C} {Y : Type}.
Abbreviation W := (world C (ext Y)).
Implicit Types (w : W) (ts : list loc).

(** What the session's theorems rely on is untouched. *)
Lemma session_untouched_world_ok w w' : session_untouched w w' -> world_ok w -> world_ok w'.
Proof.
  intros [_ Eh Et Ec] [Hc Ht Hch]. split; [congruence|unfold Channels.wf; by rewrite Et|].
  intros id l. unfold heap_of. rewrite (registered_table _ _ _ Et), Eh. apply Hch.
Qed.

Lemma beside_world_ok w w' : beside w w' -> world_ok w -> world_ok w'.
Proof. intros Hb. by apply session_untouched_world_ok, beside_session_untouched. Qed.

(** ** Sending messages *)

Lemma report_run w id message : world_ok w -> addressable id = true ->
  exists err w', report id message w = Some (err, w') /\ world_ok w' /\ quiet w w'.
Proof.
  intros Hw Ha. destruct (error_channel_run id CURRENT_TIME_REFERENCE message w Hw Ha) as (err & w' & ms & E & Ht & _).
  exists err, w'. split; [exact E|]. split; [apply (talked_ok _ _ _ Ht)|]. by eapply quiet_error_channel.
Qed.

Lemma act_run w action failure id (t : Z) message : world_ok w -> addressable id = true ->
  exists err w', act_on_channel action failure id t message w = Some (err, w') /\ world_ok w' /\ quiet w w'.
Proof.
  intros Hw Ha. destruct (act_on_channel_run action failure id t message w Hw Ha) as (err & w' & ms & E & Ht & _).
  exists err, w'. split; [exact E|]. split; [apply (talked_ok _ _ _ Ht)|]. by eapply quiet_act_on_channel.
Qed.

(** ** The environment and the channels *)

Lemma on_env_run {A} (f : M env A) w a e : world_ok w -> f (cs_env (w_channels w)) = Some (a, e) -> calmer (cs_env (w_channels w)) e ->
  exists w', on_env f w = Some (a, w') /\ world_ok w' /\ quiet w w'.
Proof.
  intros Hw E Hc. exists (with_env e w). split; [by apply on_env_eq|]. split; [apply (talked_ok _ _ _ (talked_env w e Hw))|]. by split.
Qed.

Lemma held_zmalloc_run n w : n <> 0 -> world_ok w -> exists b w', on_env (zmalloc n) w = Some (b, w') /\ world_ok w' /\ quiet w w'.
Proof.
  intros Hn Hw. destruct (on_env_run (zmalloc n) w (alloc_next (cs_env (w_channels w))) (alloc_rest (cs_env (w_channels w))) Hw) as (w' & E & ? & ?);
    [by apply zmalloc_eq|split; [apply plenty_rest|done]|]. by eexists _, w'.
Qed.

(** The channel is marked for destruction, if it exists. *)
Lemma request_destruction_run w id :
  world_ok w -> addressable id = true ->
  exists w', on_channels (request_channel_destruction id) w = Some (tt, w') /\ world_ok w' /\ quiet w w' /\
    forall l ch, registered (w_channels w) id = Some l -> cs_heap (w_channels w) !! l = Some ch ->
      cs_heap (w_channels w') !! l = Some (set_ch_destruction_requested ch).
Proof.
  intros Hw Ha. assert (exists s, request_channel_destruction id (w_channels w) = Some (tt, s) /\ world_ok (set_channels s w) /\
    forall l ch, registered (w_channels w) id = Some l -> cs_heap (w_channels w) !! l = Some ch ->
      cs_heap s !! l = Some (set_ch_destruction_requested ch)) as (s & E & Hw' & Hl).
  { unfold request_channel_destruction. erewrite bind_eq by exact (get_channel_eq id _ Ha).
    destruct (registered (w_channels w) id) as [l|] eqn:Hl; [|by exists (w_channels w); destruct w].
    destruct (ok_channels _ Hw id l Hl) as (ch & Hch & Hid). unfold heap_of in Hch.
    erewrite bind_eq by by apply load_eq. unfold store. rewrite Hch. eexists. split; [reflexivity|]. split.
    - destruct Hw as [Hc Ht Hcs]. split; [done|done|]. intros id' l' Hl'. cbn in Hl' |- *. unfold heap_of. cbn.
      destruct (Hcs id' l' Hl') as (ch' & Hch' & Hid'). destruct (decide (l = l')) as [<- |Hne].
      + rewrite lookup_insert_eq. eexists. split; [done|]. unfold heap_of in Hch'. assert (ch' = ch) as -> by congruence. done.
      + rewrite lookup_insert_ne by done. by exists ch'.
    - intros l' ch' [= <-] Hch'. cbn. rewrite lookup_insert_eq. by assert (ch' = ch) as -> by congruence. }
  assert (on_channels (request_channel_destruction id) w = Some (tt, set_channels s w)) as E'
    by (unfold on_channels, zoom; by rewrite E).
  eexists. split; [exact E'|]. split; [done|]. split; [|done]. by eapply quiet_request_channel_destruction.
Qed.

(** ** Tasks *)

(** The queue before the flight model holds the tasks [ts]. *)
Definition sched_ok w ts : Prop :=
  exists ps0 ps1, schedule_ok w [ps0; ps1] /\ tasks_are ps0 ts.

Lemma sched_ok_same w w' ts :
  queues (x_schedule (w_ext w')) = queues (x_schedule (w_ext w)) -> x_items (w_ext w') = x_items (w_ext w) ->
  sched_ok w ts -> sched_ok w' ts.
Proof.
  intros Hs Hi (ps0 & ps1 & [Hlen Hq Ha] & Ht). exists ps0, ps1. split; [|done].
  assert (queues (schedule_of w') = queues (schedule_of w)) as Es by exact Hs. assert (items_of_state w' = items_of_state w) as Ei by exact Hi.
  split; [by rewrite Es|intros i ps Hps; rewrite Es, Ei; eauto|by rewrite Es].
Qed.

Lemma tasks_fuel_enough w ts : sched_ok w ts -> (length ts <= size (x_items (w_ext w)))%nat.
Proof.
  intros (ps0 & ps1 & Hok & Ht). destruct (so_queue _ _ Hok 0%nat ps0 eq_refl) as (l & _ & Hr).
  apply (f_equal length) in Ht. rewrite !length_fmap in Ht. rewrite <-Ht.
  pose proof (nodup_live _ (prep_nodup_used _ _ _ Hr)) as Hnd. rewrite <-(length_fmap fst (live ps0)).
  rewrite <-(size_list_to_set (C := gset loc)) by done. rewrite <-size_dom. apply subseteq_size. intros q Hq.
  apply elem_of_list_to_set, list_elem_of_fmap in Hq as ([q' v] & -> & Hin). apply elem_of_live in Hin.
  pose proof (prep_core _ _ _ Hr _ _ Hin) as Hcore. apply elem_of_dom. unfold items_of_state in Hcore. simpl in *.
  destruct (x_items (w_ext w) !! q'); [by eexists|done].
Qed.

(** Scheduling a task puts it at the end of the queue, or fails. *)
Lemma sched_schedule_run w ts task : world_ok w -> sched_ok w ts -> ts_destruction_pending (x_schedule (w_ext w)) = false ->
  exists err w', schedule_task task TASK_SCHEDULE_BEFORE_FLIGHT_MODEL w = Some (err, w') /\ beside w w' /\ world_ok w' /\
    sched_ok w' (if err =? ERROR_NONE then ts ++ [task] else ts).
Proof.
  intros Hw (ps0 & ps1 & Hsch & Hts) Hp.
  destruct (schedule_task_run w [ps0; ps1] TASK_SCHEDULE_BEFORE_FLIGHT_MODEL ps0 ts task Hsch eq_refl eq_refl Hts Hp)
    as (err & w' & ps' & E & Hsch' & _ & _ & Hres).
  pose proof (beside_schedule_task _ _ _ _ _ E) as Hb. exists err, w'. split; [done|]. split; [done|]. split; [by eapply beside_world_ok|].
  exists ps', ps1. split; [done|]. destruct Hres as [[-> ?]|[-> ->]]; done.
Qed.

(** A scheduled task can be unscheduled. *)
Lemma sched_unschedule_run w ts task : world_ok w -> sched_ok w ts -> task ∈ ts ->
  exists ts1 ts2 w', ts = ts1 ++ task :: ts2 /\ (task ∉ ts1) /\
    unschedule_task (size (x_items (w_ext w))) task TASK_SCHEDULE_BEFORE_FLIGHT_MODEL w = Some (ERROR_NONE, w') /\
    beside w w' /\ world_ok w' /\ sched_ok w' (ts1 ++ ts2).
Proof.
  intros Hw Hs Hin. pose proof Hs as (ps0 & ps1 & Hsch & Hts).
  destruct (unschedule_task_run (size (x_items (w_ext w))) w [ps0; ps1] TASK_SCHEDULE_BEFORE_FLIGHT_MODEL ps0 ts task Hsch eq_refl eq_refl Hts)
    as [(ts1 & ts2 & w' & ps' & -> & Hn & E & Hsch' & Hts' & _)|[? _]]; [by apply tasks_fuel_enough| |done].
  pose proof (beside_unschedule_task _ _ _ _ _ _ E) as Hb. exists ts1, ts2, w'. split_and!; try done; [by eapply beside_world_ok|].
  by exists ps', ps1.
Qed.

(** Locking and unlocking the schedule. *)
Lemma sched_lock_run w ts : world_ok w -> sched_ok w ts ->
  exists w', lock_schedule w = Some (lock_result w, w') /\ beside w w' /\ world_ok w' /\ sched_ok w' ts.
Proof.
  intros Hw Hs. destruct (lock_schedule_run w) as (w' & E & Hsch & Hi). exists w'. split; [done|].
  pose proof (beside_lock _ _ _ E) as Hb. split; [done|]. split; [by eapply beside_world_ok|].
  eapply sched_ok_same; [|exact Hi|exact Hs]. change (x_schedule (w_ext w')) with (schedule_of w'). rewrite Hsch.
  by destruct (lock_result w =? ERROR_NONE).
Qed.

Lemma sched_unlock_run w ts : world_ok w -> sched_ok w ts ->
  exists w', unlock_schedule w = Some (tt, w') /\ beside w w' /\ world_ok w' /\ sched_ok w' ts.
Proof.
  intros Hw Hs. eexists. split; [reflexivity|]. pose proof (beside_unlock w tt _ eq_refl) as Hb.
  split; [exact Hb|]. split; [by eapply beside_world_ok|]. by eapply sched_ok_same; [| |exact Hs].
Qed.
End Use.
