(* ===== verification/CalmWorld.v ===== *)
(** The world of a session in which locks do not fail, with both queues of the task
    schedule: what sending messages, using memory and scheduling tasks do to it,
    whatever the data of the command is. *)

From S2P Require Import Prelude CLib Utils Hashmap Channels Requests Lists Prealloc TaskSchedule Network Command Session Server ServerCommands Beside.

(** * The data of a command *)

Section Data.
Context {C D : Type}.
Definition world_data (w : world C (ext D)) : D := x_data (w_ext w).
Definition set_world_data (d : D) (w : world C (ext D)) : world C (ext D) :=
  set_ext (mkExt (x_schedule (w_ext w)) (x_items (w_ext w)) (x_calls (w_ext w)) d) w.
End Data.

Section Calm.
Context {C : Type} `{ConnectionLaws C} {D : Type}.
Abbreviation W := (world C (ext D)).
Implicit Types (w : W) (tss : list (list loc)) (ts : list loc).

(** The queues of the schedule hold the tasks [tss]. *)
Definition scheds_ok w tss : Prop := exists pss, schedule_ok w pss /\ Forall2 tasks_are pss tss.

Lemma scheds_ok_same w w' tss :
  queues (x_schedule (w_ext w')) = queues (x_schedule (w_ext w)) -> x_items (w_ext w') = x_items (w_ext w) -> scheds_ok w tss -> scheds_ok w' tss.
Proof.
  intros Hs Hi (pss & [Hlen Hq Ha] & Ht). exists pss. split; [|done].
  assert (queues (schedule_of w') = queues (schedule_of w)) as Es by exact Hs. assert (items_of_state w' = items_of_state w) as Ei by exact Hi.
  split; [by rewrite Es|intros i ps Hps; rewrite Es, Ei; eauto|by rewrite Es].
Qed.

Lemma scheds_fuel w tss i ts : scheds_ok w tss -> tss !! i = Some ts -> (length ts <= size (x_items (w_ext w)))%nat.
Proof.
  intros (pss & Hok & Ht) Hts. destruct (Forall2_lookup_r _ _ _ _ _ Ht Hts) as (ps & Hps & Htasks).
  destruct (so_queue _ _ Hok i ps Hps) as (l & _ & Hr).
  apply (f_equal length) in Htasks. rewrite !length_fmap in Htasks. rewrite <-Htasks.
  pose proof (nodup_live _ (prep_nodup_used _ _ _ Hr)) as Hnd. rewrite <-(length_fmap fst (live ps)).
  rewrite <-(size_list_to_set (C := gset loc)) by done. rewrite <-size_dom. apply subseteq_size. intros q Hq.
  apply elem_of_list_to_set, list_elem_of_fmap in Hq as ([q' v] & -> & Hin). apply elem_of_live in Hin.
  pose proof (prep_core _ _ _ Hr _ _ Hin) as Hcore. apply elem_of_dom. unfold items_of_state in Hcore. simpl in *.
  destruct (x_items (w_ext w) !! q'); [by eexists|done].
Qed.

(** Locks do not fail; allocations may. *)
Record calm_tasks w tss : Prop := mkCalmTasks {
  ct_world : world_ok w;
  ct_scheds : scheds_ok w tss;
  ct_lock : lock_succeeds (cs_env (w_channels w));
  ct_pending : ts_destruction_pending (x_schedule (w_ext w)) = false;
}.

Lemma tasks_quiet w w' tss : quiet w w' -> world_ok w' -> calm_tasks w tss -> calm_tasks w' tss /\ world_data w' = world_data w.
Proof.
  intros [He [_ Hl]] Hw []. unfold world_data. rewrite He. split; [|done]. split; [done| |by apply Hl|by rewrite He].
  by eapply scheds_ok_same; [..|done]; rewrite He.
Qed.

Lemma tasks_beside w w' tss tss' : beside w w' -> scheds_ok w' tss' -> calm_tasks w tss -> calm_tasks w' tss' /\ world_data w' = world_data w.
Proof. intros Hb Hs [Hw _ Hl Hp]. pose proof (beside_world_ok _ _ Hb Hw). destruct Hb as [? ? ? ? Hd Hp' [_ Hl']]. split; [|done]. split; [done|done|by apply Hl'|by rewrite Hp']. Qed.

Lemma tasks_data w tss d : calm_tasks w tss -> calm_tasks (set_world_data d w) tss.
Proof. intros [[] ? ? ?]. split; [done| |done|done]. by eapply scheds_ok_same; [..|done]. Qed.

Lemma tasks_env w tss e : calmer (cs_env (w_channels w)) e -> calm_tasks w tss -> calm_tasks (with_env e w) tss.
Proof.
  intros Hc Hw. apply (tasks_quiet w); [by split|apply (talked_ok _ _ _ (talked_env w e (ct_world _ _ Hw)))|done].
Qed.

(** ** Messages and memory *)

Lemma tasks_report w tss id message : calm_tasks w tss -> addressable id = true ->
  exists err w', report id message w = Some (err, w') /\ calm_tasks w' tss /\ world_data w' = world_data w.
Proof.
  intros Hw Ha. destruct (report_run w id message (ct_world _ _ Hw) Ha) as (err & w' & E & Hw' & Hq). exists err, w'. split; [done|]. by apply (tasks_quiet w).
Qed.

Lemma tasks_error w tss id (t : Z) message : calm_tasks w tss -> addressable id = true ->
  exists err w', error_channel id t message w = Some (err, w') /\ calm_tasks w' tss /\ world_data w' = world_data w.
Proof.
  intros Hw Ha. destruct (error_channel_run id t message w (ct_world _ _ Hw) Ha) as (err & w' & ms & E & Ht & _). exists err, w'. split; [done|].
  apply (tasks_quiet w); [by eapply quiet_error_channel|apply (talked_ok _ _ _ Ht)|done].
Qed.

Lemma tasks_act w tss action failure id (t : Z) message : calm_tasks w tss -> addressable id = true ->
  exists err w', act_on_channel action failure id t message w = Some (err, w') /\ calm_tasks w' tss /\ world_data w' = world_data w.
Proof.
  intros Hw Ha. destruct (act_run w action failure id t message (ct_world _ _ Hw) Ha) as (err & w' & E & Hw' & Hq).
  exists err, w'. split; [done|]. by apply (tasks_quiet w).
Qed.

Lemma tasks_on_env {A} (f : M env A) w tss a e : calm_tasks w tss -> f (cs_env (w_channels w)) = Some (a, e) -> calmer (cs_env (w_channels w)) e ->
  on_env f w = Some (a, with_env e w) /\ calm_tasks (with_env e w) tss /\ world_data (with_env e w) = world_data w.
Proof. intros Hw E Hc. split; [by apply on_env_eq|]. split; [by apply tasks_env|done]. Qed.

Lemma tasks_zmalloc n w tss : n <> 0 -> calm_tasks w tss ->
  exists b w', on_env (zmalloc n) w = Some (b, w') /\ calm_tasks w' tss /\ world_data w' = world_data w.
Proof.
  intros Hn Hw. destruct (held_zmalloc_run n w Hn (ct_world _ _ Hw)) as (b & w' & E & Hw' & Hq). exists b, w'. split; [done|]. by apply (tasks_quiet w).
Qed.

Lemma tasks_request_destruction w tss id : calm_tasks w tss -> addressable id = true ->
  exists w', on_channels (request_channel_destruction id) w = Some (tt, w') /\ calm_tasks w' tss /\ world_data w' = world_data w.
Proof.
  intros Hw Ha. destruct (request_destruction_run w id (ct_world _ _ Hw) Ha) as (w' & E & Hw' & Hq & _). exists w'. split; [done|]. by apply (tasks_quiet w).
Qed.

(** ** The schedule *)

Lemma tasks_lock w tss : calm_tasks w tss ->
  exists w', lock_schedule w = Some (ERROR_NONE, w') /\ calm_tasks w' tss /\ world_data w' = world_data w.
Proof.
  intros Hw. pose proof (lock_succeeds_next _ (ct_lock _ _ Hw)) as Hn. pose proof (ct_pending _ _ Hw) as Hp.
  assert (lock_result w = ERROR_NONE) as Hl.
  { unfold lock_result. replace (ts_destruction_pending (schedule_of w)) with false by done.
    by replace (default true (head (env_mtx (ph_env (th_of w))))) with true by exact (eq_sym Hn). }
  destruct (lock_schedule_run w) as (w' & E & Hsch & Hi). rewrite Hl in E, Hsch. exists w'. split; [done|].
  apply (tasks_beside w _ tss); [exact (beside_lock _ _ _ E)| |done]. eapply scheds_ok_same; [|exact Hi|apply Hw].
  change (x_schedule (w_ext w')) with (schedule_of w'). by rewrite Hsch.
Qed.

Lemma tasks_unlock w tss : calm_tasks w tss ->
  exists w', unlock_schedule w = Some (tt, w') /\ calm_tasks w' tss /\ world_data w' = world_data w.
Proof.
  intros Hw. eexists. split; [reflexivity|]. apply (tasks_beside w _ tss); [exact (beside_unlock w tt _ eq_refl)| |done].
  by eapply scheds_ok_same; [| |apply Hw].
Qed.

Lemma tasks_schedule w tss phase ts task : calm_tasks w tss -> valid_phase phase = true -> tss !! Z.to_nat phase = Some ts ->
  exists err w', schedule_task task phase w = Some (err, w') /\ world_data w' = world_data w /\
    calm_tasks w' (if err =? ERROR_NONE then <[Z.to_nat phase := ts ++ [task]]> tss else tss).
Proof.
  intros Hw Hv Hts. destruct (ct_scheds _ _ Hw) as (pss & Hok & Ht). destruct (Forall2_lookup_r _ _ _ _ _ Ht Hts) as (ps & Hps & Htasks).
  destruct (schedule_task_run w pss phase ps ts task Hok Hv Hps Htasks (ct_pending _ _ Hw)) as (err & w' & ps' & E & Hok' & _ & _ & Hres).
  exists err, w'. split; [done|]. apply and_comm, (tasks_beside w _ tss); [exact (beside_schedule_task _ _ _ _ _ E)| |done].
  eexists. split; [exact Hok'|]. destruct Hres as [[-> ?]|[-> ->]]; [by apply Forall2_insert|]. cbn. by rewrite (list_insert_id pss).
Qed.

Lemma tasks_unschedule w tss phase ts task : calm_tasks w tss -> valid_phase phase = true -> tss !! Z.to_nat phase = Some ts -> task ∈ ts ->
  exists ts1 ts2 w', ts = ts1 ++ task :: ts2 /\ unschedule_task (size (x_items (w_ext w))) task phase w = Some (ERROR_NONE, w') /\
    calm_tasks w' (<[Z.to_nat phase := ts1 ++ ts2]> tss) /\ world_data w' = world_data w.
Proof.
  intros Hw Hv Hts Hin. destruct (ct_scheds _ _ Hw) as (pss & Hok & Ht). destruct (Forall2_lookup_r _ _ _ _ _ Ht Hts) as (ps & Hps & Htasks).
  destruct (unschedule_task_run (size (x_items (w_ext w))) w pss phase ps ts task Hok Hv Hps Htasks) as [(ts1 & ts2 & w' & ps' & -> & _ & E & Hok' & Hts' & _)|[? _]];
    [by eapply scheds_fuel; [apply Hw|]| |done].
  exists ts1, ts2, w'. split; [done|]. split; [done|]. apply (tasks_beside w _ tss); [exact (beside_unschedule_task _ _ _ _ _ _ E)| |done].
  eexists. split; [exact Hok'|]. by apply Forall2_insert.
Qed.
End Calm.
