(* ===== verification/XPQueue.v ===== *)
(** The queue of one-shot calls of the X-Plane SDK ([xpqueue.c], [xpqueue.h]):
    threads that run outside of X-Plane queue calls of [XPLMCommandEnd] here, the
    flight loop makes them.

    X-Plane is seen through the calls that it gets: [q_calls] lists them, oldest
    first; they give no feedback. A reference to an X-Plane command is a number. A task is the reference it
    carries: nothing but its list item points to it. [xq_lock] counts how often
    the mutex is held. *)

From S2P Require Import Prelude CLib Utils Lists.

(** The null pointer. *)
Definition NO_XP_COMMAND : Z := 0.

Inductive xp_call :=
  | XPLMCommandBegin (inCommand : Z)
  | XPLMCommandEnd (inCommand : Z)
  | XPLMCommandOnce (inCommand : Z).

Record xpqueue_t := mkXpqueue {
  xq_destruction_pending : bool;
  has_pending_tasks : bool;
  xq_lock : Z;
  xq_list : list_t;
}.

(** The queue, its list items, the calls X-Plane got and the environment. *)
Record xpq := mkXpq {
  q_queue : xpqueue_t;
  q_items : gmap loc (list_item_t Z);
  q_calls : list xp_call;
  q_env : env;
}.

Definition set_xq_pending (q : xpqueue_t) : xpqueue_t := mkXpqueue true (has_pending_tasks q) (xq_lock q) (xq_list q).
Definition set_has_pending (b : bool) (q : xpqueue_t) : xpqueue_t := mkXpqueue (xq_destruction_pending q) b (xq_lock q) (xq_list q).
Definition set_xq_lock (n : Z) (q : xpqueue_t) : xpqueue_t := mkXpqueue (xq_destruction_pending q) (has_pending_tasks q) n (xq_list q).
Definition set_xq_list (l : list_t) (q : xpqueue_t) : xpqueue_t := mkXpqueue (xq_destruction_pending q) (has_pending_tasks q) (xq_lock q) l.

Definition task_list_heap (s : xpq) : heap Z := mkHeap (q_items s) (q_env s).
Definition set_task_list_heap (h : heap Z) (s : xpq) : xpq := mkXpq (q_queue s) (h_items h) (q_calls s) (h_env h).
Definition set_q_env (e : env) (s : xpq) : xpq := mkXpq (q_queue s) (q_items s) (q_calls s) e.

Definition on_task_list {A} (m : M (heap Z) A) : M xpq A := zoom task_list_heap set_task_list_heap m.
Definition q_on_env {A} (m : M env A) : M xpq A := zoom q_env set_q_env m.
Definition xpqueue : M xpq xpqueue_t := gets q_queue.
Definition update_xpqueue (f : xpqueue_t -> xpqueue_t) : M xpq unit :=
  modify (fun s => mkXpq (f (q_queue s)) (q_items s) (q_calls s) (q_env s)).
Definition call_xplm (c : xp_call) : M xpq unit :=
  modify (fun s => mkXpq (q_queue s) (q_items s) (q_calls s ++ [c]) (q_env s)).

(** Returns the error and the new queue; [mtx_init] may fail as [mtx_lock]. *)
Definition create_xpqueue : M (heap Z) (error_t * option xpqueue_t) :=
  ok ← zoom h_env (fun e h => mkHeap (h_items h) e) (zmalloc 64);
  if negb ok then mret (ERROR_MEMORY_ALLOCATION, None)
  else
    list ← create_list;
    match list with
    | None => mret (ERROR_MEMORY_ALLOCATION, None)
    | Some list =>
        ok ← zoom h_env (fun e h => mkHeap (h_items h) e) mtx_lock_result;
        if negb ok then
          _ ← destroy_list 0 list;
          mret (ERROR_UNSPECIFIC, None)
        else mret (ERROR_NONE, Some (mkXpqueue false false 0 list))
    end.

Definition unlock_xpqueue : M xpq unit := update_xpqueue (fun q => set_xq_lock (xq_lock q - 1) q).

Definition lock_xpqueue : M xpq error_t :=
  q ← xpqueue;
  if xq_destruction_pending q then mret ERROR_DESTRUCTION_PENDING
  else
    ok ← q_on_env mtx_lock_result;
    if negb ok then mret ERROR_MUTEX_FAILED
    else
      _ ← update_xpqueue (fun q => set_xq_lock (xq_lock q + 1) q);
      q ← xpqueue;
      if xq_destruction_pending q then _ ← unlock_xpqueue; mret ERROR_DESTRUCTION_PENDING else mret ERROR_NONE.

(** The queue must not be used any more if this returns [ERROR_NONE]. *)
Definition destroy_xpqueue : M xpq error_t :=
  err ← lock_xpqueue;
  if negb (err =? ERROR_NONE) then mret err
  else
    q ← xpqueue;
    if has_pending_tasks q || (0 <? list_size (xq_list q)) then _ ← unlock_xpqueue; mret ERROR_UNSPECIFIC
    else
      _ ← update_xpqueue set_xq_pending;
      _ ← unlock_xpqueue;
      _ ← q_on_env mtx_lock_result;
      _ ← on_task_list (destroy_list (Z.to_nat (list_size (xq_list q))) (xq_list q));
      mret ERROR_NONE.

Definition queue_XPLMCommandEnd (xp_ref : Z) : M xpq error_t :=
  if xp_ref =? NO_XP_COMMAND then mret ERROR_UNSPECIFIC
  else
    ok ← q_on_env (zmalloc 8);
    if negb ok then mret ERROR_MEMORY_ALLOCATION
    else
      err ← lock_xpqueue;
      if negb (err =? ERROR_NONE) then mret err
      else
        q ← xpqueue;
        '(ok, list) ← on_task_list (list_append (xq_list q) (Some xp_ref));
        _ ← update_xpqueue (set_xq_list list);
        _ ← when ok (update_xpqueue (set_has_pending true));
        _ ← unlock_xpqueue;
        mret (if ok : bool then ERROR_NONE else ERROR_MEMORY_ALLOCATION).

(** The loop over the tasks from [item] on; [fuel] bounds the items visited. *)
Fixpoint flush_loop (fuel : nat) (item : option loc) : M xpq unit :=
  match item with
  | None => mret tt
  | Some p =>
      match fuel with
      | O => ub
      | S fuel' =>
          it ← on_task_list (load_item p);
          let next := item_next it in
          xp_ref ← from_ub (item_value it);
          _ ← call_xplm (XPLMCommandEnd xp_ref);
          q ← xpqueue;
          list ← on_task_list (list_delete_item (xq_list q) p);
          _ ← update_xpqueue (set_xq_list list);
          flush_loop fuel' next
      end
  end.

Definition flush_xpqueue : M xpq error_t :=
  q ← xpqueue;
  if negb (has_pending_tasks q) then mret ERROR_NONE
  else
    err ← lock_xpqueue;
    if negb (err =? ERROR_NONE) then mret err
    else
      q ← xpqueue;
      _ ← flush_loop (Z.to_nat (list_size (xq_list q))) (list_head (xq_list q));
      q ← xpqueue;
      out_err ← (if list_size (xq_list q) =? 0 then _ ← update_xpqueue (set_has_pending false); mret ERROR_NONE
                 else mret ERROR_UNSPECIFIC);
      _ ← unlock_xpqueue;
      mret out_err.

(** * What the queue holds *)

(** The queue is a queue of the references [refs], and not locked. *)
Record queues_refs (s : xpq) (refs : list Z) : Prop := mkQueuesRefs {
  qr_list : exists l, represents (task_list_heap s) (xq_list (q_queue s)) l /\ l.*2 = Some <$> refs;
  qr_pending : has_pending_tasks (q_queue s) = false -> refs = [];
  qr_unlocked : xq_lock (q_queue s) = 0;
}.

(** The queue can be locked. *)
Definition xpqueue_lockable (s : xpq) : Prop :=
  xq_destruction_pending (q_queue s) = false /\ lock_succeeds (q_env s).

Lemma q_on_env_eq {A} (m : M env A) s a e : m (q_env s) = Some (a, e) -> q_on_env m s = Some (a, set_q_env e s).
Proof. intros E. unfold q_on_env, zoom. by rewrite E. Qed.

Lemma queues_refs_env s e refs : queues_refs s refs -> queues_refs (set_q_env e s) refs.
Proof. intros [(l & Hr & Hl) Hp Hu]. split; [|done|done]. exists l. split; [|done]. by eapply represents_frame. Qed.

Definition lock_error (s : xpq) : error_t :=
  if xq_destruction_pending (q_queue s) then ERROR_DESTRUCTION_PENDING
  else if lock_next (q_env s) then ERROR_NONE else ERROR_MUTEX_FAILED.

Lemma lock_xpqueue_run s : exists e,
  lock_xpqueue s = Some (lock_error s,
    set_q_env e (if lock_error s =? ERROR_NONE then mkXpq (set_xq_lock (xq_lock (q_queue s) + 1) (q_queue s)) (q_items s) (q_calls s) (q_env s) else s)) /\
  env_alloc e = env_alloc (q_env s) /\ (lock_succeeds (q_env s) -> lock_succeeds e).
Proof.
  unfold lock_xpqueue, lock_error. erewrite bind_eq by reflexivity. destruct (xq_destruction_pending (q_queue s)) eqn:Hp.
  { exists (q_env s). by destruct s. }
  erewrite bind_eq by apply q_on_env_eq, mtx_lock_result_eq. exists (lock_rest (q_env s)).
  destruct (lock_next (q_env s)); red_if; (split; [|split; [done|apply lock_succeeds_rest]]); [|done].
  erewrite bind_eq by reflexivity. erewrite bind_eq by reflexivity. simpl. by rewrite Hp.
Qed.

Lemma lock_error_none s : lock_error s = ERROR_NONE -> xq_destruction_pending (q_queue s) = false.
Proof. unfold lock_error. by destruct (xq_destruction_pending _). Qed.

Lemma lockable_error s : xpqueue_lockable s -> lock_error s = ERROR_NONE.
Proof. intros [Hp Hl]. unfold lock_error. by rewrite Hp, lock_succeeds_next. Qed.

(** Queueing a call appends it, or fails and changes nothing. *)
Lemma queue_XPLMCommandEnd_run s refs ref :
  queues_refs s refs ->
  run (queue_XPLMCommandEnd ref) s (fun err s' =>
    q_calls s' = q_calls s /\ xq_destruction_pending (q_queue s') = xq_destruction_pending (q_queue s) /\
    queues_refs s' (if err =? ERROR_NONE then refs ++ [ref] else refs) /\
    (err = ERROR_NONE -> ref <> NO_XP_COMMAND) /\
    (plenty (q_env s) -> plenty (q_env s')) /\ (lock_succeeds (q_env s) -> lock_succeeds (q_env s')) /\
    (ref <> NO_XP_COMMAND -> plenty (q_env s) -> xpqueue_lockable s -> err = ERROR_NONE)).
Proof.
  intros Hq. unfold queue_XPLMCommandEnd. destruct (Z.eqb_spec ref NO_XP_COMMAND) as [-> |Hne]; [apply run_ret; by split_and!|].
  apply run_bind. eapply run_eq; [by apply q_on_env_eq, zmalloc_eq|].
  pose proof (queues_refs_env s (alloc_rest (q_env s)) refs Hq) as Hq1.
  destruct (alloc_next (q_env s)) eqn:Hn; red_if.
  2:{ apply run_ret. split_and!; try done; [apply plenty_rest|]. intros _ Hpl. by rewrite plenty_next in Hn. }
  destruct (lock_xpqueue_run (set_q_env (alloc_rest (q_env s)) s)) as (e & E & Ha & Hl).
  apply run_bind. eapply run_eq; [exact E|]. change (lock_error (set_q_env _ s)) with (lock_error s) in *.
  assert (plenty (q_env s) -> plenty e) as Hpl.
  { intros ?. unfold plenty. rewrite Ha. by apply plenty_rest. }
  destruct (Z.eqb_spec (lock_error s) ERROR_NONE) as [He|He]; red_if.
  2:{ apply run_ret. split_and!; try done.
      - cbn [q_queue set_q_env]. by rewrite (proj2 (Z.eqb_neq _ _) He); apply queues_refs_env.
      - intros _ _ ?%lockable_error. done. }
  apply run_bind. eapply run_eq; [reflexivity|]. destruct Hq1 as [(l & Hr & Hl2) Hp Hu].
  apply run_bind, run_zoom.
  eapply run_mono; [|apply (list_append_spec _ _ l); eapply represents_frame; [exact Hr|done]].
  cbv beta. intros [ok list] h (Hok & Hhe & H). apply run_bind. eapply run_eq; [reflexivity|].
  cbn [h_env task_list_heap set_q_env q_env] in Hok, Hhe. simpl in Hu, Hp.
  assert (plenty e -> plenty (h_env h)) as Hpl' by (rewrite Hhe; apply plenty_rest).
  assert (lock_succeeds e -> lock_succeeds (h_env h)) as Hl' by by rewrite Hhe.
  destruct ok; red_if.
  - destruct H as (p & _ & Hr' & _). apply run_ret. simpl. split_and!; try done; [|auto|auto].
    split; simpl; [|done|lia].
    exists (l ++ [(p, Some ref)]). split; [by destruct h|]. by rewrite !fmap_app, Hl2.
  - destruct H as [-> Hi]. apply run_ret. simpl. split_and!; try done; [|auto|auto|].
    + split; simpl; [|done|lia]. exists l. split; [|done]. eapply represents_frame; [exact Hr|]. simpl. intros. by rewrite Hi.
    + intros _ Hal _. rewrite plenty_next in Hok; [done|auto].
Qed.

(** Flushing makes the calls in the order in which they were queued. *)
Lemma flush_loop_run l : forall s refs fuel,
  represents (task_list_heap s) (xq_list (q_queue s)) l -> l.*2 = Some <$> refs -> (length l <= fuel)%nat ->
  exists items list, flush_loop fuel (first l None) s =
    Some (tt, mkXpq (set_xq_list list (q_queue s)) items (q_calls s ++ (XPLMCommandEnd <$> refs)) (q_env s)) /\
    represents (mkHeap items (q_env s)) list [].
Proof.
  induction l as [|[p v] l IH]; intros s refs fuel Hr Hrefs Hf; destruct refs as [|ref refs]; try done.
  { exists (q_items s), (xq_list (q_queue s)). rewrite app_nil_r. split; [by destruct fuel, s as [[] ? ? ?]|]. by eapply represents_frame. }
  simpl in Hrefs. injection Hrefs as -> Hrefs. destruct fuel as [|fuel]; [simpl in Hf; lia|]. cbn [first flush_loop].
  destruct (represents_item _ _ [] p (Some ref) l Hr) as (prev & Hit).
  erewrite bind_eq by (unfold on_task_list, zoom; erewrite load_item_eq by exact Hit; reflexivity). cbn [item_value item_next].
  cbv zeta. erewrite bind_eq by reflexivity. erewrite bind_eq by reflexivity. erewrite bind_eq by reflexivity.
  destruct (run_inv _ _ _ (list_delete_item_spec (task_list_heap s) _ [] p (Some ref) l Hr)) as (list & h & E & Hr' & He & _ & _).
  erewrite bind_eq by (unfold on_task_list, zoom; cbn; setoid_rewrite E; reflexivity).
  erewrite bind_eq by reflexivity.
  match goal with |- context [flush_loop fuel _ ?s'] => set (s1 := s') end.
  destruct (IH s1 refs fuel) as (items & list' & E' & Hr''); [by destruct h|done|simpl in Hf; lia|].
  exists items, list'. simpl in He. split.
  - rewrite E'. unfold s1. simpl. rewrite <-app_assoc, He. done.
  - eapply represents_frame; [exact Hr''|done].
Qed.

Lemma flush_xpqueue_run s refs :
  queues_refs s refs ->
  exists err s', flush_xpqueue s = Some (err, s') /\
    xq_destruction_pending (q_queue s') = xq_destruction_pending (q_queue s) /\
    (if err =? ERROR_NONE then q_calls s' = q_calls s ++ (XPLMCommandEnd <$> refs) /\ queues_refs s' []
     else q_calls s' = q_calls s /\ queues_refs s' refs) /\
    env_alloc (q_env s') = env_alloc (q_env s) /\ (lock_succeeds (q_env s) -> lock_succeeds (q_env s')) /\
    (xpqueue_lockable s -> err = ERROR_NONE).
Proof.
  intros Hq. unfold flush_xpqueue. erewrite bind_eq by reflexivity. destruct (has_pending_tasks (q_queue s)) eqn:Hpend; red_if.
  2:{ pose proof (qr_pending _ _ Hq Hpend) as ->. exists ERROR_NONE, s. split_and!; try done. split; [by rewrite app_nil_r|done]. }
  destruct (lock_xpqueue_run s) as (e & E & Ha & Hl). erewrite bind_eq by exact E.
  destruct (Z.eqb_spec (lock_error s) ERROR_NONE) as [He|He]; red_if.
  2:{ exists (lock_error s), (set_q_env e s). rewrite (proj2 (Z.eqb_neq _ _) He). split_and!; try done.
      - by apply queues_refs_env.
      - by intros ?%lockable_error. }
  erewrite bind_eq by reflexivity. cbn [set_q_env q_queue set_xq_lock xq_list].
  destruct (qr_list _ _ Hq) as (l & Hr & Hrefs). rewrite (rep_head _ _ _ Hr), (rep_size _ _ _ Hr), Nat2Z.id.
  match goal with |- context [(_ ≫= _) ?s'] => set (s1 := s') end.
  destruct (flush_loop_run l s1 refs (length l)) as (items & list & E' & Hr'); [by eapply represents_frame|done|done|].
  erewrite bind_eq by exact E'. erewrite bind_eq by reflexivity. cbn [q_queue xq_list set_xq_list].
  rewrite (rep_size _ _ _ Hr'). cbn [length Z.of_nat Z.eqb]. cbv iota. erewrite bind_eq by reflexivity.
  erewrite bind_eq by reflexivity. eexists _, _. split; [reflexivity|]. simpl. split_and!; try done.
  split; [by exists []|done|]. simpl. rewrite (qr_unlocked _ _ Hq). done.
Qed.

(** A queue that is created is empty; one that is destroyed was. *)
Lemma create_xpqueue_run (h : heap Z) :
  exists err q h', create_xpqueue h = Some ((err, q), h') /\ h_items h' = h_items h /\
    (plenty (h_env h) -> lock_succeeds (h_env h) -> err = ERROR_NONE) /\
    match q with
    | None => err <> ERROR_NONE
    | Some q => err = ERROR_NONE /\ forall calls, queues_refs (mkXpq q (h_items h') calls (h_env h')) []
    end.
Proof.
  unfold create_xpqueue. erewrite bind_eq by (unfold zoom; rewrite zmalloc_eq by done; reflexivity).
  destruct (alloc_next (h_env h)) eqn:H1; red_if.
  2:{ eexists _, None, _. split_and!; [done..| |done]. intros ?. by rewrite plenty_next in H1. }
  erewrite bind_eq by apply create_list_eq. cbn [h_env h_items].
  destruct (alloc_next (alloc_rest (h_env h))) eqn:H2.
  2:{ eexists _, None, _. split_and!; [done..| |done]. intros ?. by rewrite plenty_next in H2 by by apply plenty_rest. }
  erewrite bind_eq by (unfold zoom; rewrite mtx_lock_result_eq; reflexivity). cbn [h_env h_items].
  set (e2 := alloc_rest (alloc_rest (h_env h))).
  assert (lock_succeeds (h_env h) -> lock_next e2 = true) as Hl by (intros; by apply lock_succeeds_next).
  destruct (lock_next e2) eqn:H3; red_if.
  - eexists _, (Some _), _. split_and!; [done..|]. intros calls. split; [|done|done]. exists []. split; [apply represents_empty|done].
  - eexists _, None, _. split; [reflexivity|]. split_and!; [done| |done]. intros _ ?%Hl. done.
Qed.

Lemma destroy_xpqueue_run s refs :
  queues_refs s refs ->
  exists err s', destroy_xpqueue s = Some (err, s') /\ q_calls s' = q_calls s /\
    (err = ERROR_NONE -> refs = []) /\ (err <> ERROR_NONE -> queues_refs s' refs).
Proof.
  intros Hq. unfold destroy_xpqueue. destruct (lock_xpqueue_run s) as (e & E & Ha & Hl). erewrite bind_eq by exact E.
  destruct (Z.eqb_spec (lock_error s) ERROR_NONE) as [He|He]; red_if.
  2:{ exists (lock_error s), (set_q_env e s). split_and!; try done. intros _. by apply queues_refs_env. }
  erewrite bind_eq by reflexivity. cbn [set_q_env q_queue has_pending_tasks set_xq_lock xq_list].
  destruct (qr_list _ _ Hq) as (l & Hr & Hrefs). rewrite (rep_size _ _ _ Hr).
  destruct (has_pending_tasks (q_queue s) || (0 <? len l)) eqn:Hp.
  - erewrite bind_eq by reflexivity. eexists _, _. split; [reflexivity|]. split_and!; try done. intros _.
    split; simpl; [|apply (qr_pending _ _ Hq)|rewrite (qr_unlocked _ _ Hq); done].
    exists l. split; [|done]. by eapply represents_frame.
  - bools. assert (l = []) as -> by (destruct l; [done|simpl in *; lia]). destruct refs; [|done].
    erewrite bind_eq by reflexivity. erewrite bind_eq by reflexivity.
    erewrite bind_eq by apply q_on_env_eq, mtx_lock_result_eq.
    erewrite bind_eq.
    2:{ unfold on_task_list, zoom, destroy_list. rewrite (rep_head _ _ _ Hr). reflexivity. }
    eexists _, _. split; [reflexivity|]. done.
Qed.
