(* ===== verification/HeldCommands.v ===== *)
(** What CMHD and CMTR have in common: they hold and release X-Plane commands
    that a client names ([command_cmhd.c], [command_cmtr.c]; the source repeats
    this code in both).

    A command object is reached through its address, the entries of its list of
    X-Plane commands through list items only. [P] is what an object has besides:
    nothing for CMHD, timers for CMTR. The functions act on the world of the
    session the command belongs to; [XPLMFindCommand] is X-Plane's: the reference it returns
    may depend on all calls made so far. *)

From S2P Require Import Prelude CLib Utils Hashmap Channels Requests Lists Prealloc TaskSchedule Network Command Session Server ServerCommands XPQueue.

Record xp_entry := mkEntry { en_name : cstr; en_held : bool; en_xp_ref : Z }.

#[export] Instance xp_entry_eq_dec : EqDecision xp_entry.
Proof. solve_decision. Defined.

Definition set_held (held : bool) (e : xp_entry) : xp_entry := mkEntry (en_name e) held (en_xp_ref e).
Definition set_xp_ref (xp_ref : Z) (e : xp_entry) : xp_entry := mkEntry (en_name e) (en_held e) xp_ref.

Record xp_command (P : Type) := mkXpCommand {
  xc_channel_id : Z;
  xc_task : option loc;
  xc_initialized : bool;
  xc_failed : bool;
  xc_entries : option list_t;
  xc_timing : P;
}.
Arguments mkXpCommand {P}.
Arguments xc_channel_id {P}.
Arguments xc_task {P}.
Arguments xc_initialized {P}.
Arguments xc_failed {P}.
Arguments xc_entries {P}.
Arguments xc_timing {P}.

(** The queue of one-shot calls, the calls X-Plane got, the command objects,
    the items of their lists, and the references of task objects. *)
Record xp_state (P : Type) := mkXp {
  xs_queue : xpqueue_t;
  xs_queue_items : gmap loc (list_item_t Z);
  xs_calls : list xp_call;
  xs_commands : gmap loc (xp_command P);
  xs_items : gmap loc (list_item_t xp_entry);
  xs_tasks : gmap loc loc;
}.
Arguments mkXp {P}.
Arguments xs_queue {P}.
Arguments xs_queue_items {P}.
Arguments xs_calls {P}.
Arguments xs_commands {P}.
Arguments xs_items {P}.
Arguments xs_tasks {P}.

Section Setters.
Context {P : Type}.
Implicit Types (c : xp_command P) (x : xp_state P).
Definition set_channel_id (id : Z) c := mkXpCommand id (xc_task c) (xc_initialized c) (xc_failed c) (xc_entries c) (xc_timing c).
Definition set_task (t : option loc) c := mkXpCommand (xc_channel_id c) t (xc_initialized c) (xc_failed c) (xc_entries c) (xc_timing c).
Definition set_initialized c := mkXpCommand (xc_channel_id c) (xc_task c) true (xc_failed c) (xc_entries c) (xc_timing c).
Definition set_failed c := mkXpCommand (xc_channel_id c) (xc_task c) (xc_initialized c) true (xc_entries c) (xc_timing c).
Definition set_entries (l : option list_t) c := mkXpCommand (xc_channel_id c) (xc_task c) (xc_initialized c) (xc_failed c) l (xc_timing c).
Definition set_timing (t : P) c := mkXpCommand (xc_channel_id c) (xc_task c) (xc_initialized c) (xc_failed c) (xc_entries c) t.
Definition set_commands (m : gmap loc (xp_command P)) x := mkXp (xs_queue x) (xs_queue_items x) (xs_calls x) m (xs_items x) (xs_tasks x).
Definition set_tasks (m : gmap loc loc) x := mkXp (xs_queue x) (xs_queue_items x) (xs_calls x) (xs_commands x) (xs_items x) m.
Definition set_items (m : gmap loc (list_item_t xp_entry)) x := mkXp (xs_queue x) (xs_queue_items x) (xs_calls x) (xs_commands x) m (xs_tasks x).
End Setters.

Definition HELD_TASK_PHASE : Z := TASK_SCHEDULE_BEFORE_FLIGHT_MODEL.

Section Operations.
Context {C : Type} `{Connection C} {P : Type}.
Abbreviation W := (world C (ext (xp_state P))).
Implicit Types (p : loc) (id : Z).

Definition data_of (w : W) : xp_state P := x_data (w_ext w).
Definition set_data (d : xp_state P) (w : W) : W :=
  set_ext (mkExt (x_schedule (w_ext w)) (x_items (w_ext w)) (x_calls (w_ext w)) d) w.
Definition set_world_env (e : env) (w : W) : W :=
  set_channels (mkChannels (cs_heap (w_channels w)) (cs_table (w_channels w)) e) w.

(** Computations on the queue of calls, and on the items of the entry lists. *)
Definition xpq_of (w : W) : xpq :=
  mkXpq (xs_queue (data_of w)) (xs_queue_items (data_of w)) (xs_calls (data_of w)) (cs_env (w_channels w)).
Definition set_xpq (q : xpq) (w : W) : W :=
  set_world_env (q_env q)
    (set_data (mkXp (q_queue q) (q_items q) (q_calls q) (xs_commands (data_of w)) (xs_items (data_of w)) (xs_tasks (data_of w))) w).
Definition on_xpq {A} (m : M xpq A) : M W A := zoom xpq_of set_xpq m.

Definition entries_heap (w : W) : heap xp_entry := mkHeap (xs_items (data_of w)) (cs_env (w_channels w)).
Definition set_entries_heap (h : heap xp_entry) (w : W) : W :=
  set_world_env (h_env h) (set_data (set_items (h_items h) (data_of w)) w).
Definition on_entries {A} (m : M (heap xp_entry) A) : M W A := zoom entries_heap set_entries_heap m.

Definition update_data (f : xp_state P -> xp_state P) : M W unit := modify (fun w => set_data (f (data_of w)) w).
Definition load_command p : M W (xp_command P) := w ← get; from_ub (xs_commands (data_of w) !! p).
Definition update_command p (f : xp_command P -> xp_command P) : M W unit :=
  c ← load_command p; update_data (fun x => set_commands (<[p := f c]> (xs_commands x)) x).
Definition free_command p : M W unit := update_data (fun x => set_commands (delete p (xs_commands x)) x).

(** [zmalloc(sizeof(command_..._t))], with the session and the channel set;
    [timing] is what the rest of the object holds when all bytes are zero. *)
Definition alloc_command id (timing : P) : M W (option loc) :=
  ok ← on_env (zmalloc 72);
  if negb ok then mret None
  else
    w ← get;
    let p := fresh (dom (xs_commands (data_of w))) in
    _ ← update_data (fun x => set_commands (<[p := mkXpCommand id None false false None timing]> (xs_commands x)) x);
    mret (Some p).

(** The list of a command's entries; NULL is dereferenced by none of the callers. *)
Definition entry_list p : M W list_t := c ← load_command p; from_ub (xc_entries c).

(** No queue of the schedule has more items than there are. *)
Definition tasks_fuel : M W nat := gets (fun w => size (x_items (w_ext w))).

Definition destroy_held_command (command_ref : option loc) : M W error_t :=
  match command_ref with
  | None => mret ERROR_UNSPECIFIC
  | Some p =>
      c ← load_command p;
      _ ← match xc_entries c with
          | Some list => on_entries (destroy_list (Z.to_nat (list_size list)) list)
          | None => mret tt
          end;
      _ ← free_command p;
      mret ERROR_NONE
  end.

Definition unschedule_held_command p : M W error_t :=
  c ← load_command p;
  match xc_task c with
  | None => mret ERROR_NONE
  | Some task =>
      err ← lock_schedule;
      err ← (if err =? ERROR_NONE then
               fuel ← tasks_fuel;
               err ← unschedule_task fuel task HELD_TASK_PHASE;
               _ ← unlock_schedule;
               mret err
             else mret err);
      if negb (err =? ERROR_NONE) then mret err
      else _ ← update_command p (set_task None); mret ERROR_NONE
  end.

(** * Creation *)

(** The loop over the parameters of a request: none, or the error of a failure
    that was reported on the channel. *)
Fixpoint append_entries p id (parameters : list cstr) : M W (option error_t) :=
  match parameters with
  | [] => mret None
  | parameter :: parameters' =>
      ok ← on_env (zmalloc 24);
      if negb ok then
        _ ← report id (Some (lit "failed to allocate XP command entry")); mret (Some ERROR_MEMORY_ALLOCATION)
      else
        name ← on_env (copy_unescaped_string (Some parameter));
        match name with
        | None => _ ← report id None; mret (Some ERROR_UNSPECIFIC)
        | Some name =>
            if strlen name <? 1 then
              _ ← report id (Some (lit "XP command names must not be empty")); mret (Some ERROR_UNSPECIFIC)
            else
              list ← entry_list p;
              '(ok, list) ← on_entries (list_append list (Some (mkEntry name false NO_XP_COMMAND)));
              _ ← update_command p (set_entries (Some list));
              if negb ok then
                _ ← report id (Some (lit "failed to allocate XP command list item")); mret (Some ERROR_MEMORY_ALLOCATION)
              else append_entries p id parameters'
        end
  end.

(** From the check for parameters to the end of the loop. *)
Definition create_entries p (request : request_t) : M W (option error_t) :=
  let id := req_channel_id request in
  match req_parameters request with
  | [] => _ ← report id (Some (lit "at least one command is required")); mret (Some ERROR_UNSPECIFIC)
  | parameters =>
      list ← on_entries create_list;
      _ ← update_command p (set_entries list);
      match list with
      | None => _ ← report id (Some (lit "failed to allocate XP command list")); mret (Some ERROR_MEMORY_ALLOCATION)
      | Some _ => append_entries p id parameters
      end
  end.

(** Creates and schedules the task of a command. *)
Definition schedule_held_command p id : M W error_t :=
  ok ← on_env (zmalloc 16);
  if negb ok then mret ERROR_MEMORY_ALLOCATION
  else
    w ← get;
    let task := fresh (dom (xs_tasks (data_of w))) in
    _ ← update_data (fun x => set_tasks (<[task := p]> (xs_tasks x)) x);
    err ← lock_schedule;
    err ← (if err =? ERROR_NONE then
             err ← schedule_task task HELD_TASK_PHASE;
             _ ← when (err =? ERROR_NONE) (update_command p (set_task (Some task)));
             _ ← unlock_schedule;
             mret err
           else mret err);
    if negb (err =? ERROR_NONE) then
      _ ← report id (Some (lit "failed to schedule task"));
      _ ← update_data (fun x => set_tasks (delete task (xs_tasks x)) x);
      mret err
    else mret ERROR_NONE.

(** The label [error]. *)
Definition abandon_command p (out_error : error_t) : M W (error_t * option loc) :=
  _ ← destroy_held_command (Some p);
  mret (if negb (out_error =? ERROR_NONE) then out_error else ERROR_UNSPECIFIC, None).

(** What follows the allocation of the object and its configuration. *)
Definition populate_command p (request : request_t) : M W (error_t * option loc) :=
  failure ← create_entries p request;
  match failure with
  | Some err => abandon_command p err
  | None =>
      err ← schedule_held_command p (req_channel_id request);
      if negb (err =? ERROR_NONE) then abandon_command p err else mret (ERROR_NONE, Some p)
  end.

(** * Termination *)

(** The items from [item] back to the head; [fuel] bounds the items visited.
    The loop body gets an item, its entry and what the loop computes. *)
Fixpoint walk_back {A} (fuel : nat) (item : option loc) (body : loc -> xp_entry -> A -> M W A) (a : A) : M W A :=
  match item with
  | None => mret a
  | Some i =>
      match fuel with
      | O => ub
      | S fuel' =>
          it ← on_entries (load_item i);
          let prev := item_prev it in
          entry ← from_ub (item_value it);
          a ← body i entry a;
          walk_back fuel' prev body a
      end
  end.

Definition set_entry (i : loc) (e : xp_entry) : M W unit := on_entries (update_item i (set_value (Some e))).

(** The end of [terminate]. *)
Definition close_command p : M W error_t :=
  c ← load_command p;
  let channel_id := xc_channel_id c in
  _ ← update_command p (set_channel_id BAD_CHANNEL_ID);
  _ ← on_channels (request_channel_destruction channel_id);
  mret ERROR_NONE.

(** [terminate]; [release] queues the release of what is held and tells whether
    it succeeded. *)
Definition terminate_held_command (release : loc -> M W bool) (command_ref : option loc) : M W error_t :=
  match command_ref with
  | None => mret ERROR_UNSPECIFIC
  | Some p =>
      c ← load_command p;
      _ ← finish_channel (xc_channel_id c) CURRENT_TIME_REFERENCE None;
      err ← unschedule_held_command p;
      if negb (err =? ERROR_NONE) then mret err
      else
        released ← release p;
        if negb released then mret ERROR_UNSPECIFIC else close_command p
  end.

(** * Flight loop *)

Section XPlane.
Context (XPLMFindCommand : list xp_call -> cstr -> Z).

(** The search for all X-Plane commands; tells whether all were found. *)
Fixpoint find_xp_commands (fuel : nat) (item : option loc) : M W bool :=
  match item with
  | None => mret true
  | Some i =>
      match fuel with
      | O => ub
      | S fuel' =>
          it ← on_entries (load_item i);
          entry ← from_ub (item_value it);
          w ← get;
          let xp_ref := XPLMFindCommand (xs_calls (data_of w)) (en_name entry) in
          _ ← set_entry i (set_xp_ref xp_ref entry);
          if xp_ref =? NO_XP_COMMAND then mret false else find_xp_commands fuel' (item_next it)
      end
  end.

(** Finds the X-Plane commands and confirms the channel; tells whether the
    command can go on, otherwise it has failed. *)
Definition find_and_confirm p : M W bool :=
  c ← load_command p;
  list ← entry_list p;
  found ← find_xp_commands (Z.to_nat (list_size list)) (list_head list);
  if negb found then
    _ ← update_command p set_failed;
    _ ← report (xc_channel_id c) (Some (lit "XP command not found"));
    mret false
  else
    err ← confirm_channel (xc_channel_id c) CURRENT_TIME_REFERENCE None;
    if negb (err =? ERROR_NONE) then _ ← update_command p set_failed; mret false else mret true.
End XPlane.

(** Calls [consumer] for the entries (the held ones only, if asked to), in
    order, and marks them as held or not. *)
Fixpoint for_all_items (fuel : nat) (item : option loc) (consumer : Z -> xp_call) (holding only_if_held : bool) : M W unit :=
  match item with
  | None => mret tt
  | Some i =>
      match fuel with
      | O => ub
      | S fuel' =>
          it ← on_entries (load_item i);
          entry ← from_ub (item_value it);
          _ ← when (negb only_if_held || en_held entry) (on_xpq (call_xplm (consumer (en_xp_ref entry))));
          _ ← set_entry i (set_held holding entry);
          for_all_items fuel' (item_next it) consumer holding only_if_held
      end
  end.

Definition for_all_xprefs p (consumer : Z -> xp_call) (holding only_if_held : bool) : M W unit :=
  list ← entry_list p;
  for_all_items (Z.to_nat (list_size list)) (list_head list) consumer holding only_if_held.
End Operations.
