(* ===== verification/HeldInvariant.v ===== *)
(** The invariant of the commands that hold X-Plane commands, and what the
    operations of [HeldCommands] do to it.

    A command stands for the list of its entries ([cells]). X-Plane's calls are
    accounted for: every [XPLMCommandBegin] is matched by an
    [XPLMCommandEnd] that was made, by one that is queued, or by an entry that is
    marked as held. *)

From S2P Require Import Prelude CLib Utils Hashmap Channels Requests Lists Prealloc TaskSchedule Network Command Session Server ServerCommands Beside XPQueue HeldCommands.

(** * Accounts *)

Abbreviation cells := (list (loc * option xp_entry)).

Definition entries_of (l : cells) : list xp_entry := omap snd l.
Definition held_entries (es : list xp_entry) : list Z := en_xp_ref <$> filter (fun e => en_held e = true) es.
Definition held_refs (l : cells) : list Z := held_entries (entries_of l).
Definition held_all (m : gmap loc cells) : list Z := map_to_list m ≫= (fun x => held_refs x.2).

Definition begun (calls : list xp_call) : list Z :=
  omap (fun c => match c with XPLMCommandBegin r => Some r | _ => None end) calls.
Definition ended (calls : list xp_call) : list Z :=
  omap (fun c => match c with XPLMCommandEnd r => Some r | _ => None end) calls.

Lemma begun_app a b : begun (a ++ b) = begun a ++ begun b.
Proof. apply omap_app. Qed.
Lemma ended_app a b : ended (a ++ b) = ended a ++ ended b.
Proof. apply omap_app. Qed.

Lemma begun_ends rs : begun (XPLMCommandEnd <$> rs) = [].
Proof. by induction rs. Qed.
Lemma ended_ends rs : ended (XPLMCommandEnd <$> rs) = rs.
Proof. induction rs; [done|]. simpl. by f_equal. Qed.
Lemma begun_begins rs : begun (XPLMCommandBegin <$> rs) = rs.
Proof. induction rs; [done|]. simpl. by f_equal. Qed.
Lemma ended_begins rs : ended (XPLMCommandBegin <$> rs) = [].
Proof. by induction rs. Qed.

Lemma held_entries_app a b : held_entries (a ++ b) = held_entries a ++ held_entries b.
Proof. unfold held_entries. by rewrite filter_app, fmap_app. Qed.

Lemma entries_of_app a b : entries_of (a ++ b) = entries_of a ++ entries_of b.
Proof. apply omap_app. Qed.

Lemma held_refs_app a b : held_refs (a ++ b) = held_refs a ++ held_refs b.
Proof. unfold held_refs. by rewrite entries_of_app, held_entries_app. Qed.

Lemma held_all_at m p l : m !! p = Some l -> held_all m ≡ₚ held_refs l ++ held_all (delete p m).
Proof. intros Hp. unfold held_all. by rewrite <-(map_to_list_delete m p l Hp). Qed.

Lemma held_all_insert m p l : held_all (<[p := l]> m) ≡ₚ held_refs l ++ held_all (delete p m).
Proof.
  unfold held_all. rewrite <-insert_delete_eq. by rewrite map_to_list_insert by apply lookup_delete_eq.
Qed.

(** Balances of accounts, by counting. *)
Ltac balance :=
  apply (Permutation_count_occ Z.eq_dec); let x := fresh "x" in intros x;
  repeat match goal with
  | H : _ ≡ₚ _ |- _ => let H' := fresh in pose proof (proj1 (Permutation_count_occ Z.eq_dec _ _) H x) as H'; clear H
  end;
  rewrite ?count_occ_app in *; lia.

(** An entry that is held has been found. *)
Definition entry_ok (v : option xp_entry) : Prop := exists e, v = Some e /\ (en_held e = true -> en_xp_ref e <> NO_XP_COMMAND).

Lemma entries_of_fmap (l : cells) es : l.*2 = Some <$> es -> entries_of l = es.
Proof.
  revert es. induction l as [|[i v] l IH]; intros [|e es]; try done. simpl. intros [= -> E]. unfold entries_of. simpl. f_equal. by apply IH.
Qed.

Lemma cells_values (l : cells) : Forall entry_ok l.*2 -> l.*2 = Some <$> entries_of l.
Proof.
  induction l as [|[i v] l IH]; [done|]. simpl. intros [(e & -> & _) Hl]%Forall_cons. unfold entries_of in *. simpl. f_equal. auto.
Qed.

(** * The data *)

Section Data.
Context {P : Type}.
Implicit Types (d : xp_state P) (m : gmap loc cells).

Definition list_is d (o : option list_t) (l : cells) : Prop :=
  match o with Some list => represents (mkHeap (xs_items d) calm) list l | None => l = [] end.

Definition queue_data d : xpq := mkXpq (xs_queue d) (xs_queue_items d) (xs_calls d) calm.

(** Each command has its own list; [refs] are queued to be released. *)
Record data_ok d m (refs : list Z) : Prop := mkDataOk {
  do_dom : forall p, is_Some (xs_commands d !! p) <-> is_Some (m !! p);
  do_list : forall p c l, xs_commands d !! p = Some c -> m !! p = Some l -> list_is d (xc_entries c) l /\ Forall entry_ok l.*2;
  do_apart : forall p q l l', p <> q -> m !! p = Some l -> m !! q = Some l' -> l.*1 ## l'.*1;
  do_queue : queues_refs (queue_data d) refs;
  do_balance : begun (xs_calls d) ≡ₚ ended (xs_calls d) ++ refs ++ held_all m;
}.

Lemma data_cells d m refs p c : data_ok d m refs -> xs_commands d !! p = Some c -> exists l, m !! p = Some l.
Proof. intros Hd Hc. apply (do_dom _ _ _ Hd). by eexists. Qed.

Lemma list_is_items d d' o l : list_is d o l -> (forall q, q ∈ l.*1 -> xs_items d' !! q = xs_items d !! q) -> list_is d' o l.
Proof. destruct o; simpl; [|done]. intros Hr Hs. eapply represents_frame; [exact Hr|exact Hs]. Qed.

Lemma list_is_allocated d o l q : list_is d o l -> q ∈ l.*1 -> is_Some (xs_items d !! q).
Proof. destruct o; simpl; [|by intros -> ?%not_elem_of_nil]. intros Hr. by eapply (represents_allocated (mkHeap (xs_items d) calm)). Qed.

(** One command changes: its object, its list and the items of the latter; and
    calls are made and queued. *)
Lemma data_ok_update d d' m refs refs' p c c' l l' :
  data_ok d m refs -> xs_commands d !! p = Some c -> m !! p = Some l ->
  xs_commands d' = <[p := c']> (xs_commands d) -> list_is d' (xc_entries c') l' -> Forall entry_ok l'.*2 ->
  (forall q, q ∈ l'.*1 -> q ∈ l.*1 \/ xs_items d !! q = None) ->
  (forall q, is_Some (xs_items d !! q) -> q ∉ l.*1 -> xs_items d' !! q = xs_items d !! q) ->
  queues_refs (queue_data d') refs' ->
  (forall rest, begun (xs_calls d) ≡ₚ ended (xs_calls d) ++ refs ++ held_refs l ++ rest ->
    begun (xs_calls d') ≡ₚ ended (xs_calls d') ++ refs' ++ held_refs l' ++ rest) ->
  data_ok d' (<[p := l']> m) refs'.
Proof.
  intros Hd Hc Hp Hcs Hl Hv Hnew Hsame Hq Hbal.
  assert (forall q c2 l2, q <> p -> xs_commands d !! q = Some c2 -> m !! q = Some l2 -> list_is d' (xc_entries c2) l2) as Hother.
  { intros q c2 l2 Hne Hc2 Hl2. destruct (do_list _ _ _ Hd q c2 l2 Hc2 Hl2) as [Hli _]. eapply list_is_items; [exact Hli|].
    intros r Hr. apply Hsame; [by eapply list_is_allocated|]. intros Hin. by apply (do_apart _ _ _ Hd p q l l2 ltac:(done) Hp Hl2 r). }
  split.
  - intros q. rewrite Hcs. destruct (decide (p = q)) as [<- |Hne].
    + rewrite !lookup_insert_eq. split; by eexists.
    + rewrite !lookup_insert_ne by done. apply (do_dom _ _ _ Hd).
  - intros q c2 l2. rewrite Hcs. destruct (decide (p = q)) as [<- |Hne].
    + rewrite !lookup_insert_eq. by intros [= <-] [= <-].
    + rewrite !lookup_insert_ne by done. intros Hc2 Hl2. split; [by eapply Hother|by eapply (do_list _ _ _ Hd)].
  - assert (forall q l2, p <> q -> m !! q = Some l2 -> l'.*1 ## l2.*1) as Hap.
    { intros q l2 Hne Hl2 r Hr Hr2. destruct (Hnew r Hr) as [Hr'|Hr'].
      - by apply (do_apart _ _ _ Hd p q l l2 ltac:(done) Hp Hl2 r).
      - destruct (proj2 (do_dom _ _ _ Hd q)) as [c2 Hc2]; [by eexists|]. destruct (do_list _ _ _ Hd q c2 l2 Hc2 Hl2) as [Hli _].
        destruct (list_is_allocated _ _ _ _ Hli Hr2) as [? E]. by rewrite Hr' in E. }
    intros q r l1 l2 Hne. destruct (decide (p = q)) as [<- |Hq1]; [|destruct (decide (p = r)) as [<- |Hr1]].
    + rewrite lookup_insert_eq, lookup_insert_ne by done. intros [= <-]. eauto.
    + rewrite lookup_insert_eq, lookup_insert_ne by done. intros Hl1 [= <-] s Hs1 Hs2. by eapply (Hap q l1).
    + rewrite !lookup_insert_ne by done. by eapply (do_apart _ _ _ Hd).
  - done.
  - rewrite held_all_insert. apply Hbal. rewrite <-(held_all_at _ _ _ Hp). apply (do_balance _ _ _ Hd).
Qed.

(** A new command has no entries. *)
Lemma data_ok_alloc d d' m refs p c :
  data_ok d m refs -> xs_commands d !! p = None -> xc_entries c = None ->
  xs_commands d' = <[p := c]> (xs_commands d) -> xs_items d' = xs_items d -> queue_data d' = queue_data d ->
  data_ok d' (<[p := []]> m) refs.
Proof.
  intros Hd Hp Hc Hcs Hi Hq.
  assert (m !! p = None) as Hm.
  { apply eq_None_not_Some. intros Hs%(do_dom _ _ _ Hd). by destruct Hs as [? E]; rewrite Hp in E. }
  split.
  - intros q. rewrite Hcs. destruct (decide (p = q)) as [<- |Hne].
    + rewrite !lookup_insert_eq. split; by eexists.
    + rewrite !lookup_insert_ne by done. apply (do_dom _ _ _ Hd).
  - intros q c2 l2. rewrite Hcs. destruct (decide (p = q)) as [<- |Hne].
    + rewrite !lookup_insert_eq. intros [= <-] [= <-]. rewrite Hc. by split.
    + rewrite !lookup_insert_ne by done. intros Hc2 Hl2. destruct (do_list _ _ _ Hd q c2 l2 Hc2 Hl2) as [Hli ?]. split; [|done].
      eapply list_is_items; [exact Hli|]. by rewrite Hi.
  - intros q r l1 l2 Hne. destruct (decide (p = q)) as [<- |Hq1]; [|destruct (decide (p = r)) as [<- |Hr1]].
    + rewrite lookup_insert_eq. intros [= <-] _ s Hs. by apply not_elem_of_nil in Hs.
    + rewrite (lookup_insert_eq m). intros _ [= <-] s _ Hs. by apply not_elem_of_nil in Hs.
    + rewrite !lookup_insert_ne by done. by eapply (do_apart _ _ _ Hd).
  - rewrite Hq. apply (do_queue _ _ _ Hd).
  - rewrite held_all_insert. change (held_refs []) with (@nil Z). rewrite delete_id by done.
    injection Hq as _ _ ->. apply (do_balance _ _ _ Hd).
Qed.

(** A command that holds nothing can be removed, with its items. *)
Lemma data_ok_delete d d' m refs p l :
  data_ok d m refs -> m !! p = Some l -> held_refs l = [] ->
  xs_commands d' = delete p (xs_commands d) -> (forall q, q ∉ l.*1 -> xs_items d' !! q = xs_items d !! q) ->
  queue_data d' = queue_data d -> data_ok d' (delete p m) refs.
Proof.
  intros Hd Hp Hl Hcs Hi Hq. split.
  - intros q. rewrite Hcs. destruct (decide (p = q)) as [<- |Hne].
    + rewrite !lookup_delete_eq. split; by intros [? ?].
    + rewrite !lookup_delete_ne by done. apply (do_dom _ _ _ Hd).
  - intros q c2 l2. rewrite Hcs. rewrite !lookup_delete_Some. intros [Hne Hc2] [_ Hl2].
    destruct (do_list _ _ _ Hd q c2 l2 Hc2 Hl2) as [Hli ?]. split; [|done].
    eapply list_is_items; [exact Hli|]. intros r Hr. apply Hi. intros Hin. by apply (do_apart _ _ _ Hd p q l l2 Hne Hp Hl2 r).
  - intros q r l1 l2 Hne. rewrite !lookup_delete_Some. intros [_ ?] [_ ?]. by eapply (do_apart _ _ _ Hd).
  - rewrite Hq. apply (do_queue _ _ _ Hd).
  - injection Hq as _ _ ->. rewrite (do_balance _ _ _ Hd), (held_all_at _ _ _ Hp), Hl. done.
Qed.
(** A command object changes, but not its entries. *)
Lemma data_ok_object d m refs p c c' :
  data_ok d m refs -> xs_commands d !! p = Some c -> xc_entries c' = xc_entries c ->
  data_ok (set_commands (<[p := c']> (xs_commands d)) d) m refs.
Proof.
  intros Hd Hc He. destruct (data_cells _ _ _ _ _ Hd Hc) as [l Hl]. rewrite <-(insert_id m p l Hl).
  destruct (do_list _ _ _ Hd p c l Hc Hl) as [Hli Hv].
  eapply (data_ok_update d _ m refs refs p c c' l l); try done; [by rewrite He|by left|apply (do_queue _ _ _ Hd)].
Qed.
End Data.

(** * The state of the program *)

Section State.
Context {C : Type} `{ConnectionLaws C} {P : Type}.
Abbreviation W := (world C (ext (xp_state P))).
Implicit Types (w : W) (m : gmap loc cells) (ts : list loc).

(** The scheduled tasks are those of the commands, one each. *)
Record tasks_ok (d : xp_state P) ts : Prop := mkTasksOk {
  to_nodup : NoDup ts;
  to_command : forall t, t ∈ ts -> exists p c, xs_tasks d !! t = Some p /\ xs_commands d !! p = Some c /\ xc_task c = Some t;
  to_task : forall p c t, xs_commands d !! p = Some c -> xc_task c = Some t -> t ∈ ts /\ xs_tasks d !! t = Some p;
}.

(** Commands that have a task act for a channel. *)
Definition channels_ok (d : xp_state P) : Prop :=
  forall p c t, xs_commands d !! p = Some c -> xc_task c = Some t -> addressable (xc_channel_id c) = true.

Record held_ok w m (refs : list Z) ts : Prop := mkHeldOk {
  ho_world : world_ok w;
  ho_data : data_ok (data_of w) m refs;
  ho_sched : sched_ok w ts;
  ho_tasks : tasks_ok (data_of w) ts;
  ho_channels : channels_ok (data_of w);
}.

(** Nothing that is needed to release a command is going to fail. *)
Record willing w : Prop := mkWilling {
  wi_alloc : plenty (cs_env (w_channels w));
  wi_lock : lock_succeeds (cs_env (w_channels w));
  wi_schedule : ts_destruction_pending (x_schedule (w_ext w)) = false;
  wi_queue : xq_destruction_pending (xs_queue (data_of w)) = false;
}.

(** Messages do not matter. *)
Lemma held_ok_quiet w w' m refs ts : quiet w w' -> world_ok w' -> held_ok w m refs ts -> held_ok w' m refs ts.
Proof.
  intros [He _] Hw [_ Hd Hs Ht Hc]. unfold data_of in *.
  split; unfold data_of; rewrite ?He; try done. by eapply sched_ok_same; [..|exact Hs]; rewrite He.
Qed.

Lemma willing_quiet w w' : quiet w w' -> willing w -> willing w'.
Proof. intros [He [Ha Hl]] [? ? ? ?]. split; unfold data_of; rewrite ?He; auto. Qed.

(** A change of the data and the environment only. *)
Definition with_data (d : xp_state P) (e : env) w : W := set_world_env e (set_data d w).

Lemma with_data_world d e w : world_ok w -> world_ok (with_data d e w).
Proof. by intros []. Qed.

Lemma held_ok_data d e w m m' refs refs' ts :
  held_ok w m refs ts -> data_ok d m' refs' -> tasks_ok d ts -> channels_ok d -> held_ok (with_data d e w) m' refs' ts.
Proof. intros [Hw Hd Hs _ _] Hd' Ht' Hc'. split; [by apply with_data_world|done| |done|done]. by eapply sched_ok_same; [..|exact Hs]. Qed.

(** The data of a world that has been given data. *)
Ltac reduce_data := repeat match goal with |- context [data_of (with_data ?d ?e ?w)] => change (data_of (with_data d e w)) with d end.

(** ** Command objects *)

Lemma load_command_eq p c w : xs_commands (data_of w) !! p = Some c -> load_command p w = Some (c, w).
Proof. intros Hc. unfold load_command. erewrite bind_eq by reflexivity. unfold from_ub. by rewrite Hc. Qed.

Lemma with_data_same w : with_data (data_of w) (cs_env (w_channels w)) w = w.
Proof. by destruct w as [? [] ? []]. Qed.

Lemma update_command_eq p f c w : xs_commands (data_of w) !! p = Some c ->
  update_command p f w = Some (tt, with_data (set_commands (<[p := f c]> (xs_commands (data_of w))) (data_of w)) (cs_env (w_channels w)) w).
Proof. intros Hc. unfold update_command. erewrite bind_eq by by apply load_command_eq. by destruct w as [? [] ? []]. Qed.

(** A change of a command object that keeps its task, and its channel or the
    lack of a task. *)
Lemma tasks_ok_update d d' ts p c c' :
  tasks_ok d ts -> xs_commands d !! p = Some c -> xs_commands d' = <[p := c']> (xs_commands d) -> xs_tasks d' = xs_tasks d ->
  xc_task c' = xc_task c -> tasks_ok d' ts.
Proof.
  intros [Hnd Hc Ht] Hp Hcs Hts Htask. split; [done| |]; rewrite Hcs, Hts.
  - intros t Hin. destruct (Hc t Hin) as (q & c2 & Hq & Hc2 & E). exists q. destruct (decide (p = q)) as [<- |Hne].
    + exists c'. rewrite lookup_insert_eq. split; [done|]. split; [done|]. congruence.
    + exists c2. by rewrite lookup_insert_ne.
  - intros q c2 t. destruct (decide (p = q)) as [<- |Hne].
    + rewrite lookup_insert_eq. intros [= <-]. rewrite Htask. by apply Ht.
    + rewrite lookup_insert_ne by done. apply Ht.
Qed.

Lemma channels_ok_update d d' p c c' :
  channels_ok d -> xs_commands d !! p = Some c -> xs_commands d' = <[p := c']> (xs_commands d) ->
  xc_task c' = None \/ (xc_task c' = xc_task c /\ xc_channel_id c' = xc_channel_id c) -> channels_ok d'.
Proof.
  intros Hc Hp Hcs Hor q c2 t. rewrite Hcs. destruct (decide (p = q)) as [<- |Hne].
  - rewrite lookup_insert_eq. intros [= <-] E. destruct Hor as [E'|[E' ->]]; [congruence|]. apply (Hc p c t Hp); congruence.
  - rewrite lookup_insert_ne by done. apply Hc.
Qed.

(** ** Unscheduling *)

(** The lock can be taken. *)
Lemma willing_lock w : willing w -> lock_result w = ERROR_NONE.
Proof.
  intros []. unfold lock_result. simpl. rewrite wi_schedule0. change (default true _) with (lock_next (cs_env (w_channels w))).
  by rewrite lock_succeeds_next.
Qed.

Lemma held_lock_run w m refs ts : held_ok w m refs ts ->
  exists w', lock_schedule w = Some (lock_result w, w') /\ held_ok w' m refs ts /\ data_of w' = data_of w /\ (willing w -> willing w').
Proof.
  intros Hok. destruct (lock_schedule_run w) as (w' & E & Hs & Hi). exists w'. split; [exact E|].
  pose proof (beside_lock _ _ _ E) as Hb. assert (data_of w' = data_of w) as Hd by apply (beside_data _ _ Hb).
  assert (queues (x_schedule (w_ext w')) = queues (x_schedule (w_ext w))) as Hq.
  { change (x_schedule (w_ext w')) with (schedule_of w'). rewrite Hs. by destruct (lock_result w =? ERROR_NONE). }
  split; [|split; [done|]].
  - destruct Hok as [Hw Hdo Hsch Hts Hch]. split; rewrite ?Hd; try done; [by eapply beside_world_ok|]. by eapply sched_ok_same; [exact Hq|exact Hi|].
  - intros [? ? ? ?]. destruct (beside_env _ _ Hb) as [? ?]. split; rewrite ?Hd, ?(beside_pending _ _ Hb); auto.
Qed.

Lemma held_unlock_run w m refs ts : held_ok w m refs ts ->
  exists w', unlock_schedule w = Some (tt, w') /\ held_ok w' m refs ts /\ data_of w' = data_of w /\ (willing w -> willing w').
Proof.
  intros [Hw Hdo Hsch Hts Hch]. eexists. split; [reflexivity|]. split; [|split; [done|by intros []]].
  split; [by destruct Hw|exact Hdo|by eapply sched_ok_same; [| |exact Hsch]|exact Hts|exact Hch].
Qed.

(** A task object that is no longer scheduled. *)
Lemma tasks_ok_unscheduled d ts1 t ts2 p c :
  tasks_ok d (ts1 ++ t :: ts2) -> xs_commands d !! p = Some c -> xc_task c = Some t ->
  tasks_ok (set_commands (<[p := set_task None c]> (xs_commands d)) d) (ts1 ++ ts2).
Proof.
  intros [Hnd Hc Ht] Hp Htask. pose proof Hnd as Hnd'.
  apply NoDup_app in Hnd' as (Hnd1 & Hdis & [Hn2 Hnd2]%NoDup_cons). split; simpl.
  - apply NoDup_app. split; [done|]. split; [|done]. intros q Hq Hin. apply (Hdis q Hq). by right.
  - intros s Hin. destruct (Hc s) as (q & c2 & Hq & Hc2 & E).
    { rewrite elem_of_app in Hin |- *. rewrite elem_of_cons. tauto. }
    exists q, c2. rewrite lookup_insert_ne; [done|]. intros <-. assert (c2 = c) as -> by congruence. assert (s = t) as -> by congruence.
    apply elem_of_app in Hin as [Hin|Hin]; [|done]. apply (Hdis t Hin). by left.
  - intros q c2 s. destruct (decide (p = q)) as [<- |Hne]; [by rewrite lookup_insert_eq; intros [= <-]|].
    rewrite lookup_insert_ne by done. intros Hc2 E. destruct (Ht q c2 s Hc2 E) as [Hin Hs]. split; [|done].
    rewrite elem_of_app, elem_of_cons in Hin. rewrite elem_of_app. destruct Hin as [?|[-> |?]]; [by left| |by right].
    destruct (Ht p c t Hp Htask) as [_ Hs']. congruence.
Qed.

Lemma unschedule_run w m refs ts p c :
  held_ok w m refs ts -> xs_commands (data_of w) !! p = Some c ->
  exists err w' ts', unschedule_held_command p w = Some (err, w') /\ held_ok w' m refs ts' /\
    data_of w' = (if err =? ERROR_NONE then set_commands (<[p := set_task None c]> (xs_commands (data_of w))) (data_of w) else data_of w) /\
    (willing w -> err = ERROR_NONE /\ willing w').
Proof.
  intros Hok Hc. unfold unschedule_held_command. erewrite bind_eq by by apply load_command_eq.
  destruct (xc_task c) as [t|] eqn:Ht.
  2:{ exists ERROR_NONE, w, ts. split; [done|]. split; [done|]. split; [|done]. simpl.
      replace (set_task None c) with c by (destruct c; simpl in *; by subst). rewrite insert_id by done. by destruct (data_of w). }
  destruct (held_lock_run w m refs ts Hok) as (w1 & E1 & Hok1 & Hd1 & Hw1). erewrite bind_eq by exact E1.
  destruct (Z.eqb_spec (lock_result w) ERROR_NONE) as [Hl|Hl].
  2:{ erewrite bind_eq by reflexivity. rewrite (proj2 (Z.eqb_neq _ _) Hl). red_if. exists (lock_result w), w1, ts.
      split; [done|]. split; [done|]. rewrite (proj2 (Z.eqb_neq _ _) Hl). split; [done|]. by intros ?%willing_lock. }
  pose proof (ho_tasks _ _ _ _ Hok1) as Htasks. rewrite Hd1 in Htasks.
  destruct (ho_sched _ _ _ _ Hok1) as (ps0 & ps1 & Hsch & Hts).
  destruct (to_task _ _ Htasks p c t Hc Ht) as [Hin _].
  destruct (unschedule_task_run (size (x_items (w_ext w1))) w1 [ps0; ps1] HELD_TASK_PHASE ps0 ts t Hsch eq_refl eq_refl Hts)
    as [(ts1 & ts2 & w2 & ps' & -> & Hn & E2 & Hsch2 & Hts2 & Hlock2)|[Hn _]]; [|clear Hn|done].
  { apply (tasks_fuel_enough _ _ (ho_sched _ _ _ _ Hok1)). }
  pose proof (beside_unschedule_task _ _ _ _ _ _ E2) as Hb.
  assert (data_of w2 = data_of w) as Hd2 by (rewrite <-Hd1; apply (beside_data _ _ Hb)).
  eexists ERROR_NONE, _, (ts1 ++ ts2). split; [|split; [|split]].
  - erewrite bind_eq.
    2:{ erewrite bind_eq by reflexivity. erewrite bind_eq by exact E2. erewrite bind_eq by reflexivity. reflexivity. }
    change (negb (ERROR_NONE =? ERROR_NONE)) with false. red_if.
    erewrite bind_eq by (apply (update_command_eq _ _ c); change (xs_commands (data_of w2) !! p = Some c); by rewrite Hd2). reflexivity.
  - split.
    + apply with_data_world. assert (world_ok w2) as [] by exact (beside_world_ok _ _ Hb (ho_world _ _ _ _ Hok1)). by split.
    + change (data_of (with_schedule _ w2)) with (data_of w2). reduce_data. rewrite Hd2. apply (data_ok_object _ _ _ _ c); [apply (ho_data _ _ _ _ Hok)|done|done].
    + exists ps', ps1. split; [|exact Hts2]. destruct Hsch2 as [Hlen Hq Ha]. split; [exact Hlen|exact Hq|exact Ha].
    + change (data_of (with_schedule _ w2)) with (data_of w2). reduce_data. rewrite Hd2. by eapply tasks_ok_unscheduled.
    + change (data_of (with_schedule _ w2)) with (data_of w2). reduce_data. rewrite Hd2. eapply channels_ok_update; [apply (ho_channels _ _ _ _ Hok)|exact Hc|reflexivity|by left].
  - change (data_of (with_schedule _ w2)) with (data_of w2). reduce_data. by rewrite Hd2.
  - intros Hw. split; [done|]. destruct (Hw1 Hw) as [Ha Hl1 Hs Hq]. destruct (beside_env _ _ Hb) as [Ha' Hl'].
    split; cbn; [by apply Ha'|by apply Hl'|by rewrite (beside_pending _ _ Hb)|change (xq_destruction_pending (xs_queue (data_of w2)) = false); rewrite Hd2; apply Hw].
Qed.

(** ** Computations on lists and on the queue of calls *)

Lemma on_entries_eq {A} (f : M (heap xp_entry) A) w a h : f (entries_heap w) = Some (a, h) ->
  on_entries f w = Some (a, with_data (set_items (h_items h) (data_of w)) (h_env h) w).
Proof. intros E. unfold on_entries, zoom. by rewrite E. Qed.

Lemma load_item_run i it w : xs_items (data_of w) !! i = Some it -> on_entries (load_item i) w = Some (it, w).
Proof.
  intros Hi. rewrite (on_entries_eq _ _ _ _ (load_item_eq i (entries_heap w) it Hi)). by destruct w as [? [] ? [? ? ? []]].
Qed.

Definition set_calls (calls : list xp_call) (d : xp_state P) : xp_state P :=
  mkXp (xs_queue d) (xs_queue_items d) calls (xs_commands d) (xs_items d) (xs_tasks d).

Lemma call_run c w : on_xpq (call_xplm c) w =
  Some (tt, with_data (set_calls (xs_calls (data_of w) ++ [c]) (data_of w)) (cs_env (w_channels w)) w).
Proof. done. Qed.

(** Overwriting the entry of an item. *)
Lemma set_entry_run w list l1 i e l2 e' :
  represents (entries_heap w) list (l1 ++ (i, Some e) :: l2) ->
  exists items, set_entry i e' w = Some (tt, with_data (set_items items (data_of w)) (cs_env (w_channels w)) w) /\
    represents (mkHeap items (cs_env (w_channels w))) list (l1 ++ (i, Some e') :: l2) /\
    forall q, q <> i -> items !! q = xs_items (data_of w) !! q.
Proof.
  intros Hr. destruct (update_value_spec _ _ _ _ _ _ (Some e') Hr) as (items & E & Hr' & Hf).
  exists items. split; [exact (on_entries_eq _ _ _ _ E)|]. by split.
Qed.

Definition map_cells (f : xp_entry -> xp_entry) (l : cells) : cells :=
  (fun x : loc * option xp_entry => (x.1, option_map f x.2)) <$> l.

Lemma map_cells_fst f l : (map_cells f l).*1 = l.*1.
Proof. unfold map_cells. by rewrite <-list_fmap_compose. Qed.

Lemma map_cells_entries f l : entries_of (map_cells f l) = f <$> entries_of l.
Proof. induction l as [|[i [e|]] l IH]; [done| |done]. unfold entries_of in *. simpl. f_equal. exact IH. Qed.

Definition concerns (only_if_held : bool) (es : list xp_entry) : list Z :=
  en_xp_ref <$> filter (fun e => negb only_if_held || en_held e = true) es.

Lemma for_all_items_run consumer holding only_if_held l2 : forall w list l1 fuel,
  represents (entries_heap w) list (l1 ++ l2) -> Forall entry_ok l2.*2 -> (length l2 <= fuel)%nat ->
  exists items,
    for_all_items fuel (first l2 None) consumer holding only_if_held w =
      Some (tt, with_data (set_calls (xs_calls (data_of w) ++ (consumer <$> concerns only_if_held (entries_of l2)))
        (set_items items (data_of w))) (cs_env (w_channels w)) w) /\
    represents (mkHeap items (cs_env (w_channels w))) list (l1 ++ map_cells (set_held holding) l2) /\
    forall q, q ∉ l2.*1 -> items !! q = xs_items (data_of w) !! q.
Proof.
  induction l2 as [|[i v] l2 IH]; intros w list l1 fuel Hr Hv Hf.
  { exists (xs_items (data_of w)). split; [|done]. rewrite app_nil_r. destruct fuel; by destruct w as [? [] ? [? ? ? []]]. }
  rewrite fmap_cons in Hv. cbn [snd] in Hv. apply Forall_cons in Hv as [(e & -> & He) Hv]. destruct fuel as [|fuel]; [simpl in Hf; lia|]. cbn [first for_all_items].
  destruct (represents_item _ _ _ _ _ _ Hr) as (prev & Hit).
  erewrite bind_eq by exact (load_item_run _ _ _ Hit). cbn [item_value item_next]. erewrite bind_eq by reflexivity.
  set (calls := if negb only_if_held || en_held e then [consumer (en_xp_ref e)] else []).
  set (w1 := with_data (set_calls (xs_calls (data_of w) ++ calls) (data_of w)) (cs_env (w_channels w)) w).
  erewrite (bind_eq _ _ _ tt w1).
  2:{ unfold w1, calls. destruct (negb only_if_held || en_held e); [apply call_run|].
      rewrite app_nil_r. by destruct w as [? [] ? [? ? ? []]]. }
  destruct (set_entry_run w1 list l1 i e l2 (set_held holding e)) as (items1 & E1 & Hr1 & Hf1); [exact Hr|].
  erewrite bind_eq by exact E1. set (w2 := with_data _ _ w1).
  destruct (IH w2 list (l1 ++ [(i, Some (set_held holding e))]) fuel) as (items & E & Hr2 & Hf2);
    [by rewrite <-app_assoc|done|simpl in Hf; lia|].
  assert (calls ++ (consumer <$> concerns only_if_held (entries_of l2)) =
    consumer <$> concerns only_if_held (entries_of ((i, Some e) :: l2))) as Hcalls.
  { unfold calls, concerns, entries_of. simpl. rewrite filter_cons.
    destruct (negb only_if_held || en_held e); [by rewrite decide_True by done|by rewrite decide_False by done]. }
  exists items. split; [|split].
  - rewrite E. unfold w2, w1, with_data, set_calls, set_items. cbn. by rewrite <-app_assoc, Hcalls.
  - by rewrite <-app_assoc in Hr2.
  - intros q Hq. apply not_elem_of_cons in Hq as [Hq1 Hq2]. rewrite Hf2 by done. by apply Hf1.
Qed.

(** ** Loops from the tail to the head *)

Lemma walk_back_run {A} (I : W -> A -> cells -> Prop) (body : loc -> xp_entry -> A -> M W A) :
  (forall w a l1 i v, I w a (l1 ++ [(i, v)]) ->
    exists e next, v = Some e /\ xs_items (data_of w) !! i = Some (mkItem (Some e) (final None l1) next) /\
      exists a' w', body i e a w = Some (a', w') /\ I w' a' l1) ->
  forall l1 fuel w a, I w a l1 -> (length l1 <= fuel)%nat ->
  exists a' w', walk_back fuel (final None l1) body a w = Some (a', w') /\ I w' a' [].
Proof.
  intros Hbody l1. induction l1 as [|[i v] l1 IH] using rev_ind; intros fuel w a Hi Hf.
  { exists a, w. split; [by destruct fuel|done]. }
  rewrite length_app in Hf. destruct fuel as [|fuel]; [simpl in Hf; lia|].
  destruct (Hbody w a l1 i v Hi) as (e & next & -> & Hit & a1 & w1 & E & Hi1).
  rewrite final_app. cbn [walk_back]. erewrite bind_eq by exact (load_item_run _ _ _ Hit). cbn [item_value item_prev].
  erewrite bind_eq by reflexivity. erewrite bind_eq by exact E. apply IH; [done|simpl in Hf; lia].
Qed.

(** ** Queueing a release *)

Definition set_queue_data (q : xpqueue_t) (items : gmap loc (list_item_t Z)) (d : xp_state P) : xp_state P :=
  mkXp q items (xs_calls d) (xs_commands d) (xs_items d) (xs_tasks d).

Lemma queue_end_run w refs ref : queues_refs (queue_data (data_of w)) refs ->
  exists err q items e, on_xpq (queue_XPLMCommandEnd ref) w = Some (err, with_data (set_queue_data q items (data_of w)) e w) /\
    queues_refs (queue_data (set_queue_data q items (data_of w))) (if err =? ERROR_NONE then refs ++ [ref] else refs) /\
    xq_destruction_pending q = xq_destruction_pending (xs_queue (data_of w)) /\
    (willing w -> plenty e /\ lock_succeeds e /\ (ref <> NO_XP_COMMAND -> err = ERROR_NONE)).
Proof.
  intros Hq. assert (queues_refs (xpq_of w) refs) as Hq' by exact (queues_refs_env _ (cs_env (w_channels w)) _ Hq).
  destruct (run_inv _ _ _ (queue_XPLMCommandEnd_run (xpq_of w) refs ref Hq')) as (err & s' & E & Hc & Hp & Hq'' & _ & Ha & Hl & Hw).
  exists err, (q_queue s'), (q_items s'), (q_env s'). split; [|split; [|split; [exact Hp|]]].
  - unfold on_xpq, zoom. rewrite E. unfold set_xpq, with_data, set_queue_data. by rewrite Hc.
  - unfold queue_data. simpl. apply (queues_refs_env _ calm) in Hq''. destruct s'. simpl in *. by subst.
  - intros []. split; [by apply Ha|]. split; [by apply Hl|]. intros Hne. apply Hw; [done..|]. by split.
Qed.

(** ** The entries of a command *)

Lemma represents_items (items : gmap loc (list_item_t xp_entry)) e e' list (l : cells) :
  represents (mkHeap items e) list l -> represents (mkHeap items e') list l.
Proof. intros Hr. by eapply represents_frame. Qed.

(** The list of a command: what the loops over it start from. *)
Lemma command_list w m refs ts p c l list :
  held_ok w m refs ts -> xs_commands (data_of w) !! p = Some c -> m !! p = Some l -> xc_entries c = Some list ->
  entry_list p w = Some (list, w) /\ represents (entries_heap w) list l /\ Forall entry_ok l.*2 /\
  list_head list = first l None /\ list_tail list = final None l /\ Z.to_nat (list_size list) = length l.
Proof.
  intros Hok Hc Hl Hlist. destruct (do_list _ _ _ (ho_data _ _ _ _ Hok) p c l Hc Hl) as [Hli Hv]. rewrite Hlist in Hli. simpl in Hli.
  split; [|split; [by eapply represents_items|split; [done|split; [apply (rep_head _ _ _ Hli)|split; [apply (rep_tail _ _ _ Hli)|]]]]].
  - unfold entry_list. erewrite bind_eq by by apply load_command_eq. unfold from_ub. by rewrite Hlist.
  - rewrite (rep_size _ _ _ Hli). apply Nat2Z.id.
Qed.

Lemma tasks_ok_same (d d' : xp_state P) ts : xs_commands d' = xs_commands d -> xs_tasks d' = xs_tasks d -> tasks_ok d ts -> tasks_ok d' ts.
Proof. intros Hc Ht []. split; rewrite ?Hc, ?Ht; done. Qed.

Lemma channels_ok_same (d d' : xp_state P) : xs_commands d' = xs_commands d -> channels_ok d -> channels_ok d'.
Proof. unfold channels_ok. by intros ->. Qed.

(** An object changes, but not its list, its task and its channel. *)
Lemma update_object_run w m refs ts p f c :
  held_ok w m refs ts -> xs_commands (data_of w) !! p = Some c ->
  xc_entries (f c) = xc_entries c /\ xc_task (f c) = xc_task c /\ xc_channel_id (f c) = xc_channel_id c ->
  exists w', update_command p f w = Some (tt, w') /\ held_ok w' m refs ts /\
    data_of w' = set_commands (<[p := f c]> (xs_commands (data_of w))) (data_of w) /\ (willing w -> willing w').
Proof.
  intros Hok Hc (He & Ht & Hi). eexists. split; [by apply update_command_eq|]. split; [|split; [done|by intros []]].
  apply (held_ok_data _ _ w m _ refs); [done|by eapply data_ok_object; [apply (ho_data _ _ _ _ Hok)|exact Hc|]| |].
  - by eapply tasks_ok_update; [apply (ho_tasks _ _ _ _ Hok)|exact Hc|..].
  - eapply channels_ok_update; [apply (ho_channels _ _ _ _ Hok)|exact Hc|reflexivity|by right].
Qed.

(** Its entries change in place, while calls are made. *)
Lemma held_ok_entries w m refs ts p c l list l' items cs :
  held_ok w m refs ts -> xs_commands (data_of w) !! p = Some c -> m !! p = Some l -> xc_entries c = Some list ->
  represents (mkHeap items (cs_env (w_channels w))) list l' -> l'.*1 = l.*1 -> Forall entry_ok l'.*2 ->
  (forall q, q ∉ l.*1 -> items !! q = xs_items (data_of w) !! q) ->
  begun cs ++ held_refs l ≡ₚ ended cs ++ held_refs l' ->
  held_ok (with_data (set_calls (xs_calls (data_of w) ++ cs) (set_items items (data_of w))) (cs_env (w_channels w)) w)
    (<[p := l']> m) refs ts.
Proof.
  intros Hok Hc Hl Hlist Hr Hfst Hv Hf Hbal. pose proof (ho_data _ _ _ _ Hok) as Hd.
  apply (held_ok_data _ _ w m _ refs); [done| |by eapply tasks_ok_same; [| |apply (ho_tasks _ _ _ _ Hok)]|
    by eapply channels_ok_same; [|apply (ho_channels _ _ _ _ Hok)]].
  eapply (data_ok_update _ _ m refs refs p c c l l'); try done.
  - simpl. by rewrite insert_id.
  - rewrite Hlist. simpl. by eapply represents_items.
  - rewrite Hfst. by left.
  - simpl. intros q _. apply Hf.
  - destruct (do_queue _ _ _ Hd) as [? ? ?]. by split.
  - intros rest Hrest. simpl. rewrite begun_app, ended_app. balance.
Qed.

Lemma for_all_xprefs_run w m refs ts p c l list consumer holding only_if_held :
  held_ok w m refs ts -> xs_commands (data_of w) !! p = Some c -> m !! p = Some l -> xc_entries c = Some list ->
  (holding = true -> Forall (fun e => en_xp_ref e <> NO_XP_COMMAND) (entries_of l)) ->
  begun (consumer <$> concerns only_if_held (entries_of l)) ++ held_refs l ≡ₚ
    ended (consumer <$> concerns only_if_held (entries_of l)) ++ held_refs (map_cells (set_held holding) l) ->
  exists w' items, for_all_xprefs p consumer holding only_if_held w = Some (tt, w') /\
    held_ok w' (<[p := map_cells (set_held holding) l]> m) refs ts /\ (willing w -> willing w') /\
    data_of w' = set_calls (xs_calls (data_of w) ++ (consumer <$> concerns only_if_held (entries_of l))) (set_items items (data_of w)).
Proof.
  intros Hok Hc Hl Hlist Hfound Hbal. destruct (command_list _ _ _ _ _ _ _ _ Hok Hc Hl Hlist) as (El & Hr & Hv & Hh & _ & Hn).
  unfold for_all_xprefs. erewrite bind_eq by exact El. rewrite Hh, Hn.
  destruct (for_all_items_run consumer holding only_if_held l w list [] (length l)) as (items & E & Hr' & Hf); [done..|].
  eexists _, items. split; [exact E|]. split; [|split; [by intros []|reflexivity]].
  eapply held_ok_entries; try done; [by apply map_cells_fst|].
  clear -Hv Hfound. unfold map_cells. rewrite <-list_fmap_compose. induction l as [|[i v] l IH]; [constructor|].
  rewrite fmap_cons in *. cbn [snd] in Hv. apply Forall_cons in Hv as [(e & -> & He) Hv]. constructor.
  - exists (set_held holding e). split; [done|]. cbn. intros ->. specialize (Hfound eq_refl). by apply Forall_cons in Hfound as [? _].
  - apply IH; [|done]. intros ->. specialize (Hfound eq_refl). by apply Forall_cons in Hfound as [_ ?].
Qed.

(** ** Finding X-Plane commands *)

Section Finding.
Context (XPLMFindCommand : list xp_call -> cstr -> Z).

(** The entries after the search, and whether all were found: the search ends
    at the first X-Plane command that does not exist. *)
Fixpoint found_entries (calls : list xp_call) (es : list xp_entry) : list xp_entry * bool :=
  match es with
  | [] => ([], true)
  | e :: es' =>
      let xp_ref := XPLMFindCommand calls (en_name e) in
      if xp_ref =? NO_XP_COMMAND then (set_xp_ref xp_ref e :: es', false)
      else let '(es'', found) := found_entries calls es' in (set_xp_ref xp_ref e :: es'', found)
  end.

Lemma found_entries_held calls es : en_held <$> (found_entries calls es).1 = en_held <$> es.
Proof.
  induction es as [|e es IH]; [done|]. simpl. destruct (_ =? _); [done|]. destruct (found_entries calls es). simpl in *. by f_equal.
Qed.

Lemma found_entries_all calls es : (found_entries calls es).2 = true ->
  (found_entries calls es).1 = (fun e => set_xp_ref (XPLMFindCommand calls (en_name e)) e) <$> es /\
  Forall (fun e => XPLMFindCommand calls (en_name e) <> NO_XP_COMMAND) es.
Proof.
  induction es as [|e es IH]; [done|]. simpl. destruct (Z.eqb_spec (XPLMFindCommand calls (en_name e)) NO_XP_COMMAND); [done|].
  destruct (found_entries calls es) as [es' b]. simpl in *. intros Hb. destruct (IH Hb) as [-> ?]. split; [done|]. by constructor.
Qed.

Lemma held_none es : held_entries es = [] -> Forall (fun e => en_held e = false) es.
Proof.
  unfold held_entries. induction es as [|e es IH]; [done|]. rewrite filter_cons. destruct (decide (en_held e = true)) as [?|Hn]; [done|].
  intros E. constructor; [by apply not_true_is_false|auto].
Qed.

Lemma none_held es : Forall (fun e => en_held e = false) es -> held_entries es = [].
Proof.
  intros Hf. unfold held_entries. rewrite filter_none; [done|]. intros e He. rewrite (proj1 (Forall_forall _ _) Hf e He). done.
Qed.

Lemma found_entries_none calls es : held_entries es = [] -> held_entries (found_entries calls es).1 = [].
Proof.
  intros Hn%held_none. apply none_held. rewrite <-Forall_fmap with (f := en_held) (P := fun b => b = false) in Hn |- *.
  by rewrite found_entries_held.
Qed.

Lemma find_xp_commands_run l2 : forall w list l1 fuel,
  represents (entries_heap w) list (l1 ++ l2) -> Forall entry_ok l2.*2 -> (length l2 <= fuel)%nat ->
  exists items l2',
    find_xp_commands XPLMFindCommand fuel (first l2 None) w =
      Some ((found_entries (xs_calls (data_of w)) (entries_of l2)).2, with_data (set_items items (data_of w)) (cs_env (w_channels w)) w) /\
    represents (mkHeap items (cs_env (w_channels w))) list (l1 ++ l2') /\ l2'.*1 = l2.*1 /\
    l2'.*2 = Some <$> (found_entries (xs_calls (data_of w)) (entries_of l2)).1 /\
    forall q, q ∉ l2.*1 -> items !! q = xs_items (data_of w) !! q.
Proof.
  induction l2 as [|[i v] l2 IH]; intros w list l1 fuel Hr Hv Hf.
  { exists (xs_items (data_of w)), []. split; [|done]. destruct fuel; by destruct w as [? [] ? [? ? ? []]]. }
  rewrite fmap_cons in Hv. cbn [snd] in Hv. apply Forall_cons in Hv as [(e & -> & He) Hv]. destruct fuel as [|fuel]; [simpl in Hf; lia|]. cbn [first find_xp_commands].
  destruct (represents_item _ _ _ _ _ _ Hr) as (prev & Hit).
  erewrite bind_eq by exact (load_item_run _ _ _ Hit). cbn [item_value item_next]. erewrite bind_eq by reflexivity.
  erewrite bind_eq by reflexivity. set (ref := XPLMFindCommand (xs_calls (data_of w)) (en_name e)).
  destruct (set_entry_run w list l1 i e l2 (set_xp_ref ref e) Hr) as (items1 & E1 & Hr1 & Hf1).
  cbv zeta. erewrite bind_eq by exact E1. set (w1 := with_data _ _ w). unfold entries_of. cbn [omap list_omap snd found_entries].
  change (omap snd l2) with (entries_of l2). fold ref.
  destruct (ref =? NO_XP_COMMAND).
  - exists items1, ((i, Some (set_xp_ref ref e)) :: l2). split; [done|]. split; [done|]. split; [done|]. split.
    + simpl. f_equal. by apply cells_values.
    + intros q Hq. apply not_elem_of_cons in Hq as [Hq1 Hq2]. by apply Hf1.
  - destruct (IH w1 list (l1 ++ [(i, Some (set_xp_ref ref e))]) fuel) as (items & l2' & E & Hr2 & Hfst & Hsnd & Hf2);
      [by rewrite <-app_assoc|done|simpl in Hf; lia|].
    change (xs_calls (data_of w1)) with (xs_calls (data_of w)) in *.
    destruct (found_entries (xs_calls (data_of w)) (entries_of l2)) as [es b].
    exists items, ((i, Some (set_xp_ref ref e)) :: l2'). split; [exact E|]. split; [by rewrite <-app_assoc in Hr2|].
    split; [simpl; by f_equal|]. split; [simpl; by f_equal|].
    intros q Hq. apply not_elem_of_cons in Hq as [Hq1 Hq2]. rewrite Hf2 by done. by apply Hf1.
Qed.

Lemma found_entries_ok calls es l : held_entries es = [] -> (l : cells).*2 = Some <$> (found_entries calls es).1 -> Forall entry_ok l.*2.
Proof.
  intros Hn ->. apply (found_entries_none calls) in Hn. apply held_none in Hn. induction Hn as [|e es' He _ IH]; [constructor|].
  simpl. constructor; [|done]. exists e. split; [done|]. by rewrite He.
Qed.

(** The first part of the flight loop: if all X-Plane commands were found and the
    channel was confirmed, the entries know their references; otherwise the
    command has failed. *)
Lemma find_and_confirm_run w m refs ts p c l list :
  held_ok w m refs ts -> xs_commands (data_of w) !! p = Some c -> m !! p = Some l -> xc_entries c = Some list ->
  addressable (xc_channel_id c) = true -> held_refs l = [] ->
  let found := found_entries (xs_calls (data_of w)) (entries_of l) in
  exists b w' l', find_and_confirm XPLMFindCommand p w = Some (b, w') /\ held_ok w' (<[p := l']> m) refs ts /\
    entries_of l' = found.1 /\ (b = true -> found.2 = true) /\ (willing w -> willing w') /\
    xs_calls (data_of w') = xs_calls (data_of w) /\ xs_tasks (data_of w') = xs_tasks (data_of w) /\
    xs_commands (data_of w') = if b then xs_commands (data_of w) else <[p := set_failed c]> (xs_commands (data_of w)).
Proof.
  intros Hok Hc Hl Hlist Ha Hn found. destruct (command_list _ _ _ _ _ _ _ _ Hok Hc Hl Hlist) as (El & Hr & Hv & Hh & _ & Hlen).
  unfold find_and_confirm. erewrite bind_eq by by apply load_command_eq. erewrite bind_eq by exact El. rewrite Hh, Hlen.
  destruct (find_xp_commands_run l w list [] (length l)) as (items & l' & E & Hr' & Hfst & Hsnd & Hf); [done..|].
  fold found in E, Hsnd. erewrite bind_eq by exact E. set (w1 := with_data _ _ w).
  assert (held_entries found.1 = []) as Hn' by by apply found_entries_none.
  assert (held_ok w1 (<[p := l']> m) refs ts) as Hok1.
  { pose proof (held_ok_entries w m refs ts p c l list l' items [] Hok Hc Hl Hlist Hr' Hfst) as Hoe.
    rewrite app_nil_r in Hoe. unfold set_calls in Hoe. simpl in Hoe. apply Hoe.
    - exact (found_entries_ok _ _ _ Hn Hsnd).
    - done.
    - unfold held_refs in *. rewrite (entries_of_fmap _ _ Hsnd). by rewrite Hn, Hn'. }
  assert (willing w -> willing w1) as Hw1 by by intros [].
  assert (xs_commands (data_of w1) !! p = Some c) as Hc1 by done.
  pose proof (ho_world _ _ _ _ Hok1) as Hworld1.
  destruct found as [es b]. simpl in *. destruct b; red_if.
  - destruct (act_run w1 (fun _ => CHANNEL_ACTION_ACK_CONTINUE) (lit "failed to confirm channel") (xc_channel_id c)
      CURRENT_TIME_REFERENCE None Hworld1 Ha) as (err & w2 & E2 & Hworld2 & Hq2).
    unfold confirm_channel. erewrite bind_eq by exact E2. pose proof (held_ok_quiet _ _ _ _ _ Hq2 Hworld2 Hok1) as Hok2.
    assert (data_of w2 = data_of w1) as Hd2 by (unfold data_of; by rewrite (proj1 Hq2)).
    pose proof (willing_quiet _ _ Hq2) as Hw2.
    destruct (err =? ERROR_NONE); red_if.
    + exists true, w2, l'. split; [done|]. split; [done|]. split; [by apply entries_of_fmap|]. rewrite Hd2. split_and!; auto.
    + destruct (update_object_run w2 _ _ _ p set_failed c Hok2) as (w3 & E3 & Hok3 & Hd3 & Hw3); [by rewrite Hd2|by split_and!|].
      erewrite bind_eq by exact E3. exists false, w3, l'. split; [done|]. split; [done|]. split; [by apply entries_of_fmap|].
      rewrite Hd3, Hd2. split_and!; auto.
  - destruct (update_object_run w1 _ _ _ p set_failed c Hok1 Hc1) as (w2 & E2 & Hok2 & Hd2 & Hw2); [by split_and!|].
    erewrite bind_eq by exact E2.
    destruct (report_run w2 (xc_channel_id c) (Some (lit "XP command not found")) (ho_world _ _ _ _ Hok2) Ha) as (err & w3 & E3 & Hworld3 & Hq3).
    erewrite bind_eq by exact E3. pose proof (held_ok_quiet _ _ _ _ _ Hq3 Hworld3 Hok2) as Hok3.
    assert (data_of w3 = data_of w2) as Hd3 by (unfold data_of; by rewrite (proj1 Hq3)).
    exists false, w3, l'. split; [done|]. split; [done|]. split; [by apply entries_of_fmap|].
    rewrite Hd3, Hd2. split_and!; auto. intros ?. by apply (willing_quiet _ _ Hq3), Hw2, Hw1.
Qed.
End Finding.
End State.
