(* ===== verification/HeldLifecycle.v ===== *)
(** Creation, termination and destruction of the commands that hold X-Plane
    commands, as far as CMHD and CMTR share them. *)

From S2P Require Import Prelude CLib Utils Hashmap Channels Requests Lists Prealloc TaskSchedule Network Command Session Server ServerCommands Beside XPQueue HeldCommands HeldInvariant.

Section Lifecycle.
Context {C : Type} `{ConnectionLaws C} {P : Type}.
Abbreviation W := (world C (ext (xp_state P))).
Implicit Types (w : W) (m : gmap loc cells) (ts : list loc) (d : xp_state P).

(** ** Destruction *)

Lemma tasks_ok_delete d d' ts p c :
  tasks_ok d ts -> xs_commands d !! p = Some c -> xc_task c = None ->
  xs_commands d' = delete p (xs_commands d) -> xs_tasks d' = xs_tasks d -> tasks_ok d' ts.
Proof.
  intros [Hnd Hc Ht] Hp Hnone Hcs Hts. split; [done| |]; rewrite Hcs, Hts.
  - intros t Hin. destruct (Hc t Hin) as (q & c2 & Hq & Hc2 & E). exists q, c2. rewrite lookup_delete_ne; [done|].
    intros <-. congruence.
  - intros q c2 t. rewrite lookup_delete_Some. intros [_ Hc2]. by apply Ht.
Qed.

Lemma channels_ok_delete d d' p : channels_ok d -> xs_commands d' = delete p (xs_commands d) -> channels_ok d'.
Proof. intros Hc Hcs q c t. rewrite Hcs, lookup_delete_Some. intros [_ ?]. by apply (Hc q). Qed.

(** A command without a task that holds nothing is removed without a trace. *)
Lemma destroy_run w m refs ts p c l :
  held_ok w m refs ts -> xs_commands (data_of w) !! p = Some c -> m !! p = Some l -> xc_task c = None -> held_refs l = [] ->
  exists w', destroy_held_command (Some p) w = Some (ERROR_NONE, w') /\ held_ok w' (delete p m) refs ts /\
    (willing w -> willing w') /\ xs_calls (data_of w') = xs_calls (data_of w) /\ xs_tasks (data_of w') = xs_tasks (data_of w) /\
    xs_commands (data_of w') = delete p (xs_commands (data_of w)) /\
    forall q, xs_items (data_of w') !! q = if decide (q ∈ l.*1) then None else xs_items (data_of w) !! q.
Proof.
  intros Hok Hc Hl Ht Hn. unfold destroy_held_command. erewrite bind_eq by by apply load_command_eq.
  destruct (do_list _ _ _ (ho_data _ _ _ _ Hok) p c l Hc Hl) as [Hli Hv].
  assert (exists items, (match xc_entries c with
      | Some list => on_entries (destroy_list (Z.to_nat (list_size list)) list)
      | None => mret tt
      end) w = Some (tt, with_data (set_items items (data_of w)) (cs_env (w_channels w)) w) /\
    forall q, items !! q = if decide (q ∈ l.*1) then None else xs_items (data_of w) !! q) as (items & E & Hi).
  { destruct (xc_entries c) as [list|]; simpl in Hli.
    - pose proof (represents_items _ _ (cs_env (w_channels w)) _ _ Hli) as Hr.
      unfold destroy_list. rewrite (rep_head _ _ _ Hr), (rep_size _ _ _ Hr), Nat2Z.id.
      destruct (run_inv _ _ _ (destroy_loop_spec l (entries_heap w) None (length l) (rep_seg _ _ _ Hr) (rep_nodup _ _ _ Hr) ltac:(done)))
        as ([] & h & E & He & Hnone & Hf).
      exists (h_items h). split; [rewrite (on_entries_eq _ _ _ _ E); by rewrite He|].
      intros q. case_decide as Hq; [by apply Hnone|by apply Hf].
    - subst l. exists (xs_items (data_of w)). split; [by destruct w as [? [] ? [? ? ? []]]|]. intros q.
      rewrite decide_False by apply not_elem_of_nil. done. }
  erewrite bind_eq by exact E. erewrite bind_eq by reflexivity. eexists. split; [reflexivity|].
  split; [|split; [by intros []|by split_and!]].
  match goal with |- held_ok ?w' _ _ _ => change w' with (with_data (set_commands (delete p (xs_commands (data_of w))) (set_items items (data_of w))) (cs_env (w_channels w)) w) end.
  apply (held_ok_data _ _ w m _ refs); [done| | |].
  - eapply (data_ok_delete _ _ m refs p l); [apply (ho_data _ _ _ _ Hok)|done..| |done].
    intros q Hq. simpl. by rewrite Hi, decide_False.
  - by eapply tasks_ok_delete; [apply (ho_tasks _ _ _ _ Hok)|exact Hc|exact Ht|..].
  - by eapply channels_ok_delete; [apply (ho_channels _ _ _ _ Hok)|].
Qed.

(** ** The end of a termination *)

Lemma close_run w m refs ts p c :
  held_ok w m refs ts -> xs_commands (data_of w) !! p = Some c -> xc_task c = None -> addressable (xc_channel_id c) = true ->
  exists w', close_command p w = Some (ERROR_NONE, w') /\ held_ok w' m refs ts /\ (willing w -> willing w') /\
    data_of w' = set_commands (<[p := set_channel_id BAD_CHANNEL_ID c]> (xs_commands (data_of w))) (data_of w) /\
    (forall l ch, registered (w_channels w) (xc_channel_id c) = Some l -> cs_heap (w_channels w) !! l = Some ch ->
       cs_heap (w_channels w') !! l = Some (set_ch_destruction_requested ch)).
Proof.
  intros Hok Hc Ht Ha. unfold close_command. erewrite bind_eq by by apply load_command_eq. cbv zeta.
  erewrite bind_eq by by apply (update_command_eq _ _ c).
  set (w1 := with_data _ _ w).
  assert (held_ok w1 m refs ts) as Hok1.
  { apply (held_ok_data _ _ w m _ refs); [done|by eapply data_ok_object; [apply (ho_data _ _ _ _ Hok)|exact Hc|]| |].
    - by eapply tasks_ok_update; [apply (ho_tasks _ _ _ _ Hok)|exact Hc|..].
    - eapply channels_ok_update; [apply (ho_channels _ _ _ _ Hok)|exact Hc|reflexivity|by left]. }
  destruct (request_destruction_run w1 (xc_channel_id c) (ho_world _ _ _ _ Hok1) Ha) as (w2 & E2 & Hw2 & Hq2 & Hch).
  erewrite bind_eq by exact E2. exists w2. split; [done|]. split; [by eapply held_ok_quiet|].
  split; [intros []; by apply (willing_quiet _ _ Hq2)|]. split; [|exact Hch]. unfold data_of at 1. by rewrite (proj1 Hq2).
Qed.

(** ** Termination *)

(** No entry is new or becomes held. *)
Definition kept_entries (l l' : cells) : Prop :=
  (forall r, r ∈ (en_xp_ref <$> entries_of l') -> r ∈ (en_xp_ref <$> entries_of l)) /\ (held_refs l = [] -> held_refs l' = []).

Lemma kept_entries_refl l : kept_entries l l.
Proof. by split. Qed.

Lemma held_refs_cons i e (l : cells) : held_refs ((i, Some e) :: l) = (if en_held e then [en_xp_ref e] else []) ++ held_refs l.
Proof. unfold held_refs, held_entries, entries_of. simpl. rewrite filter_cons. by destruct (en_held e). Qed.

Lemma kept_cons i e (l l' : cells) : kept_entries l l' -> kept_entries ((i, Some e) :: l) ((i, Some e) :: l').
Proof.
  intros [Hr Hh]. split.
  - intros r. change (r ∈ en_xp_ref e :: (en_xp_ref <$> entries_of l') -> r ∈ en_xp_ref e :: (en_xp_ref <$> entries_of l)).
    rewrite !elem_of_cons. intros [?|?]; auto.
  - rewrite !held_refs_cons. destruct (en_held e); [done|exact Hh].
Qed.

Lemma concerns_all es : concerns false es = en_xp_ref <$> es.
Proof. unfold concerns. f_equal. induction es as [|e es IH]; [done|]. rewrite filter_cons_True by done. by f_equal. Qed.

Lemma held_all_held es : held_entries (set_held true <$> es) = en_xp_ref <$> es.
Proof.
  unfold held_entries. induction es as [|e es IH]; [done|]. rewrite fmap_cons, filter_cons_True by done.
  rewrite !fmap_cons. f_equal. exact IH.
Qed.

Lemma item_between (items : gmap loc (list_item_t xp_entry)) e list (l1 l2 : cells) i v :
  represents (mkHeap items e) list (l1 ++ (i, v) :: l2) -> items !! i = Some (mkItem v (final None l1) (first l2 None)).
Proof. intros Hr. pose proof (rep_seg _ _ _ Hr) as [_ [Hi _]]%seg_app. exact Hi. Qed.

Lemma app_between {A} (l1 : list A) x l2 : (l1 ++ [x]) ++ l2 = l1 ++ x :: l2.
Proof. by rewrite <-app_assoc. Qed.

(** What a release may do, given the entries of a command: remove or unmark
    entries, and queue calls for those that were held. *)
Definition releases (release : loc -> M W bool) (released : cells -> bool) (all : list xp_entry -> bool) : Prop :=
  forall w m refs ts p c l list,
    held_ok w m refs ts -> xs_commands (data_of w) !! p = Some c -> m !! p = Some l -> xc_entries c = Some list ->
    exists w' c' list' l' refs', release p w = Some (released l', w') /\ held_ok w' (<[p := l']> m) refs' ts /\
      xs_commands (data_of w') = <[p := c']> (xs_commands (data_of w)) /\ c' = set_entries (Some list') c /\
      xs_calls (data_of w') = xs_calls (data_of w) /\ (released l' = true -> held_refs l' = [] /\ all (entries_of l) = true) /\
      kept_entries l l' /\
      (willing w -> willing w' /\ released l' = all (entries_of l) /\ held_refs l' = [] /\ refs' = refs ++ reverse (held_refs l)).

(** A termination ends the task and the channel of a command and queues the
    release of all that it holds; if something fails, the command remains. *)
Lemma terminate_run release released all w m refs ts p c l list :
  releases release released all ->
  held_ok w m refs ts -> xs_commands (data_of w) !! p = Some c -> m !! p = Some l -> xc_entries c = Some list ->
  addressable (xc_channel_id c) = true ->
  exists err w' m' refs' ts', terminate_held_command release (Some p) w = Some (err, w') /\ held_ok w' m' refs' ts' /\
    xs_calls (data_of w') = xs_calls (data_of w) /\ delete p m' = delete p m /\
    delete p (xs_commands (data_of w')) = delete p (xs_commands (data_of w)) /\
    (exists c' l', xs_commands (data_of w') !! p = Some c' /\ m' !! p = Some l' /\ is_Some (xc_entries c') /\
      (kept_entries l l' /\ (xc_task c' = None \/ (c' = c /\ l' = l))) /\ xc_initialized c' = xc_initialized c /\ xc_failed c' = xc_failed c /\ xc_timing c' = xc_timing c /\
      (err = ERROR_NONE -> xc_task c' = None /\ xc_channel_id c' = BAD_CHANNEL_ID /\ held_refs l' = [] /\ all (entries_of l) = true) /\
      (err <> ERROR_NONE -> xc_channel_id c' = xc_channel_id c) /\
      (willing w -> willing w' /\ xc_task c' = None /\ held_refs l' = [] /\ refs' = refs ++ reverse (held_refs l) /\
        err = if all (entries_of l) then ERROR_NONE else ERROR_UNSPECIFIC)).
Proof.
  intros Hrel Hok Hc Hl Hlist Ha. unfold terminate_held_command. erewrite bind_eq by by apply load_command_eq.
  destruct (act_run w (fun st => if is_initial st then CHANNEL_ACTION_ACK_CLOSE else CHANNEL_ACTION_CLOSE) (lit "failed to finish channel")
    (xc_channel_id c) CURRENT_TIME_REFERENCE None (ho_world _ _ _ _ Hok) Ha) as (err0 & w1 & E1 & Hw1 & Hq1).
  unfold finish_channel. erewrite bind_eq by exact E1. pose proof (held_ok_quiet _ _ _ _ _ Hq1 Hw1 Hok) as Hok1.
  assert (data_of w1 = data_of w) as Hd1 by (unfold data_of; by rewrite (proj1 Hq1)).
  pose proof (willing_quiet _ _ Hq1) as Hwi1.
  destruct (unschedule_run w1 m refs ts p c Hok1) as (err & w2 & ts' & E2 & Hok2 & Hd2 & Hwi2); [by rewrite Hd1|].
  erewrite bind_eq by exact E2. rewrite Hd1 in Hd2. destruct (Z.eqb_spec err ERROR_NONE) as [-> |Herr]; red_if.
  2:{ exists err, w2, m, refs, ts'. split; [done|]. split; [done|]. rewrite Hd2. split; [done|]. split; [done|]. split; [done|].
      exists c, l. split; [done|]. split; [done|]. split; [by eexists|]. split; [split; [apply kept_entries_refl|by right]|]. do 3 (split; [done|]). split; [done|]. split; [done|].
      intros Hwi. by destruct (Hwi2 (Hwi1 Hwi)). }
  assert (xs_commands (data_of w2) !! p = Some (set_task None c)) as Hc2 by (rewrite Hd2; simpl; by rewrite lookup_insert_eq).
  destruct (Hrel w2 m refs ts' p (set_task None c) l list Hok2 Hc2 Hl Hlist) as (w3 & c3 & list' & l' & refs' & E3 & Hok3 & Hcs3 & -> & Hcalls3 & Hnone3 & Hkept & Hwi3).
  erewrite bind_eq by exact E3.
  assert (xs_commands (data_of w3) !! p = Some (set_entries (Some list') (set_task None c))) as Hc3 by (rewrite Hcs3; by rewrite lookup_insert_eq).
  assert (delete p (xs_commands (data_of w3)) = delete p (xs_commands (data_of w))) as Hdel.
  { rewrite Hcs3, Hd2. simpl. by rewrite !delete_insert_eq. }
  assert (forall Hwi : willing w, willing w3 /\ released l' = all (entries_of l) /\ held_refs l' = [] /\ refs' = refs ++ reverse (held_refs l)) as Hwi4.
  { intros Hwi. apply Hwi3. by apply Hwi2, Hwi1. }
  assert (xs_calls (data_of w3) = xs_calls (data_of w)) as Hcalls by by rewrite Hcalls3, Hd2.
  destruct (released l') eqn:Hr; red_if.
  - destruct (close_run w3 _ _ _ p _ Hok3 Hc3) as (w4 & E4 & Hok4 & Hwi5 & Hd4 & _); [done|done|].
    exists ERROR_NONE, w4, (<[p := l']> m), refs', ts'. split; [exact E4|]. split; [done|]. rewrite Hd4. simpl.
    split; [done|]. split; [by rewrite delete_insert_eq|]. split; [by rewrite delete_insert_eq|].
    eexists _, l'. rewrite !lookup_insert_eq. split; [done|]. split; [done|]. split; [by eexists|]. split; [split; [exact Hkept|by left]|]. do 3 (split; [done|]). split; [by intros _; destruct (Hnone3 eq_refl); split_and!|]. split; [done|].
    intros Hwi. destruct (Hwi4 Hwi) as (? & <- & ? & ?). by split_and!; auto.
  - exists ERROR_UNSPECIFIC, w3, (<[p := l']> m), refs', ts'. split; [done|]. split; [done|].
    split; [done|]. split; [by rewrite delete_insert_eq|]. split; [done|].
    eexists _, l'. rewrite lookup_insert_eq. split; [exact Hc3|]. split; [done|]. split; [by eexists|]. split; [split; [exact Hkept|by left]|]. do 3 (split; [done|]). split; [done|]. split; [done|].
    intros Hwi. destruct (Hwi4 Hwi) as (? & <- & ? & ?). by split_and!.
Qed.

(** ** What a termination does to the channel *)

(** The session is left alone, and commands keep their channels. *)
Record on_the_side w w' : Prop := mkOnTheSide {
  os_session : session_untouched w w';
  os_channels : forall p c, xs_commands (data_of w) !! p = Some c -> exists c', xs_commands (data_of w') !! p = Some c' /\ xc_channel_id c' = xc_channel_id c;
}.

#[export] Instance on_the_side_preorder : PreOrder on_the_side.
Proof.
  split; [intros w; split; [done|by eauto]|]. intros w1 w2 w3 [Hs1 Hc1] [Hs2 Hc2]. split; [by transitivity w2|].
  intros p c (c2 & Hp2 & E2)%Hc1. destruct (Hc2 p c2 Hp2) as (c3 & ? & ?). exists c3. split; [done|congruence].
Qed.

Lemma on_the_side_zoom {T A} (proj : W -> T) (inj : T -> W -> W) (m : M T A) :
  (forall w t, session_untouched w (inj t w) /\ xs_commands (data_of (inj t w)) = xs_commands (data_of w)) -> respects on_the_side (zoom proj inj m).
Proof.
  intros Ha. apply (respects_zoom _ (fun _ _ => True)); [|apply respects_any]. intros w t _. destruct (Ha w t) as [Hs Hc]. split; [done|]. rewrite Hc. eauto.
Qed.

Lemma on_the_side_entries {A} (m : M (heap xp_entry) A) : respects on_the_side (on_entries m).
Proof. by apply on_the_side_zoom. Qed.
Lemma on_the_side_xpq {A} (m : M xpq A) : respects on_the_side (on_xpq m).
Proof. by apply on_the_side_zoom. Qed.

Lemma on_the_side_beside {A} (m : M W A) : respects beside m -> respects on_the_side m.
Proof.
  intros Hm w a w' E%Hm. split; [by apply beside_session_untouched|]. intros p c. unfold data_of. rewrite (beside_data _ _ E). eauto.
Qed.

Lemma on_the_side_update p (f : xp_command P -> xp_command P) : (forall c, xc_channel_id (f c) = xc_channel_id c) -> respects on_the_side (update_command p f).
Proof.
  intros Hf w [] w' (c & w1 & E & E')%bind_Some. unfold load_command, mbind, M_bind, get, from_ub in E.
  destruct (xs_commands (data_of w) !! p) as [c0|] eqn:Hc; [|done]. injection E as <- <-. injection E' as <-. split; [done|].
  intros q c Hq. simpl. destruct (decide (p = q)) as [<- |Hne].
  - rewrite lookup_insert_eq. exists (f c0). split; [done|]. rewrite Hf. congruence.
  - rewrite lookup_insert_ne by done. eauto.
Qed.

#[local] Hint Resolve on_the_side_entries on_the_side_xpq : respects.

Lemma on_the_side_walk {A} (body : loc -> xp_entry -> A -> M W A) : (forall i e a, respects on_the_side (body i e a)) ->
  forall fuel item a, respects on_the_side (walk_back fuel item body a).
Proof. intros Hb. induction fuel as [|fuel IH]; intros [i|] a; cbn [walk_back]; respects_step; first [apply Hb|apply IH]. Qed.

Lemma on_the_side_unschedule p : respects on_the_side (unschedule_held_command p).
Proof.
  unfold unschedule_held_command, load_command, tasks_fuel. pose proof (on_the_side_beside _ beside_lock) as H1. pose proof (on_the_side_beside _ beside_unlock) as H2.
  pose proof (fun fuel t ph => on_the_side_beside _ (beside_unschedule_task fuel t ph)) as H3. pose proof (fun p t => on_the_side_update p (set_task t) ltac:(done)) as H4. respects_step.
Qed.

Lemma request_destruction_connection id w w' : on_channels (request_channel_destruction id) w = Some (tt, w') -> w_connection w' = w_connection w.
Proof. unfold on_channels, zoom. destruct (request_channel_destruction id (w_channels w)) as [[[] s]|]; [|done]. by intros [= <-]. Qed.

(** A successful termination finishes the channel, sends nothing else, and marks the
    channel for destruction. *)
Lemma terminate_channel release w p c w' : (forall q, respects on_the_side (release q)) ->
  world_ok w -> addressable (xc_channel_id c) = true -> xs_commands (data_of w) !! p = Some c -> terminate_held_command release (Some p) w = Some (ERROR_NONE, w') ->
  exists err w1, finish_channel (xc_channel_id c) CURRENT_TIME_REFERENCE None w = Some (err, w1) /\ w_connection w' = w_connection w1 /\
    forall l, registered (w_channels w) (xc_channel_id c) = Some l -> exists ch, heap_of w' !! l = Some ch /\ ch_destruction_requested ch = true /\
      (closed_anyway err = true -> ch_state ch = CHANNEL_STATE_CLOSED).
Proof.
  intros Hrel Hok Ha Hc. unfold terminate_held_command. erewrite bind_eq by by apply load_command_eq.
  destruct (finish_channel (xc_channel_id c) CURRENT_TIME_REFERENCE None w) as [[err w1]|] eqn:E1; [|by intros (? & ? & E & _)%bind_Some; congruence].
  erewrite bind_eq by exact E1. intros (err2 & w2 & E2 & Hend)%bind_Some. destruct (Z.eqb_spec err2 ERROR_NONE) as [-> |Hne]; cbn [negb] in Hend; [|by injection Hend as ->].
  apply bind_Some in Hend as (released & w3 & E3 & Hend). destruct released; [|by injection Hend]. cbn [negb] in Hend.
  exists err, w1. split; [done|].
  assert (on_the_side w1 w3) as [Hss Hids] by (transitivity w2; [exact (on_the_side_unschedule _ _ _ _ E2)|exact (Hrel _ _ _ _ E3)]).
  destruct (act_run w (fun st => if is_initial st then CHANNEL_ACTION_ACK_CLOSE else CHANNEL_ACTION_CLOSE) (lit "failed to finish channel")
    (xc_channel_id c) CURRENT_TIME_REFERENCE None Hok Ha) as (err' & w1' & E1' & Hok1 & Hq1).
  pose proof (eq_trans (eq_sym E1') E1) as E11. injection E11 as -> ->. clear E1'.
  assert (xs_commands (data_of w1) !! p = Some c) as Hc1 by (unfold data_of; by rewrite (proj1 Hq1)).
  destruct (Hids p c Hc1) as (c3 & Hc3 & Hid). pose proof (session_untouched_world_ok _ _ Hss Hok1) as Hok3.
  unfold close_command in Hend. erewrite bind_eq in Hend by by apply load_command_eq. cbv zeta in Hend. erewrite bind_eq in Hend by by apply (update_command_eq _ _ c3).
  rewrite Hid in Hend. set (w4 := with_data _ _ w3) in Hend. assert (world_ok w4) as Hok4 by (apply (session_untouched_world_ok w3); [by split|done]).
  destruct (request_destruction_run w4 (xc_channel_id c) Hok4 Ha) as (w5 & E5 & _ & _ & Hmark). erewrite bind_eq in Hend by exact E5. injection Hend as <-.
  split; [rewrite (request_destruction_connection _ _ _ E5); apply (ss_connection _ _ Hss)|].
  intros l Hl. destruct (finish_channel_run (xc_channel_id c) CURRENT_TIME_REFERENCE None w l Hok Ha Hl) as (err2 & w2' & ms & E & _ & Hl1 & Hcl).
  pose proof (eq_trans (eq_sym E) E1) as E11. injection E11 as -> ->. destruct (ok_channels _ Hok1 _ _ Hl1) as (ch & Hch & _).
  exists (set_ch_destruction_requested ch). split; [|split; [done|]].
  - apply Hmark; change (w_channels w4) with (mkChannels (cs_heap (w_channels w3)) (cs_table (w_channels w3)) (cs_env (w_channels w3))).
    + rewrite <-Hl1. apply registered_table. simpl. apply (ss_table _ _ Hss).
    + simpl. rewrite (ss_heap _ _ Hss). exact Hch.
  - intros Hca. specialize (Hcl Hca). rewrite (state_of_registered _ _ _ _ Hl1 Hch) in Hcl. by injection Hcl.
Qed.

(** ** Creation *)

Definition new_entry (name : cstr) : xp_entry := mkEntry name false NO_XP_COMMAND.

(** Since [w0] only the command [p], which had no list then, got one: [l]. *)
Record growing w0 w m refs ts p (c : xp_command P) (l : cells) (list : list_t) : Prop := mkGrowing {
  g_ok : held_ok w (<[p := l]> m) refs ts;
  g_commands : xs_commands (data_of w) = <[p := set_entries (Some list) c]> (xs_commands (data_of w0));
  g_calls : xs_calls (data_of w) = xs_calls (data_of w0);
  g_tasks : xs_tasks (data_of w) = xs_tasks (data_of w0);
  g_items : forall q, q ∉ l.*1 -> xs_items (data_of w) !! q = xs_items (data_of w0) !! q;
  g_new : forall q, q ∈ l.*1 -> xs_items (data_of w0) !! q = None;
}.

Lemma growing_quiet w0 w w' m refs ts p c l list :
  quiet w w' -> world_ok w' -> growing w0 w m refs ts p c l list -> growing w0 w' m refs ts p c l list.
Proof.
  intros Hq Hw []. assert (data_of w' = data_of w) as Hd by (unfold data_of; by rewrite (proj1 Hq)).
  split; rewrite ?Hd; try done. by eapply held_ok_quiet.
Qed.

Lemma growing_append w0 w m refs ts p c l list name :
  growing w0 w m refs ts p c l list -> xc_task c = None ->
  exists ok list' w1 w2 l', on_entries (list_append list (Some (new_entry name))) w = Some ((ok, list'), w1) /\
    update_command p (set_entries (Some list')) w1 = Some (tt, w2) /\ growing w0 w2 m refs ts p c l' list' /\
    entries_of l' = entries_of l ++ (if ok : bool then [new_entry name] else []).
Proof.
  intros Hg Ht. destruct Hg as [Hok Hcs Hca Hta Hi Hn].
  assert (xs_commands (data_of w) !! p = Some (set_entries (Some list) c)) as Hc by (rewrite Hcs; apply lookup_insert_eq).
  destruct (command_list w _ refs ts p _ l list Hok Hc) as (_ & Hr & Hv & _); [apply lookup_insert_eq|done|].
  destruct (run_inv _ _ _ (list_append_spec (entries_heap w) list l (Some (new_entry name)) Hr)) as ([ok list'] & h & E & _ & He & Happ).
  assert (exists l', represents h list' l' /\ Forall entry_ok l'.*2 /\ entries_of l' = entries_of l ++ (if ok then [new_entry name] else []) /\
    held_refs l' = held_refs l /\ (forall q, q ∈ l'.*1 -> q ∈ l.*1 \/ xs_items (data_of w) !! q = None) /\
    (forall q, q ∉ l'.*1 -> q ∉ l.*1 /\ h_items h !! q = xs_items (data_of w) !! q) /\
    (forall q, is_Some (xs_items (data_of w) !! q) -> q ∉ l.*1 -> h_items h !! q = xs_items (data_of w) !! q))
    as (l' & Hr' & Hv' & He' & Hh' & Hn' & Hf' & Hs').
  { destruct ok.
    - destruct Happ as (i & Hfresh & Hr' & Hf). exists (l ++ [(i, Some (new_entry name))]). split; [done|]. split.
      { rewrite fmap_app. apply Forall_app. split; [done|]. by repeat constructor; exists (new_entry name). }
      split; [by rewrite entries_of_app|]. split; [unfold held_refs; rewrite entries_of_app, held_entries_app; apply app_nil_r|].
      split; [|split].
      + intros q. rewrite fmap_app, elem_of_app. intros [?|Hq]; [by left|]. apply list_elem_of_singleton in Hq as ->. by right.
      + intros q. rewrite fmap_app, not_elem_of_app. intros [Hq1 Hq2]. split; [done|]. apply Hf.
        apply not_elem_of_cons. split; [|done]. intros ->. apply Hq2. left.
      + intros q [x Hx] Hq. apply Hf. apply not_elem_of_cons. split; [|done]. intros ->. simpl in Hfresh. congruence.
    - destruct Happ as [-> Hi']. simpl in Hi'. exists l. split; [by eapply represents_frame; [exact Hr|intros q _; by rewrite Hi']|].
      split; [done|]. split; [by rewrite app_nil_r|]. split; [done|]. split; [by left|]. by rewrite Hi'. }
  set (d' := set_commands (<[p := set_entries (Some list') c]> (xs_commands (data_of w))) (set_items (h_items h) (data_of w))).
  eexists ok, list', _, (with_data d' (h_env h) w), l'. split; [exact (on_entries_eq _ _ _ _ E)|].
  split; [exact (update_command_eq p (set_entries (Some list')) (set_entries (Some list) c)
    (with_data (set_items (h_items h) (data_of w)) (h_env h) w) Hc)|].
  split; [split|done]; change (data_of (with_data d' (h_env h) w)) with d'; unfold d'; cbn [xs_commands xs_items xs_calls xs_tasks set_commands set_items].
  - rewrite <-(insert_insert_eq m p l' l). apply (held_ok_data _ _ w (<[p := l]> m) _ refs); [done| | |].
    + eapply (data_ok_update _ _ (<[p := l]> m) refs refs p _ (set_entries (Some list') c) l l'); try done.
      * apply (ho_data _ _ _ _ Hok).
      * apply lookup_insert_eq.
      * eapply represents_frame; [exact Hr'|done].
      * destruct (do_queue _ _ _ (ho_data _ _ _ _ Hok)) as [? ? ?]. by split.
      * intros rest. simpl. by rewrite Hh'.
    + by eapply tasks_ok_update; [apply (ho_tasks _ _ _ _ Hok)|exact Hc|..].
    + eapply channels_ok_update; [apply (ho_channels _ _ _ _ Hok)|exact Hc|reflexivity|by left].
  - by rewrite Hcs, insert_insert_eq.
  - done.
  - done.
  - intros q Hq. destruct (Hf' q Hq) as [Hql ->]. by apply Hi.
  - intros q Hq. destruct (decide (q ∈ l.*1)) as [?|Hnl]; [by apply Hn|]. rewrite <-Hi by done. by destruct (Hn' q Hq).
Qed.

Lemma growing_command w0 w m refs ts p c l list : growing w0 w m refs ts p c l list ->
  xs_commands (data_of w) !! p = Some (set_entries (Some list) c) /\ entry_list p w = Some (list, w).
Proof.
  intros Hg. assert (xs_commands (data_of w) !! p = Some (set_entries (Some list) c)) as Hc
    by (rewrite (g_commands _ _ _ _ _ _ _ _ _ Hg); apply lookup_insert_eq).
  split; [done|]. apply (command_list w _ refs ts p _ l list (g_ok _ _ _ _ _ _ _ _ _ Hg) Hc); [apply lookup_insert_eq|done].
Qed.

(** A failure is reported on the channel. *)
Lemma growing_report w0 w m refs ts p c l list id message (err : error_t) :
  growing w0 w m refs ts p c l list -> addressable id = true ->
  exists w', (_ ← report id message; mret (Some err)) w = Some (Some err, w') /\ growing w0 w' m refs ts p c l list.
Proof.
  intros Hg Ha. destruct (report_run w id message (ho_world _ _ _ _ (g_ok _ _ _ _ _ _ _ _ _ Hg)) Ha) as (e & w' & E & Hw & Hq).
  erewrite bind_eq by exact E. exists w'. split; [done|]. by eapply growing_quiet.
Qed.

(** The parameters become entries, in order, up to the first failure. *)
Lemma append_entries_run parameters : forall w0 w m refs ts p c l list id,
  growing w0 w m refs ts p c l list -> xc_task c = None -> addressable id = true ->
  exists r w' l' list' names, append_entries p id parameters w = Some (r, w') /\ growing w0 w' m refs ts p c l' list' /\
    entries_of l' = entries_of l ++ (new_entry <$> names) /\ (forall err, r = Some err -> err <> ERROR_NONE) /\
    (r = None -> unescaped <$> parameters = Some <$> names /\ Forall (fun name => 1 <= strlen name) names).
Proof.
  induction parameters as [|parameter parameters IH]; intros w0 w m refs ts p c l list id Hg Ht Ha.
  { exists None, w, l, list, []. split; [done|]. split; [done|]. by rewrite app_nil_r. }
  cbn [append_entries].
  assert (forall w (message : option cstr) err, growing w0 w m refs ts p c l list -> err <> ERROR_NONE ->
    exists r w' l' list' names, (_ ← report id message; mret (Some err)) w = Some (r, w') /\ growing w0 w' m refs ts p c l' list' /\
      entries_of l' = entries_of l ++ (new_entry <$> names) /\ (forall err, r = Some err -> err <> ERROR_NONE) /\
      (r = None -> unescaped <$> parameter :: parameters = Some <$> names /\ Forall (fun name => 1 <= strlen name) names)) as Hfail.
  { intros w1 message err Hg1 Herr. destruct (growing_report _ _ _ _ _ _ _ _ _ id message err Hg1 Ha) as (w' & E & Hg').
    exists (Some err), w', l, list, []. rewrite app_nil_r. split_and!; try done. by intros ? [= <-]. }
  destruct (held_zmalloc_run 24 w ltac:(done) (ho_world _ _ _ _ (g_ok _ _ _ _ _ _ _ _ _ Hg))) as (ok & w1 & E1 & Hw1 & Hq1).
  erewrite bind_eq by exact E1. pose proof (growing_quiet _ _ _ _ _ _ _ _ _ _ Hq1 Hw1 Hg) as Hg1. destruct ok; red_if; [|by apply Hfail].
  destruct (copy_unescaped_run parameter (cs_env (w_channels w1))) as (name & e & En & Hce & Hname).
  destruct (on_env_run _ w1 _ _ Hw1 En Hce) as (w2 & E2 & Hw2 & Hq2). erewrite bind_eq by exact E2.
  pose proof (growing_quiet _ _ _ _ _ _ _ _ _ _ Hq2 Hw2 Hg1) as Hg2.
  destruct name as [name|]; [|by apply Hfail]. destruct Hname as [Hname|Hname]; [done|].
  destruct (Z.ltb_spec (strlen name) 1) as [Hlen|Hlen]; [by apply Hfail|].
  erewrite bind_eq by apply (growing_command _ _ _ _ _ _ _ _ _ Hg2).
  destruct (growing_append w0 w2 m refs ts p c l list name Hg2 Ht) as (ok & list' & w3 & w4 & l' & E3 & E4 & Hg4 & Hes).
  erewrite bind_eq by exact E3. cbv beta iota. erewrite bind_eq by exact E4. destruct ok; red_if.
  - destruct (IH w0 w4 m refs ts p c l' list' id Hg4 Ht Ha) as (r & w' & l2 & list2 & names & E & Hg' & Hes' & Herr & Hok).
    exists r, w', l2, list2, (name :: names). split; [exact E|]. split; [done|]. split; [by rewrite Hes', Hes, <-app_assoc|].
    split; [done|]. intros Hr. destruct (Hok Hr) as [Hnames Hne]. rewrite !fmap_cons, <-Hname, Hnames. split; [done|]. by constructor.
  - destruct (growing_report _ _ _ _ _ _ _ _ _ id (Some (lit "failed to allocate XP command list item")) ERROR_MEMORY_ALLOCATION Hg4 Ha)
      as (w' & E & Hg'). exists (Some ERROR_MEMORY_ALLOCATION), w', l', list', []. split; [exact E|]. split; [done|].
    rewrite Hes. simpl. split; [done|]. split; [by intros ? [= <-]|done].
Qed.

(** A command that has just been allocated. *)
Record fresh_command w0 m refs ts p (c : xp_command P) : Prop := mkFresh {
  f_ok : held_ok w0 (<[p := []]> m) refs ts;
  f_command : xs_commands (data_of w0) !! p = Some c;
  f_list : xc_entries c = None;
  f_task : xc_task c = None;
}.

(** What remains of a creation that failed on the way: an unscheduled command. *)
Record unfinished w0 w m refs ts p (l : cells) : Prop := mkUnfinished {
  u_ok : held_ok w (<[p := l]> m) refs ts;
  u_command : exists c, xs_commands (data_of w) = <[p := c]> (xs_commands (data_of w0)) /\ xc_task c = None;
  u_held : held_refs l = [];
  u_calls : xs_calls (data_of w) = xs_calls (data_of w0);
  u_tasks : xs_tasks (data_of w) = xs_tasks (data_of w0);
  u_items : forall q, q ∉ l.*1 -> xs_items (data_of w) !! q = xs_items (data_of w0) !! q;
  u_new : forall q, q ∈ l.*1 -> xs_items (data_of w0) !! q = None;
}.

Lemma held_new names : held_entries (new_entry <$> names) = [].
Proof. apply none_held. rewrite Forall_fmap. by apply Forall_forall. Qed.

Lemma growing_unfinished w0 w m refs ts p c l list :
  growing w0 w m refs ts p c l list -> xc_task c = None -> held_refs l = [] -> unfinished w0 w m refs ts p l.
Proof. intros [] ? ?. split; try done. by eexists. Qed.

Lemma fresh_unfinished w0 w m refs ts p c : fresh_command w0 m refs ts p c -> quiet w0 w -> world_ok w -> unfinished w0 w m refs ts p [].
Proof.
  intros [Hok Hc Hl Ht] Hq Hw. assert (data_of w = data_of w0) as Hd by (unfold data_of; by rewrite (proj1 Hq)).
  split; rewrite ?Hd; try done; [by eapply held_ok_quiet| |by intros q Hin%not_elem_of_nil].
  exists c. by rewrite insert_id.
Qed.

Lemma create_entries_run w0 m refs ts p c request :
  fresh_command w0 m refs ts p c -> addressable (req_channel_id request) = true ->
  exists r w' l, create_entries p request w0 = Some (r, w') /\
    match r with
    | Some err => err <> ERROR_NONE /\ unfinished w0 w' m refs ts p l
    | None => exists list names, growing w0 w' m refs ts p c l list /\ entries_of l = new_entry <$> names /\
        unescaped <$> req_parameters request = Some <$> names /\ Forall (fun name => 1 <= strlen name) names
    end.
Proof.
  intros Hf Ha. pose proof Hf as [Hok Hc Hl Ht]. pose proof (ho_world _ _ _ _ Hok) as Hw. unfold create_entries.
  destruct (req_parameters request) as [|parameter parameters] eqn:Hparams.
  { destruct (report_run w0 (req_channel_id request) (Some (lit "at least one command is required")) Hw Ha) as (e & w' & E & Hw' & Hq).
    erewrite bind_eq by exact E. exists (Some ERROR_UNSPECIFIC), w', []. split; [done|]. split; [done|]. by eapply fresh_unfinished. }
  rewrite <-Hparams. clear parameter parameters Hparams. set (o := if alloc_next (cs_env (w_channels w0)) then Some empty_list else None).
  set (w1 := with_data (data_of w0) (alloc_rest (cs_env (w_channels w0))) w0).
  assert (on_entries create_list w0 = Some (o, w1)) as E1.
  { rewrite (on_entries_eq _ _ _ _ (create_list_eq (entries_heap w0))). unfold w1, o. simpl. by destruct w0 as [? [] ? [? ? ? []]]. }
  assert (world_ok w1) as Hw1 by by destruct Hw. assert (quiet w0 w1) as Hq1.
  { split; [by destruct w0 as [? [] ? [? ? ? []]]|]. split; [apply plenty_rest|done]. }
  erewrite bind_eq by exact E1. pose proof (held_ok_quiet _ _ _ _ _ Hq1 Hw1 Hok) as Hok1.
  erewrite bind_eq by (apply (update_command_eq _ _ c); exact Hc). set (w2 := with_data _ _ w1).
  destruct o as [list|] eqn:Elist.
  - assert (list = empty_list) as -> by (unfold o in Elist; destruct (alloc_next _); by simplify_eq).
    assert (growing w0 w2 m refs ts p c [] empty_list) as Hg2.
    { split; try done; [|by intros q Hin%not_elem_of_nil]. rewrite <-(insert_insert_eq m p [] []).
      apply (held_ok_data _ _ w1 (<[p := []]> m) _ refs); [done| | |].
      - eapply (data_ok_update _ _ (<[p := []]> m) refs refs p c _ [] []); try done; [exact (ho_data _ _ _ _ Hok1)|apply lookup_insert_eq|
          by apply represents_empty|by left|apply (do_queue _ _ _ (ho_data _ _ _ _ Hok1))].
      - by eapply tasks_ok_update; [apply (ho_tasks _ _ _ _ Hok1)|exact Hc|..].
      - eapply channels_ok_update; [apply (ho_channels _ _ _ _ Hok1)|exact Hc|reflexivity|by left]. }
    destruct (append_entries_run (req_parameters request) w0 w2 m refs ts p c [] empty_list _ Hg2 Ht Ha)
      as (r & w' & l' & list' & names & E & Hg' & Hes & Herr & Hr).
    exists r, w', l'. split; [exact E|]. destruct r as [err|].
    + split; [by apply Herr|]. eapply growing_unfinished; [exact Hg'|done|]. unfold held_refs. rewrite Hes. apply held_new.
    + exists list', names. destruct (Hr eq_refl). by split_and!.
  - assert (world_ok w2) as Hw2 by by destruct Hw1.
    destruct (report_run w2 (req_channel_id request) (Some (lit "failed to allocate XP command list")) Hw2 Ha) as (e & w' & E & Hw' & Hq).
    erewrite bind_eq by exact E. exists (Some ERROR_MEMORY_ALLOCATION), w', []. split; [done|]. split; [done|].
    assert (w2 = w1) as ->.
    { unfold w2. replace (set_entries None c) with c by (destruct c; simpl in *; by subst).
      change (data_of w1) with (data_of w0). rewrite insert_id by done. unfold w1. by destruct w0 as [? [] ? [? ? ? []]]. }
    eapply fresh_unfinished; [exact Hf|by etransitivity|done].
Qed.

(** A task object that is not scheduled does not matter. *)
Lemma tasks_ok_spare d d' ts t p : tasks_ok d ts -> xs_tasks d !! t = None ->
  xs_commands d' = xs_commands d -> xs_tasks d' = <[t := p]> (xs_tasks d) -> tasks_ok d' ts.
Proof.
  intros [Hnd Hc Ht] Hn Hcs Hts. split; [done| |]; rewrite Hcs, Hts.
  - intros s Hin. destruct (Hc s Hin) as (q & c & Hq & ?). exists q, c. rewrite lookup_insert_ne; [done|]. intros <-. congruence.
  - intros q c s Hq Hs. destruct (Ht q c s Hq Hs) as [? E]. split; [done|]. rewrite lookup_insert_ne; [done|]. intros <-. congruence.
Qed.

Lemma tasks_ok_scheduled d d' ts t p c : tasks_ok d ts -> xs_tasks d !! t = None -> xs_commands d !! p = Some c -> xc_task c = None ->
  xs_commands d' = <[p := set_task (Some t) c]> (xs_commands d) -> xs_tasks d' = <[t := p]> (xs_tasks d) -> tasks_ok d' (ts ++ [t]).
Proof.
  intros [Hnd Hc Ht] Hn Hp Hnone Hcs Hts. assert (t ∉ ts) as Hin by (intros Hin; destruct (Hc t Hin) as (? & ? & ? & ?); congruence).
  split; rewrite ?Hcs, ?Hts.
  - apply NoDup_app. split; [done|]. split; [|apply NoDup_singleton]. by intros s Hs ->%list_elem_of_singleton.
  - intros s [Hs|Hs]%elem_of_app.
    + destruct (Hc s Hs) as (q & c2 & Hq & Hc2 & E). exists q, c2. rewrite lookup_insert_ne by congruence.
      rewrite lookup_insert_ne; [done|]. intros <-. congruence.
    + apply list_elem_of_singleton in Hs as ->. exists p, (set_task (Some t) c). by rewrite !lookup_insert_eq.
  - intros q c2 s. destruct (decide (p = q)) as [<- |Hne].
    + rewrite lookup_insert_eq. intros [= <-] [= <-]. rewrite lookup_insert_eq. split; [|done]. apply elem_of_app. right. left.
    + rewrite lookup_insert_ne by done. intros Hc2 E. destruct (Ht q c2 s Hc2 E) as [? Hs]. split; [apply elem_of_app; by left|].
      rewrite lookup_insert_ne; [done|]. congruence.
Qed.

Lemma schedule_command_run w m refs ts p c id :
  held_ok w m refs ts -> xs_commands (data_of w) !! p = Some c -> xc_task c = None ->
  addressable (xc_channel_id c) = true -> addressable id = true ->
  exists err w' ts', schedule_held_command p id w = Some (err, w') /\ held_ok w' m refs ts' /\
    if err =? ERROR_NONE then
      exists t, ts' = ts ++ [t] /\ xs_tasks (data_of w) !! t = None /\
        data_of w' = set_tasks (<[t := p]> (xs_tasks (data_of w))) (set_commands (<[p := set_task (Some t) c]> (xs_commands (data_of w))) (data_of w))
    else ts' = ts /\ data_of w' = data_of w.
Proof.
  intros Hok Hc Ht Hac Ha. unfold schedule_held_command.
  destruct (held_zmalloc_run 16 w ltac:(done) (ho_world _ _ _ _ Hok)) as (ok & w1 & E1 & Hw1 & Hq1). erewrite bind_eq by exact E1.
  pose proof (held_ok_quiet _ _ _ _ _ Hq1 Hw1 Hok) as Hok1. assert (data_of w1 = data_of w) as Hd1 by (unfold data_of; by rewrite (proj1 Hq1)).
  destruct ok; red_if; [|by exists ERROR_MEMORY_ALLOCATION, w1, ts].
  erewrite bind_eq by reflexivity. rewrite Hd1. set (t := fresh (dom (xs_tasks (data_of w)))).
  assert (xs_tasks (data_of w) !! t = None) as Hfresh by (apply not_elem_of_dom, is_fresh).
  cbv zeta. erewrite bind_eq by reflexivity. set (w2 := set_data _ w1).
  set (d2 := set_tasks (<[t := p]> (xs_tasks (data_of w))) (data_of w)).
  assert (w2 = with_data d2 (cs_env (w_channels w1)) w1) as Ew2 by (unfold w2; rewrite Hd1; by destruct w1 as [? [] ? []]).
  clearbody w2.
  assert (held_ok w2 m refs ts) as Hok2.
  { rewrite Ew2. apply (held_ok_data _ _ w1 m _ refs); [done| | |].
    - destruct (ho_data _ _ _ _ Hok) as [? ? ? ? ?]. by split.
    - by eapply tasks_ok_spare; [apply (ho_tasks _ _ _ _ Hok)|exact Hfresh|..].
    - by eapply channels_ok_same; [|apply (ho_channels _ _ _ _ Hok)]. }
  assert (data_of w2 = d2) as Hd2 by by rewrite Ew2.
  destruct (held_lock_run w2 m refs ts Hok2) as (w3 & E3 & Hok3 & Hd3 & _). erewrite bind_eq by exact E3. rewrite Hd2 in Hd3.
  (* The end of a failure. *)
  assert (forall w4 err, held_ok w4 m refs ts -> data_of w4 = d2 -> err <> ERROR_NONE ->
    exists w', (_ ← report id (Some (lit "failed to schedule task"));
      _ ← update_data (fun x => set_tasks (delete t (xs_tasks x)) x); mret err) w4 = Some (err, w') /\ held_ok w' m refs ts /\ data_of w' = data_of w) as Hfail.
  { intros w4 err Hok4 Hd4 Herr. destruct (report_run w4 id (Some (lit "failed to schedule task")) (ho_world _ _ _ _ Hok4) Ha) as (e & w5 & E5 & Hw5 & Hq5).
    erewrite bind_eq by exact E5. assert (data_of w5 = d2) as Hd5 by (rewrite <-Hd4; unfold data_of; by rewrite (proj1 Hq5)).
    pose proof (held_ok_quiet _ _ _ _ _ Hq5 Hw5 Hok4) as Hok5.
    assert (set_tasks (delete t (xs_tasks d2)) d2 = data_of w) as Hback.
    { unfold d2, set_tasks. cbn. rewrite delete_insert_id by done. by destruct (data_of w). }
    erewrite (bind_eq _ _ _ tt (set_data (data_of w) w5)) by (unfold update_data, modify; by rewrite Hd5, Hback).
    eexists. split; [reflexivity|]. split; [|done].
    assert (set_data (data_of w) w5 = with_data (data_of w) (cs_env (w_channels w5)) w5) as -> by (by destruct w5 as [? [] ? []]).
    apply (held_ok_data _ _ w5 m _ refs); [done|apply (ho_data _ _ _ _ Hok)|apply (ho_tasks _ _ _ _ Hok)|apply (ho_channels _ _ _ _ Hok)]. }
  destruct (Z.eqb_spec (lock_result w2) ERROR_NONE) as [Hl|Hl].
  2:{ erewrite bind_eq by reflexivity. rewrite (proj2 (Z.eqb_neq _ _) Hl). red_if.
      destruct (Hfail w3 (lock_result w2) Hok3 Hd3 Hl) as (w' & E & Hok' & Hd'). exists (lock_result w2), w', ts. split; [exact E|]. split; [done|].
      by rewrite (proj2 (Z.eqb_neq _ _) Hl). }
  destruct (ho_sched _ _ _ _ Hok3) as (ps0 & ps1 & Hsch & Hts).
  assert (ts_destruction_pending (schedule_of w3) = false) as Hpend.
  { change (ts_destruction_pending (x_schedule (w_ext w3)) = false). rewrite (beside_pending _ _ (beside_lock _ _ _ E3)).
    unfold lock_result in Hl. by destruct (ts_destruction_pending (schedule_of w2)) eqn:?. }
  destruct (schedule_task_run w3 [ps0; ps1] HELD_TASK_PHASE ps0 ts t Hsch eq_refl eq_refl Hts Hpend)
    as (err & w4 & ps' & E4 & Hsch4 & _ & _ & Hres).
  pose proof (beside_schedule_task _ _ _ _ _ E4) as Hb4. assert (data_of w4 = d2) as Hd4 by (rewrite <-Hd3; apply (beside_data _ _ Hb4)).
  pose proof (beside_world_ok _ _ Hb4 (ho_world _ _ _ _ Hok3)) as Hw4.
  assert (forall ts', tasks_are ps' ts' -> sched_ok w4 ts') as Hsch' by by exists ps', ps1.
  destruct Hres as [[-> Hts']|[-> ->]].
  - set (d5 := set_commands (<[p := set_task (Some t) c]> (xs_commands d2)) d2).
    eexists ERROR_NONE, _, (ts ++ [t]). split; [|split].
    + erewrite bind_eq.
      2:{ erewrite bind_eq by exact E4. change (ERROR_NONE =? ERROR_NONE) with true. unfold when.
          erewrite bind_eq by (apply (update_command_eq _ _ c); rewrite Hd4; exact Hc). erewrite bind_eq by reflexivity. reflexivity. }
      change (negb (ERROR_NONE =? ERROR_NONE)) with false. red_if. reflexivity.
    + match goal with |- held_ok ?w' _ _ _ => assert (data_of w' = d5) as Hd5 by (change (set_commands (<[p := set_task (Some t) c]> (xs_commands (data_of w4))) (data_of w4) = d5); by rewrite Hd4) end.
      split; rewrite ?Hd5.
      * by destruct Hw4.
      * eapply (data_ok_object d2 m refs p c); [|exact Hc|done]. rewrite <-Hd2. apply (ho_data _ _ _ _ Hok2).
      * by eapply sched_ok_same; [| |apply Hsch'; exact Hts'].
      * by eapply tasks_ok_scheduled; [apply (ho_tasks _ _ _ _ Hok)|exact Hfresh|exact Hc|..].
      * intros q c2 s. unfold d5. cbn. destruct (decide (p = q)) as [<- |Hne]; [by rewrite lookup_insert_eq; intros [= <-]|].
        rewrite lookup_insert_ne by done. apply (ho_channels _ _ _ _ Hok).
    + change (ERROR_NONE =? ERROR_NONE) with true. cbv iota. exists t. split; [done|]. split; [done|].
      change (set_commands (<[p := set_task (Some t) c]> (xs_commands (data_of w4))) (data_of w4) =
        set_tasks (<[t := p]> (xs_tasks (data_of w))) (set_commands (<[p := set_task (Some t) c]> (xs_commands (data_of w))) (data_of w))).
      by rewrite Hd4.
  - assert (held_ok w4 m refs ts) as Hok4.
    { split; rewrite ?Hd4; [done| |by apply Hsch'| |]; rewrite <-Hd2; apply Hok2. }
    destruct (held_unlock_run w4 m refs ts Hok4) as (w5 & E5 & Hok5 & Hd5 & _). rewrite Hd4 in Hd5.
    destruct (Hfail w5 ERROR_UNSPECIFIC Hok5 Hd5 ltac:(done)) as (w' & E & Hok' & Hd').
    exists ERROR_UNSPECIFIC, w', ts. split; [|by split].
    erewrite bind_eq.
    2:{ erewrite bind_eq by exact E4. change (ERROR_UNSPECIFIC =? ERROR_NONE) with false. unfold when.
        erewrite bind_eq by reflexivity. erewrite bind_eq by exact E5. reflexivity. }
    exact E.
Qed.

(** Nothing is left of a creation that failed. *)
Lemma abandon_run w0 w m refs ts p l err : unfinished w0 w m refs ts p l -> m !! p = None ->
  exists err' w', abandon_command p err w = Some ((err', None), w') /\ err' <> ERROR_NONE /\ held_ok w' m refs ts /\
    xs_calls (data_of w') = xs_calls (data_of w0) /\ xs_commands (data_of w') = delete p (xs_commands (data_of w0)) /\
    xs_items (data_of w') = xs_items (data_of w0) /\ xs_tasks (data_of w') = xs_tasks (data_of w0).
Proof.
  intros [Hok (c' & Hcs & Ht) Hh Hca Hta Hi Hn] Hm. unfold abandon_command.
  destruct (destroy_run w _ refs ts p c' l Hok) as (w' & E & Hok' & _ & Hca' & Hta' & Hcs' & Hi');
    [by rewrite Hcs, lookup_insert_eq|by rewrite lookup_insert_eq|done|done|].
  erewrite bind_eq by exact E. eexists _, w'. split; [reflexivity|].
  split; [destruct (Z.eqb_spec err ERROR_NONE); done|].
  rewrite delete_insert_eq, delete_id in Hok' by done. split; [done|]. split; [congruence|].
  split; [by rewrite Hcs', Hcs, delete_insert_eq|]. split; [|congruence].
  apply map_eq. intros q. rewrite Hi'. case_decide as Hq; [by rewrite Hn|by apply Hi].
Qed.

(** The outcome of a creation: the command exists, is scheduled and has an entry
    for every parameter; or nothing is left of it. *)
Lemma populate_run w0 m refs ts p c request :
  fresh_command w0 m refs ts p c -> m !! p = None -> addressable (xc_channel_id c) = true -> addressable (req_channel_id request) = true ->
  exists err ref w', populate_command p request w0 = Some ((err, ref), w') /\ xs_calls (data_of w') = xs_calls (data_of w0) /\
    if err =? ERROR_NONE then
      ref = Some p /\ exists t l list names, held_ok w' (<[p := l]> m) refs (ts ++ [t]) /\
        xs_commands (data_of w') = <[p := set_task (Some t) (set_entries (Some list) c)]> (xs_commands (data_of w0)) /\
        entries_of l = new_entry <$> names /\ unescaped <$> req_parameters request = Some <$> names /\
        Forall (fun name => 1 <= strlen name) names
    else
      ref = None /\ held_ok w' m refs ts /\ xs_commands (data_of w') = delete p (xs_commands (data_of w0)) /\
      xs_items (data_of w') = xs_items (data_of w0) /\ xs_tasks (data_of w') = xs_tasks (data_of w0).
Proof.
  intros Hf Hm Hac Ha. unfold populate_command.
  assert (forall w l err, unfinished w0 w m refs ts p l -> err <> ERROR_NONE ->
    exists err' w', abandon_command p err w = Some ((err', None), w') /\ err' <> ERROR_NONE /\ held_ok w' m refs ts /\
      xs_calls (data_of w') = xs_calls (data_of w0) /\ xs_commands (data_of w') = delete p (xs_commands (data_of w0)) /\
      xs_items (data_of w') = xs_items (data_of w0) /\ xs_tasks (data_of w') = xs_tasks (data_of w0)) as Habandon
    by (intros; by eapply abandon_run).
  destruct (create_entries_run w0 m refs ts p c request Hf Ha) as (r & w1 & l & E1 & Hr). erewrite bind_eq by exact E1.
  destruct r as [err|].
  { destruct Hr as [Herr Hu]. destruct (Habandon w1 l err Hu Herr) as (err' & w' & E & Herr' & ? & ? & ? & ? & ?).
    exists err', None, w'. rewrite (proj2 (Z.eqb_neq _ _) Herr'). by split_and!. }
  destruct Hr as (list & names & Hg & Hes & Hnames & Hne). destruct (growing_command _ _ _ _ _ _ _ _ _ Hg) as [Hc1 _].
  pose proof (f_task _ _ _ _ _ _ Hf) as Ht.
  destruct (schedule_command_run w1 _ refs ts p _ (req_channel_id request) (g_ok _ _ _ _ _ _ _ _ _ Hg) Hc1 Ht Hac Ha)
    as (err & w2 & ts' & E2 & Hok2 & Hres).
  erewrite bind_eq by exact E2. destruct (Z.eqb_spec err ERROR_NONE) as [-> |Herr]; red_if.
  - destruct Hres as (t & -> & _ & Hd2). exists ERROR_NONE, (Some p), w2. split; [done|]. rewrite Hd2. simpl.
    split; [apply (g_calls _ _ _ _ _ _ _ _ _ Hg)|]. split; [done|]. exists t, l, list, names. split; [done|].
    split; [by rewrite (g_commands _ _ _ _ _ _ _ _ _ Hg), insert_insert_eq|]. by split_and!.
  - destruct Hres as [-> Hd2]. assert (held_refs l = []) as Hh by (unfold held_refs; rewrite Hes; apply held_new).
    assert (unfinished w0 w2 m refs ts p l) as Hu.
    { pose proof (growing_unfinished _ _ _ _ _ _ _ _ _ Hg Ht Hh) as []. by split; rewrite ?Hd2. }
    destruct (Habandon w2 l err Hu Herr) as (err' & w' & E & Herr' & ? & ? & ? & ? & ?).
    exists err', None, w'. rewrite (proj2 (Z.eqb_neq _ _) Herr'). by split_and!.
Qed.

(** A new command object. *)
Lemma alloc_command_run w m refs ts id timing : held_ok w m refs ts ->
  exists r w', alloc_command id timing w = Some (r, w') /\ xs_calls (data_of w') = xs_calls (data_of w) /\
    match r with
    | None => held_ok w' m refs ts /\ data_of w' = data_of w
    | Some p => m !! p = None /\ xs_commands (data_of w) !! p = None /\
        fresh_command w' m refs ts p (mkXpCommand id None false false None timing) /\
        data_of w' = set_commands (<[p := mkXpCommand id None false false None timing]> (xs_commands (data_of w))) (data_of w)
    end.
Proof.
  intros Hok. unfold alloc_command.
  destruct (held_zmalloc_run 72 w ltac:(done) (ho_world _ _ _ _ Hok)) as (ok & w1 & E1 & Hw1 & Hq1). erewrite bind_eq by exact E1.
  pose proof (held_ok_quiet _ _ _ _ _ Hq1 Hw1 Hok) as Hok1. assert (data_of w1 = data_of w) as Hd1 by (unfold data_of; by rewrite (proj1 Hq1)).
  destruct ok; red_if; [|by eexists None, w1; rewrite Hd1].
  erewrite bind_eq by reflexivity. cbv zeta. set (p := fresh _). set (c := mkXpCommand _ _ _ _ _ _).
  assert (xs_commands (data_of w1) !! p = None) as Hp by (apply not_elem_of_dom, is_fresh).
  assert (m !! p = None) as Hm.
  { apply eq_None_not_Some. intros Hs%(do_dom _ _ _ (ho_data _ _ _ _ Hok1)). destruct Hs as [? E]. by rewrite Hp in E. }
  set (d2 := set_commands (<[p := c]> (xs_commands (data_of w1))) (data_of w1)).
  erewrite (bind_eq _ _ _ tt (with_data d2 (cs_env (w_channels w1)) w1)) by (by destruct w1 as [? [] ? []]).
  eexists (Some p), _. split; [reflexivity|]. rewrite <-Hd1. split; [done|]. split; [done|]. split; [done|]. split; [|done].
  split; [|apply lookup_insert_eq|done|done]. apply (held_ok_data _ _ w1 m _ refs); [done| | |].
  - by eapply (data_ok_alloc (data_of w1) d2 m refs p c); [apply (ho_data _ _ _ _ Hok1)|..].
  - destruct (ho_tasks _ _ _ _ Hok1) as [Hnd Hc Ht]. split; [done| |]; cbn.
    + intros t Hin. destruct (Hc t Hin) as (q & c2 & Hq & Hc2 & ?). exists q, c2. rewrite lookup_insert_ne; [done|]. intros <-. congruence.
    + intros q c2 t. destruct (decide (p = q)) as [<- |Hne]; [by rewrite lookup_insert_eq; intros [= <-]|].
      rewrite lookup_insert_ne by done. apply Ht.
  - intros q c2 t. cbn. destruct (decide (p = q)) as [<- |Hne]; [by rewrite lookup_insert_eq; intros [= <-]|].
    rewrite lookup_insert_ne by done. apply (ho_channels _ _ _ _ Hok1).
Qed.
End Lifecycle.
