(* ===== verification/HeldSystem.v ===== *)
(** A plugin with commands that hold X-Plane commands: requests create and
    terminate them, the flight loop runs their tasks and flushes the queue, and
    the server destroys them, in any order; meanwhile messages are sent.

    A command is what the class [HeldCommand] says; [Cmhd] and [Cmtr] are. *)

From S2P Require Import Prelude CLib Utils Hashmap Channels Requests Lists Prealloc TaskSchedule Network Command Session Server ServerCommands Beside XPQueue HeldCommands HeldInvariant HeldLifecycle.

(** * Flushing the queue *)

Section Flush.
Context {C : Type} `{ConnectionLaws C} {P : Type}.
Implicit Types (w : world C (ext (xp_state P))) (m : gmap loc cells) (ts : list loc).

Lemma flush_run w m refs ts : held_ok w m refs ts ->
  exists err w', on_xpq flush_xpqueue w = Some (err, w') /\
    held_ok w' m (if err =? ERROR_NONE then [] else refs) ts /\
    xs_calls (data_of w') = xs_calls (data_of w) ++ (if err =? ERROR_NONE then XPLMCommandEnd <$> refs else []) /\
    xs_commands (data_of w') = xs_commands (data_of w) /\ xs_tasks (data_of w') = xs_tasks (data_of w) /\
    (willing w -> err = ERROR_NONE /\ willing w').
Proof.
  intros Hok. pose proof (ho_data _ _ _ _ Hok) as Hd.
  assert (queues_refs (xpq_of w) refs) as Hq by exact (queues_refs_env _ (cs_env (w_channels w)) _ (do_queue _ _ _ Hd)).
  destruct (flush_xpqueue_run (xpq_of w) refs Hq) as (err & s' & E & Hp & Hres & Ha & Hl & Hsucc).
  set (d' := mkXp (q_queue s') (q_items s') (q_calls s') (xs_commands (data_of w)) (xs_items (data_of w)) (xs_tasks (data_of w))).
  exists err, (with_data d' (q_env s') w). split; [unfold on_xpq, zoom; by rewrite E|].
  assert (q_calls s' = xs_calls (data_of w) ++ (if err =? ERROR_NONE then XPLMCommandEnd <$> refs else []) /\
    queues_refs s' (if err =? ERROR_NONE then [] else refs)) as [Hcalls Hq'].
  { destruct (err =? ERROR_NONE); [done|]. by rewrite app_nil_r. }
  split; [|split; [exact Hcalls|split; [done|split; [done|]]]].
  - apply (held_ok_data _ _ w m _ refs); [done| |by eapply tasks_ok_same; [| |apply (ho_tasks _ _ _ _ Hok)]|
      by eapply channels_ok_same; [|apply (ho_channels _ _ _ _ Hok)]].
    destruct Hd as [? Hli ? ? Hb]. split; try done.
    + apply (queues_refs_env _ calm) in Hq'. by destruct s'.
    + change (xs_calls d') with (q_calls s'). rewrite Hcalls, begun_app, ended_app.
      destruct (err =? ERROR_NONE); [rewrite begun_ends, ended_ends|]; simpl; rewrite !app_nil_r; [balance|done].
  - intros []. split; [by apply Hsucc|]. split; simpl; [|by apply Hl|done|by rewrite Hp].
    unfold plenty in *. by rewrite Ha.
Qed.
End Flush.

(** * Commands *)

Record held_command (C P : Type) := mkHeldCommand {
  hc_create : request_t -> command_config_t -> M (world C (ext (xp_state P))) (error_t * option loc);
  hc_terminate : option loc -> M (world C (ext (xp_state P))) error_t;
  hc_process : loc -> Z -> M (world C (ext (xp_state P))) unit;
}.
Arguments hc_create {C P}.
Arguments hc_terminate {C P}.
Arguments hc_process {C P}.

(** The invariant of a program whose commands satisfy [own]. *)
Record inv {C} `{ConnectionLaws C} {P} (own : xp_command P -> list xp_entry -> Prop)
    (w : world C (ext (xp_state P))) (m : gmap loc cells) (refs : list Z) (ts : list loc) : Prop := mkInv {
  inv_held : held_ok w m refs ts;
  inv_own : forall p c l, xs_commands (data_of w) !! p = Some c -> m !! p = Some l ->
    is_Some (xc_entries c) /\ own c (entries_of l);
}.

(** What a command promises: it keeps the invariant, and [own] for its objects. *)
Class HeldCommand {C} `{ConnectionLaws C} {P} (hc : held_command C P) (own : xp_command P -> list xp_entry -> Prop) : Prop := {
  hc_create_ok w m refs ts request config :
    inv own w m refs ts -> addressable (req_channel_id request) = true ->
    exists r w' m' ts', hc_create hc request config w = Some (r, w') /\ inv own w' m' refs ts';
  hc_terminate_ok w m refs ts p c :
    inv own w m refs ts -> xs_commands (data_of w) !! p = Some c -> addressable (xc_channel_id c) = true ->
    exists err w' m' refs' ts', hc_terminate hc (Some p) w = Some (err, w') /\ inv own w' m' refs' ts';
  hc_process_ok w m refs ts t p c phase :
    inv own w m refs ts -> xs_tasks (data_of w) !! t = Some p -> xs_commands (data_of w) !! p = Some c -> xc_task c = Some t ->
    exists w' m' refs' ts', hc_process hc t phase w = Some (tt, w') /\ inv own w' m' refs' ts';
}.

(** * Keeping the invariant *)

Section Invariant.
Context {C : Type} `{ConnectionLaws C} {P : Type} (own : xp_command P -> list xp_entry -> Prop).
Implicit Types (w : world C (ext (xp_state P))) (m : gmap loc cells) (ts : list loc).

Lemma inv_quiet w w' m refs ts : quiet w w' -> world_ok w' -> inv own w m refs ts -> inv own w' m refs ts.
Proof. intros Hq Hw [Hok Hown]. split; [by eapply held_ok_quiet|]. unfold data_of. by rewrite (proj1 Hq). Qed.

(** Only command [p] changes, and its new state satisfies [own]. *)
Lemma inv_update w w' m m' refs refs' ts ts' p :
  inv own w m refs ts -> held_ok w' m' refs' ts' -> delete p m' = delete p m ->
  delete p (xs_commands (data_of w')) = delete p (xs_commands (data_of w)) ->
  (forall c l, xs_commands (data_of w') !! p = Some c -> m' !! p = Some l -> is_Some (xc_entries c) /\ own c (entries_of l)) ->
  inv own w' m' refs' ts'.
Proof.
  intros [_ Hown] Hok' Hm Hcs Hp. split; [done|]. intros q c l Hc Hl. destruct (decide (p = q)) as [<- |Hne]; [by apply Hp|].
  apply (Hown q c l); [rewrite <-(lookup_delete_ne _ p q Hne), <-Hcs|rewrite <-(lookup_delete_ne _ p q Hne), <-Hm]; by rewrite lookup_delete_ne.
Qed.

Lemma inv_remove w w' m refs ts ts' p :
  inv own w m refs ts -> held_ok w' (delete p m) refs ts' -> xs_commands (data_of w') = delete p (xs_commands (data_of w)) ->
  inv own w' (delete p m) refs ts'.
Proof. intros [_ Hown] Hok' Hcs. split; [done|]. intros q c l. rewrite Hcs, !lookup_delete_Some. intros [_ ?] [_ ?]. eauto. Qed.
End Invariant.

(** * The system *)

Section System.
Context {C : Type} `{ConnectionLaws C} {P : Type} (hc : held_command C P) (own : xp_command P -> list xp_entry -> Prop).
Context `{!HeldCommand hc own}.
Abbreviation W := (world C (ext (xp_state P))).
Implicit Types (w : W) (m : gmap loc cells) (ts : list loc).

Inductive action :=
  | Create (request : request_t) (config : command_config_t)
  | Process (task : loc) (phase : Z)
  | Terminate (command_ref : loc)
  | Destroy (command_ref : loc)
  | Flush.

(** What the rest of the plugin guarantees: requests come from the parser, the
    schedule runs the tasks of commands, a command is terminated only while it has
    a channel, and destroyed only once it is done: it has no task and holds nothing. The
    server does that while sessions are running; but when it destroys a session, it
    destroys a command even if its termination has just failed, which is not covered
    here and goes wrong (see [Cmhd.destroyed_while_scheduled]). *)
Definition enabled w (a : action) : Prop :=
  match a with
  | Create request _ => addressable (req_channel_id request) = true
  | Process t _ => exists p c, xs_tasks (data_of w) !! t = Some p /\ xs_commands (data_of w) !! p = Some c /\ xc_task c = Some t
  | Terminate p => exists c, xs_commands (data_of w) !! p = Some c /\ addressable (xc_channel_id c) = true
  | Destroy p => exists c list l, xs_commands (data_of w) !! p = Some c /\ xc_task c = None /\ xc_entries c = Some list /\
      represents (entries_heap w) list l /\ held_refs l = []
  | Flush => True
  end.

Definition perform (a : action) : M W unit :=
  match a with
  | Create request config => _ ← hc_create hc request config; mret tt
  | Process t phase => hc_process hc t phase
  | Terminate p => _ ← hc_terminate hc (Some p); mret tt
  | Destroy p => _ ← destroy_held_command (Some p); mret tt
  | Flush => _ ← on_xpq flush_xpqueue; mret tt
  end.

Inductive step : W -> W -> Prop :=
  | step_action w a w' : enabled w a -> perform a w = Some (tt, w') -> step w w'
  | step_quiet w w' : quiet w w' -> world_ok w' -> step w w'.

(** The sequence a list stands for is unique. *)
Lemma seg_unique {V} `{EqDecision V} (h : gmap loc (list_item_t V)) prev l1 l2 :
  seg h prev l1 None -> seg h prev l2 None -> first l1 None = first l2 None -> l1 = l2.
Proof.
  revert prev l2. induction l1 as [|[p v] l1 IH]; intros prev [|[q u] l2]; simpl; try done.
  intros [H1 Hs1] [H2 Hs2] [= <-]. rewrite H1 in H2. injection H2 as <- Hf. f_equal. by eapply IH.
Qed.

(** The entries of a command are the ones of its cells. *)
Lemma entries_known w m refs ts p c list l :
  inv own w m refs ts -> xs_commands (data_of w) !! p = Some c -> xc_entries c = Some list ->
  represents (entries_heap w) list l -> m !! p = Some l.
Proof.
  intros Hi Hc Hlist Hr. destruct (data_cells _ _ _ _ _ (ho_data _ _ _ _ (inv_held _ _ _ _ _ Hi)) Hc) as [l' Hl'].
  destruct (do_list _ _ _ (ho_data _ _ _ _ (inv_held _ _ _ _ _ Hi)) p c l' Hc Hl') as [Hli _]. rewrite Hlist in Hli. simpl in Hli.
  rewrite Hl'. f_equal. eapply (seg_unique (xs_items (data_of w)) None); [exact (rep_seg _ _ _ Hli)|exact (rep_seg _ _ _ Hr)|].
  by rewrite <-(rep_head _ _ _ Hli), <-(rep_head _ _ _ Hr).
Qed.

Lemma perform_ok w m refs ts a :
  inv own w m refs ts -> enabled w a ->
  exists w' m' refs' ts', perform a w = Some (tt, w') /\ inv own w' m' refs' ts'.
Proof.
  intros Hi He. destruct a as [request config|t phase|p|p|]; simpl in *.
  - destruct (hc_create_ok w m refs ts request config Hi He) as (r & w' & m' & ts' & E & Hi'). erewrite bind_eq by exact E. by eexists _, _, _, _.
  - destruct He as (p & c & Ht & Hc & Htask). destruct (hc_process_ok w m refs ts t p c phase Hi Ht Hc Htask) as (w' & m' & refs' & ts' & E & Hi').
    by eexists _, _, _, _.
  - destruct He as (c & Hc & Ha). destruct (hc_terminate_ok w m refs ts p c Hi Hc Ha) as (err & w' & m' & refs' & ts' & E & Hi').
    erewrite bind_eq by exact E. by eexists _, _, _, _.
  - destruct He as (c & list & l & Hc & Ht & Hlist & Hr & Hh). pose proof (entries_known w m refs ts p c list l Hi Hc Hlist Hr) as Hl.
    destruct (destroy_run w m refs ts p c l (inv_held _ _ _ _ _ Hi) Hc Hl Ht Hh) as (w' & E & Hok' & _ & _ & _ & Hcs & _).
    erewrite bind_eq by exact E. eexists _, _, _, _. split; [done|]. by eapply inv_remove.
  - destruct (flush_run w m refs ts (inv_held _ _ _ _ _ Hi)) as (err & w' & E & Hok' & _ & Hcs & _). erewrite bind_eq by exact E.
    eexists _, _, _, _. split; [done|]. split; [exact Hok'|]. rewrite Hcs. apply Hi.
Qed.

Lemma step_inv w w' m refs ts : inv own w m refs ts -> step w w' -> exists m' refs' ts', inv own w' m' refs' ts'.
Proof.
  intros Hi Hs. destruct Hs as [w a w2 He E|w w2 Hq Hw].
  - destruct (perform_ok _ _ _ _ _ Hi He) as (w3 & m' & refs' & ts' & E' & Hi'). rewrite E in E'. injection E' as <-. by eexists _, _, _.
  - eexists _, _, _. by eapply inv_quiet.
Qed.

Lemma steps_inv w w' m refs ts : rtc step w w' -> inv own w m refs ts -> exists m' refs' ts', inv own w' m' refs' ts'.
Proof.
  intros Hs. revert m refs ts. induction Hs as [w|w1 w2 w3 H1 _ IH]; intros m refs ts Hi; [by eexists _, _, _|].
  destruct (step_inv _ _ _ _ _ Hi H1) as (m' & refs' & ts' & Hi'). by eapply IH.
Qed.

(** The plugin after its start: no command, nothing queued or scheduled. *)
Record started w : Prop := mkStarted {
  st_world : world_ok w;
  st_schedule : schedule_ok w [[]; []];
  st_queue : queues_refs (queue_data (data_of w)) [];
  st_empty : xs_calls (data_of w) = [] /\ xs_commands (data_of w) = ∅ /\ xs_items (data_of w) = ∅ /\ xs_tasks (data_of w) = ∅;
}.

Lemma started_inv w : started w -> inv own w ∅ [] [].
Proof.
  intros [Hw Hs Hq (Hca & Hcs & Hit & Hts)]. split; [split; [done| | | |]|].
  - split; rewrite ?Hcs, ?Hca; try done.
    intros p. rewrite !lookup_empty. by split; intros [? ?].
  - by exists [], [].
  - split; rewrite ?Hcs; [constructor|by intros t ?%not_elem_of_nil|]. intros p c t. by rewrite lookup_empty.
  - intros p c t. by rewrite Hcs, lookup_empty.
  - intros p c l. by rewrite Hcs, lookup_empty.
Qed.

(** C13: X-Plane commands are accounted for, as long as no command is destroyed before it
    has been terminated successfully (as a session that ends would do if the termination
    fails on a lock or an allocation). In every state that a plugin with such commands can
    reach, whatever requests, flight loops, terminations, failures of allocations and
    locks in them, and lost connections there were, for channel IDs that do not start with
    7, 8 or 9: each operation runs without undefined behaviour, where only commands that
    have no task and hold nothing are destroyed, and every [XPLMCommandBegin] that X-Plane
    got is matched by exactly one [XPLMCommandEnd] that it got, that is queued, or that is
    owed for an entry marked as held. *)
Theorem held_commands_accounted w0 w :
  started w0 -> rtc step w0 w ->
  (forall a, enabled w a -> exists w', perform a w = Some (tt, w')) /\
  exists m refs ts, inv own w m refs ts /\
    begun (xs_calls (data_of w)) ≡ₚ ended (xs_calls (data_of w)) ++ refs ++ held_all m.
Proof.
  intros H0' Hs. destruct (steps_inv _ _ _ _ _ Hs (started_inv _ H0')) as (m & refs & ts & Hi). split.
  - intros a He. destruct (perform_ok _ _ _ _ _ Hi He) as (w' & _ & _ & _ & E & _). by exists w'.
  - exists m, refs, ts. split; [done|]. apply (do_balance _ _ _ (ho_data _ _ _ _ (inv_held _ _ _ _ _ Hi))).
Qed.
End System.

(** * A plugin *)

Definition after {W A} (m : M W A) (w : W) : W := match m w with Some (_, w') => w' | None => w end.

Section Scenario.
Context {C : Type} `{ConnectionLaws C} {P : Type} (hc : held_command C P) (own : xp_command P -> list xp_entry -> Prop).
Context `{!HeldCommand hc own}.
Abbreviation W := (world C (ext (xp_state P))).
Implicit Types w : W.

(** [enabled], for all but destructions. *)
Definition enabled_now w (a : action) : bool :=
  match a with
  | Create request _ => addressable (req_channel_id request)
  | Process t _ =>
      match xs_tasks (data_of w) !! t with
      | Some p => match xs_commands (data_of w) !! p with Some c => bool_decide (xc_task c = Some t) | None => false end
      | None => false
      end
  | Terminate p => match xs_commands (data_of w) !! p with Some c => addressable (xc_channel_id c) | None => false end
  | Destroy _ => false
  | Flush => true
  end.

Lemma enabled_now_sound w a : enabled_now w a = true -> enabled w a.
Proof.
  destruct a as [request config|t phase|p|p|]; simpl; try done.
  - destruct (_ !! t) as [p|] eqn:Ht; [|done]. destruct (_ !! p) as [c|] eqn:Hc; [|done]. intros ?%bool_decide_eq_true. by exists p, c.
  - destruct (_ !! p) as [c|] eqn:Hc; [|done]. by exists c.
Qed.

Fixpoint scenario (actions : list action) w : W :=
  match actions with
  | [] => w
  | a :: actions' => scenario actions' (after (perform hc a) w)
  end.

Fixpoint all_enabled (actions : list action) w : bool :=
  match actions with
  | [] => true
  | a :: actions' => enabled_now w a && all_enabled actions' (after (perform hc a) w)
  end.

Lemma scenario_steps actions w m refs ts : inv own w m refs ts -> all_enabled actions w = true -> rtc (step hc) w (scenario actions w).
Proof using Type*.
  revert w m refs ts. induction actions as [|a actions IH]; intros w m refs ts Hi; [constructor|].
  simpl. intros [He Hes]%andb_true_iff. apply enabled_now_sound in He.
  destruct (perform_ok hc own w m refs ts a Hi He) as (w' & m' & refs' & ts' & E & Hi').
  assert (after (perform hc a) w = w') as Ha by (unfold after; by rewrite E). rewrite Ha in Hes |- *.
  apply rtc_l with w'; [by apply (step_action hc w a)|]. by apply (IH w' m' refs' ts').
Qed.
End Scenario.

(** A logged-in session in a plugin that just started, in 2024: its client has
    opened the channel [AAAA]. *)
Definition created (result : option (error_t * option task_schedule_t * pheap loc unit)) :
    task_schedule_t * gmap loc (prealloc_list_item_t loc unit) :=
  match result with
  | Some (_, Some s, h) => (s, ph_items h)
  | _ => (mkSchedule 0 [None; None] false, ∅)
  end.
Definition demo_created := created (create_task_schedule (mkPHeap ∅ [] calm)).

(** It starts with the data [d] of the commands. *)
Definition demo_plugin {Y} (s : task_schedule_t) (items : gmap loc (prealloc_list_item_t loc unit)) (d : Y) : world network_connection_t (ext Y) :=
  mkWorld (w_session demo_world)
    (mkChannels (cs_heap demo_channels) (cs_table demo_channels) (mkEnv [] [] (replicate 40 (Some demo_time)))) new_network_connection
    (mkExt s items [] d).
Definition demo_with {Y} (d : Y) : world network_connection_t (ext Y) := demo_plugin (fst demo_created) (snd demo_created) d.

Lemma demo_plugin_ok {Y} s items l0 l1 (d : Y) :
  queues s = [Some l0; Some l1] -> prep items l0 [] -> prep items l1 [] -> apart l0 l1 ->
  world_ok (demo_plugin s items d) /\ schedule_ok (demo_plugin s items d) [[]; []].
Proof.
  intros Hq Hr0 Hr1 Hap. split.
  - destruct demo_world_ok as [Hc Ht Hch]. split; [exact Hc|exact Ht|exact Hch].
  - assert (queues (schedule_of (demo_plugin s items d)) = [Some l0; Some l1]) as Hq' by exact Hq. clear Hq. rename Hq' into Hq. split.
    + by rewrite Hq.
    + intros [|[|i]] ps; rewrite Hq; intros Hi; try done; injection Hi as <-; [by exists l0|by exists l1].
    + intros i j l l' Hne. rewrite Hq. destruct i as [|[|i]], j as [|[|j]]; simpl; intros Hi Hj; simplify_eq; [done|by apply apart_sym].
Qed.

Lemma demo_with_ok {Y} (d : Y) : world_ok (demo_with d) /\ schedule_ok (demo_with d) [[]; []].
Proof.
  destruct (create_task_schedule_run (mkPHeap ∅ [] calm)) as (err & s & h & E & Hc & Hs).
  destruct (Hc eq_refl eq_refl) as [-> _]. destruct s as [s|]; [|exfalso; clear E; done]. destruct Hs as (_ & _ & _ & l0 & l1 & Hq & Hr0 & Hr1 & Hap).
  pose proof (f_equal created E : demo_created = (s, ph_items h)) as Hd. unfold demo_with. rewrite Hd.
  by apply (demo_plugin_ok _ _ l0 l1).
Qed.

Definition demo_started {P} : world network_connection_t (ext (xp_state P)) :=
  demo_with (mkXp (mkXpqueue false false 0 (mkList 0 None None)) ∅ [] ∅ ∅ ∅).

Lemma demo_started_ok {P} : started (demo_started (P := P)).
Proof.
  destruct (demo_with_ok (mkXp (P := P) (mkXpqueue false false 0 (mkList 0 None None)) ∅ [] ∅ ∅ ∅)) as [Hw Hs]. split; [exact Hw|exact Hs| |done].
  split; [|done|done]. exists []. split; [|done]. split; [done|constructor|done..].
Qed.

(** X-Plane knows all names but [none]. *)
Definition demo_find_command (calls : list xp_call) (name : cstr) : Z := if str_eq name (lit "none") then NO_XP_COMMAND else len name.
