(* ===== verification/Cmhd.v ===== *)
(** The command CMHD ([command_cmhd.c]): holds X-Plane commands until it is
    terminated. *)

From S2P Require Import Prelude CLib Utils Hashmap Channels Requests Lists Prealloc TaskSchedule Network Command Session Server ServerCommands Beside XPQueue HeldCommands HeldInvariant HeldLifecycle HeldSystem.

Definition CMHD_COMMAND_VERSION : Z := 1.
Definition CMHD_TASK_PHASE : Z := HELD_TASK_PHASE.
Definition cmhd_supported_options : list cstr := [].

Section Cmhd.
Context {C : Type} `{Connection C}.
Abbreviation W := (world C (ext (xp_state unit))).
Context (XPLMFindCommand : list xp_call -> cstr -> Z).

Definition cmhd_destroy : option loc -> M W error_t := destroy_held_command.
Definition cmhd_unschedule : loc -> M W error_t := unschedule_held_command.

(** The body of the loop over the entries: an entry whose release is queued is
    deleted. *)
Definition cmhd_release_entry (p i : loc) (entry : xp_entry) (_ : unit) : M W unit :=
  if en_held entry then
    err ← on_xpq (queue_XPLMCommandEnd (en_xp_ref entry));
    if err =? ERROR_NONE then
      _ ← set_entry i (set_held false entry);
      list ← entry_list p;
      list ← on_entries (list_delete_item list i);
      update_command p (set_entries (Some list))
    else mret tt
  else mret tt.

(** From the loop over the entries to the check that none is left. *)
Definition cmhd_release (p : loc) : M W bool :=
  list ← entry_list p;
  _ ← walk_back (Z.to_nat (list_size list)) (list_tail list) (cmhd_release_entry p) tt;
  list ← entry_list p;
  mret (negb (0 <? list_size list)).

Definition cmhd_terminate : option loc -> M W error_t := terminate_held_command cmhd_release.

Definition cmhd_process_flightloop (p : loc) : M W unit :=
  c ← load_command p;
  if xc_failed c || xc_initialized c then mret tt
  else
    found ← find_and_confirm XPLMFindCommand p;
    if negb found then mret tt
    else
      _ ← for_all_xprefs p XPLMCommandBegin true false;
      update_command p set_initialized.

Definition cmhd_process_post (p : loc) : M W unit :=
  c ← load_command p;
  if xc_failed c then _ ← cmhd_terminate (Some p); mret tt
  else if negb (xc_initialized c) then mret tt
  else
    err ← cmhd_unschedule p;
    when (negb (err =? ERROR_NONE)) (update_command p set_failed).

(** The callback of the tasks of CMHD: a task object refers to its command. *)
Definition cmhd_process (task : loc) (phase : Z) : M W unit :=
  w ← get;
  p ← from_ub (xs_tasks (data_of w) !! task);
  if phase =? CMHD_TASK_PHASE then cmhd_process_flightloop p
  else if phase =? TASK_SCHEDULE_POST_PROCESSING then cmhd_process_post p
  else mret tt.

Definition cmhd_create (request : request_t) (config : command_config_t) : M W (error_t * option loc) :=
  let channel_id := req_channel_id request in
  if negb (version config =? CMHD_COMMAND_VERSION) then decline channel_id (lit "unexpected command version")
  else if negb (request_has_only_options (Some request) (Some cmhd_supported_options)) then decline channel_id (lit "unsupported options")
  else
    command ← alloc_command channel_id tt;
    match command with
    | None => mret (ERROR_MEMORY_ALLOCATION, None)
    | Some p => populate_command p request
    end.

Definition cmhd_create_default_config : M W (option command_config_t) := on_env (create_command_config CMHD_COMMAND_VERSION).
Definition cmhd_merge_config (previous_config requested_changes : command_config_t) :=
  merge_featureless_config (C := C) (X := ext (xp_state unit)) CMHD_COMMAND_VERSION requested_changes.

Definition command_cmhd : command_t W :=
  mkCommand (lit "CMHD") cmhd_create cmhd_terminate cmhd_destroy cmhd_create_default_config cmhd_merge_config.
End Cmhd.

(** * Release *)

Section Release.
Context {C : Type} `{ConnectionLaws C}.
Abbreviation W := (world C (ext (xp_state unit))).
Implicit Types (w : W) (m : gmap loc cells) (ts : list loc).

Definition unheld_entries (es : list xp_entry) : list xp_entry := filter (fun e => en_held e = false) es.

(** The loop, from the tail up to [l1]: of the entries behind, [gone], those in
    [l2] are left. *)
Record releasing w0 m refs ts p (c : xp_command unit) (l : cells) w (l1 : cells) : Prop := mkReleasing {
  rl_state : exists gone l2 list refs', l = l1 ++ gone /\ held_ok w (<[p := l1 ++ l2]> m) refs' ts /\
    xs_commands (data_of w) = <[p := set_entries (Some list) c]> (xs_commands (data_of w0)) /\
    kept_entries gone l2 /\ (l2 = [] -> forallb en_held (entries_of gone) = true) /\
    (willing w0 -> willing w /\ refs' = refs ++ reverse (held_refs gone) /\ entries_of l2 = unheld_entries (entries_of gone));
  rl_calls : xs_calls (data_of w) = xs_calls (data_of w0);
}.

(** Deleting an entry that is no longer held. *)
Lemma delete_entry_run w m refs refs' ts p c (l1 l2 : cells) i e list err q qitems en :
  held_ok w (<[p := l1 ++ (i, Some e) :: l2]> m) refs ts ->
  xs_commands (data_of w) !! p = Some c -> xc_entries c = Some list -> en_held e = true ->
  err = ERROR_NONE -> queues_refs (queue_data (set_queue_data q qitems (data_of w))) (refs ++ [en_xp_ref e]) ->
  refs' = refs ++ [en_xp_ref e] ->
  exists list' w',
    (_ ← set_entry i (set_held false e);
     list ← entry_list p;
     list ← on_entries (list_delete_item list i);
     update_command p (set_entries (Some list))) (with_data (set_queue_data q qitems (data_of w)) en w) = Some (tt, w') /\
    held_ok w' (<[p := l1 ++ l2]> m) refs' ts /\ xs_calls (data_of w') = xs_calls (data_of w) /\
    xs_commands (data_of w') = <[p := set_entries (Some list') c]> (xs_commands (data_of w)) /\
    cs_env (w_channels w') = en /\ xs_queue (data_of w') = q /\ x_schedule (w_ext w') = x_schedule (w_ext w).
Proof.
  intros Hok Hc Hlist He -> Hq ->. set (w1 := with_data (set_queue_data q qitems (data_of w)) en w).
  destruct (command_list w _ refs ts p c _ list Hok Hc (lookup_insert_eq _ _ _) Hlist) as (_ & Hr & Hv & _).
  assert (represents (entries_heap w1) list (l1 ++ (i, Some e) :: l2)) as Hr1 by exact (represents_items _ _ en _ _ Hr).
  destruct (set_entry_run w1 list l1 i e l2 (set_held false e) Hr1) as (items2 & E2 & Hr2 & Hf2). erewrite bind_eq by exact E2.
  set (w2 := with_data _ _ w1).
  erewrite bind_eq by (unfold entry_list; erewrite bind_eq by (apply (load_command_eq _ c); exact Hc); unfold from_ub; rewrite Hlist; reflexivity).
  destruct (run_inv _ _ _ (list_delete_item_spec (entries_heap w2) list l1 i _ l2 Hr2)) as (list' & h & E3 & Hr3 & He3 & _ & Hf3).
  erewrite bind_eq by exact (on_entries_eq _ _ _ _ E3). set (w3 := with_data _ _ w2). exists list'.
  set (d4 := set_commands (<[p := set_entries (Some list') c]> (xs_commands (data_of w))) (set_items (h_items h) (set_queue_data q qitems (data_of w)))).
  exists (with_data d4 (h_env h) w). split; [exact (update_command_eq p (set_entries (Some list')) c w3 Hc)|].
  split; [|split; [done|split; [done|split; [exact He3|done]]]].
  rewrite <-(insert_insert_eq m p (l1 ++ l2) (l1 ++ (i, Some e) :: l2)).
  apply (held_ok_data _ _ w (<[p := l1 ++ (i, Some e) :: l2]> m) _ refs); [done| | |].
  - eapply (data_ok_update (data_of w) d4 _ refs _ p c (set_entries (Some list') c) (l1 ++ (i, Some e) :: l2) (l1 ++ l2));
      [apply (ho_data _ _ _ _ Hok)|exact Hc|apply lookup_insert_eq|reflexivity|by eapply represents_frame| | | |exact Hq|].
    + rewrite fmap_app, fmap_cons, Forall_app, Forall_cons in Hv. destruct Hv as (? & _ & ?). rewrite fmap_app. by apply Forall_app.
    + intros r. rewrite !fmap_app, fmap_cons, !elem_of_app, elem_of_cons. tauto.
    + intros r _ Hn. unfold d4. cbn. rewrite Hf3 by (by rewrite fmap_app, fmap_cons in Hn |- *). apply Hf2. intros ->. apply Hn. rewrite fmap_app, fmap_cons. apply elem_of_app. right. left.
    + intros rest. rewrite !held_refs_app, held_refs_cons, He. intros Hb. change (xs_calls d4) with (xs_calls (data_of w)). balance.
  - by eapply tasks_ok_update; [apply (ho_tasks _ _ _ _ Hok)|exact Hc|..].
  - eapply channels_ok_update; [apply (ho_channels _ _ _ _ Hok)|exact Hc|reflexivity|by right].
Qed.

(** One round of the loop. *)
Lemma cmhd_release_entry_run w0 m refs ts p c l w (l1 : cells) i v :
  releasing w0 m refs ts p c l w (l1 ++ [(i, v)]) ->
  exists e next, v = Some e /\ xs_items (data_of w) !! i = Some (mkItem (Some e) (final None l1) next) /\
    exists a w', cmhd_release_entry p i e tt w = Some (a, w') /\ releasing w0 m refs ts p c l w' l1.
Proof.
  intros [(gone & l2 & list & refs' & -> & Hok & Hcs & Hkept & Hall & Hwi) Hcalls].
  rewrite app_between in Hok. assert (xs_commands (data_of w) !! p = Some (set_entries (Some list) c)) as Hc by (rewrite Hcs; apply lookup_insert_eq).
  destruct (command_list w _ refs' ts p _ _ list Hok Hc (lookup_insert_eq _ _ _) eq_refl) as (_ & Hr & Hv & _).
  pose proof (item_between _ _ _ _ _ _ _ Hr) as Hit.
  rewrite fmap_app, fmap_cons, Forall_app, Forall_cons in Hv. destruct Hv as (_ & (e & Ev & Hfound) & _). simpl in Ev. subst v.
  exists e, (first l2 None). split; [done|]. split; [exact Hit|]. unfold cmhd_release_entry.
  assert (forall w', held_ok w' (<[p := l1 ++ (i, Some e) :: l2]> m) refs' ts -> xs_commands (data_of w') = xs_commands (data_of w) ->
    xs_calls (data_of w') = xs_calls (data_of w) -> (willing w0 -> willing w' /\ en_held e = false) ->
    releasing w0 m refs ts p c ((l1 ++ [(i, Some e)]) ++ gone) w' l1) as Hkeep.
  { intros w' Hok' Hcs' Hca' Hwi'. split; [|congruence]. exists ((i, Some e) :: gone), ((i, Some e) :: l2), list, refs'.
    split; [apply app_between|]. split; [done|]. split; [congruence|]. split; [by apply kept_cons|]. split; [done|].
    intros Hw. destruct (Hwi Hw) as (_ & -> & Hl2). destruct (Hwi' Hw) as [? Hh]. split; [done|].
    rewrite held_refs_cons, Hh. split; [done|]. unfold entries_of, unheld_entries in *. simpl. rewrite filter_cons_True by done. by f_equal. }
  destruct (en_held e) eqn:He.
  2:{ exists tt, w. split; [done|]. apply Hkeep; [done..|]. intros Hw. split; [apply (Hwi Hw)|done]. }
  destruct (queue_end_run w refs' (en_xp_ref e) (do_queue _ _ _ (ho_data _ _ _ _ Hok))) as (err & q & qitems & en & E & Hq & Hpend & Hsucc).
  erewrite bind_eq by exact E. destruct (Z.eqb_spec err ERROR_NONE) as [Herr|Herr]; red_if.
  - destruct (delete_entry_run w m refs' _ ts p _ l1 l2 i e list err q qitems en Hok Hc eq_refl He Herr Hq eq_refl)
      as (list' & w' & E' & Hok' & Hca' & Hcs' & Henv & Hq' & Hsc).
    exists tt, w'. split; [exact E'|]. split; [|congruence]. exists ((i, Some e) :: gone), l2, list', (refs' ++ [en_xp_ref e]).
    split; [apply app_between|]. split; [done|]. split; [rewrite Hcs', Hcs; by rewrite insert_insert_eq|]. split; [|split].
    + split; [|by rewrite held_refs_cons, He]. intros r Hr'. right. by apply Hkept.
    + intros Hl2. unfold entries_of. simpl. rewrite He. by apply Hall.
    + intros Hw. destruct (Hwi Hw) as (Hww & -> & Hl2). destruct (Hsucc Hww) as (? & ? & _). split.
      { destruct Hww. split; [by rewrite Henv|by rewrite Henv|by rewrite Hsc|by rewrite Hq', Hpend]. }
      split; [|unfold entries_of, unheld_entries in *; simpl; by rewrite filter_cons_False by congruence].
      rewrite held_refs_cons, He, <-app_assoc. f_equal. simpl. by rewrite reverse_cons.
  - exists tt. eexists. split; [reflexivity|]. apply Hkeep; [|done..|].
    + apply (held_ok_data _ _ w (<[p := l1 ++ (i, Some e) :: l2]> m) _ refs'); [done| | |].
      * destruct (ho_data _ _ _ _ Hok) as [? ? ? ? ?]. by split.
      * by eapply tasks_ok_same; [| |apply (ho_tasks _ _ _ _ Hok)].
      * by eapply channels_ok_same; [|apply (ho_channels _ _ _ _ Hok)].
    + intros Hw. destruct (Hsucc (proj1 (Hwi Hw))) as (_ & _ & Hs). exfalso. auto.
Qed.

Definition all_released (l : cells) : bool := match l with [] => true | _ :: _ => false end.

Lemma unheld_none es : held_entries (unheld_entries es) = [].
Proof. apply none_held, Forall_forall. intros e. unfold unheld_entries. by rewrite list_elem_of_filter; intros [? _]. Qed.

Lemma unheld_all es : unheld_entries es = [] <-> forallb en_held es = true.
Proof.
  induction es as [|e es IH]; [done|]. unfold unheld_entries in *. rewrite filter_cons. simpl. by destruct (en_held e).
Qed.

Lemma cmhd_releases : releases (C := C) (P := unit) cmhd_release all_released (forallb en_held).
Proof.
  intros w m refs ts p c l list Hok Hc Hl Hlist. unfold cmhd_release.
  destruct (command_list w m refs ts p c l list Hok Hc Hl Hlist) as (El & Hr & Hv & _ & Ht & Hn). erewrite bind_eq by exact El. rewrite Ht, Hn.
  destruct (walk_back_run (fun w' (_ : unit) l1 => releasing w m refs ts p c l w' l1) (cmhd_release_entry p)) with (l1 := l) (fuel := length l) (w := w) (a := tt)
    as (a & w' & E & [(gone & l2 & list' & refs' & Hgone & Hok' & Hcs' & Hkept & Hall & Hwi) Hcalls]).
  - intros w1 [] l1 i v. apply cmhd_release_entry_run.
  - split; [|done]. exists [], [], list, refs. rewrite app_nil_r, insert_id by done. split; [done|]. split; [done|].
    split; [replace (set_entries (Some list) c) with c by (destruct c; simpl in *; by subst); by rewrite insert_id|].
    split; [apply kept_entries_refl|]. split; [done|]. by rewrite app_nil_r.
  - done.
  - erewrite bind_eq by exact E. simpl in Hgone, Hok'. subst gone.
    assert (xs_commands (data_of w') !! p = Some (set_entries (Some list') c)) as Hc' by (rewrite Hcs'; apply lookup_insert_eq).
    destruct (command_list w' _ refs' ts p _ _ list' Hok' Hc' (lookup_insert_eq _ _ _) eq_refl) as (El' & Hr' & Hv' & _).
    erewrite bind_eq by exact El'. rewrite (rep_size _ _ _ Hr').
    exists w', (set_entries (Some list') c), list', l2, refs'. split; [|split; [done|split; [done|split; [done|split; [done|split; [|split; [done|]]]]]]].
    + unfold all_released. destruct l2 as [|x l2]; [done|]. cbn [length].
      replace (0 <? Z.of_nat (S (length l2))) with true by (symmetry; apply Z.ltb_lt; lia). done.
    + destruct l2; [|done]. intros _. split; [done|by apply Hall].
    + intros Hw. destruct (Hwi Hw) as (? & ? & Hl2). split; [done|]. split; [|split; [|done]].
      * destruct l2 as [|[i v] l2]; simpl.
        -- symmetry. by apply unheld_all.
        -- symmetry. apply not_true_is_false. intros Hf%unheld_all. rewrite Hf in Hl2.
           simpl in Hv'. apply Forall_cons in Hv' as [(e & -> & _) _]. done.
      * unfold held_refs. rewrite Hl2. apply unheld_none.
Qed.
End Release.

(** * CMHD keeps its promise *)

Section Promise.
Context {C : Type} `{ConnectionLaws C} (XPLMFindCommand : list xp_call -> cstr -> Z).
Abbreviation W := (world C (ext (xp_state unit))).
Implicit Types (w : W) (m : gmap loc cells) (ts : list loc).

(** Nothing is held before the initialization. *)
Definition cmhd_own (c : xp_command unit) (es : list xp_entry) : Prop := xc_initialized c = false -> held_entries es = [].

Definition cmhd_inv w m refs ts : Prop := inv cmhd_own w m refs ts.

(** What the entries become when they are held. *)
Definition cmhd_holding (calls : list xp_call) (es : list xp_entry) : list xp_entry :=
  (fun e => mkEntry (en_name e) true (XPLMFindCommand calls (en_name e))) <$> es.

(** The flight loop holds all X-Plane commands, in order, or none. *)
Lemma cmhd_flightloop_run w m refs ts p c l :
  cmhd_inv w m refs ts -> xs_commands (data_of w) !! p = Some c -> m !! p = Some l -> addressable (xc_channel_id c) = true ->
  exists w' c' l', cmhd_process_flightloop XPLMFindCommand p w = Some (tt, w') /\ held_ok w' (<[p := l']> m) refs ts /\
    xs_commands (data_of w') = <[p := c']> (xs_commands (data_of w)) /\ (willing w -> willing w') /\
    ((xs_calls (data_of w') = xs_calls (data_of w) /\ held_refs l' = held_refs l /\
       (c' = c /\ xc_failed c || xc_initialized c = true \/ c' = set_failed c /\ xc_failed c || xc_initialized c = false)) \/
     (xc_failed c || xc_initialized c = false /\ c' = set_initialized c /\
       Forall (fun e => XPLMFindCommand (xs_calls (data_of w)) (en_name e) <> NO_XP_COMMAND) (entries_of l) /\
       entries_of l' = cmhd_holding (xs_calls (data_of w)) (entries_of l) /\
       xs_calls (data_of w') = xs_calls (data_of w) ++ (XPLMCommandBegin <$> held_refs l'))).
Proof.
  intros [Hok Hown] Hc Hl Ha. unfold cmhd_process_flightloop. erewrite bind_eq by by apply load_command_eq.
  destruct (Hown p c l Hc Hl) as [[list Hlist] Hnone]. unfold cmhd_own in Hnone.
  destruct (xc_failed c || xc_initialized c) eqn:Hdone.
  { exists w, c, l. rewrite !insert_id by done. split; [done|]. split; [done|]. split; [done|]. split; [done|]. left. split; [done|]. split; [done|]. by left. }
  assert (xc_initialized c = false) as Hinit by apply (orb_false_elim _ _ Hdone).
  destruct (find_and_confirm_run XPLMFindCommand w m refs ts p c l list Hok Hc Hl Hlist Ha (Hnone Hinit))
    as (b & w1 & l1 & E1 & Hok1 & Hes1 & Hb & Hw1 & Hca1 & _ & Hcs1). erewrite bind_eq by exact E1. destruct b; red_if.
  2:{ exists w1, (set_failed c), l1. split; [done|]. split; [done|]. split; [done|]. split; [done|]. left. split; [done|]. split; [|by right].
      unfold held_refs. rewrite Hes1, (Hnone Hinit). apply found_entries_none. by apply Hnone. }
  destruct (found_entries_all _ _ _ (Hb eq_refl)) as [Hfound Hall]. rewrite Hfound in Hes1.
  assert (held_refs l1 = []) as Hh1 by (unfold held_refs; rewrite Hes1, <-Hfound; apply found_entries_none; by apply Hnone).
  assert (xs_commands (data_of w1) !! p = Some c) as Hc1 by by rewrite Hcs1.
  destruct (for_all_xprefs_run w1 (<[p := l1]> m) refs ts p c l1 list XPLMCommandBegin true false Hok1 Hc1 (lookup_insert_eq _ _ _) Hlist)
    as (w2 & items & E2 & Hok2 & Hw2 & Hd2).
  { intros _. rewrite Hes1, Forall_fmap. exact Hall. }
  { rewrite begun_begins, ended_begins, Hh1, app_nil_r, concerns_all. unfold held_refs.
    by rewrite map_cells_entries, held_all_held. }
  erewrite bind_eq by exact E2. rewrite insert_insert_eq in Hok2.
  assert (xs_commands (data_of w2) !! p = Some c) as Hc2 by by rewrite Hd2.
  destruct (update_object_run w2 _ _ _ p set_initialized c Hok2 Hc2) as (w3 & E3 & Hok3 & Hd3 & Hw3); [done|].
  exists w3, (set_initialized c), (map_cells (set_held true) l1). split; [exact E3|]. split; [done|].
  rewrite Hd3, Hd2. split; [simpl; by rewrite Hcs1|]. split; [auto|]. right. split; [done|]. split; [done|]. split; [done|].
  rewrite map_cells_entries, Hes1. split; [unfold cmhd_holding; by rewrite <-list_fmap_compose|].
  simpl. rewrite Hca1, concerns_all. unfold held_refs. by rewrite map_cells_entries, held_all_held, Hes1.
Qed.

Definition cmhd_held : held_command C unit := mkHeldCommand C unit cmhd_create cmhd_terminate (cmhd_process XPLMFindCommand).

#[export] Instance cmhd_held_command : HeldCommand cmhd_held cmhd_own.
Proof.
  assert (forall w m refs ts p c, cmhd_inv w m refs ts -> xs_commands (data_of w) !! p = Some c -> addressable (xc_channel_id c) = true ->
    exists err w' m' refs' ts', cmhd_terminate (Some p) w = Some (err, w') /\ cmhd_inv w' m' refs' ts') as Hterm.
  { intros w m refs ts p c Hi Hc Ha. destruct (data_cells _ _ _ _ _ (ho_data _ _ _ _ (inv_held _ _ _ _ _ Hi)) Hc) as [l Hl].
    destruct (inv_own _ _ _ _ _ Hi p c l Hc Hl) as [[list Hlist] Hown].
    destruct (terminate_run cmhd_release all_released (forallb en_held) w m refs ts p c l list cmhd_releases (inv_held _ _ _ _ _ Hi) Hc Hl Hlist Ha)
      as (err & w' & m' & refs' & ts' & E & Hok' & _ & Hm & Hcs & (c' & l' & Hc' & Hl' & Hs' & Hkept & Hinit' & _)).
    exists err, w', m', refs', ts'. split; [exact E|]. eapply inv_update; [exact Hi|exact Hok'|exact Hm|exact Hcs|].
    intros c2 l2 Hc2 Hl2. assert (c2 = c') as -> by congruence. assert (l2 = l') as -> by congruence. split; [done|].
    intros Hinit. apply (proj2 (proj1 Hkept)). apply Hown. congruence. }
  split; cbn [hc_create hc_terminate hc_process cmhd_held].
  - intros w m refs ts request config Hi Ha. unfold cmhd_create.
    assert (forall message, exists r w' m' ts', decline (req_channel_id request) message w = Some (r, w') /\ cmhd_inv w' m' refs ts') as Hdecline.
    { intros message. destruct (report_run w (req_channel_id request) (Some message) (ho_world _ _ _ _ (inv_held _ _ _ _ _ Hi)) Ha) as (e & w' & E & Hw' & Hq).
      unfold decline. erewrite bind_eq by exact E. eexists _, w', m, ts. split; [done|]. by eapply inv_quiet. }
    destruct (negb _); [apply Hdecline|]. destruct (negb _); [apply Hdecline|].
    destruct (alloc_command_run w m refs ts (req_channel_id request) tt (inv_held _ _ _ _ _ Hi)) as (r & w1 & E1 & _ & Hr).
    erewrite bind_eq by exact E1. destruct r as [p|].
    2:{ destruct Hr as [Hok1 Hd1]. eexists _, w1, m, ts. split; [done|]. split; [done|]. rewrite Hd1. apply Hi. }
    destruct Hr as (Hm & Hp & Hf & Hd1). set (c := mkXpCommand _ _ _ _ _ _) in *.
    destruct (populate_run w1 m refs ts p c request Hf Hm Ha Ha) as (err & ref & w2 & E2 & _ & Hres). erewrite E2.
    destruct (err =? ERROR_NONE).
    + destruct Hres as (-> & t & l & list & names & Hok2 & Hcs2 & Hes & _). eexists _, w2, _, _. split; [done|].
      eapply (inv_update cmhd_own w w2 m _ _ _ _ _ p Hi Hok2); [by rewrite delete_insert_eq| |].
      * rewrite Hcs2, Hd1. simpl. by rewrite !delete_insert_eq.
      * intros c2 l2. rewrite Hcs2, !lookup_insert_eq. intros [= <-] [= <-]. split; [by eexists|]. intros _. rewrite Hes. apply held_new.
    + destruct Hres as (-> & Hok2 & Hcs2 & _). eexists _, w2, _, _. split; [done|].
      split; [exact Hok2|]. rewrite Hcs2, Hd1. simpl. rewrite delete_insert_id by done. apply Hi.
  - exact Hterm.
  - intros w m refs ts t p c phase Hi Ht Hc Htask. unfold cmhd_process. erewrite bind_eq by reflexivity.
    erewrite bind_eq by (unfold from_ub; rewrite Ht; reflexivity).
    pose proof (inv_held _ _ _ _ _ Hi) as Hok. pose proof (ho_channels _ _ _ _ Hok p c t Hc Htask) as Ha.
    destruct (data_cells _ _ _ _ _ (ho_data _ _ _ _ Hok) Hc) as [l Hl]. destruct (inv_own _ _ _ _ _ Hi p c l Hc Hl) as [[list Hlist] Hown].
    destruct (phase =? CMHD_TASK_PHASE); [|destruct (phase =? TASK_SCHEDULE_POST_PROCESSING)]; [| |by exists w, m, refs, ts].
    + destruct (cmhd_flightloop_run w m refs ts p c l Hi Hc Hl Ha) as (w' & c' & l' & E & Hok' & Hcs & _ & Hcases).
      eexists w', _, _, _. split; [exact E|]. eapply inv_update; [exact Hi|exact Hok'|by rewrite delete_insert_eq|by rewrite Hcs, delete_insert_eq|].
      intros c2 l2. rewrite Hcs, !lookup_insert_eq. intros [= <-] [= <-].
      destruct Hcases as [(_ & Hh & [[-> _]|[-> _]])|(_ & -> & _)].
      * split; [by rewrite Hlist|]. intros Hinit. unfold held_refs in Hh. rewrite Hh. by apply Hown.
      * split; [by simpl; rewrite Hlist|]. intros Hinit. unfold held_refs in Hh. rewrite Hh. by apply Hown.
      * split; [by simpl; rewrite Hlist|done].
    + unfold cmhd_process_post. erewrite bind_eq by by apply load_command_eq. destruct (xc_failed c) eqn:Hfailed.
      { destruct (Hterm w m refs ts p c Hi Hc Ha) as (err & w' & m' & refs' & ts' & E & Hi'). erewrite bind_eq by exact E. by eexists _, _, _, _. }
      destruct (xc_initialized c) eqn:Hinit; red_if; [|by exists w, m, refs, ts].
      destruct (unschedule_run w m refs ts p c Hok Hc) as (err & w1 & ts1 & E1 & Hok1 & Hd1 & _). unfold cmhd_unschedule.
      erewrite bind_eq by exact E1. destruct (Z.eqb_spec err ERROR_NONE) as [-> |Herr]; unfold when; red_if.
      * eexists w1, m, refs, ts1. split; [done|]. eapply (inv_update _ _ _ _ _ _ _ _ _ p); [exact Hi|exact Hok1|done|by rewrite Hd1; simpl; rewrite delete_insert_eq|].
        rewrite Hd1. simpl. intros c2 l2. rewrite lookup_insert_eq. intros [= <-] Hl2. assert (l2 = l) as -> by congruence. simpl. rewrite Hlist. by split.
      * assert (data_of w1 = data_of w) as Hd1' by done. clear Hd1. assert (xs_commands (data_of w1) !! p = Some c) as Hc1 by by rewrite Hd1'.
        destruct (update_object_run w1 _ _ _ p set_failed c Hok1 Hc1) as (w2 & E2 & Hok2 & Hd2 & _); [done|].
        eexists w2, m, refs, ts1. split; [exact E2|]. eapply (inv_update _ _ _ _ _ _ _ _ _ p); [exact Hi|exact Hok2|done|by rewrite Hd2, Hd1'; simpl; rewrite delete_insert_eq|].
        rewrite Hd2, Hd1'. simpl. intros c2 l2. rewrite lookup_insert_eq. intros [= <-] Hl2. assert (l2 = l) as -> by congruence. simpl. rewrite Hlist. by split.
Qed.
End Promise.

(** * What CMHD does *)

(** C16: CMHD holds all of its X-Plane commands or none, and releases them in
    reverse order. In a plugin in which memory and locks are available, the first
    flight loop of a command either fails without a call to X-Plane, or begins
    all X-Plane commands, in the order of the request. Then a termination
    succeeds, and the next flush of the queue ends what was queued before and then all
    of them, the last first. *)
Theorem cmhd_holds_then_releases {C} `{ConnectionLaws C} XPLMFindCommand (w0 w : world C (ext (xp_state unit))) p c list l :
  started w0 -> rtc (step (cmhd_held XPLMFindCommand)) w0 w -> willing w ->
  xs_commands (data_of w) !! p = Some c -> addressable (xc_channel_id c) = true -> xc_failed c = false -> xc_initialized c = false ->
  xc_entries c = Some list -> represents (entries_heap w) list l ->
  exists w1 c1, cmhd_process_flightloop XPLMFindCommand p w = Some (tt, w1) /\ xs_commands (data_of w1) !! p = Some c1 /\
    if xc_initialized c1 then
      let held := (fun e => XPLMFindCommand (xs_calls (data_of w)) (en_name e)) <$> entries_of l in
      (NO_XP_COMMAND ∉ held) /\ xs_calls (data_of w1) = xs_calls (data_of w) ++ (XPLMCommandBegin <$> held) /\
        exists w2 w3 before, cmhd_terminate (Some p) w1 = Some (ERROR_NONE, w2) /\ on_xpq flush_xpqueue w2 = Some (ERROR_NONE, w3) /\
        queues_refs (queue_data (data_of w)) before /\
        xs_calls (data_of w3) = xs_calls (data_of w1) ++ (XPLMCommandEnd <$> before ++ reverse held)
    else xc_failed c1 = true /\ xs_calls (data_of w1) = xs_calls (data_of w).
Proof.
  intros Hst Hsteps Hwi Hc Ha Hf Hn Hlist Hr.
  destruct (steps_inv (cmhd_held XPLMFindCommand) cmhd_own w0 w _ _ _ Hsteps (started_inv _ _ Hst)) as (m & refs & ts & Hi).
  pose proof (entries_known cmhd_own w m refs ts p c list l Hi Hc Hlist Hr) as Hl.
  destruct (cmhd_flightloop_run XPLMFindCommand w m refs ts p c l Hi Hc Hl Ha) as (w1 & c1 & l1 & E1 & Hok1 & Hcs1 & Hw1 & Hcases).
  assert (xs_commands (data_of w1) !! p = Some c1) as Hc1 by (rewrite Hcs1; apply lookup_insert_eq).
  exists w1, c1. split; [done|]. split; [done|]. rewrite Hf, Hn in Hcases.
  destruct Hcases as [(Hca & _ & [[_ ?]|[-> _]])|(_ & -> & Hfound & Hes & Hca)]; [done|simpl; by rewrite Hn|]. simpl xc_initialized. cbv iota zeta.
  set (held := _ <$> entries_of l).
  assert (held_refs l1 = held) as Hheld.
  { unfold held_refs. rewrite Hes. unfold cmhd_holding, held. clear. induction (entries_of l) as [|e es IH]; [done|]. simpl.
    unfold held_entries. rewrite filter_cons_True by done. simpl. f_equal. exact IH. }
  split; [|split; [by rewrite Hca, Hheld|]].
  { unfold held. intros (e & He & Hin)%list_elem_of_fmap. rewrite Forall_forall in Hfound. by apply (Hfound e Hin). }
  destruct (terminate_run cmhd_release all_released (forallb en_held) w1 _ refs ts p (set_initialized c) l1 list cmhd_releases Hok1 Hc1 (lookup_insert_eq _ _ _) Hlist Ha)
    as (err & w2 & m2 & refs2 & ts2 & E2 & Hok2 & Hca2 & _ & _ & (c2 & l2 & _ & _ & _ & _ & _ & _ & _ & _ & _ & Hw2)).
  destruct (Hw2 (Hw1 Hwi)) as (Hwi2 & _ & _ & -> & Herr).
  assert (forallb en_held (entries_of l1) = true) as Hall.
  { rewrite Hes. unfold cmhd_holding. clear. by induction (entries_of l). }
  rewrite Hall in Herr. subst err.
  destruct (flush_run w2 m2 _ ts2 Hok2) as (err & w3 & E3 & _ & Hca3 & _ & _ & Hsucc). destruct (Hsucc Hwi2) as [-> _].
  exists w2, w3, refs. split; [done|]. split; [done|]. split; [apply (do_queue _ _ _ (ho_data _ _ _ _ (inv_held _ _ _ _ _ Hi)))|].
  rewrite Hca3, Hca2, Hheld. done.
Qed.

(** A CMHD that does not hold all of its X-Plane commands cannot be terminated:
    the entries that were never held are not removed, so the termination always
    fails, even if memory and locks are available, and the channel of the command
    is never requested to be destroyed. This is the end of every CMHD that names
    an X-Plane command that does not exist. *)
Theorem cmhd_unheld_remains {C} `{ConnectionLaws C} XPLMFindCommand (w0 w : world C (ext (xp_state unit))) p c list l e :
  started w0 -> rtc (step (cmhd_held XPLMFindCommand)) w0 w ->
  xs_commands (data_of w) !! p = Some c -> addressable (xc_channel_id c) = true ->
  xc_entries c = Some list -> represents (entries_heap w) list l -> e ∈ entries_of l -> en_held e = false ->
  exists err w' c', cmhd_terminate (Some p) w = Some (err, w') /\ err <> ERROR_NONE /\
        xs_commands (data_of w') !! p = Some c' /\ xc_channel_id c' = xc_channel_id c /\ (willing w -> xc_task c' = None).
Proof.
  intros Hst Hsteps Hc Ha Hlist Hr He Hn.
  destruct (steps_inv (cmhd_held XPLMFindCommand) cmhd_own w0 w _ _ _ Hsteps (started_inv _ _ Hst)) as (m & refs & ts & Hi).
  pose proof (entries_known cmhd_own w m refs ts p c list l Hi Hc Hlist Hr) as Hl.
  destruct (terminate_run cmhd_release all_released (forallb en_held) w m refs ts p c l list cmhd_releases (inv_held _ _ _ _ _ Hi) Hc Hl Hlist Ha)
    as (err & w' & m' & refs' & ts' & E & _ & _ & _ & _ & (c' & l' & Hc' & _ & _ & _ & _ & _ & _ & Hnone & Hid & Hwi)).
  assert (err <> ERROR_NONE) as Herr.
  { intros Herr. destruct (Hnone Herr) as (_ & _ & _ & Hall). eapply forallb_forall in Hall; [|by apply list_elem_of_In]. congruence. }
  exists err, w', c'. split; [done|]. split; [done|]. split; [done|]. split; [auto|]. intros Hw. apply (Hwi Hw).
Qed.

(** ** Scenarios *)

Definition demo_hold (names : list string) : @action :=
  Create (mkRequest demo_channel (lit "CMHD") [] (lit <$> names)) (mkConfig CMHD_COMMAND_VERSION (mkMap ∅)).

Definition demo_cmhd (actions : list action) : world network_connection_t (ext (xp_state unit)) :=
  scenario (cmhd_held demo_find_command) actions demo_started.

Lemma demo_cmhd_steps actions : all_enabled (cmhd_held demo_find_command) actions demo_started = true ->
  rtc (step (cmhd_held demo_find_command)) demo_started (demo_cmhd actions).
Proof.
  intros He.
  exact (scenario_steps (cmhd_held demo_find_command) cmhd_own actions demo_started ∅ [] [] (started_inv _ _ demo_started_ok) He).
Qed.

Definition demo_names : list string := ["ab"%string; "cde"%string].
Definition demo_requested : world network_connection_t (ext (xp_state unit)) := demo_cmhd [demo_hold demo_names].
Definition demo_object : xp_command unit := mkXpCommand demo_channel (Some 1%positive) false false (Some (mkList 2 (Some 1%positive) (Some 2%positive))) tt.
Definition demo_cells : cells := [(1%positive, Some (mkEntry (lit "ab") false 0)); (2%positive, Some (mkEntry (lit "cde") false 0))].

Example demo_calls_made :
  xs_calls (data_of (demo_cmhd [demo_hold demo_names; Process 1 CMHD_TASK_PHASE; Process 1 TASK_SCHEDULE_POST_PROCESSING; Terminate 1; Flush])) =
    [XPLMCommandBegin 2; XPLMCommandBegin 3; XPLMCommandEnd 3; XPLMCommandEnd 2].
Proof. vm_compute. reflexivity. Qed.

Lemma demo_requested_steps : rtc (step (cmhd_held demo_find_command)) demo_started demo_requested.
Proof. apply demo_cmhd_steps. vm_compute. reflexivity. Qed.

Lemma demo_requested_object : xs_commands (data_of demo_requested) !! 1%positive = Some demo_object.
Proof. vm_compute. reflexivity. Qed.

Lemma demo_requested_cells : represents (entries_heap demo_requested) (mkList 2 (Some 1%positive) (Some 2%positive)) demo_cells.
Proof. split; [vm_compute; by repeat split|by apply (bool_decide_eq_true_1 (NoDup demo_cells.*1)); vm_compute|done..]. Qed.

Lemma demo_requested_willing : willing demo_requested.
Proof. split; vm_compute; [constructor|constructor|done..]. Qed.

Lemma held_commands_accounted_witness :
  let w := demo_cmhd [demo_hold demo_names; Process 1 CMHD_TASK_PHASE] in
  (forall a, enabled w a -> exists w', perform (cmhd_held demo_find_command) a w = Some (tt, w')) /\
  exists m refs ts, inv cmhd_own w m refs ts /\ begun (xs_calls (data_of w)) ≡ₚ ended (xs_calls (data_of w)) ++ refs ++ held_all m.
Proof.
  intros w. apply (held_commands_accounted (cmhd_held demo_find_command) cmhd_own demo_started w demo_started_ok).
  apply demo_cmhd_steps. vm_compute. reflexivity.
Defined.

Lemma cmhd_holds_then_releases_witness :
  exists w1 c1, cmhd_process_flightloop demo_find_command 1 demo_requested = Some (tt, w1) /\ xs_commands (data_of w1) !! 1%positive = Some c1 /\
    if xc_initialized c1 then
      let held := (fun e => demo_find_command (xs_calls (data_of demo_requested)) (en_name e)) <$> entries_of demo_cells in
      (NO_XP_COMMAND ∉ held) /\ xs_calls (data_of w1) = xs_calls (data_of demo_requested) ++ (XPLMCommandBegin <$> held) /\
      exists w2 w3 before, cmhd_terminate (Some 1%positive) w1 = Some (ERROR_NONE, w2) /\ on_xpq flush_xpqueue w2 = Some (ERROR_NONE, w3) /\
        queues_refs (queue_data (data_of demo_requested)) before /\
        xs_calls (data_of w3) = xs_calls (data_of w1) ++ (XPLMCommandEnd <$> before ++ reverse held)
    else xc_failed c1 = true /\ xs_calls (data_of w1) = xs_calls (data_of demo_requested).
Proof.
  apply (cmhd_holds_then_releases demo_find_command demo_started demo_requested 1 demo_object (mkList 2 (Some 1%positive) (Some 2%positive)) demo_cells
    demo_started_ok demo_requested_steps demo_requested_willing demo_requested_object); [reflexivity..|exact demo_requested_cells].
Defined.

Lemma cmhd_unheld_remains_witness :
  exists err w' c', cmhd_terminate (Some 1%positive) demo_requested = Some (err, w') /\ err <> ERROR_NONE /\
    xs_commands (data_of w') !! 1%positive = Some c' /\ xc_channel_id c' = demo_channel /\ (willing demo_requested -> xc_task c' = None).
Proof.
  apply (cmhd_unheld_remains demo_find_command demo_started demo_requested 1 demo_object (mkList 2 (Some 1%positive) (Some 2%positive)) demo_cells
    (mkEntry (lit "ab") false 0) demo_started_ok demo_requested_steps demo_requested_object); [reflexivity..|exact demo_requested_cells|by left|done].
Defined.

(** Destroying a session destroys a command even if its termination has just failed, here
    because the schedule could not be locked: then the schedule keeps the task of an
    object that was freed, and the next flight loop reads it. *)
Example destroyed_while_scheduled :
  let w := with_env (mkEnv [] [true; true; false] (env_clock (cs_env (w_channels demo_requested)))) demo_requested in
  let w' := after (cmhd_terminate (Some 1%positive)) w in
  let w'' := after (cmhd_destroy (Some 1%positive)) w' in
  (fst <$> cmhd_terminate (Some 1%positive) w, xs_tasks (data_of w'') !! 1%positive, cmhd_process demo_find_command 1 CMHD_TASK_PHASE w'') =
  (Some ERROR_MUTEX_FAILED, Some 1%positive, None).
Proof. vm_compute. reflexivity. Qed.
