(* ===== verification/CmtrTimers.v ===== *)
(** The timers of the command CMTR ([command_cmtr.c]): its options, and when it
    holds, releases and triggers X-Plane commands.

    [next_cycle] and [check_release] are the parts of [cmtr_process_flightloop]
    that read the clock and the frame counters; [cmtr_round] is the specification of
    what a flight loop does. Counters of frames are 32 bits wide. Times are
    64-bit numbers of milliseconds since the login; sums of them do not get near
    [2^63] and are not wrapped. *)

From S2P Require Import Prelude CLib Utils Requests.

Definition INFINITE_REPETITION : Z := -2134896.

Definition CMTR_INVALID : Z := 0.
Definition CMTR_MONITOR_HOLD_RELEASE : Z := 1.
Definition CMTR_MONITOR_CYCLE : Z := 2.
Definition CMTR_MONITOR_DISABLE : Z := 3.

Definition CMTR_ACTION_HOLD_OR_TRIGGER : bool := true.
Definition CMTR_ACTION_RELEASE : bool := false.

(** The fields of [command_cmtr_t] that CMHD does not have, in order. *)
Record cmtr_timing := mkTiming {
  monitor_mode : Z;
  requires_time : bool;
  interval : Z;
  interval_due_time : Z;
  interval_remaining_frames : Z;
  is_interval_frames : bool;
  duration : Z;
  duration_due_time : Z;
  duration_remaining_frames : Z;
  is_duration_frames : bool;
  times_remaining : Z;
  finishing : bool;
  holding : bool;
}.

(** After [zmalloc]. *)
Definition zero_timing : cmtr_timing := mkTiming 0 false 0 0 0 false 0 0 0 false 0 false false.

Section Setters.
Implicit Types t : cmtr_timing.
Definition set_interval_due_time due t :=
  mkTiming (monitor_mode t) (requires_time t) (interval t) due (interval_remaining_frames t) (is_interval_frames t)
    (duration t) (duration_due_time t) (duration_remaining_frames t) (is_duration_frames t) (times_remaining t) (finishing t) (holding t).
Definition set_interval_remaining_frames n t :=
  mkTiming (monitor_mode t) (requires_time t) (interval t) (interval_due_time t) n (is_interval_frames t)
    (duration t) (duration_due_time t) (duration_remaining_frames t) (is_duration_frames t) (times_remaining t) (finishing t) (holding t).
Definition set_duration_due_time due t :=
  mkTiming (monitor_mode t) (requires_time t) (interval t) (interval_due_time t) (interval_remaining_frames t) (is_interval_frames t)
    (duration t) due (duration_remaining_frames t) (is_duration_frames t) (times_remaining t) (finishing t) (holding t).
Definition set_duration_remaining_frames n t :=
  mkTiming (monitor_mode t) (requires_time t) (interval t) (interval_due_time t) (interval_remaining_frames t) (is_interval_frames t)
    (duration t) (duration_due_time t) n (is_duration_frames t) (times_remaining t) (finishing t) (holding t).
Definition set_times_remaining n t :=
  mkTiming (monitor_mode t) (requires_time t) (interval t) (interval_due_time t) (interval_remaining_frames t) (is_interval_frames t)
    (duration t) (duration_due_time t) (duration_remaining_frames t) (is_duration_frames t) n (finishing t) (holding t).
Definition set_finishing t :=
  mkTiming (monitor_mode t) (requires_time t) (interval t) (interval_due_time t) (interval_remaining_frames t) (is_interval_frames t)
    (duration t) (duration_due_time t) (duration_remaining_frames t) (is_duration_frames t) (times_remaining t) true (holding t).
Definition set_holding b t :=
  mkTiming (monitor_mode t) (requires_time t) (interval t) (interval_due_time t) (interval_remaining_frames t) (is_interval_frames t)
    (duration t) (duration_due_time t) (duration_remaining_frames t) (is_duration_frames t) (times_remaining t) (finishing t) b.
End Setters.

(** * Options *)

Definition is_suffixed_millis (s : cstr) : bool := ends_with (Some s) (Some (lit "ms")).
Definition is_suffixed_frames (s : cstr) : bool := ends_with (Some s) (Some (lit "f")).
Definition is_valid_interval (s : cstr) : bool := is_suffixed_millis s || is_suffixed_frames s.

Definition parse_times (s : option cstr) : Z :=
  match s with
  | None => -1
  | Some s => if str_eq s (lit "infinite") then INFINITE_REPETITION else atoi s
  end.

Definition parse_monitor_mode (s : option cstr) : Z :=
  match s with
  | None => CMTR_INVALID
  | Some s =>
      if str_eq s (lit "cycle") then CMTR_MONITOR_CYCLE
      else if str_eq s (lit "holdRelease") then CMTR_MONITOR_HOLD_RELEASE
      else if str_eq s (lit "none") then CMTR_MONITOR_DISABLE
      else CMTR_INVALID
  end.

(** * The timers of a flight loop *)

(** The loop that forwards the due time; [fuel] bounds its iterations. *)
Fixpoint forward (fuel : nat) (now due step : Z) : option Z :=
  if due <=? now then
    match fuel with
    | O => None
    | S fuel' => forward fuel' now (due + step) step
    end
  else Some due.

(** Whether a cycle starts, and the counter or due time of the next one. *)
Definition next_cycle (now : Z) (should_hold : bool) (t : cmtr_timing) : option (bool * cmtr_timing) :=
  let '(should_hold, t) :=
    if is_interval_frames t then
      let t := set_interval_remaining_frames (wrap_s 32 (interval_remaining_frames t - 1)) t in
      (should_hold || (interval_remaining_frames t <=? 0), t)
    else (should_hold || (interval_due_time t <=? now), t) in
  if should_hold then
    if is_interval_frames t then Some (true, set_interval_remaining_frames (interval t) t)
    else
      due ← forward (Z.to_nat (now - interval_due_time t + 1)) now (interval_due_time t) (interval t);
      Some (true, set_interval_due_time due t)
  else Some (false, t).

(** Whether to release what is held, and the counter of frames until then. *)
Definition check_release (now : Z) (should_hold : bool) (t : cmtr_timing) : bool * cmtr_timing :=
  let should_release_before := should_hold && holding t in
  if negb should_release_before && holding t && (0 <? duration t) then
    if is_duration_frames t then
      let t := set_duration_remaining_frames (wrap_s 32 (duration_remaining_frames t - 1)) t in
      (duration_remaining_frames t <=? 0, t)
    else (duration_due_time t <=? now, t)
  else (should_release_before, t).

(** What the flight loop does to the timers before it releases. *)
Definition begin_release (t : cmtr_timing) : cmtr_timing := if times_remaining t =? 0 then set_finishing t else t.

(** What it does to them before it holds or triggers. *)
Definition begin_cycle (now : Z) (t : cmtr_timing) : cmtr_timing :=
  let t := if 0 <? times_remaining t then set_times_remaining (times_remaining t - 1) t else t in
  if 0 <? duration t then
    if is_duration_frames t then set_duration_remaining_frames (duration t) t else set_duration_due_time (now + duration t) t
  else if times_remaining t =? 0 then set_finishing t else t.

(** * Specification *)

Inductive cmtr_action := Release | Hold | Trigger.

#[export] Instance cmtr_action_eq_dec : EqDecision cmtr_action.
Proof. solve_decision. Defined.

(** What a flight loop does, and the timers after it. *)
Definition cmtr_round (now : Z) (should_hold : bool) (t : cmtr_timing) : option (list cmtr_action * cmtr_timing) :=
  '(should_hold, t) ← next_cycle now should_hold t;
  let '(should_release_before, t) := check_release now should_hold t in
  let '(released, t) := if should_release_before then ([Release], set_holding false (begin_release t)) else ([], t) in
  if should_hold then
    let t := begin_cycle now t in
    if 0 <? duration t then Some (released ++ [Hold], set_holding true t)
    else Some (released ++ (if holding t then [] else [Trigger]), t)
  else Some (released, t).

(** The timers of a command that is configured and does not fail. *)
Record timing_ok (t : cmtr_timing) : Prop := mkTimingOk {
  tm_interval : 0 < interval t <= INT_MAX;
  tm_duration : 0 <= duration t <= INT_MAX;
  tm_interval_frames : 0 <= interval_remaining_frames t <= interval t;
  tm_duration_frames : 0 <= duration_remaining_frames t <= duration t;
  tm_times : times_remaining t = INFINITE_REPETITION \/ 0 <= times_remaining t <= INT_MAX;
  tm_holding : holding t = true -> 0 < duration t /\ (is_duration_frames t = true -> 0 < duration_remaining_frames t);
}.

(** ** The loop over the intervals *)

Lemma forward_ok fuel : forall now due step, 0 < step -> now - due < Z.of_nat fuel ->
  exists k, 0 <= k /\ forward fuel now due step = Some (due + k * step) /\ now < due + k * step /\ (0 < k -> due + (k - 1) * step <= now).
Proof.
  induction fuel as [|fuel IH]; intros now due step Hs Hf; simpl; destruct (Z.leb_spec due now).
  - lia.
  - exists 0. split_and!; [lia|f_equal; lia|lia|lia].
  - destruct (IH now (due + step) step Hs) as (k & Hk & -> & Hn & Hm); [lia|]. exists (k + 1). split_and!; [lia|f_equal; lia|lia|].
    intros _. destruct (decide (k = 0)) as [-> |]; lia.
  - exists 0. split_and!; [lia|f_equal; lia|lia|lia].
Qed.

(** The loop ends: the due time becomes the first one after [now]. *)
Lemma next_due now t : 0 < interval t ->
  exists k, 0 <= k /\
    forward (Z.to_nat (now - interval_due_time t + 1)) now (interval_due_time t) (interval t) = Some (interval_due_time t + k * interval t) /\
    now < interval_due_time t + k * interval t /\ (0 < k -> interval_due_time t + (k - 1) * interval t <= now).
Proof. intros Hi. apply forward_ok; lia. Qed.

(** ** One round *)

(** What is held after some actions: only what is held is released, and nothing
    is held or triggered while something is held. *)
Definition act (held : bool) (a : cmtr_action) : option bool :=
  match a, held with
  | Release, true => Some false
  | Hold, false => Some true
  | Trigger, false => Some false
  | _, _ => None
  end.

Fixpoint act_in_turn (held : bool) (acts : list cmtr_action) : option bool :=
  match acts with
  | [] => Some held
  | a :: acts' => held' ← act held a; act_in_turn held' acts'
  end.

Definition options_of (t : cmtr_timing) := (monitor_mode t, requires_time t, (interval t, is_interval_frames t), (duration t, is_duration_frames t)).

Lemma in_counter n : 0 <= n <= INT_MAX -> wrap_s 32 (n - 1) = n - 1.
Proof. intros Hn. apply wrap_s_int. unfold in_int, INT_MIN. unfold INT_MAX in *. lia. Qed.

Ltac split_timing H := destruct H as [? ? ? ? ? ?]; unfold INFINITE_REPETITION in *; split; simpl in *; solve [done | lia | intuition (lia || congruence)].

Lemma next_cycle_ok now b t : timing_ok t ->
  exists due t', next_cycle now b t = Some (due, t') /\ timing_ok t' /\ options_of t' = options_of t /\
    holding t' = holding t /\ finishing t' = finishing t /\ times_remaining t' = times_remaining t /\ (b = true -> due = true).
Proof.
  intros Hok. unfold next_cycle. destruct (is_interval_frames t) eqn:Hif; cbv zeta; cbn [interval_remaining_frames set_interval_remaining_frames interval is_interval_frames].
  - assert (wrap_s 32 (interval_remaining_frames t - 1) = interval_remaining_frames t - 1) as ->.
    { destruct Hok. apply in_counter. lia. }
    destruct (Z.leb_spec (interval_remaining_frames t - 1) 0); [rewrite orb_true_r, Hif|rewrite orb_false_r; destruct b; rewrite ?Hif];
      (eexists _, _; split; [done|]; split; [split_timing Hok|done]).
  - destruct (b || (interval_due_time t <=? now)) eqn:Hdue; rewrite ?Hif.
    + destruct (next_due now t) as (k & _ & -> & _); [by destruct Hok; lia|]. eexists _, _. split; [done|]. split; [split_timing Hok|done].
    + eexists _, _. split; [done|]. split; [done|]. destruct b; done.
Qed.

Lemma check_release_ok now b t : timing_ok t ->
  let '(release, t') := check_release now b t in
  options_of t' = options_of t /\ holding t' = holding t /\ finishing t' = finishing t /\ times_remaining t' = times_remaining t /\
    (release = true -> holding t = true) /\ (b = true -> release = holding t) /\
    timing_ok (set_holding false t') /\ (release = false -> timing_ok t').
Proof.
  intros Hok. unfold check_release. destruct b, (holding t) eqn:Hh; simpl; rewrite ?Hh;
    try (split_and!; [done..|split_timing Hok|done]).
  destruct (Z.ltb_spec 0 (duration t)); [|split_and!; [done..|split_timing Hok|done]].
  destruct (is_duration_frames t) eqn:Hdf; simpl; [|split_and!; [done..|split_timing Hok|done]].
  assert (wrap_s 32 (duration_remaining_frames t - 1) = duration_remaining_frames t - 1) as ->.
  { destruct Hok. apply in_counter. lia. }
  assert (0 < duration_remaining_frames t) by (destruct Hok; intuition lia).
  split_and!; [done..|split_timing Hok|]. intros Hr%Z.leb_gt. split_timing Hok.
Qed.

Lemma begin_release_ok t : timing_ok t -> timing_ok (begin_release t) /\ options_of (begin_release t) = options_of t /\
  holding (begin_release t) = holding t /\ times_remaining (begin_release t) = times_remaining t.
Proof. intros Hok. unfold begin_release. destruct (_ =? _); [|done]. split; [split_timing Hok|done]. Qed.

Lemma begin_cycle_ok now t : timing_ok t -> holding t = false ->
  let t' := begin_cycle now t in
  timing_ok t' /\ options_of t' = options_of t /\ holding t' = false /\ (0 < duration t -> timing_ok (set_holding true t')) /\
    times_remaining t' = if 0 <? times_remaining t then times_remaining t - 1 else times_remaining t.
Proof.
  intros Hok Hh. unfold begin_cycle. destruct (Z.ltb_spec 0 (times_remaining t)); cbn [duration set_times_remaining is_duration_frames times_remaining];
    destruct (Z.ltb_spec 0 (duration t)); try (destruct (is_duration_frames t) eqn:Hdf); try (destruct (_ =? 0));
    (split; [split_timing Hok|split; [done|split; [done|split; [intros ?; split_timing Hok|done]]]]).
Qed.

Lemma cmtr_round_ok now b t : timing_ok t ->
  exists acts t', cmtr_round now b t = Some (acts, t') /\ timing_ok t' /\ options_of t' = options_of t /\
    act_in_turn (holding t) acts = Some (holding t') /\
    (b = true -> last acts = Some (if 0 <? duration t then Hold else Trigger)).
Proof.
  intros Hok. unfold cmtr_round.
  destruct (next_cycle_ok now b t Hok) as (due & t1 & -> & Hok1 & Ho1 & Hh1 & _ & _ & Hb). simpl.
  pose proof (check_release_ok now due t1 Hok1) as H2. destruct (check_release now due t1) as [release t2].
  destruct H2 as (Ho2 & Hh2 & _ & _ & Hr & Hd & Hok2 & Hok2').
  set (t3 := if release then set_holding false (begin_release t2) else t2).
  assert (timing_ok t3 /\ options_of t3 = options_of t /\ (due = true -> holding t3 = false) /\
    act_in_turn (holding t) (if release then [Release] else []) = Some (holding t3)) as (Hok3 & Ho3 & Hh3 & Ha3).
  { unfold t3. destruct release.
    - pose proof (Hr eq_refl) as Hh. rewrite <-Hh1, Hh. split; [|split; [|done]].
      + unfold begin_release. destruct (_ =? _); [|done]. split_timing Hok2.
      + rewrite <-Ho1, <-Ho2. unfold begin_release. by destruct (_ =? _).
    - split; [auto|]. split; [congruence|]. split; [|simpl; congruence]. intros ->. rewrite Hh2. symmetry. auto. }
  assert (forall A (f : list cmtr_action -> cmtr_timing -> A),
    (let '(released, t) := if release then ([Release], set_holding false (begin_release t2)) else ([], t2) in f released t) =
    f (if release then [Release] else []) t3) as Hlet by by destruct release.
  rewrite Hlet. clear Hlet. set (released := if release then [Release] else []) in *. clearbody t3 released.
  assert (duration t3 = duration t) as Hdur by by injection Ho3.
  destruct due.
  2:{ eexists _, _. split; [done|]. split; [done|]. split; [done|]. split; [done|]. intros Hbt. discriminate (Hb Hbt). }
  specialize (Hh3 eq_refl). destruct (begin_cycle_ok now t3 Hok3 Hh3) as (Hok4 & Ho4 & Hh4 & Hok4' & _).
  assert (forall held acts1 acts2, act_in_turn held (acts1 ++ acts2) = act_in_turn held acts1 ≫= fun held' => act_in_turn held' acts2) as Happ.
  { intros held acts1. revert held. induction acts1 as [|a acts1 IH]; intros held acts2; [done|]. simpl. destruct (act held a); simpl; [apply IH|done]. }
  assert (duration (begin_cycle now t3) = duration t) as Hdur4 by (injection Ho4; congruence).
  rewrite Hdur4, Hh4. destruct (Z.ltb_spec 0 (duration t)); (eexists _, _; split; [done|]; split; [|split; [|split; [by rewrite Happ, Ha3; simpl; rewrite Hh3; simpl; rewrite ?Hh4|by rewrite last_snoc]]]).
  - apply Hok4'. lia.
  - rewrite <-Ho3, <-Ho4. done.
  - done.
  - congruence.
Qed.

(** A flight loop of CMTR always comes to an end with well-formed timers:
    the loop over the intervals terminates, counters never leave the 32-bit
    range, and the options stay what they are. It releases only what is held,
    and holds or triggers only what is not held. *)
Theorem cmtr_round_ends now b t : timing_ok t ->
  exists acts t', cmtr_round now b t = Some (acts, t') /\ timing_ok t' /\ options_of t' = options_of t /\
    act_in_turn (holding t) acts = Some (holding t') /\
    (b = true -> last acts = Some (if 0 <? duration t then Hold else Trigger)).
Proof. apply cmtr_round_ok. Qed.

Definition demo_timing : cmtr_timing := mkTiming CMTR_MONITOR_CYCLE true 20 1000 0 false 3 0 0 true 2 false false.

Lemma cmtr_round_ends_witness :
  exists acts t', cmtr_round 1050 true demo_timing = Some (acts, t') /\ timing_ok t' /\ options_of t' = options_of demo_timing /\
    act_in_turn false acts = Some (holding t') /\ (true = true -> last acts = Some Hold).
Proof. apply (cmtr_round_ends 1050 true demo_timing). by split; simpl; unfold INT_MAX; try lia; auto; right; lia. Defined.

(** * Schedules in frames *)

(** What the first [n] flight loops of a command do whose options are in frames,
    and the timers after them; a finished command does nothing. *)
Fixpoint frames (t : cmtr_timing) (n : nat) : option (cmtr_timing * list (list cmtr_action)) :=
  match n with
  | O => Some (t, [])
  | S n' =>
      '(t', done) ← frames t n';
      if finishing t' then Some (t', done)
      else
        '(acts, t'') ← cmtr_round 0 (n' =? 0)%nat t';
        Some (t'', done ++ [acts])
  end.

Lemma frames_trace t0 (st : nat -> cmtr_timing) (f : nat -> list cmtr_action) stop :
  finishing t0 = false -> cmtr_round 0 true t0 = Some (f 0%nat, st 0%nat) ->
  (forall i, (i < stop)%nat -> finishing (st i) = false /\ cmtr_round 0 false (st i) = Some (f (S i), st (S i))) ->
  forall i, (i <= stop)%nat -> frames t0 (S i) = Some (st i, f <$> seq 0 (S i)).
Proof.
  intros Hf H0 Hs i. induction i as [|i IH]; intros Hi.
  - simpl. by rewrite Hf, H0.
  - destruct (Hs i) as [Hfi Hri]; [lia|]. change (frames t0 (S (S i))) with
      ('(t', done) ← frames t0 (S i); if finishing t' then Some (t', done) else '(acts, t'') ← cmtr_round 0 false t'; Some (t'', done ++ [acts])).
    rewrite IH by lia. rewrite (seq_S (S i)), fmap_app. simpl. by rewrite Hfi, Hri.
Qed.

Lemma frames_stop t0 st f stop N :
  (forall i, (i <= stop)%nat -> frames t0 (S i) = Some (st i, f <$> seq 0 (S i))) -> finishing (st stop) = true -> (stop < N)%nat ->
  frames t0 N = Some (st stop, f <$> seq 0 (S stop)).
Proof.
  intros Ht Hf. induction 1 as [|N HN IH]; [by apply Ht|]. change (frames t0 (S N)) with
    ('(t', done) ← frames t0 N; if finishing t' then Some (t', done) else '(acts, t'') ← cmtr_round 0 (N =? 0)%nat t'; Some (t'', done ++ [acts])).
  rewrite IH. simpl. by rewrite Hf.
Qed.

Lemma next_frame K i : (0 < K)%nat ->
  (S (i mod K) < K /\ S i mod K = S (i mod K) /\ S i / K = i / K)%nat \/
  (S (i mod K) = K /\ S i mod K = 0 /\ S i / K = S (i / K))%nat.
Proof.
  intros HK. pose proof (Nat.div_mod i K ltac:(lia)) as Hi. pose proof (Nat.mod_upper_bound i K ltac:(lia)) as Hr.
  destruct (decide (S (i mod K) < K)%nat) as [Hlt|Hge]; [left|right].
  - split; [done|]. split; symmetry; [apply (Nat.mod_unique _ _ (i / K)); lia|apply (Nat.div_unique _ _ _ (S (i mod K))); lia].
  - split; [lia|]. split; symmetry; [apply (Nat.mod_unique _ _ (S (i / K))); lia|apply (Nat.div_unique _ _ _ 0); lia].
Qed.

Lemma next_cycle_frames now b t : is_interval_frames t = true -> 0 <= interval_remaining_frames t <= INT_MAX ->
  next_cycle now b t = Some (b || (interval_remaining_frames t <=? 1),
    set_interval_remaining_frames (if b || (interval_remaining_frames t <=? 1) then interval t else interval_remaining_frames t - 1) t).
Proof.
  intros Hf Hr. unfold next_cycle. rewrite Hf. cbv zeta. cbn [interval_remaining_frames set_interval_remaining_frames is_interval_frames]. rewrite in_counter, Hf by done.
  replace (interval_remaining_frames t - 1 <=? 0) with (interval_remaining_frames t <=? 1); [by destruct (b || _)|].
  destruct (Z.leb_spec (interval_remaining_frames t) 1), (Z.leb_spec (interval_remaining_frames t - 1) 0); lia.
Qed.

Lemma check_release_frames now b t : is_duration_frames t = true -> 0 <= duration_remaining_frames t <= INT_MAX ->
  check_release now b t =
    if b then (holding t, t)
    else if holding t && (0 <? duration t) then (duration_remaining_frames t <=? 1, set_duration_remaining_frames (duration_remaining_frames t - 1) t)
    else (false, t).
Proof.
  intros Hf Hr. unfold check_release. destruct b, (holding t); simpl; try done. destruct (0 <? duration t); [|done]. rewrite Hf, in_counter by done.
  f_equal. destruct (Z.leb_spec (duration_remaining_frames t) 1), (Z.leb_spec (duration_remaining_frames t - 1) 0); lia.
Qed.

Section Frames.
Context (mode : Z) (req : bool) (due ddue : Z) (K D : nat).
Hypothesis HK : (0 < K)%nat /\ Z.of_nat K <= INT_MAX.
Hypothesis HD : Z.of_nat D <= INT_MAX.

(** A command as it is configured: every [K] frames it holds for [D] frames,
    [times] times. *)
Definition frame_command (times : Z) : cmtr_timing :=
  mkTiming mode req (Z.of_nat K) due 0 true (Z.of_nat D) ddue 0 true times false false.

(** The cycles left after the cycle [q] began. *)
Definition cycles_left (times : Z) (q : nat) : Z := if times <? 0 then times else Z.max 0 (times - Z.of_nat q - 1).

Lemma cycles_left_next times q :
  (if 0 <? cycles_left times q then cycles_left times q - 1 else cycles_left times q) = cycles_left times (S q).
Proof.
  unfold cycles_left. destruct (Z.ltb_spec times 0); [destruct (Z.ltb_spec 0 times); lia|].
  destruct (Z.ltb_spec 0 (0 `max` (times - Z.of_nat q - 1))); lia.
Qed.

Lemma cycles_left_first times : (if 0 <? times then times - 1 else times) = if times =? 0 then 0 else cycles_left times 0.
Proof.
  unfold cycles_left. destruct (Z.eqb_spec times 0) as [-> |]; [done|].
  destruct (Z.ltb_spec times 0), (Z.ltb_spec 0 times); lia.
Qed.

(** What is done [r] frames after the beginning of a cycle. *)
Definition start_of_cycle : cmtr_action := if (D =? 0)%nat then Trigger else Hold.
Definition regular (i : nat) : list cmtr_action :=
  let r := (i mod K)%nat in
  if (r =? 0)%nat then [start_of_cycle] else if (r =? D)%nat then [Release] else [].

Definition frame_timing (n dn left : Z) (fin hold : bool) : cmtr_timing :=
  mkTiming mode req (Z.of_nat K) due n true (Z.of_nat D) ddue dn true left fin hold.

Definition regular_timing (times : Z) (q r : nat) : cmtr_timing :=
  frame_timing (Z.of_nat K - Z.of_nat r) (Z.max 0 (Z.of_nat D - Z.of_nat r))
    (cycles_left times q) ((cycles_left times q =? 0) && (D <=? r)%nat) (r <? D)%nat.

(** The three kinds of rounds in frames. *)
Lemma round_starts first n dn times : 0 <= n <= INT_MAX -> 0 <= dn <= INT_MAX -> first || (n <=? 1) = true -> dn = 0 \/ (0 < D)%nat ->
  let left := if 0 <? times then times - 1 else times in
  cmtr_round 0 first (frame_timing n dn times false false) =
    Some ([start_of_cycle], frame_timing (Z.of_nat K) (Z.of_nat D) left ((left =? 0) && (D =? 0)%nat) (0 <? D)%nat).
Proof using HK.
  intros Hn Hdn Hdue Hz left. unfold cmtr_round. rewrite next_cycle_frames by first [reflexivity|exact Hn]. cbn [interval_remaining_frames frame_timing interval].
  rewrite Hdue. cbn [mbind option_bind]. rewrite check_release_frames by first [reflexivity|exact Hdn]. cbn [holding set_interval_remaining_frames frame_timing].
  unfold begin_cycle. cbn [times_remaining frame_timing].
  replace (if 0 <? times then set_times_remaining (times - 1) _ else _) with (frame_timing (Z.of_nat K) dn left false false) by (unfold left; by destruct (0 <? times)).
  unfold start_of_cycle. cbn [duration frame_timing is_duration_frames times_remaining].
  destruct (Z.ltb_spec 0 (Z.of_nat D)), (Nat.eqb_spec D 0), (Nat.ltb_spec 0 D); try lia; destruct (left =? 0); simpl;
    rewrite ?(proj2 (Z.ltb_lt 0 (Z.of_nat D))), ?(proj2 (Z.ltb_ge 0 (Z.of_nat D))) by lia; try done;
    unfold frame_timing, set_finishing; simpl; repeat f_equal; lia.
Qed.

Lemma round_waits n dn left hold : 1 < n <= INT_MAX -> 0 <= dn <= INT_MAX -> (hold = true -> 1 < dn /\ (0 < D)%nat) ->
  cmtr_round 0 false (frame_timing n dn left false hold) = Some ([], frame_timing (n - 1) (if hold then dn - 1 else dn) left false hold).
Proof using HK.
  intros Hn Hdn Hh. unfold cmtr_round. rewrite next_cycle_frames by (reflexivity || (simpl; lia)). cbn [interval_remaining_frames frame_timing interval].
  rewrite (proj2 (Z.leb_gt n 1)) by lia. cbn [orb mbind option_bind]. rewrite check_release_frames by (reflexivity || (simpl; lia)).
  cbn [holding set_interval_remaining_frames frame_timing duration duration_remaining_frames]. destruct hold; cbn [andb]; [|done].
  destruct Hh as [Hd HD0]; [done|]. rewrite (proj2 (Z.ltb_lt _ _)), (proj2 (Z.leb_gt dn 1)) by lia. done.
Qed.

Lemma round_releases n left : 1 < n <= INT_MAX -> (0 < D)%nat ->
  cmtr_round 0 false (frame_timing n 1 left false true) = Some ([Release], frame_timing (n - 1) 0 left (left =? 0) false).
Proof using HK.
  intros Hn HD0. unfold cmtr_round. rewrite next_cycle_frames by (reflexivity || (simpl; lia)). cbn [interval_remaining_frames frame_timing interval].
  rewrite (proj2 (Z.leb_gt n 1)) by lia. cbn [orb mbind option_bind]. rewrite check_release_frames by (done || (simpl; unfold INT_MAX; lia)).
  cbn [holding set_interval_remaining_frames frame_timing duration duration_remaining_frames andb].
  rewrite (proj2 (Z.ltb_lt _ _)) by lia. unfold begin_release. simpl. by destruct (left =? 0).
Qed.

Lemma begin_release_frames n dn left fin hold :
  begin_release (frame_timing n dn left fin hold) = frame_timing n dn left (if left =? 0 then true else fin) hold.
Proof using Type. unfold begin_release. simpl. by destruct (left =? 0). Qed.

Lemma begin_cycle_frames n dn left fin hold : (0 < D)%nat ->
  begin_cycle 0 (frame_timing n dn left fin hold) = frame_timing n (Z.of_nat D) (if 0 <? left then left - 1 else left) fin hold.
Proof using HK.
  intros HD0. unfold begin_cycle. cbn [times_remaining frame_timing].
  replace (if 0 <? left then set_times_remaining (left - 1) _ else _) with (frame_timing n dn (if 0 <? left then left - 1 else left) fin hold) by by destruct (0 <? left).
  cbn [duration frame_timing is_duration_frames]. by rewrite (proj2 (Z.ltb_lt 0 (Z.of_nat D))) by lia.
Qed.

Lemma round_restarts dn left : 0 <= dn <= INT_MAX -> (0 < D)%nat ->
  cmtr_round 0 false (frame_timing 1 dn left false true) =
    Some ([Release; Hold], frame_timing (Z.of_nat K) (Z.of_nat D) (if 0 <? left then left - 1 else left) (left =? 0) true).
Proof using HK.
  intros Hdn HD0. unfold cmtr_round. rewrite next_cycle_frames by (reflexivity || (simpl; unfold INT_MAX; lia)). cbn [interval_remaining_frames frame_timing interval].
  cbn [orb mbind option_bind]. rewrite check_release_frames by (reflexivity || (simpl; lia)).
  change (set_interval_remaining_frames _ _) with (frame_timing (Z.of_nat K) dn left false true).
  change (1 <=? 1) with true. cbv beta iota zeta. change (holding (frame_timing _ _ _ _ _)) with true. cbv beta iota zeta. rewrite begin_release_frames. change (set_holding false _) with (frame_timing (Z.of_nat K) dn left (if left =? 0 then true else false) false). cbv zeta.
  rewrite begin_cycle_frames by done. cbn [duration frame_timing]. rewrite (proj2 (Z.ltb_lt 0 (Z.of_nat D))) by lia. by destruct (left =? 0).
Qed.

Ltac same_timing :=
  unfold frame_timing; repeat match goal with
  | |- Some _ = Some _ => f_equal
  | |- (_, _) = (_, _) => f_equal
  | |- mkTiming _ _ _ _ _ _ _ _ _ _ _ _ _ = _ => f_equal
  end; solve [done | lia].

(** ** Repetitions that do not overlap *)


Lemma cycles_left_infinite q : cycles_left INFINITE_REPETITION q = INFINITE_REPETITION.
Proof. done. Qed.

Lemma regular_start times : times = INFINITE_REPETITION \/ 0 < times <= INT_MAX ->
  cmtr_round 0 true (frame_command times) = Some (regular 0, regular_timing times 0 0).
Proof using HK HD.
  intros Ht. change (frame_command times) with (frame_timing 0 0 times false false).
  rewrite round_starts by (unfold INT_MAX; auto; lia). unfold regular, regular_timing. rewrite Nat.Div0.mod_0_l, cycles_left_first. simpl.
  rewrite (proj2 (Z.eqb_neq times 0)) by (unfold INFINITE_REPETITION in Ht; lia). rewrite !Z.sub_0_r, Z.max_r by lia.
  repeat f_equal. by destruct D.
Qed.

Lemma regular_step times i : (D < K)%nat ->
  let st i := regular_timing times (i / K) (i mod K) in
  finishing (st i) = false -> cmtr_round 0 false (st i) = Some (regular (S i), st (S i)).
Proof using HK HD.
  intros HDK. cbv zeta. unfold regular. set (q := (i / K)%nat). pose proof (Nat.mod_upper_bound i K ltac:(lia)) as Hr. set (r := (i mod K)%nat) in *.
  intros Hf. simpl in Hf. unfold regular_timing at 1. rewrite Hf. apply andb_false_iff in Hf as Hor.
  destruct (next_frame K i) as [(Hlt & -> & ->)|(HrK & -> & ->)]; [lia| |]; fold q r; [fold r in Hlt|fold r in HrK]; clearbody q r; unfold regular_timing.
  - rewrite (proj2 (Nat.eqb_neq (S r) 0)) by lia. destruct (Nat.ltb_spec r D) as [HrD|HrD]; [destruct (decide (S r = D)) as [HS|HS]|].
    + replace (Z.max 0 (Z.of_nat D - Z.of_nat r)) with 1 by lia. rewrite round_releases by lia.
      rewrite (proj2 (Nat.eqb_eq _ _) HS), (proj2 (Nat.leb_le D (S r))), (proj2 (Nat.ltb_ge (S r) D)), andb_true_r by lia. same_timing.
    + rewrite round_waits by (intros; lia). rewrite (proj2 (Nat.eqb_neq _ _) HS), (proj2 (Nat.leb_gt D (S r))), (proj2 (Nat.ltb_lt (S r) D)), andb_false_r by lia.
      same_timing.
    + rewrite round_waits by (intros; (done || lia)). rewrite (proj2 (Nat.eqb_neq (S r) D)), (proj2 (Nat.leb_le D (S r))), (proj2 (Nat.ltb_ge (S r) D)) by lia.
      destruct Hor as [-> |Hd%Nat.leb_gt]; [|lia]. same_timing.
  - rewrite (proj2 (Nat.ltb_ge r D)) by lia. replace (Z.max 0 (Z.of_nat D - Z.of_nat r)) with 0 by lia. replace (Z.of_nat K - Z.of_nat r) with 1 by lia.
    rewrite round_starts by (unfold INT_MAX; auto; lia). rewrite cycles_left_next. simpl. rewrite !Z.sub_0_r, Z.max_r by lia. repeat f_equal. by destruct D.
Qed.

(** The frame of the last action. *)
Lemma regular_unfinished n i : (D < K)%nat -> (0 < n)%nat -> (i < (n - 1) * K + D)%nat ->
  finishing (regular_timing (Z.of_nat n) (i / K) (i mod K)) = false.
Proof using HK.
  intros HDK Hn Hi. simpl. apply andb_false_iff. pose proof (Nat.div_mod i K ltac:(lia)) as Hdiv.
  destruct (decide (i / K < n - 1)%nat) as [Hq|Hq].
  - left. apply Z.eqb_neq. unfold cycles_left. rewrite (proj2 (Z.ltb_ge _ _)) by lia. lia.
  - right. apply Nat.leb_gt. pose proof (Nat.mul_le_mono_l (n - 1) (i / K) K ltac:(lia)). lia.
Qed.

Lemma regular_last n : (D < K)%nat -> (0 < n)%nat -> let i := ((n - 1) * K + D)%nat in
  let t := regular_timing (Z.of_nat n) (i / K) (i mod K) in finishing t = true /\ holding t = false.
Proof using HK.
  intros HDK Hn i. assert (i / K = n - 1 /\ i mod K = D)%nat as [-> ->].
  { split; symmetry; [apply (Nat.div_unique i K (n - 1) D)|apply (Nat.mod_unique i K (n - 1) D)]; unfold i; lia. }
  cbv zeta. simpl. rewrite Nat.leb_refl, Nat.ltb_irrefl. unfold cycles_left. rewrite (proj2 (Z.ltb_ge _ _)) by lia.
  split; [|done]. rewrite andb_true_r. apply Z.eqb_eq. lia.
Qed.

(** ** Repetitions that overlap *)

(** The hold is longer than the interval: a new cycle releases what the previous one holds. *)
Definition overlapping (i : nat) : list cmtr_action :=
  if (i =? 0)%nat then [Hold] else if (i mod K =? 0)%nat then [Release; Hold] else [].

Definition overlapping_timing (n q r : nat) : cmtr_timing :=
  frame_timing (Z.of_nat K - Z.of_nat r) (Z.of_nat D - Z.of_nat r) (cycles_left (Z.of_nat n) q) (n <=? q)%nat true.

Lemma overlapping_start n : (K <= D)%nat -> (0 < n)%nat ->
  cmtr_round 0 true (frame_command (Z.of_nat n)) = Some (overlapping 0, overlapping_timing n 0 0).
Proof using HK HD.
  intros HKD Hn. change (frame_command (Z.of_nat n)) with (frame_timing 0 0 (Z.of_nat n) false false).
  rewrite round_starts by (unfold INT_MAX; auto; lia). unfold overlapping_timing. rewrite cycles_left_first. simpl.
  rewrite (proj2 (Z.eqb_neq (Z.of_nat n) 0)), (proj2 (Nat.eqb_neq D 0)), (proj2 (Nat.ltb_lt 0 D)), (proj2 (Nat.leb_gt n 0)), andb_false_r by lia.
  unfold start_of_cycle. rewrite (proj2 (Nat.eqb_neq D 0)) by lia. same_timing.
Qed.

Lemma overlapping_step n i : (K <= D)%nat ->
  let st i := overlapping_timing n (i / K) (i mod K) in
  finishing (st i) = false -> cmtr_round 0 false (st i) = Some (overlapping (S i), st (S i)).
Proof using HK HD.
  intros HKD. cbv zeta. unfold overlapping. set (q := (i / K)%nat). pose proof (Nat.mod_upper_bound i K ltac:(lia)) as Hr. set (r := (i mod K)%nat) in *.
  intros Hf. simpl in Hf. unfold overlapping_timing at 1. rewrite Hf. apply Nat.leb_gt in Hf. rewrite (proj2 (Nat.eqb_neq (S i) 0)) by lia.
  destruct (next_frame K i) as [(Hlt & -> & ->)|(HrK & -> & ->)]; [lia| |]; fold q r; [fold r in Hlt|fold r in HrK]; clearbody q r; unfold overlapping_timing.
  - rewrite round_waits by (intros; lia). rewrite (proj2 (Nat.eqb_neq (S r) 0)), (proj2 (Nat.leb_gt n q)) by lia. same_timing.
  - replace (Z.of_nat K - Z.of_nat r) with 1 by lia. rewrite round_restarts by lia. rewrite cycles_left_next. cbn [Nat.eqb].
    replace (cycles_left (Z.of_nat n) q =? 0) with (n <=? S q)%nat; [same_timing|].
    unfold cycles_left. rewrite (proj2 (Z.ltb_ge _ _)) by lia. destruct (Nat.leb_spec n (S q)), (Z.eqb_spec (Z.max 0 (Z.of_nat n - Z.of_nat q - 1)) 0); lia.
Qed.
End Frames.

(** C15: CMTR repeats as it was asked to. If the frames between two
    repetitions, [K], are more than the frames to hold, [D], then
    X-Plane commands are held (triggered if [D] is 0) every [K] frames and
    released [D] frames later, exactly [n] times; then the command is finished. If
    it repeats infinitely, it never is. *)
Theorem cmtr_repeats mode req due ddue (K D n N : nat) : (D < K)%nat -> Z.of_nat K <= INT_MAX -> (0 < n)%nat -> Z.of_nat n <= INT_MAX ->
  let schedule := regular K D in
  let stop := ((n - 1) * K + D)%nat in
  (exists t, frames (frame_command mode req due ddue K D (Z.of_nat n)) (S stop + N) = Some (t, schedule <$> seq 0 (S stop)) /\
    finishing t = true /\ holding t = false) /\
  (exists t, frames (frame_command mode req due ddue K D INFINITE_REPETITION) N = Some (t, schedule <$> seq 0 N) /\ finishing t = false).
Proof.
  intros HDK HK Hn Hmax schedule stop. assert ((0 < K)%nat /\ Z.of_nat K <= INT_MAX) as HK' by lia. assert (Z.of_nat D <= INT_MAX) as HD by lia. split.
  - destruct (regular_last mode req due ddue K D HK' n HDK Hn) as [Hf Hh]. fold stop in Hf, Hh. eexists. split; [|by split].
    apply (frames_stop _ (fun i => regular_timing mode req due ddue K D (Z.of_nat n) (i / K) (i mod K)) _ stop); [|done|lia].
    apply frames_trace; [done| |].
    + rewrite Nat.Div0.div_0_l, Nat.Div0.mod_0_l. apply regular_start; [done..|]. right. lia.
    + intros i Hi. pose proof (regular_unfinished mode req due ddue K D HK' n i HDK Hn Hi) as Hu. split; [done|]. by apply regular_step.
  - destruct N as [|N]; [by eexists|]. eexists. split.
    + apply (frames_trace _ (fun i => regular_timing mode req due ddue K D INFINITE_REPETITION (i / K) (i mod K)) _ N); [done| | |done].
      * rewrite Nat.Div0.div_0_l, Nat.Div0.mod_0_l. apply regular_start; [done..|]. by left.
      * intros i _. split; [done|]. by apply regular_step.
    + done.
Qed.

Lemma cmtr_repeats_witness :
  let stop := ((3 - 1) * 5 + 2)%nat in
  (exists t, frames (frame_command CMTR_MONITOR_CYCLE false 0 0 5 2 3) (S stop + 10) = Some (t, regular 5 2 <$> seq 0 (S stop)) /\
    finishing t = true /\ holding t = false) /\
  (exists t, frames (frame_command CMTR_MONITOR_CYCLE false 0 0 5 2 INFINITE_REPETITION) 10 = Some (t, regular 5 2 <$> seq 0 10) /\ finishing t = false).
Proof. apply (cmtr_repeats CMTR_MONITOR_CYCLE false 0 0 5 2 3 10); unfold INT_MAX; lia. Defined.

Lemma overlapping_holds K n : (0 < K)%nat ->
  length (filter (fun a => a = Hold) (mjoin (overlapping K <$> seq 0 (S (n * K))))) = S n.
Proof.
  intros HK. assert (forall q j, (j < K)%nat -> length (filter (fun a => a = Hold) (mjoin (overlapping K <$> seq 0 (S (q * K + j))))) = S q) as Hq.
  { assert (forall i, length (filter (fun a => a = Hold) (overlapping K (S i))) = if (S i mod K =? 0)%nat then 1%nat else 0%nat) as H1.
    { intros i. unfold overlapping. cbn [Nat.eqb]. by destruct (S i mod K =? 0)%nat. }
    assert (forall i, length (filter (fun a => a = Hold) (mjoin (overlapping K <$> seq 0 (S (S i))))) =
      (length (filter (fun a => a = Hold) (mjoin (overlapping K <$> seq 0 (S i)))) + if (S i mod K =? 0)%nat then 1 else 0)%nat) as H2.
    { intros i. rewrite (seq_S (S i)), fmap_app, join_app, filter_app, length_app. simpl (mjoin (_ <$> [_])). rewrite app_nil_r. by rewrite H1. }
    assert (forall i, length (filter (fun a => a = Hold) (mjoin (overlapping K <$> seq 0 (S i)))) = S (i / K)) as H3.
    { intros i. induction i as [|i IH]; [by rewrite Nat.Div0.div_0_l|]. rewrite H2, IH.
      destruct (next_frame K i HK) as [(_ & -> & ->)|(_ & -> & ->)]; simpl; lia. }
    intros q j Hj. rewrite H3. f_equal. symmetry. apply (Nat.div_unique _ _ _ j); lia. }
  rewrite <-(Nat.add_0_r (n * K)). by apply Hq.
Qed.

(** If CMTR is to hold at least as long as the interval of the repetitions,
    it does so once too often: asked for [n] repetitions, it holds [n + 1] times
    (each but the first time right after a release), and finishes while it holds. *)
Theorem cmtr_overlapping_repeats mode req due ddue (K D n N : nat) :
  (0 < K)%nat -> (K <= D)%nat -> Z.of_nat D <= INT_MAX -> (0 < n)%nat ->
  let schedule := overlapping K <$> seq 0 (S (n * K)) in
  exists t, frames (frame_command mode req due ddue K D (Z.of_nat n)) (S (n * K) + N) = Some (t, schedule) /\
    finishing t = true /\ holding t = true /\ length (filter (fun a => a = Hold) (mjoin schedule)) = S n.
Proof.
  intros HK HKD HD Hn schedule. assert ((0 < K)%nat /\ Z.of_nat K <= INT_MAX) as HK' by lia.
  eexists. split; [|split; [|split; [|by apply overlapping_holds]]].
  - apply (frames_stop _ (fun i => overlapping_timing mode req due ddue K D n (i / K) (i mod K)) _ (n * K)).
    + apply frames_trace; [done| |].
      * rewrite Nat.Div0.div_0_l, Nat.Div0.mod_0_l. by apply overlapping_start.
      * intros i Hi. assert (finishing (overlapping_timing mode req due ddue K D n (i / K) (i mod K)) = false) as Hf.
        { simpl. apply Nat.leb_gt. apply Nat.Div0.div_lt_upper_bound. lia. }
        split; [exact Hf|]. by apply overlapping_step.
    + simpl. rewrite Nat.div_mul by lia. apply Nat.leb_refl.
    + lia.
  - simpl. rewrite Nat.div_mul by lia. apply Nat.leb_refl.
  - done.
Qed.

Lemma cmtr_overlapping_repeats_witness :
  let schedule := overlapping 2 <$> seq 0 (S (2 * 2)) in
  exists t, frames (frame_command CMTR_MONITOR_CYCLE false 0 0 2 3 2) (S (2 * 2) + 4) = Some (t, schedule) /\
    finishing t = true /\ holding t = true /\ length (filter (fun a => a = Hold) (mjoin schedule)) = 3%nat.
Proof. apply (cmtr_overlapping_repeats CMTR_MONITOR_CYCLE false 0 0 2 3 2 4); unfold INT_MAX; lia. Defined.
