(* ===== verification/Cmtr.v ===== *)
(** The command CMTR ([command_cmtr.c]): triggers X-Plane commands, or holds and
    releases them, in cycles. [CmtrTimers] is about the timers. *)

From S2P Require Import Prelude CLib Utils Hashmap Channels Requests Lists Prealloc TaskSchedule Network Command Session Server ServerCommands Beside XPQueue HeldCommands HeldInvariant HeldLifecycle HeldSystem CmtrTimers.

Definition CMTR_COMMAND_VERSION : Z := 1.
Definition CMTR_TASK_PHASE : Z := HELD_TASK_PHASE.
Definition cmtr_supported_options : list cstr := [lit "hold"; lit "monitor"; lit "repeatFreq"; lit "times"].

Section Cmtr.
Context {C : Type} `{Connection C}.
Abbreviation W := (world C (ext (xp_state cmtr_timing))).
Context (XPLMFindCommand : list xp_call -> cstr -> Z).
Implicit Types p : loc.

Definition timing p : M W cmtr_timing := c ← load_command p; mret (xc_timing c).
Definition update_timing p (f : cmtr_timing -> cmtr_timing) : M W unit := update_command p (fun c => set_timing (f (xc_timing c)) c).

Definition cmtr_destroy : option loc -> M W error_t := destroy_held_command.
Definition cmtr_unschedule : loc -> M W error_t := unschedule_held_command.

(** The body of the loop over the entries; counts the failures. *)
Definition cmtr_release_entry (i : loc) (entry : xp_entry) (failed_to_release : Z) : M W Z :=
  if en_held entry then
    err ← on_xpq (queue_XPLMCommandEnd (en_xp_ref entry));
    if err =? ERROR_NONE then _ ← set_entry i (set_held false entry); mret failed_to_release
    else mret (failed_to_release + 1)
  else mret failed_to_release.

(** From the loop over the entries to the check for failures. *)
Definition cmtr_release p : M W bool :=
  list ← entry_list p;
  failed_to_release ← walk_back (Z.to_nat (list_size list)) (list_tail list) cmtr_release_entry 0;
  mret (negb (0 <? failed_to_release)).

Definition cmtr_terminate : option loc -> M W error_t := terminate_held_command cmtr_release.

Definition cmtr_initialize p : M W bool :=
  found ← find_and_confirm XPLMFindCommand p;
  if negb found then mret false
  else
    _ ← update_command p set_initialized;
    mret true.

Definition for_all_xprefs_reversed p (consumer : Z -> xp_call) (holding only_if_held : bool) : M W unit :=
  list ← entry_list p;
  walk_back (Z.to_nat (list_size list)) (list_tail list)
    (fun i entry (_ : unit) =>
       _ ← when (negb only_if_held || en_held entry) (on_xpq (call_xplm (consumer (en_xp_ref entry))));
       set_entry i (set_held holding entry)) tt.

Definition notify_channel p (action may_close : bool) : M W unit :=
  c ← load_command p;
  let mode := monitor_mode (xc_timing c) in
  let should_notify := (mode =? CMTR_MONITOR_HOLD_RELEASE)
    || (Bool.eqb action CMTR_ACTION_HOLD_OR_TRIGGER && negb (mode =? CMTR_MONITOR_DISABLE)) in
  if negb should_notify then mret tt
  else
    let '(msg, may_close) :=
      if Bool.eqb action CMTR_ACTION_HOLD_OR_TRIGGER then
        if mode =? CMTR_MONITOR_CYCLE then (lit "CYCLE", may_close) else (lit "HOLD", false)
      else (lit "RELEASE", may_close) in
    _ ← (if may_close : bool then finish_channel (xc_channel_id c) CURRENT_TIME_REFERENCE (Some msg)
         else continue_channel (xc_channel_id c) CURRENT_TIME_REFERENCE (Some msg));
    mret tt.

Definition release_all_held_xprefs p (is_last_action : bool) : M W unit :=
  _ ← notify_channel p CMTR_ACTION_RELEASE is_last_action;
  _ ← for_all_xprefs_reversed p XPLMCommandEnd false true;
  update_timing p (set_holding false).

Definition hold_all_xprefs p : M W unit :=
  _ ← update_timing p (set_holding true);
  _ ← notify_channel p CMTR_ACTION_HOLD_OR_TRIGGER false;
  for_all_xprefs p XPLMCommandBegin true false.

Definition trigger_all_xprefs p (is_last_action : bool) : M W unit :=
  t ← timing p;
  if holding t then mret tt
  else
    _ ← notify_channel p CMTR_ACTION_HOLD_OR_TRIGGER is_last_action;
    _ ← for_all_xprefs p XPLMCommandOnce false false;
    notify_channel p CMTR_ACTION_RELEASE is_last_action.

(** The flight loop after the initialization. *)
Definition cmtr_cycle p (now : Z) (should_hold : bool) : M W unit :=
  t ← timing p;
  '(should_hold, t) ← from_ub (next_cycle now should_hold t);
  let '(should_release_before, t) := check_release now should_hold t in
  _ ← update_timing p (fun _ => t);
  _ ← when should_release_before (
    _ ← update_timing p begin_release;
    t ← timing p;
    release_all_held_xprefs p (finishing t));
  when should_hold (
    _ ← update_timing p (begin_cycle now);
    t ← timing p;
    if 0 <? duration t then hold_all_xprefs p else trigger_all_xprefs p (finishing t)).

Definition cmtr_process_flightloop p : M W unit :=
  c ← load_command p;
  let t := xc_timing c in
  if xc_failed c || finishing t then mret tt
  else
    now ← (if requires_time t then millis_since_reference else mret 0);
    if requires_time t && (now <? 0) then mret tt
    else if xc_initialized c then cmtr_cycle p now false
    else
      ok ← cmtr_initialize p;
      if negb ok then mret tt else cmtr_cycle p now true.

Definition cmtr_process_post p : M W unit :=
  c ← load_command p;
  if xc_failed c || finishing (xc_timing c) then _ ← cmtr_terminate (Some p); mret tt else mret tt.

Definition cmtr_process (task : loc) (phase : Z) : M W unit :=
  w ← get;
  p ← from_ub (xs_tasks (data_of w) !! task);
  if phase =? CMTR_TASK_PHASE then cmtr_process_flightloop p
  else if phase =? TASK_SCHEDULE_POST_PROCESSING then cmtr_process_post p
  else mret tt.

(** * Creation *)

(** What the options ask for, or why they are refused; the options of a request
    are never NULL here, for all have defaults. The first due time is set later. *)
Definition parse_cmtr_options (request : request_t) : option (cmtr_timing + cstr) :=
  let option name default := request_get_option (Some request) (Some (lit name)) (Some (lit default)) in
  req_duration ← option "hold"%string "0f"%string;
  if negb (is_valid_interval req_duration) then Some (inr (lit "invalid format for hold"))
  else
    let duration := atoi req_duration in
    if duration <? 0 then Some (inr (lit "invalid value for hold"))
    else
      let times := parse_times (option "times"%string "1"%string) in
      if (times <? 1) && negb (times =? INFINITE_REPETITION) then Some (inr (lit "invalid value for times"))
      else
        req_interval ← option "repeatFreq"%string "1f"%string;
        if negb (is_valid_interval req_interval) then Some (inr (lit "invalid format for repeatFreq"))
        else
          let interval := atoi req_interval in
          if interval <=? 0 then Some (inr (lit "invalid value for repeatFreq"))
          else
            let '(interval, is_interval_frames) :=
              if times =? 1 then (INT_MAX, false) else (interval, is_suffixed_frames req_interval) in
            let is_duration_frames := is_suffixed_frames req_duration in
            Some (inl (mkTiming CMTR_INVALID (negb is_interval_frames || negb is_duration_frames) interval 0 0 is_interval_frames
              duration 0 0 is_duration_frames times false false)).

(** From the options to the check of the monitor mode. An object that is not
    configured is destroyed, so all its fields are set at the end. *)
Definition cmtr_configure p (request : request_t) : M W bool :=
  let id := req_channel_id request in
  let refuse message := _ ← report id (Some message); mret false in
  options ← from_ub (parse_cmtr_options request);
  match options with
  | inr message => refuse message
  | inl t =>
      now ← (if requires_time t then millis_since_reference else mret 0);
      if requires_time t && (now <? 0) then refuse (lit "failed to retrieve session timestamp")
      else
        let due := if is_interval_frames t then 0 else now + interval t in
        let mode := parse_monitor_mode (request_get_option (Some request) (Some (lit "monitor")) (Some (lit "cycle"))) in
        if mode =? CMTR_INVALID then refuse (lit "invalid monitor option")
        else
          _ ← update_timing p (fun _ =>
            mkTiming mode (requires_time t) (interval t) due 0 (is_interval_frames t) (duration t) 0 0 (is_duration_frames t)
              (times_remaining t) false false);
          mret true
  end.

Definition cmtr_create (request : request_t) (config : command_config_t) : M W (error_t * option loc) :=
  let channel_id := req_channel_id request in
  if negb (version config =? CMTR_COMMAND_VERSION) then decline channel_id (lit "unexpected command version")
  else if negb (request_has_only_options (Some request) (Some cmtr_supported_options)) then decline channel_id (lit "unsupported options")
  else
    command ← alloc_command channel_id zero_timing;
    match command with
    | None => mret (ERROR_MEMORY_ALLOCATION, None)
    | Some p =>
        configured ← cmtr_configure p request;
        if negb configured then abandon_command p ERROR_NONE else populate_command p request
    end.

Definition cmtr_create_default_config : M W (option command_config_t) := on_env (create_command_config CMTR_COMMAND_VERSION).
Definition cmtr_merge_config (previous_config requested_changes : command_config_t) :=
  merge_featureless_config (C := C) (X := ext (xp_state cmtr_timing)) CMTR_COMMAND_VERSION requested_changes.

Definition command_cmtr : command_t W :=
  mkCommand (lit "CMTR") cmtr_create cmtr_terminate cmtr_destroy cmtr_create_default_config cmtr_merge_config.
End Cmtr.

(** * Release *)

Section Release.
Context {C : Type} `{ConnectionLaws C}.
Abbreviation W := (world C (ext (xp_state cmtr_timing))).
Implicit Types (w : W) (m : gmap loc cells) (ts : list loc).

Definition refs_of (l : cells) : list Z := en_xp_ref <$> entries_of l.

Definition nothing_held (l : cells) : bool := match held_refs l with [] => true | _ => false end.

(** The loop, from the tail up to [l1]: the entries behind have been released, but for the failures. *)
Record unholding w0 m refs ts p (l : cells) w (failures : Z) (l1 : cells) : Prop := mkUnholding {
  uh_state : exists gone l2 refs', l = l1 ++ gone /\ held_ok w (<[p := l1 ++ l2]> m) refs' ts /\
    xs_commands (data_of w) = xs_commands (data_of w0) /\ l2.*1 = gone.*1 /\ kept_entries gone l2 /\ failures = len (held_refs l2) /\
    (willing w0 -> willing w /\ refs' = refs ++ reverse (held_refs gone) /\ held_refs l2 = []);
  uh_calls : xs_calls (data_of w) = xs_calls (data_of w0);
}.

(** The list of a command that is found at [p]. *)
Lemma command_list_at w m refs ts p c l list :
  held_ok w (<[p := l]> m) refs ts -> xs_commands (data_of w) !! p = Some c -> xc_entries c = Some list ->
  represents (entries_heap w) list l /\ Forall entry_ok l.*2.
Proof.
  intros Hok Hc Hlist. destruct (command_list w _ refs ts p c l list Hok Hc (lookup_insert_eq _ _ _) Hlist) as (_ & Hr & Hv & _). by split.
Qed.

(** An entry whose release was queued is marked. *)
Lemma unhold_entry_run w m refs ts p c (l1 l2 : cells) i e list q qitems en :
  held_ok w (<[p := l1 ++ (i, Some e) :: l2]> m) refs ts ->
  xs_commands (data_of w) !! p = Some c -> xc_entries c = Some list -> en_held e = true ->
  queues_refs (queue_data (set_queue_data q qitems (data_of w))) (refs ++ [en_xp_ref e]) ->
  exists w', set_entry i (set_held false e) (with_data (set_queue_data q qitems (data_of w)) en w) = Some (tt, w') /\
    held_ok w' (<[p := l1 ++ (i, Some (set_held false e)) :: l2]> m) (refs ++ [en_xp_ref e]) ts /\
    xs_calls (data_of w') = xs_calls (data_of w) /\ xs_commands (data_of w') = xs_commands (data_of w) /\
    cs_env (w_channels w') = en /\ xs_queue (data_of w') = q /\ x_schedule (w_ext w') = x_schedule (w_ext w).
Proof.
  intros Hok Hc Hlist He Hq. set (w1 := with_data (set_queue_data q qitems (data_of w)) en w).
  destruct (command_list_at w m refs ts p c _ list Hok Hc Hlist) as [Hr Hv].
  assert (represents (entries_heap w1) list (l1 ++ (i, Some e) :: l2)) as Hr1 by exact (represents_items _ _ en _ _ Hr).
  destruct (set_entry_run w1 list l1 i e l2 (set_held false e) Hr1) as (items2 & E2 & Hr2 & Hf2). eexists. split; [exact E2|].
  split; [|done].
  rewrite <-(insert_insert_eq m p (l1 ++ (i, Some (set_held false e)) :: l2) (l1 ++ (i, Some e) :: l2)).
  set (d2 := set_items items2 (set_queue_data q qitems (data_of w))).
  change (held_ok (with_data d2 en w) (<[p := l1 ++ (i, Some (set_held false e)) :: l2]> (<[p := l1 ++ (i, Some e) :: l2]> m)) (refs ++ [en_xp_ref e]) ts).
  apply (held_ok_data _ _ w (<[p := l1 ++ (i, Some e) :: l2]> m) _ refs); [done| | |].
  - apply (data_ok_update (data_of w) d2 _ refs _ p c c (l1 ++ (i, Some e) :: l2) (l1 ++ (i, Some (set_held false e)) :: l2));
      [apply (ho_data _ _ _ _ Hok)|exact Hc|apply lookup_insert_eq|by rewrite insert_id|rewrite Hlist; exact (represents_items _ _ calm _ _ Hr2)| | | |exact Hq|].
    + rewrite fmap_app, fmap_cons, Forall_app, Forall_cons in Hv |- *. destruct Hv as (? & _ & ?). split; [done|]. split; [|done].
      by exists (set_held false e).
    + intros r. rewrite !fmap_app, !fmap_cons. auto.
    + intros r _ Hn. apply Hf2. intros ->. apply Hn. rewrite fmap_app, fmap_cons. apply elem_of_app. right. left.
    + intros rest. rewrite !held_refs_app, !held_refs_cons, He. cbn [en_held set_held]. rewrite app_nil_l. intros Hb. change (xs_calls d2) with (xs_calls (data_of w)). balance.
  - by eapply tasks_ok_same; [| |apply (ho_tasks _ _ _ _ Hok)].
  - by eapply channels_ok_same; [|apply (ho_channels _ _ _ _ Hok)].
Qed.

(** One round of the loop. *)
Lemma cmtr_release_entry_run w0 m refs ts p c list l w failures (l1 : cells) i v :
  xs_commands (data_of w0) !! p = Some c -> xc_entries c = Some list ->
  unholding w0 m refs ts p l w failures (l1 ++ [(i, v)]) ->
  exists e next, v = Some e /\ xs_items (data_of w) !! i = Some (mkItem (Some e) (final None l1) next) /\
    exists a w', cmtr_release_entry i e failures w = Some (a, w') /\ unholding w0 m refs ts p l w' a l1.
Proof.
  intros Hc0 Hlist [(gone & l2 & refs' & -> & Hok & Hcs & Hfst & Hkept & Hn & Hwi) Hcalls].
  rewrite app_between in Hok. assert (xs_commands (data_of w) !! p = Some c) as Hc by by rewrite Hcs.
  destruct (command_list_at w m refs' ts p c _ list Hok Hc Hlist) as [Hr Hv].
  pose proof (item_between _ _ _ _ _ _ _ Hr) as Hit.
  rewrite fmap_app, fmap_cons, Forall_app, Forall_cons in Hv. destruct Hv as (_ & (e & Ev & Hfound) & _). simpl in Ev. subst v.
  exists e, (first l2 None). split; [done|]. split; [exact Hit|]. unfold cmtr_release_entry.
  assert (forall w' a, held_ok w' (<[p := l1 ++ (i, Some e) :: l2]> m) refs' ts -> xs_commands (data_of w') = xs_commands (data_of w) ->
    xs_calls (data_of w') = xs_calls (data_of w) -> a = failures + len (held_refs [(i, Some e)]) -> (willing w0 -> willing w' /\ en_held e = false) ->
    unholding w0 m refs ts p ((l1 ++ [(i, Some e)]) ++ gone) w' a l1) as Hkeep.
  { intros w' a Hok' Hcs' Hca' Ha' Hwi'. split; [|congruence]. exists ((i, Some e) :: gone), ((i, Some e) :: l2), refs'.
    split; [apply app_between|]. split; [done|]. split; [congruence|]. split; [by rewrite !fmap_cons, Hfst|]. split; [by apply kept_cons|].
    split; [rewrite Ha', Hn, !held_refs_cons, !length_app; change (held_refs []) with (@nil Z); simpl; lia|].
    intros Hw. destruct (Hwi Hw) as (_ & -> & Hl2). destruct (Hwi' Hw) as [? Hh]. split; [done|].
    by rewrite !held_refs_cons, Hh, Hl2. }
  destruct (en_held e) eqn:He.
  2:{ exists failures, w. split; [done|]. apply Hkeep; [done..| |].
      - rewrite held_refs_cons, He. change (held_refs []) with (@nil Z). simpl. lia.
      - intros Hw. split; [apply (Hwi Hw)|done]. }
  destruct (queue_end_run w refs' (en_xp_ref e) (do_queue _ _ _ (ho_data _ _ _ _ Hok))) as (err & q & qitems & en & E & Hq & Hpend & Hsucc).
  erewrite bind_eq by exact E. destruct (Z.eqb_spec err ERROR_NONE) as [Herr|Herr]; red_if.
  - destruct (unhold_entry_run w m refs' ts p c l1 l2 i e list q qitems en Hok Hc Hlist He Hq)
      as (w' & E' & Hok' & Hca' & Hcs' & Henv & Hq' & Hsc).
    erewrite bind_eq by exact E'. exists failures, w'. split; [done|]. split; [|congruence].
    exists ((i, Some e) :: gone), ((i, Some (set_held false e)) :: l2), (refs' ++ [en_xp_ref e]).
    split; [apply app_between|]. split; [done|]. split; [congruence|]. split; [by rewrite !fmap_cons, Hfst|]. split; [|split; [by rewrite held_refs_cons|]].
    + split; [|by rewrite held_refs_cons, He]. intros r Hr'. change (r ∈ en_xp_ref e :: refs_of l2) in Hr'. change (r ∈ en_xp_ref e :: refs_of gone).
      rewrite elem_of_cons in Hr' |- *. destruct Hr' as [?|Hr']; [by left|right]. by apply Hkept.
    + intros Hw. destruct (Hwi Hw) as (Hww & -> & Hl2). destruct (Hsucc Hww) as (? & ? & _). split.
      { destruct Hww. split; [by rewrite Henv|by rewrite Henv|by rewrite Hsc|by rewrite Hq', Hpend]. }
      split; [|by rewrite held_refs_cons]. rewrite held_refs_cons, He, <-app_assoc. f_equal. simpl. by rewrite reverse_cons.
  - exists (failures + 1). eexists. split; [reflexivity|]. apply Hkeep; [|done|done| |].
    + apply (held_ok_data _ _ w (<[p := l1 ++ (i, Some e) :: l2]> m) _ refs'); [done| | |].
      * destruct (ho_data _ _ _ _ Hok) as [? ? ? ? ?]. by split.
      * by eapply tasks_ok_same; [| |apply (ho_tasks _ _ _ _ Hok)].
      * by eapply channels_ok_same; [|apply (ho_channels _ _ _ _ Hok)].
    + rewrite held_refs_cons, He. done.
    + intros Hw. destruct (Hsucc (proj1 (Hwi Hw))) as (_ & _ & Hs). exfalso. auto.
Qed.

Lemma cmtr_releases : releases (C := C) (P := cmtr_timing) cmtr_release nothing_held (fun _ => true).
Proof.
  intros w m refs ts p c l list Hok Hc Hl Hlist. unfold cmtr_release.
  destruct (command_list w m refs ts p c l list Hok Hc Hl Hlist) as (El & Hr & Hv & _ & Ht & Hn). erewrite bind_eq by exact El. rewrite Ht, Hn.
  destruct (walk_back_run (unholding w m refs ts p l) cmtr_release_entry) with (l1 := l) (fuel := length l) (w := w) (a := 0)
    as (a & w' & E & [(gone & l2 & refs' & Hgone & Hok' & Hcs' & Hfst & Hkept & Ha & Hwi) Hcalls]).
  - intros w1 a l1 i v. by apply (cmtr_release_entry_run w m refs ts p c list).
  - split; [|done]. exists [], [], refs. rewrite app_nil_r, insert_id by done. split; [done|]. split; [done|].
    split; [done|]. split; [done|]. split; [apply kept_entries_refl|]. split; [done|]. by rewrite app_nil_r.
  - done.
  - erewrite bind_eq by exact E. simpl in Hgone, Hok'. subst gone.
    exists w', c, list, l2, refs'. split; [|split; [done|split; [by rewrite insert_id|split; [by destruct c; simpl in *; subst|split; [done|split; [|split; [done|]]]]]]].
    + unfold nothing_held. rewrite Ha. destruct (held_refs l2) as [|x rs]; [done|].
      rewrite (proj2 (Z.ltb_lt 0 _)) by (simpl; lia). done.
    + unfold nothing_held. by destruct (held_refs l2).
    + intros Hw. destruct (Hwi Hw) as (? & ? & Hl2). split; [done|]. split; [|done]. unfold nothing_held. by rewrite Hl2.
Qed.

(** * The actions of the flight loop *)

Lemma begun_onces rs : begun (XPLMCommandOnce <$> rs) = [].
Proof. by induction rs. Qed.
Lemma ended_onces rs : ended (XPLMCommandOnce <$> rs) = [].
Proof. by induction rs. Qed.

Lemma refs_map_cells b l : refs_of (map_cells (set_held b) l) = refs_of l.
Proof. unfold refs_of. rewrite map_cells_entries, <-list_fmap_compose. done. Qed.

Lemma held_refs_map b l : held_refs (map_cells (set_held b) l) = if b then refs_of l else [].
Proof.
  unfold held_refs, refs_of. rewrite map_cells_entries. destruct b; [apply held_all_held|].
  apply none_held, Forall_fmap, Forall_true. done.
Qed.

(** Ending all that is held, the last first. *)
Lemma for_all_xprefs_reversed_run w m refs ts p c l list :
  held_ok w m refs ts -> xs_commands (data_of w) !! p = Some c -> m !! p = Some l -> xc_entries c = Some list ->
  exists w', for_all_xprefs_reversed p XPLMCommandEnd false true w = Some (tt, w') /\
    held_ok w' (<[p := map_cells (set_held false) l]> m) refs ts /\ (willing w -> willing w') /\
    xs_commands (data_of w') = xs_commands (data_of w) /\
    xs_calls (data_of w') = xs_calls (data_of w) ++ (XPLMCommandEnd <$> reverse (held_refs l)).
Proof.
  intros Hok Hc Hl Hlist. unfold for_all_xprefs_reversed.
  destruct (command_list w m refs ts p c l list Hok Hc Hl Hlist) as (El & Hr & Hv & _ & Ht & Hn). erewrite bind_eq by exact El. rewrite Ht, Hn.
  match goal with |- context [walk_back _ _ ?b _] => set (body := b) end.
  destruct (walk_back_run (fun w' (_ : unit) l1 => exists gone, l = l1 ++ gone /\
      held_ok w' (<[p := l1 ++ map_cells (set_held false) gone]> m) refs ts /\ (willing w -> willing w') /\
      xs_commands (data_of w') = xs_commands (data_of w) /\
      xs_calls (data_of w') = xs_calls (data_of w) ++ (XPLMCommandEnd <$> reverse (held_refs gone))) body)
    with (l1 := l) (fuel := length l) (w := w) (a := tt) as ([] & w' & E & gone & Hgone & Hok' & Hw' & Hcs' & Hca').
  - intros w1 [] l1 i v (gone & Hgone & Hok1 & Hw1 & Hcs1 & Hca1). rewrite app_between in Hok1.
    assert (xs_commands (data_of w1) !! p = Some c) as Hc1 by by rewrite Hcs1.
    destruct (command_list_at w1 m refs ts p c _ list Hok1 Hc1 Hlist) as [Hr1 Hv1]. pose proof (item_between _ _ _ _ _ _ _ Hr1) as Hit.
    pose proof Hv1 as Hv1'. rewrite fmap_app, fmap_cons, Forall_app, Forall_cons in Hv1'. destruct Hv1' as (Hva & (e & Ev & Hfound) & Hvb). simpl in Ev. subst v.
    exists e. eexists. split; [done|]. split; [exact Hit|].
    set (cs := if en_held e then [XPLMCommandEnd (en_xp_ref e)] else []).
    set (w2 := with_data (set_calls (xs_calls (data_of w1) ++ cs) (data_of w1)) (cs_env (w_channels w1)) w1).
    assert (when (negb true || en_held e) (on_xpq (call_xplm (XPLMCommandEnd (en_xp_ref e)))) w1 = Some (tt, w2)) as Ec.
    { unfold w2, cs. destruct (en_held e); [apply call_run|]. rewrite app_nil_r. by destruct w1 as [? [] ? [? ? ? []]]. }
    destruct (set_entry_run w2 list l1 i e (map_cells (set_held false) gone) (set_held false e) Hr1) as (items & E2 & Hr2 & Hf2).
    exists tt. eexists. split; [unfold body; erewrite bind_eq by exact Ec; exact E2|]. exists ((i, Some e) :: gone).
    split; [by rewrite Hgone, app_between|].
    pose proof (held_ok_entries w1 _ refs ts p c (l1 ++ (i, Some e) :: map_cells (set_held false) gone) list
      (l1 ++ (i, Some (set_held false e)) :: map_cells (set_held false) gone) items cs Hok1 Hc1 (lookup_insert_eq _ _ _) Hlist Hr2) as Hoe.
    rewrite insert_insert_eq in Hoe. split; [apply Hoe|split; [by intros Hww; destruct (Hw1 Hww); split|split; [exact Hcs1|]]].
    + by rewrite !fmap_app, !fmap_cons.
    + rewrite fmap_app, fmap_cons. apply Forall_app. split; [done|]. constructor; [|done]. by exists (set_held false e).
    + intros q Hq. apply Hf2. intros ->. apply Hq. rewrite fmap_app, fmap_cons. apply elem_of_app. right. left.
    + rewrite !held_refs_app, !held_refs_cons. unfold cs. cbn [en_held set_held]. destruct (en_held e); [|done].
      change (begun [XPLMCommandEnd (en_xp_ref e)]) with (@nil Z). change (ended [XPLMCommandEnd (en_xp_ref e)]) with [en_xp_ref e]. rewrite !app_nil_l. balance.
    + change (xs_calls (data_of w1) ++ cs = xs_calls (data_of w) ++ (XPLMCommandEnd <$> reverse (held_refs ((i, Some e) :: gone)))).
      rewrite Hca1, held_refs_cons, <-app_assoc, reverse_app, fmap_app. unfold cs. by destruct (en_held e).
  - exists []. simpl. rewrite !app_nil_r, insert_id by done. done.
  - done.
  - simpl in Hgone. subst gone. exists w'. split; [exact E|]. split; [exact Hok'|]. by split_and!.
Qed.
End Release.

(** * The flight loop refines [cmtr_round] *)

Section Cycle.
Context {C : Type} `{ConnectionLaws C}.
Abbreviation W := (world C (ext (xp_state cmtr_timing))).
Implicit Types (w : W) (m : gmap loc cells) (ts : list loc) (l : cells) (t : cmtr_timing).

(** The calls that an action makes for the X-Plane commands [refs]. *)
Definition action_calls (refs : list Z) (a : cmtr_action) : list xp_call :=
  match a with
  | Release => XPLMCommandEnd <$> reverse refs
  | Hold => XPLMCommandBegin <$> refs
  | Trigger => XPLMCommandOnce <$> refs
  end.

(** All X-Plane commands are held, or none, as the timers tell. *)
Definition consistent t l : Prop := held_refs l = if holding t then refs_of l else [].

(** The command at [p] has new timers and made some calls. *)
Record became w m refs ts p (c : xp_command cmtr_timing) l w' t' l' (calls : list xp_call) : Prop := mkBecame {
  bc_ok : held_ok w' (<[p := l']> m) refs ts;
  bc_commands : xs_commands (data_of w') = <[p := set_timing t' c]> (xs_commands (data_of w));
  bc_calls : xs_calls (data_of w') = xs_calls (data_of w) ++ calls;
  bc_willing : willing w -> willing w';
  bc_refs : refs_of l' = refs_of l;
}.

Lemma became_trans w m refs ts p c l w1 t1 l1 calls1 w2 t2 l2 calls2 :
  became w m refs ts p c l w1 t1 l1 calls1 ->
  became w1 (<[p := l1]> m) refs ts p (set_timing t1 c) l1 w2 t2 l2 calls2 ->
  became w m refs ts p c l w2 t2 l2 (calls1 ++ calls2).
Proof.
  intros [Hok1 Hcs1 Hca1 Hw1 Hr1] [Hok2 Hcs2 Hca2 Hw2 Hr2]. rewrite insert_insert_eq in Hok2.
  split; [done|by rewrite Hcs2, Hcs1, insert_insert_eq|by rewrite Hca2, Hca1, app_assoc|auto|congruence].
Qed.

Lemma became_command w m refs ts p c l w' t' l' calls : became w m refs ts p c l w' t' l' calls ->
  xs_commands (data_of w') !! p = Some (set_timing t' c).
Proof. intros Hb. rewrite (bc_commands _ _ _ _ _ _ _ _ _ _ _ Hb). apply lookup_insert_eq. Qed.

Lemma became_refl w m refs ts p c l : held_ok w m refs ts -> xs_commands (data_of w) !! p = Some c -> m !! p = Some l ->
  became w m refs ts p c l w (xc_timing c) l [].
Proof.
  intros Hok Hc Hl. split; [by rewrite insert_id| |by rewrite app_nil_r|done|done].
  rewrite insert_id; [done|]. rewrite Hc. by destruct c.
Qed.

Lemma timing_run w p c : xs_commands (data_of w) !! p = Some c -> timing p w = Some (xc_timing c, w).
Proof. intros Hc. unfold timing. by erewrite bind_eq by by apply load_command_eq. Qed.

Lemma update_timing_run w m refs ts p c l f : held_ok w m refs ts -> xs_commands (data_of w) !! p = Some c -> m !! p = Some l ->
  exists w', update_timing p f w = Some (tt, w') /\ became w m refs ts p c l w' (f (xc_timing c)) l [].
Proof.
  intros Hok Hc Hl. destruct (update_object_run w m refs ts p (fun c => set_timing (f (xc_timing c)) c) c Hok Hc) as (w' & E & Hok' & Hd & Hw); [done|].
  exists w'. split; [exact E|]. split; [by rewrite insert_id|by rewrite Hd|by rewrite Hd, app_nil_r|done|done].
Qed.

(** Messages change nothing. *)
Lemma notify_channel_run w m refs ts p c l action may_close :
  held_ok w m refs ts -> xs_commands (data_of w) !! p = Some c -> m !! p = Some l -> addressable (xc_channel_id c) = true ->
  exists w', notify_channel p action may_close w = Some (tt, w') /\ became w m refs ts p c l w' (xc_timing c) l [].
Proof.
  intros Hok Hc Hl Ha. unfold notify_channel. erewrite bind_eq by by apply load_command_eq. cbv zeta.
  destruct (negb _); [exists w; by split; [|apply became_refl]|].
  match goal with |- context [let '(_, _) := ?x in _] => destruct x as [msg close] end.
  assert (exists err w', (if close then finish_channel (xc_channel_id c) CURRENT_TIME_REFERENCE (Some msg)
    else continue_channel (xc_channel_id c) CURRENT_TIME_REFERENCE (Some msg)) w = Some (err, w') /\ world_ok w' /\ quiet w w') as (err & w' & E & Hw' & Hq).
  { destruct close; by apply act_run; [apply (ho_world _ _ _ _ Hok)|]. }
  erewrite bind_eq by exact E. exists w'. split; [done|]. assert (data_of w' = data_of w) as Hd by (unfold data_of; by rewrite (proj1 Hq)).
  split; rewrite ?Hd; [rewrite insert_id by done; by eapply held_ok_quiet| |by rewrite app_nil_r|by apply willing_quiet|done].
  rewrite insert_id; [done|]. rewrite Hc. by destruct c.
Qed.

(** Takes a step of a handler: [E] runs it, [Hb'] extends what became. *)
Lemma became_step w m refs ts p c l w1 t1 l1 calls1 : became w m refs ts p c l w1 t1 l1 calls1 ->
  held_ok w1 (<[p := l1]> m) refs ts /\ xs_commands (data_of w1) !! p = Some (set_timing t1 c) /\ (<[p := l1]> m) !! p = Some l1.
Proof. intros Hb. split; [apply (bc_ok _ _ _ _ _ _ _ _ _ _ _ Hb)|]. split; [by eapply became_command|apply lookup_insert_eq]. Qed.

Section Actions.
Context w m (refs : list Z) ts (p : loc) (c : xp_command cmtr_timing) l (list : list_t).
Hypothesis Hok : held_ok w m refs ts.
Hypothesis Hc : xs_commands (data_of w) !! p = Some c.
Hypothesis Hl : m !! p = Some l.
Hypothesis Hlist : xc_entries c = Some list.
Hypothesis Ha : addressable (xc_channel_id c) = true.

Lemma release_all_run is_last : consistent (xc_timing c) l -> holding (xc_timing c) = true ->
  exists w' l', release_all_held_xprefs p is_last w = Some (tt, w') /\
    became w m refs ts p c l w' (set_holding false (xc_timing c)) l' (action_calls (refs_of l) Release) /\ held_refs l' = [].
Proof using All.
  intros Hcons Hh. unfold release_all_held_xprefs. unfold consistent in Hcons. rewrite Hh in Hcons.
  destruct (notify_channel_run w m refs ts p c l CMTR_ACTION_RELEASE is_last Hok Hc Hl Ha) as (w1 & E1 & Hb1). erewrite bind_eq by exact E1.
  destruct (became_step _ _ _ _ _ _ _ _ _ _ _ Hb1) as (Hok1 & Hc1 & Hl1).
  destruct (for_all_xprefs_reversed_run w1 _ refs ts p _ l list Hok1 Hc1 Hl1 Hlist) as (w2 & E2 & Hok2 & Hw2 & Hcs2 & Hca2). erewrite bind_eq by exact E2.
  assert (became w1 (<[p := l]> m) refs ts p (set_timing (xc_timing c) c) l w2 (xc_timing c) (map_cells (set_held false) l) (action_calls (refs_of l) Release)) as Hb2.
  { split; [done| |by rewrite Hca2, Hcons|done|apply refs_map_cells]. rewrite Hcs2, insert_id; [done|]. by rewrite Hc1. }
  pose proof (became_trans _ _ _ _ _ _ _ _ _ _ _ _ _ _ _ Hb1 Hb2) as Hb12. destruct (became_step _ _ _ _ _ _ _ _ _ _ _ Hb12) as (Hok2' & Hc2 & Hl2).
  destruct (update_timing_run w2 _ refs ts p _ _ (set_holding false) Hok2' Hc2 Hl2) as (w3 & E3 & Hb3).
  exists w3, (map_cells (set_held false) l). split; [exact E3|]. split; [|apply held_refs_map].
  pose proof (became_trans _ _ _ _ _ _ _ _ _ _ _ _ _ _ _ Hb12 Hb3) as Hb. by rewrite app_nil_r, app_nil_l in Hb.
Qed.

Lemma hold_all_run : held_refs l = [] -> Forall (fun e => en_xp_ref e <> NO_XP_COMMAND) (entries_of l) ->
  exists w' l', hold_all_xprefs p w = Some (tt, w') /\
    became w m refs ts p c l w' (set_holding true (xc_timing c)) l' (action_calls (refs_of l) Hold) /\ held_refs l' = refs_of l'.
Proof using All.
  intros Hh Hfound. unfold hold_all_xprefs.
  destruct (update_timing_run w m refs ts p c l (set_holding true) Hok Hc Hl) as (w1 & E1 & Hb1). erewrite bind_eq by exact E1.
  destruct (became_step _ _ _ _ _ _ _ _ _ _ _ Hb1) as (Hok1 & Hc1 & Hl1).
  destruct (notify_channel_run w1 _ refs ts p _ l CMTR_ACTION_HOLD_OR_TRIGGER false Hok1 Hc1 Hl1 Ha) as (w2 & E2 & Hb2). erewrite bind_eq by exact E2.
  pose proof (became_trans _ _ _ _ _ _ _ _ _ _ _ _ _ _ _ Hb1 Hb2) as Hb12. destruct (became_step _ _ _ _ _ _ _ _ _ _ _ Hb12) as (Hok2 & Hc2 & Hl2).
  destruct (for_all_xprefs_run w2 _ refs ts p _ l list XPLMCommandBegin true false Hok2 Hc2 Hl2 Hlist) as (w3 & items & E3 & Hok3 & Hw3 & Hd3); [done| |].
  { rewrite begun_begins, ended_begins, Hh, app_nil_r, concerns_all, held_refs_map. done. }
  exists w3, (map_cells (set_held true) l). split; [exact E3|]. split; [|by rewrite held_refs_map, refs_map_cells].
  assert (became w2 (<[p := l]> m) refs ts p (set_timing (set_holding true (xc_timing c)) c) l w3 (set_holding true (xc_timing c))
    (map_cells (set_held true) l) (action_calls (refs_of l) Hold)) as Hb3.
  { split; [done| |rewrite Hd3; simpl; by rewrite concerns_all|done|apply refs_map_cells]. rewrite Hd3. simpl. rewrite insert_id; [done|]. by rewrite Hc2. }
  pose proof (became_trans _ _ _ _ _ _ _ _ _ _ _ _ _ _ _ Hb12 Hb3) as Hb. exact Hb.
Qed.

Lemma trigger_all_run is_last : held_refs l = [] -> holding (xc_timing c) = false ->
  exists w' l', trigger_all_xprefs p is_last w = Some (tt, w') /\
    became w m refs ts p c l w' (xc_timing c) l' (action_calls (refs_of l) Trigger) /\ held_refs l' = [].
Proof using All.
  intros Hh Hn. unfold trigger_all_xprefs. erewrite bind_eq by by apply timing_run. rewrite Hn.
  destruct (notify_channel_run w m refs ts p c l CMTR_ACTION_HOLD_OR_TRIGGER is_last Hok Hc Hl Ha) as (w1 & E1 & Hb1). erewrite bind_eq by exact E1.
  destruct (became_step _ _ _ _ _ _ _ _ _ _ _ Hb1) as (Hok1 & Hc1 & Hl1).
  destruct (for_all_xprefs_run w1 _ refs ts p _ l list XPLMCommandOnce false false Hok1 Hc1 Hl1 Hlist) as (w2 & items & E2 & Hok2 & Hw2 & Hd2); [done| |].
  { rewrite begun_onces, ended_onces, Hh, held_refs_map. done. }
  erewrite bind_eq by exact E2.
  assert (became w1 (<[p := l]> m) refs ts p (set_timing (xc_timing c) c) l w2 (xc_timing c)
    (map_cells (set_held false) l) (action_calls (refs_of l) Trigger)) as Hb2.
  { split; [done| |rewrite Hd2; simpl; by rewrite concerns_all|done|apply refs_map_cells]. rewrite Hd2. simpl. rewrite insert_id; [done|]. by rewrite Hc1. }
  pose proof (became_trans _ _ _ _ _ _ _ _ _ _ _ _ _ _ _ Hb1 Hb2) as Hb12. destruct (became_step _ _ _ _ _ _ _ _ _ _ _ Hb12) as (Hok2' & Hc2 & Hl2).
  destruct (notify_channel_run w2 _ refs ts p _ _ CMTR_ACTION_RELEASE is_last Hok2' Hc2 Hl2 Ha) as (w3 & E3 & Hb3).
  exists w3, (map_cells (set_held false) l). split; [exact E3|]. split; [|apply held_refs_map].
  pose proof (became_trans _ _ _ _ _ _ _ _ _ _ _ _ _ _ _ Hb12 Hb3) as Hb. by rewrite app_nil_r, app_nil_l in Hb.
Qed.
End Actions.

Definition all_found l : Prop := Forall (fun r => r <> NO_XP_COMMAND) (refs_of l).

(** The first half of a cycle: what is due is released. *)
Lemma cycle_release_run w m refs ts p c l list release t2 w1 :
  became w m refs ts p c l w1 t2 l [] -> xc_entries c = Some list -> addressable (xc_channel_id c) = true ->
  consistent t2 l -> (release = true -> holding t2 = true) ->
  let t3 := if release then set_holding false (begin_release t2) else t2 in
  exists w3 l3, when release (_ ← update_timing p begin_release; t ← timing p; release_all_held_xprefs p (finishing t)) w1 = Some (tt, w3) /\
    became w m refs ts p c l w3 t3 l3 ((if release then [Release] else []) ≫= action_calls (refs_of l)) /\ consistent t3 l3.
Proof.
  intros Hb Hlist Ha Hcons Hh t3. unfold t3, when. destruct release; [|by exists w1, l].
  destruct (became_step _ _ _ _ _ _ _ _ _ _ _ Hb) as (Hok1 & Hc1 & Hl1).
  destruct (update_timing_run w1 _ refs ts p _ l begin_release Hok1 Hc1 Hl1) as (w2 & E2 & Hb2). erewrite bind_eq by exact E2.
  pose proof (became_trans _ _ _ _ _ _ _ _ _ _ _ _ _ _ _ Hb Hb2) as Hb12. destruct (became_step _ _ _ _ _ _ _ _ _ _ _ Hb12) as (Hok2 & Hc2 & Hl2).
  erewrite bind_eq by by apply timing_run. cbn [xc_timing set_timing] in *.
  assert (holding (begin_release t2) = holding t2) as Hbh by (unfold begin_release; by destruct (_ =? _)).
  destruct (release_all_run w2 _ refs ts p _ l list Hok2 Hc2 Hl2 Hlist Ha (finishing (begin_release t2))) as (w3 & l3 & E3 & Hb3 & Hn3).
  { unfold consistent. cbn [xc_timing set_timing]. by rewrite Hbh. }
  { cbn [xc_timing set_timing]. rewrite Hbh. auto. }
  exists w3, l3. split; [exact E3|]. split; [|exact Hn3].
  pose proof (became_trans _ _ _ _ _ _ _ _ _ _ _ _ _ _ _ Hb12 Hb3) as Hb'. cbn [mbind list_bind]. rewrite app_nil_r. exact Hb'.
Qed.

(** The second half: a new cycle begins. *)
Lemma cycle_hold_run w m refs ts p c l list now t3 w3 l3 calls :
  became w m refs ts p c l w3 t3 l3 calls -> xc_entries c = Some list -> addressable (xc_channel_id c) = true ->
  consistent t3 l3 -> holding t3 = false -> all_found l ->
  let t4 := begin_cycle now t3 in
  exists w' l', (_ ← update_timing p (begin_cycle now); t ← timing p;
      if 0 <? duration t then hold_all_xprefs p else trigger_all_xprefs p (finishing t)) w3 = Some (tt, w') /\
    became w m refs ts p c l w' (if 0 <? duration t4 then set_holding true t4 else t4) l'
      (calls ++ action_calls (refs_of l) (if 0 <? duration t4 then Hold else Trigger)) /\
    consistent (if 0 <? duration t4 then set_holding true t4 else t4) l' /\ holding t4 = false.
Proof.
  intros Hb Hlist Ha Hcons Hh Hfound t4. destruct (became_step _ _ _ _ _ _ _ _ _ _ _ Hb) as (Hok1 & Hc1 & Hl1).
  unfold consistent in Hcons. rewrite Hh in Hcons.
  destruct (update_timing_run w3 _ refs ts p _ l3 (begin_cycle now) Hok1 Hc1 Hl1) as (w4 & E4 & Hb4). erewrite bind_eq by exact E4.
  pose proof (became_trans _ _ _ _ _ _ _ _ _ _ _ _ _ _ _ Hb Hb4) as Hb14. rewrite app_nil_r in Hb14. destruct (became_step _ _ _ _ _ _ _ _ _ _ _ Hb14) as (Hok4 & Hc4 & Hl4).
  erewrite bind_eq by by apply timing_run. cbn [xc_timing set_timing] in *. fold t4 in Hc4, Hb14 |- *.
  assert (holding t4 = false) as Hh4.
  { unfold t4, begin_cycle. destruct (0 <? times_remaining t3); cbn [duration set_times_remaining]; destruct (0 <? duration t3); try destruct (is_duration_frames _); try destruct (_ =? _); done. }
  rewrite <-(bc_refs _ _ _ _ _ _ _ _ _ _ _ Hb14).
  destruct (0 <? duration t4).
  - destruct (hold_all_run w4 _ refs ts p _ l3 list Hok4 Hc4 Hl4 Hlist Ha Hcons) as (w' & l' & E & Hb' & Hn).
    { unfold all_found in Hfound. rewrite <-(bc_refs _ _ _ _ _ _ _ _ _ _ _ Hb14) in Hfound. unfold refs_of in Hfound. by rewrite Forall_fmap in Hfound. }
    exists w', l'. split; [exact E|]. split; [|by split]. exact (became_trans _ _ _ _ _ _ _ _ _ _ _ _ _ _ _ Hb14 Hb').
  - destruct (trigger_all_run w4 _ refs ts p _ l3 list Hok4 Hc4 Hl4 Hlist Ha (finishing t4) Hcons Hh4) as (w' & l' & E & Hb' & Hn).
    exists w', l'. split; [exact E|]. split; [exact (became_trans _ _ _ _ _ _ _ _ _ _ _ _ _ _ _ Hb14 Hb')|].
    split; [|done]. unfold consistent. by rewrite Hh4.
Qed.

Lemma cycle_run w m refs ts p c l list now b :
  held_ok w m refs ts -> xs_commands (data_of w) !! p = Some c -> m !! p = Some l -> xc_entries c = Some list -> addressable (xc_channel_id c) = true ->
  timing_ok (xc_timing c) -> consistent (xc_timing c) l -> all_found l ->
  exists acts t' w' l', cmtr_round now b (xc_timing c) = Some (acts, t') /\ cmtr_cycle p now b w = Some (tt, w') /\
    became w m refs ts p c l w' t' l' (acts ≫= action_calls (refs_of l)) /\ consistent t' l'.
Proof.
  intros Hok Hc Hl Hlist Ha Htm Hcons Hfound. unfold cmtr_cycle, cmtr_round. erewrite bind_eq by by apply timing_run.
  destruct (next_cycle_ok now b (xc_timing c) Htm) as (due & t1 & E1 & Hok1 & _ & Hh1 & _). rewrite E1. erewrite bind_eq by reflexivity. cbn [mbind option_bind].
  pose proof (check_release_ok now due t1 Hok1) as H2. destruct (check_release now due t1) as [release t2].
  destruct H2 as (_ & Hh2 & _ & _ & Hr & Hd & _ & _).
  destruct (update_timing_run w m refs ts p c l (fun _ => t2) Hok Hc Hl) as (w1 & E & Hb1). erewrite bind_eq by exact E.
  assert (consistent t2 l) as Hcons2 by (unfold consistent in *; by rewrite Hh2, Hh1).
  destruct (cycle_release_run w m refs ts p c l list release t2 w1 Hb1 Hlist Ha Hcons2) as (w3 & l3 & E3 & Hb3 & Hcons3); [by intros ->; rewrite Hh2; apply Hr|].
  erewrite bind_eq by exact E3. set (t3 := if release then set_holding false (begin_release t2) else t2) in *.
  assert (forall A (f : Datatypes.list cmtr_action -> cmtr_timing -> A),
    (let '(released, t) := if release then ([Release], set_holding false (begin_release t2)) else ([], t2) in f released t) =
    f (if release then [Release] else []) t3) as Hlet by (intros; unfold t3; by destruct release).
  rewrite Hlet. clear Hlet. unfold when. destruct due; [|by exists (if release then [Release] else []), t3, w3, l3].
  assert (holding t3 = false) as Hh3.
  { unfold t3. destruct release; [done|]. rewrite Hh2. symmetry. by apply Hd. }
  destruct (cycle_hold_run w m refs ts p c l list now t3 w3 l3 _ Hb3 Hlist Ha Hcons3 Hh3 Hfound) as (w' & l' & E' & Hb' & Hcons' & Hh4). rewrite Hh4.
  destruct (0 <? duration (begin_cycle now t3)); (eexists _, _, w', l'; split; [done|]; split; [exact E'|]; split; [|exact Hcons']);
    rewrite bind_app; cbn [mbind list_bind]; rewrite app_nil_r; exact Hb'.
Qed.
End Cycle.

(** * CMTR keeps its promise *)

Section Promise.
Context {C : Type} `{ConnectionLaws C} (XPLMFindCommand : list xp_call -> cstr -> Z).
Abbreviation W := (world C (ext (xp_state cmtr_timing))).
Implicit Types (w : W) (m : gmap loc cells) (ts : list loc) (c : xp_command cmtr_timing).

(** The entries of a command are held as its timers tell, as long as it runs. *)
Record cmtr_own c (es : list xp_entry) : Prop := mkCmtrOwn {
  ow_timing : timing_ok (xc_timing c);
  ow_idle : holding (xc_timing c) = false -> held_entries es = [];
  ow_held : xc_task c <> None -> holding (xc_timing c) = true -> held_entries es = en_xp_ref <$> es;
  ow_new : xc_initialized c = false -> holding (xc_timing c) = false;
  ow_found : xc_initialized c = true -> Forall (fun r => r <> NO_XP_COMMAND) (en_xp_ref <$> es);
}.

Definition cmtr_inv w m refs ts : Prop := inv cmtr_own w m refs ts.

Lemma own_consistent c l : cmtr_own c (entries_of l) -> xc_task c <> None -> consistent (xc_timing c) l.
Proof. intros [_ Hi Hh _ _] Ht. unfold consistent, held_refs, refs_of. destruct (holding (xc_timing c)); auto. Qed.

Lemma consistent_own c l t b : consistent t l -> timing_ok t -> all_found l -> (b = false -> holding t = false) ->
  xc_initialized c = b -> xc_timing c = t -> cmtr_own c (entries_of l).
Proof.
  intros Hc Ht Hf Hb <- <-. unfold consistent, held_refs, refs_of in Hc. split; [done| | |done|done]; intros; by destruct (holding (xc_timing c)).
Qed.

(** What a cycle makes of a command that satisfies [cmtr_own]. *)
Lemma own_cycle_run w m refs ts p c l list now b :
  held_ok w m refs ts -> xs_commands (data_of w) !! p = Some c -> m !! p = Some l -> xc_entries c = Some list -> addressable (xc_channel_id c) = true ->
  cmtr_own c (entries_of l) -> xc_task c <> None -> xc_initialized c = true ->
  exists acts t' w' l', cmtr_round now b (xc_timing c) = Some (acts, t') /\ cmtr_cycle p now b w = Some (tt, w') /\
    became w m refs ts p c l w' t' l' (acts ≫= action_calls (refs_of l)) /\ cmtr_own (set_timing t' c) (entries_of l').
Proof.
  intros Hok Hc Hl Hlist Ha Hown Ht Hi. pose proof (ow_timing _ _ Hown) as Htm. pose proof (ow_found _ _ Hown Hi) as Hf.
  destruct (cycle_run w m refs ts p c l list now b Hok Hc Hl Hlist Ha Htm (own_consistent c l Hown Ht) Hf) as (acts & t' & w' & l' & Er & E & Hb & Hcons).
  exists acts, t', w', l'. split; [done|]. split; [done|]. split; [done|].
  destruct (cmtr_round_ok now b (xc_timing c) Htm) as (acts2 & t2 & Er2 & Htm' & _). rewrite Er in Er2. injection Er2 as <- <-.
  apply (consistent_own _ _ t' true Hcons Htm'); [|done|done|done]. unfold all_found. by rewrite (bc_refs _ _ _ _ _ _ _ _ _ _ _ Hb).
Qed.

Lemma initialize_run w m refs ts p c l list :
  held_ok w m refs ts -> xs_commands (data_of w) !! p = Some c -> m !! p = Some l -> xc_entries c = Some list -> addressable (xc_channel_id c) = true ->
  cmtr_own c (entries_of l) -> xc_initialized c = false ->
  exists b w' c' l', cmtr_initialize XPLMFindCommand p w = Some (b, w') /\ held_ok w' (<[p := l']> m) refs ts /\
    c' = (if b then set_initialized c else set_failed c) /\ xs_commands (data_of w') = <[p := c']> (xs_commands (data_of w)) /\
    (willing w -> willing w') /\ xs_calls (data_of w') = xs_calls (data_of w) /\ cmtr_own c' (entries_of l') /\
    (b = true -> refs_of l' = (fun e => XPLMFindCommand (xs_calls (data_of w)) (en_name e)) <$> entries_of l).
Proof.
  intros Hok Hc Hl Hlist Ha Hown Hi. unfold cmtr_initialize. pose proof (ow_new _ _ Hown Hi) as Hh. pose proof (ow_idle _ _ Hown Hh) as Hn.
  destruct (find_and_confirm_run XPLMFindCommand w m refs ts p c l list Hok Hc Hl Hlist Ha Hn) as (b & w1 & l1 & E1 & Hok1 & Hes1 & Hb & Hw1 & Hca1 & _ & Hcs1).
  erewrite bind_eq by exact E1.
  assert (held_refs l1 = []) as Hn1 by (unfold held_refs; rewrite Hes1; by apply found_entries_none).
  destruct b; red_if.
  - destruct (found_entries_all _ _ _ (Hb eq_refl)) as [Hfound Hall]. rewrite Hfound in Hes1.
    assert (refs_of l1 = (fun e => XPLMFindCommand (xs_calls (data_of w)) (en_name e)) <$> entries_of l) as Hrefs.
    { unfold refs_of. by rewrite Hes1, <-list_fmap_compose. }
    assert (xs_commands (data_of w1) !! p = Some c) as Hc1 by by rewrite Hcs1.
    destruct (update_object_run w1 _ _ _ p set_initialized c Hok1 Hc1) as (w2 & E2 & Hok2 & Hd2 & Hw2); [done|]. erewrite bind_eq by exact E2.
    exists true, w2, (set_initialized c), l1. split; [done|]. split; [done|]. split; [done|]. rewrite Hd2. split; [simpl; by rewrite Hcs1|].
    split; [auto|]. split; [done|]. split; [|done].
    apply (consistent_own _ _ (xc_timing c) true); [unfold consistent; by rewrite Hh|apply Hown| |done|done|done].
    unfold all_found. rewrite Hrefs, Forall_fmap. exact Hall.
  - exists false, w1, (set_failed c), l1. split; [done|]. split; [done|]. split; [done|]. split; [done|]. split; [done|]. split; [done|]. split; [|done].
    destruct Hown as [Htm _ _ _ _]. split; simpl; [done|done|by rewrite Hh|done|by rewrite Hi].
Qed.

(** The flight loop: it does nothing, or fails to initialize the command, or does
    what [cmtr_round] says. *)
Lemma cmtr_flightloop_run w m refs ts p c l :
  cmtr_inv w m refs ts -> xs_commands (data_of w) !! p = Some c -> m !! p = Some l -> addressable (xc_channel_id c) = true -> xc_task c <> None ->
  exists w' c' l', cmtr_process_flightloop XPLMFindCommand p w = Some (tt, w') /\ held_ok w' (<[p := l']> m) refs ts /\
    xs_commands (data_of w') = <[p := c']> (xs_commands (data_of w)) /\ (willing w -> willing w') /\ is_Some (xc_entries c') /\
    cmtr_own c' (entries_of l') /\
    ((xs_calls (data_of w') = xs_calls (data_of w) /\ (c' = c \/ c' = set_failed c /\ xc_initialized c = false) /\
       xc_failed c || finishing (xc_timing c) || requires_time (xc_timing c) || negb (xc_initialized c) = true) \/
     (exists now acts t', (if requires_time (xc_timing c) then 0 <= now else now = 0) /\
       cmtr_round now (negb (xc_initialized c)) (xc_timing c) = Some (acts, t') /\ c' = set_timing t' (set_initialized c) /\
       refs_of l' = (if xc_initialized c then refs_of l else (fun e => XPLMFindCommand (xs_calls (data_of w)) (en_name e)) <$> entries_of l) /\
       xs_calls (data_of w') = xs_calls (data_of w) ++ (acts ≫= action_calls (refs_of l')) /\ xc_failed c || finishing (xc_timing c) = false)).
Proof.
  intros [Hok Hownall] Hc Hl Ha Htask. destruct (Hownall p c l Hc Hl) as [[list Hlist] Hown].
  assert (forall w', quiet w w' -> world_ok w' -> exists w2 c' l', Some (tt, w') = Some (tt, w2) /\ held_ok w2 (<[p := l']> m) refs ts /\
    xs_commands (data_of w2) = <[p := c']> (xs_commands (data_of w)) /\ (willing w -> willing w2) /\ is_Some (xc_entries c') /\ cmtr_own c' (entries_of l') /\
    xs_calls (data_of w2) = xs_calls (data_of w) /\ c' = c) as Hquiet.
  { intros w' Hq Hw'. assert (data_of w' = data_of w) as Hd by (unfold data_of; by rewrite (proj1 Hq)). exists w', c, l.
    rewrite Hd, !insert_id by done. split; [done|]. split; [by eapply held_ok_quiet|]. split; [done|]. split; [by apply willing_quiet|]. split; [by rewrite Hlist|done]. }
  assert (forall w', xc_failed c || finishing (xc_timing c) || requires_time (xc_timing c) || negb (xc_initialized c) = true -> quiet w w' -> world_ok w' -> exists w2 c' l', Some (tt, w') = Some (tt, w2) /\ held_ok w2 (<[p := l']> m) refs ts /\
    xs_commands (data_of w2) = <[p := c']> (xs_commands (data_of w)) /\ (willing w -> willing w2) /\ is_Some (xc_entries c') /\ cmtr_own c' (entries_of l') /\
    ((xs_calls (data_of w2) = xs_calls (data_of w) /\ (c' = c \/ c' = set_failed c /\ xc_initialized c = false) /\
       xc_failed c || finishing (xc_timing c) || requires_time (xc_timing c) || negb (xc_initialized c) = true) \/
     (exists now acts t', (if requires_time (xc_timing c) then 0 <= now else now = 0) /\
       cmtr_round now (negb (xc_initialized c)) (xc_timing c) = Some (acts, t') /\ c' = set_timing t' (set_initialized c) /\
       refs_of l' = (if xc_initialized c then refs_of l else (fun e => XPLMFindCommand (xs_calls (data_of w)) (en_name e)) <$> entries_of l) /\
       xs_calls (data_of w2) = xs_calls (data_of w) ++ (acts ≫= action_calls (refs_of l')) /\ xc_failed c || finishing (xc_timing c) = false))) as Hnothing.
  { intros w' Hidle Hq Hw'. destruct (Hquiet w' Hq Hw') as (w2 & c' & l' & ? & ? & ? & ? & ? & ? & ? & ?). exists w2, c', l'. split_and!; auto. }
  clear Hquiet. unfold cmtr_process_flightloop. erewrite bind_eq by by apply load_command_eq. cbv zeta.
  destruct (xc_failed c || finishing (xc_timing c)) eqn:Hdone; [apply Hnothing; [by rewrite ?Hdone|reflexivity|apply (ho_world _ _ _ _ Hok)]|].
  assert (exists now w1, (if requires_time (xc_timing c) then millis_since_reference else mret 0) w = Some (now, w1) /\ quiet w w1 /\ world_ok w1 /\
    (requires_time (xc_timing c) = false -> now = 0)) as (now & w1 & E1 & Hq1 & Hw1 & Hnow).
  { destruct (requires_time (xc_timing c)).
    - destruct (millis_run w) as (now & e & E & _). exists now, (with_env e w). split; [done|]. split; [by eapply quiet_millis_since_reference|].
      split; [|done]. by destruct (ho_world _ _ _ _ Hok).
    - exists 0, w. split; [done|]. split; [reflexivity|]. split; [apply (ho_world _ _ _ _ Hok)|done]. }
  erewrite bind_eq by exact E1. destruct (requires_time (xc_timing c) && (now <? 0)) eqn:Hneg.
  { apply Hnothing; [|done..]. apply andb_true_iff in Hneg as [-> _]. by rewrite orb_true_r. }
  clear Hnothing.
  assert (if requires_time (xc_timing c) then 0 <= now else now = 0) as Hnow'.
  { destruct (requires_time (xc_timing c)); [by apply Z.ltb_ge in Hneg|auto]. }
  pose proof (held_ok_quiet _ _ _ _ _ Hq1 Hw1 Hok) as Hok1. assert (data_of w1 = data_of w) as Hd1 by (unfold data_of; by rewrite (proj1 Hq1)).
  assert (xs_commands (data_of w1) !! p = Some c) as Hc1 by by rewrite Hd1. pose proof (willing_quiet _ _ Hq1) as Hwi1.
  destruct (xc_initialized c) eqn:Hi.
  - destruct (own_cycle_run w1 m refs ts p c l list now false Hok1 Hc1 Hl Hlist Ha Hown Htask Hi) as (acts & t' & w2 & l' & Er & E2 & [Hok2 Hcs2 Hca2 Hwi2 Hr2] & Hown').
    exists w2, (set_timing t' c), l'. split; [exact E2|]. split; [done|]. rewrite Hd1 in Hcs2, Hca2. split; [done|]. split; [auto|]. split; [by simpl; rewrite Hlist|].
    split; [done|]. right. exists now, acts, t'. split; [done|]. split; [done|]. split; [destruct c; simpl in *; by subst|]. by rewrite Hr2.
  - destruct (initialize_run w1 m refs ts p c l list Hok1 Hc1 Hl Hlist Ha Hown Hi) as (b & w2 & c2 & l2 & E2 & Hok2 & Hc2 & Hcs2 & Hwi2 & Hca2 & Hown2 & Hrefs2).
    rewrite Hd1 in Hcs2, Hca2, Hrefs2. erewrite bind_eq by exact E2. destruct b; red_if; subst c2.
    2:{ exists w2, (set_failed c), l2. split; [done|]. split; [done|]. split; [done|]. split; [auto|]. split; [by simpl; rewrite Hlist|]. split; [done|]. left. rewrite orb_true_r. auto. }
    assert (xs_commands (data_of w2) !! p = Some (set_initialized c)) as Hc2 by (rewrite Hcs2; apply lookup_insert_eq).
    destruct (own_cycle_run w2 _ refs ts p (set_initialized c) l2 list now true Hok2 Hc2 (lookup_insert_eq _ _ _) Hlist Ha Hown2 Htask eq_refl)
      as (acts & t' & w3 & l' & Er & E3 & [Hok3 Hcs3 Hca3 Hwi3 Hr3] & Hown').
    rewrite insert_insert_eq in Hok3. rewrite Hcs2, insert_insert_eq in Hcs3. rewrite Hca2 in Hca3.
    exists w3, (set_timing t' (set_initialized c)), l'. split; [exact E3|]. split; [done|]. split; [done|]. split; [auto|]. split; [by simpl; rewrite Hlist|].
    split; [done|]. right. exists now, acts, t'. split; [done|]. split; [done|]. split; [done|]. rewrite Hr3, Hrefs2 by done. rewrite Hrefs2 in Hca3 by done. by split.
Qed.

(** ** Creation *)

Lemma option_given request name default : exists s, request_get_option (Some request) (Some (lit name)) (Some (lit default)) = Some s.
Proof. simpl. destruct (find_option _ _); by eexists. Qed.

Lemma atoi_in_int s : in_int (atoi s).
Proof. apply wrap_s_in_int. Qed.

Lemma parse_options_run request : exists r, parse_cmtr_options request = Some r /\ forall t, r = inl t -> timing_ok t /\ holding t = false.
Proof.
  unfold parse_cmtr_options. destruct (option_given request "hold" "0f") as [hold ->]. destruct (option_given request "repeatFreq" "1f") as [freq ->].
  cbn [mbind option_bind]. set (times := parse_times _). destruct (negb _); [by eexists|]. destruct (Z.ltb_spec (atoi hold) 0); [by eexists|].
  destruct ((times <? 1) && _) eqn:Ht; [by eexists|]. destruct (negb (is_valid_interval freq)); [by eexists|].
  destruct (Z.leb_spec (atoi freq) 0); [by eexists|].
  pose proof (atoi_in_int hold) as [_ ?]. pose proof (atoi_in_int freq) as [_ ?].
  assert (times = INFINITE_REPETITION \/ 0 <= times <= INT_MAX) as Htimes.
  { apply andb_false_iff in Ht as [?%Z.ltb_ge|?%negb_false_iff]; [right|left; by apply Z.eqb_eq]. split; [lia|].
    unfold times, parse_times. case_match; [|unfold INT_MAX; lia]. destruct (str_eq _ _); [unfold INFINITE_REPETITION, INT_MAX; lia|apply atoi_in_int]. }
  destruct (times =? 1); (eexists; split; [done|]; intros t [= <-]; split; [|done]; split; simpl; try done; try lia; unfold INT_MAX; lia).
Qed.

Lemma configure_run w m refs ts p c request :
  fresh_command w m refs ts p c -> addressable (req_channel_id request) = true ->
  exists b w', cmtr_configure p request w = Some (b, w') /\
    if b : bool then exists t, timing_ok t /\ holding t = false /\ fresh_command w' m refs ts p (set_timing t c) /\
      data_of w' = set_commands (<[p := set_timing t c]> (xs_commands (data_of w))) (data_of w)
    else quiet w w' /\ world_ok w'.
Proof.
  intros [Hok Hc Hl Ht] Ha. unfold cmtr_configure. destruct (parse_options_run request) as (r & -> & Hr). erewrite bind_eq by reflexivity.
  assert (forall w1 message, quiet w w1 -> world_ok w1 -> exists b w', (_ ← report (req_channel_id request) (Some message); mret false) w1 = Some (b, w') /\
    if b : bool then exists t, timing_ok t /\ holding t = false /\ fresh_command w' m refs ts p (set_timing t c) /\
      data_of w' = set_commands (<[p := set_timing t c]> (xs_commands (data_of w))) (data_of w)
    else quiet w w' /\ world_ok w') as Hrefuse.
  { intros w1 message Hq1 Hw1. destruct (report_run w1 (req_channel_id request) (Some message) Hw1 Ha) as (e & w2 & E & Hw2 & Hq2).
    erewrite bind_eq by exact E. exists false, w2. split; [done|]. split; [by transitivity w1|done]. }
  destruct r as [t|message]; [|apply Hrefuse; [reflexivity|apply (ho_world _ _ _ _ Hok)]]. destruct (Hr t eq_refl) as [Htm Hh].
  assert (exists now w1, (if requires_time t then millis_since_reference else mret 0) w = Some (now, w1) /\ quiet w w1 /\ world_ok w1) as (now & w1 & E1 & Hq1 & Hw1).
  { destruct (requires_time t).
    - destruct (millis_run w) as (now & e & E & _). exists now, (with_env e w). split; [done|]. split; [by eapply quiet_millis_since_reference|]. by destruct (ho_world _ _ _ _ Hok).
    - exists 0, w. split; [done|]. split; [reflexivity|]. apply (ho_world _ _ _ _ Hok). }
  erewrite bind_eq by exact E1. destruct (requires_time t && _); [by apply Hrefuse|]. cbv zeta.
  set (mode := parse_monitor_mode _). destruct (mode =? CMTR_INVALID); [by apply Hrefuse|]. clear Hrefuse.
  pose proof (held_ok_quiet _ _ _ _ _ Hq1 Hw1 Hok) as Hok1. assert (data_of w1 = data_of w) as Hd1 by (unfold data_of; by rewrite (proj1 Hq1)).
  unfold update_timing. set (t' := mkTiming mode _ _ _ _ _ _ _ _ _ _ _ _).
  destruct (update_object_run w1 _ refs ts p (fun c => set_timing t' c) c Hok1) as (w2 & E2 & Hok2 & Hd2 & _); [by rewrite Hd1|done|].
  erewrite bind_eq by exact E2. exists true, w2. split; [done|]. exists t'.
  split; [destruct Htm; split; simpl in *; try done; lia|]. split; [done|]. rewrite Hd2, Hd1. split; [|done].
  split; [done| |exact Hl|exact Ht]. rewrite Hd2, Hd1. apply lookup_insert_eq.
Qed.

Lemma terminate_inv w m refs ts p c : cmtr_inv w m refs ts -> xs_commands (data_of w) !! p = Some c -> addressable (xc_channel_id c) = true ->
  exists err w' m' refs' ts', cmtr_terminate (Some p) w = Some (err, w') /\ cmtr_inv w' m' refs' ts'.
Proof.
  intros Hi Hc Ha. destruct (data_cells _ _ _ _ _ (ho_data _ _ _ _ (inv_held _ _ _ _ _ Hi)) Hc) as [l Hl].
  destruct (inv_own _ _ _ _ _ Hi p c l Hc Hl) as [[list Hlist] Hown].
  destruct (terminate_run cmtr_release nothing_held (fun _ => true) w m refs ts p c l list cmtr_releases (inv_held _ _ _ _ _ Hi) Hc Hl Hlist Ha)
    as (err & w' & m' & refs' & ts' & E & Hok' & _ & Hm & Hcs & (c' & l' & Hc' & Hl' & Hs' & [[Hkr Hkh] Hsame] & Hinit' & _ & Htm' & _)).
  exists err, w', m', refs', ts'. split; [exact E|]. eapply inv_update; [exact Hi|exact Hok'|exact Hm|exact Hcs|].
  intros c2 l2 Hc2 Hl2. assert (c2 = c') as -> by congruence. assert (l2 = l') as -> by congruence. split; [done|].
  destruct Hsame as [Hnone|[-> ->]]; [|done]. destruct Hown as [Htm Hidle _ Hnew Hfound].
  split; rewrite ?Htm', ?Hinit', ?Hnone; [done| |done|done|].
  - intros Hh. apply Hkh. by apply Hidle.
  - intros Hin. specialize (Hfound Hin). rewrite Forall_forall in Hfound |- *. intros r Hr. by apply Hfound, Hkr.
Qed.

Definition cmtr_held : held_command C cmtr_timing := mkHeldCommand C cmtr_timing cmtr_create cmtr_terminate (cmtr_process XPLMFindCommand).

Lemma create_inv w m refs ts request config : cmtr_inv w m refs ts -> addressable (req_channel_id request) = true ->
  exists r w' m' ts', cmtr_create request config w = Some (r, w') /\ cmtr_inv w' m' refs ts'.
Proof.
  intros Hi Ha. unfold cmtr_create.
  assert (forall message, exists r w' m' ts', decline (req_channel_id request) message w = Some (r, w') /\ cmtr_inv w' m' refs ts') as Hdecline.
  { intros message. destruct (report_run w (req_channel_id request) (Some message) (ho_world _ _ _ _ (inv_held _ _ _ _ _ Hi)) Ha) as (e & w' & E & Hw' & Hq).
    unfold decline. erewrite bind_eq by exact E. eexists _, w', m, ts. split; [done|]. by eapply inv_quiet. }
  destruct (negb _); [apply Hdecline|]. destruct (negb _); [apply Hdecline|].
  destruct (alloc_command_run w m refs ts (req_channel_id request) zero_timing (inv_held _ _ _ _ _ Hi)) as (r & w1 & E1 & _ & Hr).
  erewrite bind_eq by exact E1. destruct r as [p|].
  2:{ destruct Hr as [Hok1 Hd1]. eexists _, w1, m, ts. split; [done|]. split; [done|]. rewrite Hd1. apply Hi. }
  destruct Hr as (Hm & Hp & Hf & Hd1). set (c := mkXpCommand _ _ _ _ _ _) in *.
  destruct (configure_run w1 m refs ts p c request Hf Ha) as (b & w2 & E2 & Hb). erewrite bind_eq by exact E2. destruct b; red_if.
  - destruct Hb as (t & Htm & Hh & Hf2 & Hd2).
    destruct (populate_run w2 m refs ts p (set_timing t c) request Hf2 Hm Ha Ha) as (err & ref & w3 & E3 & _ & Hres). erewrite E3.
    destruct (err =? ERROR_NONE).
    + destruct Hres as (-> & task & l & list & names & Hok3 & Hcs3 & Hes & _). eexists _, w3, _, _. split; [done|].
      eapply (inv_update cmtr_own w w3 m _ _ _ _ _ p Hi Hok3); [by rewrite delete_insert_eq| |].
      * rewrite Hcs3, Hd2, Hd1. simpl. by rewrite !delete_insert_eq.
      * intros c2 l2. rewrite Hcs3, !lookup_insert_eq. intros [= <-] [= <-]. split; [by eexists|].
        split; simpl; [done|intros _; rewrite Hes; apply held_new|by rewrite Hh|done|done].
    + destruct Hres as (-> & Hok3 & Hcs3 & _). eexists _, w3, _, _. split; [done|].
      split; [exact Hok3|]. rewrite Hcs3, Hd2, Hd1. simpl. rewrite !delete_insert_eq, delete_id by done. apply Hi.
  - destruct Hb as [Hq2 Hw2].
    destruct (abandon_run w1 w2 m refs ts p [] ERROR_NONE (fresh_unfinished _ _ _ _ _ _ _ Hf Hq2 Hw2) Hm) as (err & w3 & E3 & _ & Hok3 & _ & Hcs3 & _).
    rewrite E3. eexists _, w3, m, ts. split; [done|]. split; [exact Hok3|]. rewrite Hcs3, Hd1. simpl. rewrite delete_insert_id by done. apply Hi.
Qed.

#[export] Instance cmtr_held_command : HeldCommand cmtr_held cmtr_own.
Proof.
  split; cbn [hc_create hc_terminate hc_process cmtr_held]; [apply create_inv|apply terminate_inv|].
  intros w m refs ts t p c phase Hi Ht Hc Htask. unfold cmtr_process. erewrite bind_eq by reflexivity.
  erewrite bind_eq by (unfold from_ub; rewrite Ht; reflexivity).
  pose proof (inv_held _ _ _ _ _ Hi) as Hok. pose proof (ho_channels _ _ _ _ Hok p c t Hc Htask) as Ha.
  destruct (data_cells _ _ _ _ _ (ho_data _ _ _ _ Hok) Hc) as [l Hl].
  destruct (phase =? CMTR_TASK_PHASE); [|destruct (phase =? TASK_SCHEDULE_POST_PROCESSING); [|by exists w, m, refs, ts]].
  - destruct (cmtr_flightloop_run w m refs ts p c l Hi Hc Hl Ha) as (w' & c' & l' & E & Hok' & Hcs & _ & Hs & Hown & _); [by rewrite Htask|].
    eexists w', _, _, _. split; [exact E|]. eapply inv_update; [exact Hi|exact Hok'|by rewrite delete_insert_eq|by rewrite Hcs, delete_insert_eq|].
    intros c2 l2. rewrite Hcs, !lookup_insert_eq. by intros [= <-] [= <-].
  - unfold cmtr_process_post. erewrite bind_eq by by apply load_command_eq. destruct (_ || _); [|by exists w, m, refs, ts].
    destruct (terminate_inv w m refs ts p c Hi Hc Ha) as (err & w' & m' & refs' & ts' & E & Hi'). erewrite bind_eq by exact E. by eexists _, _, _, _.
Qed.
End Promise.

(** * What CMTR does *)

(** The X-Plane commands of a command: those found before, or now. *)
Definition xplane_refs (XPLMFindCommand : list xp_call -> cstr -> Z) (calls : list xp_call) (c : xp_command cmtr_timing) (es : list xp_entry) : list Z :=
  if xc_initialized c then en_xp_ref <$> es else (fun e => XPLMFindCommand calls (en_name e)) <$> es.

(** The flight loop of CMTR does what the specification of its timers says.
    It may do nothing only if the command has failed or finished, if it needs the
    time (which may not be available), or if it cannot be initialized; otherwise
    the calls X-Plane gets are those of the actions of one round, for all
    X-Plane commands of the request (ends in reverse order), and the timers are
    those after the round. *)
Theorem cmtr_flightloop_refines {C} `{ConnectionLaws C} XPLMFindCommand (w0 w : world C (ext (xp_state cmtr_timing))) p c t list l :
  started w0 -> rtc (step (cmtr_held XPLMFindCommand)) w0 w ->
  xs_commands (data_of w) !! p = Some c -> xc_task c = Some t -> xc_entries c = Some list -> represents (entries_heap w) list l ->
  exists w' c', cmtr_process_flightloop XPLMFindCommand p w = Some (tt, w') /\ xs_commands (data_of w') !! p = Some c' /\
    ((xs_calls (data_of w') = xs_calls (data_of w) /\ xc_timing c' = xc_timing c /\
       xc_failed c || finishing (xc_timing c) || requires_time (xc_timing c) || negb (xc_initialized c) = true) \/
     (exists now acts, (if requires_time (xc_timing c) then 0 <= now else now = 0) /\
       cmtr_round now (negb (xc_initialized c)) (xc_timing c) = Some (acts, xc_timing c') /\ xc_initialized c' = true /\
       xs_calls (data_of w') = xs_calls (data_of w) ++
         (acts ≫= action_calls (xplane_refs XPLMFindCommand (xs_calls (data_of w)) c (entries_of l))))).
Proof.
  intros Hst Hsteps Hc Htask Hlist Hr.
  destruct (steps_inv (cmtr_held XPLMFindCommand) cmtr_own w0 w _ _ _ Hsteps (started_inv _ _ Hst)) as (m & refs & ts & Hi).
  pose proof (entries_known cmtr_own w m refs ts p c list l Hi Hc Hlist Hr) as Hl.
  pose proof (ho_channels _ _ _ _ (inv_held _ _ _ _ _ Hi) p c t Hc Htask) as Ha.
  destruct (cmtr_flightloop_run XPLMFindCommand w m refs ts p c l Hi Hc Hl Ha) as (w' & c' & l' & E & _ & Hcs & _ & _ & _ & Hcases); [by rewrite Htask|].
  exists w', c'. split; [done|]. split; [by rewrite Hcs, lookup_insert_eq|].
  destruct Hcases as [(Hca & Hsame & Hidle)|(now & acts & t' & Hnow & Er & -> & Hrefs & Hca & _)].
  - left. split; [done|]. split; [|done]. by destruct Hsame as [-> |[-> _]].
  - right. exists now, acts. split; [done|]. split; [done|]. split; [done|]. rewrite Hca, Hrefs. done.
Qed.

(** ** Flight loops in a row *)

Fixpoint flightloops {C} `{Connection C} (XPLMFindCommand : list xp_call -> cstr -> Z) (p : loc) (n : nat) : M (world C (ext (xp_state cmtr_timing))) unit :=
  match n with
  | O => mret tt
  | S n' => _ ← flightloops XPLMFindCommand p n'; cmtr_process_flightloop XPLMFindCommand p
  end.

(** What a command that runs by frames looks like between flight loops. *)
Record running {C} `{ConnectionLaws C} (w : world C (ext (xp_state cmtr_timing))) m refs ts p c l (rs : list Z) : Prop := mkRunning {
  rn_inv : cmtr_inv w m refs ts;
  rn_command : xs_commands (data_of w) !! p = Some c;
  rn_cells : m !! p = Some l;
  rn_channel : addressable (xc_channel_id c) = true;
  rn_task : xc_task c <> None;
  rn_failed : xc_failed c = false;
  rn_frames : requires_time (xc_timing c) = false;
  rn_refs : refs_of l = rs;
}.

Lemma running_step {C} `{ConnectionLaws C} XPLMFindCommand w m refs ts p c l rs :
  running w m refs ts p c l rs -> xc_initialized c = true ->
  exists w' l' t', cmtr_process_flightloop XPLMFindCommand p w = Some (tt, w') /\ running w' (<[p := l']> m) refs ts p (set_timing t' c) l' rs /\
    if finishing (xc_timing c) then t' = xc_timing c /\ xs_calls (data_of w') = xs_calls (data_of w)
    else exists acts, cmtr_round 0 false (xc_timing c) = Some (acts, t') /\ xs_calls (data_of w') = xs_calls (data_of w) ++ (acts ≫= action_calls rs).
Proof.
  intros [Hi Hc Hl Ha Htask Hf Hrt Hrs] Hinit.
  destruct (cmtr_flightloop_run XPLMFindCommand w m refs ts p c l Hi Hc Hl Ha Htask) as (w' & c' & l' & E & Hok' & Hcs & _ & Hs & Hown & Hcases).
  destruct (finishing (xc_timing c)) eqn:Hfin.
  - assert (cmtr_process_flightloop XPLMFindCommand p w = Some (tt, w)) as E'.
    { unfold cmtr_process_flightloop. erewrite bind_eq by by apply load_command_eq. by rewrite Hfin, orb_true_r. }
    exists w, l, (xc_timing c). split; [done|]. split; [|done]. rewrite insert_id by done. by replace (set_timing (xc_timing c) c) with c by by destruct c.
  - destruct Hcases as [(_ & _ & Hidle)|(now & acts & t' & Hnow & Er & -> & Hrefs & Hca & _)]; [by rewrite Hf, Hrt, Hinit in Hidle|].
    rewrite Hrt in Hnow. subst now. rewrite Hinit in Er, Hrefs. simpl in Er.
    replace (set_timing t' (set_initialized c)) with (set_timing t' c) in * by (destruct c; simpl in *; by subst).
    exists w', l', t'. split; [done|]. rewrite Hrefs, Hrs in Hca. split; [|by exists acts].
    destruct (cmtr_round_ok 0 false (xc_timing c) (ow_timing _ _ (proj2 (inv_own _ _ _ _ _ Hi p c l Hc Hl)))) as (acts2 & t2 & Er2 & _ & Ho & _).
    rewrite Er in Er2. injection Er2 as <- <-. injection Ho as _ Hrt' _ _ _ _.
    split; simpl; [|by rewrite Hcs, lookup_insert_eq|apply lookup_insert_eq|done|done|done|congruence|congruence].
    eapply inv_update; [exact Hi|exact Hok'|by rewrite delete_insert_eq|by rewrite Hcs, delete_insert_eq|].
    intros c2 l2. rewrite Hcs, !lookup_insert_eq. by intros [= <-] [= <-].
Qed.

(** C14: Flight loop after flight loop, a CMTR whose options are in frames
    makes X-Plane the calls of its schedule, and no others: if the first flight
    loop initializes it, then [n] flight loops make the calls of the actions
    that [frames] lists ([cmtr_repeats] tells which). *)
Theorem cmtr_flightloops_refine {C} `{ConnectionLaws C} XPLMFindCommand (w0 w : world C (ext (xp_state cmtr_timing))) p c t list l w1 c1 n :
  started w0 -> rtc (step (cmtr_held XPLMFindCommand)) w0 w ->
  xs_commands (data_of w) !! p = Some c -> xc_task c = Some t -> xc_entries c = Some list -> represents (entries_heap w) list l ->
  xc_failed c = false -> finishing (xc_timing c) = false -> requires_time (xc_timing c) = false -> xc_initialized c = false ->
  cmtr_process_flightloop XPLMFindCommand p w = Some (tt, w1) -> xs_commands (data_of w1) !! p = Some c1 -> xc_initialized c1 = true ->
  exists w' t' done, flightloops XPLMFindCommand p (S n) w = Some (tt, w') /\ frames (xc_timing c) (S n) = Some (t', done) /\
    xc_timing <$> xs_commands (data_of w') !! p = Some t' /\
    xs_calls (data_of w') = xs_calls (data_of w) ++
      (mjoin done ≫= action_calls ((fun e => XPLMFindCommand (xs_calls (data_of w)) (en_name e)) <$> entries_of l)).
Proof.
  intros Hst Hsteps Hc Htask Hlist Hr Hf Hfin Hrt Hinit E1 Hc1 Hinit1.
  destruct (steps_inv (cmtr_held XPLMFindCommand) cmtr_own w0 w _ _ _ Hsteps (started_inv _ _ Hst)) as (m & refs & ts & Hi).
  pose proof (entries_known cmtr_own w m refs ts p c list l Hi Hc Hlist Hr) as Hl.
  pose proof (ho_channels _ _ _ _ (inv_held _ _ _ _ _ Hi) p c t Hc Htask) as Ha.
  set (rs := (fun e => XPLMFindCommand (xs_calls (data_of w)) (en_name e)) <$> entries_of l).
  assert (exists w' c' l' t' done, flightloops XPLMFindCommand p (S n) w = Some (tt, w') /\ frames (xc_timing c) (S n) = Some (t', done) /\
    running w' (<[p := l']> m) refs ts p c' l' rs /\ xc_initialized c' = true /\ xc_timing c' = t' /\
    xs_calls (data_of w') = xs_calls (data_of w) ++ (mjoin done ≫= action_calls rs)) as (w' & c' & l' & t' & done & E & Ef & Hrun & _ & Ht' & Hca).
  2:{ exists w', t', done. split; [done|]. split; [done|]. split; [by rewrite (rn_command _ _ _ _ _ _ _ _ Hrun), <-Ht'|done]. }
  induction n as [|n IH].
  - destruct (cmtr_flightloop_run XPLMFindCommand w m refs ts p c l Hi Hc Hl Ha) as (w' & c' & l' & E & Hok' & Hcs & _ & Hs & Hown & Hcases); [by rewrite Htask|].
    rewrite E1 in E. injection E as <-. assert (c1 = c') as -> by (rewrite Hcs, lookup_insert_eq in Hc1; congruence).
    destruct Hcases as [(_ & [-> |[-> _]] & _)|(now & acts & t' & Hnow & Er & -> & Hrefs & Hca & _)]; [congruence|simpl in Hinit1; congruence|].
    rewrite Hrt in Hnow. subst now. rewrite Hinit in Er, Hrefs. simpl in Er. rewrite Hrefs in Hca.
    destruct (cmtr_round_ok 0 true (xc_timing c) (ow_timing _ _ (proj2 (inv_own _ _ _ _ _ Hi p c l Hc Hl)))) as (acts2 & t2 & Er2 & _ & Ho & _).
    rewrite Er in Er2. injection Er2 as <- <-. injection Ho as _ Hrt' _ _ _ _.
    exists w1, (set_timing t' (set_initialized c)), l', t', [acts]. split; [exact E1|]. split; [cbn; by rewrite Hfin, Er|]. split; [|split; [done|split; [done|]]].
    + split; simpl; [|by rewrite Hcs, lookup_insert_eq|apply lookup_insert_eq|done|by rewrite Htask|done|congruence|done].
      eapply inv_update; [exact Hi|exact Hok'|by rewrite delete_insert_eq|by rewrite Hcs, delete_insert_eq|].
      intros c2 l2. rewrite Hcs, !lookup_insert_eq. by intros [= <-] [= <-].
    + rewrite Hca. cbn [mjoin list_join]. by rewrite app_nil_r.
  - destruct IH as (w' & c' & l' & t' & done & E & Ef & Hrun & Hi' & Ht' & Hca).
    destruct (running_step XPLMFindCommand w' _ refs ts p c' l' rs Hrun Hi') as (w2 & l2 & t2 & E2 & Hrun2 & Hcase). rewrite insert_insert_eq in Hrun2.
    change (flightloops XPLMFindCommand p (S (S n))) with (_ ← flightloops XPLMFindCommand p (S n); cmtr_process_flightloop XPLMFindCommand p).
    erewrite bind_eq by exact E. change (frames (xc_timing c) (S (S n))) with
      ('(t', done) ← frames (xc_timing c) (S n); if finishing t' then Some (t', done) else '(acts, t'') ← cmtr_round 0 (S n =? 0)%nat t'; Some (t'', done ++ [acts])).
    rewrite Ef. cbn [mbind option_bind Nat.eqb]. rewrite Ht' in Hcase. destruct (finishing t').
    + destruct Hcase as [-> Hca2]. exists w2, (set_timing t' c'), l2, t', done. split_and!; try done. by rewrite Hca2.
    + destruct Hcase as (acts & Er & Hca2). exists w2, (set_timing t2 c'), l2, t2, (done ++ [acts]). split; [done|]. split; [by rewrite Er|]. split; [done|].
      split; [done|]. split; [done|]. rewrite Hca2, Hca, join_app, bind_app, <-app_assoc. cbn [mjoin list_join]. by rewrite app_nil_r.
Qed.

(** ** Termination *)

Lemma cmtr_release_on_the_side {C} `{ConnectionLaws C} q : respects (on_the_side (C := C)) (cmtr_release q).
Proof.
  assert (forall i e a, respects (on_the_side (C := C)) (cmtr_release_entry i e a)) as Hb.
  { intros i e a. unfold cmtr_release_entry, set_entry. pose proof (@on_the_side_entries C cmtr_timing) as H1. pose proof (@on_the_side_xpq C cmtr_timing) as H2. respects_step. }
  unfold cmtr_release, entry_list, load_command. pose proof (on_the_side_walk _ Hb). respects_step.
Qed.

(** C17: A CMTR that has a channel can always be terminated if memory and locks are
    available (and its channel ID does not start with 7, 8 or 9), held or not, found or
    not. Its channel is finished, and nothing else is sent; if the channel exists then it
    is marked for destruction, and closed unless sending failed. Its task is in the queue
    of the schedule no more, where the tasks of the other commands still are. And the
    next flush of the queue ends what was queued before and then all that the command
    held, the last first. *)
Theorem cmtr_termination_releases {C} `{ConnectionLaws C} XPLMFindCommand (w0 w : world C (ext (xp_state cmtr_timing))) p c list l :
  started w0 -> rtc (step (cmtr_held XPLMFindCommand)) w0 w -> willing w ->
  xs_commands (data_of w) !! p = Some c -> addressable (xc_channel_id c) = true -> xc_entries c = Some list -> represents (entries_heap w) list l ->
  exists w1 w2 c1 before ts1, cmtr_terminate (Some p) w = Some (ERROR_NONE, w1) /\ on_xpq flush_xpqueue w1 = Some (ERROR_NONE, w2) /\
    xs_commands (data_of w1) !! p = Some c1 /\ xc_task c1 = None /\ xc_channel_id c1 = BAD_CHANNEL_ID /\
    (exists err w', finish_channel (xc_channel_id c) CURRENT_TIME_REFERENCE None w = Some (err, w') /\ w_connection w1 = w_connection w' /\
       forall i, registered (w_channels w) (xc_channel_id c) = Some i -> exists ch, heap_of w1 !! i = Some ch /\ ch_destruction_requested ch = true /\
         (closed_anyway err = true -> ch_state ch = CHANNEL_STATE_CLOSED)) /\
    sched_ok w1 ts1 /\ (forall t, xc_task c = Some t -> t ∉ ts1) /\
    (forall q d t, q <> p -> xs_commands (data_of w) !! q = Some d -> xc_task d = Some t -> t ∈ ts1) /\
    queues_refs (queue_data (data_of w)) before /\
    xs_calls (data_of w2) = xs_calls (data_of w) ++ (XPLMCommandEnd <$> before ++ reverse (held_entries (entries_of l))).
Proof.
  intros Hst Hsteps Hwi Hc Ha Hlist Hr.
  destruct (steps_inv (cmtr_held XPLMFindCommand) cmtr_own w0 w _ _ _ Hsteps (started_inv _ _ Hst)) as (m & refs & ts & Hi).
  pose proof (inv_held _ _ _ _ _ Hi) as Hok. pose proof (entries_known cmtr_own w m refs ts p c list l Hi Hc Hlist Hr) as Hl.
  destruct (terminate_run cmtr_release nothing_held (fun _ => true) w m refs ts p c l list cmtr_releases Hok Hc Hl Hlist Ha)
    as (err & w1 & m1 & refs1 & ts1 & E1 & Hok1 & Hca1 & _ & Hdel & (c1 & l1 & Hc1 & _ & _ & _ & _ & _ & _ & Hnone & _ & Hw1)).
  destruct (Hw1 Hwi) as (Hwi1 & Ht1 & _ & -> & ->). destruct (Hnone eq_refl) as (_ & Hid & _).
  destruct (flush_run w1 m1 _ ts1 Hok1) as (err & w2 & E2 & _ & Hca2 & _ & _ & Hsucc). destruct (Hsucc Hwi1) as [-> _].
  assert (forall q, q <> p -> xs_commands (data_of w1) !! q = xs_commands (data_of w) !! q) as Hothers.
  { intros q Hne. rewrite <-(lookup_delete_ne (xs_commands (data_of w1)) p q), Hdel, lookup_delete_ne; done. }
  exists w1, w2, c1, refs, ts1. split_and!; try done.
  - by apply (terminate_channel cmtr_release w p c w1 cmtr_release_on_the_side (ho_world _ _ _ _ Hok)).
  - apply (ho_sched _ _ _ _ Hok1).
  - intros t Ht Hin. destruct (to_command _ _ (ho_tasks _ _ _ _ Hok1) t Hin) as (q & d & _ & Hd & Hdt).
    destruct (decide (q = p)) as [-> |Hne]; [congruence|]. rewrite Hothers in Hd by done.
    destruct (to_task _ _ (ho_tasks _ _ _ _ Hok) q d t Hd Hdt), (to_task _ _ (ho_tasks _ _ _ _ Hok) p c t Hc Ht). congruence.
  - intros q d t Hne Hd Hdt. eapply (to_task _ _ (ho_tasks _ _ _ _ Hok1)); [by rewrite Hothers|done].
  - apply (do_queue _ _ _ (ho_data _ _ _ _ Hok)).
  - by rewrite Hca2, Hca1.
Qed.

(** ** Options *)

(** How a client writes an interval, and asks for a schedule. *)
Definition interval_text (n : Z) (frames : bool) : cstr := print_dec n ++ lit (if frames then "f" else "ms").
Definition schedule_options (hold : Z) (hold_frames : bool) (times freq : Z) (freq_frames : bool) : list command_option_t :=
  [mkOption (lit "hold") (interval_text hold hold_frames); mkOption (lit "times") (print_dec times);
   mkOption (lit "repeatFreq") (interval_text freq freq_frames)].

Lemma ends_with_app s suffix : ends_with (Some (s ++ suffix)) (Some suffix) = true.
Proof.
  unfold ends_with, strlen. rewrite length_app. rewrite (proj2 (Z.ltb_ge _ _)) by lia.
  replace (Z.to_nat _) with (length s) by lia. rewrite drop_app_length. unfold strncmp_eq. by rewrite bool_decide_eq_true.
Qed.

Lemma millis_not_frames s : is_suffixed_frames (s ++ lit "ms") = false.
Proof.
  unfold is_suffixed_frames, ends_with, strlen. rewrite length_app. rewrite (proj2 (Z.ltb_ge _ _)) by (simpl; lia).
  replace (Z.to_nat _) with (length (s ++ lit "m")) by (rewrite length_app; simpl; lia).
  replace (s ++ lit "ms") with ((s ++ lit "m") ++ lit "s") by by rewrite <-app_assoc. by rewrite drop_app_length.
Qed.

Lemma interval_text_valid n frames : is_valid_interval (interval_text n frames) = true /\ is_suffixed_frames (interval_text n frames) = frames.
Proof.
  unfold is_valid_interval, interval_text, is_suffixed_millis. destruct frames.
  - unfold is_suffixed_frames. rewrite ends_with_app, orb_true_r. done.
  - rewrite ends_with_app, millis_not_frames. done.
Qed.

Lemma atoi_interval_text n frames : in_int n -> atoi (interval_text n frames) = n.
Proof.
  intros Hn. unfold atoi, interval_text. rewrite strtol_print; [by apply wrap_s_int| |by apply in_int_long].
  intros c s. destruct frames; by intros [= <- _].
Qed.

Lemma parse_times_print n : 0 < n <= INT_MAX -> parse_times (Some (print_dec n)) = n.
Proof.
  intros Hn. unfold parse_times. destruct (str_eq _ _) eqn:E; [|apply atoi_print; unfold in_int, INT_MIN; lia].
  apply str_eq_true in E. destruct (print_dec_cons n ltac:(lia)) as (c & s & Hcs & Hd). rewrite E in Hcs. by injection Hcs as <- _.
Qed.

(** The options of CMTR mean what they say: a request that asks to hold for
    [hold] frames or milliseconds, [times] times, every [freq] frames or
    milliseconds is accepted, with exactly these numbers and units; for a single
    time the interval is disabled (the largest one, in milliseconds). *)
Theorem cmtr_options_roundtrip request hold hold_frames times freq freq_frames :
  0 <= hold <= INT_MAX -> 0 < times <= INT_MAX -> 0 < freq <= INT_MAX ->
  req_options request = schedule_options hold hold_frames times freq freq_frames ->
  let '(interval, is_interval_frames) := if times =? 1 then (INT_MAX, false) else (freq, freq_frames) in
  parse_cmtr_options request = Some (inl (mkTiming CMTR_INVALID (negb is_interval_frames || negb hold_frames) interval 0 0 is_interval_frames
    hold 0 0 hold_frames times false false)).
Proof.
  intros Hh Ht Hf Ho. unfold parse_cmtr_options, request_get_option. rewrite Ho.
  change (find_option (lit "hold") _) with (Some (mkOption (lit "hold") (interval_text hold hold_frames))).
  change (find_option (lit "times") _) with (Some (mkOption (lit "times") (print_dec times))).
  change (find_option (lit "repeatFreq") _) with (Some (mkOption (lit "repeatFreq") (interval_text freq freq_frames))).
  cbn [mbind option_bind opt_value]. destruct (interval_text_valid hold hold_frames) as [-> ->]. destruct (interval_text_valid freq freq_frames) as [-> ->].
  rewrite !atoi_interval_text, parse_times_print by (unfold in_int, INT_MIN; lia). cbn [negb].
  rewrite (proj2 (Z.ltb_ge hold 0)), (proj2 (Z.ltb_ge times 1)), (proj2 (Z.leb_gt freq 0)) by lia. by destruct (times =? 1).
Qed.

(** ** Scenarios *)

(** Two X-Plane commands, to be held for 2 frames every 5 frames, 3 times. *)
Definition demo_schedule_request : request_t :=
  mkRequest demo_channel (lit "CMTR") (schedule_options 2 true 3 5 true) [lit "ab"; lit "cde"].
Definition demo_create : action := Create demo_schedule_request (mkConfig CMTR_COMMAND_VERSION (mkMap ∅)).
Definition demo_cmtr (actions : list action) : world network_connection_t (ext (xp_state cmtr_timing)) :=
  scenario (cmtr_held demo_find_command) actions demo_started.

Lemma demo_cmtr_steps actions : all_enabled (cmtr_held demo_find_command) actions demo_started = true ->
  rtc (step (cmtr_held demo_find_command)) demo_started (demo_cmtr actions).
Proof.
  intros He.
  exact (scenario_steps (cmtr_held demo_find_command) cmtr_own actions demo_started ∅ [] [] (started_inv _ _ demo_started_ok) He).
Qed.

Definition demo_frames (n : nat) : list action := replicate n (Process 1 CMTR_TASK_PHASE).

Example demo_cmtr_calls :
  xs_calls (data_of (demo_cmtr (demo_create :: demo_frames 14))) =
    mjoin (replicate 3 [XPLMCommandBegin 2; XPLMCommandBegin 3; XPLMCommandEnd 3; XPLMCommandEnd 2]).
Proof. vm_compute. reflexivity. Qed.

Definition demo_new : world network_connection_t (ext (xp_state cmtr_timing)) := demo_cmtr [demo_create].
Definition demo_new_list : list_t := mkList 2 (Some 1%positive) (Some 2%positive).
Definition demo_new_timing : cmtr_timing := frame_command CMTR_MONITOR_CYCLE false 0 0 5 2 3.
Definition demo_new_command : xp_command cmtr_timing := mkXpCommand demo_channel (Some 1%positive) false false (Some demo_new_list) demo_new_timing.
Definition demo_new_cells (held : bool) (ref1 ref2 : Z) : cells :=
  [(1%positive, Some (mkEntry (lit "ab") held ref1)); (2%positive, Some (mkEntry (lit "cde") held ref2))].

Lemma demo_new_steps : rtc (step (cmtr_held demo_find_command)) demo_started demo_new.
Proof. apply demo_cmtr_steps. vm_compute. reflexivity. Qed.

Lemma demo_new_object : xs_commands (data_of demo_new) !! 1%positive = Some demo_new_command.
Proof. vm_compute. reflexivity. Qed.

Lemma demo_new_represents : represents (entries_heap demo_new) demo_new_list (demo_new_cells false 0 0).
Proof. split; [vm_compute; by repeat split|by apply (bool_decide_eq_true_1 (NoDup (demo_new_cells false 0 0).*1)); vm_compute|done..]. Qed.

Lemma cmtr_flightloop_refines_witness :
  exists w' c', cmtr_process_flightloop demo_find_command 1 demo_new = Some (tt, w') /\ xs_commands (data_of w') !! 1%positive = Some c' /\
    ((xs_calls (data_of w') = xs_calls (data_of demo_new) /\ xc_timing c' = demo_new_timing /\
       xc_failed demo_new_command || finishing demo_new_timing || requires_time demo_new_timing || negb (xc_initialized demo_new_command) = true) \/
     (exists now acts, (if requires_time demo_new_timing then 0 <= now else now = 0) /\
       cmtr_round now (negb (xc_initialized demo_new_command)) demo_new_timing = Some (acts, xc_timing c') /\ xc_initialized c' = true /\
       xs_calls (data_of w') = xs_calls (data_of demo_new) ++
         (acts ≫= action_calls (xplane_refs demo_find_command (xs_calls (data_of demo_new)) demo_new_command (entries_of (demo_new_cells false 0 0)))))).
Proof.
  apply (cmtr_flightloop_refines demo_find_command demo_started demo_new 1 demo_new_command 1%positive demo_new_list (demo_new_cells false 0 0)
    demo_started_ok demo_new_steps demo_new_object eq_refl eq_refl demo_new_represents).
Defined.

Lemma demo_first_frame : cmtr_process_flightloop demo_find_command 1 demo_new = Some (tt, after (cmtr_process_flightloop demo_find_command 1) demo_new).
Proof. vm_compute. reflexivity. Qed.

Lemma demo_initialized : exists c, xs_commands (data_of (after (cmtr_process_flightloop demo_find_command 1) demo_new)) !! 1%positive = Some c /\ xc_initialized c = true.
Proof. eexists. split; [vm_compute; reflexivity|reflexivity]. Qed.

Lemma cmtr_flightloops_refine_witness :
  exists w' t' done, flightloops demo_find_command 1 20 demo_new = Some (tt, w') /\ frames demo_new_timing 20 = Some (t', done) /\
    xc_timing <$> xs_commands (data_of w') !! 1%positive = Some t' /\
    xs_calls (data_of w') = xs_calls (data_of demo_new) ++
      (mjoin done ≫= action_calls ((fun e => demo_find_command (xs_calls (data_of demo_new)) (en_name e)) <$> entries_of (demo_new_cells false 0 0))).
Proof.
  destruct demo_initialized as (c1 & Hc1 & Hi1).
  exact (cmtr_flightloops_refine demo_find_command demo_started demo_new 1 demo_new_command 1%positive demo_new_list (demo_new_cells false 0 0) _ c1 19
    demo_started_ok demo_new_steps demo_new_object eq_refl eq_refl demo_new_represents eq_refl eq_refl eq_refl eq_refl demo_first_frame Hc1 Hi1).
Defined.

(** The same after one frame, while it holds. *)
Definition demo_holding : world network_connection_t (ext (xp_state cmtr_timing)) := demo_cmtr [demo_create; Process 1 CMTR_TASK_PHASE].

Lemma cmtr_termination_releases_witness :
  exists w1 w2 c1 before ts1, cmtr_terminate (Some 1%positive) demo_holding = Some (ERROR_NONE, w1) /\ on_xpq flush_xpqueue w1 = Some (ERROR_NONE, w2) /\
    xs_commands (data_of w1) !! 1%positive = Some c1 /\ sched_ok w1 ts1 /\ 1%positive ∉ ts1 /\
    queues_refs (queue_data (data_of demo_holding)) before /\
    xs_calls (data_of w2) = xs_calls (data_of demo_holding) ++ (XPLMCommandEnd <$> before ++ reverse [2; 3]).
Proof.
  assert (exists c, xs_commands (data_of demo_holding) !! 1%positive = Some c /\ addressable (xc_channel_id c) = true /\ xc_entries c = Some demo_new_list /\ xc_task c = Some 1%positive)
    as (c & Hc & Ha & Hlist & Ht) by (eexists; split; [vm_compute; reflexivity|by split_and!]).
  destruct (cmtr_termination_releases demo_find_command demo_started demo_holding 1 c demo_new_list (demo_new_cells true 2 3))
    as (w1 & w2 & c1 & before & ts1 & E1 & E2 & Hc1 & _ & _ & _ & Hs & Hn & _ & Hq & Hca);
    [..|exact (ex_intro _ w1 (ex_intro _ w2 (ex_intro _ c1 (ex_intro _ before (ex_intro _ ts1 (conj E1 (conj E2 (conj Hc1 (conj Hs (conj (Hn _ Ht) (conj Hq Hca)))))))))))].
  - apply demo_started_ok.
  - apply demo_cmtr_steps. vm_compute. reflexivity.
  - split; vm_compute; [constructor|constructor|done..].
  - exact Hc.
  - exact Ha.
  - exact Hlist.
  - split; [vm_compute; by repeat split|by apply (bool_decide_eq_true_1 (NoDup (demo_new_cells true 2 3).*1)); vm_compute|done..].
Defined.

Lemma cmtr_options_roundtrip_witness :
  parse_cmtr_options demo_schedule_request = Some (inl (mkTiming CMTR_INVALID false 5 0 0 true 2 0 0 true 3 false false)).
Proof. apply (cmtr_options_roundtrip demo_schedule_request 2 true 3 5 true); unfold INT_MAX; try lia. reflexivity. Defined.
