(* ===== verification/XPCommands.v ===== *)
(** The commands that the plugin offers to X-Plane ([xpcommands.c],
    [xpcommands.h]): a registry of proxies, each of which becomes a handler of
    an X-Plane command and forwards its invocations to a callback.

    A proxy is reached through its address; the registry's list holds the
    addresses of all proxies. X-Plane is seen through the calls that it gets
    ([rg_calls], oldest first); what [XPLMFindCommand] and [XPLMCreateCommand]
    return may depend on them. All handlers are [xp_command_handler], so that a
    handler is known by its command, its phase and its reference. [F] are the
    functions that may be callbacks. [xr_lock] counts how often the running
    thread holds the (recursive) mutex. *)

From S2P Require Import Prelude CLib Utils Lists XPQueue.

Definition XPCOMMAND_STATE_CREATED : Z := 0.
Definition XPCOMMAND_STATE_REGISTERED : Z := 1.
Definition XPCOMMAND_STATE_DROPPED : Z := 2.
Definition XPCOMMAND_STATE_DESTROYED : Z := 3.

Definition XPCOMMAND_PHASE_AFTER : Z := 0.
Definition XPCOMMAND_PHASE_BEFORE : Z := 1.

Definition XPCOMMAND_PROPAGATE_STOP : Z := 0.
Definition XPCOMMAND_PROPAGATE_CONTINUE : Z := 1.

(** The phases in which X-Plane invokes a handler. *)
Inductive XPLMCommandPhase := xplm_CommandBegin | xplm_CommandContinue | xplm_CommandEnd | xplm_other (n : Z).

#[export] Instance XPLMCommandPhase_eq_dec : EqDecision XPLMCommandPhase.
Proof. solve_decision. Defined.

Inductive registry_call :=
  | XPLMCreateCommand (inName inDescription : cstr)
  | XPLMRegisterCommandHandler (inCommand inBefore : Z) (inRefcon : loc)
  | XPLMUnregisterCommandHandler (inCommand inBefore : Z) (inRefcon : loc).

Record xpcommand_registry_t := mkRegistry {
  xr_destruction_pending : bool;
  xr_lock : Z;
  xr_commands : list_t;
}.

Record xpcommand_t (F : Type) := mkXpcommand {
  xpc_state : Z;
  xpc_name : option cstr;
  xpc_description : option cstr;
  xpc_phase : Z;
  xpc_propagate : Z;
  xpc_xp_ref : Z;
  xpc_callback : option F;
  xpc_callback_ref : option loc;
}.
Arguments mkXpcommand {F}.
Arguments xpc_state {F}.
Arguments xpc_name {F}.
Arguments xpc_description {F}.
Arguments xpc_phase {F}.
Arguments xpc_propagate {F}.
Arguments xpc_xp_ref {F}.
Arguments xpc_callback {F}.
Arguments xpc_callback_ref {F}.

(** The registry, the proxies, the items of the list, the calls X-Plane got and
    the environment. *)
Record registry_state (F : Type) := mkRegistryState {
  rg_registry : xpcommand_registry_t;
  rg_proxies : gmap loc (xpcommand_t F);
  rg_items : gmap loc (list_item_t loc);
  rg_calls : list registry_call;
  rg_env : env;
}.
Arguments mkRegistryState {F}.
Arguments rg_registry {F}.
Arguments rg_proxies {F}.
Arguments rg_items {F}.
Arguments rg_calls {F}.
Arguments rg_env {F}.

Definition set_xr_pending (r : xpcommand_registry_t) : xpcommand_registry_t := mkRegistry true (xr_lock r) (xr_commands r).
Definition set_xr_lock (n : Z) (r : xpcommand_registry_t) : xpcommand_registry_t := mkRegistry (xr_destruction_pending r) n (xr_commands r).
Definition set_xr_commands (l : list_t) (r : xpcommand_registry_t) : xpcommand_registry_t := mkRegistry (xr_destruction_pending r) (xr_lock r) l.

(** Returns the error and the new registry; [mtx_init] may fail as [mtx_lock]. *)
Definition create_xpcommand_registry : M (heap loc) (error_t * option xpcommand_registry_t) :=
  ok ← zoom h_env (fun e h => mkHeap (h_items h) e) (zmalloc 64);
  if negb ok then mret (ERROR_MEMORY_ALLOCATION, None)
  else
    list ← create_list;
    match list with
    | None => mret (ERROR_MEMORY_ALLOCATION, None)
    | Some list =>
        ok ← zoom h_env (fun e h => mkHeap (h_items h) e) mtx_lock_result;
        if negb ok then
          _ ← destroy_list 0 list;
          mret (ERROR_UNSPECIFIC, None)
        else mret (ERROR_NONE, Some (mkRegistry false 0 list))
    end.

Section Registry.
Context {F : Type}.
Abbreviation R := (registry_state F).
Abbreviation proxy_t := (xpcommand_t F).
Implicit Types (s : R) (x : proxy_t).

Definition set_xpc_state (state : Z) x : proxy_t :=
  mkXpcommand state (xpc_name x) (xpc_description x) (xpc_phase x) (xpc_propagate x) (xpc_xp_ref x) (xpc_callback x) (xpc_callback_ref x).
Definition set_xpc_name (name : option cstr) x : proxy_t :=
  mkXpcommand (xpc_state x) name (xpc_description x) (xpc_phase x) (xpc_propagate x) (xpc_xp_ref x) (xpc_callback x) (xpc_callback_ref x).
Definition set_xpc_description (description : option cstr) x : proxy_t :=
  mkXpcommand (xpc_state x) (xpc_name x) description (xpc_phase x) (xpc_propagate x) (xpc_xp_ref x) (xpc_callback x) (xpc_callback_ref x).
Definition set_xpc_xp_ref (xp_ref : Z) x : proxy_t :=
  mkXpcommand (xpc_state x) (xpc_name x) (xpc_description x) (xpc_phase x) (xpc_propagate x) xp_ref (xpc_callback x) (xpc_callback_ref x).

Definition set_rg_registry (r : xpcommand_registry_t) s : R := mkRegistryState r (rg_proxies s) (rg_items s) (rg_calls s) (rg_env s).
Definition set_rg_proxies (m : gmap loc proxy_t) s : R := mkRegistryState (rg_registry s) m (rg_items s) (rg_calls s) (rg_env s).
Definition set_rg_calls (calls : list registry_call) s : R := mkRegistryState (rg_registry s) (rg_proxies s) (rg_items s) calls (rg_env s).
Definition set_rg_env (e : env) s : R := mkRegistryState (rg_registry s) (rg_proxies s) (rg_items s) (rg_calls s) e.

Definition proxy_heap s : heap loc := mkHeap (rg_items s) (rg_env s).
Definition set_proxy_heap (h : heap loc) s : R := mkRegistryState (rg_registry s) (rg_proxies s) (h_items h) (rg_calls s) (h_env h).

Definition on_proxy_list {A} (m : M (heap loc) A) : M R A := zoom proxy_heap set_proxy_heap m.
Definition rg_on_env {A} (m : M env A) : M R A := zoom rg_env set_rg_env m.
Definition registry : M R xpcommand_registry_t := gets rg_registry.
Definition update_registry (f : xpcommand_registry_t -> xpcommand_registry_t) : M R unit :=
  modify (fun s => set_rg_registry (f (rg_registry s)) s).
Definition load_proxy (p : loc) : M R proxy_t := s ← get; from_ub (rg_proxies s !! p).
Definition update_proxy (p : loc) (f : proxy_t -> proxy_t) : M R unit :=
  x ← load_proxy p; modify (fun s => set_rg_proxies (<[p := f x]> (rg_proxies s)) s).
Definition free_proxy (p : loc) : M R unit := modify (fun s => set_rg_proxies (delete p (rg_proxies s)) s).
Definition call_sdk (c : registry_call) : M R unit := modify (fun s => set_rg_calls (rg_calls s ++ [c]) s).

Definition unlock_xpcommand_registry : M R unit := update_registry (fun r => set_xr_lock (xr_lock r - 1) r).

Definition lock_xpcommand_registry : M R error_t :=
  r ← registry;
  if xr_destruction_pending r then mret ERROR_DESTRUCTION_PENDING
  else
    ok ← rg_on_env mtx_lock_result;
    if negb ok then mret ERROR_MUTEX_FAILED
    else
      _ ← update_registry (fun r => set_xr_lock (xr_lock r + 1) r);
      r ← registry;
      if xr_destruction_pending r then _ ← unlock_xpcommand_registry; mret ERROR_DESTRUCTION_PENDING else mret ERROR_NONE.

(** The registry must not be used any more if this returns [ERROR_NONE]. *)
Definition destroy_xpcommand_registry : M R error_t :=
  ok ← rg_on_env mtx_lock_result;
  if negb ok then mret ERROR_MUTEX_FAILED
  else
    _ ← update_registry (fun r => set_xr_lock (xr_lock r + 1) r);
    r ← registry;
    if xr_destruction_pending r then _ ← unlock_xpcommand_registry; mret ERROR_DESTRUCTION_PENDING
    else if negb (list_size (xr_commands r) =? 0) then _ ← unlock_xpcommand_registry; mret ERROR_UNSPECIFIC
    else
      _ ← update_registry set_xr_pending;
      _ ← unlock_xpcommand_registry;
      _ ← rg_on_env mtx_lock_result;
      r ← registry;
      _ ← on_proxy_list (destroy_list (Z.to_nat (list_size (xr_commands r))) (xr_commands r));
      mret ERROR_NONE.

Definition lock_xpcommand (proxy : option loc) : M R error_t :=
  match proxy with
  | None => mret ERROR_UNSPECIFIC
  | Some p =>
      x ← load_proxy p;
      if negb (xpc_state x =? XPCOMMAND_STATE_CREATED) && negb (xpc_state x =? XPCOMMAND_STATE_REGISTERED) &&
         negb (xpc_state x =? XPCOMMAND_STATE_DROPPED)
      then mret ERROR_UNSPECIFIC
      else lock_xpcommand_registry
  end.

(** Reads [proxy->registry], so that the proxy must still exist. *)
Definition unlock_xpcommand (proxy : option loc) : M R unit :=
  match proxy with
  | None => mret tt
  | Some p => _ ← load_proxy p; unlock_xpcommand_registry
  end.

(** * Creation *)

Definition new_proxy (x : proxy_t) : M R loc :=
  s ← get;
  let p := fresh (dom (rg_proxies s)) in
  _ ← modify (fun s => set_rg_proxies (<[p := x]> (rg_proxies s)) s);
  mret p.

(** The label [error] of [create_xpcommand]. *)
Definition discard_proxy (p : loc) : M R (option loc) := _ ← free_proxy p; mret None.

(** What follows the copies of the texts. *)
Definition store_proxy (p : loc) : M R (option loc) :=
  err ← lock_xpcommand_registry;
  if negb (err =? ERROR_NONE) then discard_proxy p
  else
    r ← registry;
    '(ok, list) ← on_proxy_list (list_append (xr_commands r) (Some p));
    _ ← update_registry (set_xr_commands list);
    _ ← unlock_xpcommand_registry;
    if negb ok then discard_proxy p else mret (Some p).

Definition create_xpcommand (name description : option cstr) (phase propagate : Z) (callback_ref : option loc) (callback : option F) :
    M R (option loc) :=
  match name, description, callback with
  | Some _, Some _, Some _ =>
      if (negb (phase =? XPCOMMAND_PHASE_BEFORE) && negb (phase =? XPCOMMAND_PHASE_AFTER)) ||
         (negb (propagate =? XPCOMMAND_PROPAGATE_STOP) && negb (propagate =? XPCOMMAND_PROPAGATE_CONTINUE))
      then mret None
      else
        ok ← rg_on_env (zmalloc 72);
        if negb ok then mret None
        else
          p ← new_proxy (mkXpcommand XPCOMMAND_STATE_CREATED None None phase propagate NO_XP_COMMAND callback callback_ref);
          copy ← rg_on_env (copy_string name);
          _ ← update_proxy p (set_xpc_name copy);
          match copy with
          | None => discard_proxy p
          | Some _ =>
              copy ← rg_on_env (copy_string description);
              _ ← update_proxy p (set_xpc_description copy);
              match copy with
              | None => discard_proxy p
              | Some _ => store_proxy p
              end
          end
  | _, _, _ => mret None
  end.

(** * Registration *)

Section XPlane.
Context (XPLMFindCommand : list registry_call -> cstr -> Z) (XPLMCreateCommand_result : list registry_call -> cstr -> cstr -> Z).

(** From [XPLMFindCommand] to the reference of the command. *)
Definition find_or_create (p : loc) : M R Z :=
  x ← load_proxy p;
  name ← from_ub (xpc_name x);
  s ← get;
  let xp_ref := XPLMFindCommand (rg_calls s) name in
  _ ← update_proxy p (set_xpc_xp_ref xp_ref);
  if negb (xp_ref =? NO_XP_COMMAND) then mret xp_ref
  else
    description ← from_ub (xpc_description x);
    let xp_ref := XPLMCreateCommand_result (rg_calls s) name description in
    _ ← call_sdk (XPLMCreateCommand name description);
    _ ← update_proxy p (set_xpc_xp_ref xp_ref);
    mret xp_ref.

Definition register_xpcommand (proxy : option loc) : M R error_t :=
  match proxy with
  | None => mret ERROR_UNSPECIFIC
  | Some p =>
      err ← lock_xpcommand proxy;
      if negb (err =? ERROR_NONE) then mret err
      else
        x ← load_proxy p;
        if negb (xpc_state x =? XPCOMMAND_STATE_CREATED) then _ ← unlock_xpcommand proxy; mret ERROR_UNSPECIFIC
        else
          xp_ref ← find_or_create p;
          if xp_ref =? NO_XP_COMMAND then _ ← unlock_xpcommand proxy; mret ERROR_UNSPECIFIC
          else
            _ ← call_sdk (XPLMRegisterCommandHandler xp_ref (xpc_phase x) p);
            _ ← update_proxy p (set_xpc_state XPCOMMAND_STATE_REGISTERED);
            _ ← unlock_xpcommand proxy;
            mret ERROR_NONE
  end.
End XPlane.

(** * Deregistration *)

(** The end of [_unregister_destroy_xpcommand]: the proxy is marked as destroyed
    and freed. *)
Definition destroy_proxy (p item : loc) : M R error_t :=
  r ← registry;
  list ← on_proxy_list (list_delete_item (xr_commands r) item);
  _ ← update_registry (set_xr_commands list);
  _ ← update_proxy p (set_xpc_state XPCOMMAND_STATE_DESTROYED);
  _ ← free_proxy p;
  mret ERROR_NONE.

(** [_unregister_destroy_xpcommand]. *)
Definition unregister_destroy_item (p : loc) (item : option loc) : M R error_t :=
  match item with
  | None => mret ERROR_UNSPECIFIC
  | Some item =>
      x ← load_proxy p;
      if (xpc_state x =? XPCOMMAND_STATE_REGISTERED) || (xpc_state x =? XPCOMMAND_STATE_DROPPED) then
        if xpc_xp_ref x =? NO_XP_COMMAND then mret ERROR_UNSPECIFIC
        else
          _ ← call_sdk (XPLMUnregisterCommandHandler (xpc_xp_ref x) (xpc_phase x) p);
          _ ← update_proxy p (set_xpc_xp_ref NO_XP_COMMAND);
          destroy_proxy p item
      else destroy_proxy p item
  end.

Definition unregister_destroy_xpcommand (proxy : option loc) : M R error_t :=
  match proxy with
  | None => mret ERROR_NONE
  | Some p =>
      _ ← load_proxy p;
      err ← lock_xpcommand_registry;
      if negb (err =? ERROR_NONE) then mret err
      else
        r ← registry;
        item ← on_proxy_list (list_find (Z.to_nat (list_size (xr_commands r))) (xr_commands r) (Some p));
        err ← unregister_destroy_item p item;
        _ ← unlock_xpcommand_registry;
        mret err
  end.

(** The loop over the items from [item] on; [fuel] bounds the items visited. *)
Fixpoint unregister_dropped_loop (fuel : nat) (item : option loc) (out_err : error_t) : M R error_t :=
  match item with
  | None => mret out_err
  | Some i =>
      match fuel with
      | O => ub
      | S fuel' =>
          it ← on_proxy_list (load_item i);
          let next := item_next it in
          p ← from_ub (item_value it);
          x ← load_proxy p;
          out_err ← (if xpc_state x =? XPCOMMAND_STATE_DROPPED then
                       err ← unregister_destroy_item p (Some i);
                       mret (if negb (err =? ERROR_NONE) then ERROR_UNSPECIFIC else out_err)
                     else mret out_err);
          unregister_dropped_loop fuel' next out_err
      end
  end.

Definition unregister_dropped_xpcommands : M R error_t :=
  err ← lock_xpcommand_registry;
  if negb (err =? ERROR_NONE) then mret ERROR_MUTEX_FAILED
  else
    r ← registry;
    out_err ← unregister_dropped_loop (Z.to_nat (list_size (xr_commands r))) (list_head (xr_commands r)) ERROR_NONE;
    _ ← unlock_xpcommand_registry;
    mret out_err.

Definition drop_xpcommand (proxy : option loc) : M R error_t :=
  match proxy with
  | None => mret ERROR_NONE
  | Some p =>
      err ← lock_xpcommand proxy;
      if negb (err =? ERROR_NONE) then mret err
      else
        x ← load_proxy p;
        out_err ← (if (xpc_state x =? XPCOMMAND_STATE_REGISTERED) || (xpc_state x =? XPCOMMAND_STATE_CREATED) then
                     _ ← update_proxy p (set_xpc_state XPCOMMAND_STATE_DROPPED);
                     mret ERROR_NONE
                   else mret ERROR_UNSPECIFIC);
        _ ← unlock_xpcommand proxy;
        mret out_err
  end.

(** * Invocation *)

Section Handler.
(** The state of the program, of which the registry is a part, and the functions
    that callbacks stand for. *)
Context {W : Type} (registry_of : W -> R) (with_registry : R -> W -> W).
Context (run_callback : F -> option loc -> XPLMCommandPhase -> M W unit).

Definition on_registry {A} (m : M R A) : M W A := zoom registry_of with_registry m.

Definition xp_command_handler (inCommand : Z) (inPhase : XPLMCommandPhase) (inRefcon : option loc) : M W Z :=
  match inRefcon with
  | None => mret XPCOMMAND_PROPAGATE_CONTINUE
  | Some p =>
      err ← on_registry (lock_xpcommand inRefcon);
      if negb (err =? ERROR_NONE) then mret XPCOMMAND_PROPAGATE_CONTINUE
      else
        x ← on_registry (load_proxy p);
        if negb (xpc_state x =? XPCOMMAND_STATE_REGISTERED) || negb (inCommand =? xpc_xp_ref x) then
          _ ← on_registry (unlock_xpcommand inRefcon); mret XPCOMMAND_PROPAGATE_CONTINUE
        else
          match xpc_callback x with
          | None => _ ← on_registry (unlock_xpcommand inRefcon); mret XPCOMMAND_PROPAGATE_CONTINUE
          | Some callback =>
              _ ← run_callback callback (xpc_callback_ref x) inPhase;
              x ← on_registry (load_proxy p);
              let propagate := xpc_propagate x in
              _ ← on_registry (unlock_xpcommand inRefcon);
              mret propagate
          end
  end.
End Handler.
End Registry.

(** * What the registry promises *)

(** The handlers that X-Plane has after the calls: command, phase and reference.
    [None] if one was registered twice or unregistered without being
    registered. *)
Abbreviation handler := (Z * Z * loc)%type.

Definition handle_call (hs : option (gset handler)) (c : registry_call) : option (gset handler) :=
  hs ← hs;
  match c with
  | XPLMCreateCommand _ _ => Some hs
  | XPLMRegisterCommandHandler r ph p => if decide ((r, ph, p) ∈ hs) then None else Some ({[(r, ph, p)]} ∪ hs)
  | XPLMUnregisterCommandHandler r ph p => if decide ((r, ph, p) ∈ hs) then Some (hs ∖ {[(r, ph, p)]}) else None
  end.
Definition handlers (calls : list registry_call) : option (gset handler) := foldl handle_call (Some ∅) calls.

Lemma handlers_app calls c : handlers (calls ++ [c]) = handle_call (handlers calls) c.
Proof. unfold handlers. by rewrite foldl_app. Qed.

(** A proxy in one of its states. *)
Record proxy_ok {F} (x : xpcommand_t F) : Prop := mkProxyOk {
  po_texts : is_Some (xpc_name x) /\ is_Some (xpc_description x);
  po_callback : is_Some (xpc_callback x);
  po_phase : xpc_phase x = XPCOMMAND_PHASE_BEFORE \/ xpc_phase x = XPCOMMAND_PHASE_AFTER;
  po_propagate : xpc_propagate x = XPCOMMAND_PROPAGATE_STOP \/ xpc_propagate x = XPCOMMAND_PROPAGATE_CONTINUE;
  po_state :
    (xpc_state x = XPCOMMAND_STATE_CREATED /\ xpc_xp_ref x = NO_XP_COMMAND) \/
    (xpc_state x = XPCOMMAND_STATE_REGISTERED /\ xpc_xp_ref x <> NO_XP_COMMAND) \/
    xpc_state x = XPCOMMAND_STATE_DROPPED;
}.

Section Promise.
Context {F : Type}.
Implicit Types (s : registry_state F) (x : xpcommand_t F) (p : loc).

(** The handlers that X-Plane should have. *)
Definition handlers_ok (m : gmap loc (xpcommand_t F)) (calls : list registry_call) : Prop :=
  exists hs, handlers calls = Some hs /\
    forall r ph p, (r, ph, p) ∈ hs <-> exists x, m !! p = Some x /\ xpc_xp_ref x = r /\ xpc_phase x = ph /\ r <> NO_XP_COMMAND.

(** The list holds the proxies, each once, and X-Plane has the handlers of those
    that are registered. *)
Record registry_ok s : Prop := mkRegistryOk {
  ro_list : exists l ps, represents (proxy_heap s) (xr_commands (rg_registry s)) l /\ l.*2 = Some <$> ps /\ NoDup ps /\
    forall p, p ∈ ps <-> is_Some (rg_proxies s !! p);
  ro_proxy : map_Forall (fun _ x => proxy_ok x) (rg_proxies s);
  ro_handlers : handlers_ok (rg_proxies s) (rg_calls s);
}.

(** ** Locking *)

Definition registry_lock_error s : error_t :=
  if xr_destruction_pending (rg_registry s) then ERROR_DESTRUCTION_PENDING
  else if lock_next (rg_env s) then ERROR_NONE else ERROR_MUTEX_FAILED.

(** The state after an attempt to lock, but for the lock. *)
Definition rg_tried s : registry_state F :=
  if xr_destruction_pending (rg_registry s) then s else set_rg_env (lock_rest (rg_env s)) s.

Definition rg_locked s : registry_state F := set_rg_registry (set_xr_lock (xr_lock (rg_registry s) + 1) (rg_registry s)) s.

Lemma rg_on_env_eq {A} (m : M env A) s a e : m (rg_env s) = Some (a, e) -> rg_on_env m s = Some (a, set_rg_env e s).
Proof. intros E. unfold rg_on_env, zoom. by rewrite E. Qed.

Lemma lock_registry_eq s : lock_xpcommand_registry s =
  Some (registry_lock_error s, if registry_lock_error s =? ERROR_NONE then rg_locked (rg_tried s) else rg_tried s).
Proof.
  unfold lock_xpcommand_registry, registry_lock_error, rg_tried. erewrite bind_eq by reflexivity.
  destruct (xr_destruction_pending (rg_registry s)) eqn:Hp; [done|].
  erewrite bind_eq by apply rg_on_env_eq, mtx_lock_result_eq. destruct (lock_next (rg_env s)); red_if; [|done].
  erewrite bind_eq by reflexivity. erewrite bind_eq by reflexivity. simpl. by rewrite Hp.
Qed.

Lemma unlock_locked s : unlock_xpcommand_registry (rg_locked s) = Some (tt, s).
Proof.
  unfold unlock_xpcommand_registry, update_registry, modify, rg_locked, set_rg_registry, set_xr_lock. simpl. do 2 f_equal.
  destruct s as [[pending n l] m items calls e]. simpl. do 2 f_equal. lia.
Qed.

(** Operations on one proxy: what they do after locking. *)
Lemma load_proxy_eq p x s : rg_proxies s !! p = Some x -> load_proxy p s = Some (x, s).
Proof. intros E. unfold load_proxy. erewrite bind_eq by reflexivity. unfold from_ub. by rewrite E. Qed.

Lemma update_proxy_eq p f x s : rg_proxies s !! p = Some x ->
  update_proxy p f s = Some (tt, set_rg_proxies (<[p := f x]> (rg_proxies s)) s).
Proof. intros E. unfold update_proxy. by erewrite bind_eq by by apply load_proxy_eq. Qed.

Lemma tried_proxies s : rg_proxies (rg_tried s) = rg_proxies s /\ rg_registry (rg_tried s) = rg_registry s /\
  rg_items (rg_tried s) = rg_items s /\ rg_calls (rg_tried s) = rg_calls s.
Proof. unfold rg_tried. by destruct (xr_destruction_pending _). Qed.

Lemma lock_xpcommand_eq p x s : rg_proxies s !! p = Some x -> proxy_ok x ->
  lock_xpcommand (Some p) s =
  Some (registry_lock_error s, if registry_lock_error s =? ERROR_NONE then rg_locked (rg_tried s) else rg_tried s).
Proof.
  intros Hp Hx. unfold lock_xpcommand. erewrite bind_eq by by apply load_proxy_eq.
  destruct (po_state _ Hx) as [[-> _]|[[-> _]| ->]]; apply lock_registry_eq.
Qed.

Lemma unlock_xpcommand_eq p s : is_Some (rg_proxies s !! p) -> unlock_xpcommand (Some p) (rg_locked s) = Some (tt, s).
Proof. intros [x Hp]. unfold unlock_xpcommand. erewrite bind_eq by by apply load_proxy_eq. apply unlock_locked. Qed.

(** ** Dropping *)

Definition droppable x : bool := (xpc_state x =? XPCOMMAND_STATE_REGISTERED) || (xpc_state x =? XPCOMMAND_STATE_CREATED).

(** The outcome of an operation that locks the registry: if that fails, nothing
    else happens. *)
Definition under_lock (s : registry_state F) (r : error_t * registry_state F) : error_t * registry_state F :=
  if registry_lock_error s =? ERROR_NONE then r else (registry_lock_error s, rg_tried s).

Lemma under_lock_eq (m m' : M (registry_state F) error_t) s r :
  m s = Some (registry_lock_error s, if registry_lock_error s =? ERROR_NONE then rg_locked (rg_tried s) else rg_tried s) ->
  (registry_lock_error s = ERROR_NONE -> m' (rg_locked (rg_tried s)) = Some r) ->
  (err ← m; if negb (err =? ERROR_NONE) then mret err else m') s = Some (under_lock s r).
Proof.
  intros E Hm. erewrite bind_eq by exact E. unfold under_lock.
  destruct (Z.eqb_spec (registry_lock_error s) ERROR_NONE); red_if; [by apply Hm|done].
Qed.

Definition dropped (p : loc) x s : registry_state F := set_rg_proxies (<[p := set_xpc_state XPCOMMAND_STATE_DROPPED x]> (rg_proxies s)) s.

Lemma drop_xpcommand_eq p x s : rg_proxies s !! p = Some x -> proxy_ok x ->
  drop_xpcommand (Some p) s =
  Some (under_lock s (if droppable x then (ERROR_NONE, dropped p x (rg_tried s)) else (ERROR_UNSPECIFIC, rg_tried s))).
Proof.
  intros Hp Hx. unfold drop_xpcommand. apply under_lock_eq; [by eapply lock_xpcommand_eq|]. intros _.
  assert (rg_proxies (rg_tried s) !! p = Some x) as Hp1 by by rewrite (proj1 (tried_proxies s)).
  erewrite bind_eq by (apply load_proxy_eq; exact Hp1). fold (droppable x). destruct (droppable x).
  - erewrite bind_eq by (erewrite bind_eq by (apply update_proxy_eq; exact Hp1); reflexivity).
    change (set_rg_proxies ?m (rg_locked (rg_tried s))) with (rg_locked (set_rg_proxies m (rg_tried s))).
    erewrite bind_eq by (apply unlock_xpcommand_eq; simpl; rewrite lookup_insert_eq; by eexists). done.
  - erewrite bind_eq by reflexivity. by erewrite bind_eq by (apply unlock_xpcommand_eq; by eexists).
Qed.

(** ** Registration *)

Section XPlane.
Context (XPLMFindCommand : list registry_call -> cstr -> Z) (XPLMCreateCommand_result : list registry_call -> cstr -> cstr -> Z).

(** The reference of a command and the calls to get it. *)
Definition resolved (calls : list registry_call) (name description : cstr) : Z * list registry_call :=
  let xp_ref := XPLMFindCommand calls name in
  if negb (xp_ref =? NO_XP_COMMAND) then (xp_ref, [])
  else (XPLMCreateCommand_result calls name description, [XPLMCreateCommand name description]).

Definition registering (p : loc) x s : error_t * registry_state F :=
  if negb (xpc_state x =? XPCOMMAND_STATE_CREATED) then (ERROR_UNSPECIFIC, s)
  else
    let '(xp_ref, calls) := resolved (rg_calls s) (default [] (xpc_name x)) (default [] (xpc_description x)) in
    let x := set_xpc_xp_ref xp_ref x in
    if xp_ref =? NO_XP_COMMAND then (ERROR_UNSPECIFIC, set_rg_calls (rg_calls s ++ calls) (set_rg_proxies (<[p := x]> (rg_proxies s)) s))
    else
      (ERROR_NONE, set_rg_calls ((rg_calls s ++ calls) ++ [XPLMRegisterCommandHandler xp_ref (xpc_phase x) p])
        (set_rg_proxies (<[p := set_xpc_state XPCOMMAND_STATE_REGISTERED x]> (rg_proxies s)) s)).

Lemma find_or_create_eq p x s : rg_proxies s !! p = Some x -> proxy_ok x ->
  let '(xp_ref, calls) := resolved (rg_calls s) (default [] (xpc_name x)) (default [] (xpc_description x)) in
  find_or_create XPLMFindCommand XPLMCreateCommand_result p (rg_locked s) =
  Some (xp_ref, rg_locked (set_rg_calls (rg_calls s ++ calls) (set_rg_proxies (<[p := set_xpc_xp_ref xp_ref x]> (rg_proxies s)) s))).
Proof.
  intros Hp Hx. destruct (po_texts _ Hx) as [[name Hn] [description Hd]]. unfold find_or_create, resolved.
  erewrite bind_eq by (apply load_proxy_eq; exact Hp). rewrite Hn. erewrite bind_eq by reflexivity. erewrite bind_eq by reflexivity.
  cbv zeta. cbn [default rg_calls rg_locked set_rg_registry]. unfold id. erewrite bind_eq by (apply update_proxy_eq; exact Hp).
  destruct (XPLMFindCommand (rg_calls s) name =? NO_XP_COMMAND) eqn:E; red_if.
  - rewrite Hd. erewrite bind_eq by reflexivity. erewrite bind_eq by reflexivity.
    erewrite bind_eq by (eapply update_proxy_eq; simpl; rewrite lookup_insert_eq; reflexivity).
    unfold mret, M_ret. cbv beta iota. do 2 f_equal. unfold rg_locked, set_rg_calls, set_rg_proxies, set_rg_registry. simpl. by rewrite insert_insert_eq.
  - unfold mret, M_ret. cbv beta iota. do 2 f_equal. unfold rg_locked, set_rg_calls, set_rg_proxies, set_rg_registry. simpl. by rewrite app_nil_r.
Qed.

Lemma register_xpcommand_eq p x s : rg_proxies s !! p = Some x -> proxy_ok x ->
  register_xpcommand XPLMFindCommand XPLMCreateCommand_result (Some p) s = Some (under_lock s (registering p x (rg_tried s))).
Proof.
  intros Hp Hx. unfold register_xpcommand. apply under_lock_eq; [by eapply lock_xpcommand_eq|]. intros _.
  assert (rg_proxies (rg_tried s) !! p = Some x) as Hp1 by by rewrite (proj1 (tried_proxies s)).
  generalize dependent (rg_tried s). clear s Hp. intros s Hp. unfold registering.
  erewrite bind_eq by (apply load_proxy_eq; exact Hp). destruct (xpc_state x =? XPCOMMAND_STATE_CREATED); red_if.
  2:{ by erewrite bind_eq by (apply unlock_xpcommand_eq; by eexists). }
  pose proof (find_or_create_eq p x s Hp Hx) as Ef. destruct (resolved _ _ _) as [xp_ref calls]. erewrite bind_eq by exact Ef.
  destruct (xp_ref =? NO_XP_COMMAND).
  - by erewrite bind_eq by (apply unlock_xpcommand_eq; simpl; rewrite lookup_insert_eq; by eexists).
  - erewrite bind_eq by reflexivity.
    erewrite bind_eq by (eapply update_proxy_eq; simpl; rewrite lookup_insert_eq; reflexivity). cbn [xpc_phase set_xpc_xp_ref].
    match goal with |- context [set_rg_proxies ?m ?s'] => change (set_rg_proxies m s') with (rg_locked
      (set_rg_calls ((rg_calls s ++ calls) ++ [XPLMRegisterCommandHandler xp_ref (xpc_phase x) p]) (set_rg_proxies m s))) end.
    erewrite bind_eq by (apply unlock_xpcommand_eq; simpl; rewrite lookup_insert_eq; by eexists).
    unfold mret, M_ret. do 3 f_equal. simpl. by rewrite insert_insert_eq.
Qed.
End XPlane.

(** ** Deregistration *)

(** [registry_ok], with the items of the list and the proxies in their order. *)
Record registry_with s (l : list (loc * option loc)) (ps : list loc) : Prop := mkRegistryWith {
  rw_list : represents (proxy_heap s) (xr_commands (rg_registry s)) l;
  rw_values : l.*2 = Some <$> ps;
  rw_nodup : NoDup ps;
  rw_dom : forall p, p ∈ ps <-> is_Some (rg_proxies s !! p);
  rw_proxy : map_Forall (fun _ x => proxy_ok x) (rg_proxies s);
  rw_handlers : handlers_ok (rg_proxies s) (rg_calls s);
}.

Lemma registry_ok_with s : registry_ok s <-> exists l ps, registry_with s l ps.
Proof.
  split.
  - intros [(l & ps & ? & ? & ? & ?) ? ?]. by exists l, ps.
  - intros (l & ps & []). split; [|done|done]. by exists l, ps.
Qed.

(** Locks and the environment do not matter. *)
Lemma registry_with_same s s' l ps :
  xr_commands (rg_registry s') = xr_commands (rg_registry s) -> rg_proxies s' = rg_proxies s -> rg_items s' = rg_items s ->
  rg_calls s' = rg_calls s -> registry_with s l ps -> registry_with s' l ps.
Proof.
  intros Hl Hm Hi Hc [Hr ? ? ? ? ?]. split; rewrite ?Hl, ?Hm, ?Hc; try done.
  eapply represents_frame; [exact Hr|]. simpl. by rewrite Hi.
Qed.

Lemma registry_with_locked s l ps : registry_with s l ps -> registry_with (rg_locked s) l ps.
Proof. by apply registry_with_same. Qed.

Lemma registry_with_tried s l ps : registry_with s l ps -> registry_with (rg_tried s) l ps.
Proof. destruct (tried_proxies s) as (? & Hr & ? & ?). apply registry_with_same; [by rewrite Hr|done..]. Qed.

Lemma handlers_ok_eq (m m' : gmap loc (xpcommand_t F)) calls :
  (forall p r ph, (exists x, m' !! p = Some x /\ xpc_xp_ref x = r /\ xpc_phase x = ph /\ r <> NO_XP_COMMAND) <->
    (exists x, m !! p = Some x /\ xpc_xp_ref x = r /\ xpc_phase x = ph /\ r <> NO_XP_COMMAND)) ->
  handlers_ok m calls -> handlers_ok m' calls.
Proof. intros Hm (hs & E & Hhs). exists hs. split; [done|]. intros r ph p. by rewrite Hhs, Hm. Qed.

(** A proxy changes, but neither its reference nor its phase. *)
Lemma handlers_ok_update (m : gmap loc (xpcommand_t F)) calls p x x' :
  m !! p = Some x -> xpc_xp_ref x' = xpc_xp_ref x -> xpc_phase x' = xpc_phase x -> handlers_ok m calls -> handlers_ok (<[p := x']> m) calls.
Proof.
  intros Hp Hr Hph. apply handlers_ok_eq. intros q r ph. destruct (decide (p = q)) as [<- |Hne].
  - rewrite lookup_insert_eq, Hp. split; intros (y & [= <-] & ?); eexists; (split; [done|]); by rewrite ?Hr, ?Hph in *.
  - by rewrite lookup_insert_ne.
Qed.

Lemma handlers_ok_register (m : gmap loc (xpcommand_t F)) calls p x x' r :
  m !! p = Some x -> xpc_xp_ref x = NO_XP_COMMAND -> xpc_xp_ref x' = r -> r <> NO_XP_COMMAND ->
  handlers_ok m calls -> handlers_ok (<[p := x']> m) (calls ++ [XPLMRegisterCommandHandler r (xpc_phase x') p]).
Proof.
  intros Hp Hno Hr Hne (hs & E & Hhs). exists ({[(r, xpc_phase x', p)]} ∪ hs). split.
  - rewrite handlers_app, E. simpl. rewrite decide_False; [done|]. intros (y & Hy & E' & _)%Hhs. congruence.
  - intros r' ph' q. rewrite elem_of_union, elem_of_singleton, Hhs. destruct (decide (p = q)) as [<- |Hpq].
    + rewrite lookup_insert_eq. split.
      * intros [[= -> ->]|(y & Hy & E1 & _ & E2)]; [by exists x'|congruence].
      * intros (y & [= <-] & <- & <- & ?). left. by rewrite Hr.
    + rewrite lookup_insert_ne by done. split; [|by right]. intros [[= -> -> ->]|?]; done.
Qed.

Lemma handlers_ok_unregister (m : gmap loc (xpcommand_t F)) calls p x :
  m !! p = Some x -> xpc_xp_ref x <> NO_XP_COMMAND -> handlers_ok m calls ->
  handlers_ok (delete p m) (calls ++ [XPLMUnregisterCommandHandler (xpc_xp_ref x) (xpc_phase x) p]).
Proof.
  intros Hp Hne (hs & E & Hhs). exists (hs ∖ {[(xpc_xp_ref x, xpc_phase x, p)]}). split.
  - rewrite handlers_app, E. simpl. rewrite decide_True; [done|]. apply Hhs. by exists x.
  - intros r ph q. rewrite elem_of_difference, elem_of_singleton, Hhs. destruct (decide (p = q)) as [<- |Hpq].
    + rewrite lookup_delete_eq. split; [|by intros (? & ? & _)]. intros [(y & Hy & <- & <- & _) Hn]. assert (y = x) as -> by congruence. done.
    + rewrite lookup_delete_ne by done. split; [by intros [? _]|]. intros ?. split; [done|]. intros [= -> -> ->]. done.
Qed.

Lemma handlers_ok_forget (m : gmap loc (xpcommand_t F)) calls p x :
  m !! p = Some x -> xpc_xp_ref x = NO_XP_COMMAND -> handlers_ok m calls -> handlers_ok (delete p m) calls.
Proof.
  intros Hp Hno. apply handlers_ok_eq. intros q r ph. destruct (decide (p = q)) as [<- |Hpq].
  - rewrite lookup_delete_eq, Hp. split; [by intros (? & ? & _)|]. intros (y & [= <-] & E1 & _ & E2). congruence.
  - by rewrite lookup_delete_ne.
Qed.

(** Proxies that cannot be removed: they were dropped before they were
    registered. *)
Definition stuck x : bool :=
  ((xpc_state x =? XPCOMMAND_STATE_REGISTERED) || (xpc_state x =? XPCOMMAND_STATE_DROPPED)) && (xpc_xp_ref x =? NO_XP_COMMAND).

(** The call that ends a proxy. *)
Definition farewell (p : loc) x : list registry_call :=
  if (xpc_state x =? XPCOMMAND_STATE_REGISTERED) || (xpc_state x =? XPCOMMAND_STATE_DROPPED)
  then [XPLMUnregisterCommandHandler (xpc_xp_ref x) (xpc_phase x) p] else [].

(** The state without a proxy: the list has changed. *)
Definition without (p : loc) x (list : list_t) (items : gmap loc (list_item_t loc)) s : registry_state F :=
  mkRegistryState (set_xr_commands list (rg_registry s)) (delete p (rg_proxies s)) items (rg_calls s ++ farewell p x) (rg_env s).

Lemma handlers_ok_farewell m calls p x : m !! p = Some x -> proxy_ok x -> stuck x = false ->
  handlers_ok m calls -> handlers_ok (delete p m) (calls ++ farewell p x).
Proof.
  intros Hp Hx Hst Hh. unfold stuck, farewell in *. destruct (po_state _ Hx) as [[E Hr]|[[E Hr]|E]]; rewrite E in *; simpl in *.
  - rewrite app_nil_r. by eapply handlers_ok_forget.
  - by apply handlers_ok_unregister.
  - bools. by apply handlers_ok_unregister.
Qed.

Lemma destroy_proxy_run s l1 i p l2 x :
  represents (proxy_heap s) (xr_commands (rg_registry s)) (l1 ++ (i, Some p) :: l2) -> rg_proxies s !! p = Some x ->
  exists list items, destroy_proxy p i s =
    Some (ERROR_NONE, mkRegistryState (set_xr_commands list (rg_registry s)) (delete p (rg_proxies s)) items (rg_calls s) (rg_env s)) /\
    represents (mkHeap items (rg_env s)) list (l1 ++ l2).
Proof.
  intros Hr Hp. destruct (run_inv _ _ _ (list_delete_item_spec _ _ _ _ _ _ Hr)) as (list & h & E & Hr' & He & _ & _).
  exists list, (h_items h). unfold destroy_proxy. erewrite bind_eq by reflexivity.
  erewrite bind_eq by (unfold on_proxy_list, zoom; rewrite E; reflexivity). erewrite bind_eq by reflexivity.
  erewrite bind_eq by (eapply update_proxy_eq; exact Hp). erewrite bind_eq by reflexivity. simpl in He.
  split; [|by eapply represents_frame]. unfold mret, M_ret, set_rg_proxies. simpl. by rewrite delete_insert_eq, He.
Qed.

Lemma unregister_destroy_item_run s l1 i p l2 ps1 ps2 x :
  registry_with s (l1 ++ (i, Some p) :: l2) (ps1 ++ p :: ps2) -> l1.*2 = Some <$> ps1 -> rg_proxies s !! p = Some x ->
  exists list items, unregister_destroy_item p (Some i) s =
    Some (if stuck x then (ERROR_UNSPECIFIC, s) else (ERROR_NONE, without p x list items s)) /\
    (stuck x = false -> registry_with (without p x list items s) (l1 ++ l2) (ps1 ++ ps2)).
Proof.
  intros [Hr Hv Hn Hd Hx Hh] Hl1 Hp. unfold unregister_destroy_item. erewrite bind_eq by (apply load_proxy_eq; exact Hp).
  assert (forall list items, represents (mkHeap items (rg_env s)) list (l1 ++ l2) -> stuck x = false ->
    registry_with (without p x list items s) (l1 ++ l2) (ps1 ++ ps2)) as Hok.
  { intros list items Hr' Hst. split; simpl; [done| | | | |].
    - rewrite !fmap_app, !fmap_cons, Hl1 in Hv. apply app_inv_head in Hv. injection Hv as Hv. by rewrite !fmap_app, Hl1, Hv.
    - apply NoDup_app in Hn as (? & Hdis & [? ?]%NoDup_cons). apply NoDup_app. split; [done|]. split; [|done].
      intros q Hq Hq'. apply (Hdis q Hq). by right.
    - intros q. rewrite lookup_delete_is_Some, <-Hd, !elem_of_app, elem_of_cons.
      apply NoDup_app in Hn as (? & Hdis & [? ?]%NoDup_cons). split; [|intros [? [?|[?|?]]]; [by left|congruence|by right]].
      intros [Hq|Hq]; (split; [|tauto]); intros <-; [|done]. apply (Hdis p Hq). left.
    - intros q y. rewrite lookup_delete_Some. intros [_ ?]. by eapply Hx.
    - apply handlers_ok_farewell; [done|by eapply Hx|done|done]. }
  unfold stuck, without, farewell in *.
  destruct ((xpc_state x =? XPCOMMAND_STATE_REGISTERED) || (xpc_state x =? XPCOMMAND_STATE_DROPPED)); cbn [andb] in *.
  - destruct (xpc_xp_ref x =? NO_XP_COMMAND).
    { exists empty_list, ∅. by split. }
    erewrite bind_eq by reflexivity. erewrite bind_eq by (eapply update_proxy_eq; exact Hp).
    destruct (destroy_proxy_run (set_rg_proxies (<[p := set_xpc_xp_ref NO_XP_COMMAND x]> (rg_proxies s))
      (set_rg_calls (rg_calls s ++ [XPLMUnregisterCommandHandler (xpc_xp_ref x) (xpc_phase x) p]) s)) l1 i p l2 _ Hr (lookup_insert_eq _ _ _))
      as (list & items & E & Hr').
    exists list, items. split; [|intros ?; by apply Hok]. etransitivity; [exact E|]. simpl. by rewrite delete_insert_eq.
  - destruct (destroy_proxy_run s l1 i p l2 x Hr Hp) as (list & items & E & Hr').
    exists list, items. split; [|intros ?; by apply Hok]. rewrite E. by rewrite app_nil_r.
Qed.

(** The item of a proxy. *)
Lemma proxy_item s l ps p x : registry_with s l ps -> rg_proxies s !! p = Some x ->
  exists l1 i l2 ps1 ps2, l = l1 ++ (i, Some p) :: l2 /\ ps = ps1 ++ p :: ps2 /\ l1.*2 = Some <$> ps1 /\
    List.find (fun pv : loc * option loc => bool_decide (pv.2 = Some p)) l = Some (i, Some p).
Proof.
  intros Hw Hp. assert (p ∈ ps) as (ps1 & ps2 & ->)%list_elem_of_split by (apply (rw_dom _ _ _ Hw); by eexists).
  pose proof (rw_values _ _ _ Hw) as Hv. pose proof (rw_nodup _ _ _ Hw) as (_ & Hdis & _)%NoDup_app. clear Hw.
  rewrite fmap_app in Hv.
  apply fmap_app_inv in Hv as (l1 & l' & Hl1 & Hl' & ->). destruct l' as [|[i v] l2]; [done|]. simpl in Hl'. injection Hl' as <- _.
  exists l1, i, l2, ps1, ps2. split_and!; [done..|].
  revert ps1 Hl1 Hdis. induction l1 as [|[j v] l1 IH]; intros [|q ps1] Hl1 Hdis; try done; simpl.
  - by rewrite bool_decide_eq_true_2.
  - simpl in Hl1. injection Hl1 as <- Hl1. rewrite bool_decide_eq_false_2.
    + apply (IH ps1); [done|]. intros r Hr. apply Hdis. by right.
    + intros [= ->]. apply (Hdis p); left.
Qed.

Lemma unregister_destroy_run s l ps p x :
  registry_with s l ps -> rg_proxies s !! p = Some x ->
  exists list items, unregister_destroy_xpcommand (Some p) s =
    Some (under_lock s (if stuck x then (ERROR_UNSPECIFIC, rg_tried s) else (ERROR_NONE, without p x list items (rg_tried s)))) /\
    (stuck x = false -> registry_ok (without p x list items (rg_tried s))).
Proof.
  intros Hw Hp. destruct (proxy_item s l ps p x Hw Hp) as (l1 & i & l2 & ps1 & ps2 & -> & -> & Hl1 & Hfind).
  pose proof (registry_with_locked _ _ _ (registry_with_tried _ _ _ Hw)) as Hw1.
  assert (rg_proxies (rg_locked (rg_tried s)) !! p = Some x) as Hp1 by (simpl; by rewrite (proj1 (tried_proxies s))).
  destruct (unregister_destroy_item_run _ _ _ _ _ _ _ x Hw1 Hl1 Hp1) as (list & items & E & Hok).
  exists list, items. split.
  - unfold unregister_destroy_xpcommand. erewrite bind_eq by (apply load_proxy_eq; exact Hp).
    apply under_lock_eq; [apply lock_registry_eq|]. intros _. erewrite bind_eq by reflexivity.
    pose proof (rw_list _ _ _ Hw1) as Hr. rewrite (rep_size _ _ _ Hr), Nat2Z.id.
    erewrite bind_eq.
    2:{ unfold on_proxy_list, zoom, list_find, list_find_test. rewrite (rep_head _ _ _ Hr).
        rewrite (find_loop_spec _ _ _ [] _ _ Hr) by done. rewrite Hfind. reflexivity. }
    change (set_proxy_heap (proxy_heap (rg_locked (rg_tried s))) (rg_locked (rg_tried s))) with (rg_locked (rg_tried s)). cbn [fmap option_fmap option_map fst].
    destruct (stuck x); erewrite bind_eq by exact E.
    + by erewrite bind_eq by apply unlock_locked.
    + change (without p x list items (rg_locked (rg_tried s))) with (rg_locked (without p x list items (rg_tried s))).
      by erewrite bind_eq by apply unlock_locked.
  - intros Hst. apply registry_ok_with. exists (l1 ++ l2), (ps1 ++ ps2).
    eapply (registry_with_same (without p x list items (rg_locked (rg_tried s)))); [done..|]. by apply Hok.
Qed.

(** What the removal of dropped proxies leaves. *)
Definition removable x : bool := (xpc_state x =? XPCOMMAND_STATE_DROPPED) && negb (xpc_xp_ref x =? NO_XP_COMMAND).

Definition retained (o : option (xpcommand_t F)) : option (xpcommand_t F) :=
  match o with Some x => if removable x then None else Some x | None => None end.

(** Whether a dropped proxy cannot be removed is reported. *)
Definition stuck_dropped s (ps : list loc) : Prop :=
  exists q x, q ∈ ps /\ rg_proxies s !! q = Some x /\ xpc_state x = XPCOMMAND_STATE_DROPPED /\ stuck x = true.
Definition loop_error s (ps : list loc) (out err : error_t) : Prop :=
  (err = out /\ ~ stuck_dropped s ps) \/ (err = ERROR_UNSPECIFIC /\ stuck_dropped s ps).

Lemma unregister_dropped_loop_run l2 : forall s l1 ps1 ps2 fuel out,
  registry_with s (l1 ++ l2) (ps1 ++ ps2) -> l1.*2 = Some <$> ps1 -> (length l2 <= fuel)%nat ->
  exists err list m items calls l' ps',
    unregister_dropped_loop fuel (first l2 None) out s =
      Some (err, mkRegistryState (set_xr_commands list (rg_registry s)) m items (rg_calls s ++ calls) (rg_env s)) /\
    registry_with (mkRegistryState (set_xr_commands list (rg_registry s)) m items (rg_calls s ++ calls) (rg_env s)) l' ps' /\
    (forall q, m !! q = if decide (q ∈ ps2) then retained (rg_proxies s !! q) else rg_proxies s !! q) /\
    loop_error s ps2 out err.
Proof.
  induction l2 as [|[i v] l2 IH]; intros s l1 ps1 ps2 fuel out Hw Hl1 Hf.
  { exists out, (xr_commands (rg_registry s)), (rg_proxies s), (rg_items s), [], (l1 ++ []), (ps1 ++ ps2).
    pose proof (rw_values _ _ _ Hw) as Hv. rewrite app_nil_r, Hl1, fmap_app in Hv.
    assert (ps2 = []) as ->.
    { apply (f_equal length) in Hv. rewrite length_app, !length_fmap in Hv. destruct ps2; [done|simpl in Hv; lia]. }
    rewrite app_nil_r. split; [destruct fuel; by destruct s as [[] ? ? ? ?]|]. split; [by destruct s as [[] ? ? ? ?]|].
    split; [intros q; by rewrite decide_False by apply not_elem_of_nil|]. left. split; [done|]. by intros (q & x & ?%not_elem_of_nil & _). }
  destruct fuel as [|fuel]; [simpl in Hf; lia|].
  pose proof (rw_values _ _ _ Hw) as Hv. rewrite fmap_app, Hl1, fmap_app in Hv. apply app_inv_head in Hv.
  destruct ps2 as [|p ps2]; [done|]. simpl in Hv. injection Hv as -> Hl2.
  destruct (proj1 (rw_dom _ _ _ Hw p)) as [x Hp]; [apply elem_of_app; right; left|].
  destruct (represents_item _ _ _ _ _ _ (rw_list _ _ _ Hw)) as (prev & Hit).
  cbn [first unregister_dropped_loop]. erewrite bind_eq by (unfold on_proxy_list, zoom; erewrite load_item_eq by exact Hit; reflexivity).
  change (set_proxy_heap (proxy_heap s) s) with (mkRegistryState (rg_registry s) (rg_proxies s) (rg_items s) (rg_calls s) (rg_env s)).
  replace (mkRegistryState (rg_registry s) (rg_proxies s) (rg_items s) (rg_calls s) (rg_env s)) with s by by destruct s.
  cbn [item_value item_next]. cbv zeta. erewrite bind_eq by reflexivity. erewrite bind_eq by (apply load_proxy_eq; exact Hp).
  assert (p ∉ ps1 ++ ps2) as Hnin.
  { pose proof (rw_nodup _ _ _ Hw) as (_ & Hdis & [? _]%NoDup_cons)%NoDup_app. intros [?|?]%elem_of_app; [|done]. by apply (Hdis p); [|left]. }
  rewrite not_elem_of_app in Hnin. destruct Hnin as [_ Hnin].
  (* the proxy stays *)
  assert (forall out1, removable x = false -> (if decide (xpc_state x = XPCOMMAND_STATE_DROPPED /\ stuck x = true) then out1 = ERROR_UNSPECIFIC else out1 = out) ->
    exists err list m items calls l' ps', unregister_dropped_loop fuel (first l2 None) out1 s =
      Some (err, mkRegistryState (set_xr_commands list (rg_registry s)) m items (rg_calls s ++ calls) (rg_env s)) /\
    registry_with (mkRegistryState (set_xr_commands list (rg_registry s)) m items (rg_calls s ++ calls) (rg_env s)) l' ps' /\
    (forall q, m !! q = if decide (q ∈ p :: ps2) then retained (rg_proxies s !! q) else rg_proxies s !! q) /\
    loop_error s (p :: ps2) out err) as Hkeep.
  { intros out1 Hrem Hout. destruct (IH s (l1 ++ [(i, Some p)]) (ps1 ++ [p]) ps2 fuel out1) as (err & list & m & items & calls & l' & ps' & E & Hw' & Hm & Herr).
    { by rewrite <-!app_assoc. } { by rewrite !fmap_app, Hl1. } { simpl in Hf. lia. }
    exists err, list, m, items, calls, l', ps'. split; [exact E|]. split; [exact Hw'|]. split.
    - intros q. rewrite Hm. destruct (decide (q = p)) as [-> |Hne].
      + rewrite decide_False, decide_True by (done || left). rewrite Hp. simpl. by rewrite Hrem.
      + destruct (decide (q ∈ ps2)) as [?|Hn]; [by rewrite decide_True by by right|]. by rewrite decide_False by by intros [?|?]%elem_of_cons.
    - destruct (decide _) as [[Hd Hs]|Hns].
      + right. split; [subst out1; by destruct Herr as [[-> _]|[-> _]]|]. exists p, x. split; [left|done].
      + destruct Herr as [[-> Hn]|[-> (q & y & Hq & Hy)]]; [left|right; split; [done|]; exists q, y; split; [by right|done]].
        split; [done|]. intros (q & y & [-> |Hq]%elem_of_cons & Hy & Hd & Hs); [|by apply Hn; exists q, y].
        apply Hns. assert (y = x) as -> by congruence. done. }
  destruct (Z.eqb_spec (xpc_state x) XPCOMMAND_STATE_DROPPED) as [Hst|Hst].
  2:{ erewrite bind_eq by reflexivity. apply Hkeep; [|by rewrite decide_False by by intros [? _]]. unfold removable. by rewrite (proj2 (Z.eqb_neq _ _) Hst). }
  destruct (unregister_destroy_item_run s l1 i p l2 ps1 ps2 x Hw Hl1 Hp) as (list & items & E & Hok).
  assert (stuck x = negb (removable x)) as Hsr.
  { unfold stuck, removable. rewrite Hst. simpl. by destruct (xpc_xp_ref x =? NO_XP_COMMAND). }
  destruct (stuck x) eqn:Hstuck.
  - erewrite bind_eq by (erewrite bind_eq by exact E; reflexivity). apply Hkeep; [by destruct (removable x)|by rewrite decide_True].
  - erewrite bind_eq by (erewrite bind_eq by exact E; reflexivity). cbn [negb Z.eqb ERROR_NONE]. cbv beta iota.
    specialize (Hok eq_refl). destruct (IH (without p x list items s) l1 ps1 ps2 fuel out Hok Hl1) as (err & list' & m & items' & calls & l' & ps' & E' & Hw' & Hm & Herr);
      [simpl in Hf; lia|].
    exists err, list', m, items', (farewell p x ++ calls), l', ps'. rewrite app_assoc. split; [exact E'|]. split; [exact Hw'|]. split.
    + intros q. rewrite Hm. simpl. destruct (decide (q = p)) as [-> |Hne].
      * rewrite decide_False, decide_True by (done || left). rewrite lookup_delete_eq, Hp. simpl. by destruct (removable x).
      * rewrite lookup_delete_ne by done. destruct (decide (q ∈ ps2)) as [?|Hn]; [by rewrite decide_True by by right|].
        by rewrite decide_False by by intros [?|?]%elem_of_cons.
    + assert (stuck_dropped (without p x list items s) ps2 <-> stuck_dropped s (p :: ps2)) as Hiff.
      { split.
        - intros (q & y & Hq & Hy & ?). simpl in Hy. apply lookup_delete_Some in Hy as [_ Hy]. exists q, y. split; [by right|done].
        - intros (q & y & Hq & Hy & Hd & Hs). assert (q <> p) as Hne by (intros ->; assert (y = x) as -> by congruence; congruence).
          apply elem_of_cons in Hq as [?|Hq]; [done|]. exists q, y. split; [done|]. simpl. by rewrite lookup_delete_ne. }
      unfold loop_error in *. by rewrite Hiff in Herr.
Qed.

Definition registry_after (commands : list_t) (m : gmap loc (xpcommand_t F)) (items : gmap loc (list_item_t loc)) (calls : list registry_call) s :
    registry_state F :=
  mkRegistryState (set_xr_commands commands (rg_registry s)) m items (rg_calls s ++ calls) (rg_env s).

(** Maintenance removes the dropped proxies that were registered, and no other. *)
Lemma unregister_dropped_run s : registry_ok s ->
  exists err s', unregister_dropped_xpcommands s = Some (err, s') /\ registry_ok s' /\
    xr_lock (rg_registry s') = xr_lock (rg_registry s) /\
    xr_destruction_pending (rg_registry s') = xr_destruction_pending (rg_registry s) /\ rg_env s' = rg_env (rg_tried s) /\
    if registry_lock_error s =? ERROR_NONE then
      (forall q, rg_proxies s' !! q = retained (rg_proxies s !! q)) /\
      (err = ERROR_NONE \/ err = ERROR_UNSPECIFIC) /\
      (err = ERROR_UNSPECIFIC <-> exists q x, rg_proxies s !! q = Some x /\ xpc_state x = XPCOMMAND_STATE_DROPPED /\ stuck x = true)
    else err = ERROR_MUTEX_FAILED /\ s' = rg_tried s.
Proof.
  intros (l & ps & Hw)%registry_ok_with. pose proof (registry_with_tried _ _ _ Hw) as Hwt.
  destruct (tried_proxies s) as (Hm0 & Hr0 & _). unfold unregister_dropped_xpcommands. erewrite bind_eq by apply lock_registry_eq.
  destruct (Z.eqb_spec (registry_lock_error s) ERROR_NONE) as [Hl|Hl]; red_if.
  2:{ exists ERROR_MUTEX_FAILED, (rg_tried s). split; [done|]. rewrite Hr0. split_and!; try done. apply registry_ok_with. eauto. }
  erewrite bind_eq by reflexivity. pose proof (registry_with_locked _ _ _ Hwt) as Hwl. pose proof (rw_list _ _ _ Hwl) as Hr.
  rewrite (rep_size _ _ _ Hr), (rep_head _ _ _ Hr), Nat2Z.id.
  destruct (unregister_dropped_loop_run l (rg_locked (rg_tried s)) [] [] ps (length l) ERROR_NONE Hwl eq_refl ltac:(done))
    as (err & list & m & items & calls & l' & ps' & E & Hw' & Hm & Herr).
  erewrite bind_eq by exact E.
  change (mkRegistryState (set_xr_commands list (rg_registry (rg_locked (rg_tried s)))) m items (rg_calls (rg_locked (rg_tried s)) ++ calls) (rg_env (rg_locked (rg_tried s))))
    with (rg_locked (registry_after list m items calls (rg_tried s))) in *.
  erewrite bind_eq by apply unlock_locked. exists err, (registry_after list m items calls (rg_tried s)). split; [done|]. cbn [registry_after rg_registry rg_env rg_proxies].
  rewrite Hr0. split; [apply registry_ok_with; exists l', ps'; by eapply registry_with_same; [..|exact Hw']|]. do 3 (split; [done|]).
  assert (forall q x, rg_proxies s !! q = Some x -> q ∈ ps) as Hin by (intros q x Hq; apply (rw_dom _ _ _ Hw); by eexists).
  split; [|split].
  - intros q. rewrite Hm. simpl. rewrite Hm0. case_decide as Hq; [done|]. destruct (rg_proxies s !! q) as [x|] eqn:E'; [|done].
    destruct Hq. by eapply Hin.
  - destruct Herr as [[-> _]|[-> _]]; [by left|by right].
  - unfold loop_error, stuck_dropped in Herr. simpl in Herr. rewrite Hm0 in Herr. split.
    + intros ->. destruct Herr as [[? _]|[_ (q & x & _ & Hx)]]; [done|by exists q, x].
    + intros (q & x & Hq & Hx). destruct Herr as [[_ Hn]|[? _]]; [|done]. destruct Hn. exists q, x. split; [by eapply Hin|done].
Qed.

(** ** Creation *)

Definition created_proxy (name description : cstr) (phase propagate : Z) (callback_ref : option loc) (callback : F) : xpcommand_t F :=
  mkXpcommand XPCOMMAND_STATE_CREATED (Some name) (Some description) phase propagate NO_XP_COMMAND (Some callback) callback_ref.

Definition valid_phase_propagation (phase propagate : Z) : bool :=
  ((phase =? XPCOMMAND_PHASE_BEFORE) || (phase =? XPCOMMAND_PHASE_AFTER)) &&
  ((propagate =? XPCOMMAND_PROPAGATE_STOP) || (propagate =? XPCOMMAND_PROPAGATE_CONTINUE)).

Lemma registry_with_append s l ps p x list items i e :
  registry_with s l ps -> rg_proxies s !! p = None -> proxy_ok x -> xpc_xp_ref x = NO_XP_COMMAND ->
  represents (mkHeap items e) list (l ++ [(i, Some p)]) ->
  registry_ok (mkRegistryState (set_xr_commands list (rg_registry s)) (<[p := x]> (rg_proxies s)) items (rg_calls s) e).
Proof.
  intros [Hr Hv Hn Hd Hx Hh] Hp Hxok Hno Hr'. apply registry_ok_with. exists (l ++ [(i, Some p)]), (ps ++ [p]).
  assert (p ∉ ps) as Hnin by (rewrite Hd, Hp; by intros [? ?]).
  split; simpl; [done| | | | |].
  - by rewrite !fmap_app, Hv.
  - apply NoDup_app. split; [done|]. split; [|apply NoDup_singleton]. by intros q Hq ->%list_elem_of_singleton.
  - intros q. rewrite elem_of_app, list_elem_of_singleton, Hd. destruct (decide (p = q)) as [<- |Hne].
    + rewrite lookup_insert_eq. split; [by eexists|by right].
    + rewrite lookup_insert_ne by done. split; [by intros [?|?]|by left].
  - by apply map_Forall_insert_2.
  - eapply handlers_ok_eq; [|exact Hh]. intros q r ph. destruct (decide (p = q)) as [<- |Hne].
    + rewrite lookup_insert_eq, Hp. split; [|by intros (? & ? & _)]. intros (y & [= <-] & E1 & _ & E2). congruence.
    + by rewrite lookup_insert_ne.
Qed.

Lemma registry_ok_env s e : registry_ok s -> registry_ok (set_rg_env e s).
Proof.
  intros Hok. destruct (proj1 (registry_ok_with s) Hok) as (l & ps & Hw). apply registry_ok_with. exists l, ps.
  by eapply registry_with_same; [..|exact Hw].
Qed.

Lemma discard_proxy_eq p x e s : rg_proxies s !! p = None ->
  discard_proxy p (set_rg_env e (set_rg_proxies (<[p := x]> (rg_proxies s)) s)) = Some (None, set_rg_env e s).
Proof.
  intros Hp. unfold discard_proxy. erewrite bind_eq by reflexivity. unfold mret, M_ret, set_rg_env. simpl. by rewrite delete_insert_id.
Qed.

(** A new proxy is put into the list, or discarded. *)
Lemma store_proxy_run s p x e :
  registry_ok s -> rg_proxies s !! p = None -> proxy_ok x -> xpc_xp_ref x = NO_XP_COMMAND -> calmer (rg_env s) e ->
  exists r s', store_proxy p (set_rg_env e (set_rg_proxies (<[p := x]> (rg_proxies s)) s)) = Some (r, s') /\ registry_ok s' /\
    rg_calls s' = rg_calls s /\ xr_lock (rg_registry s') = xr_lock (rg_registry s) /\
    xr_destruction_pending (rg_registry s') = xr_destruction_pending (rg_registry s) /\ calmer (rg_env s) (rg_env s') /\
    match r with
    | Some p' => p' = p /\ rg_proxies s' = <[p := x]> (rg_proxies s)
    | None => rg_proxies s' = rg_proxies s
    end /\
    (plenty (rg_env s) -> lock_succeeds (rg_env s) -> xr_destruction_pending (rg_registry s) = false -> is_Some r).
Proof.
  intros Hok Hp Hx Hno Hc. pose proof (fun e => registry_ok_env s e Hok) as Henv. set (s3 := set_rg_env e _).
  unfold store_proxy. erewrite bind_eq by apply lock_registry_eq.
  assert (exists e4, rg_tried s3 = set_rg_env e4 s3 /\ calmer (rg_env s) e4) as (e4 & Etried & Hc4).
  { unfold rg_tried. destruct (xr_destruction_pending _); [by exists e|]. exists (lock_rest e). split; [done|]. destruct Hc as [Hpl3 Hls3]. split; [exact Hpl3|].
    intros ?. apply lock_succeeds_rest. auto. }
  rewrite Etried. destruct (Z.eqb_spec (registry_lock_error s3) ERROR_NONE) as [Hl|Hl]; red_if.
  2:{ eexists None, _. split; [by apply (discard_proxy_eq p x e4 s)|]. split; [apply Henv|]. do 3 (split; [done|]). split; [done|]. split; [done|].
      intros _ Hls Hpend. destruct Hl. unfold registry_lock_error. simpl. rewrite Hpend. rewrite lock_succeeds_next; [done|]. by apply Hc. }
  erewrite bind_eq by reflexivity. destruct (proj1 (registry_ok_with s) Hok) as (l & ps & Hw).
  assert (represents (proxy_heap (rg_locked (set_rg_env e4 s3))) (xr_commands (rg_registry (rg_locked (set_rg_env e4 s3)))) l) as Hr
    by (eapply represents_frame; [apply (rw_list _ _ _ Hw)|done]).
  destruct (run_inv _ _ _ (list_append_spec _ _ _ (Some p) Hr)) as ([ok list] & h & E & Hokeq & He & Hres).
  erewrite bind_eq by (unfold on_proxy_list, zoom; rewrite E; reflexivity). cbv beta iota. erewrite bind_eq by reflexivity.
  set (s4 := mkRegistryState (set_xr_commands list (rg_registry s)) (<[p := x]> (rg_proxies s)) (h_items h) (rg_calls s) (h_env h)).
  erewrite (bind_eq _ _ _ tt s4) by apply (unlock_locked s4). simpl in Hokeq, He.
  assert (calmer (rg_env s) (h_env h)) as Hc5.
  { rewrite He. destruct Hc4 as [Hpl4 Hls4]. split; [|exact Hls4]. intros ?. apply plenty_rest. auto. }
  destruct ok; red_if.
  - destruct Hres as (i & _ & Hr' & _). exists (Some p), s4. split; [done|].
    split; [eapply (registry_with_append s l ps p x); [done..|by eapply represents_frame]|].
    do 3 (split; [done|]). split; [done|]. split; [done|]. intros _ _ _. by eexists.
  - destruct Hres as [-> Hi]. eexists None, _. split; [unfold discard_proxy; erewrite bind_eq by reflexivity; reflexivity|].
    assert (delete p (rg_proxies s4) = rg_proxies s) as Hm by by apply delete_insert_id.
    split.
    { apply registry_ok_with. exists l, ps. eapply registry_with_same; [..|exact Hw]; [done|exact Hm| |done]. simpl. exact Hi. }
    do 3 (split; [done|]). split; [done|]. split; [exact Hm|]. intros Hpl _ _. exfalso.
    rewrite plenty_next in Hokeq; [done|]. apply Hc4, Hpl.
Qed.

Lemma create_xpcommand_run s name description phase propagate callback_ref callback :
  registry_ok s -> no_nul name -> no_nul description ->
  exists r s', create_xpcommand (Some name) (Some description) phase propagate callback_ref (Some callback) s = Some (r, s') /\ registry_ok s' /\
    rg_calls s' = rg_calls s /\ xr_lock (rg_registry s') = xr_lock (rg_registry s) /\
    xr_destruction_pending (rg_registry s') = xr_destruction_pending (rg_registry s) /\ calmer (rg_env s) (rg_env s') /\
    match r with
    | Some p => rg_proxies s !! p = None /\ valid_phase_propagation phase propagate = true /\
        rg_proxies s' = <[p := created_proxy name description phase propagate callback_ref callback]> (rg_proxies s)
    | None => rg_proxies s' = rg_proxies s
    end /\
    (plenty (rg_env s) -> lock_succeeds (rg_env s) -> xr_destruction_pending (rg_registry s) = false ->
      valid_phase_propagation phase propagate = true -> is_Some r).
Proof.
  intros Hok Hn Hd. unfold create_xpcommand.
  assert ((negb (phase =? XPCOMMAND_PHASE_BEFORE) && negb (phase =? XPCOMMAND_PHASE_AFTER)) ||
    (negb (propagate =? XPCOMMAND_PROPAGATE_STOP) && negb (propagate =? XPCOMMAND_PROPAGATE_CONTINUE)) =
    negb (valid_phase_propagation phase propagate)) as ->.
  { unfold valid_phase_propagation. by destruct (phase =? _), (phase =? _), (propagate =? _), (propagate =? _). }
  destruct (valid_phase_propagation phase propagate) eqn:Hvalid; red_if.
  2:{ exists None, s. by split_and!. }
  pose proof (fun e => registry_ok_env s e Hok) as Henv.
  assert (calmer (rg_env s) (alloc_rest (rg_env s))) as Hc1 by (split; [apply plenty_rest|done]).
  assert (calmer (rg_env s) (alloc_rest (alloc_rest (rg_env s)))) as Hc2 by (split; [intros ?; by apply plenty_rest, plenty_rest|done]).
  assert (calmer (rg_env s) (alloc_rest (alloc_rest (alloc_rest (rg_env s))))) as Hc3 by (split; [intros ?; by do 3 apply plenty_rest|done]).
  erewrite bind_eq by by apply rg_on_env_eq, zmalloc_eq. destruct (alloc_next (rg_env s)) eqn:Ha1; red_if.
  2:{ eexists None, _. split; [reflexivity|]. split; [apply Henv|]. do 3 (split; [done|]). split; [done|]. split; [done|].
      intros Hpl. by rewrite plenty_next in Ha1. }
  set (p := fresh (dom (rg_proxies s))). assert (rg_proxies s !! p = None) as Hp by (apply not_elem_of_dom, is_fresh).
  set (x0 := mkXpcommand XPCOMMAND_STATE_CREATED None None phase propagate NO_XP_COMMAND (Some callback) callback_ref).
  erewrite (bind_eq _ _ _ p (set_rg_env (alloc_rest (rg_env s)) (set_rg_proxies (<[p := x0]> (rg_proxies s)) s))) by reflexivity.
  erewrite bind_eq by by apply rg_on_env_eq, copy_string_eq. cbn [rg_env set_rg_env].
  erewrite bind_eq by (eapply update_proxy_eq; apply lookup_insert_eq).
  change (set_rg_proxies ?m (set_rg_env ?e (set_rg_env _ (set_rg_proxies _ s)))) with (set_rg_env e (set_rg_proxies m s)).
  cbn [rg_proxies set_rg_env set_rg_proxies]. rewrite insert_insert_eq.
  destruct (alloc_next (alloc_rest (rg_env s))) eqn:Ha2.
  2:{ eexists None, _. split; [by apply discard_proxy_eq|]. split; [apply Henv|]. do 3 (split; [done|]). split; [done|]. split; [done|].
      intros Hpl. apply plenty_rest in Hpl. by rewrite plenty_next in Ha2. }
  erewrite bind_eq by by apply rg_on_env_eq, copy_string_eq. cbn [rg_env set_rg_env].
  erewrite bind_eq by (eapply update_proxy_eq; apply lookup_insert_eq).
  change (set_rg_proxies ?m (set_rg_env ?e (set_rg_env _ (set_rg_proxies _ s)))) with (set_rg_env e (set_rg_proxies m s)).
  cbn [rg_proxies set_rg_env set_rg_proxies]. rewrite insert_insert_eq.
  destruct (alloc_next (alloc_rest (alloc_rest (rg_env s)))) eqn:Ha3.
  2:{ eexists None, _. split; [by apply discard_proxy_eq|]. split; [apply Henv|]. do 3 (split; [done|]). split; [done|]. split; [done|].
      intros Hpl. do 2 apply plenty_rest in Hpl. by rewrite plenty_next in Ha3. }
  set (x := set_xpc_description _ _).
  assert (x = created_proxy name description phase propagate callback_ref callback) as Ex by done. clearbody x. subst x.
  set (x := created_proxy name description phase propagate callback_ref callback) in *.
  assert (proxy_ok x) as Hx.
  { split; simpl; [by split; eexists|by eexists| | |by left].
    - unfold valid_phase_propagation in Hvalid. apply andb_prop in Hvalid as [Hv _]. apply orb_prop in Hv as [?|?]; bools; tauto.
    - unfold valid_phase_propagation in Hvalid. apply andb_prop in Hvalid as [_ Hv]. apply orb_prop in Hv as [?|?]; bools; tauto. }
  destruct (store_proxy_run s p x _ Hok Hp Hx eq_refl Hc3) as (r & s' & E & Hok' & ? & ? & ? & ? & Hr & Hsucc).
  exists r, s'. split; [exact E|]. do 5 (split; [done|]). split; [|auto]. destruct r as [p'|]; [|done]. by destruct Hr as [-> ?].
Qed.

(** ** Keeping the promise *)

Lemma registry_ok_tried s : registry_ok s -> registry_ok (rg_tried s).
Proof. unfold rg_tried. destruct (xr_destruction_pending _); [done|apply registry_ok_env]. Qed.

(** A proxy changes in place, while calls are made. *)
Lemma registry_ok_update s p x x' calls :
  registry_ok s -> rg_proxies s !! p = Some x -> proxy_ok x' ->
  handlers_ok (<[p := x']> (rg_proxies s)) (rg_calls s ++ calls) ->
  registry_ok (set_rg_calls (rg_calls s ++ calls) (set_rg_proxies (<[p := x']> (rg_proxies s)) s)).
Proof.
  intros [(l & ps & Hr & Hv & Hn & Hd) Hx _] Hp Hx' Hh. split; simpl; [|by apply map_Forall_insert_2|done].
  exists l, ps. split; [exact Hr|]. split; [done|]. split; [done|]. intros q. rewrite Hd.
  destruct (decide (p = q)) as [<- |Hne]; [rewrite lookup_insert_eq, Hp; split; by eexists|by rewrite lookup_insert_ne].
Qed.

Lemma registry_ok_drop s p x : registry_ok s -> rg_proxies s !! p = Some x -> droppable x = true -> registry_ok (dropped p x s).
Proof.
  intros Hok Hp _. pose proof (ro_proxy _ Hok _ _ Hp) as [? ? ? ? ?].
  pose proof (registry_ok_update s p x (set_xpc_state XPCOMMAND_STATE_DROPPED x) [] Hok Hp) as Hu. rewrite app_nil_r in Hu.
  unfold dropped. destruct s. apply Hu; [split; try done; by right; right|]. eapply handlers_ok_update; [exact Hp|done..|apply (ro_handlers _ Hok)].
Qed.

Section XPlane.
Context (XPLMFindCommand : list registry_call -> cstr -> Z) (XPLMCreateCommand_result : list registry_call -> cstr -> cstr -> Z).

Lemma registry_ok_register s p x : registry_ok s -> rg_proxies s !! p = Some x ->
  registry_ok (registering XPLMFindCommand XPLMCreateCommand_result p x s).2.
Proof.
  intros Hok Hp. pose proof (ro_proxy _ Hok _ _ Hp) as Hx. unfold registering.
  destruct (Z.eqb_spec (xpc_state x) XPCOMMAND_STATE_CREATED) as [Hst|Hst]; red_if; [|done].
  assert (xpc_xp_ref x = NO_XP_COMMAND) as Hno by (destruct (po_state _ Hx) as [[_ ?]|[[E _]|E]]; [done|by rewrite Hst in E..]).
  destruct (resolved _ _ _ _ _) as [r calls] eqn:Er.
  assert (forall m, handlers_ok m (rg_calls s) -> handlers_ok m (rg_calls s ++ calls)) as Hcalls.
  { intros m (hs & E & Hhs). exists hs. split; [|done]. unfold resolved in Er. destruct (negb _); injection Er as _ <-.
    - by rewrite app_nil_r.
    - by rewrite handlers_app, E. }
  destruct Hx as [? ? ? ? ?]. destruct (Z.eqb_spec r NO_XP_COMMAND) as [-> |Hne]; cbn [snd].
  - eapply registry_ok_update; [exact Hok|exact Hp|split; try done; by left|].
    apply Hcalls. eapply handlers_ok_update; [exact Hp|by rewrite Hno|done|apply (ro_handlers _ Hok)].
  - rewrite <-app_assoc. eapply registry_ok_update; [exact Hok|exact Hp|split; try done; by right; left|].
    rewrite app_assoc.
    apply (handlers_ok_register (rg_proxies s) (rg_calls s ++ calls) p x (set_xpc_state XPCOMMAND_STATE_REGISTERED (set_xpc_xp_ref r x)) r Hp Hno eq_refl Hne).
    apply Hcalls, (ro_handlers _ Hok).
Qed.

(** What the owners of proxies and the flight loop do. *)
Inductive registry_action :=
  | CreateProxy (name description : cstr) (phase propagate : Z) (callback_ref : option loc) (callback : F)
  | RegisterProxy (p : loc)
  | DropProxy (p : loc)
  | DestroyProxy (p : loc)
  | MaintainProxies.

Definition registry_enabled s (a : registry_action) : Prop :=
  match a with
  | CreateProxy name description _ _ _ _ => no_nul name /\ no_nul description
  | RegisterProxy p | DropProxy p | DestroyProxy p => is_Some (rg_proxies s !! p)
  | MaintainProxies => True
  end.

Definition registry_perform (a : registry_action) : M (registry_state F) unit :=
  match a with
  | CreateProxy name description phase propagate callback_ref callback =>
      _ ← create_xpcommand (Some name) (Some description) phase propagate callback_ref (Some callback); mret tt
  | RegisterProxy p => _ ← register_xpcommand XPLMFindCommand XPLMCreateCommand_result (Some p); mret tt
  | DropProxy p => _ ← drop_xpcommand (Some p); mret tt
  | DestroyProxy p => _ ← unregister_destroy_xpcommand (Some p); mret tt
  | MaintainProxies => _ ← unregister_dropped_xpcommands; mret tt
  end.

(** A proxy that will not go away. *)
Definition never_removed x : Prop := xpc_state x = XPCOMMAND_STATE_DROPPED /\ xpc_xp_ref x = NO_XP_COMMAND.

Lemma under_lock_cases s r (P : registry_state F -> Prop) : P r.2 -> P (rg_tried s) -> P (under_lock s r).2.
Proof. unfold under_lock. by destruct (_ =? _). Qed.

Lemma bind_tt {A} (m : M (registry_state F) A) s a s' : m s = Some (a, s') -> (_ ← m; mret tt) s = Some (tt, s').
Proof. intros E. by erewrite bind_eq by exact E. Qed.

Lemma registry_perform_ok s a : registry_ok s -> registry_enabled s a ->
  exists s', registry_perform a s = Some (tt, s') /\ registry_ok s' /\ xr_lock (rg_registry s') = xr_lock (rg_registry s) /\
    forall p x, rg_proxies s !! p = Some x -> never_removed x -> rg_proxies s' !! p = Some x.
Proof.
  intros Hok He. pose proof (registry_ok_tried s Hok) as Hokt. destruct (tried_proxies s) as (Hm & Hr & _).
  (* a goal about the outcome of an operation under the lock *)
  assert (forall (m : M (registry_state F) error_t) r, m s = Some (under_lock s r) -> registry_ok r.2 ->
    xr_lock (rg_registry r.2) = xr_lock (rg_registry s) ->
    (forall p x, rg_proxies s !! p = Some x -> never_removed x -> rg_proxies r.2 !! p = Some x) ->
    exists s', (_ ← m; mret tt) s = Some (tt, s') /\ registry_ok s' /\ xr_lock (rg_registry s') = xr_lock (rg_registry s) /\
      forall p x, rg_proxies s !! p = Some x -> never_removed x -> rg_proxies s' !! p = Some x) as Hul.
  { intros m r E H1 H2 H3. exists (under_lock s r).2. split; [apply (bind_tt m s (under_lock s r).1); by rewrite <-surjective_pairing|].
    split; [by apply under_lock_cases|]. split; [apply under_lock_cases; [done|by rewrite Hr]|].
    intros p x Hp Hs. apply (under_lock_cases s r (fun s' => rg_proxies s' !! p = Some x)); [by apply H3|by rewrite Hm]. }
  assert (forall p x, registry_ok s -> rg_proxies s !! p = Some x -> rg_proxies (rg_tried s) !! p = Some x) as Hpt by (intros; by rewrite Hm).
  destruct a as [name description phase propagate callback_ref callback|p|p|p|]; simpl in *.
  - destruct He as [Hn Hd]. destruct (create_xpcommand_run s name description phase propagate callback_ref callback Hok Hn Hd)
      as (r & s' & E & Hok' & _ & Hl & _ & _ & Hres & _). exists s'. split; [by apply (bind_tt _ _ r)|]. split; [done|]. split; [done|].
    intros p x Hp _. destruct r as [q|]; [|by rewrite Hres]. destruct Hres as (Hq & _ & ->). rewrite lookup_insert_ne; [done|congruence].
  - destruct He as [x Hp]. pose proof (ro_proxy _ Hok _ _ Hp) as Hx. eapply Hul; [by apply register_xpcommand_eq| | |].
    + by apply registry_ok_register, Hpt.
    + unfold registering. destruct (negb _); [simpl; by rewrite Hr|]. destruct (resolved _ _ _ _ _).
      destruct (_ =? _); simpl; by rewrite <-Hr.
    + intros q y Hq [Hst _]. unfold registering. destruct (Z.eqb_spec (xpc_state x) XPCOMMAND_STATE_CREATED) as [Hst'|]; red_if; [|by apply Hpt].
      assert (p <> q) as Hne by (intros ->; assert (y = x) as -> by congruence; by rewrite Hst in Hst').
      destruct (resolved _ _ _ _ _). destruct (_ =? _); simpl; (rewrite lookup_insert_ne by done; by apply Hpt).
  - destruct He as [x Hp]. pose proof (ro_proxy _ Hok _ _ Hp) as Hx. eapply Hul; [by apply drop_xpcommand_eq| | |].
    + destruct (droppable x) eqn:Hdr; [|done]. by apply registry_ok_drop; [|apply Hpt|].
    + by destruct (droppable x); simpl; rewrite Hr.
    + intros q y Hq [Hst _]. destruct (droppable x) eqn:Hdr; [|by apply Hpt]. unfold dropped. simpl.
      assert (p <> q) as Hne; [|rewrite lookup_insert_ne by done; by apply Hpt].
      intros ->. assert (y = x) as -> by congruence. unfold droppable in Hdr. by rewrite Hst in Hdr.
  - destruct He as [x Hp]. destruct (proj1 (registry_ok_with s) Hok) as (l & ps & Hw).
    destruct (unregister_destroy_run s l ps p x Hw Hp) as (list & items & E & Hw'). eapply Hul; [exact E| | |].
    + destruct (stuck x); [done|by apply Hw'].
    + by destruct (stuck x); simpl; rewrite Hr.
    + intros q y Hq [Hst Hno]. destruct (stuck x) eqn:Hs; [by apply Hpt|]. simpl. rewrite Hm, lookup_delete_ne; [done|].
      intros ->. assert (y = x) as -> by congruence. unfold stuck in Hs. by rewrite Hst, Hno in Hs.
  - destruct (unregister_dropped_run s Hok) as (err & s' & E & Hok' & Hl & _ & _ & Hres). exists s'. split; [by apply (bind_tt _ _ err)|].
    split; [done|]. split; [done|]. intros q y Hq [Hst Hno]. destruct (registry_lock_error s =? ERROR_NONE).
    + destruct Hres as [Hres _]. rewrite Hres, Hq. simpl. unfold removable. by rewrite Hno, andb_false_r.
    + destruct Hres as [_ ->]. by apply Hpt.
Qed.

Inductive registry_step : registry_state F -> registry_state F -> Prop :=
  registry_step_action s a s' : registry_enabled s a -> registry_perform a s = Some (tt, s') -> registry_step s s'.

Lemma registry_steps_ok s s' : rtc registry_step s s' -> registry_ok s -> registry_ok s' /\ xr_lock (rg_registry s') = xr_lock (rg_registry s) /\
  forall p x, rg_proxies s !! p = Some x -> never_removed x -> rg_proxies s' !! p = Some x.
Proof.
  induction 1 as [s|s1 s2 s3 [s a s' He E] _ IH]; [done|]. intros Hok.
  destruct (registry_perform_ok s a Hok He) as (s'' & E' & Hok2 & Hl2 & Hs2). rewrite E in E'. injection E' as <-.
  destruct (IH Hok2) as (Hok3 & Hl3 & Hs3). split; [done|]. split; [congruence|]. intros p x Hp Hs. apply Hs3; [by apply Hs2|done].
Qed.

(** C21: The proxies follow their life cycle. Start with an empty registry, and
    create, register, drop, destroy proxies and run the maintenance in any order,
    whatever allocations and attempts to lock fail: no operation on a proxy that
    exists has undefined behaviour; X-Plane never gets a handler twice and is
    never asked to remove one that it does not have; the handlers that X-Plane has
    are exactly those of the proxies that exist and are registered, so that no
    handler can be invoked for a proxy that was freed; and the registry is
    unlocked after each operation. *)
Theorem handlers_have_proxies s0 s :
  registry_ok s0 -> xr_lock (rg_registry s0) = 0 -> rtc registry_step s0 s ->
  (forall a, registry_enabled s a -> exists s', registry_perform a s = Some (tt, s')) /\
  xr_lock (rg_registry s) = 0 /\
  exists hs, handlers (rg_calls s) = Some hs /\
    forall r ph p, (r, ph, p) ∈ hs <-> exists x, rg_proxies s !! p = Some x /\ xpc_xp_ref x = r /\ xpc_phase x = ph /\ r <> NO_XP_COMMAND /\
      (xpc_state x = XPCOMMAND_STATE_REGISTERED \/ xpc_state x = XPCOMMAND_STATE_DROPPED).
Proof.
  intros H0 Hl0 Hs. destruct (registry_steps_ok s0 s Hs H0) as (Hok & Hl & _). split; [|split; [congruence|]].
  - intros a He. destruct (registry_perform_ok s a Hok He) as (s' & E & _). by exists s'.
  - destruct (ro_handlers _ Hok) as (hs & E & Hhs). exists hs. split; [done|]. intros r ph p. rewrite Hhs. split.
    + intros (x & Hp & <- & <- & Hne). exists x. split_and!; try done. destruct (po_state _ (ro_proxy _ Hok _ _ Hp)) as [[_ ?]|[[? _]| ?]]; tauto.
    + intros (x & ? & ? & ? & ? & _). by exists x.
Qed.

(** A registry is destroyed only when it has no proxy. *)
Lemma destroy_registry_run s : registry_ok s ->
  exists err s', destroy_xpcommand_registry s = Some (err, s') /\
    (err = ERROR_NONE -> rg_proxies s = ∅ /\ xr_destruction_pending (rg_registry s) = false) /\
    (rg_proxies s = ∅ -> xr_destruction_pending (rg_registry s) = false -> lock_succeeds (rg_env s) -> err = ERROR_NONE) /\
    (err <> ERROR_NONE -> registry_ok s' /\ rg_proxies s' = rg_proxies s).
Proof.
  intros Hok. destruct (proj1 (registry_ok_with s) Hok) as (l & ps & Hw). unfold destroy_xpcommand_registry.
  pose proof (registry_ok_env s (lock_rest (rg_env s)) Hok) as Hok1.
  erewrite bind_eq by apply rg_on_env_eq, mtx_lock_result_eq. destruct (lock_next (rg_env s)) eqn:Hl; red_if.
  2:{ eexists _, _. split; [reflexivity|]. split; [done|]. split; [|done]. intros _ _ Hls. by rewrite lock_succeeds_next in Hl. }
  erewrite (bind_eq _ _ _ tt (rg_locked (set_rg_env (lock_rest (rg_env s)) s))) by reflexivity. erewrite bind_eq by reflexivity.
  cbn [rg_registry rg_locked set_rg_registry set_rg_env set_xr_lock xr_destruction_pending xr_commands].
  destruct (xr_destruction_pending (rg_registry s)) eqn:Hp.
  { erewrite bind_eq by apply unlock_locked. eexists _, _. split; [reflexivity|]. by split_and!. }
  assert (list_size (xr_commands (rg_registry s)) = len ps) as Hsize.
  { rewrite (rep_size _ _ _ (rw_list _ _ _ Hw)). pose proof (f_equal length (rw_values _ _ _ Hw)) as Hlen. rewrite !length_fmap in Hlen. by rewrite Hlen. }
  assert (rg_proxies s = ∅ <-> ps = []) as Hempty.
  { split.
    - intros E. destruct ps as [|p ps]; [done|]. destruct (proj1 (rw_dom _ _ _ Hw p)) as [? Hpp]; [left|]. by rewrite E in Hpp.
    - intros ->. apply map_eq. intros q. rewrite lookup_empty. apply eq_None_not_Some. intros Hq%(rw_dom _ _ _ Hw). by apply not_elem_of_nil in Hq. }
  rewrite Hsize. destruct ps as [|p ps].
  - change (negb (len (@nil loc) =? 0)) with false. cbv iota. erewrite bind_eq by reflexivity.
    set (s2 := set_rg_registry (set_xr_pending (rg_registry s)) (set_rg_env (lock_rest (rg_env s)) s)).
    erewrite (bind_eq _ _ _ tt s2) by apply (unlock_locked s2). erewrite bind_eq by apply rg_on_env_eq, mtx_lock_result_eq.
    erewrite bind_eq by reflexivity. cbn [rg_registry set_rg_env s2 set_rg_registry set_xr_pending xr_commands]. rewrite Hsize.
    erewrite bind_eq.
    2:{ unfold on_proxy_list, zoom, destroy_list. rewrite (rep_head _ _ _ (rw_list _ _ _ Hw)).
        pose proof (rw_values _ _ _ Hw) as Hv. destruct l; [|done]. reflexivity. }
    eexists _, _. split; [reflexivity|]. split_and!; try done. intros _. split; [by apply Hempty|done].
  - replace (len (p :: ps) =? 0) with false by (symmetry; apply Z.eqb_neq; llia). cbn [negb]. cbv iota.
    erewrite bind_eq by apply unlock_locked. eexists _, _. split; [reflexivity|]. split; [done|]. split; [|done].
    intros E%Hempty. done.
Qed.

(** A proxy that is dropped before it was registered blocks the end of the
    plugin: whatever happens afterwards, it stays in the registry, every
    maintenance that gets the lock reports an error, and the registry is never
    destroyed. *)
Theorem unregistered_drop_blocks s s' p x :
  registry_ok s -> rg_proxies s !! p = Some x -> xpc_state x = XPCOMMAND_STATE_CREATED ->
  registry_lock_error s = ERROR_NONE ->
  rtc registry_step (dropped p x (rg_tried s)) s' ->
  drop_xpcommand (Some p) s = Some (ERROR_NONE, dropped p x (rg_tried s)) /\
  is_Some (rg_proxies s' !! p) /\
  (exists err s2, unregister_dropped_xpcommands s' = Some (err, s2) /\ err <> ERROR_NONE) /\
  (exists err s2, destroy_xpcommand_registry s' = Some (err, s2) /\ err <> ERROR_NONE).
Proof.
  intros Hok Hp Hst Hl Hs. pose proof (ro_proxy _ Hok _ _ Hp) as Hx.
  assert (droppable x = true) as Hdr by (unfold droppable; by rewrite Hst).
  assert (rg_proxies (rg_tried s) !! p = Some x) as Hpt by by rewrite (proj1 (tried_proxies s)).
  pose proof (registry_ok_drop _ _ _ (registry_ok_tried _ Hok) Hpt Hdr) as Hokd.
  destruct (registry_steps_ok _ _ Hs Hokd) as (Hok' & _ & Hstay).
  assert (never_removed (set_xpc_state XPCOMMAND_STATE_DROPPED x)) as Hx'.
  { split; [done|]. destruct (po_state _ Hx) as [[_ ?]|[[E _]|E]]; [done|by rewrite Hst in E..]. }
  assert (rg_proxies s' !! p = Some (set_xpc_state XPCOMMAND_STATE_DROPPED x)) as Hp'.
  { apply Hstay; [|done]. unfold dropped. simpl. apply lookup_insert_eq. }
  split; [rewrite (drop_xpcommand_eq p x s Hp Hx), Hdr; unfold under_lock; by rewrite Hl|]. split; [by eexists|]. split.
  - destruct (unregister_dropped_run s' Hok') as (err & s2 & E & _ & _ & _ & _ & Hres). exists err, s2. split; [done|].
    destruct (registry_lock_error s' =? ERROR_NONE); [|by destruct Hres as [-> _]].
    destruct Hres as (_ & _ & Hiff). rewrite (proj2 Hiff); [done|]. eexists p, _. split; [done|]. destruct Hx' as [E1 E2]. split; [done|].
    unfold stuck. by rewrite E1, E2.
  - destruct (destroy_registry_run s' Hok') as (err & s2 & E & Hnone & _). exists err, s2. split; [done|].
    intros Herr. destruct (Hnone Herr) as [Hempty _]. by rewrite Hempty in Hp'.
Qed.
End XPlane.

(** ** Invocation *)

Section Handler.
Context {W : Type} (registry_of : W -> registry_state F) (with_registry : registry_state F -> W -> W).
Context (run_callback : F -> option loc -> XPLMCommandPhase -> M W unit).
Context (get_put : forall r w, registry_of (with_registry r w) = r) (put_put : forall r r' w, with_registry r (with_registry r' w) = with_registry r w).

Abbreviation on_registry := (on_registry registry_of with_registry).

(** X-Plane invokes a handler that it has: if the registry can be locked and the
    proxy was not dropped, the callback of the proxy runs under the lock;
    otherwise nothing happens and X-Plane goes on. *)
Lemma handler_run w hs r ph p phase :
  registry_ok (registry_of w) -> handlers (rg_calls (registry_of w)) = Some hs -> (r, ph, p) ∈ hs ->
  exists x callback, rg_proxies (registry_of w) !! p = Some x /\ xpc_callback x = Some callback /\
    let s := registry_of w in
    xp_command_handler registry_of with_registry run_callback r phase (Some p) w =
      if registry_lock_error s =? ERROR_NONE then
        if xpc_state x =? XPCOMMAND_STATE_REGISTERED then
          (_ ← run_callback callback (xpc_callback_ref x) phase;
           x ← on_registry (load_proxy p);
           _ ← on_registry (unlock_xpcommand (Some p));
           mret (xpc_propagate x)) (with_registry (rg_locked (rg_tried s)) w)
        else Some (XPCOMMAND_PROPAGATE_CONTINUE, with_registry (rg_tried s) w)
      else Some (XPCOMMAND_PROPAGATE_CONTINUE, with_registry (rg_tried s) w).
Proof.
  intros Hok Hhs Hin. destruct (ro_handlers _ Hok) as (hs' & E & Hiff). rewrite Hhs in E. injection E as <-.
  apply Hiff in Hin as (x & Hp & Hr & _ & _). pose proof (ro_proxy _ Hok _ _ Hp) as Hx. destruct (po_callback _ Hx) as [callback Hcb].
  exists x, callback. split; [done|]. split; [done|]. cbv zeta. set (s := registry_of w) in *. unfold xp_command_handler.
  erewrite bind_eq by (unfold XPCommands.on_registry, zoom; fold s; rewrite (lock_xpcommand_eq p x s Hp Hx); reflexivity).
  destruct (registry_lock_error s =? ERROR_NONE); red_if; [|done].
  assert (rg_proxies (rg_locked (rg_tried s)) !! p = Some x) as Hp1 by (simpl; by rewrite (proj1 (tried_proxies s))).
  erewrite bind_eq by (unfold XPCommands.on_registry, zoom; rewrite get_put, (load_proxy_eq _ _ _ Hp1), put_put; reflexivity).
  rewrite Hr, Z.eqb_refl. destruct (xpc_state x =? XPCOMMAND_STATE_REGISTERED); red_if; [by rewrite Hcb|].
  erewrite bind_eq; [reflexivity|]. unfold XPCommands.on_registry, zoom. rewrite get_put.
  rewrite unlock_xpcommand_eq by (rewrite (proj1 (tried_proxies s)); by eexists). by rewrite put_put.
Qed.
End Handler.
End Promise.

(** * An example *)

(** X-Plane knows no command, and creates all. *)
Definition no_command (calls : list registry_call) (name : cstr) : Z := NO_XP_COMMAND.
Definition any_command (calls : list registry_call) (name description : cstr) : Z := len calls + 1.

Definition demo_registry : registry_state unit := mkRegistryState (mkRegistry false 0 empty_list) ∅ ∅ [] calm.

Definition registry_run (actions : list registry_action) (s : registry_state unit) : registry_state unit :=
  foldl (fun s a => match registry_perform no_command any_command a s with Some (_, s') => s' | None => s end) s actions.

Definition registry_enabled_now (s : registry_state unit) (a : registry_action (F := unit)) : bool :=
  match a with
  | CreateProxy name description _ _ _ _ => bool_decide (no_nul name) && bool_decide (no_nul description)
  | RegisterProxy p | DropProxy p | DestroyProxy p => bool_decide (is_Some (rg_proxies s !! p))
  | MaintainProxies => true
  end.

Fixpoint registry_runs (actions : list registry_action) (s : registry_state unit) : bool :=
  match actions with
  | [] => true
  | a :: actions' => registry_enabled_now s a && registry_runs actions' (registry_run [a] s)
  end.

Lemma registry_run_steps actions : forall s, registry_ok s -> registry_runs actions s = true ->
  rtc (registry_step no_command any_command) s (registry_run actions s).
Proof.
  induction actions as [|a actions IH]; intros s Hok; [constructor|]. cbn [registry_runs]. intros [He Hr]%andb_prop.
  assert (registry_enabled s a) as He'.
  { destruct a; cbn [registry_enabled_now registry_enabled] in *; bools; try done. }
  destruct (registry_perform_ok no_command any_command s a Hok He') as (s' & E & Hok' & _).
  assert (registry_run [a] s = s') as Ea by (unfold registry_run; simpl; by rewrite E). rewrite Ea in Hr.
  apply rtc_l with s'; [by econstructor|]. change (registry_run (a :: actions) s) with (registry_run actions (registry_run [a] s)). rewrite Ea. by apply IH.
Qed.

Lemma demo_registry_ok : registry_ok demo_registry.
Proof.
  split.
  - exists [], []. split; [split; [done|constructor|done..]|]. split; [done|]. split; [constructor|]. intros p. simpl. rewrite lookup_empty.
    split; [by intros ?%not_elem_of_nil|by intros [? ?]].
  - by intros p x.
  - exists ∅. split; [done|]. intros r ph p. split; [by intros ?%not_elem_of_empty|by intros (x & ? & _)].
Qed.

Definition demo_proxies : list registry_action :=
  [CreateProxy (lit "demo/a") (lit "first") XPCOMMAND_PHASE_BEFORE XPCOMMAND_PROPAGATE_STOP (Some 7%positive) ();
   RegisterProxy 1%positive;
   CreateProxy (lit "demo/b") (lit "second") XPCOMMAND_PHASE_AFTER XPCOMMAND_PROPAGATE_CONTINUE None ();
   RegisterProxy 2%positive; DropProxy 1%positive; MaintainProxies].

Lemma handlers_have_proxies_witness :
  rtc (registry_step no_command any_command) demo_registry (registry_run demo_proxies demo_registry) /\
  handlers (rg_calls (registry_run demo_proxies demo_registry)) = Some {[(3, XPCOMMAND_PHASE_AFTER, 2%positive)]} /\
  xr_lock (rg_registry (registry_run demo_proxies demo_registry)) = 0.
Proof.
  assert (rtc (registry_step no_command any_command) demo_registry (registry_run demo_proxies demo_registry)) as Hs
    by (apply registry_run_steps; [apply demo_registry_ok|vm_compute; reflexivity]).
  split; [exact Hs|]. split; [vm_compute; reflexivity|].
  apply (handlers_have_proxies no_command any_command demo_registry _ demo_registry_ok eq_refl Hs).
Defined.

Definition demo_dropped_early : registry_state unit := registry_run (take 1 demo_proxies) demo_registry.

Lemma unregistered_drop_blocks_witness :
  let p := 1%positive in
  exists x, rg_proxies demo_dropped_early !! p = Some x /\
    exists err s', unregister_dropped_xpcommands (registry_run [RegisterProxy p; MaintainProxies; DestroyProxy p] (dropped p x (rg_tried demo_dropped_early))) =
      Some (err, s') /\ err <> ERROR_NONE.
Proof.
  assert (registry_ok demo_dropped_early) as Hok.
  { apply (registry_steps_ok no_command any_command demo_registry); [|apply demo_registry_ok].
    apply registry_run_steps; [apply demo_registry_ok|vm_compute; reflexivity]. }
  intros p. destruct (rg_proxies demo_dropped_early !! p) as [x|] eqn:Hp; [|vm_compute in Hp; done]. exists x. split; [done|].
  assert (xpc_state x = XPCOMMAND_STATE_CREATED) as Hst by (vm_compute in Hp; by injection Hp as <-).
  assert (registry_ok (dropped p x (rg_tried demo_dropped_early))) as Hok'.
  { apply registry_ok_drop; [by apply registry_ok_tried|exact Hp|unfold droppable; by rewrite Hst]. }
  apply (unregistered_drop_blocks no_command any_command demo_dropped_early _ p x Hok Hp Hst eq_refl).
  apply registry_run_steps; [done|]. vm_compute in Hp. injection Hp as <-. vm_compute. reflexivity.
Defined.
