(* ===== verification/Cmrg.v ===== *)
(** The command CMRG ([command_cmrg.c]): offers a command to X-Plane and tells
    the client when it is invoked.

    A command object owns a proxy of [XPCommands], whose callback is
    [cmrg_handle_event] on the object; no other function is ever a callback of a
    proxy ([F] is [unit]). The functions act on the world of the session that
    the command belongs to. *)

From S2P Require Import Prelude CLib Utils Hashmap Channels Requests Lists Prealloc TaskSchedule Network Command Session Server ServerCommands Beside XPQueue XPCommands.

Definition CMRG_COMMAND_VERSION : Z := 1.
Definition CMRG_INVALID : Z := 127.
Definition CMRG_TASK_PHASE : Z := TASK_SCHEDULE_BEFORE_FLIGHT_MODEL.

Definition CMRG_MONITOR_TRIGGER : Z := Z.shiftl 1 0.
Definition CMRG_MONITOR_HOLD_RELEASE : Z := Z.shiftl 1 1.
Definition CMRG_MONITOR_ALL : Z := Z.lor CMRG_MONITOR_TRIGGER CMRG_MONITOR_HOLD_RELEASE.

Record command_cmrg_t := mkCmrg {
  mg_channel_id : Z;
  mg_task : option loc;
  mg_monitor : Z;
  mg_xpcmd : option loc;
  mg_initialized : bool;
  mg_failed : bool;
}.

(** The registry, its proxies and their list, the calls X-Plane got, the command
    objects, and the references of task objects. *)
Record cmrg_state := mkCmrgState {
  ms_registry : xpcommand_registry_t;
  ms_proxies : gmap loc (xpcommand_t unit);
  ms_items : gmap loc (list_item_t loc);
  ms_calls : list registry_call;
  ms_commands : gmap loc command_cmrg_t;
  ms_tasks : gmap loc loc;
}.

Definition set_mg_channel_id (id : Z) (c : command_cmrg_t) := mkCmrg id (mg_task c) (mg_monitor c) (mg_xpcmd c) (mg_initialized c) (mg_failed c).
Definition set_mg_task (t : option loc) (c : command_cmrg_t) := mkCmrg (mg_channel_id c) t (mg_monitor c) (mg_xpcmd c) (mg_initialized c) (mg_failed c).
Definition set_mg_monitor (m : Z) (c : command_cmrg_t) := mkCmrg (mg_channel_id c) (mg_task c) m (mg_xpcmd c) (mg_initialized c) (mg_failed c).
Definition set_mg_xpcmd (p : option loc) (c : command_cmrg_t) := mkCmrg (mg_channel_id c) (mg_task c) (mg_monitor c) p (mg_initialized c) (mg_failed c).
Definition set_mg_initialized (c : command_cmrg_t) := mkCmrg (mg_channel_id c) (mg_task c) (mg_monitor c) (mg_xpcmd c) true (mg_failed c).
Definition set_mg_failed (c : command_cmrg_t) := mkCmrg (mg_channel_id c) (mg_task c) (mg_monitor c) (mg_xpcmd c) (mg_initialized c) true.

Definition set_ms_commands (m : gmap loc command_cmrg_t) (d : cmrg_state) :=
  mkCmrgState (ms_registry d) (ms_proxies d) (ms_items d) (ms_calls d) m (ms_tasks d).
Definition set_ms_tasks (m : gmap loc loc) (d : cmrg_state) :=
  mkCmrgState (ms_registry d) (ms_proxies d) (ms_items d) (ms_calls d) (ms_commands d) m.

Definition cmrg_supported_options : list cstr := [lit "monitor"; lit "phase"; lit "propagate"].

Definition parse_monitor (s : option cstr) : Z :=
  match s with
  | None => CMRG_INVALID
  | Some s =>
      if str_eq s (lit "all") then CMRG_MONITOR_ALL
      else if str_eq s (lit "trigger") then CMRG_MONITOR_TRIGGER
      else if str_eq s (lit "holdRelease") then CMRG_MONITOR_HOLD_RELEASE
      else CMRG_INVALID
  end.

Definition parse_propagation (s : option cstr) : Z :=
  match s with
  | None => CMRG_INVALID
  | Some s =>
      if (strlen s =? 5) && strncmp_eq s (lit "false") 5 then XPCOMMAND_PROPAGATE_STOP
      else if (strlen s =? 4) && strncmp_eq s (lit "true") 4 then XPCOMMAND_PROPAGATE_CONTINUE
      else CMRG_INVALID
  end.

Definition parse_phase (s : option cstr) : Z :=
  match s with
  | None => CMRG_INVALID
  | Some s =>
      if (strlen s =? 6) && strncmp_eq s (lit "before") 6 then XPCOMMAND_PHASE_BEFORE
      else if (strlen s =? 5) && strncmp_eq s (lit "after") 5 then XPCOMMAND_PHASE_AFTER
      else CMRG_INVALID
  end.

Section Cmrg.
Context {C : Type} `{Connection C}.
Abbreviation W := (world C (ext cmrg_state)).
Implicit Types (q p : loc) (w : W).

(** ** The state *)

Definition cmrg_data w : cmrg_state := x_data (w_ext w).
Definition set_cmrg_data (d : cmrg_state) w : W :=
  set_ext (mkExt (x_schedule (w_ext w)) (x_items (w_ext w)) (x_calls (w_ext w)) d) w.

Definition registry_of w : registry_state unit :=
  let d := cmrg_data w in mkRegistryState (ms_registry d) (ms_proxies d) (ms_items d) (ms_calls d) (cs_env (w_channels w)).
Definition with_registry (r : registry_state unit) w : W :=
  set_channels (mkChannels (cs_heap (w_channels w)) (cs_table (w_channels w)) (rg_env r))
    (set_cmrg_data (mkCmrgState (rg_registry r) (rg_proxies r) (rg_items r) (rg_calls r) (ms_commands (cmrg_data w)) (ms_tasks (cmrg_data w))) w).
Definition in_registry {A} (m : M (registry_state unit) A) : M W A := on_registry registry_of with_registry m.

Definition update_cmrg_data (f : cmrg_state -> cmrg_state) : M W unit := modify (fun w => set_cmrg_data (f (cmrg_data w)) w).
Definition load_cmrg q : M W command_cmrg_t := w ← get; from_ub (ms_commands (cmrg_data w) !! q).
Definition update_cmrg q (f : command_cmrg_t -> command_cmrg_t) : M W unit :=
  c ← load_cmrg q; update_cmrg_data (fun d => set_ms_commands (<[q := f c]> (ms_commands d)) d).
Definition cmrg_fuel : M W nat := gets (fun w => size (x_items (w_ext w))).

(** ** Destruction and termination *)

Definition cmrg_destroy (command_ref : option loc) : M W error_t :=
  match command_ref with
  | None => mret ERROR_UNSPECIFIC
  | Some q =>
      _ ← update_cmrg_data (fun d => set_ms_commands (delete q (ms_commands d)) d);
      mret ERROR_NONE
  end.

(** The log, at its default level, reads the name of the X-Plane command from the
    proxy. *)
Definition cmrg_log_name q : M W unit :=
  c ← load_cmrg q;
  p ← from_ub (mg_xpcmd c);
  _ ← in_registry (load_proxy p);
  mret tt.

(** From the attempt to lock the schedule on. *)
Definition cmrg_unschedule q : M W error_t :=
  err ← lock_schedule;
  if err =? ERROR_NONE then
    c ← load_cmrg q;
    err ← match mg_task c with
          | None => mret ERROR_UNSPECIFIC
          | Some task => fuel ← cmrg_fuel; unschedule_task fuel task CMRG_TASK_PHASE
          end;
    _ ← when (err =? ERROR_NONE) (update_cmrg q (set_mg_task None));
    _ ← unlock_schedule;
    mret err
  else mret err.

Definition cmrg_terminate (command_ref : option loc) : M W error_t :=
  match command_ref with
  | None => mret ERROR_UNSPECIFIC
  | Some q =>
      c ← load_cmrg q;
      _ ← finish_channel (mg_channel_id c) CURRENT_TIME_REFERENCE None;
      err ← match mg_xpcmd c with
            | Some p => in_registry (drop_xpcommand (Some p))
            | None => mret ERROR_NONE
            end;
      if negb (err =? ERROR_NONE) then _ ← cmrg_log_name q; mret err
      else
        err ← cmrg_unschedule q;
        if negb (err =? ERROR_NONE) then _ ← cmrg_log_name q; mret err
        else
          c ← load_cmrg q;
          let channel_id := mg_channel_id c in
          _ ← update_cmrg q (set_mg_channel_id BAD_CHANNEL_ID);
          _ ← on_channels (request_channel_destruction channel_id);
          mret ERROR_NONE
  end.

(** ** Processing *)

Section XPlane.
Context (XPLMFindCommand : list registry_call -> cstr -> Z) (XPLMCreateCommand_result : list registry_call -> cstr -> cstr -> Z).

(** The channel could not be confirmed: the proxy is removed again. *)
Definition cmrg_withdraw q : M W unit :=
  c ← load_cmrg q;
  err ← in_registry (unregister_destroy_xpcommand (mg_xpcmd c));
  _ ← (if err =? ERROR_NONE then update_cmrg q (set_mg_xpcmd None)
       else _ ← report (mg_channel_id c) (Some (lit "channel confirmation and command deregistration failed")); mret tt);
  _ ← report (mg_channel_id c) (Some (lit "channel confirmation failed"));
  update_cmrg q set_mg_failed.

Definition cmrg_initialize q : M W unit :=
  c ← load_cmrg q;
  err ← in_registry (register_xpcommand XPLMFindCommand XPLMCreateCommand_result (mg_xpcmd c));
  if negb (err =? ERROR_NONE) then
    _ ← report (mg_channel_id c) (Some (lit "failed to register command"));
    update_cmrg q set_mg_failed
  else
    err ← confirm_channel (mg_channel_id c) CURRENT_TIME_REFERENCE None;
    if negb (err =? ERROR_NONE) then cmrg_withdraw q else update_cmrg q set_mg_initialized.

(** The callback of the tasks: a task object refers to its command. *)
Definition cmrg_process (task : loc) (phase : Z) : M W unit :=
  w ← get;
  q ← from_ub (ms_tasks (cmrg_data w) !! task);
  c ← load_cmrg q;
  if phase =? CMRG_TASK_PHASE then
    when (negb (mg_initialized c) && negb (mg_failed c)) (cmrg_initialize q)
  else if mg_failed c then
    _ ← report (mg_channel_id c) None;
    _ ← cmrg_terminate (Some q);
    mret tt
  else mret tt.
End XPlane.

(** The message for an invocation, if any, and whether the phase is known. *)
Definition cmrg_message (monitor : Z) (xp_phase : XPLMCommandPhase) : option cstr * bool :=
  match xp_phase with
  | xplm_CommandContinue => (if negb (Z.land monitor CMRG_MONITOR_TRIGGER =? 0) then Some (lit "TRIGGER") else None, true)
  | xplm_CommandBegin => (if negb (Z.land monitor CMRG_MONITOR_HOLD_RELEASE =? 0) then Some (lit "HOLD") else None, true)
  | xplm_CommandEnd => (if negb (Z.land monitor CMRG_MONITOR_HOLD_RELEASE =? 0) then Some (lit "RELEASE") else None, true)
  | xplm_other _ => (None, false)
  end.

Definition cmrg_handle_event (ref : option loc) (xp_phase : XPLMCommandPhase) : M W unit :=
  match ref with
  | None => mret tt
  | Some q =>
      c ← load_cmrg q;
      if mg_failed c then mret tt
      else
        let '(msg, known) := cmrg_message (mg_monitor c) xp_phase in
        _ ← when (negb known) (_ ← cmrg_log_name q; update_cmrg q set_mg_failed);
        match msg with
        | None => mret tt
        | Some msg =>
            err ← continue_channel (mg_channel_id c) CURRENT_TIME_REFERENCE (Some msg);
            if negb (err =? ERROR_NONE) then
              _ ← cmrg_log_name q;
              _ ← report (mg_channel_id c) None;
              update_cmrg q set_mg_failed
            else mret tt
        end
  end.

(** X-Plane invokes a handler. *)
Definition cmrg_invoke (inCommand : Z) (inPhase : XPLMCommandPhase) (inRefcon : option loc) : M W Z :=
  xp_command_handler registry_of with_registry (fun _ : unit => cmrg_handle_event) inCommand inPhase inRefcon.

(** ** Creation *)

(** [zmalloc(sizeof(command_cmrg_t))], with the session and the channel set. *)
Definition alloc_cmrg (id : Z) : M W (option loc) :=
  ok ← on_env (zmalloc 40);
  if negb ok then mret None
  else
    w ← get;
    let q := fresh (dom (ms_commands (cmrg_data w))) in
    _ ← update_cmrg_data (fun d => set_ms_commands (<[q := mkCmrg id None 0 None false false]> (ms_commands d)) d);
    mret (Some q).

(** The label [error]; [reason] is reported first. *)
Definition cmrg_abandon q (out_error : error_t) : M W (error_t * option loc) :=
  _ ← cmrg_destroy (Some q);
  mret (if negb (out_error =? ERROR_NONE) then out_error else ERROR_UNSPECIFIC, None).
Definition cmrg_reject q (id : Z) (reason : cstr) : M W (error_t * option loc) :=
  _ ← report id (Some reason); cmrg_abandon q ERROR_NONE.

(** Creates and schedules the task of a command. *)
Definition cmrg_schedule q (id : Z) : M W (error_t * option loc) :=
  ok ← on_env (zmalloc 16);
  if negb ok then cmrg_abandon q ERROR_MEMORY_ALLOCATION
  else
    w ← get;
    let task := fresh (dom (ms_tasks (cmrg_data w))) in
    _ ← update_cmrg_data (fun d => set_ms_tasks (<[task := q]> (ms_tasks d)) d);
    err ← lock_schedule;
    err ← (if err =? ERROR_NONE then
             err ← schedule_task task CMRG_TASK_PHASE;
             _ ← when (err =? ERROR_NONE) (update_cmrg q (set_mg_task (Some task)));
             _ ← unlock_schedule;
             mret err
           else mret err);
    if negb (err =? ERROR_NONE) then
      _ ← report id (Some (lit "failed to schedule task"));
      _ ← update_cmrg_data (fun d => set_ms_tasks (delete task (ms_tasks d)) d);
      cmrg_abandon q err
    else mret (ERROR_NONE, Some q).

(** From the parameters on. *)
Definition cmrg_prepare q (request : request_t) (phase propagate : Z) : M W (error_t * option loc) :=
  let id := req_channel_id request in
  let parameters := req_parameters request in
  name ← on_env (copy_unescaped_string (head parameters));
  match name with
  | None => cmrg_reject q id (lit "command name is required")
  | Some _ =>
      description ← on_env (copy_unescaped_string (match tail parameters with parameter :: _ => Some parameter | [] => name end));
      match description with
      | None => cmrg_reject q id (lit "failed to copy command description")
      | Some _ =>
          match tail parameters with
          | _ :: _ :: _ => cmrg_reject q id (lit "too many parameters")
          | _ =>
              xpcmd ← in_registry (create_xpcommand name description phase propagate (Some q) (Some tt));
              _ ← update_cmrg q (set_mg_xpcmd xpcmd);
              match xpcmd with
              | None => cmrg_reject q id (lit "failed to prepare XP command")
              | Some _ => cmrg_schedule q id
              end
          end
      end
  end.

Definition cmrg_create (request : request_t) (config : command_config_t) : M W (error_t * option loc) :=
  let id := req_channel_id request in
  let option name default := request_get_option (Some request) (Some (lit name)) (Some (lit default)) in
  if negb (version config =? CMRG_COMMAND_VERSION) then decline id (lit "unexpected command version")
  else if negb (request_has_only_options (Some request) (Some cmrg_supported_options)) then decline id (lit "unsupported options")
  else
    command ← alloc_cmrg id;
    match command with
    | None => mret (ERROR_MEMORY_ALLOCATION, None)
    | Some q =>
        let monitor := parse_monitor (option "monitor"%string "all"%string) in
        _ ← update_cmrg q (set_mg_monitor monitor);
        if monitor =? CMRG_INVALID then cmrg_reject q id (lit "unsupported monitor option")
        else
          let phase := parse_phase (option "phase"%string "before"%string) in
          if phase =? CMRG_INVALID then cmrg_reject q id (lit "unsupported phase")
          else
            let propagate := parse_propagation (option "propagate"%string "false"%string) in
            if propagate =? CMRG_INVALID then cmrg_reject q id (lit "unsupported propagate option")
            else cmrg_prepare q request phase propagate
    end.

Definition cmrg_create_default_config : M W (option command_config_t) := on_env (create_command_config CMRG_COMMAND_VERSION).
Definition cmrg_merge_config (previous_config requested_changes : command_config_t) :=
  merge_featureless_config (C := C) (X := ext cmrg_state) CMRG_COMMAND_VERSION requested_changes.

Definition command_cmrg : command_t W :=
  mkCommand (lit "CMRG") cmrg_create cmrg_terminate cmrg_destroy cmrg_create_default_config cmrg_merge_config.
End Cmrg.

(** * What the command promises *)

Section Promise.
Context {C : Type} `{ConnectionLaws C}.
Abbreviation W := (world C (ext cmrg_state)).
Implicit Types (w : W) (q p t : loc) (d : cmrg_state) (c : command_cmrg_t) (r : registry_state unit).

(** ** The data *)

Definition registry_in d : registry_state unit := mkRegistryState (ms_registry d) (ms_proxies d) (ms_items d) (ms_calls d) calm.

Definition data_with r d : cmrg_state :=
  mkCmrgState (rg_registry r) (rg_proxies r) (rg_items r) (rg_calls r) (ms_commands d) (ms_tasks d).

(** Commands that have a task are scheduled, act for a channel and own the proxy
    that they have; proxies that are registered are owned by such a command. *)
Record cmrg_data_ok d (ts : list loc) : Prop := mkCmrgDataOk {
  gd_registry : registry_ok (registry_in d);
  gd_pending : xr_destruction_pending (ms_registry d) = false;
  gd_task : forall q c t, ms_commands d !! q = Some c -> mg_task c = Some t ->
    t ∈ ts /\ ms_tasks d !! t = Some q /\ addressable (mg_channel_id c) = true;
  gd_proxy : forall q c p, ms_commands d !! q = Some c -> is_Some (mg_task c) -> mg_xpcmd c = Some p ->
    exists x, ms_proxies d !! p = Some x /\ xpc_callback_ref x = Some q /\ droppable x = true;
  gd_live : forall p x, ms_proxies d !! p = Some x -> xpc_state x = XPCOMMAND_STATE_REGISTERED ->
    exists q c, xpc_callback_ref x = Some q /\ ms_commands d !! q = Some c /\ is_Some (mg_task c) /\ mg_xpcmd c = Some p;
  gd_initial : forall q c, ms_commands d !! q = Some c -> is_Some (mg_task c) -> mg_xpcmd c = None -> mg_failed c = true;
}.

Lemma registry_of_in w : registry_of w = set_rg_env (cs_env (w_channels w)) (registry_in (cmrg_data w)).
Proof. done. Qed.

Lemma registry_of_ok w ts : cmrg_data_ok (cmrg_data w) ts -> registry_ok (registry_of w).
Proof. intros Hd. rewrite registry_of_in. apply registry_ok_env, Hd. Qed.

Lemma registry_in_with r d : registry_ok r -> registry_ok (registry_in (data_with r d)).
Proof. intros Hr. by apply (registry_ok_env r calm) in Hr. Qed.

(** A command object changes, but not its task, its channel and its proxy. *)
Lemma cmrg_data_update d ts q c c' :
  cmrg_data_ok d ts -> ms_commands d !! q = Some c ->
  mg_task c' = mg_task c -> mg_channel_id c' = mg_channel_id c -> mg_xpcmd c' = mg_xpcmd c -> (mg_failed c = true -> mg_failed c' = true) ->
  cmrg_data_ok (set_ms_commands (<[q := c']> (ms_commands d)) d) ts.
Proof.
  intros [Hr Hpe Ht Hp Hl Hi] Hc Et Ech Ex Ef.
  assert (forall q2 c2, <[q := c']> (ms_commands d) !! q2 = Some c2 ->
    exists c1, ms_commands d !! q2 = Some c1 /\ mg_task c2 = mg_task c1 /\ mg_channel_id c2 = mg_channel_id c1 /\ mg_xpcmd c2 = mg_xpcmd c1 /\
      (mg_failed c1 = true -> mg_failed c2 = true)) as Hold.
  { intros q2 c2. destruct (decide (q = q2)) as [<- |Hne]; [rewrite lookup_insert_eq; intros [= <-]; by exists c|].
    rewrite lookup_insert_ne by done. intros ?. by exists c2. }
  split; try done; simpl.
  - intros q2 c2 t Hc2 Ht2. destruct (Hold q2 c2 Hc2) as (c1 & Hc1 & E1 & -> & _). rewrite E1 in Ht2. by eapply Ht.
  - intros q2 c2 p Hc2 Ht2 Hx2. destruct (Hold q2 c2 Hc2) as (c1 & Hc1 & E1 & _ & E3 & _). rewrite E1 in Ht2. rewrite E3 in Hx2. by eapply Hp.
  - intros p x Hpx Hst. destruct (Hl p x Hpx Hst) as (q2 & c2 & Hcb & Hc2 & Ht2 & Hx2). exists q2. destruct (decide (q = q2)) as [<- |Hne].
    + exists c'. rewrite lookup_insert_eq. assert (c2 = c) as -> by congruence. by rewrite Et, Ex.
    + exists c2. by rewrite lookup_insert_ne.
  - intros q2 c2 Hc2 Ht2 Hx2. destruct (Hold q2 c2 Hc2) as (c1 & Hc1 & E1 & _ & E3 & E4). rewrite E1 in Ht2. rewrite E3 in Hx2. by eapply E4, Hi.
Qed.

(** ** The world *)

(** Locks do not fail; allocations may. *)
Record calm_world w (ts : list loc) : Prop := mkCalmWorld {
  cw_world : world_ok w;
  cw_sched : sched_ok w ts;
  cw_lock : lock_succeeds (cs_env (w_channels w));
  cw_pending : ts_destruction_pending (x_schedule (w_ext w)) = false;
}.

Definition cmrg_ok w ts : Prop := calm_world w ts /\ cmrg_data_ok (cmrg_data w) ts.

Lemma calm_quiet w w' ts : quiet w w' -> world_ok w' -> calm_world w ts -> calm_world w' ts /\ cmrg_data w' = cmrg_data w.
Proof.
  intros [He [_ Hl]] Hw []. unfold cmrg_data. rewrite He. split; [|done]. split; [done| |by apply Hl|by rewrite He].
  by eapply sched_ok_same; [..|done]; rewrite He.
Qed.

Lemma calm_beside w w' ts ts' : beside w w' -> world_ok w' -> sched_ok w' ts' -> calm_world w ts ->
  calm_world w' ts' /\ cmrg_data w' = cmrg_data w.
Proof. intros [? ? ? ? Hd Hp [_ Hl]] Hw Hs []. split; [|done]. split; [done|done|by apply Hl|by rewrite Hp]. Qed.

Lemma set_data_calm w ts d : calm_world w ts -> calm_world (set_cmrg_data d w) ts.
Proof. intros [[] ? ? ?]. split; [done| |done|done]. by eapply sched_ok_same; [..|done]. Qed.

(** Operations on the registry. *)
Lemma in_registry_run {A} (m : M (registry_state unit) A) w ts a r :
  calm_world w ts -> m (registry_of w) = Some (a, r) -> lock_succeeds (rg_env r) ->
  in_registry m w = Some (a, with_registry r w) /\ calm_world (with_registry r w) ts /\ cmrg_data (with_registry r w) = data_with r (cmrg_data w).
Proof.
  intros [[] ? ? ?] E Hl. split; [unfold in_registry, on_registry, zoom; by rewrite E|]. split; [|done].
  split; [done| |done|done]. by eapply sched_ok_same; [..|done].
Qed.

Lemma registry_free w ts : calm_world w ts -> cmrg_data_ok (cmrg_data w) ts ->
  registry_lock_error (registry_of w) = ERROR_NONE /\ lock_succeeds (rg_env (rg_tried (registry_of w))).
Proof.
  intros [_ _ Hl _] [_ Hp _ _ _ _]. unfold registry_lock_error, rg_tried. simpl. rewrite Hp.
  split; [by rewrite lock_succeeds_next|by apply lock_succeeds_rest].
Qed.

Lemma load_cmrg_eq w q c : ms_commands (cmrg_data w) !! q = Some c -> load_cmrg q w = Some (c, w).
Proof. intros Hc. unfold load_cmrg. erewrite bind_eq by reflexivity. unfold from_ub. by rewrite Hc. Qed.

Lemma update_cmrg_eq w q f c : ms_commands (cmrg_data w) !! q = Some c ->
  update_cmrg q f w = Some (tt, set_cmrg_data (set_ms_commands (<[q := f c]> (ms_commands (cmrg_data w))) (cmrg_data w)) w).
Proof. intros Hc. unfold update_cmrg. by erewrite bind_eq by by apply load_cmrg_eq. Qed.

Lemma log_name_run w ts q c p x : calm_world w ts -> ms_commands (cmrg_data w) !! q = Some c -> mg_xpcmd c = Some p ->
  ms_proxies (cmrg_data w) !! p = Some x -> cmrg_log_name q w = Some (tt, w).
Proof.
  intros Hw Hc Hx Hp. unfold cmrg_log_name. erewrite bind_eq by by apply load_cmrg_eq. rewrite Hx. erewrite bind_eq by reflexivity.
  erewrite bind_eq; [reflexivity|]. unfold in_registry, on_registry, zoom. rewrite (load_proxy_eq p x) by done. by destruct w as [? [] ? [? ? ? []]].
Qed.

(** A message on the channel of a command. *)
Lemma report_calm w ts id message : calm_world w ts -> addressable id = true ->
  exists err w', report id message w = Some (err, w') /\ calm_world w' ts /\ cmrg_data w' = cmrg_data w.
Proof.
  intros Hw Ha. destruct (report_run w id message (cw_world _ _ Hw) Ha) as (err & w' & E & Hw' & Hq). exists err, w'. split; [done|]. by apply (calm_quiet w).
Qed.

Lemma act_calm w ts action failure id message : calm_world w ts -> addressable id = true ->
  exists err w', act_on_channel action failure id CURRENT_TIME_REFERENCE message w = Some (err, w') /\ calm_world w' ts /\ cmrg_data w' = cmrg_data w.
Proof.
  intros Hw Ha. destruct (act_run w action failure id CURRENT_TIME_REFERENCE message (cw_world _ _ Hw) Ha) as (err & w' & E & Hw' & Hq).
  exists err, w'. split; [done|]. by apply (calm_quiet w).
Qed.

Lemma set_failed_run w ts q c : cmrg_ok w ts -> ms_commands (cmrg_data w) !! q = Some c ->
  exists w', update_cmrg q set_mg_failed w = Some (tt, w') /\ cmrg_ok w' ts /\
    cmrg_data w' = set_ms_commands (<[q := set_mg_failed c]> (ms_commands (cmrg_data w))) (cmrg_data w).
Proof.
  intros [Hw Hd] Hc. eexists. split; [by apply update_cmrg_eq|]. split; [|done]. split; [by apply set_data_calm|].
  by eapply cmrg_data_update.
Qed.

(** ** Termination *)

Definition owned_dropped (o : option loc) (m : gmap loc (xpcommand_t unit)) : gmap loc (xpcommand_t unit) :=
  match o with Some p => alter (set_xpc_state XPCOMMAND_STATE_DROPPED) p m | None => m end.

Lemma cmrg_drop_run w ts q c : cmrg_ok w ts -> ms_commands (cmrg_data w) !! q = Some c -> is_Some (mg_task c) ->
  exists w', match mg_xpcmd c with Some p => in_registry (drop_xpcommand (Some p)) | None => mret ERROR_NONE end w = Some (ERROR_NONE, w') /\
    calm_world w' ts /\ cmrg_data w' = mkCmrgState (ms_registry (cmrg_data w)) (owned_dropped (mg_xpcmd c) (ms_proxies (cmrg_data w))) (ms_items (cmrg_data w))
      (ms_calls (cmrg_data w)) (ms_commands (cmrg_data w)) (ms_tasks (cmrg_data w)) /\
    registry_ok (registry_in (cmrg_data w')).
Proof.
  intros [Hw Hd] Hc Ht. destruct (mg_xpcmd c) as [p|] eqn:Hx.
  2:{ exists w. split; [done|]. split; [done|]. split; [by destruct (cmrg_data w)|apply Hd]. }
  destruct (gd_proxy _ _ Hd q c p Hc Ht Hx) as (x & Hp & _ & Hdr). pose proof (registry_of_ok _ _ Hd) as Hr.
  destruct (registry_free w ts Hw Hd) as [Hfree Hl]. pose proof (ro_proxy _ Hr p x Hp) as Hpx.
  destruct (in_registry_run (drop_xpcommand (Some p)) w ts ERROR_NONE (dropped p x (rg_tried (registry_of w))) Hw) as (E & Hw' & Ed).
  { rewrite (drop_xpcommand_eq p x (registry_of w) Hp Hpx), Hdr. unfold under_lock. by rewrite Hfree. }
  { exact Hl. }
  eexists. split; [exact E|]. split; [done|]. rewrite Ed. destruct (tried_proxies (registry_of w)) as (Em & Er & Ei & Ec). split.
  - unfold data_with, dropped, set_rg_proxies. simpl. rewrite Em, Er, Ei, Ec. simpl. f_equal. symmetry.
    rewrite <-(insert_id _ _ _ Hp) at 1. simpl. by rewrite alter_insert_eq.
  - apply registry_in_with, registry_ok_drop; [by apply registry_ok_tried|by rewrite Em|done].
Qed.

Lemma lock_calm w ts : calm_world w ts -> lock_result w = ERROR_NONE.
Proof.
  intros Hw. pose proof (lock_succeeds_next _ (cw_lock _ _ Hw)) as Hn. pose proof (cw_pending _ _ Hw) as Hp. unfold lock_result.
  replace (ts_destruction_pending (schedule_of w)) with false by done.
  by replace (default true (head (env_mtx (ph_env (th_of w))))) with true by exact (eq_sym Hn).
Qed.

Lemma cmrg_unschedule_run w ts q c t : calm_world w ts -> ms_commands (cmrg_data w) !! q = Some c -> mg_task c = Some t -> t ∈ ts ->
  exists ts1 ts2 w', ts = ts1 ++ t :: ts2 /\ t ∉ ts1 /\ cmrg_unschedule q w = Some (ERROR_NONE, w') /\ calm_world w' (ts1 ++ ts2) /\
    cmrg_data w' = set_ms_commands (<[q := set_mg_task None c]> (ms_commands (cmrg_data w))) (cmrg_data w).
Proof.
  intros Hw Hc Ht Hin. unfold cmrg_unschedule. destruct (sched_lock_run w ts (cw_world _ _ Hw) (cw_sched _ _ Hw)) as (w1 & E1 & Hb1 & Hw1 & Hs1).
  pose proof (lock_calm _ _ Hw) as Hl.
  rewrite Hl in E1. erewrite bind_eq by exact E1. destruct (calm_beside _ _ _ _ Hb1 Hw1 Hs1 Hw) as [Hc1 Hd1]. red_if.
  change (ERROR_NONE =? ERROR_NONE) with true. cbv iota. erewrite bind_eq by (apply load_cmrg_eq; rewrite Hd1; exact Hc). rewrite Ht.
  destruct (sched_unschedule_run w1 ts t Hw1 Hs1 Hin) as (ts1 & ts2 & w2 & -> & Hn & E2 & Hb2 & Hw2 & Hs2).
  erewrite bind_eq by (erewrite bind_eq by reflexivity; exact E2). destruct (calm_beside _ _ _ _ Hb2 Hw2 Hs2 Hc1) as [Hc2 Hd2].
  cbn [when Z.eqb ERROR_NONE]. rewrite Hd1 in Hd2. unfold when. change (ERROR_NONE =? ERROR_NONE) with true. cbv iota.
  erewrite bind_eq by (eapply update_cmrg_eq; rewrite Hd2; exact Hc). rewrite Hd2.
  pose proof (set_data_calm w2 _ (set_ms_commands (<[q := set_mg_task None c]> (ms_commands (cmrg_data w))) (cmrg_data w)) Hc2) as Hc3.
  destruct (sched_unlock_run _ _ (cw_world _ _ Hc3) (cw_sched _ _ Hc3)) as (w4 & E4 & Hb4 & Hw4 & Hs4). erewrite bind_eq by exact E4.
  destruct (calm_beside _ _ _ _ Hb4 Hw4 Hs4 Hc3) as [Hc4 Hd4]. exists ts1, ts2, w4. by split_and!.
Qed.

Lemma cmrg_terminate_run w ts q c t : cmrg_ok w ts -> ms_commands (cmrg_data w) !! q = Some c -> mg_task c = Some t ->
  exists ts1 ts2 w', ts = ts1 ++ t :: ts2 /\ cmrg_terminate (Some q) w = Some (ERROR_NONE, w') /\ cmrg_ok w' (ts1 ++ ts2) /\
    cmrg_data w' = mkCmrgState (ms_registry (cmrg_data w)) (owned_dropped (mg_xpcmd c) (ms_proxies (cmrg_data w))) (ms_items (cmrg_data w))
      (ms_calls (cmrg_data w)) (<[q := set_mg_channel_id BAD_CHANNEL_ID (set_mg_task None c)]> (ms_commands (cmrg_data w))) (ms_tasks (cmrg_data w)).
Proof.
  intros [Hw Hd] Hc Ht. pose proof Hd as [_ Hpe Htask Hproxy Hlive Hini]. destruct (Htask q c t Hc Ht) as (Hin & Htq & Ha). unfold cmrg_terminate.
  erewrite bind_eq by by apply load_cmrg_eq. unfold finish_channel.
  destruct (act_calm w ts (fun st => if is_initial st then CHANNEL_ACTION_ACK_CLOSE else CHANNEL_ACTION_CLOSE) (lit "failed to finish channel")
    (mg_channel_id c) None Hw Ha) as (err1 & w1 & E1 & Hw1 & Hd1). erewrite bind_eq by exact E1.
  assert (cmrg_ok w1 ts) as Hok1 by (split; [done|by rewrite Hd1]).
  destruct (cmrg_drop_run w1 ts q c Hok1) as (w2 & E2 & Hw2 & Hd2 & Hr2); [by rewrite Hd1|by eexists|]. erewrite bind_eq by exact E2.
  rewrite Hd1 in Hd2. change (ERROR_NONE =? ERROR_NONE) with true. red_if.
  destruct (cmrg_unschedule_run w2 ts q c t Hw2) as (ts1 & ts2 & w3 & -> & Hn & E3 & Hw3 & Hd3); [by rewrite Hd2|done|done|].
  erewrite bind_eq by exact E3. change (ERROR_NONE =? ERROR_NONE) with true. red_if. rewrite Hd2 in Hd3. cbn [ms_commands] in Hd3.
  assert (ms_commands (cmrg_data w3) !! q = Some (set_mg_task None c)) as Hc3 by (rewrite Hd3; simpl; apply lookup_insert_eq).
  erewrite bind_eq by (apply load_cmrg_eq; exact Hc3). cbv zeta. erewrite bind_eq by (apply update_cmrg_eq; exact Hc3).
  match goal with |- context [set_cmrg_data ?d w3] => set (d4 := d) end.
  pose proof (set_data_calm w3 _ d4 Hw3) as Hw4.
  destruct (request_destruction_run (set_cmrg_data d4 w3) (mg_channel_id c) (cw_world _ _ Hw4) Ha) as (w5 & E5 & Hw5 & Hq5 & _).
  erewrite bind_eq by exact E5. destruct (calm_quiet _ _ _ Hq5 Hw5 Hw4) as [Hc5 Hd5].
  change (cmrg_data (set_cmrg_data d4 w3)) with d4 in Hd5.
  assert (d4 = mkCmrgState (ms_registry (cmrg_data w)) (owned_dropped (mg_xpcmd c) (ms_proxies (cmrg_data w))) (ms_items (cmrg_data w))
      (ms_calls (cmrg_data w)) (<[q := set_mg_channel_id BAD_CHANNEL_ID (set_mg_task None c)]> (ms_commands (cmrg_data w))) (ms_tasks (cmrg_data w))) as Ed4.
  { unfold d4. rewrite Hd3. simpl. by rewrite insert_insert_eq. }
  exists ts1, ts2, w5. split; [done|]. split; [done|]. rewrite <-Ed4. split; [|done]. split; [done|]. rewrite Hd5, Ed4.
  assert (forall p, p <> default q (mg_xpcmd c) \/ mg_xpcmd c = None ->
    owned_dropped (mg_xpcmd c) (ms_proxies (cmrg_data w)) !! p = ms_proxies (cmrg_data w) !! p) as Hsame.
  { intros p Hp. unfold owned_dropped. destruct (mg_xpcmd c) as [p0|]; [|done]. destruct Hp as [Hp|?]; [|done]. by rewrite lookup_alter_ne. }
  split; simpl.
  - rewrite Hd2 in Hr2. exact Hr2.
  - done.
  - intros q2 c2 t2. rewrite lookup_insert_Some. intros [[<- <-]|[Hne Hc2]]; [done|]. intros Ht2.
    destruct (Htask q2 c2 t2 Hc2 Ht2) as (Hin2 & Htq2 & ?). split; [|done]. assert (t2 <> t) by congruence.
    rewrite elem_of_app, elem_of_cons in Hin2. rewrite elem_of_app. tauto.
  - intros q2 c2 p2. rewrite lookup_insert_Some. intros [[<- <-]|[Hne Hc2]] Ht2 Hx2; [by destruct Ht2|].
    destruct (Hproxy q2 c2 p2 Hc2 Ht2 Hx2) as (x2 & Hp2 & Hcb2 & Hdr2). exists x2. split; [|done]. rewrite Hsame; [done|].
    destruct (mg_xpcmd c) as [p0|] eqn:Hx; [|by right]. left. simpl. intros ->.
    destruct (Hproxy q c p0 Hc ltac:(by eexists) Hx) as (x0 & Hp0 & Hcb0 & _). congruence.
  - intros p2 x2 Hp2 Hst2.
    assert (p2 <> default q (mg_xpcmd c) \/ mg_xpcmd c = None) as Hne.
    { destruct (mg_xpcmd c) as [p0|] eqn:Hx; [left|by right]. simpl. intros ->. simpl in Hp2. rewrite lookup_alter_eq in Hp2.
      destruct (_ !! p0); simpl in Hp2; [|done]. injection Hp2 as <-. done. }
    rewrite Hsame in Hp2 by done. destruct (Hlive p2 x2 Hp2 Hst2) as (q2 & c2 & Hcb2 & Hc2 & Ht2 & Hx2). exists q2, c2. split; [done|].
    rewrite lookup_insert_ne; [done|]. intros <-. assert (c2 = c) as -> by congruence. rewrite Hx2 in Hne. by destruct Hne as [?|?].
  - intros q2 c2. rewrite lookup_insert_Some. intros [[<- <-]|[Hne Hc2]] Ht2; [by destruct Ht2|]. by apply (Hini q2).
Qed.

(** ** The flight loop *)

Section XPlane.
Context (XPLMFindCommand : list registry_call -> cstr -> Z) (XPLMCreateCommand_result : list registry_call -> cstr -> cstr -> Z).

(** A change of the registry leaves the commands their proxies, and those that
    are registered their owners. *)
Lemma cmrg_registry_ok w ts r : cmrg_ok w ts -> calm_world (with_registry r w) ts ->
  registry_ok r -> xr_destruction_pending (rg_registry r) = false ->
  (forall p x, ms_proxies (cmrg_data w) !! p = Some x -> droppable x = true ->
    exists x', rg_proxies r !! p = Some x' /\ xpc_callback_ref x' = xpc_callback_ref x /\ droppable x' = true) ->
  (forall p x', rg_proxies r !! p = Some x' -> xpc_state x' = XPCOMMAND_STATE_REGISTERED ->
    exists q c, xpc_callback_ref x' = Some q /\ ms_commands (cmrg_data w) !! q = Some c /\ is_Some (mg_task c) /\ mg_xpcmd c = Some p) ->
  cmrg_ok (with_registry r w) ts.
Proof.
  intros [Hw [Hr Hpe Ht Hp Hl Hi]] Hw' Hr' Hpe' Hkeep Hlive. split; [done|]. split; try done.
  - by apply (registry_in_with r (cmrg_data w)).
  - intros q c p Hc Htask Hx. destruct (Hp q c p Hc Htask Hx) as (x & Hpx & Hcb & Hdr). destruct (Hkeep p x Hpx Hdr) as (x' & ? & E & ?).
    exists x'. by rewrite E.
Qed.

Lemma cmrg_register_run w ts q c p x : cmrg_ok w ts -> ms_commands (cmrg_data w) !! q = Some c -> is_Some (mg_task c) -> mg_xpcmd c = Some p ->
  ms_proxies (cmrg_data w) !! p = Some x ->
  exists err r x', in_registry (register_xpcommand XPLMFindCommand XPLMCreateCommand_result (Some p)) w = Some (err, with_registry r w) /\
    registering XPLMFindCommand XPLMCreateCommand_result p x (rg_tried (registry_of w)) = (err, r) /\
    cmrg_ok (with_registry r w) ts /\ rg_proxies r !! p = Some x' /\
    (err = ERROR_NONE -> xpc_state x' = XPCOMMAND_STATE_REGISTERED) /\ (err <> ERROR_NONE -> xpc_xp_ref x' = NO_XP_COMMAND \/ xpc_state x <> XPCOMMAND_STATE_CREATED).
Proof.
  intros Hok Hc Ht Hx Hp. pose proof Hok as [Hw Hd]. destruct (gd_proxy _ _ Hd q c p Hc Ht Hx) as (x0 & Hp0 & Hcb & Hdr).
  assert (x0 = x) as -> by congruence. clear Hp0.
  pose proof (registry_of_ok _ _ Hd) as Hr. destruct (registry_free w ts Hw Hd) as [Hfree Hl]. pose proof (ro_proxy _ Hr p x Hp) as Hpx.
  destruct (tried_proxies (registry_of w)) as (Em & Er & Ei & Ec). assert (rg_proxies (rg_tried (registry_of w)) !! p = Some x) as Hpt by by rewrite Em.
  pose proof (registry_ok_register XPLMFindCommand XPLMCreateCommand_result _ p x (registry_ok_tried _ Hr) Hpt) as Hr'.
  assert (exists x' err r, registering XPLMFindCommand XPLMCreateCommand_result p x (rg_tried (registry_of w)) = (err, r) /\
    rg_proxies r = <[p := x']> (ms_proxies (cmrg_data w)) /\ xpc_callback_ref x' = Some q /\ droppable x' = true /\
    rg_registry r = ms_registry (cmrg_data w) /\ lock_succeeds (rg_env r) /\ (err = ERROR_NONE -> xpc_state x' = XPCOMMAND_STATE_REGISTERED) /\
    (err <> ERROR_NONE -> xpc_xp_ref x' = NO_XP_COMMAND \/ xpc_state x <> XPCOMMAND_STATE_CREATED))
    as (x' & err & r & Ereg & Emr & Hcb' & Hdr' & Err & Hlr & Hst' & Hno').
  { unfold registering. destruct (Z.eqb_spec (xpc_state x) XPCOMMAND_STATE_CREATED) as [Hst|Hst]; red_if.
    - destruct (resolved _ _ _ _ _) as [ref calls]. destruct (Z.eqb_spec ref NO_XP_COMMAND) as [-> |]; (eexists _, _, _; split; [reflexivity|]); simpl; rewrite Em, Er;
        split_and!; try done. by left.
    - exists x, ERROR_UNSPECIFIC, (rg_tried (registry_of w)). split; [done|]. rewrite Em, Er. simpl. rewrite insert_id by done. split_and!; try done. by right. }
  rewrite Ereg in Hr'. simpl in Hr'.
  destruct (in_registry_run (register_xpcommand XPLMFindCommand XPLMCreateCommand_result (Some p)) w ts err r Hw) as (E & Hw' & Ed).
  { rewrite (register_xpcommand_eq XPLMFindCommand XPLMCreateCommand_result p x (registry_of w) Hp Hpx), Ereg. unfold under_lock. by rewrite Hfree. }
  { done. }
  exists err, r, x'. split; [exact E|]. split; [done|]. split; [|split; [rewrite Emr; apply lookup_insert_eq|done]].
  apply cmrg_registry_ok; [done..|rewrite Err; apply Hd| |]; rewrite Emr; intros p2 x2.
  - destruct (decide (p = p2)) as [<- |Hne]; [|rewrite lookup_insert_ne by done; by exists x2].
    rewrite lookup_insert_eq. intros Hp2 _. exists x'. split_and!; [done|congruence|done].
  - destruct (decide (p = p2)) as [<- |Hne]; [|rewrite lookup_insert_ne by done; apply (gd_live _ _ Hd)].
    rewrite lookup_insert_eq. intros [= <-] _. by exists q, c.
Qed.

Lemma cmrg_withdraw_run w ts q c p x : cmrg_ok w ts -> ms_commands (cmrg_data w) !! q = Some c -> is_Some (mg_task c) -> mg_xpcmd c = Some p ->
  ms_proxies (cmrg_data w) !! p = Some x -> xpc_state x = XPCOMMAND_STATE_REGISTERED -> 
  exists w', cmrg_withdraw q w = Some (tt, w') /\ cmrg_ok w' ts /\
    ms_commands (cmrg_data w') = <[q := set_mg_failed (set_mg_xpcmd None c)]> (ms_commands (cmrg_data w)) /\ ms_proxies (cmrg_data w') !! p = None.
Proof.
  intros [Hw Hd] Hc [t Ht] Hx Hp Hst. pose proof Hd as [_ Hpe Htask Hproxy Hlive Hini]. destruct (Htask q c t Hc Ht) as (Hin & Htq & Ha).
  pose proof (registry_of_ok _ _ Hd) as Hr. destruct (registry_free w ts Hw Hd) as [Hfree Hl]. pose proof (ro_proxy _ Hr p x Hp) as Hpx.
  destruct (proj1 (registry_ok_with (registry_of w)) Hr) as (l & ps & Hwith).
  destruct (unregister_destroy_run (registry_of w) l ps p x Hwith Hp) as (list & items & Eu & Hr').
  destruct (tried_proxies (registry_of w)) as (Em & Er & Ei & Ec).
  assert (stuck x = false) as Hns.
  { unfold stuck. rewrite Hst. destruct (po_state _ Hpx) as [[E _]|[[_ E]|E]]; [by rewrite Hst in E| |by rewrite Hst in E].
    by rewrite (proj2 (Z.eqb_neq _ _) E). }
  rewrite Hns in Eu. specialize (Hr' Hns). unfold under_lock in Eu. rewrite Hfree in Eu.
  change (ERROR_NONE =? ERROR_NONE) with true in Eu. cbv iota in Eu.
  set (r := without p x list items (rg_tried (registry_of w))) in *.
  destruct (in_registry_run (unregister_destroy_xpcommand (Some p)) w ts ERROR_NONE r Hw Eu Hl) as (E & Hw1 & Ed1).
  unfold cmrg_withdraw. erewrite bind_eq by by apply load_cmrg_eq. rewrite Hx. erewrite bind_eq by exact E.
  change (ERROR_NONE =? ERROR_NONE) with true. cbv iota. erewrite bind_eq by (eapply update_cmrg_eq; rewrite Ed1; exact Hc).
  rewrite Ed1. match goal with |- context [set_cmrg_data ?d (with_registry r w)] => set (d2 := d) end.
  pose proof (set_data_calm _ _ d2 Hw1) as Hw2.
  destruct (report_calm _ ts (mg_channel_id c) (Some (lit "channel confirmation failed")) Hw2 Ha) as (err & w3 & E3 & Hw3 & Ed3).
  erewrite bind_eq by exact E3. change (cmrg_data (set_cmrg_data d2 (with_registry r w))) with d2 in Ed3.
  eexists. split; [eapply update_cmrg_eq; rewrite Ed3; simpl; apply lookup_insert_eq|]. rewrite Ed3.
  split; [|split; simpl; [by rewrite insert_insert_eq|apply lookup_delete_eq]].
  split; [by apply set_data_calm|]. change (cmrg_data (set_cmrg_data ?d w3)) with d. unfold set_ms_commands. simpl. rewrite insert_insert_eq.
  split; simpl.
  - by apply (registry_in_with r (set_ms_commands (<[q := set_mg_xpcmd None c]> (ms_commands (cmrg_data w))) (cmrg_data w))) in Hr'.
  - rewrite Er. exact Hpe.
  - intros q2 c2 t2. rewrite lookup_insert_Some. intros [[<- <-]|[Hne Hc2]]; [by apply (Htask q c)|by apply Htask].
  - intros q2 c2 p2. rewrite lookup_insert_Some. intros [[<- <-]|[Hne Hc2]] Ht2 Hx2; [done|].
    destruct (Hproxy q2 c2 p2 Hc2 Ht2 Hx2) as (x2 & Hp2 & Hcb2 & ?). exists x2. rewrite Em. simpl. rewrite lookup_delete_ne; [done|]. intros <-.
    destruct (Hproxy q c p Hc ltac:(by eexists) Hx) as (x0 & Hp0 & Hcb0 & _). congruence.
  - intros p2 x2. rewrite Em, lookup_delete_Some. intros [Hne Hp2] Hst2. destruct (Hlive p2 x2 Hp2 Hst2) as (q2 & c2 & ? & Hc2 & ? & Hx2).
    exists q2, c2. split; [done|]. rewrite lookup_insert_ne; [done|]. intros <-. assert (c2 = c) as -> by congruence. congruence.
  - intros q2 c2. rewrite lookup_insert_Some. intros [[<- <-]|[Hne Hc2]] Ht2 Hx2; [done|by apply (Hini q2)].
Qed.

(** The command is offered: its handler is registered, after the X-Plane command
    was created unless it existed, and the channel is confirmed. *)
Definition offered w w' (id : Z) p (x : xpcommand_t unit) : Prop :=
  exists ref creation time, resolved XPLMFindCommand XPLMCreateCommand_result (ms_calls (cmrg_data w)) (default [] (xpc_name x)) (default [] (xpc_description x)) = (ref, creation) /\
    ref <> NO_XP_COMMAND /\ ms_calls (cmrg_data w') = (ms_calls (cmrg_data w) ++ creation) ++ [XPLMRegisterCommandHandler ref (xpc_phase x) p] /\
    state_of w' id = Some CHANNEL_STATE_CONFIRMED /\ 0 <= time /\
    conn_queued (w_connection w') = conn_queued (w_connection w) ++
      format_message (message_of id CHANNEL_STATE_INITIAL CHANNEL_ACTION_ACK_CONTINUE time None).

(** X-Plane has no handler of the proxy. *)
Definition no_handler w p : Prop := forall hs ref ph, handlers (ms_calls (cmrg_data w)) = Some hs -> (ref, ph, p) ∉ hs.

Lemma no_handler_proxy w ts p : cmrg_ok w ts ->
  (forall x, ms_proxies (cmrg_data w) !! p = Some x -> xpc_xp_ref x = NO_XP_COMMAND) -> no_handler w p.
Proof.
  intros [_ Hd] Hp hs ref ph E Hin. destruct (ro_handlers _ (gd_registry _ _ Hd)) as (hs' & E' & Hhs). simpl in E'. rewrite E in E'. injection E' as <-.
  apply Hhs in Hin as (x & Hx & <- & _ & Hne). by apply Hne, Hp.
Qed.

Lemma cmrg_initialize_run w ts q c p x : cmrg_ok w ts -> ms_commands (cmrg_data w) !! q = Some c -> is_Some (mg_task c) -> mg_xpcmd c = Some p ->
  ms_proxies (cmrg_data w) !! p = Some x ->
  exists w' c', cmrg_initialize XPLMFindCommand XPLMCreateCommand_result q w = Some (tt, w') /\ cmrg_ok w' ts /\
    ms_commands (cmrg_data w') = <[q := c']> (ms_commands (cmrg_data w)) /\ mg_task c' = mg_task c /\
    (c' = set_mg_initialized c /\ offered w w' (mg_channel_id c) p x \/
     mg_failed c' = true /\ (xpc_state x = XPCOMMAND_STATE_CREATED -> no_handler w' p)).
Proof.
  intros Hok Hc [t Ht] Hx Hp. pose proof Hok as [Hw Hd]. destruct (gd_task _ _ Hd q c t Hc Ht) as (Hin & Htq & Ha). unfold cmrg_initialize.
  erewrite bind_eq by by apply load_cmrg_eq. rewrite Hx.
  destruct (cmrg_register_run w ts q c p x Hok Hc ltac:(by eexists) Hx Hp) as (err & r & x' & E1 & Ereg & Hok1 & Hp1 & Hst & Hno).
  erewrite bind_eq by exact E1. destruct (Z.eqb_spec err ERROR_NONE) as [-> |Herr]; red_if.
  - destruct (act_calm (with_registry r w) ts (fun _ => CHANNEL_ACTION_ACK_CONTINUE) (lit "failed to confirm channel") (mg_channel_id c) None (proj1 Hok1) Ha)
      as (err & w2 & E2 & Hw2 & Hd2). unfold confirm_channel. erewrite bind_eq by exact E2.
    assert (cmrg_ok w2 ts) as Hok2 by (split; [done|rewrite Hd2; apply Hok1]).
    assert (ms_commands (cmrg_data w2) !! q = Some c) as Hc2 by by rewrite Hd2.
    destruct (Z.eqb_spec err ERROR_NONE) as [-> |]; red_if.
    + eexists _, (set_mg_initialized c). split; [by apply update_cmrg_eq|].
      split; [split; [by apply set_data_calm|by eapply cmrg_data_update; [apply Hok2|exact Hc2|..]]|].
      split; [simpl; by rewrite Hd2|]. split; [done|]. left. split; [done|].
      destruct (act_on_channel_sent _ _ _ _ _ _ _ (cw_world _ _ (proj1 Hok1)) Ha E2) as (st & time & _ & Htime & Hinv & Hst2 & Hq2 & _).
      unfold registering in Ereg. destruct (negb _); [by injection Ereg|]. destruct (tried_proxies (registry_of w)) as (_ & _ & _ & Ec). rewrite Ec in Ereg.
      destruct (resolved _ _ (rg_calls (registry_of w)) _ _) as [ref creation] eqn:Eres. destruct (Z.eqb_spec ref NO_XP_COMMAND) as [|Hne]; [by injection Ereg|].
      injection Ereg as <-. exists ref, creation, time. split; [exact Eres|]. split; [done|]. split; [simpl; by rewrite Hd2|].
      assert (st = CHANNEL_STATE_INITIAL) as -> by by destruct st. by split_and!.
    + destruct (cmrg_withdraw_run w2 ts q c p x' Hok2 Hc2 ltac:(by eexists) Hx) as (w3 & E3 & Hok3 & Hcs3 & Hp3); [by rewrite Hd2|by apply Hst|].
      eexists w3, _. split; [done|]. split; [done|]. split; [rewrite Hcs3; by rewrite Hd2|]. split; [done|]. right. split; [done|].
      intros _. apply (no_handler_proxy w3 ts); [done|]. by rewrite Hp3.
  - destruct (report_calm (with_registry r w) ts (mg_channel_id c) (Some (lit "failed to register command")) (proj1 Hok1) Ha) as (err2 & w2 & E2 & Hw2 & Hd2).
    erewrite bind_eq by exact E2. assert (cmrg_ok w2 ts) as Hok2 by (split; [done|rewrite Hd2; apply Hok1]).
    destruct (set_failed_run w2 ts q c Hok2) as (w3 & E3 & Hok3 & Hd3); [by rewrite Hd2|].
    exists w3, (set_mg_failed c). split; [done|]. split; [done|]. split; [rewrite Hd3; simpl; by rewrite Hd2|]. split; [done|]. right. split; [done|].
    intros Hcr. apply (no_handler_proxy w3 ts); [done|]. rewrite Hd3. simpl. rewrite Hd2. simpl. rewrite Hp1. intros ? [= <-]. by destruct (Hno Herr).
Qed.

(** The task of a command is run. *)
Lemma cmrg_process_run w ts q c t phase : cmrg_ok w ts -> ms_commands (cmrg_data w) !! q = Some c -> mg_task c = Some t ->
  exists w' ts', cmrg_process XPLMFindCommand XPLMCreateCommand_result t phase w = Some (tt, w') /\ cmrg_ok w' ts' /\
    exists c', ms_commands (cmrg_data w') = <[q := c']> (ms_commands (cmrg_data w)) /\
      (is_Some (mg_task c') \/ addressable (mg_channel_id c') = false).
Proof.
  intros Hok Hc Ht. pose proof Hok as [Hw Hd]. destruct (gd_task _ _ Hd q c t Hc Ht) as (Hin & Htq & Ha). unfold cmrg_process.
  erewrite bind_eq by reflexivity. rewrite Htq. erewrite bind_eq by reflexivity. erewrite bind_eq by by apply load_cmrg_eq.
  assert (exists w' ts', Some (tt, w) = Some (tt, w') /\ cmrg_ok w' ts' /\
    exists c', ms_commands (cmrg_data w') = <[q := c']> (ms_commands (cmrg_data w)) /\
      (is_Some (mg_task c') \/ addressable (mg_channel_id c') = false)) as Hnothing.
  { exists w, ts. split; [done|]. split; [done|]. exists c. rewrite insert_id by done. split; [done|]. left. by eexists. }
  destruct (phase =? CMRG_TASK_PHASE).
  - destruct (mg_initialized c); [exact Hnothing|]. destruct (mg_failed c) eqn:Hf; [exact Hnothing|]. red_if. unfold when.
    destruct (mg_xpcmd c) as [p|] eqn:Hx; [|by rewrite (gd_initial _ _ Hd q c Hc ltac:(by eexists) Hx) in Hf].
    destruct (gd_proxy _ _ Hd q c p Hc ltac:(by eexists) Hx) as (x & Hp & _).
    destruct (cmrg_initialize_run w ts q c p x Hok Hc ltac:(by eexists) Hx Hp) as (w' & c' & E & Hok' & Hcs & Ht' & _).
    exists w', ts. split; [done|]. split; [done|]. exists c'. split; [done|]. left. rewrite Ht'. by eexists.
  - destruct (mg_failed c); [|exact Hnothing].
    destruct (report_calm w ts (mg_channel_id c) None Hw Ha) as (err & w1 & E1 & Hw1 & Hd1). erewrite bind_eq by exact E1.
    destruct (cmrg_terminate_run w1 ts q c t) as (ts1 & ts2 & w2 & -> & E2 & Hok2 & Hd2); [split; [done|by rewrite Hd1]|by rewrite Hd1|done|].
    erewrite bind_eq by exact E2. exists w2, (ts1 ++ ts2). split; [done|]. split; [done|]. eexists. rewrite Hd2. simpl. rewrite Hd1. split; [done|]. by right.
Qed.
End XPlane.

(** ** Invocation *)

(** What an invocation does to a command that has not failed, and to what is
    queued for the client: the message is sent, if there is one; the command fails
    if that fails or if X-Plane reports a phase that is not known. *)
Definition event_handled w w' c c' (xp_phase : XPLMCommandPhase) : Prop :=
  let queued := conn_queued (w_connection w) in
  let queued' := conn_queued (w_connection w') in
  match cmrg_message (mg_monitor c) xp_phase with
  | (Some msg, _) =>
      c' = c /\ (exists time, 0 <= time /\ queued' = queued ++
        format_message (message_of (mg_channel_id c) CHANNEL_STATE_CONFIRMED CHANNEL_ACTION_CONTINUE time (Some msg))) \/
      c' = set_mg_failed c
  | (None, true) => c' = c /\ queued' = queued
  | (None, false) => c' = set_mg_failed c /\ queued' = queued
  end.

Lemma cmrg_handle_event_run w ts q c p x xp_phase : cmrg_ok w ts -> ms_commands (cmrg_data w) !! q = Some c -> is_Some (mg_task c) ->
  mg_xpcmd c = Some p -> ms_proxies (cmrg_data w) !! p = Some x ->
  exists w', cmrg_handle_event (Some q) xp_phase w = Some (tt, w') /\ cmrg_ok w' ts /\
    exists c', cmrg_data w' = set_ms_commands (<[q := c']> (ms_commands (cmrg_data w))) (cmrg_data w) /\ mg_task c' = mg_task c /\
      (mg_failed c = false -> event_handled w w' c c' xp_phase).
Proof.
  intros Hok Hc [t Ht] Hx Hp. pose proof Hok as [Hw Hd]. destruct (gd_task _ _ Hd q c t Hc Ht) as (Hin & Htq & Ha). unfold cmrg_handle_event, event_handled.
  erewrite bind_eq by by apply load_cmrg_eq.
  assert (cmrg_data w = set_ms_commands (<[q := c]> (ms_commands (cmrg_data w))) (cmrg_data w)) as Hsame.
  { rewrite insert_id by done. by destruct (cmrg_data w). }
  destruct (mg_failed c); [by exists w; split_and!; [done..|]; exists c|].
  destruct (cmrg_message (mg_monitor c) xp_phase) as [msg known] eqn:Em. destruct known; cbn [negb when].
  - unfold when. erewrite bind_eq by reflexivity. destruct msg as [msg|]; [|exists w; split_and!; [done..|]; by exists c]. unfold continue_channel.
    destruct (act_calm w ts (fun _ => CHANNEL_ACTION_CONTINUE) (lit "failed to continue channel") (mg_channel_id c) (Some msg) Hw Ha)
      as (err & w1 & E1 & Hw1 & Hd1). erewrite bind_eq by exact E1. assert (cmrg_ok w1 ts) as Hok1 by (split; [done|by rewrite Hd1]).
    destruct (Z.eqb_spec err ERROR_NONE) as [-> |]; red_if.
    { exists w1. split; [done|]. split; [done|]. exists c. rewrite Hd1. split; [done|]. split; [done|]. intros _. left. split; [done|].
      destruct (act_on_channel_sent _ _ _ _ _ _ _ (cw_world _ _ Hw) Ha E1) as (st & time & _ & Htime & Hinv & _ & Hq & _).
      assert (st = CHANNEL_STATE_CONFIRMED) as -> by by destruct st. by exists time. }
    erewrite bind_eq by (eapply log_name_run; [exact Hw1|rewrite Hd1; exact Hc|exact Hx|rewrite Hd1; exact Hp]).
    destruct (report_calm w1 ts (mg_channel_id c) None Hw1 Ha) as (err2 & w2 & E2 & Hw2 & Hd2). erewrite bind_eq by exact E2.
    destruct (set_failed_run w2 ts q c) as (w3 & E3 & Hok3 & Hd3); [split; [done|by rewrite Hd2, Hd1]|by rewrite Hd2, Hd1|].
    exists w3. split; [done|]. split; [done|]. exists (set_mg_failed c). rewrite Hd3, Hd2, Hd1. split; [done|]. split; [done|]. intros _. by right.
  - unfold when. assert (msg = None) as -> by (destruct xp_phase; simpl in Em; by injection Em).
    pose proof (update_cmrg_eq w q set_mg_failed c Hc) as E1.
    erewrite bind_eq by (erewrite bind_eq by (eapply log_name_run; [exact Hw|exact Hc|exact Hx|exact Hp]); exact E1).
    eexists. split; [done|]. split; [split; [by apply set_data_calm|by eapply cmrg_data_update]|]. by exists (set_mg_failed c).
Qed.

(** X-Plane invokes a handler that it has. *)
Lemma cmrg_invoke_run w ts hs ref ph p xp_phase : cmrg_ok w ts -> handlers (ms_calls (cmrg_data w)) = Some hs -> (ref, ph, p) ∈ hs ->
  exists propagate w', cmrg_invoke ref xp_phase (Some p) w = Some (propagate, w') /\ cmrg_ok w' ts /\
    ms_calls (cmrg_data w') = ms_calls (cmrg_data w) /\
    (ms_commands (cmrg_data w') = ms_commands (cmrg_data w) \/
      exists q c c', ms_commands (cmrg_data w) !! q = Some c /\ ms_commands (cmrg_data w') = <[q := c']> (ms_commands (cmrg_data w)) /\ is_Some (mg_task c')) /\
    exists x, ms_proxies (cmrg_data w) !! p = Some x /\
      (xpc_state x = XPCOMMAND_STATE_REGISTERED -> propagate = xpc_propagate x /\
        exists q c c', xpc_callback_ref x = Some q /\ ms_commands (cmrg_data w) !! q = Some c /\ mg_xpcmd c = Some p /\
          ms_commands (cmrg_data w') = <[q := c']> (ms_commands (cmrg_data w)) /\ (mg_failed c = false -> event_handled w w' c c' xp_phase)) /\
      (xpc_state x <> XPCOMMAND_STATE_REGISTERED -> propagate = XPCOMMAND_PROPAGATE_CONTINUE /\ w_connection w' = w_connection w).
Proof.
  intros Hok Hhs Hin. pose proof Hok as [Hw Hd]. pose proof (registry_of_ok _ _ Hd) as Hr. destruct (registry_free w ts Hw Hd) as [Hfree Hl].
  destruct (handler_run registry_of with_registry (fun _ : unit => cmrg_handle_event)
    (fun r w => match r with mkRegistryState _ _ _ _ _ => eq_refl end) (fun r r' w => eq_refl) w hs ref ph p xp_phase Hr Hhs Hin)
    as (x & callback & Hp & Hcb & E). cbv zeta in E. unfold cmrg_invoke. rewrite E, Hfree. change (ERROR_NONE =? ERROR_NONE) with true. cbv iota. clear E.
  set (r1 := rg_tried (registry_of w)) in *. destruct (tried_proxies (registry_of w)) as (Em & Er & Ei & Ec). fold r1 in Em, Er, Ei, Ec.
  destruct (in_registry_run (fun _ => Some (tt, r1)) w ts tt r1 Hw eq_refl Hl) as (_ & Hw1 & _).
  assert (forall r, rg_proxies r = ms_proxies (cmrg_data w) -> registry_ok r -> xr_destruction_pending (rg_registry r) = false ->
    calm_world (with_registry r w) ts -> cmrg_ok (with_registry r w) ts) as Hsame.
  { intros r Emr Hrr Hpe Hwr. apply cmrg_registry_ok; [done..| |]; rewrite Emr; intros p2 x2; [by exists x2|apply (gd_live _ _ Hd)]. }
  destruct (Z.eqb_spec (xpc_state x) XPCOMMAND_STATE_REGISTERED) as [Hst|Hst].
  2:{ eexists _, _. split; [done|]. split; [|split; [exact Ec|split; [by left|by exists x]]]. apply Hsame; [exact Em|by apply registry_ok_tried|rewrite Er; apply Hd|done]. }
  destruct (gd_live _ _ Hd p x Hp Hst) as (q & c & Hq & Hc & Ht & Hx).
  assert (registry_ok (rg_locked r1)) as Hrl.
  { destruct (proj1 (registry_ok_with r1) (registry_ok_tried _ Hr)) as (l & ps & Hwith). apply registry_ok_with. exists l, ps. by apply registry_with_locked. }
  assert (calm_world (with_registry (rg_locked r1) w) ts) as Hw2.
  { destruct (in_registry_run (fun _ => Some (tt, rg_locked r1)) w ts tt (rg_locked r1) Hw eq_refl Hl) as (_ & ? & _). done. }
  assert (cmrg_ok (with_registry (rg_locked r1) w) ts) as Hok2.
  { apply Hsame; [exact Em|done| |done]. simpl. rewrite Er. apply Hd. }
  destruct (cmrg_handle_event_run (with_registry (rg_locked r1) w) ts q c p x xp_phase Hok2 Hc Ht Hx) as (w3 & E3 & Hok3 & c' & Hd3 & Ht3 & Hev).
  { simpl. rewrite Em. exact Hp. }
  rewrite Hq. erewrite bind_eq by exact E3.
  assert (registry_of w3 = rg_locked (set_rg_env (cs_env (w_channels w3)) r1)) as Er3.
  { unfold registry_of. rewrite Hd3. done. }
  erewrite bind_eq by (unfold on_registry, zoom; rewrite (load_proxy_eq p x); [reflexivity|by rewrite Er3; simpl; rewrite Em]).
  erewrite bind_eq.
  2:{ unfold on_registry, zoom. change (registry_of (with_registry (registry_of w3) w3)) with (registry_of w3). rewrite Er3.
      rewrite unlock_xpcommand_eq by (simpl; rewrite Em; by eexists). reflexivity. }
  eexists _, _. split; [done|]. set (r3 := set_rg_env _ r1).
  change (with_registry r3 (with_registry (rg_locked r3) w3)) with (with_registry r3 w3).
  destruct (in_registry_run (fun _ => Some (tt, r3)) w3 ts tt r3 (proj1 Hok3) eq_refl (cw_lock _ _ (proj1 Hok3))) as (_ & Hw4 & Ed4).
  split; [|split; [|split]].
  - apply cmrg_registry_ok; [done|done|by apply registry_ok_env, registry_ok_tried|simpl; rewrite Er; apply Hd| |];
      rewrite Hd3; simpl; rewrite Em; intros p2 x2.
    + intros Hp2 ?. exists x2. split; [|done]. exact Hp2.
    + intros Hp2 Hst2. pose proof (gd_live _ _ (proj2 Hok3) p2 x2) as Hl3. rewrite Hd3 in Hl3. simpl in Hl3. rewrite Em in Hl3. by apply Hl3.
  - rewrite Ed4. simpl. exact Ec.
  - rewrite Ed4. simpl. rewrite Hd3. right. exists q, c, c'. split; [done|]. split; [done|]. by rewrite Ht3.
  - exists x. split; [done|]. split; [|done]. intros _. split; [done|].
    exists q, c, c'. split_and!; try done. rewrite Ed4. simpl. by rewrite Hd3.
Qed.

(** ** Creation *)

(** Command objects without a task do not matter. *)
Lemma cmrg_data_idle d ts m :
  (forall q c, is_Some (mg_task c) -> m !! q = Some c <-> ms_commands d !! q = Some c) ->
  cmrg_data_ok d ts -> cmrg_data_ok (set_ms_commands m d) ts.
Proof.
  intros Hm [Hr Hpe Ht Hp Hl Hi]. split; try done; simpl.
  - intros q c t Hc Hct. apply (Ht q c t); [|done]. apply Hm; [by eexists|done].
  - intros q c p Hc Hct. apply (Hp q c p); [|done]. by apply Hm.
  - intros p x Hpx Hst. destruct (Hl p x Hpx Hst) as (q & c & ? & Hc & Hct & ?). exists q, c. split; [done|]. split; [|done]. by apply Hm.
  - intros q c Hc Hct. apply (Hi q c); [|done]. by apply Hm.
Qed.

(** Since the commands were [m], only the command [q] was added; it has no
    task. *)
Record creating (m : gmap loc command_cmrg_t) w ts q c : Prop := mkCreating {
  cr_ok : cmrg_ok w ts;
  cr_new : m !! q = None;
  cr_commands : ms_commands (cmrg_data w) = <[q := c]> m;
  cr_task : mg_task c = None;
}.

Lemma creating_calm m w w' ts q c : calm_world w' ts -> cmrg_data w' = cmrg_data w -> creating m w ts q c -> creating m w' ts q c.
Proof. intros Hw Hd [[_ Hok] ? ? ?]. split; [split; [done|]| |..]; by rewrite ?Hd. Qed.

Lemma creating_command m w ts q c : creating m w ts q c -> ms_commands (cmrg_data w) !! q = Some c.
Proof. intros []. rewrite cr_commands0. apply lookup_insert_eq. Qed.

(** Without the object, or with another one that has no task, all is well, too. *)
Lemma creating_idle m w ts q c m' : creating m w ts q c ->
  m' = delete q (ms_commands (cmrg_data w)) \/ (exists c', mg_task c' = None /\ m' = <[q := c']> (ms_commands (cmrg_data w))) ->
  cmrg_ok (set_cmrg_data (set_ms_commands m' (cmrg_data w)) w) ts.
Proof.
  intros [[Hw Hd] Hn Hcs Ht] Hm. split; [by apply set_data_calm|]. apply cmrg_data_idle; [|done]. intros q2 c2 [t2 Ht2]. rewrite Hcs in Hm |- *.
  destruct (decide (q = q2)) as [<- |Hne].
  - rewrite lookup_insert_eq. split; [|intros [= ->]; by rewrite Ht in Ht2].
    destruct Hm as [-> |(c' & Hc' & ->)]; [by rewrite lookup_delete_eq|]. rewrite lookup_insert_eq. intros [= ->]. by rewrite Hc' in Ht2.
  - destruct Hm as [-> |(c' & Hc' & ->)]; [rewrite lookup_delete_ne|rewrite lookup_insert_ne]; done.
Qed.

Lemma creating_update m w ts q c f : creating m w ts q c -> mg_task (f c) = None ->
  exists w', update_cmrg q f w = Some (tt, w') /\ creating m w' ts q (f c) /\ ms_proxies (cmrg_data w') = ms_proxies (cmrg_data w) /\
    ms_tasks (cmrg_data w') = ms_tasks (cmrg_data w).
Proof.
  intros Hcr Hf. eexists. split; [by apply update_cmrg_eq, (creating_command m w ts)|]. split; [|done].
  pose proof (creating_idle m w ts q c (<[q := f c]> (ms_commands (cmrg_data w))) Hcr) as Hok. destruct Hcr as [_ ? Hcs ?].
  split; [apply Hok; right; by eexists|done| |done]. simpl. by rewrite Hcs, insert_insert_eq.
Qed.

(** A creation that fails leaves no command. *)
Definition refused (m : gmap loc command_cmrg_t) (result : option (error_t * option loc * W)) (ts : list loc) : Prop :=
  exists err w', result = Some (err, None, w') /\ err <> ERROR_NONE /\ cmrg_ok w' ts /\ ms_commands (cmrg_data w') = m.

Lemma cmrg_abandon_run m w ts q c out : creating m w ts q c -> refused m (cmrg_abandon q out w) ts.
Proof.
  intros Hcr. unfold cmrg_abandon, cmrg_destroy.
  erewrite (bind_eq _ _ _ ERROR_NONE (set_cmrg_data (set_ms_commands (delete q (ms_commands (cmrg_data w))) (cmrg_data w)) w)) by reflexivity.
  eexists _, _. split; [reflexivity|]. split; [by destruct (Z.eqb_spec out ERROR_NONE)|].
  split; [eapply creating_idle; [exact Hcr|by left]|]. simpl. rewrite (cr_commands _ _ _ _ _ Hcr).
  by rewrite delete_insert_id by apply (cr_new _ _ _ _ _ Hcr).
Qed.

Lemma cmrg_reject_run m w ts q c id reason : creating m w ts q c -> addressable id = true -> refused m (cmrg_reject q id reason w) ts.
Proof.
  intros Hcr Ha. unfold cmrg_reject. destruct (report_calm w ts id (Some reason) (proj1 (cr_ok _ _ _ _ _ Hcr)) Ha) as (err & w1 & E & Hw1 & Hd1).
  erewrite bind_eq by exact E. by eapply cmrg_abandon_run, creating_calm.
Qed.

Lemma decline_run w ts id reason : cmrg_ok w ts -> addressable id = true -> refused (ms_commands (cmrg_data w)) (decline id reason w) ts.
Proof.
  intros [Hw Hd] Ha. unfold decline. destruct (report_calm w ts id (Some reason) Hw Ha) as (err & w1 & E & Hw1 & Hd1).
  erewrite bind_eq by exact E. eexists _, _. split; [done|]. split; [done|]. by split; [split|]; rewrite ?Hd1.
Qed.

Lemma zmalloc_calm n w ts : n <> 0 -> calm_world w ts ->
  exists b w', on_env (zmalloc n) w = Some (b, w') /\ calm_world w' ts /\ cmrg_data w' = cmrg_data w.
Proof.
  intros Hn Hw. destruct (held_zmalloc_run n w Hn (cw_world _ _ Hw)) as (b & w' & E & Hw' & Hq). exists b, w'. split; [done|]. by apply (calm_quiet w).
Qed.

(** The command is scheduled, or gone. *)
Lemma cmrg_schedule_run m w ts q c p x id : creating m w ts q c -> addressable id = true -> mg_channel_id c = id ->
  mg_xpcmd c = Some p -> ms_proxies (cmrg_data w) !! p = Some x -> xpc_callback_ref x = Some q -> droppable x = true ->
  refused m (cmrg_schedule q id w) ts \/
  exists t w', cmrg_schedule q id w = Some ((ERROR_NONE, Some q), w') /\ cmrg_ok w' (ts ++ [t]) /\
    ms_commands (cmrg_data w') = <[q := set_mg_task (Some t) c]> m /\ ms_proxies (cmrg_data w') = ms_proxies (cmrg_data w).
Proof.
  intros Hcr Ha Hid Hx Hp Hcb Hdr. unfold cmrg_schedule.
  destruct (zmalloc_calm 16 w ts ltac:(done) (proj1 (cr_ok _ _ _ _ _ Hcr))) as (ok & w1 & E1 & Hw1 & Hd1). erewrite bind_eq by exact E1.
  pose proof (creating_calm _ _ _ _ _ _ Hw1 Hd1 Hcr) as Hcr1. rewrite <-Hd1 in Hp. clear Hcr.
  destruct ok; red_if; [|left; by eapply cmrg_abandon_run]. erewrite bind_eq by reflexivity.
  set (t := fresh (dom (ms_tasks (cmrg_data w1)))). assert (ms_tasks (cmrg_data w1) !! t = None) as Htn by (apply not_elem_of_dom, is_fresh).
  cbv zeta. set (d2 := set_ms_tasks (<[t := q]> (ms_tasks (cmrg_data w1))) (cmrg_data w1)).
  erewrite (bind_eq _ _ _ tt (set_cmrg_data d2 w1)) by reflexivity. pose proof (set_data_calm _ _ d2 Hw1) as Hw2.
  (* what the steps until the task is known to the command leave *)
  assert (forall w ts', calm_world w ts' -> (forall t, t ∈ ts -> t ∈ ts') -> cmrg_data w = d2 -> creating m w ts' q c) as Hd2.
  { intros w2 ts' Hcw Hsub Hdd. destruct Hcr1 as [[_ [Hr Hpe Ht Hpr Hl Hi]] ? ? ?]. split; [split; [done|]| |..]; rewrite ?Hdd; try done.
    split; try done. simpl. intros q2 c2 t2 Hc2 Ht2. destruct (Ht q2 c2 t2 Hc2 Ht2) as (Hin & Htq & ?). split; [by apply Hsub|]. split; [|done].
    rewrite lookup_insert_ne; [done|]. intros ->. by rewrite Htn in Htq. }
  destruct (sched_lock_run _ ts (cw_world _ _ Hw2) (cw_sched _ _ Hw2)) as (w3 & E3 & Hb3 & Hw3 & Hs3).
  assert (lock_result (set_cmrg_data d2 w1) = ERROR_NONE) as Hl by by apply (lock_calm _ ts).
  rewrite Hl in E3. erewrite bind_eq by exact E3. change (ERROR_NONE =? ERROR_NONE) with true. cbv iota.
  destruct (calm_beside _ _ _ _ Hb3 Hw3 Hs3 Hw2) as [Hc3 Hd3]. change (cmrg_data (set_cmrg_data d2 w1)) with d2 in Hd3.
  destruct (sched_schedule_run w3 ts t Hw3 Hs3 (cw_pending _ _ Hc3)) as (err & w4 & E4 & Hb4 & Hw4 & Hs4).
  destruct (calm_beside _ _ _ _ Hb4 Hw4 Hs4 Hc3) as [Hc4 Hd4]. rewrite Hd3 in Hd4.
  destruct (Z.eqb_spec err ERROR_NONE) as [-> |Herr].
  - right. assert (ms_commands (cmrg_data w4) !! q = Some c) as Hq4 by (rewrite Hd4; apply (creating_command _ _ _ _ _ Hcr1)).
    set (d5 := set_ms_commands (<[q := set_mg_task (Some t) c]> (ms_commands d2)) d2).
    pose proof (set_data_calm _ _ d5 Hc4) as Hc5.
    destruct (sched_unlock_run _ _ (cw_world _ _ Hc5) (cw_sched _ _ Hc5)) as (w6 & E6 & Hb6 & Hw6 & Hs6).
    destruct (calm_beside _ _ _ _ Hb6 Hw6 Hs6 Hc5) as [Hc6 Hd6]. change (cmrg_data (set_cmrg_data d5 w4)) with d5 in Hd6.
    erewrite bind_eq.
    2:{ erewrite bind_eq by exact E4. unfold when. change (ERROR_NONE =? ERROR_NONE) with true. cbv iota.
        erewrite bind_eq by (apply update_cmrg_eq; exact Hq4). rewrite Hd4. fold d5. erewrite bind_eq by exact E6. reflexivity. }
    change (negb (ERROR_NONE =? ERROR_NONE)) with false. cbv iota. exists t, w6. split; [done|].
    pose proof (Hd2 w4 (ts ++ [t]) Hc4 ltac:(intros ?; rewrite elem_of_app; by left) Hd4) as [[_ [Hr Hpe Ht Hpr Hlv Hi]] Hnew Hcs Hct].
    rewrite Hd4 in *. rewrite Hd6. unfold d5. simpl in *. split; [|by rewrite Hcs, insert_insert_eq, Hd1].
    split; [done|]. rewrite Hd6. unfold d5. rewrite Hcs, insert_insert_eq in *.
    assert (forall q2 c2, q <> q2 -> <[q := set_mg_task (Some t) c]> m !! q2 = Some c2 -> <[q := c]> m !! q2 = Some c2) as Hother
      by (intros q2 c2 Hne; by rewrite !lookup_insert_ne).
    split; simpl; [done|done| | | |]; rewrite ?Hcs.
    + intros q2 c2 t2. destruct (decide (q = q2)) as [<- |Hne].
      * rewrite lookup_insert_eq. intros [= <-] [= <-]. rewrite lookup_insert_eq. split; [|by rewrite <-Hid in Ha]. apply elem_of_app. right. left.
      * intros Hc2. apply Ht. by apply Hother.
    + intros q2 c2 p2. destruct (decide (q = q2)) as [<- |Hne].
      * rewrite lookup_insert_eq. intros [= <-] _ Hx2. simpl in Hx2. assert (p2 = p) as -> by congruence. by exists x.
      * intros Hc2. apply Hpr. by apply Hother.
    + intros p2 x2 Hp2 Hst2. destruct (Hlv p2 x2 Hp2 Hst2) as (q2 & c2 & Hcb2 & Hc2 & Ht2 & Hx2). exists q2, c2. split; [done|]. split; [|done].
      assert (q <> q2) as Hne; [|by rewrite lookup_insert_ne in Hc2 |- * by done].
      intros <-. rewrite lookup_insert_eq in Hc2. injection Hc2 as <-. destruct Ht2 as [? Ht2]. by rewrite Hct in Ht2.
    + intros q2 c2. destruct (decide (q = q2)) as [<- |Hne].
      * rewrite lookup_insert_eq. intros [= <-] _ Hx2. simpl in Hx2. congruence.
      * intros Hc2. apply (Hi q2). by apply Hother.
  - left. destruct (sched_unlock_run _ _ Hw4 Hs4) as (w5 & E5 & Hb5 & Hw5 & Hs5). destruct (calm_beside _ _ _ _ Hb5 Hw5 Hs5 Hc4) as [Hc5 Hd5].
    assert (err =? ERROR_NONE = false) as Hf by by apply Z.eqb_neq.
    erewrite bind_eq.
    2:{ erewrite bind_eq by exact E4. rewrite Hf. unfold when. erewrite bind_eq by reflexivity. erewrite bind_eq by exact E5. reflexivity. }
    rewrite Hf. red_if. destruct (report_calm w5 _ id (Some (lit "failed to schedule task")) Hc5 Ha) as (err6 & w6 & E6 & Hc6 & Hd6).
    erewrite bind_eq by exact E6. set (d7 := set_ms_tasks (delete t (ms_tasks (cmrg_data w6))) (cmrg_data w6)).
    erewrite (bind_eq _ _ _ tt (set_cmrg_data d7 w6)) by reflexivity.
    eapply (cmrg_abandon_run m _ ts q c). eapply creating_calm; [apply set_data_calm; exact Hc6| |exact Hcr1].
    change (cmrg_data (set_cmrg_data d7 w6)) with d7. unfold d7. rewrite Hd6, Hd5, Hd4. unfold d2. destruct (cmrg_data w1). unfold set_ms_tasks. simpl in *.
    by rewrite delete_insert_id.
Qed.

(** The parameters: the name, and the description if it is given; otherwise the
    name is unescaped once more. *)
Definition cmrg_texts (parameters : list cstr) (name description : cstr) : Prop :=
  match parameters with
  | [parameter] => unescaped parameter = Some name /\ unescaped name = Some description
  | [parameter; parameter'] => unescaped parameter = Some name /\ unescaped parameter' = Some description
  | _ => False
  end.

(** What a creation that succeeds adds: a command that waits for the flight loop,
    and its proxy. *)
Record cmrg_created (m : gmap loc command_cmrg_t) w q id monitor (parameters : list cstr) (phase propagate : Z) : Prop := mkCmrgCreated {
  cc_new : m !! q = None;
  cc_command : exists t p, ms_commands (cmrg_data w) = <[q := mkCmrg id (Some t) monitor (Some p) false false]> m /\
    exists name description, ms_proxies (cmrg_data w) !! p = Some (created_proxy name description phase propagate (Some q) tt) /\
      cmrg_texts parameters name description;
}.

(** The copy of a parameter, if there is one. *)
Lemma copy_calm o w ts : calm_world w ts ->
  exists copy w', on_env (copy_unescaped_string o) w = Some (copy, w') /\ calm_world w' ts /\ cmrg_data w' = cmrg_data w /\
    forall s, copy = Some s -> exists s0, o = Some s0 /\ unescaped s0 = Some s.
Proof.
  intros Hw. destruct o as [s0|].
  - destruct (copy_unescaped_run s0 (cs_env (w_channels w))) as (copy & e & E & Hc & Hr).
    destruct (on_env_run _ w copy e (cw_world _ _ Hw) E Hc) as (w' & E' & Hw' & Hq). destruct (calm_quiet _ _ _ Hq Hw' Hw) as [Hw2 Hd2].
    exists copy, w'. split_and!; try done. intros s ->. exists s0. split; [done|]. by destruct Hr.
  - exists None, w. split; [|done]. unfold on_env, on_channels, zoom. by destruct w as [? [] ? ?].
Qed.

Lemma creating_registry m w ts q c name description phase propagate :
  creating m w ts q c -> no_nul name -> no_nul description ->
  exists o w', in_registry (create_xpcommand (Some name) (Some description) phase propagate (Some q) (Some tt)) w = Some (o, w') /\
    creating m w' ts q c /\
    forall p, o = Some p -> ms_proxies (cmrg_data w') !! p = Some (created_proxy name description phase propagate (Some q) tt).
Proof.
  intros [[Hw Hd] Hn Hcs Ht] Hnn Hnd. pose proof (registry_of_ok _ _ Hd) as Hr.
  destruct (create_xpcommand_run (registry_of w) name description phase propagate (Some q) tt Hr Hnn Hnd)
    as (o & r & E & Hr' & _ & _ & Hpe & [_ Hl] & Hres & _).
  destruct (in_registry_run _ w ts o r Hw E (Hl (cw_lock _ _ Hw))) as (E' & Hw' & Ed). exists o, (with_registry r w). split; [exact E'|].
  split; [split; [|done|by rewrite Ed|done]|].
  - apply cmrg_registry_ok; [done..|rewrite Hpe; apply Hd| |]; intros p2 x2 Hp2 Hst2.
    + exists x2. split; [|done]. destruct o as [p|]; [|by rewrite Hres]. destruct Hres as (Hpn & _ & ->). rewrite lookup_insert_ne; [done|].
      intros ->. simpl in Hpn. congruence.
    + assert (ms_proxies (cmrg_data w) !! p2 = Some x2) as Hp2'; [|by apply (gd_live _ _ Hd) in Hp2'].
      destruct o as [p|]; [|by rewrite Hres in Hp2]. destruct Hres as (_ & _ & E2). rewrite E2 in Hp2.
      apply lookup_insert_Some in Hp2 as [[_ <-]|[_ ?]]; [done|done].
  - intros p ->. destruct Hres as (_ & _ & E2). rewrite Ed. simpl. rewrite E2. apply lookup_insert_eq.
Qed.

Lemma cmrg_prepare_run m w ts q request monitor phase propagate :
  let id := req_channel_id request in
  creating m w ts q (mkCmrg id None monitor None false false) -> addressable id = true ->
  refused m (cmrg_prepare q request phase propagate w) ts \/
  exists t w', cmrg_prepare q request phase propagate w = Some ((ERROR_NONE, Some q), w') /\ cmrg_ok w' (ts ++ [t]) /\
    cmrg_created m w' q id monitor (req_parameters request) phase propagate.
Proof.
  intros id Hcr Ha. unfold cmrg_prepare. fold id.
  destruct (copy_calm (head (req_parameters request)) w ts (proj1 (cr_ok _ _ _ _ _ Hcr))) as (name & w1 & E1 & Hw1 & Hd1 & Hname).
  erewrite bind_eq by exact E1. pose proof (creating_calm _ _ _ _ _ _ Hw1 Hd1 Hcr) as Hcr1.
  destruct name as [name|]; [|left; by eapply cmrg_reject_run]. destruct (Hname _ eq_refl) as (parameter & Hhead & Hun).
  destruct (req_parameters request) as [|parameter0 parameters]; [done|]. injection Hhead as ->. cbn [tail].
  destruct (copy_calm (match parameters with parameter :: _ => Some parameter | [] => Some name end) w1 ts Hw1) as (description & w2 & E2 & Hw2 & Hd2 & Hdesc).
  erewrite bind_eq by exact E2. pose proof (creating_calm _ _ _ _ _ _ Hw2 Hd2 Hcr1) as Hcr2.
  destruct description as [description|]; [|left; by eapply cmrg_reject_run]. destruct (Hdesc _ eq_refl) as (source & Hsource & Hund).
  destruct (decide (length parameters < 2)%nat) as [Hlen|Hlen].
  2:{ destruct parameters as [|? [|? ?]]; [simpl in Hlen; lia..|]. left. by eapply cmrg_reject_run. }
  assert (cmrg_texts (parameter :: parameters) name description) as Htexts.
  { destruct parameters as [|parameter' [|? ?]]; simpl in *; [|split; [done|]|lia]; by injection Hsource as ->. }
  assert (forall A (a b : A), match parameters with _ :: _ :: _ => a | _ => b end = b) as Hmatch
    by (intros; destruct parameters as [|? [|? ?]]; [done..|simpl in Hlen; lia]).
  rewrite Hmatch.
  destruct (creating_registry m w2 ts q _ name description phase propagate Hcr2) as (o & w3 & E3 & Hcr3 & Hp3);
    [by eapply unescaped_no_nul|by eapply unescaped_no_nul|]. erewrite bind_eq by exact E3.
  destruct (creating_update m w3 ts q _ (set_mg_xpcmd o) Hcr3 eq_refl) as (w4 & E4 & Hcr4 & Ep4 & _). erewrite bind_eq by exact E4.
  destruct o as [p|]; [|left; by eapply cmrg_reject_run].
  destruct (cmrg_schedule_run m w4 ts q _ p (created_proxy name description phase propagate (Some q) tt) id Hcr4 Ha eq_refl eq_refl) as [?|(t & w5 & E5 & Hok5 & Hcs5 & Ep5)];
    [rewrite Ep4; by apply Hp3|done|done|by left|]. right. exists t, w5. split; [done|]. split; [done|]. split; [apply Hcr|].
  exists t, p. split; [exact Hcs5|]. exists name, description. split; [|done]. rewrite Ep5, Ep4. by apply Hp3.
Qed.

Definition cmrg_option (request : request_t) (name default : string) : option cstr :=
  request_get_option (Some request) (Some (lit name)) (Some (lit default)).

Lemma cmrg_create_run w ts request config : cmrg_ok w ts -> addressable (req_channel_id request) = true ->
  refused (ms_commands (cmrg_data w)) (cmrg_create request config w) ts \/
  exists q t w', cmrg_create request config w = Some ((ERROR_NONE, Some q), w') /\ cmrg_ok w' (ts ++ [t]) /\
    version config = CMRG_COMMAND_VERSION /\ request_has_only_options (Some request) (Some cmrg_supported_options) = true /\
    let monitor := parse_monitor (cmrg_option request "monitor" "all") in
    let phase := parse_phase (cmrg_option request "phase" "before") in
    let propagate := parse_propagation (cmrg_option request "propagate" "false") in
    monitor <> CMRG_INVALID /\ phase <> CMRG_INVALID /\ propagate <> CMRG_INVALID /\
    cmrg_created (ms_commands (cmrg_data w)) w' q (req_channel_id request) monitor (req_parameters request) phase propagate.
Proof.
  intros Hok Ha. unfold cmrg_create.
  destruct (Z.eqb_spec (version config) CMRG_COMMAND_VERSION) as [Hv|]; red_if; [|left; by apply decline_run].
  destruct (request_has_only_options (Some request) (Some cmrg_supported_options)) eqn:Ho; red_if; [|left; by apply decline_run].
  unfold alloc_cmrg. destruct (zmalloc_calm 40 w ts ltac:(done) (proj1 Hok)) as (ok & w1 & E1 & Hw1 & Hd1).
  destruct ok.
  2:{ left. erewrite bind_eq by (erewrite bind_eq by exact E1; reflexivity). eexists _, _. split; [done|]. split; [done|].
      by split; [split|]; rewrite ?Hd1; try apply Hok. }
  set (q := fresh (dom (ms_commands (cmrg_data w1)))). assert (ms_commands (cmrg_data w1) !! q = None) as Hq by (apply not_elem_of_dom, is_fresh).
  set (id := req_channel_id request) in *. set (c0 := mkCmrg id None 0 None false false).
  set (w2 := set_cmrg_data (set_ms_commands (<[q := c0]> (ms_commands (cmrg_data w1))) (cmrg_data w1)) w1).
  erewrite (bind_eq _ _ _ (Some q) w2) by (erewrite bind_eq by exact E1; reflexivity).
  assert (creating (ms_commands (cmrg_data w)) w2 ts q c0) as Hcr.
  { split; [|by rewrite <-Hd1|unfold w2; simpl; by rewrite Hd1|done]. split; [by apply set_data_calm|]. apply cmrg_data_idle; [|rewrite Hd1; apply Hok].
    intros q2 c2 [t2 Ht2]. destruct (decide (q = q2)) as [<- |Hne]; [|by rewrite lookup_insert_ne].
    rewrite lookup_insert_eq, Hq. split; [intros [= <-]; done|done]. }
  cbv zeta. fold (cmrg_option request "monitor" "all"). fold (cmrg_option request "phase" "before"). fold (cmrg_option request "propagate" "false").
  set (monitor := parse_monitor _). set (phase := parse_phase _). set (propagate := parse_propagation _).
  destruct (creating_update _ w2 ts q c0 (set_mg_monitor monitor) Hcr eq_refl) as (w3 & E3 & Hcr3 & _). erewrite bind_eq by exact E3.
  destruct (Z.eqb_spec monitor CMRG_INVALID) as [|Hm]; [left; by eapply cmrg_reject_run|].
  destruct (Z.eqb_spec phase CMRG_INVALID) as [|Hph]; [left; by eapply cmrg_reject_run|].
  destruct (Z.eqb_spec propagate CMRG_INVALID) as [|Hpr]; [left; by eapply cmrg_reject_run|].
  destruct (cmrg_prepare_run _ w3 ts q request monitor phase propagate Hcr3 Ha) as [?|(t & w4 & E4 & Hok4 & Hcc)]; [by left|].
  right. exists q, t, w4. by split_and!.
Qed.
End Promise.
