(* ===== verification/CmrgSystem.v ===== *)
(** A plugin with commands that are offered to X-Plane ([Cmrg]): requests create
    and terminate them, the flight loop runs their tasks and removes dropped
    proxies, X-Plane invokes the handlers that it has, and the server destroys the
    commands that are done, in any order; meanwhile messages are sent. *)

From S2P Require Import Prelude CLib Utils Hashmap Channels Requests Lists Prealloc TaskSchedule Network Command Session Server ServerCommands Beside XPQueue XPCommands HeldSystem Cmrg.

(** * The system *)

Section System.
Context {C : Type} `{ConnectionLaws C}.
Context (XPLMFindCommand : list registry_call -> cstr -> Z) (XPLMCreateCommand_result : list registry_call -> cstr -> cstr -> Z).
Abbreviation W := (world C (ext cmrg_state)).
Implicit Types (w : W) (q p t : loc).

Inductive cmrg_action :=
  | CreateCommand (request : request_t) (config : command_config_t)
  | RunTask (task : loc) (phase : Z)
  | TerminateCommand (command_ref : loc)
  | DestroyCommand (command_ref : loc)
  | InvokeHandler (xp_ref : Z) (proxy : loc) (xp_phase : XPLMCommandPhase)
  | RemoveDropped.

(** What the rest of the plugin and X-Plane guarantee: requests come from the
    parser, the schedule runs the tasks of commands, a command is terminated while
    it has a channel and destroyed when it has none any more, and X-Plane invokes
    the handlers that it has. *)
Definition cmrg_enabled w (a : cmrg_action) : Prop :=
  match a with
  | CreateCommand request _ => addressable (req_channel_id request) = true
  | RunTask t _ => exists q c, ms_tasks (cmrg_data w) !! t = Some q /\ ms_commands (cmrg_data w) !! q = Some c /\ mg_task c = Some t
  | TerminateCommand q => exists c, ms_commands (cmrg_data w) !! q = Some c /\ addressable (mg_channel_id c) = true
  | DestroyCommand q => exists c, ms_commands (cmrg_data w) !! q = Some c /\ addressable (mg_channel_id c) = false
  | InvokeHandler ref p _ => exists hs ph, handlers (ms_calls (cmrg_data w)) = Some hs /\ (ref, ph, p) ∈ hs
  | RemoveDropped => True
  end.

Definition cmrg_perform (a : cmrg_action) : M W unit :=
  match a with
  | CreateCommand request config => _ ← cmrg_create request config; mret tt
  | RunTask t phase => cmrg_process XPLMFindCommand XPLMCreateCommand_result t phase
  | TerminateCommand q => _ ← cmrg_terminate (Some q); mret tt
  | DestroyCommand q => _ ← cmrg_destroy (Some q); mret tt
  | InvokeHandler ref p xp_phase => _ ← cmrg_invoke ref xp_phase (Some p); mret tt
  | RemoveDropped => _ ← in_registry unregister_dropped_xpcommands; mret tt
  end.

Inductive cmrg_step : W -> W -> Prop :=
  | cmrg_step_action w a w' : cmrg_enabled w a -> cmrg_perform a w = Some (tt, w') -> cmrg_step w w'
  | cmrg_step_quiet w w' : quiet w w' -> world_ok w' -> cmrg_step w w'.

(** Every command that has a channel is scheduled. *)
Record cmrg_inv w (ts : list loc) : Prop := mkCmrgInv {
  gi_ok : cmrg_ok w ts;
  gi_settled : forall q c, ms_commands (cmrg_data w) !! q = Some c -> addressable (mg_channel_id c) = true -> is_Some (mg_task c);
}.

Lemma cmrg_inv_update w w' ts ts' q c' : cmrg_inv w ts -> cmrg_ok w' ts' ->
  ms_commands (cmrg_data w') = <[q := c']> (ms_commands (cmrg_data w)) -> is_Some (mg_task c') \/ addressable (mg_channel_id c') = false ->
  cmrg_inv w' ts'.
Proof.
  intros [_ Hs] Hok Hcs Hc'. split; [done|]. intros q2 c2. rewrite Hcs, lookup_insert_Some. intros [[<- <-]|[_ Hc2]] Ha; [|by eapply Hs].
  destruct Hc' as [?|Hf]; [done|]. by rewrite Hf in Ha.
Qed.

Lemma cmrg_inv_same w w' ts ts' : cmrg_inv w ts -> cmrg_ok w' ts' -> ms_commands (cmrg_data w') = ms_commands (cmrg_data w) -> cmrg_inv w' ts'.
Proof. intros [_ Hs] Hok Hcs. split; [done|]. intros q c. rewrite Hcs. apply Hs. Qed.

(** Maintenance removes dropped proxies only. *)
Lemma remove_dropped_run w ts : cmrg_ok w ts ->
  exists err w', in_registry unregister_dropped_xpcommands w = Some (err, w') /\ cmrg_ok w' ts /\ ms_commands (cmrg_data w') = ms_commands (cmrg_data w).
Proof.
  intros Hok. pose proof Hok as [Hw Hd]. pose proof (registry_of_ok _ _ Hd) as Hr. destruct (registry_free w ts Hw Hd) as [Hfree Hl].
  destruct (unregister_dropped_run (registry_of w) Hr) as (err & r & E & Hr' & _ & Hpe & He & Hres).
  rewrite Hfree in Hres. change (ERROR_NONE =? ERROR_NONE) with true in Hres. destruct Hres as [Hm _]. simpl in Hm.
  destruct (in_registry_run _ w ts err r Hw E) as (E' & Hw' & Ed); [by rewrite He|]. exists err, (with_registry r w).
  split; [exact E'|]. split; [|by rewrite Ed]. apply cmrg_registry_ok; [done..|rewrite Hpe; apply Hd| |].
  - intros p x Hp Hdr. exists x. split; [|done]. rewrite Hm, Hp. simpl. destruct (removable x) eqn:Hrem; [|done]. unfold removable in Hrem.
    apply andb_prop in Hrem as [Hst _]. apply Z.eqb_eq in Hst. unfold droppable in Hdr. by rewrite Hst in Hdr.
  - intros p x Hp Hst. apply (gd_live _ _ Hd p x); [|done]. rewrite Hm in Hp. destruct (ms_proxies (cmrg_data w) !! p) as [x2|]; [|done].
    simpl in Hp. destruct (removable x2); [done|exact Hp].
Qed.

Lemma cmrg_perform_ok w ts a : cmrg_inv w ts -> cmrg_enabled w a -> exists w' ts', cmrg_perform a w = Some (tt, w') /\ cmrg_inv w' ts'.
Proof.
  intros Hi He. pose proof (gi_ok _ _ Hi) as Hok. destruct a as [request config|t phase|q|q|ref p xp_phase|]; simpl in *.
  - destruct (cmrg_create_run w ts request config Hok He) as [(err & w' & E & _ & Hok' & Hcs)|(q & t & w' & E & Hok' & _ & _ & _ & _ & _ & [_ (t' & p & Hcs & _)])].
    + erewrite bind_eq by exact E. eexists _, _. split; [done|]. by eapply cmrg_inv_same.
    + erewrite bind_eq by exact E. eexists _, _. split; [done|]. eapply cmrg_inv_update; [done..|]. left. by eexists.
  - destruct He as (q & c & Ht & Hc & Htask). destruct (cmrg_process_run XPLMFindCommand XPLMCreateCommand_result w ts q c t phase Hok Hc Htask) as (w' & ts' & E & Hok' & c' & Hcs & Hc').
    eexists _, _. split; [done|]. by eapply cmrg_inv_update.
  - destruct He as (c & Hc & Ha). destruct (gi_settled _ _ Hi q c Hc Ha) as [t Ht].
    destruct (cmrg_terminate_run w ts q c t Hok Hc Ht) as (ts1 & ts2 & w' & _ & E & Hok' & Hd). erewrite bind_eq by exact E.
    eexists _, _. split; [done|]. eapply cmrg_inv_update; [done..|by rewrite Hd|]. by right.
  - destruct He as (c & Hc & Ha). erewrite (bind_eq _ _ _ ERROR_NONE) by reflexivity. eexists _, ts. split; [done|].
    assert (mg_task c = None) as Ht.
    { destruct (mg_task c) as [t|] eqn:Ht; [|done]. destruct (gd_task _ _ (proj2 Hok) q c t Hc Ht) as (_ & _ & Ha'). by rewrite Ha in Ha'. }
    split; [split; [by apply set_data_calm, Hok|]|].
    + apply cmrg_data_idle; [|apply Hok]. intros q2 c2 [t2 Ht2]. rewrite lookup_delete_Some. split; [by intros [_ ?]|]. intros Hc2. split; [|done].
      intros <-. congruence.
    + intros q2 c2. simpl. rewrite lookup_delete_Some. intros [_ ?]. by eapply gi_settled.
  - destruct He as (hs & ph & Hhs & Hin). destruct (cmrg_invoke_run w ts hs ref ph p xp_phase Hok Hhs Hin) as (pr & w' & E & Hok' & _ & [Hcs|(q & c & c' & _ & Hcs & Ht)] & _);
      (erewrite bind_eq by exact E; eexists _, _; split; [done|]).
    + by eapply cmrg_inv_same.
    + eapply cmrg_inv_update; [done..|by left].
  - destruct (remove_dropped_run w ts Hok) as (err & w' & E & Hok' & Hcs). erewrite bind_eq by exact E. eexists _, _. split; [done|]. by eapply cmrg_inv_same.
Qed.

Lemma cmrg_steps_inv w w' ts : rtc cmrg_step w w' -> cmrg_inv w ts -> exists ts', cmrg_inv w' ts'.
Proof.
  intros Hs. revert ts. induction Hs as [w|w1 w2 w3 H1 _ IH]; intros ts Hi; [by eexists|].
  destruct H1 as [w a w2 He E|w w2 Hq Hw].
  - destruct (cmrg_perform_ok w ts a Hi He) as (w4 & ts' & E' & Hi'). rewrite E in E'. injection E' as <-. by eapply IH.
  - destruct (calm_quiet w w2 ts Hq Hw (proj1 (gi_ok _ _ Hi))) as [Hc Hd]. apply (IH ts).
    eapply cmrg_inv_same; [exact Hi| |by rewrite Hd]. split; [done|]. rewrite Hd. apply (gi_ok _ _ Hi).
Qed.

(** The plugin after its start: no command and no proxy. *)
Record cmrg_started w : Prop := mkCmrgStarted {
  gs_world : calm_world w [];
  gs_registry : registry_ok (registry_in (cmrg_data w));
  gs_pending : xr_destruction_pending (ms_registry (cmrg_data w)) = false;
  gs_empty : ms_commands (cmrg_data w) = ∅ /\ ms_proxies (cmrg_data w) = ∅;
}.

Lemma cmrg_started_inv w : cmrg_started w -> cmrg_inv w [].
Proof.
  intros [Hw Hr Hp [Hc Hpr]]. split; [split; [done|]|by intros q c; rewrite Hc, lookup_empty].
  split; rewrite ?Hc, ?Hpr; try done; intros q c; by rewrite lookup_empty.
Qed.

(** C18: Invocations reach live commands only. In every state that a plugin with
    such commands can reach, whatever requests, flight loops, invocations,
    terminations, failures of allocations and lost connections there were, as long
    as locks do not fail: each operation runs without undefined behaviour, every
    termination succeeds, and every handler that X-Plane has belongs to a proxy
    that exists; if that is registered, its callback gets the object of a command
    that was not destroyed, has a channel and owns the proxy. *)
Theorem invocations_reach_live_commands w0 w :
  cmrg_started w0 -> rtc cmrg_step w0 w ->
  (forall a, cmrg_enabled w a -> exists w', cmrg_perform a w = Some (tt, w')) /\
  (forall q, cmrg_enabled w (TerminateCommand q) -> exists w', cmrg_terminate (Some q) w = Some (ERROR_NONE, w')) /\
  exists hs, handlers (ms_calls (cmrg_data w)) = Some hs /\
    forall ref ph p, (ref, ph, p) ∈ hs -> exists x, ms_proxies (cmrg_data w) !! p = Some x /\
      (xpc_state x = XPCOMMAND_STATE_REGISTERED -> exists q c, xpc_callback_ref x = Some q /\ ms_commands (cmrg_data w) !! q = Some c /\
        addressable (mg_channel_id c) = true /\ mg_xpcmd c = Some p).
Proof.
  intros H0' Hs. destruct (cmrg_steps_inv _ _ _ Hs (cmrg_started_inv _ H0')) as (ts & Hi). pose proof (gi_ok _ _ Hi) as [Hw Hd]. split; [|split].
  - intros a He. destruct (cmrg_perform_ok w ts a Hi He) as (w' & _ & E & _). by exists w'.
  - intros q (c & Hc & Ha). destruct (gi_settled _ _ Hi q c Hc Ha) as [t Ht].
    destruct (cmrg_terminate_run w ts q c t (conj Hw Hd) Hc Ht) as (ts1 & ts2 & w' & _ & E & _). by exists w'.
  - destruct (ro_handlers _ (gd_registry _ _ Hd)) as (hs & E & Hhs). exists hs. split; [exact E|]. intros ref ph p (x & Hp & _ & _ & _)%Hhs.
    exists x. split; [exact Hp|]. intros Hst. destruct (gd_live _ _ Hd p x Hp Hst) as (q & c & ? & Hc & [t Ht] & ?). exists q, c.
    destruct (gd_task _ _ Hd q c t Hc Ht) as (_ & _ & ?). done.
Qed.




End System.

(** * A plugin *)

(** It has just started; X-Plane knows no command, and creates all. *)
Abbreviation demo_cmrg_world := (world network_connection_t (ext cmrg_state)).
Definition demo_cmrg_started : demo_cmrg_world := demo_with (mkCmrgState (mkRegistry false 0 empty_list) ∅ ∅ [] ∅ ∅).

Lemma demo_cmrg_started_ok : cmrg_started demo_cmrg_started.
Proof.
  destruct (demo_with_ok (mkCmrgState (mkRegistry false 0 empty_list) ∅ ∅ [] ∅ ∅)) as [Hw Hs]. split; [|exact demo_registry_ok|done|done].
  split; [exact Hw|by exists [], []|constructor|done].
Qed.

Definition demo_offer : request_t :=
  mkRequest demo_channel (lit "CMRG") [mkOption (lit "monitor") (lit "holdRelease"); mkOption (lit "propagate") (lit "true")] [lit "demo/a"; lit "A command"].
Definition demo_offer_config : command_config_t := mkConfig CMRG_COMMAND_VERSION (mkMap ∅).

Definition cmrg_scenario (actions : list cmrg_action) (w : demo_cmrg_world) : demo_cmrg_world :=
  foldl (fun w a => after (cmrg_perform no_command any_command a) w) w actions.

(** [cmrg_enabled], for all but destructions. *)
Definition cmrg_enabled_now (w : demo_cmrg_world) (a : cmrg_action) : bool :=
  match a with
  | CreateCommand request _ => addressable (req_channel_id request)
  | RunTask t _ =>
      match ms_tasks (cmrg_data w) !! t with
      | Some q => match ms_commands (cmrg_data w) !! q with Some c => bool_decide (mg_task c = Some t) | None => false end
      | None => false
      end
  | TerminateCommand q => match ms_commands (cmrg_data w) !! q with Some c => addressable (mg_channel_id c) | None => false end
  | DestroyCommand _ => false
  | InvokeHandler ref p _ =>
      match handlers (ms_calls (cmrg_data w)) with
      | Some hs => bool_decide ((ref, XPCOMMAND_PHASE_BEFORE, p) ∈ hs)
      | None => false
      end
  | RemoveDropped => true
  end.

Lemma cmrg_enabled_now_sound w a : cmrg_enabled_now w a = true -> cmrg_enabled w a.
Proof.
  destruct a as [request config|t phase|q|q|ref p xp_phase|]; simpl; try done.
  - destruct (_ !! t) as [q|] eqn:Ht; [|done]. destruct (_ !! q) as [c|] eqn:Hc; [|done]. intros ?%bool_decide_eq_true. by exists q, c.
  - destruct (_ !! q) as [c|] eqn:Hc; [|done]. by exists c.
  - destruct (handlers _) as [hs|] eqn:Hhs; [|done]. intros ?%bool_decide_eq_true. by exists hs, XPCOMMAND_PHASE_BEFORE.
Qed.

Fixpoint cmrg_all_enabled (actions : list cmrg_action) (w : demo_cmrg_world) : bool :=
  match actions with
  | [] => true
  | a :: actions' => cmrg_enabled_now w a && cmrg_all_enabled actions' (cmrg_scenario [a] w)
  end.

Lemma cmrg_scenario_steps actions : forall w ts, cmrg_inv w ts -> cmrg_all_enabled actions w = true ->
  rtc (cmrg_step no_command any_command) w (cmrg_scenario actions w).
Proof.
  induction actions as [|a actions IH]; intros w ts Hi; [constructor|]. cbn [cmrg_all_enabled]. intros [He Hes]%andb_prop.
  apply cmrg_enabled_now_sound in He. destruct (cmrg_perform_ok no_command any_command w ts a Hi He) as (w' & ts' & E & Hi').
  assert (cmrg_scenario [a] w = w') as Ea by (unfold cmrg_scenario, after; simpl; by rewrite E). rewrite Ea in Hes.
  apply rtc_l with w'; [by apply (cmrg_step_action no_command any_command w a)|].
  change (cmrg_scenario (a :: actions) w) with (cmrg_scenario actions (cmrg_scenario [a] w)). rewrite Ea. by apply (IH w' ts').
Qed.

Lemma demo_cmrg_steps actions : cmrg_all_enabled actions demo_cmrg_started = true ->
  rtc (cmrg_step no_command any_command) demo_cmrg_started (cmrg_scenario actions demo_cmrg_started).
Proof. intros He. exact (cmrg_scenario_steps actions demo_cmrg_started [] (cmrg_started_inv _ demo_cmrg_started_ok) He). Qed.

Definition demo_offering : list cmrg_action := [CreateCommand demo_offer demo_offer_config; RunTask 1%positive CMRG_TASK_PHASE].
Definition demo_offered : demo_cmrg_world := cmrg_scenario demo_offering demo_cmrg_started.

Lemma demo_offered_steps : rtc (cmrg_step no_command any_command) demo_cmrg_started demo_offered.
Proof. apply demo_cmrg_steps. vm_compute. reflexivity. Qed.

Example demo_offered_calls : ms_calls (cmrg_data demo_offered) =
  [XPLMCreateCommand (lit "demo/a") (lit "A command"); XPLMRegisterCommandHandler 1 XPCOMMAND_PHASE_BEFORE 1%positive].
Proof. vm_compute. reflexivity. Qed.

Lemma demo_offered_handlers : handlers (ms_calls (cmrg_data demo_offered)) = Some {[(1, XPCOMMAND_PHASE_BEFORE, 1%positive)]}.
Proof. rewrite demo_offered_calls. vm_compute. reflexivity. Qed.

Lemma invocations_reach_live_commands_witness :
  exists hs, handlers (ms_calls (cmrg_data demo_offered)) = Some hs /\ (1, XPCOMMAND_PHASE_BEFORE, 1%positive) ∈ hs /\
    exists x, ms_proxies (cmrg_data demo_offered) !! 1%positive = Some x.
Proof.
  destruct (invocations_reach_live_commands no_command any_command demo_cmrg_started demo_offered demo_cmrg_started_ok demo_offered_steps)
    as (_ & _ & hs & E & Hhs).
  assert ((1, XPCOMMAND_PHASE_BEFORE, 1%positive) ∈ hs) as Hin.
  { rewrite demo_offered_handlers in E. injection E as <-. by apply elem_of_singleton. }
  exists hs. split; [exact E|]. split; [exact Hin|]. destruct (Hhs _ _ _ Hin) as (x & Hx & _). by exists x.
Defined.



(** Why locks must not fail: if the schedule cannot be locked after the
    proxy was dropped, the command still refers to the proxy; maintenance frees
    it, and the next attempt to terminate the command uses freed memory. *)
Theorem failed_termination_dangles :
  let w := with_env (mkEnv [] [true; true; true; false] (replicate 4 (Some demo_time))) demo_offered in
  let w1 := after (cmrg_terminate (Some 1%positive)) w in
  let w2 := after (in_registry unregister_dropped_xpcommands) w1 in
  fst <$> cmrg_terminate (Some 1%positive) w = Some ERROR_MUTEX_FAILED /\
  fst <$> in_registry unregister_dropped_xpcommands w1 = Some ERROR_NONE /\
  mg_xpcmd <$> ms_commands (cmrg_data w2) !! 1%positive = Some (Some 1%positive) /\ ms_proxies (cmrg_data w2) !! 1%positive = None /\
  cmrg_terminate (Some 1%positive) w2 = None.
Proof. repeat split; vm_compute; reflexivity. Qed.
