(* ===== verification/Dataproxy.v ===== *)
(** Datarefs that the plugin hosts ([dataproxy.c], [dataproxy.h]): a registry of
    proxies by dataref name, each of which is reserved by a session, registered to
    X-Plane, and forwards reads and writes to the operations of its owner.

    A proxy is reached through its address; the registry's hash map holds the
    addresses. X-Plane is seen through the calls that it gets ([ds_calls], oldest
    first); the dataref it returns for a new accessor may depend on them. [F] are
    the functions that may be operations. [dr_lock] counts how often the running
    thread holds the (recursive) mutex. Sessions and the references of operations
    are addresses. *)

From S2P Require Import Prelude CLib Utils Hashmap Lists Prealloc Protocol.

Definition NO_XP_DATAREF : Z := 0.

Definition DATAPROXY_ERROR_INVALID_STATE : error_t := DATAPROXY_ERROR_BASE + 0.
Definition DATAPROXY_ERROR_PERMISSION_DENIED : error_t := DATAPROXY_ERROR_BASE + 1.
Definition DATAPROXY_ERROR_REGISTRATION_FAILED : error_t := DATAPROXY_ERROR_BASE + 2.
Definition DATAPROXY_ERROR_UNSUPPORTED_TYPE : error_t := DATAPROXY_ERROR_BASE + 4.

Definition DATAPROXY_STATE_INACTIVE : Z := 0.
Definition DATAPROXY_STATE_RESERVED : Z := 1.
Definition DATAPROXY_STATE_REGISTERED : Z := 2.
Definition DATAPROXY_STATE_DROPPED : Z := 3.

Definition DATAPROXY_PERMISSION_SESSION : Z := 0.
Definition DATAPROXY_PERMISSION_XPRC : Z := 1.
Definition DATAPROXY_PERMISSION_ALL : Z := 2.

(** The arguments that differ between calls, and what a registration returned:
    the accessor functions are always those below, and both references are the
    proxy. *)
Inductive accessor_call :=
  | XPLMRegisterDataAccessor (inDataName : cstr) (inDataType inIsWritable : Z) (inRefcon : loc) (result : Z)
  | XPLMUnregisterDataAccessor (inDataRef : Z).

Record dataproxy_registry_t := mkDpRegistry {
  dr_destruction_pending : bool;
  dr_lock : Z;
  dr_by_dataref_name : hashmap_t loc;
}.

Record dataproxy_operations_t (F : Type) := mkOperations {
  op_simple_get : option F;
  op_simple_set : option F;
  op_array_get : option F;
  op_array_length : option F;
  op_array_update : option F;
}.
Arguments mkOperations {F}.
Arguments op_simple_get {F}.
Arguments op_simple_set {F}.
Arguments op_array_get {F}.
Arguments op_array_length {F}.
Arguments op_array_update {F}.

Record dataproxy_t (F : Type) := mkDataproxy {
  dp_state : Z;
  dp_dataref_name : option cstr;
  dp_xp_dataref : Z;
  dp_types : Z;
  dp_write_permission : Z;
  dp_owner_session : option loc;
  dp_operations : dataproxy_operations_t F;
  dp_operations_ref : option loc;
}.
Arguments mkDataproxy {F}.
Arguments dp_state {F}.
Arguments dp_dataref_name {F}.
Arguments dp_xp_dataref {F}.
Arguments dp_types {F}.
Arguments dp_write_permission {F}.
Arguments dp_owner_session {F}.
Arguments dp_operations {F}.
Arguments dp_operations_ref {F}.

(** The registry, the proxies, the items of preallocated lists of proxies, the
    calls X-Plane got and the environment. *)
Record datarefs (F : Type) := mkDatarefs {
  ds_registry : dataproxy_registry_t;
  ds_proxies : gmap loc (dataproxy_t F);
  ds_items : gmap loc (prealloc_list_item_t loc unit);
  ds_calls : list accessor_call;
  ds_env : env;
}.
Arguments mkDatarefs {F}.
Arguments ds_registry {F}.
Arguments ds_proxies {F}.
Arguments ds_items {F}.
Arguments ds_calls {F}.
Arguments ds_env {F}.

Definition set_dr_pending (r : dataproxy_registry_t) : dataproxy_registry_t := mkDpRegistry true (dr_lock r) (dr_by_dataref_name r).
Definition set_dr_lock (n : Z) (r : dataproxy_registry_t) : dataproxy_registry_t := mkDpRegistry (dr_destruction_pending r) n (dr_by_dataref_name r).
Definition set_dr_map (m : hashmap_t loc) (r : dataproxy_registry_t) : dataproxy_registry_t := mkDpRegistry (dr_destruction_pending r) (dr_lock r) m.

(** Returns the error and the new registry; [mtx_init] may fail as [mtx_lock]. *)
Definition create_dataproxy_registry : M env (error_t * option dataproxy_registry_t) :=
  ok ← zmalloc 56;
  if negb ok then mret (ERROR_MEMORY_ALLOCATION, None)
  else
    ok ← mtx_lock_result;
    if negb ok then mret (ERROR_UNSPECIFIC, None)
    else
      map ← create_hashmap;
      match map with
      | None => mret (ERROR_MEMORY_ALLOCATION, None)
      | Some map => mret (ERROR_NONE, Some (mkDpRegistry false 0 map))
      end.

Section Datarefs.
Context {F : Type}.
Abbreviation R := (datarefs F).
Abbreviation proxy_t := (dataproxy_t F).
Implicit Types (s : R) (x : proxy_t) (p : loc).

Definition no_operations : dataproxy_operations_t F := mkOperations None None None None None.

Definition set_dp_state (state : Z) x : proxy_t :=
  mkDataproxy state (dp_dataref_name x) (dp_xp_dataref x) (dp_types x) (dp_write_permission x) (dp_owner_session x) (dp_operations x) (dp_operations_ref x).
Definition set_dp_dataref_name (name : option cstr) x : proxy_t :=
  mkDataproxy (dp_state x) name (dp_xp_dataref x) (dp_types x) (dp_write_permission x) (dp_owner_session x) (dp_operations x) (dp_operations_ref x).
Definition set_dp_xp_dataref (xp_dataref : Z) x : proxy_t :=
  mkDataproxy (dp_state x) (dp_dataref_name x) xp_dataref (dp_types x) (dp_write_permission x) (dp_owner_session x) (dp_operations x) (dp_operations_ref x).

Definition set_ds_registry (r : dataproxy_registry_t) s : R := mkDatarefs r (ds_proxies s) (ds_items s) (ds_calls s) (ds_env s).
Definition set_ds_proxies (m : gmap loc proxy_t) s : R := mkDatarefs (ds_registry s) m (ds_items s) (ds_calls s) (ds_env s).
Definition set_ds_calls (calls : list accessor_call) s : R := mkDatarefs (ds_registry s) (ds_proxies s) (ds_items s) calls (ds_env s).
Definition set_ds_env (e : env) s : R := mkDatarefs (ds_registry s) (ds_proxies s) (ds_items s) (ds_calls s) e.

Definition ds_heap s : pheap loc unit := mkPHeap (ds_items s) [] (ds_env s).
Definition set_ds_heap (h : pheap loc unit) s : R := mkDatarefs (ds_registry s) (ds_proxies s) (ph_items h) (ds_calls s) (ph_env h).

Definition on_ds_list {A} (m : M (pheap loc unit) A) : M R A := zoom ds_heap set_ds_heap m.
Definition ds_on_env {A} (m : M env A) : M R A := zoom ds_env set_ds_env m.
Definition dp_registry : M R dataproxy_registry_t := gets ds_registry.
Definition update_dp_registry (f : dataproxy_registry_t -> dataproxy_registry_t) : M R unit :=
  modify (fun s => set_ds_registry (f (ds_registry s)) s).
Definition load_dataproxy p : M R proxy_t := s ← get; from_ub (ds_proxies s !! p).
Definition update_dataproxy p (f : proxy_t -> proxy_t) : M R unit :=
  x ← load_dataproxy p; modify (fun s => set_ds_proxies (<[p := f x]> (ds_proxies s)) s).
Definition free_dataproxy p : M R unit := modify (fun s => set_ds_proxies (delete p (ds_proxies s)) s).
Definition call_accessors (c : accessor_call) : M R unit := modify (fun s => set_ds_calls (ds_calls s ++ [c]) s).

Definition unlock_dataproxy_registry : M R unit := update_dp_registry (fun r => set_dr_lock (dr_lock r - 1) r).

Definition lock_dataproxy_registry : M R error_t :=
  r ← dp_registry;
  if dr_destruction_pending r then mret ERROR_DESTRUCTION_PENDING
  else
    ok ← ds_on_env mtx_lock_result;
    if negb ok then mret ERROR_MUTEX_FAILED
    else
      _ ← update_dp_registry (fun r => set_dr_lock (dr_lock r + 1) r);
      r ← dp_registry;
      if dr_destruction_pending r then _ ← unlock_dataproxy_registry; mret ERROR_DESTRUCTION_PENDING else mret ERROR_NONE.

(** Both read [proxy->registry], so that the proxy must exist. *)
Definition lock_dataproxy (proxy : option loc) : M R error_t :=
  match proxy with
  | None => mret ERROR_UNSPECIFIC
  | Some p => _ ← load_dataproxy p; lock_dataproxy_registry
  end.
Definition unlock_dataproxy (proxy : option loc) : M R unit :=
  match proxy with
  | None => mret tt
  | Some p => _ ← load_dataproxy p; unlock_dataproxy_registry
  end.

(** * Destruction *)

(** An active proxy is left alone. *)
Definition destroy_dataproxy p : M R unit :=
  x ← load_dataproxy p;
  if negb (dp_state x =? DATAPROXY_STATE_INACTIVE) then mret tt else free_dataproxy p.

Definition destroy_dataproxy_hashmap_value (key : cstr) (proxy : option loc) : M R unit :=
  p ← from_ub proxy; destroy_dataproxy p.

(** The registry must not be used any more if this returns [ERROR_NONE]. *)
Definition destroy_dataproxy_registry : M R error_t :=
  r ← dp_registry;
  if dr_destruction_pending r then mret ERROR_DESTRUCTION_PENDING
  else
    ok ← ds_on_env mtx_lock_result;
    if negb ok then mret ERROR_MUTEX_FAILED
    else
      _ ← update_dp_registry (fun r => set_dr_lock (dr_lock r + 1) r);
      r ← dp_registry;
      if dr_destruction_pending r then _ ← unlock_dataproxy_registry; mret ERROR_DESTRUCTION_PENDING
      else
        _ ← update_dp_registry set_dr_pending;
        _ ← unlock_dataproxy_registry;
        ok ← ds_on_env mtx_lock_result;
        if negb ok then mret ERROR_MUTEX_FAILED
        else
          r ← dp_registry;
          _ ← destroy_hashmap (dr_by_dataref_name r) destroy_dataproxy_hashmap_value;
          mret ERROR_NONE.

(** * Reservation *)

(** State, registry and name are kept. *)
Definition clear_dataproxy x : proxy_t :=
  mkDataproxy (dp_state x) (dp_dataref_name x) NO_XP_DATAREF xplmType_Unknown DATAPROXY_PERMISSION_SESSION None no_operations None.

Definition new_dataproxy x : M R loc :=
  s ← get;
  let p := fresh (dom (ds_proxies s)) in
  _ ← modify (fun s => set_ds_proxies (<[p := x]> (ds_proxies s)) s);
  mret p.

Definition create_dataproxy (dataref_name : cstr) : M R (option loc) :=
  ok ← ds_on_env (zmalloc 96);
  if negb ok then mret None
  else
    p ← new_dataproxy (mkDataproxy DATAPROXY_STATE_INACTIVE None NO_XP_DATAREF xplmType_Unknown DATAPROXY_PERMISSION_SESSION None no_operations None);
    _ ← update_dataproxy p clear_dataproxy;
    copy ← ds_on_env (copy_string (Some dataref_name));
    _ ← update_dataproxy p (set_dp_dataref_name copy);
    match copy with
    | None => _ ← free_dataproxy p; mret None
    | Some _ => _ ← update_dataproxy p (set_dp_state DATAPROXY_STATE_INACTIVE); mret (Some p)
    end.

Definition is_valid_write_permission (write_permission : Z) : bool :=
  (write_permission =? DATAPROXY_PERMISSION_SESSION) || (write_permission =? DATAPROXY_PERMISSION_XPRC) ||
  (write_permission =? DATAPROXY_PERMISSION_ALL).

Definition given {A} (o : option A) : bool := match o with Some _ => true | None => false end.

Definition has_all_operations (operations : dataproxy_operations_t F) : bool :=
  given (op_simple_get operations) && given (op_simple_set operations) && given (op_array_get operations) &&
  given (op_array_length operations) && given (op_array_update operations).

Section XPlane.
Context `{DataTypes} (XPLMRegisterDataAccessor_result : list accessor_call -> cstr -> Z -> Z).

Definition mask_all_types : Z :=
  Z.lor (Z.lor (Z.lor (Z.lor (Z.lor xplmType_Int xplmType_Float) xplmType_Double) xplmType_FloatArray) xplmType_IntArray) xplmType_Data.

Definition is_valid_combined_type (types : Z) : bool := Z.land types (Z.lnot mask_all_types) =? 0.

(** * Registration *)

(** The operations of owners lock the proxy, do something that depends on its
    state, and unlock it. *)
Definition with_dataproxy (proxy : option loc) (body : loc -> proxy_t -> M R error_t) : M R error_t :=
  err ← lock_dataproxy proxy;
  if negb (err =? ERROR_NONE) then mret err
  else
    p ← from_ub proxy;
    x ← load_dataproxy p;
    out_err ← body p x;
    _ ← unlock_dataproxy proxy;
    mret out_err.

Definition register_dataproxy (proxy : option loc) : M R error_t :=
  with_dataproxy proxy (fun p x =>
    if negb (dp_state x =? DATAPROXY_STATE_RESERVED) then mret DATAPROXY_ERROR_INVALID_STATE
    else
      name ← from_ub (dp_dataref_name x);
      s ← get;
      let xp_dataref := XPLMRegisterDataAccessor_result (ds_calls s) name (dp_types x) in
      _ ← call_accessors (XPLMRegisterDataAccessor name (dp_types x) (if dp_write_permission x =? DATAPROXY_PERMISSION_ALL then 1 else 0) p xp_dataref);
      _ ← update_dataproxy p (set_dp_xp_dataref xp_dataref);
      if xp_dataref =? NO_XP_DATAREF then mret DATAPROXY_ERROR_REGISTRATION_FAILED
      else _ ← update_dataproxy p (set_dp_state DATAPROXY_STATE_REGISTERED); mret ERROR_NONE).

Definition unregister_dataproxy (proxy : option loc) : M R error_t :=
  with_dataproxy proxy (fun p x =>
    if dp_state x =? DATAPROXY_STATE_REGISTERED then
      _ ← call_accessors (XPLMUnregisterDataAccessor (dp_xp_dataref x));
      _ ← update_dataproxy p (fun x => set_dp_xp_dataref NO_XP_DATAREF (set_dp_state DATAPROXY_STATE_RESERVED x));
      mret ERROR_NONE
    else if dp_state x =? DATAPROXY_STATE_DROPPED then
      _ ← call_accessors (XPLMUnregisterDataAccessor (dp_xp_dataref x));
      _ ← update_dataproxy p (fun x => clear_dataproxy (set_dp_state DATAPROXY_STATE_INACTIVE x));
      mret ERROR_NONE
    else mret DATAPROXY_ERROR_INVALID_STATE).

Definition drop_dataproxy (proxy : option loc) : M R error_t :=
  with_dataproxy proxy (fun p x =>
    if negb (dp_state x =? DATAPROXY_STATE_REGISTERED) then mret DATAPROXY_ERROR_INVALID_STATE
    else
      _ ← update_dataproxy p (fun x =>
            mkDataproxy DATAPROXY_STATE_DROPPED (dp_dataref_name x) (dp_xp_dataref x) (dp_types x) (dp_write_permission x) None no_operations None);
      mret ERROR_NONE).

Definition release_dataproxy (proxy : option loc) : M R error_t :=
  with_dataproxy proxy (fun p x =>
    if negb (dp_state x =? DATAPROXY_STATE_RESERVED) then mret DATAPROXY_ERROR_INVALID_STATE
    else
      _ ← update_dataproxy p (fun x => clear_dataproxy (set_dp_state DATAPROXY_STATE_INACTIVE x));
      mret ERROR_NONE).

(** * Reservation *)

(** The proxy of a name, which is created if there is none yet. *)
Definition proxy_for (dataref_name : cstr) : M R (option loc) :=
  r ← dp_registry;
  match hashmap_get (dr_by_dataref_name r) dataref_name with
  | Some p => mret (Some p)
  | None =>
      proxy ← create_dataproxy dataref_name;
      match proxy with
      | None => _ ← unlock_dataproxy_registry; mret None
      | Some p =>
          '(ok, _, map) ← ds_on_env (hashmap_put (dr_by_dataref_name r) dataref_name (Some p) None);
          _ ← update_dp_registry (set_dr_map map);
          if negb ok then _ ← unlock_dataproxy_registry; _ ← destroy_dataproxy p; mret None
          else mret (Some p)
      end
  end.

(** The proxy is reserved if it is inactive. *)
Definition reserve_inactive p (types write_permission : Z) (operations_ref session : option loc) (operations : dataproxy_operations_t F) :
    M R (option loc) :=
  x ← load_dataproxy p;
  if negb (dp_state x =? DATAPROXY_STATE_INACTIVE) then _ ← unlock_dataproxy_registry; mret None
  else
    _ ← update_dataproxy p (fun x =>
          mkDataproxy DATAPROXY_STATE_RESERVED (dp_dataref_name x) (dp_xp_dataref x) types write_permission session operations operations_ref);
    _ ← unlock_dataproxy_registry;
    mret (Some p).

Definition reserve_dataproxy (dataref_name : option cstr) (types write_permission : Z) (operations_ref session : option loc)
    (operations : dataproxy_operations_t F) : M R (option loc) :=
  match dataref_name, session with
  | Some dataref_name, Some _ =>
      if negb (is_valid_combined_type types && is_valid_write_permission write_permission && has_all_operations operations) then mret None
      else
        err ← lock_dataproxy_registry;
        if negb (err =? ERROR_NONE) then mret None
        else
          proxy ← proxy_for dataref_name;
          match proxy with
          | None => mret None
          | Some p =>
              x ← load_dataproxy p;
              err ← (if dp_state x =? DATAPROXY_STATE_DROPPED then unregister_dataproxy (Some p) else mret ERROR_NONE);
              if negb (err =? ERROR_NONE) then _ ← unlock_dataproxy_registry; mret None
              else reserve_inactive p types write_permission operations_ref session operations
          end
  | _, _ => mret None
  end.

(** * Lookup *)

Definition find_registered_dataproxy (dataref_name : option cstr) : M R (option loc) :=
  match dataref_name with
  | None => mret None
  | Some dataref_name =>
      err ← lock_dataproxy_registry;
      if negb (err =? ERROR_NONE) then mret None
      else
        r ← dp_registry;
        proxy ← match hashmap_get (dr_by_dataref_name r) dataref_name with
                | None => mret None
                | Some p => x ← load_dataproxy p; mret (if dp_state x =? DATAPROXY_STATE_REGISTERED then Some p else None)
                end;
        _ ← unlock_dataproxy_registry;
        mret proxy
  end.

(** The loops over the hash map; [None] if memory is exhausted. *)
Fixpoint append_with_state (wanted_state : Z) (items : list (hashmap_item_t loc)) (out : prealloc_list_t) : M R (option prealloc_list_t) :=
  match items with
  | [] => mret (Some out)
  | item :: items' =>
      match value item with
      | None => append_with_state wanted_state items' out
      | Some p =>
          x ← load_dataproxy p;
          if dp_state x =? wanted_state then
            '(ok, out) ← on_ds_list (prealloc_list_append out (Some p));
            if ok : bool then append_with_state wanted_state items' out
            else _ ← on_ds_list (destroy_preallocated_list out None PREALLOC_LIST_OVERRIDE_DEFERRED_DESTRUCTORS); mret None
          else append_with_state wanted_state items' out
      end
  end.

Definition list_dataproxies_with_state (wanted_state : Z) : M R (option prealloc_list_t) :=
  out ← on_ds_list create_preallocated_list;
  match out with
  | None => mret None
  | Some out =>
      err ← lock_dataproxy_registry;
      if negb (err =? ERROR_NONE) then
        _ ← on_ds_list (destroy_preallocated_list out None PREALLOC_LIST_OVERRIDE_DEFERRED_DESTRUCTORS);
        mret None
      else
        r ← dp_registry;
        out ← append_with_state wanted_state (all_items (dr_by_dataref_name r)) out;
        _ ← unlock_dataproxy_registry;
        mret out
  end.

(** The loop over the list from [item] on; [fuel] bounds the items visited. *)
Fixpoint unregister_dropped_loop (fuel : nat) (item : option loc) (out_err : error_t) : M R error_t :=
  match item with
  | None => mret out_err
  | Some i =>
      match fuel with
      | O => ub
      | S fuel' =>
          it ← on_ds_list (p_load i);
          out_err ← match p_value it with
                    | None => mret out_err
                    | Some p =>
                        x ← load_dataproxy p;
                        if dp_state x =? DATAPROXY_STATE_DROPPED then
                          err ← unregister_dataproxy (Some p);
                          mret (if negb (err =? ERROR_NONE) then ERROR_UNSPECIFIC else out_err)
                        else mret out_err
                    end;
          it ← on_ds_list (p_load i);
          unregister_dropped_loop fuel' (p_next it) out_err
      end
  end.

(** The list is never freed. *)
Definition unregister_dropped_dataproxies : M R error_t :=
  err ← lock_dataproxy_registry;
  if negb (err =? ERROR_NONE) then mret err
  else
    list ← list_dataproxies_with_state DATAPROXY_STATE_DROPPED;
    match list with
    | None => _ ← unlock_dataproxy_registry; mret ERROR_MEMORY_ALLOCATION
    | Some list =>
        out_err ← unregister_dropped_loop (Z.to_nat (p_size list)) (p_first list) ERROR_NONE;
        _ ← unlock_dataproxy_registry;
        mret out_err
    end.

(** What the getters leave in [*dest]: nothing unless the result is there. *)
Definition dataproxy_get_name (proxy : option loc) : M R (error_t * option (option cstr)) :=
  match proxy with
  | None => mret (ERROR_UNSPECIFIC, None)
  | Some p =>
      x ← load_dataproxy p;
      r ← dp_registry;
      mret (if dr_destruction_pending r then (ERROR_DESTRUCTION_PENDING, None) else (ERROR_NONE, Some (dp_dataref_name x)))
  end.

Definition dataproxy_get_types (proxy : option loc) : M R (error_t * option Z) :=
  match proxy with
  | None => mret (ERROR_UNSPECIFIC, None)
  | Some p =>
      err ← lock_dataproxy proxy;
      if negb (err =? ERROR_NONE) then mret (err, Some xplmType_Unknown)
      else
        x ← load_dataproxy p;
        let result := if negb (dp_state x =? DATAPROXY_STATE_REGISTERED) then (DATAPROXY_ERROR_INVALID_STATE, Some xplmType_Unknown)
                      else (ERROR_NONE, Some (dp_types x)) in
        _ ← unlock_dataproxy proxy;
        mret result
  end.

Definition dataproxy_can_write (proxy session : option loc) : M R bool :=
  err ← lock_dataproxy proxy;
  if negb (err =? ERROR_NONE) then mret false
  else
    p ← from_ub proxy;
    x ← load_dataproxy p;
    let out := if dp_state x =? DATAPROXY_STATE_REGISTERED then
                 (dp_write_permission x =? DATAPROXY_PERMISSION_ALL)
                 || (given session && ((dp_write_permission x =? DATAPROXY_PERMISSION_XPRC) || bool_decide (session = dp_owner_session x)))
               else false in
    _ ← unlock_dataproxy proxy;
    mret out.
End XPlane.
End Datarefs.

(** * Access *)

Section Access.
Context `{DataTypes} {F V W : Type}.
(** The state of the program, of which the registry is a part; the functions that
    operations stand for, on the values [V] that datarefs hold; and the values 0
    of the simple types. *)
Context (datarefs_of : W -> datarefs F) (with_datarefs : datarefs F -> W -> W).
Context (run_simple_get : F -> option loc -> Z -> V -> M W (error_t * V)).
Context (run_simple_set : F -> option loc -> Z -> V -> option loc -> M W error_t).
Context (run_array_get : F -> option loc -> Z -> list V -> Z -> Z -> Z -> M W (error_t * list V * Z)).
Context (run_array_length : F -> option loc -> Z -> Z -> M W (error_t * Z)).
Context (run_array_update : F -> option loc -> Z -> list V -> Z -> Z -> option loc -> M W error_t).
Context (zero : Z -> V).
Implicit Types (proxy session : option loc) (type : Z).

Definition on_datarefs {A} (m : M (datarefs F) A) : M W A := zoom datarefs_of with_datarefs m.

Definition is_simple_type type : bool := (type =? xplmType_Int) || (type =? xplmType_Float) || (type =? xplmType_Double).
Definition is_array_type type : bool := (type =? xplmType_IntArray) || (type =? xplmType_FloatArray) || (type =? xplmType_Data).
Definition offers_type (x : dataproxy_t F) type : bool := negb (Z.land (dp_types x) type =? 0).

(** [dest] is the buffer, if any, with what it holds; the result is what it holds
    afterwards. *)
Definition dataproxy_simple_get proxy type (dest : option V) : M W (error_t * option V) :=
  match dest with
  | None => mret (ERROR_UNSPECIFIC, dest)
  | Some v =>
      if negb (is_simple_type type) then mret (DATAPROXY_ERROR_UNSUPPORTED_TYPE, dest)
      else
        err ← on_datarefs (lock_dataproxy proxy);
        if negb (err =? ERROR_NONE) then mret (err, dest)
        else
          p ← from_ub proxy;
          x ← on_datarefs (load_dataproxy p);
          result ← (if negb (dp_state x =? DATAPROXY_STATE_REGISTERED) then mret (DATAPROXY_ERROR_INVALID_STATE, v)
                    else
                      match op_simple_get (dp_operations x), offers_type x type with
                      | Some f, true => run_simple_get f (dp_operations_ref x) type v
                      | _, _ => mret (DATAPROXY_ERROR_UNSUPPORTED_TYPE, v)
                      end);
          _ ← on_datarefs (unlock_dataproxy proxy);
          mret (fst result, Some (snd result))
  end.

(** The checks of a write: the error, or the setter and its reference. *)
Definition checked_setter proxy type (operation : dataproxy_operations_t F -> option F) session : M (datarefs F) (error_t + F * option loc) :=
  err ← lock_dataproxy proxy;
  if negb (err =? ERROR_NONE) then mret (inl err)
  else
    p ← from_ub proxy;
    x ← load_dataproxy p;
    result ← (if negb (dp_state x =? DATAPROXY_STATE_REGISTERED) then mret (inl DATAPROXY_ERROR_INVALID_STATE)
              else
                permitted ← dataproxy_can_write proxy session;
                if negb permitted then mret (inl DATAPROXY_ERROR_PERMISSION_DENIED)
                else
                  match operation (dp_operations x), offers_type x type with
                  | Some setter, true => mret (inr (setter, dp_operations_ref x))
                  | _, _ => mret (inl DATAPROXY_ERROR_UNSUPPORTED_TYPE)
                  end);
    _ ← unlock_dataproxy proxy;
    mret result.

(** The setter runs without the lock. *)
Definition dataproxy_simple_set proxy type (value : option V) session : M W error_t :=
  match value with
  | None => mret ERROR_UNSPECIFIC
  | Some v =>
      if negb (is_simple_type type) then mret DATAPROXY_ERROR_UNSUPPORTED_TYPE
      else
        checked ← on_datarefs (checked_setter proxy type op_simple_set session);
        match checked with
        | inl err => mret err
        | inr (setter, operations_ref) => run_simple_set setter operations_ref type v session
        end
  end.

(** A negative count becomes 0; the error of the operation is kept or replaced. *)
Definition clamp_count (err : error_t) (count : Z) : error_t * Z :=
  if count <? 0 then (if negb (err =? ERROR_NONE) then ERROR_UNSPECIFIC else err, 0) else (err, count).

(** Also what is left in the buffer and in [*num_copied]. *)
Definition dataproxy_array_get proxy type (dest : option (list V)) (num_copied : option Z) (offset count : Z) :
    M W (error_t * option (list V) * option Z) :=
  match dest, num_copied with
  | Some values, Some n =>
      if (offset <? 0) || (count <? 0) then mret (ERROR_UNSPECIFIC, dest, num_copied)
      else if negb (is_array_type type) then mret (DATAPROXY_ERROR_UNSUPPORTED_TYPE, dest, num_copied)
      else if count =? 0 then mret (ERROR_NONE, dest, num_copied)
      else
        err ← on_datarefs (lock_dataproxy proxy);
        if negb (err =? ERROR_NONE) then mret (err, dest, num_copied)
        else
          p ← from_ub proxy;
          x ← on_datarefs (load_dataproxy p);
          result ← (if negb (dp_state x =? DATAPROXY_STATE_REGISTERED) then mret (DATAPROXY_ERROR_INVALID_STATE, values, n)
                    else
                      match op_array_get (dp_operations x), offers_type x type with
                      | Some f, true =>
                          '(err, values, n) ← run_array_get f (dp_operations_ref x) type values n offset count;
                          let '(err, n) := clamp_count err n in
                          mret (err, values, n)
                      | _, _ => mret (DATAPROXY_ERROR_UNSUPPORTED_TYPE, values, n)
                      end);
          _ ← on_datarefs (unlock_dataproxy proxy);
          let '(err, values, n) := result in
          mret (err, Some values, Some n)
  | _, _ => mret (ERROR_UNSPECIFIC, dest, num_copied)
  end.

Definition dataproxy_array_length proxy type (length : option Z) : M W (error_t * option Z) :=
  match length with
  | None => mret (ERROR_UNSPECIFIC, None)
  | Some _ =>
      err ← on_datarefs (lock_dataproxy proxy);
      if negb (err =? ERROR_NONE) then mret (err, Some 0)
      else
        p ← from_ub proxy;
        x ← on_datarefs (load_dataproxy p);
        result ← (if negb (dp_state x =? DATAPROXY_STATE_REGISTERED) then mret (DATAPROXY_ERROR_INVALID_STATE, 0)
                  else
                    match op_array_length (dp_operations x), offers_type x type with
                    | Some f, true => '(err, out) ← run_array_length f (dp_operations_ref x) type 0; mret (clamp_count err out)
                    | _, _ => mret (DATAPROXY_ERROR_UNSUPPORTED_TYPE, 0)
                    end);
        _ ← on_datarefs (unlock_dataproxy proxy);
        mret (fst result, Some (snd result))
  end.

Definition dataproxy_array_update proxy type (values : option (list V)) (offset count : Z) session : M W error_t :=
  match values with
  | None => mret ERROR_UNSPECIFIC
  | Some values =>
      if (offset <? 0) || (count <? 0) then mret ERROR_UNSPECIFIC
      else if negb (is_array_type type) then mret DATAPROXY_ERROR_UNSUPPORTED_TYPE
      else if count =? 0 then mret ERROR_NONE
      else
        checked ← on_datarefs (checked_setter proxy type op_array_update session);
        match checked with
        | inl err => mret err
        | inr (setter, operations_ref) => run_array_update setter operations_ref type values offset count session
        end
  end.

(** ** The accessor functions that X-Plane calls *)

Definition dataproxy_xp_get_data (type : Z) (inRefcon : option loc) : M W V :=
  '(err, value) ← dataproxy_simple_get inRefcon type (Some (zero type));
  mret (if negb (err =? ERROR_NONE) then zero type else default (zero type) value).
Definition dataproxy_xp_set_data (type : Z) (inRefcon : option loc) (inValue : V) : M W unit :=
  _ ← dataproxy_simple_set inRefcon type (Some inValue) None; mret tt.

Definition dataproxy_xp_get_data_integer := dataproxy_xp_get_data xplmType_Int.
Definition dataproxy_xp_set_data_integer := dataproxy_xp_set_data xplmType_Int.
Definition dataproxy_xp_get_data_float := dataproxy_xp_get_data xplmType_Float.
Definition dataproxy_xp_set_data_float := dataproxy_xp_set_data xplmType_Float.
Definition dataproxy_xp_get_data_double := dataproxy_xp_get_data xplmType_Double.
Definition dataproxy_xp_set_data_double := dataproxy_xp_set_data xplmType_Double.

(** What is returned, and the buffer, if there is one. *)
Definition dataproxy_xp_get_data_array (inRefcon : option loc) (type : Z) (outValues : option (list V)) (inOffset inMax : Z) :
    M W (Z * option (list V)) :=
  '(err, outValues, out) ← match outValues with
                           | Some _ => dataproxy_array_get inRefcon type outValues (Some 0) inOffset inMax
                           | None => '(err, out) ← dataproxy_array_length inRefcon type (Some 0); mret (err, None, out)
                           end;
  mret (if negb (err =? ERROR_NONE) then 0 else default 0 out, outValues).
Definition dataproxy_xp_set_data_array (inRefcon : option loc) (type : Z) (inValues : option (list V)) (inOffset inCount : Z) : M W unit :=
  _ ← dataproxy_array_update inRefcon type inValues inOffset inCount None; mret tt.

Definition dataproxy_xp_get_data_integer_array (inRefcon : option loc) := dataproxy_xp_get_data_array inRefcon xplmType_IntArray.
Definition dataproxy_xp_set_data_integer_array (inRefcon : option loc) := dataproxy_xp_set_data_array inRefcon xplmType_IntArray.
Definition dataproxy_xp_get_data_float_array (inRefcon : option loc) := dataproxy_xp_get_data_array inRefcon xplmType_FloatArray.
Definition dataproxy_xp_set_data_float_array (inRefcon : option loc) := dataproxy_xp_set_data_array inRefcon xplmType_FloatArray.
Definition dataproxy_xp_get_data_byte_array (inRefcon : option loc) := dataproxy_xp_get_data_array inRefcon xplmType_Data.
Definition dataproxy_xp_set_data_byte_array (inRefcon : option loc) := dataproxy_xp_set_data_array inRefcon xplmType_Data.
End Access.
