(* ===== verification/DataproxyLifecycle.v ===== *)
(** The life cycle of the datarefs that the plugin hosts ([Dataproxy]): which
    accessors X-Plane has, and who may reserve a dataref. *)

From S2P Require Import Prelude CLib Utils Hashmap Lists Prealloc Protocol Dataproxy.

(** * What X-Plane has *)

(** The accessors after the calls, by dataref: name, types, whether it is
    writable, and the proxy. [None] if a dataref was returned twice, or
    unregistered without being registered. *)
Abbreviation accessor := (cstr * Z * Z * loc)%type.

Definition access_call (accs : option (gmap Z accessor)) (c : accessor_call) : option (gmap Z accessor) :=
  accs ← accs;
  match c with
  | XPLMRegisterDataAccessor name types writable p r =>
      if r =? NO_XP_DATAREF then Some accs
      else match accs !! r with Some _ => None | None => Some (<[r := (name, types, writable, p)]> accs) end
  | XPLMUnregisterDataAccessor r => match accs !! r with Some _ => Some (delete r accs) | None => None end
  end.
Definition accessors (calls : list accessor_call) : option (gmap Z accessor) := foldl access_call (Some ∅) calls.

Lemma accessors_app calls c : accessors (calls ++ [c]) = access_call (accessors calls) c.
Proof. unfold accessors. by rewrite foldl_app. Qed.

Section Lifecycle.
Context `{DataTypes} {F : Type}.
Implicit Types (s : datarefs F) (x : dataproxy_t F) (p : loc).

Definition writable x : Z := if dp_write_permission x =? DATAPROXY_PERMISSION_ALL then 1 else 0.

(** A proxy in one of its states. *)
Record dataproxy_ok x : Prop := mkDataproxyOk {
  dk_name : exists name, dp_dataref_name x = Some name /\ no_nul name;
  dk_state :
    dp_state x = DATAPROXY_STATE_INACTIVE /\ dp_xp_dataref x = NO_XP_DATAREF \/
    dp_state x = DATAPROXY_STATE_RESERVED /\ dp_xp_dataref x = NO_XP_DATAREF \/
    dp_state x = DATAPROXY_STATE_REGISTERED /\ dp_xp_dataref x <> NO_XP_DATAREF \/
    dp_state x = DATAPROXY_STATE_DROPPED /\ dp_xp_dataref x <> NO_XP_DATAREF;
  dk_owned : dp_state x = DATAPROXY_STATE_RESERVED \/ dp_state x = DATAPROXY_STATE_REGISTERED ->
    is_Some (dp_owner_session x) /\ has_all_operations (dp_operations x) = true;
  dk_free : dp_state x = DATAPROXY_STATE_INACTIVE \/ dp_state x = DATAPROXY_STATE_DROPPED ->
    dp_owner_session x = None /\ dp_operations x = no_operations /\ dp_operations_ref x = None;
}.

Definition accessor_of p x (a : accessor) : Prop :=
  exists name, dp_dataref_name x = Some name /\ a = (name, dp_types x, writable x, p).

(** The accessors are those of the proxies that have a dataref. *)
Definition accessors_ok (m : gmap loc (dataproxy_t F)) (calls : list accessor_call) : Prop :=
  exists accs, accessors calls = Some accs /\
    forall r a, accs !! r = Some a <-> exists p x, m !! p = Some x /\ dp_xp_dataref x = r /\ r <> NO_XP_DATAREF /\ accessor_of p x a.

(** The hash map finds each proxy under its name. *)
Record datarefs_ok s : Prop := mkDatarefsOk {
  do_map : Hashmap.wf (dr_by_dataref_name (ds_registry s));
  do_found : forall name v, abs (dr_by_dataref_name (ds_registry s)) !! name = Some v ->
    exists p x, v = Some p /\ ds_proxies s !! p = Some x /\ dp_dataref_name x = Some name;
  do_named : forall p x, ds_proxies s !! p = Some x ->
    dataproxy_ok x /\ exists name, dp_dataref_name x = Some name /\ abs (dr_by_dataref_name (ds_registry s)) !! name = Some (Some p);
  do_accessors : accessors_ok (ds_proxies s) (ds_calls s);
}.

(** ** Locking *)

Definition ds_lock_error s : error_t :=
  if dr_destruction_pending (ds_registry s) then ERROR_DESTRUCTION_PENDING
  else if lock_next (ds_env s) then ERROR_NONE else ERROR_MUTEX_FAILED.

(** The state after an attempt to lock, but for the lock. *)
Definition ds_tried s : datarefs F :=
  if dr_destruction_pending (ds_registry s) then s else set_ds_env (lock_rest (ds_env s)) s.

Definition ds_locked s : datarefs F := set_ds_registry (set_dr_lock (dr_lock (ds_registry s) + 1) (ds_registry s)) s.

Lemma ds_on_env_eq {A} (m : M env A) s a e : m (ds_env s) = Some (a, e) -> ds_on_env m s = Some (a, set_ds_env e s).
Proof. intros E. unfold ds_on_env, zoom. by rewrite E. Qed.

Lemma lock_datarefs_eq s : lock_dataproxy_registry s =
  Some (ds_lock_error s, if ds_lock_error s =? ERROR_NONE then ds_locked (ds_tried s) else ds_tried s).
Proof.
  unfold lock_dataproxy_registry, ds_lock_error, ds_tried. erewrite bind_eq by reflexivity.
  destruct (dr_destruction_pending (ds_registry s)) eqn:Hp; [done|].
  erewrite bind_eq by apply ds_on_env_eq, mtx_lock_result_eq. destruct (lock_next (ds_env s)); red_if; [|done].
  erewrite bind_eq by reflexivity. erewrite bind_eq by reflexivity. simpl. by rewrite Hp.
Qed.

Lemma ds_unlock_locked s : unlock_dataproxy_registry (ds_locked s) = Some (tt, s).
Proof.
  unfold unlock_dataproxy_registry, update_dp_registry, modify, ds_locked, set_ds_registry, set_dr_lock. simpl. do 2 f_equal.
  destruct s as [[pending n m] proxies items calls e]. simpl. do 2 f_equal. lia.
Qed.

Lemma ds_tried_same s : ds_proxies (ds_tried s) = ds_proxies s /\ ds_registry (ds_tried s) = ds_registry s /\
  ds_items (ds_tried s) = ds_items s /\ ds_calls (ds_tried s) = ds_calls s.
Proof. unfold ds_tried. by destruct (dr_destruction_pending _). Qed.

Lemma ds_tried_calmer s : calmer (ds_env s) (ds_env (ds_tried s)).
Proof. unfold ds_tried. destruct (dr_destruction_pending _); [done|]. split; [done|apply lock_succeeds_rest]. Qed.

Lemma load_dataproxy_eq p x s : ds_proxies s !! p = Some x -> load_dataproxy p s = Some (x, s).
Proof. intros E. unfold load_dataproxy. erewrite bind_eq by reflexivity. unfold from_ub. by rewrite E. Qed.

Lemma update_dataproxy_eq p f x s : ds_proxies s !! p = Some x ->
  update_dataproxy p f s = Some (tt, set_ds_proxies (<[p := f x]> (ds_proxies s)) s).
Proof. intros E. unfold update_dataproxy. by erewrite bind_eq by by apply load_dataproxy_eq. Qed.

Lemma lock_dataproxy_eq p s : is_Some (ds_proxies s !! p) -> lock_dataproxy (Some p) s =
  Some (ds_lock_error s, if ds_lock_error s =? ERROR_NONE then ds_locked (ds_tried s) else ds_tried s).
Proof. intros [x Hp]. unfold lock_dataproxy. erewrite bind_eq by by apply load_dataproxy_eq. apply lock_datarefs_eq. Qed.

Lemma unlock_dataproxy_eq p s : is_Some (ds_proxies s !! p) -> unlock_dataproxy (Some p) (ds_locked s) = Some (tt, s).
Proof. intros [x Hp]. unfold unlock_dataproxy. erewrite bind_eq by by apply load_dataproxy_eq. apply ds_unlock_locked. Qed.

(** The outcome of an operation that locks the registry. *)
Definition locked_outcome (s : datarefs F) (r : error_t * datarefs F) : error_t * datarefs F :=
  if ds_lock_error s =? ERROR_NONE then r else (ds_lock_error s, ds_tried s).

Lemma with_dataproxy_eq p x body s err s' : ds_proxies s !! p = Some x ->
  body p x (ds_locked (ds_tried s)) = Some (err, ds_locked s') -> is_Some (ds_proxies s' !! p) ->
  with_dataproxy (Some p) body s = Some (locked_outcome s (err, s')).
Proof.
  intros Hp E Hp'. unfold with_dataproxy, locked_outcome. erewrite bind_eq by (apply lock_dataproxy_eq; by eexists).
  destruct (ds_lock_error s =? ERROR_NONE); red_if; [|done]. erewrite bind_eq by reflexivity.
  erewrite bind_eq by (apply load_dataproxy_eq; simpl; by rewrite (proj1 (ds_tried_same s))).
  erewrite bind_eq by exact E. by erewrite bind_eq by by apply unlock_dataproxy_eq.
Qed.

(** ** What the operations of owners do *)

Definition put_proxy p x s : datarefs F := set_ds_proxies (<[p := x]> (ds_proxies s)) s.

Definition dp_dropped x : dataproxy_t F :=
  mkDataproxy DATAPROXY_STATE_DROPPED (dp_dataref_name x) (dp_xp_dataref x) (dp_types x) (dp_write_permission x) None no_operations None.
Definition dp_released x : dataproxy_t F := clear_dataproxy (set_dp_state DATAPROXY_STATE_INACTIVE x).
Definition dp_unregistered x : dataproxy_t F := set_dp_xp_dataref NO_XP_DATAREF (set_dp_state DATAPROXY_STATE_RESERVED x).

Definition dropping p x s : error_t * datarefs F :=
  if negb (dp_state x =? DATAPROXY_STATE_REGISTERED) then (DATAPROXY_ERROR_INVALID_STATE, s) else (ERROR_NONE, put_proxy p (dp_dropped x) s).
Definition releasing p x s : error_t * datarefs F :=
  if negb (dp_state x =? DATAPROXY_STATE_RESERVED) then (DATAPROXY_ERROR_INVALID_STATE, s) else (ERROR_NONE, put_proxy p (dp_released x) s).
Definition unregistering p x s : error_t * datarefs F :=
  let s' := set_ds_calls (ds_calls s ++ [XPLMUnregisterDataAccessor (dp_xp_dataref x)]) s in
  if dp_state x =? DATAPROXY_STATE_REGISTERED then (ERROR_NONE, put_proxy p (dp_unregistered x) s')
  else if dp_state x =? DATAPROXY_STATE_DROPPED then (ERROR_NONE, put_proxy p (dp_released x) s')
  else (DATAPROXY_ERROR_INVALID_STATE, s).

Lemma put_proxy_there p x s : is_Some (ds_proxies (put_proxy p x s) !! p).
Proof. simpl. rewrite lookup_insert_eq. by eexists. Qed.

Lemma drop_dataproxy_eq p x s : ds_proxies s !! p = Some x ->
  drop_dataproxy (Some p) s = Some (locked_outcome s (dropping p x (ds_tried s))).
Proof.
  intros Hp. unfold dropping. assert (ds_proxies (ds_tried s) !! p = Some x) as Hpt by by rewrite (proj1 (ds_tried_same s)).
  destruct (dp_state x =? DATAPROXY_STATE_REGISTERED) eqn:E; red_if; apply (with_dataproxy_eq p x); rewrite ?E; red_if; try done; [|apply put_proxy_there].
  by erewrite bind_eq by (apply update_dataproxy_eq; exact Hpt).
Qed.

Lemma release_dataproxy_eq p x s : ds_proxies s !! p = Some x ->
  release_dataproxy (Some p) s = Some (locked_outcome s (releasing p x (ds_tried s))).
Proof.
  intros Hp. unfold releasing. assert (ds_proxies (ds_tried s) !! p = Some x) as Hpt by by rewrite (proj1 (ds_tried_same s)).
  destruct (dp_state x =? DATAPROXY_STATE_RESERVED) eqn:E; red_if; apply (with_dataproxy_eq p x); rewrite ?E; red_if; try done; [|apply put_proxy_there].
  by erewrite bind_eq by (apply update_dataproxy_eq; exact Hpt).
Qed.

Lemma unregister_dataproxy_eq p x s : ds_proxies s !! p = Some x ->
  unregister_dataproxy (Some p) s = Some (locked_outcome s (unregistering p x (ds_tried s))).
Proof.
  intros Hp. unfold unregistering. assert (ds_proxies (ds_tried s) !! p = Some x) as Hpt by by rewrite (proj1 (ds_tried_same s)).
  destruct (dp_state x =? DATAPROXY_STATE_REGISTERED) eqn:E1; [|destruct (dp_state x =? DATAPROXY_STATE_DROPPED) eqn:E2];
    apply (with_dataproxy_eq p x); rewrite ?E1, ?E2; try done; try apply put_proxy_there.
  - erewrite bind_eq by reflexivity. by erewrite bind_eq by (apply update_dataproxy_eq; exact Hpt).
  - erewrite bind_eq by reflexivity. by erewrite bind_eq by (apply update_dataproxy_eq; exact Hpt).
Qed.

(** ** Keeping the promise *)

Lemma datarefs_ok_same s s' :
  dr_by_dataref_name (ds_registry s') = dr_by_dataref_name (ds_registry s) -> ds_proxies s' = ds_proxies s -> ds_calls s' = ds_calls s ->
  datarefs_ok s -> datarefs_ok s'.
Proof. intros Hm Hp Hc [? ? ? ?]. by split; rewrite ?Hm, ?Hp, ?Hc. Qed.

Lemma datarefs_ok_tried s : datarefs_ok s -> datarefs_ok (ds_tried s).
Proof. destruct (ds_tried_same s) as (Hp & Hr & _ & Hc). by apply datarefs_ok_same; rewrite ?Hr. Qed.

Lemma datarefs_ok_locked s : datarefs_ok s -> datarefs_ok (ds_locked s).
Proof. by apply datarefs_ok_same. Qed.

Lemma accessor_of_same p x x' : dp_dataref_name x' = dp_dataref_name x -> dp_types x' = dp_types x -> writable x' = writable x ->
  forall a, accessor_of p x' a <-> accessor_of p x a.
Proof. intros Hn Ht Hw a. unfold accessor_of. by rewrite Hn, Ht, Hw. Qed.

(** The accessors that proxies stand for. *)
Definition has_accessor (m : gmap loc (dataproxy_t F)) (r : Z) (a : accessor) : Prop :=
  exists p x, m !! p = Some x /\ dp_xp_dataref x = r /\ r <> NO_XP_DATAREF /\ accessor_of p x a.

Lemma has_accessor_insert (m : gmap loc (dataproxy_t F)) p x r a :
  has_accessor (<[p := x]> m) r a <-> (dp_xp_dataref x = r /\ r <> NO_XP_DATAREF /\ accessor_of p x a) \/ has_accessor (delete p m) r a.
Proof.
  unfold has_accessor. split.
  - intros (q & y & [[<- <-]|[Hne Hy]]%lookup_insert_Some & H'); [by left|right]. exists q, y. by rewrite lookup_delete_ne.
  - intros [H'|(q & y & [Hne Hy]%lookup_delete_Some & H')]; [exists p, x; by rewrite lookup_insert_eq|exists q, y; by rewrite lookup_insert_ne].
Qed.

Lemma has_accessor_at (m : gmap loc (dataproxy_t F)) p x r a : m !! p = Some x ->
  has_accessor m r a <-> (dp_xp_dataref x = r /\ r <> NO_XP_DATAREF /\ accessor_of p x a) \/ has_accessor (delete p m) r a.
Proof. intros Hp. rewrite <-has_accessor_insert. by rewrite insert_id. Qed.

Lemma accessors_ok_update (m : gmap loc (dataproxy_t F)) calls p x x' : m !! p = Some x ->
  (forall r a, (dp_xp_dataref x' = r /\ r <> NO_XP_DATAREF /\ accessor_of p x' a) <-> (dp_xp_dataref x = r /\ r <> NO_XP_DATAREF /\ accessor_of p x a)) ->
  accessors_ok m calls -> accessors_ok (<[p := x']> m) calls.
Proof.
  intros Hp Hsame (accs & E & Ha). exists accs. split; [done|]. intros r a. rewrite Ha.
  change (has_accessor m r a <-> has_accessor (<[p := x']> m) r a). by rewrite has_accessor_insert, (has_accessor_at m p x), Hsame.
Qed.

(** An accessor goes away. *)
Lemma accessors_ok_unregister (m : gmap loc (dataproxy_t F)) calls p x x' : m !! p = Some x -> is_Some (dp_dataref_name x) ->
  dp_xp_dataref x <> NO_XP_DATAREF -> dp_xp_dataref x' = NO_XP_DATAREF ->
  accessors_ok m calls -> accessors_ok (<[p := x']> m) (calls ++ [XPLMUnregisterDataAccessor (dp_xp_dataref x)]).
Proof.
  intros Hp [name Hname] Hr Hno (accs & E & Ha).
  assert (accs !! dp_xp_dataref x = Some (name, dp_types x, writable x, p)) as Hacc.
  { apply Ha. exists p, x. split_and!; try done. by exists name. }
  exists (delete (dp_xp_dataref x) accs). split; [by rewrite accessors_app, E; simpl; rewrite Hacc|]. intros r a.
  change (delete (dp_xp_dataref x) accs !! r = Some a <-> has_accessor (<[p := x']> m) r a).
  rewrite lookup_delete_Some, has_accessor_insert, Ha. change (exists q y, m !! q = Some y /\ _) with (has_accessor m r a). rewrite (has_accessor_at m p x) by done. split.
  - intros [Hne [[? _]|?]]; [done|by right].
  - intros [(E' & Hne & _)|Hd]; [by rewrite Hno in E'|]. split; [|by right]. intros <-.
    assert (has_accessor m (dp_xp_dataref x) a) as Hm by (rewrite (has_accessor_at m p x) by done; by right). apply Ha in Hm.
    rewrite Hacc in Hm. injection Hm as <-. destruct Hd as (q & y & [Hne _]%lookup_delete_Some & _ & _ & (n & _ & [= _ _ _ ->])). done.
Qed.

(** A proxy changes in place, while calls are made. *)
Lemma datarefs_ok_put s p x x' calls : datarefs_ok s -> ds_proxies s !! p = Some x ->
  dataproxy_ok x' -> dp_dataref_name x' = dp_dataref_name x -> accessors_ok (<[p := x']> (ds_proxies s)) calls ->
  datarefs_ok (put_proxy p x' (set_ds_calls calls s)).
Proof.
  intros [Hm Hf Hn _] Hp Hx' Hname Ha. split; simpl; [done| | |done].
  - intros name v Hv. destruct (Hf name v Hv) as (q & y & -> & Hq & Hy). exists q. destruct (decide (p = q)) as [<- |Hne].
    + exists x'. rewrite lookup_insert_eq. split_and!; [done..|]. rewrite Hname. congruence.
    + exists y. by rewrite lookup_insert_ne.
  - intros q y [[<- <-]|[Hne Hy]]%lookup_insert_Some; [|by apply Hn]. split; [done|]. rewrite Hname. apply (proj2 (Hn p x Hp)).
Qed.

Lemma put_same_calls p x s : put_proxy p x (set_ds_calls (ds_calls s) s) = put_proxy p x s.
Proof. by destruct s. Qed.

Lemma dropped_proxy_ok x : dataproxy_ok x -> dp_state x = DATAPROXY_STATE_REGISTERED -> dataproxy_ok (dp_dropped x).
Proof.
  intros [Hn Hs Ho Hf] Hst. split; [exact Hn| | |done].
  - right; right; right. split; [done|]. simpl. destruct Hs as [[E _]|[[E _]|[[_ ?]|[E _]]]]; [by rewrite Hst in E..|done|by rewrite Hst in E].
  - by intros [?|?].
Qed.

Lemma released_proxy_ok x : dataproxy_ok x -> dataproxy_ok (dp_released x).
Proof. intros [Hn _ _ _]. split; [exact Hn|by left| |done]. by intros [?|?]. Qed.

Lemma unregistered_proxy_ok x : dataproxy_ok x -> dp_state x = DATAPROXY_STATE_REGISTERED -> dataproxy_ok (dp_unregistered x).
Proof. intros [Hn _ Ho _] Hst. split; [exact Hn|by right; left| |by intros [?|?]]. intros _. apply Ho. by right. Qed.

Lemma no_dataref x : dataproxy_ok x -> dp_state x = DATAPROXY_STATE_INACTIVE \/ dp_state x = DATAPROXY_STATE_RESERVED -> dp_xp_dataref x = NO_XP_DATAREF.
Proof. intros Hx Hst. destruct (dk_state _ Hx) as [[_ ?]|[[_ ?]|[[E _]|[E _]]]]; try done; rewrite E in Hst; by destruct Hst. Qed.

Lemma has_dataref x : dataproxy_ok x -> dp_state x = DATAPROXY_STATE_REGISTERED \/ dp_state x = DATAPROXY_STATE_DROPPED -> dp_xp_dataref x <> NO_XP_DATAREF.
Proof. intros Hx Hst. destruct (dk_state _ Hx) as [[E _]|[[E _]|[[_ ?]|[_ ?]]]]; try done; rewrite E in Hst; by destruct Hst. Qed.

Lemma dropping_ok s p x : datarefs_ok s -> ds_proxies s !! p = Some x -> datarefs_ok (dropping p x s).2.
Proof.
  intros Hok Hp. pose proof (proj1 (do_named _ Hok p x Hp)) as Hx. unfold dropping.
  destruct (Z.eqb_spec (dp_state x) DATAPROXY_STATE_REGISTERED) as [Hst|]; red_if; [|done]. cbn [snd]. rewrite <-put_same_calls.
  apply (datarefs_ok_put s p x); [done|done|by apply dropped_proxy_ok|done|]. by eapply accessors_ok_update; [..|apply (do_accessors _ Hok)].
Qed.

Lemma releasing_ok s p x : datarefs_ok s -> ds_proxies s !! p = Some x -> datarefs_ok (releasing p x s).2.
Proof.
  intros Hok Hp. pose proof (proj1 (do_named _ Hok p x Hp)) as Hx. unfold releasing.
  destruct (Z.eqb_spec (dp_state x) DATAPROXY_STATE_RESERVED) as [Hst|]; red_if; [|done]. cbn [snd]. rewrite <-put_same_calls.
  apply (datarefs_ok_put s p x); [done|done|by apply released_proxy_ok|done|]. eapply accessors_ok_update; [exact Hp| |apply (do_accessors _ Hok)].
  intros r a. rewrite (no_dataref x) by auto. split; intros (<- & ? & _); done.
Qed.

Lemma unregistering_ok s p x : datarefs_ok s -> ds_proxies s !! p = Some x -> datarefs_ok (unregistering p x s).2.
Proof.
  intros Hok Hp. pose proof (proj1 (do_named _ Hok p x Hp)) as Hx. destruct (dk_name _ Hx) as (name & Hname & _). unfold unregistering.
  destruct (Z.eqb_spec (dp_state x) DATAPROXY_STATE_REGISTERED) as [Hst|Hst]; cbn [snd].
  - apply (datarefs_ok_put s p x); [done|done|by apply unregistered_proxy_ok|done|].
    apply accessors_ok_unregister; [done|by eexists|apply has_dataref; auto|done|apply (do_accessors _ Hok)].
  - destruct (Z.eqb_spec (dp_state x) DATAPROXY_STATE_DROPPED) as [Hst2|]; cbn [snd]; [|done].
    apply (datarefs_ok_put s p x); [done|done|by apply released_proxy_ok|done|].
    apply accessors_ok_unregister; [done|by eexists|apply has_dataref; auto|done|apply (do_accessors _ Hok)].
Qed.

Section XPlane.
Context (XPLMRegisterDataAccessor_result : list accessor_call -> cstr -> Z -> Z).

Definition registering_dataref p x s : error_t * datarefs F :=
  if negb (dp_state x =? DATAPROXY_STATE_RESERVED) then (DATAPROXY_ERROR_INVALID_STATE, s)
  else
    let name := default [] (dp_dataref_name x) in
    let r := XPLMRegisterDataAccessor_result (ds_calls s) name (dp_types x) in
    let s' := set_ds_calls (ds_calls s ++ [XPLMRegisterDataAccessor name (dp_types x) (writable x) p r]) s in
    if r =? NO_XP_DATAREF then (DATAPROXY_ERROR_REGISTRATION_FAILED, put_proxy p (set_dp_xp_dataref r x) s')
    else (ERROR_NONE, put_proxy p (set_dp_state DATAPROXY_STATE_REGISTERED (set_dp_xp_dataref r x)) s').

Lemma register_dataproxy_eq p x s : ds_proxies s !! p = Some x -> dataproxy_ok x ->
  register_dataproxy XPLMRegisterDataAccessor_result (Some p) s = Some (locked_outcome s (registering_dataref p x (ds_tried s))).
Proof.
  intros Hp Hx. unfold registering_dataref. assert (ds_proxies (ds_tried s) !! p = Some x) as Hpt by by rewrite (proj1 (ds_tried_same s)).
  destruct (dk_name _ Hx) as (name & Hname & _). rewrite Hname. cbn [default]. unfold id. cbv zeta.
  destruct (dp_state x =? DATAPROXY_STATE_RESERVED) eqn:E; red_if; [|apply (with_dataproxy_eq p x); rewrite ?E; red_if; done].
  set (r := XPLMRegisterDataAccessor_result _ name _) in *.
  destruct (r =? NO_XP_DATAREF) eqn:Er; apply (with_dataproxy_eq p x); rewrite ?E; red_if; try done; try apply put_proxy_there;
    rewrite Hname; erewrite bind_eq by reflexivity; erewrite bind_eq by reflexivity; cbv zeta; fold r;
    erewrite bind_eq by reflexivity; erewrite bind_eq by (apply update_dataproxy_eq; exact Hpt);
    change (XPLMRegisterDataAccessor_result (ds_calls (ds_locked (ds_tried s))) name (dp_types x)) with r; rewrite Er.
  - done.
  - erewrite bind_eq by (apply update_dataproxy_eq; simpl; apply lookup_insert_eq).
    unfold mret, M_ret, put_proxy, set_ds_proxies, ds_locked, set_ds_registry, set_ds_calls. simpl. by rewrite insert_insert_eq.
Qed.

(** X-Plane never returns the dataref of an accessor that it has. *)
Definition new_datarefs : Prop := forall calls name types accs, accessors calls = Some accs ->
  accs !! XPLMRegisterDataAccessor_result calls name types = None.

Lemma registering_dataref_ok s p x : new_datarefs -> datarefs_ok s -> ds_proxies s !! p = Some x -> datarefs_ok (registering_dataref p x s).2.
Proof.
  intros Hnew Hok Hp. pose proof (proj1 (do_named _ Hok p x Hp)) as Hx. destruct (dk_name _ Hx) as (name & Hname & Hnn). unfold registering_dataref.
  destruct (Z.eqb_spec (dp_state x) DATAPROXY_STATE_RESERVED) as [Hst|]; red_if; [|done]. rewrite Hname. cbn [default]. unfold id.
  set (r := XPLMRegisterDataAccessor_result _ _ _). pose proof (no_dataref x Hx (or_intror Hst)) as Hno.
  destruct (do_accessors _ Hok) as (accs & E & Ha). destruct (dk_owned _ Hx (or_introl Hst)) as [Hown Hops].
  destruct (Z.eqb_spec r NO_XP_DATAREF) as [Er|Er]; cbn [snd]; rewrite ?Er; (apply (datarefs_ok_put s p x); [done|done| |done|]).
  - split; [by exists name|by right; left|done|]. simpl. rewrite Hst. by intros [?|?].
  - exists accs. split; [rewrite accessors_app, E; done|]. intros r' a. rewrite Ha. change (has_accessor (ds_proxies s) r' a <-> has_accessor (<[p := set_dp_xp_dataref NO_XP_DATAREF x]> (ds_proxies s)) r' a).
    rewrite has_accessor_insert, (has_accessor_at _ p x) by done. rewrite Hno. simpl.
    split; (intros [(<- & ? & _)|?]; [done|by right]).
  - split; [by exists name|by right; right; left|done|]. by intros [?|?].
  - exists (<[r := (name, dp_types x, writable x, p)]> accs). pose proof (Hnew (ds_calls s) name (dp_types x) accs E) as Hfresh. fold r in Hfresh.
    split; [rewrite accessors_app, E; simpl; by rewrite (proj2 (Z.eqb_neq _ _) Er), Hfresh|]. intros r' a.
    change (<[r := (name, dp_types x, writable x, p)]> accs !! r' = Some a <-> has_accessor (<[p := set_dp_state DATAPROXY_STATE_REGISTERED (set_dp_xp_dataref r x)]> (ds_proxies s)) r' a).
    rewrite lookup_insert_Some, has_accessor_insert, Ha. change (exists q y, ds_proxies s !! q = Some y /\ _) with (has_accessor (ds_proxies s) r' a).
    rewrite (has_accessor_at _ p x) by done. rewrite Hno. simpl. split.
    + intros [[<- <-]|[Hne [(E' & Hne' & _)|?]]]; [left|done|by right]. split; [done|]. split; [done|]. by exists name.
    + intros [(<- & _ & (n & Hn & ->))|Hd]; [left; simpl in Hn; split; [done|]; by rewrite Hname in Hn; injection Hn as <-|right]. split; [|by right].
      intros <-. assert (has_accessor (ds_proxies s) r a) as Hm by (rewrite (has_accessor_at _ p x) by done; by right). apply Ha in Hm. congruence.
Qed.
End XPlane.

(** ** What operations leave alone *)

Record ds_same s s' : Prop := mkDsSame {
  sm_lock : dr_lock (ds_registry s') = dr_lock (ds_registry s);
  sm_pending : dr_destruction_pending (ds_registry s') = dr_destruction_pending (ds_registry s);
  sm_env : calmer (ds_env s) (ds_env s');
}.

#[export] Instance ds_same_preorder : PreOrder ds_same.
Proof. split; [by intros s; split|]. intros s1 s2 s3 [] []. split; [congruence..|]. by etransitivity. Qed.

(** Neither locks nor memory fail. *)
Definition ds_willing s : Prop := plenty (ds_env s) /\ lock_succeeds (ds_env s) /\ dr_destruction_pending (ds_registry s) = false.

Lemma ds_same_willing s s' : ds_same s s' -> ds_willing s -> ds_willing s'.
Proof. intros [_ Hp [Ha Hl]] (? & ? & ?). split_and!; [auto..|congruence]. Qed.

Lemma ds_willing_lock s : ds_willing s -> ds_lock_error s = ERROR_NONE.
Proof. intros (_ & Hl & Hp). unfold ds_lock_error. by rewrite Hp, lock_succeeds_next. Qed.

Lemma ds_tried_sames s : ds_same s (ds_tried s).
Proof. destruct (ds_tried_same s) as (_ & Hr & _). split; [by rewrite Hr..|apply ds_tried_calmer]. Qed.

Lemma ds_same_locked s s' : ds_same s s' -> ds_same (ds_locked s) (ds_locked s').
Proof. intros [Hl ? ?]. split; simpl; [by rewrite Hl|done|done]. Qed.

Lemma ds_same_unlocked s s' : ds_same (ds_locked s) (ds_locked s') -> ds_same s s'.
Proof. intros [Hl ? ?]. split; simpl in *; [lia|done|done]. Qed.

Lemma ds_tried_locked s : ds_tried (ds_locked s) = ds_locked (ds_tried s).
Proof. unfold ds_tried. simpl. by destruct (dr_destruction_pending _). Qed.

Lemma unregistering_locked p x s : unregistering p x (ds_locked s) = ((unregistering p x s).1, ds_locked (unregistering p x s).2).
Proof. unfold unregistering. by destruct (dp_state x =? DATAPROXY_STATE_REGISTERED), (dp_state x =? DATAPROXY_STATE_DROPPED). Qed.

Lemma unregistering_same p x s : ds_same s (unregistering p x s).2.
Proof. unfold unregistering. by destruct (dp_state x =? DATAPROXY_STATE_REGISTERED), (dp_state x =? DATAPROXY_STATE_DROPPED). Qed.

(** Unregistering, with the lock held. *)
Lemma unregister_locked_eq p x s : ds_proxies s !! p = Some x ->
  unregister_dataproxy (Some p) (ds_locked s) =
    Some (if ds_lock_error (ds_locked s) =? ERROR_NONE then ((unregistering p x (ds_tried s)).1, ds_locked (unregistering p x (ds_tried s)).2)
          else (ds_lock_error (ds_locked s), ds_locked (ds_tried s))).
Proof.
  intros Hp. rewrite (unregister_dataproxy_eq p x) by exact Hp. unfold locked_outcome.
  rewrite ds_tried_locked, unregistering_locked. done.
Qed.

(** ** Reservation *)

Lemma hashmap_put_calmer {V} (m : hashmap_t V) k v old e r e' : hashmap_put m k v old e = Some (r, e') -> calmer e e'.
Proof.
  intros E. unfold hashmap_put in E. destruct (replace_item k v _) as [[??]|]; [by injection E as <- <-|].
  erewrite bind_eq in E by by apply zmalloc_eq. destruct (alloc_next e); cbn [negb] in E; [|by injection E as <- <-; apply calmer_alloc_rest].
  unfold copy_string in E. erewrite bind_eq in E by by apply (copy_partial_string_eq k). cbn [andb] in E. transitivity (alloc_rest e); [apply calmer_alloc_rest|].
  destruct (alloc_next (alloc_rest e)); injection E as <- <-; apply calmer_alloc_rest.
Qed.

Definition fresh_proxy (name : cstr) : dataproxy_t F :=
  mkDataproxy DATAPROXY_STATE_INACTIVE (Some name) NO_XP_DATAREF xplmType_Unknown DATAPROXY_PERMISSION_SESSION None no_operations None.

Lemma create_dataproxy_run s name : no_nul name ->
  exists r e, create_dataproxy name s = Some (r, match r with Some p => set_ds_env e (put_proxy p (fresh_proxy name) s) | None => set_ds_env e s end) /\
    calmer (ds_env s) e /\ (forall p, r = Some p -> ds_proxies s !! p = None) /\ (plenty (ds_env s) -> is_Some r).
Proof.
  intros Hn. unfold create_dataproxy.
  assert (calmer (ds_env s) (alloc_rest (ds_env s))) as Hc1 by (split; [apply plenty_rest|done]).
  assert (calmer (ds_env s) (alloc_rest (alloc_rest (ds_env s)))) as Hc2 by (split; [intros ?; by apply plenty_rest, plenty_rest|done]).
  erewrite bind_eq by by apply ds_on_env_eq, zmalloc_eq. destruct (alloc_next (ds_env s)) eqn:Ha1; red_if.
  2:{ exists None, (alloc_rest (ds_env s)). split; [done|]. split; [done|]. split; [done|]. intros Hpl. by rewrite plenty_next in Ha1. }
  set (p := fresh (dom (ds_proxies s))). assert (ds_proxies s !! p = None) as Hp by (apply not_elem_of_dom, is_fresh).
  set (x0 := mkDataproxy DATAPROXY_STATE_INACTIVE None _ _ _ _ _ _).
  erewrite (bind_eq _ _ _ p (set_ds_env (alloc_rest (ds_env s)) (put_proxy p x0 s))) by reflexivity.
  erewrite bind_eq by (eapply update_dataproxy_eq; apply lookup_insert_eq).
  erewrite bind_eq by by apply ds_on_env_eq, copy_string_eq. cbn [ds_env set_ds_env set_ds_proxies].
  erewrite bind_eq by (eapply update_dataproxy_eq; apply lookup_insert_eq).
  destruct (alloc_next (alloc_rest (ds_env s))) eqn:Ha2.
  - erewrite bind_eq by (eapply update_dataproxy_eq; apply lookup_insert_eq).
    exists (Some p), (alloc_rest (alloc_rest (ds_env s))). split; [|by split_and!; [|intros ? [= <-]|]].
    unfold mret, M_ret, put_proxy, set_ds_env, set_ds_proxies. simpl. by rewrite !insert_insert_eq.
  - erewrite bind_eq by reflexivity. exists None, (alloc_rest (alloc_rest (ds_env s))). split; [|split_and!; [done..|]].
    + unfold mret, M_ret, put_proxy, set_ds_env, set_ds_proxies. simpl. by rewrite !delete_insert_eq, delete_id by done.
    + intros Hpl%plenty_rest. by rewrite plenty_next in Ha2.
Qed.

(** A new inactive proxy enters the hash map. *)
Lemma datarefs_ok_new s p name m' e : datarefs_ok s -> no_nul name -> ds_proxies s !! p = None -> abs (dr_by_dataref_name (ds_registry s)) !! name = None ->
  Hashmap.wf m' -> abs m' = <[name := Some p]> (abs (dr_by_dataref_name (ds_registry s))) ->
  datarefs_ok (set_ds_registry (set_dr_map m' (ds_registry s)) (set_ds_env e (put_proxy p (fresh_proxy name) s))).
Proof.
  intros [Hm Hf Hn (accs & E & Ha)] Hnn Hp Hnew Hm' Habs. split; simpl; [done| | |].
  - intros n v. rewrite Habs. intros [[<- <-]|[Hne Hv]]%lookup_insert_Some.
    + exists p, (fresh_proxy name). by rewrite lookup_insert_eq.
    + destruct (Hf n v Hv) as (q & y & -> & Hq & Hy). exists q, y. rewrite lookup_insert_ne; [done|]. intros <-. congruence.
  - intros q y [[<- <-]|[Hne Hy]]%lookup_insert_Some.
    + split; [split; simpl; [by exists name|by left|by intros [?|?]|done]|]. exists name. rewrite Habs. by rewrite lookup_insert_eq.
    + destruct (Hn q y Hy) as (Hok & n & Hn' & Hv). split; [done|]. exists n. split; [done|]. rewrite Habs, lookup_insert_ne; [done|]. intros <-. congruence.
  - exists accs. split; [done|]. intros r a. rewrite Ha. change (has_accessor (ds_proxies s) r a <-> has_accessor (<[p := fresh_proxy name]> (ds_proxies s)) r a).
    rewrite has_accessor_insert, delete_id by done. split; [by right|]. intros [(<- & ? & _)|?]; done.
Qed.

(** The proxy of a name that is to be reserved. *)
Lemma proxy_for_run s name : datarefs_ok s -> no_nul name ->
  exists r s1, proxy_for name (ds_locked s) = Some (r, match r with Some _ => ds_locked s1 | None => s1 end) /\ datarefs_ok s1 /\ ds_same s s1 /\
    ds_calls s1 = ds_calls s /\
    match r with
    | Some p => exists x, ds_proxies s1 !! p = Some x /\ dp_dataref_name x = Some name /\
        (s1 = s \/ x = fresh_proxy name /\ ds_proxies s !! p = None /\ ds_proxies s1 = <[p := x]> (ds_proxies s))
    | None => ds_proxies s1 = ds_proxies s
    end /\ (ds_willing s -> is_Some r).
Proof.
  intros Hok Hnn. pose proof (do_map _ Hok) as Hm. unfold proxy_for. erewrite bind_eq by reflexivity.
  cbn [ds_registry ds_locked set_ds_registry dr_by_dataref_name set_dr_lock].
  destruct (hashmap_put_get (dr_by_dataref_name (ds_registry s)) name None None calm Hm Hnn) as [-> _].
  destruct (abs (dr_by_dataref_name (ds_registry s)) !! name) as [v|] eqn:Hv.
  { destruct (do_found _ Hok name v Hv) as (p & x & -> & Hp & Hx). simpl. exists (Some p), s. split; [done|]. split; [done|]. split; [done|]. split; [done|].
    split; [|by eexists]. exists x. split_and!; [done..|by left]. }
  simpl. destruct (create_dataproxy_run (ds_locked s) name Hnn) as (r & e & E & Hc & Hnew & Hpl). erewrite bind_eq by exact E. destruct r as [p|].
  2:{ change (set_ds_env e (ds_locked s)) with (ds_locked (set_ds_env e s)). erewrite bind_eq by apply ds_unlock_locked.
      exists None, (set_ds_env e s). split; [done|]. split; [by apply (datarefs_ok_same s)|]. split; [by split|]. split; [done|]. split; [done|].
      intros (Hpls & _). by destruct (Hpl Hpls). }
  specialize (Hnew p eq_refl). cbn [ds_locked set_ds_registry ds_proxies] in Hnew.
  destruct (hashmap_put_get (dr_by_dataref_name (ds_registry s)) name (Some p) None e Hm Hnn) as [_ (o & m' & e' & Eput & Hwf' & Hres)].
  rewrite Hv in Eput, Hres. rewrite bool_decide_eq_false_2 in Eput, Hres by (by intros [? ?]). cbn [orb] in Eput, Hres.
  pose proof (hashmap_put_calmer _ _ _ _ _ _ _ Eput) as Hce.
  erewrite bind_eq by (apply ds_on_env_eq; exact Eput). cbv beta iota. erewrite bind_eq by reflexivity.
  match goal with |- context [if negb ?b then _ else _] => destruct b eqn:Hb end; red_if; destruct Hres as [Habs Ho].
  - exists (Some p), (set_ds_registry (set_dr_map m' (ds_registry s)) (set_ds_env e' (put_proxy p (fresh_proxy name) s))).
    split; [done|]. split; [by apply datarefs_ok_new|]. split; [split; [done|done|simpl; by etransitivity]|]. split; [done|]. split; [|by eexists].
    exists (fresh_proxy name). simpl. rewrite lookup_insert_eq. split; [done|]. split; [done|]. by right.
  - subst m'.
    set (s2 := set_ds_env e' (put_proxy p (fresh_proxy name) s)).
    erewrite (bind_eq _ _ _ tt s2).
    2:{ etransitivity; [|apply (ds_unlock_locked s2)]. f_equal. }
    erewrite bind_eq.
    2:{ unfold destroy_dataproxy. erewrite bind_eq by (apply load_dataproxy_eq; apply lookup_insert_eq). reflexivity. }
    eexists None, _. split; [reflexivity|]. assert (delete p (ds_proxies s2) = ds_proxies s) as Ed by by apply delete_insert_id.
    split; [apply (datarefs_ok_same s); [done|exact Ed|done|done]|]. split; [split; [done|done|simpl; by etransitivity]|]. split; [done|]. split; [exact Ed|].
    intros (Hpls & _). apply Hc in Hpls. rewrite !plenty_next in Hb; [done|by apply plenty_rest|done].
Qed.

Definition reserved_proxy (name : cstr) (types write_permission : Z) (operations_ref session : option loc) (operations : dataproxy_operations_t F) : dataproxy_t F :=
  mkDataproxy DATAPROXY_STATE_RESERVED (Some name) NO_XP_DATAREF types write_permission session operations operations_ref.

(** A dropped proxy is unregistered first. *)
Lemma drop_before_reserve_run p x s : datarefs_ok s -> ds_proxies s !! p = Some x ->
  exists err s', (if dp_state x =? DATAPROXY_STATE_DROPPED then unregister_dataproxy (Some p) else mret ERROR_NONE) (ds_locked s) = Some (err, ds_locked s') /\
    datarefs_ok s' /\ ds_same s s' /\
    (if err =? ERROR_NONE then exists x', ds_proxies s' = <[p := x']> (ds_proxies s) /\ dp_dataref_name x' = dp_dataref_name x /\
       (if dp_state x =? DATAPROXY_STATE_DROPPED then dp_state x' = DATAPROXY_STATE_INACTIVE else s' = s /\ x' = x)
     else ds_proxies s' = ds_proxies s /\ ds_calls s' = ds_calls s) /\
    (ds_willing s -> err = ERROR_NONE).
Proof.
  intros Hok Hp. destruct (dp_state x =? DATAPROXY_STATE_DROPPED) eqn:Hst.
  2:{ exists ERROR_NONE, s. split; [done|]. split; [done|]. split; [done|]. split; [|done]. exists x. by rewrite insert_id. }
  rewrite (unregister_locked_eq p x) by done. destruct (ds_tried_same s) as (Et & Er & _ & Ec).
  destruct (ds_lock_error (ds_locked s) =? ERROR_NONE) eqn:El.
  - eexists _, _. split; [reflexivity|]. assert (ds_proxies (ds_tried s) !! p = Some x) as Hpt by by rewrite Et.
    split; [by apply unregistering_ok; [apply datarefs_ok_tried|]|].
    split; [etransitivity; [apply ds_tried_sames|apply unregistering_same]|].
    unfold unregistering. apply Z.eqb_eq in Hst. rewrite Hst. cbn [fst snd]. split; [|done].
    exists (dp_released x). simpl. by rewrite Et.
  - eexists _, _. split; [reflexivity|]. split; [by apply datarefs_ok_tried|]. split; [apply ds_tried_sames|]. rewrite El.
    split; [by rewrite Et, Ec|]. intros Hw. change (ds_lock_error (ds_locked s)) with (ds_lock_error s) in El. by rewrite (ds_willing_lock s Hw) in El.
Qed.

(** An inactive proxy becomes reserved. *)
Lemma reserve_inactive_run p x s name types write_permission operations_ref session operations : datarefs_ok s -> ds_proxies s !! p = Some x ->
  dp_dataref_name x = Some name -> is_Some session -> has_all_operations operations = true ->
  exists s', reserve_inactive p types write_permission operations_ref session operations (ds_locked s) =
      Some (if dp_state x =? DATAPROXY_STATE_INACTIVE then Some p else None, s') /\
    (if dp_state x =? DATAPROXY_STATE_INACTIVE
     then s' = put_proxy p (reserved_proxy name types write_permission operations_ref session operations) s else s' = s) /\ datarefs_ok s'.
Proof.
  intros Hok Hp Hname Hses Hops. unfold reserve_inactive. erewrite bind_eq by (apply load_dataproxy_eq; exact Hp).
  pose proof (proj1 (do_named _ Hok p x Hp)) as Hx.
  destruct (dp_state x =? DATAPROXY_STATE_INACTIVE) eqn:Hst; red_if; [|erewrite bind_eq by apply ds_unlock_locked; by eexists].
  apply Z.eqb_eq in Hst. pose proof (no_dataref x Hx (or_introl Hst)) as Hno.
  erewrite bind_eq by (apply update_dataproxy_eq; exact Hp).
  erewrite bind_eq by apply (ds_unlock_locked (put_proxy p _ s)). eexists. split; [reflexivity|]. rewrite Hname, Hno. split; [done|].
  rewrite <-put_same_calls. apply (datarefs_ok_put s p x); [done|done| |done|].
  - split; simpl; [|by right; left|done|by intros [?|?]]. exists name. split; [done|]. destruct (dk_name _ Hx) as (n & E & Hn). congruence.
  - eapply accessors_ok_update; [exact Hp| |apply (do_accessors _ Hok)]. intros r a. rewrite Hno. simpl. split; intros (<- & ? & _); done.
Qed.

Definition may_reserve types write_permission (operations : dataproxy_operations_t F) : bool :=
  is_valid_combined_type types && is_valid_write_permission write_permission && has_all_operations operations.

(** The proxies of a name are not in use. *)
Definition unowned s name : Prop :=
  forall p x, ds_proxies s !! p = Some x -> dp_dataref_name x = Some name -> dp_state x = DATAPROXY_STATE_INACTIVE \/ dp_state x = DATAPROXY_STATE_DROPPED.

Lemma one_proxy_per_name s p q x y : datarefs_ok s -> ds_proxies s !! p = Some x -> ds_proxies s !! q = Some y ->
  dp_dataref_name x = dp_dataref_name y -> p = q.
Proof.
  intros Hok Hp Hq E. destruct (do_named _ Hok p x Hp) as (_ & n & Hn & Hv). destruct (do_named _ Hok q y Hq) as (_ & n' & Hn' & Hv'). congruence.
Qed.

(** What a reservation comes to. *)
Definition reservation s (r : option loc) s' name types write_permission operations_ref session operations : Prop :=
  match r with
  | Some p => ds_proxies s' = <[p := reserved_proxy name types write_permission operations_ref session operations]> (ds_proxies s) /\
      unowned s name /\ (forall x, ds_proxies s !! p = Some x -> dp_dataref_name x = Some name) /\ is_Some session /\ may_reserve types write_permission operations = true
  | None => ds_proxies s' = ds_proxies s /\ ds_calls s' = ds_calls s
  end.

Lemma reserve_dataproxy_run s name types write_permission operations_ref session operations : datarefs_ok s -> no_nul name ->
  exists r s', reserve_dataproxy (Some name) types write_permission operations_ref session operations s = Some (r, s') /\ datarefs_ok s' /\ ds_same s s' /\
    reservation s r s' name types write_permission operations_ref session operations /\
    (ds_willing s -> unowned s name -> is_Some session -> may_reserve types write_permission operations = true -> is_Some r).
Proof.
  intros Hok Hn. unfold reserve_dataproxy, reservation. destruct session as [session|].
  2:{ exists None, s. split_and!; try done. }
  fold (may_reserve types write_permission operations). destruct (may_reserve types write_permission operations) eqn:Hmay; red_if.
  2:{ by exists None, s. }
  erewrite bind_eq by apply lock_datarefs_eq. destruct (ds_tried_same s) as (Et & Er & _ & Ec). pose proof (ds_tried_sames s) as Hst.
  pose proof (datarefs_ok_tried s Hok) as Hokt. destruct (ds_lock_error s =? ERROR_NONE) eqn:El; red_if.
  2:{ exists None, (ds_tried s). split_and!; try done. intros Hw. by rewrite (ds_willing_lock s Hw) in El. }
  destruct (proxy_for_run (ds_tried s) name Hokt Hn) as (r & s1 & E & Hok1 & Hs1 & Hc1 & Hr & Hw1). erewrite bind_eq by exact E.
  destruct r as [p|].
  2:{ exists None, s1. split; [done|]. split; [done|]. split; [by etransitivity|]. split; [split; congruence|].
      intros Hw. by destruct (Hw1 (ds_same_willing _ _ Hst Hw)). }
  destruct Hr as (x & Hp & Hname & Hfrom). erewrite bind_eq by (apply load_dataproxy_eq; exact Hp).
  destruct (drop_before_reserve_run p x s1 Hok1 Hp) as (err & s2 & E2 & Hok2 & Hs2 & Hres & Hw2). erewrite bind_eq by exact E2.
  assert (forall y, ds_proxies s !! p = Some y -> s1 = ds_tried s /\ y = x) as Hold.
  { intros y Hy. rewrite <-Et in Hy. destruct Hfrom as [->|(_ & Hno & _)]; [split; [done|]|]; congruence. }
  assert (forall y, ds_proxies s !! p = Some y -> dp_dataref_name y = Some name) as Hnamed by (intros y Hy; by destruct (Hold y Hy) as [_ ->]).
  destruct (err =? ERROR_NONE) eqn:Ee; red_if.
  2:{ erewrite bind_eq by apply ds_unlock_locked. exists None, s2. split; [done|]. split; [done|]. split; [by do 2 (etransitivity; [eassumption|])|].
      destruct Hres as [Hres Hcres]. assert (s1 = ds_tried s) as E1.
      { destruct Hfrom as [|(-> & _)]; [done|]. simpl in E2. by injection E2 as <- _. }
      split; [split; congruence|]. intros Hw. rewrite Hw2 in Ee; [done|]. by apply (ds_same_willing s1), (ds_same_willing (ds_tried s)), (ds_same_willing s). }
  destruct Hres as (x2 & Hp2 & Hname2 & Hcase).
  assert (ds_proxies s2 !! p = Some x2) as Hp2x by (rewrite Hp2; apply lookup_insert_eq).
  destruct (reserve_inactive_run p x2 s2 name types write_permission operations_ref (Some session) operations) as (s3 & E3 & Hs3 & Hok3); [done|done|congruence|by eexists|by apply andb_prop in Hmay as [_ ?]|].
  eexists _, s3. split; [exact E3|]. split; [done|].
  assert (ds_same s s2) as Hs by by do 2 (etransitivity; [eassumption|]).
  destruct (dp_state x2 =? DATAPROXY_STATE_INACTIVE) eqn:Ei; subst s3.
  - split; [by transitivity s2; [|split]|]. split; [|by eexists]. simpl. rewrite Hp2, insert_insert_eq. apply Z.eqb_eq in Ei. split; [|split; [|split; [exact Hnamed|split; [by eexists|done]]]].
    + destruct Hfrom as [->|(_ & _ & ->)]; [by rewrite Et|]. by rewrite insert_insert_eq, Et.
    + intros q y Hq Hy. assert (q = p) as ->.
      { destruct Hfrom as [->|(-> & Hno & Hins)].
        - apply (one_proxy_per_name (ds_tried s) q p y x); [done|by rewrite Et|done|congruence].
        - apply (one_proxy_per_name s1 q p y (fresh_proxy name)); [done| |done|by rewrite Hy]. rewrite Hins, lookup_insert_ne; [by rewrite Et|]. intros <-. rewrite Et in Hno. congruence. }
      destruct (Hold y Hq) as [_ ->]. destruct (Z.eqb_spec (dp_state x) DATAPROXY_STATE_DROPPED); [by right|]. destruct Hcase as [_ ->]. by left.
  - split; [done|]. destruct (dp_state x =? DATAPROXY_STATE_DROPPED) eqn:Ed; [by rewrite Hcase in Ei|]. destruct Hcase as [-> ->].
    assert (s1 = ds_tried s) as -> by (destruct Hfrom as [|(-> & _)]; [done|by simpl in Ei]). split; [by rewrite Et|].
    intros _ Hun. exfalso. rewrite Et in Hp. destruct (Hun p x Hp Hname) as [E'|E']; rewrite E' in *; done.
Qed.

(** ** Dropped datarefs *)

(** Only the environment and lists change. *)
Record lists_only s s' : Prop := mkListsOnly {
  lo_registry : ds_registry s' = ds_registry s;
  lo_proxies : ds_proxies s' = ds_proxies s;
  lo_calls : ds_calls s' = ds_calls s;
  lo_env : calmer (ds_env s) (ds_env s');
  lo_memory : env_alloc (ds_env s) = [] -> env_alloc (ds_env s') = [];
}.

#[export] Instance lists_only_preorder : PreOrder lists_only.
Proof. split; [by intros s; split|]. intros s1 s2 s3 [] []. split; [congruence..|by etransitivity|auto]. Qed.

Lemma lists_only_same s s' : lists_only s s' -> ds_same s s'.
Proof. intros [E _ _ ? _]. by split; rewrite ?E. Qed.

Lemma lists_only_ok s s' : lists_only s s' -> datarefs_ok s -> datarefs_ok s'.
Proof. intros [E ? ? _ _]. by apply datarefs_ok_same; rewrite ?E. Qed.

Lemma lists_only_tried s : lists_only s (ds_tried s).
Proof.
  destruct (ds_tried_same s) as (? & ? & _ & ?). split; [done..|apply ds_tried_calmer|]. unfold ds_tried. by destruct (dr_destruction_pending _).
Qed.

Lemma lists_only_locked s s' : lists_only s s' -> lists_only (ds_locked s) (ds_locked s').
Proof. intros [E ? ? ? ?]. split; simpl; [by rewrite E|done..]. Qed.

Lemma on_ds_list_eq {A} (m : M (pheap loc unit) A) s a h : m (ds_heap s) = Some (a, h) -> on_ds_list m s = Some (a, set_ds_heap h s).
Proof. intros E. unfold on_ds_list, zoom. by rewrite E. Qed.

Lemma ds_heap_lists s h : calmer (ds_env s) (ph_env h) -> (env_alloc (ds_env s) = [] -> env_alloc (ph_env h) = []) -> lists_only s (set_ds_heap h s).
Proof. by split. Qed.

(** The proxies of hash map items that have a state. *)
Definition in_state (m : gmap loc (dataproxy_t F)) (state : Z) (item : hashmap_item_t loc) : option loc :=
  p ← value item; x ← m !! p; if dp_state x =? state then Some p else None.

Definition listed (items : gmap loc (prealloc_list_item_t loc unit)) l (proxies : list loc) : Prop :=
  exists ps, prep items l ps /\ ps.*2 = (fun p => Live (Some p)) <$> proxies.

Lemma append_with_state_run state hitems : forall s l qs,
  (forall item p, item ∈ hitems -> value item = Some p -> is_Some (ds_proxies s !! p)) -> listed (ds_items s) l qs ->
  exists r s', append_with_state state hitems l s = Some (r, s') /\ lists_only s s' /\
    (forall l', r = Some l' -> listed (ds_items s') l' (qs ++ omap (in_state (ds_proxies s) state) hitems)) /\
    (env_alloc (ds_env s) = [] -> is_Some r).
Proof.
  induction hitems as [|item hitems IH]; intros s l qs Hv Hl.
  { exists (Some l), s. split; [done|]. split; [done|]. simpl. split; [intros ? [= <-]; by rewrite app_nil_r|done]. }
  assert (forall i p, i ∈ hitems -> value i = Some p -> is_Some (ds_proxies s !! p)) as Hv' by (intros i p Hi; apply Hv; by right).
  cbn [append_with_state omap list_omap]. unfold in_state at 1. destruct (value item) as [p|] eqn:Hval; [|by apply IH].
  destruct (Hv item p ltac:(by left) Hval) as [x Hp]. erewrite bind_eq by (apply load_dataproxy_eq; exact Hp). simpl. rewrite Hp. simpl.
  destruct (dp_state x =? state); [|by apply IH]. destruct Hl as (ps & Hr & Hps).
  destruct (prealloc_list_append_run (ds_heap s) l ps (Some p) Hr) as (ok & l' & m' & e' & E & Ha & _ & _ & Hok).
  assert (lists_only s (set_ds_heap (mkPHeap m' [] e') s)) as Hlo.
  { apply ds_heap_lists; [|intros H0; by apply Ha]. exact (heap_append _ _ _ _ _ E). }
  erewrite bind_eq by by apply on_ds_list_eq. cbv beta iota. destruct ok.
  - destruct Hok as (i & _ & Hr').
    destruct (IH (set_ds_heap (mkPHeap m' [] e') s) l' (qs ++ [p])) as (r & s' & E' & Hs' & Hl' & Hw); [exact Hv'| |].
    { exists (ps ++ [(i, Live (Some p))]). split; [exact Hr'|]. by rewrite !fmap_app, Hps. }
    exists r, s'. split; [exact E'|]. split; [by etransitivity|]. split; [|intros H0; by apply Hw, Hlo].
    intros l2 H2. rewrite <-app_assoc in Hl'. by apply Hl'.
  - destruct Hok as [-> ->]. destruct (destroy_preallocated_list_run (mkPHeap (ds_items s) [] e') l ps None PREALLOC_LIST_OVERRIDE_DEFERRED_DESTRUCTORS Hr) as (m2 & E2 & _).
    erewrite bind_eq by by apply (on_ds_list_eq _ (set_ds_heap (mkPHeap (ds_items s) [] e') s)). eexists None, _. split; [reflexivity|].
    split; [etransitivity; [exact Hlo|by apply ds_heap_lists]|]. split; [done|]. intros H0. by destruct (Ha H0).
Qed.

(** The dropped proxies are unregistered, one after the other. *)
Definition only_unregistered (qs : list loc) s s' : Prop :=
  forall p, ds_proxies s' !! p = ds_proxies s !! p \/
    exists x, p ∈ qs /\ ds_proxies s !! p = Some x /\ dp_state x = DATAPROXY_STATE_DROPPED /\ ds_proxies s' !! p = Some (dp_released x).

Lemma only_unregistered_there qs s s' p : only_unregistered qs s s' -> is_Some (ds_proxies s !! p) -> is_Some (ds_proxies s' !! p).
Proof. intros H' Hp. destruct (H' p) as [->|(x & _ & _ & _ & ->)]; [done|by eexists]. Qed.

Lemma only_unregistered_trans qs1 qs2 s1 s2 s3 : (forall q, q ∈ qs1 -> q ∈ qs2) ->
  only_unregistered qs1 s1 s2 -> only_unregistered qs2 s2 s3 -> only_unregistered qs2 s1 s3.
Proof.
  intros Hq H1 H2 p. destruct (H1 p) as [E1|(x & Hin & Hp & Hst & E1)], (H2 p) as [E2|(y & Hin2 & Hp2 & Hst2 & E2)].
  - left. congruence.
  - right. exists y. by rewrite <-E1.
  - right. exists x. rewrite E2, E1. split_and!; auto.
  - rewrite E1 in Hp2. injection Hp2 as <-. done.
Qed.

Definition dropped_at s p : Prop := exists x, ds_proxies s !! p = Some x /\ dp_state x = DATAPROXY_STATE_DROPPED.

Lemma only_unregistered_drops qs s s' p : only_unregistered qs s s' -> dropped_at s' p -> dropped_at s p.
Proof. intros Hs (x & Hp & Hst). destruct (Hs p) as [E|(y & _ & _ & _ & E)]; [exists x; by rewrite <-E|]. rewrite E in Hp. injection Hp as <-. done. Qed.

(** One turn of the loop. *)
Lemma unregister_if_dropped_run p s (out_err : error_t) : datarefs_ok s -> is_Some (ds_proxies s !! p) ->
  exists err s', (x ← load_dataproxy p;
      if dp_state x =? DATAPROXY_STATE_DROPPED then
        err ← unregister_dataproxy (Some p); mret (if negb (err =? ERROR_NONE) then ERROR_UNSPECIFIC else out_err)
      else mret out_err) (ds_locked s) = Some (err, ds_locked s') /\
    datarefs_ok s' /\ ds_same s s' /\ ds_items s' = ds_items s /\ only_unregistered [p] s s' /\
    (ds_willing s -> err = out_err /\ ~ dropped_at s' p).
Proof.
  intros Hok [x Hp]. erewrite bind_eq by (apply load_dataproxy_eq; exact Hp). destruct (dp_state x =? DATAPROXY_STATE_DROPPED) eqn:Hst.
  2:{ exists out_err, s. split_and!; try done; [by left|]. intros _. split; [done|]. intros (y & Hy & Hd). rewrite Hp in Hy. injection Hy as ->. by rewrite Hd in Hst. }
  destruct (ds_tried_same s) as (Et & _ & Ei & _). pose proof (datarefs_ok_tried s Hok) as Hokt.
  pose proof (unregister_locked_eq p x s Hp) as E. change (ds_lock_error (ds_locked s)) with (ds_lock_error s) in E.
  assert (ds_proxies (ds_tried s) !! p = Some x) as Hpt by by rewrite Et.
  destruct (ds_lock_error s =? ERROR_NONE) eqn:El; erewrite bind_eq by exact E; clear E.
  2:{ eexists _, (ds_tried s). split; [reflexivity|]. split; [done|]. split; [apply ds_tried_sames|]. split; [done|].
      split; [intros q; left; by rewrite Et|]. intros Hw. by rewrite (ds_willing_lock s Hw) in El. }
  eexists _, _. split; [reflexivity|]. split; [by apply unregistering_ok|]. split; [etransitivity; [apply ds_tried_sames|apply unregistering_same]|].
  apply Z.eqb_eq in Hst. unfold unregistering. rewrite Hst. cbn. split; [done|]. split.
  - intros q. cbn. destruct (decide (p = q)) as [<-|Hne]; [|left; rewrite lookup_insert_ne; [by rewrite Et|done]].
    right. exists x. rewrite lookup_insert_eq. split; [by left|done].
  - intros _. split; [done|]. intros (y & Hy & Hd). cbn in Hy. rewrite lookup_insert_eq in Hy. injection Hy as <-. done.
Qed.

Lemma unregister_dropped_datarefs_loop_run (R : list (loc * option loc)) : forall fuel qs prev s (out_err : error_t),
  seg (link <$> ds_items s) prev R None -> R.*2 = Some <$> qs -> (forall q, q ∈ qs -> is_Some (ds_proxies s !! q)) -> datarefs_ok s ->
  (length R <= fuel)%nat ->
  exists err s', unregister_dropped_loop fuel (first R None) out_err (ds_locked s) = Some (err, ds_locked s') /\
    datarefs_ok s' /\ ds_same s s' /\ only_unregistered qs s s' /\ (ds_willing s -> err = out_err /\ forall q, q ∈ qs -> ~ dropped_at s' q).
Proof.
  induction R as [|[i v] R IH]; intros fuel qs prev s out_err Hs Hqs Hin Hok Hfuel; destruct qs as [|q qs]; try done.
  - exists out_err, s. split; [by destruct fuel|]. split_and!; try done; [by left|]. intros _. split; [done|]. by intros q ?%elem_of_nil.
  - destruct fuel as [|fuel]; [simpl in Hfuel; lia|]. simpl in Hqs. injection Hqs as -> Hqs. destruct Hs as [Hi Hs].
    rewrite lookup_fmap in Hi. destruct (ds_items s !! i) as [[st w0 d pr nx]|] eqn:Hit; [|done]. unfold link in Hi. simpl in Hi. simplify_eq.
    cbn [first unregister_dropped_loop]. assert (forall s' it, ds_items s' !! i = Some it -> on_ds_list (p_load i) s' = Some (it, s')) as Hload.
    { intros s' it Ht. erewrite (on_ds_list_eq _ _ it (ds_heap s')); [by destruct s'|]. unfold p_load. simpl. by rewrite Ht. }
    erewrite bind_eq by by apply (Hload (ds_locked s)). cbn [p_value].
    destruct (unregister_if_dropped_run q s out_err Hok (Hin q ltac:(by left))) as (err & s1 & E1 & Hok1 & Hs1 & Hi1 & Hu1 & Hw1).
    erewrite bind_eq by exact E1. erewrite bind_eq by (apply (Hload (ds_locked s1)); simpl; by rewrite Hi1). cbn [p_next].
    destruct (IH fuel qs (Some i) s1 err) as (err' & s' & E' & Hok' & Hs' & Hu' & Hw'); [by rewrite Hi1|done| |done|simpl in Hfuel; lia|].
    { intros r Hr. apply (only_unregistered_there [q] s); [done|]. apply Hin. by right. }
    exists err', s'. split; [exact E'|]. split; [done|]. split; [by etransitivity|]. 
    assert (only_unregistered (q :: qs) s1 s') as Hu2.
    { intros p. destruct (Hu' p) as [?|(x & ? & ?)]; [by left|]. right. exists x. split; [by right|done]. }
    split; [apply (only_unregistered_trans [q] (q :: qs) s s1); [intros r ->%list_elem_of_singleton; by left|done|done]|].
    intros Hw. destruct (Hw1 Hw) as [-> Hn]. destruct (Hw' (ds_same_willing _ _ Hs1 Hw)) as [-> Hn']. split; [done|].
    intros r [->|Hr]%elem_of_cons; [|by apply Hn']. intros Hd. by apply Hn, (only_unregistered_drops qs s1 s').
Qed.

Definition ds_unlocked s : datarefs F := set_ds_registry (set_dr_lock (dr_lock (ds_registry s) - 1) (ds_registry s)) s.

Lemma ds_relocked s : ds_locked (ds_unlocked s) = s.
Proof. destruct s as [[pending n m] proxies items calls e]. unfold ds_locked, ds_unlocked, set_ds_registry, set_dr_lock. simpl. do 2 f_equal. lia. Qed.

Lemma ds_unlock_eq s : unlock_dataproxy_registry s = Some (tt, ds_unlocked s).
Proof. rewrite <-(ds_relocked s) at 1. apply ds_unlock_locked. Qed.

Lemma lists_only_unlocked s s' : lists_only (ds_locked s) s' -> lists_only s (ds_unlocked s').
Proof.
  intros [E ? ? ? ?]. split; try done. simpl. rewrite E. simpl. unfold set_dr_lock. simpl. destruct (ds_registry s). simpl. f_equal. lia.
Qed.

(** Neither locks nor memory fail. *)
Definition ds_easy s : Prop := env_alloc (ds_env s) = [] /\ lock_succeeds (ds_env s) /\ dr_destruction_pending (ds_registry s) = false.

Lemma ds_easy_willing s : ds_easy s -> ds_willing s.
Proof. intros (Ha & ? & ?). split; [|done]. unfold plenty. by rewrite Ha. Qed.

Lemma lists_only_easy s s' : lists_only s s' -> ds_easy s -> ds_easy s'.
Proof. intros [E _ _ [_ Hl] Ha] (? & ? & ?). split_and!; [auto..|by rewrite E]. Qed.

Definition all_in_state s (state : Z) : list loc := omap (in_state (ds_proxies s) state) (all_items (dr_by_dataref_name (ds_registry s))).

Lemma item_has_proxy s item p : datarefs_ok s -> item ∈ all_items (dr_by_dataref_name (ds_registry s)) -> value item = Some p -> is_Some (ds_proxies s !! p).
Proof.
  intros Hok Hi Hv. destruct item as [k v]. simpl in Hv. subst v. apply (abs_lookup_item _ _ _ (do_map _ Hok)) in Hi.
  destruct (do_found _ Hok k _ Hi) as (q & x & [= <-] & Hq & _). by eexists.
Qed.

Lemma elem_of_all_in_state s state p : datarefs_ok s -> p ∈ all_in_state s state <-> exists x, ds_proxies s !! p = Some x /\ dp_state x = state.
Proof.
  intros Hok. unfold all_in_state. rewrite list_elem_of_omap. split.
  - intros (item & _ & E). unfold in_state in E. destruct (value item) as [q|]; simpl in E; [|done]. destruct (ds_proxies s !! q) as [x|] eqn:Hq; simpl in E; [|done].
    destruct (Z.eqb_spec (dp_state x) state); [|done]. injection E as <-. by exists x.
  - intros (x & Hp & <-). destruct (do_named _ Hok p x Hp) as (_ & n & _ & Hv). apply (abs_lookup_item _ _ _ (do_map _ Hok)) in Hv.
    eexists. split; [exact Hv|]. unfold in_state. simpl. by rewrite Hp; simpl; rewrite Z.eqb_refl.
Qed.

Lemma list_dataproxies_run s state : datarefs_ok s ->
  exists r s', list_dataproxies_with_state state s = Some (r, s') /\ lists_only s s' /\
    (forall l, r = Some l -> listed (ds_items s') l (all_in_state s state)) /\ (ds_easy s -> is_Some r).
Proof.
  intros Hok. unfold list_dataproxies_with_state.
  destruct (create_preallocated_list_run (ds_heap s)) as (r & h & E & Hcalls & Ha & Hr).
  assert (lists_only s (set_ds_heap h s)) as Hlo.
  { apply ds_heap_lists; [exact (heap_create _ _ _ E)|intros H0; by apply Ha]. }
  erewrite bind_eq by by apply on_ds_list_eq. destruct r as [l|].
  2:{ eexists None, _. split; [reflexivity|]. split; [exact Hlo|]. split; [done|]. intros (H0 & _). by destruct (Ha H0). }
  set (s1 := set_ds_heap h s) in *. destruct Hr as (Hr & _). erewrite bind_eq by apply lock_datarefs_eq.
  pose proof (lists_only_tried s1) as Ht. destruct (ds_tried_same s1) as (Et & Er & Ei & _). pose proof (lists_only_ok _ _ Hlo Hok) as Hok1.
  destruct (ds_lock_error s1 =? ERROR_NONE) eqn:El; red_if.
  2:{ destruct (destroy_preallocated_list_run (ds_heap (ds_tried s1)) l [] None PREALLOC_LIST_OVERRIDE_DEFERRED_DESTRUCTORS) as (m & E2 & _); [by simpl; rewrite Ei|].
      erewrite bind_eq by by apply on_ds_list_eq. eexists None, _. split; [reflexivity|].
      split; [etransitivity; [exact Hlo|]; etransitivity; [exact Ht|by apply ds_heap_lists]|]. split; [done|].
      intros He. by rewrite (ds_willing_lock s1) in El by by apply ds_easy_willing, (lists_only_easy s). }
  erewrite bind_eq by reflexivity.
  destruct (append_with_state_run state (all_items (dr_by_dataref_name (ds_registry (ds_locked (ds_tried s1))))) (ds_locked (ds_tried s1)) l [])
    as (r & s2 & E2 & Hs2 & Hl & Hw).
  { intros item p. apply (item_has_proxy (ds_locked (ds_tried s1))), datarefs_ok_locked, datarefs_ok_tried, Hok1. }
  { exists []. split; [|done]. simpl. by rewrite Ei. }
  erewrite bind_eq by exact E2. erewrite bind_eq by apply ds_unlock_eq.
  exists r, (ds_unlocked s2). split; [done|]. split; [etransitivity; [exact Hlo|]; etransitivity; [exact Ht|by apply lists_only_unlocked]|].
  split; [|intros He; apply Hw, (lists_only_easy s1 _ Ht), (lists_only_easy s _ Hlo He)].
  intros l2 H2. specialize (Hl l2 H2). simpl in Hl. rewrite Er, Et in Hl. exact Hl.
Qed.

(** After an attempt to unregister the dropped proxies, only such have changed; none is
    left if nothing failed. *)
Lemma unregister_dropped_datarefs_run s : datarefs_ok s ->
  exists err s', unregister_dropped_dataproxies s = Some (err, s') /\ datarefs_ok s' /\ ds_same s s' /\ only_unregistered (all_in_state s DATAPROXY_STATE_DROPPED) s s' /\
    (ds_easy s -> err = ERROR_NONE /\ forall p, ~ dropped_at s' p).
Proof.
  intros Hok. unfold unregister_dropped_dataproxies. erewrite bind_eq by apply lock_datarefs_eq.
  pose proof (lists_only_tried s) as Ht. pose proof (lists_only_ok _ _ Ht Hok) as Hokt.
  assert (forall s', lists_only s s' -> only_unregistered (all_in_state s DATAPROXY_STATE_DROPPED) s s') as Hsame by (intros s' Hs' p; left; by rewrite (lo_proxies _ _ Hs')).
  destruct (ds_lock_error s =? ERROR_NONE) eqn:El; red_if.
  2:{ eexists _, _. split; [reflexivity|]. split; [done|]. split; [by apply lists_only_same|]. split; [by apply Hsame|].
      intros He. by rewrite (ds_willing_lock s (ds_easy_willing _ He)) in El. }
  destruct (list_dataproxies_run (ds_locked (ds_tried s)) DATAPROXY_STATE_DROPPED) as (r & s1 & E1 & Hs1 & Hl & Hw1); [by apply datarefs_ok_locked|].
  erewrite bind_eq by exact E1. pose proof (lists_only_unlocked _ _ Hs1) as Hs1'.
  assert (lists_only s (ds_unlocked s1)) as Hs by by etransitivity.
  destruct r as [l|].
  2:{ erewrite bind_eq by apply ds_unlock_eq. eexists _, _. split; [reflexivity|]. split; [by apply (lists_only_ok s)|].
      split; [by apply lists_only_same|]. split; [by apply Hsame|]. intros He. destruct Hw1 as [??]; [exact (lists_only_easy _ _ Ht He)|done]. }
  destruct (Hl l eq_refl) as (ps & Hr & Hps).
  assert (all_in_state (ds_locked (ds_tried s)) DATAPROXY_STATE_DROPPED = all_in_state s DATAPROXY_STATE_DROPPED) as Eall.
  { unfold all_in_state. simpl. by rewrite (lo_proxies _ _ Ht), (lo_registry _ _ Ht). }
  rewrite Eall in Hps. set (qs := all_in_state s DATAPROXY_STATE_DROPPED) in *.
  assert ((live ps).*2 = Some <$> qs) as Hlive.
  { clear -Hps. revert Hps. generalize qs as qs'. induction ps as [|[q e] ps IH]; intros [|q' qs'] [=]; [done|]. subst e. simpl. f_equal. by apply IH. }
  destruct (unregister_dropped_datarefs_loop_run (live ps) (Z.to_nat (p_size l)) qs None (ds_unlocked s1) ERROR_NONE) as (err & s2 & E2 & Hok2 & Hs2 & Hu2 & Hw2);
    [exact (prep_seg _ _ _ Hr)|exact Hlive| |by apply (lists_only_ok s)|rewrite (prep_size _ _ _ Hr); lia|].
  { intros q (x & Hq & _)%(elem_of_all_in_state s); [|done]. rewrite (lo_proxies _ _ Hs). by eexists. }
  rewrite (prep_first _ _ _ Hr). rewrite ds_relocked in E2. erewrite bind_eq by exact E2. erewrite bind_eq by apply ds_unlock_locked.
  exists err, s2. split; [done|]. split; [done|]. split; [etransitivity; [by apply lists_only_same|done]|].
  assert (only_unregistered qs s s2) as Hu.
  { intros p. destruct (Hu2 p) as [E|E]; rewrite (lo_proxies _ _ Hs) in E; [by left|by right]. }
  split; [exact Hu|]. intros He. destruct Hw2 as [-> Hn]; [by apply ds_easy_willing, (lists_only_easy s)|]. split; [done|].
  intros p Hd. apply (Hn p); [|done]. apply (elem_of_all_in_state s); [done|]. by apply (only_unregistered_drops qs s s2).
Qed.
End Lifecycle.
