(* ===== verification/DatarefSystem.v ===== *)
(** The registry of hosted datarefs in use ([Dataproxy], [DataproxyLifecycle]):
    sessions reserve, register, drop and release datarefs, maintenance unregisters
    what was dropped, and sessions and X-Plane write to them. *)

From S2P Require Import Prelude CLib Utils Hashmap Lists Prealloc Protocol Dataproxy DataproxyLifecycle.

(** * The registry in use *)

(** The operations on a registry; a proxy is referred to once it has been reserved. *)
Inductive dataref_op (F : Type) :=
  | ReserveDataproxy (dataref_name : cstr) (types write_permission : Z) (operations_ref session : option loc) (operations : dataproxy_operations_t F)
  | RegisterDataproxy (proxy : loc)
  | UnregisterDataproxy (proxy : loc)
  | DropDataproxy (proxy : loc)
  | ReleaseDataproxy (proxy : loc)
  | UnregisterDropped.
Arguments ReserveDataproxy {F}.
Arguments RegisterDataproxy {F}.
Arguments UnregisterDataproxy {F}.
Arguments DropDataproxy {F}.
Arguments ReleaseDataproxy {F}.
Arguments UnregisterDropped {F}.

Section System.
Context `{DataTypes} {F : Type} (XPLMRegisterDataAccessor_result : list accessor_call -> cstr -> Z -> Z).
Implicit Types (s : datarefs F) (x : dataproxy_t F) (p : loc) (op : dataref_op F).

Definition perform_dataref op : M (datarefs F) (error_t + option loc) :=
  match op with
  | ReserveDataproxy name types write_permission operations_ref session operations =>
      r ← reserve_dataproxy (Some name) types write_permission operations_ref session operations; mret (inr r)
  | RegisterDataproxy p => err ← register_dataproxy XPLMRegisterDataAccessor_result (Some p); mret (inl err)
  | UnregisterDataproxy p => err ← unregister_dataproxy (Some p); mret (inl err)
  | DropDataproxy p => err ← drop_dataproxy (Some p); mret (inl err)
  | ReleaseDataproxy p => err ← release_dataproxy (Some p); mret (inl err)
  | UnregisterDropped => err ← unregister_dropped_dataproxies; mret (inl err)
  end.

Definition op_proxy op : option loc :=
  match op with
  | RegisterDataproxy p | UnregisterDataproxy p | DropDataproxy p | ReleaseDataproxy p => Some p
  | ReserveDataproxy _ _ _ _ _ _ | UnregisterDropped => None
  end.

(** Names are C strings, and proxies come from the registry. *)
Definition op_valid op s : Prop :=
  (forall p, op_proxy op = Some p -> is_Some (ds_proxies s !! p)) /\
  match op with ReserveDataproxy name _ _ _ _ _ => no_nul name | _ => True end.

(** From a new registry. *)
Inductive datarefs_reachable : datarefs F -> Prop :=
  | datarefs_new m items e : Hashmap.wf m -> abs m = ∅ -> datarefs_reachable (mkDatarefs (mkDpRegistry false 0 m) ∅ items [] e)
  | datarefs_step op s r s' : datarefs_reachable s -> op_valid op s -> perform_dataref op s = Some (r, s') -> datarefs_reachable s'.

Lemma datarefs_new_ok m items e : Hashmap.wf m -> abs m = ∅ -> datarefs_ok (mkDatarefs (mkDpRegistry false 0 m) (∅ : gmap loc (dataproxy_t F)) items [] e).
Proof.
  intros Hm Ha. split; simpl; [done| | |].
  - intros name v. by rewrite Ha.
  - by intros p x.
  - exists ∅. split; [done|]. intros r a. split; [done|]. by intros (p & x & ? & _).
Qed.

(** ** What a step does *)

(** How a proxy may change; [None] if there was none. *)
Inductive proxy_edge : dataref_op F -> loc -> option (dataproxy_t F) -> dataproxy_t F -> Prop :=
  | edge_reserve p old name types write_permission operations_ref session operations :
      (forall x, old = Some x -> dp_dataref_name x = Some name /\ (dp_state x = DATAPROXY_STATE_INACTIVE \/ dp_state x = DATAPROXY_STATE_DROPPED)) ->
      may_reserve types write_permission operations = true ->
      proxy_edge (ReserveDataproxy name types write_permission operations_ref (Some session) operations) p old
        (reserved_proxy name types write_permission operations_ref (Some session) operations)
  | edge_register p x r : dp_state x = DATAPROXY_STATE_RESERVED -> r <> NO_XP_DATAREF ->
      proxy_edge (RegisterDataproxy p) p (Some x) (set_dp_state DATAPROXY_STATE_REGISTERED (set_dp_xp_dataref r x))
  | edge_unregister p x : dp_state x = DATAPROXY_STATE_REGISTERED -> proxy_edge (UnregisterDataproxy p) p (Some x) (dp_unregistered x)
  | edge_unregister_dropped p x : dp_state x = DATAPROXY_STATE_DROPPED -> proxy_edge (UnregisterDataproxy p) p (Some x) (dp_released x)
  | edge_maintenance p x : dp_state x = DATAPROXY_STATE_DROPPED -> proxy_edge UnregisterDropped p (Some x) (dp_released x)
  | edge_drop p x : dp_state x = DATAPROXY_STATE_REGISTERED -> proxy_edge (DropDataproxy p) p (Some x) (dp_dropped x)
  | edge_release p x : dp_state x = DATAPROXY_STATE_RESERVED -> proxy_edge (ReleaseDataproxy p) p (Some x) (dp_released x).

(** The error of an operation on a proxy. *)
Definition unlocked_error op s x : error_t :=
  match op with
  | RegisterDataproxy _ =>
      if negb (dp_state x =? DATAPROXY_STATE_RESERVED) then DATAPROXY_ERROR_INVALID_STATE
      else if XPLMRegisterDataAccessor_result (ds_calls s) (default [] (dp_dataref_name x)) (dp_types x) =? NO_XP_DATAREF
      then DATAPROXY_ERROR_REGISTRATION_FAILED else ERROR_NONE
  | UnregisterDataproxy _ =>
      if (dp_state x =? DATAPROXY_STATE_REGISTERED) || (dp_state x =? DATAPROXY_STATE_DROPPED) then ERROR_NONE else DATAPROXY_ERROR_INVALID_STATE
  | DropDataproxy _ => if dp_state x =? DATAPROXY_STATE_REGISTERED then ERROR_NONE else DATAPROXY_ERROR_INVALID_STATE
  | ReleaseDataproxy _ => if dp_state x =? DATAPROXY_STATE_RESERVED then ERROR_NONE else DATAPROXY_ERROR_INVALID_STATE
  | ReserveDataproxy _ _ _ _ _ _ | UnregisterDropped => ERROR_NONE
  end.
Definition op_error op s x : error_t := if ds_lock_error s =? ERROR_NONE then unlocked_error op s x else ds_lock_error s.

Definition proxy_promise op p (err : error_t) s s' : Prop :=
  exists x, ds_proxies s !! p = Some x /\ err = op_error op s x /\
    if err =? ERROR_NONE then exists x', proxy_edge op p (Some x) x' /\ ds_proxies s' = <[p := x']> (ds_proxies s)
    else ds_proxies s' = ds_proxies s.

(** What the operations promise. *)
Definition dataref_promise op (r : error_t + option loc) s s' : Prop :=
  match op with
  | ReserveDataproxy name types write_permission operations_ref session operations =>
      exists o, r = inr o /\ reservation s o s' name types write_permission operations_ref session operations /\
        (ds_willing s -> unowned s name -> is_Some session -> may_reserve types write_permission operations = true -> is_Some o)
  | RegisterDataproxy p | UnregisterDataproxy p | DropDataproxy p | ReleaseDataproxy p => exists err, r = inl err /\ proxy_promise op p err s s'
  | UnregisterDropped =>
      exists err, r = inl err /\ only_unregistered (all_in_state s DATAPROXY_STATE_DROPPED) s s' /\ (ds_easy s -> err = ERROR_NONE /\ forall p, ~ dropped_at s' p)
  end.

(** An operation on a proxy, from what it does once the registry is locked. *)
Lemma proxy_op_run (m : M (datarefs F) error_t) op p x s o : ds_proxies s !! p = Some x -> datarefs_ok s ->
  m s = Some (locked_outcome s o) -> datarefs_ok o.2 -> ds_same (ds_tried s) o.2 -> o.1 = unlocked_error op s x ->
  (if o.1 =? ERROR_NONE then exists x', proxy_edge op p (Some x) x' /\ ds_proxies o.2 = <[p := x']> (ds_proxies s) else ds_proxies o.2 = ds_proxies s) ->
  exists r s', (err ← m; mret (inl err : error_t + option loc)) s = Some (r, s') /\ datarefs_ok s' /\ ds_same s s' /\
    exists err, r = inl err /\ proxy_promise op p err s s'.
Proof.
  intros Hp Hok E Ho Hs He Hc. rewrite (surjective_pairing (locked_outcome s o)) in E. erewrite bind_eq by exact E. eexists _, _. split; [reflexivity|].
  unfold locked_outcome, proxy_promise, op_error. destruct (ds_tried_same s) as (Et & _). pose proof (ds_tried_sames s) as Hts.
  destruct (ds_lock_error s =? ERROR_NONE) eqn:El.
  - split; [done|]. split; [by etransitivity|]. eexists. split; [done|]. exists x. rewrite <-He. by destruct o.
  - split; [by apply datarefs_ok_tried|]. split; [done|]. eexists. split; [done|]. exists x. cbn [fst]. rewrite El. done.
Qed.

Lemma set_no_dataref x : dp_xp_dataref x = NO_XP_DATAREF -> set_dp_xp_dataref NO_XP_DATAREF x = x.
Proof. destruct x. simpl. by intros ->. Qed.

Lemma registered_run s p x : new_datarefs XPLMRegisterDataAccessor_result -> datarefs_ok s -> ds_proxies s !! p = Some x ->
  let o := registering_dataref XPLMRegisterDataAccessor_result p x (ds_tried s) in
  datarefs_ok o.2 /\ ds_same (ds_tried s) o.2 /\ o.1 = unlocked_error (RegisterDataproxy p) s x /\
  (if o.1 =? ERROR_NONE then exists x', proxy_edge (RegisterDataproxy p) p (Some x) x' /\ ds_proxies o.2 = <[p := x']> (ds_proxies s)
   else ds_proxies o.2 = ds_proxies s).
Proof.
  intros Hnew Hok Hp o. destruct (ds_tried_same s) as (Et & _ & _ & Ec). split; [apply registering_dataref_ok; [done|by apply datarefs_ok_tried|by rewrite Et]|].
  unfold o, registering_dataref. cbn [unlocked_error]. rewrite Ec. destruct (Z.eqb_spec (dp_state x) DATAPROXY_STATE_RESERVED) as [Hst|]; red_if; [|by split_and!].
  set (r := XPLMRegisterDataAccessor_result _ _ _). destruct (Z.eqb_spec r NO_XP_DATAREF) as [Er|Er]; cbn [fst snd]; split_and!; try done; red_if; simpl; rewrite ?Et.
  - rewrite Er, set_no_dataref; [by apply insert_id|]. apply (no_dataref x); [apply (do_named _ Hok p x Hp)|by right].
  - eexists. split; [by apply edge_register|done].
Qed.

Lemma unregistered_run s p x : datarefs_ok s -> ds_proxies s !! p = Some x ->
  let o := unregistering p x (ds_tried s) in
  datarefs_ok o.2 /\ ds_same (ds_tried s) o.2 /\ o.1 = unlocked_error (UnregisterDataproxy p) s x /\
  (if o.1 =? ERROR_NONE then exists x', proxy_edge (UnregisterDataproxy p) p (Some x) x' /\ ds_proxies o.2 = <[p := x']> (ds_proxies s)
   else ds_proxies o.2 = ds_proxies s).
Proof.
  intros Hok Hp o. destruct (ds_tried_same s) as (Et & _). split; [apply unregistering_ok; [by apply datarefs_ok_tried|by rewrite Et]|].
  split; [apply unregistering_same|]. unfold o, unregistering. cbn [unlocked_error].
  destruct (Z.eqb_spec (dp_state x) DATAPROXY_STATE_REGISTERED); [|destruct (Z.eqb_spec (dp_state x) DATAPROXY_STATE_DROPPED)];
    cbn; rewrite ?Et; (split; [done|]); [..|done]; eexists; (split; [|done]); by constructor.
Qed.

Lemma dropped_run s p x : datarefs_ok s -> ds_proxies s !! p = Some x ->
  let o := dropping p x (ds_tried s) in
  datarefs_ok o.2 /\ ds_same (ds_tried s) o.2 /\ o.1 = unlocked_error (DropDataproxy p) s x /\
  (if o.1 =? ERROR_NONE then exists x', proxy_edge (DropDataproxy p) p (Some x) x' /\ ds_proxies o.2 = <[p := x']> (ds_proxies s)
   else ds_proxies o.2 = ds_proxies s).
Proof.
  intros Hok Hp o. destruct (ds_tried_same s) as (Et & _). split; [apply dropping_ok; [by apply datarefs_ok_tried|by rewrite Et]|].
  unfold o, dropping. cbn [unlocked_error]. destruct (Z.eqb_spec (dp_state x) DATAPROXY_STATE_REGISTERED); red_if; cbn; rewrite ?Et; split_and!; try done.
  eexists. split; [by constructor|done].
Qed.

Lemma released_run s p x : datarefs_ok s -> ds_proxies s !! p = Some x ->
  let o := releasing p x (ds_tried s) in
  datarefs_ok o.2 /\ ds_same (ds_tried s) o.2 /\ o.1 = unlocked_error (ReleaseDataproxy p) s x /\
  (if o.1 =? ERROR_NONE then exists x', proxy_edge (ReleaseDataproxy p) p (Some x) x' /\ ds_proxies o.2 = <[p := x']> (ds_proxies s)
   else ds_proxies o.2 = ds_proxies s).
Proof.
  intros Hok Hp o. destruct (ds_tried_same s) as (Et & _). split; [apply releasing_ok; [by apply datarefs_ok_tried|by rewrite Et]|].
  unfold o, releasing. cbn [unlocked_error]. destruct (Z.eqb_spec (dp_state x) DATAPROXY_STATE_RESERVED); red_if; cbn; rewrite ?Et; split_and!; try done.
  eexists. split; [by constructor|done].
Qed.

Lemma perform_dataref_run op s : new_datarefs XPLMRegisterDataAccessor_result -> datarefs_ok s -> op_valid op s ->
  exists r s', perform_dataref op s = Some (r, s') /\ datarefs_ok s' /\ ds_same s s' /\ dataref_promise op r s s'.
Proof.
  intros Hnew Hok [Hproxy Hname]. destruct op as [name types wp ref session ops|p|p|p|p|]; cbn [perform_dataref dataref_promise];
    try (destruct (Hproxy p eq_refl) as [x Hp]).
  - destruct (reserve_dataproxy_run s name types wp ref session ops Hok Hname) as (o & s' & E & Hok' & Hs & Hr & Hw).
    erewrite bind_eq by exact E. exists (inr o), s'. split_and!; [done..|]. by exists o.
  - destruct (registered_run s p x Hnew Hok Hp) as (? & ? & ? & ?).
    eapply proxy_op_run; [exact Hp|exact Hok|apply register_dataproxy_eq; [done|apply (do_named _ Hok p x Hp)]|done..].
  - destruct (unregistered_run s p x Hok Hp) as (? & ? & ? & ?). by eapply proxy_op_run; [exact Hp|exact Hok|by apply unregister_dataproxy_eq|..].
  - destruct (dropped_run s p x Hok Hp) as (? & ? & ? & ?). by eapply proxy_op_run; [exact Hp|exact Hok|by apply drop_dataproxy_eq|..].
  - destruct (released_run s p x Hok Hp) as (? & ? & ? & ?). by eapply proxy_op_run; [exact Hp|exact Hok|by apply release_dataproxy_eq|..].
  - destruct (unregister_dropped_datarefs_run s Hok) as (err & s' & E & Hok' & Hs & Hu & Hw). erewrite bind_eq by exact E.
    exists (inl err), s'. split_and!; [done..|]. by exists err.
Qed.

Lemma datarefs_reachable_ok s : new_datarefs XPLMRegisterDataAccessor_result -> datarefs_reachable s -> datarefs_ok s /\ dr_lock (ds_registry s) = 0 /\ dr_destruction_pending (ds_registry s) = false.
Proof.
  intros Hnew. induction 1 as [m items e Hm Ha|op s r s' _ (Hok & Hl & Hp) Hv E]; [split; [by apply datarefs_new_ok|done]|].
  destruct (perform_dataref_run op s Hnew Hok Hv) as (r2 & s2 & E2 & Hok2 & [Hl2 Hp2 _] & _). rewrite E in E2. injection E2 as -> ->.
  split; [done|]. by rewrite Hl2, Hp2.
Qed.
End System.

(** * Access *)

Section Access.
Context `{DataTypes} {F : Type}.
Implicit Types (s : datarefs F) (x : dataproxy_t F) (p : loc) (session : option loc) (type : Z).

Definition permits x session : bool :=
  (dp_write_permission x =? DATAPROXY_PERMISSION_ALL)
  || (given session && ((dp_write_permission x =? DATAPROXY_PERMISSION_XPRC) || bool_decide (session = dp_owner_session x))).

(** What a write to a proxy comes to: an error, or the setter that runs. *)
Definition write_decision x type (operation : dataproxy_operations_t F -> option F) session : error_t + F * option loc :=
  if negb (dp_state x =? DATAPROXY_STATE_REGISTERED) then inl DATAPROXY_ERROR_INVALID_STATE
  else if negb (permits x session) then inl DATAPROXY_ERROR_PERMISSION_DENIED
  else match operation (dp_operations x), offers_type x type with
       | Some setter, true => inr (setter, dp_operations_ref x)
       | _, _ => inl DATAPROXY_ERROR_UNSUPPORTED_TYPE
       end.

Definition locks s : Prop := lock_succeeds (ds_env s) /\ dr_destruction_pending (ds_registry s) = false.

Lemma locks_error s : locks s -> ds_lock_error s = ERROR_NONE.
Proof. intros [Hl Hp]. unfold ds_lock_error. by rewrite Hp, lock_succeeds_next. Qed.

Lemma locks_tried s : locks s -> locks (ds_tried s).
Proof. intros [Hl Hp]. destruct (ds_tried_sames s) as [_ E [_ Hc]]. split; [auto|congruence]. Qed.

(** Locks are all that was used. *)
Definition only_locks (e e' : env) : Prop := calmer e e' /\ env_alloc e' = env_alloc e.

Lemma ds_tried_locks s : exists e, ds_tried s = set_ds_env e s /\ only_locks (ds_env s) e.
Proof.
  unfold ds_tried. destruct (dr_destruction_pending _); [exists (ds_env s); by destruct s|]. eexists. split; [done|]. split; [|done]. split; [done|apply lock_succeeds_rest].
Qed.

Lemma ds_tried_env s : exists e, ds_tried s = set_ds_env e s.
Proof. destruct (ds_tried_locks s) as (e & E & _). by exists e. Qed.

Lemma can_write_eq p x session s : ds_proxies s !! p = Some x -> dp_state x = DATAPROXY_STATE_REGISTERED ->
  dataproxy_can_write (Some p) session s = Some (if ds_lock_error s =? ERROR_NONE then permits x session else false, ds_tried s).
Proof.
  intros Hp Hst. unfold dataproxy_can_write. erewrite bind_eq by (apply lock_dataproxy_eq; by eexists).
  assert (ds_proxies (ds_tried s) !! p = Some x) as Hpt by by rewrite (proj1 (ds_tried_same s)).
  destruct (ds_lock_error s =? ERROR_NONE) eqn:El; red_if; [|done]. erewrite bind_eq by reflexivity.
  erewrite bind_eq by (apply load_dataproxy_eq; exact Hpt). cbv zeta.
  erewrite bind_eq by (apply (unlock_dataproxy_eq p (ds_tried s)); by eexists). by rewrite Hst.
Qed.

(** The checks leave everything as it was; they err on the side of refusing. *)
Lemma checked_setter_run p x type operation session s : ds_proxies s !! p = Some x ->
  exists r e, checked_setter (Some p) type operation session s = Some (r, set_ds_env e s) /\ only_locks (ds_env s) e /\
    (forall setter, r = inr setter -> write_decision x type operation session = inr setter) /\ r <> inl ERROR_NONE /\
    (locks s -> r = write_decision x type operation session).
Proof.
  intros Hp. unfold checked_setter, write_decision. erewrite bind_eq by (apply lock_dataproxy_eq; by eexists).
  destruct (ds_tried_locks s) as (e1 & E1 & Hl1). assert (ds_proxies (ds_tried s) !! p = Some x) as Hpt by by rewrite (proj1 (ds_tried_same s)).
  destruct (ds_lock_error s =? ERROR_NONE) eqn:El; red_if.
  2:{ eexists _, e1. rewrite E1. split; [reflexivity|]. split; [done|]. split; [done|]. split; [intros [= E]; by rewrite E in El|]. intros Hl. by rewrite locks_error in El. }
  erewrite bind_eq by reflexivity. erewrite bind_eq by (apply load_dataproxy_eq; exact Hpt).
  destruct (Z.eqb_spec (dp_state x) DATAPROXY_STATE_REGISTERED) as [Hst|Hst]; red_if.
  2:{ erewrite bind_eq by reflexivity. erewrite bind_eq by (apply (unlock_dataproxy_eq p (ds_tried s)); by eexists). rewrite E1. by eexists _, e1. }
  assert (ds_proxies (ds_tried (ds_tried s)) !! p = Some x) as Hptt by by rewrite (proj1 (ds_tried_same _)).
  destruct (ds_tried_locks (ds_tried s)) as (e2 & E2 & Hl2). assert (ds_tried (ds_tried s) = set_ds_env e2 s) as Ett by by rewrite E2, E1.
  set (permitted := if ds_lock_error (ds_tried s) =? ERROR_NONE then permits x session else false).
  set (r := if negb permitted then inl DATAPROXY_ERROR_PERMISSION_DENIED
            else match operation (dp_operations x), offers_type x type with
                 | Some setter, true => inr (setter, dp_operations_ref x) | _, _ => inl DATAPROXY_ERROR_UNSUPPORTED_TYPE end : error_t + F * option loc).
  erewrite (bind_eq _ _ _ r (ds_locked (ds_tried (ds_tried s)))).
  2:{ erewrite bind_eq by by apply can_write_eq. rewrite ds_tried_locked. change (ds_lock_error (ds_locked (ds_tried s))) with (ds_lock_error (ds_tried s)).
      unfold r. fold permitted. destruct permitted; red_if; [|done]. by destruct (operation _), (offers_type x type). }
  erewrite bind_eq by (apply unlock_dataproxy_eq; by eexists). rewrite Ett. exists r, e2. split; [done|]. split.
  { rewrite E1 in Hl2. destruct Hl1 as [? Ha1], Hl2 as [? Ha2]. split; [by etransitivity|]. by rewrite Ha2, <-Ha1. }
  unfold r, permitted. split; [|split].
  - intros setter. destruct (ds_lock_error (ds_tried s) =? ERROR_NONE); [|done]. by destruct (permits x session).
  - destruct (ds_lock_error (ds_tried s) =? ERROR_NONE); [|done]. destruct (permits x session); [|done]. by destruct (operation _), (offers_type x type).
  - intros Hl. by rewrite locks_error by by apply locks_tried.
Qed.

(** ** Accessors that X-Plane has *)

(** X-Plane was told that it may write exactly those datarefs that it may write. *)
Lemma xplane_may_write x : permits x None = true <-> writable x = 1.
Proof. unfold permits, writable. simpl. rewrite orb_false_r. by destruct (_ =? _). Qed.

Lemma xplane_accessor s p x : datarefs_ok s -> ds_proxies s !! p = Some x -> dp_state x = DATAPROXY_STATE_REGISTERED ->
  exists accs name, accessors (ds_calls s) = Some accs /\ dp_dataref_name x = Some name /\ accs !! dp_xp_dataref x = Some (name, dp_types x, writable x, p).
Proof.
  intros Hok Hp Hst. destruct (do_accessors _ Hok) as (accs & E & Ha). destruct (do_named _ Hok p x Hp) as [Hx (name & Hn & _)].
  exists accs, name. split; [done|]. split; [done|]. apply Ha. exists p, x. split_and!; [done..|apply has_dataref; auto|]. by exists name.
Qed.

Section Program.
Context {V W : Type} (datarefs_of : W -> datarefs F) (with_datarefs : datarefs F -> W -> W).
Context (run_simple_get : F -> option loc -> Z -> V -> M W (error_t * V)).
Context (run_simple_set : F -> option loc -> Z -> V -> option loc -> M W error_t).
Context (run_array_get : F -> option loc -> Z -> list V -> Z -> Z -> Z -> M W (error_t * list V * Z)).
Context (run_array_length : F -> option loc -> Z -> Z -> M W (error_t * Z)).
Context (run_array_update : F -> option loc -> Z -> list V -> Z -> Z -> option loc -> M W error_t).
Context (zero : Z -> V).
(** The registry is a part of the state of the program. *)
Record datarefs_lens : Prop := mkDatarefsLens {
  dl_get : forall r w, datarefs_of (with_datarefs r w) = r;
  dl_put : forall r r' w, with_datarefs r' (with_datarefs r w) = with_datarefs r' w;
}.

Lemma on_datarefs_eq {A} (m : M (datarefs F) A) w a r : m (datarefs_of w) = Some (a, r) -> on_datarefs datarefs_of with_datarefs m w = Some (a, with_datarefs r w).
Proof. intros E. unfold on_datarefs, zoom. by rewrite E. Qed.

(** A proxy that is not registered refuses, unless the registry does. *)
Definition refusal w : error_t := if ds_lock_error (datarefs_of w) =? ERROR_NONE then DATAPROXY_ERROR_INVALID_STATE else ds_lock_error (datarefs_of w).
Definition after_refusal w : W := with_datarefs (ds_tried (datarefs_of w)) w.

Lemma refusal_error w : refusal w <> ERROR_NONE.
Proof. unfold refusal. by destruct (Z.eqb_spec (ds_lock_error (datarefs_of w)) ERROR_NONE). Qed.

Section Refusing.
Context (laws : datarefs_lens) (w : W) (p : loc) (x : dataproxy_t F).
Context (Hp : ds_proxies (datarefs_of w) !! p = Some x) (Hst : dp_state x <> DATAPROXY_STATE_REGISTERED).

Lemma still_there : ds_proxies (ds_tried (datarefs_of w)) !! p = Some x.
Proof. by rewrite (proj1 (ds_tried_same _)). Qed.

Lemma not_registered : (dp_state x =? DATAPROXY_STATE_REGISTERED) = false.
Proof. by apply Z.eqb_neq. Qed.

Lemma od_lock : on_datarefs datarefs_of with_datarefs (lock_dataproxy (Some p)) w =
  Some (ds_lock_error (datarefs_of w), with_datarefs (if ds_lock_error (datarefs_of w) =? ERROR_NONE then ds_locked (ds_tried (datarefs_of w)) else ds_tried (datarefs_of w)) w).
Proof. apply on_datarefs_eq, lock_dataproxy_eq. by eexists. Qed.

Lemma od_load : on_datarefs datarefs_of with_datarefs (load_dataproxy p) (with_datarefs (ds_locked (ds_tried (datarefs_of w))) w) =
  Some (x, with_datarefs (ds_locked (ds_tried (datarefs_of w))) w).
Proof.
  erewrite on_datarefs_eq by (apply load_dataproxy_eq; rewrite (dl_get laws); exact still_there). by rewrite (dl_get laws), (dl_put laws).
Qed.

Lemma od_unlock : on_datarefs datarefs_of with_datarefs (unlock_dataproxy (Some p)) (with_datarefs (ds_locked (ds_tried (datarefs_of w))) w) =
  Some (tt, after_refusal w).
Proof.
  erewrite on_datarefs_eq by (rewrite (dl_get laws); apply unlock_dataproxy_eq; eexists; exact still_there). by rewrite (dl_put laws).
Qed.

Lemma refusing_simple_get type v : is_simple_type type = true ->
  dataproxy_simple_get datarefs_of with_datarefs run_simple_get (Some p) type (Some v) w = Some ((refusal w, Some v), after_refusal w).
Proof.
  intros Ht. unfold dataproxy_simple_get, refusal, after_refusal. rewrite Ht. red_if. erewrite bind_eq by exact od_lock.
  destruct (ds_lock_error (datarefs_of w) =? ERROR_NONE); red_if; [|done]. erewrite bind_eq by reflexivity. erewrite bind_eq by exact od_load.
  rewrite not_registered. red_if. erewrite bind_eq by reflexivity. by erewrite bind_eq by exact od_unlock.
Qed.

Lemma refusing_array_get type values n offset count : is_array_type type = true -> 0 <= offset -> 0 < count ->
  dataproxy_array_get datarefs_of with_datarefs run_array_get (Some p) type (Some values) (Some n) offset count w =
    Some ((refusal w, Some values, Some n), after_refusal w).
Proof.
  intros Ht Ho Hc. unfold dataproxy_array_get, refusal, after_refusal. rewrite Ht.
  replace (offset <? 0) with false by lia. replace (count <? 0) with false by lia. replace (count =? 0) with false by lia. cbn [orb]. red_if.
  erewrite bind_eq by exact od_lock.
  destruct (ds_lock_error (datarefs_of w) =? ERROR_NONE); red_if; [|done]. erewrite bind_eq by reflexivity. erewrite bind_eq by exact od_load.
  rewrite not_registered. red_if. erewrite bind_eq by reflexivity. by erewrite bind_eq by exact od_unlock.
Qed.

Lemma refusing_array_length type n :
  dataproxy_array_length datarefs_of with_datarefs run_array_length (Some p) type (Some n) w = Some ((refusal w, Some 0), after_refusal w).
Proof.
  unfold dataproxy_array_length, refusal, after_refusal. erewrite bind_eq by exact od_lock.
  destruct (ds_lock_error (datarefs_of w) =? ERROR_NONE); red_if; [|done]. erewrite bind_eq by reflexivity. erewrite bind_eq by exact od_load.
  rewrite not_registered. red_if. erewrite bind_eq by reflexivity. by erewrite bind_eq by exact od_unlock.
Qed.

Lemma refusing_setter type operation session : on_datarefs datarefs_of with_datarefs (checked_setter (Some p) type operation session) w =
  Some (inl (refusal w), after_refusal w).
Proof.
  apply on_datarefs_eq. unfold checked_setter, refusal. erewrite bind_eq by (apply lock_dataproxy_eq; by eexists).
  destruct (ds_lock_error (datarefs_of w) =? ERROR_NONE); red_if; [|done]. erewrite bind_eq by reflexivity.
  erewrite bind_eq by (apply load_dataproxy_eq; exact still_there). rewrite not_registered. red_if. erewrite bind_eq by reflexivity.
  by erewrite bind_eq by (apply unlock_dataproxy_eq; eexists; exact still_there).
Qed.

(** What X-Plane gets: zeros, and empty arrays; what it writes is lost. *)
Lemma refused_get type : is_simple_type type = true ->
  dataproxy_xp_get_data datarefs_of with_datarefs run_simple_get zero type (Some p) w = Some (zero type, after_refusal w).
Proof.
  intros Ht. unfold dataproxy_xp_get_data. erewrite bind_eq by by apply refusing_simple_get. cbv beta iota.
  by rewrite (proj2 (Z.eqb_neq _ _) (refusal_error w)).
Qed.

Lemma refused_set type v : is_simple_type type = true ->
  dataproxy_xp_set_data datarefs_of with_datarefs run_simple_set type (Some p) v w = Some (tt, after_refusal w).
Proof.
  intros Ht. unfold dataproxy_xp_set_data, dataproxy_simple_set. rewrite Ht. red_if.
  erewrite bind_eq by (erewrite bind_eq by apply refusing_setter; reflexivity). done.
Qed.

Lemma refused_get_array type outValues offset count : is_array_type type = true -> 0 <= offset -> 0 < count ->
  dataproxy_xp_get_data_array datarefs_of with_datarefs run_array_get run_array_length (Some p) type outValues offset count w =
    Some ((0, outValues), after_refusal w).
Proof.
  intros Ht Ho Hc. unfold dataproxy_xp_get_data_array. pose proof (proj2 (Z.eqb_neq _ _) (refusal_error w)) as He. destruct outValues as [values|].
  - erewrite bind_eq by by apply refusing_array_get. cbv beta iota. by rewrite He.
  - erewrite bind_eq by (erewrite bind_eq by apply refusing_array_length; reflexivity). cbv beta iota. by rewrite He.
Qed.

Lemma refused_set_array type values offset count : is_array_type type = true -> 0 <= offset -> 0 < count ->
  dataproxy_xp_set_data_array datarefs_of with_datarefs run_array_update (Some p) type values offset count w =
    Some (tt, match values with Some _ => after_refusal w | None => w end).
Proof.
  intros Ht Ho Hc. unfold dataproxy_xp_set_data_array, dataproxy_array_update. destruct values as [values|]; [|done]. rewrite Ht.
  replace (offset <? 0) with false by lia. replace (count <? 0) with false by lia. replace (count =? 0) with false by lia. cbn [orb]. red_if.
  by erewrite bind_eq by (erewrite bind_eq by apply refusing_setter; reflexivity).
Qed.
End Refusing.
End Program.
End Access.

(** * The registry as a whole *)

Section Properties.
Context `{DataTypes} {F : Type} (XPLMRegisterDataAccessor_result : list accessor_call -> cstr -> Z -> Z).
Implicit Types (s : datarefs F) (x : dataproxy_t F) (p : loc) (op : dataref_op F).

(** Each proxy changes, if at all, along an edge. *)
Lemma proxy_promise_edge op q err s s' p : proxy_promise XPLMRegisterDataAccessor_result op q err s s' ->
  ds_proxies s' !! p = ds_proxies s !! p \/ exists x', proxy_edge op p (ds_proxies s !! p) x' /\ ds_proxies s' !! p = Some x'.
Proof.
  intros (x & Hq & _ & Hr). destruct (err =? ERROR_NONE); [|rewrite Hr; by left]. destruct Hr as (x' & Hx' & ->).
  destruct (decide (q = p)) as [->|Hne]; [right|left; by rewrite lookup_insert_ne]. exists x'. by rewrite lookup_insert_eq, Hq.
Qed.

Lemma promise_edges op r s s' p : dataref_promise XPLMRegisterDataAccessor_result op r s s' ->
  ds_proxies s' !! p = ds_proxies s !! p \/ exists x', proxy_edge op p (ds_proxies s !! p) x' /\ ds_proxies s' !! p = Some x'.
Proof.
  destruct op as [name types wp ref session ops|q|q|q|q|]; cbn [dataref_promise]; try (intros (err & _ & Hpr); by eapply proxy_promise_edge).
  - intros (o & _ & Hr & _). destruct o as [q|]; [|destruct Hr as [-> _]; by left]. destruct Hr as (-> & Hun & Hn & [ses ->] & Hm).
    destruct (decide (q = p)) as [->|Hne]; [right|left; by rewrite lookup_insert_ne]. eexists. rewrite lookup_insert_eq. split; [|done].
    apply edge_reserve; [|done]. intros x Hx. split; [by apply Hn|apply (Hun p x Hx), Hn, Hx].
  - intros (err & _ & Hu & _). destruct (Hu p) as [E|(x & _ & Hx & Hst & E)]; [by left|right]. exists (dp_released x). rewrite Hx. split; [by constructor|done].
Qed.

(** C22: Whatever sessions have done with hosted datarefs before, each further operation
    on the registry (reserving, registering, unregistering, dropping and releasing a
    dataref, and maintenance) runs without undefined behaviour, leaves the registry
    unlocked, returns what the life cycle that the code implements says, and changes each
    proxy at most along an edge of that life cycle: in particular a dataref that a session
    holds can neither be reserved by another session nor changed by operations on other
    proxies. (The life cycle in the header dataproxy.h differs: there a reserved dataref
    can be dropped, which the code refuses as an invalid state.) *)
Theorem datarefs_follow_life_cycle op s :
  new_datarefs XPLMRegisterDataAccessor_result -> datarefs_reachable XPLMRegisterDataAccessor_result s -> op_valid op s ->
  exists r s', perform_dataref XPLMRegisterDataAccessor_result op s = Some (r, s') /\ dataref_promise XPLMRegisterDataAccessor_result op r s s' /\
    (forall p, ds_proxies s' !! p = ds_proxies s !! p \/ exists x', proxy_edge op p (ds_proxies s !! p) x' /\ ds_proxies s' !! p = Some x') /\
    dr_lock (ds_registry s') = 0.
Proof.
  intros Hnew Hs Hv. destruct (datarefs_reachable_ok _ s Hnew Hs) as (Hok & Hl & _).
  destruct (perform_dataref_run _ op s Hnew Hok Hv) as (r & s' & E & _ & [Hl' _ _] & Hpr). exists r, s'.
  split; [done|]. split; [done|]. split; [intros p; by eapply promise_edges|by rewrite Hl'].
Qed.

(** C23: At any time the accessors that X-Plane has are exactly those of the proxies that
    are registered or dropped, each with the name, the types and the writability of its
    proxy, no name has two proxies, and no accessor was registered or unregistered twice. *)
Theorem xplane_has_registered_datarefs s :
  new_datarefs XPLMRegisterDataAccessor_result -> datarefs_reachable XPLMRegisterDataAccessor_result s ->
  (exists accs, accessors (ds_calls s) = Some accs /\ forall r name types may_write p, accs !! r = Some (name, types, may_write, p) <->
     exists x, ds_proxies s !! p = Some x /\ (dp_state x = DATAPROXY_STATE_REGISTERED \/ dp_state x = DATAPROXY_STATE_DROPPED) /\
       dp_xp_dataref x = r /\ dp_dataref_name x = Some name /\ dp_types x = types /\ writable x = may_write) /\
  (forall p q x y, ds_proxies s !! p = Some x -> ds_proxies s !! q = Some y -> dp_dataref_name x = dp_dataref_name y -> p = q).
Proof.
  intros Hnew Hs. destruct (datarefs_reachable_ok _ s Hnew Hs) as (Hok & _). split; [|by intros p q x y; apply one_proxy_per_name].
  destruct (do_accessors _ Hok) as (accs & E & Ha). exists accs. split; [done|]. intros r name types may_write p. rewrite Ha. split.
  - intros (q & x & Hq & <- & Hr & (n & Hn & [= -> -> -> ->])). exists x. split_and!; try done.
    destruct (dk_state _ (proj1 (do_named _ Hok q x Hq))) as [[_ ?]|[[_ ?]|[[? _]|[? _]]]]; auto; done.
  - intros (x & Hp & Hst & <- & Hn & <- & <-). exists p, x. split; [done|]. split; [done|]. split; [|by exists name].
    apply has_dataref; [apply (do_named _ Hok p x Hp)|done].
Qed.

Context {V W : Type} (datarefs_of : W -> datarefs F) (with_datarefs : datarefs F -> W -> W).
Context (run_simple_get : F -> option loc -> Z -> V -> M W (error_t * V)).
Context (run_simple_set : F -> option loc -> Z -> V -> option loc -> M W error_t).
Context (run_array_get : F -> option loc -> Z -> list V -> Z -> Z -> Z -> M W (error_t * list V * Z)).
Context (run_array_length : F -> option loc -> Z -> Z -> M W (error_t * Z)).
Context (run_array_update : F -> option loc -> Z -> list V -> Z -> Z -> option loc -> M W error_t).
Context (zero : Z -> V).

(** A write that was checked: it is refused, or its setter runs. *)
Definition checked_write x type (operation : dataproxy_operations_t F -> option F) (session : option loc) (w : W)
    (run_setter : F -> option loc -> M W error_t) (result : option (error_t * W)) : Prop :=
  exists e, let w' := with_datarefs (set_ds_env e (datarefs_of w)) w in
    (exists err, err <> ERROR_NONE /\ result = Some (err, w') /\
       (locks (datarefs_of w) -> write_decision x type operation session = inl err)) \/
    (exists setter, operation (dp_operations x) = Some setter /\ dp_state x = DATAPROXY_STATE_REGISTERED /\ permits x session = true /\
       offers_type x type = true /\ result = run_setter setter (dp_operations_ref x) w').

Lemma write_decision_runs x type operation session setter ref : write_decision x type operation session = inr (setter, ref) ->
  operation (dp_operations x) = Some setter /\ dp_state x = DATAPROXY_STATE_REGISTERED /\ permits x session = true /\ offers_type x type = true /\ ref = dp_operations_ref x.
Proof.
  unfold write_decision. destruct (Z.eqb_spec (dp_state x) DATAPROXY_STATE_REGISTERED); red_if; [|done]. destruct (permits x session); red_if; [|done].
  destruct (operation (dp_operations x)); [|done]. destruct (offers_type x type); [|done]. by intros [= <- <-].
Qed.

Lemma checked_write_run (f : F -> option loc -> M W error_t) p x type operation session w : ds_proxies (datarefs_of w) !! p = Some x ->
  checked_write x type operation session w f
    ((checked ← on_datarefs datarefs_of with_datarefs (checked_setter (Some p) type operation session);
      match checked with inl err => mret err | inr (setter, ref) => f setter ref end) w).
Proof.
  intros Hp. destruct (checked_setter_run p x type operation session (datarefs_of w) Hp) as (r & e & E & _ & Hr & Hn & Hl). exists e.
  erewrite bind_eq by (apply on_datarefs_eq; exact E). destruct r as [err|[setter ref]].
  - left. exists err. split; [by intros ->|]. split; [done|]. intros Hlk. by rewrite <-Hl.
  - right. exists setter. destruct (write_decision_runs _ _ _ _ _ _ (Hr _ eq_refl)) as (? & ? & ? & ? & ->). done.
Qed.

(** C24: A write to a hosted dataref reaches its owner only if the dataref is registered,
    offers the type and the writer has permission, and it does if the locks work too; else
    it is refused with the error that tells why, and nothing changes. X-Plane, which
    writes without a session, has permission exactly if the accessor it was given says
    that the dataref is writable. *)
Theorem dataref_writes_checked w p x type type' v values offset count session :
  new_datarefs XPLMRegisterDataAccessor_result -> datarefs_reachable XPLMRegisterDataAccessor_result (datarefs_of w) ->
  ds_proxies (datarefs_of w) !! p = Some x -> is_simple_type type = true -> is_array_type type' = true -> 0 <= offset -> 0 < count ->
  checked_write x type op_simple_set session w (fun setter ref => run_simple_set setter ref type v session)
    (dataproxy_simple_set datarefs_of with_datarefs run_simple_set (Some p) type (Some v) session w) /\
  checked_write x type' op_array_update session w (fun setter ref => run_array_update setter ref type' values offset count session)
    (dataproxy_array_update datarefs_of with_datarefs run_array_update (Some p) type' (Some values) offset count session w) /\
  (dp_state x = DATAPROXY_STATE_REGISTERED -> exists accs name may_write, accessors (ds_calls (datarefs_of w)) = Some accs /\
     accs !! dp_xp_dataref x = Some (name, dp_types x, may_write, p) /\ (may_write = 1 <-> permits x None = true)).
Proof.
  intros Hnew Hs Hp Ht Ht' Ho Hc. destruct (datarefs_reachable_ok _ _ Hnew Hs) as (Hok & _). split; [|split].
  - unfold dataproxy_simple_set. rewrite Ht. red_if. by apply checked_write_run.
  - unfold dataproxy_array_update. rewrite Ht'. replace (offset <? 0) with false by lia. replace (count <? 0) with false by lia.
    replace (count =? 0) with false by lia. cbn [orb]. red_if. by apply checked_write_run.
  - intros Hst. destruct (xplane_accessor _ p x Hok Hp Hst) as (accs & name & E & _ & Ha). exists accs, name, (writable x).
    split; [done|]. split; [done|]. symmetry. apply xplane_may_write.
Qed.

(** C25: X-Plane still has the accessor of a dropped dataref until maintenance. Whatever it
    reads through it is zero or empty, whatever it writes is lost: no operation of the
    session that owned the dataref runs any more, and nothing else changes. *)
Theorem dropped_datarefs_are_inert w p x type type' v outValues inValues offset count :
  new_datarefs XPLMRegisterDataAccessor_result -> datarefs_lens datarefs_of with_datarefs -> datarefs_reachable XPLMRegisterDataAccessor_result (datarefs_of w) ->
  ds_proxies (datarefs_of w) !! p = Some x -> dp_state x = DATAPROXY_STATE_DROPPED ->
  is_simple_type type = true -> is_array_type type' = true -> 0 <= offset -> 0 < count ->
  (exists accs a, accessors (ds_calls (datarefs_of w)) = Some accs /\ accs !! dp_xp_dataref x = Some a /\ a.2 = p) /\
  exists e, let w' := with_datarefs (set_ds_env e (datarefs_of w)) w in
    dataproxy_xp_get_data datarefs_of with_datarefs run_simple_get zero type (Some p) w = Some (zero type, w') /\
    dataproxy_xp_set_data datarefs_of with_datarefs run_simple_set type (Some p) v w = Some (tt, w') /\
    dataproxy_xp_get_data_array datarefs_of with_datarefs run_array_get run_array_length (Some p) type' outValues offset count w = Some ((0, outValues), w') /\
    dataproxy_xp_set_data_array datarefs_of with_datarefs run_array_update (Some p) type' (Some inValues) offset count w = Some (tt, w').
Proof.
  intros Hnew laws Hs Hp Hst Ht Ht' Ho Hc. destruct (datarefs_reachable_ok _ _ Hnew Hs) as (Hok & _).
  assert (dp_state x <> DATAPROXY_STATE_REGISTERED) as Hn by by rewrite Hst. split.
  - destruct (do_accessors _ Hok) as (accs & E & Ha). destruct (do_named _ Hok p x Hp) as [Hx (name & Hname & _)].
    exists accs, (name, dp_types x, writable x, p). split; [done|]. split; [|done]. apply Ha. exists p, x. split_and!; [done..|apply has_dataref; auto|].
    by exists name.
  - destruct (ds_tried_env (datarefs_of w)) as [e He]. exists e. cbv zeta. rewrite <-He.
    split; [by apply (refused_get _ _ _ _ laws _ _ x)|]. split; [by apply (refused_set _ _ _ _ _ x)|].
    split; [by apply (refused_get_array _ _ _ _ laws _ _ x)|]. apply (refused_set_array _ _ _ _ _ x) with (values := Some inValues); done.
Qed.
End Properties.

(** * An example *)

#[local] Existing Instance demo_types.

(** The dataref after the last one. *)
Definition last_dataref (calls : list accessor_call) : Z :=
  foldr (fun c m => match c with XPLMRegisterDataAccessor _ _ _ _ r => Z.max r m | XPLMUnregisterDataAccessor _ => m end) 0 calls.
Definition next_dataref (calls : list accessor_call) (name : cstr) (types : Z) : Z := last_dataref calls + 1.

Lemma last_dataref_cons c calls : last_dataref (c :: calls) =
  match c with XPLMRegisterDataAccessor _ _ _ _ r => Z.max r (last_dataref calls) | XPLMUnregisterDataAccessor _ => last_dataref calls end.
Proof. done. Qed.

Lemma last_dataref_app calls c : last_dataref calls <= last_dataref (calls ++ [c]) /\
  forall n t w p r, c = XPLMRegisterDataAccessor n t w p r -> r <= last_dataref (calls ++ [c]).
Proof.
  induction calls as [|c' calls [IH1 IH2]].
  - split; [destruct c; cbn; lia|]. intros n t w p r ->. cbn. lia.
  - rewrite <-app_comm_cons, !last_dataref_cons. split; [destruct c'; lia|]. intros n t w p r Er. specialize (IH2 n t w p r Er). destruct c'; lia.
Qed.

Lemma accessors_bound calls accs r a : accessors calls = Some accs -> accs !! r = Some a -> r <= last_dataref calls.
Proof.
  revert accs r a. induction calls as [|c calls IH] using rev_ind; intros accs r a; [by intros [= <-]|].
  pose proof (last_dataref_app calls c) as [Hle Hc].
  rewrite accessors_app. destruct (accessors calls) as [accs0|] eqn:E; [|done]. destruct c as [n t w p r'|r']; simpl.
  - destruct (r' =? NO_XP_DATAREF); [intros [= <-] Ha; pose proof (IH _ _ _ eq_refl Ha); lia|]. destruct (accs0 !! r'); [done|].
    intros [= <-] [[<- _]|[_ Ha]]%lookup_insert_Some; [by eapply Hc|]. pose proof (IH _ _ _ eq_refl Ha). lia.
  - destruct (accs0 !! r'); [|done]. intros [= <-] [_ Ha]%lookup_delete_Some. pose proof (IH _ _ _ eq_refl Ha). lia.
Qed.

Lemma next_dataref_new : new_datarefs next_dataref.
Proof.
  intros calls name types accs E. destruct (accs !! next_dataref calls name types) as [a|] eqn:Ha; [|done].
  apply (accessors_bound calls) in Ha; [|done]. unfold next_dataref in Ha. lia.
Qed.

Abbreviation demo_registry_state := (datarefs nat).
Definition demo_new : demo_registry_state := mkDatarefs (mkDpRegistry false 0 (mkMap ∅)) ∅ ∅ [] calm.

Lemma demo_new_reachable : datarefs_reachable next_dataref demo_new.
Proof. apply datarefs_new; [apply wf_empty|apply abs_empty]. Qed.

Definition op_valid_b (op : dataref_op nat) (s : demo_registry_state) : bool :=
  match op_proxy op with Some p => bool_decide (is_Some (ds_proxies s !! p)) | None => true end &&
  match op with ReserveDataproxy name _ _ _ _ _ => bool_decide (NUL ∉ name) | _ => true end.

Lemma op_valid_b_true op s : op_valid_b op s = true -> op_valid op s.
Proof.
  unfold op_valid_b. intros [Hp Hn]%andb_prop. split.
  - intros p E. rewrite E in Hp. by apply bool_decide_eq_true in Hp.
  - destruct op; try done. by apply bool_decide_eq_true in Hn.
Qed.

(** The state after operations; [None] if one is not valid. *)
Fixpoint datarefs_after (ops : list (dataref_op nat)) (s : demo_registry_state) : option demo_registry_state :=
  match ops with
  | [] => Some s
  | op :: ops' => if op_valid_b op s then '(_, s') ← perform_dataref next_dataref op s; datarefs_after ops' s' else None
  end.

Lemma datarefs_after_reachable ops : forall s s', datarefs_reachable next_dataref s -> datarefs_after ops s = Some s' -> datarefs_reachable next_dataref s'.
Proof.
  induction ops as [|op ops IH]; intros s s' Hs; simpl; [by intros [= <-]|]. destruct (op_valid_b op s) eqn:Hv; [|done].
  destruct (perform_dataref next_dataref op s) as [[r s1]|] eqn:E; simpl; [|done]. apply IH.
  by apply (datarefs_step _ op s r s1 Hs); [apply op_valid_b_true|].
Qed.

(** A session hosts a dataref that X-Plane may write. *)
Definition demo_operations : dataproxy_operations_t nat := mkOperations (Some 1%nat) (Some 2%nat) (Some 3%nat) (Some 4%nat) (Some 5%nat).
Definition demo_reserve : dataref_op nat :=
  ReserveDataproxy (lit "demo/x") (Z.lor 1 16) DATAPROXY_PERMISSION_ALL None (Some 7%positive) demo_operations.
Definition demo_hosted : demo_registry_state := default demo_new (datarefs_after [demo_reserve; RegisterDataproxy 1] demo_new).
Definition demo_dropped : demo_registry_state := default demo_new (datarefs_after [demo_reserve; RegisterDataproxy 1; DropDataproxy 1] demo_new).

Lemma demo_after_reachable ops : bool_decide (is_Some (datarefs_after ops demo_new)) = true ->
  datarefs_reachable next_dataref (default demo_new (datarefs_after ops demo_new)).
Proof.
  intros [s E]%bool_decide_eq_true. rewrite E. exact (datarefs_after_reachable ops _ _ demo_new_reachable E).
Qed.

Lemma demo_hosted_reachable : datarefs_reachable next_dataref demo_hosted.
Proof. apply demo_after_reachable. vm_compute. reflexivity. Qed.
Lemma demo_dropped_reachable : datarefs_reachable next_dataref demo_dropped.
Proof. apply demo_after_reachable. vm_compute. reflexivity. Qed.

Example demo_hosted_calls : ds_calls demo_hosted = [XPLMRegisterDataAccessor (lit "demo/x") 17 1 1 1].
Proof. vm_compute. reflexivity. Qed.

Definition demo_proxy (state : Z) (owner : option loc) (operations : dataproxy_operations_t nat) : dataproxy_t nat :=
  mkDataproxy state (Some (lit "demo/x")) 1 17 DATAPROXY_PERMISSION_ALL owner operations None.

Lemma demo_hosted_proxy : ds_proxies demo_hosted !! 1%positive = Some (demo_proxy DATAPROXY_STATE_REGISTERED (Some 7%positive) demo_operations).
Proof. vm_compute. reflexivity. Qed.
Lemma demo_dropped_proxy : ds_proxies demo_dropped !! 1%positive = Some (demo_proxy DATAPROXY_STATE_DROPPED None no_operations).
Proof. vm_compute. reflexivity. Qed.

(** The program: the registry, and the values that reached the owner. *)
Definition demo_program : Type := demo_registry_state * list Z.
Definition demo_with_datarefs (r : demo_registry_state) (w : demo_program) : demo_program := (r, w.2).
Definition demo_get (f : nat) (ref : option loc) (type v : Z) : M demo_program (error_t * Z) := mret (ERROR_NONE, 42).
Definition demo_set (f : nat) (ref : option loc) (type v : Z) (session : option loc) : M demo_program error_t :=
  fun w => Some (ERROR_NONE, (w.1, w.2 ++ [v])).
Definition demo_array_get (f : nat) (ref : option loc) (type : Z) (values : list Z) (n offset count : Z) : M demo_program (error_t * list Z * Z) :=
  mret (ERROR_NONE, values, 0).
Definition demo_array_length (f : nat) (ref : option loc) (type n : Z) : M demo_program (error_t * Z) := mret (ERROR_NONE, 0).
Definition demo_array_update (f : nat) (ref : option loc) (type : Z) (values : list Z) (offset count : Z) (session : option loc) : M demo_program error_t :=
  mret ERROR_NONE.

(** Another session cannot have the dataref. *)
Definition demo_second : dataref_op nat := ReserveDataproxy (lit "demo/x") 1 DATAPROXY_PERMISSION_SESSION None (Some 8%positive) demo_operations.

Lemma datarefs_follow_life_cycle_witness :
  exists s', perform_dataref next_dataref demo_second demo_hosted = Some (inr None, s') /\ ds_proxies s' = ds_proxies demo_hosted.
Proof.
  destruct (datarefs_follow_life_cycle next_dataref demo_second demo_hosted next_dataref_new demo_hosted_reachable) as (r & s' & E & Hpr & _).
  { apply op_valid_b_true. vm_compute. reflexivity. }
  exists s'. destruct Hpr as (o & -> & Hr & _). destruct o as [q|]; [|by destruct Hr].
  destruct Hr as (_ & Hun & _). destruct (Hun 1%positive _ demo_hosted_proxy eq_refl) as [E'|E']; vm_compute in E'; done.
Defined.

Lemma xplane_has_registered_datarefs_witness :
  exists accs, accessors (ds_calls demo_hosted) = Some accs /\ accs !! 1 = Some (lit "demo/x", 17, 1, 1%positive).
Proof.
  destruct (xplane_has_registered_datarefs next_dataref demo_hosted next_dataref_new demo_hosted_reachable) as [(accs & E & Ha) _].
  exists accs. split; [exact E|]. apply Ha. eexists. split; [exact demo_hosted_proxy|]. split; [left; reflexivity|].
  split; [reflexivity|]. split; [reflexivity|]. split; reflexivity.
Defined.

Lemma dataref_writes_checked_witness :
  exists w', dataproxy_simple_set fst demo_with_datarefs demo_set (Some 1%positive) 1 (Some 5) None (demo_hosted, []) = Some (ERROR_NONE, w') /\ w'.2 = [5].
Proof.
  destruct (dataref_writes_checked next_dataref fst demo_with_datarefs demo_set demo_array_update (demo_hosted, []) 1%positive _ 1 16 5 [] 0 1 None
    next_dataref_new demo_hosted_reachable demo_hosted_proxy eq_refl eq_refl ltac:(lia) ltac:(lia)) as [(e & [(err & _ & _ & Hl)|(setter & Hs & _ & _ & _ & E)]) _].
  - assert (locks demo_hosted) as Hlk by (split; [vm_compute; constructor|vm_compute; reflexivity]). apply Hl in Hlk. vm_compute in Hlk. done.
  - eexists. split; [exact E|reflexivity].
Defined.

Lemma dropped_datarefs_are_inert_witness :
  exists e, dataproxy_xp_get_data fst demo_with_datarefs demo_get (fun _ => 0) 1 (Some 1%positive) (demo_dropped, []) = Some (0, (set_ds_env e demo_dropped, [])).
Proof.
  destruct (dropped_datarefs_are_inert next_dataref fst demo_with_datarefs demo_get demo_set demo_array_get demo_array_length demo_array_update (fun _ => 0)
    (demo_dropped, []) 1%positive _ 1 16 5 None [] 0 1 next_dataref_new (mkDatarefsLens fst demo_with_datarefs (fun _ _ => eq_refl) (fun _ _ _ => eq_refl))
    demo_dropped_reachable demo_dropped_proxy eq_refl eq_refl eq_refl ltac:(lia) ltac:(lia)) as (_ & e & E & _).
  exists e. exact E.
Defined.
