(* ===== verification/Drqv.v ===== *)
(** The command DRQV ([command_drqv.c]): queries values of datarefs at regular
    intervals and sends them to the client.

    X-Plane answers the calls depending on those it got before ([qs_calls], oldest
    first), so that values may change at any time. The values of numbers are their
    bits. The linked list of a command's datarefs, to which nothing else refers, is a
    list; buffers are part of their dataref. Due times are [int64_t] milliseconds that
    do not wrap. *)

From S2P Require Import Prelude CLib Utils Hashmap Channels Requests Lists Prealloc Arrays Protocol TaskSchedule Network Command Session Server ServerCommands CalmWorld CmtrTimers.

Definition DRQV_COMMAND_VERSION : Z := 1.
Definition DRQV_INFINITE_REPETITION : Z := -2134896.

(** What the buffer of a dataref holds. *)
Inductive drqv_buffer :=
  | SimpleBuffer (value : Z)
  | ArrayBuffer (value : dynamic_array_t Z).

Record drqv_dataref_t := mkDrqvDataref {
  qd_value_buffer : option drqv_buffer;
  qd_value_buffer_size : Z;
  qd_name : cstr;
  qd_type : Z;
  qd_xp_ref : Z;
}.

(** The part of a command that decides when to run. *)
Record drqv_timing := mkDrqvTiming {
  qt_interval : Z;
  qt_interval_wait : Z;
  qt_is_interval_frames : bool;
  qt_times_remaining : Z;
  qt_interval_not_before_timestamp : Z;
}.

Record command_drqv_t := mkDrqv {
  dq_channel_id : Z;
  dq_task : option loc;
  dq_phase : Z;
  dq_timing : drqv_timing;
  dq_initialized : bool;
  dq_failed : bool;
  dq_datarefs : list drqv_dataref_t;
  dq_timestamp : Z;
}.

(** An array is read to a buffer, or only its length is asked for. *)
Inductive dataref_call :=
  | XPLMFindDataRef (inDataRefName : cstr)
  | XPLMGetDataRefTypes (inDataRef : Z)
  | XPLMGetData (type inDataRef : Z)
  | XPLMGetDataArray (type inDataRef : Z) (to_buffer : bool) (inOffset inMax : Z).

(** The command objects, the references of task objects, the items of lists of
    texts, and the calls X-Plane got. *)
Record drqv_state := mkDrqvState {
  qs_commands : gmap loc command_drqv_t;
  qs_tasks : gmap loc loc;
  qs_texts : gmap loc (prealloc_list_item_t cstr unit);
  qs_calls : list dataref_call;
}.

Definition set_qd_value_buffer (b : option drqv_buffer) (d : drqv_dataref_t) := mkDrqvDataref b (qd_value_buffer_size d) (qd_name d) (qd_type d) (qd_xp_ref d).
Definition set_qd_value_buffer_size (n : Z) (d : drqv_dataref_t) := mkDrqvDataref (qd_value_buffer d) n (qd_name d) (qd_type d) (qd_xp_ref d).
Definition set_qd_xp_ref (r : Z) (d : drqv_dataref_t) := mkDrqvDataref (qd_value_buffer d) (qd_value_buffer_size d) (qd_name d) (qd_type d) r.

Definition set_qt_interval_wait (n : Z) (t : drqv_timing) := mkDrqvTiming (qt_interval t) n (qt_is_interval_frames t) (qt_times_remaining t) (qt_interval_not_before_timestamp t).
Definition set_qt_times_remaining (n : Z) (t : drqv_timing) := mkDrqvTiming (qt_interval t) (qt_interval_wait t) (qt_is_interval_frames t) n (qt_interval_not_before_timestamp t).
Definition set_qt_not_before (n : Z) (t : drqv_timing) := mkDrqvTiming (qt_interval t) (qt_interval_wait t) (qt_is_interval_frames t) (qt_times_remaining t) n.
Definition set_qt_interval (n : Z) (frames : bool) (t : drqv_timing) := mkDrqvTiming n (qt_interval_wait t) frames (qt_times_remaining t) (qt_interval_not_before_timestamp t).

Definition set_dq_channel_id (id : Z) (c : command_drqv_t) := mkDrqv id (dq_task c) (dq_phase c) (dq_timing c) (dq_initialized c) (dq_failed c) (dq_datarefs c) (dq_timestamp c).
Definition set_dq_task (t : option loc) (c : command_drqv_t) := mkDrqv (dq_channel_id c) t (dq_phase c) (dq_timing c) (dq_initialized c) (dq_failed c) (dq_datarefs c) (dq_timestamp c).
Definition set_dq_phase (p : Z) (c : command_drqv_t) := mkDrqv (dq_channel_id c) (dq_task c) p (dq_timing c) (dq_initialized c) (dq_failed c) (dq_datarefs c) (dq_timestamp c).
Definition set_dq_timing (t : drqv_timing) (c : command_drqv_t) := mkDrqv (dq_channel_id c) (dq_task c) (dq_phase c) t (dq_initialized c) (dq_failed c) (dq_datarefs c) (dq_timestamp c).
Definition set_dq_initialized (c : command_drqv_t) := mkDrqv (dq_channel_id c) (dq_task c) (dq_phase c) (dq_timing c) true (dq_failed c) (dq_datarefs c) (dq_timestamp c).
Definition set_dq_failed (c : command_drqv_t) := mkDrqv (dq_channel_id c) (dq_task c) (dq_phase c) (dq_timing c) (dq_initialized c) true (dq_datarefs c) (dq_timestamp c).
Definition set_dq_datarefs (ds : list drqv_dataref_t) (c : command_drqv_t) := mkDrqv (dq_channel_id c) (dq_task c) (dq_phase c) (dq_timing c) (dq_initialized c) (dq_failed c) ds (dq_timestamp c).
Definition set_dq_timestamp (n : Z) (c : command_drqv_t) := mkDrqv (dq_channel_id c) (dq_task c) (dq_phase c) (dq_timing c) (dq_initialized c) (dq_failed c) (dq_datarefs c) n.

Definition set_qs_commands (m : gmap loc command_drqv_t) (d : drqv_state) := mkDrqvState m (qs_tasks d) (qs_texts d) (qs_calls d).
Definition set_qs_tasks (m : gmap loc loc) (d : drqv_state) := mkDrqvState (qs_commands d) m (qs_texts d) (qs_calls d).
Definition set_qs_texts (m : gmap loc (prealloc_list_item_t cstr unit)) (d : drqv_state) := mkDrqvState (qs_commands d) (qs_tasks d) m (qs_calls d).
Definition set_qs_calls (calls : list dataref_call) (d : drqv_state) := mkDrqvState (qs_commands d) (qs_tasks d) (qs_texts d) calls.

Definition drqv_supported_options : list cstr := [lit "freq"; lit "phase"; lit "times"].

(** * When to run *)

(** Whether a flight loop runs, before the timer is reset; the first one always does. *)
Definition drqv_should_run (now : Z) (is_first : bool) (t : drqv_timing) : bool * drqv_timing :=
  if is_first then (true, t)
  else if negb (qt_is_interval_frames t) then (qt_interval_not_before_timestamp t <=? now, t)
  else
    let t := set_qt_interval_wait (wrap_s 32 (qt_interval_wait t - 1)) t in
    (qt_interval_wait t <=? 0, t).

(** The loop that finds the next due time is that of CMTR. *)
Definition drqv_reset_timer (now : Z) (t : drqv_timing) : option drqv_timing :=
  if qt_is_interval_frames t then Some (set_qt_interval_wait (qt_interval t) t)
  else
    due ← forward (Z.to_nat (now - qt_interval_not_before_timestamp t + 1)) now (qt_interval_not_before_timestamp t) (qt_interval t);
    Some (set_qt_not_before due t).

(** Whether there is a repetition left. *)
Definition drqv_count (t : drqv_timing) : bool * drqv_timing :=
  if 0 <? qt_times_remaining t then (true, set_qt_times_remaining (qt_times_remaining t - 1) t)
  else (qt_times_remaining t =? DRQV_INFINITE_REPETITION, t).

(** Whether the values are read in this flight loop. *)
Definition drqv_tick (now : Z) (is_first : bool) (t : drqv_timing) : option (bool * drqv_timing) :=
  let '(should_run, t) := drqv_should_run now is_first t in
  if negb should_run then Some (false, t)
  else t ← drqv_reset_timer now t; Some (drqv_count t).

Definition drqv_will_continue (t : drqv_timing) : bool :=
  (0 <? qt_times_remaining t) || (qt_times_remaining t =? DRQV_INFINITE_REPETITION).

Section Drqv.
Context `{DataTypes} `{FloatText} {C : Type} `{Connection C}.
Abbreviation W := (world C (ext drqv_state)).
Implicit Types (q p : loc) (w : W) (d : drqv_dataref_t).

(** ** The state *)

(** The lists of texts; their destructor is [free]. *)
Definition texts_heap w : pheap cstr unit := mkPHeap (qs_texts (world_data w)) [] (cs_env (w_channels w)).
Definition set_texts_heap (h : pheap cstr unit) w : W :=
  set_channels (mkChannels (cs_heap (w_channels w)) (cs_table (w_channels w)) (ph_env h)) (set_world_data (set_qs_texts (ph_items h) (world_data w)) w).
Definition on_texts {A} (m : M (pheap cstr unit) A) : M W A := zoom texts_heap set_texts_heap m.

Definition update_drqv_data (f : drqv_state -> drqv_state) : M W unit := modify (fun w => set_world_data (f (world_data w)) w).
Definition load_drqv q : M W command_drqv_t := w ← get; from_ub (qs_commands (world_data w) !! q).
Definition update_drqv q (f : command_drqv_t -> command_drqv_t) : M W unit :=
  c ← load_drqv q; update_drqv_data (fun x => set_qs_commands (<[q := f c]> (qs_commands x)) x).
Definition call_dataref_sdk {A} (c : dataref_call) (answer : list dataref_call -> A) : M W A :=
  w ← get;
  _ ← update_drqv_data (fun x => set_qs_calls (qs_calls x ++ [c]) x);
  mret (answer (qs_calls (world_data w))).
Definition drqv_fuel : M W nat := gets (fun w => size (x_items (w_ext w))).

(** ** Destruction and termination *)

Definition drqv_destroy (command_ref : option loc) : M W error_t :=
  match command_ref with
  | None => mret ERROR_UNSPECIFIC
  | Some q =>
      _ ← load_drqv q;
      _ ← update_drqv_data (fun x => set_qs_commands (delete q (qs_commands x)) x);
      mret ERROR_NONE
  end.

Definition drqv_terminate (command_ref : option loc) : M W error_t :=
  match command_ref with
  | None => mret ERROR_UNSPECIFIC
  | Some q =>
      c ← load_drqv q;
      _ ← finish_channel (dq_channel_id c) CURRENT_TIME_REFERENCE None;
      c ← load_drqv q;
      err ← match dq_task c with
            | None => mret ERROR_NONE
            | Some task =>
                err ← lock_schedule;
                err ← (if err =? ERROR_NONE then
                         fuel ← drqv_fuel;
                         err ← unschedule_task fuel task (dq_phase c);
                         _ ← unlock_schedule;
                         mret err
                       else mret err);
                _ ← when (err =? ERROR_NONE) (update_drqv q (set_dq_task None));
                mret err
            end;
      if negb (err =? ERROR_NONE) then mret err
      else
        c ← load_drqv q;
        let channel_id := dq_channel_id c in
        _ ← update_drqv q (set_dq_channel_id BAD_CHANNEL_ID);
        _ ← on_channels (request_channel_destruction channel_id);
        mret ERROR_NONE
  end.

(** ** Processing *)

Section XPlane.
Context (XPLMFindDataRef_result : list dataref_call -> cstr -> Z) (XPLMGetDataRefTypes_result : list dataref_call -> Z -> Z).
(** The value of a number, and the count and the items that a read of an array returns. *)
Context (XPLMGetData_result : list dataref_call -> Z -> Z -> Z) (XPLMGetDataArray_result : list dataref_call -> Z -> Z -> Z -> Z -> Z * list Z).
(** The length of an array. *)
Context (XPLMGetDataArray_length : list dataref_call -> Z -> Z -> Z).

(** The error is reported, and the command has failed. *)
Definition drqv_fail q (timestamp : Z) (message : cstr) : M W bool :=
  c ← load_drqv q;
  _ ← error_channel (dq_channel_id c) timestamp (Some message);
  _ ← update_drqv q set_dq_failed;
  mret false.

(** The loop of [drqv_initialize]: what became of the datarefs, and whether all are
    found. *)
Fixpoint find_datarefs q (datarefs : list drqv_dataref_t) : M W (bool * list drqv_dataref_t) :=
  match datarefs with
  | [] => mret (true, [])
  | d :: datarefs' =>
      match qd_value_buffer d with
      | None => ok ← drqv_fail q CURRENT_TIME_REFERENCE (lit "internal error preparing dataref buffer"); mret (ok, d :: datarefs')
      | Some _ =>
          xp_ref ← call_dataref_sdk (XPLMFindDataRef (qd_name d)) (fun calls => XPLMFindDataRef_result calls (qd_name d));
          let d := set_qd_xp_ref xp_ref d in
          if xp_ref =? 0 then ok ← drqv_fail q CURRENT_TIME_REFERENCE (lit "dataref does not exist"); mret (ok, d :: datarefs')
          else
            available_types ← call_dataref_sdk (XPLMGetDataRefTypes xp_ref) (fun calls => XPLMGetDataRefTypes_result calls xp_ref);
            if Z.land available_types (qd_type d) =? 0 then
              ok ← drqv_fail q CURRENT_TIME_REFERENCE (lit "type is not available from dataref"); mret (ok, d :: datarefs')
            else
              '(ok, datarefs') ← find_datarefs q datarefs';
              mret (ok, d :: datarefs')
      end
  end.

Definition drqv_initialize q : M W bool :=
  c ← load_drqv q;
  '(ok, datarefs) ← find_datarefs q (dq_datarefs c);
  _ ← update_drqv q (set_dq_datarefs datarefs);
  if negb ok then mret false else _ ← update_drqv q set_dq_initialized; mret true.

(** What X-Plane is asked to write to an array has room in it. *)
Definition copy_xplm_dataref_array q (timestamp : Z) d (arr : dynamic_array_t Z) : M W (bool * dynamic_array_t Z) :=
  let report_error message := c ← load_drqv q; _ ← error_channel (dq_channel_id c) timestamp (Some (lit message)); mret false in
  let xp_ref := qd_xp_ref d in
  length ← call_dataref_sdk (XPLMGetDataArray (qd_type d) xp_ref false 0 0) (fun calls => XPLMGetDataArray_length calls (qd_type d) xp_ref);
  if length <? 0 then ok ← report_error "negative length received for dataref array"%string; mret (ok, arr)
  else
    '(ok, arr) ← on_env (dynamic_array_set_length arr length);
    if negb ok then ok ← report_error "failed to resize internal array"%string; mret (ok, arr)
    else
      '(actual, arr) ← match dynamic_array_get_pointer arr 0 with
                       | None =>
                           actual ← call_dataref_sdk (XPLMGetDataArray (qd_type d) xp_ref false 0 length) (fun calls => XPLMGetDataArray_length calls (qd_type d) xp_ref);
                           mret (actual, arr)
                       | Some dest =>
                           '(actual, items) ← call_dataref_sdk (XPLMGetDataArray (qd_type d) xp_ref true 0 length)
                              (fun calls => XPLMGetDataArray_result calls (qd_type d) xp_ref 0 length);
                           if length <? len items then ub else mret (actual, Arrays.set_data (overwrite dest items (arr_data arr)) arr)
                       end;
      if negb (actual =? length) then ok ← report_error "dataref returned inconsistent number of items"%string; mret (ok, arr)
      else mret (true, arr).

(** One turn of the loop that updates the values. A buffer of another kind than the type
    says would be accessed wrongly. *)
Definition update_value q (timestamp : Z) d : M W (bool * drqv_dataref_t) :=
  let type := qd_type d in
  if (type =? xplmType_Int) || (type =? xplmType_Float) || (type =? xplmType_Double) then
    match qd_value_buffer d with
    | Some (SimpleBuffer _) =>
        value ← call_dataref_sdk (XPLMGetData type (qd_xp_ref d)) (fun calls => XPLMGetData_result calls type (qd_xp_ref d));
        mret (true, set_qd_value_buffer (Some (SimpleBuffer value)) d)
    | _ => ub
    end
  else if (type =? xplmType_IntArray) || (type =? xplmType_FloatArray) || (type =? xplmType_Data) then
    match qd_value_buffer d with
    | Some (ArrayBuffer arr) =>
        '(ok, arr) ← copy_xplm_dataref_array q timestamp d arr;
        mret (ok, set_qd_value_buffer (Some (ArrayBuffer arr)) d)
    | _ => ub
    end
  else
    c ← load_drqv q;
    _ ← error_channel (dq_channel_id c) timestamp (Some (lit "unsupported type"));
    mret (false, d).

Fixpoint update_values q (timestamp : Z) (datarefs : list drqv_dataref_t) : M W (bool * list drqv_dataref_t) :=
  match datarefs with
  | [] => mret (true, [])
  | d :: datarefs' =>
      '(ok, d) ← update_value q timestamp d;
      if negb ok then mret (false, d :: datarefs')
      else
        '(ok, datarefs') ← update_values q timestamp datarefs';
        mret (ok, d :: datarefs')
  end.

Definition drqv_process_flightloop q : M W unit :=
  c ← load_drqv q;
  if dq_failed c then mret tt
  else
    now ← millis_since_reference;
    if now <? 0 then mret tt
    else
      initialized ← (if negb (dq_initialized c) then
                       ok ← drqv_initialize q;
                       if negb ok then _ ← update_drqv q set_dq_failed; mret false
                       else _ ← confirm_channel (dq_channel_id c) now None; mret true
                     else mret true);
      if negb initialized then mret tt
      else
        '(should_read, timing) ← from_ub (drqv_tick now (negb (dq_initialized c)) (dq_timing c));
        _ ← update_drqv q (set_dq_timing timing);
        if negb should_read then mret tt
        else
          _ ← update_drqv q (set_dq_timestamp now);
          c ← load_drqv q;
          '(ok, datarefs) ← update_values q now (dq_datarefs c);
          _ ← update_drqv q (set_dq_datarefs datarefs);
          when (negb ok) (update_drqv q set_dq_failed).
End XPlane.

(** ** Results *)

Definition encode_dataref_value d : M W (option cstr) :=
  if (qd_type d =? xplmType_IntArray) || (qd_type d =? xplmType_FloatArray) || (qd_type d =? xplmType_Data) then
    match qd_value_buffer d with
    | Some (ArrayBuffer arr) => on_texts (xprc_encode_array (qd_type d) (Some arr))
    | Some (SimpleBuffer _) => ub
    | None => mret None
    end
  else
    match qd_value_buffer d with
    | Some (SimpleBuffer value) => on_env (xprc_encode_value (qd_type d) (Some value) (qd_value_buffer_size d))
    | Some (ArrayBuffer _) => ub
    | None => mret None
    end.

(** A failure while the texts are collected. *)
Definition drqv_give_up q (list : option prealloc_list_t) (message : cstr) : M W (option prealloc_list_t) :=
  c ← load_drqv q;
  _ ← drqv_fail q (dq_timestamp c) message;
  match list with
  | None => mret None
  | Some list => _ ← on_texts (destroy_preallocated_list list free_text PREALLOC_LIST_CALL_DEFERRED_DESTRUCTORS); mret None
  end.

(** The loop that collects the texts of all values, with separators. *)
Fixpoint encode_values q (is_first : bool) (datarefs : list drqv_dataref_t) (texts : prealloc_list_t) : M W (option prealloc_list_t) :=
  match datarefs with
  | [] => mret (Some texts)
  | d :: datarefs' =>
      separated ← (if is_first then mret (Some texts)
                   else
                     separator_copy ← on_env (copy_string (Some (lit ";")));
                     match separator_copy with
                     | None => drqv_give_up q (Some texts) (lit "failed to copy separator")
                     | Some separator_copy =>
                         '(ok, texts) ← on_texts (prealloc_list_append texts (Some separator_copy));
                         if ok : bool then mret (Some texts) else drqv_give_up q (Some texts) (lit "failed to append separator to list")
                     end);
      match separated with
      | None => mret None
      | Some texts =>
          encoded_value ← encode_dataref_value d;
          match encoded_value with
          | None => drqv_give_up q (Some texts) (lit "failed to encode value")
          | Some encoded_value =>
              '(ok, texts) ← on_texts (prealloc_list_append texts (Some encoded_value));
              if ok : bool then encode_values q false datarefs' texts
              else drqv_give_up q (Some texts) (lit "failed to append encoded value to list")
          end
      end
  end.

(** The texts in one; [None] if that failed, which has been reported. *)
Definition drqv_result q : M W (option cstr) :=
  list ← on_texts create_preallocated_list;
  match list with
  | None => _ ← drqv_give_up q None (lit "failed to allocate list for value encoding"); mret None
  | Some list =>
      c ← load_drqv q;
      texts ← encode_values q true (dq_datarefs c) list;
      match texts with
      | None => mret None
      | Some texts =>
          out ← on_texts (concatenate (S (Z.to_nat (p_size texts))) (p_first texts));
          ok ← on_env (zmalloc (strlen out + 1));
          if negb ok then
            _ ← drqv_give_up q (Some texts) (lit "failed to allocate memory to concatenate encoded values"); mret None
          else
            _ ← on_texts (destroy_preallocated_list texts free_text PREALLOC_LIST_CALL_DEFERRED_DESTRUCTORS);
            mret (Some out)
      end
  end.

Definition drqv_process_post q : M W unit :=
  c ← load_drqv q;
  if dq_failed c then _ ← drqv_terminate (Some q); mret tt
  else if negb (dq_initialized c) then mret tt
  else if dq_timestamp c <=? 0 then mret tt
  else
    out ← drqv_result q;
    match out with
    | None => mret tt
    | Some out =>
        if negb (drqv_will_continue (dq_timing c)) then
          _ ← finish_channel (dq_channel_id c) (dq_timestamp c) (Some out);
          _ ← drqv_terminate (Some q);
          mret tt
        else
          err ← continue_channel (dq_channel_id c) (dq_timestamp c) (Some out);
          _ ← (if negb (err =? ERROR_NONE) then drqv_fail q (dq_timestamp c) (lit "error on result submission") else mret true);
          update_drqv q (set_dq_timestamp 0)
    end.

(** ** Creation *)

Definition is_suffixed_millis (s : cstr) : bool := ends_with (Some s) (Some (lit "ms")).
Definition is_suffixed_frames (s : cstr) : bool := ends_with (Some s) (Some (lit "f")).
Definition is_valid_interval (s : cstr) : bool := is_suffixed_millis s || is_suffixed_frames s.

(** [zmalloc(sizeof(command_drqv_t))], with the session, the channel and the time set. *)
Definition alloc_drqv (id now : Z) : M W (option loc) :=
  ok ← on_env (zmalloc 72);
  if negb ok then mret None
  else
    w ← get;
    let q := fresh (dom (qs_commands (world_data w))) in
    _ ← update_drqv_data (fun x => set_qs_commands (<[q := mkDrqv id None 0 (mkDrqvTiming 0 0 false 0 now) false false [] 0]> (qs_commands x)) x);
    mret (Some q).

(** The label [error]; [reason] is reported first. *)
Definition drqv_abandon q (out_error : error_t) : M W (error_t * option loc) :=
  _ ← drqv_destroy (Some q);
  mret (if negb (out_error =? ERROR_NONE) then out_error else ERROR_UNSPECIFIC, None).
Definition drqv_reject q (id : Z) (reason : cstr) (out_error : error_t) : M W (error_t * option loc) :=
  _ ← report id (Some reason); drqv_abandon q out_error.

(** The buffer of a type and its size; [None] if there is none. *)
Definition create_value_buffer (wanted_type : Z) : M W (option drqv_buffer * Z) :=
  if (wanted_type =? xplmType_Int) || (wanted_type =? xplmType_Float) || (wanted_type =? xplmType_Double) then
    let size := if wanted_type =? xplmType_Double then SIZE_XPLM_DOUBLE else SIZE_XPLM_INT_FLOAT in
    ok ← on_env (zmalloc size);
    mret (if ok : bool then Some (SimpleBuffer 0) else None, size)
  else
    arr ← on_env (create_dynamic_array (if wanted_type =? xplmType_Data then 1 else SIZE_XPLM_INT_FLOAT) 0);
    mret (ArrayBuffer <$> arr, 0).

(** The loop over the parameters: none, or the message and the error of a failure. *)
Fixpoint create_datarefs q (parameters : list cstr) : M W (option (cstr * error_t)) :=
  match parameters with
  | [] => mret None
  | parameter :: parameters' =>
      let offset_type_separator := strpos (Some parameter) (Some (lit ":")) 0 in
      if offset_type_separator <? 1 then mret (Some (lit "datarefs must be specified with type", ERROR_NONE))
      else if strlen parameter - offset_type_separator - 1 <? 1 then mret (Some (lit "dataref name is missing", ERROR_NONE))
      else
        let wanted_type := xprc_parse_type parameter offset_type_separator in
        if wanted_type =? xplmType_Unknown then mret (Some (lit "unknown type", ERROR_NONE))
        else
          ok ← on_env (zmalloc 48);
          if negb ok then mret (Some (lit "internal dataref could not be allocated", ERROR_MEMORY_ALLOCATION))
          else
            name ← on_env (copy_string (Some (drop (Z.to_nat (offset_type_separator + 1)) parameter)));
            match name with
            | None => mret (Some (lit "dataref name could not be copied", ERROR_MEMORY_ALLOCATION))
            | Some name =>
                '(value_buffer, size) ← create_value_buffer wanted_type;
                _ ← update_drqv q (fun c => set_dq_datarefs (dq_datarefs c ++ [mkDrqvDataref value_buffer size name wanted_type 0]) c);
                match value_buffer with
                | None =>
                    mret (Some (if (wanted_type =? xplmType_Int) || (wanted_type =? xplmType_Float) || (wanted_type =? xplmType_Double)
                                then lit "internal dataref direct value buffer could not be allocated"
                                else lit "internal dataref dynamic array value buffer could not be allocated", ERROR_MEMORY_ALLOCATION))
                | Some _ => create_datarefs q parameters'
                end
            end
  end.

(** Creates and schedules the task of a command. *)
Definition drqv_schedule q (id : Z) : M W (error_t * option loc) :=
  ok ← on_env (zmalloc 16);
  if negb ok then drqv_abandon q ERROR_MEMORY_ALLOCATION
  else
    w ← get;
    let task := fresh (dom (qs_tasks (world_data w))) in
    _ ← update_drqv_data (fun x => set_qs_tasks (<[task := q]> (qs_tasks x)) x);
    c ← load_drqv q;
    err ← lock_schedule;
    err ← (if err =? ERROR_NONE then
             err ← schedule_task task (dq_phase c);
             _ ← when (err =? ERROR_NONE) (update_drqv q (set_dq_task (Some task)));
             _ ← unlock_schedule;
             mret err
           else mret err);
    if negb (err =? ERROR_NONE) then
      _ ← report id (Some (lit "failed to schedule task"));
      _ ← update_drqv_data (fun x => set_qs_tasks (delete task (qs_tasks x)) x);
      drqv_abandon q err
    else mret (ERROR_NONE, Some q).
(** From the options on: their checks, and the message of a bad one. *)
Definition parse_drqv_options (request : request_t) (now : Z) : cstr + Z * drqv_timing :=
  let option name default := from_option id [] (request_get_option (Some request) (Some (lit name)) (Some (lit default))) in
  let phase := wrap_s 8 (atoi (option "phase"%string "0"%string)) in
  if negb (phase =? TASK_SCHEDULE_BEFORE_FLIGHT_MODEL) && negb (phase =? TASK_SCHEDULE_AFTER_FLIGHT_MODEL) then inl (lit "unsupported phase")
  else
    let has_times := request_has_option (Some request) (Some (lit "times")) in
    let times := if has_times then atoi (option "times"%string "0"%string) else DRQV_INFINITE_REPETITION in
    if has_times && (times <=? 0) then inl (lit "number of times")
    else
      let req_freq := option "freq"%string "1000ms"%string in
      if negb (is_valid_interval req_freq) then inl (lit "invalid format for freq")
      else
        let interval := atoi req_freq in
        if interval <=? 0 then inl (lit "invalid value for freq")
        else inr (phase, mkDrqvTiming interval 0 (is_suffixed_frames req_freq) times now).

Definition drqv_create (request : request_t) (config : command_config_t) : M W (error_t * option loc) :=
  let id := req_channel_id request in
  now ← millis_since_reference;
  if now <? 0 then mret (ERROR_UNSPECIFIC, None)
  else if negb (version config =? DRQV_COMMAND_VERSION) then decline id (lit "unexpected command version")
  else if negb (request_has_only_options (Some request) (Some drqv_supported_options)) then decline id (lit "unsupported options")
  else
    command ← alloc_drqv id now;
    match command with
    | None => mret (ERROR_MEMORY_ALLOCATION, None)
    | Some q =>
        match parse_drqv_options request now with
        | inl reason => drqv_reject q id reason ERROR_NONE
        | inr (phase, timing) =>
            _ ← update_drqv q (fun c => set_dq_timing timing (set_dq_phase phase c));
            match req_parameters request with
            | [] => drqv_reject q id (lit "at least one dataref is required") ERROR_NONE
            | parameters =>
                failure ← create_datarefs q parameters;
                match failure with
                | Some (reason, out_error) => drqv_reject q id reason out_error
                | None => drqv_schedule q id
                end
            end
        end
    end.

Section Processing.
Context (XPLMFindDataRef_result : list dataref_call -> cstr -> Z) (XPLMGetDataRefTypes_result : list dataref_call -> Z -> Z).
Context (XPLMGetData_result : list dataref_call -> Z -> Z -> Z) (XPLMGetDataArray_result : list dataref_call -> Z -> Z -> Z -> Z -> Z * list Z).
Context (XPLMGetDataArray_length : list dataref_call -> Z -> Z -> Z).

(** The callback of the tasks: a task object refers to its command. *)
Definition drqv_process (task : loc) (phase : Z) : M W unit :=
  w ← get;
  q ← from_ub (qs_tasks (world_data w) !! task);
  c ← load_drqv q;
  if phase =? dq_phase c then
    drqv_process_flightloop XPLMFindDataRef_result XPLMGetDataRefTypes_result XPLMGetData_result XPLMGetDataArray_result XPLMGetDataArray_length q
  else if phase =? TASK_SCHEDULE_POST_PROCESSING then drqv_process_post q
  else mret tt.
End Processing.

Definition drqv_create_default_config : M W (option command_config_t) := on_env (create_command_config DRQV_COMMAND_VERSION).
Definition drqv_merge_config (previous_config requested_changes : command_config_t) :=
  merge_featureless_config (C := C) (X := ext drqv_state) DRQV_COMMAND_VERSION requested_changes.

Definition command_drqv : command_t W :=
  mkCommand (lit "DRQV") drqv_create drqv_terminate drqv_destroy drqv_create_default_config drqv_merge_config.
End Drqv.
