(* ===== verification/DrqvTiming.v ===== *)
(** When DRQV reads values ([Drqv.drqv_tick]): the flight loops in which a query is
    due, as a specification of its timer, and the number of repetitions. *)

From S2P Require Import Prelude CLib Utils CmtrTimers Drqv.

(** The flight loops of a query, by the times at which they run: in which of them
    values are read. *)
Fixpoint drqv_run (nows : list Z) (is_first : bool) (t : drqv_timing) : option (list bool * drqv_timing) :=
  match nows with
  | [] => Some ([], t)
  | now :: nows' =>
      '(should_read, t) ← drqv_tick now is_first t;
      '(reads, t) ← drqv_run nows' false t;
      Some (should_read :: reads, t)
  end.

(** Every [m]-th flight loop from the [i]-th one on. *)
Fixpoint frames_due (m i : Z) (nows : list Z) : list bool :=
  match nows with
  | [] => []
  | _ :: nows' => (i mod m =? 0) :: frames_due m (i + 1) nows'
  end.

(** The flight loops that are the first ones of their period of [m] milliseconds,
    counted from [start]; the loop before was at [previous]. *)
Definition period (start m now : Z) : Z := (now - start) / m.
Fixpoint periods_due (start m previous : Z) (nows : list Z) : list bool :=
  match nows with
  | [] => []
  | now :: nows' => (period start m previous <? period start m now) :: periods_due start m now nows'
  end.

Definition due_loops (frames : bool) (start m : Z) (nows : list Z) : list bool :=
  match nows with
  | [] => []
  | now :: nows' => true :: (if frames then frames_due m 1 nows' else periods_due start m now nows')
  end.

(** The first [times] of them, or all. *)
Fixpoint limit_to (times : Z) (due : list bool) : list bool :=
  match due with
  | [] => []
  | true :: due' => if times =? DRQV_INFINITE_REPETITION then true :: limit_to times due' else (0 <? times) :: limit_to (Z.max 0 (times - 1)) due'
  | false :: due' => false :: limit_to times due'
  end.

(** The loops run one after the other. *)
Fixpoint in_order (previous : Z) (nows : list Z) : Prop :=
  match nows with [] => True | now :: nows' => previous <= now /\ in_order now nows' end.

Definition count_true (l : list bool) : Z := len (filter Is_true l).

(** * Proofs *)

Definition times_ok (k : Z) : Prop := k = DRQV_INFINITE_REPETITION \/ 0 <= k <= INT_MAX.

Lemma drqv_count_run t : times_ok (qt_times_remaining t) ->
  exists t', drqv_count t = ((qt_times_remaining t =? DRQV_INFINITE_REPETITION) || (0 <? qt_times_remaining t), t') /\
    t' = set_qt_times_remaining (if qt_times_remaining t =? DRQV_INFINITE_REPETITION then DRQV_INFINITE_REPETITION else Z.max 0 (qt_times_remaining t - 1)) t.
Proof.
  intros Hk. unfold drqv_count. destruct (Z.eqb_spec (qt_times_remaining t) DRQV_INFINITE_REPETITION) as [E|E].
  - rewrite E. simpl. eexists. split; [done|]. destruct t. simpl in *. by rewrite E.
  - destruct Hk as [|Hk]; [done|]. destruct (Z.ltb_spec 0 (qt_times_remaining t)); simpl; eexists; (split; [reflexivity|]).
    + f_equal. lia.
    + destruct t. simpl in *. unfold set_qt_times_remaining. simpl. f_equal. lia.
Qed.

(** What a due loop leaves of the repetitions. *)
Definition counted (t : drqv_timing) : drqv_timing :=
  set_qt_times_remaining (if qt_times_remaining t =? DRQV_INFINITE_REPETITION then DRQV_INFINITE_REPETITION else Z.max 0 (qt_times_remaining t - 1)) t.

Lemma counted_ok t : times_ok (qt_times_remaining t) -> times_ok (qt_times_remaining (counted t)).
Proof. intros Hk. unfold counted. simpl. destruct (Z.eqb_spec (qt_times_remaining t) DRQV_INFINITE_REPETITION); [by left|]. destruct Hk as [|Hk]; [done|]. right. lia. Qed.

Lemma limit_to_due t due : limit_to (qt_times_remaining t) (true :: due) =
  ((qt_times_remaining t =? DRQV_INFINITE_REPETITION) || (0 <? qt_times_remaining t)) :: limit_to (qt_times_remaining (counted t)) due.
Proof. unfold counted. simpl. destruct (Z.eqb_spec (qt_times_remaining t) DRQV_INFINITE_REPETITION) as [E|]; [by rewrite E|done]. Qed.

(** A loop that is due, and one that is not. *)
Lemma tick_due now is_first t t1 t2 : drqv_should_run now is_first t = (true, t1) -> drqv_reset_timer now t1 = Some t2 ->
  times_ok (qt_times_remaining t) -> qt_times_remaining t2 = qt_times_remaining t ->
  drqv_tick now is_first t = Some ((qt_times_remaining t =? DRQV_INFINITE_REPETITION) || (0 <? qt_times_remaining t), counted t2).
Proof.
  intros E1 E2 Hk Ht. unfold drqv_tick. rewrite E1. simpl. rewrite E2. simpl. rewrite <-Ht in Hk |- *.
  destruct (drqv_count_run t2 Hk) as (t' & -> & ->). done.
Qed.

Lemma tick_not_due now is_first t t1 : drqv_should_run now is_first t = (false, t1) -> drqv_tick now is_first t = Some (false, t1).
Proof. intros E. unfold drqv_tick. by rewrite E. Qed.

Lemma run_due nows now is_first t t2 due : drqv_tick now is_first t = Some ((qt_times_remaining t =? DRQV_INFINITE_REPETITION) || (0 <? qt_times_remaining t), counted t2) ->
  qt_times_remaining t2 = qt_times_remaining t ->
  (exists t', drqv_run nows false (counted t2) = Some (limit_to (qt_times_remaining (counted t2)) due, t')) ->
  exists t', drqv_run (now :: nows) is_first t = Some (limit_to (qt_times_remaining t) (true :: due), t').
Proof.
  intros E Ht (t' & E'). exists t'. rewrite (limit_to_due t). cbn [drqv_run]. rewrite E. simpl. rewrite E'. simpl. by rewrite Ht.
Qed.

Lemma run_not_due nows now is_first t t1 due : drqv_tick now is_first t = Some (false, t1) -> qt_times_remaining t1 = qt_times_remaining t ->
  (exists t', drqv_run nows false t1 = Some (limit_to (qt_times_remaining t1) due, t')) ->
  exists t', drqv_run (now :: nows) is_first t = Some (limit_to (qt_times_remaining t) (false :: due), t').
Proof. intros E Ht (t' & E'). exists t'. cbn [drqv_run]. rewrite E. simpl. rewrite E'. simpl. by rewrite Ht. Qed.

(** ** Frames *)

Lemma frames_run m nows : 0 < m <= INT_MAX -> forall i t, 0 < i -> qt_is_interval_frames t = true -> qt_interval t = m ->
  qt_interval_wait t = m - (i - 1) mod m -> times_ok (qt_times_remaining t) ->
  exists t', drqv_run nows false t = Some (limit_to (qt_times_remaining t) (frames_due m i nows), t').
Proof.
  intros Hm. induction nows as [|now nows IH]; intros i t Hi Hf Hint Hw Hk; [by eexists|]. cbn [frames_due].
  pose proof (Z.mod_pos_bound (i - 1) m ltac:(lia)) as Hb. set (t1 := set_qt_interval_wait (qt_interval_wait t - 1) t).
  assert (drqv_should_run now false t = (i mod m =? 0, t1)) as E1.
  { unfold drqv_should_run. rewrite Hf. cbn [negb]. rewrite wrap_s_int by (unfold in_int, INT_MIN, INT_MAX in *; lia). fold t1. f_equal. simpl. rewrite Hw.
    assert (i = (i - 1) + 1) as Ei by lia. rewrite Ei at 2. destruct (Z.eqb_spec (((i - 1) + 1) mod m) 0) as [E|E]; [apply Z.leb_le|apply Z.leb_gt].
    - destruct (decide ((i - 1) mod m = m - 1)); [lia|]. rewrite <-Zplus_mod_idemp_l, Z.mod_small in E by lia. lia.
    - destruct (decide ((i - 1) mod m = m - 1)) as [E'|]; [|lia]. rewrite <-Zplus_mod_idemp_l, E' in E. replace (m - 1 + 1) with (1 * m) in E by lia. by rewrite Z.mod_mul in E by lia. }
  destruct (Z.eqb_spec (i mod m) 0) as [E|E].
  - assert (drqv_reset_timer now t1 = Some (set_qt_interval_wait m t1)) as E2 by (unfold drqv_reset_timer; simpl; by rewrite Hf, Hint).
    eapply run_due; [by apply (tick_due _ _ _ _ _ E1 E2 Hk)|done|]. apply IH; [lia|done|done| |by apply counted_ok]. simpl.
    replace (i + 1 - 1) with i by lia. lia.
  - eapply run_not_due; [by apply tick_not_due|done|]. apply IH; [lia|done|done| |done]. simpl. rewrite Hw. replace (i + 1 - 1) with ((i - 1) + 1) by lia.
    rewrite <-Zplus_mod_idemp_l. destruct (decide ((i - 1) mod m = m - 1)) as [E'|]; [|rewrite (Z.mod_small ((i - 1) mod m + 1)); lia].
    destruct E. replace i with ((i - 1) + 1) by lia. rewrite <-Zplus_mod_idemp_l, E'. replace (m - 1 + 1) with (1 * m) by lia. by rewrite Z.mod_mul by lia.
Qed.

(** ** Milliseconds *)

Lemma periods_run start m nows : 0 < m -> forall previous t, start <= previous -> in_order previous nows -> qt_is_interval_frames t = false -> qt_interval t = m ->
  qt_interval_not_before_timestamp t = start + (period start m previous + 1) * m -> times_ok (qt_times_remaining t) ->
  exists t', drqv_run nows false t = Some (limit_to (qt_times_remaining t) (periods_due start m previous nows), t').
Proof.
  intros Hm. induction nows as [|now nows IH]; intros previous t Hs Hord Hf Hint Hn Hk; [by eexists|]. destruct Hord as [Hle Hord]. cbn [periods_due].
  assert (forall n, period start m n * m <= n - start < (period start m n + 1) * m) as Hp.
  { intros n. unfold period. pose proof (Z.mul_div_le (n - start) m Hm). pose proof (Z.mul_succ_div_gt (n - start) m Hm). lia. }
  pose proof (Hp previous). pose proof (Hp now).
  assert (period start m previous <= period start m now) as Hmono by (unfold period; apply Z.div_le_mono; lia).
  assert (drqv_should_run now false t = (period start m previous <? period start m now, t)) as E1.
  { unfold drqv_should_run. rewrite Hf, Hn. cbn [negb]. f_equal. destruct (Z.ltb_spec (period start m previous) (period start m now)) as [Hl|Hl]; [apply Z.leb_le|apply Z.leb_gt].
    - assert ((period start m previous + 1) * m <= period start m now * m) by (apply Z.mul_le_mono_nonneg_r; lia). lia.
    - assert (period start m previous = period start m now) as -> by lia. lia. }
  destruct (Z.ltb_spec (period start m previous) (period start m now)) as [Hl|Hl].
  - destruct (forward_ok (Z.to_nat (now - qt_interval_not_before_timestamp t + 1)) now (qt_interval_not_before_timestamp t) m Hm ltac:(lia)) as (k & Hk0 & Ef & Hgt & Hk1).
    assert (qt_interval_not_before_timestamp t + k * m = start + (period start m now + 1) * m) as Ek.
    { assert ((period start m previous + 1) * m <= period start m now * m) by (apply Z.mul_le_mono_nonneg_r; lia). rewrite Hn in *.
      assert (0 < k) as Hkp by (destruct (decide (k = 0)); [subst k; lia|lia]). specialize (Hk1 Hkp).
      assert ((period start m previous + k) * m < (period start m now + 1) * m) as Hlt1 by lia. apply Z.mul_lt_mono_pos_r in Hlt1; [|done].
      assert (period start m now * m < (period start m previous + 1 + k) * m) as Hlt2 by lia. apply Z.mul_lt_mono_pos_r in Hlt2; [|done].
      assert (period start m previous + k = period start m now) by lia. nia. }
    assert (drqv_reset_timer now t = Some (set_qt_not_before (start + (period start m now + 1) * m) t)) as E2.
    { unfold drqv_reset_timer. rewrite Hf, Hint. by rewrite Ef; simpl; rewrite Ek. }
    eapply run_due; [by apply (tick_due _ _ _ _ _ E1 E2 Hk)|done|]. apply IH; [lia|done|done|done|done|by apply counted_ok].
  - eapply run_not_due; [by apply tick_not_due|done|]. apply IH; [lia|done|done|done| |done]. assert (period start m previous = period start m now) as <- by lia. done.
Qed.

(** ** The schedule *)

(** C30: A query reads the values in its first flight loop, and then in every [m]-th
    one if its frequency is given in frames, or in the first flight loop of every period
    of [m] milliseconds since it was created that has one, as long as repetitions are
    left: it never reads more often than asked for or twice in a period, whatever the
    times at which flight loops happen. The timer's loop always ends. *)
Theorem drqv_reads_on_schedule (nows : list Z) (start m times wait : Z) (frames : bool) :
  0 < m <= INT_MAX -> times_ok times -> in_order start nows ->
  exists t, drqv_run nows true (mkDrqvTiming m wait frames times start) = Some (limit_to times (due_loops frames start m nows), t).
Proof.
  intros Hm Hk Hord. destruct nows as [|now nows]; [by eexists|]. destruct Hord as [Hle Hord]. cbn [due_loops].
  set (t := mkDrqvTiming m wait frames times start). change times with (qt_times_remaining t) in Hk |- *.
  assert (drqv_should_run now true t = (true, t)) as E1 by done. destruct frames.
  - assert (drqv_reset_timer now t = Some (set_qt_interval_wait m t)) as E2 by done.
    eapply run_due; [by apply (tick_due _ _ _ _ _ E1 E2 Hk)|done|]. apply frames_run; [lia|lia|done|done| |by apply counted_ok].
    simpl. rewrite Zmod_0_l. lia.
  - destruct (forward_ok (Z.to_nat (now - start + 1)) now start m ltac:(lia) ltac:(lia)) as (k & Hk0 & Ef & Hgt & Hk1).
    pose proof (Z.mul_div_le (now - start) m ltac:(lia)). pose proof (Z.mul_succ_div_gt (now - start) m ltac:(lia)).
    assert (start + k * m = start + (period start m now + 1) * m) as Ek.
    { unfold period. assert (0 < k) as Hkp by (destruct (decide (k = 0)); [subst k; lia|lia]). specialize (Hk1 Hkp).
      assert ((k - 1) * m < ((now - start) / m + 1) * m) as Hlt1 by lia. apply Z.mul_lt_mono_pos_r in Hlt1; [|lia].
      assert ((now - start) / m * m < k * m) as Hlt2 by lia. apply Z.mul_lt_mono_pos_r in Hlt2; [|lia].
      assert (k = (now - start) / m + 1) by lia. nia. }
    assert (drqv_reset_timer now t = Some (set_qt_not_before (start + (period start m now + 1) * m) t)) as E2.
    { unfold drqv_reset_timer. simpl. by rewrite Ef; simpl; rewrite Ek. }
    eapply run_due; [by apply (tick_due _ _ _ _ _ E1 E2 Hk)|done|]. by apply periods_run; [lia|lia|done|done|done|done|apply counted_ok].
Qed.

Lemma drqv_reads_on_schedule_witness :
  exists t, drqv_run [1005; 1030; 1110; 1120; 1350; 1399; 1400] true (mkDrqvTiming 100 0 false 4 1000) =
    Some ([true; false; true; false; true; false; true], t).
Proof.
  apply (drqv_reads_on_schedule [1005; 1030; 1110; 1120; 1350; 1399; 1400] 1000 100 4 0 false); [unfold INT_MAX; lia|right; unfold INT_MAX; lia|simpl; lia].
Defined.
