(* ===== verification/DrqvValues.v ===== *)
(** The results of DRQV ([Drqv.drqv_result]): one text of all values that were read,
    from which the client gets the values back. *)

From S2P Require Import Prelude CLib Utils Hashmap Channels Requests Lists Prealloc Arrays Protocol TaskSchedule Network Command Session Server ServerCommands Beside CalmWorld CmtrTimers Drqv.

Section Values.
Context `{DataTypes} `{FloatText}.
Implicit Types (d : drqv_dataref_t) (ds : list drqv_dataref_t).

(** * Values and texts *)

Definition simple_size (type : Z) : Z := if type =? xplmType_Double then SIZE_XPLM_DOUBLE else SIZE_XPLM_INT_FLOAT.

(** The buffer of a dataref is of the kind of its type. *)
Definition dataref_ok d : Prop :=
  match qd_value_buffer d with
  | None => False
  | Some (SimpleBuffer _) => (qd_type d = xplmType_Int \/ qd_type d = xplmType_Float \/ qd_type d = xplmType_Double) /\ qd_value_buffer_size d = simple_size (qd_type d)
  | Some (ArrayBuffer arr) => is_array_type (qd_type d) /\ wf_array arr
  end.

Definition value_text d : cstr :=
  match qd_value_buffer d with
  | None => []
  | Some (SimpleBuffer value) =>
      if qd_type d =? xplmType_Int then print_dec value
      else if qd_type d =? xplmType_Float then print_f (double_of_float value) else print_f value
  | Some (ArrayBuffer arr) => array_text (qd_type d) (contents arr)
  end.

(** The texts that are concatenated. *)
Fixpoint result_texts (is_first : bool) ds : list cstr :=
  match ds with
  | [] => []
  | d :: ds' => (if is_first then [] else [lit ";"]) ++ value_text d :: result_texts false ds'
  end.

Lemma result_texts_later ds : ds <> [] -> mjoin (result_texts false ds) = ";"%char :: join ";" (value_text <$> ds).
Proof.
  induction ds as [|d ds IH]; [done|]. intros _. destruct ds as [|d2 ds]; [simpl; by rewrite app_nil_r|].
  rewrite fmap_cons, join_cons by done. change (mjoin (result_texts false (d :: d2 :: ds))) with (lit ";" ++ value_text d ++ mjoin (result_texts false (d2 :: ds))).
  by rewrite IH.
Qed.

Lemma result_texts_join ds : mjoin (result_texts true ds) = join ";" (value_text <$> ds).
Proof.
  destruct ds as [|d ds]; [done|]. destruct ds as [|d2 ds]; [simpl; by rewrite app_nil_r|].
  rewrite fmap_cons, join_cons by done. change (mjoin (result_texts true (d :: d2 :: ds))) with (value_text d ++ mjoin (result_texts false (d2 :: ds))).
  by rewrite result_texts_later.
Qed.

Lemma simple_not_array type : type = xplmType_Int \/ type = xplmType_Float \/ type = xplmType_Double ->
  ((type =? xplmType_IntArray) || (type =? xplmType_FloatArray) || (type =? xplmType_Data)) = false.
Proof.
  intros Ht. pose proof xplm_types_different as Hd. rewrite !NoDup_cons, !not_elem_of_cons in Hd. destruct_and! Hd.
  destruct Ht as [->|[->| ->]]; repeat (rewrite (proj2 (Z.eqb_neq _ _)) by congruence); done.
Qed.

Lemma array_is_array type : is_array_type type -> ((type =? xplmType_IntArray) || (type =? xplmType_FloatArray) || (type =? xplmType_Data)) = true.
Proof. intros [->|[->| ->]]; by rewrite Z.eqb_refl, ?orb_true_r. Qed.

Lemma array_not_simple type : is_array_type type -> ((type =? xplmType_Int) || (type =? xplmType_Float) || (type =? xplmType_Double)) = false.
Proof.
  intros Ht. pose proof xplm_types_different as Hd. rewrite !NoDup_cons, !not_elem_of_cons in Hd. destruct_and! Hd.
  destruct Ht as [->|[->| ->]]; repeat (rewrite (proj2 (Z.eqb_neq _ _)) by congruence); done.
Qed.

Lemma print_f_nonempty x : print_f x <> [].
Proof. apply print_f_text. Qed.

Lemma value_text_nonempty d : dataref_ok d -> value_text d <> [].
Proof.
  unfold dataref_ok, value_text. destruct (qd_value_buffer d) as [[v|arr]|]; [| |done].
  - intros _. destruct (_ =? _); [apply print_dec_nonempty|]. destruct (_ =? _); apply print_f_nonempty.
  - intros [Ht Hw]. unfold array_text. destruct (contents arr); [done|]. intros E. apply app_eq_nil in E as [E _]. by apply format_length_nonempty in E.
Qed.

(** * Encoding *)

Lemma encode_simple_eq type v e : type = xplmType_Int \/ type = xplmType_Float \/ type = xplmType_Double ->
  xprc_encode_value type (Some v) (simple_size type) e =
    Some (if alloc_next e then Some (if type =? xplmType_Int then print_dec v else if type =? xplmType_Float then print_f (double_of_float v) else print_f v) else None, alloc_rest e).
Proof.
  intros Ht. pose proof xplm_types_different as Hd. rewrite !NoDup_cons, !not_elem_of_cons in Hd. destruct_and! Hd. unfold xprc_encode_value, simple_size.
  destruct Ht as [->|[->| ->]].
  - rewrite (proj2 (Z.eqb_neq xplmType_Int xplmType_Double)) by congruence. rewrite !Z.eqb_refl. cbn. apply dynamic_sprintf_eq, print_dec_nonempty.
  - rewrite (proj2 (Z.eqb_neq xplmType_Float xplmType_Double)), (proj2 (Z.eqb_neq xplmType_Float xplmType_Int)) by congruence. rewrite !Z.eqb_refl. cbn.
    apply dynamic_sprintf_eq, print_f_nonempty.
  - rewrite (proj2 (Z.eqb_neq xplmType_Double xplmType_Float)), (proj2 (Z.eqb_neq xplmType_Double xplmType_Int)) by congruence. rewrite !Z.eqb_refl. cbn.
    apply dynamic_sprintf_eq, print_f_nonempty.
Qed.

Context {C : Type} `{ConnectionLaws C}.
Abbreviation W := (world C (ext drqv_state)).
Implicit Types (w : W) (q p : loc).

(** ** The lists of texts *)

Lemma set_texts_twice (h1 h2 : pheap cstr unit) w : set_texts_heap h2 (set_texts_heap h1 w) = set_texts_heap h2 w.
Proof. done. Qed.

Lemma texts_heap_set (h : pheap cstr unit) w : texts_heap (set_texts_heap h w) = mkPHeap (ph_items h) [] (ph_env h).
Proof. done. Qed.

Lemma set_texts_same w : set_texts_heap (texts_heap w) w = w.
Proof. by destruct w as [? [? ? ?] ? [? ? ? [? ? ? ?]]]. Qed.

Lemma with_env_texts (e : env) w : with_env e w = set_texts_heap (mkPHeap (qs_texts (world_data w)) [] e) w.
Proof. by destruct w as [? [? ? ?] ? [? ? ? [? ? ? ?]]]. Qed.

Lemma on_texts_eq {A} (m : M (pheap cstr unit) A) w a h : m (texts_heap w) = Some (a, h) -> on_texts m w = Some (a, set_texts_heap h w).
Proof. intros E. unfold on_texts, zoom. by rewrite E. Qed.

Lemma on_env_texts {A} (f : M env A) w a e : f (cs_env (w_channels w)) = Some (a, e) ->
  on_env f w = Some (a, set_texts_heap (mkPHeap (qs_texts (world_data w)) [] e) w).
Proof. intros E. rewrite <-with_env_texts. by apply on_env_eq. Qed.

Lemma tasks_texts (h : pheap cstr unit) w tss : calmer (cs_env (w_channels w)) (ph_env h) -> calm_tasks w tss -> calm_tasks (set_texts_heap h w) tss.
Proof.
  intros Hc Hw. exact (tasks_env (set_world_data (set_qs_texts (ph_items h) (world_data w)) w) tss (ph_env h) Hc (tasks_data w tss _ Hw)).
Qed.

Definition texts_of w : gmap loc (prealloc_list_item_t cstr unit) := qs_texts (world_data w).

Lemma load_drqv_eq w q c : qs_commands (world_data w) !! q = Some c -> load_drqv q w = Some (c, w).
Proof. intros Hc. unfold load_drqv. erewrite bind_eq by reflexivity. unfold from_ub. by rewrite Hc. Qed.

Lemma update_drqv_eq w q f c : qs_commands (world_data w) !! q = Some c ->
  update_drqv q f w = Some (tt, set_world_data (set_qs_commands (<[q := f c]> (qs_commands (world_data w))) (world_data w)) w).
Proof. intros Hc. unfold update_drqv. by erewrite bind_eq by by apply load_drqv_eq. Qed.

(** The text of a value, if there is memory for it; texts made before are kept. *)
Lemma encode_dataref_run d w : dataref_ok d ->
  exists r h, encode_dataref_value d w = Some (r, set_texts_heap h w) /\ (r = None \/ r = Some (value_text d)) /\
    (forall q, is_Some (texts_of w !! q) -> ph_items h !! q = texts_of w !! q) /\ calmer (cs_env (w_channels w)) (ph_env h) /\
    (env_alloc (cs_env (w_channels w)) = [] -> env_alloc (ph_env h) = [] /\ r <> None).
Proof.
  unfold dataref_ok, encode_dataref_value, value_text. destruct (qd_value_buffer d) as [[v|arr]|]; [| |done].
  - intros [Ht Hs]. rewrite simple_not_array by done. rewrite Hs. eexists _, _.
    split; [by apply on_env_texts, encode_simple_eq|]. cbn [ph_items ph_env]. split; [destruct (alloc_next _); auto|]. split; [done|].
    split; [apply calmer_alloc_rest|]. intros Ha. unfold alloc_rest, alloc_next. simpl. by rewrite Ha.
  - intros [Ht Hw]. rewrite array_is_array by done. pose proof Hw as [Hl Hc Hd _].
    destruct (xprc_encode_array_run (qd_type d) arr (texts_heap w) Ht ltac:(lia)) as (r & h & E & Hr & Ha & Hsame & Hcalm).
    { unfold contents. rewrite length_take. lia. }
    exists r, h. split; [by apply on_texts_eq|]. by split_and!.
Qed.

(** * Collecting the texts *)

Lemma append_text_run w l ps texts s : prep (texts_of w) l ps -> texts_are ps texts ->
  exists ok l' ps' h, on_texts (prealloc_list_append l (Some s)) w = Some ((ok, l'), set_texts_heap h w) /\ prep (ph_items h) l' ps' /\
    (ok = true -> texts_are ps' (texts ++ [s])) /\ calmer (cs_env (w_channels w)) (ph_env h) /\
    (env_alloc (cs_env (w_channels w)) = [] -> env_alloc (ph_env h) = [] /\ ok = true).
Proof.
  intros Hr Ht. destruct (prealloc_list_append_run (texts_heap w) l ps (Some s) Hr) as (ok & l' & m' & e' & E & Ha & _ & _ & Hok).
  pose proof (heap_append _ _ _ _ _ E) as Hc. exists ok, l', (if ok then ps ++ [(default xH (p_last l'), Live (Some s))] else ps). eexists.
  split; [by apply on_texts_eq|]. destruct ok.
  - destruct Hok as (item & Hl & Hr'). rewrite Hl. split; [exact Hr'|]. split; [|by split]. intros _. unfold texts_are in *. by rewrite live_app, !fmap_app, Ht.
  - destruct Hok as [-> ->]. by split_and!.
Qed.

(** The command has failed; nothing else is lost. *)
Definition gave_up w w' (tss : list (list loc)) q (c : command_drqv_t) : Prop :=
  calm_tasks w' tss /\ exists m, world_data w' = set_qs_texts m (set_qs_commands (<[q := set_dq_failed c]> (qs_commands (world_data w))) (world_data w)).

Lemma gave_up_texts (h : pheap cstr unit) w w' tss q c : gave_up (set_texts_heap h w) w' tss q c -> gave_up w w' tss q c.
Proof. intros [Hw (m & E)]. split; [done|]. by exists m. Qed.

Lemma drqv_fail_run w tss q c (timestamp : Z) message : calm_tasks w tss -> qs_commands (world_data w) !! q = Some c -> addressable (dq_channel_id c) = true ->
  exists w', drqv_fail q timestamp message w = Some (false, w') /\ calm_tasks w' tss /\
    world_data w' = set_qs_commands (<[q := set_dq_failed c]> (qs_commands (world_data w))) (world_data w).
Proof.
  intros Hw Hc Ha. unfold drqv_fail. erewrite bind_eq by by apply load_drqv_eq.
  destruct (tasks_error w tss (dq_channel_id c) timestamp (Some message) Hw Ha) as (err & w1 & E1 & Hw1 & Hd1). erewrite bind_eq by exact E1.
  erewrite bind_eq by (apply update_drqv_eq; rewrite Hd1; exact Hc). rewrite Hd1. eexists. split; [reflexivity|]. split; [by apply tasks_data|done].
Qed.

Lemma drqv_give_up_run w tss q c list message : calm_tasks w tss -> qs_commands (world_data w) !! q = Some c -> addressable (dq_channel_id c) = true ->
  (forall l, list = Some l -> exists ps, prep (texts_of w) l ps) ->
  exists w', drqv_give_up q list message w = Some (None, w') /\ gave_up w w' tss q c.
Proof.
  intros Hw Hc Ha Hl. unfold drqv_give_up. erewrite bind_eq by by apply load_drqv_eq.
  destruct (drqv_fail_run w tss q c (dq_timestamp c) message Hw Hc Ha) as (w1 & E1 & Hw1 & Hd1). erewrite bind_eq by exact E1.
  destruct list as [l|].
  - destruct (Hl l eq_refl) as (ps & Hr). assert (texts_of w1 = texts_of w) as Et by (unfold texts_of; by rewrite Hd1).
    destruct (destroy_preallocated_list_run (texts_heap w1) l ps free_text PREALLOC_LIST_CALL_DEFERRED_DESTRUCTORS) as (m & E & _).
    { change (ph_items (texts_heap w1)) with (texts_of w1). by rewrite Et. }
    erewrite bind_eq by by apply on_texts_eq. eexists. split; [reflexivity|]. split; [by apply tasks_texts|].
    exists m. change (world_data (set_texts_heap ?h w1)) with (set_qs_texts (ph_items h) (world_data w1)). by rewrite Hd1.
  - eexists. split; [reflexivity|]. split; [done|]. exists (texts_of w). rewrite Hd1. unfold texts_of. by destruct (world_data w).
Qed.

(** What collecting comes to: a list of all texts, or a failure for lack of memory. *)
Definition collected w w' tss q c (texts : list cstr) (r : option prealloc_list_t) : Prop :=
  match r with
  | Some l => exists h ps, w' = set_texts_heap h w /\ prep (ph_items h) l ps /\ texts_are ps texts /\ calmer (cs_env (w_channels w)) (ph_env h) /\
      (env_alloc (cs_env (w_channels w)) = [] -> env_alloc (ph_env h) = [])
  | None => gave_up w w' tss q c /\ env_alloc (cs_env (w_channels w)) <> []
  end.

Lemma collected_texts (h : pheap cstr unit) w w' tss q c texts r :
  calmer (cs_env (w_channels w)) (ph_env h) -> (env_alloc (cs_env (w_channels w)) = [] -> env_alloc (ph_env h) = []) ->
  collected (set_texts_heap h w) w' tss q c texts r -> collected w w' tss q c texts r.
Proof.
  intros Hc Ha. destruct r as [l|].
  - intros (h' & ps & -> & Hr & Ht & Hc' & Ha'). exists h', ps. split; [done|]. split; [done|]. split; [done|]. split; [by etransitivity|]. auto.
  - intros [Hg Hn]. split; [by eapply gave_up_texts|]. intros H0'. by apply Hn, Ha.
Qed.

(** A failure after some texts were made. *)
Lemma collecting_fails (h : pheap cstr unit) w tss q c list texts message : calm_tasks w tss -> qs_commands (world_data w) !! q = Some c -> addressable (dq_channel_id c) = true ->
  calmer (cs_env (w_channels w)) (ph_env h) -> env_alloc (cs_env (w_channels w)) <> [] -> (forall l, list = Some l -> exists ps, prep (ph_items h) l ps) ->
  exists w', drqv_give_up q list message (set_texts_heap h w) = Some (None, w') /\ collected w w' tss q c texts None.
Proof.
  intros Hw Hc Ha Hcalm Hn Hl. destruct (drqv_give_up_run (set_texts_heap h w) tss q c list message) as (w' & E & Hg); [by apply tasks_texts|done|done|exact Hl|].
  exists w'. split; [done|]. split; [by eapply gave_up_texts|done].
Qed.

(** The separator in front of a text. *)
Lemma separate_run w tss q c (is_first : bool) l ps texts : calm_tasks w tss -> qs_commands (world_data w) !! q = Some c -> addressable (dq_channel_id c) = true ->
  prep (texts_of w) l ps -> texts_are ps texts ->
  exists r w', (if is_first then mret (Some l)
     else
       separator_copy ← on_env (copy_string (Some (lit ";")));
       match separator_copy with
       | None => drqv_give_up q (Some l) (lit "failed to copy separator")
       | Some separator_copy =>
           '(ok, l) ← on_texts (prealloc_list_append l (Some separator_copy));
           if ok : bool then mret (Some l) else drqv_give_up q (Some l) (lit "failed to append separator to list")
       end) w = Some (r, w') /\ collected w w' tss q c (texts ++ (if is_first then [] else [lit ";"])) r.
Proof.
  intros Hw Hc Ha Hr Ht. destruct is_first.
  { exists (Some l), w. split; [done|]. exists (texts_heap w), ps. rewrite set_texts_same, app_nil_r. by split_and!. }
  erewrite bind_eq by (apply on_env_texts, copy_string_eq; apply (bool_decide_unpack _); by vm_compute).
  set (h1 := mkPHeap (qs_texts (world_data w)) [] (alloc_rest (cs_env (w_channels w)))).
  assert (calmer (cs_env (w_channels w)) (ph_env h1)) as Hc1 by apply calmer_alloc_rest.
  destruct (alloc_next (cs_env (w_channels w))) eqn:Hal.
  2:{ destruct (collecting_fails h1 w tss q c (Some l) (texts ++ [lit ";"]) (lit "failed to copy separator") Hw Hc Ha Hc1) as (w' & E & Hcol).
      { intros E. unfold alloc_next in Hal. by rewrite E in Hal. } { intros ? [= <-]. by exists ps. }
      by exists None, w'. }
  assert (env_alloc (cs_env (w_channels w)) = [] -> env_alloc (ph_env h1) = []) as Ha1 by (intros E; unfold h1, alloc_rest; simpl; by rewrite E).
  destruct (append_text_run (set_texts_heap h1 w) l ps texts (lit ";") Hr Ht) as (ok & l2 & ps2 & h2 & E2 & Hr2 & Ht2 & Hc2 & Ha2).
  erewrite bind_eq by exact E2. cbv beta iota. rewrite set_texts_twice. change (cs_env (w_channels (set_texts_heap h1 w))) with (ph_env h1) in Hc2, Ha2.
  assert (calmer (cs_env (w_channels w)) (ph_env h2)) as Hc' by by etransitivity.
  destruct ok.
  - exists (Some l2), (set_texts_heap h2 w). split; [done|]. exists h2, ps2. split_and!; try done; [by apply Ht2|]. intros E. by apply Ha2, Ha1.
  - destruct (collecting_fails h2 w tss q c (Some l2) (texts ++ [lit ";"]) (lit "failed to append separator to list") Hw Hc Ha Hc') as (w' & E & Hcol).
    { intros E. by destruct (Ha2 (Ha1 E)). } { intros ? [= <-]. by exists ps2. }
    by exists None, w'.
Qed.

Lemma encode_values_run q c tss ds : forall w is_first l ps texts, calm_tasks w tss -> qs_commands (world_data w) !! q = Some c -> addressable (dq_channel_id c) = true ->
  Forall dataref_ok ds -> prep (texts_of w) l ps -> texts_are ps texts ->
  exists r w', encode_values q is_first ds l w = Some (r, w') /\ collected w w' tss q c (texts ++ result_texts is_first ds) r.
Proof.
  induction ds as [|d ds IH]; intros w is_first l ps texts Hw Hc Ha Hds Hr Ht.
  { exists (Some l), w. split; [done|]. exists (texts_heap w), ps. cbn [result_texts]. rewrite set_texts_same, app_nil_r. by split_and!. }
  apply Forall_cons in Hds as [Hd Hds]. cbn [encode_values result_texts].
  destruct (separate_run w tss q c is_first l ps texts Hw Hc Ha Hr Ht) as (r1 & w1 & E1 & Hcol1). erewrite bind_eq by exact E1.
  destruct r1 as [l1|]; [|exists None, w1; split; [done|]; exact Hcol1].
  destruct Hcol1 as (h1 & ps1 & -> & Hr1 & Ht1 & Hc1 & Ha1).
  destruct (encode_dataref_run d (set_texts_heap h1 w) Hd) as (r2 & h2 & E2 & Hr2 & Hs2 & Hc2 & Ha2). erewrite bind_eq by exact E2. rewrite set_texts_twice.
  change (cs_env (w_channels (set_texts_heap h1 w))) with (ph_env h1) in Hc2, Ha2. change (texts_of (set_texts_heap h1 w)) with (ph_items h1) in Hs2.
  assert (calmer (cs_env (w_channels w)) (ph_env h2)) as Hc2' by by etransitivity.
  assert (prep (ph_items h2) l1 ps1) as Hrp2 by (eapply prep_frame; [|exact Hr1]; intros p Hp; apply Hs2; by eapply prep_owned).
  destruct Hr2 as [->|E]; [|destruct r2 as [t2|]; [|done]; injection E as ->].
  { destruct (collecting_fails h2 w tss q c (Some l1) (texts ++ (if is_first then [] else [lit ";"]) ++ value_text d :: result_texts false ds) (lit "failed to encode value") Hw Hc Ha Hc2') as (w' & E & Hcol).
    { intros E. by destruct (Ha2 (Ha1 E)). } { intros ? [= <-]. by exists ps1. }
    by exists None, w'. }
  destruct (append_text_run (set_texts_heap h2 w) l1 ps1 _ (value_text d) Hrp2 Ht1) as (ok & l3 & ps3 & h3 & E3 & Hr3 & Ht3 & Hc3 & Ha3).
  erewrite bind_eq by exact E3. cbv beta iota. rewrite set_texts_twice. change (cs_env (w_channels (set_texts_heap h2 w))) with (ph_env h2) in Hc3, Ha3.
  assert (calmer (cs_env (w_channels w)) (ph_env h3)) as Hc3' by by etransitivity.
  destruct ok.
  - destruct (IH (set_texts_heap h3 w) false l3 ps3 _ (tasks_texts h3 w tss Hc3' Hw) Hc Ha Hds Hr3 (Ht3 eq_refl)) as (r4 & w4 & E4 & Hcol4).
    exists r4, w4. split; [exact E4|]. apply (collected_texts h3); [done|intros E; by apply Ha3, Ha2, Ha1|].
    by rewrite <-!app_assoc in Hcol4.
  - destruct (collecting_fails h3 w tss q c (Some l3) (texts ++ (if is_first then [] else [lit ";"]) ++ value_text d :: result_texts false ds) (lit "failed to append encoded value to list") Hw Hc Ha Hc3') as (w' & E & Hcol).
    { intros E. by destruct (Ha3 (proj1 (Ha2 (Ha1 E)))). } { intros ? [= <-]. by exists ps3. }
    by exists None, w'.
Qed.
End Values.
