(* ===== verification/DrqvReading.v ===== *)
(** The flight loops of DRQV ([Drqv.drqv_process_flightloop]): finding the datarefs,
    reading their values and the timer, whatever X-Plane answers; and the end of a
    query. *)

From S2P Require Import Prelude CLib Utils Hashmap Channels Requests Lists Prealloc Arrays Protocol TaskSchedule Network Command Session Server ServerCommands Beside CalmWorld CmtrTimers Drqv DrqvTiming DrqvValues.

(** A timer that can be run. *)
Definition timing_ok (t : drqv_timing) : Prop := 0 < qt_interval t <= INT_MAX /\ times_ok (qt_times_remaining t).

Lemma drqv_count_ok t : timing_ok t -> timing_ok (drqv_count t).2.
Proof.
  intros [Hi Hk]. destruct (drqv_count_run t Hk) as (t' & -> & ->). split; [done|]. by apply counted_ok.
Qed.

(** The timer runs at any time, even if the clock was set back. *)
Lemma drqv_tick_run now is_first t : timing_ok t -> exists b t', drqv_tick now is_first t = Some (b, t') /\ timing_ok t'.
Proof.
  intros Ht. unfold drqv_tick.
  assert (exists b t1, drqv_should_run now is_first t = (b, t1) /\ timing_ok t1 /\ qt_interval t1 = qt_interval t) as (b & t1 & -> & Ht1 & Hi1).
  { unfold drqv_should_run. destruct is_first; [by eexists _, _|]. destruct (negb (qt_is_interval_frames t)); by eexists _, _. }
  destruct b; cbn [negb]; cbv iota; [|by eexists _, _].
  assert (exists t2, drqv_reset_timer now t1 = Some t2 /\ timing_ok t2) as (t2 & -> & Ht2).
  { unfold drqv_reset_timer. destruct (qt_is_interval_frames t1); [by eexists|].
    destruct (forward_ok (Z.to_nat (now - qt_interval_not_before_timestamp t1 + 1)) now (qt_interval_not_before_timestamp t1) (qt_interval t1)) as (k & _ & -> & _);
      [apply Ht1|lia|]. by eexists. }
  pose proof (drqv_count_ok t2 Ht2). simpl. destruct (drqv_count t2) as [b2 t3]. by eexists _, _.
Qed.

Lemma calmer_set_length {A} `{Zeroed A} (arr : dynamic_array_t A) length : respects calmer (dynamic_array_set_length arr length).
Proof. unfold dynamic_array_set_length, dynamic_array_ensure_capacity. respects_step. Qed.

Section Reading.
Context `{DataTypes} `{FloatText} {C : Type} `{ConnectionLaws C}.
Abbreviation W := (world C (ext drqv_state)).
Implicit Types (q p : loc) (w : W) (d : drqv_dataref_t) (ds : list drqv_dataref_t) (c : command_drqv_t) (tss : list (list loc)).

(** * What an operation on a command leaves *)

(** The command [q] is [c] now; X-Plane got some calls; no other command, no task and
    no queue of the schedule has changed. *)
Record becomes w w' tss q c : Prop := mkBecomes {
  bc_calm : calm_tasks w' tss;
  bc_commands : qs_commands (world_data w') = <[q := c]> (qs_commands (world_data w));
  bc_tasks : qs_tasks (world_data w') = qs_tasks (world_data w);
  bc_calls : qs_calls (world_data w) `prefix_of` qs_calls (world_data w');
}.

Lemma becomes_refl w tss q c : calm_tasks w tss -> qs_commands (world_data w) !! q = Some c -> becomes w w tss q c.
Proof. intros Hw Hc. split; [done|by rewrite insert_id|done|done]. Qed.

Lemma becomes_at w w' tss q c : becomes w w' tss q c -> qs_commands (world_data w') !! q = Some c.
Proof. intros []. rewrite bc_commands0. apply lookup_insert_eq. Qed.

Lemma becomes_trans w1 w2 w3 tss q c1 c2 : becomes w1 w2 tss q c1 -> becomes w2 w3 tss q c2 -> becomes w1 w3 tss q c2.
Proof. intros [] []. split; [done|by rewrite bc_commands1, bc_commands0, insert_insert_eq|congruence|by etrans]. Qed.

Lemma becomes_data w w' tss q c : calm_tasks w' tss -> world_data w' = world_data w -> qs_commands (world_data w) !! q = Some c -> becomes w w' tss q c.
Proof. intros Hw E Hc. split; rewrite ?E; [done|by rewrite insert_id|done|done]. Qed.

Lemma update_drqv_run w tss q f c : calm_tasks w tss -> qs_commands (world_data w) !! q = Some c ->
  exists w', update_drqv q f w = Some (tt, w') /\ becomes w w' tss q (f c).
Proof. intros Hw Hc. eexists. split; [by apply update_drqv_eq|]. split; [by apply tasks_data|done..]. Qed.

Lemma drqv_fail_becomes w tss q c (timestamp : Z) message : calm_tasks w tss -> qs_commands (world_data w) !! q = Some c -> addressable (dq_channel_id c) = true ->
  exists w', drqv_fail q timestamp message w = Some (false, w') /\ becomes w w' tss q (set_dq_failed c).
Proof.
  intros Hw Hc Ha. destruct (drqv_fail_run w tss q c timestamp message Hw Hc Ha) as (w' & E & Hw' & Hd). exists w'. split; [done|]. split; rewrite ?Hd; done.
Qed.

Lemma error_becomes w tss q c (timestamp : Z) message : calm_tasks w tss -> qs_commands (world_data w) !! q = Some c -> addressable (dq_channel_id c) = true ->
  exists err w', error_channel (dq_channel_id c) timestamp message w = Some (err, w') /\ becomes w w' tss q c.
Proof.
  intros Hw Hc Ha. destruct (tasks_error w tss (dq_channel_id c) timestamp message Hw Ha) as (err & w' & E & Hw' & Hd). exists err, w'. split; [done|].
  by apply becomes_data.
Qed.

(** A call of the SDK. *)
Lemma call_becomes {A} w tss q c (call : dataref_call) (answer : list dataref_call -> A) : calm_tasks w tss -> qs_commands (world_data w) !! q = Some c ->
  exists w', call_dataref_sdk call answer w = Some (answer (qs_calls (world_data w)), w') /\ becomes w w' tss q c.
Proof.
  intros Hw Hc. eexists. split; [reflexivity|]. split; [by apply tasks_data|simpl; by rewrite insert_id|done|]. simpl. by eexists.
Qed.

(** * Finding datarefs *)

Section XPlane.
Context (XPLMFindDataRef_result : list dataref_call -> cstr -> Z) (XPLMGetDataRefTypes_result : list dataref_call -> Z -> Z).
Context (XPLMGetData_result : list dataref_call -> Z -> Z -> Z) (XPLMGetDataArray_result : list dataref_call -> Z -> Z -> Z -> Z -> Z * list Z).
Context (XPLMGetDataArray_length : list dataref_call -> Z -> Z -> Z).

(** X-Plane returns the number of items that it writes, which is not more than asked
    for; lengths are of type [int]. *)
Definition reads_arrays : Prop :=
  (forall calls type xp_ref offset max, 0 <= max -> let '(n, items) := XPLMGetDataArray_result calls type xp_ref offset max in n = len items /\ n <= max) /\
  (forall calls type xp_ref, XPLMGetDataArray_length calls type xp_ref <= INT_MAX).

(** X-Plane knows a dataref by the name that the client gave, and it has the type. *)
Definition found d : Prop :=
  exists calls, qd_xp_ref d = XPLMFindDataRef_result calls (qd_name d) /\ qd_xp_ref d <> 0 /\
    exists calls', Z.land (XPLMGetDataRefTypes_result calls' (qd_xp_ref d)) (qd_type d) <> 0.

(** The reference may have changed. *)
Definition same_dataref d d' : Prop := d' = set_qd_xp_ref (qd_xp_ref d') d.

Lemma same_dataref_ok d d' : same_dataref d d' -> dataref_ok d -> dataref_ok d'.
Proof. intros E. by rewrite E. Qed.

Lemma find_datarefs_run q c tss ds : forall w, calm_tasks w tss -> qs_commands (world_data w) !! q = Some c -> addressable (dq_channel_id c) = true -> Forall dataref_ok ds ->
  exists (ok : bool) ds' w', find_datarefs XPLMFindDataRef_result XPLMGetDataRefTypes_result q ds w = Some ((ok, ds'), w') /\
    becomes w w' tss q (if ok then c else set_dq_failed c) /\ Forall2 same_dataref ds ds' /\ (ok = true -> Forall found ds').
Proof.
  induction ds as [|d ds IH]; intros w Hw Hc Ha Hds.
  { exists true, [], w. split; [done|]. split; [by apply becomes_refl|by split]. }
  assert (forall ds, Forall2 same_dataref ds ds) as Hsame by (intros ds2; induction ds2 as [|[] ? ?]; by constructor).
  assert (forall xp_ref, same_dataref d (set_qd_xp_ref xp_ref d)) as Hset by done.
  apply Forall_cons in Hds as [Hd Hds]. cbn [find_datarefs]. unfold dataref_ok in Hd. destruct (qd_value_buffer d) as [b|] eqn:Eb; [|done]. clear Hd.
  destruct (call_becomes w tss q c (XPLMFindDataRef (qd_name d)) (fun calls => XPLMFindDataRef_result calls (qd_name d)) Hw Hc) as (w1 & E1 & H1').
  erewrite bind_eq by exact E1. cbv zeta. set (xp_ref := XPLMFindDataRef_result _ _) in *. pose proof (becomes_at _ _ _ _ _ H1') as Hc1.
  destruct (Z.eqb_spec xp_ref 0) as [Hz|Hz].
  { destruct (drqv_fail_becomes w1 tss q c CURRENT_TIME_REFERENCE (lit "dataref does not exist") (bc_calm _ _ _ _ _ H1') Hc1 Ha) as (w2 & E2 & H2').
    erewrite bind_eq by exact E2. eexists false, _, w2. split; [done|]. split; [by eapply becomes_trans|]. split; [by constructor|done]. }
  destruct (call_becomes w1 tss q c (XPLMGetDataRefTypes xp_ref) (fun calls => XPLMGetDataRefTypes_result calls xp_ref) (bc_calm _ _ _ _ _ H1') Hc1) as (w2 & E2 & H2').
  erewrite bind_eq by exact E2. pose proof (becomes_trans _ _ _ _ _ _ _ H1' H2') as H12. pose proof (becomes_at _ _ _ _ _ H2') as Hc2.
  destruct (Z.eqb_spec (Z.land (XPLMGetDataRefTypes_result (qs_calls (world_data w1)) xp_ref) (qd_type (set_qd_xp_ref xp_ref d))) 0) as [Ht|Ht].
  { destruct (drqv_fail_becomes w2 tss q c CURRENT_TIME_REFERENCE (lit "type is not available from dataref") (bc_calm _ _ _ _ _ H2') Hc2 Ha) as (w3 & E3 & H3').
    erewrite bind_eq by exact E3. eexists false, _, w3. split; [done|]. split; [by eapply becomes_trans|]. split; [by constructor|done]. }
  destruct (IH w2 (bc_calm _ _ _ _ _ H2') Hc2 Ha Hds) as (ok & ds' & w3 & E3 & H3' & Hs & Hf). erewrite bind_eq by exact E3.
  exists ok, (set_qd_xp_ref xp_ref d :: ds'), w3. split; [done|]. split; [by eapply becomes_trans|]. split; [by constructor|].
  intros Hok. constructor; [|by apply Hf]. exists (qs_calls (world_data w)). split; [done|]. split; [done|]. by exists (qs_calls (world_data w1)).
Qed.

Lemma drqv_initialize_run w tss q c : calm_tasks w tss -> qs_commands (world_data w) !! q = Some c -> addressable (dq_channel_id c) = true -> Forall dataref_ok (dq_datarefs c) ->
  exists (ok : bool) ds' w', drqv_initialize XPLMFindDataRef_result XPLMGetDataRefTypes_result q w = Some (ok, w') /\
    becomes w w' tss q (if ok then set_dq_initialized (set_dq_datarefs ds' c) else set_dq_datarefs ds' (set_dq_failed c)) /\
    Forall2 same_dataref (dq_datarefs c) ds' /\ (ok = true -> Forall found ds').
Proof.
  intros Hw Hc Ha Hds. unfold drqv_initialize. erewrite bind_eq by by apply load_drqv_eq.
  destruct (find_datarefs_run q c tss (dq_datarefs c) w Hw Hc Ha Hds) as (ok & ds' & w1 & E1 & H1' & Hs & Hf). erewrite bind_eq by exact E1. cbv beta iota.
  destruct (update_drqv_run w1 tss q (set_dq_datarefs ds') _ (bc_calm _ _ _ _ _ H1') (becomes_at _ _ _ _ _ H1')) as (w2 & E2 & H2'). erewrite bind_eq by exact E2.
  pose proof (becomes_trans _ _ _ _ _ _ _ H1' H2') as H12. destruct ok; cbn [negb]; cbv iota.
  - destruct (update_drqv_run w2 tss q set_dq_initialized _ (bc_calm _ _ _ _ _ H2') (becomes_at _ _ _ _ _ H2')) as (w3 & E3 & H3'). erewrite bind_eq by exact E3.
    exists true, ds', w3. split; [done|]. split; [by eapply becomes_trans|done].
  - exists false, ds', w2. by split_and!.
Qed.

(** * Reading values *)

(** The items that X-Plane returned, as many as it said there are. *)
Definition array_read (type xp_ref : Z) (items : list Z) : Prop :=
  exists calls, len items = XPLMGetDataArray_length calls type xp_ref /\
    (items = [] \/ exists calls', (XPLMGetDataArray_result calls' type xp_ref 0 (len items)).2 = items).

(** The buffer holds a value that X-Plane returned. *)
Definition value_read d : Prop :=
  match qd_value_buffer d with
  | Some (SimpleBuffer value) => exists calls, value = XPLMGetData_result calls (qd_type d) (qd_xp_ref d)
  | Some (ArrayBuffer arr) => array_read (qd_type d) (qd_xp_ref d) (contents arr)
  | None => False
  end.

Lemma overwrite_contents (items : list Z) arr : wf_array arr -> len items <= arr_length arr ->
  wf_array (Arrays.set_data (overwrite 0 items (arr_data arr)) arr) /\
  (len items = arr_length arr -> contents (Arrays.set_data (overwrite 0 items (arr_data arr)) arr) = items).
Proof.
  intros [Hl Hc Hd Hs] Hn. change 0 with (Z.of_nat 0). split.
  - split; [done|done| |done]. simpl. rewrite overwrite_length by lia. done.
  - intros ?. unfold contents, overwrite. simpl. change (Z.to_nat (Z.of_nat 0)) with O. simpl. rewrite take_app_length'; [done|lia].
Qed.

Lemma copy_array_run w tss q c (timestamp : Z) d arr : reads_arrays -> calm_tasks w tss -> qs_commands (world_data w) !! q = Some c -> addressable (dq_channel_id c) = true -> wf_array arr ->
  exists (ok : bool) arr' w', copy_xplm_dataref_array XPLMGetDataArray_result XPLMGetDataArray_length q timestamp d arr w = Some ((ok, arr'), w') /\
    becomes w w' tss q c /\ wf_array arr' /\ (ok = true -> array_read (qd_type d) (qd_xp_ref d) (contents arr')).
Proof.
  intros [Hget Hmax] Hw Hc Ha Hwf. unfold copy_xplm_dataref_array. cbv zeta.
  assert (forall w1 arr' message, becomes w w1 tss q c -> wf_array arr' -> exists (ok : bool) arr2 w', (ok ← (c ← load_drqv q; _ ← error_channel (dq_channel_id c) timestamp (Some (lit message)); mret false); mret (ok, arr')) w1 = Some ((ok, arr2), w') /\
    becomes w w' tss q c /\ wf_array arr2 /\ (ok = true -> array_read (qd_type d) (qd_xp_ref d) (contents arr2))) as Herror.
  { intros w1 arr' message H1' Hwf'. destruct (error_becomes w1 tss q c timestamp (Some (lit message)) (bc_calm _ _ _ _ _ H1') (becomes_at _ _ _ _ _ H1') Ha) as (err & w2 & E2 & H2').
    exists false, arr', w2. split; [|split; [by eapply becomes_trans|done]].
    erewrite bind_eq; [reflexivity|]. erewrite bind_eq by by apply load_drqv_eq, (becomes_at _ _ _ _ _ H1'). by erewrite bind_eq by exact E2. }
  destruct (call_becomes w tss q c (XPLMGetDataArray (qd_type d) (qd_xp_ref d) false 0 0) (fun calls => XPLMGetDataArray_length calls (qd_type d) (qd_xp_ref d)) Hw Hc) as (w1 & E1 & H1').
  erewrite bind_eq by exact E1. set (length := XPLMGetDataArray_length _ _ _). pose proof (Hmax (qs_calls (world_data w)) (qd_type d) (qd_xp_ref d)) as Hlen. fold length in Hlen.
  destruct (Z.ltb_spec length 0); [by apply Herror|].
  destruct (set_length_spec arr length (cs_env (w_channels w1)) Hwf Hlen) as (arr2 & e2 & ok & E2 & Hwf2 & _ & _ & Hl2 & _ & _).
  pose proof (calmer_set_length arr length _ _ _ E2) as Hcalm.
  destruct (tasks_on_env _ w1 tss _ e2 (bc_calm _ _ _ _ _ H1') E2 Hcalm) as (E3 & Hw3 & Hd3). erewrite bind_eq by exact E3. cbv beta iota.
  set (w3 := with_env e2 w1) in *. pose proof (becomes_trans _ _ _ _ _ _ _ H1' (becomes_data w1 w3 tss q c Hw3 Hd3 (becomes_at _ _ _ _ _ H1'))) as H3'.
  destruct ok; cbn [negb]; cbv iota; [|by apply Herror]. specialize (Hl2 eq_refl). pose proof (becomes_at _ _ _ _ _ H3') as Hc3.
  unfold dynamic_array_get_pointer. change (0 <? 0) with false. cbn [orb]. rewrite Hl2. destruct (Z.leb_spec length 0).
  - destruct (call_becomes w3 tss q c (XPLMGetDataArray (qd_type d) (qd_xp_ref d) false 0 length) (fun calls => XPLMGetDataArray_length calls (qd_type d) (qd_xp_ref d)) Hw3 Hc3) as (w4 & E4 & H4').
    erewrite bind_eq by (erewrite bind_eq by exact E4; reflexivity). cbv beta iota. pose proof (becomes_trans _ _ _ _ _ _ _ H3' H4') as H14.
    set (actual := XPLMGetDataArray_length _ _ _). destruct (negb (actual =? length)); [by apply Herror|]. exists true, arr2, w4. split; [done|]. split; [done|]. split; [done|].
    intros _. assert (contents arr2 = []) as ->. { unfold contents. replace (Z.to_nat (arr_length arr2)) with O by lia. done. }
    exists (qs_calls (world_data w)). split; [fold length; simpl; lia|by left].
  - destruct (call_becomes w3 tss q c (XPLMGetDataArray (qd_type d) (qd_xp_ref d) true 0 length) (fun calls => XPLMGetDataArray_result calls (qd_type d) (qd_xp_ref d) 0 length) Hw3 Hc3) as (w4 & E4 & H4').
    pose proof (Hget (qs_calls (world_data w3)) (qd_type d) (qd_xp_ref d) 0 length ltac:(lia)) as Hitems.
    destruct (XPLMGetDataArray_result (qs_calls (world_data w3)) (qd_type d) (qd_xp_ref d) 0 length) as [actual items] eqn:Er. destruct Hitems as [-> Hle].
    erewrite bind_eq by (erewrite bind_eq by exact E4; cbv beta iota; rewrite (proj2 (Z.ltb_ge _ _)) by lia; reflexivity). cbv beta iota.
    pose proof (becomes_trans _ _ _ _ _ _ _ H3' H4') as H14.
    destruct (overwrite_contents items arr2 Hwf2 ltac:(lia)) as [Hwf4 Hcont].
    destruct (Z.eqb_spec (len items) length) as [Hn|]; cbn [negb]; [|by apply Herror]. eexists true, _, w4. split; [done|]. split; [done|]. split; [done|].
    intros _. rewrite Hcont by lia. exists (qs_calls (world_data w)). split; [done|]. right. exists (qs_calls (world_data w3)). by rewrite Hn, Er.
Qed.

(** Everything but the buffer. *)
Definition same_but_buffer d d' : Prop := exists b, d' = set_qd_value_buffer b d.

Lemma update_value_run w tss q c (timestamp : Z) d : reads_arrays -> calm_tasks w tss -> qs_commands (world_data w) !! q = Some c -> addressable (dq_channel_id c) = true -> dataref_ok d ->
  exists (ok : bool) d' w', update_value XPLMGetData_result XPLMGetDataArray_result XPLMGetDataArray_length q timestamp d w = Some ((ok, d'), w') /\
    becomes w w' tss q c /\ dataref_ok d' /\ same_but_buffer d d' /\ (ok = true -> value_read d').
Proof.
  intros Hx Hw Hc Ha Hd. unfold update_value. cbv zeta. unfold dataref_ok in Hd. destruct (qd_value_buffer d) as [[v|arr]|] eqn:Eb; [| |done].
  - destruct Hd as [Ht Hs].
    assert (((qd_type d =? xplmType_Int) || (qd_type d =? xplmType_Float) || (qd_type d =? xplmType_Double)) = true) as ->
      by (destruct Ht as [->|[->| ->]]; by rewrite Z.eqb_refl, ?orb_true_r).
    destruct (call_becomes w tss q c (XPLMGetData (qd_type d) (qd_xp_ref d)) (fun calls => XPLMGetData_result calls (qd_type d) (qd_xp_ref d)) Hw Hc) as (w1 & E1 & H1').
    erewrite bind_eq by exact E1. eexists true, _, w1. split; [done|]. split; [done|]. split; [by unfold dataref_ok|]. split; [by eexists|].
    intros _. by exists (qs_calls (world_data w)).
  - destruct Hd as [Ht Hwf]. rewrite array_not_simple, array_is_array by done.
    destruct (copy_array_run w tss q c timestamp d arr Hx Hw Hc Ha Hwf) as (ok & arr' & w1 & E1 & H1' & Hwf' & Hr). erewrite bind_eq by exact E1.
    eexists ok, _, w1. split; [done|]. split; [done|]. split; [by unfold dataref_ok|]. split; [by eexists|exact Hr].
Qed.

Lemma update_values_run q c tss (timestamp : Z) ds : reads_arrays -> forall w, calm_tasks w tss -> qs_commands (world_data w) !! q = Some c -> addressable (dq_channel_id c) = true -> Forall dataref_ok ds ->
  exists (ok : bool) ds' w', update_values XPLMGetData_result XPLMGetDataArray_result XPLMGetDataArray_length q timestamp ds w = Some ((ok, ds'), w') /\
    becomes w w' tss q c /\ Forall dataref_ok ds' /\ Forall2 same_but_buffer ds ds' /\ (ok = true -> Forall value_read ds').
Proof.
  intros Hx. induction ds as [|d ds IH]; intros w Hw Hc Ha Hds.
  { exists true, [], w. split; [done|]. by split; [by apply becomes_refl|]. }
  apply Forall_cons in Hds as [Hd Hds]. cbn [update_values].
  destruct (update_value_run w tss q c timestamp d Hx Hw Hc Ha Hd) as (ok & d' & w1 & E1 & H1' & Hd' & Hs1 & Hr1). erewrite bind_eq by exact E1. cbv beta iota.
  destruct ok; cbn [negb]; cbv iota.
  - destruct (IH w1 (bc_calm _ _ _ _ _ H1') (becomes_at _ _ _ _ _ H1') Ha Hds) as (ok & ds' & w2 & E2 & H2' & Hds' & Hs2 & Hr2). erewrite bind_eq by exact E2. cbv beta iota.
    exists ok, (d' :: ds'), w2. split; [done|]. split; [by eapply becomes_trans|]. split; [by constructor|]. split; [by constructor|]. intros Hok. constructor; auto.
  - exists false, (d' :: ds), w1. split; [done|]. split; [done|]. split; [by constructor|]. split; [|done]. constructor; [done|].
    clear. induction ds as [|[] ds IH]; constructor; [by eexists|done].
Qed.

(** * The flight loop *)

(** The same command, in the same queue. *)
Definition same_command c c' : Prop := dq_channel_id c' = dq_channel_id c /\ dq_task c' = dq_task c /\ dq_phase c' = dq_phase c.

(** The same datarefs. *)
Definition same_names ds ds' : Prop := (fun d => (qd_name d, qd_type d)) <$> ds' = (fun d => (qd_name d, qd_type d)) <$> ds.

Lemma same_names_refs ds ds' : Forall2 same_dataref ds ds' -> same_names ds ds'.
Proof. unfold same_names. induction 1 as [|d d' ds ds' E _ IH]; [done|]. rewrite !fmap_cons, IH. by rewrite E. Qed.

Lemma same_names_buffers ds ds' : Forall2 same_but_buffer ds ds' -> same_names ds ds'.
Proof. unfold same_names. induction 1 as [|d d' ds ds' [b E] _ IH]; [done|]. rewrite !fmap_cons, IH. by rewrite E. Qed.

Lemma refs_ok ds ds' : Forall2 same_dataref ds ds' -> Forall dataref_ok ds -> Forall dataref_ok ds'.
Proof. induction 1 as [|d d' ds ds' Hd _ IH]; [done|]. rewrite !Forall_cons. intros [? ?]. split; [by eapply same_dataref_ok|auto]. Qed.

(** A command that can be run. *)
Definition runnable c : Prop := addressable (dq_channel_id c) = true /\ Forall dataref_ok (dq_datarefs c) /\ timing_ok (dq_timing c).

(** What the flight loop that runs at the time [now] does to a command: values are
    read if the timer says so, all of them, and they are marked by the time. *)
Definition looped c c' (now : Z) : Prop :=
  dq_failed c' = false /\ dq_initialized c' = true /\
  exists should_read, drqv_tick now (negb (dq_initialized c)) (dq_timing c) = Some (should_read, dq_timing c') /\
    if should_read : bool then dq_timestamp c' = now /\ Forall value_read (dq_datarefs c') else dq_timestamp c' = dq_timestamp c.

Lemma flightloop_from_run w tss q c0 c (now : Z) is_first : reads_arrays -> calm_tasks w tss -> qs_commands (world_data w) !! q = Some c -> runnable c -> timing_ok (dq_timing c0) ->
  dq_failed c = false -> dq_initialized c = true -> is_first = negb (dq_initialized c0) -> dq_timing c = dq_timing c0 -> dq_timestamp c = dq_timestamp c0 ->
  exists w' c', (
    '(should_read, timing) ← from_ub (drqv_tick now is_first (dq_timing c0));
    _ ← update_drqv q (set_dq_timing timing);
    if negb should_read then mret tt
    else
      _ ← update_drqv q (set_dq_timestamp now);
      c ← load_drqv q;
      '(ok, datarefs) ← update_values XPLMGetData_result XPLMGetDataArray_result XPLMGetDataArray_length q now (dq_datarefs c);
      _ ← update_drqv q (set_dq_datarefs datarefs);
      when (negb ok) (update_drqv q set_dq_failed)) w = Some (tt, w') /\
    becomes w w' tss q c' /\ same_command c c' /\ runnable c' /\ same_names (dq_datarefs c) (dq_datarefs c') /\ (dq_failed c' = true \/ looped c0 c' now).
Proof.
  intros Hx Hw Hc (Ha & Hds & Hti) Ht0 Hf Hi -> Et Es. destruct (drqv_tick_run now (negb (dq_initialized c0)) (dq_timing c0) Ht0) as (b & t & E & Ht).
  rewrite E. erewrite bind_eq by reflexivity. cbv beta iota.
  destruct (update_drqv_run w tss q (set_dq_timing t) c Hw Hc) as (w1 & E1 & H1'). erewrite bind_eq by exact E1. destruct b; cbn [negb]; cbv iota.
  2:{ exists w1, (set_dq_timing t c). split; [done|]. split; [done|]. split; [done|]. split; [done|]. split; [done|]. right. unfold looped. split; [done|]. split; [done|]. by exists false. }
  destruct (update_drqv_run w1 tss q (set_dq_timestamp now) _ (bc_calm _ _ _ _ _ H1') (becomes_at _ _ _ _ _ H1')) as (w2 & E2 & H2'). erewrite bind_eq by exact E2.
  pose proof (becomes_trans _ _ _ _ _ _ _ H1' H2') as H12. pose proof (becomes_at _ _ _ _ _ H2') as Hc2. erewrite bind_eq by by apply load_drqv_eq.
  destruct (update_values_run q _ tss now (dq_datarefs c) Hx w2 (bc_calm _ _ _ _ _ H2') Hc2 Ha Hds) as (ok & ds' & w3 & E3 & H3' & Hds' & Hs & Hr).
  erewrite bind_eq by exact E3. cbv beta iota. pose proof (becomes_trans _ _ _ _ _ _ _ H12 H3') as H13.
  destruct (update_drqv_run w3 tss q (set_dq_datarefs ds') _ (bc_calm _ _ _ _ _ H3') (becomes_at _ _ _ _ _ H3')) as (w4 & E4 & H4'). erewrite bind_eq by exact E4.
  pose proof (becomes_trans _ _ _ _ _ _ _ H13 H4') as H14. unfold when. destruct ok; cbn [negb]; cbv iota.
  - eexists w4, _. split; [done|]. split; [exact H14|]. split; [done|]. split; [done|]. split; [by apply same_names_buffers|]. right.
    split; [done|]. split; [done|]. exists true. split; [done|]. split; [done|]. by apply Hr.
  - destruct (update_drqv_run w4 tss q set_dq_failed _ (bc_calm _ _ _ _ _ H4') (becomes_at _ _ _ _ _ H4')) as (w5 & E5 & H5').
    eexists w5, _. split; [exact E5|]. split; [by eapply becomes_trans|]. split; [done|]. split; [done|]. split; [by apply same_names_buffers|]. by left.
Qed.

Lemma drqv_flightloop_run w tss q c : reads_arrays -> calm_tasks w tss -> qs_commands (world_data w) !! q = Some c -> runnable c ->
  exists w' c', drqv_process_flightloop XPLMFindDataRef_result XPLMGetDataRefTypes_result XPLMGetData_result XPLMGetDataArray_result XPLMGetDataArray_length q w = Some (tt, w') /\
    becomes w w' tss q c' /\ same_command c c' /\ runnable c' /\ same_names (dq_datarefs c) (dq_datarefs c') /\
    (dq_failed c = false -> exists now w0, millis_since_reference w = Some (now, w0) /\
      if now <? 0 then c' = c else dq_failed c' = true \/ looped c c' now).
Proof.
  intros Hx Hw Hc Hr. pose proof Hr as (Ha & Hds & Hti). unfold drqv_process_flightloop. erewrite bind_eq by by apply load_drqv_eq.
  destruct (dq_failed c) eqn:Hf; [exists w, c; split_and!; try done; by apply becomes_refl|].
  destruct (millis_run w) as (now & e & E0 & _). destruct (tasks_quiet w (with_env e w) tss) as [Hw0 Hd0]; [by eapply quiet_millis_since_reference| |done|].
  { exact (ct_world _ _ (tasks_env w tss e (proj2 (quiet_millis_since_reference _ _ _ E0)) Hw)). }
  erewrite bind_eq by exact E0. set (w0 := with_env e w) in *. pose proof (becomes_data w w0 tss q c Hw0 Hd0 Hc) as H0'. pose proof (becomes_at _ _ _ _ _ H0') as Hc0.
  destruct (now <? 0) eqn:Hnow; [exists w0, c; split_and!; try done; intros _; exists now, w0; by rewrite Hnow|].
  destruct (dq_initialized c) eqn:Hi; cbn [negb]; cbv iota.
  - erewrite bind_eq by reflexivity. cbv beta iota. cbn [negb]. cbv iota.
    destruct (flightloop_from_run w0 tss q c c now false Hx Hw0 Hc0 Hr Hti Hf Hi) as (w2 & c2 & E2 & H2' & ? & ? & ? & Hl); [by rewrite Hi|done|done|].
    exists w2, c2. split; [exact E2|]. split; [by eapply becomes_trans|]. split_and!; try done. intros _. exists now, w0. by rewrite Hnow.
  - destruct (drqv_initialize_run w0 tss q c Hw0 Hc0 Ha Hds) as (ok & ds' & w1 & E1 & H1' & Hs & Hfound). pose proof (becomes_trans _ _ _ _ _ _ _ H0' H1') as H01.
    pose proof (becomes_at _ _ _ _ _ H1') as Hc1. pose proof (refs_ok _ _ Hs Hds) as Hds'. destruct ok.
    + destruct (tasks_act w1 tss (fun _ => CHANNEL_ACTION_ACK_CONTINUE) (lit "failed to confirm channel") (dq_channel_id c) now None (bc_calm _ _ _ _ _ H1') Ha)
        as (err & w2 & E2 & Hw2 & Hd2).
      erewrite bind_eq by (erewrite bind_eq by exact E1; cbn [negb]; cbv iota; unfold confirm_channel; erewrite bind_eq by exact E2; reflexivity). cbv beta iota. cbn [negb]. cbv iota.
      pose proof (becomes_data w1 w2 tss q _ Hw2 Hd2 Hc1) as H2'. pose proof (becomes_trans _ _ _ _ _ _ _ H01 H2') as H02.
      destruct (flightloop_from_run w2 tss q c _ now true Hx Hw2 (becomes_at _ _ _ _ _ H2')) as (w3 & c3 & E3 & H3' & Hsc & Hr3 & Hn & Hl); [done|done|done|done|by rewrite Hi|done|done|].
      exists w3, c3. split; [exact E3|]. split; [by eapply becomes_trans|]. split; [done|]. split; [done|]. split; [unfold same_names in *; rewrite Hn; by apply same_names_refs|].
      intros _. exists now, w0. by rewrite Hnow.
    + destruct (update_drqv_run w1 tss q set_dq_failed _ (bc_calm _ _ _ _ _ H1') Hc1) as (w2 & E2 & H2').
      erewrite bind_eq by (erewrite bind_eq by exact E1; cbn [negb]; cbv iota; erewrite bind_eq by exact E2; reflexivity). cbv beta iota. cbn [negb]. cbv iota.
      eexists w2, _. split; [done|]. split; [by eapply becomes_trans|]. split; [done|]. split; [done|]. split; [by apply same_names_refs|]. intros _. exists now, w0. rewrite Hnow. split; [done|by left].
Qed.
End XPlane.

(** * Termination *)

Lemma update_drqv_connection q f w u w' : update_drqv q f w = Some (u, w') -> w_connection w' = w_connection w.
Proof.
  intros E. destruct (qs_commands (world_data w) !! q) as [c|] eqn:Hc; [rewrite (update_drqv_eq w q f c Hc) in E; by injection E as _ <-|].
  unfold update_drqv in E. unfold mbind, M_bind in E. cbv beta in E. assert (load_drqv q w = None) as E' by (unfold load_drqv; erewrite bind_eq by reflexivity; unfold from_ub; by rewrite Hc).
  by rewrite E' in E.
Qed.

Lemma on_channels_connection {A} (m : M channels A) w a w' : on_channels m w = Some (a, w') -> w_connection w' = w_connection w.
Proof. unfold on_channels, zoom. destruct (m _) as [[? ?]|]; [|done]. by intros [= _ <-]. Qed.

(** A command that is scheduled by the task [t]. *)
Record scheduled w tss q c (t : loc) : Prop := mkScheduled {
  sd_task : dq_task c = Some t;
  sd_phase : valid_phase (dq_phase c) = true;
  sd_queue : exists ts, tss !! Z.to_nat (dq_phase c) = Some ts /\ t ∈ ts;
  sd_reference : qs_tasks (world_data w) !! t = Some q;
  sd_runnable : runnable c;
}.

Lemma drqv_terminate_run w tss q c t : calm_tasks w tss -> qs_commands (world_data w) !! q = Some c -> scheduled w tss q c t ->
  exists ts1 ts2 w', tss !! Z.to_nat (dq_phase c) = Some (ts1 ++ t :: ts2) /\ drqv_terminate (Some q) w = Some (ERROR_NONE, w') /\
    becomes w w' (<[Z.to_nat (dq_phase c) := ts1 ++ ts2]> tss) q (set_dq_channel_id BAD_CHANNEL_ID (set_dq_task None c)) /\
    conn_queued (w_connection w) `prefix_of` conn_queued (w_connection w').
Proof.
  intros Hw Hc [Ht Hv (ts & Hts & Hin) _ (Ha & _)]. unfold drqv_terminate. erewrite bind_eq by by apply load_drqv_eq. unfold finish_channel.
  destruct (tasks_act w tss (fun st => if is_initial st then CHANNEL_ACTION_ACK_CLOSE else CHANNEL_ACTION_CLOSE) (lit "failed to finish channel")
    (dq_channel_id c) CURRENT_TIME_REFERENCE None Hw Ha) as (err1 & w1 & E1 & Hw1 & Hd1). erewrite bind_eq by exact E1.
  assert (conn_queued (w_connection w) `prefix_of` conn_queued (w_connection w1)) as Hq1.
  { destruct (act_on_channel_run (fun st => if is_initial st then CHANNEL_ACTION_ACK_CLOSE else CHANNEL_ACTION_CLOSE) (lit "failed to finish channel")
      (dq_channel_id c) CURRENT_TIME_REFERENCE None w (ct_world _ _ Hw) Ha) as (err & w2 & ms & E & Htalk & _).
    assert (w2 = w1) as -> by congruence. rewrite (talked_queue _ _ _ Htalk). by eexists. }
  pose proof (becomes_data w w1 tss q c Hw1 Hd1 Hc) as H1'. erewrite bind_eq by (apply load_drqv_eq; by eapply becomes_at). rewrite Ht.
  destruct (tasks_lock w1 tss Hw1) as (w2 & E2 & Hw2 & Hd2).
  destruct (tasks_unschedule w2 tss (dq_phase c) ts t Hw2 Hv Hts Hin) as (ts1 & ts2 & w3 & -> & E3 & Hw3 & Hd3). set (tss' := <[Z.to_nat (dq_phase c) := ts1 ++ ts2]> tss) in *.
  destruct (tasks_unlock w3 tss' Hw3) as (w4 & E4 & Hw4 & Hd4).
  assert (world_data w4 = world_data w) as Hd14 by congruence.
  destruct (update_drqv_run w4 tss' q (set_dq_task None) c Hw4) as (w5 & E5 & H5'); [by rewrite Hd14|].
  erewrite bind_eq.
  2:{ erewrite bind_eq by exact E2. change (ERROR_NONE =? ERROR_NONE) with true. cbv iota.
      erewrite bind_eq by (erewrite bind_eq by reflexivity; erewrite bind_eq by exact E3; erewrite bind_eq by exact E4; reflexivity).
      change (ERROR_NONE =? ERROR_NONE) with true. unfold when. cbv iota. erewrite bind_eq by exact E5. reflexivity. }
  change (negb (ERROR_NONE =? ERROR_NONE)) with false. cbv iota. pose proof (becomes_at _ _ _ _ _ H5') as Hc5. erewrite bind_eq by by apply load_drqv_eq. cbv zeta.
  destruct (update_drqv_run w5 tss' q (set_dq_channel_id BAD_CHANNEL_ID) _ (bc_calm _ _ _ _ _ H5') Hc5) as (w6 & E6 & H6'). erewrite bind_eq by exact E6.
  destruct (tasks_request_destruction w6 tss' (dq_channel_id c) (bc_calm _ _ _ _ _ H6') Ha) as (w7 & E7 & Hw7 & Hd7). erewrite bind_eq by exact E7.
  exists ts1, ts2, w7. split; [done|]. split; [done|]. pose proof (becomes_trans _ _ _ _ _ _ _ H5' H6') as H46.
  pose proof (becomes_data w6 w7 tss' q _ Hw7 Hd7 (becomes_at _ _ _ _ _ H6')) as H7'. destruct (becomes_trans _ _ _ _ _ _ _ H46 H7') as [X1 X2 X3 X4].
  rewrite Hd14 in X2, X3, X4. split; [by split|]. rewrite (on_channels_connection _ _ _ _ E7), (update_drqv_connection _ _ _ _ _ E6), (update_drqv_connection _ _ _ _ _ E5).
  rewrite (beside_connection _ _ (beside_unlock _ _ _ E4)), (beside_connection _ _ (beside_unschedule_task _ _ _ _ _ _ E3)).
  by rewrite (beside_connection _ _ (beside_lock _ _ _ E2)).
Qed.
End Reading.
