(* ===== verification/DrqvResults.v ===== *)
(** What DRQV sends after the flight loops ([Drqv.drqv_process_post]): the values that
    were read, in one message. *)

From S2P Require Import Prelude CLib Utils Hashmap Channels Requests Lists Prealloc Arrays Protocol TaskSchedule Network Command Session Server ServerCommands Beside CalmWorld CmtrTimers Drqv DrqvTiming DrqvValues DrqvReading.

Section Results.
Context `{DataTypes} `{FloatText} {C : Type} `{ConnectionLaws C}.
Abbreviation W := (world C (ext drqv_state)).
Implicit Types (q p : loc) (w : W) (d : drqv_dataref_t) (ds : list drqv_dataref_t) (c : command_drqv_t) (tss : list (list loc)).

(** The text of a result. *)
Definition result_text ds : cstr := join ";" (value_text <$> ds).

Lemma becomes_texts w w' tss q c m : calm_tasks w' tss -> world_data w' = set_qs_texts m (set_qs_commands (<[q := c]> (qs_commands (world_data w))) (world_data w)) ->
  becomes w w' tss q c.
Proof. intros Hw E. split; rewrite ?E; done. Qed.

(** What becomes of a result: the text of all values, or the command has failed for
    lack of memory. *)
Definition result_of w w' tss q c (r : option cstr) : Prop :=
  match r with
  | Some out => out = result_text (dq_datarefs c) /\ becomes w w' tss q c /\ w_connection w' = w_connection w /\ forall id, state_of w' id = state_of w id
  | None => env_alloc (cs_env (w_channels w)) <> [] /\ becomes w w' tss q (set_dq_failed c)
  end.

Lemma gave_up_becomes (h : pheap cstr unit) w w' tss q c : gave_up (set_texts_heap h w) w' tss q c -> becomes w w' tss q (set_dq_failed c).
Proof. intros (Hw & m & E)%gave_up_texts. by eapply becomes_texts. Qed.

Lemma result_fails (h : pheap cstr unit) w tss q c list message : calm_tasks w tss -> qs_commands (world_data w) !! q = Some c -> addressable (dq_channel_id c) = true ->
  calmer (cs_env (w_channels w)) (ph_env h) -> env_alloc (cs_env (w_channels w)) <> [] -> (forall l, list = Some l -> exists ps, prep (ph_items h) l ps) ->
  exists r w', (_ ← drqv_give_up q list message; mret (M := M W) (@None cstr)) (set_texts_heap h w) = Some (r, w') /\ result_of w w' tss q c r.
Proof.
  intros Hw Hc Ha Hcalm Hn Hl. destruct (drqv_give_up_run (set_texts_heap h w) tss q c list message) as (w' & E & Hg); [by apply tasks_texts|done|done|exact Hl|].
  exists None, w'. split; [by erewrite bind_eq by exact E|]. split; [done|]. by eapply gave_up_becomes.
Qed.

Lemma drqv_result_run w tss q c : calm_tasks w tss -> qs_commands (world_data w) !! q = Some c -> addressable (dq_channel_id c) = true -> Forall dataref_ok (dq_datarefs c) ->
  exists r w', drqv_result q w = Some (r, w') /\ result_of w w' tss q c r.
Proof.
  intros Hw Hc Ha Hds. unfold drqv_result. destruct (create_preallocated_list_run (texts_heap w)) as (r0 & h0 & E0 & _ & Ha0 & Hr0).
  pose proof (heap_create _ _ _ E0) as Hc0. erewrite bind_eq by by apply on_texts_eq. destruct r0 as [l0|].
  2:{ apply result_fails; try done. intros Hn. by destruct (Ha0 Hn). }
  destruct Hr0 as (Hr0 & _). set (w0 := set_texts_heap h0 w). assert (calm_tasks w0 tss) as Hw0 by by apply tasks_texts.
  erewrite bind_eq by (apply load_drqv_eq; exact Hc).
  destruct (encode_values_run q c tss (dq_datarefs c) w0 true l0 [] [] Hw0 Hc Ha Hds Hr0 eq_refl) as (r1 & w1 & E1 & Hcol). erewrite bind_eq by exact E1.
  apply (collected_texts h0) in Hcol; [|exact Hc0|intros Hn; by apply Ha0]. destruct r1 as [l1|].
  2:{ destruct Hcol as [Hg Hn]. exists None, w1. split; [done|]. split; [done|]. destruct Hg as (Hw1 & m & E). by eapply becomes_texts. }
  destruct Hcol as (h1 & ps1 & -> & Hr1 & Ht1 & Hc1 & Ha1). cbn [app] in Ht1.
  erewrite bind_eq by (apply on_texts_eq; rewrite (prep_first _ _ _ Hr1), (prep_size _ _ _ Hr1); eapply concatenate_run; [exact (prep_seg _ _ _ Hr1)|exact Ht1|lia]).
  rewrite result_texts_join. fold (result_text (dq_datarefs c)). rewrite set_texts_twice. change (texts_heap (set_texts_heap h1 w)) with (mkPHeap (ph_items h1) [] (ph_env h1)).
  set (w1 := set_texts_heap (mkPHeap (ph_items h1) [] (ph_env h1)) w).
  erewrite bind_eq by (apply on_env_texts, zmalloc_eq; unfold strlen; lia). change (qs_texts (world_data w1)) with (ph_items h1). unfold w1. rewrite set_texts_twice. cbn [cs_env w_channels].
  set (h2 := mkPHeap (ph_items h1) [] (alloc_rest (ph_env h1))).
  assert (calmer (cs_env (w_channels w)) (ph_env h2)) as Hc2 by (etransitivity; [exact Hc1|apply calmer_alloc_rest]).
  change (alloc_next (cs_env (w_channels (set_texts_heap _ w)))) with (alloc_next (ph_env h1)). change (mkPHeap (ph_items h1) [] (alloc_rest _)) with h2.
  destruct (alloc_next (ph_env h1)) eqn:Hal; cbn [negb]; cbv iota.
  - destruct (destroy_preallocated_list_run (texts_heap (set_texts_heap h2 w)) l1 ps1 free_text PREALLOC_LIST_CALL_DEFERRED_DESTRUCTORS Hr1) as (m3 & E3 & _).
    erewrite bind_eq by by apply on_texts_eq. rewrite set_texts_twice. eexists _, _. split; [done|]. split; [done|]. split; [|done].
    eapply becomes_texts; [by apply tasks_texts|]. unfold set_texts_heap, set_world_data, world_data. simpl. rewrite insert_id by done. reflexivity.
  - apply result_fails; try done; [|by intros ? [= <-]; exists ps1]. intros Hn. unfold alloc_next in Hal. by rewrite (Ha1 Hn) in Hal.
Qed.

(** The message of the client: the text [out], at the time [t]. *)
Definition sent w w' (id : Z) (action : channel_action_t) (t : Z) (out : cstr) : Prop :=
  exists st rest, state_of w id = Some st /\ invalid_action st action = false /\
    conn_queued (w_connection w') = conn_queued (w_connection w) ++ format_message (message_of id st action t (Some out)) ++ rest.

(** The command has ended: it has no task and no channel any more. *)
Definition ended c : command_drqv_t := set_dq_channel_id BAD_CHANNEL_ID (set_dq_task None c).
Definition unscheduled tss c (t : loc) tss' : Prop :=
  exists ts1 ts2, tss !! Z.to_nat (dq_phase c) = Some (ts1 ++ t :: ts2) /\ tss' = <[Z.to_nat (dq_phase c) := ts1 ++ ts2]> tss.

(** What the end of a round of flight loops does to a command. *)
Inductive post_processed w w' tss tss' c c' (t : loc) : Prop :=
  | post_nothing : dq_failed c = false -> dq_initialized c = false \/ dq_timestamp c <= 0 -> w' = w -> c' = c -> tss' = tss -> post_processed w w' tss tss' c c' t
  | post_ended : dq_failed c = true -> c' = ended c -> unscheduled tss c t tss' -> post_processed w w' tss tss' c c' t
  | post_no_memory : dq_failed c = false -> dq_initialized c = true -> 0 < dq_timestamp c ->
      env_alloc (cs_env (w_channels w)) <> [] -> c' = set_dq_failed c -> tss' = tss -> post_processed w w' tss tss' c c' t
  | post_continued (err : error_t) : dq_failed c = false -> dq_initialized c = true -> 0 < dq_timestamp c ->
      drqv_will_continue (dq_timing c) = true -> tss' = tss ->
      (if err =? ERROR_NONE then c' = set_dq_timestamp 0 c /\ sent w w' (dq_channel_id c) CHANNEL_ACTION_CONTINUE (dq_timestamp c) (result_text (dq_datarefs c))
       else c' = set_dq_timestamp 0 (set_dq_failed c)) -> post_processed w w' tss tss' c c' t
  | post_finished (err : error_t) w1 w2 : dq_failed c = false -> dq_initialized c = true -> 0 < dq_timestamp c ->
      drqv_will_continue (dq_timing c) = false -> c' = ended c -> unscheduled tss c t tss' ->
      w_connection w1 = w_connection w -> finish_channel (dq_channel_id c) (dq_timestamp c) (Some (result_text (dq_datarefs c))) w1 = Some (err, w2) ->
      (err = ERROR_NONE -> exists action, action ∈ [CHANNEL_ACTION_ACK_CLOSE; CHANNEL_ACTION_CLOSE] /\ sent w w' (dq_channel_id c) action (dq_timestamp c) (result_text (dq_datarefs c))) ->
      post_processed w w' tss tss' c c' t.

Lemma sent_from w w1 w2 w' id action t out err failure : world_ok w1 -> addressable id = true -> 0 <= t ->
  w_connection w1 = w_connection w -> (forall id, state_of w1 id = state_of w id) -> conn_queued (w_connection w2) `prefix_of` conn_queued (w_connection w') ->
  act_on_channel action failure id t (Some out) w1 = Some (err, w2) -> err = ERROR_NONE ->
  exists st, sent w w' id (action st) t out.
Proof.
  intros Hw1 Ha Ht Hcn Hst [rest Hpre] E ->.
  destruct (act_on_channel_sent _ _ _ _ _ _ _ Hw1 Ha E) as (st & time & Hs & _ & Hinv & _ & Hq & Htime). rewrite (Htime Ht) in Hq. rewrite Hst in Hs.
  exists st, st, rest. split; [done|]. split; [done|]. rewrite Hpre, Hq, Hcn. by rewrite <-app_assoc.
Qed.

Lemma drqv_post_run w tss q c t : calm_tasks w tss -> qs_commands (world_data w) !! q = Some c -> scheduled w tss q c t ->
  exists w' tss' c', drqv_process_post q w = Some (tt, w') /\ becomes w w' tss' q c' /\ post_processed w w' tss tss' c c' t.
Proof.
  intros Hw Hc Hs. pose proof Hs as [Ht _ _ _ (Ha & Hds & _)]. unfold drqv_process_post. erewrite bind_eq by by apply load_drqv_eq.
  destruct (dq_failed c) eqn:Hf.
  { destruct (drqv_terminate_run w tss q c t Hw Hc Hs) as (ts1 & ts2 & w1 & Hq & E & Hb & _). erewrite bind_eq by exact E.
    eexists w1, _, _. split; [done|]. split; [done|]. apply post_ended; [done|done|]. by exists ts1, ts2. }
  destruct (dq_initialized c) eqn:Hi; cbn [negb]; cbv iota.
  2:{ exists w, tss, c. split; [done|]. split; [by apply becomes_refl|]. apply post_nothing; auto. }
  destruct (Z.leb_spec (dq_timestamp c) 0).
  { exists w, tss, c. split; [done|]. split; [by apply becomes_refl|]. apply post_nothing; auto. }
  destruct (drqv_result_run w tss q c Hw Hc Ha Hds) as (r & w1 & E1 & Hr). erewrite bind_eq by exact E1. destruct r as [out|].
  2:{ destruct Hr as [Hn Hb]. eexists w1, tss, _. split; [done|]. split; [done|]. by apply post_no_memory. }
  destruct Hr as (-> & Hb1 & Hcn1 & Hst1). set (out := result_text (dq_datarefs c)). pose proof (bc_calm _ _ _ _ _ Hb1) as Hw1. pose proof (becomes_at _ _ _ _ _ Hb1) as Hc1.
  destruct (drqv_will_continue (dq_timing c)) eqn:Hcont; cbn [negb]; cbv iota.
  - unfold continue_channel. destruct (tasks_act w1 tss (fun _ => CHANNEL_ACTION_CONTINUE) (lit "failed to continue channel") (dq_channel_id c) (dq_timestamp c) (Some out) Hw1 Ha)
      as (err & w2 & E2 & Hw2 & Hd2). erewrite bind_eq by exact E2. pose proof (becomes_data w1 w2 tss q c Hw2 Hd2 Hc1) as Hb2. pose proof (becomes_trans _ _ _ _ _ _ _ Hb1 Hb2) as Hb12.
    pose proof (becomes_at _ _ _ _ _ Hb2) as Hc2. destruct (Z.eqb_spec err ERROR_NONE) as [->|Herr]; cbn [negb]; cbv iota.
    + erewrite bind_eq by reflexivity. destruct (update_drqv_run w2 tss q (set_dq_timestamp 0) c Hw2 Hc2) as (w3 & E3 & Hb3).
      eexists w3, tss, _. split; [exact E3|]. split; [by eapply becomes_trans|]. eapply (post_continued _ _ _ _ _ _ _ ERROR_NONE); try done.
      change (ERROR_NONE =? ERROR_NONE) with true. cbv iota. split; [done|].
      destruct (sent_from w w1 w2 w3 (dq_channel_id c) (fun _ => CHANNEL_ACTION_CONTINUE) (dq_timestamp c) out ERROR_NONE (lit "failed to continue channel")) as (st & Hsent);
        [apply Hw1|done|lia|done|done|by rewrite (update_drqv_connection _ _ _ _ _ E3)|exact E2|done|exact Hsent].
    + destruct (drqv_fail_becomes w2 tss q c (dq_timestamp c) (lit "error on result submission") Hw2 Hc2 Ha) as (w3 & E3 & Hb3). erewrite bind_eq by exact E3.
      destruct (update_drqv_run w3 tss q (set_dq_timestamp 0) _ (bc_calm _ _ _ _ _ Hb3) (becomes_at _ _ _ _ _ Hb3)) as (w4 & E4 & Hb4).
      eexists w4, tss, _. split; [exact E4|]. split; [by do 2 (eapply becomes_trans; [eassumption|])|]. apply (post_continued _ _ _ _ _ _ _ err); try done.
      by rewrite (proj2 (Z.eqb_neq _ _) Herr).
  - destruct (tasks_act w1 tss (fun st => if is_initial st then CHANNEL_ACTION_ACK_CLOSE else CHANNEL_ACTION_CLOSE) (lit "failed to finish channel") (dq_channel_id c) (dq_timestamp c) (Some out) Hw1 Ha)
      as (err & w2 & E2 & Hw2 & Hd2). unfold finish_channel. erewrite bind_eq by exact E2. pose proof (becomes_data w1 w2 tss q c Hw2 Hd2 Hc1) as Hb2.
    pose proof (becomes_trans _ _ _ _ _ _ _ Hb1 Hb2) as Hb12. pose proof (becomes_at _ _ _ _ _ Hb2) as Hc2.
    destruct (drqv_terminate_run w2 tss q c t Hw2 Hc2) as (ts1 & ts2 & w3 & Hq & E3 & Hb3 & Hpre); [by destruct Hs; split; rewrite ?(bc_tasks _ _ _ _ _ Hb12)|].
    erewrite bind_eq by exact E3. eexists w3, _, _. split; [done|]. split.
    { destruct Hb12 as [_ X2 X3 X4], Hb3 as [Y1 Y2 Y3 Y4]. split; [done|by rewrite Y2, X2, insert_insert_eq|congruence|by etrans]. }
    apply (post_finished _ _ _ _ _ _ _ err w1 w2); try done; [by exists ts1, ts2|]. intros Herr.
    destruct (sent_from w w1 w2 w3 (dq_channel_id c) (fun st => if is_initial st then CHANNEL_ACTION_ACK_CLOSE else CHANNEL_ACTION_CLOSE) (dq_timestamp c) out err (lit "failed to finish channel")) as (st & Hsent);
      [apply Hw1|done|lia|done|done|done|exact E2|done|]. eexists. split; [|exact Hsent]. destruct (is_initial st); set_solver.
Qed.
End Results.
