(* ===== verification/DrqvCreation.v ===== *)
(** The creation of queries ([Drqv.drqv_create]): what a client can ask for, and what
    comes of a request. *)

From S2P Require Import Prelude CLib Utils Hashmap Channels Requests Lists Prealloc Arrays Protocol TaskSchedule Network Command Session Server ServerCommands Beside CalmWorld CmtrTimers Drqv DrqvTiming DrqvValues DrqvReading DrqvResults.

(** * What a client asks for *)

(** A parameter names a type and a dataref. *)
Definition requested `{DataTypes} (parameter : cstr) : option (cstr * Z) :=
  match cut ":"%char parameter with
  | (type_name, Some ((_ :: _) as name)) => if type_of_name type_name =? xplmType_Unknown then None else Some (name, type_of_name type_name)
  | _ => None
  end.

(** The value of the first option of a name. *)
Definition given (request : request_t) (name : cstr) : option cstr :=
  opt_value <$> head (filter (fun o => opt_name o = name) (req_options request)).

(** What the options ask for at the time [now]: the queue, which is the number of the
    option [phase] modulo 256 and has to be 0 or 1; a positive number of repetitions, or
    repetitions without end; and a positive interval in frames or milliseconds, as the
    end of the option [freq] tells. Numbers are read as [atoi] does, which takes the
    number at the start of a text and ignores what follows. *)
Record asks_for (request : request_t) (now phase : Z) (timing : drqv_timing) : Prop := mkAsksFor {
  af_phase : (phase = TASK_SCHEDULE_BEFORE_FLIGHT_MODEL \/ phase = TASK_SCHEDULE_AFTER_FLIGHT_MODEL) /\
    atoi (default (lit "0") (given request (lit "phase"))) mod 256 = phase;
  af_times : match given request (lit "times") with
    | None => qt_times_remaining timing = DRQV_INFINITE_REPETITION
    | Some text => qt_times_remaining timing = atoi text /\ 0 < atoi text
    end;
  af_freq : let text := default (lit "1000ms") (given request (lit "freq")) in
    qt_interval timing = atoi text /\ 0 < atoi text /\
    exists number, text = number ++ (if qt_is_interval_frames timing then lit "f" else lit "ms");
  af_start : qt_interval_wait timing = 0 /\ qt_interval_not_before_timestamp timing = now;
}.

Lemma find_option_given request name : opt_value <$> find_option name (req_options request) = given request name.
Proof.
  unfold given. induction (req_options request) as [|o l IH]; [done|]. simpl. unfold str_eq. case_bool_decide as E.
  - by rewrite filter_cons_True.
  - by rewrite filter_cons_False.
Qed.

Lemma get_option_given request name text :
  from_option id [] (request_get_option (Some request) (Some name) (Some text)) = default text (given request name).
Proof. rewrite <-find_option_given. unfold request_get_option. by destruct (find_option name (req_options request)). Qed.

Lemma has_option_given request name : request_has_option (Some request) (Some name) = bool_decide (is_Some (given request name)).
Proof.
  rewrite <-find_option_given. unfold request_has_option. apply bool_decide_ext. by rewrite fmap_is_Some.
Qed.

Lemma ends_with_iff s suffix : ends_with (Some s) (Some suffix) = true <-> exists a, s = a ++ suffix.
Proof.
  unfold ends_with, strncmp_eq, strlen. split.
  - destruct (Z.ltb_spec (len s) (len suffix)); [done|]. intros E%bool_decide_eq_true. exists (take (Z.to_nat (len s - len suffix)) s).
    rewrite !take_ge in E by (rewrite ?length_drop; lia). pose proof (take_drop (Z.to_nat (len s - len suffix)) s) as T. by rewrite E in T.
  - intros [a ->]. rewrite length_app, (proj2 (Z.ltb_ge _ _)) by lia.
    replace (Z.to_nat (Z.of_nat (length a + length suffix) - len suffix)) with (length a) by lia.
    rewrite drop_app_length. by rewrite bool_decide_eq_true.
Qed.

Lemma cut_phase x v : v = 0 \/ v = 1 -> wrap_s 8 x = v <-> x mod 256 = v.
Proof.
  intros Hv. unfold wrap_s. change (2 ^ (8 - 1)) with 128. change (2 ^ 8) with 256. Z.to_euclidean_division_equations. lia.
Qed.

Lemma parse_drqv_options_asks request now phase timing :
  parse_drqv_options request now = inr (phase, timing) -> asks_for request now phase timing.
Proof.
  unfold parse_drqv_options. cbv zeta. rewrite !get_option_given, has_option_given. set (ph := wrap_s 8 _).
  destruct (negb (ph =? TASK_SCHEDULE_BEFORE_FLIGHT_MODEL) && negb (ph =? TASK_SCHEDULE_AFTER_FLIGHT_MODEL)) eqn:Hph; [done|].
  assert (ph = 0 \/ ph = 1) as Hor by (apply andb_false_iff in Hph as [E%negb_false_iff|E%negb_false_iff]; apply Z.eqb_eq in E; auto).
  set (text := default (lit "1000ms") (given request (lit "freq"))).
  set (times := given request (lit "times")). set (n := if bool_decide (is_Some times) then _ else _).
  destruct (bool_decide (is_Some times) && (n <=? 0)) eqn:Htimes; [done|].
  assert (match times with None => n = DRQV_INFINITE_REPETITION | Some s => n = atoi s /\ 0 < atoi s end) as Hn.
  { subst n. destruct times as [s|]; [|reflexivity]. apply andb_false_iff in Htimes as [?|Htimes%Z.leb_gt]; [done|]. split; [reflexivity|exact Htimes]. }
  clearbody n. destruct (negb (is_valid_interval text)) eqn:Hfreq; [done|]. destruct (Z.leb_spec (atoi text) 0); [done|]. intros [= <- <-].
  split; [split; [done|by apply cut_phase]|exact Hn| |done].
  cbv zeta. fold text. split; [reflexivity|]. split; [lia|]. cbn [qt_is_interval_frames]. apply negb_false_iff, orb_prop in Hfreq.
  unfold is_suffixed_frames, is_suffixed_millis in *.
  destruct (ends_with (Some text) (Some (lit "f"))) eqn:Ef; [by apply ends_with_iff|]. destruct Hfreq as [Hm|]; [by apply ends_with_iff|done].
Qed.

Lemma strpos_separator s : match cut ":"%char s with
  | (a, Some _) => strpos (Some s) (Some (lit ":")) 0 = len a
  | (_, None) => strpos (Some s) (Some (lit ":")) 0 = -1
  end.
Proof.
  destruct (decide (s = [])) as [->|Hne]; [reflexivity|].
  assert (0 < strlen s) as Hpos by (destruct s; [done|unfold strlen; simpl; lia]).
  pose proof (strpos_first_at s (lit ":") 0 false ltac:(done) ltac:(lia)) as Hf. change (0 <? 0) with false in Hf. cbv iota in Hf.
  change (_strpos (Some s) (Some (lit ":")) 0 false) with (strpos (Some s) (Some (lit ":")) 0) in Hf. set (r := strpos _ _ _) in *.
  assert (forall i, 0 <= i -> hit s (lit ":") false i = true <-> s !! Z.to_nat i = Some ":"%char) as Hhit.
  { intros i Hi. unfold hit. rewrite andb_true_r, match_at_iff. split.
    - intros [t E]. apply (f_equal (fun l => l !! O)) in E. rewrite lookup_drop, Nat.add_0_r in E. exact E.
    - intros E. exists (drop (S (Z.to_nat i)) s). by rewrite (drop_S _ _ _ E). }
  pose proof (cut_spec ":"%char s) as Hs. pose proof (cut_no_sep ":"%char s) as Hn. destruct (cut ":"%char s) as [a [b|]]; simpl in Hn.
  - assert (forall j, 0 <= j < len a -> hit s (lit ":") false j = false) as Hbefore.
    { intros j Hj. destruct (hit s (lit ":") false j) eqn:E; [|done]. apply Hhit in E; [|lia]. rewrite Hs, lookup_app_l in E by lia. by apply list_elem_of_lookup_2 in E. }
    assert (hit s (lit ":") false (len a) = true) as Hat by (apply Hhit; [lia|]; rewrite Hs, Nat2Z.id, lookup_app_r, Nat.sub_diag by lia; done).
    destruct Hf as [[_ Hf]|(H0 & Hr & Hf)]; [rewrite Hf in Hat by lia; done|].
    destruct (Z.lt_trichotomy r (len a)) as [?|[?|?]]; [rewrite Hbefore in Hr by lia; done|done|rewrite Hf in Hat by lia; done].
  - subst a. destruct Hf as [[-> _]|(H0 & Hr & _)]; [done|]. apply Hhit in Hr; [|done]. by apply list_elem_of_lookup_2 in Hr.
Qed.

(** The type of a parameter as the code reads it. *)
Lemma parameter_type `{DataTypes} a name : xprc_parse_type (a ++ ":"%char :: name) (len a) = type_of_name a.
Proof. exact (xprc_parse_type_name a _). Qed.

Lemma type_of_name_cases `{DataTypes} a : type_of_name a = xplmType_Unknown \/ (type_of_name a = xplmType_Int \/ type_of_name a = xplmType_Float \/ type_of_name a = xplmType_Double) \/ is_array_type (type_of_name a).
Proof. unfold type_of_name, is_array_type. repeat case_match; tauto. Qed.

Lemma calmer_create_array {A} `{Zeroed A} size capacity : respects calmer (create_dynamic_array (A := A) size capacity).
Proof. unfold create_dynamic_array, dynamic_array_ensure_capacity. respects_step. Qed.

Section Creation.
Context `{DataTypes} `{FloatText} {C : Type} `{ConnectionLaws C}.
Abbreviation W := (world C (ext drqv_state)).
Implicit Types (q p t : loc) (w : W) (d : drqv_dataref_t) (ds : list drqv_dataref_t) (c : command_drqv_t) (tss : list (list loc)).

(** * Creation *)

Lemma create_value_buffer_run w tss type : calm_tasks w tss ->
  (type = xplmType_Int \/ type = xplmType_Float \/ type = xplmType_Double) \/ is_array_type type ->
  exists b size w', create_value_buffer type w = Some ((b, size), w') /\ calm_tasks w' tss /\ world_data w' = world_data w /\
    (forall name, is_Some b -> dataref_ok (mkDrqvDataref b size name type 0)).
Proof.
  intros Hw Ht. unfold create_value_buffer. destruct Ht as [Ht|Ht].
  - assert (((type =? xplmType_Int) || (type =? xplmType_Float) || (type =? xplmType_Double)) = true) as ->
      by (destruct Ht as [->|[->| ->]]; by rewrite Z.eqb_refl, ?orb_true_r).
    fold (simple_size type). destruct (tasks_zmalloc (simple_size type) w tss) as (ok & w' & E & Hw' & Hd); [unfold simple_size; by destruct (type =? xplmType_Double)|done|].
    cbv zeta. erewrite bind_eq by exact E. eexists _, _, w'. split; [done|]. split; [done|]. split; [done|]. intros name. destruct ok; [|by intros [??]]. by split.
  - rewrite array_not_simple by done. set (size := if type =? xplmType_Data then 1 else SIZE_XPLM_INT_FLOAT).
    assert (1 <= size) as Hs by (unfold size; destruct (type =? xplmType_Data); done).
    assert (wf_array (mkArray (A := Z) 0 0 size [])) as Hwf0 by by split.
    destruct (ensure_capacity_spec (mkArray (A := Z) 0 0 size []) 0 (alloc_rest (cs_env (w_channels w))) Hwf0 ltac:(done)) as (arr & e & ok & E & Hwf & _).
    assert (exists r e', create_dynamic_array (A := Z) size 0 (cs_env (w_channels w)) = Some (r, e') /\ (forall arr, r = Some arr -> wf_array arr)) as (r & e' & E1 & Hr).
    { unfold create_dynamic_array. rewrite (proj2 (Z.ltb_ge size 1)) by done. change (0 <? 0) with false. cbn [orb].
      erewrite bind_eq by by apply zmalloc_eq. destruct (alloc_next _); cbn [negb]; cbv iota; [|by eexists _, _].
      erewrite bind_eq by exact E. destruct ok; eexists _, _; (split; [done|]); [by intros ? [= <-]|done]. }
    destruct (tasks_on_env _ w tss r e' Hw E1 (calmer_create_array _ _ _ _ _ E1)) as (E2 & Hw2 & Hd2). erewrite bind_eq by exact E2.
    eexists _, _, _. split; [done|]. split; [done|]. split; [done|]. intros name. destruct r as [arr'|]; [|by intros [??]]. intros _. split; [done|]. by apply Hr.
Qed.

(** The dataref that a parameter asks for. *)
Definition asked (parameter : cstr) d : Prop := requested parameter = Some (qd_name d, qd_type d).

Lemma create_datarefs_run q tss parameters : forall w c, calm_tasks w tss -> qs_commands (world_data w) !! q = Some c -> Forall no_nul parameters ->
  exists r w' ds, create_datarefs q parameters w = Some (r, w') /\ becomes w w' tss q (set_dq_datarefs (dq_datarefs c ++ ds) c) /\
    (r = None -> Forall dataref_ok ds /\ Forall2 asked parameters ds).
Proof.
  induction parameters as [|s parameters IH]; intros w c Hw Hc Hn.
  { exists None, w, []. split; [done|]. rewrite app_nil_r. split; [|done]. destruct c. by apply becomes_refl. }
  assert (forall r : cstr * error_t, exists r' w' ds, Some (Some r, w) = Some (r', w') /\ becomes w w' tss q (set_dq_datarefs (dq_datarefs c ++ ds) c) /\
    (r' = None -> Forall dataref_ok ds /\ Forall2 asked (s :: parameters) ds)) as Hno.
  { intros r. exists (Some r), w, []. split; [done|]. rewrite app_nil_r. split; [|done]. destruct c. by apply becomes_refl. }
  apply Forall_cons in Hn as [Hs Hn]. cbn [create_datarefs]. cbv zeta. pose proof (strpos_separator s) as Hpos. pose proof (cut_spec ":"%char s) as Hcut.
  destruct (cut ":"%char s) as [a [name|]] eqn:Ecut.
  2:{ rewrite Hpos. change (-1 <? 1) with true. cbv iota. apply Hno. }
  rewrite Hpos. destruct (Z.ltb_spec (len a) 1); [apply Hno|].
  assert (strlen s - len a - 1 = len name) as -> by (subst s; unfold strlen; rewrite length_app; simpl; lia).
  destruct (Z.ltb_spec (len name) 1); [apply Hno|].
  assert (xprc_parse_type s (len a) = type_of_name a) as -> by (rewrite Hcut; apply parameter_type).
  destruct (Z.eqb_spec (type_of_name a) xplmType_Unknown) as [|Hknown]; [apply Hno|].
  assert (drop (Z.to_nat (len a + 1)) s = name) as ->.
  { rewrite Hcut. replace (Z.to_nat (len a + 1)) with (length a + 1)%nat by lia. rewrite drop_app_add. done. }
  destruct (tasks_zmalloc 48 w tss ltac:(done) Hw) as (ok & w1 & E1 & Hw1 & Hd1). erewrite bind_eq by exact E1.
  assert (qs_commands (world_data w1) !! q = Some c) as Hc1 by by rewrite Hd1.
  destruct ok; cbn [negb]; cbv iota.
  2:{ eexists _, w1, []. split; [done|]. rewrite app_nil_r. split; [|done]. destruct c. by apply becomes_data. }
  assert (no_nul name) as Hname by (rewrite Hcut in Hs; by apply no_nul_app in Hs as [_ [_ ?]%no_nul_cons]).
  destruct (tasks_on_env (copy_string (Some name)) w1 tss _ _ Hw1 (copy_string_eq name _ Hname) (calmer_alloc_rest _)) as (E2 & Hw2 & Hd2).
  erewrite bind_eq by exact E2. set (w2 := with_env _ w1) in *. assert (qs_commands (world_data w2) !! q = Some c) as Hc2 by by rewrite Hd2.
  destruct (alloc_next _).
  2:{ eexists _, w2, []. split; [done|]. rewrite app_nil_r. split; [|done]. destruct c. apply becomes_data; [done|congruence|done]. }
  destruct (create_value_buffer_run w2 tss (type_of_name a) Hw2) as (b & size & w3 & E3 & Hw3 & Hd3 & Hb).
  { destruct (type_of_name_cases a) as [?|?]; [done|done]. }
  erewrite bind_eq by exact E3. cbv beta iota. set (d := mkDrqvDataref b size name (type_of_name a) 0).
  destruct (update_drqv_run w3 tss q (fun c => set_dq_datarefs (dq_datarefs c ++ [d]) c) c Hw3) as (w4 & E4 & Hb4); [by rewrite Hd3|]. erewrite bind_eq by exact E4.
  assert (becomes w w4 tss q (set_dq_datarefs (dq_datarefs c ++ [d]) c)) as Hb14.
  { destruct Hb4 as [? X2 X3 X4]. rewrite Hd3, Hd2, Hd1 in X2, X3, X4. by split. }
  destruct b as [b|].
  - destruct (IH w4 _ (bc_calm _ _ _ _ _ Hb4) (becomes_at _ _ _ _ _ Hb4) Hn) as (r & w5 & ds & E5 & Hb5 & Hr). exists r, w5, (d :: ds). split; [exact E5|].
    split. { pose proof (becomes_trans _ _ _ _ _ _ _ Hb14 Hb5) as Hb15. unfold set_dq_datarefs in Hb15 |- *. cbn in Hb15 |- *. by rewrite <-app_assoc in Hb15. }
    intros Hr'. destruct (Hr Hr') as [? ?]. split; constructor; [by apply Hb; eexists|done| |done].
    unfold asked, requested. rewrite Ecut. destruct name as [|x name]; [simpl in *; lia|].
    by rewrite (proj2 (Z.eqb_neq _ _) Hknown).
  - eexists _, w4, [d]. split; [done|]. by split.
Qed.

(** Nothing has come of a request; no command and no task has changed. *)
Definition refused w (result : option (error_t * option loc * W)) tss : Prop :=
  exists err w', result = Some ((err, None), w') /\ err <> ERROR_NONE /\ calm_tasks w' tss /\
    qs_commands (world_data w') = qs_commands (world_data w) /\ qs_tasks (world_data w') = qs_tasks (world_data w).

(** The command object [q] has been made since [w0]. *)
Record making w0 w tss q c : Prop := mkMaking {
  mk_calm : calm_tasks w tss;
  mk_new : qs_commands (world_data w0) !! q = None;
  mk_commands : qs_commands (world_data w) = <[q := c]> (qs_commands (world_data w0));
  mk_tasks : qs_tasks (world_data w) = qs_tasks (world_data w0);
}.

Lemma making_at w0 w tss q c : making w0 w tss q c -> qs_commands (world_data w) !! q = Some c.
Proof. intros []. rewrite mk_commands0. apply lookup_insert_eq. Qed.

Lemma making_becomes w0 w w' tss q c c' : making w0 w tss q c -> becomes w w' tss q c' -> making w0 w' tss q c'.
Proof. intros [] []. split; [done|done|by rewrite bc_commands, mk_commands0, insert_insert_eq|congruence]. Qed.

Lemma drqv_abandon_run w0 w tss q c out : making w0 w tss q c -> refused w0 (drqv_abandon q out w) tss.
Proof.
  intros Hm. unfold drqv_abandon, drqv_destroy.
  erewrite bind_eq by (erewrite bind_eq by (apply load_drqv_eq; by eapply making_at); erewrite bind_eq by reflexivity; reflexivity). destruct Hm as [Hw Hn Hc Ht].
  eexists _, _. split; [reflexivity|]. split; [by destruct (Z.eqb_spec out ERROR_NONE)|]. split; [by apply tasks_data|]. simpl.
  split; [|done]. rewrite Hc. by rewrite delete_insert_id.
Qed.

Lemma drqv_reject_run w0 w tss q c id reason out : making w0 w tss q c -> addressable id = true -> refused w0 (drqv_reject q id reason out w) tss.
Proof.
  intros Hm Ha. unfold drqv_reject. destruct (tasks_report w tss id (Some reason) (mk_calm _ _ _ _ _ Hm) Ha) as (err & w' & E & Hw' & Hd). erewrite bind_eq by exact E.
  eapply drqv_abandon_run, making_becomes; [exact Hm|]. by eapply becomes_data, making_at.
Qed.

Lemma drqv_decline_run w0 w tss id reason : calm_tasks w tss -> world_data w = world_data w0 -> addressable id = true -> refused w0 (decline id reason w) tss.
Proof.
  intros Hw Hd0 Ha. unfold decline. destruct (tasks_report w tss id (Some reason) Hw Ha) as (err & w' & E & Hw' & Hd). erewrite bind_eq by exact E.
  exists ERROR_UNSPECIFIC, w'. by rewrite Hd, Hd0.
Qed.

(** A command that was made and scheduled. *)
Definition created w0 w tss q (id phase : Z) (timing : drqv_timing) (parameters : list cstr) : Prop :=
  qs_commands (world_data w0) !! q = None /\
  exists t ts ds, tss !! Z.to_nat phase = Some ts /\ calm_tasks w (<[Z.to_nat phase := ts ++ [t]]> tss) /\
    qs_commands (world_data w) = <[q := mkDrqv id (Some t) phase timing false false ds 0]> (qs_commands (world_data w0)) /\
    qs_tasks (world_data w0) !! t = None /\ qs_tasks (world_data w) = <[t := q]> (qs_tasks (world_data w0)) /\
    Forall dataref_ok ds /\ Forall2 asked parameters ds.

Lemma drqv_schedule_run w0 w tss q id phase timing parameters ds : making w0 w tss q (mkDrqv id None phase timing false false ds 0) -> addressable id = true ->
  valid_phase phase = true -> length tss = 2%nat -> Forall dataref_ok ds -> Forall2 asked parameters ds ->
  refused w0 (drqv_schedule q id w) tss \/
  exists w', drqv_schedule q id w = Some ((ERROR_NONE, Some q), w') /\ created w0 w' tss q id phase timing parameters.
Proof.
  intros Hm Ha Hv Hlen Hds Hask. unfold drqv_schedule. destruct (tasks_zmalloc 16 w tss ltac:(done) (mk_calm _ _ _ _ _ Hm)) as (ok & w1 & E1 & Hw1 & Hd1). erewrite bind_eq by exact E1.
  assert (making w0 w1 tss q (mkDrqv id None phase timing false false ds 0)) as Hm1 by (eapply making_becomes; [exact Hm|]; by eapply becomes_data, making_at).
  destruct ok; cbn [negb]; cbv iota; [|left; by eapply drqv_abandon_run]. clear E1 Hd1 Hm. destruct Hm1 as [_ Hn Hc Ht].
  erewrite bind_eq by reflexivity. cbv zeta. set (t := fresh (dom (qs_tasks (world_data w1)))).
  assert (qs_tasks (world_data w1) !! t = None) as Hfresh by (apply not_elem_of_dom, is_fresh).
  set (d2 := set_qs_tasks (<[t := q]> (qs_tasks (world_data w1))) (world_data w1)). set (w2 := set_world_data d2 w1).
  erewrite (bind_eq _ _ _ tt w2) by reflexivity. pose proof (tasks_data w1 tss d2 Hw1) as Hw2. fold w2 in Hw2.
  assert (qs_commands (world_data w2) !! q = Some (mkDrqv id None phase timing false false ds 0)) as Hc2 by (unfold w2; simpl; rewrite Hc; apply lookup_insert_eq).
  erewrite bind_eq by (apply load_drqv_eq; exact Hc2). cbn [dq_phase].
  destruct (lookup_lt_is_Some_2 tss (Z.to_nat phase)) as [ts Hts].
  { unfold valid_phase, TASK_SCHEDULE_NUM_TASK_QUEUES in Hv. apply andb_prop in Hv as [? ?]. lia. }
  destruct (tasks_lock w2 tss Hw2) as (w3 & E3 & Hw3 & Hd3). erewrite bind_eq by exact E3.
  destruct (tasks_schedule w3 tss phase ts t Hw3 Hv Hts) as (err & w4 & E4 & Hd4 & Hw4).
  change (ERROR_NONE =? ERROR_NONE) with true. cbv iota. destruct (Z.eqb_spec err ERROR_NONE) as [->|Herr].
  - destruct (update_drqv_run w4 _ q (set_dq_task (Some t)) (mkDrqv id None phase timing false false ds 0) Hw4) as (w5 & E5 & Hb5); [rewrite Hd4, Hd3; exact Hc2|].
    destruct (tasks_unlock w5 _ (bc_calm _ _ _ _ _ Hb5)) as (w6 & E6 & Hw6 & Hd6).
    erewrite bind_eq by (erewrite bind_eq by exact E4; change (ERROR_NONE =? ERROR_NONE) with true; unfold when; cbv iota; erewrite bind_eq by exact E5; erewrite bind_eq by exact E6; reflexivity).
    change (negb (ERROR_NONE =? ERROR_NONE)) with false. cbv iota. right. exists w6. split; [done|]. split; [done|]. exists t, ts, ds. split; [done|]. split; [done|].
    destruct Hb5 as [_ X2 X3 _]. rewrite Hd6, X2, X3, Hd4, Hd3. unfold w2. simpl. rewrite Hc, Ht, insert_insert_eq. rewrite <-Ht. by split_and!.
  - destruct (tasks_unlock w4 _ Hw4) as (w5 & E5 & Hw5 & Hd5).
    erewrite bind_eq by (erewrite bind_eq by exact E4; rewrite (proj2 (Z.eqb_neq err ERROR_NONE)) by done; unfold when; cbv iota; erewrite bind_eq by reflexivity; erewrite bind_eq by exact E5; reflexivity).
    rewrite (proj2 (Z.eqb_neq err ERROR_NONE)) by done. cbn [negb]. cbv iota.
    destruct (tasks_report w5 tss id (Some (lit "failed to schedule task")) Hw5 Ha) as (err2 & w6 & E6 & Hw6 & Hd6). erewrite bind_eq by exact E6.
    assert (world_data w6 = d2) as Hd26 by (rewrite Hd6, Hd5, Hd4, Hd3; done).
    erewrite bind_eq by reflexivity. left. eapply drqv_abandon_run. split; [by apply tasks_data|done|simpl; rewrite Hd26; exact Hc|simpl; rewrite Hd26; simpl; rewrite delete_insert_id by done; exact Ht].
Qed.

Lemma parse_drqv_options_run request now phase timing : parse_drqv_options request now = inr (phase, timing) -> valid_phase phase = true /\ timing_ok timing.
Proof.
  unfold parse_drqv_options. cbv zeta. set (ph := wrap_s 8 _). destruct (negb (ph =? TASK_SCHEDULE_BEFORE_FLIGHT_MODEL) && negb (ph =? TASK_SCHEDULE_AFTER_FLIGHT_MODEL)) eqn:Hph; [done|].
  set (has_times := request_has_option _ _). set (freq := from_option id [] (request_get_option _ (Some (lit "freq")) _)).
  set (times := if has_times then _ else _). destruct (has_times && (times <=? 0)) eqn:Ht; [done|]. destruct (negb (is_valid_interval freq)); [done|].
  destruct (Z.leb_spec (atoi freq) 0); [done|]. intros [= <- <-]. split.
  - apply andb_false_iff in Hph as [E%negb_false_iff|E%negb_false_iff]; apply Z.eqb_eq in E; by rewrite E.
  - split; simpl; [pose proof (wrap_s_in_int (strtol freq)) as [_ ?]; unfold atoi in *; lia|]. unfold times_ok, times in *. destruct has_times; [|by left]. right.
    apply Z.leb_gt in Ht. pose proof (wrap_s_in_int (strtol (from_option id [] (request_get_option (Some request) (Some (lit "times")) (Some (lit "0")))))) as [_ ?]. unfold atoi in *. lia.
Qed.

(** What comes of a request: nothing, or a command as it asks for. *)
Lemma drqv_create_run w tss request config : calm_tasks w tss -> length tss = 2%nat -> addressable (req_channel_id request) = true -> Forall no_nul (req_parameters request) ->
  refused w (drqv_create request config w) tss \/
  exists w' q now phase timing, drqv_create request config w = Some ((ERROR_NONE, Some q), w') /\ 0 <= now /\ version config = DRQV_COMMAND_VERSION /\
    request_has_only_options (Some request) (Some drqv_supported_options) = true /\ req_parameters request <> [] /\
    parse_drqv_options request now = inr (phase, timing) /\ created w w' tss q (req_channel_id request) phase timing (req_parameters request).
Proof.
  intros Hw Hlen Ha Hnul. unfold drqv_create. cbv zeta. set (id := req_channel_id request) in *.
  destruct (millis_run w) as (now & e & E0 & _). pose proof (proj2 (quiet_millis_since_reference _ _ _ E0)) as Hcalm. pose proof (tasks_env w tss e Hcalm Hw) as Hw0.
  erewrite bind_eq by exact E0. set (w0 := with_env e w) in *. assert (world_data w0 = world_data w) as Hd0 by done.
  destruct (Z.ltb_spec now 0). { left. by exists ERROR_UNSPECIFIC, w0. }
  destruct (Z.eqb_spec (version config) DRQV_COMMAND_VERSION) as [Hv|]; cbn [negb]; cbv iota; [|left; by apply drqv_decline_run].
  destruct (request_has_only_options (Some request) (Some drqv_supported_options)) eqn:Hopt; cbn [negb]; cbv iota; [|left; by apply drqv_decline_run].
  unfold alloc_drqv. destruct (tasks_zmalloc 72 w0 tss ltac:(done) Hw0) as (ok & w1 & E1 & Hw1 & Hd1). destruct ok.
  2:{ erewrite bind_eq by (erewrite bind_eq by exact E1; reflexivity). left. exists ERROR_MEMORY_ALLOCATION, w1. by rewrite Hd1. }
  set (q := fresh (dom (qs_commands (world_data w1)))). assert (qs_commands (world_data w1) !! q = None) as Hq by (apply not_elem_of_dom, is_fresh).
  set (c0 := mkDrqv id None 0 (mkDrqvTiming 0 0 false 0 now) false false [] 0).
  set (w2 := set_world_data (set_qs_commands (<[q := c0]> (qs_commands (world_data w1))) (world_data w1)) w1).
  erewrite (bind_eq _ _ _ (Some q) w2) by (erewrite bind_eq by exact E1; reflexivity).
  assert (making w w2 tss q c0) as Hm. { split; [by apply tasks_data|by rewrite <-Hd0, <-Hd1|unfold w2; simpl; by rewrite Hd1|unfold w2; simpl; by rewrite Hd1]. }
  destruct (parse_drqv_options request now) as [reason|[phase timing]] eqn:Hparse; [left; by eapply drqv_reject_run|].
  destruct (parse_drqv_options_run _ _ _ _ Hparse) as [Hphase Htiming].
  destruct (update_drqv_run w2 tss q (fun c => set_dq_timing timing (set_dq_phase phase c)) c0 (mk_calm _ _ _ _ _ Hm) (making_at _ _ _ _ _ Hm)) as (w3 & E3 & Hb3).
  erewrite bind_eq by exact E3. pose proof (making_becomes _ _ _ _ _ _ _ Hm Hb3) as Hm3. clear E3 Hb3 Hm.
  destruct (req_parameters request) as [|s parameters] eqn:Hpar; [left; by eapply drqv_reject_run|]. rewrite <-Hpar in *.
  destruct (create_datarefs_run q tss (req_parameters request) w3 _ (mk_calm _ _ _ _ _ Hm3) (making_at _ _ _ _ _ Hm3) Hnul) as (r & w4 & ds & E4 & Hb4 & Hr).
  erewrite bind_eq by exact E4. pose proof (making_becomes _ _ _ _ _ _ _ Hm3 Hb4) as Hm4. destruct r as [[reason out]|]; [left; by eapply drqv_reject_run|].
  destruct (Hr eq_refl) as [Hds Hask]. destruct (drqv_schedule_run w w4 tss q id phase timing (req_parameters request) ds Hm4 Ha Hphase Hlen Hds Hask) as [?|(w5 & E5 & Hcr)]; [by left|].
  right. exists w5, q, now, phase, timing. split_and!; try done. by rewrite Hpar.
Qed.
End Creation.
