(* ===== verification/DrqvSystem.v ===== *)
(** A plugin with queries ([Drqv]): requests create and terminate them, the flight loop
    runs their tasks, and the server destroys the commands that are done, in any order;
    meanwhile messages are sent and X-Plane answers as it likes. *)

From S2P Require Import Prelude CLib Utils Hashmap Channels Requests Lists Prealloc Arrays Protocol TaskSchedule Network Command Session Server ServerCommands Beside HeldSystem CalmWorld CmtrTimers Drqv DrqvTiming DrqvValues DrqvReading DrqvResults DrqvCreation.

Section System.
Context `{DataTypes} `{FloatText} {C : Type} `{ConnectionLaws C}.
Context (XPLMFindDataRef_result : list dataref_call -> cstr -> Z) (XPLMGetDataRefTypes_result : list dataref_call -> Z -> Z).
Context (XPLMGetData_result : list dataref_call -> Z -> Z -> Z) (XPLMGetDataArray_result : list dataref_call -> Z -> Z -> Z -> Z -> Z * list Z).
Context (XPLMGetDataArray_length : list dataref_call -> Z -> Z -> Z).
Abbreviation W := (world C (ext drqv_state)).
Abbreviation drqv_run_task := (drqv_process XPLMFindDataRef_result XPLMGetDataRefTypes_result XPLMGetData_result XPLMGetDataArray_result XPLMGetDataArray_length).
Abbreviation xplane_reads := (reads_arrays XPLMGetDataArray_result XPLMGetDataArray_length).
Abbreviation was_looped := (looped XPLMGetData_result XPLMGetDataArray_result XPLMGetDataArray_length).
Implicit Types (q p t : loc) (w : W) (c : command_drqv_t) (tss : list (list loc)).

(** * The system *)

Inductive drqv_action :=
  | CreateQuery (request : request_t) (config : command_config_t)
  | RunQuery (task : loc) (phase : Z)
  | TerminateQuery (command_ref : loc)
  | DestroyQuery (command_ref : loc).

(** What the rest of the plugin guarantees: requests come from the parser, the
    schedule runs the tasks of commands, a command is terminated while it has a
    channel and destroyed when it has none any more. *)
Definition drqv_enabled w (a : drqv_action) : Prop :=
  match a with
  | CreateQuery request _ => addressable (req_channel_id request) = true /\ Forall no_nul (req_parameters request)
  | RunQuery t _ => exists q c, qs_tasks (world_data w) !! t = Some q /\ qs_commands (world_data w) !! q = Some c /\ dq_task c = Some t
  | TerminateQuery q => exists c, qs_commands (world_data w) !! q = Some c /\ addressable (dq_channel_id c) = true
  | DestroyQuery q => exists c, qs_commands (world_data w) !! q = Some c /\ addressable (dq_channel_id c) = false
  end.

Definition drqv_perform (a : drqv_action) : M W unit :=
  match a with
  | CreateQuery request config => _ ← drqv_create request config; mret tt
  | RunQuery t phase => drqv_run_task t phase
  | TerminateQuery q => _ ← drqv_terminate (Some q); mret tt
  | DestroyQuery q => _ ← drqv_destroy (Some q); mret tt
  end.

Inductive drqv_step : W -> W -> Prop :=
  | drqv_step_action w a w' : drqv_enabled w a -> drqv_perform a w = Some (tt, w') -> drqv_step w w'
  | drqv_step_quiet w w' : quiet w w' -> world_ok w' -> drqv_step w w'.

(** Commands that have a channel or a task are scheduled. *)
Record drqv_inv w tss : Prop := mkDrqvInv {
  vi_calm : calm_tasks w tss;
  vi_queues : length tss = 2%nat;
  vi_scheduled : forall q c, qs_commands (world_data w) !! q = Some c -> is_Some (dq_task c) \/ addressable (dq_channel_id c) = true ->
    exists t, scheduled w tss q c t;
}.

(** Commands other than [q] stay scheduled if they keep their tasks and their places. *)
Lemma drqv_inv_update w w' tss tss' q c' : drqv_inv w tss -> calm_tasks w' tss' -> length tss' = length tss ->
  qs_commands (world_data w') = <[q := c']> (qs_commands (world_data w)) ->
  (is_Some (dq_task c') \/ addressable (dq_channel_id c') = true -> exists t, scheduled w' tss' q c' t) ->
  (forall q2 c2 t, q2 <> q -> scheduled w tss q2 c2 t -> scheduled w' tss' q2 c2 t) -> drqv_inv w' tss'.
Proof.
  intros [Hw Hl Hs] Hw' Hl' Hcs Hc' Hother. split; [done|congruence|]. intros q2 c2. rewrite Hcs, lookup_insert_Some. intros [[<- <-]|[Hne Hc2]]; [done|].
  intros Hor. destruct (Hs q2 c2 Hc2 Hor) as [t Ht]. exists t. by apply Hother.
Qed.

Lemma scheduled_same w w' tss q c c' t : qs_tasks (world_data w') = qs_tasks (world_data w) -> same_command c c' -> runnable c' -> scheduled w tss q c t -> scheduled w' tss q c' t.
Proof. intros Et (E1 & E2 & E3) Hr [? ? ? ? ?]. split; [by rewrite E2|by rewrite E3|by rewrite E3|by rewrite Et|done]. Qed.

(** The command goes on. *)
Lemma drqv_inv_becomes w w' tss q c c' t : drqv_inv w tss -> scheduled w tss q c t -> becomes w w' tss q c' -> same_command c c' -> runnable c' -> drqv_inv w' tss.
Proof.
  intros Hi Hs [Hw' Hcs Ht _] Hsame Hr. eapply drqv_inv_update; [exact Hi|done|done|exact Hcs| |].
  - intros _. exists t. by eapply scheduled_same.
  - intros q2 c2 t2 _ Hs2. eapply scheduled_same; [done| |by apply Hs2|done]. done.
Qed.

(** The command ends. *)
Lemma drqv_inv_ended w w' tss tss' q c t : drqv_inv w tss -> scheduled w tss q c t -> becomes w w' tss' q (ended c) -> unscheduled tss c t tss' -> drqv_inv w' tss'.
Proof.
  intros Hi Hs [Hw' Hcs Ht _] (ts1 & ts2 & Hts & ->). eapply drqv_inv_update; [exact Hi|done|by rewrite length_insert|exact Hcs| |].
  - intros [[? ?]|?]; done.
  - intros q2 c2 t2 Hne [Ht2 Hv2 (ts & Hq2 & Hin) Href Hr]. assert (t2 <> t) as Hnt by (intros ->; pose proof (sd_reference _ _ _ _ _ Hs); congruence).
    split; [done|done| |by rewrite Ht|done]. destruct (decide (Z.to_nat (dq_phase c) = Z.to_nat (dq_phase c2))) as [E|E].
    + exists (ts1 ++ ts2). rewrite E, list_lookup_insert_eq by (by eapply lookup_lt_Some). split; [done|]. rewrite E in Hts. assert (ts = ts1 ++ t :: ts2) as -> by congruence.
      rewrite elem_of_app, elem_of_cons in Hin. rewrite elem_of_app. tauto.
    + exists ts. by rewrite list_lookup_insert_ne.
Qed.

Lemma drqv_inv_refused w tss (result : option (error_t * option loc * W)) : drqv_inv w tss -> refused w result tss ->
  exists err w', result = Some ((err, None), w') /\ drqv_inv w' tss.
Proof.
  intros [Hw Hl Hs] (err & w' & E & _ & Hw' & Hcs & Ht). exists err, w'. split; [done|]. split; [done|done|]. intros q c. rewrite Hcs. intros Hc Hor.
  destruct (Hs q c Hc Hor) as [t Hst]. exists t. eapply scheduled_same; [done| |by apply Hst|done]. done.
Qed.

Lemma drqv_inv_created w w' tss q id phase timing parameters : drqv_inv w tss -> addressable id = true -> valid_phase phase = true -> timing_ok timing ->
  created w w' tss q id phase timing parameters -> exists tss', drqv_inv w' tss'.
Proof.
  intros Hi Ha Hv Hti (Hq & t & ts & ds & Hts & Hw' & Hcs & Hfresh & Ht & Hds & _). eexists. eapply drqv_inv_update; [exact Hi|exact Hw'|by rewrite length_insert|exact Hcs| |].
  - intros _. exists t. split; [done|done| |rewrite Ht; apply lookup_insert_eq|done]. exists (ts ++ [t]). simpl. rewrite list_lookup_insert_eq by (by eapply lookup_lt_Some).
    split; [done|]. set_solver.
  - intros q2 c2 t2 _ [Ht2 Hv2 (ts2 & Hq2 & Hin) Href Hr]. split; [done|done| | |done].
    + destruct (decide (Z.to_nat phase = Z.to_nat (dq_phase c2))) as [E|E]; [|exists ts2; by rewrite list_lookup_insert_ne].
      exists (ts ++ [t]). rewrite <-E, list_lookup_insert_eq by (by eapply lookup_lt_Some). split; [done|]. assert (ts2 = ts) as -> by congruence. set_solver.
    + rewrite Ht, lookup_insert_ne; [done|]. intros <-. congruence.
Qed.

(** A task runs in the phase of its command or after the flight loops. *)
Lemma drqv_loop_step w tss q c t : xplane_reads -> calm_tasks w tss -> qs_commands (world_data w) !! q = Some c -> scheduled w tss q c t ->
  exists w' c', drqv_run_task t (dq_phase c) w = Some (tt, w') /\ becomes w w' tss q c' /\ same_command c c' /\ runnable c' /\ same_names (dq_datarefs c) (dq_datarefs c') /\
    (dq_failed c = false -> exists now w0, millis_since_reference w = Some (now, w0) /\
      if now <? 0 then c' = c else dq_failed c' = true \/ was_looped c c' now).
Proof.
  intros Hx Hw Hc Hs. unfold drqv_process. erewrite bind_eq by reflexivity. rewrite (sd_reference _ _ _ _ _ Hs). erewrite bind_eq by reflexivity.
  erewrite bind_eq by by apply load_drqv_eq. rewrite Z.eqb_refl. apply drqv_flightloop_run; try done. apply (sd_runnable _ _ _ _ _ Hs).
Qed.

Lemma drqv_post_step w tss q c t : calm_tasks w tss -> qs_commands (world_data w) !! q = Some c -> scheduled w tss q c t ->
  exists w' tss' c', drqv_run_task t TASK_SCHEDULE_POST_PROCESSING w = Some (tt, w') /\ becomes w w' tss' q c' /\ post_processed w w' tss tss' c c' t.
Proof.
  intros Hw Hc Hs. unfold drqv_process. erewrite bind_eq by reflexivity. rewrite (sd_reference _ _ _ _ _ Hs). erewrite bind_eq by reflexivity.
  erewrite bind_eq by by apply load_drqv_eq. rewrite (proj2 (Z.eqb_neq _ _)).
  - change (TASK_SCHEDULE_POST_PROCESSING =? TASK_SCHEDULE_POST_PROCESSING) with true. cbv iota. by apply drqv_post_run.
  - pose proof (sd_phase _ _ _ _ _ Hs) as Hv. unfold valid_phase in Hv. apply andb_prop in Hv as [? _]. unfold TASK_SCHEDULE_POST_PROCESSING. lia.
Qed.

(** What post-processing leaves: a command that goes on or that has ended. *)
Lemma drqv_post_inv w w' tss tss' q c c' t : drqv_inv w tss -> scheduled w tss q c t -> becomes w w' tss' q c' -> post_processed w w' tss tss' c c' t -> drqv_inv w' tss'.
Proof.
  intros Hi Hs Hb Hp. pose proof (sd_runnable _ _ _ _ _ Hs) as Hr.
  assert (tss' = tss -> same_command c c' -> runnable c' -> drqv_inv w' tss') as Hon by (intros -> ? ?; by eapply drqv_inv_becomes).
  destruct Hp as [_ _ -> -> ->|_ -> Hu|_ _ _ _ -> ->|err _ _ _ _ -> Hc'|err w1 w2 _ _ _ _ -> Hu _ _ _]; [done|by eapply drqv_inv_ended|by apply Hon| |by eapply drqv_inv_ended].
  destruct (err =? ERROR_NONE); [destruct Hc' as [-> _]|subst c']; by apply Hon.
Qed.

Lemma drqv_perform_ok w tss a : xplane_reads -> drqv_inv w tss -> drqv_enabled w a -> exists w' tss', drqv_perform a w = Some (tt, w') /\ drqv_inv w' tss'.
Proof.
  intros Hx Hi He. pose proof (vi_calm _ _ Hi) as Hw. destruct a as [request config|t phase|q|q]; simpl in He |- *.
  - destruct He as [Ha Hn]. destruct (drqv_create_run w tss request config Hw (vi_queues _ _ Hi) Ha Hn) as [Hr|(w' & q & now & phase & timing & E & _ & _ & _ & _ & Hparse & Hcr)].
    + destruct (drqv_inv_refused w tss _ Hi Hr) as (err & w' & E & Hi'). erewrite bind_eq by exact E. by exists w', tss.
    + erewrite bind_eq by exact E. destruct (parse_drqv_options_run _ _ _ _ Hparse). destruct (drqv_inv_created w w' tss _ _ _ _ _ Hi Ha ltac:(done) ltac:(done) Hcr) as (tss' & Hi'). by exists w', tss'.
  - destruct He as (q & c & Ht & Hc & Htask). destruct (vi_scheduled _ _ Hi q c Hc ltac:(left; by eexists)) as [t' Hs]. assert (t' = t) as -> by (pose proof (sd_task _ _ _ _ _ Hs); congruence).
    destruct (decide (phase = dq_phase c)) as [->|Hph]; [|destruct (decide (phase = TASK_SCHEDULE_POST_PROCESSING)) as [->|Hpost]].
    + destruct (drqv_loop_step w tss q c t Hx Hw Hc Hs) as (w' & c' & E & Hb & Hsame & Hr & _). exists w', tss. split; [done|]. by eapply drqv_inv_becomes.
    + destruct (drqv_post_step w tss q c t Hw Hc Hs) as (w' & tss' & c' & E & Hb & Hp). exists w', tss'. split; [done|]. by eapply drqv_post_inv.
    + exists w, tss. split; [|done]. unfold drqv_process. erewrite bind_eq by reflexivity. rewrite Ht. erewrite bind_eq by reflexivity. erewrite bind_eq by by apply load_drqv_eq.
      by rewrite (proj2 (Z.eqb_neq _ _) Hph), (proj2 (Z.eqb_neq _ _) Hpost).
  - destruct He as (c & Hc & Ha). destruct (vi_scheduled _ _ Hi q c Hc ltac:(by right)) as [t Hs].
    destruct (drqv_terminate_run w tss q c t Hw Hc Hs) as (ts1 & ts2 & w' & Hts & E & Hb & _). erewrite bind_eq by exact E. eexists w', _. split; [done|].
    eapply drqv_inv_ended; [exact Hi|exact Hs|exact Hb|]. by exists ts1, ts2.
  - destruct He as (c & Hc & Ha). erewrite (bind_eq _ _ _ ERROR_NONE) by (erewrite bind_eq by (by apply load_drqv_eq); erewrite bind_eq by reflexivity; reflexivity).
    eexists _, tss. split; [done|]. split; [by apply tasks_data|apply Hi|]. intros q2 c2. simpl. rewrite lookup_delete_Some. intros [_ Hc2] Hor.
    destruct (vi_scheduled _ _ Hi q2 c2 Hc2 Hor) as [t Hs]. exists t. eapply (scheduled_same w); [| |by apply Hs|exact Hs]; done.
Qed.

Lemma drqv_steps_inv w w' tss : xplane_reads -> rtc drqv_step w w' -> drqv_inv w tss -> exists tss', drqv_inv w' tss'.
Proof.
  intros Hx Hs. revert tss. induction Hs as [w|w1 w2 w3 H1' _ IH]; intros tss Hi; [by eexists|]. destruct H1' as [w a w2 He E|w w2 Hq Hw].
  - destruct (drqv_perform_ok w tss a Hx Hi He) as (w4 & tss' & E' & Hi'). rewrite E in E'. injection E' as <-. by eapply IH.
  - destruct (tasks_quiet w w2 tss Hq Hw (vi_calm _ _ Hi)) as [Hc Hd]. apply (IH tss). split; [done|apply Hi|]. intros q c. rewrite Hd. intros Hcs Hor.
    destruct (vi_scheduled _ _ Hi q c Hcs Hor) as [t Ht]. exists t. eapply scheduled_same; [by rewrite Hd| |by apply Ht|done]. done.
Qed.

(** The plugin after its start: no queries. *)
Record drqv_started w : Prop := mkDrqvStarted {
  ds_calm : calm_tasks w [[]; []];
  ds_empty : qs_commands (world_data w) = ∅;
}.

Lemma drqv_started_inv w : drqv_started w -> drqv_inv w [[]; []].
Proof. intros [Hw He]. split; [done|done|]. intros q c. by rewrite He, lookup_empty. Qed.

Lemma reachable_inv w0 w : xplane_reads -> drqv_started w0 -> rtc drqv_step w0 w -> exists tss, drqv_inv w tss.
Proof. intros Hx H0' Hs. eapply drqv_steps_inv; [done|done|by apply drqv_started_inv]. Qed.

(** C26: Queries run safely. In every state that a plugin with queries can reach,
    whatever requests, flight loops, terminations, answers of X-Plane, failures of
    allocations and lost connections there were, as long as locks do not fail: each
    operation runs without undefined behaviour (buffers have room for what X-Plane
    writes, and every buffer is accessed as its type says), every termination succeeds,
    and a query that has a channel is scheduled in the phase that it was made for. *)
Theorem queries_run_safely w0 w :
  xplane_reads -> drqv_started w0 -> rtc drqv_step w0 w ->
  (forall a, drqv_enabled w a -> exists w', drqv_perform a w = Some (tt, w')) /\
  (forall q, drqv_enabled w (TerminateQuery q) -> exists w', drqv_terminate (Some q) w = Some (ERROR_NONE, w')) /\
  exists tss, scheds_ok w tss /\
    forall q c, qs_commands (world_data w) !! q = Some c -> addressable (dq_channel_id c) = true ->
      valid_phase (dq_phase c) = true /\
      exists t ts, dq_task c = Some t /\ qs_tasks (world_data w) !! t = Some q /\ tss !! Z.to_nat (dq_phase c) = Some ts /\ t ∈ ts.
Proof.
  intros Hx H0' Hs. destruct (reachable_inv _ _ Hx H0' Hs) as (tss & Hi). split; [|split].
  - intros a He. destruct (drqv_perform_ok w tss a Hx Hi He) as (w' & _ & E & _). by exists w'.
  - intros q (c & Hc & Ha). destruct (vi_scheduled _ _ Hi q c Hc ltac:(by right)) as [t Ht].
    destruct (drqv_terminate_run w tss q c t (vi_calm _ _ Hi) Hc Ht) as (ts1 & ts2 & w' & _ & E & _). by exists w'.
  - exists tss. split; [apply (ct_scheds _ _ (vi_calm _ _ Hi))|]. intros q c Hc Ha. destruct (vi_scheduled _ _ Hi q c Hc ltac:(by right)) as [t [Ht Hv (ts & Hts & Hin) Href _]].
    split; [done|]. by exists t, ts.
Qed.

(** C28: A query is what the client asked for. If a request creates a query, then it is
    of the supported version, has the supported options only, and names at least one
    dataref, each by a supported type and a name that follow the grammar; the query has
    these datarefs in this order, it has the timing that the options ask for, and a new
    task of it is the last in the queue of the phase that the options ask for (the number
    of the option phase modulo 256, so that 256 is taken for 0). Any other request
    changes no command and no queue. Locks do not fail, and the channel ID does not start
    with 7, 8 or 9. *)
Theorem query_is_made_as_asked w0 w request config :
  xplane_reads -> drqv_started w0 -> rtc drqv_step w0 w ->
  addressable (req_channel_id request) = true -> Forall no_nul (req_parameters request) ->
  exists err created w', drqv_create request config w = Some ((err, created), w') /\
    match created with
    | None => err <> ERROR_NONE /\ qs_commands (world_data w') = qs_commands (world_data w) /\
        exists tss, scheds_ok w tss /\ scheds_ok w' tss
    | Some q => err = ERROR_NONE /\ qs_commands (world_data w) !! q = None /\
        version config = DRQV_COMMAND_VERSION /\ request_has_only_options (Some request) (Some drqv_supported_options) = true /\
        exists now t phase timing ds tss ts, 0 <= now /\ asks_for request now phase timing /\
          scheds_ok w tss /\ tss !! Z.to_nat phase = Some ts /\ scheds_ok w' (<[Z.to_nat phase := ts ++ [t]]> tss) /\
          qs_commands (world_data w') = <[q := mkDrqv (req_channel_id request) (Some t) phase timing false false ds 0]> (qs_commands (world_data w)) /\
          qs_tasks (world_data w') !! t = Some q /\ ds <> [] /\ Forall dataref_ok ds /\
          requested <$> req_parameters request = (fun d => Some (qd_name d, qd_type d)) <$> ds
    end.
Proof.
  intros Hx H0' Hs Ha Hn. destruct (reachable_inv _ _ Hx H0' Hs) as (tss & Hi).
  destruct (drqv_create_run w tss request config (vi_calm _ _ Hi) (vi_queues _ _ Hi) Ha Hn) as [(err & w' & E & Herr & Hw' & Hcs & _)|(w' & q & now & phase & timing & E & Hnow & Hv & Hopt & Hne & Hparse & Hcr)].
  - exists err, None, w'. split; [done|]. do 2 (split; [done|]). exists tss. split; [exact (ct_scheds _ _ (vi_calm _ _ Hi))|exact (ct_scheds _ _ Hw')].
  - destruct Hcr as (Hq & t & ts & ds & Hts & Hw' & Hcs & _ & Ht & Hds & Hask). exists ERROR_NONE, (Some q), w'. split; [done|]. do 4 (split; [done|]).
    exists now, t, phase, timing, ds, tss, ts. split; [done|]. split; [by apply parse_drqv_options_asks|]. split; [exact (ct_scheds _ _ (vi_calm _ _ Hi))|].
    split; [done|]. split; [exact (ct_scheds _ _ Hw')|]. split; [done|]. split; [rewrite Ht; apply lookup_insert_eq|]. split; [by intros ->; apply Forall2_nil_inv_r in Hask|]. split; [done|].
    clear -Hask. induction Hask as [|s d ss ds E _ IH]; [done|]. by rewrite !fmap_cons, IH, E.
Qed.

(** C27: Values reach the client. When a query that has not failed runs in the flight
    loop, then unless the clock cannot tell the time since the session's reference time
    (then nothing happens), its timer decides whether values are read; if so, every
    dataref gets a value that X-Plane returned, or the query fails. At the end of the
    round, a query whose values were read at a positive time and not yet sent sends
    them, in one message with that time: it goes on if repetitions are left, and
    otherwise the message closes its channel and it ends. If memory runs out or the
    message cannot be sent, the query fails, and a query that has failed ends at the end
    of the round. Otherwise the end of the round does nothing, so that values which were
    read in the very millisecond of the reference time, at time 0, are not sent. *)
Theorem query_values_reach_client w0 w q c t :
  xplane_reads -> drqv_started w0 -> rtc drqv_step w0 w ->
  qs_commands (world_data w) !! q = Some c -> dq_task c = Some t -> dq_failed c = false ->
  exists w1 c1 w2 c2,
    drqv_run_task t (dq_phase c) w = Some (tt, w1) /\ qs_commands (world_data w1) !! q = Some c1 /\ same_names (dq_datarefs c) (dq_datarefs c1) /\
    (exists now w0, millis_since_reference w = Some (now, w0) /\ if now <? 0 then c1 = c else dq_failed c1 = true \/ was_looped c c1 now) /\
    drqv_run_task t TASK_SCHEDULE_POST_PROCESSING w1 = Some (tt, w2) /\ qs_commands (world_data w2) !! q = Some c2 /\
    (dq_failed c1 = true -> c2 = ended c1) /\
    (dq_failed c1 = false -> dq_initialized c1 = false \/ dq_timestamp c1 <= 0 -> w2 = w1) /\
    (dq_failed c1 = false -> dq_initialized c1 = true -> 0 < dq_timestamp c1 ->
      let result := result_text (dq_datarefs c1) in
      dq_failed c2 = true \/
      drqv_will_continue (dq_timing c1) = true /\ c2 = set_dq_timestamp 0 c1 /\ sent w1 w2 (dq_channel_id c1) CHANNEL_ACTION_CONTINUE (dq_timestamp c1) result \/
      drqv_will_continue (dq_timing c1) = false /\ c2 = ended c1 /\
        exists err w3 w4, w_connection w3 = w_connection w1 /\ finish_channel (dq_channel_id c1) (dq_timestamp c1) (Some result) w3 = Some (err, w4) /\
          (err = ERROR_NONE -> exists action, action ∈ [CHANNEL_ACTION_ACK_CLOSE; CHANNEL_ACTION_CLOSE] /\ sent w1 w2 (dq_channel_id c1) action (dq_timestamp c1) result)).
Proof.
  intros Hx H0' Hs Hc Ht Hf. destruct (reachable_inv _ _ Hx H0' Hs) as (tss & Hi). destruct (vi_scheduled _ _ Hi q c Hc ltac:(left; by eexists)) as [t' Hst].
  assert (t' = t) as -> by (pose proof (sd_task _ _ _ _ _ Hst); congruence).
  destruct (drqv_loop_step w tss q c t Hx (vi_calm _ _ Hi) Hc Hst) as (w1 & c1 & E1 & Hb1 & Hsame & Hr1 & Hn & Hl). pose proof (becomes_at _ _ _ _ _ Hb1) as Hc1.
  pose proof (scheduled_same _ _ _ _ _ _ _ (bc_tasks _ _ _ _ _ Hb1) Hsame Hr1 Hst) as Hst1.
  destruct (drqv_post_step w1 tss q c1 t (bc_calm _ _ _ _ _ Hb1) Hc1 Hst1) as (w2 & tss' & c2 & E2 & Hb2 & Hp). exists w1, c1, w2, c2. do 3 (split; [done|]). split; [by apply Hl|].
  split; [done|]. split; [by eapply becomes_at|].
  destruct Hp as [Hf1 Hno -> _ _|Hf1 -> _|Hf1 Hi0 Hts0 _ -> _|err Hf1 Hi0 Hts0 Hcont _ Hc2|err w3 w4 Hf1 Hi0 Hts0 Hcont -> _ Hcn E Hsent]; rewrite Hf1; (split; [done|]); (split; [try done; intros _ [?|?]; first [congruence|lia]|]); intros ? Hi1 Hts; try done.
  - destruct Hno; [congruence|lia].
  - by left.
  - destruct (err =? ERROR_NONE); [right; left; by destruct Hc2|left; by subst].
  - right; right. do 2 (split; [done|]). by exists err, w3, w4.
Qed.
End System.

(** * A plugin *)

(** X-Plane knows all names, in all types; numbers count the calls that it got, and
    arrays have three items. *)
Definition demo_find_dataref (calls : list dataref_call) (name : cstr) : Z := len name.
Definition demo_get_types (calls : list dataref_call) (xp_ref : Z) : Z := 63.
Definition demo_get (calls : list dataref_call) (type xp_ref : Z) : Z := len calls.
Definition demo_get_array (calls : list dataref_call) (type xp_ref offset max : Z) : Z * list Z := (len (replicate (Z.to_nat max) (len calls)), replicate (Z.to_nat max) (len calls)).
Definition demo_length (calls : list dataref_call) (type xp_ref : Z) : Z := 3.

Lemma demo_reads_arrays : reads_arrays demo_get_array demo_length.
Proof. split; [|done]. intros. unfold demo_get_array. split; [done|]. rewrite length_replicate. lia. Qed.

Abbreviation demo_drqv_world := (world network_connection_t (ext drqv_state)).
Definition demo_drqv_started : demo_drqv_world := demo_with (mkDrqvState ∅ ∅ ∅ []).

Lemma demo_drqv_started_ok : drqv_started demo_drqv_started.
Proof.
  destruct (demo_with_ok (mkDrqvState ∅ ∅ ∅ [])) as [Hw Hs]. split; [|done]. split; [exact Hw| |constructor|done].
  exists [[]; []]. split; [exact Hs|]. by repeat constructor.
Qed.

Definition demo_query : request_t :=
  mkRequest demo_channel (lit "DRQV") [mkOption (lit "freq") (lit "2f"); mkOption (lit "times") (lit "2")] [lit "int:demo/a"; lit "blob:demo/b"].
Definition demo_query_config : command_config_t := mkConfig DRQV_COMMAND_VERSION (mkMap ∅).

#[local] Instance demo_types_instance : DataTypes := demo_types.
#[local] Instance demo_floats_instance : FloatText := demo_floats.

Definition demo_query_perform : drqv_action -> M demo_drqv_world unit := drqv_perform demo_find_dataref demo_get_types demo_get demo_get_array demo_length.
Definition demo_query_step : demo_drqv_world -> demo_drqv_world -> Prop := drqv_step demo_find_dataref demo_get_types demo_get demo_get_array demo_length.
Definition demo_asked : demo_drqv_world := after (demo_query_perform (CreateQuery demo_query demo_query_config)) demo_drqv_started.

Lemma demo_asked_steps : rtc demo_query_step demo_drqv_started demo_asked.
Proof.
  apply rtc_once. assert (drqv_enabled demo_drqv_started (CreateQuery demo_query demo_query_config)) as He.
  { split; [reflexivity|]. constructor; [apply (bool_decide_unpack _); by vm_compute|]. constructor; [apply (bool_decide_unpack _); by vm_compute|constructor]. }
  destruct (drqv_perform_ok demo_find_dataref demo_get_types demo_get demo_get_array demo_length demo_drqv_started [[]; []] _ demo_reads_arrays
    (drqv_started_inv _ demo_drqv_started_ok) He) as (w' & tss & E & _).
  assert (demo_asked = w') as -> by (unfold demo_asked, after, demo_query_perform; by rewrite E). by apply (drqv_step_action _ _ _ _ _ _ (CreateQuery demo_query demo_query_config)).
Qed.

(** A round of flight loops. *)
Definition demo_round (w : demo_drqv_world) : demo_drqv_world :=
  after (demo_query_perform (RunQuery 1%positive TASK_SCHEDULE_POST_PROCESSING)) (after (demo_query_perform (RunQuery 1%positive TASK_SCHEDULE_BEFORE_FLIGHT_MODEL)) w).

(** The first round confirms the channel and sends values, the second one does not run
    for the query, and the third one sends the last values. *)
Example demo_rounds : conn_queued (w_connection (demo_round (demo_round (demo_round demo_asked)))) =
  lit "+ACK AAAA 170925119" ++ [chr 10] ++ lit "+AAAA 170925119 4;3,060606" ++ [chr 10] ++ lit "-AAAA 170925119 7;3,090909" ++ [chr 10].
Proof. vm_compute. reflexivity. Qed.

Lemma queries_run_safely_witness :
  exists tss, scheds_ok demo_asked tss /\ exists c t ts, qs_commands (world_data demo_asked) !! 1%positive = Some c /\ dq_task c = Some t /\ tss !! Z.to_nat (dq_phase c) = Some ts /\ t ∈ ts.
Proof.
  destruct (queries_run_safely demo_find_dataref demo_get_types demo_get demo_get_array demo_length demo_drqv_started demo_asked
    demo_reads_arrays demo_drqv_started_ok demo_asked_steps) as (_ & _ & tss & Hs & Hq). exists tss. split; [exact Hs|].
  destruct (qs_commands (world_data demo_asked) !! 1%positive) as [c|] eqn:Hc; [|vm_compute in Hc; done].
  assert (addressable (dq_channel_id c) = true) as Ha by (vm_compute in Hc; by injection Hc as <-).
  destruct (Hq 1%positive c Hc Ha) as (_ & t & ts & Ht & _ & Hts & Hin). exists c, t, ts. exact (conj eq_refl (conj Ht (conj Hts Hin))).
Defined.

Lemma query_is_made_as_asked_witness :
  exists err created w', drqv_create demo_query demo_query_config demo_drqv_started = Some ((err, created), w') /\
    match created with Some q => qs_commands (world_data demo_drqv_started) !! q = None | None => err <> ERROR_NONE end.
Proof.
  destruct (query_is_made_as_asked demo_find_dataref demo_get_types demo_get demo_get_array demo_length demo_drqv_started demo_drqv_started demo_query demo_query_config
    demo_reads_arrays demo_drqv_started_ok (rtc_refl _ _)) as (err & created & w' & E & Hres).
  - reflexivity.
  - constructor; [apply (bool_decide_unpack _); by vm_compute|]. constructor; [apply (bool_decide_unpack _); by vm_compute|constructor].
  - exists err, created, w'. split; [exact E|]. destruct created; apply Hres.
Defined.

Lemma query_values_reach_client_witness :
  exists c w1 w2, qs_commands (world_data demo_asked) !! 1%positive = Some c /\
    drqv_process demo_find_dataref demo_get_types demo_get demo_get_array demo_length 1%positive (dq_phase c) demo_asked = Some (tt, w1) /\
    drqv_process demo_find_dataref demo_get_types demo_get demo_get_array demo_length 1%positive TASK_SCHEDULE_POST_PROCESSING w1 = Some (tt, w2).
Proof.
  destruct (qs_commands (world_data demo_asked) !! 1%positive) as [c|] eqn:Hc; [|vm_compute in Hc; done].
  assert (dq_task c = Some 1%positive /\ dq_failed c = false) as [Ht Hf] by (vm_compute in Hc; by injection Hc as <-).
  destruct (query_values_reach_client demo_find_dataref demo_get_types demo_get demo_get_array demo_length demo_drqv_started demo_asked 1%positive c 1%positive
    demo_reads_arrays demo_drqv_started_ok demo_asked_steps Hc Ht Hf) as (w1 & c1 & w2 & c2 & E1 & _ & _ & _ & E2 & _).
  exists c, w1, w2. exact (conj eq_refl (conj E1 E2)).
Defined.
