(* ===== verification/DrqvRoundtrip.v ===== *)
(** Results of queries can be read back ([DrqvResults.result_text]), with the functions
    that the program itself reads values with. *)

From S2P Require Import Prelude CLib Utils Hashmap Channels Requests Lists Prealloc Arrays Protocol TaskSchedule Network Command Session Server ServerCommands Beside HeldSystem CalmWorld CmtrTimers Drqv DrqvTiming DrqvValues DrqvReading DrqvResults DrqvCreation DrqvSystem.

Section Roundtrip.
Context `{DataTypes} `{FloatText}.
Implicit Types (d : drqv_dataref_t) (ds : list drqv_dataref_t).

Definition separator : ascii := ";".

Lemma print_dec_separator n : separator ∉ print_dec n.
Proof. intros Hin. by apply print_dec_char in Hin as [?|?]. Qed.

Lemma print_f_separator x : separator ∉ print_f x.
Proof. apply print_f_text. Qed.

Lemma hex_digit_separator n : 0 <= n < 16 -> hex_digit n <> separator.
Proof.
  intros Hn E. assert (parse_nibble separator = Some n) as Hp by (rewrite <-E; by apply parse_hex_digit). by vm_compute in Hp.
Qed.

(** What fits the type. *)
Definition value_in_range d : Prop :=
  match qd_value_buffer d with
  | Some (SimpleBuffer value) => qd_type d = xplmType_Int -> in_int value
  | Some (ArrayBuffer arr) => Forall (item_ok (qd_type d)) (contents arr)
  | None => True
  end.

Lemma array_text_separator type xs : is_array_type type -> Forall (item_ok type) xs -> separator ∉ array_text type xs.
Proof.
  intros Ht Hxs. unfold array_text. destruct xs as [|x xs']; [apply (bool_decide_unpack _); by vm_compute|]. set (xs := x :: xs') in *. clearbody xs.
  rewrite not_elem_of_app. split.
  - unfold format_length. rewrite not_elem_of_app. split; [apply print_dec_separator|]. destruct (_ =? _); apply (bool_decide_unpack _); by vm_compute.
  - induction Hxs as [|y ys Hy _ IH]; [apply not_elem_of_nil|]. rewrite fmap_cons. change (mjoin (?a :: ?l)) with (a ++ mjoin l). rewrite not_elem_of_app. split; [|done].
    unfold format_item. unfold item_ok in Hy. destruct (Z.eqb_spec type xplmType_IntArray) as [|Hi]; [apply not_elem_of_cons; split; [done|apply print_dec_separator]|].
    destruct (Z.eqb_spec type xplmType_FloatArray) as [|Hf]; [apply not_elem_of_cons; split; [done|apply print_f_separator]|].
    assert (type = xplmType_Data) as -> by by destruct Ht as [?|[?|?]].
    rewrite Z.eqb_refl in Hy. unfold print_02X. rewrite !not_elem_of_cons.
    split; [apply not_eq_sym, hex_digit_separator; Z.div_mod_to_equations; lia|]. split; [apply not_eq_sym, hex_digit_separator; Z.div_mod_to_equations; lia|apply not_elem_of_nil].
Qed.

Lemma value_text_separator d : dataref_ok d -> value_in_range d -> separator ∉ value_text d.
Proof.
  unfold dataref_ok, value_in_range, value_text. destruct (qd_value_buffer d) as [[v|arr]|]; [| |done].
  - intros _ _. destruct (_ =? _); [apply print_dec_separator|]. destruct (_ =? _); apply print_f_separator.
  - intros [Ht _] Hr. by apply array_text_separator.
Qed.

(** Numbers: integers exactly, others as far as their text says. *)
Definition simple_read (type value : Z) : Z :=
  if type =? xplmType_Int then value else if type =? xplmType_Float then float_value value else atof (print_f value).

Lemma types_apart : xplmType_Float <> xplmType_Int /\ xplmType_Double <> xplmType_Int /\ xplmType_Double <> xplmType_Float /\
  xplmType_Int <> xplmType_IntArray /\ xplmType_Float <> xplmType_IntArray /\ xplmType_Double <> xplmType_IntArray /\ xplmType_Double <> xplmType_FloatArray.
Proof. pose proof xplm_types_different as Hd. rewrite !NoDup_cons, !not_elem_of_cons in Hd. destruct_and! Hd. repeat split; congruence. Qed.

Lemma simple_type_supported type : type = xplmType_Int \/ type = xplmType_Float \/ type = xplmType_Double -> Z.land type (Z.lnot supported_types) = 0.
Proof.
  intros Ht. apply land_lnot_part. intros n Hb. unfold supported_types, simple_types. rewrite !Z.lor_spec.
  destruct Ht as [->|[->| ->]]; rewrite Hb; by rewrite ?orb_true_l, ?orb_true_r.
Qed.

Lemma simple_parses type value e : type = xplmType_Int \/ type = xplmType_Float \/ type = xplmType_Double -> (type = xplmType_Int -> in_int value) -> env_alloc e = [] ->
  let text := if type =? xplmType_Int then print_dec value else if type =? xplmType_Float then print_f (double_of_float value) else print_f value in
  xprc_parse_value (Some text) (strlen text) type (simple_size type) e = Some (Some (simple_read type value), alloc_rest e).
Proof.
  intros Ht Hv Ha text. destruct types_apart as (H1' & H2' & H3' & H4' & H5' & H6' & H7').
  assert (text <> [] /\ no_nul text) as [Hne Hnul].
  { unfold text. destruct (_ =? _); [split; [apply print_dec_nonempty|apply print_dec_no_nul]|]. destruct (_ =? _); [pose proof (print_f_text (double_of_float value))|pose proof (print_f_text value)]; tauto. }
  assert (1 <= strlen text) by (unfold strlen; destruct text; [done|simpl; lia]). unfold xprc_parse_value, simple_read, simple_size. rewrite (proj2 (Z.ltb_ge _ 1)) by lia.
  rewrite simple_type_supported by done. cbn [Z.eqb negb].
  assert (copy_partial_string (Some text) (strlen text) e = Some (Some text, alloc_rest e)) as Ecopy.
  { rewrite copy_partial_string_eq. unfold slice, strlen, alloc_next. rewrite Ha. cbn [head default]. by rewrite Nat2Z.id, drop_0, firstn_all, c_str_id. }
  destruct Ht as [->|[->| ->]].
  - rewrite Z.eqb_refl in *. rewrite (proj2 (Z.eqb_neq xplmType_Int xplmType_Double)) by done. cbn [orb andb]. change (SIZE_XPLM_INT <=? SIZE_XPLM_INT_FLOAT) with true. cbv iota.
    erewrite bind_eq by exact Ecopy. cbn. unfold text. rewrite Z.eqb_refl. by rewrite atoi_print by auto.
  - rewrite (proj2 (Z.eqb_neq xplmType_Float xplmType_Int)), (proj2 (Z.eqb_neq xplmType_Float xplmType_IntArray)), (proj2 (Z.eqb_neq xplmType_Float xplmType_Double)) by done.
    rewrite Z.eqb_refl. cbn [orb andb]. change (SIZE_XPLM_FLOAT <=? SIZE_XPLM_INT_FLOAT) with true. cbv iota. erewrite bind_eq by exact Ecopy. cbn. unfold text, float_value.
    by rewrite (proj2 (Z.eqb_neq xplmType_Float xplmType_Int)), Z.eqb_refl by done.
  - rewrite (proj2 (Z.eqb_neq xplmType_Double xplmType_Int)), (proj2 (Z.eqb_neq xplmType_Double xplmType_IntArray)), (proj2 (Z.eqb_neq xplmType_Double xplmType_Float)), (proj2 (Z.eqb_neq xplmType_Double xplmType_FloatArray)) by done.
    rewrite Z.eqb_refl. cbn [orb andb]. change (SIZE_XPLM_DOUBLE <=? SIZE_XPLM_DOUBLE) with true. cbv iota. erewrite bind_eq by exact Ecopy. cbn. unfold text.
    by rewrite (proj2 (Z.eqb_neq xplmType_Double xplmType_Int)), (proj2 (Z.eqb_neq xplmType_Double xplmType_Float)) by done.
Qed.

(** The text of a value gives it back; the empty byte array has none that does. *)
Definition reads_back d : Prop :=
  forall e, env_alloc e = [] -> exists e',
    match qd_value_buffer d with
    | Some (SimpleBuffer value) => xprc_parse_value (Some (value_text d)) (strlen (value_text d)) (qd_type d) (qd_value_buffer_size d) e = Some (Some (simple_read (qd_type d) value), e')
    | Some (ArrayBuffer arr) => xprc_parse_array (Some (value_text d)) (strlen (value_text d)) (qd_type d) e =
        Some (if (qd_type d =? xplmType_Data) && bool_decide (contents arr = []) then None
              else Some (filled (array_item_size (qd_type d)) (arr_length arr) (item_value_read (qd_type d) <$> contents arr)), e')
    | None => False
    end.

Lemma value_reads_back d : dataref_ok d -> value_in_range d -> reads_back d.
Proof.
  unfold dataref_ok, value_in_range, reads_back, value_text. intros Hd Hr e Ha. destruct (qd_value_buffer d) as [[v|arr]|]; [| |done].
  - destruct Hd as [Ht ->]. eexists. by apply simple_parses.
  - destruct Hd as [Ht [Hl Hc Hdat Hs]]. assert (len (contents arr) = arr_length arr) as Hlen by (unfold contents; rewrite length_take; lia).
    rewrite <-Hlen. apply array_text_parses; [done|lia|done|done].
Qed.
End Roundtrip.

(** C29: A client gets back the values that were read: the result that the code makes is
    a text, or nothing if memory runs out; the text splits at the separators into the
    texts of the values, in the order of the datarefs, and each text parses, as the type
    of its dataref, to the value: integers, and arrays of integers or of bytes, exactly;
    floating point numbers as far as their text determines them. Only the text of an
    empty array of bytes is rejected. *)
Theorem query_result_roundtrip `{DataTypes} `{FloatText} {C} `{ConnectionLaws C} (w : world C (ext drqv_state)) tss q c :
  calm_tasks w tss -> qs_commands (world_data w) !! q = Some c -> addressable (dq_channel_id c) = true ->
  dq_datarefs c <> [] -> Forall dataref_ok (dq_datarefs c) -> Forall value_in_range (dq_datarefs c) ->
  exists out w', drqv_result q w = Some (out, w') /\
    (env_alloc (cs_env (w_channels w)) = [] -> is_Some out) /\
    (forall text, out = Some text -> split_on separator text = value_text <$> dq_datarefs c) /\
    Forall reads_back (dq_datarefs c).
Proof.
  intros Hw Hc Ha Hne Hok Hr. assert (Forall (fun d => dataref_ok d /\ value_in_range d) (dq_datarefs c)) as Hall by by apply Forall_and.
  destruct (drqv_result_run w tss q c Hw Hc Ha Hok) as (out & w' & E & Hout). exists out, w'. split; [done|]. split; [|split].
  - intros Hn. destruct out; [by eexists|]. by destruct Hout.
  - intros text ->. destruct Hout as [-> _]. apply split_on_join; [by destruct (dq_datarefs c)|]. apply Forall_fmap. eapply Forall_impl; [exact Hall|].
    intros d [? ?]. by apply value_text_separator.
  - eapply Forall_impl; [exact Hall|]. intros d [? ?]. by apply value_reads_back.
Qed.

#[local] Existing Instance demo_types_instance.
#[local] Existing Instance demo_floats_instance.

(** The values of two datarefs have been read. *)
Definition demo_read : demo_drqv_world := after (demo_query_perform (RunQuery 1%positive TASK_SCHEDULE_BEFORE_FLIGHT_MODEL)) demo_asked.

Lemma demo_read_inv : exists tss, drqv_inv demo_read tss.
Proof.
  destruct (reachable_inv demo_find_dataref demo_get_types demo_get demo_get_array demo_length _ _ demo_reads_arrays demo_drqv_started_ok demo_asked_steps) as (tss & Hi).
  assert (drqv_enabled demo_asked (RunQuery 1%positive TASK_SCHEDULE_BEFORE_FLIGHT_MODEL)) as He.
  { simpl. destruct (qs_commands (world_data demo_asked) !! 1%positive) as [c|] eqn:Hc; [|vm_compute in Hc; done]. exists 1%positive, c.
    split; [vm_compute; reflexivity|]. split; [exact Hc|]. vm_compute in Hc. by injection Hc as <-. }
  destruct (drqv_perform_ok demo_find_dataref demo_get_types demo_get demo_get_array demo_length demo_asked tss _ demo_reads_arrays Hi He) as (w' & tss' & E & Hi').
  exists tss'. assert (demo_read = w') as -> by (unfold demo_read, after, demo_query_perform; by rewrite E). exact Hi'.
Qed.

Lemma query_result_roundtrip_witness :
  exists c out w', qs_commands (world_data demo_read) !! 1%positive = Some c /\ drqv_result 1%positive demo_read = Some (out, w') /\
    forall text, out = Some text -> split_on separator text = value_text <$> dq_datarefs c.
Proof.
  destruct demo_read_inv as (tss & Hi). destruct (qs_commands (world_data demo_read) !! 1%positive) as [c|] eqn:Hc; [|vm_compute in Hc; done].
  assert (addressable (dq_channel_id c) = true /\ dq_datarefs c <> [] /\ Forall value_in_range (dq_datarefs c)) as (Ha & Hne & Hr).
  { vm_compute in Hc. injection Hc as <-. split; [reflexivity|]. split; [done|]. constructor; [intros _; vm_compute; split; congruence|].
    constructor; [|constructor]. unfold value_in_range. cbn. repeat (constructor; [vm_compute; split; congruence|]). constructor. }
  destruct (vi_scheduled _ _ Hi 1%positive c Hc (or_intror Ha)) as (t & Hs). destruct (sd_runnable _ _ _ _ _ Hs) as (_ & Hok & _).
  destruct (query_result_roundtrip demo_read tss 1%positive c (vi_calm _ _ Hi) Hc Ha Hne Hok Hr) as (out & w' & E & _ & Htext & _).
  exists c, out, w'. exact (conj eq_refl (conj E Htext)).
Defined.
