(* ===== verification/Drci.v ===== *)
(** The command DRCI ([command_drci.c]): creates a dataref, which is hosted through a
    proxy ([Dataproxy]); the values are part of the command, and the owner is told
    about changes.

    The options [range] and [step] are refused unless the program is compiled for them,
    so that a command never has ranges and steps. The values of numbers are their bits;
    conversions between numbers are those of the machine and of the C library. *)

From S2P Require Import Prelude CLib Utils Hashmap Channels Requests Lists Prealloc Arrays Protocol TaskSchedule Network Command Session Server ServerCommands CalmWorld Dataproxy.

Definition DRCI_COMMAND_VERSION : Z := 1.

Definition DRCI_ECHO_NONE : Z := 0.
Definition DRCI_ECHO_XPLANE : Z := 1.
Definition DRCI_ECHO_OTHER : Z := 2.
Definition DRCI_ECHO_ALL : Z := 3.

Definition DRCI_INTCONV_NOT_SET : Z := 0.
Definition DRCI_INTCONV_ROUND : Z := 1.
Definition DRCI_INTCONV_FLOOR : Z := 2.
Definition DRCI_INTCONV_CEIL : Z := 3.

Definition DRCI_REGISTRATION_PHASE : Z := TASK_SCHEDULE_BEFORE_FLIGHT_MODEL.

(** Conversions of numbers, on their bits; those to integers yield a [long]. *)
Class NumberConversions := {
  float_of_int : Z -> Z; double_of_int : Z -> Z;
  floorf : Z -> Z; ceilf : Z -> Z; lroundf : Z -> Z;
  floor : Z -> Z; ceil : Z -> Z; lround : Z -> Z;
}.

(** The functions that are operations of proxies. *)
Inductive drci_operation := DrciSimpleGet | DrciSimpleSet | DrciArrayGet | DrciArrayLength | DrciArrayUpdate.

(** What the client asked for. *)
Record drci_options := mkDrciOptions {
  io_types : Z;
  io_write_permission : Z;
  io_echo_mode : Z;
  io_intconv_mode : Z;
  io_array_length : Z;
}.

Record drci_values := mkDrciValues {
  iv_int : Z;
  iv_float : Z;
  iv_double : Z;
  iv_ints : option (dynamic_array_t Z);
  iv_floats : option (dynamic_array_t Z);
  iv_blob : option (dynamic_array_t Z);
}.

(** [ic_lock] counts how often the mutex is held. *)
Record command_drci_t := mkDrci {
  ic_session : loc;
  ic_channel_id : Z;
  ic_lock : Z;
  ic_proxy : option loc;
  ic_dataref_name : option cstr;
  ic_options : drci_options;
  ic_values : drci_values;
  ic_registration_task : option loc;
  ic_registered : bool;
  ic_failed : bool;
}.

(** The command objects, the references of task objects, the items of lists of texts,
    the parts of the registry of proxies, and the datarefs that the DataRefEditor
    plugin was told about. *)
Record drci_state := mkDrciState {
  ih_commands : gmap loc command_drci_t;
  ih_tasks : gmap loc loc;
  ih_texts : gmap loc (prealloc_list_item_t cstr unit);
  ih_registry : dataproxy_registry_t;
  ih_proxies : gmap loc (dataproxy_t drci_operation);
  ih_items : gmap loc (prealloc_list_item_t loc unit);
  ih_calls : list accessor_call;
  ih_notified : list cstr;
}.

Definition set_iv_simple (i f d : Z) (v : drci_values) := mkDrciValues i f d (iv_ints v) (iv_floats v) (iv_blob v).
Definition set_iv_ints (a : option (dynamic_array_t Z)) (v : drci_values) := mkDrciValues (iv_int v) (iv_float v) (iv_double v) a (iv_floats v) (iv_blob v).
Definition set_iv_floats (a : option (dynamic_array_t Z)) (v : drci_values) := mkDrciValues (iv_int v) (iv_float v) (iv_double v) (iv_ints v) a (iv_blob v).
Definition set_iv_blob (a : option (dynamic_array_t Z)) (v : drci_values) := mkDrciValues (iv_int v) (iv_float v) (iv_double v) (iv_ints v) (iv_floats v) a.

Definition set_ic_channel_id (id : Z) c := mkDrci (ic_session c) id (ic_lock c) (ic_proxy c) (ic_dataref_name c) (ic_options c) (ic_values c) (ic_registration_task c) (ic_registered c) (ic_failed c).
Definition set_ic_lock (n : Z) c := mkDrci (ic_session c) (ic_channel_id c) n (ic_proxy c) (ic_dataref_name c) (ic_options c) (ic_values c) (ic_registration_task c) (ic_registered c) (ic_failed c).
Definition set_ic_proxy (p : option loc) c := mkDrci (ic_session c) (ic_channel_id c) (ic_lock c) p (ic_dataref_name c) (ic_options c) (ic_values c) (ic_registration_task c) (ic_registered c) (ic_failed c).
Definition set_ic_dataref_name (s : option cstr) c := mkDrci (ic_session c) (ic_channel_id c) (ic_lock c) (ic_proxy c) s (ic_options c) (ic_values c) (ic_registration_task c) (ic_registered c) (ic_failed c).
Definition set_ic_options (o : drci_options) c := mkDrci (ic_session c) (ic_channel_id c) (ic_lock c) (ic_proxy c) (ic_dataref_name c) o (ic_values c) (ic_registration_task c) (ic_registered c) (ic_failed c).
Definition set_ic_values (v : drci_values) c := mkDrci (ic_session c) (ic_channel_id c) (ic_lock c) (ic_proxy c) (ic_dataref_name c) (ic_options c) v (ic_registration_task c) (ic_registered c) (ic_failed c).
Definition set_ic_task (t : option loc) c := mkDrci (ic_session c) (ic_channel_id c) (ic_lock c) (ic_proxy c) (ic_dataref_name c) (ic_options c) (ic_values c) t (ic_registered c) (ic_failed c).
Definition set_ic_registered c := mkDrci (ic_session c) (ic_channel_id c) (ic_lock c) (ic_proxy c) (ic_dataref_name c) (ic_options c) (ic_values c) (ic_registration_task c) true (ic_failed c).
Definition set_ic_failed c := mkDrci (ic_session c) (ic_channel_id c) (ic_lock c) (ic_proxy c) (ic_dataref_name c) (ic_options c) (ic_values c) (ic_registration_task c) (ic_registered c) true.

Definition set_ih_commands (m : gmap loc command_drci_t) d := mkDrciState m (ih_tasks d) (ih_texts d) (ih_registry d) (ih_proxies d) (ih_items d) (ih_calls d) (ih_notified d).
Definition set_ih_tasks (m : gmap loc loc) d := mkDrciState (ih_commands d) m (ih_texts d) (ih_registry d) (ih_proxies d) (ih_items d) (ih_calls d) (ih_notified d).
Definition set_ih_texts (m : gmap loc (prealloc_list_item_t cstr unit)) d := mkDrciState (ih_commands d) (ih_tasks d) m (ih_registry d) (ih_proxies d) (ih_items d) (ih_calls d) (ih_notified d).
Definition set_ih_datarefs (r : datarefs drci_operation) d := mkDrciState (ih_commands d) (ih_tasks d) (ih_texts d) (ds_registry r) (ds_proxies r) (ds_items r) (ds_calls r) (ih_notified d).
Definition set_ih_notified (l : list cstr) d := mkDrciState (ih_commands d) (ih_tasks d) (ih_texts d) (ih_registry d) (ih_proxies d) (ih_items d) (ih_calls d) l.

Definition drci_supported_options : list cstr := [lit "echo"; lit "intConv"; lit "range"; lit "rangeFit"; lit "step"; lit "stepFit"; lit "writable"].

Definition drci_dataproxy_operations : dataproxy_operations_t drci_operation :=
  mkOperations (Some DrciSimpleGet) (Some DrciSimpleSet) (Some DrciArrayGet) (Some DrciArrayLength) (Some DrciArrayUpdate).

(** * Options *)

Definition parse_permission (s : cstr) : option Z :=
  if str_eq s (lit "all") then Some DATAPROXY_PERMISSION_ALL
  else if str_eq s (lit "xprc") then Some DATAPROXY_PERMISSION_XPRC
  else if str_eq s (lit "session") then Some DATAPROXY_PERMISSION_SESSION
  else None.

Definition parse_echo_mode (s : cstr) : option Z :=
  if str_eq s (lit "all") then Some DRCI_ECHO_ALL
  else if str_eq s (lit "other") then Some DRCI_ECHO_OTHER
  else if str_eq s (lit "xplane") then Some DRCI_ECHO_XPLANE
  else if str_eq s (lit "none") then Some DRCI_ECHO_NONE
  else None.

Definition parse_intconv_mode (s : option cstr) : option Z :=
  match s with
  | None => Some DRCI_INTCONV_NOT_SET
  | Some s =>
      if str_eq s (lit "round") then Some DRCI_INTCONV_ROUND
      else if str_eq s (lit "floor") then Some DRCI_INTCONV_FLOOR
      else if str_eq s (lit "ceil") then Some DRCI_INTCONV_CEIL
      else None
  end.

(** The options up to the parameters: the reason of a failure, or the options. *)
Definition parse_drci_options (request : request_t) : cstr + Z * Z * Z :=
  let option name := request_get_option (Some request) (Some (lit name)) None in
  let option_or name default := from_option id [] (request_get_option (Some request) (Some (lit name)) (Some (lit default))) in
  if given (option "range"%string) then inl (lit "range option is currently not supported")
  else if given (option "rangeFit"%string) then inl (lit "rangeFit option is currently not supported")
  else if given (option "step"%string) then inl (lit "step option is currently not supported")
  else if given (option "stepFit"%string) then inl (lit "stepFit option is currently not supported")
  else
    match parse_permission (option_or "writable"%string "all"%string) with
    | None => inl (lit "invalid mode for writable")
    | Some write_permission =>
        match parse_echo_mode (option_or "echo"%string "other"%string) with
        | None => inl (lit "invalid mode for echo")
        | Some echo_mode =>
            match parse_intconv_mode (option "intConv"%string) with
            | None => inl (lit "invalid mode for intConv")
            | Some intconv_mode => inr (write_permission, echo_mode, intconv_mode)
            end
        end
    end.

Section Numbers.
Context `{DataTypes} `{FloatText} `{NumberConversions}.

(** The parameter: the reason of a failure, or the types, the length of arrays and the
    position and the length of the name. *)
Definition parse_drci_parameter (parameters : list cstr) (intconv_mode : Z) : cstr + Z * Z * Z * Z :=
  match parameters with
  | [parameter] =>
      let offset_type_separator := strpos_unescaped (Some parameter) (lit ":") 0 in
      if offset_type_separator <? 1 then inl (lit "dataref type must be specified")
      else
        let offset_name_separator := strpos_unescaped (Some parameter) (lit ":") (offset_type_separator + 1) in
        let arrlen_length := if 0 <=? offset_name_separator then strlen parameter - offset_name_separator - 1 else -1 in
        let escaped_name_length := if offset_name_separator <? 0 then strlen parameter - offset_type_separator - 1
                                   else offset_name_separator - offset_type_separator - 1 in
        let types := xprc_parse_types (Some parameter) offset_type_separator in
        let has_simple_type := has_type types simple_types in
        let has_array_type := has_type types array_types in
        let has_blob_type := has_type types xplmType_Data in
        if has_simple_type && has_array_type then inl (lit "combination of simple and array types is not supported")
        else if (types =? xplmType_Unknown) || negb (Z.land types (Z.lnot supported_types) =? 0) then inl (lit "unknown or unsupported types")
        else if has_array_type && (arrlen_length <? 1) then inl (lit "undefined array length")
        else if negb has_array_type && (0 <? arrlen_length) then inl (lit "length can only be specified for array types")
        else if has_blob_type && negb (Z.land types (Z.lnot xplmType_Data) =? 0) then inl (lit "blob cannot be combined with other types")
        else
          let array_length := if 0 <? arrlen_length then atoi (drop (Z.to_nat (offset_name_separator + 1)) parameter) else -1 in
          if has_array_type && (array_length <? 0) then inl (lit "invalid array length")
          else if has_blob_type && negb (intconv_mode =? DRCI_INTCONV_NOT_SET) then inl (lit "intConv option is not allowed on blobs")
          else inr (types, array_length, offset_type_separator + 1, escaped_name_length)
  | _ => inl (lit "exactly one dataref has to be defined")
  end.

(** * Values *)

Definition float2int (value mode : Z) : Z :=
  wrap_s 32 (lroundf (if mode =? DRCI_INTCONV_FLOOR then floorf value else if mode =? DRCI_INTCONV_CEIL then ceilf value else value)).
Definition double2int (value mode : Z) : Z :=
  wrap_s 32 (lround (if mode =? DRCI_INTCONV_FLOOR then floor value else if mode =? DRCI_INTCONV_CEIL then ceil value else value)).

(** What is stored at each of the places that there are. *)
Definition apply_value (type value : Z) (stored_int stored_float stored_double : option Z) (intconv_mode : Z) : option Z * option Z * option Z :=
  let store {A} (v : Z) (place : option A) : option Z := match place with Some _ => Some v | None => None end in
  if type =? xplmType_Int then (store value stored_int, store (float_of_int value) stored_float, store (double_of_int value) stored_double)
  else if type =? xplmType_Float then (store (float2int value intconv_mode) stored_int, store value stored_float, store (double_of_float value) stored_double)
  else if type =? xplmType_Double then (store (double2int value intconv_mode) stored_int, store (float_of_double value) stored_float, store value stored_double)
  else (stored_int, stored_float, stored_double).

(** The error and [*actual_count]. *)
Definition get_actual_count (length offset count : Z) : error_t * Z :=
  let available := length - offset in
  let actual_count := if available <? count then available else count in
  (if available <? 1 then ERROR_UNSPECIFIC else ERROR_NONE, if actual_count <? 0 then 0 else actual_count).

Definition array_of_type (v : drci_values) (type : Z) : option (dynamic_array_t Z) :=
  if type =? xplmType_IntArray then iv_ints v
  else if type =? xplmType_FloatArray then iv_floats v
  else if type =? xplmType_Data then iv_blob v
  else None.

(** An item of an array, if there is one at the index, and what to do with a new one. *)
Definition item_of (arr : option (dynamic_array_t Z)) (i : Z) : option Z :=
  arr ← arr; i ← dynamic_array_get_pointer arr i; Some (default 0 (arr_data arr !! Z.to_nat i)).
Definition put_item (arr : option (dynamic_array_t Z)) (i : Z) (v : option Z) : option (dynamic_array_t Z) :=
  match arr, v with
  | Some arr, Some v => Some (Arrays.set_data (overwrite i [v] (arr_data arr)) arr)
  | _, _ => arr
  end.

(** The loop that stores numbers from the index [i] on. *)
Fixpoint update_items (src_type : Z) (values : list Z) (i intconv_mode : Z) (ints floats : option (dynamic_array_t Z)) :
    option (dynamic_array_t Z) * option (dynamic_array_t Z) :=
  match values with
  | [] => (ints, floats)
  | value :: values' =>
      let '(int, float, _) := apply_value src_type value (item_of ints i) (item_of floats i) None intconv_mode in
      update_items src_type values' (i + 1) intconv_mode (put_item ints i int) (put_item floats i float)
  end.
End Numbers.

Section Drci.
Context `{DataTypes} `{FloatText} `{NumberConversions} {C : Type} `{Connection C}.
Abbreviation W := (world C (ext drci_state)).
Implicit Types (q p : loc) (w : W).

(** ** The state *)

Definition dumps_heap w : pheap cstr unit := mkPHeap (ih_texts (world_data w)) [] (cs_env (w_channels w)).
Definition set_dumps_heap (h : pheap cstr unit) w : W :=
  set_channels (mkChannels (cs_heap (w_channels w)) (cs_table (w_channels w)) (ph_env h)) (set_world_data (set_ih_texts (ph_items h) (world_data w)) w).
Definition on_dumps {A} (m : M (pheap cstr unit) A) : M W A := zoom dumps_heap set_dumps_heap m.

Definition datarefs_of w : datarefs drci_operation :=
  mkDatarefs (ih_registry (world_data w)) (ih_proxies (world_data w)) (ih_items (world_data w)) (ih_calls (world_data w)) (cs_env (w_channels w)).
Definition with_datarefs (r : datarefs drci_operation) w : W :=
  set_channels (mkChannels (cs_heap (w_channels w)) (cs_table (w_channels w)) (ds_env r)) (set_world_data (set_ih_datarefs r (world_data w)) w).
Abbreviation in_datarefs m := (on_datarefs datarefs_of with_datarefs m).

Definition update_drci_data (f : drci_state -> drci_state) : M W unit := modify (fun w => set_world_data (f (world_data w)) w).
Definition load_drci q : M W command_drci_t := w ← get; from_ub (ih_commands (world_data w) !! q).
Definition update_drci q (f : command_drci_t -> command_drci_t) : M W unit :=
  c ← load_drci q; update_drci_data (fun d => set_ih_commands (<[q := f c]> (ih_commands d)) d).
Definition drci_fuel : M W nat := gets (fun w => size (x_items (w_ext w))).

(** The mutex of a command. *)
Definition lock_drci q : M W bool :=
  ok ← on_env mtx_lock_result;
  _ ← when ok (update_drci q (fun c => set_ic_lock (ic_lock c + 1) c));
  mret ok.
Definition unlock_drci q : M W unit := update_drci q (fun c => set_ic_lock (ic_lock c - 1) c).

(** ** Destruction and termination *)

Definition drci_destroy (command_ref : option loc) : M W error_t :=
  match command_ref with
  | None => mret ERROR_UNSPECIFIC
  | Some q =>
      _ ← load_drci q;
      _ ← update_drci_data (fun d => set_ih_commands (delete q (ih_commands d)) d);
      mret ERROR_NONE
  end.

(** Takes the registration task of a command off the schedule. *)
Definition drci_unschedule (task : loc) : M W error_t :=
  err ← lock_schedule;
  if err =? ERROR_NONE then
    fuel ← drci_fuel;
    err ← unschedule_task fuel task DRCI_REGISTRATION_PHASE;
    _ ← unlock_schedule;
    mret err
  else mret err.

Definition drci_terminate (command_ref : option loc) : M W error_t :=
  match command_ref with
  | None => mret ERROR_UNSPECIFIC
  | Some q =>
      c ← load_drci q;
      _ ← finish_channel (ic_channel_id c) CURRENT_TIME_REFERENCE None;
      c ← load_drci q;
      err ← match ic_registration_task c with
            | None => mret ERROR_NONE
            | Some task =>
                err ← drci_unschedule task;
                _ ← when (err =? ERROR_NONE) (update_drci q (set_ic_task None));
                mret err
            end;
      if negb (err =? ERROR_NONE) then mret err
      else
        c ← load_drci q;
        err ← match ic_proxy c with
              | None => mret ERROR_NONE
              | Some p =>
                  err ← in_datarefs (drop_dataproxy (Some p));
                  _ ← when (err =? ERROR_NONE) (update_drci q (set_ic_proxy None));
                  mret err
              end;
        if negb (err =? ERROR_NONE) then mret err
        else
          c ← load_drci q;
          let channel_id := ic_channel_id c in
          _ ← update_drci q (set_ic_channel_id BAD_CHANNEL_ID);
          _ ← on_channels (request_channel_destruction channel_id);
          mret ERROR_NONE
  end.

(** ** Registration *)

Section XPlane.
Context (XPLMRegisterDataAccessor_result : list accessor_call -> cstr -> Z -> Z).
(** Whether X-Plane finds the DataRefEditor plugin. *)
Context (datarefeditor_found : list cstr -> bool).

Definition notify_datarefeditor q : M W unit :=
  w ← get;
  if datarefeditor_found (ih_notified (world_data w)) then
    c ← load_drci q;
    name ← from_ub (ic_dataref_name c);
    update_drci_data (fun d => set_ih_notified (ih_notified d ++ [name]) d)
  else mret tt.

Definition drci_process_flightloop q : M W unit :=
  c ← load_drci q;
  if ic_failed c || ic_registered c then mret tt
  else
    proxy ← in_datarefs (reserve_dataproxy (ic_dataref_name c) (io_types (ic_options c)) (io_write_permission (ic_options c)) (Some q) (Some (ic_session c)) drci_dataproxy_operations);
    _ ← update_drci q (set_ic_proxy proxy);
    match proxy with
    | None =>
        _ ← update_drci q set_ic_failed;
        _ ← error_channel (ic_channel_id c) CURRENT_TIME_REFERENCE (Some (lit "dataproxy could not be reserved (is the dataref already claimed?)"));
        mret tt
    | Some p =>
        err ← in_datarefs (register_dataproxy XPLMRegisterDataAccessor_result (Some p));
        if negb (err =? ERROR_NONE) then
          _ ← update_drci q set_ic_failed;
          _ ← error_channel (ic_channel_id c) CURRENT_TIME_REFERENCE (Some (lit "dataref could not be registered"));
          mret tt
        else
          _ ← update_drci q set_ic_registered;
          err ← confirm_channel (ic_channel_id c) CURRENT_TIME_REFERENCE None;
          _ ← when (negb (err =? ERROR_NONE)) (update_drci q set_ic_failed);
          notify_datarefeditor q
    end.

(** A task that is not there any more is not found on the schedule. *)
Definition drci_process_post q : M W unit :=
  c ← load_drci q;
  if ic_failed c then _ ← drci_terminate (Some q); mret tt
  else if negb (ic_registered c) then mret tt
  else
    err ← match ic_registration_task c with
          | Some task => drci_unschedule task
          | None => ub
          end;
    if err =? ERROR_NONE then update_drci q (set_ic_task None) else update_drci q set_ic_failed.

(** The callback of the tasks: a task object refers to its command. *)
Definition drci_process (task : loc) (phase : Z) : M W unit :=
  w ← get;
  q ← from_ub (ih_tasks (world_data w) !! task);
  if phase =? DRCI_REGISTRATION_PHASE then drci_process_flightloop q
  else if phase =? TASK_SCHEDULE_POST_PROCESSING then drci_process_post q
  else mret tt.
End XPlane.

(** ** Reading *)

Definition drci_simple_get (command_ref : option loc) (type : Z) (dest : option Z) : M W (error_t * option Z) :=
  q ← from_ub command_ref;
  c ← load_drci q;
  if negb (has_type (io_types (ic_options c)) type) || negb (given dest) then mret (ERROR_UNSPECIFIC, dest)
  else
    ok ← lock_drci q;
    if negb ok then mret (ERROR_MUTEX_FAILED, dest)
    else
      let v := ic_values c in
      let result := if type =? xplmType_Int then (ERROR_NONE, Some (iv_int v))
                    else if type =? xplmType_Float then (ERROR_NONE, Some (iv_float v))
                    else if type =? xplmType_Double then (ERROR_NONE, Some (iv_double v))
                    else (ERROR_UNSPECIFIC, dest) in
      _ ← unlock_drci q;
      mret result.

(** Also what is left in the buffer and in [*num_copied]. What is copied has room in
    the buffer. *)
Definition drci_array_get (command_ref : option loc) (type : Z) (dest : option (list Z)) (num_copied : option Z) (offset count : Z) :
    M W (error_t * option (list Z) * option Z) :=
  q ← from_ub command_ref;
  c ← load_drci q;
  match dest, num_copied with
  | Some items, Some _ =>
      if negb (has_type (io_types (ic_options c)) type) || (offset <? 0) || (count <? 0) then mret (ERROR_UNSPECIFIC, dest, num_copied)
      else if count =? 0 then mret (ERROR_NONE, dest, Some 0)
      else
        ok ← lock_drci q;
        if negb ok then mret (ERROR_MUTEX_FAILED, dest, num_copied)
        else
          result ← match array_of_type (ic_values c) type with
                   | None => mret (ERROR_UNSPECIFIC, dest, num_copied)
                   | Some arr =>
                       let '(out_err, actual_count) := get_actual_count (arr_length arr) offset count in
                       match dynamic_array_get_pointer arr offset with
                       | Some src =>
                           if (out_err =? ERROR_NONE) && (0 <? actual_count) then
                             if len items <? actual_count then ub
                             else mret (out_err, Some (overwrite 0 (slice src actual_count (arr_data arr)) items), Some actual_count)
                           else mret (out_err, dest, Some 0)
                       | None => mret (out_err, dest, Some 0)
                       end
                   end;
          _ ← unlock_drci q;
          mret result
  | _, _ => mret (ERROR_UNSPECIFIC, dest, num_copied)
  end.

Definition drci_array_length (command_ref : option loc) (type : Z) (length : option Z) : M W (error_t * option Z) :=
  q ← from_ub command_ref;
  c ← load_drci q;
  if negb (has_type (io_types (ic_options c)) type) || negb (given length) then mret (ERROR_UNSPECIFIC, length)
  else
    ok ← lock_drci q;
    if negb ok then mret (ERROR_MUTEX_FAILED, length)
    else
      let result := match array_of_type (ic_values c) type with
                    | None => (ERROR_UNSPECIFIC, length)
                    | Some arr => (ERROR_NONE, Some (arr_length arr))
                    end in
      _ ← unlock_drci q;
      mret result.

(** ** Telling the owner about changes *)

Definition should_echo (c : command_drci_t) (source_session : option loc) : bool :=
  if io_echo_mode (ic_options c) =? DRCI_ECHO_NONE then false
  else if io_echo_mode (ic_options c) =? DRCI_ECHO_OTHER then negb (bool_decide (source_session = Some (ic_session c)))
  else negb (given source_session) || (io_echo_mode (ic_options c) =? DRCI_ECHO_ALL).

(** The value that the reference of [encode_value] points to: [None] is NULL. *)
Inductive drci_value_ref :=
  | SimpleRef (value : Z)
  | ArrayRef (arr : option (dynamic_array_t Z)).

Definition encode_value (type : Z) (value_ref : drci_value_ref) : M W (option cstr) :=
  if (type =? xplmType_IntArray) || (type =? xplmType_FloatArray) || (type =? xplmType_Data) then
    match value_ref with
    | ArrayRef arr => on_dumps (xprc_encode_array type arr)
    | SimpleRef _ => ub
    end
  else
    match value_ref with
    | SimpleRef value => on_env (xprc_encode_value type (Some value) (if type =? xplmType_Double then SIZE_XPLM_DOUBLE else SIZE_XPLM_INT_FLOAT))
    | ArrayRef _ => ub
    end.

(** What [dump_value] works on: the list, and the variables behind its pointers. *)
Record dump_state := mkDump {
  du_list : prealloc_list_t;
  du_total_length : Z;
  du_is_first : bool;
  du_should_abort : bool;
}.

Definition dump_abort (d : dump_state) : dump_state := mkDump (du_list d) (du_total_length d) (du_is_first d) true.

(** Puts a text into the list: [None] if there is none or it cannot be appended; in the
    latter case the text is lost. *)
Definition dump_text (text : option cstr) (d : dump_state) : M W (bool * dump_state) :=
  match text with
  | None => mret (false, d)
  | Some text =>
      '(ok, texts) ← on_dumps (prealloc_list_append (du_list d) (Some text));
      mret (ok, mkDump texts (if ok : bool then du_total_length d + strlen text else du_total_length d) false (du_should_abort d))
  end.

Definition dump_value (c : command_drci_t) (type : Z) (value_ref : drci_value_ref) (d : dump_state) : M W dump_state :=
  if du_should_abort d then mret d
  else if negb (has_type (io_types (ic_options c)) type) then mret d
  else
    '(ok, d) ← (if du_is_first d then mret (true, mkDump (du_list d) (du_total_length d) false (du_should_abort d))
                else separator ← on_env (copy_string (Some (lit ";"))); dump_text separator d);
    if negb ok then mret (dump_abort d)
    else
      encoded_value ← encode_value type value_ref;
      '(ok, d) ← dump_text encoded_value d;
      mret (if ok : bool then d else dump_abort d).

(** The memory is not checked before texts are copied to it; they have room in it. *)
Definition concat (texts : prealloc_list_t) (total_length : Z) : M W (option cstr) :=
  if total_length <=? 0 then mret None
  else
    ok ← on_env (zmalloc (total_length + 1));
    out ← on_dumps (concatenate (S (Z.to_nat (p_size texts))) (p_first texts));
    if negb ok || (total_length <? strlen out) then ub else mret (Some out).

Definition dump_values (c : command_drci_t) : M W (error_t * option cstr) :=
  texts ← on_dumps create_preallocated_list;
  match texts with
  | None => mret (ERROR_MEMORY_ALLOCATION, None)
  | Some texts =>
      let v := ic_values c in
      let d := mkDump texts 0 true false in
      d ← dump_value c xplmType_Int (SimpleRef (iv_int v)) d;
      d ← dump_value c xplmType_Float (SimpleRef (iv_float v)) d;
      d ← dump_value c xplmType_Double (SimpleRef (iv_double v)) d;
      d ← dump_value c xplmType_IntArray (ArrayRef (iv_ints v)) d;
      d ← dump_value c xplmType_FloatArray (ArrayRef (iv_floats v)) d;
      d ← dump_value c xplmType_Data (ArrayRef (iv_blob v)) d;
      out ← (if du_should_abort d then mret None else concat (du_list d) (du_total_length d));
      _ ← on_dumps (destroy_preallocated_list (du_list d) free_text PREALLOC_LIST_CALL_DEFERRED_DESTRUCTORS);
      mret (if given out then ERROR_NONE else ERROR_UNSPECIFIC, out)
  end.

(** The end of a write: the values are dumped under the mutex of the command, which is
    released before the owner is told. *)
Definition drci_echo q (source_session : option loc) : M W unit :=
  c ← load_drci q;
  dump ← (if should_echo c source_session then '(_, dump) ← dump_values c; mret dump else mret None);
  c ← load_drci q;
  _ ← unlock_drci q;
  match dump with
  | None => mret tt
  | Some dump => _ ← continue_channel (ic_channel_id c) CURRENT_TIME_REFERENCE (Some dump); mret tt
  end.

(** ** Writing *)

Definition drci_simple_set (command_ref : option loc) (type : Z) (value : option Z) (source_session : option loc) : M W error_t :=
  q ← from_ub command_ref;
  c ← load_drci q;
  match value with
  | None => mret ERROR_UNSPECIFIC
  | Some value =>
      if negb (has_type (io_types (ic_options c)) type) || negb (Z.land type (Z.lnot simple_types) =? 0) then mret ERROR_UNSPECIFIC
      else
        ok ← lock_drci q;
        if negb ok then mret ERROR_MUTEX_FAILED
        else
          let v := ic_values c in
          let '(i, f, d) := apply_value type value (Some (iv_int v)) (Some (iv_float v)) (Some (iv_double v)) (io_intconv_mode (ic_options c)) in
          _ ← update_drci q (set_ic_values (set_iv_simple (default 0 i) (default 0 f) (default 0 d) v));
          _ ← drci_echo q source_session;
          mret ERROR_NONE
  end.

(** What a write of the first items of [values] makes of the arrays. It is undefined if
    there are less values, or no array. *)
Definition update_arrays (c : command_drci_t) (type : Z) (values : list Z) (offset actual_count : Z) : option drci_values :=
  let v := ic_values c in
  if len values <? actual_count then None
  else
    let values := take (Z.to_nat actual_count) values in
    if type =? xplmType_Data then
      blob ← iv_blob v;
      dest ← dynamic_array_get_pointer blob offset;
      if arr_length blob <? offset + actual_count then None
      else Some (set_iv_blob (Some (Arrays.set_data (overwrite dest values (arr_data blob)) blob)) v)
    else
      let src_type := if type =? xplmType_FloatArray then xplmType_Float else xplmType_Int in
      let '(ints, floats) := update_items src_type values offset (io_intconv_mode (ic_options c)) (iv_ints v) (iv_floats v) in
      Some (set_iv_floats floats (set_iv_ints ints v)).

Definition drci_array_update (command_ref : option loc) (type : Z) (values : option (list Z)) (offset count : Z) (source_session : option loc) :
    M W error_t :=
  q ← from_ub command_ref;
  c ← load_drci q;
  match values with
  | None => mret ERROR_UNSPECIFIC
  | Some values =>
      if negb (has_type (io_types (ic_options c)) type) || (io_array_length (ic_options c) <? 0) || (offset <? 0) || (count <? 0) then mret ERROR_UNSPECIFIC
      else if count =? 0 then mret ERROR_NONE
      else
        ok ← lock_drci q;
        if negb ok then mret ERROR_MUTEX_FAILED
        else
          let '(out_err, actual_count) := get_actual_count (io_array_length (ic_options c)) offset count in
          if negb (out_err =? ERROR_NONE) || (actual_count <=? 0) then _ ← unlock_drci q; mret out_err
          else
            v ← from_ub (update_arrays c type values offset actual_count);
            _ ← update_drci q (set_ic_values v);
            _ ← drci_echo q source_session;
            mret out_err
  end.

(** ** The operations of the proxy *)

(** What the calls through the table of operations do; a function of another kind is
    called wrongly. *)
Definition run_simple_get (f : drci_operation) (command_ref : option loc) (type dest : Z) : M W (error_t * Z) :=
  match f with
  | DrciSimpleGet => '(err, dest') ← drci_simple_get command_ref type (Some dest); mret (err, default dest dest')
  | _ => ub
  end.
Definition run_simple_set (f : drci_operation) (command_ref : option loc) (type value : Z) (source_session : option loc) : M W error_t :=
  match f with DrciSimpleSet => drci_simple_set command_ref type (Some value) source_session | _ => ub end.
Definition run_array_get (f : drci_operation) (command_ref : option loc) (type : Z) (dest : list Z) (num_copied offset count : Z) : M W (error_t * list Z * Z) :=
  match f with
  | DrciArrayGet =>
      '(err, dest', num_copied') ← drci_array_get command_ref type (Some dest) (Some num_copied) offset count;
      mret (err, default dest dest', default num_copied num_copied')
  | _ => ub
  end.
Definition run_array_length (f : drci_operation) (command_ref : option loc) (type length : Z) : M W (error_t * Z) :=
  match f with
  | DrciArrayLength => '(err, length') ← drci_array_length command_ref type (Some length); mret (err, default length length')
  | _ => ub
  end.
Definition run_array_update (f : drci_operation) (command_ref : option loc) (type : Z) (values : list Z) (offset count : Z) (source_session : option loc) : M W error_t :=
  match f with DrciArrayUpdate => drci_array_update command_ref type (Some values) offset count source_session | _ => ub end.

(** ** Creation *)

(** [zmalloc(sizeof(command_drci_t))] and [mtx_init], with the session and the channel
    set: the error, or the command. *)
Definition alloc_drci (session : loc) (id : Z) : M W (error_t + loc) :=
  ok ← on_env (zmalloc 192);
  if negb ok then mret (inl ERROR_MEMORY_ALLOCATION)
  else
    ok ← on_env mtx_lock_result;
    if negb ok then mret (inl ERROR_UNSPECIFIC)
    else
      w ← get;
      let q := fresh (dom (ih_commands (world_data w))) in
      _ ← update_drci_data (fun d => set_ih_commands (<[q := mkDrci session id 0 None None (mkDrciOptions 0 0 0 0 0)
                                                                    (mkDrciValues 0 0 0 None None None) None false false]> (ih_commands d)) d);
      mret (inr q).

(** The label [error], and the report of a reason before it. *)
Definition drci_abandon q (out_error : error_t) : M W (error_t * option loc) :=
  _ ← update_drci_data (fun d => set_ih_commands (delete q (ih_commands d)) d);
  mret (if negb (out_error =? ERROR_NONE) then out_error else ERROR_UNSPECIFIC, None).
Definition drci_reject q (id : Z) (reason : cstr) (out_error : error_t) : M W (error_t * option loc) :=
  _ ← report id (Some reason); drci_abandon q out_error.

(** The array of a type, if the command has the type, and whether that worked. *)
Definition create_values (types type item_size array_length : Z) : M W (bool * option (dynamic_array_t Z)) :=
  if negb (has_type types type) then mret (true, None)
  else
    arr ← on_env (create_dynamic_array item_size array_length);
    match arr with
    | None => mret (false, None)
    | Some arr => '(ok, arr) ← on_env (dynamic_array_set_length arr array_length); mret (ok, Some arr)
    end.

(** The arrays: the reason of a failure, if any. *)
Definition drci_create_arrays q : M W (option cstr) :=
  c ← load_drci q;
  let types := io_types (ic_options c) in
  let array_length := io_array_length (ic_options c) in
  '(ok, ints) ← create_values types xplmType_IntArray SIZE_XPLM_INT array_length;
  _ ← update_drci q (fun c => set_ic_values (set_iv_ints ints (ic_values c)) c);
  if negb ok then mret (Some (lit "failed to allocate int[]"))
  else
    '(ok, floats) ← create_values types xplmType_FloatArray SIZE_XPLM_FLOAT array_length;
    _ ← update_drci q (fun c => set_ic_values (set_iv_floats floats (ic_values c)) c);
    if negb ok then mret (Some (lit "failed to allocate float[]"))
    else
      '(ok, blob) ← create_values types xplmType_Data 1 array_length;
      _ ← update_drci q (fun c => set_ic_values (set_iv_blob blob (ic_values c)) c);
      mret (if ok : bool then None else Some (lit "failed to allocate blob array")).

(** Creates and schedules the task of a command. A task that could not be scheduled is
    not freed. *)
Definition drci_schedule q (id : Z) : M W (error_t * option loc) :=
  ok ← on_env (zmalloc 16);
  if negb ok then drci_abandon q ERROR_MEMORY_ALLOCATION
  else
    w ← get;
    let task := fresh (dom (ih_tasks (world_data w))) in
    _ ← update_drci_data (fun d => set_ih_tasks (<[task := q]> (ih_tasks d)) d);
    err ← lock_schedule;
    err ← (if err =? ERROR_NONE then
             err ← schedule_task task DRCI_REGISTRATION_PHASE;
             _ ← when (err =? ERROR_NONE) (update_drci q (set_ic_task (Some task)));
             _ ← unlock_schedule;
             mret err
           else mret err);
    if negb (err =? ERROR_NONE) then drci_reject q id (lit "failed to schedule registration task") err
    else mret (ERROR_NONE, Some q).

Definition drci_create (session : loc) (request : request_t) (config : command_config_t) : M W (error_t * option loc) :=
  let id := req_channel_id request in
  if negb (version config =? DRCI_COMMAND_VERSION) then decline id (lit "unexpected command version")
  else if negb (request_has_only_options (Some request) (Some drci_supported_options)) then decline id (lit "unsupported options")
  else
    command ← alloc_drci session id;
    match command with
    | inl err => mret (err, None)
    | inr q =>
        match parse_drci_options request with
        | inl reason => drci_reject q id reason ERROR_NONE
        | inr (write_permission, echo_mode, intconv_mode) =>
            match parse_drci_parameter (req_parameters request) intconv_mode with
            | inl reason => drci_reject q id reason ERROR_NONE
            | inr (types, array_length, name_offset, escaped_name_length) =>
                let intconv_mode := if intconv_mode =? DRCI_INTCONV_NOT_SET then DRCI_INTCONV_ROUND else intconv_mode in
                _ ← update_drci q (set_ic_options (mkDrciOptions types write_permission echo_mode intconv_mode array_length));
                name ← on_env (copy_partial_unescaped_string (drop (Z.to_nat name_offset) <$> head (req_parameters request)) escaped_name_length);
                match name with
                | None => drci_reject q id (lit "dataref name could not be copied") ERROR_MEMORY_ALLOCATION
                | Some name =>
                    _ ← update_drci q (set_ic_dataref_name (Some name));
                    failure ← drci_create_arrays q;
                    match failure with
                    | Some reason => drci_reject q id reason ERROR_MEMORY_ALLOCATION
                    | None => drci_schedule q id
                    end
                end
            end
        end
    end.

Definition drci_create_default_config : M W (option command_config_t) := on_env (create_command_config DRCI_COMMAND_VERSION).
Definition drci_merge_config (previous_config requested_changes : command_config_t) :=
  merge_featureless_config (C := C) (X := ext drci_state) DRCI_COMMAND_VERSION requested_changes.

Definition command_drci (session : loc) : command_t W :=
  mkCommand (lit "DRCI") (drci_create session) drci_terminate drci_destroy drci_create_default_config drci_merge_config.
End Drci.
