(* ===== verification/DrciValues.v ===== *)
(** The values of DRCI ([Drci]): reading and writing them, conversions between their
    types, and the text that the owner is told after a write. *)

From S2P Require Import Prelude CLib Utils Hashmap Channels Requests Lists Prealloc Arrays Protocol TaskSchedule Network Command Session Server ServerCommands Beside CalmWorld CmtrTimers Dataproxy DrqvValues Drci.

(** * Values *)

Section Values.
Context `{DataTypes} `{FloatText} `{NumberConversions}.
Implicit Types (type mode : Z) (o : drci_options) (v : drci_values).

(** What a value of a simple type is in the other types. *)
Definition as_int type mode (v : Z) : Z :=
  if type =? xplmType_Int then v else if type =? xplmType_Float then float2int v mode else double2int v mode.
Definition as_float type (v : Z) : Z :=
  if type =? xplmType_Int then float_of_int v else if type =? xplmType_Float then v else float_of_double v.
Definition as_double type (v : Z) : Z :=
  if type =? xplmType_Int then double_of_int v else if type =? xplmType_Float then double_of_float v else v.

Definition simple_type type : Prop := type = xplmType_Int \/ type = xplmType_Float \/ type = xplmType_Double.

Lemma apply_value_eq type (v : Z) (i f d : option Z) mode : simple_type type ->
  apply_value type v i f d mode = ((fun _ => as_int type mode v) <$> i, (fun _ => as_float type v) <$> f, (fun _ => as_double type v) <$> d).
Proof.
  intros Ht. unfold apply_value, as_int, as_float, as_double.
  destruct (Z.eqb_spec type xplmType_Int); [by destruct i, f, d|]. destruct (Z.eqb_spec type xplmType_Float); [by destruct i, f, d|].
  destruct Ht as [?|[?|Ht]]; [done|done|]. rewrite (proj2 (Z.eqb_eq _ _) Ht). by destruct i, f, d.
Qed.

(** ** Arrays *)

(** An array that a command has if it has the type. *)
Definition array_ok (present : bool) (length : Z) (arr : option (dynamic_array_t Z)) : Prop :=
  if present then exists a, arr = Some a /\ wf_array a /\ arr_length a = length else arr = None.

Record drci_values_ok o (v : drci_values) : Prop := mkValuesOk {
  vo_ints : array_ok (has_type (io_types o) xplmType_IntArray) (io_array_length o) (iv_ints v);
  vo_floats : array_ok (has_type (io_types o) xplmType_FloatArray) (io_array_length o) (iv_floats v);
  vo_blob : array_ok (has_type (io_types o) xplmType_Data) (io_array_length o) (iv_blob v);
}.

Lemma drci_array_of_type o v type : drci_values_ok o v -> Protocol.is_array_type type -> has_type (io_types o) type = true ->
  exists arr, array_of_type v type = Some arr /\ wf_array arr /\ arr_length arr = io_array_length o.
Proof.
  intros [Hi Hf Hb] Ht Hh. pose proof xplm_types_different as Hd. rewrite !NoDup_cons, !not_elem_of_cons in Hd. destruct_and! Hd. unfold array_of_type, array_ok in *.
  destruct Ht as [->|[->| ->]]; rewrite Hh in *; rewrite ?Z.eqb_refl; repeat (rewrite (proj2 (Z.eqb_neq _ _)) by congruence); done.
Qed.

(** Items are written to an array, if there is one. *)
Definition put_items (i : Z) (items : list Z) (arr : option (dynamic_array_t Z)) : option (dynamic_array_t Z) :=
  (fun a => Arrays.set_data (overwrite i items (arr_data a)) a) <$> arr.

Lemma overwrite_nil {B} i (data : list B) : 0 <= i -> overwrite i [] data = data.
Proof. intros Hi. unfold overwrite. simpl. rewrite Nat.add_0_r. apply take_drop. Qed.

Lemma overwrite_cons {B} i (x : B) items data : 0 <= i -> i + len (x :: items) <= len data ->
  overwrite (i + 1) items (overwrite i [x] data) = overwrite i (x :: items) data.
Proof.
  intros Hi Hl. simpl in Hl. unfold overwrite at 1 3. replace (Z.to_nat (i + 1)) with (S (Z.to_nat i)) by lia.
  assert (overwrite i [x] data = (take (Z.to_nat i) data ++ [x]) ++ drop (S (Z.to_nat i)) data) as ->.
  { unfold overwrite. rewrite <-app_assoc. simpl. do 3 f_equal. lia. }
  assert (length (take (Z.to_nat i) data ++ [x]) = S (Z.to_nat i)) as Hlen by (rewrite length_app, length_take; simpl; lia).
  rewrite take_app_le, take_ge by lia. rewrite drop_app_ge by lia. rewrite Hlen, drop_drop, <-app_assoc. simpl.
  by replace (S (Z.to_nat i + (Z.to_nat i + length items - Z.to_nat i)))%nat with (Z.to_nat i + S (length items))%nat by lia.
Qed.

Definition room (i : Z) (n : Z) (arr : option (dynamic_array_t Z)) : Prop := forall a, arr = Some a -> i + n <= arr_length a /\ wf_array a.

Lemma put_item_eq i x items arr : 0 <= i -> room i (len (x :: items)) arr ->
  put_items (i + 1) items (put_item arr i (Some x)) = put_items i (x :: items) arr /\ room (i + 1) (len items) (put_item arr i (Some x)).
Proof.
  intros Hi Hr. destruct arr as [a|]; [|done]. destruct (Hr a eq_refl) as [Hl Hw]. pose proof Hw as [? ? Hd ?]. simpl length in Hl. split.
  - simpl. rewrite overwrite_cons by (simpl length; lia). done.
  - intros ? [= <-]. cbn. split; [lia|]. split; cbn; [done|done| |done]. replace i with (Z.of_nat (Z.to_nat i)) by lia. rewrite overwrite_length; simpl; lia.
Qed.

Lemma item_of_room i n arr : 0 <= i -> 0 < n -> room i n arr -> is_Some arr -> is_Some (item_of arr i).
Proof.
  intros Hi Hn Hr [a ->]. destruct (Hr a eq_refl) as [Hl _]. unfold item_of, dynamic_array_get_pointer. simpl.
  rewrite (proj2 (Z.ltb_ge i 0)), (proj2 (Z.leb_gt (arr_length a) i)) by lia. by eexists.
Qed.

(** The loop converts all values. *)
Lemma update_items_eq src_type mode values : forall i ints floats, simple_type src_type -> 0 <= i -> room i (len values) ints -> room i (len values) floats ->
  update_items src_type values i mode ints floats =
    (put_items i (as_int src_type mode <$> values) ints, put_items i (as_float src_type <$> values) floats).
Proof.
  induction values as [|x values IH]; intros i ints floats Ht Hi Hr1 Hr2.
  { simpl. unfold put_items. f_equal; [destruct ints as [[]|]|destruct floats as [[]|]]; try done; simpl; by rewrite overwrite_nil. }
  cbn [update_items]. rewrite apply_value_eq by done. rewrite !fmap_cons.
  assert (forall g arr, room i (len (x :: values)) arr -> put_item arr i ((fun _ => g) <$> item_of arr i) = put_item arr i (Some g)) as Hput.
  { intros g arr Hr. destruct arr as [a|]; [|done]. destruct (item_of_room i (len (x :: values)) (Some a) Hi ltac:(simpl; lia) Hr) as [y ->]; [by eexists|done]. }
  rewrite !Hput by done.
  assert (forall (g : Z -> Z), len (g x :: (g <$> values)) = len (x :: values)) as Hlen by (intros g; simpl; by rewrite length_fmap).
  destruct (put_item_eq i (as_int src_type mode x) (as_int src_type mode <$> values) ints Hi) as [E1 R1]; [by rewrite Hlen|].
  destruct (put_item_eq i (as_float src_type x) (as_float src_type <$> values) floats Hi) as [E2 R2]; [by rewrite Hlen|].
  rewrite length_fmap in R1, R2. rewrite IH by (done || lia). by rewrite E1, E2.
Qed.

Lemma array_ok_put present length i items arr : 0 <= i -> i + len items <= length -> array_ok present length arr -> array_ok present length (put_items i items arr).
Proof.
  unfold array_ok. destruct present; [|by intros _ _ ->]. intros Hi Hl (a & -> & [? ? Hd ?] & Ha). eexists. split; [done|]. split; [|done]. split; cbn; [done|done| |done].
  replace i with (Z.of_nat (Z.to_nat i)) by lia. rewrite overwrite_length; lia.
Qed.

(** ** Texts *)

Definition drci_ref_ok type (value_ref : drci_value_ref) : Prop :=
  match value_ref with
  | SimpleRef _ => simple_type type
  | ArrayRef arr => Protocol.is_array_type type /\ exists a, arr = Some a /\ wf_array a
  end.

Definition drci_text type (value_ref : drci_value_ref) : cstr :=
  match value_ref with
  | SimpleRef v => if type =? xplmType_Int then print_dec v else if type =? xplmType_Float then print_f (double_of_float v) else print_f v
  | ArrayRef arr => array_text type (default [] (contents <$> arr))
  end.

Lemma drci_text_nonempty type value_ref : drci_text type value_ref <> [].
Proof.
  destruct value_ref as [v|arr]; simpl.
  - destruct (_ =? _); [apply print_dec_nonempty|]. destruct (_ =? _); apply print_f_nonempty.
  - unfold array_text. destruct (default [] _); [done|]. intros E. apply app_eq_nil in E as [E _]. by apply format_length_nonempty in E.
Qed.

(** The values that a command has, in the order of their texts. *)
Definition drci_items o (v : drci_values) : list (Z * drci_value_ref) :=
  filter (fun p => has_type (io_types o) p.1 = true)
    [(xplmType_Int, SimpleRef (iv_int v)); (xplmType_Float, SimpleRef (iv_float v)); (xplmType_Double, SimpleRef (iv_double v));
     (xplmType_IntArray, ArrayRef (iv_ints v)); (xplmType_FloatArray, ArrayRef (iv_floats v)); (xplmType_Data, ArrayRef (iv_blob v))].

Definition dump_text_of o v : cstr := join ";" ((fun p => drci_text p.1 p.2) <$> drci_items o v).

(** The texts in the list: with separators. *)
Definition separated (texts : list cstr) : list cstr :=
  match texts with [] => [] | t :: ts => t :: (ts ≫= fun t => [lit ";"; t]) end.

Lemma separated_snoc texts t : separated (texts ++ [t]) = separated texts ++ (match texts with [] => [] | _ => [lit ";"] end) ++ [t].
Proof. destruct texts as [|t0 ts]; [done|]. simpl. by rewrite bind_app. Qed.

Lemma separated_join texts : mjoin (separated texts) = join ";" texts.
Proof.
  destruct texts as [|t ts]; [done|]. revert t. induction ts as [|t2 ts IH]; intros t; [simpl; by rewrite app_nil_r|].
  rewrite join_cons by done. rewrite <-IH. done.
Qed.

Lemma separated_length texts : len (mjoin (separated texts)) = foldr (fun s n => len s + n) 0 (separated texts).
Proof. induction (separated texts) as [|s l IH]; [done|]. simpl. rewrite length_app. lia. Qed.
End Values.

(** * Dumping the values *)

Section Dumping.
Context `{DataTypes} `{FloatText} `{NumberConversions} {C : Type} `{ConnectionLaws C}.
Abbreviation W := (world C (ext drci_state)).
Implicit Types (q p : loc) (w : W) (c : command_drci_t) (d : dump_state) (h : pheap cstr unit) (tss : list (list loc)).

Lemma set_dumps_twice h1 h2 w : set_dumps_heap h2 (set_dumps_heap h1 w) = set_dumps_heap h2 w.
Proof. done. Qed.

Lemma set_dumps_same w : set_dumps_heap (dumps_heap w) w = w.
Proof. by destruct w as [? [? ? ?] ? [? ? ? []]]. Qed.

Lemma with_env_dumps (e : env) w : with_env e w = set_dumps_heap (mkPHeap (ih_texts (world_data w)) [] e) w.
Proof. by destruct w as [? [? ? ?] ? [? ? ? []]]. Qed.

Lemma on_dumps_eq {A} (m : M (pheap cstr unit) A) w a h : m (dumps_heap w) = Some (a, h) -> on_dumps m w = Some (a, set_dumps_heap h w).
Proof. intros E. unfold on_dumps, zoom. by rewrite E. Qed.

Lemma on_env_dumps {A} (f : M env A) w a e : f (cs_env (w_channels w)) = Some (a, e) ->
  on_env f w = Some (a, set_dumps_heap (mkPHeap (ih_texts (world_data w)) [] e) w).
Proof. intros E. rewrite <-with_env_dumps. by apply on_env_eq. Qed.

Lemma tasks_dumps h w tss : calmer (cs_env (w_channels w)) (ph_env h) -> calm_tasks w tss -> calm_tasks (set_dumps_heap h w) tss.
Proof.
  intros Hc Hw. exact (tasks_env (set_world_data (set_ih_texts (ph_items h) (world_data w)) w) tss (ph_env h) Hc (tasks_data w tss _ Hw)).
Qed.

(** No allocation fails any more. *)
Definition memory_left h : Prop := env_alloc (ph_env h) = [].

(** One heap of texts after another. *)
Record later h h' : Prop := mkLater {
  la_calmer : calmer (ph_env h) (ph_env h');
  la_memory : memory_left h -> memory_left h';
}.

#[export] Instance later_preorder : PreOrder later.
Proof. split; [by intros h; split|]. intros h1 h2 h3 [] []. split; [by etransitivity|auto]. Qed.

Lemma later_alloc h : later h (mkPHeap (ph_items h) [] (alloc_rest (ph_env h))).
Proof. split; [apply calmer_alloc_rest|]. unfold memory_left, alloc_rest. simpl. by intros ->. Qed.

Lemma alloc_failed h : alloc_next (ph_env h) = false -> ~ memory_left h.
Proof. unfold memory_left, alloc_next. intros E Ha. by rewrite Ha in E. Qed.

Lemma encode_value_run type value_ref h w : drci_ref_ok type value_ref ->
  exists r h', encode_value type value_ref (set_dumps_heap h w) = Some (r, set_dumps_heap h' w) /\ (r = None \/ r = Some (drci_text type value_ref)) /\
    (forall q, is_Some (ph_items h !! q) -> ph_items h' !! q = ph_items h !! q) /\ later h h' /\ (memory_left h -> r <> None).
Proof.
  unfold drci_ref_ok, encode_value, drci_text. destruct value_ref as [v|arr].
  - intros Ht. rewrite simple_not_array by done. eexists _, _. split; [apply (on_env_dumps _ (set_dumps_heap h w)), encode_simple_eq, Ht|].
    cbn [ph_items ph_env]. split; [destruct (alloc_next _); auto|]. split; [done|]. split; [exact (later_alloc h)|].
    intros Ha. change (cs_env (w_channels (set_dumps_heap h w))) with (ph_env h). unfold alloc_next. by rewrite Ha.
  - intros [Ht (a & -> & Hw)]. rewrite array_is_array by done. pose proof Hw as [Hl Hc Hd _].
    destruct (xprc_encode_array_run type a (mkPHeap (ph_items h) [] (ph_env h)) Ht ltac:(lia)) as (r & h' & E & Hr & Ha & Hsame & Hcalm).
    { unfold contents. rewrite length_take. lia. }
    exists r, h'. split; [by apply (on_dumps_eq _ (set_dumps_heap h w))|]. split_and!; try done; [|by intros Hm; apply Ha]. split; [done|]. intros Hm. by apply Ha.
Qed.

(** The texts in the list of a dump. *)
Definition holds h d (texts : list cstr) : Prop := exists ps, prep (ph_items h) (du_list d) ps /\ texts_are ps texts.

Lemma dump_text_run s h d w texts : holds h d texts ->
  exists ok d' h', dump_text (Some s) d (set_dumps_heap h w) = Some ((ok, d'), set_dumps_heap h' w) /\ later h h' /\ du_should_abort d' = du_should_abort d /\
    (memory_left h -> ok = true) /\ (exists ps, prep (ph_items h') (du_list d') ps) /\
    (ok = true -> holds h' d' (texts ++ [s]) /\ du_total_length d' = du_total_length d + strlen s /\ du_is_first d' = false).
Proof.
  intros (ps & Hr & Ht). unfold dump_text. destruct (prealloc_list_append_run (mkPHeap (ph_items h) [] (ph_env h)) (du_list d) ps (Some s) Hr) as (ok & l' & m' & e' & E & Ha & _ & _ & Hok).
  pose proof (heap_append _ _ _ _ _ E) as Hc. erewrite bind_eq by by apply (on_dumps_eq _ (set_dumps_heap h w)). cbv beta iota.
  eexists ok, _, (mkPHeap m' [] e'). split; [by rewrite set_dumps_twice|]. split; [split; [done|]; intros Hm; by apply Ha|]. split; [done|]. split; [intros Hm; by apply Ha|].
  destruct ok.
  - destruct Hok as (item & Hl & Hr'). split; [by eexists|]. intros _. split; [|done]. eexists. split; [exact Hr'|]. unfold texts_are in *. by rewrite live_app, !fmap_app, Ht.
  - destruct Hok as [-> ->]. split; [by exists ps|done].
Qed.

(** The state of a dump of values with these texts, since the heap was [h0]. *)
Definition dumping h0 h d (texts : list cstr) : Prop :=
  later h0 h /\
  if du_should_abort d then ~ memory_left h0 /\ exists ps, prep (ph_items h) (du_list d) ps
  else holds h d (separated texts) /\ du_total_length d = len (mjoin (separated texts)) /\ du_is_first d = bool_decide (texts = []).

Lemma dumping_aborted h0 h d texts : later h0 h -> ~ memory_left h0 -> (exists ps, prep (ph_items h) (du_list d) ps) -> dumping h0 h (dump_abort d) texts.
Proof. by split. Qed.

Lemma dump_value_run c type value_ref w h0 h d texts : (has_type (io_types (ic_options c)) type = true -> drci_ref_ok type value_ref) -> dumping h0 h d texts ->
  exists d' h', dump_value c type value_ref d (set_dumps_heap h w) = Some (d', set_dumps_heap h' w) /\
    dumping h0 h' d' (texts ++ if has_type (io_types (ic_options c)) type then [drci_text type value_ref] else []).
Proof.
  intros Hv [Hl Hd]. unfold dump_value. destruct (du_should_abort d) eqn:Hab.
  { exists d, h. split; [done|]. split; [done|]. by rewrite Hab. }
  destruct (has_type (io_types (ic_options c)) type); cbn [negb]; cbv iota; [|exists d, h; split; [done|]; split; [done|]; by rewrite Hab, app_nil_r].
  destruct Hd as (Hh & Htot & Hf). specialize (Hv eq_refl).
  assert (exists ok d1 h1, (if du_is_first d then mret (true, mkDump (du_list d) (du_total_length d) false false)
                else separator ← on_env (copy_string (Some (lit ";"))); dump_text separator d : M W (bool * dump_state)) (set_dumps_heap h w) = Some ((ok, d1), set_dumps_heap h1 w) /\
      later h h1 /\ du_should_abort d1 = false /\ (memory_left h -> ok = true) /\ (exists ps, prep (ph_items h1) (du_list d1) ps) /\
      (ok = true -> let sep := match texts with [] => [] | _ => [lit ";"] end in
        holds h1 d1 (separated texts ++ sep) /\ du_total_length d1 = du_total_length d + len (mjoin sep))) as (ok & d1 & h1 & E1 & Hl1 & Hab1 & Hm1 & Hp1 & Hok1).
  { rewrite Hf. destruct texts as [|t0 ts].
    - rewrite bool_decide_eq_true_2 by done. eexists true, _, h. split; [done|]. split; [done|]. split; [done|]. split; [done|].
      destruct Hh as (ps & Hr & Ht). split; [by exists ps|]. intros _. simpl. split; [by exists ps|lia].
    - rewrite bool_decide_eq_false_2 by done.
      erewrite bind_eq by (apply (on_env_dumps _ (set_dumps_heap h w)), copy_string_eq; apply (bool_decide_unpack _); by vm_compute). rewrite set_dumps_twice.
      change (cs_env (w_channels (set_dumps_heap h w))) with (ph_env h). set (h' := mkPHeap _ [] (alloc_rest (ph_env h))). destruct (alloc_next (ph_env h)) eqn:Hal.
      + destruct (dump_text_run (lit ";") h' d w (separated (t0 :: ts)) Hh) as (ok & d1 & h1 & E & Hl1 & Hab1 & Hm1 & Hp1 & Hok). exists ok, d1, h1. split; [done|].
        split; [etransitivity; [exact (later_alloc h)|done]|]. split; [congruence|]. split; [intros Hm; by apply Hm1, (la_memory _ _ (later_alloc h))|]. split; [done|].
        intros Ho. destruct (Hok Ho) as (? & -> & _). split; [done|]. done.
      + exists false, d, h'. split; [done|]. split; [exact (later_alloc h)|]. split; [done|]. split; [intros Hm; by destruct (alloc_failed h Hal)|].
        destruct Hh as (ps & Hr & _). split; [by exists ps|done]. }
  erewrite bind_eq by exact E1. cbv beta iota. clear E1. assert (later h0 h1) as Hl01 by by etransitivity.
  destruct ok; cbn [negb]; cbv iota.
  2:{ exists (dump_abort d1), h1. split; [done|]. apply dumping_aborted; [done| |done]. intros Hm. by specialize (Hm1 (la_memory _ _ Hl Hm)). }
  destruct (Hok1 eq_refl) as [Hh1 Htot1]. clear Hok1.
  destruct (encode_value_run type value_ref h1 w Hv) as (r & h2 & E2 & Hr & Hsame & Hl2 & Hm2). erewrite bind_eq by exact E2.
  assert (later h0 h2) as Hl02 by by etransitivity.
  destruct Hh1 as (ps1 & Hp & Ht). assert (prep (ph_items h2) (du_list d1) ps1) as Hp2 by (eapply prep_frame; [|exact Hp]; intros p Hin; apply Hsame; by eapply prep_owned).
  destruct Hr as [->|E]; [|destruct r as [t2|]; [|done]; injection E as ->].
  { erewrite bind_eq by reflexivity. cbv beta iota. exists (dump_abort d1), h2. split; [done|]. apply dumping_aborted; [done| |by exists ps1]. intros Hm. by destruct (Hm2 (la_memory _ _ Hl01 Hm)). }
  destruct (dump_text_run (drci_text type value_ref) h2 d1 w (separated texts ++ match texts with [] => [] | _ => [lit ";"] end)) as (ok & d3 & h3 & E3 & Hl3 & Hab3 & Hm3 & Hp3 & Hok3); [by exists ps1|].
  erewrite bind_eq by exact E3. cbv beta iota. assert (later h0 h3) as Hl03 by by etransitivity. destruct ok.
  - destruct (Hok3 eq_refl) as (Hh3 & Htot3 & Hf3). exists d3, h3. split; [done|]. split; [done|]. rewrite Hab3, Hab1. rewrite separated_snoc, app_assoc. split; [done|].
    split; [|rewrite Hf3; symmetry; apply bool_decide_eq_false_2; by destruct texts].
    rewrite Htot3, Htot1, Htot. unfold strlen. rewrite !join_app, !length_app. simpl. rewrite app_nil_r. lia.
  - exists (dump_abort d3), h3. split; [done|]. apply dumping_aborted; [done| |done]. intros Hm. by specialize (Hm3 (la_memory _ _ Hl02 Hm)).
Qed.

Lemma undefined_bind {S A B} (m : M S A) (f : A -> M S B) s : m s = None -> (x ← m; f x) s = None.
Proof. unfold mbind, M_bind. by intros ->. Qed.

Lemma drci_items_texts (o : drci_options) (v : drci_values) (text_if := fun type r => if has_type (io_types o) type then [drci_text type r] else []) :
  (fun x => drci_text x.1 x.2) <$> drci_items o v =
    ((((([] ++ text_if xplmType_Int (SimpleRef (iv_int v))) ++ text_if xplmType_Float (SimpleRef (iv_float v))) ++ text_if xplmType_Double (SimpleRef (iv_double v))) ++
      text_if xplmType_IntArray (ArrayRef (iv_ints v))) ++ text_if xplmType_FloatArray (ArrayRef (iv_floats v))) ++ text_if xplmType_Data (ArrayRef (iv_blob v)).
Proof.
  assert (forall type r l, (fun x => drci_text x.1 x.2) <$> filter (fun x : Z * drci_value_ref => has_type (io_types o) x.1 = true) ((type, r) :: l) =
    text_if type r ++ ((fun x => drci_text x.1 x.2) <$> filter (fun x : Z * drci_value_ref => has_type (io_types o) x.1 = true) l)) as Hcons.
  { intros type r l. rewrite filter_cons. cbn [fst]. unfold text_if. by destruct (has_type (io_types o) type). }
  unfold drci_items. rewrite !Hcons, filter_nil. rewrite <-!app_assoc, app_nil_r. done.
Qed.

Lemma drci_dump_nonempty texts : texts <> [] -> Forall (fun s : cstr => s <> []) texts -> 0 < len (mjoin (separated texts)).
Proof.
  intros Hn Hf. destruct texts as [|t ts]; [done|]. apply Forall_cons in Hf as [Ht _]. simpl. rewrite length_app. destruct t; [done|simpl; lia].
Qed.

(** A dump is the text of the values, if there is enough memory for it; it is undefined
    if its last allocation fails. *)
Lemma dump_values_run c w : drci_values_ok (ic_options c) (ic_values c) -> drci_items (ic_options c) (ic_values c) <> [] ->
  (dump_values c w = None /\ ~ memory_left (dumps_heap w)) \/
  exists err out h', dump_values c w = Some ((err, out), set_dumps_heap h' w) /\ later (dumps_heap w) h' /\
    (out = Some (dump_text_of (ic_options c) (ic_values c)) \/ out = None /\ ~ memory_left (dumps_heap w)).
Proof.
  intros [Hi Hf Hb] Hne. set (o := ic_options c) in *. set (v := ic_values c) in *. unfold dump_values. fold v.
  destruct (create_preallocated_list_run (dumps_heap w)) as (r0 & h0 & E0 & _ & Ha0 & Hr0).
  assert (later (dumps_heap w) h0) as Hl0 by (split; [exact (heap_create _ _ _ E0)|intros Hm; by apply Ha0]).
  erewrite bind_eq by by apply on_dumps_eq. destruct r0 as [l0|].
  2:{ right. eexists _, None, h0. split; [done|]. split; [done|]. right. split; [done|]. intros Hm. by destruct (Ha0 Hm). }
  destruct Hr0 as (Hr0 & _). cbv zeta.
  assert (dumping h0 h0 (mkDump l0 0 true false) []) as Hd0 by (split; [done|]; split; [by exists []|done]).
  destruct (dump_value_run c xplmType_Int (SimpleRef (iv_int v)) w h0 _ _ _ ltac:(intros _; by left) Hd0) as (d1 & h1 & E1 & Hd1). erewrite bind_eq by exact E1.
  destruct (dump_value_run c xplmType_Float (SimpleRef (iv_float v)) w h0 _ _ _ ltac:(intros _; by right; left) Hd1) as (d2 & h2 & E2 & Hd2). erewrite bind_eq by exact E2.
  destruct (dump_value_run c xplmType_Double (SimpleRef (iv_double v)) w h0 _ _ _ ltac:(intros _; by right; right) Hd2) as (d3 & h3 & E3 & Hd3). erewrite bind_eq by exact E3.
  assert (forall type arr, Protocol.is_array_type type -> array_ok (has_type (io_types o) type) (io_array_length o) arr ->
    has_type (io_types (ic_options c)) type = true -> drci_ref_ok type (ArrayRef arr)) as Harr.
  { unfold array_ok. intros type arr Ht Ha Hh. fold o in Hh. rewrite Hh in Ha. destruct Ha as (a & -> & ? & _). split; [done|by exists a]. }
  destruct (dump_value_run c xplmType_IntArray (ArrayRef (iv_ints v)) w h0 _ _ _ (Harr _ _ ltac:(by left) Hi) Hd3) as (d4 & h4 & E4 & Hd4). erewrite bind_eq by exact E4.
  destruct (dump_value_run c xplmType_FloatArray (ArrayRef (iv_floats v)) w h0 _ _ _ (Harr _ _ ltac:(by right; left) Hf) Hd4) as (d5 & h5 & E5 & Hd5). erewrite bind_eq by exact E5.
  destruct (dump_value_run c xplmType_Data (ArrayRef (iv_blob v)) w h0 _ _ _ (Harr _ _ ltac:(by right; right) Hb) Hd5) as (d6 & h6 & E6 & Hd6). erewrite bind_eq by exact E6.
  clear Hd1 Hd2 Hd3 Hd4 Hd5 E1 E2 E3 E4 E5 E6. fold o in Hd6. rewrite <-drci_items_texts in Hd6. set (texts := (fun x => drci_text x.1 x.2) <$> drci_items o v) in *.
  destruct Hd6 as [Hl6 Hd6]. assert (later (dumps_heap w) h6) as Hl by by etransitivity. destruct (du_should_abort d6).
  { destruct Hd6 as (Hm & ps & Hp). right. erewrite bind_eq by reflexivity.
    destruct (destroy_preallocated_list_run (mkPHeap (ph_items h6) [] (ph_env h6)) (du_list d6) ps free_text PREALLOC_LIST_CALL_DEFERRED_DESTRUCTORS Hp) as (m & E & _).
    erewrite bind_eq by by apply (on_dumps_eq _ (set_dumps_heap h6 w)). eexists _, None, _. split; [reflexivity|].
    split; [split; [apply Hl|exact (la_memory _ _ Hl)]|]. right. split; [done|]. intros Hm'. by apply Hm, (la_memory _ _ Hl0). }
  destruct Hd6 as ((ps & Hp & Ht) & Htot & _).
  assert (0 < len (mjoin (separated texts))) as Hpos.
  { apply drci_dump_nonempty; [unfold texts; by destruct (drci_items o v)|]. unfold texts. apply Forall_fmap, Forall_true. intros [type r]. apply drci_text_nonempty. }
  unfold concat. rewrite Htot, (proj2 (Z.leb_gt _ 0)) by done.
  assert (on_env (zmalloc (len (mjoin (separated texts)) + 1)) (set_dumps_heap h6 w) =
    Some (alloc_next (ph_env h6), set_dumps_heap (mkPHeap (ph_items h6) [] (alloc_rest (ph_env h6))) w)) as Ez.
  { apply (on_env_dumps _ (set_dumps_heap h6 w)), zmalloc_eq. lia. }
  set (h7 := mkPHeap (ph_items h6) [] (alloc_rest (ph_env h6))) in *. assert (later (dumps_heap w) h7) as Hl7 by (etransitivity; [exact Hl|exact (later_alloc h6)]).
  assert (on_dumps (concatenate (S (Z.to_nat (p_size (du_list d6)))) (p_first (du_list d6))) (set_dumps_heap h7 w) = Some (mjoin (separated texts), set_dumps_heap h7 w)) as Ec.
  { erewrite on_dumps_eq; [reflexivity|]. rewrite (prep_first _ _ _ Hp), (prep_size _ _ _ Hp). eapply concatenate_run; [exact (prep_seg _ _ _ Hp)|exact Ht|lia]. }
  destruct (alloc_next (ph_env h6)) eqn:Hal.
  - right. erewrite bind_eq by (erewrite bind_eq by exact Ez; erewrite bind_eq by exact Ec; cbn [negb orb]; unfold strlen; rewrite Z.ltb_irrefl; reflexivity).
    destruct (destroy_preallocated_list_run (mkPHeap (ph_items h7) [] (ph_env h7)) (du_list d6) ps free_text PREALLOC_LIST_CALL_DEFERRED_DESTRUCTORS Hp) as (m & E & _).
    erewrite bind_eq by by apply (on_dumps_eq _ (set_dumps_heap h7 w)). eexists _, _, _. split; [reflexivity|]. split; [split; [apply Hl7|exact (la_memory _ _ Hl7)]|].
    left. by rewrite separated_join.
  - left. split; [|intros Hm; by destruct (alloc_failed h6 Hal (la_memory _ _ Hl Hm))].
    apply undefined_bind. erewrite bind_eq by exact Ez. by erewrite bind_eq by exact Ec.
Qed.
End Dumping.
