(* ===== verification/DrciAccess.v ===== *)
(** Reading and writing the values of a command ([Drci.drci_simple_get] to
    [Drci.drci_array_update]), and what the owner is told. *)

From S2P Require Import Prelude CLib Utils Hashmap Channels Requests Lists Prealloc Arrays Protocol TaskSchedule Network Command Session Server ServerCommands Beside CalmWorld CmtrTimers Dataproxy DrqvValues Drci DrciValues.

Section Access.
Context `{DataTypes} `{FloatText} `{NumberConversions} {C : Type} `{ConnectionLaws C}.
Abbreviation W := (world C (ext drci_state)).
Implicit Types (q p : loc) (w : W) (c : command_drci_t) (o : drci_options) (v : drci_values) (type : Z) (tss : list (list loc)).

(** * What an operation on a command leaves *)

Definition registry_parts (d : drci_state) := (ih_registry d, ih_proxies d, ih_items d, ih_calls d, ih_notified d).

(** The command [q] is [c] now; no other command, no task, no queue of the schedule and
    no dataref has changed. *)
Record drci_becomes w w' tss q c : Prop := mkDrciBecomes {
  db_calm : calm_tasks w' tss;
  db_commands : ih_commands (world_data w') = <[q := c]> (ih_commands (world_data w));
  db_tasks : ih_tasks (world_data w') = ih_tasks (world_data w);
  db_registry : registry_parts (world_data w') = registry_parts (world_data w);
}.

Lemma drci_becomes_refl w tss q c : calm_tasks w tss -> ih_commands (world_data w) !! q = Some c -> drci_becomes w w tss q c.
Proof. intros Hw Hc. split; [done|by rewrite insert_id|done|done]. Qed.

Lemma drci_becomes_at w w' tss q c : drci_becomes w w' tss q c -> ih_commands (world_data w') !! q = Some c.
Proof. intros []. rewrite db_commands0. apply lookup_insert_eq. Qed.

Lemma drci_becomes_trans w1 w2 w3 tss q c1 c2 : drci_becomes w1 w2 tss q c1 -> drci_becomes w2 w3 tss q c2 -> drci_becomes w1 w3 tss q c2.
Proof. intros [] []. split; [done|by rewrite db_commands1, db_commands0, insert_insert_eq|congruence..]. Qed.

Lemma drci_becomes_data w w' tss q c : calm_tasks w' tss -> world_data w' = world_data w -> ih_commands (world_data w) !! q = Some c -> drci_becomes w w' tss q c.
Proof. intros Hw E Hc. split; rewrite ?E; [done|by rewrite insert_id|done|done]. Qed.

Lemma drci_becomes_dumps h w tss q c : calm_tasks w tss -> ih_commands (world_data w) !! q = Some c -> later (dumps_heap w) h -> drci_becomes w (set_dumps_heap h w) tss q c.
Proof. intros Hw Hc [Hl _]. split; [by apply tasks_dumps|by rewrite insert_id|done|done]. Qed.

Lemma load_drci_eq w q c : ih_commands (world_data w) !! q = Some c -> load_drci q w = Some (c, w).
Proof. intros Hc. unfold load_drci. erewrite bind_eq by reflexivity. unfold from_ub. by rewrite Hc. Qed.

Lemma update_drci_eq w q f c : ih_commands (world_data w) !! q = Some c ->
  update_drci q f w = Some (tt, set_world_data (set_ih_commands (<[q := f c]> (ih_commands (world_data w))) (world_data w)) w).
Proof. intros Hc. unfold update_drci. by erewrite bind_eq by by apply load_drci_eq. Qed.

(** Only data and the outcomes of calls to come differ. *)
Definition same_session w w' : Prop :=
  w_connection w' = w_connection w /\ (forall id, state_of w' id = state_of w id) /\
  (env_alloc (cs_env (w_channels w)) = [] -> env_alloc (cs_env (w_channels w')) = []).

#[export] Instance same_session_preorder : PreOrder same_session.
Proof. split; [by intros w; split_and!|]. intros w1 w2 w3 (E1 & S1 & A1) (E2 & S2 & A2). split_and!; [congruence|intros id; by rewrite S2|auto]. Qed.

Lemma update_drci_run w tss q f c : calm_tasks w tss -> ih_commands (world_data w) !! q = Some c ->
  exists w', update_drci q f w = Some (tt, w') /\ drci_becomes w w' tss q (f c) /\ same_session w w'.
Proof. intros Hw Hc. eexists. split; [by apply update_drci_eq|]. split; [|done]. split; [by apply tasks_data|done..]. Qed.

Lemma lock_drci_run w tss q c : calm_tasks w tss -> ih_commands (world_data w) !! q = Some c ->
  exists w', lock_drci q w = Some (true, w') /\ drci_becomes w w' tss q (set_ic_lock (ic_lock c + 1) c) /\ same_session w w'.
Proof.
  intros Hw Hc. unfold lock_drci. pose proof (ct_lock _ _ Hw) as Hl.
  destruct (tasks_on_env mtx_lock_result w tss _ _ Hw (mtx_lock_result_eq _)) as (E & Hw1 & Hd1); [split; [done|apply lock_succeeds_rest]|].
  rewrite (lock_succeeds_next _ Hl) in E. erewrite bind_eq by exact E. unfold when. set (w1 := with_env _ w) in *.
  destruct (update_drci_run w1 tss q (fun c => set_ic_lock (ic_lock c + 1) c) c Hw1) as (w2 & E2 & Hb2 & Hs2); [by rewrite Hd1|].
  erewrite bind_eq by exact E2. exists w2. split; [done|]. split; [|by transitivity w1].
  eapply drci_becomes_trans; [|exact Hb2]. by apply drci_becomes_data.
Qed.

(** The lock is released as it was taken. *)
Lemma unlock_drci_run w tss q c : calm_tasks w tss -> ih_commands (world_data w) !! q = Some (set_ic_lock (ic_lock c + 1) c) ->
  exists w', unlock_drci q w = Some (tt, w') /\ drci_becomes w w' tss q c /\ same_session w w'.
Proof.
  intros Hw Hc. unfold unlock_drci. destruct (update_drci_run w tss q (fun c => set_ic_lock (ic_lock c - 1) c) _ Hw Hc) as (w' & E & Hb & Hs).
  exists w'. split; [done|]. split; [|done]. assert (set_ic_lock (ic_lock (set_ic_lock (ic_lock c + 1) c) - 1) (set_ic_lock (ic_lock c + 1) c) = c) as Ec; [|by rewrite Ec in Hb].
  destruct c. unfold set_ic_lock. simpl. f_equal. lia.
Qed.

(** * Reading *)

(** The value of a simple type. *)
Definition simple_value v type : Z := if type =? xplmType_Int then iv_int v else if type =? xplmType_Float then iv_float v else iv_double v.

Lemma drci_simple_get_run w tss q c type dest : calm_tasks w tss -> ih_commands (world_data w) !! q = Some c -> simple_type type ->
  exists w', drci_simple_get (Some q) type (Some dest) w =
      Some (if has_type (io_types (ic_options c)) type then (ERROR_NONE, Some (simple_value (ic_values c) type)) else (ERROR_UNSPECIFIC, Some dest), w') /\
    drci_becomes w w' tss q c /\ same_session w w'.
Proof.
  intros Hw Hc Ht. unfold drci_simple_get. erewrite bind_eq by reflexivity. erewrite bind_eq by by apply load_drci_eq.
  cbn [given]. destruct (has_type (io_types (ic_options c)) type); red_if; [|exists w; split; [done|]; by split; [apply drci_becomes_refl|]].
  destruct (lock_drci_run w tss q c Hw Hc) as (w1 & E1 & Hb1 & Hs1). erewrite bind_eq by exact E1. red_if.
  destruct (unlock_drci_run w1 tss q c (db_calm _ _ _ _ _ Hb1) (drci_becomes_at _ _ _ _ _ Hb1)) as (w2 & E2 & Hb2 & Hs2). erewrite bind_eq by exact E2.
  exists w2. split; [|split; [by eapply drci_becomes_trans|by transitivity w1]]. unfold simple_value, mret, M_ret. do 2 f_equal.
  destruct (Z.eqb_spec type xplmType_Int); [done|]. destruct (Z.eqb_spec type xplmType_Float); [done|]. destruct Ht as [?|[?|Ht]]; [done|done|].
  by rewrite (proj2 (Z.eqb_eq _ _) Ht).
Qed.

Lemma drci_array_length_run w tss q c type n : calm_tasks w tss -> ih_commands (world_data w) !! q = Some c -> drci_values_ok (ic_options c) (ic_values c) ->
  Protocol.is_array_type type ->
  exists w', drci_array_length (Some q) type (Some n) w =
      Some (if has_type (io_types (ic_options c)) type then (ERROR_NONE, Some (io_array_length (ic_options c))) else (ERROR_UNSPECIFIC, Some n), w') /\
    drci_becomes w w' tss q c /\ same_session w w'.
Proof.
  intros Hw Hc Hv Ht. unfold drci_array_length. erewrite bind_eq by reflexivity. erewrite bind_eq by by apply load_drci_eq.
  cbn [given]. destruct (has_type (io_types (ic_options c)) type) eqn:Hh; red_if; [|exists w; split; [done|]; by split; [apply drci_becomes_refl|]].
  destruct (drci_array_of_type _ _ _ Hv Ht Hh) as (arr & Ea & _ & Hl). rewrite Ea, Hl.
  destruct (lock_drci_run w tss q c Hw Hc) as (w1 & E1 & Hb1 & Hs1). erewrite bind_eq by exact E1. red_if.
  destruct (unlock_drci_run w1 tss q c (db_calm _ _ _ _ _ Hb1) (drci_becomes_at _ _ _ _ _ Hb1)) as (w2 & E2 & Hb2 & Hs2). erewrite bind_eq by exact E2.
  exists w2. split; [done|]. split; [by eapply drci_becomes_trans|by transitivity w1].
Qed.

(** What is read from an array: the error, the items and how many there are. *)
Definition array_read (arr : dynamic_array_t Z) (items : list Z) (offset count : Z) : error_t * option (list Z) * option Z :=
  if count =? 0 then (ERROR_NONE, Some items, Some 0)
  else if arr_length arr <=? offset then (ERROR_UNSPECIFIC, Some items, Some 0)
  else
    let n := Z.min count (arr_length arr - offset) in
    (ERROR_NONE, Some (overwrite 0 (slice offset n (contents arr)) items), Some n).

Lemma slice_contents (arr : dynamic_array_t Z) offset n : 0 <= offset -> offset + n <= arr_length arr -> slice offset n (contents arr) = slice offset n (arr_data arr).
Proof. intros Ho Hn. unfold slice, contents. rewrite skipn_firstn_comm, take_take. f_equal. lia. Qed.

Lemma drci_array_get_run w tss q c type items n offset count : calm_tasks w tss -> ih_commands (world_data w) !! q = Some c -> drci_values_ok (ic_options c) (ic_values c) ->
  Protocol.is_array_type type -> has_type (io_types (ic_options c)) type = true -> 0 <= offset -> 0 <= count <= len items ->
  exists w' arr, array_of_type (ic_values c) type = Some arr /\
    drci_array_get (Some q) type (Some items) (Some n) offset count w = Some (array_read arr items offset count, w') /\
    drci_becomes w w' tss q c /\ same_session w w'.
Proof.
  intros Hw Hc Hv Ht Hh Ho Hcn. destruct (drci_array_of_type _ _ _ Hv Ht Hh) as (arr & Ea & Hwf & Hl). unfold drci_array_get, array_read.
  erewrite bind_eq by reflexivity. erewrite bind_eq by by apply load_drci_eq. rewrite Hh, (proj2 (Z.ltb_ge offset 0)), (proj2 (Z.ltb_ge count 0)) by lia. red_if.
  destruct (Z.eqb_spec count 0) as [|Hne]; [exists w, arr; split; [done|]; split; [done|]; by split; [apply drci_becomes_refl|]|].
  destruct (lock_drci_run w tss q c Hw Hc) as (w1 & E1 & Hb1 & Hs1). erewrite bind_eq by exact E1. red_if. rewrite Ea.
  destruct (unlock_drci_run w1 tss q c (db_calm _ _ _ _ _ Hb1) (drci_becomes_at _ _ _ _ _ Hb1)) as (w2 & E2 & Hb2 & Hs2).
  exists w2, arr. split; [done|]. split; [|split; [by eapply drci_becomes_trans|by transitivity w1]].
  unfold get_actual_count, dynamic_array_get_pointer. rewrite (proj2 (Z.ltb_ge offset 0)) by lia. cbn [orb].
  destruct (Z.leb_spec (arr_length arr) offset) as [Hle|Hlt].
  - rewrite (proj2 (Z.ltb_lt (arr_length arr - offset) 1)) by lia. erewrite bind_eq by reflexivity. by erewrite bind_eq by exact E2.
  - rewrite (proj2 (Z.ltb_ge (arr_length arr - offset) 1)) by lia.
    set (n' := if arr_length arr - offset <? count then arr_length arr - offset else count).
    assert (n' = Z.min count (arr_length arr - offset)) as En by (unfold n'; destruct (Z.ltb_spec (arr_length arr - offset) count); lia).
    rewrite (proj2 (Z.ltb_ge n' 0)), (proj2 (Z.ltb_lt 0 n')), (proj2 (Z.ltb_ge (len items) n')) by lia. change (ERROR_NONE =? ERROR_NONE) with true. red_if.
    erewrite bind_eq by reflexivity. erewrite bind_eq by exact E2. rewrite slice_contents by lia. by rewrite En.
Qed.

(** * Telling the owner *)

Definition memory_suffices w : Prop := env_alloc (cs_env (w_channels w)) = [].

(** The owner gets the text on the channel [id], unless the attempt to send it fails. *)
Definition told w w' (id : Z) (text : cstr) : Prop :=
  exists err w1, same_session w w1 /\ continue_channel id CURRENT_TIME_REFERENCE (Some text) w1 = Some (err, w') /\
    (err = ERROR_NONE -> exists st time, state_of w id = Some st /\ invalid_action st CHANNEL_ACTION_CONTINUE = false /\ 0 <= time /\
      conn_queued (w_connection w') = conn_queued (w_connection w) ++ format_message (message_of id st CHANNEL_ACTION_CONTINUE time (Some text))).

(** What a write to a command, whose values are those of [c] then, comes to for its
    owner. *)
Definition echoed w w' c (source_session : option loc) : Prop :=
  if should_echo c source_session then
    told w w' (ic_channel_id c) (dump_text_of (ic_options c) (ic_values c)) \/ ~ memory_suffices w /\ w_connection w' = w_connection w
  else same_session w w'.

Lemma set_lock_lock c (n m : Z) : set_ic_lock n (set_ic_lock m c) = set_ic_lock n c.
Proof. done. Qed.

Lemma drci_echo_run w tss q c source_session : calm_tasks w tss -> ih_commands (world_data w) !! q = Some (set_ic_lock (ic_lock c + 1) c) ->
  addressable (ic_channel_id c) = true -> drci_values_ok (ic_options c) (ic_values c) -> drci_items (ic_options c) (ic_values c) <> [] ->
  (drci_echo q source_session w = None /\ should_echo c source_session = true /\ ~ memory_suffices w) \/
  exists w', drci_echo q source_session w = Some (tt, w') /\ drci_becomes w w' tss q c /\ echoed w w' c source_session.
Proof.
  intros Hw Hc Ha Hv Hne. unfold drci_echo, echoed. erewrite bind_eq by by apply load_drci_eq. change (should_echo (set_ic_lock _ c) source_session) with (should_echo c source_session).
  destruct (should_echo c source_session).
  2:{ right. erewrite bind_eq by reflexivity. erewrite bind_eq by by apply load_drci_eq. destruct (unlock_drci_run w tss q c Hw Hc) as (w1 & E1 & Hb1 & Hs1).
      erewrite bind_eq by exact E1. by exists w1. }
  destruct (dump_values_run (set_ic_lock (ic_lock c + 1) c) w Hv Hne) as [[E Hm]|(err & out & h & E & Hl & Hout)].
  { left. split; [|done]. by apply undefined_bind, undefined_bind. }
  right. erewrite bind_eq by (erewrite bind_eq by exact E; reflexivity). pose proof (drci_becomes_dumps h w tss q _ Hw Hc Hl) as Hb0. pose proof (drci_becomes_at _ _ _ _ _ Hb0) as Hc0.
  erewrite bind_eq by by apply load_drci_eq. destruct (unlock_drci_run _ tss q c (db_calm _ _ _ _ _ Hb0) Hc0) as (w1 & E1 & Hb1 & Hs1). erewrite bind_eq by exact E1.
  pose proof (drci_becomes_trans _ _ _ _ _ _ _ Hb0 Hb1) as Hb01. assert (same_session w w1) as Hs01.
  { transitivity (set_dumps_heap h w); [|done]. split; [done|]. split; [done|]. exact (la_memory _ _ Hl). }
  destruct Hout as [->|[-> Hm]]; [|exists w1; split; [done|]; split; [done|]; right; split; [done|apply Hs01]].
  unfold continue_channel. destruct (tasks_act w1 tss (fun _ => CHANNEL_ACTION_CONTINUE) (lit "failed to continue channel") (ic_channel_id c) CURRENT_TIME_REFERENCE
    (Some (dump_text_of (ic_options c) (ic_values c))) (db_calm _ _ _ _ _ Hb01) Ha) as (err2 & w2 & E2 & Hw2 & Hd2).
  erewrite bind_eq by exact E2. exists w2. split; [done|]. split; [eapply drci_becomes_trans; [exact Hb01|]; by eapply drci_becomes_data, drci_becomes_at|].
  left. exists err2, w1. split; [done|]. split; [exact E2|]. intros ->.
  destruct (act_on_channel_sent _ _ _ _ _ _ _ (ct_world _ _ (db_calm _ _ _ _ _ Hb01)) Ha E2) as (st & time & Hst & Htime & Hinv & _ & Hq & _).
  destruct Hs01 as (Ec & Es & _). exists st, time. rewrite <-Ec, <-Es. by split_and!.
Qed.

(** * Writing *)

(** What a command holds after a write of a number. *)
Definition after_set c type (x : Z) : command_drci_t :=
  let mode := io_intconv_mode (ic_options c) in
  set_ic_values (set_iv_simple (as_int type mode x) (as_float type x) (as_double type x) (ic_values c)) c.

(** Outcomes of a write that leaves [c'], done by [source_session]. *)
Definition written w tss q c' (source_session : option loc) (err : error_t) (result : option (error_t * W)) : Prop :=
  (result = None /\ should_echo c' source_session = true /\ ~ memory_suffices w) \/
  exists w', result = Some (err, w') /\ drci_becomes w w' tss q c' /\ echoed w w' c' source_session.

Lemma told_from w w1 w' id text : same_session w w1 -> told w1 w' id text -> told w w' id text.
Proof.
  intros Hs (err & w2 & Hs2 & E & Hsent). exists err, w2. split; [by transitivity w1|]. split; [done|]. destruct Hs as (Ec & Es & _). intros He.
  destruct (Hsent He) as (st & time & Hst & ? & ? & Hq). exists st, time. rewrite <-Ec, <-Es. by split_and!.
Qed.

(** The end of a write, after the values were stored under the lock. *)
Lemma written_run w w1 tss q c' source_session (err : error_t) : drci_becomes w w1 tss q (set_ic_lock (ic_lock c' + 1) c') -> same_session w w1 ->
  addressable (ic_channel_id c') = true -> drci_values_ok (ic_options c') (ic_values c') -> drci_items (ic_options c') (ic_values c') <> [] ->
  written w tss q c' source_session err ((_ ← drci_echo q source_session; mret err) w1).
Proof.
  intros Hb Hs Ha Hv Hne. destruct (drci_echo_run w1 tss q c' source_session (db_calm _ _ _ _ _ Hb) (drci_becomes_at _ _ _ _ _ Hb) Ha Hv Hne) as [(E & He & Hm)|(w2 & E & Hb2 & He)].
  - left. split; [by apply undefined_bind|]. split; [done|]. intros Hm'. by apply Hm, Hs.
  - right. exists w2. split; [by erewrite bind_eq by exact E|]. split; [by eapply drci_becomes_trans|]. unfold echoed in *. destruct (should_echo c' source_session); [|by transitivity w1].
    destruct He as [He|[Hm E2]]; [left; by eapply told_from|right]. split; [intros Hm'; by apply Hm, Hs|]. rewrite E2. apply Hs.
Qed.

Lemma simple_type_simple type : simple_type type -> Z.land type (Z.lnot simple_types) = 0.
Proof. intros Ht. apply land_lnot_part. intros n Hn. unfold simple_types. rewrite !Z.lor_spec. destruct Ht as [->|[->| ->]]; rewrite Hn; by rewrite ?orb_true_r. Qed.

Lemma drci_simple_set_run w tss q c type (x : Z) source_session : calm_tasks w tss -> ih_commands (world_data w) !! q = Some c -> simple_type type ->
  has_type (io_types (ic_options c)) type = true -> addressable (ic_channel_id c) = true -> drci_values_ok (ic_options c) (ic_values c) ->
  drci_items (ic_options c) (ic_values (after_set c type x)) <> [] ->
  written w tss q (after_set c type x) source_session ERROR_NONE (drci_simple_set (Some q) type (Some x) source_session w).
Proof.
  intros Hw Hc Ht Hh Ha Hv Hne. unfold drci_simple_set. erewrite bind_eq by reflexivity. erewrite bind_eq by by apply load_drci_eq.
  rewrite Hh, simple_type_simple by done. cbn [Z.eqb]. red_if. destruct (lock_drci_run w tss q c Hw Hc) as (w1 & E1 & Hb1 & Hs1). erewrite bind_eq by exact E1. red_if.
  rewrite apply_value_eq by done. cbn [fmap option_fmap option_map default]. unfold id.
  destruct (update_drci_run w1 tss q (set_ic_values (set_iv_simple (as_int type (io_intconv_mode (ic_options c)) x) (as_float type x) (as_double type x) (ic_values c))) _
    (db_calm _ _ _ _ _ Hb1) (drci_becomes_at _ _ _ _ _ Hb1)) as (w2 & E2 & Hb2 & Hs2). erewrite bind_eq by exact E2.
  apply (written_run w w2 tss q); [by eapply drci_becomes_trans|by transitivity w1|done| |done]. by destruct Hv.
Qed.

(** What a command holds after a write of items of an array. *)
Definition after_update c type (items : list Z) (offset : Z) : command_drci_t :=
  let v := ic_values c in
  set_ic_values
    (if type =? xplmType_Data then set_iv_blob (put_items offset items (iv_blob v)) v
     else
       let src_type := if type =? xplmType_FloatArray then xplmType_Float else xplmType_Int in
       set_iv_floats (put_items offset (as_float src_type <$> items) (iv_floats v))
         (set_iv_ints (put_items offset (as_int src_type (io_intconv_mode (ic_options c)) <$> items) (iv_ints v)) v)) c.

Lemma after_update_ok c type items offset : 0 <= offset -> offset + len items <= io_array_length (ic_options c) ->
  drci_values_ok (ic_options c) (ic_values c) -> drci_values_ok (ic_options c) (ic_values (after_update c type items offset)).
Proof.
  intros Ho Hl [Hi Hf Hb]. unfold after_update. destruct (type =? xplmType_Data); split; cbn; try done; apply array_ok_put; rewrite ?length_fmap; done.
Qed.

Lemma array_ok_room present length n i arr : array_ok present length arr -> i + n <= length -> room i n arr.
Proof. unfold array_ok, room. destruct present; [|by intros ->]. intros (a & -> & ? & <-) ? ? [= <-]. done. Qed.

Lemma update_arrays_eq c type values offset n : drci_values_ok (ic_options c) (ic_values c) -> Protocol.is_array_type type -> has_type (io_types (ic_options c)) type = true ->
  0 <= offset -> 0 < n -> n <= len values -> offset + n <= io_array_length (ic_options c) ->
  update_arrays c type values offset n = Some (ic_values (after_update c type (take (Z.to_nat n) values) offset)).
Proof.
  intros Hv Ht Hh Ho Hn Hlen Hl. pose proof Hv as [Hi Hf Hb]. unfold update_arrays, after_update. rewrite (proj2 (Z.ltb_ge (len values) n)) by lia.
  destruct (Z.eqb_spec type xplmType_Data) as [->|Hne].
  - unfold array_ok in Hb. rewrite Hh in Hb. destruct Hb as (blob & Eb & _ & Hbl). rewrite Eb. simpl. unfold dynamic_array_get_pointer.
    rewrite (proj2 (Z.ltb_ge offset 0)), (proj2 (Z.leb_gt (arr_length blob) offset)) by lia. simpl. rewrite (proj2 (Z.ltb_ge (arr_length blob) (offset + n))) by lia. done.
  - assert (len (take (Z.to_nat n) values) = n) as Htl by (rewrite length_take; lia).
    rewrite update_items_eq; [done| |done| |]; [destruct (type =? xplmType_FloatArray); [by right; left|by left]|rewrite Htl; by eapply array_ok_room..].
Qed.

Lemma drci_array_update_run w tss q c type values offset count source_session : calm_tasks w tss -> ih_commands (world_data w) !! q = Some c ->
  Protocol.is_array_type type -> has_type (io_types (ic_options c)) type = true -> addressable (ic_channel_id c) = true -> drci_values_ok (ic_options c) (ic_values c) ->
  0 <= io_array_length (ic_options c) -> (forall v, drci_items (ic_options c) v <> []) -> 0 <= offset -> 0 <= count <= len values ->
  if (count =? 0) || (io_array_length (ic_options c) <=? offset) then
    exists w', drci_array_update (Some q) type (Some values) offset count source_session w = Some (if count =? 0 then ERROR_NONE else ERROR_UNSPECIFIC, w') /\
      drci_becomes w w' tss q c /\ same_session w w'
  else
    let n := Z.min count (io_array_length (ic_options c) - offset) in
    written w tss q (after_update c type (take (Z.to_nat n) values) offset) source_session ERROR_NONE (drci_array_update (Some q) type (Some values) offset count source_session w).
Proof.
  intros Hw Hc Ht Hh Ha Hv Hlen Hne Ho Hcn. unfold drci_array_update. erewrite bind_eq by reflexivity. erewrite bind_eq by by apply load_drci_eq.
  rewrite Hh, (proj2 (Z.ltb_ge (io_array_length (ic_options c)) 0)), (proj2 (Z.ltb_ge offset 0)), (proj2 (Z.ltb_ge count 0)) by lia. red_if.
  destruct (Z.eqb_spec count 0) as [|Hc0]; cbn [orb]; cbv iota; [exists w; split; [done|]; by split; [apply drci_becomes_refl|]|].
  destruct (lock_drci_run w tss q c Hw Hc) as (w1 & E1 & Hb1 & Hs1). erewrite bind_eq by exact E1. red_if. unfold get_actual_count.
  set (L := io_array_length (ic_options c)) in *. destruct (Z.leb_spec L offset) as [Hle|Hlt].
  - rewrite (proj2 (Z.ltb_lt (L - offset) 1)) by lia. red_if. change (negb (ERROR_UNSPECIFIC =? ERROR_NONE)) with true. cbn [orb]. cbv iota.
    destruct (unlock_drci_run w1 tss q c (db_calm _ _ _ _ _ Hb1) (drci_becomes_at _ _ _ _ _ Hb1)) as (w2 & E2 & Hb2 & Hs2). erewrite bind_eq by exact E2.
    exists w2. split; [done|]. split; [by eapply drci_becomes_trans|by transitivity w1].
  - rewrite (proj2 (Z.ltb_ge (L - offset) 1)) by lia. cbv zeta.
    set (n' := if L - offset <? count then L - offset else count).
    assert (n' = Z.min count (L - offset)) as En by (unfold n'; destruct (Z.ltb_spec (L - offset) count); lia). rewrite <-En.
    rewrite (proj2 (Z.ltb_ge n' 0)), (proj2 (Z.leb_gt n' 0)) by lia. change (negb (ERROR_NONE =? ERROR_NONE)) with false. red_if.
    rewrite update_arrays_eq by (done || lia). erewrite bind_eq by reflexivity. set (c' := after_update c type (take (Z.to_nat n') values) offset).
    destruct (update_drci_run w1 tss q (set_ic_values (ic_values c')) _ (db_calm _ _ _ _ _ Hb1) (drci_becomes_at _ _ _ _ _ Hb1)) as (w2 & E2 & Hb2 & Hs2).
    erewrite bind_eq by exact E2. apply (written_run w w2 tss q c'); [exact (drci_becomes_trans _ _ _ _ _ _ _ Hb1 Hb2)|by transitivity w1|done| |apply Hne].
    apply (after_update_ok c type (take (Z.to_nat n') values) offset); [done|rewrite length_take; unfold L in *; lia|done].
Qed.
End Access.
