(* ===== verification/DrciLifecycle.v ===== *)
(** The life of a command DRCI and its dataref: the invariant of the plugin around it,
    registration, and termination. *)

From S2P Require Import Prelude CLib Utils Hashmap Channels Requests Lists Prealloc Arrays Protocol TaskSchedule Network Command Session Server ServerCommands Beside CalmWorld CmtrTimers Dataproxy DataproxyLifecycle DatarefSystem DrqvValues Drci DrciValues DrciAccess.

Section Lifecycle.
Context `{DataTypes} `{FloatText} `{NumberConversions} {C : Type} `{ConnectionLaws C}.
Abbreviation W := (world C (ext drci_state)).
Abbreviation proxy_t := (dataproxy_t drci_operation).
Implicit Types (q p t : loc) (w : W) (c : command_drci_t) (o : drci_options) (v : drci_values) (tss : list (list loc)) (x : proxy_t).

(** * The invariant *)

(** Options that pass the checks of a request. *)
Record drci_options_ok o : Prop := mkDrciOptionsOk {
  oo_types : io_types o <> 0 /\ Z.land (io_types o) (Z.lnot supported_types) = 0;
  oo_length : forall type, Protocol.is_array_type type -> has_type (io_types o) type = true -> 0 <= io_array_length o;
}.

Lemma land_supported types : Z.land types (Z.lnot supported_types) = 0 -> Z.land types supported_types = types.
Proof.
  intros E. apply Z.bits_inj'. intros n Hn. rewrite Z.land_spec. apply (f_equal (fun z => Z.testbit z n)) in E.
  rewrite Z.land_spec, Z.lnot_spec, Z.bits_0 in E by done. destruct (Z.testbit types n), (Z.testbit supported_types n); done.
Qed.

Lemma drci_items_nonempty o v : drci_options_ok o -> drci_items o v <> [].
Proof.
  intros [[Hne Hs] _] E. apply land_supported in Hs. rewrite <-all_selected in Hs.
  assert (forall type, type ∈ [xplmType_Int; xplmType_Float; xplmType_Double; xplmType_IntArray; xplmType_FloatArray; xplmType_Data] -> has_type (io_types o) type = false) as Hno.
  { intros type Hin. destruct (has_type (io_types o) type) eqn:Hh; [|done]. exfalso.
    assert (exists r, (type, r) ∈ drci_items o v) as (r & Hr); [|rewrite E in Hr; by apply elem_of_nil in Hr].
    unfold drci_items. rewrite !elem_of_cons in Hin.
    destruct Hin as [->|[->|[->|[->|[->|[->|Hin]]]]]]; [..|by apply elem_of_nil in Hin]; eexists; apply list_elem_of_filter; (split; [exact Hh|]); rewrite !elem_of_cons; tauto. }
  apply Hne. rewrite <-Hs. replace (selected (io_types o)) with (@nil (cstr * Z)); [done|]. symmetry. destruct (selected (io_types o)) as [|y l] eqn:Es; [done|].
  assert (y ∈ selected (io_types o)) as Hy by (rewrite Es; by left). unfold selected in Hy. apply list_elem_of_filter in Hy as [Hh Hy].
  rewrite Hno in Hh; [done|]. by apply (list_elem_of_fmap_2 snd) in Hy.
Qed.

(** The proxy of a command: registered, or reserved if the registration failed. *)
Record hosts q c x : Prop := mkHosts {
  hs_reference : dp_operations_ref x = Some q;
  hs_operations : dp_operations x = drci_dataproxy_operations;
  hs_types : dp_types x = io_types (ic_options c);
  hs_name : dp_dataref_name x = ic_dataref_name c;
  hs_owner : dp_owner_session x = Some (ic_session c);
  hs_permission : dp_write_permission x = io_write_permission (ic_options c);
  hs_state : dp_state x = DATAPROXY_STATE_REGISTERED /\ ic_registered c = true \/
    dp_state x = DATAPROXY_STATE_RESERVED /\ ic_registered c = false /\ ic_failed c = true;
}.

(** A command that has a channel. *)
Record drci_live c : Prop := mkDrciLive {
  li_options : drci_options_ok (ic_options c);
  li_values : drci_values_ok (ic_options c) (ic_values c);
  li_name : exists name, ic_dataref_name c = Some name /\ no_nul name;
  li_scheduled : ic_registration_task c = None -> ic_registered c = true \/ ic_failed c = true;
}.

Record drci_command_ok w tss q c : Prop := mkDrciCommandOk {
  ci_lock : ic_lock c = 0;
  ci_live : addressable (ic_channel_id c) = true -> drci_live c;
  ci_ended : addressable (ic_channel_id c) = false -> ic_registration_task c = None /\ ic_proxy c = None;
  ci_task : forall t, ic_registration_task c = Some t -> ih_tasks (world_data w) !! t = Some q /\
    exists ts, tss !! Z.to_nat DRCI_REGISTRATION_PHASE = Some ts /\ t ∈ ts;
  ci_proxy : forall p, ic_proxy c = Some p -> exists x, ih_proxies (world_data w) !! p = Some x /\ hosts q c x;
  ci_unregistered : ic_proxy c = None -> addressable (ic_channel_id c) = true -> ic_registered c = false;
}.

Definition owned x : Prop := dp_state x = DATAPROXY_STATE_RESERVED \/ dp_state x = DATAPROXY_STATE_REGISTERED.

Record drci_ok w tss : Prop := mkDrciOk {
  do_calm : calm_tasks w tss;
  do_queues : length tss = 2%nat;
  do_datarefs : datarefs_ok (datarefs_of w);
  do_pending : dr_destruction_pending (ih_registry (world_data w)) = false;
  do_commands : forall q c, ih_commands (world_data w) !! q = Some c -> drci_command_ok w tss q c;
  do_owned : forall p x, ih_proxies (world_data w) !! p = Some x -> owned x ->
    exists q c, dp_operations_ref x = Some q /\ ih_commands (world_data w) !! q = Some c /\ ic_proxy c = Some p;
}.

Lemma hosts_owned q c x : hosts q c x -> owned x.
Proof. intros Hh. destruct (hs_state _ _ _ Hh) as [[? _]|[? _]]; [by right|by left]. Qed.

(** What concerns other commands stays. *)
Lemma drci_command_frame w w' tss tss' q c : drci_command_ok w tss q c ->
  (forall t, ic_registration_task c = Some t -> ih_tasks (world_data w) !! t = Some q -> ih_tasks (world_data w') !! t = Some q) ->
  (forall t ts, ic_registration_task c = Some t -> tss !! Z.to_nat DRCI_REGISTRATION_PHASE = Some ts -> t ∈ ts ->
    exists ts', tss' !! Z.to_nat DRCI_REGISTRATION_PHASE = Some ts' /\ t ∈ ts') ->
  (forall p x, ic_proxy c = Some p -> ih_proxies (world_data w) !! p = Some x -> dp_operations_ref x = Some q -> owned x -> ih_proxies (world_data w') !! p = Some x) ->
  drci_command_ok w' tss' q c.
Proof.
  intros [? ? ? Ht Hp ?] Htasks Hqueue Hproxies. split; try done.
  - intros t Htc. destruct (Ht t Htc) as (? & ts & Hts & Hin). split; [by apply Htasks|]. by apply (Hqueue t ts).
  - intros p Hpc. destruct (Hp p Hpc) as (x & Hx & Hh). exists x. split; [|done]. apply Hproxies; [done..|apply Hh|by eapply hosts_owned].
Qed.

(** One command changes, and with it the proxies and the tasks. *)
Lemma drci_ok_update w w' tss tss' q c' : drci_ok w tss -> calm_tasks w' tss' -> length tss' = length tss -> datarefs_ok (datarefs_of w') ->
  dr_destruction_pending (ih_registry (world_data w')) = false -> ih_commands (world_data w') = <[q := c']> (ih_commands (world_data w)) ->
  drci_command_ok w' tss' q c' ->
  (forall q2 c2, q2 <> q -> ih_commands (world_data w) !! q2 = Some c2 -> drci_command_ok w tss q2 c2 -> drci_command_ok w' tss' q2 c2) ->
  (forall p x, ih_proxies (world_data w') !! p = Some x -> owned x -> dp_operations_ref x = Some q /\ ic_proxy c' = Some p \/
    exists q2, q2 <> q /\ dp_operations_ref x = Some q2 /\ ih_proxies (world_data w) !! p = Some x) ->
  drci_ok w' tss'.
Proof.
  intros Hok Hw Hlen Hd Hp Hcs Hc Hother Howned. split; [done|rewrite Hlen; apply Hok|done|done| |].
  - intros q2 c2. rewrite Hcs, lookup_insert_Some. intros [[<- <-]|[Hne Hc2]]; [done|]. apply Hother; [done..|]. by apply (do_commands _ _ Hok).
  - intros p x Hx Ho. rewrite Hcs. destruct (Howned p x Hx Ho) as [[Hr Hpc]|(q2 & Hne & Hr & Hx0)].
    + exists q, c'. by rewrite lookup_insert_eq.
    + destruct (do_owned _ _ Hok p x Hx0 Ho) as (q3 & c3 & Hr3 & Hc3 & Hp3). assert (q3 = q2) as -> by congruence. exists q2, c3. by rewrite lookup_insert_ne.
Qed.

(** * Operations on the registry *)

Lemma drci_datarefs_lens : datarefs_lens datarefs_of (with_datarefs (C := C)).
Proof. split; [by intros [] w|done]. Qed.

Lemma in_datarefs_run {A} (m : M (datarefs drci_operation) A) w a (r : datarefs drci_operation) : m (datarefs_of w) = Some (a, r) ->
  on_datarefs datarefs_of with_datarefs m w = Some (a, with_datarefs r w).
Proof. apply on_datarefs_eq. Qed.

Lemma tasks_datarefs w tss (r : datarefs drci_operation) : calmer (cs_env (w_channels w)) (ds_env r) -> calm_tasks w tss -> calm_tasks (with_datarefs r w) tss.
Proof.
  intros Hc Hw. exact (tasks_env (set_world_data (set_ih_datarefs r (world_data w)) w) tss (ds_env r) Hc (tasks_data w tss _ Hw)).
Qed.

Lemma drci_registry_free w tss : drci_ok w tss -> locks (datarefs_of w).
Proof. intros Hok. split; [apply (ct_lock _ _ (do_calm _ _ Hok))|apply (do_pending _ _ Hok)]. Qed.

(** An operation changes the registry and no command. *)
Lemma drci_ok_registry w tss (r : datarefs drci_operation) : drci_ok w tss -> datarefs_ok r -> ds_same (datarefs_of w) r ->
  (forall p x, ih_proxies (world_data w) !! p = Some x -> owned x -> ds_proxies r !! p = Some x) ->
  (forall p x, ds_proxies r !! p = Some x -> owned x -> ih_proxies (world_data w) !! p = Some x) ->
  drci_ok (with_datarefs r w) tss.
Proof.
  intros Hok Hr [_ Hp He] Hkeep Hnew. split; [apply tasks_datarefs; [done|apply Hok]|apply Hok| |by rewrite <-(do_pending _ _ Hok)| |].
  - by rewrite (dl_get _ _ drci_datarefs_lens).
  - intros q c Hc. eapply drci_command_frame; [by apply (do_commands _ _ Hok)|done|by eauto|]. intros p x _ Hx _ Ho. by apply Hkeep.
  - intros p x Hx Ho. apply (do_owned _ _ Hok p x); [by apply Hnew|done].
Qed.

(** Another command object: the same but for what does not matter here. *)
Record same_dataref c c' : Prop := mkSameDataref {
  sd_session : ic_session c' = ic_session c;
  sd_channel : ic_channel_id c' = ic_channel_id c;
  sd_lock : ic_lock c' = ic_lock c;
  sd_proxy : ic_proxy c' = ic_proxy c;
  sd_name : ic_dataref_name c' = ic_dataref_name c;
  sd_options : ic_options c' = ic_options c;
  sd_task : ic_registration_task c' = ic_registration_task c;
  sd_registered : ic_registered c' = ic_registered c;
  sd_failed : ic_failed c = true -> ic_failed c' = true;
}.

Lemma same_dataref_hosts q c c' x : same_dataref c c' -> hosts q c x -> hosts q c' x.
Proof.
  intros [] []. split; try congruence. destruct hs_state0 as [[? ?]|(? & ? & ?)]; [left|right]; split_and!; auto; congruence.
Qed.

Lemma same_dataref_command w tss q c c' : same_dataref c c' -> (addressable (ic_channel_id c) = true -> drci_values_ok (ic_options c') (ic_values c')) ->
  drci_command_ok w tss q c -> drci_command_ok w tss q c'.
Proof.
  intros Hs Hv [Hl Hlive He Ht Hp Hu]. pose proof Hs as [_ Hch Hlk Hpr Hn Ho Htk Hreg Hf]. split; rewrite ?Hch, ?Hpr, ?Htk, ?Hlk, ?Hreg; try done.
  - intros Ha. destruct (Hlive Ha) as [Hoo _ Hna Hsch]. split; [by rewrite Ho|by apply Hv|by rewrite Hn|]. rewrite Htk, Hreg. intros E.
    destruct (Hsch E); auto.
  - intros p Hpc. destruct (Hp p Hpc) as (x & Hx & Hh). exists x. split; [done|]. by eapply same_dataref_hosts.
Qed.

Lemma registry_parts_same (d d' : drci_state) : registry_parts d' = registry_parts d ->
  ih_registry d' = ih_registry d /\ ih_proxies d' = ih_proxies d /\ ih_calls d' = ih_calls d /\ ih_items d' = ih_items d /\ ih_notified d' = ih_notified d.
Proof. by intros [= -> -> -> -> ->]. Qed.

Lemma drci_datarefs_kept w w' : registry_parts (world_data w') = registry_parts (world_data w) -> datarefs_ok (datarefs_of w) -> datarefs_ok (datarefs_of w').
Proof. intros (Er & Ep & Ec & _)%registry_parts_same. by apply datarefs_ok_same; simpl; rewrite ?Er, ?Ep, ?Ec. Qed.

Lemma drci_ok_becomes w w' tss q c c' : drci_ok w tss -> ih_commands (world_data w) !! q = Some c -> drci_becomes w w' tss q c' -> same_dataref c c' ->
  (addressable (ic_channel_id c) = true -> drci_values_ok (ic_options c') (ic_values c')) -> drci_ok w' tss.
Proof.
  intros Hok Hc [Hw Hcs Ht Hreg] Hs Hv. pose proof (registry_parts_same _ _ Hreg) as (Er & Ep & _).
  eapply drci_ok_update; [exact Hok|done|done|by eapply drci_datarefs_kept, do_datarefs|rewrite Er; apply Hok|exact Hcs| | |].
  - eapply drci_command_frame; [eapply same_dataref_command; [exact Hs|exact Hv|]; by apply (do_commands _ _ Hok)|by rewrite Ht|by eauto|by rewrite Ep].
  - intros q2 c2 _ _ Hc2. eapply drci_command_frame; [exact Hc2|by rewrite Ht|by eauto|by rewrite Ep].
  - rewrite Ep. intros p x Hx Ho. destruct (do_owned _ _ Hok p x Hx Ho) as (q2 & c2 & Hr & Hc2 & Hp2). destruct (decide (q2 = q)) as [->|Hne]; [left|right; by exists q2].
    split; [done|]. rewrite (sd_proxy _ _ Hs). congruence.
Qed.

Lemma drci_ok_data w w' tss : drci_ok w tss -> calm_tasks w' tss -> world_data w' = world_data w -> drci_ok w' tss.
Proof.
  intros Hok Hw Hd. split; rewrite ?Hd; try apply Hok; [done|apply (drci_datarefs_kept w); [by rewrite Hd|apply Hok]|].
  intros q c Hc. eapply drci_command_frame; [by apply (do_commands _ _ Hok)|by rewrite Hd|by eauto|by rewrite Hd].
Qed.

(** * Termination *)

(** All tasks but [task] are in the queue still. *)
Definition queue_kept tss tss' (task : option loc) : Prop :=
  length tss' = length tss /\
  forall t ts, tss !! Z.to_nat DRCI_REGISTRATION_PHASE = Some ts -> t ∈ ts -> Some t <> task ->
    exists ts', tss' !! Z.to_nat DRCI_REGISTRATION_PHASE = Some ts' /\ t ∈ ts'.

Lemma queue_kept_refl tss task : queue_kept tss tss task.
Proof. split; [done|]. by eauto. Qed.

Lemma drci_unschedule_run w tss t ts : calm_tasks w tss -> tss !! Z.to_nat DRCI_REGISTRATION_PHASE = Some ts -> t ∈ ts ->
  exists w' tss', drci_unschedule t w = Some (ERROR_NONE, w') /\ calm_tasks w' tss' /\ world_data w' = world_data w /\ queue_kept tss tss' (Some t).
Proof.
  intros Hw Hts Hin. unfold drci_unschedule. destruct (tasks_lock w tss Hw) as (w1 & E1 & Hw1 & Hd1). erewrite bind_eq by exact E1.
  change (ERROR_NONE =? ERROR_NONE) with true. cbv iota. erewrite bind_eq by reflexivity.
  destruct (tasks_unschedule w1 tss DRCI_REGISTRATION_PHASE ts t Hw1 eq_refl Hts Hin) as (ts1 & ts2 & w2 & -> & E2 & Hw2 & Hd2). erewrite bind_eq by exact E2.
  destruct (tasks_unlock w2 _ Hw2) as (w3 & E3 & Hw3 & Hd3). erewrite bind_eq by exact E3. exists w3, (<[Z.to_nat DRCI_REGISTRATION_PHASE := ts1 ++ ts2]> tss).
  split; [done|]. split; [done|]. split; [congruence|]. split; [by rewrite length_insert|]. intros t2 ts' Hts' Hin' Hne. assert (ts' = ts1 ++ t :: ts2) as -> by congruence.
  exists (ts1 ++ ts2). rewrite list_lookup_insert_eq by (by eapply lookup_lt_Some). split; [done|]. rewrite elem_of_app, elem_of_cons in Hin'. rewrite elem_of_app.
  destruct Hin' as [?|[->|?]]; [by left|done|by right].
Qed.

Lemma set_task_none c : ic_registration_task c = None -> set_ic_task None c = c.
Proof. destruct c. simpl. by intros ->. Qed.
Lemma set_proxy_none c : ic_proxy c = None -> set_ic_proxy None c = c.
Proof. destruct c. simpl. by intros ->. Qed.

(** The task, if there is one, ends. *)
Lemma drci_task_ends w tss q c : calm_tasks w tss -> ih_commands (world_data w) !! q = Some c ->
  (forall t, ic_registration_task c = Some t -> exists ts, tss !! Z.to_nat DRCI_REGISTRATION_PHASE = Some ts /\ t ∈ ts) ->
  exists w' tss', match ic_registration_task c with
            | None => mret ERROR_NONE
            | Some task =>
                err ← drci_unschedule task;
                _ ← when (err =? ERROR_NONE) (update_drci q (set_ic_task None));
                mret err
            end w = Some (ERROR_NONE, w') /\ drci_becomes w w' tss' q (set_ic_task None c) /\ queue_kept tss tss' (ic_registration_task c).
Proof.
  intros Hw Hc Ht. destruct (ic_registration_task c) as [t|] eqn:Et.
  - destruct (Ht t eq_refl) as (ts & Hts & Hin). destruct (drci_unschedule_run w tss t ts Hw Hts Hin) as (w1 & tss' & E1 & Hw1 & Hd1 & Hq). erewrite bind_eq by exact E1.
    change (ERROR_NONE =? ERROR_NONE) with true. unfold when.
    destruct (update_drci_run w1 tss' q (set_ic_task None) c Hw1) as (w2 & E2 & Hb2 & _); [by rewrite Hd1|]. erewrite bind_eq by exact E2. exists w2, tss'.
    split; [done|]. split; [|done]. destruct Hb2 as [X1 X2 X3 X4]. rewrite Hd1 in X2, X3, X4. by split.
  - exists w, tss. split; [done|]. split; [|apply queue_kept_refl]. rewrite set_task_none by done. by apply drci_becomes_refl.
Qed.

Definition drci_ended c : command_drci_t := set_ic_channel_id BAD_CHANNEL_ID (set_ic_proxy None (set_ic_task None c)).

Definition proxies_dropped (proxy : option loc) (m : gmap loc proxy_t) : gmap loc proxy_t :=
  match proxy with Some p => alter dp_dropped p m | None => m end.

(** What dropping the proxy of a command comes to. *)
Definition drop_outcome w w' tss q c (err : error_t) : Prop :=
  calm_tasks w' tss /\ datarefs_ok (datarefs_of w') /\ dr_destruction_pending (ih_registry (world_data w')) = dr_destruction_pending (ih_registry (world_data w)) /\
  ih_tasks (world_data w') = ih_tasks (world_data w) /\
  (err = ERROR_NONE /\ ih_proxies (world_data w') = proxies_dropped (ic_proxy c) (ih_proxies (world_data w)) /\
     ih_commands (world_data w') = <[q := set_ic_proxy None c]> (ih_commands (world_data w)) \/
   err = DATAPROXY_ERROR_INVALID_STATE /\ ih_proxies (world_data w') = ih_proxies (world_data w) /\ ih_commands (world_data w') = ih_commands (world_data w) /\
     exists p x, ic_proxy c = Some p /\ ih_proxies (world_data w) !! p = Some x /\ dp_state x = DATAPROXY_STATE_RESERVED).

Lemma drci_drop_run w tss q c : calm_tasks w tss -> datarefs_ok (datarefs_of w) -> dr_destruction_pending (ih_registry (world_data w)) = false ->
  ih_commands (world_data w) !! q = Some c -> (forall p, ic_proxy c = Some p -> exists x, ih_proxies (world_data w) !! p = Some x /\ owned x) ->
  exists err w', match ic_proxy c with
              | None => mret ERROR_NONE
              | Some p =>
                  err ← on_datarefs datarefs_of with_datarefs (drop_dataproxy (Some p));
                  _ ← when (err =? ERROR_NONE) (update_drci q (set_ic_proxy None));
                  mret err
              end w = Some (err, w') /\ drop_outcome w w' tss q c err.
Proof.
  intros Hw Hd Hp Hc Hx. unfold drop_outcome. destruct (ic_proxy c) as [p|] eqn:Ep.
  2:{ exists ERROR_NONE, w. split; [done|]. split_and!; try done. left. split; [done|]. split; [done|]. rewrite set_proxy_none by done. by rewrite insert_id. }
  destruct (Hx p eq_refl) as (x & Hxp & Ho). assert (locks (datarefs_of w)) as Hl by (split; [apply (ct_lock _ _ Hw)|done]).
  destruct (ds_tried_same (datarefs_of w)) as (Et & Er & Ei & Ecl). pose proof (ds_tried_calmer (datarefs_of w)) as Hcalm.
  pose proof (drop_dataproxy_eq p x (datarefs_of w) Hxp) as E. unfold locked_outcome in E. rewrite (locks_error _ Hl) in E. change (ERROR_NONE =? ERROR_NONE) with true in E. cbv iota in E.
  pose proof (dropping_ok (ds_tried (datarefs_of w)) p x (datarefs_ok_tried _ Hd)) as Hd'. rewrite Et in Hd'. specialize (Hd' Hxp).
  unfold dropping in E, Hd'. destruct (Z.eqb_spec (dp_state x) DATAPROXY_STATE_REGISTERED) as [Hst|Hst]; cbn [negb snd] in E, Hd'; cbv iota in E, Hd'.
  - erewrite bind_eq by exact (in_datarefs_run _ _ _ _ E). change (ERROR_NONE =? ERROR_NONE) with true. unfold when. set (r := put_proxy p (dp_dropped x) (ds_tried (datarefs_of w))) in *.
    assert (calm_tasks (with_datarefs r w) tss) as Hw1 by by apply tasks_datarefs.
    destruct (update_drci_run (with_datarefs r w) tss q (set_ic_proxy None) c Hw1 Hc) as (w2 & E2 & [Hw2 Hc2 Ht2 Hr2] & _). erewrite bind_eq by exact E2.
    exists ERROR_NONE, w2. split; [done|]. pose proof (registry_parts_same _ _ Hr2) as (R1 & R2 & _). split; [done|].
    split; [apply (drci_datarefs_kept (with_datarefs r w)); [done|by rewrite (dl_get _ _ drci_datarefs_lens)]|]. split; [rewrite R1; simpl; by rewrite Er|]. split; [done|].
    left. split; [done|]. split; [|done]. rewrite R2. simpl. rewrite Et. simpl. rewrite <-(insert_id _ _ _ Hxp) at 2. by rewrite alter_insert_eq.
  - erewrite bind_eq by exact (in_datarefs_run _ _ _ _ E). change (DATAPROXY_ERROR_INVALID_STATE =? ERROR_NONE) with false. unfold when. erewrite bind_eq by reflexivity.
    exists DATAPROXY_ERROR_INVALID_STATE. eexists. split; [done|]. split; [by apply tasks_datarefs|]. split; [by rewrite (dl_get _ _ drci_datarefs_lens)|].
    split; [simpl; by rewrite Er|]. split; [done|]. right. split; [done|]. split; [exact Et|]. split; [done|]. exists p, x. split; [done|]. split; [done|]. by destruct Ho.
Qed.

(** Only a dataref whose registration failed cannot be given up. *)
Lemma drci_terminate_run w tss q c : drci_ok w tss -> ih_commands (world_data w) !! q = Some c -> addressable (ic_channel_id c) = true ->
  exists err w' tss' c', drci_terminate (Some q) w = Some (err, w') /\ drci_ok w' tss' /\ queue_kept tss tss' (ic_registration_task c) /\
    ih_commands (world_data w') = <[q := c']> (ih_commands (world_data w)) /\ ih_tasks (world_data w') = ih_tasks (world_data w) /\
    (err = ERROR_NONE /\ c' = drci_ended c /\ ih_proxies (world_data w') = proxies_dropped (ic_proxy c) (ih_proxies (world_data w)) \/
     err = DATAPROXY_ERROR_INVALID_STATE /\ c' = set_ic_task None c /\ ih_proxies (world_data w') = ih_proxies (world_data w) /\
     exists p x, ic_proxy c = Some p /\ ih_proxies (world_data w) !! p = Some x /\ dp_state x = DATAPROXY_STATE_RESERVED).
Proof.
  intros Hok Hc Ha. pose proof (do_commands _ _ Hok q c Hc) as Hco. pose proof Hco as [Hlk Hlive Hend Htask Hproxy Hunr]. unfold drci_terminate.
  erewrite bind_eq by by apply load_drci_eq. unfold finish_channel.
  destruct (tasks_act w tss (fun st => if is_initial st then CHANNEL_ACTION_ACK_CLOSE else CHANNEL_ACTION_CLOSE) (lit "failed to finish channel")
    (ic_channel_id c) CURRENT_TIME_REFERENCE None (do_calm _ _ Hok) Ha) as (err1 & w1 & E1 & Hw1 & Hd1). erewrite bind_eq by exact E1.
  assert (ih_commands (world_data w1) !! q = Some c) as Hc1 by by rewrite Hd1. erewrite bind_eq by by apply load_drci_eq.
  destruct (drci_task_ends w1 tss q c Hw1 Hc1) as (w2 & tss' & E2 & Hb2 & Hq); [intros t Ht; by apply (Htask t Ht)|]. erewrite bind_eq by exact E2.
  change (negb (ERROR_NONE =? ERROR_NONE)) with false. cbv iota. pose proof (drci_becomes_at _ _ _ _ _ Hb2) as Hc2. erewrite bind_eq by by apply load_drci_eq.
  destruct Hb2 as [Hw2 Hcs2 Ht2 Hr2]. rewrite Hd1 in Hcs2, Ht2, Hr2. pose proof (registry_parts_same _ _ Hr2) as (R1 & R2 & _).
  destruct (drci_drop_run w2 tss' q (set_ic_task None c) Hw2) as (err3 & w3 & E3 & Hw3 & Hd3 & Hp3 & Ht3 & Hout).
  { apply (drci_datarefs_kept w); [done|apply Hok]. } { rewrite R1. apply Hok. } { done. }
  { rewrite R2. intros p Hp. destruct (Hproxy p Hp) as (x & Hx & Hh). exists x. split; [done|]. by eapply hosts_owned. }
  erewrite bind_eq by exact E3. rewrite R1 in Hp3. rewrite R2, Hcs2 in Hout. rewrite (do_pending _ _ Hok) in Hp3. rewrite Ht2 in Ht3.
  (* the other commands *)
  assert (forall w' tss0, queue_kept tss tss0 (ic_registration_task c) -> ih_tasks (world_data w') = ih_tasks (world_data w) ->
    (forall p x, ih_proxies (world_data w) !! p = Some x -> Some p <> ic_proxy c -> ih_proxies (world_data w') !! p = Some x) ->
    forall q2 c2, q2 <> q -> ih_commands (world_data w) !! q2 = Some c2 -> drci_command_ok w tss q2 c2 -> drci_command_ok w' tss0 q2 c2) as Hothers.
  { intros w' tss0 [_ Hk] Et Ep q2 c2 Hne Hc2' Hok2. eapply drci_command_frame; [exact Hok2|by rewrite Et| |].
    - intros t ts Htc Hts Hin. apply (Hk t ts Hts Hin). intros Heq. destruct (Htask t (eq_sym Heq)) as [Htq _]. destruct (ci_task _ _ _ _ Hok2 t Htc) as [Htq2 _]. congruence.
    - intros p x Hpc Hx Href _. apply Ep; [done|]. intros Heq. destruct (Hproxy p (eq_sym Heq)) as (x' & Hx' & Hh). destruct Hh. congruence. }
  destruct Hout as [(-> & Hpx & Hcs3)|(-> & Hpx & Hcs3 & Hres)].
  - change (negb (ERROR_NONE =? ERROR_NONE)) with false. cbv iota. rewrite insert_insert_eq in Hcs3.
    assert (ih_commands (world_data w3) !! q = Some (set_ic_proxy None (set_ic_task None c))) as Hc3 by (rewrite Hcs3; apply lookup_insert_eq).
    erewrite bind_eq by by apply load_drci_eq. cbv zeta. destruct (update_drci_run w3 tss' q (set_ic_channel_id BAD_CHANNEL_ID) _ Hw3 Hc3) as (w4 & E4 & [Hw4 Hcs4 Ht4 Hr4] & _).
    erewrite bind_eq by exact E4. destruct (tasks_request_destruction w4 tss' (ic_channel_id c) Hw4 Ha) as (w5 & E5 & Hw5 & Hd5). erewrite bind_eq by exact E5.
    fold (drci_ended c) in Hcs4. rewrite Hcs3, insert_insert_eq in Hcs4. pose proof (registry_parts_same _ _ Hr4) as (R41 & R42 & _).
    exists ERROR_NONE, w5, tss', (drci_ended c). split; [done|]. rewrite Hd5, Ht4, Ht3. rewrite R42, Hpx. change (ic_proxy (set_ic_task None c)) with (ic_proxy c).
    split; [|by split_and!; auto].
    eapply (drci_ok_update w w5 tss tss' q (drci_ended c)); [exact Hok|done|apply Hq| |by rewrite Hd5, R41|by rewrite Hd5| | |]; rewrite ?Hd5.
    + apply (drci_datarefs_kept w3); [by rewrite Hd5|done].
    + split; [exact Hlk|done|done|done|done|done].
    + apply Hothers; [done|congruence|]. rewrite Hd5, R42, Hpx. change (ic_proxy (set_ic_task None c)) with (ic_proxy c). intros p x Hx Hne.
      unfold proxies_dropped. destruct (ic_proxy c) as [p0|]; [|done]. rewrite lookup_alter_ne; [done|congruence].
    + rewrite R42, Hpx. change (ic_proxy (set_ic_task None c)) with (ic_proxy c). intros p x Hx Ho. right.
      assert (ih_proxies (world_data w) !! p = Some x /\ Some p <> ic_proxy c) as [Hx0 Hpne].
      { unfold proxies_dropped in Hx. destruct (ic_proxy c) as [p0|]; [|done]. destruct (decide (p0 = p)) as [->|Hne]; [|rewrite lookup_alter_ne in Hx by done; split; [done|congruence]].
        rewrite lookup_alter_eq in Hx. destruct (ih_proxies (world_data w) !! p) as [x0|]; [|done]. simpl in Hx. injection Hx as <-. by destruct Ho. }
      destruct (do_owned _ _ Hok p x Hx0 Ho) as (q2 & c2 & Hr & Hc2' & Hp2). exists q2. split; [|done]. intros ->. congruence.
  - change (negb (DATAPROXY_ERROR_INVALID_STATE =? ERROR_NONE)) with true. cbv iota. exists DATAPROXY_ERROR_INVALID_STATE, w3, tss', (set_ic_task None c).
    split; [done|]. rewrite Hcs3, Ht3, Hpx. destruct Hres as (p & x & Hpc & Hx & Hst). change (ic_proxy (set_ic_task None c)) with (ic_proxy c) in Hpc.
    destruct (Hproxy p Hpc) as (x' & Hx' & Hh). assert (x' = x) as -> by congruence.
    assert (ic_failed c = true) as Hf by (destruct (hs_state _ _ _ Hh) as [[E _]|(_ & _ & ?)]; [by rewrite Hst in E|done]).
    split; [|split_and!; [done..|]; right; split_and!; [done..|]; by exists p, x].
    eapply (drci_ok_update w w3 tss tss' q (set_ic_task None c)); [exact Hok|done|apply Hq|done|done|done| | |].
    + split; [exact Hlk| |by intros ?; simpl in *; congruence|done| |intros Ep; simpl in Ep; congruence].
      * intros _. destruct (Hlive Ha) as [Ho Hv Hn _]. split; [done..|]. intros _. by right.
      * simpl. rewrite Hpx. intros p' Hp'. assert (p' = p) as -> by congruence. exists x. split; [done|]. by destruct Hh.
    + apply Hothers; [done|done|]. rewrite Hpx. done.
    + rewrite Hpx. intros p' y Hy Ho. destruct (do_owned _ _ Hok p' y Hy Ho) as (q2 & c2 & Hr & Hc2' & Hp2). destruct (decide (q2 = q)) as [->|Hne]; [left|right; by exists q2].
      split; [done|]. simpl. congruence.
Qed.
End Lifecycle.
