(* ===== verification/DrciRegistration.v ===== *)
(** The registration of a dataref: what the flight loop makes of a command, and what the
    end of a round of flight loops does ([Drci.drci_process]). *)

From S2P Require Import Prelude CLib Utils Hashmap Channels Requests Lists Prealloc Arrays Protocol TaskSchedule Network Command Session Server ServerCommands Beside CalmWorld CmtrTimers Dataproxy DataproxyLifecycle DatarefSystem DrqvValues Drci DrciValues DrciAccess DrciLifecycle.

Section Registration.
Context `{DataTypes} `{FloatText} `{NumberConversions} {C : Type} `{ConnectionLaws C}.
Context (XPLMRegisterDataAccessor_result : list accessor_call -> cstr -> Z -> Z) (datarefeditor_found : list cstr -> bool).
Abbreviation W := (world C (ext drci_state)).
Abbreviation proxy_t := (dataproxy_t drci_operation).
Implicit Types (q p t : loc) (w : W) (c : command_drci_t) (tss : list (list loc)) (x : proxy_t) (r : datarefs drci_operation).

(** A command gets a proxy. *)
Lemma drci_ok_hosts w w' tss q c c' p x : drci_ok w tss -> ih_commands (world_data w) !! q = Some c -> ic_proxy c = None ->
  calm_tasks w' tss -> datarefs_ok (datarefs_of w') -> dr_destruction_pending (ih_registry (world_data w')) = false ->
  ih_commands (world_data w') = <[q := c']> (ih_commands (world_data w)) -> ih_tasks (world_data w') = ih_tasks (world_data w) ->
  ih_proxies (world_data w') = <[p := x]> (ih_proxies (world_data w)) -> (forall y, ih_proxies (world_data w) !! p = Some y -> ~ owned y) ->
  hosts q c' x -> drci_live c' -> ic_lock c' = 0 -> addressable (ic_channel_id c') = true -> ic_registration_task c' = ic_registration_task c -> ic_proxy c' = Some p ->
  drci_ok w' tss.
Proof.
  intros Hok Hc Hnone Hw Hd Hpe Hcs Ht Hp Hold Hh Hlive Hlk Ha Htask Hpc.
  eapply drci_ok_update; [exact Hok|done|done|done|done|exact Hcs| | |].
  - split; [done|done|congruence| | |by rewrite Hpc].
    + intros t. rewrite Htask, Ht. apply (ci_task _ _ _ _ (do_commands _ _ Hok q c Hc)).
    + intros p'. rewrite Hpc. intros [= <-]. exists x. by rewrite Hp, lookup_insert_eq.
  - intros q2 c2 _ _ Hc2. eapply drci_command_frame; [exact Hc2|by rewrite Ht|by eauto|]. intros p2 y _ Hy _ Ho. rewrite Hp, lookup_insert_ne; [done|].
    intros <-. by apply (Hold y).
  - intros p2 y. rewrite Hp, lookup_insert_Some. intros [[<- <-]|[Hne Hy]] Ho; [left; split; [apply Hh|done]|right].
    destruct (do_owned _ _ Hok p2 y Hy Ho) as (q2 & c2 & Hr & Hc2 & Hp2). exists q2. split; [|done]. intros ->. congruence.
Qed.

(** ** The registry *)

Definition drci_reserved q c name : proxy_t :=
  reserved_proxy name (io_types (ic_options c)) (io_write_permission (ic_options c)) (Some q) (Some (ic_session c)) drci_dataproxy_operations.

(** The proxies after an attempt to reserve. *)
Lemma drci_reserve_run w tss q c name : drci_ok w tss -> no_nul name ->
  exists o r, reserve_dataproxy (Some name) (io_types (ic_options c)) (io_write_permission (ic_options c)) (Some q) (Some (ic_session c)) drci_dataproxy_operations
      (datarefs_of w) = Some (o, r) /\ datarefs_ok r /\ ds_same (datarefs_of w) r /\
    match o with
    | Some p => ds_proxies r = <[p := drci_reserved q c name]> (ih_proxies (world_data w)) /\ (forall y, ih_proxies (world_data w) !! p = Some y -> ~ owned y)
    | None => ds_proxies r = ih_proxies (world_data w)
    end.
Proof.
  intros Hok Hn. destruct (reserve_dataproxy_run (datarefs_of w) name (io_types (ic_options c)) (io_write_permission (ic_options c)) (Some q) (Some (ic_session c))
    drci_dataproxy_operations (do_datarefs _ _ Hok) Hn) as (o & r & E & Hr & Hs & Hres & _). exists o, r. split; [done|]. split; [done|]. split; [done|].
  destruct o as [p|]; [|apply Hres]. destruct Hres as (Hp & Hun & Hname & _). split; [exact Hp|]. intros y Hy Ho.
  destruct (Hun p y Hy (Hname y Hy)) as [E2|E2]; unfold owned in Ho; rewrite E2 in Ho; by destruct Ho.
Qed.

(** An accessor that is registered for a proxy. *)
Definition drci_registered (dataref : Z) x : proxy_t := set_dp_state DATAPROXY_STATE_REGISTERED (set_dp_xp_dataref dataref x).

Lemma drci_register_run r p x : new_datarefs XPLMRegisterDataAccessor_result -> datarefs_ok r -> locks r -> ds_proxies r !! p = Some x -> dp_state x = DATAPROXY_STATE_RESERVED ->
  exists err r', register_dataproxy XPLMRegisterDataAccessor_result (Some p) r = Some (err, r') /\ datarefs_ok r' /\ ds_same r r' /\
    (err = ERROR_NONE /\ (exists dataref, dataref <> NO_XP_DATAREF /\ ds_proxies r' = <[p := drci_registered dataref x]> (ds_proxies r)) \/
     err = DATAPROXY_ERROR_REGISTRATION_FAILED /\ ds_proxies r' = ds_proxies r).
Proof.
  intros Hnew Hr Hl Hp Hst. pose proof (register_dataproxy_eq XPLMRegisterDataAccessor_result p x r Hp (proj1 (do_named _ Hr p x Hp))) as E.
  unfold locked_outcome in E. rewrite (locks_error _ Hl) in E. change (ERROR_NONE =? ERROR_NONE) with true in E. cbv iota in E.
  destruct (registered_run XPLMRegisterDataAccessor_result r p x Hnew Hr Hp) as (Hr' & Hs & He & Hcase). set (o := registering_dataref _ p x (ds_tried r)) in *.
  exists o.1, o.2. split; [by rewrite <-surjective_pairing|]. split; [done|]. split; [by etransitivity; [apply ds_tried_sames|]|].
  cbn [unlocked_error] in He. rewrite Hst in He. change (negb (DATAPROXY_STATE_RESERVED =? DATAPROXY_STATE_RESERVED)) with false in He. cbv iota in He.
  destruct (_ =? NO_XP_DATAREF).
  - right. rewrite He in Hcase. split; [done|]. exact Hcase.
  - left. rewrite He in Hcase. split; [done|]. destruct Hcase as (x' & Hedge & Hp'). inversion Hedge; subst. by eexists.
Qed.

(** ** The flight loop *)

(** X-Plane has an accessor of the dataref: with its name, its types, and whether X-Plane
    may write. *)
Definition drci_offered w c p : Prop :=
  exists x accs name, ih_proxies (world_data w) !! p = Some x /\ ic_dataref_name c = Some name /\ accessors (ih_calls (world_data w)) = Some accs /\
    accs !! dp_xp_dataref x = Some (name, io_types (ic_options c), if io_write_permission (ic_options c) =? DATAPROXY_PERMISSION_ALL then 1 else 0, p).

Lemma hosts_offered w tss q c p x : drci_ok w tss -> ih_proxies (world_data w) !! p = Some x -> hosts q c x -> dp_state x = DATAPROXY_STATE_REGISTERED -> drci_offered w c p.
Proof.
  intros Hok Hp Hh Hst. destruct (xplane_accessor _ p x (do_datarefs _ _ Hok) Hp Hst) as (accs & name & E & Hn & Ha). exists x, accs, name.
  destruct Hh as [_ _ Ht Hn' _ Hw _]. unfold writable in Ha. rewrite Ht, Hw in Ha. split_and!; try done. congruence.
Qed.

Lemma drci_error_becomes w tss q c message : calm_tasks w tss -> ih_commands (world_data w) !! q = Some c -> addressable (ic_channel_id c) = true ->
  exists err w', error_channel (ic_channel_id c) CURRENT_TIME_REFERENCE message w = Some (err, w') /\ drci_becomes w w' tss q c.
Proof.
  intros Hw Hc Ha. destruct (tasks_error w tss (ic_channel_id c) CURRENT_TIME_REFERENCE message Hw Ha) as (err & w' & E & Hw' & Hd). exists err, w'. split; [done|].
  by apply drci_becomes_data.
Qed.

(** The command has failed, and the client is told. *)
Lemma drci_fails_run w tss q c message : calm_tasks w tss -> ih_commands (world_data w) !! q = Some c -> addressable (ic_channel_id c) = true ->
  exists w', (_ ← update_drci q set_ic_failed; _ ← error_channel (ic_channel_id c) CURRENT_TIME_REFERENCE (Some message); mret tt) w = Some (tt, w') /\
    drci_becomes w w' tss q (set_ic_failed c).
Proof.
  intros Hw Hc Ha. destruct (update_drci_run w tss q set_ic_failed c Hw Hc) as (w1 & E1 & Hb1 & _). erewrite bind_eq by exact E1.
  destruct (drci_error_becomes w1 tss q (set_ic_failed c) (Some message) (db_calm _ _ _ _ _ Hb1) (drci_becomes_at _ _ _ _ _ Hb1) Ha) as (err & w2 & E2 & Hb2).
  erewrite bind_eq by exact E2. exists w2. split; [done|]. by eapply drci_becomes_trans.
Qed.

Lemma notify_datarefeditor_run w tss q c name : calm_tasks w tss -> ih_commands (world_data w) !! q = Some c -> ic_dataref_name c = Some name ->
  exists w' l, notify_datarefeditor datarefeditor_found q w = Some (tt, w') /\ calm_tasks w' tss /\ world_data w' = set_ih_notified l (world_data w) /\
    w_connection w' = w_connection w /\ forall id, state_of w' id = state_of w id.
Proof.
  intros Hw Hc Hn. unfold notify_datarefeditor. erewrite bind_eq by reflexivity. destruct (datarefeditor_found _).
  - erewrite bind_eq by by apply load_drci_eq. rewrite Hn. erewrite bind_eq by reflexivity. eexists _, _. split; [reflexivity|]. split; [by apply tasks_data|done].
  - exists w, (ih_notified (world_data w)). split; [done|]. split; [done|]. split; [by destruct (world_data w)|done].
Qed.

(** What a flight loop makes of a command that waits for its registration: it is
    offered to X-Plane and confirmed, unless the confirmation fails; or the client is told
    that it could not be. *)
Inductive drci_looped w w' c c' : Prop :=
  | looped_unavailable : c' = set_ic_failed (set_ic_proxy None c) -> ih_proxies (world_data w') = ih_proxies (world_data w) -> drci_looped w w' c c'
  | looped_refused p x : c' = set_ic_failed (set_ic_proxy (Some p) c) -> ih_proxies (world_data w') !! p = Some x -> dp_state x = DATAPROXY_STATE_RESERVED -> drci_looped w w' c c'
  | looped_offered p err : drci_offered w' c p ->
      (if err =? ERROR_NONE then c' = set_ic_registered (set_ic_proxy (Some p) c) /\ state_of w' (ic_channel_id c) = Some CHANNEL_STATE_CONFIRMED /\
         exists time, 0 <= time /\ conn_queued (w_connection w') = conn_queued (w_connection w) ++
           format_message (message_of (ic_channel_id c) CHANNEL_STATE_INITIAL CHANNEL_ACTION_ACK_CONTINUE time None)
       else c' = set_ic_failed (set_ic_registered (set_ic_proxy (Some p) c))) -> drci_looped w w' c c'.

Lemma drci_flightloop_run w tss q c : new_datarefs XPLMRegisterDataAccessor_result -> drci_ok w tss -> ih_commands (world_data w) !! q = Some c ->
  addressable (ic_channel_id c) = true ->
  exists w' c', drci_process_flightloop XPLMRegisterDataAccessor_result datarefeditor_found q w = Some (tt, w') /\ drci_ok w' tss /\
    ih_commands (world_data w') = <[q := c']> (ih_commands (world_data w)) /\ ih_tasks (world_data w') = ih_tasks (world_data w) /\
    (if ic_failed c || ic_registered c then w' = w /\ c' = c else drci_looped w w' c c').
Proof.
  intros Hnew Hok Hc Ha. unfold drci_process_flightloop. erewrite bind_eq by by apply load_drci_eq. destruct (ic_failed c || ic_registered c) eqn:Hdone.
  { exists w, c. split; [done|]. split; [done|]. by rewrite insert_id. }
  apply orb_false_iff in Hdone as [Hf Hreg]. pose proof (do_commands _ _ Hok q c Hc) as Hco. destruct (ci_live _ _ _ _ Hco Ha) as [Hopt Hval (name & Hname & Hnn) Hsch].
  assert (ic_proxy c = None) as Hnone.
  { destruct (ic_proxy c) as [p|] eqn:Ep; [|done]. destruct (ci_proxy _ _ _ _ Hco p Ep) as (x & _ & Hh). destruct (hs_state _ _ _ Hh) as [[_ ?]|(_ & _ & ?)]; congruence. }
  rewrite Hname. destruct (drci_reserve_run w tss q c name Hok Hnn) as (o & r & Er & Hr & Hsr & Hres). erewrite bind_eq by exact (in_datarefs_run _ _ _ _ Er).
  assert (calm_tasks (with_datarefs r w) tss) as Hw1 by (apply tasks_datarefs; [apply Hsr|apply Hok]).
  assert (dr_destruction_pending (ds_registry r) = false) as Hpr by (rewrite (sm_pending _ _ Hsr); apply (do_pending _ _ Hok)).
  destruct (update_drci_run (with_datarefs r w) tss q (set_ic_proxy o) c Hw1 Hc) as (w2 & E2 & Hb2 & Hss2). erewrite bind_eq by exact E2.
  pose proof (drci_becomes_at _ _ _ _ _ Hb2) as Hc2. destruct Hb2 as [Hw2 Hcs2 Ht2 Hr2]. pose proof (registry_parts_same _ _ Hr2) as (R21 & R22 & R23 & R24 & _).
  assert (datarefs_ok (datarefs_of w2)) as Hd2 by (apply (drci_datarefs_kept (with_datarefs r w)); [done|by rewrite (dl_get _ _ drci_datarefs_lens)]).
  destruct o as [p|].
  2:{ destruct (drci_fails_run w2 tss q _ (lit "dataproxy could not be reserved (is the dataref already claimed?)") Hw2 Hc2 Ha) as (w3 & E3 & [Hw3 Hcs3 Ht3 Hr3]).
      pose proof (registry_parts_same _ _ Hr3) as (R31 & R32 & _). eexists w3, _. split; [exact E3|]. rewrite Hcs3, Hcs2, insert_insert_eq, Ht3, Ht2. change (ih_commands _) with (ih_commands (world_data w)).
      assert (ih_proxies (world_data w3) = ih_proxies (world_data w)) as Hp3 by (rewrite R32, R22; exact Hres).
      split; [|split; [done|split; [done|by apply looped_unavailable]]].
      eapply (drci_ok_update w w3 tss tss q); [exact Hok|done|done|by apply (drci_datarefs_kept w2)|by rewrite R31, R21|by rewrite Hcs3, Hcs2, insert_insert_eq| | |].
      - split; try done; [apply (ci_lock _ _ _ _ Hco)|intros _; split; [done..|by eexists|by right]|simpl; congruence|simpl; rewrite Ht3, Ht2; apply (ci_task _ _ _ _ Hco)].
      - intros q2 c2' _ _ Hok2. eapply drci_command_frame; [exact Hok2|by rewrite Ht3, Ht2|by eauto|by rewrite Hp3].
      - rewrite Hp3. intros p y Hy Ho. destruct (do_owned _ _ Hok p y Hy Ho) as (q2 & c2' & Hrf & Hc2' & Hp2). right. exists q2. split; [|done]. intros ->. congruence. }
  destruct Hres as (Hp & Hold). assert (locks (datarefs_of w2)) as Hl2.
  { split; [apply (ct_lock _ _ Hw2)|]. change (dr_destruction_pending (ih_registry (world_data w2)) = false). by rewrite R21. }
  assert (ds_proxies (datarefs_of w2) = <[p := drci_reserved q c name]> (ih_proxies (world_data w))) as Hp2 by (simpl; by rewrite R22).
  destruct (drci_register_run (datarefs_of w2) p (drci_reserved q c name) Hnew Hd2 Hl2) as (err & r3 & E3 & Hd3 & Hsr3 & Hreg3); [rewrite Hp2; apply lookup_insert_eq|done|].
  erewrite bind_eq by exact (in_datarefs_run _ _ _ _ E3). set (w3 := with_datarefs r3 w2) in *.
  assert (calm_tasks w3 tss) as Hw3 by (apply tasks_datarefs; [apply Hsr3|done]).
  assert (datarefs_ok (datarefs_of w3)) as Hd3' by (unfold w3; by rewrite (dl_get _ _ drci_datarefs_lens)).
  assert (dr_destruction_pending (ih_registry (world_data w3)) = false) as Hpe3 by (change (dr_destruction_pending (ds_registry r3) = false); rewrite (sm_pending _ _ Hsr3); apply Hl2).
  assert (ih_commands (world_data w3) = <[q := set_ic_proxy (Some p) c]> (ih_commands (world_data w))) as Hcs3 by exact Hcs2.
  assert (ih_tasks (world_data w3) = ih_tasks (world_data w)) as Ht3 by exact Ht2. assert (ih_commands (world_data w3) !! q = Some (set_ic_proxy (Some p) c)) as Hc3 by exact Hc2.
  destruct Hreg3 as [(-> & dataref & Hdr & Hp3)|(-> & Hp3)].
  2:{ change (negb (DATAPROXY_ERROR_REGISTRATION_FAILED =? ERROR_NONE)) with true. cbv iota.
      destruct (drci_fails_run w3 tss q _ (lit "dataref could not be registered") Hw3 Hc3 Ha) as (w4 & E4 & [Hw4 Hcs4 Ht4 Hr4]).
      pose proof (registry_parts_same _ _ Hr4) as (R41 & R42 & _). rewrite Hcs3, insert_insert_eq in Hcs4.
      assert (ih_proxies (world_data w4) = <[p := drci_reserved q c name]> (ih_proxies (world_data w))) as Hp4 by (rewrite R42; unfold w3; simpl; by rewrite Hp3, Hp2).
      eexists w4, _. split; [exact E4|]. split; [|split; [exact Hcs4|split; [congruence|eapply looped_refused; [done|rewrite Hp4; apply lookup_insert_eq|done]]]].
      eapply (drci_ok_hosts w w4 tss q c); [exact Hok|done|done|done|by apply (drci_datarefs_kept w3)|by rewrite R41|exact Hcs4|congruence|exact Hp4|exact Hold| |
        split; [done..|by eexists|by right]|apply (ci_lock _ _ _ _ Hco)|done|done|done].
      split; try done. right. split_and!; done. }
  change (negb (ERROR_NONE =? ERROR_NONE)) with false. cbv iota.
  destruct (update_drci_run w3 tss q set_ic_registered _ Hw3 Hc3) as (w4 & E4 & [Hw4 Hcs4 Ht4 Hr4] & (Ecn4 & Est4 & _)). erewrite bind_eq by exact E4.
  rewrite Hcs3, insert_insert_eq in Hcs4. pose proof (registry_parts_same _ _ Hr4) as (R41 & R42 & _).
  assert (ih_commands (world_data w4) !! q = Some (set_ic_registered (set_ic_proxy (Some p) c))) as Hc4 by (rewrite Hcs4; apply lookup_insert_eq).
  destruct (tasks_act w4 tss (fun _ => CHANNEL_ACTION_ACK_CONTINUE) (lit "failed to confirm channel") (ic_channel_id c) CURRENT_TIME_REFERENCE None Hw4 Ha) as (err & w5 & E5 & Hw5 & Hd5).
  unfold confirm_channel. erewrite bind_eq by exact E5. set (cr := set_ic_registered (set_ic_proxy (Some p) c)) in *.
  set (c' := if err =? ERROR_NONE then cr else set_ic_failed cr).
  assert (exists w6, when (negb (err =? ERROR_NONE)) (update_drci q set_ic_failed) w5 = Some (tt, w6) /\ drci_becomes w4 w6 tss q c' /\
    w_connection w6 = w_connection w5 /\ forall id, state_of w6 id = state_of w5 id) as (w6 & E6 & Hb6 & Ecn6 & Est6).
  { unfold c'. destruct (err =? ERROR_NONE); red_if; unfold when.
    - exists w5. split; [done|]. split; [by apply drci_becomes_data|done].
    - destruct (update_drci_run w5 tss q set_ic_failed cr Hw5) as (w6 & E6 & [X1 X2 X3 X4] & (? & ? & _)); [by rewrite Hd5|]. exists w6. split; [done|]. rewrite Hd5 in X2, X3, X4. by split. }
  erewrite bind_eq by exact E6. pose proof (drci_becomes_at _ _ _ _ _ Hb6) as Hc6. destruct Hb6 as [Hw6 Hcs6 Ht6 Hr6]. rewrite Hcs4, insert_insert_eq in Hcs6.
  pose proof (registry_parts_same _ _ Hr6) as (R61 & R62 & _). assert (ic_dataref_name c' = Some name) as Hn' by (unfold c'; by destruct (err =? ERROR_NONE)).
  destruct (notify_datarefeditor_run w6 tss q c' name Hw6 Hc6 Hn') as (w7 & l & E7 & Hw7 & Hd7 & Ecn7 & Est7). exists w7, c'. split; [exact E7|]. rewrite Hd7.
  assert (ih_proxies (world_data w6) = <[p := drci_registered dataref (drci_reserved q c name)]> (ih_proxies (world_data w))) as Hp6.
  { rewrite R62, R42. unfold w3. simpl. by rewrite Hp3, Hp2, insert_insert_eq. }
  assert (hosts q c' (drci_registered dataref (drci_reserved q c name))) as Hhosts.
  { unfold c'. destruct (err =? ERROR_NONE); (split; try done; by left). }
  assert (drci_live c') as Hlive' by (unfold c'; destruct (err =? ERROR_NONE); split; simpl; [done..|by eexists|auto|done|done|by eexists|auto]).
  assert (drci_ok w7 tss) as Hok7.
  { eapply (drci_ok_hosts w w7 tss q c c' p); [exact Hok|done|done|done| |rewrite Hd7; simpl; by rewrite R61, R41|rewrite Hd7; exact Hcs6|rewrite Hd7; simpl; congruence|rewrite Hd7; exact Hp6|exact Hold|done|done|..].
    - eapply (datarefs_ok_same (datarefs_of w6)); [by simpl; rewrite Hd7..|]. by apply (drci_datarefs_kept w4), (drci_datarefs_kept w3).
    - unfold c'. destruct (err =? ERROR_NONE); apply (ci_lock _ _ _ _ Hco).
    - unfold c'. by destruct (err =? ERROR_NONE).
    - unfold c'. by destruct (err =? ERROR_NONE).
    - unfold c'. by destruct (err =? ERROR_NONE). }
  split; [done|]. split; [exact Hcs6|]. split; [simpl; congruence|].
  apply (looped_offered _ _ _ _ p err).
  - assert (drci_offered w7 c' p) as Hoff by (eapply hosts_offered; [exact Hok7|rewrite Hd7; simpl; rewrite Hp6; apply lookup_insert_eq|exact Hhosts|done]).
    unfold c' in Hoff. by destruct (err =? ERROR_NONE).
  - unfold c'. destruct (Z.eqb_spec err ERROR_NONE) as [->|]; [|done]. split; [done|].
    destruct (act_on_channel_sent _ _ _ _ _ _ _ (ct_world _ _ Hw4) Ha E5) as (st & time & Hst & Htime & Hinv & Hst' & Hq & _).
    split; [by rewrite Est7, Est6|]. exists time. split; [done|]. rewrite Ecn7, Ecn6, Hq, Ecn4. destruct Hss2 as (Ecn2 & _). change (w_connection w3) with (w_connection w2). rewrite Ecn2.
    assert (st = CHANNEL_STATE_INITIAL) as -> by by destruct st. done.
Qed.

(** ** The end of the flight loops *)

(** A command whose dataref is registered needs its task no more. *)
Lemma drci_ok_unscheduled w w' tss tss' q c : drci_ok w tss -> ih_commands (world_data w) !! q = Some c -> ic_registered c = true ->
  drci_becomes w w' tss' q (set_ic_task None c) -> queue_kept tss tss' (ic_registration_task c) -> drci_ok w' tss'.
Proof.
  intros Hok Hc Hreg [Hw Hcs Ht Hr] [Hlen Hk]. pose proof (registry_parts_same _ _ Hr) as (R1 & R2 & _). pose proof (do_commands _ _ Hok q c Hc) as [Hlk Hlive Hend Htask Hproxy Hun].
  eapply (drci_ok_update w w' tss tss' q); [exact Hok|done|done|by eapply drci_datarefs_kept, do_datarefs|rewrite R1; apply Hok|exact Hcs| | |].
  - split; [done| |intros Ha; split; [done|by apply Hend]|done| |exact Hun].
    + intros Ha. destruct (Hlive Ha) as [? ? ? _]. split; [done..|]. by left.
    + intros p Hp. destruct (Hproxy p Hp) as (x & Hx & Hh). exists x. rewrite R2. split; [done|]. by destruct Hh.
  - intros q2 c2 Hne Hc2 Hok2. eapply drci_command_frame; [exact Hok2|by rewrite Ht| |by rewrite R2]. intros t ts Htc Hts Hin. apply (Hk t ts Hts Hin). intros Heq.
    destruct (Htask t (eq_sym Heq)) as [Htq _]. destruct (ci_task _ _ _ _ Hok2 t Htc) as [Htq2 _]. congruence.
  - rewrite R2. intros p x Hx Ho. destruct (do_owned _ _ Hok p x Hx Ho) as (q2 & c2 & Href & Hc2 & Hp2). destruct (decide (q2 = q)) as [->|Hne]; [left|right; by exists q2].
    split; [done|]. simpl. congruence.
Qed.

Lemma drci_post_run w tss q c t : drci_ok w tss -> ih_commands (world_data w) !! q = Some c -> ic_registration_task c = Some t ->
  exists w' tss' c', drci_process_post q w = Some (tt, w') /\ drci_ok w' tss' /\ ih_commands (world_data w') = <[q := c']> (ih_commands (world_data w)) /\
    ih_tasks (world_data w') = ih_tasks (world_data w) /\
    (if ic_failed c then c' = drci_ended c \/ c' = set_ic_task None c else c' = if ic_registered c then set_ic_task None c else c).
Proof.
  intros Hok Hc Ht. pose proof (do_commands _ _ Hok q c Hc) as Hco. unfold drci_process_post. erewrite bind_eq by by apply load_drci_eq.
  assert (addressable (ic_channel_id c) = true) as Ha.
  { destruct (addressable (ic_channel_id c)) eqn:Ha; [done|]. destruct (ci_ended _ _ _ _ Hco Ha). congruence. }
  destruct (ic_failed c).
  { destruct (drci_terminate_run w tss q c Hok Hc Ha) as (err & w1 & tss1 & c1 & E & Hok1 & _ & Hcs & Htk & Hout). erewrite bind_eq by exact E. exists w1, tss1, c1.
    split_and!; try done. destruct Hout as [(_ & ? & _)|(_ & ? & _)]; auto. }
  destruct (ic_registered c) eqn:Hreg; cbn [negb]; cbv iota; [|exists w, tss, c; split_and!; try done; by rewrite insert_id].
  rewrite Ht. destruct (ci_task _ _ _ _ Hco t Ht) as (Htq & ts & Hts & Hin).
  destruct (drci_unschedule_run w tss t ts (do_calm _ _ Hok) Hts Hin) as (w1 & tss' & E1 & Hw1 & Hd1 & Hq). erewrite bind_eq by exact E1. change (ERROR_NONE =? ERROR_NONE) with true. cbv iota.
  destruct (update_drci_run w1 tss' q (set_ic_task None) c Hw1) as (w2 & E2 & [X1 X2 X3 X4] & _); [by rewrite Hd1|]. rewrite Hd1 in X2, X3, X4. exists w2, tss', (set_ic_task None c).
  split; [done|]. split; [|done]. eapply drci_ok_unscheduled; [exact Hok|exact Hc|done|by split|]. by rewrite Ht.
Qed.

(** A task runs. *)
Lemma drci_process_run w tss q c t phase : new_datarefs XPLMRegisterDataAccessor_result -> drci_ok w tss -> ih_commands (world_data w) !! q = Some c ->
  ic_registration_task c = Some t ->
  exists w' tss' c', drci_process XPLMRegisterDataAccessor_result datarefeditor_found t phase w = Some (tt, w') /\ drci_ok w' tss' /\
    ih_commands (world_data w') = <[q := c']> (ih_commands (world_data w)) /\ ih_tasks (world_data w') = ih_tasks (world_data w).
Proof.
  intros Hnew Hok Hc Ht. pose proof (do_commands _ _ Hok q c Hc) as Hco. destruct (ci_task _ _ _ _ Hco t Ht) as (Htq & _).
  assert (addressable (ic_channel_id c) = true) as Ha.
  { destruct (addressable (ic_channel_id c)) eqn:Ha; [done|]. destruct (ci_ended _ _ _ _ Hco Ha). congruence. }
  unfold drci_process. erewrite bind_eq by reflexivity. rewrite Htq. erewrite bind_eq by reflexivity. destruct (phase =? DRCI_REGISTRATION_PHASE).
  - destruct (drci_flightloop_run w tss q c Hnew Hok Hc Ha) as (w' & c' & E & Hok' & Hcs & Htk & _). by exists w', tss, c'.
  - destruct (phase =? TASK_SCHEDULE_POST_PROCESSING).
    + destruct (drci_post_run w tss q c t Hok Hc Ht) as (w' & tss' & c' & E & Hok' & Hcs & Htk & _). by exists w', tss', c'.
    + exists w, tss, c. split_and!; try done. by rewrite insert_id.
Qed.

(** Maintenance unregisters dropped proxies only. *)
Lemma drci_maintenance_run w tss : drci_ok w tss ->
  exists err w', on_datarefs datarefs_of with_datarefs unregister_dropped_dataproxies w = Some (err, w') /\ drci_ok w' tss /\ ih_commands (world_data w') = ih_commands (world_data w).
Proof.
  intros Hok. destruct (unregister_dropped_datarefs_run (datarefs_of w) (do_datarefs _ _ Hok)) as (err & r & E & Hr & Hs & Hu & _). exists err. eexists. split; [by apply in_datarefs_run|].
  split; [|done]. apply drci_ok_registry; [done..| |].
  - intros p x Hx Ho. destruct (Hu p) as [->|(y & _ & Hy & Hst & _)]; [done|]. change (ih_proxies (world_data w) !! p = Some y) in Hy. assert (y = x) as -> by congruence.
    unfold owned in Ho. rewrite Hst in Ho. by destruct Ho.
  - intros p x Hx Ho. destruct (Hu p) as [E2|(y & _ & Hy & Hst & E2)]; [change (ds_proxies (datarefs_of w)) with (ih_proxies (world_data w)) in E2; congruence|].
    rewrite E2 in Hx. injection Hx as <-. by destruct Ho.
Qed.
End Registration.
