(* ===== verification/DrciCreation.v ===== *)
(** The creation of a command DRCI from a request ([Drci.drci_create]). *)

From S2P Require Import Prelude CLib Utils Hashmap Channels Requests Lists Prealloc Arrays Protocol TaskSchedule Network Command Session Server ServerCommands Beside CalmWorld CmtrTimers Dataproxy DataproxyLifecycle DrqvValues DrqvReading DrqvCreation Drci DrciValues DrciAccess DrciLifecycle.

(** ** The parameter *)

Section Requests.
Context `{DataTypes} `{FloatText}.

Lemma has_type_of types type mask : one_bit type -> Z.testbit mask (Z.log2 type) = true -> has_type types type = true -> has_type types mask = true.
Proof.
  intros Ht Hm Hh. rewrite has_type_bit in Hh by done. unfold has_type. apply negb_true_iff, Z.eqb_neq. intros E.
  apply (f_equal (fun z => Z.testbit z (Z.log2 type))) in E. by rewrite Z.land_spec, Hh, Hm, Z.bits_0 in E.
Qed.

Lemma has_array_type types type : Protocol.is_array_type type -> has_type types type = true -> has_type types array_types = true.
Proof.
  intros Ht. pose proof xplm_types_positive as Hpos. pose proof xplm_types_bits as Hbits. rewrite !Forall_cons in Hpos, Hbits.
  destruct Hpos as (? & ? & ? & P1 & P2 & P3 & _), Hbits as (? & ? & ? & B1 & B2 & B3 & _).
  assert (one_bit type) as Hb by (unfold one_bit; destruct Ht as [->|[->| ->]]; done). apply has_type_of; [done|].
  unfold array_types. rewrite !Z.lor_spec. pose proof (one_bit_testbit type (Z.log2 type) Hb (Z.log2_nonneg _)) as E. rewrite Z.eqb_refl in E.
  destruct Ht as [->|[->| ->]]; rewrite E; by rewrite ?orb_true_r.
Qed.

Lemma strpos_unescaped_bound s start : 0 <= start ->
  let r := strpos_unescaped (Some s) (lit ":") start in r = -1 \/ start <= r < strlen s.
Proof.
  intros Hs r. assert (r = _strpos (Some s) (Some (lit ":")) start true) as -> by reflexivity. destruct (Z.le_gt_cases (strlen s) start).
  - assert (_strpos (Some s) (Some (lit ":")) start true = -1) as E; [|left; exact E]. unfold _strpos. cbv zeta. destruct (strlen s <? strlen (lit ":")); [done|].
    rewrite (proj2 (Z.ltb_ge start 0)) by lia. by rewrite (proj2 (Z.ltb_ge start 0)), (proj2 (Z.leb_le (strlen s) start)) by lia.
  - destruct (strpos_first_at s (lit ":") start true) as [[-> _]|(Hr & Hit & _)]; [done|lia|by left|]. rewrite (proj2 (Z.ltb_ge start 0)) in Hr by lia.
    right. split; [lia|]. unfold hit in Hit. apply andb_prop in Hit as [Hm _]. apply match_at_bound in Hm; [|lia|done]. change (strlen (lit ":")) with 1 in Hm. lia.
Qed.

Lemma parse_drci_parameter_ok parameters mode types array_length offset length : parse_drci_parameter parameters mode = inr (types, array_length, offset, length) ->
  types <> 0 /\ Z.land types (Z.lnot supported_types) = 0 /\ (has_type types array_types = true -> 0 <= array_length) /\ array_length <= INT_MAX /\ 0 <= length /\
  exists parameter, parameters = [parameter].
Proof.
  unfold parse_drci_parameter. destruct parameters as [|parameter [|]]; try done. cbv zeta.
  pose proof (strpos_unescaped_bound parameter 0 ltac:(done)) as Hs1. cbv zeta in Hs1. set (s1 := strpos_unescaped _ _ 0) in *. destruct (Z.ltb_spec s1 1); [done|].
  pose proof (strpos_unescaped_bound parameter (s1 + 1) ltac:(lia)) as Hs2. cbv zeta in Hs2. set (s2 := strpos_unescaped _ _ (s1 + 1)) in *.
  set (ts := xprc_parse_types _ _). set (arrlen := if 0 <=? _ then _ else -1). destruct (has_type ts simple_types && has_type ts array_types); [done|].
  destruct ((ts =? xplmType_Unknown) || negb (Z.land ts (Z.lnot supported_types) =? 0)) eqn:E1; [done|]. apply orb_false_iff in E1 as [E1 E2%negb_false_iff].
  apply Z.eqb_neq in E1. apply Z.eqb_eq in E2. destruct (has_type ts array_types && (arrlen <? 1)); [done|]. destruct (negb _ && _); [done|].
  destruct (has_type ts xplmType_Data && _); [done|]. set (alen := if 0 <? arrlen then _ else -1). destruct (has_type ts array_types && (alen <? 0)) eqn:E3; [done|].
  destruct (has_type ts xplmType_Data && _); [done|]. intros [= <- <- _ <-]. split; [done|]. split; [done|]. split; [|split; [|split; [|by eexists]]].
  - intros Ha. rewrite Ha in E3. simpl in E3. by apply Z.ltb_ge in E3.
  - unfold alen. destruct (0 <? arrlen); [|by vm_compute]. unfold atoi. apply wrap_s_in_int.
  - destruct (Z.ltb_spec s2 0); lia.
Qed.
End Requests.

Section Creation.
Context `{DataTypes} `{FloatText} `{NumberConversions} {C : Type} `{ConnectionLaws C}.
Abbreviation W := (world C (ext drci_state)).
Implicit Types (q p t : loc) (w : W) (c : command_drci_t) (tss : list (list loc)).

(** ** Arrays *)

Lemma create_array_spec size n e : 1 <= size -> 0 <= n <= INT_MAX ->
  exists r e', create_dynamic_array (A := Z) size n e = Some (r, e') /\ calmer e e' /\ forall arr, r = Some arr -> wf_array arr.
Proof.
  intros Hs Hn. assert (wf_array (mkArray (A := Z) 0 0 size [])) as Hwf0 by by split.
  destruct (ensure_capacity_spec (mkArray (A := Z) 0 0 size []) n (alloc_rest e) Hwf0 ltac:(lia)) as (arr & e1 & ok & E & Hwf & _).
  assert (exists r e', create_dynamic_array (A := Z) size n e = Some (r, e') /\ forall arr, r = Some arr -> wf_array arr) as (r & e' & E1 & Hr).
  { unfold create_dynamic_array. rewrite (proj2 (Z.ltb_ge size 1)), (proj2 (Z.ltb_ge n 0)) by lia. cbn [orb].
    erewrite bind_eq by by apply zmalloc_eq. destruct (alloc_next e); cbn [negb]; cbv iota; [|by eexists _, _].
    erewrite bind_eq by exact E. destruct ok; eexists _, _; (split; [done|]); [by intros ? [= <-]|done]. }
  exists r, e'. split; [done|]. split; [exact (calmer_create_array _ _ _ _ _ E1)|done].
Qed.

Lemma create_values_run w tss types type size n : calm_tasks w tss -> 1 <= size -> (has_type types type = true -> 0 <= n <= INT_MAX) ->
  exists (ok : bool) arr w', create_values types type size n w = Some ((ok, arr), w') /\ calm_tasks w' tss /\ world_data w' = world_data w /\
    (ok = true -> array_ok (has_type types type) n arr).
Proof.
  intros Hw Hs Hn. unfold create_values. destruct (has_type types type); cbn [negb]; cbv iota; [|by eexists true, None, w].
  destruct (create_array_spec size n (cs_env (w_channels w)) Hs (Hn eq_refl)) as (r & e & E & Hc & Hr).
  destruct (tasks_on_env _ w tss _ _ Hw E Hc) as (E1 & Hw1 & Hd1). erewrite bind_eq by exact E1. destruct r as [arr|]; [|by eexists false, None, _].
  specialize (Hr arr eq_refl). destruct (set_length_spec arr n (cs_env (w_channels (with_env e w))) Hr ltac:(lia)) as (arr' & e' & ok & E2 & Hwf & _ & _ & Hl & _ & _).
  destruct (tasks_on_env _ (with_env e w) tss _ _ Hw1 E2 (calmer_set_length _ _ _ _ _ E2)) as (E3 & Hw2 & Hd2). erewrite bind_eq by exact E3.
  eexists ok, (Some arr'), _. split; [done|]. split; [done|]. split; [done|]. intros Ho. exists arr'. auto.
Qed.

(** ** The object *)

(** The command [q] has been made since [w0]. *)
Record drci_making w0 w tss q c : Prop := mkDrciMaking {
  dm_calm : calm_tasks w tss;
  dm_new : ih_commands (world_data w0) !! q = None;
  dm_commands : ih_commands (world_data w) = <[q := c]> (ih_commands (world_data w0));
  dm_tasks : forall t q, ih_tasks (world_data w0) !! t = Some q -> ih_tasks (world_data w) !! t = Some q;
  dm_registry : registry_parts (world_data w) = registry_parts (world_data w0);
}.

Lemma drci_making_at w0 w tss q c : drci_making w0 w tss q c -> ih_commands (world_data w) !! q = Some c.
Proof. intros []. rewrite dm_commands0. apply lookup_insert_eq. Qed.

Lemma drci_making_becomes w0 w w' tss q c c' : drci_making w0 w tss q c -> drci_becomes w w' tss q c' -> drci_making w0 w' tss q c'.
Proof. intros [] []. split; [done|done|by rewrite db_commands, dm_commands0, insert_insert_eq|by rewrite db_tasks|congruence]. Qed.

Lemma drci_making_data w0 w w' tss q c : drci_making w0 w tss q c -> calm_tasks w' tss -> world_data w' = world_data w -> drci_making w0 w' tss q c.
Proof. intros [] Hw Hd. split; rewrite ?Hd; done. Qed.

(** Nothing has come of a request. *)
Definition drci_refused w0 (result : option (error_t * option loc * W)) tss : Prop :=
  exists err w', result = Some ((err, None), w') /\ err <> ERROR_NONE /\ calm_tasks w' tss /\ ih_commands (world_data w') = ih_commands (world_data w0) /\
    (forall t q, ih_tasks (world_data w0) !! t = Some q -> ih_tasks (world_data w') !! t = Some q) /\ registry_parts (world_data w') = registry_parts (world_data w0).

Lemma drci_abandon_run w0 w tss q c out : drci_making w0 w tss q c -> drci_refused w0 (drci_abandon q out w) tss.
Proof.
  intros [Hw Hn Hcs Ht Hr]. unfold drci_abandon. erewrite bind_eq by reflexivity. eexists _, _. split; [reflexivity|].
  split; [by destruct (Z.eqb_spec out ERROR_NONE)|]. split; [by apply tasks_data|]. simpl. split; [|done]. by rewrite Hcs, delete_insert_id.
Qed.

Lemma drci_reject_run w0 w tss q c id reason out : drci_making w0 w tss q c -> addressable id = true -> drci_refused w0 (drci_reject q id reason out w) tss.
Proof.
  intros Hm Ha. unfold drci_reject. destruct (tasks_report w tss id (Some reason) (dm_calm _ _ _ _ _ Hm) Ha) as (err & w' & E & Hw' & Hd). erewrite bind_eq by exact E.
  by eapply drci_abandon_run, drci_making_data.
Qed.

Lemma drci_decline_run w tss id reason : calm_tasks w tss -> addressable id = true -> drci_refused w (decline id reason w) tss.
Proof.
  intros Hw Ha. unfold decline. destruct (tasks_report w tss id (Some reason) Hw Ha) as (err & w' & E & Hw' & Hd). erewrite bind_eq by exact E.
  exists ERROR_UNSPECIFIC, w'. by rewrite Hd.
Qed.

Lemma drci_create_arrays_run w0 w tss q c : drci_making w0 w tss q c -> drci_options_ok (ic_options c) -> io_array_length (ic_options c) <= INT_MAX ->
  exists r w' v, drci_create_arrays q w = Some (r, w') /\ drci_making w0 w' tss q (set_ic_values v c) /\ (r = None -> drci_values_ok (ic_options c) v).
Proof.
  intros Hm [_ Hlen] Hmax. unfold drci_create_arrays. erewrite bind_eq by (apply load_drci_eq; by eapply drci_making_at). cbv zeta. set (types := io_types (ic_options c)) in *.
  set (n := io_array_length (ic_options c)) in *.
  destruct (create_values_run w tss types xplmType_IntArray SIZE_XPLM_INT n (dm_calm _ _ _ _ _ Hm) ltac:(done)) as (ok1 & a1 & w1 & E1 & Hw1 & Hd1 & Ha1);
    [intros Hh; split; [eapply Hlen; [by left|done]|done]|]. erewrite bind_eq by exact E1. cbv beta iota. pose proof (drci_making_data _ _ _ _ _ _ Hm Hw1 Hd1) as Hm1.
  destruct (update_drci_run w1 tss q (fun c => set_ic_values (set_iv_ints a1 (ic_values c)) c) c Hw1 (drci_making_at _ _ _ _ _ Hm1)) as (w2 & E2 & Hb2 & _). erewrite bind_eq by exact E2.
  pose proof (drci_making_becomes _ _ _ _ _ _ _ Hm1 Hb2) as Hm2. destruct ok1; cbn [negb]; cbv iota; [|eexists _, w2, _; split; [done|]; split; [exact Hm2|done]].
  destruct (create_values_run w2 tss types xplmType_FloatArray SIZE_XPLM_FLOAT n (dm_calm _ _ _ _ _ Hm2) ltac:(done)) as (ok3 & a3 & w3 & E3 & Hw3 & Hd3 & Ha3);
    [intros Hh; split; [eapply Hlen; [by right; left|done]|done]|]. erewrite bind_eq by exact E3. cbv beta iota. pose proof (drci_making_data _ _ _ _ _ _ Hm2 Hw3 Hd3) as Hm3.
  destruct (update_drci_run w3 tss q (fun c => set_ic_values (set_iv_floats a3 (ic_values c)) c) _ Hw3 (drci_making_at _ _ _ _ _ Hm3)) as (w4 & E4 & Hb4 & _). erewrite bind_eq by exact E4.
  pose proof (drci_making_becomes _ _ _ _ _ _ _ Hm3 Hb4) as Hm4. destruct ok3; cbn [negb]; cbv iota; [|eexists _, w4, _; split; [done|]; split; [exact Hm4|done]].
  destruct (create_values_run w4 tss types xplmType_Data 1 n (dm_calm _ _ _ _ _ Hm4) ltac:(done)) as (ok5 & a5 & w5 & E5 & Hw5 & Hd5 & Ha5);
    [intros Hh; split; [eapply Hlen; [by right; right|done]|done]|]. erewrite bind_eq by exact E5. cbv beta iota. pose proof (drci_making_data _ _ _ _ _ _ Hm4 Hw5 Hd5) as Hm5.
  destruct (update_drci_run w5 tss q (fun c => set_ic_values (set_iv_blob a5 (ic_values c)) c) _ Hw5 (drci_making_at _ _ _ _ _ Hm5)) as (w6 & E6 & Hb6 & _). erewrite bind_eq by exact E6.
  pose proof (drci_making_becomes _ _ _ _ _ _ _ Hm5 Hb6) as Hm6. eexists _, w6, _. split; [done|]. split; [exact Hm6|].
  destruct ok5; [|done]. intros _. split; [by apply Ha1|by apply Ha3|by apply Ha5].
Qed.

(** ** The task *)

(** A command that was made and scheduled. *)
Definition drci_created w0 w tss q c : Prop :=
  ih_commands (world_data w0) !! q = None /\
  exists t ts, tss !! Z.to_nat DRCI_REGISTRATION_PHASE = Some ts /\ calm_tasks w (<[Z.to_nat DRCI_REGISTRATION_PHASE := ts ++ [t]]> tss) /\
    ih_commands (world_data w) = <[q := set_ic_task (Some t) c]> (ih_commands (world_data w0)) /\
    ih_tasks (world_data w) !! t = Some q /\ (forall t2 q2, ih_tasks (world_data w0) !! t2 = Some q2 -> ih_tasks (world_data w) !! t2 = Some q2) /\
    registry_parts (world_data w) = registry_parts (world_data w0).

Lemma drci_schedule_run w0 w tss q c id : drci_making w0 w tss q c -> addressable id = true -> length tss = 2%nat ->
  drci_refused w0 (drci_schedule q id w) tss \/
  exists w', drci_schedule q id w = Some ((ERROR_NONE, Some q), w') /\ drci_created w0 w' tss q c.
Proof.
  intros Hm Ha Hlen. unfold drci_schedule. destruct (tasks_zmalloc 16 w tss ltac:(done) (dm_calm _ _ _ _ _ Hm)) as (ok & w1 & E1 & Hw1 & Hd1). erewrite bind_eq by exact E1.
  pose proof (drci_making_data _ _ _ _ _ _ Hm Hw1 Hd1) as Hm1. destruct ok; cbn [negb]; cbv iota; [|left; by eapply drci_abandon_run]. clear E1 Hd1 Hm.
  erewrite bind_eq by reflexivity. cbv zeta. set (t := fresh (dom (ih_tasks (world_data w1)))).
  assert (ih_tasks (world_data w1) !! t = None) as Hfresh by (apply not_elem_of_dom, is_fresh).
  set (d2 := set_ih_tasks (<[t := q]> (ih_tasks (world_data w1))) (world_data w1)). set (w2 := set_world_data d2 w1).
  erewrite (bind_eq _ _ _ tt w2) by reflexivity. pose proof (tasks_data w1 tss d2 Hw1) as Hw2. fold w2 in Hw2.
  assert (drci_making w0 w2 tss q c) as Hm2.
  { destruct Hm1 as [_ Hn Hc Ht Hr]. split; [done|done|done| |done]. unfold w2. simpl. intros t2 q2 Ht2. rewrite lookup_insert_ne; [by apply Ht|]. intros <-. apply Ht in Ht2. congruence. }
  destruct (lookup_lt_is_Some_2 tss (Z.to_nat DRCI_REGISTRATION_PHASE)) as [ts Hts]; [rewrite Hlen; vm_compute; lia|].
  destruct (tasks_lock w2 tss Hw2) as (w3 & E3 & Hw3 & Hd3). erewrite bind_eq by exact E3.
  destruct (tasks_schedule w3 tss DRCI_REGISTRATION_PHASE ts t Hw3 eq_refl Hts) as (err & w4 & E4 & Hd4 & Hw4).
  change (ERROR_NONE =? ERROR_NONE) with true. cbv iota. destruct (Z.eqb_spec err ERROR_NONE) as [->|Herr].
  - destruct (update_drci_run w4 _ q (set_ic_task (Some t)) c Hw4) as (w5 & E5 & [X1 X2 X3 X4] & _); [rewrite Hd4, Hd3; by eapply drci_making_at|].
    destruct (tasks_unlock w5 _ X1) as (w6 & E6 & Hw6 & Hd6).
    erewrite bind_eq by (erewrite bind_eq by exact E4; change (ERROR_NONE =? ERROR_NONE) with true; unfold when; cbv iota; erewrite bind_eq by exact E5; erewrite bind_eq by exact E6; reflexivity).
    change (negb (ERROR_NONE =? ERROR_NONE)) with false. cbv iota. right. exists w6. split; [done|]. split; [apply Hm2|]. exists t, ts. split; [done|]. split; [done|].
    rewrite Hd6, X2, X3, X4, Hd4, Hd3. destruct Hm2 as [_ _ Hc2 Ht2 Hr2]. rewrite Hc2, insert_insert_eq. split; [done|]. split; [apply lookup_insert_eq|done].
  - destruct (tasks_unlock w4 _ Hw4) as (w5 & E5 & Hw5 & Hd5).
    erewrite bind_eq by (erewrite bind_eq by exact E4; rewrite (proj2 (Z.eqb_neq err ERROR_NONE)) by done; unfold when; cbv iota; erewrite bind_eq by reflexivity; erewrite bind_eq by exact E5; reflexivity).
    rewrite (proj2 (Z.eqb_neq err ERROR_NONE)) by done. cbn [negb]. cbv iota. left. apply (drci_reject_run w0 w5 tss q c); [|done].
    apply (drci_making_data w0 w2); [done|done|congruence].
Qed.

(** ** The request *)

Definition drci_mode (mode : Z) : Z := if mode =? DRCI_INTCONV_NOT_SET then DRCI_INTCONV_ROUND else mode.

(** What a request asks for. *)
Definition drci_requested (request : request_t) (o : drci_options) (name : cstr) : Prop :=
  exists write_permission echo_mode intconv_mode types array_length offset length parameter,
    parse_drci_options request = inr (write_permission, echo_mode, intconv_mode) /\
    parse_drci_parameter (req_parameters request) intconv_mode = inr (types, array_length, offset, length) /\
    o = mkDrciOptions types write_permission echo_mode (drci_mode intconv_mode) array_length /\
    req_parameters request = [parameter] /\ unescaped (slice 0 length (drop (Z.to_nat offset) parameter)) = Some name.

Lemma drci_requested_name request o name : drci_requested request o name -> no_nul name.
Proof. intros (? & ? & ? & ? & ? & ? & ? & ? & _ & _ & _ & _ & E). by eapply unescaped_no_nul. Qed.

Lemma copy_partial_unescaped_run w tss s n : calm_tasks w tss -> 0 <= n ->
  exists r w', on_env (copy_partial_unescaped_string (Some s) n) w = Some (r, w') /\ calm_tasks w' tss /\ world_data w' = world_data w /\
    (r = None \/ r = unescaped (slice 0 n s)).
Proof.
  intros Hw Hn. set (e := cs_env (w_channels w)).
  assert (copy_partial_unescaped_string (Some s) n e = Some (if alloc_next e then unescaped (slice 0 n s) else None, alloc_rest e)) as E.
  { unfold copy_partial_unescaped_string, unescaped. erewrite bind_eq by (apply zmalloc_eq; lia). unfold strlen. rewrite slice_0_all.
    destruct (alloc_next e); [|done]. by destruct (unescape_loop false (slice 0 n s)). }
  destruct (tasks_on_env _ w tss _ _ Hw E (calmer_alloc_rest _)) as (E1 & Hw1 & Hd1). eexists _, _. split; [exact E1|]. split; [done|]. split; [done|].
  destruct (alloc_next e); auto.
Qed.

(** What comes of a request: nothing, or a command as it asks for. *)
Lemma drci_create_run w tss (session : loc) request config : calm_tasks w tss -> length tss = 2%nat -> addressable (req_channel_id request) = true ->
  drci_refused w (drci_create session request config w) tss \/
  exists w' q o v name, drci_create session request config w = Some ((ERROR_NONE, Some q), w') /\ version config = DRCI_COMMAND_VERSION /\
    request_has_only_options (Some request) (Some drci_supported_options) = true /\ drci_requested request o name /\ drci_options_ok o /\ drci_values_ok o v /\
    drci_created w w' tss q (mkDrci session (req_channel_id request) 0 None (Some name) o v None false false).
Proof.
  intros Hw Hlen Ha. unfold drci_create. cbv zeta. set (id := req_channel_id request) in *.
  destruct (Z.eqb_spec (version config) DRCI_COMMAND_VERSION) as [Hv|]; cbn [negb]; cbv iota; [|left; by apply drci_decline_run].
  destruct (request_has_only_options (Some request) (Some drci_supported_options)) eqn:Hopt; cbn [negb]; cbv iota; [|left; by apply drci_decline_run].
  unfold alloc_drci. destruct (tasks_zmalloc 192 w tss ltac:(done) Hw) as (ok & w1 & E1 & Hw1 & Hd1). destruct ok.
  2:{ erewrite bind_eq by (erewrite bind_eq by exact E1; reflexivity). left. exists ERROR_MEMORY_ALLOCATION, w1. by rewrite Hd1. }
  pose proof (ct_lock _ _ Hw1) as Hl. destruct (tasks_on_env mtx_lock_result w1 tss _ _ Hw1 (mtx_lock_result_eq _)) as (E2 & Hw2 & Hd2); [split; [done|apply lock_succeeds_rest]|].
  rewrite (lock_succeeds_next _ Hl) in E2. set (w2 := with_env _ w1) in *. set (q := fresh (dom (ih_commands (world_data w2)))).
  assert (ih_commands (world_data w2) !! q = None) as Hq by (apply not_elem_of_dom, is_fresh).
  set (v0 := mkDrciValues 0 0 0 None None None). set (c0 := mkDrci session id 0 None None (mkDrciOptions 0 0 0 0 0) v0 None false false).
  set (w3 := set_world_data (set_ih_commands (<[q := c0]> (ih_commands (world_data w2))) (world_data w2)) w2).
  erewrite (bind_eq _ _ _ (inr q) w3) by (erewrite bind_eq by exact E1; cbn [negb]; cbv iota; erewrite bind_eq by exact E2; reflexivity).
  assert (drci_making w w3 tss q c0) as Hm.
  { split; [by apply tasks_data|by rewrite <-Hd1, <-Hd2|unfold w3; simpl; by rewrite Hd2, Hd1|unfold w3; simpl; by rewrite Hd2, Hd1|].
    unfold w3. change (registry_parts (world_data w2) = registry_parts (world_data w)). by rewrite Hd2, Hd1. }
  clear E1 E2 Hd1 Hd2 Hw1 Hw2 Hl. destruct (parse_drci_options request) as [reason|[[write_permission echo_mode] intconv_mode]] eqn:Hpo; [left; by eapply drci_reject_run|].
  destruct (parse_drci_parameter (req_parameters request) intconv_mode) as [reason|[[[types array_length] offset] length]] eqn:Hpp; [left; by eapply drci_reject_run|].
  destruct (parse_drci_parameter_ok _ _ _ _ _ _ Hpp) as (Hne & Hsup & Hal & Hmax & Hle & parameter & Hpar). fold (drci_mode intconv_mode).
  set (o := mkDrciOptions types write_permission echo_mode (drci_mode intconv_mode) array_length).
  assert (drci_options_ok o) as Ho by (split; [done|]; intros type Ht Hh; apply Hal; by eapply has_array_type).
  destruct (update_drci_run w3 tss q (set_ic_options o) c0 (dm_calm _ _ _ _ _ Hm) (drci_making_at _ _ _ _ _ Hm)) as (w4 & E4 & Hb4 & _). erewrite bind_eq by exact E4.
  pose proof (drci_making_becomes _ _ _ _ _ _ _ Hm Hb4) as Hm4. rewrite Hpar. cbn [head fmap option_fmap option_map].
  destruct (copy_partial_unescaped_run w4 tss (drop (Z.to_nat offset) parameter) length (dm_calm _ _ _ _ _ Hm4) Hle) as (r & w5 & E5 & Hw5 & Hd5 & Hr). erewrite bind_eq by exact E5.
  pose proof (drci_making_data _ _ _ _ _ _ Hm4 Hw5 Hd5) as Hm5. destruct r as [name|]; [|left; by eapply drci_reject_run]. destruct Hr as [|Hname]; [done|].
  destruct (update_drci_run w5 tss q (set_ic_dataref_name (Some name)) _ Hw5 (drci_making_at _ _ _ _ _ Hm5)) as (w6 & E6 & Hb6 & _). erewrite bind_eq by exact E6.
  pose proof (drci_making_becomes _ _ _ _ _ _ _ Hm5 Hb6) as Hm6.
  destruct (drci_create_arrays_run w w6 tss q _ Hm6 Ho Hmax) as (failure & w7 & v & E7 & Hm7 & Hvals). erewrite bind_eq by exact E7.
  destruct failure as [reason|]; [left; by eapply drci_reject_run|]. specialize (Hvals eq_refl).
  destruct (drci_schedule_run w w7 tss q _ id Hm7 Ha Hlen) as [?|(w8 & E8 & Hcr)]; [by left|]. right. exists w8, q, o, v, name.
  split; [done|]. split; [done|]. split; [done|]. split; [|done].
  exists write_permission, echo_mode, intconv_mode, types, array_length, offset, length, parameter. split_and!; try done; congruence.
Qed.
End Creation.
