(* ===== verification/DrciHosting.v ===== *)
(** Reads and writes of hosted datarefs, by sessions and by X-Plane: through the registry
    ([Dataproxy]) to the commands that host them ([Drci]). *)

From S2P Require Import Prelude CLib Utils Hashmap Channels Requests Lists Prealloc Arrays Protocol TaskSchedule Network Command Session Server ServerCommands Beside CalmWorld CmtrTimers Dataproxy DataproxyLifecycle DatarefSystem DrqvValues Drci DrciValues DrciAccess DrciLifecycle DrciRegistration.

Section Hosting.
Context `{DataTypes} `{FloatText} `{NumberConversions} {C : Type} `{ConnectionLaws C}.
Abbreviation W := (world C (ext drci_state)).
Abbreviation proxy_t := (dataproxy_t drci_operation).
Abbreviation in_datarefs m := (on_datarefs datarefs_of with_datarefs m).
Implicit Types (q p : loc) (w : W) (c : command_drci_t) (type : Z) (tss : list (list loc)) (x : proxy_t) (source_session : option loc).

(** The accesses. *)
Definition get_dataref := dataproxy_simple_get (datarefs_of (C := C)) with_datarefs run_simple_get.
Definition set_dataref := dataproxy_simple_set (datarefs_of (C := C)) with_datarefs run_simple_set.
Definition get_dataref_array := dataproxy_array_get (datarefs_of (C := C)) with_datarefs run_array_get.
Definition dataref_array_length := dataproxy_array_length (datarefs_of (C := C)) with_datarefs run_array_length.
Definition update_dataref_array := dataproxy_array_update (datarefs_of (C := C)) with_datarefs run_array_update.

(** * The registry around an access *)

(** Nothing has changed but the outcomes of calls to come. *)
Record undisturbed w w' tss : Prop := mkUndisturbed {
  ud_calm : calm_tasks w' tss;
  ud_commands : ih_commands (world_data w') = ih_commands (world_data w);
  ud_tasks : ih_tasks (world_data w') = ih_tasks (world_data w);
  ud_registry : registry_parts (world_data w') = registry_parts (world_data w);
  ud_session : same_session w w';
}.

Lemma undisturbed_ok w w' tss : drci_ok w tss -> undisturbed w w' tss -> drci_ok w' tss.
Proof.
  intros Hok [Hw Hc Ht Hr _]. pose proof (registry_parts_same _ _ Hr) as (R1 & R2 & _). split; rewrite ?Hc, ?R1, ?R2; try apply Hok; [done|by apply (drci_datarefs_kept w), Hok|].
  intros q c Hq. eapply drci_command_frame; [by apply (do_commands _ _ Hok)|by rewrite Ht|by eauto|by rewrite R2].
Qed.

Lemma drci_checked_run w tss p x type operation source_session : calm_tasks w tss -> locks (datarefs_of w) -> ih_proxies (world_data w) !! p = Some x ->
  exists w1, in_datarefs (checked_setter (Some p) type operation source_session) w = Some (write_decision x type operation source_session, w1) /\ undisturbed w w1 tss.
Proof.
  intros Hw Hl Hx. destruct (checked_setter_run p x type operation source_session (datarefs_of w) Hx) as (r & e & E & [Hc Ha] & _ & _ & Hr). rewrite (Hr Hl) in E.
  eexists. split; [exact (in_datarefs_run _ _ _ _ E)|]. split; [by apply tasks_datarefs|done..|]. split; [done|]. split; [done|]. intros Em. simpl. by rewrite Ha.
Qed.

Lemma drci_unlock_locked (r : dataproxy_registry_t) : set_dr_lock (dr_lock (set_dr_lock (dr_lock r + 1) r) - 1) (set_dr_lock (dr_lock r + 1) r) = r.
Proof. destruct r. unfold set_dr_lock. simpl. f_equal. lia. Qed.

(** An access runs under the lock of the registry. *)
Lemma drci_locked_run w tss p x : calm_tasks w tss -> locks (datarefs_of w) -> ih_proxies (world_data w) !! p = Some x ->
  exists w1, in_datarefs (lock_dataproxy (Some p)) w = Some (ERROR_NONE, w1) /\ in_datarefs (load_dataproxy p) w1 = Some (x, w1) /\
    calm_tasks w1 tss /\ ih_commands (world_data w1) = ih_commands (world_data w) /\
    forall w2, calm_tasks w2 tss -> ih_commands (world_data w2) = ih_commands (world_data w1) -> ih_tasks (world_data w2) = ih_tasks (world_data w1) ->
      registry_parts (world_data w2) = registry_parts (world_data w1) -> same_session w1 w2 ->
      exists w3, in_datarefs (unlock_dataproxy (Some p)) w2 = Some (tt, w3) /\ undisturbed w w3 tss.
Proof.
  intros Hw Hl Hx. assert (ds_proxies (datarefs_of w) !! p = Some x) as Hx' by done.
  pose proof (lock_dataproxy_eq p (datarefs_of w) ltac:(by eexists)) as E. rewrite (locks_error _ Hl) in E. change (ERROR_NONE =? ERROR_NONE) with true in E. cbv iota in E.
  destruct (ds_tried_locks (datarefs_of w)) as (e & Et & [Hc Ha]). rewrite Et in E. set (r1 := ds_locked (set_ds_env e (datarefs_of w))) in *.
  exists (with_datarefs r1 w). split; [exact (in_datarefs_run _ _ _ _ E)|]. split; [exact (in_datarefs_run _ (with_datarefs r1 w) x r1 (load_dataproxy_eq p x r1 Hx'))|]. split; [by apply tasks_datarefs|]. split; [done|].
  intros w2 Hw2 Hc2 Ht2 Hr2 Hs2. pose proof (registry_parts_same _ _ Hr2) as (R1 & R2 & R3 & R4 & R5). set (r2 := set_ds_env (cs_env (w_channels w2)) (datarefs_of w)).
  assert (datarefs_of w2 = ds_locked r2) as E2. { unfold datarefs_of at 1. rewrite R1, R2, R3, R4. done. }
  assert (unlock_dataproxy (Some p) (datarefs_of w2) = Some (tt, r2)) as Eu by (rewrite E2; apply unlock_dataproxy_eq; by eexists).
  exists (with_datarefs r2 w2). split; [exact (in_datarefs_run _ _ _ _ Eu)|]. split; [by apply tasks_datarefs|done..| |].
  - unfold registry_parts. simpl. by rewrite R5.
  - transitivity (with_datarefs r1 w). { split; [done|]. split; [done|]. intros Em. simpl. by rewrite Ha. }
    transitivity w2; [done|]. by split.
Qed.

(** ** The command behind a proxy *)

Record hosting w q c p x : Prop := mkHosting {
  hg_command : ih_commands (world_data w) !! q = Some c;
  hg_proxy : ic_proxy c = Some p;
  hg_hosts : hosts q c x;
  hg_channel : addressable (ic_channel_id c) = true;
  hg_live : drci_live c;
}.

Lemma drci_hosting w tss p x : drci_ok w tss -> ih_proxies (world_data w) !! p = Some x -> owned x -> exists q c, hosting w q c p x.
Proof.
  intros Hok Hx Ho. destruct (do_owned _ _ Hok p x Hx Ho) as (q & c & Href & Hc & Hp). exists q, c. pose proof (do_commands _ _ Hok q c Hc) as Hco.
  destruct (ci_proxy _ _ _ _ Hco p Hp) as (x' & Hx' & Hh). assert (x' = x) as -> by congruence.
  assert (addressable (ic_channel_id c) = true) as Ha. { destruct (addressable (ic_channel_id c)) eqn:Ha; [done|]. destruct (ci_ended _ _ _ _ Hco Ha). congruence. }
  split; try done. by apply (ci_live _ _ _ _ Hco).
Qed.

Lemma hosting_offers w q c p x type : hosting w q c p x -> offers_type x type = has_type (io_types (ic_options c)) type.
Proof. intros Hg. unfold offers_type, has_type. by rewrite (hs_types _ _ _ (hg_hosts _ _ _ _ _ Hg)). Qed.

Lemma hosting_length w q c p x type : hosting w q c p x -> Protocol.is_array_type type -> has_type (io_types (ic_options c)) type = true -> 0 <= io_array_length (ic_options c).
Proof. intros Hg. apply (oo_length _ (li_options _ (hg_live _ _ _ _ _ Hg))). Qed.

Lemma is_simple type : is_simple_type type = true -> simple_type type.
Proof. unfold is_simple_type, simple_type. rewrite !orb_true_iff, !Z.eqb_eq. tauto. Qed.

Lemma is_array type : is_array_type type = true -> Protocol.is_array_type type.
Proof. unfold is_array_type, Protocol.is_array_type. rewrite !orb_true_iff, !Z.eqb_eq. tauto. Qed.

Lemma becomes_undisturbed w w1 w2 tss q c : ih_commands (world_data w1) = ih_commands (world_data w) -> ih_commands (world_data w) !! q = Some c -> drci_becomes w1 w2 tss q c ->
  ih_commands (world_data w2) = ih_commands (world_data w1).
Proof. intros E Hc [_ -> _ _]. apply insert_id. by rewrite E. Qed.

(** * Reads *)

(** What a read comes to, as far as the registry decides it. *)
Definition read_error x type : error_t :=
  if negb (dp_state x =? DATAPROXY_STATE_REGISTERED) then DATAPROXY_ERROR_INVALID_STATE else if offers_type x type then ERROR_NONE else DATAPROXY_ERROR_UNSUPPORTED_TYPE.

Lemma read_error_none x type : read_error x type = ERROR_NONE -> dp_state x = DATAPROXY_STATE_REGISTERED /\ offers_type x type = true.
Proof. unfold read_error. destruct (Z.eqb_spec (dp_state x) DATAPROXY_STATE_REGISTERED); [|done]. by destruct (offers_type x type). Qed.

(** A read of which the registry decides, or which the command carries out. *)
Lemma drci_read_run {R R'} w tss p x (refused : error_t -> R) (operation : dataproxy_operations_t drci_operation -> option drci_operation) type (run : drci_operation -> option loc -> M W R) (finish : R -> R') (finishing : R -> M W R')
    (P : loc -> command_drci_t -> R -> Prop) : drci_ok w tss -> ih_proxies (world_data w) !! p = Some x -> is_Some (operation drci_dataproxy_operations) -> (forall r, finishing r = mret (finish r)) ->
  (forall q c f w1, hosting w q c p x -> operation (dp_operations x) = Some f -> offers_type x type = true -> calm_tasks w1 tss -> ih_commands (world_data w1) = ih_commands (world_data w) ->
    exists r w2, run f (Some q) w1 = Some (r, w2) /\ drci_becomes w1 w2 tss q c /\ same_session w1 w2 /\ P q c r) ->
  exists r w', (err ← in_datarefs (lock_dataproxy (Some p));
      if negb (err =? ERROR_NONE) then mret (finish (refused err))
      else
        p ← from_ub (Some p);
        x ← in_datarefs (load_dataproxy p);
        result ← (if negb (dp_state x =? DATAPROXY_STATE_REGISTERED) then mret (refused DATAPROXY_ERROR_INVALID_STATE)
                  else match operation (dp_operations x), offers_type x type with
                       | Some f, true => run f (dp_operations_ref x)
                       | _, _ => mret (refused DATAPROXY_ERROR_UNSUPPORTED_TYPE)
                       end);
        _ ← in_datarefs (unlock_dataproxy (Some p));
        finishing result) w = Some (finish r, w') /\ undisturbed w w' tss /\
    if read_error x type =? ERROR_NONE then exists q c, hosting w q c p x /\ P q c r else r = refused (read_error x type).
Proof.
  intros Hok Hx [f Hf] Hfin Hrun. destruct (drci_locked_run w tss p x (do_calm _ _ Hok) (drci_registry_free _ _ Hok) Hx) as (w1 & E1 & E2 & Hw1 & Hc1 & Hun).
  erewrite bind_eq by exact E1. change (negb (ERROR_NONE =? ERROR_NONE)) with false. cbv iota. erewrite bind_eq by reflexivity. erewrite bind_eq by exact E2.
  assert (forall err, exists w', (_ ← in_datarefs (unlock_dataproxy (Some p)); finishing (refused err)) w1 = Some (finish (refused err), w') /\ undisturbed w w' tss) as Hno.
  { intros err. destruct (Hun w1) as (w3 & E3 & Hu3); try done. erewrite bind_eq by exact E3. rewrite Hfin. by exists w3. }
  unfold read_error. destruct (Z.eqb_spec (dp_state x) DATAPROXY_STATE_REGISTERED) as [Hst|Hst]; cbn [negb]; cbv iota.
  2:{ destruct (Hno DATAPROXY_ERROR_INVALID_STATE) as (w' & E & Hu). erewrite bind_eq by reflexivity. by eexists _, w'. }
  destruct (drci_hosting w tss p x Hok Hx ltac:(by right)) as (q & c & Hg). rewrite <-(hs_operations _ _ _ (hg_hosts _ _ _ _ _ Hg)) in Hf. rewrite Hf. destruct (offers_type x type) eqn:Ho.
  2:{ destruct (Hno DATAPROXY_ERROR_UNSUPPORTED_TYPE) as (w' & E & Hu). erewrite bind_eq by reflexivity. by eexists _, w'. }
  rewrite (hs_reference _ _ _ (hg_hosts _ _ _ _ _ Hg)). destruct (Hrun q c f w1 Hg Hf eq_refl Hw1 Hc1) as (r & w2 & Er & Hb & Hs & HP). erewrite bind_eq by exact Er.
  destruct (Hun w2) as (w3 & E3 & Hu3); [apply Hb|eapply becomes_undisturbed; [exact Hc1|apply Hg|exact Hb]|apply Hb|apply Hb|done|]. erewrite bind_eq by exact E3. rewrite Hfin.
  exists r, w3. split; [done|]. split; [done|]. change (ERROR_NONE =? ERROR_NONE) with true. cbv iota. by exists q, c.
Qed.

Lemma get_dataref_run w tss p x type (d : Z) : drci_ok w tss -> ih_proxies (world_data w) !! p = Some x -> is_simple_type type = true ->
  exists d' w', get_dataref (Some p) type (Some d) w = Some ((read_error x type, Some d'), w') /\ undisturbed w w' tss /\
    if read_error x type =? ERROR_NONE then exists q c, hosting w q c p x /\ d' = simple_value (ic_values c) type else d' = d.
Proof.
  intros Hok Hx Ht. unfold get_dataref, dataproxy_simple_get. rewrite Ht. cbn [negb]. cbv iota.
  destruct (drci_read_run w tss p x (fun err => (err, d)) op_simple_get type (fun f ref => run_simple_get f ref type d)
    (fun r => (fst r, Some (snd r))) (fun r => mret (fst r, Some (snd r))) (fun q c r => r = (ERROR_NONE, simple_value (ic_values c) type)) Hok Hx ltac:(by eexists) ltac:(done)) as (r & w' & E & Hu & Hr).
  { intros q c f w1 Hg Hf Ho Hw1 Hc1. rewrite (hs_operations _ _ _ (hg_hosts _ _ _ _ _ Hg)) in Hf. injection Hf as <-. rewrite (hosting_offers _ _ _ _ _ _ Hg) in Ho.
    destruct (drci_simple_get_run w1 tss q c type d Hw1) as (w2 & E & Hb & Hs); [rewrite Hc1; apply Hg|by apply is_simple|]. rewrite Ho in E.
    exists (ERROR_NONE, simple_value (ic_values c) type), w2. split; [|done]. unfold run_simple_get. by erewrite bind_eq by exact E. }
  exists (snd r), w'. destruct (read_error x type =? ERROR_NONE) eqn:He.
  - destruct Hr as (q & c & Hg & ->). apply Z.eqb_eq in He. rewrite He. split; [exact E|]. split; [done|]. by exists q, c.
  - subst r. split; [exact E|]. split; [done|]. done.
Qed.

(** What an access to items of an array comes to for the caller. *)
Definition clamped (r : error_t * option (list Z) * option Z) (items : list Z) (n : Z) : error_t * list Z * Z := (r.1.1, default items r.1.2, default n r.2).

Lemma get_dataref_array_run w tss p x type items (n offset count : Z) : drci_ok w tss -> ih_proxies (world_data w) !! p = Some x -> is_array_type type = true ->
  0 <= offset -> 0 < count <= len items ->
  exists r w', get_dataref_array (Some p) type (Some items) (Some n) offset count w = Some (r, w') /\ undisturbed w w' tss /\
    if read_error x type =? ERROR_NONE then exists q c arr, hosting w q c p x /\ array_of_type (ic_values c) type = Some arr /\ r = array_read arr items offset count
    else r = (read_error x type, Some items, Some n).
Proof.
  intros Hok Hx Ht Ho Hc. unfold get_dataref_array, dataproxy_array_get. rewrite Ht, (proj2 (Z.ltb_ge offset 0)), (proj2 (Z.ltb_ge count 0)), (proj2 (Z.eqb_neq count 0)) by lia.
  cbn [orb negb]. cbv iota.
  set (finish := fun r : error_t * list Z * Z => (r.1.1, Some r.1.2, Some r.2) : error_t * option (list Z) * option Z).
  destruct (drci_read_run w tss p x (fun err => (err, items, n)) op_array_get type
    (fun f ref => '(err, values, n) ← run_array_get f ref type items n offset count; let '(err, n) := clamp_count err n in mret (err, values, n))
    finish (fun '(err, values, n) => mret (err, Some values, Some n))
    (fun q c r => exists arr, array_of_type (ic_values c) type = Some arr /\ finish r = array_read arr items offset count) Hok Hx ltac:(by eexists)) as (r & w' & E & Hu & Hr).
  { by intros [[? ?] ?]. }
  { intros q c f w1 Hg Hf Hof Hw1 Hc1. rewrite (hs_operations _ _ _ (hg_hosts _ _ _ _ _ Hg)) in Hf. injection Hf as <-. rewrite (hosting_offers _ _ _ _ _ _ Hg) in Hof.
    destruct (drci_array_get_run w1 tss q c type items n offset count Hw1) as (w2 & arr & Ea & E & Hb & Hs); [rewrite Hc1; apply Hg|apply (hg_live _ _ _ _ _ Hg)|by apply is_array|done|done|lia|].
    assert (exists err items' n', array_read arr items offset count = (err, Some items', Some n') /\ 0 <= n') as (err & items' & n' & Er & Hn').
    { unfold array_read. rewrite (proj2 (Z.eqb_neq count 0)) by lia. destruct (Z.leb_spec (arr_length arr) offset); eexists _, _, _; (split; [done|lia]). }
    rewrite Er in E. exists (err, items', n'), w2. split; [|split; [done|]; split; [done|]; exists arr; by rewrite Er].
    unfold run_array_get. erewrite bind_eq by (erewrite bind_eq by exact E; reflexivity). cbn [from_option]. unfold id, clamp_count. rewrite (proj2 (Z.ltb_ge n' 0)) by lia. done. }
  exists (finish r), w'. split; [exact E|]. split; [done|]. destruct (read_error x type =? ERROR_NONE); [|by rewrite Hr]. destruct Hr as (q & c & Hg & arr & Ea & Er). by exists q, c, arr.
Qed.

Lemma dataref_array_length_run w tss p x type (n : Z) : drci_ok w tss -> ih_proxies (world_data w) !! p = Some x -> is_array_type type = true ->
  exists n' w', dataref_array_length (Some p) type (Some n) w = Some ((read_error x type, Some n'), w') /\ undisturbed w w' tss /\
    if read_error x type =? ERROR_NONE then exists q c, hosting w q c p x /\ n' = io_array_length (ic_options c) else n' = 0.
Proof.
  intros Hok Hx Ht. unfold dataref_array_length, dataproxy_array_length.
  destruct (drci_read_run w tss p x (fun err => (err, 0)) op_array_length type (fun f ref => '(err, out) ← run_array_length f ref type 0; mret (clamp_count err out))
    (fun r => (fst r, Some (snd r))) (fun r => mret (fst r, Some (snd r))) (fun q c r => r = (ERROR_NONE, io_array_length (ic_options c))) Hok Hx ltac:(by eexists) ltac:(done)) as (r & w' & E & Hu & Hr).
  { intros q c f w1 Hg Hf Ho Hw1 Hc1. rewrite (hs_operations _ _ _ (hg_hosts _ _ _ _ _ Hg)) in Hf. injection Hf as <-. rewrite (hosting_offers _ _ _ _ _ _ Hg) in Ho.
    destruct (drci_array_length_run w1 tss q c type 0 Hw1) as (w2 & E & Hb & Hs); [rewrite Hc1; apply Hg|apply (hg_live _ _ _ _ _ Hg)|by apply is_array|]. rewrite Ho in E.
    exists (ERROR_NONE, io_array_length (ic_options c)), w2. split; [|done]. unfold run_array_length. erewrite bind_eq by (erewrite bind_eq by exact E; reflexivity). cbv beta iota.
    unfold clamp_count. simpl. rewrite (proj2 (Z.ltb_ge _ 0)); [done|]. eapply hosting_length; [exact Hg|by apply is_array|done]. }
  exists (snd r), w'. destruct (read_error x type =? ERROR_NONE) eqn:He.
  - destruct Hr as (q & c & Hg & ->). apply Z.eqb_eq in He. rewrite He. split; [exact E|]. split; [done|]. by exists q, c.
  - subst r. by split.
Qed.

(** * Writes *)

Lemma written_undisturbed w w1 tss q c' source_session err result : undisturbed w w1 tss -> written w1 tss q c' source_session err result -> written w tss q c' source_session err result.
Proof.
  intros [_ Hc Ht Hr Hs]. assert (~ memory_suffices w1 -> ~ memory_suffices w) as Hm by (intros Hn Hm; by apply Hn, Hs).
  intros [(? & ? & ?)|(w' & -> & [X1 X2 X3 X4] & He)]; [left; auto|right]. exists w'. split; [done|]. split; [split; congruence|]. unfold echoed in *.
  destruct (should_echo c' source_session); [|by transitivity w1]. destruct He as [He|[Hn E]]; [left; by eapply told_from|right]. split; [auto|]. rewrite E. apply Hs.
Qed.

Lemma hosting_items w q c p x v : hosting w q c p x -> drci_items (ic_options c) v <> [].
Proof. intros Hg. apply drci_items_nonempty, (hg_live _ _ _ _ _ Hg). Qed.

(** The command behind a proxy to which a write is admitted. *)
Lemma drci_admitted w tss p x type operation source_session setter ref : drci_ok w tss -> ih_proxies (world_data w) !! p = Some x ->
  write_decision x type operation source_session = inr (setter, ref) ->
  exists q c, hosting w q c p x /\ ref = Some q /\ operation drci_dataproxy_operations = Some setter /\ has_type (io_types (ic_options c)) type = true.
Proof.
  intros Hok Hx Hd. destruct (write_decision_runs _ _ _ _ _ _ Hd) as (Hf & Hst & _ & Ho & ->). destruct (drci_hosting w tss p x Hok Hx ltac:(by right)) as (q & c & Hg).
  exists q, c. split; [done|]. pose proof (hg_hosts _ _ _ _ _ Hg) as Hh. split; [apply Hh|]. rewrite (hs_operations _ _ _ Hh) in Hf. split; [done|].
  by rewrite <-(hosting_offers _ _ _ _ _ _ Hg).
Qed.

(** A write to a dataref is refused, or the command stores the value. *)
Lemma set_dataref_run w tss p x type (v : Z) source_session : drci_ok w tss -> ih_proxies (world_data w) !! p = Some x -> is_simple_type type = true ->
  match write_decision x type op_simple_set source_session with
  | inl err => exists w', set_dataref (Some p) type (Some v) source_session w = Some (err, w') /\ undisturbed w w' tss
  | inr _ => exists q c, hosting w q c p x /\ written w tss q (after_set c type v) source_session ERROR_NONE (set_dataref (Some p) type (Some v) source_session w)
  end.
Proof.
  intros Hok Hx Ht. unfold set_dataref, dataproxy_simple_set. rewrite Ht. cbn [negb]. cbv iota.
  destruct (drci_checked_run w tss p x type op_simple_set source_session (do_calm _ _ Hok) (drci_registry_free _ _ Hok) Hx) as (w1 & E1 & Hu).
  destruct (write_decision x type op_simple_set source_session) as [err|[setter ref]] eqn:Hd; [exists w1; by erewrite bind_eq by exact E1|].
  destruct (drci_admitted _ _ _ _ _ _ _ _ _ Hok Hx Hd) as (q & c & Hg & -> & [= <-] & Hh). exists q, c. split; [done|].
  erewrite bind_eq by exact E1. eapply written_undisturbed; [exact Hu|]. cbv beta iota. unfold run_simple_set.
  apply drci_simple_set_run; [apply Hu|rewrite (ud_commands _ _ _ Hu); apply Hg|by apply is_simple|done|apply Hg|apply (hg_live _ _ _ _ _ Hg)|by eapply hosting_items].
Qed.

(** A write to items of an array is refused, or the command stores the items for which
    there are places. *)
Lemma update_dataref_array_run w tss p x type values offset count source_session : drci_ok w tss -> ih_proxies (world_data w) !! p = Some x -> is_array_type type = true ->
  0 <= offset -> 0 < count <= len values ->
  match write_decision x type op_array_update source_session with
  | inl err => exists w', update_dataref_array (Some p) type (Some values) offset count source_session w = Some (err, w') /\ undisturbed w w' tss
  | inr _ => exists q c, hosting w q c p x /\
      if io_array_length (ic_options c) <=? offset then
        exists w', update_dataref_array (Some p) type (Some values) offset count source_session w = Some (ERROR_UNSPECIFIC, w') /\ undisturbed w w' tss
      else
        written w tss q (after_update c type (take (Z.to_nat (Z.min count (io_array_length (ic_options c) - offset))) values) offset) source_session ERROR_NONE
          (update_dataref_array (Some p) type (Some values) offset count source_session w)
  end.
Proof.
  intros Hok Hx Ht Ho Hcn. unfold update_dataref_array, dataproxy_array_update.
  rewrite Ht, (proj2 (Z.ltb_ge offset 0)), (proj2 (Z.ltb_ge count 0)), (proj2 (Z.eqb_neq count 0)) by lia. cbn [orb negb]. cbv iota.
  destruct (drci_checked_run w tss p x type op_array_update source_session (do_calm _ _ Hok) (drci_registry_free _ _ Hok) Hx) as (w1 & E1 & Hu).
  destruct (write_decision x type op_array_update source_session) as [err|[setter ref]] eqn:Hd; [exists w1; by erewrite bind_eq by exact E1|].
  destruct (drci_admitted _ _ _ _ _ _ _ _ _ Hok Hx Hd) as (q & c & Hg & -> & [= <-] & Hh). exists q, c. split; [done|].
  erewrite bind_eq by exact E1. cbv beta iota. unfold run_array_update. assert (ih_commands (world_data w1) !! q = Some c) as Hc1 by (rewrite (ud_commands _ _ _ Hu); apply Hg).
  pose proof (drci_array_update_run w1 tss q c type values offset count source_session (ud_calm _ _ _ Hu) Hc1 (is_array _ Ht) Hh (hg_channel _ _ _ _ _ Hg)
    (li_values _ (hg_live _ _ _ _ _ Hg)) (hosting_length _ _ _ _ _ _ Hg (is_array _ Ht) Hh) (fun v => hosting_items _ _ _ _ _ v Hg) Ho ltac:(lia)) as Hrun.
  rewrite (proj2 (Z.eqb_neq count 0)) in Hrun by lia. cbn [orb] in Hrun. destruct (io_array_length (ic_options c) <=? offset); [|by eapply written_undisturbed].
  destruct Hrun as (w2 & E2 & Hb & Hs). exists w2. split; [done|]. pose proof Hb as [X1 X2 X3 X4]. destruct Hu as [U1 U2 U3 U4 U5]. split; [done| |congruence|congruence|by transitivity w1].
  rewrite X2, insert_id by done. done.
Qed.

(** A write leaves a plugin in order. *)
Lemma same_dataref_values c v : same_dataref c (set_ic_values v c).
Proof. by split. Qed.

Lemma written_ok w tss q c p x v source_session err err' w' : drci_ok w tss -> hosting w q c p x -> drci_values_ok (ic_options c) v ->
  written w tss q (set_ic_values v c) source_session err (Some (err', w')) -> drci_ok w' tss.
Proof.
  intros Hok Hg Hv [(? & _)|(w1 & E & Hb & _)]; [done|]. injection E as <- <-. eapply drci_ok_becomes; [exact Hok|apply Hg|exact Hb|apply same_dataref_values|by intros _].
Qed.

Lemma after_set_ok c type (v : Z) : drci_values_ok (ic_options c) (ic_values c) -> drci_values_ok (ic_options c) (ic_values (after_set c type v)).
Proof. by intros []. Qed.
End Hosting.
