(* ===== verification/DrciSystem.v ===== *)
(** A plugin that hosts datarefs: requests create and terminate commands DRCI, the flight
    loops run their tasks, maintenance unregisters what was dropped, and sessions and
    X-Plane read and write the datarefs, in any order. *)

From S2P Require Import Prelude CLib Utils Hashmap Channels Requests Lists Prealloc Arrays Protocol TaskSchedule Network Command Session Server ServerCommands Beside HeldSystem CalmWorld CmtrTimers Dataproxy DataproxyLifecycle DatarefSystem DrqvValues Drci DrciValues DrciAccess DrciLifecycle DrciRegistration DrciCreation DrciHosting.

Section System.
Context `{DataTypes} `{FloatText} `{NumberConversions} {C : Type} `{ConnectionLaws C}.
Context (XPLMRegisterDataAccessor_result : list accessor_call -> cstr -> Z -> Z) (datarefeditor_found : list cstr -> bool).
Abbreviation W := (world C (ext drci_state)).
Abbreviation proxy_t := (dataproxy_t drci_operation).
Abbreviation drci_run_task := (drci_process XPLMRegisterDataAccessor_result datarefeditor_found).
Implicit Types (q p t : loc) (w : W) (c : command_drci_t) (type : Z) (tss : list (list loc)) (x : proxy_t) (source_session : option loc).

(** * The system *)

Inductive drci_action :=
  | CreateDataref (session : loc) (request : request_t) (config : command_config_t)
  | RunRegistration (task : loc) (phase : Z)
  | TerminateDataref (command_ref : loc)
  | DestroyDataref (command_ref : loc)
  | MaintainDatarefs
  | GetDataref (proxy : loc) (type : Z)
  | GetDatarefArray (proxy : loc) (type : Z) (items : list Z) (offset count : Z)
  | GetDatarefLength (proxy : loc) (type : Z)
  | SetDataref (proxy : loc) (type value : Z) (source_session : option loc)
  | UpdateDatarefArray (proxy : loc) (type : Z) (values : list Z) (offset count : Z) (source_session : option loc).

(** What the rest of the plugin and X-Plane guarantee: requests come from the parser, the
    schedule runs the tasks of commands, a command is terminated while it has a channel
    and destroyed when it has none any more; proxies come from the registry, they are
    accessed with the types that there are, and buffers have room for as many items as
    the caller says. *)
Definition drci_enabled w (a : drci_action) : Prop :=
  match a with
  | CreateDataref _ request _ => addressable (req_channel_id request) = true
  | RunRegistration t _ => exists q c, ih_tasks (world_data w) !! t = Some q /\ ih_commands (world_data w) !! q = Some c /\ ic_registration_task c = Some t
  | TerminateDataref q => exists c, ih_commands (world_data w) !! q = Some c /\ addressable (ic_channel_id c) = true
  | DestroyDataref q => exists c, ih_commands (world_data w) !! q = Some c /\ addressable (ic_channel_id c) = false
  | MaintainDatarefs => True
  | GetDataref p type | SetDataref p type _ _ => is_Some (ih_proxies (world_data w) !! p) /\ is_simple_type type = true
  | GetDatarefLength p type => is_Some (ih_proxies (world_data w) !! p) /\ is_array_type type = true
  | GetDatarefArray p type items offset count | UpdateDatarefArray p type items offset count _ =>
      is_Some (ih_proxies (world_data w) !! p) /\ is_array_type type = true /\ 0 <= offset /\ 0 < count <= len items
  end.

Definition drci_perform (a : drci_action) : M W unit :=
  match a with
  | CreateDataref session request config => _ ← drci_create session request config; mret tt
  | RunRegistration t phase => drci_run_task t phase
  | TerminateDataref q => _ ← drci_terminate (Some q); mret tt
  | DestroyDataref q => _ ← drci_destroy (Some q); mret tt
  | MaintainDatarefs => _ ← on_datarefs datarefs_of with_datarefs unregister_dropped_dataproxies; mret tt
  | GetDataref p type => _ ← get_dataref (Some p) type (Some 0); mret tt
  | GetDatarefArray p type items offset count => _ ← get_dataref_array (Some p) type (Some items) (Some 0) offset count; mret tt
  | GetDatarefLength p type => _ ← dataref_array_length (Some p) type (Some 0); mret tt
  | SetDataref p type v source_session => _ ← set_dataref (Some p) type (Some v) source_session; mret tt
  | UpdateDatarefArray p type values offset count source_session =>
      _ ← update_dataref_array (Some p) type (Some values) offset count source_session; mret tt
  end.

Inductive drci_step : W -> W -> Prop :=
  | drci_step_action w a w' : drci_enabled w a -> drci_perform a w = Some (tt, w') -> drci_step w w'
  | drci_step_quiet w w' : quiet w w' -> world_ok w' -> drci_step w w'.

(** * The invariant *)

Lemma drci_ok_refused w tss (result : option (error_t * option loc * W)) : drci_ok w tss -> drci_refused w result tss ->
  exists err w', result = Some ((err, None), w') /\ err <> ERROR_NONE /\ drci_ok w' tss /\ ih_commands (world_data w') = ih_commands (world_data w).
Proof.
  intros Hok (err & w' & E & Herr & Hw' & Hc & Ht & Hr). exists err, w'. split; [done|]. split; [done|]. split; [|done].
  pose proof (registry_parts_same _ _ Hr) as (R1 & R2 & _). split; rewrite ?Hc, ?R1, ?R2; try apply Hok; [done|by apply (drci_datarefs_kept w), Hok|].
  intros q c Hq. eapply drci_command_frame; [by apply (do_commands _ _ Hok)|intros t _; apply Ht|by eauto|by rewrite R2].
Qed.

Lemma drci_ok_created w w' tss q session id name o v : drci_ok w tss -> addressable id = true -> drci_options_ok o -> drci_values_ok o v -> no_nul name ->
  drci_created w w' tss q (mkDrci session id 0 None (Some name) o v None false false) ->
  exists t tss', drci_ok w' tss' /\ ih_commands (world_data w') !! q = Some (mkDrci session id 0 None (Some name) o v (Some t) false false).
Proof.
  intros Hok Ha Ho Hv Hn (Hq & t & ts & Hts & Hw' & Hcs & Ht & Htasks & Hr). pose proof (registry_parts_same _ _ Hr) as (R1 & R2 & _).
  exists t, (<[Z.to_nat DRCI_REGISTRATION_PHASE := ts ++ [t]]> tss). rewrite Hcs. split; [|apply lookup_insert_eq]. pose proof (lookup_lt_Some _ _ _ Hts) as Hlt.
  eapply (drci_ok_update w w' tss); [exact Hok|done|by rewrite length_insert|by eapply drci_datarefs_kept, do_datarefs|rewrite R1; apply Hok|exact Hcs| | |].
  - split; simpl; [done|intros _; split; [done..|by exists name|done]|congruence| |done|done]. intros t' [= <-]. split; [done|]. exists (ts ++ [t]).
    rewrite list_lookup_insert_eq by done. split; [done|]. apply elem_of_app. right. by left.
  - intros q2 c2 _ _ Hok2. eapply drci_command_frame; [exact Hok2|intros t2 _; apply Htasks| |by rewrite R2]. intros t2 ts2 _ Hts2 Hin. assert (ts2 = ts) as -> by congruence.
    exists (ts ++ [t]). rewrite list_lookup_insert_eq by done. split; [done|]. apply elem_of_app. by left.
  - rewrite R2. intros p x Hx Hown. destruct (do_owned _ _ Hok p x Hx Hown) as (q2 & c2 & Href & Hc2 & _). right. exists q2. split; [|done]. intros ->. congruence.
Qed.

Lemma drci_destroy_run w tss q c : drci_ok w tss -> ih_commands (world_data w) !! q = Some c -> addressable (ic_channel_id c) = false ->
  exists w', drci_destroy (Some q) w = Some (ERROR_NONE, w') /\ drci_ok w' tss.
Proof.
  intros Hok Hc Ha. unfold drci_destroy. erewrite bind_eq by by apply load_drci_eq. erewrite bind_eq by reflexivity. eexists. split; [reflexivity|].
  destruct (ci_ended _ _ _ _ (do_commands _ _ Hok q c Hc) Ha) as [_ Hp]. split; [by apply tasks_data, Hok|apply Hok|apply (drci_datarefs_kept w); [done|apply Hok]|apply Hok| |].
  - intros q2 c2. simpl. rewrite lookup_delete_Some. intros [_ Hc2]. eapply drci_command_frame; [by apply (do_commands _ _ Hok)|by eauto|by eauto|done].
  - intros p x Hx Ho. destruct (do_owned _ _ Hok p x Hx Ho) as (q2 & c2 & Href & Hc2 & Hp2). exists q2, c2. split; [done|]. split; [|done]. simpl.
    apply lookup_delete_Some. split; [|done]. intros ->. congruence.
Qed.

Lemma drci_ok_written w tss q c p x v source_session err (result : option (error_t * W)) : drci_ok w tss -> hosting w q c p x -> drci_values_ok (ic_options c) v ->
  written w tss q (set_ic_values v c) source_session err result ->
  (result = None /\ ~ memory_suffices w) \/ exists w', result = Some (err, w') /\ drci_ok w' tss.
Proof.
  intros Hok Hg Hv Hwr. pose proof Hwr as [(-> & _ & Hm)|(w' & -> & _)]; [by left|right]. exists w'. split; [done|]. by eapply written_ok.
Qed.

Lemma after_set_values c type (v : Z) : after_set c type v = set_ic_values (ic_values (after_set c type v)) c.
Proof. done. Qed.

Lemma after_update_values c type items offset : after_update c type items offset = set_ic_values (ic_values (after_update c type items offset)) c.
Proof. done. Qed.

(** Writes are undefined if memory runs out while the owner is told. *)
Definition is_write (a : drci_action) : Prop := match a with SetDataref _ _ _ _ | UpdateDatarefArray _ _ _ _ _ _ => True | _ => False end.

Definition runs w a : Prop := (exists w' tss', drci_perform a w = Some (tt, w') /\ drci_ok w' tss') \/ is_write a /\ drci_perform a w = None /\ ~ memory_suffices w.

Lemma runs_write w tss a (m : M W error_t) : is_write a -> drci_perform a = (_ ← m; mret tt) ->
  (m w = None /\ ~ memory_suffices w) \/ (exists err w', m w = Some (err, w') /\ drci_ok w' tss) -> runs w a.
Proof.
  intros Ha E [[En Hm]|(err & w' & Es & Hok)]; [right|left].
  - split; [done|]. split; [|done]. rewrite E. by apply undefined_bind.
  - exists w', tss. split; [|done]. rewrite E. by erewrite bind_eq by exact Es.
Qed.

Lemma set_dataref_runs w tss p type (v : Z) source_session : drci_ok w tss -> is_Some (ih_proxies (world_data w) !! p) -> is_simple_type type = true ->
  runs w (SetDataref p type v source_session).
Proof.
  intros Hok [x Hx] Ht. eapply (runs_write w tss); [done|reflexivity|]. pose proof (set_dataref_run w tss p x type v source_session Hok Hx Ht) as Hrun.
  destruct (write_decision x type op_simple_set source_session) as [err|].
  - destruct Hrun as (w' & E & Hu). right. exists err, w'. split; [done|]. by eapply undisturbed_ok.
  - destruct Hrun as (q & c & Hg & Hwr). rewrite after_set_values in Hwr. destruct (drci_ok_written _ _ _ _ _ _ _ _ _ _ Hok Hg (after_set_ok c type v (li_values _ (hg_live _ _ _ _ _ Hg))) Hwr) as
      [?|(w' & E & Hok')]; [by left|right]. by exists ERROR_NONE, w'.
Qed.

Lemma update_dataref_array_runs w tss p type values offset count source_session : drci_ok w tss -> is_Some (ih_proxies (world_data w) !! p) -> is_array_type type = true ->
  0 <= offset -> 0 < count <= len values -> runs w (UpdateDatarefArray p type values offset count source_session).
Proof.
  intros Hok [x Hx] Ht Ho Hc. eapply (runs_write w tss); [done|reflexivity|].
  pose proof (update_dataref_array_run w tss p x type values offset count source_session Hok Hx Ht Ho Hc) as Hrun.
  destruct (write_decision x type op_array_update source_session) as [err|].
  { destruct Hrun as (w' & E & Hu). right. exists err, w'. split; [done|]. by eapply undisturbed_ok. }
  destruct Hrun as (q & c & Hg & Hwr). destruct (Z.leb_spec (io_array_length (ic_options c)) offset).
  { destruct Hwr as (w' & E & Hu). right. exists ERROR_UNSPECIFIC, w'. split; [done|]. by eapply undisturbed_ok. }
  rewrite after_update_values in Hwr. edestruct (fun Hv => drci_ok_written _ _ _ _ _ _ _ _ _ _ Hok Hg Hv Hwr) as [?|(w' & E & Hok')].
  - apply after_update_ok; [done| |apply (hg_live _ _ _ _ _ Hg)]. rewrite length_take. lia.
  - by left.
  - right. by exists ERROR_NONE, w'.
Qed.

Lemma drci_runs w tss a : new_datarefs XPLMRegisterDataAccessor_result -> drci_ok w tss -> drci_enabled w a -> runs w a.
Proof.
  intros Hnew Hok He. destruct a as [session request config|t phase|q|q| |p type|p type items offset count|p type|p type v s|p type values offset count s]; cbn [drci_enabled] in He.
  - left. cbn [drci_perform]. destruct (drci_create_run w tss session request config (do_calm _ _ Hok) (do_queues _ _ Hok) He) as [Hr|(w' & q & o & v & name & E & _ & _ & Hreq & Ho & Hv & Hcr)].
    + destruct (drci_ok_refused w tss _ Hok Hr) as (err & w' & E & _ & Hok' & _). erewrite bind_eq by exact E. by exists w', tss.
    + erewrite bind_eq by exact E. destruct (drci_ok_created _ _ _ _ _ _ _ _ _ Hok He Ho Hv (drci_requested_name _ _ _ Hreq) Hcr) as (t & tss' & Hok' & _). by exists w', tss'.
  - destruct He as (q & c & _ & Hc & Ht). destruct (drci_process_run XPLMRegisterDataAccessor_result datarefeditor_found w tss q c t phase Hnew Hok Hc Ht) as (w' & tss' & c' & E & Hok' & _).
    left. by exists w', tss'.
  - destruct He as (c & Hc & Ha). destruct (drci_terminate_run w tss q c Hok Hc Ha) as (err & w' & tss' & c' & E & Hok' & _). left. exists w', tss'. split; [|done]. cbn [drci_perform].
    by erewrite bind_eq by exact E.
  - destruct He as (c & Hc & Ha). destruct (drci_destroy_run w tss q c Hok Hc Ha) as (w' & E & Hok'). left. exists w', tss. split; [|done]. cbn [drci_perform]. by erewrite bind_eq by exact E.
  - destruct (drci_maintenance_run w tss Hok) as (err & w' & E & Hok' & _). left. exists w', tss. split; [|done]. cbn [drci_perform]. by erewrite bind_eq by exact E.
  - destruct He as [[x Hx] Ht]. destruct (get_dataref_run w tss p x type 0 Hok Hx Ht) as (d & w' & E & Hu & _). left. exists w', tss. split; [|by eapply undisturbed_ok]. cbn [drci_perform].
    by erewrite bind_eq by exact E.
  - destruct He as ([x Hx] & Ht & Ho & Hc). destruct (get_dataref_array_run w tss p x type items 0 offset count Hok Hx Ht Ho Hc) as (r & w' & E & Hu & _). left. exists w', tss.
    split; [|by eapply undisturbed_ok]. cbn [drci_perform]. by erewrite bind_eq by exact E.
  - destruct He as [[x Hx] Ht]. destruct (dataref_array_length_run w tss p x type 0 Hok Hx Ht) as (n & w' & E & Hu & _). left. exists w', tss. split; [|by eapply undisturbed_ok].
    cbn [drci_perform]. by erewrite bind_eq by exact E.
  - destruct He as [Hp Ht]. by eapply set_dataref_runs.
  - destruct He as (Hp & Ht & Ho & Hc). by eapply update_dataref_array_runs.
Qed.

Lemma drci_steps_ok w w' tss : new_datarefs XPLMRegisterDataAccessor_result -> rtc drci_step w w' -> drci_ok w tss -> exists tss', drci_ok w' tss'.
Proof.
  intros Hnew Hs. revert tss. induction Hs as [w|w1 w2 w3 Hstep _ IH]; intros tss Hok; [by eexists|]. destruct Hstep as [w a w2 He E|w w2 Hq Hw].
  - destruct (drci_runs w tss a Hnew Hok He) as [(w4 & tss' & E' & Hok')|(_ & E' & _)]; rewrite E in E'; [|done]. injection E' as <-. by eapply IH.
  - destruct (tasks_quiet w w2 tss Hq Hw (do_calm _ _ Hok)) as [Hc Hd]. apply (IH tss). by eapply drci_ok_data.
Qed.

(** The plugin after its start: no commands, and a new registry. *)
Record drci_started w : Prop := mkDrciStarted {
  st_calm : calm_tasks w [[]; []];
  st_empty : ih_commands (world_data w) = ∅;
  st_map : Hashmap.wf (dr_by_dataref_name (ih_registry (world_data w))) /\ abs (dr_by_dataref_name (ih_registry (world_data w))) = ∅;
  st_registry : dr_destruction_pending (ih_registry (world_data w)) = false /\ dr_lock (ih_registry (world_data w)) = 0;
  st_proxies : ih_proxies (world_data w) = ∅ /\ ih_calls (world_data w) = [];
}.

Lemma drci_started_ok w : drci_started w -> drci_ok w [[]; []].
Proof.
  intros [Hw He [Hm Ha] [Hp Hl] [Hpr Hcl]]. split; [done|done| |done| |].
  - pose proof (datarefs_new_ok (F := drci_operation) (dr_by_dataref_name (ih_registry (world_data w))) (ih_items (world_data w)) (cs_env (w_channels w)) Hm Ha) as Hn.
    eapply datarefs_ok_same; [..|exact Hn]; unfold datarefs_of; simpl; rewrite ?Hpr, ?Hcl; done.
  - intros q c. by rewrite He.
  - intros p x. by rewrite Hpr.
Qed.

Lemma drci_reachable_ok w0 w : new_datarefs XPLMRegisterDataAccessor_result -> drci_started w0 -> rtc drci_step w0 w -> exists tss, drci_ok w tss.
Proof. intros Hnew H0' Hs. eapply drci_steps_ok; [done|exact Hs|by apply drci_started_ok]. Qed.

(** * What a plugin with hosted datarefs promises *)

(** C31: Hosting datarefs is safe, as long as locks do not fail, commands are destroyed only
    after they were terminated successfully, and channel IDs do not start with 7, 8 or 9.
    In every state that a plugin can reach, whatever requests, flight loops, terminations,
    maintenance, reads and writes there were, and whatever allocations failed: each
    operation runs without undefined behaviour, except for a write for which memory runs
    out while the owner is told; every registered dataref is offered to X-Plane with the
    name, the types and the writability that its client asked for and is backed by a
    command that has a channel and holds its values; and a command can be terminated,
    after which no dataref that is in use refers to it, unless its dataref is reserved for
    it still because the registration failed (then the termination fails). *)
Theorem hosted_datarefs_safe w0 w :
  new_datarefs XPLMRegisterDataAccessor_result -> drci_started w0 -> rtc drci_step w0 w ->
  (forall a, drci_enabled w a -> (exists w', drci_perform a w = Some (tt, w')) \/ is_write a /\ drci_perform a w = None /\ ~ memory_suffices w) /\
  (forall p x, ih_proxies (world_data w) !! p = Some x -> dp_state x = DATAPROXY_STATE_REGISTERED -> exists q c, hosting w q c p x /\ drci_offered w c p) /\
  (forall q c, ih_commands (world_data w) !! q = Some c -> addressable (ic_channel_id c) = true ->
     exists err w' c', drci_terminate (Some q) w = Some (err, w') /\ ih_commands (world_data w') !! q = Some c' /\ ic_registration_task c' = None /\
       if err =? ERROR_NONE then addressable (ic_channel_id c') = false /\ forall p x, ih_proxies (world_data w') !! p = Some x -> dp_operations_ref x = Some q -> ~ owned x
       else exists p x, ic_proxy c' = Some p /\ ih_proxies (world_data w') !! p = Some x /\ dp_state x = DATAPROXY_STATE_RESERVED).
Proof.
  intros Hnew H0' Hs. destruct (drci_reachable_ok _ _ Hnew H0' Hs) as (tss & Hok). split; [|split].
  - intros a He. destruct (drci_runs w tss a Hnew Hok He) as [(w' & _ & E & _)|?]; [left; by exists w'|by right].
  - intros p x Hx Hst. destruct (drci_hosting w tss p x Hok Hx ltac:(by right)) as (q & c & Hg). exists q, c. split; [done|]. exact (hosts_offered w tss q c p x Hok Hx (hg_hosts _ _ _ _ _ Hg) Hst).
  - intros q c Hc Ha. destruct (drci_terminate_run w tss q c Hok Hc Ha) as (err & w' & tss' & c' & E & Hok' & _ & Hcs & _ & Hout). exists err, w', c'. split; [done|].
    assert (ih_commands (world_data w') !! q = Some c') as Hc' by (rewrite Hcs; apply lookup_insert_eq). split; [done|].
    destruct Hout as [(-> & -> & _)|(-> & -> & Hp & p & x & Hpc & Hx & Hst)].
    + split; [done|]. split; [done|]. intros p x Hx Href Ho. destruct (do_owned _ _ Hok' p x Hx Ho) as (q2 & c2 & Href2 & Hc2 & Hp2).
      assert (q2 = q) as -> by congruence. rewrite Hc' in Hc2. by injection Hc2 as <-.
    + split; [done|]. exists p, x. by rewrite Hp.
Qed.









End System.

(** * A plugin *)

#[local] Instance demo_types_instance : DataTypes := demo_types.
#[local] Instance demo_floats_instance : FloatText := demo_floats.
(** Numbers of floating point types in tenths. *)
#[local] Instance demo_numbers : NumberConversions := {|
  float_of_int := fun v => 10 * v; double_of_int := fun v => 10 * v;
  floorf := fun v => v / 10 * 10; ceilf := fun v => - (- v / 10) * 10; lroundf := fun v => (v + 5) / 10;
  floor := fun v => v / 10 * 10; ceil := fun v => - (- v / 10) * 10; lround := fun v => (v + 5) / 10 |}.

Abbreviation demo_drci_world := (world network_connection_t (ext drci_state)).
Definition demo_drci_started : demo_drci_world := demo_with (mkDrciState ∅ ∅ ∅ (mkDpRegistry false 0 (mkMap ∅)) ∅ ∅ [] []).

Lemma demo_drci_started_ok : drci_started demo_drci_started.
Proof.
  destruct (demo_with_ok (mkDrciState ∅ ∅ ∅ (mkDpRegistry false 0 (mkMap ∅)) ∅ ∅ [] [])) as [Hw Hs]. split; [|done| |done|done].
  - split; [exact Hw| |constructor|done]. exists [[]; []]. split; [exact Hs|]. by repeat constructor.
  - split; [apply wf_empty|apply abs_empty].
Qed.

Definition demo_found (notified : list cstr) : bool := true.
Definition demo_drci_perform : drci_action -> M demo_drci_world unit := drci_perform next_dataref demo_found.
Definition demo_drci_step : demo_drci_world -> demo_drci_world -> Prop := drci_step next_dataref demo_found.

Definition demo_drci_request : request_t :=
  mkRequest demo_channel (lit "DRCI") [mkOption (lit "intConv") (lit "floor"); mkOption (lit "echo") (lit "all")] [lit "int,float:demo/x"].
Definition demo_drci_config : command_config_t := mkConfig DRCI_COMMAND_VERSION (mkMap ∅).

Definition demo_requested (request : request_t) : demo_drci_world := after (demo_drci_perform (CreateDataref 7%positive request demo_drci_config)) demo_drci_started.
Definition demo_hosting (request : request_t) : demo_drci_world := after (demo_drci_perform (RunRegistration 1%positive DRCI_REGISTRATION_PHASE)) (demo_requested request).

Lemma demo_after_step w tss a : drci_ok w tss -> drci_enabled w a -> ~ is_write a -> exists tss', demo_drci_step w (after (demo_drci_perform a) w) /\ drci_ok (after (demo_drci_perform a) w) tss'.
Proof.
  intros Hok He Ha. destruct (drci_runs next_dataref demo_found w tss a next_dataref_new Hok He) as [(w' & tss' & E & Hok')|(? & _)]; [|done].
  assert (after (demo_drci_perform a) w = w') as -> by (unfold after, demo_drci_perform; by rewrite E). exists tss'. split; [|done]. by apply (drci_step_action _ _ w a).
Qed.

(** A request is accepted if its command is there, with its task. *)
Definition accepted (w : demo_drci_world) : bool :=
  match ih_tasks (world_data w) !! 1%positive, ih_commands (world_data w) !! 1%positive with
  | Some q, Some c => bool_decide (q = 1%positive) && bool_decide (ic_registration_task c = Some 1%positive)
  | _, _ => false
  end.

Lemma demo_hosting_steps request : addressable (req_channel_id request) = true -> accepted (demo_requested request) = true ->
  rtc demo_drci_step demo_drci_started (demo_hosting request).
Proof.
  intros Ha Hacc. destruct (demo_after_step demo_drci_started [[]; []] (CreateDataref 7%positive request demo_drci_config)) as (tss & Hs & Hok);
    [apply drci_started_ok, demo_drci_started_ok|exact Ha|intros []|]. fold (demo_requested request) in Hs, Hok.
  eapply rtc_l; [exact Hs|]. apply rtc_once. unfold accepted in Hacc. destruct (ih_tasks _ !! 1%positive) as [q|] eqn:Ht; [|discriminate Hacc].
  destruct (ih_commands _ !! 1%positive) as [c|] eqn:Hc; [|discriminate Hacc]. apply andb_prop in Hacc as [->%bool_decide_eq_true Hct%bool_decide_eq_true].
  destruct (demo_after_step (demo_requested request) tss (RunRegistration 1%positive DRCI_REGISTRATION_PHASE) Hok) as (tss' & Hs' & _); [|intros []|exact Hs'].
  exists 1%positive, c. exact (conj Ht (conj Hc Hct)).
Qed.

(** The dataref is offered to X-Plane, and the client is told. *)
Example demo_hosting_calls : ih_calls (world_data (demo_hosting demo_drci_request)) = [XPLMRegisterDataAccessor (lit "demo/x") 3 1 1%positive 1].
Proof. vm_compute. reflexivity. Qed.

(** After X-Plane has written 2.7 as a float, 2 is read as an integer, and the client is
    told both. *)
Definition demo_written : demo_drci_world := after (set_dataref (Some 1%positive) 2 (Some 27) None) (demo_hosting demo_drci_request).
Example demo_written_read : fst <$> get_dataref (Some 1%positive) 1 (Some 0) demo_written = Some (ERROR_NONE, Some 2).
Proof. vm_compute. reflexivity. Qed.
Example demo_written_told : exists time, conn_queued (w_connection demo_written) = conn_queued (w_connection (demo_hosting demo_drci_request)) ++ lit "+AAAA " ++ time ++ lit " 2;27" ++ [chr 10].
Proof. exists (lit "170925119"). vm_compute. reflexivity. Qed.

Definition demo_proxy (request : request_t) : dataproxy_t drci_operation :=
  default (reserved_proxy [] 0 0 None None drci_dataproxy_operations) (ih_proxies (world_data (demo_hosting request)) !! 1%positive).

Lemma demo_drci_request_steps : rtc demo_drci_step demo_drci_started (demo_hosting demo_drci_request).
Proof. apply demo_hosting_steps; vm_compute; reflexivity. Qed.


Lemma hosted_datarefs_safe_witness :
  (exists w', demo_drci_perform (SetDataref 1%positive 2 27 None) (demo_hosting demo_drci_request) = Some (tt, w')) /\
  exists q c, hosting (demo_hosting demo_drci_request) q c 1%positive (demo_proxy demo_drci_request) /\
    exists err w', drci_terminate (Some q) (demo_hosting demo_drci_request) = Some (err, w').
Proof.
  destruct (hosted_datarefs_safe next_dataref demo_found demo_drci_started (demo_hosting demo_drci_request) next_dataref_new demo_drci_started_ok demo_drci_request_steps)
    as (Hrun & Hhost & Hterm). split.
  - destruct (Hrun (SetDataref 1%positive 2 27 None)) as [E|(_ & _ & Hm)]; [|exact E|].
    + split; [exists (demo_proxy demo_drci_request)|]; vm_compute; reflexivity.
    + exfalso. apply Hm. vm_compute. reflexivity.
  - destruct (Hhost 1%positive (demo_proxy demo_drci_request)) as (q & c & Hg & _); [vm_compute; reflexivity..|]. exists q, c. split; [exact Hg|].
    destruct (Hterm q c (hg_command _ _ _ _ _ Hg) (hg_channel _ _ _ _ _ Hg)) as (err & w' & _ & E & _). exists err, w'. exact E.
Defined.



