(* ===== verification/DrciRequests.v ===== *)
(** The parameter of a request DRCI: a client gets the dataref that it asks for, unless
    there is a comma in its name ([Drci.parse_drci_parameter]). *)

From S2P Require Import Prelude CLib Utils Channels Requests Lists Prealloc Arrays Protocol TaskSchedule Network Command Session Server ServerCommands CalmWorld Dataproxy Drci.

(** * Separators that are not escaped *)

Lemma is_escaped_eq s (i : nat) : is_escaped s (Z.of_nat i) = foldl escape_step false (take i s).
Proof. unfold is_escaped. destruct (Z.ltb_spec (Z.of_nat i) 1); [by replace i with O by lia|by rewrite Nat2Z.id]. Qed.

(** Escapes are closed at the end of a text. *)
Definition closed (s : cstr) : Prop := foldl escape_step false s = false.

Lemma closed_plain s : ESCAPE_CHAR ∉ s -> closed s.
Proof.
  unfold closed. induction s as [|c s IH]; [done|]. rewrite not_elem_of_cons. intros [Hc Hs]. simpl. rewrite bool_decide_eq_false_2 by done. by apply IH.
Qed.

Lemma closed_app s t : closed s -> closed t -> closed (s ++ t).
Proof. unfold closed. rewrite foldl_app. by intros -> ->. Qed.

Lemma closed_escape P s : P ESCAPE_CHAR = true -> closed (escape P s).
Proof.
  intros HP. unfold closed. induction s as [|c s IH]; [done|]. simpl. destruct (P c) eqn:Hc; simpl; [exact IH|]. rewrite bool_decide_eq_false_2 by congruence. exact IH.
Qed.

(** The character [c] occurs from [start] on behind escape characters only. *)
Definition protected (c : ascii) (start : Z) (s : cstr) : Prop := forall i : nat, start <= Z.of_nat i -> s !! i = Some c -> foldl escape_step false (take i s) = true.

Lemma protected_plain c start s : c ∉ s -> protected c start s.
Proof. intros Hc i _ Hi. by apply list_elem_of_lookup_2 in Hi. Qed.

Lemma protected_behind c s P t : P ESCAPE_CHAR = true -> P c = true -> c <> ESCAPE_CHAR -> closed s -> protected c (len s) (s ++ escape P t).
Proof.
  intros HE Hc Hne Hs i Hi Hl. rewrite lookup_app_r in Hl by lia. rewrite take_app_ge, foldl_app by lia. unfold closed in Hs. rewrite Hs. by eapply escaped_special.
Qed.

Lemma strpos_unescaped_eq s c start : c <> ESCAPE_CHAR -> strpos_unescaped (Some s) [c] start = _strpos (Some s) (Some [c]) start true.
Proof. intros Hc. unfold strpos_unescaped. simpl. by rewrite bool_decide_eq_false_2. Qed.

Lemma hit_unescaped s c (i : nat) : hit s [c] true (Z.of_nat i) = true <-> s !! i = Some c /\ foldl escape_step false (take i s) = false.
Proof.
  unfold hit. rewrite is_escaped_eq. rewrite andb_true_iff, match_at_single, Nat2Z.id, negb_true_iff by lia. done.
Qed.

Lemma strpos_unescaped_none s c start : c <> ESCAPE_CHAR -> 0 <= start -> protected c start s -> strpos_unescaped (Some s) [c] start = -1.
Proof.
  intros Hc Hs Hp. rewrite strpos_unescaped_eq by done. destruct (Z.le_gt_cases (strlen s) start).
  - unfold _strpos. cbv zeta. destruct (strlen s <? strlen [c]); [done|]. rewrite (proj2 (Z.ltb_ge start 0)) by lia.
    by rewrite (proj2 (Z.ltb_ge start 0)), (proj2 (Z.leb_le (strlen s) start)) by lia.
  - destruct (strpos_first_at s [c] start true) as [[E _]|(Hr & Hit & _)]; [done|lia|exact E|]. rewrite (proj2 (Z.ltb_ge start 0)) in Hr by lia.
    set (r := _strpos _ _ _ _) in *. replace r with (Z.of_nat (Z.to_nat r)) in Hit by lia. apply hit_unescaped in Hit as [Hl Hf]. rewrite (Hp (Z.to_nat r) ltac:(lia) Hl) in Hf. done.
Qed.

Lemma strpos_unescaped_at a c b start : c <> ESCAPE_CHAR -> 0 <= start <= len a -> closed a -> protected c start a -> strpos_unescaped (Some (a ++ c :: b)) [c] start = len a.
Proof.
  intros Hc Hs Ha Hp. rewrite strpos_unescaped_eq by done. assert (start < strlen (a ++ c :: b)) as Hlt by (unfold strlen; llia).
  assert (hit (a ++ c :: b) [c] true (len a) = true) as Hat.
  { apply hit_unescaped. rewrite lookup_app_r, Nat.sub_diag by lia. by rewrite take_app_length. }
  destruct (strpos_first_at (a ++ c :: b) [c] start true) as [[_ Hno]|(Hr & Hit & Hno)]; [done|lia|..]; rewrite (proj2 (Z.ltb_ge start 0)) in * by lia.
  { rewrite Hno in Hat by lia. done. }
  set (r := _strpos _ _ _ _) in *. destruct (Z.lt_trichotomy r (len a)) as [Hl|[?|Hg]]; [|done|rewrite Hno in Hat by lia; done].
  replace r with (Z.of_nat (Z.to_nat r)) in Hit by lia. apply hit_unescaped in Hit as [Hi Hf]. rewrite lookup_app_l in Hi by lia. rewrite take_app_le in Hf by lia.
  rewrite (Hp (Z.to_nat r) ltac:(lia) Hi) in Hf. done.
Qed.

(** * Types in front of other text *)

Section Types.
Context `{DataTypes}.

Lemma cut_app_some (sep : ascii) s t a b : cut sep s = (a, Some b) -> cut sep (s ++ t) = (a, Some (b ++ t)).
Proof. intros E. pose proof (cut_spec sep s) as Hs. pose proof (cut_no_sep sep s) as Hn. rewrite E in Hs, Hn. subst s. rewrite <-app_assoc. by apply cut_app. Qed.

Lemma parse_types_prefix fuel : forall s t types, (length s < fuel)%nat -> XPRC_TYPE_SEPARATOR ∉ t ->
  parse_types_loop fuel (s ++ t) (strlen s) types = types_of (split_on XPRC_TYPE_SEPARATOR s) types.
Proof.
  induction fuel as [|fuel IH]; intros s t types Hfuel Ht; [lia|]. cbn [parse_types_loop]. destruct (Z.leb_spec (strlen s) 0).
  { destruct s as [|c s]; [done|unfold strlen in *; simpl in *; lia]. }
  rewrite split_on_cut. pose proof (cut_spec XPRC_TYPE_SEPARATOR s) as Hcut. pose proof (cut_no_sep XPRC_TYPE_SEPARATOR s) as Hno.
  destruct (cut XPRC_TYPE_SEPARATOR s) as [name [rest|]] eqn:Ec.
  - rewrite (cut_app_some _ _ _ _ _ Ec). subst s. rewrite <-app_assoc, xprc_parse_type_name. cbn [types_of].
    rewrite bool_decide_eq_false_2 by (intros [_ E]; by apply split_on_nonempty in E).
    destruct (type_of_name name =? xplmType_Unknown); [done|]. destruct (has_type types (type_of_name name)); [done|]. cbn [orb].
    rewrite <-(IH _ t) by (done || llia). f_equal. unfold strlen, XPRC_TYPE_SEPARATOR_LENGTH. llia.
  - subst name. cbn [fst] in Hno. rewrite cut_none by by rewrite elem_of_app; intros [?|?]. cbn [types_of].
    rewrite bool_decide_eq_false_2 by (intros [-> _]; unfold strlen in *; simpl in *; lia). rewrite xprc_parse_type_name.
    destruct (type_of_name s =? xplmType_Unknown); [done|]. cbn [orb types_of]. by destruct (has_type types (type_of_name s)).
Qed.

(** No type has a colon in its name. *)
Lemma type_of_colon s : ":"%char ∈ s -> type_of_name s = xplmType_Unknown.
Proof.
  intros Hs. assert (forall k, ":"%char ∉ k -> str_eq s k = false) as Hk by (intros k Hk; apply bool_decide_eq_false_2; by intros ->).
  unfold type_of_name. by rewrite !Hk by (apply (bool_decide_unpack _); by vm_compute).
Qed.

(** A separator in the text behind the types is taken for one of theirs. *)
Lemma parse_types_separator fuel : forall s t types, (length s < fuel)%nat -> Forall (fun name => name <> []) (split_on XPRC_TYPE_SEPARATOR s) ->
  XPRC_TYPE_SEPARATOR ∈ t -> parse_types_loop fuel (s ++ ":"%char :: t) (strlen s) types = xplmType_Unknown.
Proof.
  induction fuel as [|fuel IH]; intros s t types Hfuel Hs Ht; [lia|]. cbn [parse_types_loop]. rewrite split_on_cut in Hs.
  destruct (Z.leb_spec (strlen s) 0).
  { destruct s as [|c s]; [by apply Forall_cons in Hs as [? _]|unfold strlen in *; simpl in *; lia]. }
  pose proof (cut_spec XPRC_TYPE_SEPARATOR s) as Hcut. pose proof (cut_no_sep XPRC_TYPE_SEPARATOR s) as Hno. destruct (cut XPRC_TYPE_SEPARATOR s) as [name [rest|]] eqn:Ec.
  - rewrite (cut_app_some _ _ _ _ _ Ec). subst s. rewrite <-app_assoc, xprc_parse_type_name. apply Forall_cons in Hs as [_ Hs].
    destruct (type_of_name name =? xplmType_Unknown); [done|]. destruct (has_type types (type_of_name name)); [done|].
    rewrite <-(IH rest t (Z.lor types (type_of_name name))) by (done || llia). f_equal. unfold strlen, XPRC_TYPE_SEPARATOR_LENGTH. llia.
  - subst name. cbn [fst] in Hno. pose proof (cut_spec XPRC_TYPE_SEPARATOR t) as Hct. pose proof (cut_no_sep XPRC_TYPE_SEPARATOR t) as Hnt.
    destruct (cut XPRC_TYPE_SEPARATOR t) as [t1 [t2|]]; [|by subst]. cbn [fst] in Hnt. subst t. set (name := s ++ ":"%char :: t1).
    assert (s ++ ":"%char :: t1 ++ XPRC_TYPE_SEPARATOR :: t2 = name ++ XPRC_TYPE_SEPARATOR :: t2) as -> by (unfold name; by rewrite <-app_assoc).
    rewrite cut_app by (unfold name; rewrite elem_of_app, elem_of_cons; intros [?|[?|?]]; done). rewrite xprc_parse_type_name, type_of_colon; [done|].
    unfold name. rewrite elem_of_app, elem_of_cons. auto.
Qed.
End Types.

(** * What a client writes *)

Lemma elem_of_escape P c s : c <> ESCAPE_CHAR -> c ∈ escape P s <-> c ∈ s.
Proof.
  intros Hc. induction s as [|x s IH]; [done|]. simpl. destruct (P x); rewrite !elem_of_cons, IH; tauto.
Qed.

Lemma join_plain c sep l : c <> sep -> Forall (fun s => c ∉ s) l -> c ∉ join sep l.
Proof.
  intros Hc. induction l as [|s l IH]; [by intros _ ?%elem_of_nil|]. intros [Hs Hl]%Forall_cons. destruct l as [|t l]; [done|].
  rewrite join_cons, elem_of_app, elem_of_cons by done. intros [?|[?|?]]; [done|done|by apply IH].
Qed.

Section Roundtrip.
Context `{DataTypes} `{FloatText} `{NumberConversions}.
Implicit Types (types mode n : Z) (name : cstr) (P : ascii -> bool).

Lemma table_plain : Forall (fun p => (":"%char ∉ p.1) /\ (ESCAPE_CHAR ∉ p.1) /\ p.1 <> []) type_table.
Proof. repeat (apply Forall_cons; split; [split_and!; apply (bool_decide_unpack _); by vm_compute|]). constructor. Qed.

Lemma selected_forall (Q : cstr -> Prop) types : Forall (fun p => Q p.1) type_table -> Forall Q (selected types).*1.
Proof.
  intros HQ. apply Forall_forall. intros s (p & -> & [_ Hp]%list_elem_of_filter)%list_elem_of_fmap. by eapply Forall_forall in HQ; [|exact Hp].
Qed.

Lemma types_text_plain types c : (c = ":"%char \/ c = ESCAPE_CHAR) -> c ∉ types_text types.
Proof.
  intros Hc. apply join_plain; [by destruct Hc as [->| ->]|]. apply (selected_forall (fun s => c ∉ s)). eapply Forall_impl; [exact table_plain|].
  intros p (? & ? & _). by destruct Hc as [->| ->].
Qed.

Lemma types_text_split types : selected types <> [] -> split_on XPRC_TYPE_SEPARATOR (types_text types) = (selected types).*1.
Proof.
  intros Hne. apply split_on_join; [intros E; by apply fmap_nil_inv in E|]. exact (selected_forall (fun s => XPRC_TYPE_SEPARATOR ∉ s) types table_no_separator).
Qed.

Lemma types_text_names types : selected types <> [] -> Forall (fun s => s <> []) (split_on XPRC_TYPE_SEPARATOR (types_text types)).
Proof. intros Hne. rewrite types_text_split by done. apply (selected_forall (fun s => s <> [])). eapply Forall_impl; [exact table_plain|]. by intros p (_ & _ & ?). Qed.

Lemma types_text_value types t : selected types <> [] -> XPRC_TYPE_SEPARATOR ∉ t ->
  xprc_parse_types (Some (types_text types ++ t)) (strlen (types_text types)) = Z.land types supported_types.
Proof.
  intros Hne Ht. rewrite <-types_text_parses by done. unfold xprc_parse_types. rewrite parse_types_loop_grammar, parse_types_prefix; [done|llia|done|lia].
Qed.

(** The text of a parameter: types, a name with escapes, and the length of arrays. *)
Definition drci_parameter types P name n : cstr :=
  types_text types ++ ":"%char :: escape P name ++ (if has_type types array_types then ":"%char :: print_dec n else []).

(** What may be asked for. *)
Record askable types mode n : Prop := mkAskable {
  as_types : types <> 0 /\ Z.land types supported_types = types;
  as_kinds : has_type types simple_types && has_type types array_types = false;
  as_blob : has_type types xplmType_Data = true -> Z.land types (Z.lnot xplmType_Data) = 0 /\ mode = DRCI_INTCONV_NOT_SET;
  as_length : has_type types array_types = true -> 0 <= n <= INT_MAX;
}.

Lemma askable_selected types mode n : askable types mode n -> selected types <> [].
Proof. intros [[Hne Hs] _ _ _] E. pose proof (all_selected types) as Ha. rewrite E, Hs in Ha. by apply Hne. Qed.

(** Where the separators are. *)
Lemma drci_separators types P name n (parameter := drci_parameter types P name n) (lt := len (types_text types)) (ln := len (escape P name)) :
  P ESCAPE_CHAR = true -> P ":"%char = true -> strpos_unescaped (Some parameter) (lit ":") 0 = lt /\
  strpos_unescaped (Some parameter) (lit ":") (lt + 1) = (if has_type types array_types then lt + 1 + ln else -1).
Proof.
  intros HE HC. pose proof (closed_plain _ (types_text_plain types ESCAPE_CHAR ltac:(by right))) as Hct. split.
  - unfold parameter, drci_parameter. apply strpos_unescaped_at; [done|lia|done|]. apply protected_plain, types_text_plain. by left.
  - set (front := types_text types ++ [":"%char]). assert (closed front) as Hcf by by apply closed_app.
    assert (len front = lt + 1) as Hlf by (unfold front, lt; llia). pose proof (protected_behind ":"%char front P name HE HC ltac:(done) Hcf) as Hp. rewrite Hlf in Hp.
    unfold parameter, drci_parameter. destruct (has_type types array_types).
    + replace (types_text types ++ ":"%char :: escape P name ++ ":"%char :: print_dec n) with ((front ++ escape P name) ++ ":"%char :: print_dec n) by (unfold front; by rewrite <-!app_assoc).
      replace (lt + 1 + ln) with (len (front ++ escape P name)) by (rewrite length_app; unfold ln; lia).
      apply strpos_unescaped_at; [done|rewrite length_app; lia|apply closed_app; [done|by apply closed_escape]|exact Hp].
    + rewrite app_nil_r. replace (types_text types ++ ":"%char :: escape P name) with (front ++ escape P name) by (unfold front; by rewrite <-!app_assoc).
      apply strpos_unescaped_none; [done|lia|exact Hp].
Qed.

(** A client gets the dataref that it asks for. The types, the name, in which it
    escapes backslashes and colons and whatever else, and the length of arrays are
    read back from the parameter that it writes, if the types may be combined, the
    length is an integer that is not negative, and there is no conversion mode for blobs;
    except if there is a comma in the name, which is taken for a separator of types, so
    that the request is refused, even if the client escapes it. *)
Theorem drci_parameter_roundtrip types P name n mode :
  P ESCAPE_CHAR = true -> P ":"%char = true -> no_nul name -> askable types mode n ->
  let parameter := drci_parameter types P name n in
  if bool_decide (","%char ∈ name) then parse_drci_parameter [parameter] mode = inl (lit "unknown or unsupported types")
  else exists offset length, parse_drci_parameter [parameter] mode = inr (types, if has_type types array_types then n else -1, offset, length) /\
    unescaped (slice 0 length (drop (Z.to_nat offset) parameter)) = Some name.
Proof.
  intros HE HC Hn Hask parameter. pose proof (askable_selected _ _ _ Hask) as Hsel. pose proof Hask as [[Hne Hsup] Hkinds Hblob Hlen].
  destruct (drci_separators types P name n HE HC) as [E1 E2]. fold parameter in E1, E2. set (lt := len (types_text types)) in *. set (ln := len (escape P name)) in *.
  assert (1 <= lt) as Hlt.
  { pose proof (types_text_names types Hsel) as Hf. unfold lt. destruct (types_text types) as [|x s]; [by apply Forall_cons in Hf as [? _]|simpl; lia]. }
  set (tail := escape P name ++ (if has_type types array_types then ":"%char :: print_dec n else [])).
  assert (parameter = types_text types ++ ":"%char :: tail) as Ep by done.
  assert (","%char ∈ tail <-> ","%char ∈ name) as Hcomma.
  { unfold tail. rewrite elem_of_app, elem_of_escape by done. split; [|by left]. intros [?|Hin]; [done|]. exfalso. destruct (has_type types array_types); [|by apply elem_of_nil in Hin].
    apply elem_of_cons in Hin as [?|Hin]; [done|]. by apply print_dec_char in Hin as [?|?]. }
  unfold parse_drci_parameter. cbv zeta. rewrite E1, E2, (proj2 (Z.ltb_ge lt 1)) by lia. clear E1 E2.
  destruct (bool_decide (","%char ∈ name)) eqn:Hc; [apply bool_decide_eq_true in Hc|apply bool_decide_eq_false in Hc].
  { assert (xprc_parse_types (Some parameter) lt = xplmType_Unknown) as ->; [|done]. rewrite Ep. apply parse_types_separator; [llia|by apply types_text_names|by apply Hcomma]. }
  assert (xprc_parse_types (Some parameter) lt = types) as ->.
  { rewrite Ep. unfold lt. rewrite <-Hsup at 3. apply types_text_value; [done|]. rewrite elem_of_cons. intros [?|?]; [done|tauto]. }
  rewrite Hkinds, (proj2 (Z.eqb_neq types xplmType_Unknown)) by done.
  assert (Z.land types (Z.lnot supported_types) = 0) as -> by (rewrite <-Hsup, <-Z.land_assoc, Z.land_lnot_diag; apply Z.land_0_r). cbn [Z.eqb negb orb].
  assert (strlen parameter = lt + 1 + ln + (if has_type types array_types then 1 + len (print_dec n) else 0)) as Hstr.
  { rewrite Ep. unfold strlen, tail, lt, ln. destruct (has_type types array_types); rewrite !length_app; simpl length; rewrite ?length_app; simpl length; lia. }
  assert (exists offset length, offset = lt + 1 /\ length = ln /\ unescaped (slice 0 length (drop (Z.to_nat offset) parameter)) = Some name) as (offset & length & -> & -> & Hname).
  { exists (lt + 1), ln. split; [done|]. split; [done|]. replace (drop (Z.to_nat (lt + 1)) parameter) with tail.
    2:{ rewrite Ep. replace (Z.to_nat (lt + 1)) with (length (types_text types) + 1)%nat by (unfold lt; lia). by rewrite drop_app_add. }
    assert (slice 0 ln tail = escape P name) as -> by (unfold slice, tail, ln; rewrite Nat2Z.id; exact (take_app_length _ _)). unfold unescaped, strlen. by rewrite slice_0_all, unescape_escape, c_str_id. }
  assert (has_type types xplmType_Data && negb (Z.land types (Z.lnot xplmType_Data) =? 0) = false /\ has_type types xplmType_Data && negb (mode =? DRCI_INTCONV_NOT_SET) = false) as [-> ->].
  { destruct (has_type types xplmType_Data); [|done]. by destruct (Hblob eq_refl) as [-> ->]. }
  destruct (has_type types array_types) eqn:Harr; cbn [negb andb].
  - assert (1 <= len (print_dec n)) as Hd by (pose proof (print_dec_nonempty n); destruct (print_dec n); [done|simpl; lia]).
    rewrite (proj2 (Z.leb_le 0 (lt + 1 + ln))), (proj2 (Z.ltb_ge (lt + 1 + ln) 0)) by lia. replace (strlen parameter - (lt + 1 + ln) - 1) with (len (print_dec n)) by lia.
    rewrite (proj2 (Z.ltb_ge (len (print_dec n)) 1)), (proj2 (Z.ltb_lt 0 (len (print_dec n)))) by lia.
    assert (drop (Z.to_nat (lt + 1 + ln + 1)) parameter = print_dec n) as ->.
    { rewrite Ep. unfold tail. replace (types_text types ++ ":"%char :: escape P name ++ ":"%char :: print_dec n) with ((types_text types ++ ":"%char :: escape P name ++ [":"%char]) ++ print_dec n)
        by (rewrite <-app_assoc; simpl; by rewrite <-app_assoc). apply drop_app_length'. rewrite length_app. simpl. rewrite length_app. simpl. unfold lt, ln. lia. }
    destruct (Hlen eq_refl). rewrite atoi_print by (split; [apply Z.le_trans with 0; [by vm_compute|done]|done]). rewrite (proj2 (Z.ltb_ge n 0)) by done.
    replace (lt + 1 + ln - lt - 1) with ln by lia. by eexists _, _.
  - change (0 <=? -1) with false. change (-1 <? 0) with true. change (0 <? -1) with false. cbv iota.
    replace (strlen parameter - lt - 1) with ln by lia. by eexists _, _.
Qed.
End Roundtrip.

#[local] Instance demo_types_instance : DataTypes := demo_types.

Definition escape_colon (c : ascii) : bool := bool_decide (c = ":"%char \/ c = ESCAPE_CHAR).

Lemma drci_parameter_roundtrip_witness :
  drci_parameter 24 escape_colon (lit "demo/y:1") 3 = lit "int[],float[]:demo/y\:1:3" /\
  (exists offset length, parse_drci_parameter [lit "int[],float[]:demo/y\:1:3"] DRCI_INTCONV_FLOOR = inr (24, 3, offset, length) /\
    unescaped (slice 0 length (drop (Z.to_nat offset) (lit "int[],float[]:demo/y\:1:3"))) = Some (lit "demo/y:1")) /\
  parse_drci_parameter [lit "int[],float[]:demo,y:3"] DRCI_INTCONV_FLOOR = inl (lit "unknown or unsupported types").
Proof.
  assert (askable 24 DRCI_INTCONV_FLOOR 3) as Hask by (split; [split; [discriminate|reflexivity]|reflexivity|discriminate|intros _; split; discriminate]).
  split; [reflexivity|]. split.
  - exact (drci_parameter_roundtrip 24 escape_colon (lit "demo/y:1") 3 DRCI_INTCONV_FLOOR eq_refl eq_refl ltac:(apply (bool_decide_unpack _); by vm_compute) Hask).
  - exact (drci_parameter_roundtrip 24 escape_colon (lit "demo,y") 3 DRCI_INTCONV_FLOOR eq_refl eq_refl ltac:(apply (bool_decide_unpack _); by vm_compute) Hask).
Defined.
