(* ===== verification/Promises.v ===== *)
(** What the server relies on when it creates commands ([creations_behave]) holds for a
    plugin with one of the commands CMHD, CMTR, CMRG, DRQV and DRCI beside the commands
    of the server itself, in the states of the invariant of that plugin: what a creation
    does to the session is to send messages on its channel. *)

From S2P Require Import Prelude CLib Utils Hashmap Channels Requests Lists Prealloc Arrays Protocol TaskSchedule Network Command Session Server ServerCommands Beside XPQueue HeldCommands HeldInvariant HeldLifecycle HeldSystem CmtrTimers Cmhd Cmtr XPCommands Cmrg CmrgSystem CalmWorld Drqv DrqvTiming DrqvValues DrqvReading DrqvResults DrqvCreation DrqvSystem Dataproxy DataproxyLifecycle DatarefSystem Drci DrciValues DrciAccess DrciLifecycle DrciRegistration DrciCreation DrciHosting DrciSystem.

(** * What a creation does to the session *)

Section Talks.
Context {C : Type} `{ConnectionLaws C} {Y : Type}.
Abbreviation W := (world C (ext Y)).
Implicit Types (w : W) (id : Z).

(** Commands talk on channel [id], if there is one. *)
Definition talks id w w' : Prop :=
  world_ok w -> addressable id = true -> is_Some (registered (w_channels w) id) ->
  exists ms, talked w w' ms /\ session_lock (w_session w') = session_lock (w_session w).

#[export] Instance talks_preorder id : PreOrder (talks id).
Proof.
  split.
  - intros w Hok _ _. exists []. by split; [apply talked_refl|].
  - intros w1 w2 w3 H12 H23 Hok Ha Hreg. destruct (H12 Hok Ha Hreg) as (ms1 & Ht1 & Hl1).
    destruct H23 as (ms2 & Ht2 & Hl2); [by eapply talked_ok|done|by rewrite (talked_registered _ _ _ _ Ht1)|].
    exists (ms1 ++ ms2). split; [by eapply talked_trans|congruence].
Qed.

Lemma session_untouched_talks id w w' : session_untouched w w' -> talks id w w'.
Proof.
  intros [Es Eh Et Ec] [Hc Ht Hch] _ _. exists []. split; [split|by rewrite Es].
  - split; [by rewrite Ec|unfold Channels.wf; by rewrite Et|]. intros id' l. unfold heap_of. rewrite Eh, (registered_table _ _ _ Et). apply Hch.
  - by rewrite Ec, app_nil_r.
  - intros id'. unfold state_of, channel_of, heap_of. rewrite Eh, (registered_table _ _ _ Et). constructor.
  - done.
  - unfold heap_of. by rewrite Eh.
  - by rewrite Ec.
  - by rewrite Es.
Qed.

Lemma talks_session_untouched id {A} (m : M W A) : respects session_untouched m -> respects (talks id) m.
Proof. intros Hm w a w' E. by eapply session_untouched_talks, Hm. Qed.

Lemma talks_zoom id {T A} (proj : W -> T) (inj : T -> W -> W) (m : M T A) :
  (forall w t, session_untouched w (inj t w)) -> respects (talks id) (zoom proj inj m).
Proof. intros Ha. apply (respects_zoom _ (fun _ _ => True)); [intros w t _; apply session_untouched_talks, Ha|apply respects_any]. Qed.

Lemma talks_modify id (f : W -> W) : (forall w, session_untouched w (f w)) -> respects (talks id) (modify f).
Proof. intros Ha. apply respects_modify. intros w. apply session_untouched_talks, Ha. Qed.

Lemma talks_env id {A} (m : M env A) : respects (talks id) (on_env m).
Proof.
  apply talks_session_untouched. intros w a w'. unfold on_env, on_channels, zoom, in_env. destruct w as [s [h t e] c x]; simpl.
  unfold zoom. simpl. destruct (m e) as [[a' e']|]; [|done]. by intros [= _ <-].
Qed.

Lemma talks_beside id {A} (m : M W A) : respects beside m -> respects (talks id) m.
Proof. intros Hm. apply talks_session_untouched. intros w a w' E. by eapply beside_session_untouched, Hm. Qed.

Lemma talks_lock_schedule id : respects (talks id) (lock_schedule (W := W)).
Proof. apply talks_beside, beside_lock. Qed.
Lemma talks_unlock_schedule id : respects (talks id) (unlock_schedule (W := W)).
Proof. apply talks_beside, beside_unlock. Qed.
Lemma talks_schedule_task id task phase : respects (talks id) (schedule_task (W := W) task phase).
Proof. apply talks_beside, beside_schedule_task. Qed.

Lemma talks_millis id : respects (talks id) (millis_since_reference (C := C) (X := ext Y)).
Proof. unfold millis_since_reference, session. pose proof (fun A => @talks_env id A). respects_step. Qed.

Lemma talks_behaved id {A} (m : M W A) : behaved_on id m -> respects (talks id) m.
Proof.
  intros Hm w a w' E Hok Ha Hreg. destruct (Hm w Hok Ha Hreg) as (a' & w2 & ms & E' & Ht & Hl).
  rewrite E in E'. injection E' as <- <-. by exists ms.
Qed.

Lemma talks_report id message : respects (talks id) (report (C := C) (X := ext Y) id message).
Proof. apply talks_behaved, behaved_error. Qed.

(** A creation that keeps an invariant and only talks is well-behaved. *)
Lemma creation_behaved (I : W -> Prop) id {A} (m : M W A) :
  respects (talks id) m -> (forall w, I w -> addressable id = true -> exists a w', m w = Some (a, w') /\ I w') -> behaved_when I id m.
Proof.
  intros Ht Hm w Hok HI Ha Hreg. destruct (Hm w HI Ha) as (a & w' & E & HI'). destruct (Ht w a w' E Hok Ha Hreg) as (ms & ? & ?). by exists a, w', ms.
Qed.
End Talks.

#[global] Hint Resolve talks_env talks_lock_schedule talks_unlock_schedule talks_schedule_task talks_millis talks_report : respects.

(** A creation that reports a failure and gives up. *)
Lemma talks_decline {C} `{ConnectionLaws C} {Y} id message : respects (talks id) (decline (C := C) (X := ext Y) id message).
Proof. unfold decline. respects_step. Qed.

#[global] Hint Resolve talks_decline : respects.

(** * DRQV *)

Section Queries.
Context `{DataTypes} `{FloatText} {C : Type} `{ConnectionLaws C}.
Implicit Types (id : Z) (q : loc).
Abbreviation talking id := (respects (talks (C := C) (Y := drqv_state) id)).

Lemma talks_drqv_data id f : talking id (update_drqv_data f).
Proof. by apply talks_modify. Qed.

Lemma talks_drqv_update id q f : talking id (update_drqv q f).
Proof. unfold update_drqv, load_drqv. pose proof (talks_drqv_data id). respects_step. Qed.

#[local] Hint Resolve talks_drqv_data talks_drqv_update : respects.

Lemma talks_drqv_abandon id q err : talking id (drqv_abandon q err).
Proof. unfold drqv_abandon, drqv_destroy, load_drqv. respects_step. Qed.

#[local] Hint Resolve talks_drqv_abandon : respects.

Lemma talks_create_datarefs id q parameters : talking id (create_datarefs q parameters).
Proof. induction parameters; cbn [create_datarefs]; unfold create_value_buffer; respects_step. Qed.

Lemma talks_drqv_schedule id q : talking id (drqv_schedule q id).
Proof. unfold drqv_schedule, load_drqv. respects_step. Qed.

#[local] Hint Resolve talks_create_datarefs talks_drqv_schedule : respects.

Lemma talks_drqv_create request config : talking (req_channel_id request) (drqv_create request config).
Proof. unfold drqv_create, drqv_reject, alloc_drqv. respects_step. Qed.
End Queries.

(** * CMHD and CMTR *)

Section Held.
Context {C : Type} `{ConnectionLaws C} {P : Type}.
Implicit Types (id : Z) (p : loc).
Abbreviation talking id := (respects (talks (C := C) (Y := xp_state P) id)).

Lemma talks_held_data id f : talking id (update_data f).
Proof. by apply talks_modify. Qed.

Lemma talks_held_update id p f : talking id (update_command p f).
Proof. unfold update_command, load_command. pose proof (talks_held_data id). respects_step. Qed.

Lemma talks_entries id {A} (m : M (heap xp_entry) A) : talking id (on_entries m).
Proof. by apply talks_zoom. Qed.

#[local] Hint Resolve talks_held_data talks_held_update talks_entries : respects.

Lemma talks_abandon_command id p err : talking id (abandon_command p err).
Proof. unfold abandon_command, destroy_held_command, load_command, free_command. respects_step. Qed.

Lemma talks_append_entries id p parameters : talking id (append_entries p id parameters).
Proof. induction parameters; cbn [append_entries]; unfold entry_list, load_command; respects_step. Qed.

Lemma talks_schedule_held id p : talking id (schedule_held_command p id).
Proof. unfold schedule_held_command. respects_step. Qed.

Lemma talks_alloc_command id t : talking id (alloc_command id t).
Proof. unfold alloc_command. respects_step. Qed.

#[local] Hint Resolve talks_abandon_command talks_append_entries talks_schedule_held : respects.

Lemma talks_populate p request : talking (req_channel_id request) (populate_command p request).
Proof. unfold populate_command, create_entries. respects_step. Qed.
End Held.

#[local] Hint Resolve talks_held_update talks_abandon_command talks_alloc_command talks_populate : respects.

Lemma talks_cmhd_create {C} `{ConnectionLaws C} request config : respects (talks (C := C) (req_channel_id request)) (cmhd_create request config).
Proof. unfold cmhd_create. respects_step. Qed.

Lemma talks_cmtr_create {C} `{ConnectionLaws C} request config : respects (talks (C := C) (req_channel_id request)) (cmtr_create request config).
Proof. unfold cmtr_create, cmtr_configure, update_timing. respects_step. Qed.

(** * CMRG *)

Section Offered.
Context {C : Type} `{ConnectionLaws C}.
Implicit Types (id : Z) (q : loc).
Abbreviation talking id := (respects (talks (C := C) (Y := cmrg_state) id)).

Lemma talks_cmrg_data id f : talking id (update_cmrg_data f).
Proof. by apply talks_modify. Qed.

Lemma talks_cmrg_update id q f : talking id (update_cmrg q f).
Proof. unfold update_cmrg, load_cmrg. pose proof (talks_cmrg_data id). respects_step. Qed.

Lemma talks_registry id {A} (m : M (registry_state unit) A) : talking id (in_registry m).
Proof. by apply talks_zoom. Qed.

#[local] Hint Resolve talks_cmrg_data talks_cmrg_update talks_registry : respects.

Lemma talks_cmrg_abandon id q err : talking id (cmrg_abandon q err).
Proof. unfold cmrg_abandon, cmrg_destroy. respects_step. Qed.

#[local] Hint Resolve talks_cmrg_abandon : respects.

Lemma talks_cmrg_reject id q reason : talking id (cmrg_reject q id reason).
Proof. unfold cmrg_reject. respects_step. Qed.

Lemma talks_cmrg_schedule id q : talking id (cmrg_schedule q id).
Proof. unfold cmrg_schedule. respects_step. Qed.

#[local] Hint Resolve talks_cmrg_reject talks_cmrg_schedule : respects.

Lemma talks_cmrg_create request config : talking (req_channel_id request) (cmrg_create request config).
Proof. unfold cmrg_create, alloc_cmrg, cmrg_prepare. respects_step. Qed.
End Offered.

(** * DRCI *)

Section Hosted.
Context `{DataTypes} `{FloatText} `{NumberConversions} {C : Type} `{ConnectionLaws C}.
Implicit Types (id : Z) (q : loc).
Abbreviation talking id := (respects (talks (C := C) (Y := drci_state) id)).

Lemma talks_drci_data id f : talking id (update_drci_data f).
Proof. by apply talks_modify. Qed.

Lemma talks_drci_update id q f : talking id (update_drci q f).
Proof. unfold update_drci, load_drci. pose proof (talks_drci_data id). respects_step. Qed.

#[local] Hint Resolve talks_drci_data talks_drci_update : respects.

Lemma talks_drci_reject id q reason err : talking id (drci_reject q id reason err).
Proof. unfold drci_reject, drci_abandon. respects_step. Qed.

Lemma talks_create_values id types type size n : talking id (create_values types type size n).
Proof. unfold create_values. respects_step. Qed.

#[local] Hint Resolve talks_drci_reject talks_create_values : respects.

Lemma talks_drci_arrays id q : talking id (drci_create_arrays q).
Proof. unfold drci_create_arrays, load_drci. respects_step. Qed.

Lemma talks_drci_schedule id q : talking id (drci_schedule q id).
Proof. unfold drci_schedule, drci_abandon. respects_step. Qed.

#[local] Hint Resolve talks_drci_arrays talks_drci_schedule : respects.

Lemma talks_drci_create session request config : talking (req_channel_id request) (drci_create session request config).
Proof. unfold drci_create, alloc_drci. respects_step. Qed.
End Hosted.

(** * The commands of the server *)

(** What they compute makes no resource scarcer. *)
Lemma calmer_zmalloc n : respects calmer (zmalloc n).
Proof. unfold zmalloc. respects_step. Qed.

#[local] Hint Resolve calmer_zmalloc : respects.

Lemma calmer_copy_partial s n : respects calmer (copy_partial_string s n).
Proof. unfold copy_partial_string. respects_step. Qed.

Lemma calmer_copy s : respects calmer (copy_string s).
Proof. unfold copy_string. destruct s; [apply calmer_copy_partial|respects_step]. Qed.

#[local] Hint Resolve calmer_copy : respects.

Lemma calmer_sprintf text : respects calmer (dynamic_sprintf text).
Proof. unfold dynamic_sprintf. respects_step. Qed.

Lemma calmer_parse_int s : respects calmer (parse_int s).
Proof. unfold parse_int, parse_verified. respects_step. Qed.

Lemma calmer_hashmap_put {V} (map : hashmap_t V) key v old : respects calmer (hashmap_put map key v old).
Proof. unfold hashmap_put. respects_step. Qed.

Lemma calmer_reference_chain {V} (b : list (hashmap_item_t V)) : forall out, respects calmer (reference_chain b out).
Proof. induction b; intros out; cbn [reference_chain]; respects_step. Qed.

#[local] Hint Resolve calmer_hashmap_put calmer_reference_chain : respects.

Lemma calmer_reference_chains {V} (bs : list (list (hashmap_item_t V))) : forall success out, respects calmer (reference_chains bs success out).
Proof. induction bs; intros success out; cbn [reference_chains]; respects_step. Qed.

#[local] Hint Resolve calmer_reference_chains : respects.

Lemma calmer_reference_keys {V} (m : hashmap_t V) : respects calmer (hashmap_reference_keys m).
Proof. unfold hashmap_reference_keys. respects_step. Qed.

Lemma calmer_copy_all keys : respects calmer (copy_all keys).
Proof. induction keys; cbn [copy_all]; respects_step. Qed.

#[local] Hint Resolve calmer_reference_keys calmer_copy_all : respects.

Lemma calmer_command_names {W} (factory : option (command_factory_t W)) : respects calmer (list_command_names factory).
Proof. unfold list_command_names, hashmap_copy_keys. respects_step. Qed.

Lemma calmer_flag_names config : respects calmer (reference_feature_flag_names config).
Proof. unfold reference_feature_flag_names. respects_step. Qed.

Lemma calmer_create_config v : respects calmer (create_command_config v).
Proof. unfold create_command_config, create_hashmap. respects_step. Qed.

Lemma calmer_set_flag config name state : respects calmer (set_command_feature_flag config name state).
Proof. unfold set_command_feature_flag. respects_step. Qed.

Section ServerCommands.
Context {C : Type} `{ConnectionLaws C} {Y : Type}.
Abbreviation W := (world C (ext Y)).
Abbreviation quietly := (respects (quiet (C := C) (X := ext Y))).
Implicit Types (factory : command_factory_t W) (id : Z).

Lemma quiet_confirm id ts message : quietly (confirm_channel id ts message).
Proof. apply quiet_act_on_channel. Qed.
Lemma quiet_continue id ts message : quietly (continue_channel id ts message).
Proof. apply quiet_act_on_channel. Qed.
Lemma quiet_finish id ts message : quietly (finish_channel id ts message).
Proof. apply quiet_act_on_channel. Qed.
Lemma quiet_report id message : quietly (report id message).
Proof. apply quiet_error_channel. Qed.

Lemma quiet_decline id message : quietly (decline id message).
Proof. unfold decline. apply respects_bind; [exact _|apply quiet_report|intros ?; apply respects_ret; exact _]. Qed.

Lemma quiet_set_configuration name config : quietly (set_command_configuration name config).
Proof.
  unfold set_command_configuration, session. destruct name as [name|], config as [config|]; try (apply respects_ret; exact _).
  pose proof (quiet_lock_session (C := C) (X := ext Y)). pose proof (quiet_unlock_session (C := C) (X := ext Y)). apply respects_bind; [exact _|done|intros locked]. apply respects_if; [respects_step|].
  apply respects_bind; [exact _|respects_step|intros s].
  apply respects_bind; [exact _|apply quiet_env, calmer_hashmap_put|intros [[success old] configs]].
  apply respects_bind; [exact _|apply quiet_update_session|intros _]. respects_step.
Qed.
End ServerCommands.

(** Follows the structure of a command: messages, configurations and memory. *)
Ltac quiet_step :=
  repeat first
    [ match goal with
      | |- respects _ (mret _) => apply respects_ret; exact _
      | |- respects _ (mbind _ _) => apply respects_bind; [exact _| |intros ?]
      | |- respects _ (confirm_channel _ _ _) => apply quiet_confirm
      | |- respects _ (continue_channel _ _ _) => apply quiet_continue
      | |- respects _ (finish_channel _ _ _) => apply quiet_finish
      | |- respects _ (report _ _) => apply quiet_report
      | |- respects _ (decline _ _) => apply quiet_decline
      | |- respects _ (get_command_configuration _) => apply quiet_get_configuration
      | |- respects _ (set_command_configuration _ _) => apply quiet_set_configuration
      | |- respects _ (on_env (dynamic_sprintf _)) => apply quiet_env, calmer_sprintf
      | |- respects _ (on_env (parse_int _)) => apply quiet_env, calmer_parse_int
      | |- respects _ (on_env (create_command_config _)) => apply quiet_env, calmer_create_config
      | |- respects _ (on_env (set_command_feature_flag _ _ _)) => apply quiet_env, calmer_set_flag
      | |- respects _ (on_env (list_command_names _)) => apply quiet_env, calmer_command_names
      | |- respects _ (on_env (reference_feature_flag_names _)) => apply quiet_env, calmer_flag_names
      | |- respects _ (let '(_, _) := ?x in _) => destruct x as [??]
      | |- respects _ (if _ then _ else _) => apply respects_if
      | |- respects _ (when _ _) => apply respects_when; [exact _|]
      | |- respects _ (match ?x with _ => _ end) => destruct x
      | |- respects _ ub => apply respects_ub
      end
    | progress cbv zeta ].

Section Quiet.
Context {C : Type} `{ConnectionLaws C} {Y : Type}.
Abbreviation W := (world C (ext Y)).
Abbreviation quietly := (respects (quiet (C := C) (X := ext Y))).
Implicit Types (factory : command_factory_t W) (id : Z).

Lemma quiet_merge_featureless v changes : quietly (merge_featureless_config v changes).
Proof. unfold merge_featureless_config. quiet_step. Qed.

Lemma quiet_srid_create info xpinfo request config : quietly (srid_create info xpinfo request config).
Proof. unfold srid_create, srid_continue_number, srid_continue_unless_empty, srid_continue. quiet_step. Qed.

Lemma quiet_append_flags config names : forall is_first msg, quietly (append_feature_flags config names is_first msg).
Proof. induction names as [|name names IH]; intros; cbn [append_feature_flags]; quiet_step. apply IH. Qed.

Lemma quiet_send_configuration id name finish : quietly (send_command_configuration id name finish).
Proof. unfold send_command_configuration. quiet_step; apply quiet_append_flags. Qed.

Lemma quiet_send_others id names : quietly (send_other_configurations id names).
Proof. induction names as [|name names IH]; cbn [send_other_configurations]; quiet_step; first [apply IH|apply quiet_send_configuration]. Qed.

Lemma quiet_srlc_create factory request config : quietly (srlc_create factory request config).
Proof. unfold srlc_create, srlc_fail. quiet_step; first [apply quiet_send_others|apply quiet_send_configuration]. Qed.

Lemma quiet_parse_flags fuel : forall id rest changes, quietly (parse_feature_flags fuel id rest changes).
Proof. induction fuel as [|fuel IH]; intros id [|ch rest] changes; cbn [parse_feature_flags]; quiet_step. apply IH. Qed.

(** The merge functions a factory offers. *)
Definition merges_quietly factory : Prop :=
  forall name command previous changes, hashmap_get (commands_by_name factory) name = Some command -> quietly (cmd_merge_config command previous changes).

Lemma quiet_merge factory new_config err_msg name previous changes :
  merges_quietly factory -> quietly (merge_command_config new_config err_msg (Some factory) name previous changes).
Proof.
  intros Hf. unfold merge_command_config. apply respects_if; [quiet_step|]. apply respects_if; [quiet_step|].
  destruct name as [name|], previous as [previous|], changes as [changes|]; try (apply respects_ret; exact _).
  destruct (hashmap_get _ _) as [command|] eqn:E; [|apply respects_ret; exact _].
  apply respects_bind; [exact _|by eapply Hf|]. intros [[err new] msg]. quiet_step.
Qed.

Lemma quiet_srfs_create factory request config : merges_quietly factory -> quietly (srfs_create factory request config).
Proof.
  intros Hf. unfold srfs_create, srfs_reconfigure, srfs_parse_version, parse_flags_parameter, report_merge_failure, srfs_fail.
  quiet_step; first [apply quiet_parse_flags|by apply quiet_merge].
Qed.
End Quiet.

(** * Plugins *)

Section Plugin.
Context {C : Type} `{ConnectionLaws C} {Y : Type}.
Abbreviation W := (world C (ext Y)).
Implicit Types (I : W -> Prop) (factory : command_factory_t W) (command : command_t W).

Definition server_command factory command : Prop :=
  (exists info xpinfo, command = command_srid info xpinfo) \/ command = command_srlc factory \/ command = command_srfs factory.

(** A factory of a command and the commands of the server. *)
Definition serves factory command : Prop :=
  forall name other, hashmap_get (commands_by_name factory) name = Some other -> other = command \/ server_command factory other.

(** The states that a command's plugin keeps; the command has no features. *)
Record keeps_creating I command : Prop := mkKeepsCreating {
  kc_quiet w w' : quiet w w' -> world_ok w' -> I w -> I w';
  kc_merge : exists v, cmd_merge_config command = (fun _ changes => merge_featureless_config v changes);
  kc_create request config : Forall no_nul (req_parameters request) -> behaved_when I (req_channel_id request) (cmd_create command request config);
}.

Lemma served_merges I factory command : keeps_creating I command -> serves factory command -> merges_behave factory /\ merges_quietly factory.
Proof.
  intros [_ [v Hv] _] Hs.
  assert (forall name other, hashmap_get (commands_by_name factory) name = Some other -> exists v, cmd_merge_config other = (fun _ changes => merge_featureless_config v changes)) as Hm.
  { intros name other [-> |[(info & xpinfo & ->)|[-> | ->]]]%Hs; by eexists. }
  split; [intros name other id previous changes (v' & ->)%Hm; apply behaved_merge|intros name other previous changes (v' & ->)%Hm; apply quiet_merge_featureless].
Qed.

Lemma server_command_creates factory other request config : merges_behave factory -> merges_quietly factory -> server_command factory other ->
  behaved_on (req_channel_id request) (cmd_create other request config) /\ respects quiet (cmd_create other request config).
Proof.
  intros Hb Hq [(info & xpinfo & ->)|[-> | ->]]; split.
  - apply create_promise.
  - apply quiet_srid_create.
  - apply create_promise.
  - apply quiet_srlc_create.
  - apply (create_promise (CommandPromise := srfs_promise factory Hb)).
  - by apply quiet_srfs_create.
Qed.

Lemma plugin_creations I factory command : keeps_creating I command -> serves factory command -> creations_behave I factory.
Proof.
  intros Hk Hs. destruct (served_merges _ _ _ Hk Hs) as [Hb Hq]. split; [apply Hk|].
  intros name other request config Ho Hn. destruct (Hs name other Ho) as [-> |Hsc]; [by apply Hk|].
  destruct (server_command_creates factory other request config Hb Hq Hsc) as [Hbe Hqu].
  intros w Hok HI Ha Hreg. destruct (Hbe w Hok Ha Hreg) as (a & w' & ms & E & Ht & Hl). exists a, w', ms. split; [done|]. split; [done|]. split; [done|].
  eapply (kc_quiet _ _ Hk); [by eapply Hqu|by eapply talked_ok|done].
Qed.
End Plugin.

(** The action of creating, seen as a creation. *)
Lemma created_of {S A} (m : M S A) (w w' : S) : (_ ← m; mret tt) w = Some (tt, w') -> exists a, m w = Some (a, w').
Proof. intros (a & w2 & E & [= <-])%bind_Some. by exists a. Qed.

Lemma cmhd_keeps_creating {C} `{ConnectionLaws C} : keeps_creating (fun w => exists m refs ts, cmhd_inv w m refs ts) (command_cmhd (C := C)).
Proof.
  split.
  - intros w w' Hq Hok (m & refs & ts & Hi). exists m, refs, ts. by eapply inv_quiet.
  - by eexists.
  - intros request config _. apply creation_behaved; [apply talks_cmhd_create|]. intros w (m & refs & ts & Hi) Ha.
    destruct (hc_create_ok (hc := cmhd_held (fun _ _ => 0)) w m refs ts request config Hi Ha) as (r & w' & m' & ts' & E & Hi'). exists r, w'. split; [exact E|]. by exists m', refs, ts'.
Qed.

Lemma cmtr_keeps_creating {C} `{ConnectionLaws C} : keeps_creating (fun w => exists m refs ts, cmtr_inv w m refs ts) (command_cmtr (C := C)).
Proof.
  split.
  - intros w w' Hq Hok (m & refs & ts & Hi). exists m, refs, ts. by eapply inv_quiet.
  - by eexists.
  - intros request config _. apply creation_behaved; [apply talks_cmtr_create|]. intros w (m & refs & ts & Hi) Ha.
    destruct (hc_create_ok (hc := cmtr_held (fun _ _ => 0)) w m refs ts request config Hi Ha) as (r & w' & m' & ts' & E & Hi'). exists r, w'. split; [exact E|]. by exists m', refs, ts'.
Qed.

Lemma cmrg_keeps_creating {C} `{ConnectionLaws C} : keeps_creating (fun w => exists ts, cmrg_inv w ts) (command_cmrg (C := C)).
Proof.
  split.
  - intros w w' Hq Hok (ts & Hi). exists ts. destruct (calm_quiet w w' ts Hq Hok (proj1 (gi_ok _ _ Hi))) as [Hc Hd].
    eapply cmrg_inv_same; [exact Hi| |by rewrite Hd]. split; [done|]. rewrite Hd. apply (gi_ok _ _ Hi).
  - by eexists.
  - intros request config _. apply creation_behaved; [apply talks_cmrg_create|]. intros w (ts & Hi) Ha.
    destruct (cmrg_perform_ok (fun _ _ => 0) (fun _ _ _ => 0) w ts (CreateCommand request config) Hi Ha) as (w' & ts' & (r & E)%created_of & Hi').
    exists r, w'. split; [exact E|]. by exists ts'.
Qed.

Lemma drqv_keeps_creating `{DataTypes} `{FloatText} {C} `{ConnectionLaws C} : keeps_creating (fun w => exists tss, drqv_inv w tss) (command_drqv (C := C)).
Proof.
  split.
  - intros w w' Hq Hok (tss & Hi). exists tss. destruct (tasks_quiet w w' tss Hq Hok (vi_calm _ _ Hi)) as [Hc Hd]. split; [done|apply Hi|].
    intros q c. rewrite Hd. intros Hcs Hor. destruct (vi_scheduled _ _ Hi q c Hcs Hor) as [t Ht]. exists t. eapply scheduled_same; [by rewrite Hd| |by apply Ht|done]. done.
  - by eexists.
  - intros request config Hn. apply creation_behaved; [apply talks_drqv_create|]. intros w (tss & Hi) Ha.
    destruct (drqv_perform_ok (fun _ _ => 0) (fun _ _ => 0) (fun _ _ _ => 0) demo_get_array demo_length w tss (CreateQuery request config) demo_reads_arrays Hi (conj Ha Hn))
      as (w' & tss' & (r & E)%created_of & Hi'). exists r, w'. split; [exact E|]. by exists tss'.
Qed.

Lemma drci_keeps_creating `{DataTypes} `{FloatText} `{NumberConversions} {C} `{ConnectionLaws C} session :
  keeps_creating (fun w => exists tss, drci_ok w tss) (command_drci (C := C) session).
Proof.
  split.
  - intros w w' Hq Hok (tss & Hi). exists tss. destruct (tasks_quiet w w' tss Hq Hok (do_calm _ _ Hi)) as [Hc Hd]. by eapply drci_ok_data.
  - by eexists.
  - intros request config _. apply creation_behaved; [apply talks_drci_create|]. intros w (tss & Hi) Ha.
    destruct (drci_runs next_dataref demo_found w tss (CreateDataref session request config) next_dataref_new Hi Ha)
      as [(w' & tss' & (r & E)%created_of & Hi')|[[] _]]. exists r, w'. split; [exact E|]. by exists tss'.
Qed.

(** What the server relies on, for plugins with one command beside those of the server. *)
Lemma plugins_behave `{DataTypes} `{FloatText} `{NumberConversions} {C} `{ConnectionLaws C} :
  (forall factory, serves factory (command_cmhd (C := C)) -> creations_behave (fun w => exists m refs ts, cmhd_inv w m refs ts) factory) /\
  (forall factory, serves factory (command_cmtr (C := C)) -> creations_behave (fun w => exists m refs ts, cmtr_inv w m refs ts) factory) /\
  (forall factory, serves factory (command_cmrg (C := C)) -> creations_behave (fun w => exists ts, cmrg_inv w ts) factory) /\
  (forall factory, serves factory (command_drqv (C := C)) -> creations_behave (fun w => exists tss, drqv_inv w tss) factory) /\
  (forall factory session, serves factory (command_drci (C := C) session) -> creations_behave (fun w => exists tss, drci_ok w tss) factory).
Proof.
  split_and!; intros; (eapply plugin_creations; [|eassumption]).
  - apply cmhd_keeps_creating.
  - apply cmtr_keeps_creating.
  - apply cmrg_keeps_creating.
  - apply drqv_keeps_creating.
  - apply drci_keeps_creating.
Qed.

(** * A request to a plugin with queries *)

#[local] Instance demo_types_instance : DataTypes := demo_types.
#[local] Instance demo_floats_instance : FloatText := demo_floats.

Definition demo_query_factory : command_factory_t demo_drqv_world :=
  mkFactory (mkMap {[compute_hash (lit "DRQV") := [Hashmap.mkItem (lit "DRQV") (Some command_drqv)]]}).
Definition demo_query_configs : hashmap_t command_config_t :=
  mkMap {[compute_hash (lit "DRQV") := [Hashmap.mkItem (lit "DRQV") (Some demo_query_config)]]}.

Lemma demo_query_factory_serves : serves demo_query_factory command_drqv.
Proof.
  intros name other. unfold hashmap_get, bucket, demo_query_factory. cbn [commands_by_name items].
  destruct (decide (compute_hash name = compute_hash (lit "DRQV"))) as [-> |Hne].
  - rewrite lookup_singleton_eq. simpl. destruct (str_eq _ name); simpl; [|done]. intros [= <-]. by left.
  - by rewrite lookup_singleton_ne.
Qed.

(** The plugin just started; the session knows the configuration of DRQV. *)
Definition demo_serving : demo_drqv_world :=
  set_session (mkSession (reference_time (w_session demo_drqv_started)) (reference_millis (w_session demo_drqv_started)) SESSION_PHASE_LOGGED_IN 1 demo_query_configs 0 false) demo_drqv_started.

Lemma demo_serving_ok : drqv_inv demo_serving [[]; []].
Proof.
  destruct (drqv_started_inv _ demo_drqv_started_ok) as [[[Hc Ht Hch] Hs Hl Hp] _ _]. split; [split|done|].
  - split; [exact Hc|exact Ht|exact Hch].
  - by eapply (scheds_ok_same demo_drqv_started).
  - exact Hl.
  - exact Hp.
  - intros q c. change (qs_commands (world_data demo_serving)) with (∅ : gmap loc command_drqv_t). by rewrite lookup_empty.
Qed.

(** The request of the client, on a channel of its own. *)
Definition demo_query_request (channel : Z) : request_t :=
  mkRequest channel (lit "DRQV") [mkOption (lit "freq") (lit "2f"); mkOption (lit "times") (lit "2")] [lit "int:demo/a"; lit "blob:demo/b"].

(** The command runs on the new channel; nothing is sent before the next flight loop. *)
Example demo_query_runs :
  let w := after (handle_command_request demo_query_factory (demo_query_request (demo_channel + 1))) demo_serving in
  (state_of w (demo_channel + 1), ch_command_ref <$> channel_of w (demo_channel + 1), conn_queued (w_connection w)) =
  (Some CHANNEL_STATE_INITIAL, Some (Some 1%positive), []).
Proof. vm_compute. reflexivity. Qed.

Lemma command_request_answered_witness :
  let request := demo_query_request (demo_channel + 1) in
  let id := req_channel_id request in
  exists w', handle_command_request demo_query_factory request demo_serving = Some (tt, w') /\ (exists tss, drqv_inv w' tss) /\
    ((exists t reason, noticed demo_serving w' (channel_failure (channel_id_to_string id) t reason)) \/
     (state_of demo_serving id = None /\ exists ms, answered demo_serving w' id ms)).
Proof.
  intros request. apply (command_request_answered (fun w => exists tss, drqv_inv w tss) demo_query_factory request demo_serving).
  - exact (plugin_creations _ _ _ drqv_keeps_creating demo_query_factory_serves).
  - exact (ex_intro _ _ demo_serving_ok).
  - exact (ct_world _ _ (vi_calm _ _ demo_serving_ok)).
  - reflexivity.
  - constructor; [apply (bool_decide_unpack _); by vm_compute|]. constructor; [apply (bool_decide_unpack _); by vm_compute|constructor].
Defined.
